(* ===== verification/_CoqProject ===== *)
-Q . S2P
Prelude.v
Avr.v
Random.v
Keys.v
Interrupts.v
Combo.v
Midi.v
UsbMidi.v
UsbDescriptors.v
UsbEndpoint.v
UsbDevice.v
UsbStream.v
UsbRequests.v
Colors.v
Eeprom.v
Sysex.v
Led.v
Animations.v
BallDemo.v
Display.v
Board.v
Config.v
Flash.v
Dfu.v
DfuDescriptors.v
DfuMemory.v
DfuRequests.v
DfuCommands.v
Firmware.v
Device.v
Preempt.v
System.v
Robust.v
