(* ===== verification/Prelude.v ===== *)
(** * Midi Fighter 64 firmware: a verification library

    The Midi Fighter 64 is a USB MIDI controller with 64 lit buttons, run by an
    ATmega32U4.  Its firmware (src/midi_fighter_64) is a set of C files around one
    main loop: each turn reads what the host sent, debounces the keys, sends
    notes, control changes and combos, and every 25 ms composes a frame of colours
    and shifts it out to the LEDs.  Two timer interrupts sample the keys and drive
    the clocks.  USB goes through the vendored LUFA library (src/LUFA-151115), whose
    DFU bootloader replaces the firmware when the host asks for it.

    ** Files

    Each file after this one holds the Module of one component, named like it.

    - Prelude: machine integers ([u8], [u16], ... truncate at their width; [int]
      has 16 bits), arrays as lists whose accesses outside the declared length are
      the fault [OutOfBounds], the result monad [res], loops, and the lemmas and
      the hint database [mf64] the other files share.
    - Avr: the registers, the interrupt flag and the watchdog.
    - Random (random.c): the generators and integer helpers.
    - Keys (key.c): port and timer set-up, the sampling interrupt, debouncing and
      the edge calculation.
    - Interrupts (key.c): [key_read] and the reads of the clock as byte accesses, with
      the sampling interrupt between any two of them.
    - Combo (combo.c): the table-driven recogniser of key combinations.
    - Midi (midi.c): outgoing notes, control changes, SysEx, the identity reply,
      key/note maps and the MIDI clock, against the type classes [MidiOut],
      [MidiIn] and their laws, which say what midi.c relies on.
    - UsbMidi (LUFA's MIDIClassDevice.c and endpoint streams): instances of these
      classes over 64-byte endpoint banks.
    - UsbDescriptors (usb_descriptors.c and LUFA's answer to Get Descriptor).
    - UsbEndpoint (LUFA's Endpoint_AVR8.h and .c): the registers of the USB
      controller, one set of five per endpoint, the endpoint operations, and the
      set-up of the MIDI endpoints.
    - UsbDevice (LUFA's USBController_AVR8.c, USBInterrupt_AVR8.c, USBTask.c and
      DeviceStandardReq.c): start and stop of the controller, its interrupt, the
      standard requests and the device task.  What the controller and the host do
      between two instructions is a list of [happening]s.
    - UsbStream (the MIDI class driver and the endpoint streams again, on the registers
      of UsbEndpoint and the state of UsbDevice, with the wait counting the bus's
      frames): what the host does between two polls is a list of [traffic].
    - UsbRequests: a specification of the control requests ([host_view], [serve],
      [spec_session]), the proof that UsbDevice implements it, and sessions.
    - Colors, Animations, Display (display.c): the colour tables and power limits,
      the geometric animations, and the layers of a frame.
    - Eeprom (eeprom.c): byte access, saving, loading and resetting the settings.
    - Sysex (sysex.c): reassembly and dispatch of incoming SysEx messages.
    - Led, BallDemo (led.c): the LED strands, timer 1, and the screen saver.
    - Board: the globals of all files as one record, and the bank switch.
    - Config (config.c, jumptoboot.c): the SysEx commands, and the Module
      Bootloader.
    - Firmware (midifighter64.c): the two copies of the packet switch, the receive
      loop, the main task and [main] up to its endless loop.
    - Flash (avr-libc's boot.h on the ATmega32U4, LUFA's BootloaderAPI.c): the
      flash with its page buffer, its lock bit and the locked application section.
    - Dfu (LUFA's BootloaderDFU.c): the bootloader's variables and control endpoint,
      its commands, the handler of control requests, the check before [main] and the
      loop of [main].
    - DfuDescriptors (the bootloader's Descriptors.c).
    - DfuMemory: downloads and uploads of a host that behaves, packet by packet.
    - DfuRequests: what holds for every host: invariants ([keeps]), termination
      ([halts]) and non-interference ([agrees]) of the bootloader's actions.
    - DfuCommands: erase, blank check, identification, status and start of the
      application, the whole firmware update, and the way from the firmware to the
      bootloader and back.
    - Device: the firmware's part of the endless loop as a step relation, with the
      interrupts and the changes of the USB link as its other steps.
    - Preempt: the main task with interrupts inside it, placed by a [schedule]:
      between the byte accesses of [key_read] (the key timer), the passes of the receive
      loop, the 64 keys and the other calls of the task; what the USB interrupt and
      the host do there is the class [UsbBus] with its laws.  Also the task's turns as
      a step relation, with the notes that sound.
    - System: [main] and the whole endless loop, with the firmware's task, the USB
      task and the resets of the watchdog.  The firmware's link is a [port], the MIDI
      driver of UsbMidi and the device stack of UsbDevice side by side.
    - Robust: the instance of [UsbBus] for a [port], the system as a step relation in
      which the host does what it likes, between the turns and inside them, and its
      invariant.

    ** State and effects

    The globals of a C file are a Record; a function that changes them takes the
    record and returns the new one, in [res] when it can leave an array,
    dereference null, loop, or reset.  Names are those of the source.  Arrays of
    two dimensions are flat, as in memory.  Function pointers are constructors of
    an inductive type.  Hardware outputs that matter are recorded: the pulses on
    each LED line, the packets sent, the EEPROM's bytes, the registers.

    ** What the theorems show

    - The whole device: from power-up, any interleaving of main-loop turns, timer
      interrupts, bus events, control requests and messages of the host, between the
      turns and between the calls of the task, runs without a fault
      ([system_never_faults], whose comment lists what is left out, and
      [device_never_faults] for any implementation of the link); a device that is
      plugged in is enumerated and the next turn after a key is held sends its note,
      on the selected bank's channel ([plug_and_play]); a key that is pressed reaches
      the host whatever channel messages it has queued and wherever the timers
      interrupt ([pressed_key_reaches_host_interrupted]); turn after turn, with bank
      changes and combos, the notes of the 64 keys that sound are those of the keys
      held ([sounding_notes_are_held_keys]; the notes of the combos lie below and are
      not covered, and their release can be lost, [combo_D_release_lost]); start-up,
      bank buttons, delayed note-off, the end of the receive loop, and the agreement
      of the two copies of the packet switch.
    - The USB device stack: every session of control requests is served as the
      specification says ([control_requests_refine]); from power-up the device can be
      enumerated ([enumeration]) and then has its MIDI endpoints; a suspension is
      undone by the wake-up; the size code of an endpoint; the MIDI driver on the
      registers that the control requests share does what UsbMidi's does and leaves
      the rest of them alone ([midi_driver_refines]), and never waits more than 101
      frames ([midi_wait_bounded]).
    - The bootloader: a firmware update, from the erase to the start of the new
      image ([firmware_update]); what is downloaded to the flash or the EEPROM is
      what an upload returns, and nothing else changes; every request ends when the
      device is unplugged; secure mode does not reveal the application, and a host can
      change the memories only by the erase that ends it; recovery from errors.
    - Round trips: SysEx through packets and back; settings through the EEPROM,
      whatever it held before, and through a pull and a push; the colour banks
      through sixteen bulk messages to another device.
    - Protocols: LUFA's driver delivers and receives packets in order and reports
      its errors; the host gets exactly the descriptor it asks for; SysEx dispatch,
      identity reply and rejection of foreign messages; the bits on the LED lines
      decode to the display buffer.
    - Component behaviour: debouncing over ten samples; a read of the keys that is
      interrupted gives each key the state before or after the interrupt
      ([key_read_linearizable]), while a read of the clock may be torn
      ([clock_read_torn]); balanced presses and
      releases; the five combos, played in any order ([combos_recognised]); layers of a
      frame, with the rates of flashing and pulsing as periods of the flash counter
      ([animation_layer_effects]); the shape and the end of animations; the power
      adjustment by hue ([adjust_for_power_spec]); the ball demo.
    - Defects, as theorems about the code as it is: the overruns of a bulk push, of an
      animation note and of the combo table, a stray SysEx end, a lost combo release,
      a half-cleared buffer, unreachable code, the wait that does not end when the
      device is unplugged while it gets its address, the bus reset that sends MIDI
      bytes to the control endpoint; in the bootloader, the reversed condition of the
      start by a jump, the fuse test that sends the firmware's request back, the
      misplaced words of a download inside a page, the lost filler byte, the erase
      that leaves a page programmed.

    ** Bounds and fuel

    Loops with a constant bound are [for_up] or structural.  Fuel is used where the
    recursion is not structural, with lemmas that it is enough wherever the C loop
    ends: [rightmost_bit_16] 17 (sixteen shifts empty the bit), the power adjustment
    85 (its 8-bit index grows by three; with a limit above 255 the C loop never
    ends, and neither does the model's), the type/value decoder 128 (the index
    grows by two below an 8-bit size), the receive loop 512 * 120 + 120 (each
    iteration raises one of its two counters), the star 3 (its tail length), and
    the size code of an endpoint 12 (the doublings from 8 to 32768).  The polling
    loops of the USB stack take one [happening] per pass; their theorems hold for
    every list in which the host does its part, so the bound is the host's; the stream wait
    ends after 101 frames by itself.  A stream of one packet needs fuel 4, one per byte.

    ** Parameters

    What is not in the sources is an argument: the C library's sine ([sin_level]),
    the byte of memory behind an array that is read but not used ([after]), the
    contents of an uninitialised packet ([event0]), the pins of the key lines at
    each sample, and what the host does: its transfers, whether it polls in time,
    and the happenings at the control endpoint; whether the USB controller accepts
    an endpoint's configuration ([CFGOK]), and the bytes of its signature row
    ([boot_signature_byte_get]); the fuses, what the flash's page buffer holds when a
    word is filled twice ([refill]) and what a read of the locked section returns
    ([locked_read]).

    ** Not modelled

    Interrupts run between the calls of the main task that Preempt lists, not inside
    them, save for [key_read] and the reads of the clock; the functions called share
    with the timers' interrupts the clock, the LED counters and port registers, and
    the pixels are sent with interrupts off.  The USB interrupt runs there too, and
    between two passes of a polling loop of a control transfer, not inside one
    operation of the MIDI driver.  Inside a turn the host sends channel and real-time
    messages only. The resets of the watchdog are counted; its expiry is not modelled.
    Delays have no effect; the large-packet receive loop, the single-strand LED driver
    and the test output are switched off in constants.h; LUFA's host mode, other
    classes and processors, demos, its other bootloaders and host tools are not part
    of the device; its functions for remote wake-up and start-of-frame events are not
    called.  System and the files before it run the driver over UsbMidi's banks,
    without the calls of the USB task inside a stream, which whole packets do not
    reach; UsbStream has them and refines UsbMidi for single operations, with no
    control request inside a wait. [clock_prescale_set] has no effect the model can
    show.  Of the USB stack under the bootloader, Dfu has the control endpoint's flags
    and bank and the device's state; its standard requests are those of UsbDevice and
    are not repeated.  LUFA's makefile builds the bootloader for another chip by
    default; Flash and Dfu are for the ATmega32U4 with a bootloader section of 4 KB,
    the one the firmware jumps to.

    ** Plan

    What is left: interrupts inside the display functions, which read and write the
    LED counters, and inside the driver's waits; the bootloader on the device stack of
    UsbDevice, with its standard requests; and System over UsbStream's state. *)

From stdpp Require Export base tactics numbers list option.
From Stdlib Require Export ZArith Lia ZifyBool Bool.
#[export] Set Default Goal Selector "1".
Global Open Scope Z_scope.

#[global] Arguments Z.testbit : simpl never.
#[global] Arguments Z.land : simpl never.
#[global] Arguments Z.lor : simpl never.
#[global] Arguments Z.lxor : simpl never.
#[global] Arguments Z.ldiff : simpl never.
#[global] Arguments Z.shiftl : simpl never.
#[global] Arguments Z.shiftr : simpl never.
#[global] Arguments Z.modulo : simpl never.
#[global] Arguments Z.div : simpl never.
#[global] Arguments Z.pow : simpl never.
#[global] Arguments Z.of_nat : simpl never.
#[global] Arguments Z.to_nat : simpl never.

(** ** Machine integers

    The firmware runs on an 8-bit AVR: [int] has 16 bits.  A [uintN_t] value is
    a [Z] in range; every assignment to one truncates with [uN]; a signed value
    is truncated to two's complement with [iN]. *)

Definition u8 (x : Z) : Z := x mod 256.
Definition u16 (x : Z) : Z := x mod 65536.
Definition u32 (x : Z) : Z := x mod 4294967296.
Definition u64 (x : Z) : Z := x mod 18446744073709551616.
Definition i8 (x : Z) : Z := (x + 128) mod 256 - 128.
Definition i16 (x : Z) : Z := (x + 32768) mod 65536 - 32768.

Definition is_u8 (x : Z) : Prop := 0 <= x < 256.
Definition is_u16 (x : Z) : Prop := 0 <= x < 65536.
Definition is_u64 (x : Z) : Prop := 0 <= x < 18446744073709551616.

(** A C bitwise test: [if (a & b)]. *)
Definition has_bits (a b : Z) : bool := negb (Z.land a b =? 0).

(** ** Faults and the result monad

    An access outside an array, a write through a null pointer and a loop that
    does not end within its bound are explicit values, so that memory safety and
    termination are theorems about the modelled code.  [Reset key] is the end of a
    run by the watchdog: nothing of the state survives but the registers' reset
    cause and the word [key] of uninitialised memory. *)

Inductive fault := OutOfBounds | NullPointer | OutOfFuel | Reset (boot_key : Z).
Inductive res (A : Type) : Type := Ok (a : A) | Fault (f : fault).
Arguments Ok {_} _.
Arguments Fault {_} _.

#[export] Instance fault_eq_dec : EqDecision fault.
Proof. solve_decision. Defined.
#[export] Instance res_eq_dec `{EqDecision A} : EqDecision (res A).
Proof. solve_decision. Defined.

#[export] Instance res_ret : MRet res := fun A a => Ok a.
#[export] Instance res_bind : MBind res := fun A B f m =>
  match m with Ok a => f a | Fault e => Fault e end.
#[export] Instance res_fmap : FMap res := fun A B f m =>
  match m with Ok a => Ok (f a) | Fault e => Fault e end.

Definition is_ok {A} (m : res A) : bool := match m with Ok _ => true | Fault _ => false end.

(** ** Arrays: a C array is a list with its declared length. *)

Definition rd (a : list Z) (i : Z) : res Z :=
  if 0 <=? i then
    match a !! Z.to_nat i with Some v => Ok v | None => Fault OutOfBounds end
  else Fault OutOfBounds.

Definition wr (a : list Z) (i v : Z) : res (list Z) :=
  if (0 <=? i) && (i <? Z.of_nat (length a)) then Ok (<[Z.to_nat i := v]> a)
  else Fault OutOfBounds.

(** Three bytes stored one after the other, as the firmware stores a colour. *)
Definition put3 (l : list Z) (i a b c : Z) : res (list Z) :=
  l ← wr l i a;
  l ← wr l (i + 1) b;
  wr l (i + 2) c.
#[global] Arguments put3 : simpl never.

(** Reads of constant tables, whose index is bounded by the caller. *)
Definition tbl (a : list Z) (i : Z) : Z := nth (Z.to_nat i) a 0.

(** ** Loops *)

(** [for_up n i body s]: [n] iterations of a C [for] whose index starts at [i]
    and goes up by one. *)
Fixpoint for_up {S} (n : nat) (i : Z) (body : Z -> S -> res S) (s : S) : res S :=
  match n with
  | O => Ok s
  | Datatypes.S m => s' ← body i s; for_up m (i + 1) body s'
  end.

(** The same loop when the body cannot fault. *)
Fixpoint for_pure {S} (n : nat) (i : Z) (body : Z -> S -> S) (s : S) : S :=
  match n with
  | O => s
  | Datatypes.S m => for_pure m (i + 1) body (body i s)
  end.

(** Bounded quantification by computation, for facts over small finite ranges. *)
Fixpoint check_from (n : nat) (i : Z) (p : Z -> bool) : bool :=
  match n with
  | O => true
  | Datatypes.S m => p i && check_from m (i + 1) p
  end.

Definition check_range (lo hi : Z) (p : Z -> bool) : bool :=
  check_from (Z.to_nat (hi - lo)) lo p.

(** ** Lemmas on machine integers *)

Create HintDb mf64.

Lemma u8_range x : 0 <= u8 x < 256.
Proof. apply Z.mod_pos_bound; lia. Qed.
Lemma u16_range x : 0 <= u16 x < 65536.
Proof. apply Z.mod_pos_bound; lia. Qed.
Lemma u32_range x : 0 <= u32 x < 4294967296.
Proof. apply Z.mod_pos_bound; lia. Qed.
Lemma u64_range x : 0 <= u64 x < 18446744073709551616.
Proof. apply Z.mod_pos_bound; lia. Qed.
Lemma i8_range x : -128 <= i8 x < 128.
Proof. unfold i8. pose proof (Z.mod_pos_bound (x + 128) 256). lia. Qed.
Lemma i16_range x : -32768 <= i16 x < 32768.
Proof. unfold i16. pose proof (Z.mod_pos_bound (x + 32768) 65536). lia. Qed.

Lemma u8_small x : 0 <= x < 256 -> u8 x = x.
Proof. apply Z.mod_small. Qed.
Lemma u16_small x : 0 <= x < 65536 -> u16 x = x.
Proof. apply Z.mod_small. Qed.
Lemma u64_small x : 0 <= x < 18446744073709551616 -> u64 x = x.
Proof. apply Z.mod_small. Qed.
Lemma i16_small x : -32768 <= x < 32768 -> i16 x = x.
Proof. intros H. unfold i16. rewrite Z.mod_small; lia. Qed.
Lemma i8_small x : -128 <= x < 128 -> i8 x = x.
Proof. intros H. unfold i8. rewrite Z.mod_small; lia. Qed.

#[export] Hint Resolve u8_range u16_range u32_range u64_range : mf64.

Lemma land_range x m n : 0 <= n -> m = Z.ones n -> 0 <= Z.land x m < 2 ^ n.
Proof. intros Hn ->. rewrite Z.land_ones by lia. apply Z.mod_pos_bound. lia. Qed.

Lemma land_255 x : Z.land x 255 = u8 x.
Proof. exact (Z.land_ones x 8 ltac:(lia)). Qed.
Lemma land_15 x : Z.land x 15 = x mod 16.
Proof. exact (Z.land_ones x 4 ltac:(lia)). Qed.
Lemma land_63 x : Z.land x 63 = x mod 64.
Proof. exact (Z.land_ones x 6 ltac:(lia)). Qed.
Lemma land_127 x : Z.land x 127 = x mod 128.
Proof. exact (Z.land_ones x 7 ltac:(lia)). Qed.
Lemma land_7 x : Z.land x 7 = x mod 8.
Proof. exact (Z.land_ones x 3 ltac:(lia)). Qed.
Lemma land_3 x : Z.land x 3 = x mod 4.
Proof. exact (Z.land_ones x 2 ltac:(lia)). Qed.
Lemma land_FFFF x : Z.land x 65535 = u16 x.
Proof. exact (Z.land_ones x 16 ltac:(lia)). Qed.

(** A number below [2^n] has no bit from [n] on; conversely the bits decide. *)
Lemma testbit_high x n i : 0 <= x < 2 ^ n -> n <= i -> Z.testbit x i = false.
Proof.
  intros Hx Hi. destruct (Z.eq_dec x 0) as [->|Hne]; [apply Z.bits_0|].
  apply Z.bits_above_log2; [lia|].
  assert (Z.log2 x < n) by (apply Z.log2_lt_pow2; lia). lia.
Qed.

(** Two 64-bit masks with the same bits are equal. *)
Lemma u64_bits_inj x y :
  is_u64 x -> is_u64 y -> (forall j, 0 <= j < 64 -> Z.testbit x j = Z.testbit y j) -> x = y.
Proof.
  unfold is_u64. change 18446744073709551616 with (2 ^ 64). intros Hx Hy H. apply Z.bits_inj'. intros j Hj.
  destruct (Z.ltb_spec j 64); [by apply H|]. by rewrite !(testbit_high _ 64).
Qed.

Lemma bits_below x n :
  0 <= n -> 0 <= x -> (forall i, n <= i -> Z.testbit x i = false) -> x < 2 ^ n.
Proof.
  intros Hn Hx Hb. destruct (Z.eq_dec x 0) as [->|Hne]; [apply Z.pow_pos_nonneg; lia|].
  apply Z.log2_lt_pow2; [lia|].
  destruct (Z.lt_ge_cases (Z.log2 x) n) as [|Hge]; [done|].
  specialize (Hb _ Hge). rewrite Z.bit_log2 in Hb by lia. done.
Qed.

Lemma land_bound a b n : 0 <= a < 2 ^ n -> 0 <= b -> 0 <= Z.land a b < 2 ^ n.
Proof.
  intros Ha Hb. split; [apply Z.land_nonneg; lia|].
  destruct (Z.lt_ge_cases n 0) as [Hn|Hn]; [rewrite Z.pow_neg_r in Ha by lia; lia|].
  apply bits_below; [done|apply Z.land_nonneg; lia|].
  intros i Hi. rewrite Z.land_spec, (testbit_high a n i) by done. done.
Qed.

Lemma lxor_bound a b n : 0 <= n -> 0 <= a < 2 ^ n -> 0 <= b < 2 ^ n -> 0 <= Z.lxor a b < 2 ^ n.
Proof.
  intros Hn Ha Hb.
  assert (Hx : 0 <= Z.lxor a b) by (apply Z.lxor_nonneg; lia).
  split; [done|]. apply bits_below; [done|done|].
  intros i Hi. rewrite Z.lxor_spec, !(testbit_high _ n i) by done. done.
Qed.

Lemma lor_bound a b n : 0 <= n -> 0 <= a < 2 ^ n -> 0 <= b < 2 ^ n -> 0 <= Z.lor a b < 2 ^ n.
Proof.
  intros Hn Ha Hb.
  assert (Hx : 0 <= Z.lor a b) by (apply Z.lor_nonneg; lia).
  split; [done|]. apply bits_below; [done|done|].
  intros i Hi. rewrite Z.lor_spec, !(testbit_high _ n i) by done. done.
Qed.

(** [a | b] is [a + b] when [a] is a multiple of [2^n] and [b] is below it. *)
Lemma or_disjoint a b n : 0 <= n -> (2 ^ n | a) -> 0 <= b < 2 ^ n -> Z.lor a b = a + b.
Proof.
  intros Hn [q ->] Hb. symmetry. apply Z.add_nocarry_lor, Z.bits_inj'. intros i Hi.
  rewrite Z.land_spec, Z.bits_0. destruct (Z.lt_ge_cases i n).
  - rewrite Z.mul_pow2_bits_low by lia. done.
  - rewrite (testbit_high b n i) by done. apply andb_false_r.
Qed.

(** Testing one bit with a mask, as the firmware does. *)
Lemma has_bits_pow2 x i : 0 <= i -> has_bits x (2 ^ i) = Z.testbit x i.
Proof.
  intros Hi. unfold has_bits.
  destruct (Z.testbit x i) eqn:Hb.
  - apply negb_true_iff, Z.eqb_neq. intros H0.
    apply (f_equal (fun z => Z.testbit z i)) in H0.
    rewrite Z.land_spec, Hb, Z.pow2_bits_true, Z.bits_0 in H0 by lia. done.
  - apply negb_false_iff, Z.eqb_eq. apply Z.bits_inj'. intros j Hj.
    rewrite Z.land_spec, Z.bits_0. destruct (Z.eq_dec j i) as [->|Hne].
    + by rewrite Hb.
    + rewrite Z.pow2_bits_false by lia. apply andb_false_r.
Qed.

(** Three bytes packed in 24 bits come apart again. *)
Lemma pack24 r g b :
  0 <= r < 256 -> 0 <= g < 256 -> 0 <= b < 256 ->
  let c := Z.lor (Z.lor (Z.shiftl r 16) (Z.shiftl g 8)) b in
  Z.land (Z.shiftr c 16) 255 = r /\ Z.land (Z.shiftr c 8) 255 = g /\
  Z.land c 255 = b /\ 0 <= c < 2 ^ 24.
Proof.
  intros Hr Hg Hb c.
  assert (E : c = r * 65536 + g * 256 + b).
  { unfold c. rewrite !Z.shiftl_mul_pow2 by lia. change (2 ^ 16) with 65536.
    change (2 ^ 8) with 256.
    rewrite (or_disjoint (r * 65536) (g * 256) 16); [|lia|by exists r|lia].
    rewrite (or_disjoint _ b 8); [lia|lia|exists (r * 256 + g); lia|lia]. }
  change 255 with (Z.ones 8). rewrite !Z.land_ones, !Z.shiftr_div_pow2 by lia.
  rewrite E. change (2 ^ 16) with 65536. change (2 ^ 8) with 256. change (2 ^ 24) with 16777216.
  replace (r * 65536 + g * 256 + b) with (b + (g + r * 256) * 256) at 2 3 by lia.
  replace (r * 65536 + g * 256 + b) with ((g * 256 + b) + r * 65536) at 1 by lia.
  rewrite !Z.div_add, (Z.div_small b 256), (Z.div_small (g * 256 + b)) by lia.
  rewrite Z.add_0_l. rewrite Z.mod_add by lia. rewrite Z.add_0_l, Z.mod_add by lia.
  rewrite !Z.mod_small by lia. lia.
Qed.

(** ** Lemmas on the result monad *)

Lemma bind_ok {A B} (m : res A) (k : A -> res B) b :
  m ≫= k = Ok b <-> exists a, m = Ok a /\ k a = Ok b.
Proof. destruct m; simpl; naive_solver. Qed.

(** As a rewriting rule, for continuations too large to compare by conversion. *)
Lemma bind_Ok {A B} (a : A) (f : A -> res B) : Ok a ≫= f = f a.
Proof. done. Qed.

Lemma bind_ext {A B} (m : res A) (f g : A -> res B) :
  (forall a, f a = g a) -> m ≫= f = m ≫= g.
Proof. intros H. destruct m; [apply H|done]. Qed.

Lemma bind_ret {A} (m : res A) : m ≫= Ok = m.
Proof. by destruct m. Qed.

Lemma is_ok_iff {A} (m : res A) : is_ok m = true <-> exists a, m = Ok a.
Proof. destruct m; naive_solver. Qed.

Lemma fmap_ok {A B} (f : A -> B) (m : res A) b :
  f <$> m = Ok b <-> exists a, m = Ok a /\ b = f a.
Proof. destruct m; simpl; naive_solver. Qed.

(** Decompose hypotheses [m ≫= k = Ok _] of the result monad. *)
Ltac inv_ok :=
  repeat match goal with
  | H : _ ≫= _ = Ok _ |- _ => apply bind_ok in H; destruct H as (? & ? & H)
  | H : Ok _ = Ok _ |- _ => injection H as H
  | H : Fault _ = Ok _ |- _ => discriminate H
  | H : mret _ = Ok _ |- _ => injection H as H
  end; subst.

(** ** Lemmas on arrays *)

Lemma rd_ok a i v : rd a i = Ok v <-> 0 <= i /\ a !! Z.to_nat i = Some v.
Proof.
  unfold rd. destruct (Z.leb_spec 0 i); [|naive_solver lia].
  destruct (a !! Z.to_nat i); naive_solver.
Qed.

Lemma rd_in_range a i : 0 <= i < Z.of_nat (length a) -> exists v, rd a i = Ok v.
Proof.
  intros Hi. destruct (lookup_lt_is_Some_2 a (Z.to_nat i)) as [v Hv]; [lia|].
  exists v. apply rd_ok. split; [lia|done].
Qed.

Lemma rd_out a i : i < 0 \/ Z.of_nat (length a) <= i -> rd a i = Fault OutOfBounds.
Proof.
  intros Hi. unfold rd. destruct (Z.leb_spec 0 i); [|done].
  rewrite lookup_ge_None_2 by lia. done.
Qed.

Lemma rd_tbl a i : 0 <= i < Z.of_nat (length a) -> rd a i = Ok (tbl a i).
Proof.
  intros Hi. destruct (rd_in_range a i Hi) as [v Hv]. rewrite Hv. f_equal.
  apply rd_ok in Hv as [_ Hv]. unfold tbl. symmetry. by apply nth_lookup_Some.
Qed.

Lemma wr_in_range a i v :
  0 <= i < Z.of_nat (length a) -> wr a i v = Ok (<[Z.to_nat i := v]> a).
Proof.
  intros Hi. unfold wr.
  destruct (Z.leb_spec 0 i), (Z.ltb_spec i (Z.of_nat (length a))); simpl; done || lia.
Qed.

Lemma wr_out a i v : i < 0 \/ Z.of_nat (length a) <= i -> wr a i v = Fault OutOfBounds.
Proof.
  intros Hi. unfold wr.
  destruct (Z.leb_spec 0 i), (Z.ltb_spec i (Z.of_nat (length a))); simpl; done || lia.
Qed.

Lemma wr_ok a i v b :
  wr a i v = Ok b -> 0 <= i < Z.of_nat (length a) /\ b = <[Z.to_nat i := v]> a.
Proof.
  unfold wr. destruct (Z.leb_spec 0 i), (Z.ltb_spec i (Z.of_nat (length a))); simpl;
    intros [=]; subst; split; done || lia.
Qed.

Lemma wr_length a i v b : wr a i v = Ok b -> length b = length a.
Proof. intros [_ ->]%wr_ok. apply length_insert. Qed.

Lemma rd_wr_eq a i v b : wr a i v = Ok b -> rd b i = Ok v.
Proof.
  intros [Hi ->]%wr_ok. apply rd_ok. split; [lia|].
  apply list_lookup_insert_eq. lia.
Qed.

Lemma rd_wr_ne a i j v b : wr a i v = Ok b -> i <> j -> rd b j = rd a j.
Proof.
  intros [Hi ->]%wr_ok Hne. unfold rd. destruct (Z.leb_spec 0 j); [|done].
  rewrite list_lookup_insert_ne; [done|lia].
Qed.

Lemma put3_length l i a b c l' : put3 l i a b c = Ok l' -> length l' = length l.
Proof.
  unfold put3. intros H. inv_ok. repeat match goal with
  | H : wr _ _ _ = Ok _ |- _ => apply wr_length in H end. lia.
Qed.

Lemma put3_in_range l i a b c :
  0 <= i -> i + 3 <= Z.of_nat (length l) ->
  exists l', put3 l i a b c = Ok l' /\ length l' = length l /\
    forall j, rd l' j =
      if j =? i then Ok a else if j =? i + 1 then Ok b else if j =? i + 2 then Ok c
      else rd l j.
Proof.
  intros Hi Hl. unfold put3.
  rewrite (wr_in_range l i a) by lia. cbn [mbind res_bind].
  set (l1 := <[Z.to_nat i := a]> l).
  assert (H1 : wr l i a = Ok l1) by (apply wr_in_range; lia).
  assert (E1 : length l1 = length l) by (by apply (wr_length _ _ _ _ H1)).
  rewrite (wr_in_range l1 (i + 1) b) by lia. cbn [mbind res_bind].
  set (l2 := <[Z.to_nat (i + 1) := b]> l1).
  assert (H2 : wr l1 (i + 1) b = Ok l2) by (apply wr_in_range; lia).
  assert (E2 : length l2 = length l1) by (by apply (wr_length _ _ _ _ H2)).
  assert (H3 := wr_in_range l2 (i + 2) c ltac:(lia)). rewrite H3.
  eexists. split; [done|]. split; [rewrite (wr_length _ _ _ _ H3); lia|].
  intros j. destruct (Z.eqb_spec j i) as [->|].
  { rewrite (rd_wr_ne _ _ _ _ _ H3), (rd_wr_ne _ _ _ _ _ H2) by lia. by apply rd_wr_eq in H1. }
  destruct (Z.eqb_spec j (i + 1)) as [->|].
  { rewrite (rd_wr_ne _ _ _ _ _ H3) by lia. by apply rd_wr_eq in H2. }
  destruct (Z.eqb_spec j (i + 2)) as [->|]; [by apply rd_wr_eq in H3|].
  by rewrite (rd_wr_ne _ _ _ _ _ H3), (rd_wr_ne _ _ _ _ _ H2), (rd_wr_ne _ _ _ _ _ H1) by lia.
Qed.

Lemma put3_out l i a b c :
  i < 0 \/ Z.of_nat (length l) < i + 3 -> put3 l i a b c = Fault OutOfBounds.
Proof.
  intros Hi. unfold put3. unfold wr at 3. 
  destruct (Z.leb_spec 0 i); [|done].
  destruct (Z.ltb_spec i (Z.of_nat (length l))); [|done]. cbn [andb mbind res_bind].
  set (l1 := <[Z.to_nat i := a]> l).
  assert (E1 : length l1 = length l) by apply length_insert.
  unfold wr at 2. rewrite E1. destruct (Z.leb_spec 0 (i + 1)); [|done].
  destruct (Z.ltb_spec (i + 1) (Z.of_nat (length l))); [|done]. cbn [andb mbind res_bind].
  apply wr_out. rewrite length_insert. lia.
Qed.

(** Two arrays of one length with the same reads are equal. *)
Lemma rd_ext a b :
  length a = length b ->
  (forall i, 0 <= i < Z.of_nat (length a) -> rd a i = rd b i) -> a = b.
Proof.
  intros Hl Hrd. apply list_eq. intros i.
  destruct (Nat.lt_ge_cases i (length a)) as [Hi|Hi].
  - specialize (Hrd (Z.of_nat i) ltac:(lia)). unfold rd in Hrd.
    destruct (Z.leb_spec 0 (Z.of_nat i)); [|lia]. rewrite !Nat2Z.id in Hrd.
    destruct (a !! i), (b !! i); naive_solver.
  - rewrite !lookup_ge_None_2; [done|lia|lia].
Qed.

(** ** Lemmas on loops *)

(** The invariant rule of a faulting loop: [inv] holds at the start and every
    iteration succeeds and re-establishes it. *)
Lemma for_up_inv {S} (inv : Z -> S -> Prop) body n i s :
  inv i s ->
  (forall k s', i <= k < i + Z.of_nat n -> inv k s' ->
     exists s'', body k s' = Ok s'' /\ inv (k + 1) s'') ->
  exists s', for_up n i body s = Ok s' /\ inv (i + Z.of_nat n) s'.
Proof.
  revert i s. induction n as [|n IH]; intros i s Hs Hstep; cbn [for_up].
  - exists s. split; [done|]. replace (i + Z.of_nat 0) with i by lia. done.
  - destruct (Hstep i s) as (s1 & -> & H1); [lia|done|].
    destruct (IH (i + 1) s1 H1) as (s2 & Hs2 & H2).
    { intros k s' Hk. apply Hstep. lia. }
    exists s2. split; [exact Hs2|].
    replace (i + Z.of_nat (Datatypes.S n)) with (i + 1 + Z.of_nat n) by lia. done.
Qed.

Lemma for_up_app {S} (body : Z -> S -> res S) n m i s :
  for_up (n + m) i body s = (s ← for_up n i body s; for_up m (i + Z.of_nat n) body s).
Proof.
  revert i s. induction n as [|n IH]; intros i s; cbn [for_up Nat.add].
  - cbn. by replace (i + Z.of_nat 0) with i by lia.
  - destruct (body i s) as [s1|e]; [|done]. cbn [mbind res_bind]. rewrite IH.
    by replace (i + 1 + Z.of_nat n) with (i + Z.of_nat (Datatypes.S n)) by lia.
Qed.

Lemma for_pure_inv {S} (inv : Z -> S -> Prop) body n i s :
  inv i s ->
  (forall k s', i <= k < i + Z.of_nat n -> inv k s' -> inv (k + 1) (body k s')) ->
  inv (i + Z.of_nat n) (for_pure n i body s).
Proof.
  revert i s. induction n as [|n IH]; intros i s Hs Hstep; cbn [for_pure].
  - replace (i + Z.of_nat 0) with i by lia. done.
  - replace (i + Z.of_nat (Datatypes.S n)) with (i + 1 + Z.of_nat n) by lia.
    apply IH; [apply Hstep; [lia|done]|]. intros k s' Hk. apply Hstep. lia.
Qed.

(** A loop that succeeds, without looking at its result. *)
Lemma for_up_ok {S} (inv : S -> Prop) body n i s :
  inv s ->
  (forall k s', i <= k < i + Z.of_nat n -> inv s' ->
     exists s'', body k s' = Ok s'' /\ inv s'') ->
  exists s', for_up n i body s = Ok s' /\ inv s'.
Proof. intros Hs Hstep. exact (for_up_inv (fun _ => inv) body n i s Hs Hstep). Qed.

Lemma check_from_spec n i p :
  check_from n i p = true <-> forall x, i <= x < i + Z.of_nat n -> p x = true.
Proof.
  revert i. induction n as [|n IH]; intros i; cbn [check_from].
  - split; [intros _ x Hx; lia|done].
  - rewrite andb_true_iff, IH. split.
    + intros [H0 H1] x Hx. destruct (Z.eq_dec x i) as [->|]; [done|]. apply H1. lia.
    + intros H. split; [apply H; lia|]. intros x Hx. apply H. lia.
Qed.

(** Reflection: a check over [lo..hi-1] that computes to [true] is a proof. *)
Lemma check_range_spec lo hi p :
  check_range lo hi p = true -> forall x, lo <= x < hi -> p x = true.
Proof.
  intros H x Hx. unfold check_range in H. rewrite check_from_spec in H. apply H. lia.
Qed.

(** ** Tactics *)

(** Split on every boolean comparison of the goal and of the hypotheses. *)
Ltac cases_Z :=
  repeat match goal with
  | |- context [?a <? ?b] => destruct (Z.ltb_spec a b)
  | |- context [?a <=? ?b] => destruct (Z.leb_spec a b)
  | |- context [?a =? ?b] => destruct (Z.eqb_spec a b)
  | H : context [?a <? ?b] |- _ => destruct (Z.ltb_spec a b)
  | H : context [?a <=? ?b] |- _ => destruct (Z.leb_spec a b)
  | H : context [?a =? ?b] |- _ => destruct (Z.eqb_spec a b)
  end.

(** Split on the conditions of the goal's [if]s, closing the impossible cases. *)
Ltac ifs :=
  repeat match goal with
  | |- context [if ?b then _ else _] => destruct b eqn:?; try lia
  end.

(** Prove a property of a variable of a small range by computing it everywhere. *)
Ltac by_range lo hi x p :=
  apply (check_range_spec lo hi p); [vm_compute; reflexivity | lia].
