(* ===== verification/Avr.v ===== *)
(** * The AVR registers the firmware writes

    The ports, timers and system registers of the ATmega32U4 that key.c, led.c,
    jumptoboot.c and midifighter64.c assign, as a record of bytes (words for the
    16-bit timer), with the interrupt flag of SREG and the watchdog. *)

From S2P Require Import Prelude.

Module Avr.

Record avr := mk_avr {
  DDRB : Z;
  PORTB : Z;
  DDRC : Z;
  PORTC : Z;
  DDRD : Z;
  PORTD : Z;
  TCCR0B : Z;
  TCNT0 : Z;
  TIMSK0 : Z;
  TCCR1A : Z;
  TCCR1B : Z;
  TCNT1 : Z;
  TIMSK1 : Z;
  PRR0 : Z;
  IFLAG : bool;
  WDT : option Z;
  MCUSR : Z;
  MCUCR : Z
}.

Definition set_DDRB (v : Z) (s : avr) : avr :=
  mk_avr v s.(PORTB) s.(DDRC) s.(PORTC) s.(DDRD) s.(PORTD) s.(TCCR0B) s.(TCNT0) s.(TIMSK0)
    s.(TCCR1A) s.(TCCR1B) s.(TCNT1) s.(TIMSK1) s.(PRR0) s.(IFLAG) s.(WDT) s.(MCUSR) s.(MCUCR).
Definition set_PORTB (v : Z) (s : avr) : avr :=
  mk_avr s.(DDRB) v s.(DDRC) s.(PORTC) s.(DDRD) s.(PORTD) s.(TCCR0B) s.(TCNT0) s.(TIMSK0)
    s.(TCCR1A) s.(TCCR1B) s.(TCNT1) s.(TIMSK1) s.(PRR0) s.(IFLAG) s.(WDT) s.(MCUSR) s.(MCUCR).
Definition set_DDRC (v : Z) (s : avr) : avr :=
  mk_avr s.(DDRB) s.(PORTB) v s.(PORTC) s.(DDRD) s.(PORTD) s.(TCCR0B) s.(TCNT0) s.(TIMSK0)
    s.(TCCR1A) s.(TCCR1B) s.(TCNT1) s.(TIMSK1) s.(PRR0) s.(IFLAG) s.(WDT) s.(MCUSR) s.(MCUCR).
Definition set_PORTC (v : Z) (s : avr) : avr :=
  mk_avr s.(DDRB) s.(PORTB) s.(DDRC) v s.(DDRD) s.(PORTD) s.(TCCR0B) s.(TCNT0) s.(TIMSK0)
    s.(TCCR1A) s.(TCCR1B) s.(TCNT1) s.(TIMSK1) s.(PRR0) s.(IFLAG) s.(WDT) s.(MCUSR) s.(MCUCR).
Definition set_DDRD (v : Z) (s : avr) : avr :=
  mk_avr s.(DDRB) s.(PORTB) s.(DDRC) s.(PORTC) v s.(PORTD) s.(TCCR0B) s.(TCNT0) s.(TIMSK0)
    s.(TCCR1A) s.(TCCR1B) s.(TCNT1) s.(TIMSK1) s.(PRR0) s.(IFLAG) s.(WDT) s.(MCUSR) s.(MCUCR).
Definition set_PORTD (v : Z) (s : avr) : avr :=
  mk_avr s.(DDRB) s.(PORTB) s.(DDRC) s.(PORTC) s.(DDRD) v s.(TCCR0B) s.(TCNT0) s.(TIMSK0)
    s.(TCCR1A) s.(TCCR1B) s.(TCNT1) s.(TIMSK1) s.(PRR0) s.(IFLAG) s.(WDT) s.(MCUSR) s.(MCUCR).
Definition set_TCCR0B (v : Z) (s : avr) : avr :=
  mk_avr s.(DDRB) s.(PORTB) s.(DDRC) s.(PORTC) s.(DDRD) s.(PORTD) v s.(TCNT0) s.(TIMSK0)
    s.(TCCR1A) s.(TCCR1B) s.(TCNT1) s.(TIMSK1) s.(PRR0) s.(IFLAG) s.(WDT) s.(MCUSR) s.(MCUCR).
Definition set_TCNT0 (v : Z) (s : avr) : avr :=
  mk_avr s.(DDRB) s.(PORTB) s.(DDRC) s.(PORTC) s.(DDRD) s.(PORTD) s.(TCCR0B) v s.(TIMSK0)
    s.(TCCR1A) s.(TCCR1B) s.(TCNT1) s.(TIMSK1) s.(PRR0) s.(IFLAG) s.(WDT) s.(MCUSR) s.(MCUCR).
Definition set_TIMSK0 (v : Z) (s : avr) : avr :=
  mk_avr s.(DDRB) s.(PORTB) s.(DDRC) s.(PORTC) s.(DDRD) s.(PORTD) s.(TCCR0B) s.(TCNT0) v
    s.(TCCR1A) s.(TCCR1B) s.(TCNT1) s.(TIMSK1) s.(PRR0) s.(IFLAG) s.(WDT) s.(MCUSR) s.(MCUCR).
Definition set_TCCR1A (v : Z) (s : avr) : avr :=
  mk_avr s.(DDRB) s.(PORTB) s.(DDRC) s.(PORTC) s.(DDRD) s.(PORTD) s.(TCCR0B) s.(TCNT0)
    s.(TIMSK0) v s.(TCCR1B) s.(TCNT1) s.(TIMSK1) s.(PRR0) s.(IFLAG) s.(WDT) s.(MCUSR) s.(MCUCR).
Definition set_TCCR1B (v : Z) (s : avr) : avr :=
  mk_avr s.(DDRB) s.(PORTB) s.(DDRC) s.(PORTC) s.(DDRD) s.(PORTD) s.(TCCR0B) s.(TCNT0)
    s.(TIMSK0) s.(TCCR1A) v s.(TCNT1) s.(TIMSK1) s.(PRR0) s.(IFLAG) s.(WDT) s.(MCUSR) s.(MCUCR).
Definition set_TCNT1 (v : Z) (s : avr) : avr :=
  mk_avr s.(DDRB) s.(PORTB) s.(DDRC) s.(PORTC) s.(DDRD) s.(PORTD) s.(TCCR0B) s.(TCNT0)
    s.(TIMSK0) s.(TCCR1A) s.(TCCR1B) v s.(TIMSK1) s.(PRR0) s.(IFLAG) s.(WDT) s.(MCUSR)
    s.(MCUCR).
Definition set_TIMSK1 (v : Z) (s : avr) : avr :=
  mk_avr s.(DDRB) s.(PORTB) s.(DDRC) s.(PORTC) s.(DDRD) s.(PORTD) s.(TCCR0B) s.(TCNT0)
    s.(TIMSK0) s.(TCCR1A) s.(TCCR1B) s.(TCNT1) v s.(PRR0) s.(IFLAG) s.(WDT) s.(MCUSR) s.(MCUCR).
Definition set_PRR0 (v : Z) (s : avr) : avr :=
  mk_avr s.(DDRB) s.(PORTB) s.(DDRC) s.(PORTC) s.(DDRD) s.(PORTD) s.(TCCR0B) s.(TCNT0)
    s.(TIMSK0) s.(TCCR1A) s.(TCCR1B) s.(TCNT1) s.(TIMSK1) v s.(IFLAG) s.(WDT) s.(MCUSR)
    s.(MCUCR).
Definition set_IFLAG (v : bool) (s : avr) : avr :=
  mk_avr s.(DDRB) s.(PORTB) s.(DDRC) s.(PORTC) s.(DDRD) s.(PORTD) s.(TCCR0B) s.(TCNT0)
    s.(TIMSK0) s.(TCCR1A) s.(TCCR1B) s.(TCNT1) s.(TIMSK1) s.(PRR0) v s.(WDT) s.(MCUSR)
    s.(MCUCR).
Definition set_WDT (v : option Z) (s : avr) : avr :=
  mk_avr s.(DDRB) s.(PORTB) s.(DDRC) s.(PORTC) s.(DDRD) s.(PORTD) s.(TCCR0B) s.(TCNT0)
    s.(TIMSK0) s.(TCCR1A) s.(TCCR1B) s.(TCNT1) s.(TIMSK1) s.(PRR0) s.(IFLAG) v s.(MCUSR)
    s.(MCUCR).
Definition set_MCUSR (v : Z) (s : avr) : avr :=
  mk_avr s.(DDRB) s.(PORTB) s.(DDRC) s.(PORTC) s.(DDRD) s.(PORTD) s.(TCCR0B) s.(TCNT0)
    s.(TIMSK0) s.(TCCR1A) s.(TCCR1B) s.(TCNT1) s.(TIMSK1) s.(PRR0) s.(IFLAG) s.(WDT) v
    s.(MCUCR).
Definition set_MCUCR (v : Z) (s : avr) : avr :=
  mk_avr s.(DDRB) s.(PORTB) s.(DDRC) s.(PORTC) s.(DDRD) s.(PORTD) s.(TCCR0B) s.(TCNT0)
    s.(TIMSK0) s.(TCCR1A) s.(TCCR1B) s.(TCNT1) s.(TIMSK1) s.(PRR0) s.(IFLAG) s.(WDT) s.(MCUSR)
    v.

(** [_BV(n)] of avr-libc, and the register operations [|=] and [&= ~]. *)
Definition bv (n : Z) : Z := Z.shiftl 1 n.
Definition or_bits (r m : Z) : Z := u8 (Z.lor r m).
Definition clear_bits (r m : Z) : Z := u8 (Z.ldiff r m).

(** [sei()], [cli()], [wdt_enable(t)] and [wdt_disable()]. *)
Definition sei (s : avr) : avr := set_IFLAG true s.
Definition cli (s : avr) : avr := set_IFLAG false s.
Definition wdt_enable (timeout : Z) (s : avr) : avr := set_WDT (Some timeout) s.
Definition wdt_disable (s : avr) : avr := set_WDT None s.

(** The registers after a reset, all zero. *)
Definition reset : avr :=
  mk_avr 0 0 0 0 0 0 0 0 0 0 0 0 0 0 false None 0 0.

Lemma testbit_or_bits r m i :
  0 <= i < 8 -> Z.testbit (or_bits r m) i = Z.testbit r i || Z.testbit m i.
Proof.
  intros Hi. unfold or_bits, u8. change 256 with (2 ^ 8).
  rewrite Z.mod_pow2_bits_low by lia. apply Z.lor_spec.
Qed.

Lemma testbit_clear_bits r m i :
  0 <= i < 8 -> Z.testbit (clear_bits r m) i = Z.testbit r i && negb (Z.testbit m i).
Proof.
  intros Hi. unfold clear_bits, u8. change 256 with (2 ^ 8).
  rewrite Z.mod_pow2_bits_low by lia. apply Z.ldiff_spec.
Qed.

Lemma bv_bit i j : 0 <= i < 8 -> 0 <= j < 8 -> Z.testbit (bv i) j = (i =? j).
Proof.
  intros Hi Hj. unfold bv. rewrite Z.shiftl_1_l. destruct (Z.eqb_spec i j) as [->|Hne].
  - apply Z.pow2_bits_true. lia.
  - apply Z.pow2_bits_false. lia.
Qed.

End Avr.
