(* ===== verification/Random.v ===== *)
(** * random.c: xorshift generators, sine table and small integer helpers *)

From S2P Require Import Prelude.

Module Random.

(** ** State: the two seeds (file-scope statics of random.c) *)

Record seeds := mk_seeds { g_seed16 : Z; g_seed32 : Z }.

Definition initial_seeds : seeds := mk_seeds 36243 2463534242.

Definition set_seed16 (seed : Z) (s : seeds) : seeds := mk_seeds seed s.(g_seed32).
Definition set_seed32 (seed : Z) (s : seeds) : seeds := mk_seeds s.(g_seed16) seed.

(** ** Generators

    [uint16_t] and [uint32_t] operands keep their width on the AVR, so a left
    shift is truncated before the exclusive or. *)

Definition xorshl (wrap : Z -> Z) (k x : Z) : Z := Z.lxor x (wrap (Z.shiftl x k)).
Definition xorshr (k x : Z) : Z := Z.lxor x (Z.shiftr x k).

Definition random16 (s : seeds) : Z * seeds :=
  let a := xorshl u16 13 s.(g_seed16) in
  let b := xorshr 9 a in
  let c := xorshl u16 7 b in
  (c, set_seed16 c s).

Definition random32 (s : seeds) : Z * seeds :=
  let a := xorshl u32 13 s.(g_seed32) in
  let b := xorshr 17 a in
  let c := xorshl u32 5 b in
  (c, set_seed32 c s).

(** ** Sine table and interpolation *)

Definition sin_table : list Z :=
  [0; 24; 48; 70; 89; 105; 117; 124;
   127; 124; 117; 105; 89; 70; 48; 24;
   0; -24; -48; -70; -89; -105; -117; -124;
   -127; -124; -117; -105; -89; -70; -48; -24].

Definition grad_table : list Z :=
  [24; 24; 22; 19; 16; 12; 7; 3;
   -3; -7; -12; -16; -19; -22; -24; -24;
   -24; -24; -22; -19; -16; -12; -7; -3;
   3; 7; 12; 16; 19; 22; 24; 24].

Definition sintable (angle : Z) : Z :=
  let index := Z.shiftr angle 3 in
  let result := tbl sin_table index in
  let interp := Z.land angle 7 in
  let grad := tbl grad_table index in
  i8 (result + Z.shiftr (interp * grad) 3).

(** [int16_t temp = t * (high-low)]: the product is a 16-bit [int]. *)
Definition lerp (high low t : Z) : Z :=
  let temp := i16 (t * (high - low)) in
  u8 (low + Z.shiftr temp 8).

Definition clamp (value low high : Z) : Z :=
  if value <? low then low else if high <? value then high else value.

Definition clamp_cc (value : Z) : Z :=
  if value <=? 0 then 0 else if 127 <=? value then 127 else value.

(** [None] is the division by zero of [min = max = t]. *)
Definition smoothstep (min max t : Z) : option Z :=
  if t <? min then Some 0
  else if max <? t then Some 255
  else if max - min =? 0 then None
  else let x := u8 (Z.quot (t - min) (max - min)) in
       Some (u8 (3 * x * x - 2 * x * x * x)).

Definition random_color (s : seeds) : Z * seeds :=
  let '(v, s') := random16 s in
  let phase := u8 (Z.shiftr v 8) in
  let r := u8 (sintable phase + 127) in
  let g := u8 (sintable (u8 (phase + 85)) + 127) in
  let b := u8 (sintable (u8 (phase + 170)) + 127) in
  (Z.lor (Z.lor (Z.shiftl r 16) (Z.shiftl g 8)) b, s').

(** ** Xorshift steps are injective

    If two inputs give one output, their difference [d] satisfies [d = d << k]
    (truncated) or [d = d >> k], and both force [d = 0]. *)

Lemma xorshr_inj k x y :
  0 < k -> 0 <= x -> 0 <= y -> xorshr k x = xorshr k y -> x = y.
Proof.
  unfold xorshr. intros Hk Hx Hy H. apply Z.lxor_eq.
  set (d := Z.lxor x y).
  assert (Hd : d = Z.shiftr d k).
  { unfold d. rewrite Z.shiftr_lxor.
    apply Z.bits_inj'. intros i Hi. apply (f_equal (fun z => Z.testbit z i)) in H.
    rewrite !Z.lxor_spec in *.
    destruct (Z.testbit x i), (Z.testbit y i), (Z.testbit (Z.shiftr x k) i),
      (Z.testbit (Z.shiftr y k) i); done. }
  assert (0 <= d) by (apply Z.lxor_nonneg; lia).
  rewrite Z.shiftr_div_pow2 in Hd by lia.
  pose proof (Z.pow_gt_1 2 k ltac:(lia)). 
  destruct (Z.eq_dec d 0) as [|Hne]; [done|].
  pose proof (Z.div_lt d (2 ^ k) ltac:(lia) ltac:(lia)). lia.
Qed.

Lemma xorshl_inj w k x y :
  0 <= w -> 0 < k -> 0 <= x < 2 ^ w -> 0 <= y < 2 ^ w ->
  xorshl (fun z => z mod 2 ^ w) k x = xorshl (fun z => z mod 2 ^ w) k y -> x = y.
Proof.
  unfold xorshl. intros Hw Hk Hx Hy H. apply Z.bits_inj'.
  apply (Z_lt_induction (fun i => Z.testbit x i = Z.testbit y i)). intros i IH.
  destruct (Z.lt_ge_cases i 0) as [|Hi]; [by rewrite !Z.testbit_neg_r|].
  destruct (Z.lt_ge_cases i w) as [Hiw|]; [|by rewrite !(testbit_high _ w)].
  apply (f_equal (fun z => Z.testbit z i)) in H.
  rewrite !Z.lxor_spec, !Z.mod_pow2_bits_low, !Z.shiftl_spec in H by lia.
  destruct (Z.lt_ge_cases (i - k) 0) as [|Hik].
  - rewrite !(Z.testbit_neg_r _ (i - k)) in H by done. by rewrite !xorb_false_r in H.
  - rewrite (IH (i - k)) in H by lia.
    destruct (Z.testbit x i), (Z.testbit y i), (Z.testbit y (i - k)); done.
Qed.

Lemma xorshl_range w k x :
  0 <= w -> 0 <= x < 2 ^ w -> 0 <= xorshl (fun z => z mod 2 ^ w) k x < 2 ^ w.
Proof.
  intros Hw Hx. apply lxor_bound; [done|done|]. apply Z.mod_pos_bound. lia.
Qed.

Lemma xorshr_range w k x : 0 <= w -> 0 <= k -> 0 <= x < 2 ^ w -> 0 <= xorshr k x < 2 ^ w.
Proof.
  intros Hw Hk Hx. apply lxor_bound; [done|done|].
  rewrite Z.shiftr_div_pow2 by done. pose proof (Z.pow_pos_nonneg 2 k).
  split; [apply Z.div_pos; lia|]. apply Z.div_lt_upper_bound; nia.
Qed.

(** One xorshift generator of width [w] with left/right/left shifts [a b c]. *)
Definition xorshift (w a b c x : Z) : Z :=
  xorshl (fun z => z mod 2 ^ w) c (xorshr b (xorshl (fun z => z mod 2 ^ w) a x)).

Lemma xorshift_inj w a b c x y :
  0 <= w -> 0 < a -> 0 < b -> 0 < c -> 0 <= x < 2 ^ w -> 0 <= y < 2 ^ w ->
  xorshift w a b c x = xorshift w a b c y -> x = y.
Proof.
  unfold xorshift. intros Hw Ha Hb Hc Hx Hy H.
  pose proof (xorshl_range w a x Hw Hx). pose proof (xorshl_range w a y Hw Hy).
  apply xorshl_inj in H; try (apply xorshr_range; lia); try lia.
  apply xorshr_inj in H; try lia. by apply xorshl_inj in H.
Qed.

Lemma xorshift_range w a b c x :
  0 <= w -> 0 <= b -> 0 <= x < 2 ^ w -> 0 <= xorshift w a b c x < 2 ^ w.
Proof.
  intros Hw Hb Hx. apply xorshl_range; [done|]. apply xorshr_range; [done..|].
  by apply xorshl_range.
Qed.

Lemma xorshift_nonzero w a b c x :
  0 <= w -> 0 < a -> 0 < b -> 0 < c -> 0 < x < 2 ^ w -> xorshift w a b c x <> 0.
Proof.
  intros Hw Ha Hb Hc Hx H0.
  assert (x = 0); [|lia]. apply (xorshift_inj w a b c); try lia.
  rewrite H0. unfold xorshift, xorshl, xorshr.
  rewrite ?Z.shiftl_0_l, ?Z.shiftr_0_l, ?Z.mod_0_l, ?Z.lxor_0_r, ?Z.shiftr_0_l,
    ?Z.shiftl_0_l, ?Z.mod_0_l by lia. done.
Qed.

Lemma random16_eq s : random16 s = let v := xorshift 16 13 9 7 s.(g_seed16) in (v, set_seed16 v s).
Proof. done. Qed.
Lemma random32_eq s : random32 s = let v := xorshift 32 13 17 5 s.(g_seed32) in (v, set_seed32 v s).
Proof. done. Qed.

(** Facts about [sintable] at every angle, by evaluation. *)
Lemma sintable_bounds angle : 0 <= angle < 256 -> -127 <= sintable angle <= 127.
Proof.
  intros H. assert (Hc : (-127 <=? sintable angle) && (sintable angle <=? 127) = true).
  { by_range 0 256 angle (fun a => (-127 <=? sintable a) && (sintable a <=? 127)). }
  apply andb_true_iff in Hc. lia.
Qed.

(** ** Theorems *)

(** [random16] permutes the nonzero seeds: it never gives zero, stores what it
    gives as the next seed, and different seeds give different numbers. *)
Theorem random16_permutes s1 s2 :
  0 < s1.(g_seed16) < 65536 -> 0 < s2.(g_seed16) < 65536 ->
  0 < fst (random16 s1) < 65536 /\
  (snd (random16 s1)).(g_seed16) = fst (random16 s1) /\
  (fst (random16 s1) = fst (random16 s2) -> s1.(g_seed16) = s2.(g_seed16)).
Proof.
  intros H1 H2. rewrite !random16_eq. cbn [fst snd].
  pose proof (xorshift_range 16 13 9 7 s1.(g_seed16)) as Hr. change (2 ^ 16) with 65536 in Hr.
  pose proof (xorshift_nonzero 16 13 9 7 s1.(g_seed16)) as Hn. change (2 ^ 16) with 65536 in Hn.
  split; [lia|]. split; [done|]. apply xorshift_inj; change (2 ^ 16) with 65536; lia.
Qed.

Lemma random16_permutes_witness :
  0 < fst (random16 initial_seeds) < 65536.
Proof. apply (random16_permutes initial_seeds initial_seeds); cbn; lia. Defined.

(** [random32] permutes the nonzero 32-bit seeds. *)
Theorem random32_permutes s1 s2 :
  0 < s1.(g_seed32) < 4294967296 -> 0 < s2.(g_seed32) < 4294967296 ->
  0 < fst (random32 s1) < 4294967296 /\
  (fst (random32 s1) = fst (random32 s2) -> s1.(g_seed32) = s2.(g_seed32)).
Proof.
  intros H1 H2. rewrite !random32_eq. cbn [fst].
  pose proof (xorshift_range 32 13 17 5 s1.(g_seed32)) as Hr.
  pose proof (xorshift_nonzero 32 13 17 5 s1.(g_seed32)) as Hn.
  change (2 ^ 32) with 4294967296 in *.
  split; [lia|]. apply xorshift_inj; change (2 ^ 32) with 4294967296; lia.
Qed.

(** [lerp] is exact for all bytes: although its 16-bit product may wrap, the
    result is the rounded-down interpolation and lies between the two ends. *)
Theorem lerp_exact high low t :
  is_u8 high -> is_u8 low -> is_u8 t ->
  lerp high low t = low + t * (high - low) / 256 /\
  Z.min low high <= lerp high low t <= Z.max low high.
Proof.
  unfold is_u8, lerp. intros Hh Hl Ht.
  assert (Hd : (low + Z.shiftr (i16 (t * (high - low))) 8) mod 256
             = (low + t * (high - low) / 256) mod 256).
  { rewrite Z.shiftr_div_pow2 by lia. change (2 ^ 8) with 256. unfold i16.
    set (p := t * (high - low)).
    assert (E : (p + 32768) mod 65536 - 32768 = p + (- ((p + 32768) / 65536) * 256) * 256).
    { pose proof (Z.div_mod (p + 32768) 65536). lia. }
    rewrite E, Z.div_add by lia. rewrite Z.add_assoc, Z.mod_add by lia. done. }
  assert (Hb : Z.min low high <= low + t * (high - low) / 256 <= Z.max low high).
  { destruct (Z.le_gt_cases low high) as [Hle|Hgt].
    - assert (0 <= t * (high - low) / 256) by (apply Z.div_pos; nia).
      assert (t * (high - low) / 256 <= high - low) by (apply Z.div_le_upper_bound; nia). lia.
    - assert (high - low <= t * (high - low) / 256) by (apply Z.div_le_lower_bound; nia).
      assert (t * (high - low) / 256 <= 0) by (apply Z.div_le_upper_bound; nia). lia. }
  unfold u8. rewrite Hd, Z.mod_small by lia. split; [done|lia].
Qed.

Lemma lerp_exact_witness : lerp 255 0 255 = 254 /\ 0 <= lerp 255 0 255 <= 255.
Proof.
  destruct (lerp_exact 255 0 255) as [H1 H2]; [split; lia..|].
  rewrite H1. split; [reflexivity|]. rewrite H1 in H2. exact H2.
Defined.

(** [smoothstep] divides integers, so inside its range it only gives 0 or 1. *)
Theorem smoothstep_degenerate min max t v :
  is_u8 min -> is_u8 max -> is_u8 t -> smoothstep min max t = Some v ->
  v = 0 \/ v = 1 \/ v = 255.
Proof.
  unfold is_u8, smoothstep. intros Hmin Hmax Ht. cases_Z; intros [=]; try lia.
  assert (Hx : 0 <= (t - min) ÷ (max - min) <= 1).
  { rewrite Z.quot_div_nonneg by lia. split; [apply Z.div_pos; lia|].
    apply Z.div_le_upper_bound; lia. }
  assert (Hc : (t - min) ÷ (max - min) = 0 \/ (t - min) ÷ (max - min) = 1) by lia.
  destruct Hc as [E|E]; rewrite E in *; subst v; vm_compute; auto.
Qed.

(** A random colour is a 24-bit value whose channels did not wrap. *)
Theorem random_color_channels s :
  0 <= s.(g_seed16) < 65536 ->
  let c := fst (random_color s) in
  let phase := Z.shiftr (fst (random16 s)) 8 in
  Z.land (Z.shiftr c 16) 255 = sintable phase + 127 /\
  Z.land (Z.shiftr c 8) 255 = sintable ((phase + 85) mod 256) + 127 /\
  Z.land c 255 = sintable ((phase + 170) mod 256) + 127 /\
  0 <= c < 2 ^ 24.
Proof.
  intros Hs c phase. subst c.
  unfold random_color. rewrite random16_eq. cbn [fst].
  assert (Hph : 0 <= phase < 256).
  { unfold phase. rewrite random16_eq. cbn [fst].
    pose proof (xorshift_range 16 13 9 7 s.(g_seed16)). 
    rewrite Z.shiftr_div_pow2 by lia. change (2 ^ 16) with 65536 in *. change (2 ^ 8) with 256.
    split; [apply Z.div_pos; lia|apply Z.div_lt_upper_bound; lia]. }
  change (Z.shiftr (xorshift 16 13 9 7 (g_seed16 s)) 8) with phase.
  rewrite (u8_small phase) by done. change (u8 (phase + 85)) with ((phase + 85) mod 256).
  change (u8 (phase + 170)) with ((phase + 170) mod 256).
  set (r := sintable phase + 127). set (g := sintable ((phase + 85) mod 256) + 127).
  set (b := sintable ((phase + 170) mod 256) + 127).
  assert (0 <= r < 256) by (unfold r; pose proof (sintable_bounds phase); lia).
  assert (0 <= g < 256).
  { unfold g. pose proof (sintable_bounds ((phase + 85) mod 256)).
    pose proof (Z.mod_pos_bound (phase + 85) 256). lia. }
  assert (0 <= b < 256).
  { unfold b. pose proof (sintable_bounds ((phase + 170) mod 256)).
    pose proof (Z.mod_pos_bound (phase + 170) 256). lia. }
  rewrite !u8_small by done. apply pack24; done.
Qed.

End Random.
