(* ===== verification/Keys.v ===== *)
(** * key.c: the key matrix, the debouncer and the key transitions *)

From S2P Require Import Prelude Avr.
Import Avr.

Module Keys.

(** ** Constants (constants.h, key.h) *)

Definition NUM_BUTTONS : Z := 64.
Definition DEBOUNCE_BUFFER_SIZE : Z := 10.
Definition LED_REFRESH_LIMIT : Z := 25.
Definition TIMER_TIMEOUT_1MS : Z := 208.
Definition KEY_BIT : Z := bv 7.   (* PC7 *)
Definition KEY_CLOCK : Z := bv 7. (* PD7 *)
Definition KEY_LATCH : Z := bv 6. (* PD6 *)

(** ** State: the globals of key.c, and [buffer_pos] of the interrupt routine *)

Record key_globals := mk_keys {
  g_key_debounce_buffer : list Z;
  buffer_pos : Z;
  g_key_state : Z;
  g_key_prev_state : Z;
  g_key_up : Z;
  g_key_down : Z;
  g_key_bank_last_up : Z;
  system_time_ms : Z;
  last_led_refresh_time_ms : Z
}.

Definition set_g_key_debounce_buffer (v : list Z) (s : key_globals) : key_globals :=
  mk_keys v s.(buffer_pos) s.(g_key_state) s.(g_key_prev_state) s.(g_key_up) s.(g_key_down)
    s.(g_key_bank_last_up) s.(system_time_ms) s.(last_led_refresh_time_ms).
Definition set_buffer_pos (v : Z) (s : key_globals) : key_globals :=
  mk_keys s.(g_key_debounce_buffer) v s.(g_key_state) s.(g_key_prev_state) s.(g_key_up)
    s.(g_key_down) s.(g_key_bank_last_up) s.(system_time_ms) s.(last_led_refresh_time_ms).
Definition set_g_key_state (v : Z) (s : key_globals) : key_globals :=
  mk_keys s.(g_key_debounce_buffer) s.(buffer_pos) v s.(g_key_prev_state) s.(g_key_up)
    s.(g_key_down) s.(g_key_bank_last_up) s.(system_time_ms) s.(last_led_refresh_time_ms).
Definition set_g_key_prev_state (v : Z) (s : key_globals) : key_globals :=
  mk_keys s.(g_key_debounce_buffer) s.(buffer_pos) s.(g_key_state) v s.(g_key_up) s.(g_key_down)
    s.(g_key_bank_last_up) s.(system_time_ms) s.(last_led_refresh_time_ms).
Definition set_g_key_up (v : Z) (s : key_globals) : key_globals :=
  mk_keys s.(g_key_debounce_buffer) s.(buffer_pos) s.(g_key_state) s.(g_key_prev_state) v
    s.(g_key_down) s.(g_key_bank_last_up) s.(system_time_ms) s.(last_led_refresh_time_ms).
Definition set_g_key_down (v : Z) (s : key_globals) : key_globals :=
  mk_keys s.(g_key_debounce_buffer) s.(buffer_pos) s.(g_key_state) s.(g_key_prev_state)
    s.(g_key_up) v s.(g_key_bank_last_up) s.(system_time_ms) s.(last_led_refresh_time_ms).
Definition set_g_key_bank_last_up (v : Z) (s : key_globals) : key_globals :=
  mk_keys s.(g_key_debounce_buffer) s.(buffer_pos) s.(g_key_state) s.(g_key_prev_state)
    s.(g_key_up) s.(g_key_down) v s.(system_time_ms) s.(last_led_refresh_time_ms).
Definition set_system_time_ms (v : Z) (s : key_globals) : key_globals :=
  mk_keys s.(g_key_debounce_buffer) s.(buffer_pos) s.(g_key_state) s.(g_key_prev_state)
    s.(g_key_up) s.(g_key_down) s.(g_key_bank_last_up) v s.(last_led_refresh_time_ms).
Definition set_last_led_refresh_time_ms (v : Z) (s : key_globals) : key_globals :=
  mk_keys s.(g_key_debounce_buffer) s.(buffer_pos) s.(g_key_state) s.(g_key_prev_state)
    s.(g_key_up) s.(g_key_down) s.(g_key_bank_last_up) s.(system_time_ms) v.

(** The globals as the C runtime initialises them. *)
Definition initial_keys : key_globals := mk_keys (replicate 10 0) 0 0 0 0 0 0 0 0.

(** ** Operations *)

(** [memset(g_key_debounce_buffer, 0, DEBOUNCE_BUFFER_SIZE*sizeof(uint32_t))]
    clears 40 bytes, that is the first five of the ten 64-bit samples. *)
Definition clear_debounce_buffer (buf : list Z) : list Z :=
  replicate 5 0 ++ drop 5 buf.

Definition key_setup (k : key_globals) (r : avr) : key_globals * avr :=
  let r := set_DDRD (or_bits r.(DDRD) KEY_CLOCK) r in
  let r := set_DDRD (or_bits r.(DDRD) KEY_LATCH) r in
  let r := set_DDRC (clear_bits r.(DDRC) KEY_BIT) r in
  let r := set_PORTC (or_bits r.(PORTC) KEY_BIT) r in
  let r := set_PORTD (or_bits r.(PORTD) KEY_CLOCK) r in
  let r := set_PORTD (or_bits r.(PORTD) KEY_LATCH) r in
  let k := set_g_key_debounce_buffer (clear_debounce_buffer k.(g_key_debounce_buffer)) k in
  let r := set_TCCR0B (or_bits r.(TCCR0B) (bv 2)) r in
  let r := set_TCCR0B (clear_bits r.(TCCR0B) (bv 1)) r in
  let r := set_TCCR0B (clear_bits r.(TCCR0B) (bv 0)) r in
  let r := set_TCNT0 TIMER_TIMEOUT_1MS r in
  let r := set_TIMSK0 (or_bits r.(TIMSK0) (bv 0)) r in
  let r := sei r in
  let k := set_g_key_state 0 k in
  let k := set_g_key_prev_state 0 k in
  let k := set_g_key_up 0 k in
  let k := set_g_key_down 0 k in
  (k, r).

Definition key_disable (r : avr) : avr := set_TIMSK0 (clear_bits r.(TIMSK0) (bv 0)) r.

(** One clock of the shift register: [pinc i] is the value of PINC read at the
    [i]-th clock, supplied by the hardware. *)
Definition shift_in_bit (pinc : Z -> Z) (i : Z) (st : Z * Z * avr) : Z * Z * avr :=
  let '(value, bit, r) := st in
  let r := set_PORTD (clear_bits r.(PORTD) KEY_CLOCK) r in
  let value := Z.lor value (if has_bits (pinc i) KEY_BIT then 0 else bit) in
  let bit := u64 (Z.shiftl bit 1) in
  let r := set_PORTD (or_bits r.(PORTD) KEY_CLOCK) r in
  (value, bit, r).

Definition TIMER0_OVF_vect (pinc : Z -> Z) (k : key_globals) (r : avr) : res (key_globals * avr) :=
  let r := set_TCNT0 TIMER_TIMEOUT_1MS r in
  let r := set_PORTD (or_bits r.(PORTD) KEY_LATCH) r in
  let r := set_PORTD (clear_bits r.(PORTD) KEY_LATCH) r in
  let '(value, _, r) := for_pure 64 0 (shift_in_bit pinc) (0, 1, r) in
  buf ← wr k.(g_key_debounce_buffer) k.(buffer_pos) (u64 (Z.lnot value));
  let k := set_g_key_debounce_buffer buf k in
  let k := set_buffer_pos (u8 ((k.(buffer_pos) + 1) mod DEBOUNCE_BUFFER_SIZE)) k in
  let k := set_system_time_ms (u16 (k.(system_time_ms) + 1)) k in
  Ok (k, r).

(** The return type is [uint32_t]: the value returned is truncated, the global
    is not. *)
Definition key_read (k : key_globals) : res (Z * key_globals) :=
  st ← for_up 10 0 (fun i st => v ← rd k.(g_key_debounce_buffer) i; Ok (Z.land st v))
         18446744073709551615;
  Ok (u32 st, set_g_key_state st k).

Definition key_calc (k : key_globals) : key_globals :=
  let changed := Z.lxor k.(g_key_prev_state) k.(g_key_state) in
  let k1 := set_g_key_down (Z.land changed k.(g_key_state)) k in
  let k2 := set_g_key_up (Z.land changed k.(g_key_prev_state)) k1 in
  set_g_key_prev_state k2.(g_key_state) k2.

(** ** Well-formedness *)

Record keys_wf (k : key_globals) : Prop := {
  wf_buffer : length k.(g_key_debounce_buffer) = 10%nat;
  wf_samples : Forall is_u64 k.(g_key_debounce_buffer);
  wf_pos : 0 <= k.(buffer_pos) < 10;
  wf_state : is_u64 k.(g_key_state);
  wf_prev : is_u64 k.(g_key_prev_state);
  wf_time : is_u16 k.(system_time_ms)
}.

(** ** Abstraction: the ring buffer as the window of the last ten samples *)

Definition window (k : key_globals) : list Z :=
  drop (Z.to_nat k.(buffer_pos)) k.(g_key_debounce_buffer) ++
  take (Z.to_nat k.(buffer_pos)) k.(g_key_debounce_buffer).

(** The sample the interrupt routine stores: bit [i] is pin PC7 at clock [i]. *)
Definition sample_of (pinc : Z -> Z) : Z :=
  let '(value, _, _) := for_pure 64 0 (shift_in_bit pinc) (0, 1, Avr.reset) in
  u64 (Z.lnot value).

(** Successive timer interrupts. *)
Fixpoint run_samples (ps : list (Z -> Z)) (k : key_globals) (r : avr) : res (key_globals * avr) :=
  match ps with
  | [] => Ok (k, r)
  | p :: ps' => '(k', r') ← TIMER0_OVF_vect p k r; run_samples ps' k' r'
  end.

(** ** Lemmas *)

(** The accumulated value and bit do not depend on the registers. *)
Lemma shift_in_fst pinc n i v b r1 r2 :
  fst (for_pure n i (shift_in_bit pinc) (v, b, r1)) =
  fst (for_pure n i (shift_in_bit pinc) (v, b, r2)).
Proof. revert i v b r1 r2. induction n as [|n IH]; intros; [done|]. cbn [for_pure]. apply IH. Qed.

(** The loop invariant of the shift register read. *)
Lemma shift_in_spec pinc r :
  let '(value, _, _) := for_pure 64 0 (shift_in_bit pinc) (0, 1, r) in
  0 <= value /\ forall j, 0 <= j < 64 -> Z.testbit value j = negb (Z.testbit (pinc j) 7).
Proof.
  assert (H := for_pure_inv (fun i '(value, bit, _) =>
    0 <= value /\ bit = u64 (2 ^ i) /\
    (forall j, 0 <= j < i -> Z.testbit value j = negb (Z.testbit (pinc j) 7)) /\
    (forall j, i <= j -> Z.testbit value j = false)) (shift_in_bit pinc) 64 0 (0, 1, r)).
  destruct (for_pure 64 0 (shift_in_bit pinc) (0, 1, r)) as [[value bit] r'].
  destruct H as (Hv & _ & Hb & _); [| |split; [done|exact Hb]].
  - split; [done|]. split; [done|]. split; [lia|]. intros. apply Z.bits_0.
  - intros i [[v b] r0] Hi (Hv & -> & Hlow & Hhigh). unfold shift_in_bit.
    assert (Hpow : u64 (2 ^ i) = 2 ^ i).
    { apply u64_small. split; [lia|]. change 18446744073709551616 with (2 ^ 64).
      apply Z.pow_lt_mono_r; lia. }
    rewrite Hpow. unfold KEY_BIT, bv. rewrite Z.shiftl_mul_pow2, Z.mul_1_l by lia.
    rewrite has_bits_pow2 by lia.
    split; [apply Z.lor_nonneg; split; [done|]; destruct (Z.testbit (pinc i) 7); lia|].
    split; [rewrite Z.shiftl_mul_pow2, Z.pow_add_r by lia; done|].
    split; intros j Hj; rewrite Z.lor_spec.
    + destruct (Z.eq_dec j i) as [->|Hne].
      * rewrite Hhigh by lia. rewrite orb_false_l. destruct (Z.testbit (pinc i) 7);
          [apply Z.bits_0|apply Z.pow2_bits_true; lia].
      * rewrite Hlow by lia.
        replace (Z.testbit (if Z.testbit (pinc i) 7 then 0 else 2 ^ i) j) with false;
          [apply orb_false_r|].
        destruct (Z.testbit (pinc i) 7); [by rewrite Z.bits_0|].
        rewrite Z.pow2_bits_false by lia. done.
    + rewrite Hhigh by lia. destruct (Z.testbit (pinc i) 7); [apply Z.bits_0|].
      apply Z.pow2_bits_false. lia.
Qed.

Lemma testbit_sample pinc j :
  0 <= j < 64 -> Z.testbit (sample_of pinc) j = Z.testbit (pinc j) 7.
Proof.
  intros Hj. unfold sample_of. pose proof (shift_in_spec pinc Avr.reset) as H.
  destruct (for_pure 64 0 (shift_in_bit pinc) (0, 1, Avr.reset)) as [[v b] r'].
  destruct H as [Hv Hb]. unfold u64. change 18446744073709551616 with (2 ^ 64).
  rewrite Z.mod_pow2_bits_low by lia. rewrite Z.lnot_spec by lia.
  rewrite Hb by lia. apply negb_involutive.
Qed.

Lemma sample_of_range pinc : is_u64 (sample_of pinc).
Proof.
  unfold sample_of. destruct (for_pure _ _ _ _) as [[v b] r]. apply u64_range.
Qed.

#[global] Arguments sample_of : simpl never.
#[local] Opaque for_pure.

(** What one interrupt does to the key globals. *)
Lemma timer0_step pinc k r :
  keys_wf k ->
  exists r', TIMER0_OVF_vect pinc k r =
    Ok (set_system_time_ms (u16 (k.(system_time_ms) + 1))
         (set_buffer_pos ((k.(buffer_pos) + 1) mod 10)
           (set_g_key_debounce_buffer
             (<[Z.to_nat k.(buffer_pos) := sample_of pinc]> k.(g_key_debounce_buffer)) k)), r').
Proof.
  intros [Hl _ Hp _ _ _]. unfold TIMER0_OVF_vect, sample_of.
  set (r0 := set_PORTD _ _).
  pose proof (shift_in_fst pinc 64 0 0 1 r0 Avr.reset) as E.
  destruct (for_pure 64 0 (shift_in_bit pinc) (0, 1, r0)) as [[v b] r'].
  destruct (for_pure 64 0 (shift_in_bit pinc) (0, 1, Avr.reset)) as [[v2 b2] r2].
  simpl in E. injection E as -> ->.
  rewrite wr_in_range by lia. exists r'. cbn. unfold DEBOUNCE_BUFFER_SIZE.
  rewrite u8_small; [done|]. pose proof (Z.mod_pos_bound (buffer_pos k + 1) 10). lia.
Qed.

Lemma timer0_wf pinc k r k' r' :
  keys_wf k -> TIMER0_OVF_vect pinc k r = Ok (k', r') -> keys_wf k'.
Proof.
  intros Hwf H. destruct (timer0_step pinc k r Hwf) as [r1 E]. rewrite E in H.
  injection H as <- <-. destruct Hwf as [Hl Hs Hp Hst Hpr Ht].
  split; simpl.
  - by rewrite length_insert.
  - apply Forall_insert; [exact Hs|apply sample_of_range].
  - apply Z.mod_pos_bound. lia.
  - exact Hst.
  - exact Hpr.
  - apply u16_range.
Qed.

(** The window drops its oldest sample and takes the new one. *)
Lemma window_step pinc k r k' r' :
  keys_wf k -> TIMER0_OVF_vect pinc k r = Ok (k', r') ->
  window k' = drop 1 (window k ++ [sample_of pinc]).
Proof.
  intros Hwf H. destruct (timer0_step pinc k r Hwf) as [r1 E]. rewrite E in H.
  injection H as <- <-. clear E. destruct Hwf as [Hl _ Hp _ _ _]. unfold window. simpl.
  generalize (sample_of pinc). intros x. destruct k as [buf pos st pv up dn lu tm rf]. simpl in *.
  do 10 (destruct buf as [|? buf]; [done|]). destruct buf; [|done].
  assert (Hc : pos = 0 \/ pos = 1 \/ pos = 2 \/ pos = 3 \/ pos = 4 \/ pos = 5 \/
               pos = 6 \/ pos = 7 \/ pos = 8 \/ pos = 9) by lia.
  repeat (destruct Hc as [->|Hc]; [reflexivity|]). subst. reflexivity.
Qed.

Lemma length_window k : keys_wf k -> length (window k) = 10%nat.
Proof.
  intros Hwf. unfold window. rewrite length_app, length_drop, length_take.
  rewrite (wf_buffer _ Hwf). pose proof (wf_pos _ Hwf). lia.
Qed.

Lemma run_samples_window ps k r :
  keys_wf k ->
  exists k' r', run_samples ps k r = Ok (k', r') /\ keys_wf k' /\
    window k' = drop (length ps) (window k ++ map sample_of ps) /\
    k'.(system_time_ms) = u16 (k.(system_time_ms) + Z.of_nat (length ps)) /\
    k'.(g_key_prev_state) = k.(g_key_prev_state).
Proof.
  revert k r. induction ps as [|p ps IH]; intros k r Hwf.
  - exists k, r. cbn. rewrite drop_0, app_nil_r, Z.add_0_r.
    rewrite u16_small by apply (wf_time _ Hwf). done.
  - destruct (timer0_step p k r Hwf) as [r1 E].
    destruct (IH _ r1 (timer0_wf _ _ _ _ _ Hwf E)) as (k' & r' & Hrun & Hwf' & Hw & Ht & Hpv).
    pose proof (window_step _ _ _ _ _ Hwf E) as Hstep.
    exists k', r'. cbn [run_samples]. rewrite E.
    split; [exact Hrun|]. split; [done|]. split; [|split].
    + rewrite Hw, Hstep. pose proof (length_window k Hwf).
      destruct (window k) as [|w ws]; [done|]. cbn [length map app drop].
      rewrite drop_0, <-app_assoc. done.
    + rewrite Ht. cbn. unfold u16. rewrite Zplus_mod_idemp_l. f_equal. lia.
    + done.
Qed.

(** The conjunction of the samples, bit by bit. *)
Definition all_set (l : list Z) (i : Z) : bool := forallb (fun v => Z.testbit v i) l.

Lemma all_set_rotate n l i : all_set (drop n l ++ take n l) i = all_set l i.
Proof. unfold all_set. rewrite forallb_app, andb_comm, <-forallb_app, take_drop. done. Qed.

Lemma key_read_bits k :
  keys_wf k ->
  exists st, key_read k = Ok (u32 st, set_g_key_state st k) /\ is_u64 st /\
    forall i, 0 <= i < 64 -> Z.testbit st i = all_set (window k) i.
Proof.
  intros Hwf. pose proof (length_window k Hwf) as Hlw. destruct Hwf as [Hl Hs Hp _ _ _].
  unfold key_read, window in *.
  destruct k as [buf pos st pv up dn lu tm rf]. cbn in *.
  do 10 (destruct buf as [|? buf]; [done|]). destruct buf; [|done]. cbn.
  eexists. split; [done|]. split.
  - repeat (apply Forall_cons_1 in Hs as [? Hs]). unfold is_u64 in *.
    change 18446744073709551616 with (2 ^ 64) in *.
    repeat (apply land_bound; [|lia]). lia.
  - intros i Hi. rewrite !Z.land_spec.
    change 18446744073709551615 with (Z.ones 64). rewrite Z.ones_spec_low by lia.
    rewrite all_set_rotate. cbn. rewrite andb_true_r, !andb_assoc. done.
Qed.

(** Polls of the main loop: the debounced state becomes [s], then [key_calc]
    runs; the transitions of each poll are its keydown and keyup masks. *)
Fixpoint polls (ss : list Z) (k : key_globals) : list (Z * Z) * key_globals :=
  match ss with
  | [] => ([], k)
  | s :: ss' =>
      let k1 := key_calc (set_g_key_state s k) in
      let '(evs, k2) := polls ss' k1 in
      ((k1.(g_key_down), k1.(g_key_up)) :: evs, k2)
  end.

Definition bit_count (i : Z) (l : list Z) : Z :=
  foldr (fun m acc => Z.b2z (Z.testbit m i) + acc) 0 l.

Lemma key_calc_bits k i :
  Z.testbit (key_calc k).(g_key_down) i
    = negb (Z.testbit k.(g_key_prev_state) i) && Z.testbit k.(g_key_state) i /\
  Z.testbit (key_calc k).(g_key_up) i
    = Z.testbit k.(g_key_prev_state) i && negb (Z.testbit k.(g_key_state) i) /\
  (key_calc k).(g_key_prev_state) = k.(g_key_state) /\
  (key_calc k).(g_key_state) = k.(g_key_state).
Proof.
  unfold key_calc. cbn. rewrite !Z.land_spec, !Z.lxor_spec.
  destruct (Z.testbit k.(g_key_prev_state) i), (Z.testbit k.(g_key_state) i); done.
Qed.

(** Sampling only moves the clock and latch lines and the timer. *)
Definition same_ports (r r' : avr) : Prop :=
  r'.(DDRC) = r.(DDRC) /\ r'.(PORTC) = r.(PORTC) /\ r'.(IFLAG) = r.(IFLAG) /\
  r'.(WDT) = r.(WDT) /\ r'.(TIMSK0) = r.(TIMSK0) /\ r'.(TIMSK1) = r.(TIMSK1).

Lemma timer0_ports pinc k r k' r' :
  TIMER0_OVF_vect pinc k r = Ok (k', r') -> same_ports r r'.
Proof.
  unfold TIMER0_OVF_vect. intros E.
  assert (Hl := for_pure_inv (fun _ st => same_ports r st.2) (shift_in_bit pinc) 64 0
    (0, 1, set_PORTD (clear_bits (set_PORTD (or_bits (set_TCNT0 TIMER_TIMEOUT_1MS r).(PORTD) KEY_LATCH)
       (set_TCNT0 TIMER_TIMEOUT_1MS r)).(PORTD) KEY_LATCH)
       (set_PORTD (or_bits (set_TCNT0 TIMER_TIMEOUT_1MS r).(PORTD) KEY_LATCH)
          (set_TCNT0 TIMER_TIMEOUT_1MS r)))).
  destruct (for_pure 64 0 _ _) as [[v b] r1]. cbn [snd] in Hl. inv_ok.
  apply Hl; [done|]. intros j [[v1 b1] r2] _ Hr. exact Hr.
Qed.

Lemma run_samples_ports ps : forall k r k' r',
  run_samples ps k r = Ok (k', r') -> same_ports r r'.
Proof.
  induction ps as [|p ps IH]; intros k r k' r' E; cbn [run_samples] in E; [by injection E as <- <-|].
  apply bind_ok in E as ([k1 r1] & E1 & E2). apply timer0_ports in E1. apply IH in E2.
  destruct E1 as (? & ? & ? & ? & ? & ?), E2 as (? & ? & ? & ? & ? & ?).
  unfold same_ports. split_and!; congruence.
Qed.

(** The debounced state after ten samples or more, bit by bit. *)
Lemma debounce_bits k r ps :
  keys_wf k -> (10 <= length ps)%nat ->
  exists k' r' v k'',
    run_samples ps k r = Ok (k', r') /\ key_read k' = Ok (v, k'') /\
    forall i, 0 <= i < 64 ->
      Z.testbit k''.(g_key_state) i
      = forallb (fun pinc => Z.testbit (pinc i) 7) (drop (length ps - 10) ps).
Proof.
  intros Hwf Hlen.
  destruct (run_samples_window ps k r Hwf) as (k' & r' & Hrun & Hwf' & Hw & _).
  destruct (key_read_bits k' Hwf') as (st & Hrd & _ & Hbits).
  exists k', r', (u32 st), (set_g_key_state st k'). split; [done|]. split; [done|].
  intros i Hi. cbn. rewrite Hbits, Hw by done.
  rewrite drop_app_ge by (rewrite length_window by done; lia).
  rewrite length_window by done. clear Hbits Hw Hrd Hrun Hlen.
  revert Hi. generalize (length ps - 10)%nat as n. induction ps as [|p ps IH]; intros n Hi.
  - by destruct n.
  - destruct n as [|n]; cbn [map drop]; [|by apply IH].
    specialize (IH 0%nat Hi). rewrite !drop_0 in IH. unfold all_set in *. cbn.
    rewrite testbit_sample, IH by done. done.
Qed.

(** ** Theorems *)

(** C14: Debouncing: after ten or more sampling interrupts, from any well-formed
    state, [key_read] reports key [i] as pressed exactly when its bit was set in
    all of the last ten samples, whatever was sampled before. *)
Theorem debounce_last_ten k r ps :
  keys_wf k -> (10 <= length ps)%nat ->
  exists k' r' v k'',
    run_samples ps k r = Ok (k', r') /\ key_read k' = Ok (v, k'') /\
    forall i, 0 <= i < 64 ->
      Z.testbit k''.(g_key_state) i
      = forallb (fun pinc => Z.testbit (pinc i) 7) (drop (length ps - 10) ps).
Proof. apply debounce_bits. Qed.

Lemma debounce_last_ten_witness :
  exists k' r' v k'',
    run_samples (replicate 10 (fun i => if i =? 5 then 128 else 0)) initial_keys Avr.reset
      = Ok (k', r') /\ key_read k' = Ok (v, k'') /\ Z.testbit k''.(g_key_state) 5 = true.
Proof.
  destruct (debounce_last_ten initial_keys Avr.reset
    (replicate 10 (fun i => if i =? 5 then 128 else 0))) as (k' & r' & v & k'' & H1 & H2 & H3).
  - split; cbn; repeat constructor; lia.
  - cbn. lia.
  - exists k', r', v, k''. split; [exact H1|]. split; [exact H2|].
    rewrite H3 by lia. reflexivity.
Defined.

(** [key_calc] reports exactly the edges of every key: a key is down when it was
    up at the previous poll and is pressed now, up in the opposite case, never
    both. *)
Theorem key_calc_edges k i :
  let k' := key_calc k in
  Z.testbit k'.(g_key_down) i
    = negb (Z.testbit k.(g_key_prev_state) i) && Z.testbit k.(g_key_state) i /\
  Z.testbit k'.(g_key_up) i
    = Z.testbit k.(g_key_prev_state) i && negb (Z.testbit k.(g_key_state) i) /\
  Z.land k'.(g_key_down) k'.(g_key_up) = 0 /\
  k'.(g_key_prev_state) = k.(g_key_state) /\ k'.(g_key_state) = k.(g_key_state).
Proof.
  cbn zeta. destruct (key_calc_bits k i) as (Hd & Hu & Hp & Hs).
  split; [done|]. split; [done|]. split; [|done].
  apply Z.bits_inj'. intros j Hj. rewrite Z.land_spec, Z.bits_0.
  destruct (key_calc_bits k j) as (-> & -> & _).
  destruct (Z.testbit k.(g_key_prev_state) j), (Z.testbit k.(g_key_state) j); done.
Qed.

(** Over any sequence of polls, the presses and the releases that [key_calc]
    reports for a key balance: their difference is the difference of its
    state between the end and the start, so no press is lost or reported twice. *)
Theorem presses_and_releases_balance ss k i :
  bit_count i (map fst (fst (polls ss k))) + Z.b2z (Z.testbit k.(g_key_prev_state) i)
  = bit_count i (map snd (fst (polls ss k)))
    + Z.b2z (Z.testbit (snd (polls ss k)).(g_key_prev_state) i).
Proof.
  revert k. induction ss as [|s ss IH]; intros k; [done|]. cbn [polls].
  pose proof (key_calc_bits (set_g_key_state s k) i) as (Hd & Hu & Hp & _).
  set (k1 := key_calc (set_g_key_state s k)) in *. specialize (IH k1).
  destruct (polls ss k1) as [evs k2]. cbn [fst snd map bit_count foldr] in *.
  rewrite Hd, Hu. rewrite Hp in IH. cbn in *.
  destruct (Z.testbit k.(g_key_prev_state) i), (Z.testbit s i); cbn in *; lia.
Qed.

(** [key_setup] clears only the first half of the debounce buffer: the [memset]
    counts four bytes for each of the ten eight-byte samples, so the samples 5 to
    9 keep what they held. *)
Theorem key_setup_clears_half k r i :
  length k.(g_key_debounce_buffer) = 10%nat -> 0 <= i < 10 ->
  rd (fst (key_setup k r)).(g_key_debounce_buffer) i
  = if i <? 5 then Ok 0 else rd k.(g_key_debounce_buffer) i.
Proof.
  destruct k as [buf pos st pv up dn lu tm rf]. cbn. intros Hl Hi.
  do 10 (destruct buf as [|? buf]; [done|]). destruct buf; [|done].
  unfold clear_debounce_buffer. cbn.
  assert (Hc : i = 0 \/ i = 1 \/ i = 2 \/ i = 3 \/ i = 4 \/ i = 5 \/
               i = 6 \/ i = 7 \/ i = 8 \/ i = 9) by lia.
  repeat (destruct Hc as [->|Hc]; [reflexivity|]). subst. reflexivity.
Qed.

Lemma key_setup_clears_half_witness :
  rd (fst (key_setup (set_g_key_debounce_buffer (replicate 10 7) initial_keys)
                     Avr.reset)).(g_key_debounce_buffer) 9 = Ok 7.
Proof.
  rewrite key_setup_clears_half; [reflexivity|reflexivity|lia].
Defined.

End Keys.
