(* ===== verification/Interrupts.v ===== *)
(** * Interrupts inside the main loop's reads

    key.c shares the debounce buffer and the clock between the timer interrupt and
    the main loop, which reads them with interrupts on.  The processor has eight
    bits: a 64-bit sample is read in eight accesses and the 16-bit clock in two, and
    the interrupt may come between any two of them.  Here [key_read] is a trace of
    byte accesses, in whatever order the compiler emits them, with interrupts in
    between. *)

From S2P Require Import Prelude.
From S2P Require Import Avr.
From S2P Require Import Keys.

Module Interrupts.
Import Avr Keys.

(** ** Reading the debounce buffer *)

Inductive access :=
  | Interrupt (pinc : Z -> Z)     (* the key timer's, with the pins it samples *)
  | ReadByte (i b : Z).           (* byte [b] of [g_key_debounce_buffer[i]] *)

(** [g_key_state &= g_key_debounce_buffer[i]], one byte of it. *)
Definition and_byte (b v st : Z) : Z :=
  Z.land st (Z.lor v (Z.ldiff 18446744073709551615 (Z.shiftl 255 (8 * b)))).

Definition access_step (a : access) (x : Z * key_globals * avr) : res (Z * key_globals * avr) :=
  let '(st, k, r) := x in
  match a with
  | Interrupt pinc => '(k, r) ← TIMER0_OVF_vect pinc k r; Ok (st, k, r)
  | ReadByte i b => v ← rd k.(g_key_debounce_buffer) i; Ok (and_byte b v st, k, r)
  end.

Fixpoint run_accesses (tr : list access) (x : Z * key_globals * avr) : res (Z * key_globals * avr) :=
  match tr with
  | [] => Ok x
  | a :: tr => x ← access_step a x; run_accesses tr x
  end.

Definition key_read_interrupted (tr : list access) (k : key_globals) (r : avr)
    : res (Z * key_globals * avr) :=
  '(st, k, r) ← run_accesses tr (18446744073709551615, k, r);
  Ok (u32 st, set_g_key_state st k, r).

(** The accesses of [key_read]: every byte of every sample, in any order. *)
Definition is_read (a : access) : Prop :=
  match a with Interrupt _ => True | ReadByte i b => 0 <= i < 10 /\ 0 <= b < 8 end.
Definition reads_all (tr : list access) : Prop :=
  Forall is_read tr /\ forall i b, 0 <= i < 10 -> 0 <= b < 8 -> ReadByte i b ∈ tr.

Definition interrupts (tr : list access) : list (Z -> Z) :=
  omap (fun a => match a with Interrupt p => Some p | ReadByte _ _ => None end) tr.

(** ** Reading the clock *)

(** [uint16_t sys_time_16 = system_time_ms]: two byte accesses, in the order the
    compiler chose, with interrupts in between. *)
Inductive byte_order := LowFirst | HighFirst.

Definition read_clock (o : byte_order) (between : list (Z -> Z)) (k : key_globals) (r : avr)
    : res (Z * key_globals * avr) :=
  let first := k.(system_time_ms) in
  '(k, r) ← run_samples between k r;
  let second := k.(system_time_ms) in
  Ok (match o with
      | LowFirst => first mod 256 + 256 * (second / 256)
      | HighFirst => second mod 256 + 256 * (first / 256)
      end, k, r).

(** ** Lemmas *)

Lemma and_byte_bit b v st j :
  0 <= b < 8 -> 0 <= j < 64 ->
  Z.testbit (and_byte b v st) j = Z.testbit st j && (Z.testbit v j || negb (j / 8 =? b)).
Proof.
  intros Hb Hj. unfold and_byte. rewrite Z.land_spec, Z.lor_spec, Z.ldiff_spec, Z.shiftl_spec by lia.
  change 18446744073709551615 with (Z.ones 64). rewrite (Z.ones_spec_low 64 j), andb_true_l by lia. do 3 f_equal. change 255 with (Z.ones 8).
  destruct (Z.eqb_spec (j / 8) b) as [<-|Hne].
  - apply Z.ones_spec_low. Z.to_euclidean_division_equations. lia.
  - destruct (Z.ltb_spec (j - 8 * b) 0); [by rewrite Z.testbit_neg_r|]. apply Z.ones_spec_high.
    split; [lia|]. destruct (Z.ltb_spec (j - 8 * b) 8); [|lia]. destruct Hne. symmetry. apply (Z.div_unique j 8 b (j - 8 * b)); lia.
Qed.

Lemma tbl_nonneg l i : Forall is_u64 l -> 0 <= tbl l i.
Proof.
  intros H. unfold tbl. destruct (nth_in_or_default (Z.to_nat i) l 0) as [Hin| ->]; [|lia].
  rewrite List.Forall_forall in H. by apply H in Hin as [].
Qed.

(** Bit [j] of the sample in slot [i]. *)
Definition slot (k : key_globals) (i j : Z) : bool := Z.testbit (tbl k.(g_key_debounce_buffer) i) j.

(** The slots after the first [n] interrupts. *)
Definition slot_after (ps : list (Z -> Z)) (k : key_globals) (r : avr) (n : nat) (i j : Z) : bool :=
  match run_samples (take n ps) k r with Ok (k', _) => slot k' i j | Fault _ => false end.

(** What a trace makes of bit [j] of the state: set only if every slot whose byte is
    read had it set at some moment, cleared only if some slot had it cleared. *)
Definition explained (tr : list access) (k : key_globals) (r : avr) (j : Z) (old new : bool) : Prop :=
  (new = true -> old = true /\ forall i, ReadByte i (j / 8) ∈ tr ->
     exists n, (n <= length (interrupts tr))%nat /\ slot_after (interrupts tr) k r n i j = true) /\
  (new = false -> old = false \/ exists i n, 0 <= i < 10 /\ (n <= length (interrupts tr))%nat /\
     slot_after (interrupts tr) k r n i j = false).

Lemma explained_interrupt p tr k r k1 r1 j old new :
  TIMER0_OVF_vect p k r = Ok (k1, r1) ->
  explained tr k1 r1 j old new -> explained (Interrupt p :: tr) k r j old new.
Proof.
  intros E [H1 H0]. unfold explained. change (interrupts (Interrupt p :: tr)) with (p :: interrupts tr).
  assert (Hsh : forall n i, slot_after (p :: interrupts tr) k r (S n) i j = slot_after (interrupts tr) k1 r1 n i j).
  { intros n i. unfold slot_after. cbn [take run_samples]. by rewrite E, bind_Ok. }
  split; intros H.
  - destruct (H1 H) as [Hs Hall]. split; [done|]. intros i Hi. apply elem_of_cons in Hi as [|Hi]; [done|].
    destruct (Hall i Hi) as (n & Hn & Hx). exists (S n). split; [cbn; lia|]. by rewrite Hsh.
  - destruct (H0 H) as [|(i & n & Hi & Hn & Hx)]; [by left|]. right. exists i, (S n).
    split; [done|]. split; [cbn; lia|]. by rewrite Hsh.
Qed.

Lemma explained_read i b tr k r j st new :
  0 <= i < 10 -> 0 <= b < 8 -> 0 <= j < 64 ->
  explained tr k r j (Z.testbit (and_byte b (tbl k.(g_key_debounce_buffer) i) st) j) new ->
  explained (ReadByte i b :: tr) k r j (Z.testbit st j) new.
Proof.
  intros Hi Hb Hj. rewrite and_byte_bit by done. change (Z.testbit (tbl _ i) j) with (slot k i j). intros [H1 H0].
  unfold explained. change (interrupts (ReadByte i b :: tr)) with (interrupts tr).
  assert (Hz : slot_after (interrupts tr) k r 0 i j = slot k i j) by done. split; intros H.
  - destruct (H1 H) as [Hs Hall]. apply andb_true_iff in Hs as [Hs Hb1]. split; [done|].
    intros i' Hi'. apply elem_of_cons in Hi' as [[= -> <-]|Hi']; [|by apply Hall].
    exists 0%nat. split; [lia|]. rewrite Hz. rewrite Z.eqb_refl in Hb1. by rewrite orb_false_r in Hb1.
  - destruct (H0 H) as [Hs|]; [|by right]. apply andb_false_iff in Hs as [|Hs]; [by left|].
    apply orb_false_iff in Hs as [Hs _]. right. exists i, 0%nat. split; [done|]. split; [lia|]. by rewrite Hz.
Qed.

Lemma and_byte_u64 b v st : 0 <= v -> is_u64 st -> is_u64 (and_byte b v st).
Proof.
  unfold and_byte, is_u64. change 18446744073709551616 with (2 ^ 64). intros Hv Hst. apply land_bound; [lia|].
  apply Z.lor_nonneg. split; [lia|]. apply Z.ldiff_nonneg. lia.
Qed.

Lemma run_accesses_ok tr : forall st k r,
  keys_wf k -> Forall is_read tr -> is_u64 st ->
  exists st' k' r', run_accesses tr (st, k, r) = Ok (st', k', r') /\
    run_samples (interrupts tr) k r = Ok (k', r') /\ is_u64 st' /\
    forall j, 0 <= j < 64 -> explained tr k r j (Z.testbit st j) (Z.testbit st' j).
Proof.
  induction tr as [|a tr IH]; intros st k r Hwf Hrd Hst.
  { exists st, k, r. split; [done|]. split; [done|]. split; [done|]. intros j Hj. split; [|by left].
    intros H. split; [done|]. intros i Hi. by apply elem_of_nil in Hi. }
  apply Forall_cons_1 in Hrd as [Ha Hrd]. destruct a as [p|i b]; cbn [run_accesses access_step].
  - destruct (timer0_step p k r Hwf) as [r1 E]. set (k1 := set_system_time_ms _ _) in E.
    pose proof (timer0_wf _ _ _ _ _ Hwf E) as Hwf1. rewrite E, !bind_Ok.
    destruct (IH st k1 r1 Hwf1 Hrd Hst) as (st' & k' & r' & Er & Es & Hst' & Hbits).
    exists st', k', r'. split; [exact Er|]. change (interrupts (Interrupt p :: tr)) with (p :: interrupts tr).
    split; [cbn [run_samples]; by rewrite E, bind_Ok|]. split; [done|]. intros j Hj. eapply explained_interrupt; eauto.
  - destruct Ha as [Hi Hb]. rewrite rd_tbl by (rewrite (wf_buffer _ Hwf); lia). rewrite bind_Ok.
    destruct (IH (and_byte b (tbl k.(g_key_debounce_buffer) i) st) k r Hwf Hrd) as (st' & k' & r' & Er & Es & Hst' & Hbits).
    { apply and_byte_u64; [apply tbl_nonneg, (wf_samples _ Hwf)|done]. }
    exists st', k', r'. split; [exact Er|]. split; [done|]. split; [done|]. intros j Hj. apply explained_read; auto.
Qed.

(** A key counts as held when all slots say so. *)
Lemma window_slots k j :
  keys_wf k -> (all_set (window k) j = true <-> forall i, 0 <= i < 10 -> slot k i j = true).
Proof.
  intros Hwf. unfold window. rewrite all_set_rotate. unfold all_set, slot, tbl. rewrite forallb_forall.
  pose proof (wf_buffer _ Hwf) as Hl. split.
  - intros H i Hi. apply H, nth_In. lia.
  - intros H x Hx. destruct (In_nth _ _ 0 Hx) as (n & Hn & <-). specialize (H (Z.of_nat n) ltac:(lia)). by rewrite Nat2Z.id in H.
Qed.

Lemma window_slot_clear k i j : keys_wf k -> 0 <= i < 10 -> slot k i j = false -> all_set (window k) j = false.
Proof.
  intros Hwf Hi Hs. destruct (all_set (window k) j) eqn:E; [|done].
  pose proof (proj1 (window_slots k j Hwf) E) as E'. by rewrite (E' i Hi) in Hs.
Qed.

(** An interrupt changes one slot. *)
Lemma interrupt_slot p k r k1 r1 i j :
  keys_wf k -> TIMER0_OVF_vect p k r = Ok (k1, r1) -> 0 <= i < 10 -> i <> k.(buffer_pos) -> slot k1 i j = slot k i j.
Proof.
  intros Hwf E Hi Hne. destruct (timer0_step p k r Hwf) as [r2 E2]. rewrite E2 in E. injection E as <- _.
  pose proof (wf_pos _ Hwf). unfold slot, tbl. cbn. f_equal. rewrite !nth_lookup. by rewrite list_lookup_insert_ne by lia.
Qed.

(** A slot holds one of the samples of the window. *)
Lemma slot_in_window k i : keys_wf k -> 0 <= i < 10 -> tbl k.(g_key_debounce_buffer) i ∈ window k.
Proof.
  intros Hwf Hi. set (pos := Z.to_nat k.(buffer_pos)).
  assert (Hin : tbl k.(g_key_debounce_buffer) i ∈ take pos k.(g_key_debounce_buffer) ++ drop pos k.(g_key_debounce_buffer)).
  { rewrite take_drop. apply list_elem_of_In, nth_In. rewrite (wf_buffer _ Hwf). lia. }
  unfold window. apply elem_of_app. apply elem_of_app in Hin as []; auto.
Qed.

(** Whatever a slot holds after some of the interrupts, it was in the window at the
    start or one of the interrupts sampled it. *)
Lemma slot_after_sample ps k r n i j :
  keys_wf k -> 0 <= i < 10 -> exists v, v ∈ window k ++ map sample_of ps /\ slot_after ps k r n i j = Z.testbit v j.
Proof.
  intros Hwf Hi. unfold slot_after.
  destruct (run_samples_window (take n ps) k r Hwf) as (k' & r' & -> & Hwf' & Hw & _).
  exists (tbl k'.(g_key_debounce_buffer) i). split; [|done].
  pose proof (slot_in_window k' i Hwf' Hi) as Hin. rewrite Hw in Hin.
  apply subseteq_drop in Hin. rewrite <-(take_drop n ps), map_app, app_assoc. apply elem_of_app. by left.
Qed.

Lemma run_one_sample p k r : run_samples [p] k r = TIMER0_OVF_vect p k r.
Proof. cbn [run_samples]. generalize (TIMER0_OVF_vect p k r). by intros [[k' r']|e]. Qed.

(** One interrupt at most leaves every slot but the next one alone. *)
Lemma one_interrupt_slots ps k r k' r' i j :
  keys_wf k -> (length ps <= 1)%nat -> run_samples ps k r = Ok (k', r') ->
  0 <= i < 10 -> i <> k.(buffer_pos) -> slot k' i j = slot k i j.
Proof.
  intros Hwf Hlen E Hi Hne. destruct ps as [|p [|]]; [by injection E as <-| |cbn in Hlen; lia].
  rewrite run_one_sample in E. by apply (interrupt_slot p k r k' r').
Qed.

(** One interrupt at most: the bit is that of the window before or after it. *)
Lemma one_interrupt_bit tr k r k' r' j new :
  keys_wf k -> 0 <= j < 64 -> reads_all tr -> (length (interrupts tr) <= 1)%nat ->
  run_samples (interrupts tr) k r = Ok (k', r') -> explained tr k r j true new ->
  new = all_set (window k) j \/ new = all_set (window k') j.
Proof.
  intros Hwf Hj [Hrd Hall] Hlen E [H1 H0]. assert (Hb : 0 <= j / 8 < 8) by (Z.to_euclidean_division_equations; lia).
  destruct (run_samples_window (interrupts tr) k r Hwf) as (k0 & r0 & E0 & Hwf' & _).
  rewrite E in E0. injection E0 as <- <-.
  assert (Hn : forall n i, slot_after (interrupts tr) k r n i j = slot k i j \/
                           slot_after (interrupts tr) k r n i j = slot k' i j).
  { intros n i. unfold slot_after. destruct n as [|n]; [by left|right].
    rewrite take_ge by lia. by rewrite E. }
  assert (Hs : forall i, 0 <= i < 10 -> i <> k.(buffer_pos) -> slot k' i j = slot k i j)
    by (intros i; by apply (one_interrupt_slots (interrupts tr) k r k' r')).
  destruct new.
  - destruct (H1 eq_refl) as [_ Hset].
    assert (Hone : forall i, 0 <= i < 10 -> slot k i j = true \/ slot k' i j = true).
    { intros i Hi. destruct (Hset i (Hall i _ Hi Hb)) as (n & _ & Hx). destruct (Hn n i) as [Hy|Hy]; rewrite Hy in Hx; auto. }
    destruct (Hone _ (wf_pos _ Hwf)) as [Hp|Hp]; [left|right]; symmetry; apply window_slots; try done; intros i Hi;
      (destruct (Z.eq_dec i k.(buffer_pos)) as [->|Hne]; [done|]); destruct (Hone i Hi) as [Hx|Hx];
      rewrite ?Hs in * by done; done.
  - destruct (H0 eq_refl) as [|(i & n & Hi & _ & Hx)]; [done|].
    destruct (Hn n i) as [Hy|Hy]; rewrite Hy in Hx; [left|right]; symmetry; by eapply window_slot_clear.
Qed.

(** ** Theorems *)

(** Without an interrupt the trace is [key_read], whatever the order of its accesses. *)
Theorem key_read_uninterrupted tr k r :
  keys_wf k -> reads_all tr -> interrupts tr = [] ->
  key_read_interrupted tr k r = ('(v, k') ← key_read k; Ok (v, k', r)).
Proof.
  intros Hwf Hrd Hno. destruct (key_read_bits k Hwf) as (v & -> & Hv & Hbits). rewrite bind_Ok.
  destruct (run_accesses_ok tr 18446744073709551615 k r Hwf (proj1 Hrd) ltac:(done)) as (st & k' & r' & Er & Es & Hst & Hb).
  unfold key_read_interrupted. rewrite Er, bind_Ok. pose proof Es as Es0. rewrite Hno in Es0. injection Es0 as -> ->.
  replace v with st; [done|]. apply u64_bits_inj; [done|done|]. intros j Hj. specialize (Hb j Hj).
  change 18446744073709551615 with (Z.ones 64) in Hb. rewrite Z.ones_spec_low in Hb by lia. rewrite Hbits by done.
  destruct (one_interrupt_bit tr k' r' k' r' j (Z.testbit st j)) as [H|H]; try done. by rewrite Hno; cbn; lia.
Qed.

(** C15: The matrix read is linearizable: if [key_read]'s byte accesses, in whatever order
    they are made, are interrupted at most once (the interrupt comes every
    millisecond), the read ends without a fault, the interrupt does to the buffer and
    the clock what it does outside the read, and each key's bit is the debounced
    state of the key just before the interrupt or just after it, never anything else. *)
Theorem key_read_linearizable tr k r :
  keys_wf k -> reads_all tr -> (length (interrupts tr) <= 1)%nat ->
  exists st k' r', key_read_interrupted tr k r = Ok (u32 st, set_g_key_state st k', r') /\
    run_samples (interrupts tr) k r = Ok (k', r') /\ is_u64 st /\
    forall j, 0 <= j < 64 ->
      Z.testbit st j = all_set (window k) j \/ Z.testbit st j = all_set (window k') j.
Proof.
  intros Hwf Hrd Hlen.
  destruct (run_accesses_ok tr 18446744073709551615 k r Hwf (proj1 Hrd) ltac:(done)) as (st & k' & r' & Er & Es & Hst & Hb).
  exists st, k', r'. unfold key_read_interrupted. rewrite Er, bind_Ok. do 3 (split; [done|]).
  intros j Hj. eapply one_interrupt_bit; eauto. specialize (Hb j Hj).
  change 18446744073709551615 with (Z.ones 64) in Hb. by rewrite Z.ones_spec_low in Hb by lia.
Qed.

(** However many interrupts come, a key on which all samples agree, those in the
    buffer and those taken during the read, is read as they say. *)
Theorem key_read_steady tr k r j v :
  keys_wf k -> reads_all tr -> 0 <= j < 64 ->
  (forall x, x ∈ window k ++ map sample_of (interrupts tr) -> Z.testbit x j = v) ->
  exists st k' r', key_read_interrupted tr k r = Ok (u32 st, set_g_key_state st k', r') /\
    run_samples (interrupts tr) k r = Ok (k', r') /\ Z.testbit st j = v.
Proof.
  intros Hwf [Hrd Hall] Hj Hv.
  destruct (run_accesses_ok tr 18446744073709551615 k r Hwf Hrd ltac:(done)) as (st & k' & r' & Er & Es & Hst & Hb).
  exists st, k', r'. unfold key_read_interrupted. rewrite Er, bind_Ok. do 2 (split; [done|]).
  destruct (Hb j Hj) as [H1 H0]. change 18446744073709551615 with (Z.ones 64) in H0. rewrite Z.ones_spec_low in H0 by lia.
  assert (Hn : forall n i, 0 <= i < 10 -> slot_after (interrupts tr) k r n i j = v).
  { intros n i Hi. destruct (slot_after_sample (interrupts tr) k r n i j Hwf Hi) as (x & Hx & ->). by apply Hv. }
  destruct (Z.testbit st j).
  - assert (Hin : ReadByte 0 (j / 8) ∈ tr) by (apply Hall; Z.to_euclidean_division_equations; lia).
    destruct (H1 eq_refl) as [_ Hset]. destruct (Hset 0 Hin) as (n & _ & <-). apply Hn. lia.
  - destruct (H0 eq_refl) as [|(i & n & Hi & _ & <-)]; [done|]. by apply Hn.
Qed.

(** The accesses in program order, with one interrupt after the first [n]. *)
Definition program_order : list access :=
  flat_map (fun i => map (ReadByte (Z.of_nat i)) [0; 1; 2; 3; 4; 5; 6; 7]) (seq 0 10).
Definition interrupted_at (n : nat) (p : Z -> Z) : list access :=
  take n program_order ++ [Interrupt p] ++ drop n program_order.

Lemma program_order_all i b : 0 <= i < 10 -> 0 <= b < 8 -> ReadByte i b ∈ program_order.
Proof.
  intros Hi Hb. apply list_elem_of_In, in_flat_map. exists (Z.to_nat i). split; [apply in_seq; lia|].
  rewrite Z2Nat.id by lia. apply in_map. cbn. lia.
Qed.

Lemma program_order_reads : reads_all program_order.
Proof. split; [cbn; repeat (constructor; [cbn; lia|]); constructor|exact program_order_all]. Qed.

Lemma interrupted_at_reads n p : reads_all (interrupted_at n p).
Proof.
  destruct program_order_reads as [Hf Hall]. unfold interrupted_at. split.
  - apply Forall_app. split; [by apply Forall_take|]. constructor; [done|]. by apply Forall_drop.
  - intros i b Hi Hb. pose proof (Hall i b Hi Hb) as Hin. rewrite <-(take_drop n) in Hin.
    apply elem_of_app in Hin as [Hin|Hin]; apply elem_of_app; [by left|right]. by apply elem_of_cons; right.
Qed.

Lemma key_read_linearizable_witness :
  exists st k' r', key_read_interrupted (interrupted_at 37 (fun _ => 128)) initial_keys Avr.reset
    = Ok (u32 st, set_g_key_state st k', r') /\ Z.testbit st 5 = false.
Proof.
  destruct (key_read_linearizable (interrupted_at 37 (fun _ => 128)) initial_keys Avr.reset) as (st & k' & r' & E & Es & _ & Hb).
  - split; cbn; repeat constructor; lia.
  - apply interrupted_at_reads.
  - cbn. lia.
  - exists st, k', r'. split; [exact E|]. vm_compute in Es. injection Es as <- _.
    destruct (Hb 5 ltac:(lia)) as [-> | ->]; reflexivity.
Defined.

(** The clock is read with interrupts on.  One interrupt between the two bytes is
    harmless, giving the time before or after it, unless it carries into the high
    byte: then the value is 255 or 256 ms ahead when the low byte is read first, and
    255 or 256 ms behind when the high byte is. *)
Theorem clock_read_torn o p k r :
  keys_wf k ->
  exists t k' r', read_clock o [p] k r = Ok (t, k', r') /\ run_samples [p] k r = Ok (k', r') /\
    k'.(system_time_ms) = u16 (k.(system_time_ms) + 1) /\
    if k.(system_time_ms) mod 256 =? 255 then
      match o with
      | LowFirst => t = u16 (k'.(system_time_ms) + 255)
      | HighFirst => t = k.(system_time_ms) - 255
      end
    else t = match o with LowFirst => k.(system_time_ms) | HighFirst => k'.(system_time_ms) end.
Proof.
  intros Hwf. destruct (run_samples_window [p] k r Hwf) as (k' & r' & E & _ & _ & Ht & _).
  cbn [length] in Ht. change (Z.of_nat 1) with 1 in Ht. unfold read_clock. rewrite E, bind_Ok.
  eexists _, k', r'. split; [reflexivity|]. split; [reflexivity|]. split; [done|].
  rewrite Ht. pose proof (wf_time _ Hwf) as Hw. unfold is_u16, u16 in *. generalize dependent (system_time_ms k).
  intros t _ Hw. destruct (Z.eqb_spec (t mod 256) 255), o; Z.to_euclidean_division_equations; lia.
Qed.

End Interrupts.
