(* ===== verification/Combo.v ===== *)
(** * combo.c: the combo key recogniser, a table-driven state machine *)

From S2P Require Import Prelude.

Module Combo.

(** ** Types (combo.h, combo.c) *)

Inductive combo_action_t :=
  | COMBO_NONE
  | COMBO_A_DOWN | COMBO_B_DOWN | COMBO_C_DOWN | COMBO_D_DOWN | COMBO_E_DOWN
  | COMBO_A_RELEASE | COMBO_B_RELEASE | COMBO_C_RELEASE | COMBO_D_RELEASE | COMBO_E_RELEASE.

#[export] Instance combo_action_eq_dec : EqDecision combo_action_t.
Proof. solve_decision. Defined.

(** The values of the C enumeration. *)
Definition action_num (a : combo_action_t) : Z :=
  match a with
  | COMBO_NONE => 0
  | COMBO_A_DOWN => 1 | COMBO_B_DOWN => 2 | COMBO_C_DOWN => 3 | COMBO_D_DOWN => 4
  | COMBO_E_DOWN => 5
  | COMBO_A_RELEASE => 6 | COMBO_B_RELEASE => 7 | COMBO_C_RELEASE => 8
  | COMBO_D_RELEASE => 9 | COMBO_E_RELEASE => 10
  end.

Definition is_down (a : combo_action_t) : bool :=
  (1 <=? action_num a) && (action_num a <=? 5).

(** [combo_action + (COMBO_A_RELEASE - COMBO_A_DOWN)], used on DOWN actions. *)
Definition release_of (a : combo_action_t) : combo_action_t :=
  match a with
  | COMBO_NONE => COMBO_E_DOWN
  | COMBO_A_DOWN => COMBO_A_RELEASE
  | COMBO_B_DOWN => COMBO_B_RELEASE
  | COMBO_C_DOWN => COMBO_C_RELEASE
  | COMBO_D_DOWN => COMBO_D_RELEASE
  | COMBO_E_DOWN => COMBO_E_RELEASE
  | r => r
  end.

Record combo_rule := mk_rule {
  state_num : Z;          (* these rules apply to state N *)
  key : Z;                (* index of the key + which keystate to test *)
  next_state : Z;
  action : combo_action_t
}.

(** ** Globals *)

Definition KEYDOWN : Z := 16.
Definition KEYUP : Z := 32.

Definition state_offset : list Z :=
  [0;
   4; 5; 6; 7;
   8; 9; 10; 11;
   12; 13; 14;
   16; 17; 18; 19; 20; 21;
   22; 23; 24; 25; 26; 27; 28; 29; 30;
   32; 33; 34; 35; 36;
   38; 39;
   41; 42; 43].

Definition down (k : Z) : Z := Z.lor k KEYDOWN.
Definition up (k : Z) : Z := Z.lor k KEYUP.

Definition state_table : list combo_rule :=
  [(* 0 *) mk_rule 0 (down 0) 1 COMBO_NONE;
   (* 1 *) mk_rule 0 (down 5) 5 COMBO_NONE;
   (* 2 *) mk_rule 0 (down 4) 9 COMBO_NONE;
   (* 3 *) mk_rule 0 (down 8) 18 COMBO_NONE;
   (* 4 *) mk_rule 1 (down 1) 2 COMBO_NONE;
   (* 5 *) mk_rule 2 (down 2) 3 COMBO_NONE;
   (* 6 *) mk_rule 3 (down 3) 4 COMBO_A_DOWN;
   (* 7 *) mk_rule 4 (up 3) 0 COMBO_A_RELEASE;
   (* 8 *) mk_rule 5 (down 6) 6 COMBO_NONE;
   (* 9 *) mk_rule 6 (down 9) 7 COMBO_NONE;
   (* 10 *) mk_rule 7 (down 10) 8 COMBO_C_DOWN;
   (* 11 *) mk_rule 8 (up 10) 0 COMBO_C_RELEASE;
   (* 12 *) mk_rule 9 (up 4) 10 COMBO_NONE;
   (* 13 *) mk_rule 10 (down 5) 11 COMBO_NONE;
   (* 14 *) mk_rule 11 (up 5) 12 COMBO_NONE;
   (* 15 *) mk_rule 11 (down 6) 6 COMBO_NONE;
   (* 16 *) mk_rule 12 (down 6) 13 COMBO_NONE;
   (* 17 *) mk_rule 13 (up 6) 14 COMBO_NONE;
   (* 18 *) mk_rule 14 (down 6) 15 COMBO_NONE;
   (* 19 *) mk_rule 15 (up 6) 16 COMBO_NONE;
   (* 20 *) mk_rule 16 (down 7) 17 COMBO_D_DOWN;
   (* 21 *) mk_rule 17 (up 7) 0 COMBO_D_RELEASE;
   (* 22 *) mk_rule 18 (up 8) 19 COMBO_NONE;
   (* 23 *) mk_rule 19 (down 8) 20 COMBO_NONE;
   (* 24 *) mk_rule 20 (up 8) 21 COMBO_NONE;
   (* 25 *) mk_rule 21 (down 0) 22 COMBO_NONE;
   (* 26 *) mk_rule 22 (up 0) 23 COMBO_NONE;
   (* 27 *) mk_rule 23 (down 0) 24 COMBO_NONE;
   (* 28 *) mk_rule 24 (up 0) 25 COMBO_NONE;
   (* 29 *) mk_rule 25 (down 4) 26 COMBO_NONE;
   (* 30 *) mk_rule 26 (up 4) 27 COMBO_NONE;
   (* 31 *) mk_rule 26 (down 6) 6 COMBO_NONE;
   (* 32 *) mk_rule 27 (down 5) 28 COMBO_NONE;
   (* 33 *) mk_rule 28 (up 5) 29 COMBO_NONE;
   (* 34 *) mk_rule 29 (down 4) 30 COMBO_NONE;
   (* 35 *) mk_rule 30 (up 4) 31 COMBO_NONE;
   (* 36 *) mk_rule 31 (down 5) 32 COMBO_NONE;
   (* 37 *) mk_rule 31 (down 6) 13 COMBO_NONE;
   (* 38 *) mk_rule 32 (up 5) 33 COMBO_NONE;
   (* 39 *) mk_rule 33 (down 7) 34 COMBO_NONE;
   (* 40 *) mk_rule 33 (down 5) 11 COMBO_NONE;
   (* 41 *) mk_rule 34 (up 7) 35 COMBO_NONE;
   (* 42 *) mk_rule 35 (down 6) 36 COMBO_E_DOWN;
   (* 43 *) mk_rule 36 (up 6) 0 COMBO_E_RELEASE].

(** The static variables: the current state, the last action and its release key. *)
Record combo_globals := mk_combo {
  combo_state : Z;
  combo_action : combo_action_t;
  combo_release_key : Z
}.

Definition initial_combo : combo_globals := mk_combo 0 COMBO_NONE 0.

(** ** Operations *)

(** [while (bit && (value & bit) == 0) bit <<= 1]: the bit leaves the 16-bit
    word after at most sixteen shifts, so seventeen tests are enough
    ([rightmost_loop_spec]). *)
Fixpoint rightmost_bit_16_loop (fuel : nat) (value bit : Z) : Z :=
  match fuel with
  | O => bit
  | S f =>
      if negb (bit =? 0) && (Z.land value bit =? 0)
      then rightmost_bit_16_loop f value (u16 (Z.shiftl bit 1))
      else bit
  end.

Definition rightmost_bit_16 (value : Z) : Z := rightmost_bit_16_loop 17 value 1.

Definition combo_setup (c : combo_globals) : combo_globals :=
  mk_combo 0 c.(combo_action) c.(combo_release_key).

(** The rule loop.  [rules] is the table from the current rule on; reading a
    rule past the end of the table is out of bounds. *)
Fixpoint follow_rules (rules : list combo_rule) (st keydown keyup keystate : Z)
    (next : Z) (act : combo_action_t) : res (Z * combo_action_t) :=
  match rules with
  | [] => Fault OutOfBounds
  | rule :: rules' =>
      if rule.(state_num) =? st then
        let keytest := Z.land rule.(key) 240 in
        let keybit := Z.land rule.(key) 15 in
        let keymask := if keytest =? KEYDOWN then keydown
                       else if keytest =? KEYUP then keyup else keystate in
        if has_bits (Z.shiftl 1 keybit) keymask
        then Ok (rule.(next_state), rule.(action))
        else follow_rules rules' st keydown keyup keystate 0 COMBO_NONE
      else Ok (next, act)
  end.

Definition combo_recognize (g_key_down g_key_up g_key_state : Z) (c : combo_globals)
    : res (combo_action_t * combo_globals) :=
  let keydown := Z.land g_key_down 65535 in
  let keyup := Z.land g_key_up 65535 in
  let keystate := Z.land g_key_state 65535 in
  if (keydown =? 0) && (keyup =? 0) then Ok (COMBO_NONE, c)
  else if (keystate =? 240) && negb (bool_decide (c.(combo_action) = COMBO_B_DOWN)) then
    let keydown_bit := rightmost_bit_16 keydown in
    if keydown_bit =? 0
    then Ok (COMBO_NONE, mk_combo c.(combo_state) COMBO_NONE c.(combo_release_key))
    else Ok (COMBO_B_DOWN, mk_combo c.(combo_state) COMBO_B_DOWN keydown_bit)
  else if negb (bool_decide (c.(combo_action) = COMBO_NONE)) &&
          (action_num c.(combo_action) <=? action_num COMBO_E_DOWN) then
    if negb (has_bits keystate c.(combo_release_key)) then
      let a := release_of c.(combo_action) in
      Ok (a, mk_combo 0 a c.(combo_release_key))
    else Ok (COMBO_NONE, c)
  else
    offset ← rd state_offset c.(combo_state);
    '(next, act) ← follow_rules (drop (Z.to_nat offset) state_table) c.(combo_state)
                     keydown keyup keystate 0 c.(combo_action);
    let release := if bool_decide (act = COMBO_NONE) then c.(combo_release_key)
                   else rightmost_bit_16 keydown in
    Ok (act, mk_combo next act release).

(** A sequence of polls, each a (keydown, keyup, keystate) triple. *)
Fixpoint combo_run (evs : list (Z * Z * Z)) (c : combo_globals)
    : res (list combo_action_t * combo_globals) :=
  match evs with
  | [] => Ok ([], c)
  | (kd, ku, ks) :: evs' =>
      '(a, c') ← combo_recognize kd ku ks c;
      '(l, c'') ← combo_run evs' c';
      Ok (a :: l, c'')
  end.

(** The polls of a list of debounced key states, starting from state [prev]. *)
Fixpoint polls_of (prev : Z) (states : list Z) : list (Z * Z * Z) :=
  match states with
  | [] => []
  | s :: r => (Z.ldiff s prev, Z.ldiff prev s, s) :: polls_of s r
  end.

(** ** Lemmas *)

(** The states whose rule waits for the release of a completed combo. *)
Definition terminal (st : Z) : bool :=
  (st =? 4) || (st =? 8) || (st =? 17) || (st =? 36).

(** What the recogniser maintains between calls: a state of the table, and in the
    last one, whose rule ends the table, an action that is still held down. *)
Record combo_wf (c : combo_globals) : Prop := {
  wf_combo_state : 0 <= c.(combo_state) < 37;
  wf_terminal : c.(combo_state) = 36 -> is_down c.(combo_action) = true
}.

Lemma rightmost_loop_spec value n j :
  0 <= value -> 0 <= j <= 16 -> (16 - j < Z.of_nat n) ->
  (forall i, 0 <= i < j -> Z.testbit value i = false) ->
  let b := rightmost_bit_16_loop n value (if j =? 16 then 0 else 2 ^ j) in
  (b = 0 /\ forall i, 0 <= i < 16 -> Z.testbit value i = false) \/
  (exists i, 0 <= i < 16 /\ b = 2 ^ i /\ Z.testbit value i = true /\
     forall i', 0 <= i' < i -> Z.testbit value i' = false).
Proof.
  revert j. induction n as [|n IH]; intros j Hv Hj Hn Hlow; [lia|].
  cbn [rightmost_bit_16_loop]. destruct (Z.eqb_spec j 16) as [->|Hj16].
  - left. split; [done|]. intros. apply Hlow. lia.
  - pose proof (Z.pow_pos_nonneg 2 j ltac:(lia) ltac:(lia)).
    destruct (Z.eqb_spec (2 ^ j) 0) as [|_]; [lia|]. cbn [negb andb].
    pose proof (has_bits_pow2 value j ltac:(lia)) as Hb. unfold has_bits in Hb.
    destruct (Z.land value (2 ^ j) =? 0); cbn in Hb.
    + assert (E : u16 (Z.shiftl (2 ^ j) 1) = if (j + 1 =? 16) then 0 else 2 ^ (j + 1)).
      { rewrite Z.shiftl_mul_pow2, <-Z.pow_add_r by lia.
        destruct (Z.eqb_spec (j + 1) 16) as [->|]; [done|].
        apply u16_small. split; [lia|]. change 65536 with (2 ^ 16).
        apply Z.pow_lt_mono_r; lia. }
      rewrite E. apply IH; [done|lia|lia|]. intros i Hi.
      destruct (Z.eq_dec i j) as [->|]; [by rewrite <-Hb|]. apply Hlow. lia.
    + right. exists j. split; [lia|]. split; [done|]. split; [by rewrite <-Hb|done].
Qed.

Lemma rightmost_bit_16_spec value :
  0 <= value ->
  (rightmost_bit_16 value = 0 /\ forall i, 0 <= i < 16 -> Z.testbit value i = false) \/
  (exists i, 0 <= i < 16 /\ rightmost_bit_16 value = 2 ^ i /\ Z.testbit value i = true /\
     forall i', 0 <= i' < i -> Z.testbit value i' = false).
Proof. intros Hv. apply (rightmost_loop_spec value 17 0); [done|lia|lia|lia]. Qed.

Lemma rightmost_bit_zero value :
  0 <= value < 65536 -> rightmost_bit_16 value = 0 <-> value = 0.
Proof.
  intros Hv. destruct (rightmost_bit_16_spec value) as [[-> H]|(i & Hi & E & Hb & _)]; [lia| |].
  - split; [intros _|done]. apply Z.bits_inj'. intros j Hj. rewrite Z.bits_0.
    destruct (Z.lt_ge_cases j 16); [by apply H|]. apply (testbit_high value 16); lia.
  - split; intros H; [pose proof (Z.pow_pos_nonneg 2 i); lia|].
    subst. rewrite Z.bits_0 in Hb. done.
Qed.

(** The rule loop: it stops inside the table when a rule of another state
    follows, and its result comes from a rule of the state that matched. *)
Lemma follow_rules_ok rules st kd ku ks next act :
  Exists (fun r => r.(state_num) <> st) rules ->
  exists res, follow_rules rules st kd ku ks next act = Ok res.
Proof.
  intros H. revert next act. induction H as [r rs Hne|r rs _ IH]; intros next act;
    cbn [follow_rules].
  - destruct (Z.eqb_spec r.(state_num) st); [done|]. eauto.
  - destruct (Z.eqb_spec r.(state_num) st); [|eauto].
    destruct (has_bits _ _); [eauto|apply IH].
Qed.

Lemma follow_rules_result rules st kd ku ks next act n a :
  follow_rules rules st kd ku ks next act = Ok (n, a) ->
  (n = next /\ a = act /\ head (map state_num rules) <> Some st) \/ (n = 0 /\ a = COMBO_NONE) \/
  exists r, r ∈ rules /\ r.(state_num) = st /\ n = r.(next_state) /\ a = r.(action) /\
    (Z.land r.(key) 240 = KEYDOWN -> kd <> 0).
Proof.
  revert next act. induction rules as [|r rs IH]; intros next act H; [done|].
  cbn [follow_rules] in H. destruct (Z.eqb_spec r.(state_num) st) as [Hst|Hst].
  - destruct (has_bits _ _) eqn:Hb.
    + injection H as <- <-. right; right. exists r. split; [left|]. split; [done|].
      split; [done|]. split; [done|]. intros Hk. rewrite Hk in Hb. cbn in Hb.
      intros ->. unfold has_bits in Hb. rewrite Z.land_0_r in Hb. done.
    + right. destruct (IH _ _ H) as [(-> & -> & _)|[[-> ->]|(r' & Hin & Hr)]]; [by left|by left|].
      right. exists r'. split; [by right|done].
  - injection H as <- <-. left. split; [done|]. split; [done|]. cbn. congruence.
Qed.

(** Facts about the tables, by evaluation. *)
Definition rule_ok (r : combo_rule) : bool :=
  (0 <=? r.(next_state)) && (r.(next_state) <? 37) &&
  implb (terminal r.(next_state)) (is_down r.(action)) &&
  implb (is_down r.(action)) (Z.land r.(key) 240 =? KEYDOWN).

Lemma table_rule_ok r : r ∈ state_table -> rule_ok r = true.
Proof.
  intros H. apply list_elem_of_In in H. revert r H. apply forallb_forall. reflexivity.
Qed.

Definition offset_ok (s : Z) : bool :=
  let o := tbl state_offset s in
  let rules := drop (Z.to_nat o) state_table in
  match rules with
  | [] => false
  | r :: _ =>
      (r.(state_num) =? s) &&
      (implb (s <? 36) (existsb (fun r => negb (r.(state_num) =? s)) rules)) &&
      match rev (take (Z.to_nat o) state_table) with
      | [] => true
      | q :: _ => negb (q.(state_num) =? s)
      end
  end.

Lemma state_offset_ok s : 0 <= s < 37 -> offset_ok s = true.
Proof. intros Hs. by_range 0 37 s offset_ok. Qed.

Lemma length_state_offset : length state_offset = 37%nat.
Proof. done. Qed.

(** The rules of a state other than 36, scanned from its offset. *)
Lemma scan_state s kd ku ks act :
  0 <= s < 36 ->
  exists n a, follow_rules (drop (Z.to_nat (tbl state_offset s)) state_table) s kd ku ks 0 act
      = Ok (n, a) /\
    0 <= n < 37 /\ (terminal n = true -> is_down a = true) /\ (is_down a = true -> kd <> 0).
Proof.
  intros Hs. pose proof (state_offset_ok s ltac:(lia)) as Hok. unfold offset_ok in Hok.
  set (rules := drop _ state_table) in *.
  assert (Hsub : forall r, r ∈ rules -> rule_ok r = true).
  { intros r Hr. apply table_rule_ok. apply list_elem_of_In in Hr.
    apply list_elem_of_In. unfold rules in Hr.
    rewrite <-(take_drop (Z.to_nat (tbl state_offset s)) state_table). apply in_or_app. auto. }
  destruct rules as [|r0 rs] eqn:Er; [done|].
  apply andb_true_iff in Hok as [Hok _]. apply andb_true_iff in Hok as [Hhd Hex].
  apply Z.eqb_eq in Hhd. destruct (Z.ltb_spec s 36); [|lia]. cbn [implb] in Hex.
  apply existsb_exists in Hex as (r1 & Hin1 & Hne1).
  destruct (follow_rules_ok (r0 :: rs) s kd ku ks 0 act) as [[n a] E].
  { apply Exists_exists. exists r1. split; [done|].
    apply negb_true_iff, Z.eqb_neq in Hne1. done. }
  exists n, a. split; [exact E|].
  destruct (follow_rules_result _ _ _ _ _ _ _ _ _ E)
    as [(_ & _ & Hhead)|[[-> ->]|(r & Hin & _ & -> & -> & Hkd)]].
  - exfalso. apply Hhead. cbn. by rewrite Hhd.
  - split; [lia|]. split; [done|done].
  - specialize (Hsub r Hin). unfold rule_ok in Hsub.
    apply andb_true_iff in Hsub as [Hsub H4]. apply andb_true_iff in Hsub as [Hsub H3].
    apply andb_true_iff in Hsub as [H1 H2].
    split; [lia|]. split.
    + intros Ht. rewrite Ht in H3. done.
    + intros Hd. rewrite Hd in H4. apply Hkd. by apply Z.eqb_eq.
Qed.

(** The branch that "should never happen": the four keys of combo B remain held
    after another key was released, with no key newly pressed.  It breaks the
    invariant when combo E is down. *)
Definition hazard (g_key_down g_key_state : Z) : Prop :=
  Z.land g_key_state 65535 = 240 /\ Z.land g_key_down 65535 = 0.
Definition breaks (g_key_down g_key_state : Z) (c : combo_globals) : Prop :=
  hazard g_key_down g_key_state /\ c.(combo_state) = 36.

Lemma is_down_guard a :
  negb (bool_decide (a = COMBO_NONE)) && (action_num a <=? action_num COMBO_E_DOWN) = is_down a.
Proof. destruct a; reflexivity. Qed.

Lemma combo_step_safe kd ku ks c :
  combo_wf c -> ~ breaks kd ks c ->
  exists a c', combo_recognize kd ku ks c = Ok (a, c') /\ combo_wf c'.
Proof.
  intros Hwf Hhz. pose proof Hwf as [Hst Hterm]. unfold combo_recognize.
  destruct ((Z.land kd 65535 =? 0) && _) eqn:E1; [by exists COMBO_NONE, c|].
  destruct ((Z.land ks 65535 =? 240) && _) eqn:E2.
  { apply andb_true_iff in E2 as [E2 _]. apply Z.eqb_eq in E2.
    pose proof (land_range kd 65535 16 ltac:(lia) eq_refl) as Hr. change (2 ^ 16) with 65536 in Hr.
    destruct (Z.eqb_spec (rightmost_bit_16 (Z.land kd 65535)) 0) as [Hz|_].
    - eexists _, _. split; [done|]. split; [done|]. cbn. intros E36. destruct Hhz. split; [|done].
      split; [done|]. by apply (rightmost_bit_zero _ Hr).
    - eexists _, _. split; [done|]. split; [done|done]. }
  rewrite is_down_guard. destruct (is_down c.(combo_action)) eqn:Ed.
  { destruct (negb (has_bits _ _)); [|by exists COMBO_NONE, c].
    eexists _, _. split; [done|]. split; cbn; [lia|done]. }
  assert (Hs : 0 <= c.(combo_state) < 36).
  { destruct (Z.eq_dec c.(combo_state) 36) as [E|]; [|lia].
    specialize (Hterm E). congruence. }
  rewrite rd_tbl by (rewrite length_state_offset; lia). cbn [mbind res_bind].
  destruct (scan_state c.(combo_state) (Z.land kd 65535) (Z.land ku 65535)
    (Z.land ks 65535) c.(combo_action) Hs) as (n & a & E & Hn & Ht & _).
  rewrite E. eexists _, _. split; [done|]. split; [done|]. cbn. intros ->. by apply Ht.
Qed.

(** *** Gestures *)

(** What a player does with the combo keys: the states of the sixteen keys, each with the action
    that is due.  The keys pressed one after the other, the last one completing the combo. *)
Fixpoint press (held : Z) (due : combo_action_t) (keys : list Z) : list (Z * combo_action_t) :=
  match keys with
  | [] => []
  | k :: keys =>
      (Z.setbit held k, match keys with [] => due | _ => COMBO_NONE end) :: press (Z.setbit held k) due keys
  end.

(** Let go one after the other: the final key's release is due. *)
Fixpoint let_go (held final : Z) (due : combo_action_t) (keys : list Z) : list (Z * combo_action_t) :=
  match keys with
  | [] => []
  | k :: keys =>
      (Z.clearbit held k, if k =? final then due else COMBO_NONE) :: let_go (Z.clearbit held k) final due keys
  end.

Definition chord (down release : combo_action_t) (keys order : list Z) : list (Z * combo_action_t) :=
  press 0 down keys ++ let_go (foldr (fun k h => Z.setbit h k) 0 keys) (List.last keys 0) release order.

Fixpoint taps (down release : combo_action_t) (keys : list Z) : list (Z * combo_action_t) :=
  match keys with
  | [] => []
  | [k] => [(2 ^ k, down); (0, release)]
  | k :: keys => (2 ^ k, COMBO_NONE) :: (0, COMBO_NONE) :: taps down release keys
  end.

Definition gestures : list (list (Z * combo_action_t)) :=
  map (chord COMBO_A_DOWN COMBO_A_RELEASE [0; 1; 2; 3]) (permutations [0; 1; 2; 3]) ++
  flat_map (fun keys => map (chord COMBO_B_DOWN COMBO_B_RELEASE keys) (permutations [4; 5; 6; 7])) (permutations [4; 5; 6; 7]) ++
  map (chord COMBO_C_DOWN COMBO_C_RELEASE [5; 6; 9; 10]) (permutations [5; 6; 9; 10]) ++
  [taps COMBO_D_DOWN COMBO_D_RELEASE [4; 5; 6; 6; 7];
   taps COMBO_E_DOWN COMBO_E_RELEASE [8; 8; 0; 0; 4; 5; 4; 5; 7; 6]].

(** Polls that show the sixteen keys in the states of [g] one after the other, starting from
    [prev], with polls without a change anywhere in between; [acts] are the actions due. *)
Inductive shows : Z -> list (Z * combo_action_t) -> list (Z * Z * Z) -> list combo_action_t -> Prop :=
  | shows_done prev : shows prev [] [] []
  | shows_idle prev g evs acts kd ku ks :
      Z.land kd 65535 = 0 -> Z.land ku 65535 = 0 ->
      shows prev g evs acts -> shows prev g ((kd, ku, ks) :: evs) (COMBO_NONE :: acts)
  | shows_next prev s a g evs acts kd ku ks :
      Z.land kd 65535 = Z.ldiff s prev -> Z.land ku 65535 = Z.ldiff prev s -> Z.land ks 65535 = s ->
      shows s g evs acts -> shows prev ((s, a) :: g) ((kd, ku, ks) :: evs) (a :: acts).

(** No combo is begun or down. *)
Definition idle (c : combo_globals) : Prop := c.(combo_state) = 0 /\ is_down c.(combo_action) = false.

(** The recogniser looks at the last action and its key only while the combo is down. *)
Definition similar (c1 c2 : combo_globals) : Prop :=
  c1.(combo_state) = c2.(combo_state) /\
  (c1 = c2 \/ is_down c1.(combo_action) = false /\ is_down c2.(combo_action) = false).

#[export] Instance similar_refl : Reflexive similar.
Proof. intros c. split; [done|by left]. Qed.

Lemma follow_rules_first r rules st kd ku ks act1 act2 :
  r.(state_num) = st ->
  follow_rules (r :: rules) st kd ku ks 0 act1 = follow_rules (r :: rules) st kd ku ks 0 act2.
Proof. intros Hr. cbn [follow_rules]. by rewrite Hr, Z.eqb_refl. Qed.

Lemma offset_first s :
  0 <= s < 37 -> exists r rules, drop (Z.to_nat (tbl state_offset s)) state_table = r :: rules /\ r.(state_num) = s.
Proof.
  intros Hs. pose proof (state_offset_ok s Hs) as Hok. unfold offset_ok in Hok. destruct (drop _ state_table) as [|r rs]; [done|].
  exists r, rs. split; [done|]. apply andb_true_iff in Hok as [Hok _]. apply andb_true_iff in Hok as [Hhd _]. by apply Z.eqb_eq.
Qed.

Lemma recognize_similar kd ku ks c1 c2 a c1' :
  similar c1 c2 -> combo_recognize kd ku ks c1 = Ok (a, c1') ->
  exists c2', combo_recognize kd ku ks c2 = Ok (a, c2') /\ similar c1' c2'.
Proof.
  intros [Hst [<-|[H1 H2]]] E; [by exists c1'|]. unfold combo_recognize in *.
  assert (HB : forall c, is_down c.(combo_action) = false -> bool_decide (c.(combo_action) = COMBO_B_DOWN) = false)
    by (intros [? [] ?]; done).
  rewrite HB in * by done. destruct ((Z.land kd 65535 =? 0) && _).
  { injection E as <- <-. exists c2. split; [done|]. split; [done|by right]. }
  destruct ((Z.land ks 65535 =? 240) && _).
  { destruct (_ =? 0); injection E as <- <-; eexists; (split; [done|]); split; try done; [by right|by left; rewrite Hst]. }
  rewrite is_down_guard in *. rewrite H1 in E. rewrite H2, <-Hst.
  destruct (rd state_offset c1.(combo_state)) as [o|] eqn:Eo; [|done]. rewrite !bind_Ok in *.
  assert (Hr : 0 <= c1.(combo_state) < 37) by (apply rd_ok in Eo as [? Hl]; apply lookup_lt_Some in Hl; rewrite length_state_offset in Hl; lia).
  rewrite rd_tbl in Eo by (rewrite length_state_offset; lia). injection Eo as <-.
  destruct (offset_first _ Hr) as (r & rules & Ed & Hf). rewrite Ed in *.
  rewrite (follow_rules_first r rules _ _ _ _ c2.(combo_action) c1.(combo_action) Hf).
  destruct (follow_rules _ _ _ _ _ _ _) as [[n act]|]; [|done]. rewrite bind_Ok in *. injection E as <- <-.
  eexists. split; [done|]. split; [done|]. destruct (bool_decide_reflect (act = COMBO_NONE)) as [->|]; [by right|by left].
Qed.

Lemma run_similar evs : forall c1 c2 l c1', similar c1 c2 -> combo_run evs c1 = Ok (l, c1') ->
  exists c2', combo_run evs c2 = Ok (l, c2') /\ similar c1' c2'.
Proof.
  induction evs as [|[[kd ku] ks] evs IH]; intros c1 c2 l c1' Hs E; cbn [combo_run] in *.
  { injection E as <- <-. by exists c2. }
  destruct (combo_recognize kd ku ks c1) as [[a d1]|] eqn:E1; [|done]. rewrite bind_Ok in E.
  destruct (recognize_similar _ _ _ _ _ _ _ Hs E1) as (d2 & -> & Hd). rewrite bind_Ok.
  destruct (combo_run evs d1) as [[l1 e1]|] eqn:E2; [|done]. rewrite bind_Ok in E. injection E as <- <-.
  destruct (IH _ _ _ _ Hd E2) as (e2 & -> & He). by exists e2.
Qed.

Lemma combo_run_app evs1 : forall evs2 c,
  combo_run (evs1 ++ evs2) c =
  ('(l1, c) ← combo_run evs1 c; '(l2, c) ← combo_run evs2 c; Ok (l1 ++ l2, c)).
Proof.
  induction evs1 as [|[[kd ku] ks] evs1 IH]; intros evs2 c; cbn [combo_run app].
  - rewrite bind_Ok. by destruct (combo_run evs2 c) as [[]|].
  - destruct (combo_recognize kd ku ks c) as [[a c1]|]; [|done]. rewrite !bind_Ok, IH.
    destruct (combo_run evs1 c1) as [[l1 c2]|]; [|done]. rewrite !bind_Ok. by destruct (combo_run evs2 c2) as [[]|].
Qed.

Lemma last_cons_default (s : Z) l : forall d, List.last (s :: l) d = List.last l s.
Proof.
  revert s. induction l as [|x l IH]; intros s d; [done|]. change (List.last (s :: x :: l) d) with (List.last (x :: l) d). by rewrite !IH.
Qed.

Lemma polls_of_app ss1 : forall prev ss2,
  polls_of prev (ss1 ++ ss2) = polls_of prev ss1 ++ polls_of (List.last ss1 prev) ss2.
Proof.
  induction ss1 as [|s ss1 IH]; intros prev ss2; [done|]. cbn [app polls_of]. rewrite IH.
  rewrite (last_cons_default s ss1 prev). done.
Qed.

(** Every gesture, from the initial state, by evaluation. *)
Definition gesture_ok (g : list (Z * combo_action_t)) : bool :=
  match combo_run (polls_of 0 (map fst g)) initial_combo with
  | Ok (acts, c) => bool_decide (acts = map snd g) && (c.(combo_state) =? 0) && negb (is_down c.(combo_action))
  | Fault _ => false
  end && (List.last (map fst g) 0 =? 0).

Lemma gestures_ok g : g ∈ gestures -> gesture_ok g = true.
Proof. intros Hg. apply list_elem_of_In in Hg. revert g Hg. apply forallb_forall. vm_compute. reflexivity. Qed.

Lemma gesture_run g c : g ∈ gestures -> idle c ->
  (exists c', combo_run (polls_of 0 (map fst g)) c = Ok (map snd g, c') /\ idle c') /\ List.last (map fst g) 0 = 0.
Proof.
  intros Hg [Hc Hd]. apply gestures_ok in Hg. unfold gesture_ok in Hg. apply andb_true_iff in Hg as [Hg Hl%Z.eqb_eq]. split; [|done].
  destruct (combo_run _ initial_combo) as [[acts c1]|] eqn:E; [|done].
  apply andb_true_iff in Hg as [[Ha%bool_decide_eq_true Hs%Z.eqb_eq]%andb_true_iff Hdown%negb_true_iff].
  destruct (run_similar (polls_of 0 (map fst g)) initial_combo c acts c1) as (c2 & E2 & [Hs2 Hd2]); [split; [done|by right]|done|].
  exists c2. rewrite <-Ha. split; [done|]. split; [congruence|]. destruct Hd2 as [<-|[]]; done.
Qed.

Lemma gestures_run gs : Forall (fun g => g ∈ gestures) gs -> forall c, idle c ->
  exists c', combo_run (polls_of 0 (map fst (concat gs))) c = Ok (map snd (concat gs), c') /\ idle c'.
Proof.
  induction 1 as [|g gs Hg _ IH]; intros c Hc; [by exists c|]. cbn [concat].
  destruct (gesture_run g c Hg Hc) as [(c1 & E1 & H1) Hl]. destruct (IH c1 H1) as (c2 & E2 & H2). exists c2. split; [|done].
  by rewrite !map_app, polls_of_app, Hl, combo_run_app, E1, bind_Ok, E2, bind_Ok.
Qed.

Lemma land_low x : Z.land (Z.land x 65535) 65535 = Z.land x 65535.
Proof. by rewrite <-Z.land_assoc. Qed.

(** Only the sixteen keys count, and polls in which they do not change do not. *)
Lemma recognize_low kd ku ks c :
  combo_recognize (Z.land kd 65535) (Z.land ku 65535) (Z.land ks 65535) c = combo_recognize kd ku ks c.
Proof. unfold combo_recognize. by rewrite !land_low. Qed.

Lemma shows_run prev g evs acts : shows prev g evs acts -> forall c c',
  combo_run (polls_of prev (map fst g)) c = Ok (map snd g, c') -> combo_run evs c = Ok (acts, c').
Proof.
  induction 1 as [prev|prev g evs acts kd ku ks Hd Hu _ IH|prev s a g evs acts kd ku ks Hd Hu Hk _ IH]; intros c c' E; [done| |];
    cbn [combo_run].
  - assert (E0 : combo_recognize kd ku ks c = Ok (COMBO_NONE, c)) by (unfold combo_recognize; by rewrite Hd, Hu).
    rewrite E0, bind_Ok. by rewrite (IH _ _ E), bind_Ok.
  - cbn [map fst snd polls_of combo_run] in E. rewrite <-recognize_low, Hd, Hu, Hk.
    destruct (combo_recognize _ _ _ c) as [[a1 c1]|]; [|done]. rewrite bind_Ok in *.
    destruct (combo_run (polls_of s (map fst g)) c1) as [[l c2]|] eqn:E1; [|done]. rewrite bind_Ok in E. injection E as -> -> ->.
    by rewrite (IH _ _ E1), bind_Ok.
Qed.

(** ** Theorems *)

(** [state_offset] indexes [state_table] correctly: the rules of each of the
    37 states start exactly at the recorded offset and are followed, except for
    the last state, by a rule of another state; and every rule leads to a state
    of the table. *)
Theorem state_table_indexed s :
  0 <= s < 37 ->
  (exists r rs, drop (Z.to_nat (tbl state_offset s)) state_table = r :: rs /\
     r.(state_num) = s /\ (s < 36 -> Exists (fun q => q.(state_num) <> s) rs)) /\
  (forall r, r ∈ state_table -> 0 <= r.(next_state) < 37).
Proof.
  intros Hs. split.
  - pose proof (state_offset_ok s Hs) as Hok. unfold offset_ok in Hok.
    destruct (drop _ state_table) as [|r rs]; [done|].
    apply andb_true_iff in Hok as [Hok _]. apply andb_true_iff in Hok as [Hhd Hex].
    apply Z.eqb_eq in Hhd. exists r, rs. split; [done|]. split; [done|]. intros Hlt.
    destruct (Z.ltb_spec s 36); [|lia]. cbn in Hex. rewrite Hhd, Z.eqb_refl in Hex. cbn in Hex.
    apply existsb_exists in Hex as (q & Hin & Hq). apply Exists_exists. exists q.
    split; [done|]. by apply negb_true_iff, Z.eqb_neq in Hq.
  - intros r Hr. apply table_rule_ok in Hr. unfold rule_ok in Hr. lia.
Qed.

Lemma state_table_indexed_witness :
  exists r rs, drop (Z.to_nat (tbl state_offset 33)) state_table = r :: rs /\ r.(state_num) = 33.
Proof.
  destruct (state_table_indexed 33 ltac:(lia)) as [(r & rs & H1 & H2 & _) _].
  exists r, rs. split; assumption.
Defined.

(** From a well-formed state the recogniser never reads outside its tables,
    for any sequence of polls in which combo B's four keys are never left held by
    the release of another key; well-formedness is kept. *)
Theorem combo_run_safe evs c :
  combo_wf c -> Forall (fun '(kd, _, ks) => ~ hazard kd ks) evs ->
  exists l c', combo_run evs c = Ok (l, c') /\ combo_wf c' /\ length l = length evs.
Proof.
  revert c. induction evs as [|[[kd ku] ks] evs IH]; intros c Hwf Hev.
  - by exists [], c.
  - apply Forall_cons_1 in Hev as [Hh Hev].
    destruct (combo_step_safe kd ku ks c Hwf) as (a & c1 & E1 & Hwf1); [by intros []|].
    destruct (IH c1 Hwf1 Hev) as (l & c2 & E2 & Hwf2 & Hl).
    exists (a :: l), c2. cbn [combo_run]. rewrite E1. cbn [mbind res_bind]. rewrite E2.
    cbn. by rewrite Hl.
Qed.

Lemma combo_run_safe_witness :
  exists l c', combo_run (polls_of 0 [1; 3; 7; 15; 7]) initial_combo = Ok (l, c') /\
    length l = 5%nat.
Proof.
  destruct (combo_run_safe (polls_of 0 [1; 3; 7; 15; 7]) initial_combo) as (l & c' & H & _ & Hl).
  - split; [cbn; lia|done].
  - cbn. repeat constructor; intros [H _]; vm_compute in H; discriminate H.
  - exists l, c'. split; [exact H|exact Hl].
Defined.

(** When the recogniser reports a combo as down, it remembers that combo and
    its release key, the lowest of the keys pressed in this poll. *)
Theorem combo_down_records kd ku ks c a c' :
  combo_wf c -> combo_recognize kd ku ks c = Ok (a, c') -> is_down a = true ->
  c'.(combo_action) = a /\
  exists i, 0 <= i < 16 /\ c'.(combo_release_key) = 2 ^ i /\ Z.testbit kd i = true /\
    forall i', 0 <= i' < i -> Z.testbit kd i' = false.
Proof.
  intros [Hst Hterm] H Hd.
  pose proof (land_range kd 65535 16 ltac:(lia) eq_refl) as Hr. change (2 ^ 16) with 65536 in Hr.
  assert (Hrel : Z.land kd 65535 <> 0 -> exists i, 0 <= i < 16 /\
    rightmost_bit_16 (Z.land kd 65535) = 2 ^ i /\ Z.testbit kd i = true /\
    forall i', 0 <= i' < i -> Z.testbit kd i' = false).
  { intros Hnz. destruct (rightmost_bit_16_spec (Z.land kd 65535)) as [[E _]|(i & Hi & E & Hb & Hl)];
      [lia|apply (rightmost_bit_zero _ Hr) in E; done|].
    exists i. split; [done|]. split; [done|].
    assert (Hm : forall j, 0 <= j < 16 -> Z.testbit (Z.land kd 65535) j = Z.testbit kd j).
    { intros j Hj. rewrite Z.land_spec. change 65535 with (Z.ones 16).
      rewrite Z.ones_spec_low by lia. apply andb_true_r. }
    rewrite Hm in Hb by lia. split; [done|]. intros i' Hi'. rewrite <-Hm by lia. by apply Hl. }
  unfold combo_recognize in H.
  destruct ((Z.land kd 65535 =? 0) && _); [injection H as <- <-; done|].
  destruct ((Z.land ks 65535 =? 240) && _).
  { destruct (Z.eqb_spec (rightmost_bit_16 (Z.land kd 65535)) 0) as [Hz|Hz];
      injection H as <- <-; [done|]. split; [done|]. apply Hrel.
    intros E. rewrite E in Hz. done. }
  rewrite is_down_guard in H. destruct (is_down c.(combo_action)) eqn:Ed.
  { destruct (negb (has_bits _ _)); injection H as <- <-; [|done].
    destruct c.(combo_action); done. }
  assert (Hs : 0 <= c.(combo_state) < 36).
  { destruct (Z.eq_dec c.(combo_state) 36) as [E|]; [|lia].
    specialize (Hterm E). congruence. }
  rewrite rd_tbl in H by (rewrite length_state_offset; lia). cbn [mbind res_bind] in H.
  destruct (scan_state c.(combo_state) (Z.land kd 65535) (Z.land ku 65535)
    (Z.land ks 65535) c.(combo_action) Hs) as (n & b & E & Hn & Ht & Hkd).
  rewrite E in H. cbn in H. injection H as <- <-. split; [done|]. cbn.
  rewrite bool_decide_eq_false_2 by (intros ->; done). apply Hrel, Hkd, Hd.
Qed.

Lemma combo_down_records_witness :
  exists i, 0 <= i < 16 /\ 8 = 2 ^ i.
Proof.
  destruct (combo_down_records 8 0 15 (mk_combo 3 COMBO_NONE 0) COMBO_A_DOWN
    (mk_combo 4 COMBO_A_DOWN 8)) as (_ & i & Hi & E & _).
  - split; [cbn; lia|done].
  - reflexivity.
  - reflexivity.
  - exists i. split; [exact Hi|exact E].
Defined.

(** While a combo is down (and the poll does not complete combo B on top of
    it), the recogniser stays silent as long as the release key is held, and
    reports that combo's release, back in state 0, when it is let go. *)
Theorem combo_release kd ku ks c :
  is_down c.(combo_action) = true ->
  (Z.land ks 65535 <> 240 \/ c.(combo_action) = COMBO_B_DOWN) ->
  Z.land kd 65535 <> 0 \/ Z.land ku 65535 <> 0 ->
  combo_recognize kd ku ks c =
    if has_bits (Z.land ks 65535) c.(combo_release_key) then Ok (COMBO_NONE, c)
    else Ok (release_of c.(combo_action),
             mk_combo 0 (release_of c.(combo_action)) c.(combo_release_key)).
Proof.
  intros Hd Hb Hk. unfold combo_recognize.
  destruct ((Z.land kd 65535 =? 0) && _) eqn:E1; [lia|].
  destruct ((Z.land ks 65535 =? 240) && _) eqn:E2.
  { apply andb_true_iff in E2 as [E2 E3]. apply Z.eqb_eq in E2.
    destruct Hb as [Hb|Hb]; [done|]. rewrite Hb in E3. done. }
  rewrite is_down_guard, Hd. destruct (has_bits _ _); done.
Qed.

Lemma combo_release_witness :
  combo_recognize 0 8 7 (mk_combo 4 COMBO_A_DOWN 8)
  = Ok (COMBO_A_RELEASE, mk_combo 0 COMBO_A_RELEASE 8).
Proof. rewrite combo_release; [reflexivity|reflexivity|left; done|right; done]. Defined.

(** C33: The five combos of combo.c's diagram are recognised, in any order and any number of
    times: a player who plays gestures of [gestures] one after the other (the keys of combo
    A or C pressed in the order of the diagram, the four keys of combo B in any order, all
    of them let go in any order; or combo D's or E's keys tapped in turn), with polls in
    which the sixteen combo keys do not change in between and the other 48 keys doing
    anything, gets exactly these actions: the combo's DOWN in the poll that shows its final
    key pressed, its RELEASE in the poll that shows the final key let go, and none in all
    other polls.  This holds from any state in which no gesture is begun and no combo is
    down, whatever combo was last, and such a state is reached again. *)
Theorem combos_recognised gs evs acts c :
  idle c -> Forall (fun g => g ∈ gestures) gs -> shows 0 (concat gs) evs acts ->
  exists c', combo_run evs c = Ok (acts, c') /\ idle c'.
Proof.
  intros Hi Hg Hs. destruct (gestures_run gs Hg c Hi) as (c' & E & Hi'). exists c'. split; [|done]. by apply (shows_run _ _ _ _ Hs).
Qed.

(** Combo B's keys in the order 7, 4, 6, 5 while key 40 is held, and combo E. *)
Lemma combos_recognised_witness :
  exists c', combo_run (map (fun '(kd, ku, ks) => (kd, ku, ks + 2 ^ 40)) (polls_of 0 [128; 144; 208; 240; 208; 192; 64; 0]) ++
      [(2 ^ 41, 0, 2 ^ 41)] ++ polls_of 0 [256; 0; 256; 0; 1; 0; 1; 0; 16; 0; 32; 0; 16; 0; 32; 0; 128; 0; 64; 0])
      (mk_combo 0 COMBO_A_RELEASE 8)
    = Ok ([COMBO_NONE; COMBO_NONE; COMBO_NONE; COMBO_B_DOWN; COMBO_B_RELEASE] ++ replicate 22 COMBO_NONE ++ [COMBO_E_DOWN; COMBO_E_RELEASE], c')
    /\ idle c'.
Proof.
  apply (combos_recognised [chord COMBO_B_DOWN COMBO_B_RELEASE [7; 4; 6; 5] [5; 4; 7; 6];
    taps COMBO_E_DOWN COMBO_E_RELEASE [8; 8; 0; 0; 4; 5; 4; 5; 7; 6]]).
  - split; reflexivity.
  - repeat constructor; apply list_elem_of_In; vm_compute; repeat (first [left; reflexivity | right]).
  - vm_compute; repeat first [apply shows_done | apply shows_idle; [reflexivity..|] | apply shows_next; [reflexivity..|]].
Defined.

(** The branch marked "this should never happen" does happen, and it can
    make the rule loop run past the end of [state_table]: after combo E is
    completed with the rest of combo B's keys and key 0 pressed in the same poll,
    releasing key 0 and then key 7 faults. *)
Theorem combo_table_overrun :
  hazard (Z.ldiff 240 241) 240 /\
  combo_run (polls_of 0 [256; 0; 256; 0; 1; 0; 1; 0; 16; 0; 32; 0; 16; 0; 32; 0; 128; 0;
                         241; 240; 112]) initial_combo = Fault OutOfBounds.
Proof. split; [split; reflexivity|reflexivity]. Qed.

(** Exactly when the recogniser leaves its table: in the last state, once the branch
    that "should never happen" has forgotten combo E, when a key is pressed or released that is
    not the release of key 6 and does not leave combo B's four keys held. *)
Theorem combo_faults_exactly kd ku ks c :
  0 <= c.(combo_state) < 37 ->
  is_ok (combo_recognize kd ku ks c) = false <->
  c.(combo_state) = 36 /\ is_down c.(combo_action) = false /\ (Z.land kd 65535 <> 0 \/ Z.land ku 65535 <> 0) /\
  Z.land ks 65535 <> 240 /\ Z.testbit (Z.land ku 65535) 6 = false.
Proof.
  intros Hst. unfold combo_recognize.
  destruct ((Z.land kd 65535 =? 0) && _) eqn:E1; [split; [done|lia]|].
  destruct (bool_decide_reflect (c.(combo_action) = COMBO_B_DOWN)) as [EB|HB].
  { rewrite andb_false_r, is_down_guard, EB. change (is_down COMBO_B_DOWN) with true. cbv iota. destruct (negb _); cbn; split; try done; intros (_ & Hn & _); discriminate Hn. }
  destruct (Z.eqb_spec (Z.land ks 65535) 240) as [Eks|Hks]; cbn [andb negb].
  { destruct (rightmost_bit_16 _ =? 0); cbn; split; try done; intros (_ & _ & _ & Hn & _); by destruct Hn. }
  rewrite is_down_guard. destruct (is_down c.(combo_action)) eqn:Ed.
  { destruct (negb _); cbn; split; try done; intros (_ & Hn & _); discriminate Hn. }
  rewrite rd_tbl by (rewrite length_state_offset; lia). rewrite bind_Ok.
  destruct (Z.eq_dec c.(combo_state) 36) as [E36|Hne].
  - rewrite E36. change (drop _ state_table) with [mk_rule 36 (up 6) 0 COMBO_E_RELEASE]. cbn [follow_rules state_num].
    change (Z.land (key _) 240 =? KEYDOWN) with false. change (Z.land (key _) 240 =? KEYUP) with true. cbv iota zeta.
    change (Z.shiftl 1 (Z.land (key _) 15)) with 64.
    replace (has_bits 64 (Z.land ku 65535)) with (Z.testbit (Z.land ku 65535) 6)
      by (rewrite <-(has_bits_pow2 _ 6) by lia; unfold has_bits; by rewrite Z.land_comm).
    destruct (Z.testbit (Z.land ku 65535) 6); cbn; split; try done; [intros (_ & _ & _ & _ & ?); done|]. intros _. repeat split; lia || done.
  - destruct (scan_state c.(combo_state) (Z.land kd 65535) (Z.land ku 65535) (Z.land ks 65535) c.(combo_action)) as (n & a & -> & _); [lia|].
    rewrite bind_Ok. split; [done|]. by intros [].
Qed.

Lemma combo_faults_exactly_witness : is_ok (combo_recognize 0 128 112 (mk_combo 36 COMBO_NONE 64)) = false.
Proof. apply combo_faults_exactly; [cbn; lia|]. repeat split; try (cbn; lia); try done. right. done. Defined.

(** Completing combo B while combo D is still held loses the release of
    combo D: every key ends up released, D was reported down, and its release is
    never reported. *)
Theorem combo_D_release_lost :
  exists l c,
    combo_run (polls_of 0 [16; 0; 32; 0; 64; 0; 64; 0; 128; 144; 176; 240; 112; 0]) initial_combo
      = Ok (l, c) /\
    COMBO_D_DOWN ∈ l /\ COMBO_D_RELEASE ∉ l /\ c.(combo_action) = COMBO_B_RELEASE.
Proof.
  eexists _, _. split; [reflexivity|]. split; [|split; [|done]].
  - apply list_elem_of_In. vm_compute. tauto.
  - intros H. apply list_elem_of_In in H. vm_compute in H. intuition discriminate.
Qed.

End Combo.
