(* ===== verification/Midi.v ===== *)
(** * midi.c: MIDI globals, outgoing messages, note maps and the MIDI clock

    The USB class driver below midi.c is an interface here: [MidiOut] is the
    function midi.c calls, [MidiOutLaws] what midi.c relies on.  UsbMidi.v
    discharges it with a model of the driver. *)

From S2P Require Import Prelude.

(** ** USB-MIDI event packets (LUFA's MIDI_EventPacket_t) *)

Record packet := mk_packet { Event : Z; Data1 : Z; Data2 : Z; Data3 : Z }.

#[export] Instance packet_eq_dec : EqDecision packet.
Proof. solve_decision. Defined.

Definition packet_wf (p : packet) : Prop :=
  is_u8 p.(Event) /\ is_u8 p.(Data1) /\ is_u8 p.(Data2) /\ is_u8 p.(Data3).

(** The output side of the USB driver. *)
Class MidiOut (W : Type) := {
  MIDI_Device_SendEventPacket : packet -> W -> W;
  MIDI_Device_Flush : W -> W;
  sent : W -> list packet;       (* every packet accepted so far, in order *)
  flushed : W -> list packet;    (* those handed to the host or ready for it to take *)
  link_up : W -> Prop            (* configured, and the host reads the endpoint *)
}.

Class MidiOutLaws (W : Type) `{MidiOut W} := {
  send_link_up : forall p w, link_up w -> packet_wf p -> link_up (MIDI_Device_SendEventPacket p w);
  send_appends : forall p w, link_up w -> packet_wf p ->
    sent (MIDI_Device_SendEventPacket p w) = sent w ++ [p];
  flush_link_up : forall w, link_up w -> link_up (MIDI_Device_Flush w);
  flush_sent : forall w, link_up w -> sent (MIDI_Device_Flush w) = sent w;
  flush_flushed : forall w, link_up w -> flushed (MIDI_Device_Flush w) = sent w;
  send_flushed : forall p w, link_up w -> packet_wf p ->
    flushed w `prefix_of` flushed (MIDI_Device_SendEventPacket p w)
}.

(** Several packets in a row. *)
Fixpoint send_all `{MidiOut W} (ps : list packet) (w : W) : W :=
  match ps with
  | [] => w
  | p :: ps' => send_all ps' (MIDI_Device_SendEventPacket p w)
  end.

Lemma send_all_spec `{MidiOutLaws W} ps w :
  link_up w -> Forall packet_wf ps ->
  link_up (send_all ps w) /\ sent (send_all ps w) = sent w ++ ps.
Proof.
  revert w. induction ps as [|p ps IH]; intros w Hw Hps; cbn [send_all].
  - by rewrite app_nil_r.
  - apply Forall_cons_1 in Hps as [Hp Hps].
    destruct (IH (MIDI_Device_SendEventPacket p w)) as [H1 H2]; [by apply send_link_up|done|].
    split; [done|]. rewrite H2, send_appends by done. by rewrite <-app_assoc.
Qed.

Lemma send_all_app `{MidiOut W} ps qs w :
  send_all (ps ++ qs) w = send_all qs (send_all ps w).
Proof. revert w. induction ps as [|p ps IH]; intros w; cbn; [done|]. apply IH. Qed.

(** The reference implementation: the trace of the packets. *)
#[export] Instance trace_out : MidiOut (list packet) := {|
  MIDI_Device_SendEventPacket p w := w ++ [p];
  MIDI_Device_Flush w := w;
  sent w := w;
  flushed w := w;
  link_up _ := True
|}.
#[export] Instance trace_out_laws : MidiOutLaws (list packet).
Proof. split; try done. intros p w _ _. by exists [p]. Qed.

(** The input side of the USB driver: [None] when no packet is ready. *)
Class MidiIn (W : Type) := {
  MIDI_Device_ReceiveEventPacket : packet -> W -> option packet * W;
  incoming : W -> list packet    (* what the host has queued for us *)
}.

Class MidiInLaws (W : Type) `{MidiIn W} (in_ok : W -> Prop) := {
  receive_spec : forall event w, in_ok w ->
    match MIDI_Device_ReceiveEventPacket event w with
    | (Some p, w') => incoming w = p :: incoming w'
    | (None, w') => incoming w' = incoming w
    end;
  receive_ok : forall event w, in_ok w -> in_ok (snd (MIDI_Device_ReceiveEventPacket event w))
}.

(** The two directions of a link do not disturb each other. *)
Class MidiLinkLaws (W : Type) `{MidiOut W} `{MidiIn W} (in_ok : W -> Prop) := {
  link_in_laws :: MidiInLaws W in_ok;
  send_in : forall p w, in_ok w -> in_ok (MIDI_Device_SendEventPacket p w) /\
    incoming (MIDI_Device_SendEventPacket p w) = incoming w;
  flush_in : forall w, in_ok w -> in_ok (MIDI_Device_Flush w) /\
    incoming (MIDI_Device_Flush w) = incoming w;
  receive_out : forall event w, link_up w ->
    link_up (snd (MIDI_Device_ReceiveEventPacket event w)) /\
    sent (snd (MIDI_Device_ReceiveEventPacket event w)) = sent w
}.

Lemma send_all_in `{MidiLinkLaws W in_ok} ps : forall w, in_ok w ->
  in_ok (send_all ps w) /\ incoming (send_all ps w) = incoming w.
Proof.
  induction ps as [|p ps IH]; intros w Hw; cbn [send_all]; [done|].
  destruct (send_in p w Hw) as [Hok <-]. by apply IH.
Qed.

Module Midi.

(** ** Constants (constants.h) *)

Definition MIDI_BASENOTE : Z := 36.
Definition MIDI_MAX_NOTES : Z := 128.
Definition MIDI_MAX_SYSEX : Z := 64.
Definition MIDI_MFR_ID_0 : Z := 0.
Definition MIDI_MFR_ID_1 : Z := 1.
Definition MIDI_MFR_ID_2 : Z := 121.
Definition MANUFACTURER_ID : Z := 377.
Definition DEVICE_FAMILY_LSB : Z := 6.
Definition DEVICE_FAMILY_MSB : Z := 0.
Definition DEVICE_MODEL_LSB : Z := 1.
Definition DEVICE_MODEL_MSB : Z := 0.
Definition DEVICE_VERSION_YEAR : Z := 8215.     (* 0x2017 *)
Definition DEVICE_VERSION_YEAR_LSB : Z := 23.   (* 0x17 *)
Definition DEVICE_VERSION_YEAR_MSB : Z := 32.   (* 0x20 *)
Definition DEVICE_VERSION_MONTH : Z := 7.
Definition DEVICE_VERSION_DAY : Z := 36.        (* 0x24 *)

(** ** Globals *)

Record midi_globals := mk_midi {
  midi_clock_enabled : bool;
  ticks : Z;
  g_bank_selected : Z;
  g_midi_note_state0 : list Z;
  g_midi_note_state1 : list Z;
  g_midi_note_off_counter : list Z;
  g_bank_select_counter : list Z;
  g_midi_sysex_channel : Z
}.

Definition set_midi_clock_enabled (v : bool) (s : midi_globals) : midi_globals :=
  mk_midi v s.(ticks) s.(g_bank_selected) s.(g_midi_note_state0) s.(g_midi_note_state1)
    s.(g_midi_note_off_counter) s.(g_bank_select_counter) s.(g_midi_sysex_channel).
Definition set_ticks (v : Z) (s : midi_globals) : midi_globals :=
  mk_midi s.(midi_clock_enabled) v s.(g_bank_selected) s.(g_midi_note_state0)
    s.(g_midi_note_state1) s.(g_midi_note_off_counter) s.(g_bank_select_counter)
    s.(g_midi_sysex_channel).
Definition set_g_bank_selected (v : Z) (s : midi_globals) : midi_globals :=
  mk_midi s.(midi_clock_enabled) s.(ticks) v s.(g_midi_note_state0) s.(g_midi_note_state1)
    s.(g_midi_note_off_counter) s.(g_bank_select_counter) s.(g_midi_sysex_channel).
Definition set_g_midi_note_state0 (v : list Z) (s : midi_globals) : midi_globals :=
  mk_midi s.(midi_clock_enabled) s.(ticks) s.(g_bank_selected) v s.(g_midi_note_state1)
    s.(g_midi_note_off_counter) s.(g_bank_select_counter) s.(g_midi_sysex_channel).
Definition set_g_midi_note_state1 (v : list Z) (s : midi_globals) : midi_globals :=
  mk_midi s.(midi_clock_enabled) s.(ticks) s.(g_bank_selected) s.(g_midi_note_state0) v
    s.(g_midi_note_off_counter) s.(g_bank_select_counter) s.(g_midi_sysex_channel).
Definition set_g_midi_note_off_counter (v : list Z) (s : midi_globals) : midi_globals :=
  mk_midi s.(midi_clock_enabled) s.(ticks) s.(g_bank_selected) s.(g_midi_note_state0)
    s.(g_midi_note_state1) v s.(g_bank_select_counter) s.(g_midi_sysex_channel).
Definition set_g_bank_select_counter (v : list Z) (s : midi_globals) : midi_globals :=
  mk_midi s.(midi_clock_enabled) s.(ticks) s.(g_bank_selected) s.(g_midi_note_state0)
    s.(g_midi_note_state1) s.(g_midi_note_off_counter) v s.(g_midi_sysex_channel).
Definition set_g_midi_sysex_channel (v : Z) (s : midi_globals) : midi_globals :=
  mk_midi s.(midi_clock_enabled) s.(ticks) s.(g_bank_selected) s.(g_midi_note_state0)
    s.(g_midi_note_state1) s.(g_midi_note_off_counter) s.(g_bank_select_counter) v.

Definition initial_midi : midi_globals :=
  mk_midi false 0 0 (replicate 128 0) (replicate 128 0) (replicate 128 0) (replicate 2 0) 5.

Record midi_wf (m : midi_globals) : Prop := {
  wf_bank : 0 <= m.(g_bank_selected) < 2;
  wf_note_state0 : length m.(g_midi_note_state0) = 128%nat;
  wf_note_state1 : length m.(g_midi_note_state1) = 128%nat;
  wf_note_off : length m.(g_midi_note_off_counter) = 128%nat;
  wf_bank_counter : length m.(g_bank_select_counter) = 2%nat;
  wf_sysex_channel : m.(g_midi_sysex_channel) = 5
}.

Definition midi_setup (m : midi_globals) : midi_globals :=
  let m := set_g_midi_note_state0 (replicate 128 0) m in
  let m := set_g_midi_note_state1 (replicate 128 0) m in
  let m := set_g_midi_note_off_counter (replicate 128 0) m in
  set_g_bank_select_counter (replicate 2 0) m.

(** ** Outgoing messages

    Each function builds one event packet and hands it to the driver.
    [chan] is [G_EE_MIDI_CHANNEL] and [vel] is [G_EE_MIDI_VELOCITY]. *)

Definition note_command (onoff : bool) : Z := if onoff then 144 else 128.

Definition note_packet (command channel pitch velocity : Z) : packet :=
  mk_packet (Z.shiftr command 4) (Z.lor command (Z.land channel 15))
            (Z.land pitch 127) (Z.land velocity 127).

(** The [channel] argument of [midi_stream_raw_note] is not used by its body. *)
Definition midi_stream_raw_note `{MidiOut W} (chan bank channel pitch : Z) (onoff : bool)
    (velocity : Z) (w : W) : W :=
  let command := note_command onoff in
  let midi_channel := u8 (chan - bank) in
  MIDI_Device_SendEventPacket (note_packet command midi_channel pitch velocity) w.

Definition midi_stream_note_ch `{MidiOut W} (vel channel pitch : Z) (onoff : bool) (w : W) : W :=
  let command := note_command onoff in
  MIDI_Device_SendEventPacket (note_packet command channel pitch vel) w.

Definition midi_stream_raw_cc `{MidiOut W} (channel cc value : Z) (w : W) : W :=
  let command := 176 in
  MIDI_Device_SendEventPacket
    (mk_packet (Z.shiftr command 4) (Z.lor command (Z.land channel 15))
               (Z.land cc 127) (Z.land value 127)) w.

Definition midi_stream_note `{MidiOut W} (chan vel bank pitch : Z) (onoff : bool) (w : W) : W :=
  let command := note_command onoff in
  let midi_channel := u8 (chan - bank) in
  MIDI_Device_SendEventPacket (note_packet command midi_channel pitch vel) w.

Definition midi_stream_cc `{MidiOut W} (chan bank controller value : Z) (w : W) : W :=
  let command := 176 in
  let midi_channel := u8 (chan - bank) in
  MIDI_Device_SendEventPacket
    (mk_packet (Z.shiftr command 4) (Z.lor command (Z.land midi_channel 15))
               (Z.land controller 127) (Z.land value 127)) w.

(** The end of [midi_stream_sysex]: [num] bytes are left, at most three; a three-byte
    message that is also the first packet is sent with the code of a System Common
    message. *)
Definition sysex_last_packet (num : Z) (first : bool) (data : list Z) : res (list packet) :=
  if num =? 0 then Ok []
  else
    a ← rd data 0;
    if num =? 2 then
      b ← rd data 1;
      Ok [mk_packet 6 a b 0]
    else if num =? 3 then
      b ← rd data 1;
      c ← rd data 2;
      Ok [mk_packet (if first then 3 else 7) a b c]
    else Ok [mk_packet 5 a 0 0].

(** The loop: [num] is a [uint8_t] that goes down by three, [data] a pointer that goes up
    by as much. *)
Fixpoint sysex_loop (fuel : nat) (num : Z) (first : bool) (data : list Z) : res (list packet) :=
  if 3 <? num then
    match fuel with
    | O => Fault OutOfFuel
    | S fuel =>
        a ← rd data 0;
        b ← rd data 1;
        c ← rd data 2;
        ps ← sysex_loop fuel (u8 (num - 3)) false (drop 3 data);
        Ok (mk_packet 4 a b c :: ps)
    end
  else sysex_last_packet num first data.

Definition midi_stream_sysex `{MidiOut W} (length : Z) (data : list Z) (w : W) : res W :=
  ps ← sysex_loop 85 (u8 length) true data;
  Ok (send_all ps w).

Definition midi_stream_sysex_identify `{MidiOut W} (w : W) : W :=
  send_all
    [mk_packet 4 240 126 5;
     mk_packet 4 6 126 MIDI_MFR_ID_0;
     mk_packet 4 MIDI_MFR_ID_1 MIDI_MFR_ID_2 DEVICE_FAMILY_LSB;
     mk_packet 4 DEVICE_FAMILY_MSB 1 0;
     mk_packet 4 DEVICE_VERSION_DAY DEVICE_VERSION_MONTH DEVICE_VERSION_YEAR_LSB;
     mk_packet 6 DEVICE_VERSION_YEAR_MSB 247 0] w.

(** ** Note maps *)

Definition kNoteMap : list Z :=
  [12; 13; 14; 15;
    8;  9; 10; 11;
    4;  5;  6;  7;
    0;  1;  2;  3].

Definition midipos_to_keypos (note : Z) : Z := note.

Definition midi_fourbanks_key_to_note (bank keynum : Z) : res Z :=
  let offset := u8 (MIDI_BASENOTE + bank * 16) in
  n ← rd kNoteMap keynum;
  Ok (u8 (n + offset)).

Definition midi_64_key_to_note (keynum : Z) : Z := u8 (MIDI_BASENOTE + keynum).

Definition midi_fourbanks_note_to_key (bank note : Z) : res Z :=
  let keynum := u8 (note - MIDI_BASENOTE - bank * 16) in
  rd kNoteMap keynum.

(** ** MIDI clock

    [display_flash_counter] belongs to led.c and is passed in and out. *)

Definition midi_clock_enable (state : bool) (m : midi_globals) : midi_globals :=
  set_midi_clock_enabled state m.

Definition midi_clock (m : midi_globals) (display_flash_counter : Z) : midi_globals * Z :=
  let '(m, flash) :=
    if negb m.(midi_clock_enabled) then (midi_clock_enable true m, 0)
    else (m, display_flash_counter) in
  if m.(ticks) =? 3 then (set_ticks 1 m, u16 (flash + 1))
  else (set_ticks (u8 (m.(ticks) + 1)) m, flash).

(** ** Specifications *)

(** The bytes a host extracts from a packet, by its code index number
    (USB MIDI specification 1.0, table 4-1). *)
Definition packet_bytes (p : packet) : list Z :=
  if p.(Event) =? 5 then [p.(Data1)]
  else if p.(Event) =? 6 then [p.(Data1); p.(Data2)]
  else [p.(Data1); p.(Data2); p.(Data3)].

(** A channel message the MIDI specification accepts: the code index repeats the
    status nibble and the data bytes have no top bit. *)
Definition channel_message (p : packet) (command channel : Z) : Prop :=
  p.(Event) = command / 16 /\ p.(Data1) = command + channel /\
  0 <= p.(Data2) < 128 /\ 0 <= p.(Data3) < 128.

(** [n] clock events. *)
Fixpoint clocks (n : nat) (m : midi_globals) (flash : Z) : midi_globals * Z :=
  match n with
  | O => (m, flash)
  | S n' => let '(m', flash') := midi_clock m flash in clocks n' m' flash'
  end.

(** ** Lemmas *)

(** Induction on a byte string three bytes at a time. *)
Lemma chunk3_ind (P : list Z -> Prop) :
  P [] -> (forall a, P [a]) -> (forall a b, P [a; b]) -> (forall a b c, P [a; b; c]) ->
  (forall a b c d l, P (d :: l) -> P (a :: b :: c :: d :: l)) -> forall l, P l.
Proof.
  intros H0 H1 H2 H3 H4 l.
  induction l as [l IH] using (well_founded_induction
    (well_founded_ltof _ (@length Z))). unfold ltof in IH.
  destruct l as [|a [|b [|c [|d l]]]]; try done.
  apply H4, IH. cbn. lia.
Qed.

(** *** SysEx *)

(** The packets of a message, by its bytes. *)
Definition last_packet (first : bool) (data : list Z) : list packet :=
  match data with
  | [a] => [mk_packet 5 a 0 0]
  | [a; b] => [mk_packet 6 a b 0]
  | [a; b; c] => [mk_packet (if first then 3 else 7) a b c]
  | _ => []
  end.
Fixpoint sysex_packets (first : bool) (data : list Z) : list packet :=
  match data with
  | a :: b :: c :: ((_ :: _) as rest) => mk_packet 4 a b c :: sysex_packets false rest
  | _ => last_packet first data
  end.

Lemma sysex_packets_cons first a b c d l :
  sysex_packets first (a :: b :: c :: d :: l) = mk_packet 4 a b c :: sysex_packets false (d :: l).
Proof. done. Qed.

(** The loop makes these packets of the first [num] bytes of the buffer. *)
Lemma sysex_loop_ok data : forall rest first fuel,
  (length data <= 255)%nat -> (length data <= 3 * fuel)%nat ->
  sysex_loop fuel (Z.of_nat (length data)) first (data ++ rest) = Ok (sysex_packets first data).
Proof.
  induction data as [|a|a b|a b c|a b c d l IH] using chunk3_ind; intros rest first fuel Hl Hf;
    try (destruct fuel; [cbn in Hf; lia|]; reflexivity); [by destruct fuel|].
  destruct fuel as [|fuel]; [cbn in Hf; lia|]. cbn [sysex_loop]. replace (3 <? _) with true by (cbn [length]; lia).
  change (rd (?x ++ rest) 0) with (Ok a : res Z). change (rd (?x ++ rest) 1) with (Ok b : res Z).
  change (rd (?x ++ rest) 2) with (Ok c : res Z). rewrite !bind_Ok.
  change (drop 3 ((a :: b :: c :: d :: l) ++ rest)) with ((d :: l) ++ rest).
  replace (u8 (Z.of_nat (length (a :: b :: c :: d :: l)) - 3)) with (Z.of_nat (length (d :: l)))
    by (cbn [length] in *; rewrite u8_small; lia).
  rewrite IH by (cbn [length] in *; lia). by rewrite bind_Ok.
Qed.

(** A message as long as its [uint8_t] length says. *)
Lemma stream_sysex_ok `{MidiOut W} n data rest (w : W) :
  u8 n = Z.of_nat (length data) ->
  midi_stream_sysex n (data ++ rest) w = Ok (send_all (sysex_packets true data) w).
Proof.
  intros Hn. pose proof (u8_range n). unfold midi_stream_sysex. rewrite Hn, sysex_loop_ok by (unfold is_u8 in *; lia).
  by rewrite bind_Ok.
Qed.

Lemma sysex_packets_wf first data :
  Forall is_u8 data -> Forall packet_wf (sysex_packets first data).
Proof.
  assert (Hc : forall e, 0 <= e < 256 -> is_u8 e) by done.
  revert first. induction data as [|a|a b|a b c|a b c d l IH] using chunk3_ind;
    intros first Hd; repeat (apply Forall_cons_1 in Hd as [? Hd]).
  1-4: cbn; repeat constructor; cbn; try lia; try (apply Hc; destruct first; lia);
    by match goal with H : is_u8 ?x |- _ => apply H end.
  rewrite sysex_packets_cons. constructor; [|apply IH; by constructor].
  split; [split; cbn; lia|done].
Qed.

Lemma sysex_packets_bytes first data :
  concat (map packet_bytes (sysex_packets first data)) = data.
Proof.
  revert first. induction data as [|a|a b|a b c|a b c d l IH] using chunk3_ind;
    intros first; try done.
  - by destruct first.
  - rewrite sysex_packets_cons. cbn [map concat]. rewrite IH. done.
Qed.

(** Every packet but the last continues the message; the last one ends it. *)
Lemma sysex_packets_codes data :
  (4 <= length data)%nat ->
  exists ps last, sysex_packets true data = ps ++ [last] /\
    Forall (fun p => p.(Event) = 4) ps /\
    5 <= last.(Event) <= 7.
Proof.
  intros Hl. cut (forall d, d <> [] -> exists ps last, sysex_packets false d = ps ++ [last] /\
    Forall (fun p => p.(Event) = 4) ps /\ 5 <= last.(Event) <= 7).
  - intros H. destruct data as [|a [|b [|c [|d l]]]]; cbn in Hl; try lia.
    destruct (H (d :: l)) as (ps & q & E & Hps & Hq); [done|].
    exists (mk_packet 4 a b c :: ps), q. rewrite sysex_packets_cons, E.
    split; [done|]. split; [by constructor|done].
  - clear. intros d. induction d as [|a|a b|a b c|a b c d l IH] using chunk3_ind; intros Hne; try done.
    + exists [], (mk_packet 5 a 0 0). split; [done|]. split; [constructor|cbn; lia].
    + exists [], (mk_packet 6 a b 0). split; [done|]. split; [constructor|cbn; lia].
    + exists [], (mk_packet 7 a b c). split; [done|]. split; [constructor|cbn; lia].
    + destruct IH as (ps & q & E & Hps & Hq); [done|].
      exists (mk_packet 4 a b c :: ps), q. rewrite sysex_packets_cons, E.
      split; [done|]. split; [by constructor|done].
Qed.

Lemma or_command command channel :
  command mod 16 = 0 -> 0 <= command < 256 ->
  Z.lor command (Z.land channel 15) = command + channel mod 16.
Proof.
  intros Hc Hr. rewrite land_15. apply (or_disjoint _ _ 4); [lia| |].
  - exists (command / 16). pose proof (Z.div_mod command 16). lia.
  - apply Z.mod_pos_bound. lia.
Qed.

Lemma message_valid command channel d2 d3 :
  command mod 16 = 0 -> 128 <= command < 240 ->
  let p := mk_packet (Z.shiftr command 4) (Z.lor command (Z.land channel 15))
                     (Z.land d2 127) (Z.land d3 127) in
  channel_message p command (channel mod 16) /\ packet_wf p.
Proof.
  intros Hc Hr p. subst p. unfold channel_message, packet_wf, is_u8. cbn.
  rewrite or_command by lia. rewrite !land_127, Z.shiftr_div_pow2 by lia. change (2 ^ 4) with 16.
  pose proof (Z.mod_pos_bound channel 16). pose proof (Z.mod_pos_bound d2 128).
  pose proof (Z.mod_pos_bound d3 128).
  assert (command / 16 < 16) by (apply Z.div_lt_upper_bound; lia).
  assert (0 <= command / 16) by (apply Z.div_pos; lia). lia.
Qed.

(** ** Theorems *)

(** C11: A SysEx message survives its packing into USB-MIDI event packets: the packets
    handed to the driver carry exactly its bytes, in order, whatever driver is below, and
    from four bytes on they are marked as one SysEx message.  The length is a [uint8_t]: of
    a longer buffer the first [length mod 256] bytes are sent. *)
Theorem sysex_stream_roundtrip `{MidiOutLaws W} n data (w : W) :
  link_up w -> Forall is_u8 data -> u8 n <= Z.of_nat (length data) ->
  exists w' ps, midi_stream_sysex n data w = Ok w' /\ link_up w' /\ sent w' = sent w ++ ps /\
    concat (map packet_bytes ps) = take (Z.to_nat (n mod 256)) data /\
    (4 <= n mod 256 -> exists cont last, ps = cont ++ [last] /\
       Forall (fun p => p.(Event) = 4) cont /\ 5 <= last.(Event) <= 7).
Proof.
  intros Hw Hd Hn. pose proof (u8_range n) as Hr. unfold u8 in *. set (k := Z.to_nat (n mod 256)).
  assert (Hk : length (take k data) = k) by (rewrite length_take; lia).
  assert (Hwf : Forall packet_wf (sysex_packets true (take k data))) by (by apply sysex_packets_wf, Forall_take).
  destruct (send_all_spec _ w Hw Hwf) as [Hup Hs].
  exists (send_all (sysex_packets true (take k data)) w), (sysex_packets true (take k data)).
  split; [|split; [done|split; [done|split; [apply sysex_packets_bytes|]]]].
  - rewrite <-(take_drop k data) at 1. apply stream_sysex_ok. rewrite Hk. unfold u8. lia.
  - intros H4. apply sysex_packets_codes. lia.
Qed.

Lemma sysex_stream_roundtrip_witness :
  exists w' ps, midi_stream_sysex 6 [240; 0; 1; 121; 2; 247] ([] : list packet) = Ok w' /\ sent w' = [] ++ ps /\
    concat (map packet_bytes ps) = [240; 0; 1; 121; 2; 247].
Proof.
  destruct (sysex_stream_roundtrip 6 [240; 0; 1; 121; 2; 247] ([] : list packet))
    as (w' & ps & H1 & _ & H2 & H3 & _).
  - exact I.
  - repeat constructor; lia.
  - vm_compute. discriminate.
  - exists w', ps. split; [exact H1|]. split; [exact H2|exact H3].
Defined.

(** C40: Every channel message midi.c sends is a valid MIDI message, for every
    value of the settings and of the arguments: note messages and control changes
    carry their status nibble, a channel below 16 and 7-bit data bytes. *)
Theorem stream_messages_valid `{MidiOutLaws W} (w : W) chan vel bank channel d2 d3 onoff :
  link_up w ->
  (exists p, sent (midi_stream_note chan vel bank d2 onoff w) = sent w ++ [p] /\
     channel_message p (note_command onoff) (u8 (chan - bank) mod 16)) /\
  (exists p, sent (midi_stream_note_ch vel channel d2 onoff w) = sent w ++ [p] /\
     channel_message p (note_command onoff) (channel mod 16)) /\
  (exists p, sent (midi_stream_raw_note chan bank channel d2 onoff vel w) = sent w ++ [p] /\
     channel_message p (note_command onoff) (u8 (chan - bank) mod 16)) /\
  (exists p, sent (midi_stream_raw_cc channel d2 d3 w) = sent w ++ [p] /\
     channel_message p 176 (channel mod 16)) /\
  (exists p, sent (midi_stream_cc chan bank d2 d3 w) = sent w ++ [p] /\
     channel_message p 176 (u8 (chan - bank) mod 16)).
Proof.
  intros Hw.
  assert (Hsend : forall command ch a b, command mod 16 = 0 -> 128 <= command < 240 ->
    exists p, sent (MIDI_Device_SendEventPacket (mk_packet (Z.shiftr command 4)
        (Z.lor command (Z.land ch 15)) (Z.land a 127) (Z.land b 127)) w) = sent w ++ [p] /\
      channel_message p command (ch mod 16)).
  { intros command ch a b Hc Hr. destruct (message_valid command ch a b Hc Hr) as [H1 H2].
    eexists. split; [apply send_appends; [done|exact H2]|exact H1]. }
  repeat split; apply Hsend; try (by destruct onoff); destruct onoff; cbn; lia.
Qed.

Lemma stream_messages_valid_witness :
  exists p, sent (midi_stream_note 2 127 1 36 true ([] : list packet)) = [] ++ [p] /\
    channel_message p 144 1.
Proof.
  destruct (stream_messages_valid ([] : list packet) 2 127 1 0 36 0 true) as [H _];
    [exact I|exact H].
Defined.

(** In fourbanks mode the note of a key and the key of a note are inverse to
    each other, for the 16 keys of each of the four banks. *)
Theorem fourbanks_roundtrip bank keynum :
  0 <= bank < 4 -> 0 <= keynum < 16 ->
  exists note, midi_fourbanks_key_to_note bank keynum = Ok note /\
    36 <= note < 100 /\ midi_fourbanks_note_to_key bank note = Ok keynum.
Proof.
  intros Hb Hk.
  set (chk := fun b k => match midi_fourbanks_key_to_note b k with
    | Ok n => (36 <=? n) && (n <? 100) &&
              bool_decide (midi_fourbanks_note_to_key b n = Ok k)
    | Fault _ => false end).
  assert (Hc : chk bank keynum = true).
  { apply (check_range_spec 0 16 (chk bank)); [|lia].
    apply (check_range_spec 0 4 (fun b => check_range 0 16 (chk b))); [|lia].
    vm_compute. reflexivity. }
  unfold chk in Hc. destruct (midi_fourbanks_key_to_note bank keynum) as [n|]; [|done].
  apply andb_true_iff in Hc as [Hc Hr]. apply bool_decide_eq_true in Hr.
  exists n. split; [done|]. split; [lia|done].
Qed.

Lemma fourbanks_roundtrip_witness :
  exists note, midi_fourbanks_key_to_note 3 5 = Ok note /\
    midi_fourbanks_note_to_key 3 note = Ok 5.
Proof.
  destruct (fourbanks_roundtrip 3 5) as (n & H1 & _ & H2); [lia|lia|].
  exists n. split; [exact H1|exact H2].
Defined.

(** The MIDI clock divides by three: with the clock running, [n] clock events
    advance the display counter (modulo 2^16) once every third event, and the tick
    stays between 1 and 3. *)
Theorem midi_clock_divides n m flash :
  m.(midi_clock_enabled) = true -> 1 <= m.(ticks) <= 3 -> is_u16 flash ->
  let '(m', flash') := clocks n m flash in
  flash' = u16 (flash + (Z.of_nat n + m.(ticks) - 1) / 3) /\
  m'.(ticks) = (Z.of_nat n + m.(ticks) - 1) mod 3 + 1 /\ m'.(midi_clock_enabled) = true.
Proof.
  revert m flash. induction n as [|n IH]; intros m flash He Ht Hf; cbn [clocks].
  - replace (Z.of_nat 0 + ticks m - 1) with (ticks m - 1) by lia.
    rewrite Z.div_small, Z.mod_small, Z.add_0_r, u16_small by (done || lia).
    split; [done|]. split; [lia|done].
  - unfold midi_clock. rewrite He. cbn [negb].
    destruct (Z.eqb_spec m.(ticks) 3) as [E|Hne].
    + specialize (IH (set_ticks 1 m) (u16 (flash + 1)) He ltac:(cbn; lia) (u16_range _)).
      destruct (clocks n _ _) as [m' flash']. destruct IH as (-> & -> & ->). rewrite E. cbn.
      replace (Z.of_nat (S n) + 3 - 1) with (Z.of_nat n + 1 - 1 + 1 * 3) by lia.
      rewrite Z.div_add, Z.mod_add by lia. split; [|done].
      unfold u16. rewrite Zplus_mod_idemp_l. f_equal. lia.
    + specialize (IH (set_ticks (u8 (m.(ticks) + 1)) m) flash He).
      rewrite u8_small in IH |- * by lia. specialize (IH ltac:(cbn; lia) Hf).
      destruct (clocks n _ _) as [m' flash']. destruct IH as (-> & -> & ->). cbn.
      replace (Z.of_nat n + (ticks m + 1) - 1) with (Z.of_nat (S n) + ticks m - 1) by lia. done.
Qed.

Lemma midi_clock_divides_witness :
  snd (clocks 24 (mk_midi true 1 0 [] [] [] [] 5) 0) = 8.
Proof.
  pose proof (midi_clock_divides 24 (mk_midi true 1 0 [] [] [] [] 5) 0 eq_refl
    ltac:(cbn; lia) ltac:(split; lia)) as H.
  destruct (clocks 24 (mk_midi true 1 0 [] [] [] [] 5) 0) as [m' f'].
  exact (proj1 H).
Defined.

End Midi.
