(* ===== verification/UsbMidi.v ===== *)
(** * LUFA's MIDI class driver: the IN and OUT endpoints below midi.c

    MIDIClassDevice.c and the stream functions it calls (the template
    Template_Endpoint_RW.c), over a model of one 64-byte endpoint bank per
    direction.  The endpoint hardware and the host are outside the sources: the
    bank handed over with [Endpoint_ClearIN] stays [in_pending] until the host
    takes it, which [host_polls] says it does before the stream timeout.  The
    module discharges the interfaces of Midi.v. *)

From S2P Require Import Prelude Midi.

Module UsbMidi.

Inductive usb_state :=
  | DEVICE_STATE_Unattached | DEVICE_STATE_Powered | DEVICE_STATE_Default
  | DEVICE_STATE_Addressed | DEVICE_STATE_Configured | DEVICE_STATE_Suspended.

#[export] Instance usb_state_eq_dec : EqDecision usb_state.
Proof. solve_decision. Defined.

Inductive stream_error :=
  | NoError | EndpointStalled | DeviceDisconnected | BusSuspended | Timeout.

#[export] Instance stream_error_eq_dec : EqDecision stream_error.
Proof. solve_decision. Defined.

Definition MIDI_STREAM_EPSIZE : nat := 64.

Record usb := mk_usb {
  USB_DeviceState : usb_state;
  in_bank : list Z;
  in_pending : option (list Z);
  host_polls : bool;
  delivered : list (list Z);
  out_bank : option (list Z);
  host_queue : list (list Z);
  in_stalled : bool
}.

Definition set_USB_DeviceState (v : usb_state) (s : usb) : usb :=
  mk_usb v s.(in_bank) s.(in_pending) s.(host_polls) s.(delivered)
    s.(out_bank) s.(host_queue) s.(in_stalled).
Definition set_in_bank (v : list Z) (s : usb) : usb :=
  mk_usb s.(USB_DeviceState) v s.(in_pending) s.(host_polls) s.(delivered)
    s.(out_bank) s.(host_queue) s.(in_stalled).
Definition set_in_pending (v : option (list Z)) (s : usb) : usb :=
  mk_usb s.(USB_DeviceState) s.(in_bank) v s.(host_polls) s.(delivered)
    s.(out_bank) s.(host_queue) s.(in_stalled).
Definition set_host_polls (v : bool) (s : usb) : usb :=
  mk_usb s.(USB_DeviceState) s.(in_bank) s.(in_pending) v s.(delivered)
    s.(out_bank) s.(host_queue) s.(in_stalled).
Definition set_delivered (v : list (list Z)) (s : usb) : usb :=
  mk_usb s.(USB_DeviceState) s.(in_bank) s.(in_pending) s.(host_polls) v
    s.(out_bank) s.(host_queue) s.(in_stalled).
Definition set_out_bank (v : option (list Z)) (s : usb) : usb :=
  mk_usb s.(USB_DeviceState) s.(in_bank) s.(in_pending) s.(host_polls) s.(delivered)
    v s.(host_queue) s.(in_stalled).
Definition set_host_queue (v : list (list Z)) (s : usb) : usb :=
  mk_usb s.(USB_DeviceState) s.(in_bank) s.(in_pending) s.(host_polls) s.(delivered)
    s.(out_bank) v s.(in_stalled).
Definition set_in_stalled (v : bool) (s : usb) : usb :=
  mk_usb s.(USB_DeviceState) s.(in_bank) s.(in_pending) s.(host_polls) s.(delivered)
    s.(out_bank) s.(host_queue) v.

(** ** Endpoint primitives *)

Definition Endpoint_IsINReady (s : usb) : bool :=
  match s.(in_pending) with None => true | Some _ => false end.

Definition Endpoint_BytesInEndpoint (s : usb) : nat := length s.(in_bank).

Definition Endpoint_IsReadWriteAllowed_IN (s : usb) : bool :=
  (length s.(in_bank) <? MIDI_STREAM_EPSIZE)%nat.

Definition Endpoint_ClearIN (s : usb) : usb :=
  set_in_bank [] (set_in_pending (Some s.(in_bank)) s).

Definition Endpoint_Write_8 (b : Z) (s : usb) : usb := set_in_bank (s.(in_bank) ++ [b]) s.

(** The polling loop of [Endpoint_WaitUntilReady] on the IN endpoint, up to its
    exit: the bank is free, the device left the bus, the host took the pending
    bank (which it cannot while the endpoint is stalled), the endpoint is stalled,
    or the timeout elapsed. *)
Definition Endpoint_WaitUntilReady_IN (s : usb) : stream_error * usb :=
  match s.(in_pending) with
  | None => (NoError, s)
  | Some bank =>
      match s.(USB_DeviceState) with
      | DEVICE_STATE_Unattached => (DeviceDisconnected, s)
      | DEVICE_STATE_Suspended => (BusSuspended, s)
      | _ => if s.(host_polls) && negb s.(in_stalled)
             then (NoError, set_in_pending None (set_delivered (s.(delivered) ++ [bank]) s))
             else if s.(in_stalled) then (EndpointStalled, s)
             else (Timeout, s)
      end
  end.

(** The loop of [Endpoint_Write_Stream_LE] with [BytesProcessed == NULL]: a full
    bank is committed and waited for before the next byte is written.  The C loop
    also calls [USB_USBTask] between the two, which is not here: the class driver
    commits a bank as soon as a packet fills it, so that the next packet always finds
    room and the branch is not taken ([write_packet]).  UsbStream has the
    loop with the call, and [midi_driver_refines] relates the two. *)
Fixpoint write_stream (data : list Z) (s : usb) : stream_error * usb :=
  match data with
  | [] => (NoError, s)
  | b :: data' =>
      if Endpoint_IsReadWriteAllowed_IN s then write_stream data' (Endpoint_Write_8 b s)
      else
        let s1 := Endpoint_ClearIN s in
        match Endpoint_WaitUntilReady_IN s1 with
        | (NoError, s2) => write_stream data' (Endpoint_Write_8 b s2)
        | (e, s2) => (e, s2)
        end
  end.

Definition Endpoint_Write_Stream_LE (data : list Z) (s : usb) : stream_error * usb :=
  match Endpoint_WaitUntilReady_IN s with
  | (NoError, s1) => write_stream data s1
  | (e, s1) => (e, s1)
  end.

(** ** The class driver *)

Definition encode (p : packet) : list Z := [p.(Event); p.(Data1); p.(Data2); p.(Data3)].

Definition SendEventPacket (p : packet) (s : usb) : stream_error * usb :=
  if bool_decide (s.(USB_DeviceState) = DEVICE_STATE_Configured) then
    match Endpoint_Write_Stream_LE (encode p) s with
    | (NoError, s1) =>
        (NoError, if negb (Endpoint_IsReadWriteAllowed_IN s1) then Endpoint_ClearIN s1 else s1)
    | (e, s1) => (e, s1)
    end
  else (DeviceDisconnected, s).

Definition Flush (s : usb) : stream_error * usb :=
  if bool_decide (s.(USB_DeviceState) = DEVICE_STATE_Configured) then
    if (0 <? Endpoint_BytesInEndpoint s)%nat
    then Endpoint_WaitUntilReady_IN (Endpoint_ClearIN s)
    else (NoError, s)
  else (DeviceDisconnected, s).

(** ** The OUT endpoint: [out_bank] holds the unread bytes of a received bank. *)

Definition Endpoint_IsOUTReceived (s : usb) : bool :=
  match s.(out_bank) with Some _ => true | None => false end.

Definition Endpoint_IsReadWriteAllowed_OUT (s : usb) : bool :=
  match s.(out_bank) with Some (_ :: _) => true | _ => false end.

(** [Endpoint_ClearOUT] frees the bank; the next transfer of the host fills it. *)
Definition Endpoint_ClearOUT (s : usb) : usb :=
  match s.(host_queue) with
  | [] => set_out_bank None s
  | t :: q => set_host_queue q (set_out_bank (Some t) s)
  end.

(** [Endpoint_ClearOUT] inside a stream read: the loop tests the next bank in
    turn, so empty transfers are cleared until one has data or the wait for the
    host times out. *)
Fixpoint next_transfer (q : list (list Z)) : option (list Z) * list (list Z) :=
  match q with
  | [] => (None, [])
  | [] :: q => next_transfer q
  | t :: q => (Some t, q)
  end.

Definition next_out_bank (s : usb) : usb :=
  let '(bank, q) := next_transfer s.(host_queue) in set_host_queue q (set_out_bank bank s).

(** [Endpoint_Read_Stream_LE] into [Buffer]: each byte read replaces one of the
    buffer; when the stream times out the rest of the buffer stays as it was.  The
    C loop calls [USB_USBTask] when a packet goes on in the next transfer, which is not here: a
    host that sends whole packets never splits one.  UsbStream has the call. *)
Fixpoint Endpoint_Read_Stream_LE (Buffer : list Z) (s : usb) : list Z * usb :=
  match Buffer with
  | [] => ([], s)
  | _ :: Buffer' =>
      match s.(out_bank) with
      | Some (b :: r) =>
          let '(l, s') := Endpoint_Read_Stream_LE Buffer' (set_out_bank (Some r) s) in (b :: l, s')
      | _ =>
          let s1 := next_out_bank s in
          match s1.(out_bank) with
          | Some (b :: r) =>
              let '(l, s') := Endpoint_Read_Stream_LE Buffer' (set_out_bank (Some r) s1) in
              (b :: l, s')
          | _ => (Buffer, s1)
          end
      end
  end.

(** The four bytes of a packet structure. *)
Definition decode1 (l : list Z) : packet :=
  mk_packet (tbl l 0) (tbl l 1) (tbl l 2) (tbl l 3).

(** [event] is what the caller's structure held; the result is what it holds when
    the function returns true, and [None] when it returns false.  The result code
    of the stream read is ignored, as in the driver. *)
Definition ReceiveEventPacket (event : packet) (s : usb) : option packet * usb :=
  if bool_decide (s.(USB_DeviceState) = DEVICE_STATE_Configured) then
    if negb (Endpoint_IsOUTReceived s) then (None, s)
    else if negb (Endpoint_IsReadWriteAllowed_OUT s) then (None, s)
    else
      let '(l, s1) := Endpoint_Read_Stream_LE (encode event) s in
      let s2 := if negb (Endpoint_IsReadWriteAllowed_OUT s1) then Endpoint_ClearOUT s1 else s1 in
      (Some (decode1 l), s2)
  else (None, s).

(** ** Abstraction: byte streams as packet lists *)

Fixpoint decode (l : list Z) : list packet :=
  match l with
  | e :: a :: b :: c :: r => mk_packet e a b c :: decode r
  | _ => []
  end.

(** Everything written and not lost: transfers taken by the host, the pending
    bank, and the bank being filled. *)
Definition stream_of (s : usb) : list Z :=
  concat s.(delivered) ++ default [] s.(in_pending) ++ s.(in_bank).

Definition whole (l : list Z) : Prop := (length l mod 4 = 0)%nat.

Record in_ready (s : usb) : Prop := {
  rdy_configured : s.(USB_DeviceState) = DEVICE_STATE_Configured;
  rdy_polls : s.(host_polls) = true;
  rdy_unstalled : s.(in_stalled) = false;
  rdy_room : (length s.(in_bank) < MIDI_STREAM_EPSIZE)%nat;
  rdy_bank : whole s.(in_bank);
  rdy_stream : whole (stream_of s);
  rdy_pending : s.(in_pending) <> None -> s.(in_bank) = []
}.

#[export] Instance usb_out : MidiOut usb := {|
  MIDI_Device_SendEventPacket p s := snd (SendEventPacket p s);
  MIDI_Device_Flush s := snd (Flush s);
  sent s := decode (stream_of s);
  flushed s := decode (concat s.(delivered) ++ default [] s.(in_pending));
  link_up := in_ready
|}.

(** The transfers a host queues: whole packets, never empty.  They reach the firmware
    while the device is configured. *)
Record out_ready (s : usb) : Prop := {
  out_whole : match s.(out_bank) with Some l => whole l /\ l <> [] | None => s.(host_queue) = [] end;
  out_queue : Forall (fun t => whole t /\ t <> []) s.(host_queue)
}.

#[export] Instance usb_in : MidiIn usb := {|
  MIDI_Device_ReceiveEventPacket := ReceiveEventPacket;
  incoming s := decode (default [] s.(out_bank) ++ concat s.(host_queue))
|}.

(** What calls of the driver can get: a device that is not configured gets nothing. *)
Definition available (s : usb) : list packet :=
  if bool_decide (s.(USB_DeviceState) = DEVICE_STATE_Configured) then incoming s else [].

(** ** Lemmas *)

Lemma decode_app l1 l2 : whole l1 -> decode (l1 ++ l2) = decode l1 ++ decode l2.
Proof.
  unfold whole. remember (length l1) as n eqn:Hn. revert l1 Hn.
  induction n as [n IH] using lt_wf_ind. intros l1 Hn Hm.
  destruct l1 as [|a [|b [|c [|d r]]]]; cbn in Hn; subst n; try done.
  cbn [app decode]. f_equal. apply (IH (length r)); [lia|done|].
  change (S (S (S (S (length r))))) with (4 + length r)%nat in Hm.
  replace (4 + length r)%nat with (length r + 1 * 4)%nat in Hm by lia.
  by rewrite Nat.Div0.mod_add in Hm.
Qed.

Lemma whole_app l1 l2 : whole l1 -> whole l2 -> whole (l1 ++ l2).
Proof.
  unfold whole. rewrite length_app. intros H1 H2.
  rewrite Nat.Div0.add_mod, H1, H2. done.
Qed.

Lemma whole_room (l : list Z) :
  whole l -> (length l < 64)%nat -> (length l <= 60)%nat.
Proof.
  unfold whole. intros H1 H2. pose proof (Nat.div_mod_eq (length l) 4). lia.
Qed.

Lemma write_one b data s :
  (length s.(in_bank) < 64)%nat ->
  write_stream (b :: data) s = write_stream data (Endpoint_Write_8 b s).
Proof.
  intros Hl. cbn [write_stream]. unfold Endpoint_IsReadWriteAllowed_IN, MIDI_STREAM_EPSIZE.
  destruct (Nat.ltb_spec (length s.(in_bank)) 64); [done|lia].
Qed.

(** Four bytes fit in a bank that holds whole packets and is not full. *)
Lemma write_packet p s :
  (length s.(in_bank) <= 60)%nat ->
  write_stream (encode p) s = (NoError, set_in_bank (s.(in_bank) ++ encode p) s).
Proof.
  intros Hl. unfold encode.
  rewrite !write_one by (cbn [Endpoint_Write_8 in_bank set_in_bank];
    rewrite ?length_app; cbn [length]; lia).
  cbn. unfold Endpoint_Write_8. cbn. rewrite <-!app_assoc. done.
Qed.

(** The bytes handed over: taken by the host or ready for it to take. *)
Definition handed (s : usb) : list Z := concat s.(delivered) ++ default [] s.(in_pending).

Lemma stream_handed s : stream_of s = handed s ++ s.(in_bank).
Proof. unfold stream_of, handed. by rewrite app_assoc. Qed.

Lemma whole_app_inv l1 l2 : whole (l1 ++ l2) -> whole l2 -> whole l1.
Proof.
  unfold whole. rewrite length_app. intros H1 H2.
  rewrite Nat.Div0.add_mod, H2, Nat.add_0_r, Nat.Div0.mod_mod in H1. done.
Qed.

(** Waiting on a link that is up always succeeds and leaves no pending bank. *)
Lemma wait_ready s :
  in_ready s ->
  exists s', Endpoint_WaitUntilReady_IN s = (NoError, s') /\ in_ready s' /\
    stream_of s' = stream_of s /\ s'.(in_pending) = None /\ s'.(in_bank) = s.(in_bank).
Proof.
  intros [Hc Hp Hst Hr Hb Hs He]. unfold Endpoint_WaitUntilReady_IN.
  destruct (in_pending s) as [bank|] eqn:E; [|exists s; split; [done|]].
  - rewrite Hc, Hp, Hst. eexists. split; [done|].
    assert (Est : stream_of (set_in_pending None
      (set_delivered (s.(delivered) ++ [bank]) s)) = stream_of s).
    { unfold stream_of. cbn. rewrite E, concat_app. cbn. rewrite app_nil_r, <-app_assoc. done. }
    split; [|done]. split; try done; by rewrite Est.
  - split; [|done]. split; try done; by rewrite E.
Qed.

Lemma send_ready p s :
  in_ready s ->
  exists s', SendEventPacket p s = (NoError, s') /\ in_ready s' /\
    stream_of s' = stream_of s ++ encode p /\ handed s `prefix_of` handed s'.
Proof.
  intros Hs. destruct (wait_ready s Hs) as (s1 & E1 & [Hc Hp Hus Hr Hb Hst _] & Est & Hpend & Hbank).
  assert (Hh : handed s1 = handed s).
  { rewrite !stream_handed, Hbank in Est. by apply app_inv_tail in Est. }
  unfold SendEventPacket, Endpoint_Write_Stream_LE.
  rewrite bool_decide_eq_true_2 by apply (rdy_configured _ Hs).
  rewrite E1, write_packet by (by apply whole_room).
  set (s2 := set_in_bank _ s1). unfold Endpoint_IsReadWriteAllowed_IN. cbn [in_bank s2].
  assert (E2 : stream_of s2 = stream_of s ++ encode p).
  { rewrite <-Est. unfold stream_of, s2. cbn. by rewrite !app_assoc. }
  assert (Hw2 : whole (stream_of s2)) by (rewrite E2, <-Est; by apply whole_app).
  eexists. split; [done|]. unfold MIDI_STREAM_EPSIZE in *.
  destruct (Nat.ltb_spec (length s2.(in_bank)) 64); cbn [negb].
  - split; [|split; [done|by rewrite <-Hh]].
    split; first [done|by apply whole_app|cbn; by rewrite Hpend].
  - assert (E3 : stream_of (Endpoint_ClearIN s2) = stream_of s2).
    { unfold stream_of, Endpoint_ClearIN. cbn. rewrite Hpend, app_nil_r. done. }
    split; [|split; [by rewrite E3|]].
    2: { rewrite <-Hh. unfold handed. cbn. rewrite Hpend, app_nil_r. by eexists. }
    split; first [done|by rewrite E3|unfold MIDI_STREAM_EPSIZE; cbn; lia].
Qed.

Lemma flush_ready s :
  in_ready s ->
  exists s', Flush s = (NoError, s') /\ in_ready s' /\ stream_of s' = stream_of s /\
    s'.(in_bank) = [].
Proof.
  intros Hs. pose proof Hs as [Hc Hp Hus Hr Hb Hst He]. unfold Flush.
  rewrite bool_decide_eq_true_2 by done. unfold Endpoint_BytesInEndpoint.
  destruct (Nat.ltb_spec 0 (length s.(in_bank))) as [Hlt|Hge].
  - assert (Hpn : s.(in_pending) = None).
    { destruct s.(in_pending); [|done]. rewrite He in Hlt by done. cbn in Hlt. lia. }
    unfold Endpoint_WaitUntilReady_IN, Endpoint_ClearIN. cbn. rewrite Hc, Hp, Hus. eexists.
    split; [done|].
    assert (Est : concat (s.(delivered) ++ [s.(in_bank)]) = stream_of s).
    { rewrite concat_app. unfold stream_of. rewrite Hpn. cbn. by rewrite app_nil_r. }
    assert (Est2 : forall st, st = set_in_pending None (set_delivered (s.(delivered) ++ [s.(in_bank)])
        (set_in_bank [] (set_in_pending (Some s.(in_bank)) s))) -> stream_of st = stream_of s).
    { intros st ->. unfold stream_of at 1. cbn. rewrite app_nil_r. exact Est. }
    split; [|split; [by apply Est2|done]].
    split; first [done|by rewrite (Est2 _ eq_refl)|unfold MIDI_STREAM_EPSIZE; cbn; lia].
  - exists s. split; [done|]. split; [done|]. split; [done|].
    by destruct s.(in_bank); [|cbn in Hge; lia].
Qed.

#[export] Instance usb_out_laws : MidiOutLaws usb.
Proof.
  split.
  - intros p s Hs _. destruct (send_ready p s Hs) as (s' & E & Hs' & _). cbn. by rewrite E.
  - intros p s Hs _. destruct (send_ready p s Hs) as (s' & E & _ & Est & _). cbn.
    rewrite E. cbn [snd]. rewrite Est, decode_app by apply (rdy_stream _ Hs). by destruct p.
  - intros s Hs. destruct (flush_ready s Hs) as (s' & E & Hs' & _). cbn. by rewrite E.
  - intros s Hs. destruct (flush_ready s Hs) as (s' & E & _ & Est & _). cbn.
    rewrite E. cbn [snd]. by rewrite Est.
  - intros s Hs. destruct (flush_ready s Hs) as (s' & E & _ & Est & Hbank). cbn.
    rewrite E. cbn [snd]. by rewrite <-Est, stream_handed, Hbank, app_nil_r.
  - intros p s Hs _. destruct (send_ready p s Hs) as (s' & E & _ & _ & l & Hl). cbn.
    rewrite E. cbn [snd]. fold (handed s) (handed s'). rewrite Hl, decode_app; [by eexists|].
    destruct Hs as [_ _ _ _ Hb Hst _]. rewrite stream_handed in Hst. exact (whole_app_inv _ _ Hst Hb).
Qed.

Lemma whole_cons (l : list Z) :
  whole l -> l <> [] -> exists e a b c r, l = e :: a :: b :: c :: r /\ whole r.
Proof.
  unfold whole. intros Hw Hne. destruct l as [|e [|a [|b [|c r]]]]; try done.
  exists e, a, b, c, r. split; [done|]. cbn [length] in Hw.
  replace (S (S (S (S (length r))))) with (length r + 1 * 4)%nat in Hw by lia.
  by rewrite Nat.Div0.mod_add in Hw.
Qed.

Lemma receive_ready event s :
  out_ready s ->
  let r := ReceiveEventPacket event s in
  out_ready (snd r) /\ (snd r).(USB_DeviceState) = s.(USB_DeviceState) /\
  match available s with
  | [] => fst r = None /\ incoming (snd r) = incoming s
  | p :: ps => fst r = Some p /\ incoming s = p :: ps /\ incoming (snd r) = ps
  end.
Proof.
  destruct s as [st ib ip hp dl ob hq stl]. intros Hs. pose proof Hs as [Hw Hq]. cbn in Hw, Hq.
  unfold ReceiveEventPacket, available. cbn [incoming usb_in USB_DeviceState out_bank host_queue].
  destruct (bool_decide (st = DEVICE_STATE_Configured)); [|by cbn].
  cbn. destruct ob as [l|]; cbn.
  - destruct Hw as [Hw Hne]. destruct (whole_cons l Hw Hne) as (e & a & b & c & r & -> & Hr).
    cbn. destruct r as [|r0 r]; cbn.
    + unfold Endpoint_ClearOUT. cbn. destruct hq as [|t q]; cbn; [split; [by split|by split]|].
      apply Forall_cons_1 in Hq as [[Ht Hne'] Hq]. split; [by split|by split].
    + split; [by split|by split].
  - rewrite Hw. cbn. split; [by rewrite Hw in Hs|done].
Qed.

#[export] Instance usb_in_laws : MidiInLaws usb out_ready.
Proof.
  split; intros event s Hs; destruct (receive_ready event s Hs) as (Ho & _ & Hr); [|exact Ho]. cbv zeta in *.
  cbn [MIDI_Device_ReceiveEventPacket usb_in]. destruct (ReceiveEventPacket event s) as [o s']. cbn [fst snd] in *.
  destruct (available s); [by destruct Hr as [-> ->]|by destruct Hr as (-> & -> & ->)].
Qed.

(** The IN endpoint's operations leave the OUT side alone. *)
Definition same_out (s s' : usb) : Prop :=
  s'.(USB_DeviceState) = s.(USB_DeviceState) /\ s'.(out_bank) = s.(out_bank) /\
  s'.(host_queue) = s.(host_queue).

Lemma wait_same_out s : same_out s (snd (Endpoint_WaitUntilReady_IN s)).
Proof.
  unfold Endpoint_WaitUntilReady_IN. destruct s.(in_pending); [|done].
  destruct s.(USB_DeviceState); try done; by destruct s.(host_polls), s.(in_stalled).
Qed.

Lemma same_out_trans s1 s2 s3 : same_out s1 s2 -> same_out s2 s3 -> same_out s1 s3.
Proof. intros (? & ? & ?) (? & ? & ?). unfold same_out. split_and!; congruence. Qed.

Lemma write_stream_same_out data : forall s, same_out s (snd (write_stream data s)).
Proof.
  induction data as [|b data IH]; intros s; cbn [write_stream]; [done|].
  destruct (Endpoint_IsReadWriteAllowed_IN s); [exact (IH (Endpoint_Write_8 b s))|].
  assert (Hw := wait_same_out (Endpoint_ClearIN s)).
  destruct (Endpoint_WaitUntilReady_IN (Endpoint_ClearIN s)) as [[] s2]; cbn [snd] in *; try done.
  exact (same_out_trans _ _ _ Hw (IH (Endpoint_Write_8 b s2))).
Qed.

Lemma send_same_out p s : same_out s (snd (SendEventPacket p s)).
Proof.
  unfold SendEventPacket, Endpoint_Write_Stream_LE. destruct (bool_decide _); [|done].
  assert (Hw := wait_same_out s).
  destruct (Endpoint_WaitUntilReady_IN s) as [[] s1]; cbn [snd] in *; try done.
  assert (H2 := same_out_trans _ _ _ Hw (write_stream_same_out (encode p) s1)).
  destruct (write_stream (encode p) s1) as [[] s2]; cbn [snd] in *; try done.
  by destruct (negb _).
Qed.

Lemma flush_same_out s : same_out s (snd (Flush s)).
Proof.
  unfold Flush. destruct (bool_decide _); [|done]. destruct (_ <? _)%nat; [|done].
  exact (wait_same_out (Endpoint_ClearIN s)).
Qed.

Lemma same_out_ready s s' :
  same_out s s' -> out_ready s -> out_ready s' /\ incoming s' = incoming s.
Proof.
  intros (E1 & E2 & E3) []. cbn. rewrite E2, E3. split; [|done].
  split; by rewrite ?E1, ?E2, ?E3.
Qed.

(** And the other way round. *)
Definition same_in (s s' : usb) : Prop :=
  exists o q, s' = set_host_queue q (set_out_bank o s).

Lemma same_in_trans s1 s2 s3 : same_in s1 s2 -> same_in s2 s3 -> same_in s1 s3.
Proof. intros (o & q & ->) (o' & q' & ->). by exists o', q'. Qed.

Lemma same_in_bank o s : same_in s (set_out_bank o s).
Proof. exists o, s.(host_queue). done. Qed.

Lemma next_same_in s : same_in s (next_out_bank s).
Proof. unfold next_out_bank. destruct (next_transfer _) as [o q]. by exists o, q. Qed.

Lemma read_same_in Buffer : forall s, same_in s (snd (Endpoint_Read_Stream_LE Buffer s)).
Proof.
  assert (Hid : forall s, same_in s s) by (intros s; exists s.(out_bank), s.(host_queue); by destruct s).
  induction Buffer as [|x Buffer IH]; intros s; cbn [Endpoint_Read_Stream_LE]; [done|].
  assert (Hnext : same_in s (snd (match (next_out_bank s).(out_bank) with
    | Some (b :: r) => let '(l, s') := Endpoint_Read_Stream_LE Buffer
                         (set_out_bank (Some r) (next_out_bank s)) in (b :: l, s')
    | _ => (x :: Buffer, next_out_bank s) end))).
  { destruct ((next_out_bank s).(out_bank)) as [[|b r]|]; [apply next_same_in| |apply next_same_in].
    specialize (IH (set_out_bank (Some r) (next_out_bank s))).
    destruct (Endpoint_Read_Stream_LE Buffer _) as [l s']. cbn [snd] in *.
    exact (same_in_trans _ _ _ (next_same_in s) (same_in_trans _ _ _ (same_in_bank _ _) IH)). }
  destruct s.(out_bank) as [[|b r]|]; [exact Hnext| |exact Hnext].
  specialize (IH (set_out_bank (Some r) s)).
  destruct (Endpoint_Read_Stream_LE Buffer _) as [l s']. cbn [snd] in *.
  exact (same_in_trans _ _ _ (same_in_bank _ _) IH).
Qed.

Lemma receive_same_in event s : same_in s (snd (ReceiveEventPacket event s)).
Proof.
  assert (Hid : same_in s s) by (exists s.(out_bank), s.(host_queue); by destruct s).
  unfold ReceiveEventPacket. destruct (bool_decide _); [|done].
  destruct (negb _); [done|]. destruct (negb _); [done|].
  assert (Hr := read_same_in (encode event) s).
  destruct (Endpoint_Read_Stream_LE (encode event) s) as [l s1]. cbn [snd] in Hr.
  cbv zeta. destruct (negb _); cbn [snd]; [|done]. apply (same_in_trans _ _ _ Hr).
  unfold Endpoint_ClearOUT. destruct (host_queue s1); [apply same_in_bank|]. by eexists _, _.
Qed.

Lemma same_in_ready s s' :
  same_in s s' -> in_ready s -> in_ready s' /\ decode (stream_of s') = decode (stream_of s).
Proof. intros (o & q & ->) []. split; [by split|done]. Qed.

#[export] Instance usb_link_laws : MidiLinkLaws usb out_ready.
Proof.
  split; [apply _|..].
  - intros p s Hs. exact (same_out_ready _ _ (send_same_out p s) Hs).
  - intros s Hs. exact (same_out_ready _ _ (flush_same_out s) Hs).
  - intros event s Hs. exact (same_in_ready _ _ (receive_same_in event s) Hs).
Qed.

(** The link before the device is plugged in, and a freshly configured one. *)
Definition unplugged_link : usb := mk_usb DEVICE_STATE_Unattached [] None true [] None [] false.
Definition fresh_link : usb := mk_usb DEVICE_STATE_Configured [] None true [] None [] false.

Lemma fresh_link_ready : in_ready fresh_link.
Proof. split; try done. unfold MIDI_STREAM_EPSIZE. cbn. lia. Qed.

Lemma unplugged_ready : out_ready unplugged_link.
Proof. split; [done|constructor]. Qed.

(** ** Theorems *)

(** C16: While the device is configured and the host reads the endpoint, the
    driver is a lossless queue: whatever packets are sent in a row, however they
    fall across the 64-byte banks, the host receives exactly those packets, in
    order, once the endpoint has been flushed. *)
Theorem usb_delivers_in_order ps s :
  in_ready s ->
  let s1 := send_all ps s in
  in_ready s1 /\ decode (stream_of s1) = decode (stream_of s) ++ ps /\
  exists s2 s3, Flush s1 = (NoError, s2) /\ Endpoint_WaitUntilReady_IN s2 = (NoError, s3) /\
    decode (concat s3.(delivered)) = decode (stream_of s) ++ ps.
Proof.
  intros Hs s1.
  assert (H1 : in_ready s1 /\ decode (stream_of s1) = decode (stream_of s) ++ ps).
  { subst s1. revert s Hs. induction ps as [|p ps IH]; intros s Hs; cbn [send_all].
    - by rewrite app_nil_r.
    - destruct (send_ready p s Hs) as (s' & E & Hs' & Est & _).
      cbn. rewrite E. cbn [snd]. destruct (IH s' Hs') as [H1 H2]. split; [exact H1|].
      rewrite H2, Est, decode_app, <-app_assoc by apply (rdy_stream _ Hs). by destruct p. }
  destruct H1 as [H1 H2]. split; [done|]. split; [done|].
  destruct (flush_ready s1 H1) as (s2 & E2 & Hs2 & Est2 & Hempty).
  destruct (wait_ready s2 Hs2) as (s3 & E3 & Hs3 & Est3 & Hp3 & Hb3).
  exists s2, s3. split; [done|]. split; [done|].
  rewrite <-H2, <-Est2, <-Est3. unfold stream_of. by rewrite Hp3, Hb3, Hempty, app_nil_r.
Qed.

Lemma usb_delivers_in_order_witness :
  exists s2 s3, Flush (send_all (replicate 17 (mk_packet 9 146 36 127)) fresh_link) = (NoError, s2) /\
    Endpoint_WaitUntilReady_IN s2 = (NoError, s3) /\
    decode (concat s3.(delivered)) = replicate 17 (mk_packet 9 146 36 127).
Proof.
  destruct (usb_delivers_in_order (replicate 17 (mk_packet 9 146 36 127)) fresh_link
    fresh_link_ready) as (_ & _ & s2 & s3 & H1 & H2 & H3).
  exists s2, s3. split; [exact H1|]. split; [exact H2|exact H3].
Defined.

(** When the host stops reading with a bank still pending, or has stalled the endpoint, or
    the device is not configured, sending fails with the matching error code and the packet
    is dropped without disturbing what was queued. *)
Theorem usb_send_errors p s :
  (s.(USB_DeviceState) <> DEVICE_STATE_Configured ->
     SendEventPacket p s = (DeviceDisconnected, s)) /\
  (s.(USB_DeviceState) = DEVICE_STATE_Configured -> s.(in_pending) <> None ->
     s.(in_stalled) = true \/ s.(host_polls) = false ->
     SendEventPacket p s = (if s.(in_stalled) then EndpointStalled else Timeout, s)).
Proof.
  unfold SendEventPacket, Endpoint_Write_Stream_LE, Endpoint_WaitUntilReady_IN. split.
  - intros Hn. by rewrite bool_decide_eq_false_2.
  - intros Hc Hn Hor. rewrite bool_decide_eq_true_2 by done.
    destruct s.(in_pending); [|done]. rewrite Hc.
    destruct s.(in_stalled); [by rewrite andb_false_r|].
    destruct Hor as [?| ->]; done.
Qed.

Lemma usb_send_errors_witness :
  SendEventPacket (mk_packet 9 146 36 127)
    (mk_usb DEVICE_STATE_Configured [] (Some [1; 2; 3; 4]) false [] None [] false)
  = (Timeout, mk_usb DEVICE_STATE_Configured [] (Some [1; 2; 3; 4]) false [] None [] false).
Proof.
  apply (proj2 (usb_send_errors (mk_packet 9 146 36 127)
    (mk_usb DEVICE_STATE_Configured [] (Some [1; 2; 3; 4]) false [] None [] false))).
  - reflexivity.
  - discriminate.
  - right. reflexivity.
Defined.

(** Receiving [n] times. *)
Fixpoint drain (event : packet) (n : nat) (s : usb) : list (option packet) * usb :=
  match n with
  | O => ([], s)
  | S n => let '(o, s1) := ReceiveEventPacket event s in
           let '(l, s2) := drain event n s1 in (o :: l, s2)
  end.

(** C32: The receive side hands out the packets the host queued, one per call and in order,
    and once they are exhausted every call reports that nothing is ready: [n] calls give the
    first [n] packets, then nothing, and leave the rest queued.  A device that is not
    configured gets nothing and leaves the queue alone.  The host's transfers are non-empty
    and of whole packets. *)
Theorem usb_receives_in_order event n s :
  out_ready s ->
  exists s', out_ready s' /\ available s' = drop n (available s) /\
    incoming s' = drop (n `min` length (available s)) (incoming s) /\
    drain event n s = (map Some (take n (available s)) ++ replicate (n - length (available s)) None, s').
Proof.
  revert s. induction n as [|n IH]; intros s Hs; [by exists s|]. cbn [drain].
  destruct (receive_ready event s Hs) as (Hs1 & Hst & H). cbv zeta in *. destruct (ReceiveEventPacket event s) as [o s1].
  cbn [fst snd] in *. destruct (IH s1 Hs1) as (s' & Hs' & Ha & Hq & ->). exists s'. split; [done|].
  assert (Hc : forall l, available s = l -> incoming s1 = drop 1 l -> l <> [] -> available s1 = drop 1 l).
  { unfold available. rewrite Hst. by destruct (bool_decide _); intros l <-. }
  destruct (available s) as [|p ps] eqn:E.
  - destruct H as [-> Hin]. assert (Hn : available s1 = []).
    { unfold available in E |- *. rewrite Hst, Hin. exact E. }
    rewrite Ha, Hq, Hn, Hin, !drop_nil, !take_nil, Nat.sub_0_r. cbn. by rewrite Nat.min_0_r.
  - destruct H as (-> & Hin & Hin1). specialize (Hc (p :: ps) eq_refl Hin1 ltac:(done)). cbn in Hc.
    by rewrite Ha, Hq, Hc, Hin, Hin1.
Qed.


Lemma usb_receives_in_order_witness :
  exists s', drain (mk_packet 0 0 0 0) 3
    (mk_usb DEVICE_STATE_Configured [] None true [] (Some [9; 146; 36; 127]) [[8; 130; 36; 0]] false)
    = ([Some (mk_packet 9 146 36 127); Some (mk_packet 8 130 36 0); None], s') /\ out_ready s'.
Proof.
  destruct (usb_receives_in_order (mk_packet 0 0 0 0) 3
    (mk_usb DEVICE_STATE_Configured [] None true [] (Some [9; 146; 36; 127]) [[8; 130; 36; 0]] false)) as (s' & H1 & _ & _ & H3).
  - split; cbn; [split; [reflexivity|discriminate]|].
    apply Forall_cons_2; [split; [reflexivity|discriminate]|constructor].
  - exists s'. split; [exact H3|exact H1].
Defined.

End UsbMidi.
