(* ===== verification/UsbDescriptors.v ===== *)
(** * usb_descriptors.c: the descriptors and how the host reads them

    The packed structures of LUFA's headers are lists of field widths, so that
    [sizeof] and [offsetof] are computed as the compiler computes them.  A
    descriptor in flash is its list of bytes.  LUFA's answer to a Get Descriptor
    request (DeviceStandardReq.c and the template Template_Endpoint_Control_W.c) is
    modelled against the sequence of what its polling loop observes, which is up
    to the host. *)

From Stdlib Require Import String Ascii.
From S2P Require Import Prelude.

Module UsbDescriptors.

(** ** Packed structures *)

Inductive field := uint8_t | uint16_t.

Definition width (f : field) : Z := match f with uint8_t => 1 | uint16_t => 2 end.
Definition sizeof (s : list field) : Z := foldr (fun f n => width f + n) 0 s.

(** A structure in memory, little endian. *)
Fixpoint initialise (s : list field) (values : list Z) : list Z :=
  match s, values with
  | uint8_t :: s, v :: values => u8 v :: initialise s values
  | uint16_t :: s, v :: values => u8 v :: u8 (Z.shiftr v 8) :: initialise s values
  | _, _ => []
  end.

Definition USB_Descriptor_Header_t : list field := [uint8_t; uint8_t].
Definition USB_Descriptor_Device_t : list field :=
  USB_Descriptor_Header_t ++
  [uint16_t; uint8_t; uint8_t; uint8_t; uint8_t; uint16_t; uint16_t; uint16_t;
   uint8_t; uint8_t; uint8_t; uint8_t].
Definition USB_Descriptor_Configuration_Header_t : list field :=
  USB_Descriptor_Header_t ++ [uint16_t; uint8_t; uint8_t; uint8_t; uint8_t; uint8_t].
Definition USB_Descriptor_Interface_t : list field :=
  USB_Descriptor_Header_t ++ [uint8_t; uint8_t; uint8_t; uint8_t; uint8_t; uint8_t; uint8_t].
Definition USB_Descriptor_Endpoint_t : list field :=
  USB_Descriptor_Header_t ++ [uint8_t; uint8_t; uint16_t; uint8_t].
Definition USB_Audio_Descriptor_Interface_AC_t : list field :=
  USB_Descriptor_Header_t ++ [uint8_t; uint16_t; uint16_t; uint8_t; uint8_t].
Definition USB_Audio_Descriptor_StreamEndpoint_Std_t : list field :=
  USB_Descriptor_Endpoint_t ++ [uint8_t; uint8_t].
Definition USB_MIDI_Descriptor_AudioInterface_AS_t : list field :=
  USB_Descriptor_Header_t ++ [uint8_t; uint16_t; uint16_t].
Definition USB_MIDI_Descriptor_InputJack_t : list field :=
  USB_Descriptor_Header_t ++ [uint8_t; uint8_t; uint8_t; uint8_t].
Definition USB_MIDI_Descriptor_OutputJack_t : list field :=
  USB_Descriptor_Header_t ++ [uint8_t; uint8_t; uint8_t; uint8_t; uint8_t; uint8_t; uint8_t].
Definition USB_MIDI_Descriptor_Jack_Endpoint_t : list field :=
  USB_Descriptor_Header_t ++ [uint8_t; uint8_t; uint8_t].

(** The members of [USB_Descriptor_Configuration_t], in order. *)
Definition configuration_members : list (list field) :=
  [ USB_Descriptor_Configuration_Header_t;
    USB_Descriptor_Interface_t;
    USB_Audio_Descriptor_Interface_AC_t;
    USB_Descriptor_Interface_t;
    USB_MIDI_Descriptor_AudioInterface_AS_t;
    USB_MIDI_Descriptor_InputJack_t;
    USB_MIDI_Descriptor_InputJack_t;
    USB_MIDI_Descriptor_OutputJack_t;
    USB_MIDI_Descriptor_OutputJack_t;
    USB_Audio_Descriptor_StreamEndpoint_Std_t;
    USB_MIDI_Descriptor_Jack_Endpoint_t;
    USB_Audio_Descriptor_StreamEndpoint_Std_t;
    USB_MIDI_Descriptor_Jack_Endpoint_t ].
Definition USB_Descriptor_Configuration_t : list field := concat configuration_members.

(** [offsetof] of the member with index [n]. *)
Definition offsetof (n : nat) : Z := sizeof (concat (take n configuration_members)).

(** ** Constants and macros of the headers *)

Definition NO_DESCRIPTOR : Z := 0.
Definition DTYPE_Device : Z := 1.
Definition DTYPE_Configuration : Z := 2.
Definition DTYPE_String : Z := 3.
Definition DTYPE_Interface : Z := 4.
Definition DTYPE_Endpoint : Z := 5.
Definition DTYPE_CSInterface : Z := 36.
Definition DTYPE_CSEndpoint : Z := 37.
Definition AUDIO_DSUBTYPE_CSInterface_Header : Z := 1.
Definition AUDIO_DSUBTYPE_CSInterface_General : Z := 1.
Definition AUDIO_DSUBTYPE_CSInterface_InputTerminal : Z := 2.
Definition AUDIO_DSUBTYPE_CSInterface_OutputTerminal : Z := 3.
Definition AUDIO_DSUBTYPE_CSEndpoint_General : Z := 1.
Definition MIDI_JACKTYPE_Embedded : Z := 1.
Definition MIDI_JACKTYPE_External : Z := 2.
Definition ENDPOINT_DIR_OUT : Z := 0.
Definition ENDPOINT_DIR_IN : Z := 128.
Definition EP_TYPE_BULK : Z := 2.
Definition ENDPOINT_ATTR_NO_SYNC : Z := 0.
Definition ENDPOINT_USAGE_DATA : Z := 0.
Definition USB_CONFIG_ATTR_RESERVED : Z := 128.
Definition LANGUAGE_ID_ENG : Z := 1033.
Definition FIXED_CONTROL_ENDPOINT_SIZE : Z := 64.
Definition FIXED_NUM_CONFIGURATIONS : Z := 1.
Definition MIDI_STREAM_OUT_EPNUM : Z := 1.
Definition MIDI_STREAM_IN_EPNUM : Z := 2.
Definition MIDI_STREAM_EPSIZE : Z := 64.

Definition VERSION_BCD (Major Minor Revision : Z) : Z :=
  Z.lor (Z.lor (Z.shiftl (Z.land Major 255) 8) (Z.shiftl (Z.land Minor 15) 4))
    (Z.land Revision 15).
Definition USB_CONFIG_POWER_MA (mA : Z) : Z := Z.shiftr mA 1.
Definition USB_STRING_LEN (UnicodeChars : Z) : Z :=
  sizeof USB_Descriptor_Header_t + Z.shiftl UnicodeChars 1.

(** ** The descriptors *)

Definition DeviceDescriptor : list Z :=
  initialise USB_Descriptor_Device_t
    [ sizeof USB_Descriptor_Device_t; DTYPE_Device;
      VERSION_BCD 1 1 0;
      0; 0; 0;
      FIXED_CONTROL_ENDPOINT_SIZE;
      9600; (* 0x2580 *)
      8;
      VERSION_BCD 0 0 2;
      1; 2; NO_DESCRIPTOR;
      FIXED_NUM_CONFIGURATIONS ].

Definition Config : list Z :=
  initialise USB_Descriptor_Configuration_Header_t
    [ sizeof USB_Descriptor_Configuration_Header_t; DTYPE_Configuration;
      sizeof USB_Descriptor_Configuration_t; 2; 1; NO_DESCRIPTOR;
      USB_CONFIG_ATTR_RESERVED; USB_CONFIG_POWER_MA 480 ].
Definition Audio_ControlInterface : list Z :=
  initialise USB_Descriptor_Interface_t
    [ sizeof USB_Descriptor_Interface_t; DTYPE_Interface; 0; 0; 0; 1; 1; 0; NO_DESCRIPTOR ].
Definition Audio_ControlInterface_SPC : list Z :=
  initialise USB_Audio_Descriptor_Interface_AC_t
    [ sizeof USB_Audio_Descriptor_Interface_AC_t; DTYPE_CSInterface;
      AUDIO_DSUBTYPE_CSInterface_Header; VERSION_BCD 1 0 0;
      sizeof USB_Audio_Descriptor_Interface_AC_t; 1; 1 ].
Definition Audio_StreamInterface : list Z :=
  initialise USB_Descriptor_Interface_t
    [ sizeof USB_Descriptor_Interface_t; DTYPE_Interface; 1; 0; 2; 1; 3; 0; NO_DESCRIPTOR ].
Definition Audio_StreamInterface_SPC : list Z :=
  initialise USB_MIDI_Descriptor_AudioInterface_AS_t
    [ sizeof USB_MIDI_Descriptor_AudioInterface_AS_t; DTYPE_CSInterface;
      AUDIO_DSUBTYPE_CSInterface_General; VERSION_BCD 1 0 0;
      sizeof USB_Descriptor_Configuration_t - offsetof 4 ].
Definition MIDI_In_Jack (JackType JackID : Z) : list Z :=
  initialise USB_MIDI_Descriptor_InputJack_t
    [ sizeof USB_MIDI_Descriptor_InputJack_t; DTYPE_CSInterface;
      AUDIO_DSUBTYPE_CSInterface_InputTerminal; JackType; JackID; NO_DESCRIPTOR ].
Definition MIDI_Out_Jack (JackType JackID SourceJackID : Z) : list Z :=
  initialise USB_MIDI_Descriptor_OutputJack_t
    [ sizeof USB_MIDI_Descriptor_OutputJack_t; DTYPE_CSInterface;
      AUDIO_DSUBTYPE_CSInterface_OutputTerminal; JackType; JackID; 1; SourceJackID; 1;
      NO_DESCRIPTOR ].
Definition Jack_Endpoint (EndpointAddress : Z) : list Z :=
  initialise USB_Audio_Descriptor_StreamEndpoint_Std_t
    [ sizeof USB_Audio_Descriptor_StreamEndpoint_Std_t; DTYPE_Endpoint; EndpointAddress;
      Z.lor (Z.lor EP_TYPE_BULK ENDPOINT_ATTR_NO_SYNC) ENDPOINT_USAGE_DATA;
      MIDI_STREAM_EPSIZE; 0; 0; 0 ].
Definition Jack_Endpoint_SPC (AssociatedJackID : Z) : list Z :=
  initialise USB_MIDI_Descriptor_Jack_Endpoint_t
    [ sizeof USB_MIDI_Descriptor_Jack_Endpoint_t; DTYPE_CSEndpoint;
      AUDIO_DSUBTYPE_CSEndpoint_General; 1; AssociatedJackID ].

Definition ConfigurationDescriptor : list Z :=
  Config ++
  Audio_ControlInterface ++
  Audio_ControlInterface_SPC ++
  Audio_StreamInterface ++
  Audio_StreamInterface_SPC ++
  MIDI_In_Jack MIDI_JACKTYPE_Embedded 1 ++
  MIDI_In_Jack MIDI_JACKTYPE_External 2 ++
  MIDI_Out_Jack MIDI_JACKTYPE_Embedded 3 2 ++
  MIDI_Out_Jack MIDI_JACKTYPE_External 4 1 ++
  Jack_Endpoint (Z.lor ENDPOINT_DIR_OUT MIDI_STREAM_OUT_EPNUM) ++
  Jack_Endpoint_SPC 1 ++
  Jack_Endpoint (Z.lor ENDPOINT_DIR_IN MIDI_STREAM_IN_EPNUM) ++
  Jack_Endpoint_SPC 3.

(** A string descriptor: [UnicodeString] holds 16-bit characters; a wide string
    literal ends with a zero character, a braced list does not. *)
Definition string_descriptor (Size : Z) (UnicodeString : list Z) : list Z :=
  initialise USB_Descriptor_Header_t [Size; DTYPE_String] ++
  flat_map (fun c => [u8 c; u8 (Z.shiftr c 8)]) UnicodeString.
Definition chars (s : string) : list Z :=
  map (fun a => Z.of_nat (nat_of_ascii a)) (list_ascii_of_string s).

Definition LanguageString : list Z := string_descriptor (USB_STRING_LEN 1) [LANGUAGE_ID_ENG].
(** The literal's last character is the registered sign, U+00AE. *)
Definition ManufacturerString : list Z :=
  string_descriptor (USB_STRING_LEN 19) (chars "www.djtechtools.com" ++ [174; 0]).
Definition ProductString : list Z :=
  string_descriptor (USB_STRING_LEN 15) (chars "Midi Fighter 64" ++ [0]).
Definition SerialString : list Z :=
  string_descriptor (USB_STRING_LEN 8) (chars "6666666A" ++ [0]).

(** ** The descriptor lookup

    [Address] is the object in flash, [None] the null pointer. *)

Definition CALLBACK_USB_GetDescriptor (wValue : Z) : Z * option (list Z) :=
  let DescriptorType := u8 (Z.shiftr wValue 8) in
  let DescriptorNumber := Z.land wValue 255 in
  if DescriptorType =? DTYPE_Device then (sizeof USB_Descriptor_Device_t, Some DeviceDescriptor)
  else if DescriptorType =? DTYPE_Configuration then
    (sizeof USB_Descriptor_Configuration_t, Some ConfigurationDescriptor)
  else if DescriptorType =? DTYPE_String then
    if DescriptorNumber =? 0 then (tbl LanguageString 0, Some LanguageString)
    else if DescriptorNumber =? 1 then (tbl ManufacturerString 0, Some ManufacturerString)
    else if DescriptorNumber =? 2 then (tbl ProductString 0, Some ProductString)
    else if DescriptorNumber =? 3 then (tbl SerialString 0, Some SerialString)
    else (NO_DESCRIPTOR, None)
  else (NO_DESCRIPTOR, None).

(** ** Answering a Get Descriptor request

    One pass of the polling loops of the control write sees one of these. *)

Inductive observation :=
  | Unattached | Suspended | SETUPReceived | OUTReceived | INReady | NothingYet.

#[export] Instance observation_eq_dec : EqDecision observation.
Proof. solve_decision. Defined.

Inductive control_result :=
  | RWCSTREAM_NoError | RWCSTREAM_HostAborted | RWCSTREAM_DeviceDisconnected
  | RWCSTREAM_BusSuspended.

(** The inner loop: bytes go from flash to the endpoint's bank until the transfer
    or the bank is complete. *)
Fixpoint fill_bank (Length : nat) (DataStream bank : list Z) : res (nat * list Z * list Z) :=
  match Length with
  | O => Ok (O, DataStream, bank)
  | S Length' =>
      if (Z.of_nat (length bank) <? FIXED_CONTROL_ENDPOINT_SIZE) then
        match DataStream with
        | b :: DataStream => fill_bank Length' DataStream (bank ++ [b])
        | [] => Fault OutOfBounds
        end
      else Ok (Length, DataStream, bank)
  end.

(** The wait for the host's status stage. *)
Fixpoint status_stage (seen : list observation) (packets : list (list Z))
    : res (control_result * list (list Z)) :=
  match seen with
  | [] => Fault OutOfFuel
  | OUTReceived :: _ => Ok (RWCSTREAM_NoError, packets)
  | Unattached :: _ => Ok (RWCSTREAM_DeviceDisconnected, packets)
  | Suspended :: _ => Ok (RWCSTREAM_BusSuspended, packets)
  | SETUPReceived :: _ => Ok (RWCSTREAM_HostAborted, packets)
  | _ :: seen => status_stage seen packets
  end.

(** The data stage; [packets] are the banks committed with [Endpoint_ClearIN].
    When the host starts the status stage early the loop is left, and the wait
    sees the same bank at once. *)
Fixpoint data_stage (seen : list observation) (Length : nat) (DataStream : list Z)
    (LastPacketFull : bool) (packets : list (list Z)) : res (control_result * list (list Z)) :=
  if (0 <? Length)%nat || LastPacketFull then
    match seen with
    | [] => Fault OutOfFuel
    | Unattached :: _ => Ok (RWCSTREAM_DeviceDisconnected, packets)
    | Suspended :: _ => Ok (RWCSTREAM_BusSuspended, packets)
    | SETUPReceived :: _ => Ok (RWCSTREAM_HostAborted, packets)
    | OUTReceived :: _ => status_stage seen packets
    | INReady :: seen =>
        '(Length, DataStream, bank) ← fill_bank Length DataStream [];
        data_stage seen Length DataStream
          (Z.of_nat (length bank) =? FIXED_CONTROL_ENDPOINT_SIZE) (packets ++ [bank])
    | NothingYet :: seen => data_stage seen Length DataStream LastPacketFull packets
    end
  else status_stage seen packets.

Definition Endpoint_Write_Control_PStream_LE (wLength : Z) (seen : list observation)
    (Buffer : list Z) (Length : Z) : res (control_result * list (list Z)) :=
  if wLength <? Length then data_stage seen (Z.to_nat wLength) Buffer false []
  else if Length =? 0 then data_stage seen 0 Buffer false [[]]
  else data_stage seen (Z.to_nat Length) Buffer false [].

(** The internal serial number: twenty hexadecimal digits from the signature row
    of the chip, [boot_signature_byte_get] of the AVR library, low digit first. *)

Definition USE_INTERNAL_SERIAL : Z := 220.
Definition INTERNAL_SERIAL_LENGTH_BITS : Z := 80.
Definition INTERNAL_SERIAL_START_ADDRESS : Z := 14.

Definition serial_digit (SerialByte : Z) : Z :=
  if 10 <=? SerialByte then 65 - 10 + SerialByte else 48 + SerialByte.

Definition USB_Device_GetSerialString (boot_signature_byte_get : Z -> Z) : list Z :=
  snd (for_pure (Z.to_nat (INTERNAL_SERIAL_LENGTH_BITS / 4)) 0
    (fun SerialCharNum '(SigReadAddress, UnicodeString) =>
      let SerialByte := boot_signature_byte_get SigReadAddress in
      let odd := has_bits SerialCharNum 1 in
      let SerialByte := if odd then Z.shiftr SerialByte 4 else SerialByte in
      let SigReadAddress := if odd then u8 (SigReadAddress + 1) else SigReadAddress in
      let SerialByte := Z.land SerialByte 15 in
      (SigReadAddress, UnicodeString ++ [serial_digit SerialByte]))
    (INTERNAL_SERIAL_START_ADDRESS, [])).

Definition SignatureDescriptor (boot_signature_byte_get : Z -> Z) : list Z :=
  string_descriptor (USB_STRING_LEN (INTERNAL_SERIAL_LENGTH_BITS / 4))
    (USB_Device_GetSerialString boot_signature_byte_get).

Section get_descriptor.
Variable boot_signature_byte_get : Z -> Z.

Definition USB_Device_GetInternalSerialDescriptor (wLength : Z) (seen : list observation)
    : res (control_result * list (list Z)) :=
  Endpoint_Write_Control_PStream_LE wLength seen (SignatureDescriptor boot_signature_byte_get)
    (sizeof USB_Descriptor_Header_t + 2 * (INTERNAL_SERIAL_LENGTH_BITS / 4)).

(** [None]: the request is left unanswered, and LUFA stalls it. *)
Definition USB_Device_GetDescriptor (wValue wLength : Z) (seen : list observation)
    : res (option (control_result * list (list Z))) :=
  if wValue =? Z.lor (Z.shiftl DTYPE_String 8) USE_INTERNAL_SERIAL then
    r ← USB_Device_GetInternalSerialDescriptor wLength seen;
    Ok (Some r)
  else
    let '(DescriptorSize, DescriptorPointer) := CALLBACK_USB_GetDescriptor wValue in
    if DescriptorSize =? NO_DESCRIPTOR then Ok None
    else
      match DescriptorPointer with
      | None => Fault NullPointer
      | Some object =>
          r ← Endpoint_Write_Control_PStream_LE wLength seen object DescriptorSize;
          Ok (Some r)
      end.

(** What a request with [wValue] stands for. *)
Definition requested (wValue : Z) : option (Z * list Z) :=
  if wValue =? 988 then Some (42, SignatureDescriptor boot_signature_byte_get)
  else match CALLBACK_USB_GetDescriptor wValue with
       | (Size, Some object) => Some (Size, object)
       | (_, None) => None
       end.

End get_descriptor.

(** ** What the host makes of it *)

(** The descriptors of a configuration, cut at their length bytes. *)
Fixpoint parse_descriptors (fuel : nat) (l : list Z) : option (list (list Z)) :=
  match l, fuel with
  | [], _ => Some []
  | _, O => None
  | n :: _, S fuel =>
      if (2 <=? n) && (n <=? Z.of_nat (length l)) then
        rest ← parse_descriptors fuel (drop (Z.to_nat n) l);
        Some (take (Z.to_nat n) l :: rest)
      else None
  end.

Definition of_type (t : Z) (ds : list (list Z)) : list (list Z) :=
  filter (fun d => tbl d 1 = t) ds.

(** The host reads a data stage: it takes at least [n] banks, some later than
    others, and then starts the status stage. *)
Definition host_reads (n : nat) (seen : list observation) : Prop :=
  exists polls, seen = polls ++ [OUTReceived] /\
    Forall (fun o => o = INReady \/ o = NothingYet) polls /\
    (n <= length (filter (fun o => o = INReady) polls))%nat.

(** The packets of a transfer of [n] bytes: a full last packet is followed by an
    empty one, which tells the host that the data ended. *)
Definition packet_count (n : nat) (full : bool) : nat :=
  if (0 <? n)%nat || full then S (n / 64) else 0.
Definition packets_of (data : list Z) (full : bool) : list (list Z) :=
  map (fun i => take 64 (drop (64 * i) data)) (seq 0 (packet_count (length data) full)).

(** ** Lemmas *)

Lemma fill_bank_spec n : forall data bank,
  (n <= length data)%nat -> (length bank <= 64)%nat ->
  fill_bank n data bank =
  let k := ((64 - length bank) `min` n)%nat in
  Ok ((n - k)%nat, drop k data, bank ++ take k data).
Proof.
  induction n as [|n IH]; intros data bank Hd Hb; cbn [fill_bank].
  - cbn zeta. rewrite Nat.min_0_r. cbn. by rewrite app_nil_r.
  - unfold FIXED_CONTROL_ENDPOINT_SIZE. destruct (Z.ltb_spec (Z.of_nat (length bank)) 64).
    + destruct data as [|b data]; cbn [length] in Hd; [lia|].
      rewrite IH by (rewrite ?length_app; cbn [length]; lia). cbn zeta.
      rewrite length_app. cbn [length].
      replace ((64 - length bank) `min` S n)%nat with (S ((64 - (length bank + 1)) `min` n)) by lia.
      cbn [drop take]. rewrite <-app_assoc. cbn [app]. repeat f_equal; lia.
    + replace ((64 - length bank) `min` S n)%nat with 0%nat by lia. cbn.
      by rewrite app_nil_r.
Qed.

Lemma packet_count_step n full :
  (0 < n)%nat \/ full = true -> packet_count n full = S (packet_count (n - 64) (64 <=? n)%nat).
Proof.
  intros Hne. unfold packet_count.
  replace ((0 <? n)%nat || full) with true
    by (destruct full; [by rewrite orb_true_r|]; destruct Hne; [|done];
        destruct (Nat.ltb_spec 0 n); [done|lia]).
  destruct (Nat.leb_spec 64 n).
  - rewrite orb_true_r. f_equal.
    replace n with (1 * 64 + (n - 64))%nat at 1 by lia. by rewrite Nat.div_add_l by lia.
  - replace (n - 64)%nat with 0%nat by lia. cbn [orb Nat.ltb Nat.leb].
    by rewrite Nat.div_small by lia.
Qed.

Lemma packets_of_step data full :
  (0 < length data)%nat \/ full = true ->
  packets_of data full =
  take 64 data :: packets_of (drop 64 data) (64 <=? length data)%nat.
Proof.
  intros Hne. unfold packets_of. rewrite (packet_count_step _ _ Hne), length_drop.
  cbn [seq map]. f_equal. rewrite <-seq_shift, map_map. apply map_ext. intros i.
  rewrite drop_drop. f_equal. f_equal. lia.
Qed.

Lemma status_stage_reads polls packets :
  Forall (fun o => o = INReady \/ o = NothingYet) polls ->
  status_stage (polls ++ [OUTReceived]) packets = Ok (RWCSTREAM_NoError, packets).
Proof. induction 1 as [|o polls [-> | ->] _ IH]; [done|exact IH|exact IH]. Qed.

Lemma data_stage_reads polls : forall n data full packets,
  Forall (fun o => o = INReady \/ o = NothingYet) polls ->
  (n <= length data)%nat ->
  (packet_count n full <= length (filter (fun o => o = INReady) polls))%nat ->
  data_stage (polls ++ [OUTReceived]) n data full packets =
  Ok (RWCSTREAM_NoError, packets ++ packets_of (take n data) full).
Proof.
  induction polls as [|o polls IH]; intros n data full packets Hp Hn Hc.
  - unfold packets_of. rewrite length_take, Nat.min_l by lia.
    assert (Hz : packet_count n full = 0%nat) by (cbn in Hc; lia).
    assert (Hb : (0 <? n)%nat || full = false).
    { revert Hz. unfold packet_count. by destruct (_ || _). }
    rewrite Hz. cbn [app data_stage]. rewrite Hb. cbn. by rewrite app_nil_r.
  - pose proof Hp as Hp0. apply Forall_cons_1 in Hp as [Ho Hp]. cbn [app data_stage].
    destruct ((0 <? n)%nat || full) eqn:Hb.
    + assert (Hne : (0 < length (take n data))%nat \/ full = true).
      { rewrite length_take. apply orb_true_iff in Hb as [Hb|Hb]; [left|by right].
        apply Nat.ltb_lt in Hb. lia. }
      destruct Ho as [-> | ->].
      * rewrite fill_bank_spec by (cbn; lia). cbn zeta. rewrite bind_Ok. cbn [length app].
        replace (64 - 0)%nat with 64%nat by lia.
        rewrite (packets_of_step _ _ Hne). rewrite (length_take data n), (Nat.min_l n) by lia.
        replace (take 64 (take n data)) with (take (64 `min` n) data) by (by rewrite take_take).
        replace (Z.of_nat (length (take (64 `min` n) data)) =? FIXED_CONTROL_ENDPOINT_SIZE)
          with (64 <=? n)%nat.
        2:{ rewrite length_take. unfold FIXED_CONTROL_ENDPOINT_SIZE.
            destruct (Nat.leb_spec 64 n); lia. }
        rewrite IH; [|done|rewrite length_drop; lia|].
        { rewrite <-app_assoc. cbn [app]. do 4 f_equal.
          destruct (Nat.leb_spec 64 n).
          - rewrite Nat.min_l by lia. by rewrite skipn_firstn_comm.
          - rewrite Nat.min_r by lia. rewrite (drop_ge (take n data)) by (rewrite length_take; lia).
            by replace (n - n)%nat with 0%nat by lia. }
        rewrite filter_cons_True in Hc by done. cbn [length] in Hc.
        rewrite packet_count_step in Hc by (rewrite length_take, Nat.min_l in Hne by lia; done).
        replace (n - 64 `min` n)%nat with (n - 64)%nat by lia. lia.
      * apply IH; [done|done|]. by rewrite filter_cons_False in Hc.
    + unfold packets_of. rewrite length_take, Nat.min_l by lia.
      unfold packet_count. rewrite Hb. cbn [seq map]. rewrite app_nil_r.
      exact (status_stage_reads (o :: polls) packets Hp0).
Qed.

Lemma packets_of_concat n : forall data full,
  (length data <= n)%nat -> concat (packets_of data full) = data.
Proof.
  induction n as [n IH] using lt_wf_ind. intros data full Hn.
  destruct (Nat.eq_dec (length data) 0) as [E|E].
  - apply nil_length_inv in E as ->. unfold packets_of, packet_count. by destruct full.
  - rewrite packets_of_step by lia. cbn [concat].
    destruct (Nat.leb_spec 64 (length data)).
    + rewrite (IH (n - 1)%nat) by (rewrite ?length_drop; lia). apply take_drop.
    + rewrite drop_ge, take_ge by lia. cbn. apply app_nil_r.
Qed.

(** The packets are full but for the last, which is short. *)
Lemma packets_of_lengths data full i p :
  packets_of data full !! i = Some p ->
  (length p <= 64)%nat /\ ((length p < 64)%nat <-> S i = length (packets_of data full)).
Proof.
  unfold packets_of. rewrite length_map, length_seq. intros E.
  change (map ?f ?l) with (f <$> l) in E. apply list_lookup_fmap_Some in E as (j & -> & E).
  apply lookup_seq in E as [-> Hj]. revert Hj. unfold packet_count.
  rewrite length_take, length_drop. destruct (_ || _); [|lia].
  assert (Hd := Nat.div_mod (length data) 64). assert (Hm := Nat.mod_upper_bound (length data) 64).
  lia.
Qed.

(** Every descriptor the lookup returns is as long as the size it returns. *)
Lemma get_descriptor_size wValue :
  let '(Size, Address) := CALLBACK_USB_GetDescriptor wValue in
  0 <= Size <= 255 /\
  match Address with
  | Some object => 0 < Size <= Z.of_nat (length object)
  | None => Size = NO_DESCRIPTOR
  end.
Proof.
  unfold CALLBACK_USB_GetDescriptor.
  destruct (_ =? DTYPE_Device); [vm_compute; by split_and!|].
  destruct (_ =? DTYPE_Configuration); [vm_compute; by split_and!|].
  destruct (_ =? DTYPE_String); [|by vm_compute].
  destruct (_ =? 0); [vm_compute; by split_and!|].
  destruct (_ =? 1); [vm_compute; by split_and!|].
  destruct (_ =? 2); [vm_compute; by split_and!|].
  destruct (_ =? 3); [vm_compute; by split_and!|]. by vm_compute.
Qed.

Lemma serial_length boot_signature_byte_get :
  length (SignatureDescriptor boot_signature_byte_get) = 42%nat.
Proof. reflexivity. Qed.

Lemma requested_size boot_signature_byte_get wValue Size object :
  requested boot_signature_byte_get wValue = Some (Size, object) ->
  0 < Size <= Z.of_nat (length object).
Proof.
  unfold requested. destruct (Z.eqb_spec wValue 988).
  - intros [= <- <-]. rewrite serial_length. lia.
  - assert (Hs := get_descriptor_size wValue).
    destruct (CALLBACK_USB_GetDescriptor wValue) as [sz [o|]]; intros [= <- <-]. apply Hs.
Qed.

(** One control write of a whole object. *)
Lemma control_write_reads wLength polls object Size :
  0 <= wLength -> 0 < Size <= Z.of_nat (length object) ->
  Forall (fun o => o = INReady \/ o = NothingYet) polls ->
  (packet_count (Z.to_nat (wLength `min` Size)) false
     <= length (filter (fun o => o = INReady) polls))%nat ->
  Endpoint_Write_Control_PStream_LE wLength (polls ++ [OUTReceived]) object Size =
  Ok (RWCSTREAM_NoError, packets_of (take (Z.to_nat (wLength `min` Size)) object) false).
Proof.
  intros Hl Hs Hp Hc. unfold Endpoint_Write_Control_PStream_LE.
  replace (Size =? 0) with false by lia. destruct (Z.ltb_spec wLength Size).
  - rewrite Z.min_l in * by lia. by rewrite data_stage_reads by (done || lia).
  - rewrite Z.min_r in * by lia. by rewrite data_stage_reads by (done || lia).
Qed.

Lemma get_descriptor_requested sig wValue wLength polls :
  0 <= wLength ->
  match requested sig wValue with
  | None => forall seen, USB_Device_GetDescriptor sig wValue wLength seen = Ok None
  | Some (Size, object) =>
      let n := Z.to_nat (wLength `min` Size) in
      Forall (fun o => o = INReady \/ o = NothingYet) polls ->
      (packet_count n false <= length (filter (fun o => o = INReady) polls))%nat ->
      USB_Device_GetDescriptor sig wValue wLength (polls ++ [OUTReceived]) =
      Ok (Some (RWCSTREAM_NoError, packets_of (take n object) false))
  end.
Proof.
  cbn zeta. intros Hl. assert (Hs := requested_size sig wValue).
  assert (Hz := get_descriptor_size wValue). unfold requested in *.
  unfold USB_Device_GetDescriptor.
  change (Z.lor (Z.shiftl DTYPE_String 8) USE_INTERNAL_SERIAL) with 988.
  destruct (wValue =? 988).
  - intros Hp Hc. unfold USB_Device_GetInternalSerialDescriptor.
    change (sizeof _ + _) with 42.
    by rewrite (control_write_reads wLength polls) by (done || apply Hs, eq_refl).
  - destruct (CALLBACK_USB_GetDescriptor wValue) as [Size [object|]].
    + intros Hp Hc. specialize (Hs _ _ eq_refl). unfold NO_DESCRIPTOR.
      replace (Size =? 0) with false by lia.
      by rewrite (control_write_reads wLength polls) by done.
    + intros seen. destruct Hz as [_ ->]. done.
Qed.

(** ** Theorems *)

(** The host gets the descriptor it asks for: when it asks for [wLength] bytes and
    takes the packets as they come, at whatever pace, the answer to a Get Descriptor
    request is the descriptor (or the serial number of the chip), cut to [wLength],
    in packets of 64 bytes of which only the last is shorter; memory is never read
    past the descriptor; a request for a descriptor the device does not have is left
    to be stalled. *)
Theorem get_descriptor_answers sig wValue wLength seen :
  0 <= wLength ->
  match requested sig wValue with
  | None => USB_Device_GetDescriptor sig wValue wLength seen = Ok None
  | Some (Size, object) =>
      let n := Z.to_nat (wLength `min` Size) in
      host_reads (packet_count n false) seen ->
      exists packets,
        USB_Device_GetDescriptor sig wValue wLength seen = Ok (Some (RWCSTREAM_NoError, packets)) /\
        concat packets = take n object /\
        forall i p, packets !! i = Some p ->
          (length p <= 64)%nat /\ ((length p < 64)%nat <-> S i = length packets)
  end.
Proof.
  intros Hl. destruct (requested sig wValue) as [[Size object]|] eqn:E.
  - intros n (polls & -> & Hp & Hc). assert (H := get_descriptor_requested sig wValue wLength polls Hl).
    rewrite E in H. exists (packets_of (take n object) false).
    split; [exact (H Hp Hc)|].
    split; [exact (packets_of_concat _ _ _ (le_n _))|apply packets_of_lengths].
  - assert (H := get_descriptor_requested sig wValue wLength [] Hl). rewrite E in H. apply H.
Qed.

Lemma get_descriptor_answers_witness :
  exists packets,
    USB_Device_GetDescriptor (fun _ => 0) 512 9 [NothingYet; INReady; OUTReceived] =
      Ok (Some (RWCSTREAM_NoError, packets)) /\ concat packets = Config.
Proof.
  destruct (get_descriptor_answers (fun _ => 0) 512 9 [NothingYet; INReady; OUTReceived] ltac:(lia))
    as (packets & E & Hc & _).
  - exists [NothingYet; INReady]. split; [reflexivity|].
    split; [repeat (apply Forall_cons_2; [auto|]); constructor|].
    vm_compute. lia.
  - exists packets. split; [exact E|]. rewrite Hc. reflexivity.
Defined.

(** The configuration descriptor is well formed: cutting it at its length bytes
    gives its thirteen descriptors and nothing is left; the total lengths it states
    are those of its parts; it announces two interfaces and has the interfaces 0 and
    1, the second with two endpoints, which are the MIDI driver's OUT endpoint 1 and
    IN endpoint 2 of 64 bytes; the jacks' numbers are distinct, and every source of
    an output jack and every jack of an endpoint is one of them. *)
Theorem configuration_well_formed :
  exists ds, parse_descriptors 13 ConfigurationDescriptor = Some ds /\
    length ds = 13%nat /\
    Z.of_nat (length ConfigurationDescriptor) = tbl ConfigurationDescriptor 2 /\
    tbl ConfigurationDescriptor 3 = 0 /\
    tbl (nth 4 ds []) 5 = Z.of_nat (length (concat (drop 4 ds))) /\
    tbl Config 4 = Z.of_nat (length (of_type DTYPE_Interface ds)) /\
    map (fun d => (tbl d 2, tbl d 4)) (of_type DTYPE_Interface ds) = [(0, 0); (1, 2)] /\
    map (fun d => (tbl d 2, tbl d 3, tbl d 4)) (of_type DTYPE_Endpoint ds) =
      [(MIDI_STREAM_OUT_EPNUM, EP_TYPE_BULK, MIDI_STREAM_EPSIZE);
       (Z.lor ENDPOINT_DIR_IN MIDI_STREAM_IN_EPNUM, EP_TYPE_BULK, MIDI_STREAM_EPSIZE)] /\
    let jacks := take 4 (drop 5 ds) in
    let ids := map (fun d => tbl d 4) jacks in
    NoDup ids /\
    Forall (fun d => tbl d 6 ∈ ids) (drop 2 jacks) /\
    Forall (fun d => tbl d 4 ∈ ids) (of_type DTYPE_CSEndpoint ds).
Proof.
  eexists. split; [vm_compute; reflexivity|]. cbn zeta.
  split_and!; try reflexivity; apply (bool_decide_unpack _); by vm_compute.
Qed.

(** The manufacturer string is announced one character short: its literal has 20
    characters but the header counts 19, so the host never sees the registered
    sign. *)
Lemma manufacturer_string_cut :
  tbl ManufacturerString 0 = USB_STRING_LEN 19 /\
  take 2 (drop 40 ManufacturerString) = [174; 0] /\
  forall sig wLength seen packets, 0 <= wLength -> host_reads 1 seen ->
    USB_Device_GetDescriptor sig 769 wLength seen = Ok (Some (RWCSTREAM_NoError, packets)) ->
    concat packets = take (Z.to_nat wLength) (take 40 ManufacturerString).
Proof.
  split; [reflexivity|]. split; [reflexivity|]. intros sig wLength seen packets Hl Hr E.
  destruct Hr as (polls & -> & Hp & Hc).
  assert (Hm : (packet_count (Z.to_nat (wLength `min` 40)) false <= 1)%nat).
  { unfold packet_count. destruct (_ || _); [|lia]. rewrite Nat.div_small by lia. lia. }
  assert (H := get_descriptor_requested sig 769 wLength polls Hl).
  change (requested sig 769) with (Some (40, ManufacturerString)) in H. cbv iota beta zeta in H.
  rewrite H in E by (done || lia). injection E as <-.
  rewrite (packets_of_concat _ _ _ (le_n _)), take_take. f_equal. lia.
Qed.

End UsbDescriptors.
