(* ===== verification/UsbEndpoint.v ===== *)
(** * LUFA's endpoint management: the USB registers and the endpoint memory

    Endpoint_AVR8.h, Endpoint_AVR8.c and the endpoint set-up of
    MIDIClassDevice.c, for the ATmega32U4.  [usbregs] are the registers of the USB
    controller; the five endpoint registers exist once per endpoint and [UENUM]
    selects which of them the processor sees.  Whether the controller accepts a
    configuration ([CFGOK] in the endpoint's status register) is the parameter
    [CFGOK] of the selected endpoint's number and its size register. *)

From S2P Require Import Prelude.
From S2P Require Import Avr.
From S2P Require Import UsbDescriptors.

Module UsbEndpoint.
Import Avr UsbDescriptors.

(** ** Registers *)

Inductive ureg :=
  | UENUM | UEINT | UERST | UDADDR | UDIEN | UDINT | UDCON | USBCON | USBINT | UHWCON
  | PLLCSR | PLLFRQ.
Inductive epreg := UECFG0X | UECFG1X | UEIENX | UECONX | UEINTX.

#[export] Instance ureg_eq_dec : EqDecision ureg.
Proof. solve_decision. Defined.
#[export] Instance epreg_eq_dec : EqDecision epreg.
Proof. solve_decision. Defined.

Record usbregs := mk_usbregs {
  io : ureg -> Z;
  ep : Z -> epreg -> Z
}.

Definition set_io (r : ureg) (v : Z) (s : usbregs) : usbregs :=
  mk_usbregs (fun r' => if bool_decide (r' = r) then v else s.(io) r') s.(ep).
Definition set_ep (n : Z) (r : epreg) (v : Z) (s : usbregs) : usbregs :=
  mk_usbregs s.(io)
    (fun n' r' => if bool_decide (n' = n /\ r' = r) then v else s.(ep) n' r').

(** The endpoint register the processor sees. *)
Definition current (s : usbregs) : Z := s.(io) UENUM.
Definition epx (r : epreg) (s : usbregs) : Z := s.(ep) (current s) r.
Definition set_epx (r : epreg) (v : Z) (s : usbregs) : usbregs := set_ep (current s) r v s.

(** Bits of the endpoint registers (avr-libc's iom32u4.h). *)
Definition EPDIR : Z := 0.
Definition EPTYPE0 : Z := 6.
Definition ALLOC : Z := 1.
Definition EPBK0 : Z := 2.
Definition EPSIZE0 : Z := 4.
Definition EPEN : Z := 0.
Definition RSTDT : Z := 3.
Definition STALLRQC : Z := 4.
Definition STALLRQ : Z := 5.
Definition TXINI : Z := 0.
Definition RXOUTI : Z := 2.
Definition RXSTPI : Z := 3.
Definition FIFOCON : Z := 7.

Definition ENDPOINT_EPNUM_MASK : Z := 15.
Definition ENDPOINT_CONTROLEP : Z := 0.
Definition ENDPOINT_TOTAL_ENDPOINTS : Z := 7.
Definition EP_TYPE_CONTROL : Z := 0.

(** ** Endpoint_AVR8.h *)

Definition Endpoint_GetEndpointDirection (s : usbregs) : Z :=
  if has_bits (epx UECFG0X s) (bv EPDIR) then ENDPOINT_DIR_IN else 0.
Definition Endpoint_GetCurrentEndpoint (s : usbregs) : Z :=
  Z.lor (Z.land (s.(io) UENUM) ENDPOINT_EPNUM_MASK) (Endpoint_GetEndpointDirection s).
Definition Endpoint_SelectEndpoint (Address : Z) (s : usbregs) : usbregs :=
  set_io UENUM (Z.land Address ENDPOINT_EPNUM_MASK) s.
Definition Endpoint_ResetEndpoint (Address : Z) (s : usbregs) : usbregs :=
  set_io UERST 0 (set_io UERST (u8 (bv (Z.land Address ENDPOINT_EPNUM_MASK))) s).

Definition Endpoint_EnableEndpoint (s : usbregs) : usbregs :=
  set_epx UECONX (or_bits (epx UECONX s) (bv EPEN)) s.
Definition Endpoint_DisableEndpoint (s : usbregs) : usbregs :=
  set_epx UECONX (clear_bits (epx UECONX s) (bv EPEN)) s.
Definition Endpoint_IsEnabled (s : usbregs) : bool := has_bits (epx UECONX s) (bv EPEN).

Definition Endpoint_IsINReady (s : usbregs) : bool := has_bits (epx UEINTX s) (bv TXINI).
Definition Endpoint_IsOUTReceived (s : usbregs) : bool := has_bits (epx UEINTX s) (bv RXOUTI).
Definition Endpoint_IsSETUPReceived (s : usbregs) : bool := has_bits (epx UEINTX s) (bv RXSTPI).

Definition Endpoint_ClearSETUP (s : usbregs) : usbregs :=
  set_epx UEINTX (clear_bits (epx UEINTX s) (bv RXSTPI)) s.
Definition Endpoint_ClearIN (s : usbregs) : usbregs :=
  set_epx UEINTX (clear_bits (epx UEINTX s) (Z.lor (bv TXINI) (bv FIFOCON))) s.
Definition Endpoint_ClearOUT (s : usbregs) : usbregs :=
  set_epx UEINTX (clear_bits (epx UEINTX s) (Z.lor (bv RXOUTI) (bv FIFOCON))) s.

Definition Endpoint_IsStalled (s : usbregs) : bool := has_bits (epx UECONX s) (bv STALLRQ).
Definition Endpoint_StallTransaction (s : usbregs) : usbregs :=
  set_epx UECONX (or_bits (epx UECONX s) (bv STALLRQ)) s.

(** A one written to [STALLRQC] makes the controller take back the stall request,
    one written to [RSTDT] makes it reset the data toggle; both read as zero. *)
Definition write_UECONX (v : Z) (s : usbregs) : usbregs :=
  let v := if has_bits v (bv STALLRQC) then clear_bits v (bv STALLRQ) else v in
  set_epx UECONX (clear_bits v (Z.lor (bv STALLRQC) (bv RSTDT))) s.
Definition Endpoint_ClearStall (s : usbregs) : usbregs :=
  write_UECONX (or_bits (epx UECONX s) (bv STALLRQC)) s.
Definition Endpoint_ResetDataToggle (s : usbregs) : usbregs :=
  write_UECONX (or_bits (epx UECONX s) (bv RSTDT)) s.

(** [while (CheckBytes < Bytes)] doubles a 16-bit number: twelve rounds are enough
    up to 32768 bytes, and beyond that the loop does not end
    ([endpoint_size_bounds]). *)
Fixpoint size_mask_loop (fuel : nat) (MaskVal CheckBytes Bytes : Z) : res Z :=
  if CheckBytes <? Bytes then
    match fuel with
    | O => Fault OutOfFuel
    | S fuel => size_mask_loop fuel (u8 (MaskVal + 1)) (u16 (Z.shiftl CheckBytes 1)) Bytes
    end
  else Ok (u8 (Z.shiftl MaskVal EPSIZE0)).

Definition size_mask_fuel : nat := 12.
Definition Endpoint_BytesToEPSizeMask (Bytes : Z) : res Z :=
  size_mask_loop size_mask_fuel 0 8 Bytes.

(** ** Endpoint_AVR8.c *)

Section configure.
Variable CFGOK : Z -> Z -> bool.

Definition Endpoint_IsConfigured (s : usbregs) : bool := CFGOK (current s) (epx UECFG1X s).

(** The loop over the endpoints from [Number] on: they are set up again in
    ascending order, as the endpoint memory is allocated in that order. *)
Fixpoint configure_loop (n : nat) (EPNum Number UECFG0XData UECFG1XData : Z) (s : usbregs)
    : bool * usbregs :=
  match n with
  | O => (true, Endpoint_SelectEndpoint Number s)
  | S n =>
      let s := Endpoint_SelectEndpoint EPNum s in
      let '(UECFG0XTemp, UECFG1XTemp, UEIENXTemp) :=
        if EPNum =? Number then (UECFG0XData, UECFG1XData, 0)
        else (epx UECFG0X s, epx UECFG1X s, epx UEIENX s) in
      if negb (has_bits UECFG1XTemp (bv ALLOC))
      then configure_loop n (EPNum + 1) Number UECFG0XData UECFG1XData s
      else
        let s := Endpoint_DisableEndpoint s in
        let s := set_epx UECFG1X (clear_bits (epx UECFG1X s) (bv ALLOC)) s in
        let s := Endpoint_EnableEndpoint s in
        let s := set_epx UECFG0X UECFG0XTemp s in
        let s := set_epx UECFG1X UECFG1XTemp s in
        let s := set_epx UEIENX UEIENXTemp s in
        if negb (Endpoint_IsConfigured s) then (false, s)
        else configure_loop n (EPNum + 1) Number UECFG0XData UECFG1XData s
  end.

Definition Endpoint_ConfigureEndpoint_Prv (Number UECFG0XData UECFG1XData : Z) (s : usbregs)
    : bool * usbregs :=
  configure_loop (Z.to_nat (ENDPOINT_TOTAL_ENDPOINTS - Number)) Number Number
    UECFG0XData UECFG1XData s.

Definition Endpoint_ConfigureEndpoint (Address Type_ Size Banks : Z) (s : usbregs)
    : res (bool * usbregs) :=
  let Number := Z.land Address ENDPOINT_EPNUM_MASK in
  if ENDPOINT_TOTAL_ENDPOINTS <=? Number then Ok (false, s)
  else
    mask ← Endpoint_BytesToEPSizeMask Size;
    Ok (Endpoint_ConfigureEndpoint_Prv Number
          (u8 (Z.lor (Z.shiftl Type_ EPTYPE0)
                (if has_bits Address ENDPOINT_DIR_IN then bv EPDIR else 0)))
          (u8 (Z.lor (Z.lor (bv ALLOC) (if 1 <? Banks then bv EPBK0 else 0)) mask)) s).

Record USB_Endpoint_Table_t := mk_endpoint_table {
  Address : Z;
  Size : Z;
  Type_ : Z;
  Banks : Z
}.

Fixpoint Endpoint_ConfigureEndpointTable (Table : list USB_Endpoint_Table_t) (s : usbregs)
    : res (bool * usbregs) :=
  match Table with
  | [] => Ok (true, s)
  | t :: Table =>
      if t.(Address) =? 0 then Endpoint_ConfigureEndpointTable Table s
      else
        '(ok, s) ← Endpoint_ConfigureEndpoint t.(Address) t.(Type_) t.(Size) t.(Banks) s;
        if negb ok then Ok (false, s) else Endpoint_ConfigureEndpointTable Table s
  end.

Definition Endpoint_ClearEndpoints (s : usbregs) : usbregs :=
  let s := set_io UEINT 0 s in
  for_pure (Z.to_nat ENDPOINT_TOTAL_ENDPOINTS) 0 (fun EPNum s =>
    let s := Endpoint_SelectEndpoint EPNum s in
    let s := set_epx UEIENX 0 s in
    let s := set_epx UEINTX 0 s in
    let s := set_epx UECFG1X 0 s in
    Endpoint_DisableEndpoint s) s.

(** ** The endpoints of the MIDI interface

    midi.c's table, with the types that [MIDI_Device_ConfigureEndpoints] fills in. *)

Definition DataINEndpoint : USB_Endpoint_Table_t :=
  mk_endpoint_table (Z.lor ENDPOINT_DIR_IN MIDI_STREAM_IN_EPNUM) 64 EP_TYPE_BULK 1.
Definition DataOUTEndpoint : USB_Endpoint_Table_t :=
  mk_endpoint_table (Z.lor ENDPOINT_DIR_OUT MIDI_STREAM_OUT_EPNUM) 64 EP_TYPE_BULK 1.

Definition MIDI_Device_ConfigureEndpoints (s : usbregs) : res (bool * usbregs) :=
  '(ok, s) ← Endpoint_ConfigureEndpointTable [DataINEndpoint] s;
  if negb ok then Ok (false, s)
  else
    '(ok, s) ← Endpoint_ConfigureEndpointTable [DataOUTEndpoint] s;
    if negb ok then Ok (false, s) else Ok (true, s).

End configure.

(** ** Lemmas *)

Lemma io_set_io_eq r v s : (set_io r v s).(io) r = v.
Proof. cbn. by rewrite bool_decide_eq_true_2. Qed.
Lemma io_set_io_ne r r' v s : r' <> r -> (set_io r v s).(io) r' = s.(io) r'.
Proof. intros Hne. cbn. by rewrite bool_decide_eq_false_2. Qed.
Lemma ep_set_ep_eq n r v s : (set_ep n r v s).(ep) n r = v.
Proof. cbn. by rewrite bool_decide_eq_true_2. Qed.
Lemma ep_set_ep_ne n n' r r' v s : n' <> n \/ r' <> r -> (set_ep n r v s).(ep) n' r' = s.(ep) n' r'.
Proof. intros Hne. cbn. rewrite bool_decide_eq_false_2; [done|]. intros []. destruct Hne; congruence. Qed.

(** Reads through a chain of endpoint register writes. *)
Ltac ep_regs :=
  repeat first [rewrite ep_set_ep_eq | rewrite ep_set_ep_ne by (right; discriminate)
               |rewrite ep_set_ep_ne by (left; assumption)].

(** Endpoint [n] set up with the given configuration, while it is selected. *)
Definition reconfigured (c0 c1 ie con : Z) (r : epreg) (old : Z) : Z :=
  match r with
  | UECFG0X => c0 | UECFG1X => c1 | UEIENX => ie
  | UECONX => or_bits (clear_bits con (bv EPEN)) (bv EPEN)
  | UEINTX => old
  end.

(** What the loop from [from] on makes of the endpoint registers. *)
Definition after_configure (from Number c0 c1 : Z) (s : usbregs) (n : Z) (r : epreg) : Z :=
  if (from <=? n) && (n <? 7) then
    if n =? Number then reconfigured c0 c1 0 (s.(ep) n UECONX) r (s.(ep) n r)
    else if has_bits (s.(ep) n UECFG1X) (bv ALLOC)
    then reconfigured (s.(ep) n UECFG0X) (s.(ep) n UECFG1X) (s.(ep) n UEIENX)
           (s.(ep) n UECONX) r (s.(ep) n r)
    else s.(ep) n r
  else s.(ep) n r.

Definition same_io (s s' : usbregs) : Prop := forall r, r <> UENUM -> s'.(io) r = s.(io) r.

Lemma select_current n s : 0 <= n < 16 -> current (Endpoint_SelectEndpoint n s) = n.
Proof.
  intros Hn. unfold current, Endpoint_SelectEndpoint. rewrite io_set_io_eq.
  unfold ENDPOINT_EPNUM_MASK. rewrite land_15. by apply Z.mod_small.
Qed.

(** One pass of the loop over an endpoint with memory. *)
Definition configure_one (n c0 c1 ie : Z) (s : usbregs) : usbregs :=
  let s := Endpoint_SelectEndpoint n s in
  let s := Endpoint_DisableEndpoint s in
  let s := set_epx UECFG1X (clear_bits (epx UECFG1X s) (bv ALLOC)) s in
  let s := Endpoint_EnableEndpoint s in
  let s := set_epx UECFG0X c0 s in
  let s := set_epx UECFG1X c1 s in
  set_epx UEIENX ie s.

Lemma configure_one_spec n c0 c1 ie s :
  0 <= n < 16 ->
  current (configure_one n c0 c1 ie s) = n /\ same_io s (configure_one n c0 c1 ie s) /\
  epx UECFG1X (configure_one n c0 c1 ie s) = c1 /\
  forall m r, (configure_one n c0 c1 ie s).(ep) m r =
    if m =? n then reconfigured c0 c1 ie (s.(ep) n UECONX) r (s.(ep) n r) else s.(ep) m r.
Proof.
  intros Hn. assert (Hc := select_current n s Hn). unfold configure_one.
  set (s0 := Endpoint_SelectEndpoint n s) in *.
  assert (He : forall m r, s0.(ep) m r = s.(ep) m r) by done.
  assert (Hio : same_io s s0) by (intros r Hr; by apply io_set_io_ne).
  unfold Endpoint_DisableEndpoint, Endpoint_EnableEndpoint, set_epx, epx, current in *.
  cbn [io set_ep] in *. rewrite !Hc. clearbody s0. split; [done|]. split; [done|].
  split; [by ep_regs|]. intros m r. destruct (Z.eqb_spec m n) as [->|Hne].
  - destruct r; cbn [reconfigured]; ep_regs; by rewrite ?He.
  - ep_regs. apply He.
Qed.

Section configure_lemmas.
Variable CFGOK : Z -> Z -> bool.

Lemma configure_loop_alloc n EPNum Number c0 c1 s d0 d1 ie :
  0 <= EPNum < 16 ->
  (if EPNum =? Number then (c0, c1, 0)
   else (s.(ep) EPNum UECFG0X, s.(ep) EPNum UECFG1X, s.(ep) EPNum UEIENX)) = (d0, d1, ie) ->
  has_bits d1 (bv ALLOC) = true ->
  configure_loop CFGOK (S n) EPNum Number c0 c1 s =
  if CFGOK EPNum d1 then configure_loop CFGOK n (EPNum + 1) Number c0 c1 (configure_one EPNum d0 d1 ie s)
  else (false, configure_one EPNum d0 d1 ie s).
Proof.
  intros Hn Hd Ha. destruct (configure_one_spec EPNum d0 d1 ie s Hn) as (Hc & _ & He & _).
  cbn [configure_loop].
  assert (Hs : forall r, epx r (Endpoint_SelectEndpoint EPNum s) = s.(ep) EPNum r)
    by (intros r; unfold epx; by rewrite select_current).
  rewrite !Hs, Hd, Ha. cbn [negb].
  change (Endpoint_IsConfigured CFGOK _) with
    (CFGOK (current (configure_one EPNum d0 d1 ie s)) (epx UECFG1X (configure_one EPNum d0 d1 ie s))).
  rewrite Hc, He. by destruct (CFGOK EPNum d1).
Qed.

Lemma configure_loop_skip n EPNum Number c0 c1 s :
  0 <= EPNum < 16 -> EPNum <> Number -> has_bits (s.(ep) EPNum UECFG1X) (bv ALLOC) = false ->
  configure_loop CFGOK (S n) EPNum Number c0 c1 s =
  configure_loop CFGOK n (EPNum + 1) Number c0 c1 (Endpoint_SelectEndpoint EPNum s).
Proof.
  intros Hn Hne Ha. cbn [configure_loop].
  assert (Hs : forall r, epx r (Endpoint_SelectEndpoint EPNum s) = s.(ep) EPNum r)
    by (intros r; unfold epx; by rewrite select_current).
  rewrite !Hs. replace (EPNum =? Number) with false by lia. by rewrite Ha.
Qed.

(** The whole loop, when the controller accepts every configuration. *)
Lemma configure_loop_ok n : forall EPNum Number c0 c1 s,
  EPNum = 7 - Z.of_nat n -> 0 <= Number <= EPNum -> has_bits c1 (bv ALLOC) = true ->
  (EPNum = Number -> CFGOK Number c1 = true) ->
  (forall m, EPNum <= m < 7 -> m <> Number -> has_bits (s.(ep) m UECFG1X) (bv ALLOC) = true ->
     CFGOK m (s.(ep) m UECFG1X) = true) ->
  exists s', configure_loop CFGOK n EPNum Number c0 c1 s = (true, s') /\ current s' = Number /\
    same_io s s' /\
    forall m r, s'.(ep) m r = after_configure EPNum Number c0 c1 s m r.
Proof.
  induction n as [|n IH]; intros EPNum Number c0 c1 s He HN Hal Hok Hoks.
  - eexists. split; [reflexivity|]. split; [apply select_current; lia|].
    split; [intros r Hr; by apply io_set_io_ne|]. intros m r. unfold after_configure.
    by replace ((EPNum <=? m) && (m <? 7)) with false by lia.
  - assert (Hgo : forall d0 d1 ie, 
      (if EPNum =? Number then (c0, c1, 0)
       else (s.(ep) EPNum UECFG0X, s.(ep) EPNum UECFG1X, s.(ep) EPNum UEIENX)) = (d0, d1, ie) ->
      has_bits d1 (bv ALLOC) = true -> CFGOK EPNum d1 = true ->
      exists s', configure_loop CFGOK (S n) EPNum Number c0 c1 s = (true, s') /\ current s' = Number /\
        same_io s s' /\ forall m r, s'.(ep) m r = after_configure EPNum Number c0 c1 s m r).
    { intros d0 d1 ie Hd Ha Hc. rewrite (configure_loop_alloc _ _ _ _ _ _ d0 d1 ie), Hc by (done || lia).
      destruct (configure_one_spec EPNum d0 d1 ie s ltac:(lia)) as (_ & Hio & _ & Hep).
      destruct (IH (EPNum + 1) Number c0 c1 (configure_one EPNum d0 d1 ie s))
        as (s' & E & Hcur & Hio' & Hep'); [lia|lia|done|lia| |].
      { intros m Hm Hne. rewrite !Hep. replace (m =? EPNum) with false by lia. apply Hoks; lia. }
      exists s'. split; [done|]. split; [done|].
      split; [intros r Hr; by rewrite Hio', Hio|]. intros m r. rewrite Hep'. unfold after_configure.
      rewrite !Hep. destruct (Z.eqb_spec m EPNum) as [->|Hne].
      + replace ((EPNum + 1 <=? EPNum) && (EPNum <? 7)) with false by lia.
        replace ((EPNum <=? EPNum) && (EPNum <? 7)) with true by lia.
        destruct (Z.eqb_spec EPNum Number); injection Hd as <- <- <-; [done|]. by rewrite Ha.
      + replace ((EPNum <=? m) && (m <? 7)) with ((EPNum + 1 <=? m) && (m <? 7)) by lia. done. }
    destruct (Z.eqb_spec EPNum Number) as [->|Hne]; [by eapply Hgo; auto|].
    destruct (has_bits (s.(ep) EPNum UECFG1X) (bv ALLOC)) eqn:Ha.
    + eapply Hgo; [done|done|]. apply Hoks; done || lia.
    + rewrite configure_loop_skip by (done || lia).
      destruct (IH (EPNum + 1) Number c0 c1 (Endpoint_SelectEndpoint EPNum s))
        as (s' & E & Hcur & Hio' & Hep'); [lia|lia|done|lia| |].
      { intros m Hm Hne'. apply Hoks; lia. }
      exists s'. split; [done|]. split; [done|].
      split; [intros r Hr; rewrite Hio' by done; by apply io_set_io_ne|].
      intros m r. rewrite Hep'. unfold after_configure. cbn [ep Endpoint_SelectEndpoint set_io].
      destruct (Z.eqb_spec m EPNum) as [->|Hm].
      * replace ((EPNum + 1 <=? EPNum) && (EPNum <? 7)) with false by lia.
        replace ((EPNum <=? EPNum) && (EPNum <? 7)) with true by lia.
        replace (EPNum =? Number) with false by lia. by rewrite Ha.
      * by replace ((EPNum <=? m) && (m <? 7)) with ((EPNum + 1 <=? m) && (m <? 7)) by lia.
Qed.

End configure_lemmas.

(** An endpoint that is enabled with a given configuration. *)
Definition has_config (s : usbregs) (n c0 c1 : Z) : Prop :=
  s.(ep) n UECFG0X = c0 /\ s.(ep) n UECFG1X = c1 /\ has_bits (s.(ep) n UECONX) (bv EPEN) = true.

(** The configuration registers of an endpoint are the same. *)
Definition same_config (s s' : usbregs) (n : Z) : Prop :=
  s'.(ep) n UECFG0X = s.(ep) n UECFG0X /\ s'.(ep) n UECFG1X = s.(ep) n UECFG1X /\
  s'.(ep) n UEIENX = s.(ep) n UEIENX.

Lemma same_config_trans s1 s2 s3 n :
  same_config s1 s2 n -> same_config s2 s3 n -> same_config s1 s3 n.
Proof. intros (? & ? & ?) (? & ? & ?). unfold same_config. split_and!; congruence. Qed.

Lemma enabled_bit c : has_bits (or_bits c (bv EPEN)) (bv EPEN) = true.
Proof.
  change (bv EPEN) with (2 ^ 0). rewrite has_bits_pow2, testbit_or_bits by lia.
  apply orb_true_r.
Qed.

Lemma enable_other_bits c i :
  0 < i < 8 -> Z.testbit (or_bits (clear_bits c (bv EPEN)) (bv EPEN)) i = Z.testbit c i.
Proof.
  intros Hi. rewrite testbit_or_bits, testbit_clear_bits by lia. change (bv EPEN) with (2 ^ 0).
  rewrite Z.pow2_bits_false by lia. by rewrite orb_false_r, andb_true_r.
Qed.

(** Every endpoint that has memory is accepted by the controller. *)
Definition accepted (CFGOK : Z -> Z -> bool) (s : usbregs) : Prop :=
  forall m, 0 <= m < 7 -> has_bits (s.(ep) m UECFG1X) (bv ALLOC) = true ->
    CFGOK m (s.(ep) m UECFG1X) = true.

Lemma configure_prv_ok CFGOK Number c0 c1 s :
  0 <= Number < 7 -> has_bits c1 (bv ALLOC) = true -> CFGOK Number c1 = true -> accepted CFGOK s ->
  exists s', Endpoint_ConfigureEndpoint_Prv CFGOK Number c0 c1 s = (true, s') /\
    current s' = Number /\ same_io s s' /\ has_config s' Number c0 c1 /\ s'.(ep) Number UEIENX = 0 /\
    accepted CFGOK s' /\
    (forall n, n <> Number -> same_config s s' n) /\
    (forall n, n < Number \/ 7 <= n -> forall r, s'.(ep) n r = s.(ep) n r) /\
    (forall n, has_bits (s.(ep) n UECONX) (bv EPEN) = true ->
       has_bits (s'.(ep) n UECONX) (bv EPEN) = true) /\
    (forall n, s'.(ep) n UEINTX = s.(ep) n UEINTX) /\
    (forall n i, 0 < i < 8 -> Z.testbit (s'.(ep) n UECONX) i = Z.testbit (s.(ep) n UECONX) i) /\
    (forall n r, n <> Number -> has_bits (s.(ep) n UECFG1X) (bv ALLOC) = false ->
       s'.(ep) n r = s.(ep) n r).
Proof.
  intros HN Hal Hok Hacc.
  destruct (configure_loop_ok CFGOK (Z.to_nat (7 - Number)) Number Number c0 c1 s)
    as (s' & E & Hc & Hio & Hep); [lia|lia|done|done| |].
  { intros m Hm _. apply Hacc. lia. }
  assert (Hconf : forall n, n <> Number -> same_config s s' n).
  { intros n Hne. unfold same_config. rewrite !Hep. unfold after_configure.
    replace (n =? Number) with false by lia.
    destruct ((Number <=? n) && (n <? 7)); [|done].
    by destruct (has_bits (s.(ep) n UECFG1X) (bv ALLOC)). }
  assert (Hnew : has_config s' Number c0 c1).
  { unfold has_config. rewrite !Hep. unfold after_configure.
    replace ((Number <=? Number) && (Number <? 7)) with true by lia.
    rewrite Z.eqb_refl. cbn [reconfigured]. split_and!; [done|done|apply enabled_bit]. }
  exists s'. split; [done|]. split; [done|]. split; [done|]. split; [done|]. split.
  { rewrite Hep. unfold after_configure. replace ((Number <=? Number) && (Number <? 7)) with true by lia.
    by rewrite Z.eqb_refl. }
  split; [|split; [done|split; [|split; [|split; [|split]]]]].
  - intros m Hm. destruct (Z.eq_dec m Number) as [->|Hne].
    + destruct Hnew as (_ & -> & _). done.
    + destruct (Hconf m Hne) as (_ & -> & _). by apply Hacc.
  - intros n Hn r. rewrite Hep. unfold after_configure.
    by replace ((Number <=? n) && (n <? 7)) with false by lia.
  - intros n Hen. rewrite Hep. unfold after_configure. destruct (_ && _); [|done].
    destruct (n =? Number); cbn [reconfigured]; [apply enabled_bit|].
    destruct (has_bits (s.(ep) n UECFG1X) (bv ALLOC)); cbn [reconfigured]; [apply enabled_bit|done].
  - intros n. rewrite Hep. unfold after_configure. destruct (_ && _); [|done].
    destruct (n =? Number); [done|]. by destruct (has_bits (s.(ep) n UECFG1X) (bv ALLOC)).
  - intros n i Hi. rewrite Hep. unfold after_configure. destruct (_ && _); [|done].
    destruct (n =? Number); cbn [reconfigured]; [by apply enable_other_bits|].
    destruct (has_bits (s.(ep) n UECFG1X) (bv ALLOC)); [by apply enable_other_bits|done].
  - intros n r Hne Ha. rewrite Hep. unfold after_configure. rewrite Ha.
    replace (n =? Number) with false by lia. by destruct (_ && _).
Qed.

Lemma midi_endpoints_ok CFGOK s :
  (forall n, 1 <= n < 7 -> CFGOK n 50 = true) -> accepted CFGOK s ->
  exists s', MIDI_Device_ConfigureEndpoints CFGOK s = Ok (true, s') /\ same_io s s' /\
    has_config s' 1 128 50 /\ has_config s' 2 129 50 /\ accepted CFGOK s' /\
    (forall n, n <> 1 -> n <> 2 -> same_config s s' n) /\
    (forall n, has_bits (s.(ep) n UECONX) (bv EPEN) = true ->
       has_bits (s'.(ep) n UECONX) (bv EPEN) = true) /\
    (forall n, s'.(ep) n UEINTX = s.(ep) n UEINTX) /\
    (forall n i, 0 < i < 8 -> Z.testbit (s'.(ep) n UECONX) i = Z.testbit (s.(ep) n UECONX) i) /\
    current s' = 1 /\
    (forall n r, n <> 1 -> n <> 2 -> n <= 0 \/ has_bits (s.(ep) n UECFG1X) (bv ALLOC) = false ->
       s'.(ep) n r = s.(ep) n r).
Proof.
  intros Hcfg Hacc. unfold MIDI_Device_ConfigureEndpoints. cbn [Endpoint_ConfigureEndpointTable].
  change (Address DataINEndpoint =? 0) with false. cbv iota.
  change (Endpoint_ConfigureEndpoint CFGOK (Address DataINEndpoint) _ _ _ s) with
    (Ok (Endpoint_ConfigureEndpoint_Prv CFGOK 2 129 50 s)).
  destruct (configure_prv_ok CFGOK 2 129 50 s) as (s1 & -> & _ & Hio1 & Hc1 & _ & Hacc1 & Hs1 & Hl1 & He1 & Hi1 & Hb1 & Hk1);
    [lia|done|apply Hcfg; lia|done|].
  rewrite !bind_Ok. cbn [negb]. rewrite bind_Ok. cbn [Endpoint_ConfigureEndpointTable].
  change (Address DataOUTEndpoint =? 0) with false. cbv iota.
  change (Endpoint_ConfigureEndpoint CFGOK (Address DataOUTEndpoint) _ _ _ s1) with
    (Ok (Endpoint_ConfigureEndpoint_Prv CFGOK 1 128 50 s1)).
  destruct (configure_prv_ok CFGOK 1 128 50 s1) as (s2 & -> & Hcur & Hio2 & Hc2 & _ & Hacc2 & Hs2 & Hl2 & He2 & Hi2 & Hb2 & Hk2);
    [lia|done|apply Hcfg; lia|done|].
  rewrite !bind_Ok. cbn [negb]. exists s2. split; [done|].
  split; [intros r Hr; by rewrite Hio2, Hio1|]. split; [done|].
  split.
  { destruct Hc1 as (E0 & E1 & E2). destruct (Hs2 2 ltac:(lia)) as (F0 & F1 & _).
    split_and!; [congruence|congruence|by apply He2]. }
  split; [done|]. split; [|split; [|split; [|split; [|split; [done|]]]]].
  - intros n H1 H2. apply (same_config_trans s s1 s2); auto.
  - auto.
  - intros n. by rewrite Hi2, Hi1.
  - intros n i Hi. by rewrite Hb2, Hb1.
  - intros n r H1 H2 [Hn|Ha]; [by rewrite Hl2, Hl1 by lia|].
    rewrite Hk2; [by apply Hk1|done|]. by rewrite (Hk1 n UECFG1X).
Qed.

(** ** Theorems *)

(** The size code of an endpoint bank: up to 32768 bytes it is the smallest code
    whose bank of 8 * 2^code bytes is large enough (codes above 7, for more than
    1024 bytes, do not fit the field's three bits); beyond 32768 bytes the 16-bit
    number of the loop wraps to zero and the loop never ends. *)
Theorem endpoint_size_bounds :
  (forall Bytes, 0 <= Bytes <= 32768 ->
     exists code, 0 <= code <= 12 /\ Endpoint_BytesToEPSizeMask Bytes = Ok (16 * code) /\
       Bytes <= 8 * 2 ^ code /\ (code = 0 \/ 8 * 2 ^ (code - 1) < Bytes)) /\
  (forall Bytes fuel, 32768 < Bytes < 65536 -> size_mask_loop fuel 0 8 Bytes = Fault OutOfFuel).
Proof.
  split.
  - intros Bytes HB.
    set (p := fun Bytes => match Endpoint_BytesToEPSizeMask Bytes with
      | Ok mask => let code := mask / 16 in (mask =? 16 * code) && (0 <=? code) && (code <=? 12) &&
          (Bytes <=? 8 * 2 ^ code) && ((code =? 0) || (8 * 2 ^ (code - 1) <? Bytes))
      | Fault _ => false end).
    assert (Hp : p Bytes = true).
    { apply (check_range_spec 0 32769 p); [vm_compute; reflexivity|lia]. }
    unfold p in Hp. destruct (Endpoint_BytesToEPSizeMask Bytes) as [mask|]; [|done].
    exists (mask / 16). cbv zeta in Hp. rewrite !andb_true_iff, orb_true_iff in Hp.
    destruct Hp as ((((H1 & H2) & H3) & H4) & H5).
    split; [lia|]. split; [f_equal; lia|]. split; [lia|]. destruct H5; [left|right]; lia.
  - intros Bytes fuel HB.
    assert (Hinv : forall fuel m c, c = 0 \/ (exists j, 0 <= j <= 15 /\ c = 2 ^ j) ->
      size_mask_loop fuel m c Bytes = Fault OutOfFuel).
    { induction fuel0 as [|f IH]; intros m c Hc; cbn [size_mask_loop];
        (replace (c <? Bytes) with true;
         [|destruct Hc as [->|(j & Hj & ->)]; [lia|];
           assert (2 ^ j <= 2 ^ 15) by (apply Z.pow_le_mono_r; lia); lia]); [done|].
      apply IH. rewrite Z.shiftl_mul_pow2 by lia.
      destruct Hc as [->|(j & Hj & ->)]; [by left|].
      rewrite <-Z.pow_add_r by lia. destruct (Z.eq_dec j 15) as [->|]; [by left|].
      right. exists (j + 1). split; [lia|]. apply u16_small.
      split; [lia|]. change 65536 with (2 ^ 16). apply Z.pow_lt_mono_r; lia. }
    apply Hinv. right. by exists 3.
Qed.

(** Setting up the MIDI endpoints: when the controller accepts banks of 64 bytes,
    both bulk endpoints end up enabled with their addresses, directions and sizes,
    although the one with the larger number is set up first and moved when the
    other one is allocated below it; every other endpoint keeps its configuration,
    and an endpoint that was enabled stays so. *)
Theorem midi_endpoints_configured CFGOK s :
  (forall n, 1 <= n < 7 -> CFGOK n 50 = true) -> accepted CFGOK s ->
  exists s', MIDI_Device_ConfigureEndpoints CFGOK s = Ok (true, s') /\ same_io s s' /\
    has_config s' 1 128 50 /\ has_config s' 2 129 50 /\ accepted CFGOK s' /\
    (forall n, n <> 1 -> n <> 2 -> same_config s s' n) /\
    (forall n, has_bits (s.(ep) n UECONX) (bv EPEN) = true ->
       has_bits (s'.(ep) n UECONX) (bv EPEN) = true) /\
    (forall n, s'.(ep) n UEINTX = s.(ep) n UEINTX).
Proof.
  intros Hcfg Hacc.
  destruct (midi_endpoints_ok CFGOK s Hcfg Hacc) as (s' & E & ? & ? & ? & ? & ? & ? & ? & _).
  by exists s'.
Qed.

(** ** Witnesses *)

(** The controller's registers after a reset. *)
Definition regs_at_reset : usbregs := mk_usbregs (fun _ => 0) (fun _ _ => 0).

Lemma reset_accepted CFGOK : accepted CFGOK regs_at_reset.
Proof. intros m _ Hm. discriminate Hm. Qed.

Lemma midi_endpoints_configured_witness :
  exists s', MIDI_Device_ConfigureEndpoints (fun _ c1 => c1 <=? 62) regs_at_reset = Ok (true, s') /\
    has_config s' 1 128 50 /\ has_config s' 2 129 50.
Proof.
  destruct (midi_endpoints_configured (fun _ c1 => c1 <=? 62) regs_at_reset)
    as (s' & E & _ & H1 & H2 & _); [reflexivity|apply reset_accepted|].
  exists s'. split; [exact E|]. split; [exact H1|exact H2].
Defined.

End UsbEndpoint.
