(* ===== verification/UsbDevice.v ===== *)
(** * LUFA's device stack: controller, interrupt, control requests and task

    USBController_AVR8.c, USBInterrupt_AVR8.c, USBTask.c and DeviceStandardReq.c
    with the options of the firmware's makefile, for the ATmega32U4.

    The controller and the host act between two instructions of the firmware: an
    [happening] is what they do there.  A polling loop takes one happening before
    each of its passes, so a list of happenings bounds the passes, and the loop's
    result does not depend on how often it found nothing new.  An interrupt runs
    the handler of USBInterrupt_AVR8.c to its end.  The events the stack raises for
    the application are logged in [called]; Firmware.v has their handlers. *)

From S2P Require Import Prelude.
From S2P Require Import Avr.
From S2P Require Import UsbMidi.
From S2P Require Import UsbDescriptors.
From S2P Require Import UsbEndpoint.

Module UsbDevice.
Import UsbMidi Avr UsbDescriptors UsbEndpoint.

(** ** State *)

(** The application's events, in the order of their calls; the result of the class
    driver's endpoint set-up goes with the change of the configuration. *)
Inductive event :=
  | EVENT_Connect | EVENT_Disconnect | EVENT_Suspend | EVENT_WakeUp | EVENT_Reset
  | EVENT_StartOfFrame | EVENT_ControlRequest | EVENT_ConfigurationChanged (endpoints_ok : bool).

Record device := mk_device {
  regs : usbregs;
  USB_DeviceState : usb_state;
  USB_Device_ConfigurationNumber : Z;
  USB_Device_RemoteWakeupEnabled : bool;
  USB_Device_CurrentlySelfPowered : bool;
  USB_IsInitialized : bool;
  received : list Z;          (* the bytes of the control endpoint's bank not yet read *)
  bank : list Z;              (* the bytes written to it *)
  answered : list (list Z);   (* the packets handed to the host *)
  called : list event
}.

Definition set_regs (v : usbregs) (d : device) : device :=
  mk_device v d.(USB_DeviceState) d.(USB_Device_ConfigurationNumber)
    d.(USB_Device_RemoteWakeupEnabled) d.(USB_Device_CurrentlySelfPowered) d.(USB_IsInitialized)
    d.(received) d.(bank) d.(answered) d.(called).
Definition set_USB_DeviceState (v : usb_state) (d : device) : device :=
  mk_device d.(regs) v d.(USB_Device_ConfigurationNumber)
    d.(USB_Device_RemoteWakeupEnabled) d.(USB_Device_CurrentlySelfPowered) d.(USB_IsInitialized)
    d.(received) d.(bank) d.(answered) d.(called).
Definition set_ConfigurationNumber (v : Z) (d : device) : device :=
  mk_device d.(regs) d.(USB_DeviceState) v
    d.(USB_Device_RemoteWakeupEnabled) d.(USB_Device_CurrentlySelfPowered) d.(USB_IsInitialized)
    d.(received) d.(bank) d.(answered) d.(called).
Definition set_RemoteWakeupEnabled (v : bool) (d : device) : device :=
  mk_device d.(regs) d.(USB_DeviceState) d.(USB_Device_ConfigurationNumber)
    v d.(USB_Device_CurrentlySelfPowered) d.(USB_IsInitialized)
    d.(received) d.(bank) d.(answered) d.(called).
Definition set_CurrentlySelfPowered (v : bool) (d : device) : device :=
  mk_device d.(regs) d.(USB_DeviceState) d.(USB_Device_ConfigurationNumber)
    d.(USB_Device_RemoteWakeupEnabled) v d.(USB_IsInitialized)
    d.(received) d.(bank) d.(answered) d.(called).
Definition set_IsInitialized (v : bool) (d : device) : device :=
  mk_device d.(regs) d.(USB_DeviceState) d.(USB_Device_ConfigurationNumber)
    d.(USB_Device_RemoteWakeupEnabled) d.(USB_Device_CurrentlySelfPowered) v
    d.(received) d.(bank) d.(answered) d.(called).
Definition set_received (v : list Z) (d : device) : device :=
  mk_device d.(regs) d.(USB_DeviceState) d.(USB_Device_ConfigurationNumber)
    d.(USB_Device_RemoteWakeupEnabled) d.(USB_Device_CurrentlySelfPowered) d.(USB_IsInitialized)
    v d.(bank) d.(answered) d.(called).
Definition set_bank (v : list Z) (d : device) : device :=
  mk_device d.(regs) d.(USB_DeviceState) d.(USB_Device_ConfigurationNumber)
    d.(USB_Device_RemoteWakeupEnabled) d.(USB_Device_CurrentlySelfPowered) d.(USB_IsInitialized)
    d.(received) v d.(answered) d.(called).
Definition set_answered (v : list (list Z)) (d : device) : device :=
  mk_device d.(regs) d.(USB_DeviceState) d.(USB_Device_ConfigurationNumber)
    d.(USB_Device_RemoteWakeupEnabled) d.(USB_Device_CurrentlySelfPowered) d.(USB_IsInitialized)
    d.(received) d.(bank) v d.(called).
Definition set_called (v : list event) (d : device) : device :=
  mk_device d.(regs) d.(USB_DeviceState) d.(USB_Device_ConfigurationNumber)
    d.(USB_Device_RemoteWakeupEnabled) d.(USB_Device_CurrentlySelfPowered) d.(USB_IsInitialized)
    d.(received) d.(bank) d.(answered) v.

Definition on_regs (f : usbregs -> usbregs) (d : device) : device := set_regs (f d.(regs)) d.
Definition raise (e : event) (d : device) : device := set_called (d.(called) ++ [e]) d.
Definition in_state (st : usb_state) (d : device) : bool := bool_decide (d.(USB_DeviceState) = st).

(** The data register of the control endpoint, and handing over its bank. *)
Definition Read_8 (d : device) : Z * device :=
  match d.(received) with
  | b :: l => (b, set_received l d)
  | [] => (0, d)
  end.
Definition Write_8 (b : Z) (d : device) : device := set_bank (d.(bank) ++ [b]) d.
Definition Write_16_LE (v : Z) (d : device) : device :=
  Write_8 (u8 (Z.shiftr v 8)) (Write_8 (Z.land v 255) d).
Definition ClearIN (d : device) : device :=
  set_bank [] (set_answered (d.(answered) ++ [d.(bank)]) (on_regs Endpoint_ClearIN d)).

(** ** Bits of the controller's registers *)

Definition ADDEN : Z := 7.
Definition DETACH : Z := 0.
Definition LSM : Z := 2.
Definition SUSPI : Z := 0.
Definition SOFI : Z := 2.
Definition EORSTI : Z := 3.
Definition WAKEUPI : Z := 4.
Definition VBUSTE : Z := 0.
Definition OTGPADE : Z := 4.
Definition FRZCLK : Z := 5.
Definition USBE : Z := 7.
Definition UVREGE : Z := 0.
Definition PLOCK : Z := 0.
Definition PLLE : Z := 1.
Definition PINDIV : Z := 4.
Definition PDIV2 : Z := 2.

Definition or_io (r : ureg) (m : Z) (s : usbregs) : usbregs := set_io r (or_bits (s.(io) r) m) s.
Definition clear_io (r : ureg) (m : Z) (s : usbregs) : usbregs :=
  set_io r (clear_bits (s.(io) r) m) s.

(** ** USBInterrupt_AVR8.h *)

Inductive USB_Interrupts_t := USB_INT_VBUSTI | USB_INT_WAKEUPI | USB_INT_SUSPI | USB_INT_EORSTI
  | USB_INT_SOFI.

(** The enable and the flag bit of an interrupt, which have the same position. *)
Definition int_enable_reg (i : USB_Interrupts_t) : ureg :=
  match i with USB_INT_VBUSTI => USBCON | _ => UDIEN end.
Definition int_flag_reg (i : USB_Interrupts_t) : ureg :=
  match i with USB_INT_VBUSTI => USBINT | _ => UDINT end.
Definition int_bit (i : USB_Interrupts_t) : Z :=
  match i with
  | USB_INT_VBUSTI => VBUSTE
  | USB_INT_WAKEUPI => WAKEUPI
  | USB_INT_SUSPI => SUSPI
  | USB_INT_EORSTI => EORSTI
  | USB_INT_SOFI => SOFI
  end.

Definition USB_INT_Enable (i : USB_Interrupts_t) : usbregs -> usbregs :=
  or_io (int_enable_reg i) (bv (int_bit i)).
Definition USB_INT_Disable (i : USB_Interrupts_t) : usbregs -> usbregs :=
  clear_io (int_enable_reg i) (bv (int_bit i)).
Definition USB_INT_Clear (i : USB_Interrupts_t) : usbregs -> usbregs :=
  clear_io (int_flag_reg i) (bv (int_bit i)).
Definition USB_INT_IsEnabled (i : USB_Interrupts_t) (s : usbregs) : bool :=
  has_bits (s.(io) (int_enable_reg i)) (bv (int_bit i)).
Definition USB_INT_HasOccurred (i : USB_Interrupts_t) (s : usbregs) : bool :=
  has_bits (s.(io) (int_flag_reg i)) (bv (int_bit i)).

Definition USB_INT_DisableAllInterrupts (s : usbregs) : usbregs :=
  set_io UDIEN 0 (clear_io USBCON (bv VBUSTE) s).
Definition USB_INT_ClearAllInterrupts (s : usbregs) : usbregs :=
  set_io UDINT 0 (set_io USBINT 0 s).

(** ** USBController_AVR8.h and Device_AVR8.h *)

Definition USB_Detach : usbregs -> usbregs := or_io UDCON (bv DETACH).
Definition USB_Attach : usbregs -> usbregs := clear_io UDCON (bv DETACH).
Definition USB_PLL_PSC : Z := bv PINDIV.
Definition USB_PLL_On (s : usbregs) : usbregs :=
  set_io PLLCSR (Z.lor USB_PLL_PSC (bv PLLE)) (set_io PLLCSR USB_PLL_PSC s).
Definition USB_PLL_Off : usbregs -> usbregs := set_io PLLCSR 0.
(** [while (!(USB_PLL_IsReady()))]: the PLL locks. *)
Definition wait_PLL : usbregs -> usbregs := or_io PLLCSR (bv PLOCK).
Definition USB_REG_On : usbregs -> usbregs := or_io UHWCON (bv UVREGE).
Definition USB_REG_Off : usbregs -> usbregs := clear_io UHWCON (bv UVREGE).
Definition USB_OTGPAD_On : usbregs -> usbregs := or_io USBCON (bv OTGPADE).
Definition USB_OTGPAD_Off : usbregs -> usbregs := clear_io USBCON (bv OTGPADE).
Definition USB_CLK_Freeze : usbregs -> usbregs := or_io USBCON (bv FRZCLK).
Definition USB_CLK_Unfreeze : usbregs -> usbregs := clear_io USBCON (bv FRZCLK).
Definition USB_Controller_Disable : usbregs -> usbregs := clear_io USBCON (bv USBE).
Definition USB_Controller_Reset (s : usbregs) : usbregs :=
  or_io USBCON (bv USBE) (clear_io USBCON (bv USBE) s).

Definition USB_Device_SetFullSpeed : usbregs -> usbregs := clear_io UDCON (bv LSM).
Definition USB_Device_SetDeviceAddress (Address : Z) (s : usbregs) : usbregs :=
  set_io UDADDR (Z.lor (Z.land (s.(io) UDADDR) (bv ADDEN)) (Z.land Address 127)) s.
Definition USB_Device_EnableDeviceAddress : usbregs -> usbregs := or_io UDADDR (bv ADDEN).
Definition USB_Device_IsAddressSet (s : usbregs) : bool := has_bits (s.(io) UDADDR) (bv ADDEN).

Section stack.
Variable CFGOK : Z -> Z -> bool.
Variable boot_signature_byte_get : Z -> Z.

(** [USB_Device_ControlEndpointSize] is [FIXED_CONTROL_ENDPOINT_SIZE]; the result of
    the configuration is not used. *)
Definition configure_control_endpoint (d : device) : res device :=
  '(_, s) ← Endpoint_ConfigureEndpoint CFGOK ENDPOINT_CONTROLEP EP_TYPE_CONTROL
              FIXED_CONTROL_ENDPOINT_SIZE 1 d.(regs);
  Ok (set_regs s d).

(** ** USBController_AVR8.c *)

Definition USB_Init_Device (d : device) : res device :=
  let d := set_USB_DeviceState DEVICE_STATE_Unattached d in
  let d := set_ConfigurationNumber 0 d in
  let d := set_RemoteWakeupEnabled false d in
  let d := set_CurrentlySelfPowered false d in
  let d := on_regs USB_Device_SetFullSpeed d in
  let d := on_regs (USB_INT_Enable USB_INT_VBUSTI) d in
  d ← configure_control_endpoint d;
  let d := on_regs (USB_INT_Clear USB_INT_SUSPI) d in
  let d := on_regs (USB_INT_Enable USB_INT_SUSPI) d in
  let d := on_regs (USB_INT_Enable USB_INT_EORSTI) d in
  Ok (on_regs USB_Attach d).

Definition USB_ResetInterface (d : device) : res device :=
  let d := on_regs USB_INT_DisableAllInterrupts d in
  let d := on_regs USB_INT_ClearAllInterrupts d in
  let d := on_regs USB_Controller_Reset d in
  let d := on_regs USB_CLK_Unfreeze d in
  let d := on_regs USB_PLL_Off d in
  d ← USB_Init_Device d;
  Ok (on_regs USB_OTGPAD_On d).

Definition USB_Init (d : device) : res device :=
  let d := on_regs USB_OTGPAD_Off d in
  let d := on_regs USB_REG_On d in
  let d := on_regs (set_io PLLFRQ (bv PDIV2)) d in
  let d := set_IsInitialized true d in
  USB_ResetInterface d.

Definition USB_Disable (d : device) : device :=
  let d := on_regs USB_INT_DisableAllInterrupts d in
  let d := on_regs USB_INT_ClearAllInterrupts d in
  let d := on_regs USB_Detach d in
  let d := on_regs USB_Controller_Disable d in
  let d := on_regs USB_PLL_Off d in
  let d := on_regs USB_REG_Off d in
  let d := on_regs USB_OTGPAD_Off d in
  set_IsInitialized false d.

(** ** USBInterrupt_AVR8.c *)

Definition fires (i : USB_Interrupts_t) (d : device) : bool :=
  USB_INT_HasOccurred i d.(regs) && USB_INT_IsEnabled i d.(regs).

(** [vbus] is the state of the bus power. *)
Definition isr_vbus (vbus : bool) (d : device) : device :=
  if fires USB_INT_VBUSTI d then
    let d := on_regs (USB_INT_Clear USB_INT_VBUSTI) d in
    if vbus then
      let d := on_regs (fun s => wait_PLL (USB_PLL_On s)) d in
      raise EVENT_Connect (set_USB_DeviceState DEVICE_STATE_Powered d)
    else
      let d := on_regs USB_PLL_Off d in
      raise EVENT_Disconnect (set_USB_DeviceState DEVICE_STATE_Unattached d)
  else d.

Definition isr_suspend (d : device) : device :=
  if fires USB_INT_SUSPI d then
    let d := on_regs (USB_INT_Disable USB_INT_SUSPI) d in
    let d := on_regs (USB_INT_Enable USB_INT_WAKEUPI) d in
    let d := on_regs USB_CLK_Freeze d in
    let d := on_regs USB_PLL_Off d in
    raise EVENT_Suspend (set_USB_DeviceState DEVICE_STATE_Suspended d)
  else d.

Definition isr_wakeup (d : device) : device :=
  if fires USB_INT_WAKEUPI d then
    let d := on_regs (fun s => wait_PLL (USB_PLL_On s)) d in
    let d := on_regs USB_CLK_Unfreeze d in
    let d := on_regs (USB_INT_Clear USB_INT_WAKEUPI) d in
    let d := on_regs (USB_INT_Disable USB_INT_WAKEUPI) d in
    let d := on_regs (USB_INT_Enable USB_INT_SUSPI) d in
    let d := set_USB_DeviceState
      (if negb (d.(USB_Device_ConfigurationNumber) =? 0) then DEVICE_STATE_Configured
       else if USB_Device_IsAddressSet d.(regs) then DEVICE_STATE_Addressed
       else DEVICE_STATE_Powered) d in
    raise EVENT_WakeUp d
  else d.

Definition isr_reset (d : device) : res device :=
  if fires USB_INT_EORSTI d then
    let d := on_regs (USB_INT_Clear USB_INT_EORSTI) d in
    let d := set_USB_DeviceState DEVICE_STATE_Default d in
    let d := set_ConfigurationNumber 0 d in
    let d := on_regs (USB_INT_Clear USB_INT_SUSPI) d in
    let d := on_regs (USB_INT_Disable USB_INT_SUSPI) d in
    let d := on_regs (USB_INT_Enable USB_INT_WAKEUPI) d in
    d ← configure_control_endpoint d;
    Ok (raise EVENT_Reset d)
  else Ok d.

Definition USB_GEN_vect (vbus : bool) (d : device) : res device :=
  let d := if fires USB_INT_SOFI d
           then raise EVENT_StartOfFrame (on_regs (USB_INT_Clear USB_INT_SOFI) d) else d in
  let d := isr_vbus vbus d in
  let d := isr_suspend d in
  let d := isr_wakeup d in
  isr_reset d.

(** ** What the controller and the host do

    The control endpoint's bank becomes free for the device, holds data or a
    request of the host; or the state of the bus changes, which sets an interrupt
    flag.  A new request takes back a stall; a bus reset disables the other
    endpoints and the address. *)

Inductive happening :=
  | Nothing | BankFree | SendsOUT (data : list Z) | SendsSETUP (data : list Z)
  | VBusChange (on : bool) | BusSuspend | BusWakeUp | BusReset.

#[export] Instance happening_eq_dec : EqDecision happening.
Proof. solve_decision. Defined.

Definition or_ep0 (r : epreg) (m : Z) (s : usbregs) : usbregs :=
  set_ep 0 r (or_bits (s.(ep) 0 r) m) s.
Definition bus_reset (s : usbregs) : usbregs :=
  clear_io UDADDR (bv ADDEN)
    (for_pure 6 1 (fun n s => set_ep n UECONX (clear_bits (s.(ep) n UECONX) (bv EPEN)) s) s).

Definition happen (h : happening) (d : device) : res device :=
  match h with
  | Nothing => Ok d
  | BankFree => Ok (on_regs (or_ep0 UEINTX (bv TXINI)) d)
  | SendsOUT data => Ok (set_received data (on_regs (or_ep0 UEINTX (bv RXOUTI)) d))
  | SendsSETUP data =>
      Ok (set_received data (on_regs (fun s => or_ep0 UEINTX (bv RXSTPI)
            (set_ep 0 UECONX (clear_bits (s.(ep) 0 UECONX) (bv STALLRQ)) s)) d))
  | VBusChange on => USB_GEN_vect on (on_regs (or_io USBINT (bv VBUSTE)) d)
  | BusSuspend => USB_GEN_vect true (on_regs (or_io UDINT (bv SUSPI)) d)
  | BusWakeUp => USB_GEN_vect true (on_regs (or_io UDINT (bv WAKEUPI)) d)
  | BusReset => USB_GEN_vect true (on_regs (fun s => or_io UDINT (bv EORSTI) (bus_reset s)) d)
  end.

(** ** Endpoint_ClearStatusStage

    [while (!ready) if (USB_DeviceState == DEVICE_STATE_Unattached) return;] *)

Fixpoint wait_status (ready : usbregs -> bool) (env : list happening) (d : device)
    : res (bool * device * list happening) :=
  if ready d.(regs) then Ok (true, d, env)
  else if in_state DEVICE_STATE_Unattached d then Ok (false, d, env)
  else
    match env with
    | [] => Fault OutOfFuel
    | h :: env => d ← happen h d; wait_status ready env d
    end.

Definition Endpoint_ClearStatusStage (bmRequestType : Z) (env : list happening) (d : device)
    : res (device * list happening) :=
  if has_bits bmRequestType 128 then
    '(ready, d, env) ← wait_status Endpoint_IsOUTReceived env d;
    Ok (if (ready : bool) then on_regs Endpoint_ClearOUT d else d, env)
  else
    '(ready, d, env) ← wait_status Endpoint_IsINReady env d;
    Ok (if (ready : bool) then ClearIN d else d, env).

(** ** Sending a descriptor from flash (Template_Endpoint_Control_W.c) *)

Definition aborted (d : device) : option control_result :=
  if in_state DEVICE_STATE_Unattached d then Some RWCSTREAM_DeviceDisconnected
  else if in_state DEVICE_STATE_Suspended d then Some RWCSTREAM_BusSuspended
  else if Endpoint_IsSETUPReceived d.(regs) then Some RWCSTREAM_HostAborted
  else None.

Fixpoint control_status (env : list happening) (d : device)
    : res (control_result * device * list happening) :=
  if Endpoint_IsOUTReceived d.(regs) then Ok (RWCSTREAM_NoError, d, env)
  else
    match aborted d with
    | Some e => Ok (e, d, env)
    | None =>
        match env with
        | [] => Fault OutOfFuel
        | h :: env => d ← happen h d; control_status env d
        end
    end.

Fixpoint control_data (env : list happening) (Length : nat) (DataStream : list Z)
    (LastPacketFull : bool) (d : device) : res (control_result * device * list happening) :=
  if (0 <? Length)%nat || LastPacketFull then
    match aborted d with
    | Some e => Ok (e, d, env)
    | None =>
        if Endpoint_IsOUTReceived d.(regs) then control_status env d
        else
          '(Length, DataStream, LastPacketFull, d) ←
            (if Endpoint_IsINReady d.(regs) then
               '(Length, DataStream, l) ← fill_bank Length DataStream d.(bank);
               Ok (Length, DataStream, Z.of_nat (length l) =? FIXED_CONTROL_ENDPOINT_SIZE,
                   ClearIN (set_bank l d))
             else Ok (Length, DataStream, LastPacketFull, d));
          match env with
          | [] => Fault OutOfFuel
          | h :: env => d ← happen h d; control_data env Length DataStream LastPacketFull d
          end
    end
  else control_status env d.

Definition Write_Control_PStream_LE (wLength : Z) (Buffer : list Z) (Length : Z)
    (env : list happening) (d : device) : res (control_result * device * list happening) :=
  if wLength <? Length then control_data env (Z.to_nat wLength) Buffer false d
  else if Length =? 0 then control_data env 0 Buffer false (ClearIN d)
  else control_data env (Z.to_nat Length) Buffer false d.

(** ** DeviceStandardReq.c *)

Record USB_Request_Header_t := mk_request {
  bmRequestType : Z;
  bRequest : Z;
  wValue : Z;
  wIndex : Z;
  wLength : Z
}.

(** Eight bytes read into the structure, low bytes first. *)
Definition read_request (d : device) : USB_Request_Header_t * device :=
  let '(b0, d) := Read_8 d in let '(b1, d) := Read_8 d in
  let '(b2, d) := Read_8 d in let '(b3, d) := Read_8 d in
  let '(b4, d) := Read_8 d in let '(b5, d) := Read_8 d in
  let '(b6, d) := Read_8 d in let '(b7, d) := Read_8 d in
  (mk_request b0 b1 (b2 + 256 * b3) (b4 + 256 * b5) (b6 + 256 * b7), d).

Definition REQ_GetStatus : Z := 0.
Definition REQ_ClearFeature : Z := 1.
Definition REQ_SetFeature : Z := 3.
Definition REQ_SetAddress : Z := 5.
Definition REQ_GetDescriptor : Z := 6.
Definition REQ_GetConfiguration : Z := 8.
Definition REQ_SetConfiguration : Z := 9.
Definition REQDIR_DEVICETOHOST : Z := 128.
Definition REQREC_DEVICE : Z := 0.
Definition REQREC_INTERFACE : Z := 1.
Definition REQREC_ENDPOINT : Z := 2.
Definition CONTROL_REQTYPE_RECIPIENT : Z := 31.
Definition FEATURE_SEL_EndpointHalt : Z := 0.
Definition FEATURE_SEL_DeviceRemoteWakeup : Z := 1.
Definition FEATURE_SELFPOWERED_ENABLED : Z := 1.
Definition FEATURE_REMOTE_WAKEUP_ENABLED : Z := 2.
Definition FIXED_NUM_CONFIGURATIONS : Z := 1.

(** [while (!(Endpoint_IsINReady()));] *)
Fixpoint wait_IN (env : list happening) (d : device) : res (device * list happening) :=
  if Endpoint_IsINReady d.(regs) then Ok (d, env)
  else
    match env with
    | [] => Fault OutOfFuel
    | h :: env => d ← happen h d; wait_IN env d
    end.

Definition USB_Device_SetAddress (q : USB_Request_Header_t) (env : list happening) (d : device)
    : res (device * list happening) :=
  let DeviceAddress := Z.land q.(wValue) 127 in
  let d := on_regs (USB_Device_SetDeviceAddress DeviceAddress) d in
  let d := on_regs Endpoint_ClearSETUP d in
  '(d, env) ← Endpoint_ClearStatusStage q.(bmRequestType) env d;
  '(d, env) ← wait_IN env d;
  let d := on_regs USB_Device_EnableDeviceAddress d in
  Ok (set_USB_DeviceState
        (if negb (DeviceAddress =? 0) then DEVICE_STATE_Addressed else DEVICE_STATE_Default) d, env).

(** The application's handler first has the class driver set up its endpoints. *)
Definition configuration_changed (d : device) : res device :=
  '(ok, s) ← MIDI_Device_ConfigureEndpoints CFGOK d.(regs);
  Ok (raise (EVENT_ConfigurationChanged ok) (set_regs s d)).

Definition USB_Device_SetConfiguration (q : USB_Request_Header_t) (env : list happening)
    (d : device) : res (device * list happening) :=
  if FIXED_NUM_CONFIGURATIONS <? u8 q.(wValue) then Ok (d, env)
  else
    let d := on_regs Endpoint_ClearSETUP d in
    let d := set_ConfigurationNumber (u8 q.(wValue)) d in
    '(d, env) ← Endpoint_ClearStatusStage q.(bmRequestType) env d;
    let d := set_USB_DeviceState
      (if negb (d.(USB_Device_ConfigurationNumber) =? 0) then DEVICE_STATE_Configured
       else if USB_Device_IsAddressSet d.(regs) then DEVICE_STATE_Configured
       else DEVICE_STATE_Powered) d in
    d ← configuration_changed d;
    Ok (d, env).

Definition USB_Device_GetConfiguration (q : USB_Request_Header_t) (env : list happening)
    (d : device) : res (device * list happening) :=
  let d := on_regs Endpoint_ClearSETUP d in
  let d := Write_8 d.(USB_Device_ConfigurationNumber) d in
  let d := ClearIN d in
  Endpoint_ClearStatusStage q.(bmRequestType) env d.

Definition answer_descriptor (q : USB_Request_Header_t) (object : list Z) (Size : Z)
    (env : list happening) (d : device) : res (device * list happening) :=
  let d := on_regs Endpoint_ClearSETUP d in
  '(_, d, env) ← Write_Control_PStream_LE q.(wLength) object Size env d;
  Ok (on_regs Endpoint_ClearOUT d, env).

Definition GetInternalSerialDescriptor (q : USB_Request_Header_t) :
    list happening -> device -> res (device * list happening) :=
  answer_descriptor q (SignatureDescriptor boot_signature_byte_get)
    (sizeof USB_Descriptor_Header_t + 2 * (INTERNAL_SERIAL_LENGTH_BITS / 4)).

Definition GetDescriptor (q : USB_Request_Header_t) (env : list happening) (d : device)
    : res (device * list happening) :=
  if q.(wValue) =? Z.lor (Z.shiftl DTYPE_String 8) USE_INTERNAL_SERIAL
  then GetInternalSerialDescriptor q env d
  else
    let '(DescriptorSize, DescriptorPointer) := CALLBACK_USB_GetDescriptor q.(wValue) in
    if DescriptorSize =? NO_DESCRIPTOR then Ok (d, env)
    else
      match DescriptorPointer with
      | None => Fault NullPointer
      | Some object => answer_descriptor q object DescriptorSize env d
      end.

Definition USB_Device_GetStatus (q : USB_Request_Header_t) (env : list happening) (d : device)
    : res (device * list happening) :=
  let answer CurrentStatus d :=
    let d := on_regs Endpoint_ClearSETUP d in
    let d := Write_16_LE CurrentStatus d in
    let d := ClearIN d in
    Endpoint_ClearStatusStage q.(bmRequestType) env d in
  if q.(bmRequestType) =? Z.lor REQDIR_DEVICETOHOST REQREC_DEVICE then
    answer (Z.lor (if d.(USB_Device_CurrentlySelfPowered) then FEATURE_SELFPOWERED_ENABLED else 0)
                  (if d.(USB_Device_RemoteWakeupEnabled) then FEATURE_REMOTE_WAKEUP_ENABLED else 0)) d
  else if q.(bmRequestType) =? Z.lor REQDIR_DEVICETOHOST REQREC_ENDPOINT then
    let d := on_regs (Endpoint_SelectEndpoint (Z.land (u8 q.(wIndex)) ENDPOINT_EPNUM_MASK)) d in
    let CurrentStatus := Z.b2z (Endpoint_IsStalled d.(regs)) in
    answer CurrentStatus (on_regs (Endpoint_SelectEndpoint ENDPOINT_CONTROLEP) d)
  else Ok (d, env).

Definition USB_Device_ClearSetFeature (q : USB_Request_Header_t) (env : list happening)
    (d : device) : res (device * list happening) :=
  let finish d :=
    let d := on_regs (Endpoint_SelectEndpoint ENDPOINT_CONTROLEP) d in
    let d := on_regs Endpoint_ClearSETUP d in
    Endpoint_ClearStatusStage q.(bmRequestType) env d in
  let recipient := Z.land q.(bmRequestType) CONTROL_REQTYPE_RECIPIENT in
  if recipient =? REQREC_DEVICE then
    if u8 q.(wValue) =? FEATURE_SEL_DeviceRemoteWakeup
    then finish (set_RemoteWakeupEnabled (q.(bRequest) =? REQ_SetFeature) d)
    else Ok (d, env)
  else if recipient =? REQREC_ENDPOINT then
    if u8 q.(wValue) =? FEATURE_SEL_EndpointHalt then
      let EndpointIndex := Z.land (u8 q.(wIndex)) ENDPOINT_EPNUM_MASK in
      if EndpointIndex =? ENDPOINT_CONTROLEP then Ok (d, env)
      else
        let d := on_regs (Endpoint_SelectEndpoint EndpointIndex) d in
        let d :=
          if Endpoint_IsEnabled d.(regs) then
            if q.(bRequest) =? REQ_SetFeature then on_regs Endpoint_StallTransaction d
            else on_regs (fun s => Endpoint_ResetDataToggle (Endpoint_ResetEndpoint EndpointIndex
                   (Endpoint_ClearStall s))) d
          else d in
        finish d
    else finish d
  else Ok (d, env).

(** The request's own function, when its type fits. *)
Definition standard_request (q : USB_Request_Header_t) (env : list happening) (d : device)
    : res (device * list happening) :=
  let t := q.(bmRequestType) in
  let r := q.(bRequest) in
  if r =? REQ_GetStatus then
    if (t =? Z.lor REQDIR_DEVICETOHOST REQREC_DEVICE) ||
       (t =? Z.lor REQDIR_DEVICETOHOST REQREC_ENDPOINT)
    then USB_Device_GetStatus q env d else Ok (d, env)
  else if (r =? REQ_ClearFeature) || (r =? REQ_SetFeature) then
    if (t =? REQREC_DEVICE) || (t =? REQREC_ENDPOINT)
    then USB_Device_ClearSetFeature q env d else Ok (d, env)
  else if r =? REQ_SetAddress then
    if t =? REQREC_DEVICE then USB_Device_SetAddress q env d else Ok (d, env)
  else if r =? REQ_GetDescriptor then
    if (t =? Z.lor REQDIR_DEVICETOHOST REQREC_DEVICE) ||
       (t =? Z.lor REQDIR_DEVICETOHOST REQREC_INTERFACE)
    then GetDescriptor q env d else Ok (d, env)
  else if r =? REQ_GetConfiguration then
    if t =? Z.lor REQDIR_DEVICETOHOST REQREC_DEVICE
    then USB_Device_GetConfiguration q env d else Ok (d, env)
  else if r =? REQ_SetConfiguration then
    if t =? REQREC_DEVICE then USB_Device_SetConfiguration q env d else Ok (d, env)
  else Ok (d, env).

(** The application has no handler for [EVENT_USB_Device_ControlRequest]. *)
Definition USB_Device_ProcessControlRequest (env : list happening) (d : device)
    : res (device * list happening) :=
  let '(q, d) := read_request d in
  let d := raise EVENT_ControlRequest d in
  '(d, env) ← (if Endpoint_IsSETUPReceived d.(regs) then standard_request q env d else Ok (d, env));
  if Endpoint_IsSETUPReceived d.(regs)
  then Ok (on_regs (fun s => Endpoint_StallTransaction (Endpoint_ClearSETUP s)) d, env)
  else Ok (d, env).

(** ** USBTask.c *)

Definition USB_DeviceTask (env : list happening) (d : device) : res (device * list happening) :=
  if in_state DEVICE_STATE_Unattached d then Ok (d, env)
  else
    let PrevEndpoint := Endpoint_GetCurrentEndpoint d.(regs) in
    let d := on_regs (Endpoint_SelectEndpoint ENDPOINT_CONTROLEP) d in
    '(d, env) ← (if Endpoint_IsSETUPReceived d.(regs)
                 then USB_Device_ProcessControlRequest env d else Ok (d, env));
    Ok (on_regs (Endpoint_SelectEndpoint PrevEndpoint) d, env).

End stack.

(** ** Lemmas *)

Lemma control_endpoint_total CFGOK d : exists d', configure_control_endpoint CFGOK d = Ok d'.
Proof.
  unfold configure_control_endpoint, Endpoint_ConfigureEndpoint.
  change (ENDPOINT_TOTAL_ENDPOINTS <=? _) with false. cbv iota zeta.
  change (Endpoint_BytesToEPSizeMask _) with (@Ok Z 48). rewrite bind_Ok.
  destruct (Endpoint_ConfigureEndpoint_Prv _ _ _ _ _) as [ok s]. rewrite bind_Ok. eauto.
Qed.

(** Whatever happens on the bus, the interrupt runs to its end. *)
Lemma happen_total CFGOK h d : exists d', happen CFGOK h d = Ok d'.
Proof.
  assert (Hi : forall v d, exists d', USB_GEN_vect CFGOK v d = Ok d').
  { intros v d0. unfold USB_GEN_vect, isr_reset. cbv zeta. destruct (fires USB_INT_EORSTI _); [|eauto].
    edestruct control_endpoint_total as [d1 ->]. rewrite bind_Ok. eauto. }
  destruct h; cbn [happen]; eauto.
Qed.

End UsbDevice.
