(* ===== verification/UsbStream.v ===== *)
(** * The MIDI streams on the USB controller's registers

    UsbMidi has the class driver over banks of its own.  Here the driver and LUFA's
    stream functions run on the registers of UsbEndpoint and the state of UsbDevice,
    which they share with the control requests: the endpoint is selected with [UENUM],
    its flags are bits of [UEINTX], and [Endpoint_WaitUntilReady] polls them, counting
    the frames of the bus until its timeout.  What the host and the controller do
    between two polls is a list of [traffic].  The driver here refines UsbMidi's. *)

From S2P Require Import Prelude.
From S2P Require Import Avr.
From S2P Require Import Midi.
From S2P Require Import UsbMidi.
From S2P Require Import UsbDescriptors.
From S2P Require Import UsbEndpoint.
From S2P Require Import UsbDevice.

Module UsbStream.
Import Avr Midi UsbMidi UsbDescriptors UsbEndpoint UsbDevice.

(** ** State *)

Definition IN_EP : Z := MIDI_STREAM_IN_EPNUM.
Definition OUT_EP : Z := MIDI_STREAM_OUT_EPNUM.

Record port := mk_port {
  dev : device;
  in_fifo : list Z;                (* the bytes written to the IN endpoint's bank *)
  in_transit : option (list Z);    (* the bank handed over and not yet taken *)
  taken : list (list Z);           (* the banks the host has taken *)
  out_fifo : list Z;               (* the bytes of the OUT endpoint's bank not yet read *)
  frame : Z                        (* UDFNUM *)
}.

Definition set_dev (v : device) (s : port) : port :=
  mk_port v s.(in_fifo) s.(in_transit) s.(taken) s.(out_fifo) s.(frame).
Definition set_in_fifo (v : list Z) (s : port) : port :=
  mk_port s.(dev) v s.(in_transit) s.(taken) s.(out_fifo) s.(frame).
Definition set_in_transit (v : option (list Z)) (s : port) : port :=
  mk_port s.(dev) s.(in_fifo) v s.(taken) s.(out_fifo) s.(frame).
Definition set_taken (v : list (list Z)) (s : port) : port :=
  mk_port s.(dev) s.(in_fifo) s.(in_transit) v s.(out_fifo) s.(frame).
Definition set_out_fifo (v : list Z) (s : port) : port :=
  mk_port s.(dev) s.(in_fifo) s.(in_transit) s.(taken) v s.(frame).
Definition set_frame (v : Z) (s : port) : port :=
  mk_port s.(dev) s.(in_fifo) s.(in_transit) s.(taken) s.(out_fifo) v.

Definition port_regs (s : port) : usbregs := s.(dev).(regs).
Definition on_port (f : usbregs -> usbregs) (s : port) : port := set_dev (on_regs f s.(dev)) s.
Definition selects (n : Z) (s : port) : bool := current (port_regs s) =? n.

(** ** What the host and the controller do *)

Inductive traffic :=
  | Bus (h : happening)
  | HostIN                    (* an IN token at the MIDI endpoint *)
  | HostOUT (data : list Z)   (* an OUT packet for it *)
  | FrameStarts.

Definition epbit (n : Z) (r : epreg) (i : Z) (s : port) : bool := Z.testbit ((port_regs s).(ep) n r) i.
Definition or_ep (n : Z) (r : epreg) (m : Z) (s : usbregs) : usbregs := set_ep n r (or_bits (s.(ep) n r) m) s.

Section stream.
Variable CFGOK : Z -> Z -> bool.
Variable boot_signature_byte_get : Z -> Z.
(** What the flag [RWAL] and the byte counter show while the control endpoint is selected. *)
Variable RWAL0 : bool.
Variable UEBC0 : Z.

(** The controller sets [TXINI] when the host has taken the bank, [RXOUTI] when it has
    filled one; a stalled endpoint and a full bank refuse the host's token. *)
Definition traffic_step (t : traffic) (s : port) : res port :=
  match t with
  | Bus h => d ← happen CFGOK h s.(dev); Ok (set_dev d s)
  | HostIN =>
      match s.(in_transit) with
      | Some l =>
          if epbit IN_EP UECONX STALLRQ s then Ok s
          else Ok (on_port (or_ep IN_EP UEINTX (bv TXINI))
                     (set_in_transit None (set_taken (s.(taken) ++ [l]) s)))
      | None => Ok s
      end
  | HostOUT data =>
      if epbit OUT_EP UECONX STALLRQ s || epbit OUT_EP UEINTX RXOUTI s then Ok s
      else Ok (on_port (or_ep OUT_EP UEINTX (bv RXOUTI)) (set_out_fifo data s))
  | FrameStarts => Ok (set_frame ((s.(frame) + 1) mod 2048) s)
  end.

(** ** Endpoint_AVR8.h, on the endpoint that is selected *)

Definition IsReadWriteAllowed (s : port) : bool :=
  if selects IN_EP s then Z.of_nat (length s.(in_fifo)) <? 64
  else if selects OUT_EP s then negb (bool_decide (s.(out_fifo) = [])) else RWAL0.
Definition BytesInEndpoint (s : port) : Z :=
  if selects IN_EP s then Z.of_nat (length s.(in_fifo))
  else if selects OUT_EP s then Z.of_nat (length s.(out_fifo)) else UEBC0.

(** The data register: a byte written while the OUT endpoint is selected is lost. *)
Definition Write_byte (v : Z) (s : port) : port :=
  if selects IN_EP s then set_in_fifo (s.(in_fifo) ++ [v]) s
  else if selects ENDPOINT_CONTROLEP s then set_dev (Write_8 v s.(dev)) s else s.
Definition Read_byte (s : port) : Z * port :=
  if selects OUT_EP s then
    match s.(out_fifo) with b :: l => (b, set_out_fifo l s) | [] => (0, s) end
  else if selects ENDPOINT_CONTROLEP s then let '(b, d) := Read_8 s.(dev) in (b, set_dev d s) else (0, s).

Definition ClearIN_bank (s : port) : port :=
  if selects IN_EP s then on_port Endpoint_ClearIN (set_in_fifo [] (set_in_transit (Some s.(in_fifo)) s))
  else if selects ENDPOINT_CONTROLEP s then set_dev (ClearIN s.(dev)) s
  else on_port Endpoint_ClearIN s.
Definition ClearOUT_bank (s : port) : port :=
  if selects OUT_EP s then on_port Endpoint_ClearOUT (set_out_fifo [] s) else on_port Endpoint_ClearOUT s.

(** ** Endpoint_WaitUntilReady *)

Definition USB_STREAM_TIMEOUT_MS : Z := 100.

Definition is_ready (s : port) : bool :=
  if Endpoint_GetEndpointDirection (port_regs s) =? ENDPOINT_DIR_IN
  then Endpoint_IsINReady (port_regs s) else Endpoint_IsOUTReceived (port_regs s).

Fixpoint wait_loop (env : list traffic) (TimeoutMSRem PreviousFrameNumber : Z) (s : port)
    : res (stream_error * port * list traffic) :=
  if is_ready s then Ok (NoError, s, env)
  else if in_state DEVICE_STATE_Unattached s.(dev) then Ok (DeviceDisconnected, s, env)
  else if in_state DEVICE_STATE_Suspended s.(dev) then Ok (BusSuspended, s, env)
  else if Endpoint_IsStalled (port_regs s) then Ok (EndpointStalled, s, env)
  else
    let CurrentFrameNumber := s.(frame) in
    if negb (CurrentFrameNumber =? PreviousFrameNumber) && (TimeoutMSRem =? 0) then Ok (Timeout, s, env)
    else
      let TimeoutMSRem := if CurrentFrameNumber =? PreviousFrameNumber then TimeoutMSRem
                          else u8 (TimeoutMSRem - 1) in
      match env with
      | [] => Fault OutOfFuel
      | t :: env => s ← traffic_step t s; wait_loop env TimeoutMSRem CurrentFrameNumber s
      end.

Definition Endpoint_WaitUntilReady (env : list traffic) (s : port) : res (stream_error * port * list traffic) :=
  wait_loop env USB_STREAM_TIMEOUT_MS s.(frame) s.

(** ** The streams (Template_Endpoint_RW.c, without the progress counter)

    A full or empty bank is handed over; the USB task then serves a control request
    ([tasks] is what the host does meanwhile) before the next bank is waited for. *)

Definition next_bank (clear : port -> port) (tasks : list happening) (env : list traffic) (s : port)
    : res (stream_error * port * list happening * list traffic) :=
  let s := clear s in
  '(d, tasks) ← USB_DeviceTask CFGOK boot_signature_byte_get tasks s.(dev);
  '(e, s, env) ← Endpoint_WaitUntilReady env (set_dev d s);
  Ok (e, s, tasks, env).

Fixpoint write_loop (fuel : nat) (data : list Z) (tasks : list happening) (env : list traffic) (s : port)
    : res (stream_error * port * list traffic) :=
  match data, fuel with
  | [], _ => Ok (NoError, s, env)
  | _ :: _, O => Fault OutOfFuel
  | b :: data', S fuel =>
      if IsReadWriteAllowed s then write_loop fuel data' tasks env (Write_byte b s)
      else
        '(e, s, tasks, env) ← next_bank ClearIN_bank tasks env s;
        if bool_decide (e = NoError) then write_loop fuel data tasks env s else Ok (e, s, env)
  end.

Definition Write_Stream_LE (fuel : nat) (data : list Z) (tasks : list happening) (env : list traffic) (s : port)
    : res (stream_error * port * list traffic) :=
  '(e, s, env) ← Endpoint_WaitUntilReady env s;
  if bool_decide (e = NoError) then write_loop fuel data tasks env s else Ok (e, s, env).

(** The bytes read replace those of the buffer from the front. *)
Fixpoint read_loop (fuel : nat) (done Buffer : list Z) (tasks : list happening) (env : list traffic) (s : port)
    : res (list Z * port * list traffic) :=
  match Buffer, fuel with
  | [], _ => Ok (done, s, env)
  | _ :: _, O => Fault OutOfFuel
  | _ :: Buffer', S fuel =>
      if IsReadWriteAllowed s then
        let '(b, s) := Read_byte s in read_loop fuel (done ++ [b]) Buffer' tasks env s
      else
        '(e, s, tasks, env) ← next_bank ClearOUT_bank tasks env s;
        if bool_decide (e = NoError) then read_loop fuel done Buffer tasks env s
        else Ok (done ++ Buffer, s, env)
  end.

Definition Read_Stream_LE (fuel : nat) (Buffer : list Z) (tasks : list happening) (env : list traffic) (s : port)
    : res (list Z * port * list traffic) :=
  '(e, s, env) ← Endpoint_WaitUntilReady env s;
  if bool_decide (e = NoError) then read_loop fuel [] Buffer tasks env s else Ok (Buffer, s, env).

(** ** MIDIClassDevice.c *)

Definition MIDI_Send (fuel : nat) (p : packet) (tasks : list happening) (env : list traffic) (s : port)
    : res (stream_error * port * list traffic) :=
  if negb (in_state DEVICE_STATE_Configured s.(dev)) then Ok (DeviceDisconnected, s, env)
  else
    let s := on_port (Endpoint_SelectEndpoint DataINEndpoint.(Address)) s in
    '(e, s, env) ← Write_Stream_LE fuel (encode p) tasks env s;
    Ok (e, if bool_decide (e = NoError) && negb (IsReadWriteAllowed s) then ClearIN_bank s else s, env).

Definition MIDI_Flush (env : list traffic) (s : port) : res (stream_error * port * list traffic) :=
  if negb (in_state DEVICE_STATE_Configured s.(dev)) then Ok (DeviceDisconnected, s, env)
  else
    let s := on_port (Endpoint_SelectEndpoint DataINEndpoint.(Address)) s in
    if negb (BytesInEndpoint s =? 0) then Endpoint_WaitUntilReady env (ClearIN_bank s)
    else Ok (NoError, s, env).

Definition MIDI_Receive (fuel : nat) (event : packet) (tasks : list happening) (env : list traffic) (s : port)
    : res (option packet * port * list traffic) :=
  if negb (in_state DEVICE_STATE_Configured s.(dev)) then Ok (None, s, env)
  else
    let s := on_port (Endpoint_SelectEndpoint DataOUTEndpoint.(Address)) s in
    if negb (Endpoint_IsOUTReceived (port_regs s)) then Ok (None, s, env)
    else if negb (IsReadWriteAllowed s) then Ok (None, s, env)
    else
      '(l, s, env) ← Read_Stream_LE fuel (encode event) tasks env s;
      Ok (Some (decode1 l), if negb (IsReadWriteAllowed s) then ClearOUT_bank s else s, env).

End stream.

(** ** Lemmas: waiting *)

(** The frames that start. *)
Fixpoint frames (env : list traffic) : Z :=
  match env with
  | [] => 0
  | FrameStarts :: env => 1 + frames env
  | _ :: env => frames env
  end.

Lemma frames_nonneg env : 0 <= frames env.
Proof. induction env as [|[] env IH]; cbn [frames]; lia. Qed.

(** A frame the loop has not seen yet. *)
Definition fresh_frame (prev : Z) (s : port) : Z := if s.(frame) =? prev then 0 else 1.
Definition frame_ok (s : port) : Prop := 0 <= s.(frame) < 2048.

Lemma frame_next f : 0 <= f < 2048 -> (f + 1) mod 2048 <> f.
Proof. intros Hf. destruct (Z.eq_dec f 2047) as [->|]; [done|]. rewrite Z.mod_small; lia. Qed.

Section waiting.
Variable CFGOK : Z -> Z -> bool.

Lemma traffic_total t s :
  frame_ok s -> exists s', traffic_step CFGOK t s = Ok s' /\ frame_ok s' /\
    fresh_frame s.(frame) s' = match t with FrameStarts => 1 | _ => 0 end.
Proof.
  intros Hf. unfold fresh_frame, frame_ok in *. destruct t as [h| |data|]; cbn [traffic_step].
  - destruct (happen_total CFGOK h s.(dev)) as [d ->]. rewrite bind_Ok. eexists. split; [done|]. cbn. by rewrite Z.eqb_refl.
  - destruct s.(in_transit) as [l|]; [destruct (epbit _ _ _ _)|]; (eexists; split; [reflexivity|]); cbn; by rewrite Z.eqb_refl.
  - destruct (_ || _); (eexists; split; [reflexivity|]); cbn; by rewrite Z.eqb_refl.
  - eexists. split; [reflexivity|]. cbn. split; [by apply Z.mod_pos_bound|].
    destruct (Z.eqb_spec ((s.(frame) + 1) mod 2048) s.(frame)) as [E|]; [|done]. by apply frame_next in E.
Qed.

(** The loop ends within the frames that are left, whatever else happens, and gives up
    only when they have all started. *)
Lemma wait_loop_ends env : forall rem prev s,
  frame_ok s -> 0 <= rem < 256 -> rem + 1 <= frames env + fresh_frame prev s ->
  exists e s' env', wait_loop CFGOK env rem prev s = Ok (e, s', env') /\
    0 <= frames env - frames env' <= rem + 1 - fresh_frame prev s /\
    (e = Timeout -> frames env - frames env' = rem + 1 - fresh_frame prev s).
Proof.
  induction env as [|t env IH]; intros rem prev s Hf Hr Hn; cbn [wait_loop].
  all: assert (Hfr : fresh_frame prev s = 0 \/ fresh_frame prev s = 1) by (unfold fresh_frame; destruct (_ =? _); auto).
  all: destruct (is_ready s); [eexists _, _, _; split; [reflexivity|split; [lia|done]]|].
  all: do 2 (destruct (in_state _ _); [eexists _, _, _; split; [reflexivity|split; [lia|done]]|]).
  all: destruct (Endpoint_IsStalled _); [eexists _, _, _; split; [reflexivity|split; [lia|done]]|].
  all: cbv zeta; destruct (negb _ && _) eqn:E;
    [eexists _, _, _; split; [reflexivity|unfold fresh_frame in *; destruct (_ =? prev); cbn [negb andb] in E; [done|split; [lia|intros _; lia]]]|].
  - exfalso. cbn [frames] in Hn. unfold fresh_frame in *. destruct (_ =? prev); cbn [negb andb] in E; lia.
  - destruct (traffic_total t s Hf) as (s' & -> & Hf' & Hn'). rewrite bind_Ok.
    destruct (IH (if s.(frame) =? prev then rem else u8 (rem - 1)) s.(frame) s' Hf') as (e & s2 & env' & -> & Hb & Ht).
    + destruct (_ =? prev); [done|]. apply u8_range.
    + rewrite Hn'. unfold fresh_frame in *. cbn [frames] in Hn. destruct (_ =? prev); cbn [negb andb] in E; rewrite ?u8_small by lia; destruct t; lia.
    + exists e, s2, env'. split; [done|]. rewrite Hn' in Hb, Ht. unfold fresh_frame in *. cbn [frames] in *.
      destruct (_ =? prev); cbn [negb andb] in E; rewrite ?u8_small in Hb, Ht by lia; destruct t; cbn [frames] in *; (split; [lia|intros He; specialize (Ht He); lia]).
Qed.

(** The host takes the bank before [n] frames more have started. *)
Inductive takes : nat -> list traffic -> Prop :=
  | takes_now n env : takes n (HostIN :: env)
  | takes_frame n env : takes n env -> takes (S n) (FrameStarts :: env)
  | takes_idle n env : takes n env -> takes n (Bus Nothing :: env).

(** The host does not take it, and [n] frames start. *)
Inductive silent : nat -> list traffic -> Prop :=
  | silent_done env : silent 0 env
  | silent_frame n env : silent n env -> silent (S n) (FrameStarts :: env)
  | silent_idle n env : silent n env -> silent n (Bus Nothing :: env).

(** A bank is in transit, the IN endpoint selected and not stalled, the device on the bus. *)
Record pending (s : port) : Prop := {
  pd_frame : frame_ok s;
  pd_sel : current (port_regs s) = IN_EP;
  pd_dir : Z.testbit ((port_regs s).(ep) IN_EP UECFG0X) EPDIR = true;
  pd_txini : epbit IN_EP UEINTX TXINI s = false;
  pd_stall : epbit IN_EP UECONX STALLRQ s = false;
  pd_bank : s.(in_transit) <> None;
  pd_on : s.(dev).(USB_DeviceState) = DEVICE_STATE_Configured
}.

Lemma selected_bit n r i s : current (port_regs s) = n -> 0 <= i -> has_bits (epx r (port_regs s)) (bv i) = epbit n r i s.
Proof. intros Hc Hi. unfold epx, epbit, bv. rewrite Hc, Z.shiftl_mul_pow2, Z.mul_1_l by lia. by apply has_bits_pow2. Qed.

Lemma ready_IN s :
  current (port_regs s) = IN_EP -> Z.testbit ((port_regs s).(ep) IN_EP UECFG0X) EPDIR = true ->
  is_ready s = epbit IN_EP UEINTX TXINI s.
Proof.
  intros Hc Hd. unfold is_ready, Endpoint_GetEndpointDirection, Endpoint_IsINReady.
  rewrite !(selected_bit IN_EP) by (done || unfold EPDIR, TXINI; lia). unfold epbit at 1. by rewrite Hd.
Qed.

(** The loop returns at once when the endpoint is ready, and when it is stalled. *)
Lemma wait_ready_now env rem prev s : is_ready s = true -> wait_loop CFGOK env rem prev s = Ok (NoError, s, env).
Proof. intros H. destruct env; cbn [wait_loop]; by rewrite H. Qed.

Lemma other_state s st : s.(dev).(USB_DeviceState) = DEVICE_STATE_Configured -> st <> DEVICE_STATE_Configured -> in_state st s.(dev) = false.
Proof. intros H Hne. unfold in_state. apply bool_decide_eq_false_2. congruence. Qed.

Lemma wait_stalled env rem prev s :
  is_ready s = false -> s.(dev).(USB_DeviceState) = DEVICE_STATE_Configured -> current (port_regs s) = IN_EP ->
  epbit IN_EP UECONX STALLRQ s = true -> wait_loop CFGOK env rem prev s = Ok (EndpointStalled, s, env).
Proof.
  intros H1 Hon Hc Hs. assert (H2 : Endpoint_IsStalled (port_regs s) = true)
    by (unfold Endpoint_IsStalled; by rewrite (selected_bit IN_EP) by (done || unfold STALLRQ; lia)).
  destruct env; cbn [wait_loop]; by rewrite H1, H2, !other_state by done.
Qed.

Lemma pending_pass env rem prev s :
  pending s ->
  wait_loop CFGOK env rem prev s =
    if negb (s.(frame) =? prev) && (rem =? 0) then Ok (Timeout, s, env)
    else match env with
         | [] => Fault OutOfFuel
         | t :: env => s' ← traffic_step CFGOK t s;
             wait_loop CFGOK env (if s.(frame) =? prev then rem else u8 (rem - 1)) s.(frame) s'
         end.
Proof.
  intros [Hf Hc Hd Ht Hs Hb Ho].
  assert (H1 : is_ready s = false) by (by rewrite ready_IN).
  assert (H2 : Endpoint_IsStalled (port_regs s) = false)
    by (unfold Endpoint_IsStalled; by rewrite (selected_bit IN_EP) by (done || unfold STALLRQ; lia)).
  destruct env; cbn [wait_loop]; by rewrite H1, H2, !other_state by done.
Qed.

Lemma pending_frame s f : 0 <= f < 2048 -> pending s -> pending (set_frame f s).
Proof. intros Hf []. by split. Qed.
Lemma set_dev_same s : set_dev s.(dev) s = s.
Proof. by destruct s. Qed.

(** The state once the host has taken the bank. *)
Definition took (l : list Z) (s : port) : port :=
  on_port (or_ep IN_EP UEINTX (bv TXINI)) (set_in_transit None (set_taken (s.(taken) ++ [l]) s)).

Lemma took_ready l s :
  current (port_regs s) = IN_EP -> Z.testbit ((port_regs s).(ep) IN_EP UECFG0X) EPDIR = true -> is_ready (took l s) = true.
Proof.
  intros Hc Hd. rewrite ready_IN; [|done|done]. unfold epbit, took, on_port, or_ep. cbn [port_regs dev set_dev on_regs regs set_regs].
  rewrite ep_set_ep_eq. by rewrite testbit_or_bits, orb_true_r.
Qed.

Lemma traffic_takes s l : pending s -> s.(in_transit) = Some l -> traffic_step CFGOK HostIN s = Ok (took l s).
Proof. intros [_ _ _ _ Hs _ _] E. cbn [traffic_step]. by rewrite E, Hs. Qed.

Lemma wait_takes env n : takes n env -> forall rem prev s l,
  pending s -> s.(in_transit) = Some l -> 0 <= rem < 256 -> Z.of_nat n + fresh_frame prev s <= rem ->
  exists f env', wait_loop CFGOK env rem prev s = Ok (NoError, took l (set_frame f s), env') /\ 0 <= f < 2048.
Proof.
  unfold fresh_frame. induction 1 as [n env|n env _ IH|n env _ IH]; intros rem prev s l Hp El Hr Hn; rewrite pending_pass by done;
    (destruct (negb _ && _) eqn:E; [exfalso; destruct (Z.eqb_spec s.(frame) prev); cbn [negb andb] in E; lia|]).
  - rewrite (traffic_takes s l Hp El), bind_Ok. exists s.(frame), env. split; [|apply (pd_frame _ Hp)].
    replace (set_frame s.(frame) s) with s by (by destruct s). apply wait_ready_now, took_ready; apply Hp.
  - cbn [traffic_step]. rewrite bind_Ok. set (f := (s.(frame) + 1) mod 2048).
    assert (Hf : 0 <= f < 2048) by (by apply Z.mod_pos_bound).
    assert (Hne : f <> s.(frame)) by (apply frame_next, (pd_frame _ Hp)).
    destruct (IH (if s.(frame) =? prev then rem else u8 (rem - 1)) s.(frame) (set_frame f s) l) as (f' & env' & Ew & Hf').
    + by apply pending_frame.
    + done.
    + destruct (Z.eqb_spec s.(frame) prev); [done|]. apply u8_range.
    + cbn. destruct (Z.eqb_spec f s.(frame)); [done|]. destruct (Z.eqb_spec s.(frame) prev); [lia|]. rewrite u8_small; lia.
    + exists f', env'. by split.
  - cbn [traffic_step happen]. rewrite !bind_Ok, set_dev_same.
    destruct (IH (if s.(frame) =? prev then rem else u8 (rem - 1)) s.(frame) s l) as (f' & env' & Ew & Hf'); try done.
    + destruct (Z.eqb_spec s.(frame) prev); [done|]. apply u8_range.
    + rewrite Z.eqb_refl. destruct (Z.eqb_spec s.(frame) prev); [lia|]. rewrite u8_small; lia.
    + exists f', env'. by split.
Qed.

Lemma wait_silent env n : silent n env -> forall rem prev s,
  pending s -> 0 <= rem < 256 -> rem + 1 <= Z.of_nat n + fresh_frame prev s ->
  exists f env', wait_loop CFGOK env rem prev s = Ok (Timeout, set_frame f s, env') /\ 0 <= f < 2048.
Proof.
  unfold fresh_frame. intros Hsil.
  assert (Hstop : forall rem prev (s : port) env, pending s -> negb (s.(frame) =? prev) && (rem =? 0) = true ->
    exists f env', wait_loop CFGOK env rem prev s = Ok (Timeout, set_frame f s, env') /\ 0 <= f < 2048).
  { intros rem prev s env0 Hp E. rewrite pending_pass by done. rewrite E. exists s.(frame), env0.
    split; [by destruct s|apply (pd_frame _ Hp)]. }
  induction Hsil as [env|n env _ IH|n env _ IH]; intros rem prev s Hp Hr Hn;
    (destruct (negb (s.(frame) =? prev) && (rem =? 0)) eqn:E; [by apply Hstop|]).
  - exfalso. destruct (Z.eqb_spec s.(frame) prev); cbn [negb andb] in E; lia.
  - rewrite pending_pass, E by done. cbn [traffic_step]. rewrite bind_Ok. set (f := (s.(frame) + 1) mod 2048).
    assert (Hf : 0 <= f < 2048) by (by apply Z.mod_pos_bound).
    assert (Hne : f <> s.(frame)) by (apply frame_next, (pd_frame _ Hp)).
    destruct (IH (if s.(frame) =? prev then rem else u8 (rem - 1)) s.(frame) (set_frame f s)) as (f' & env' & Ew & Hf').
    + by apply pending_frame.
    + destruct (Z.eqb_spec s.(frame) prev); [done|]. apply u8_range.
    + cbn. destruct (Z.eqb_spec f s.(frame)); [done|].
      destruct (Z.eqb_spec s.(frame) prev); cbn [negb andb] in E; [lia|]. rewrite u8_small; lia.
    + exists f', env'. by split.
  - rewrite pending_pass, E by done. cbn [traffic_step happen]. rewrite !bind_Ok, set_dev_same.
    destruct (IH (if s.(frame) =? prev then rem else u8 (rem - 1)) s.(frame) s) as (f' & env' & Ew & Hf'); try done.
    + destruct (Z.eqb_spec s.(frame) prev); [done|]. apply u8_range.
    + rewrite Z.eqb_refl. destruct (Z.eqb_spec s.(frame) prev); cbn [negb andb] in E; [lia|]. rewrite u8_small; lia.
    + exists f', env'. by split.
Qed.

(** ** The refinement *)

(** The host has already taken what UsbMidi's driver will find taken when it waits. *)
Definition early (s : port) (u : usb) : Prop :=
  exists l, u.(in_pending) = Some l /\ s.(in_transit) = None /\ s.(taken) = u.(delivered) ++ [l] /\
    u.(host_polls) = true /\ u.(in_stalled) = false.

Record refines (s : port) (u : usb) : Prop := {
  rf_frame : frame_ok s;
  rf_state : s.(dev).(USB_DeviceState) = u.(UsbMidi.USB_DeviceState);
  rf_dir : Z.testbit ((port_regs s).(ep) IN_EP UECFG0X) EPDIR = true;
  rf_dir_out : Z.testbit ((port_regs s).(ep) OUT_EP UECFG0X) EPDIR = false;
  rf_txini : epbit IN_EP UEINTX TXINI s = bool_decide (s.(in_transit) = None);
  rf_stall : epbit IN_EP UECONX STALLRQ s = u.(in_stalled);
  rf_fifo : s.(in_fifo) = u.(in_bank);
  rf_sent : (s.(in_transit) = u.(in_pending) /\ s.(taken) = u.(delivered)) \/ early s u;
  rf_out : u.(out_bank) = if epbit OUT_EP UEINTX RXOUTI s then Some s.(out_fifo) else None
}.

(** How the host conducts itself while the driver waits. *)
Definition conduct (u : usb) (env : list traffic) : Prop :=
  if u.(host_polls) then takes 100 env else silent 101 env.

(** Nothing but the selection and the flags of the two MIDI endpoints is changed, so
    that the control requests are not disturbed. *)
Record only_midi (s s' : port) : Prop := {
  om_io : same_io (port_regs s) (port_regs s');
  om_ep : forall n r, n <> IN_EP /\ n <> OUT_EP \/ r <> UEINTX -> (port_regs s').(ep) n r = (port_regs s).(ep) n r;
  om_dev : set_regs (port_regs s) s'.(dev) = s.(dev)
}.

#[export] Instance only_midi_preorder : PreOrder only_midi.
Proof.
  split; [intros s; split; try done; by destruct s as [[]]|].
  intros s1 s2 s3 [I1 E1 D1] [I2 E2 D2]. split.
  - intros r Hr. by rewrite I2, I1.
  - intros n r Hr. by rewrite E2, E1.
  - rewrite <-D1, <-D2. by destruct (dev s3).
Qed.

Lemma only_midi_flags n v s s' :
  n = IN_EP \/ n = OUT_EP -> s'.(dev) = set_regs (set_ep n UEINTX v (port_regs s)) s.(dev) -> only_midi s s'.
Proof.
  intros Hn E. split; unfold port_regs; rewrite E; cbn [regs set_regs].
  - done.
  - intros m r Hr. apply ep_set_ep_ne. destruct Hr as [[H1 H2]|H]; [left; destruct Hn; congruence|by right].
  - by destruct (dev s).
Qed.

Lemma took_only_midi l f s : only_midi s (took l (set_frame f s)).
Proof. apply (only_midi_flags IN_EP (or_bits ((port_regs s).(ep) IN_EP UEINTX) (bv TXINI))); [by left|done]. Qed.

Lemma frame_only_midi f s : only_midi s (set_frame f s).
Proof. split; try done. by destruct s as [[]]. Qed.

(** Bits of the registers after the flag [TXINI] has been raised. *)
Lemma took_bits l f s n r i :
  0 <= i < 8 -> epbit n r i (took l (set_frame f s)) = epbit n r i s || bool_decide (n = IN_EP /\ r = UEINTX) && (i =? TXINI).
Proof.
  intros Hi. unfold epbit, took, on_port, or_ep. cbn [port_regs dev set_dev on_regs regs set_regs set_frame set_in_transit set_taken].
  destruct (bool_decide_reflect (n = IN_EP /\ r = UEINTX)) as [[-> ->]|Hne].
  - rewrite ep_set_ep_eq, testbit_or_bits by done. cbn [andb]. rewrite bv_bit by (unfold TXINI; lia). by rewrite Z.eqb_sym.
  - rewrite ep_set_ep_ne by (destruct (decide (n = IN_EP)); [right; intros ->; by apply Hne|by left]). by rewrite orb_false_r.
Qed.

Ltac rf_close El :=
  split; cbn; try done;
  first [congruence | left; split; congruence
        | rewrite El; first [by rewrite bool_decide_eq_true_2 | by rewrite bool_decide_eq_false_2]].

(** The wait at the IN endpoint does what UsbMidi's does. *)
Lemma wait_refines env s u :
  refines s u -> current (port_regs s) = IN_EP -> u.(UsbMidi.USB_DeviceState) = DEVICE_STATE_Configured -> conduct u env ->
  let r := Endpoint_WaitUntilReady_IN u in
  exists s' env', Endpoint_WaitUntilReady CFGOK env s = Ok (fst r, s', env') /\ refines s' (snd r) /\ only_midi s s' /\
    current (port_regs s') = IN_EP /\ (fst r = NoError -> s'.(in_transit) = None).
Proof.
  intros [Hf Hst Hd Hdo Ht Hstall Hfifo Hsent Hout] Hc Hon Hcond r. subst r. unfold Endpoint_WaitUntilReady, Endpoint_WaitUntilReady_IN.
  destruct s.(in_transit) as [l|] eqn:El.
  - destruct Hsent as [[E1 E2]|(l' & _ & E & _)]; [|congruence]. rewrite <-E1, Hon. rewrite bool_decide_eq_false_2 in Ht by done.
    unfold conduct in Hcond. destruct u.(in_stalled) eqn:Es.
    { rewrite andb_false_r. exists s, env. cbn [fst snd]. split.
      - apply wait_stalled; [by rewrite ready_IN|congruence|exact Hc|congruence].
      - split; [|split; [reflexivity|done]]. rf_close El. }
    assert (Hp : pending s) by (split; try done; [by rewrite El|congruence]).
    rewrite andb_true_r. destruct u.(host_polls) eqn:Eh.
    + destruct (wait_takes env 100 Hcond 100 s.(frame) s l Hp El) as (f & env' & Ew & Hf'); [lia|unfold fresh_frame; rewrite Z.eqb_refl; lia|].
      exists (took l (set_frame f s)), env'. split; [exact Ew|]. split; [|split; [apply took_only_midi|by split]].
      split; try done.
      * rewrite took_bits by (unfold TXINI; lia). rewrite Ht. by rewrite bool_decide_eq_true_2.
      * by rewrite took_bits by (unfold STALLRQ; lia); rewrite Hstall, bool_decide_eq_false_2 by (by intros []); rewrite orb_false_r.
      * left. cbn. by rewrite E2.
    + destruct (wait_silent env 101 Hcond 100 s.(frame) s Hp) as (f & env' & Ew & Hf'); [lia|unfold fresh_frame; rewrite Z.eqb_refl; lia|].
      exists (set_frame f s), env'. split; [exact Ew|]. split; [|split; [apply frame_only_midi|by split]].
      split; [exact Hf'|exact Hst|exact Hd|exact Hdo| | |exact Hfifo|left; cbn; split; congruence|exact Hout].
      * etrans; [exact Ht|]. cbn. by rewrite El, bool_decide_eq_false_2.
      * etrans; [exact Hstall|cbn; congruence].
  - rewrite bool_decide_eq_true_2 in Ht by done. exists s, env.
    assert (Ew : wait_loop CFGOK env USB_STREAM_TIMEOUT_MS s.(frame) s = Ok (NoError, s, env)).
    { apply wait_ready_now. by rewrite ready_IN. }
    destruct Hsent as [[E1 E2]|(l & E1 & _ & E2 & E3 & E4)].
    + rewrite <-E1. split; [exact Ew|]. split; [|split; [reflexivity|done]]. rf_close El.
    + rewrite E1, Hon, E3, E4. cbn [andb negb fst snd]. split; [exact Ew|]. split; [|split; [reflexivity|done]].
      rf_close El.
Qed.

End waiting.

(** ** Lemmas: the driver *)

Section driver.
Variable CFGOK : Z -> Z -> bool.
Variable boot_signature_byte_get : Z -> Z.
Variable RWAL0 : bool.
Variable UEBC0 : Z.

Lemma select_spec a s :
  let s' := on_port (Endpoint_SelectEndpoint a) s in
  current (port_regs s') = Z.land a ENDPOINT_EPNUM_MASK /\ only_midi s s' /\ (forall u, refines s u -> refines s' u).
Proof.
  cbv zeta. split; [|split].
  - unfold current, port_regs. cbn [dev on_port set_dev on_regs regs set_regs]. unfold Endpoint_SelectEndpoint. apply io_set_io_eq.
  - split; [intros r Hr; by apply io_set_io_ne|done|by destruct s as [[]]].
  - intros u []. by split.
Qed.

Lemma write_loop_room data : forall fuel tasks env s,
  current (port_regs s) = IN_EP -> Z.of_nat (length s.(in_fifo) + length data) <= 64 -> (length data <= fuel)%nat ->
  write_loop CFGOK boot_signature_byte_get RWAL0 fuel data tasks env s = Ok (NoError, set_in_fifo (s.(in_fifo) ++ data) s, env).
Proof.
  induction data as [|b data IH]; intros fuel tasks env s Hc Hl Hf; destruct fuel as [|fuel]; cbn [write_loop length] in *;
    try (rewrite app_nil_r; by destruct s); [lia|].
  assert (Hsel : selects IN_EP s = true) by (unfold selects; by rewrite Hc).
  unfold IsReadWriteAllowed, Write_byte. rewrite Hsel. replace (_ <? 64) with true by lia.
  rewrite IH; [|done|cbn; rewrite length_app; cbn; lia|lia]. cbn. by rewrite <-app_assoc.
Qed.

(** Handing over the bank of the IN endpoint. *)
Lemma clear_bits_in s :
  let s' := on_port Endpoint_ClearIN s in
  current (port_regs s) = IN_EP ->
  epbit IN_EP UEINTX TXINI s' = false /\ only_midi s s' /\ current (port_regs s') = IN_EP /\
  (forall n r, n <> IN_EP \/ r <> UEINTX -> (port_regs s').(ep) n r = (port_regs s).(ep) n r).
Proof.
  intros s' Hc. subst s'.
  assert (E : (on_port Endpoint_ClearIN s).(dev) = set_regs (set_ep IN_EP UEINTX
    (clear_bits ((port_regs s).(ep) IN_EP UEINTX) (Z.lor (bv TXINI) (bv FIFOCON))) (port_regs s)) s.(dev)).
  { unfold on_port, on_regs, Endpoint_ClearIN, set_epx, epx. cbn [dev set_dev]. unfold port_regs in Hc |- *. by rewrite Hc. }
  split; [|split; [apply (only_midi_flags IN_EP _ _ _ (or_introl eq_refl) E)|split]].
  - unfold epbit, port_regs. rewrite E. cbn [regs set_regs]. rewrite ep_set_ep_eq, testbit_clear_bits by (unfold TXINI; lia).
    change (Z.testbit (Z.lor (bv TXINI) (bv FIFOCON)) TXINI) with true. apply andb_false_r.
  - unfold port_regs. by rewrite E.
  - intros n r Hr. unfold port_regs. rewrite E. by apply ep_set_ep_ne.
Qed.

Lemma clear_in_refines s u :
  refines s u -> current (port_regs s) = IN_EP -> s.(in_transit) = None -> u.(in_pending) = None ->
  refines (ClearIN_bank s) (UsbMidi.Endpoint_ClearIN u) /\ only_midi s (ClearIN_bank s) /\
  current (port_regs (ClearIN_bank s)) = IN_EP.
Proof.
  intros [Hf Hst Hd Hdo Ht Hstall Hfifo Hsent Hout] Hc Htr Hpend.
  assert (Hsel : selects IN_EP s = true) by (unfold selects; by rewrite Hc). unfold ClearIN_bank. rewrite Hsel.
  set (s1 := set_in_fifo _ _). destruct (clear_bits_in s1 Hc) as (Htx & Hom & Hc' & Hep).
  assert (Hsame : forall n r, n <> IN_EP \/ r <> UEINTX -> (port_regs (on_port Endpoint_ClearIN s1)).(ep) n r = (port_regs s).(ep) n r)
    by exact Hep.
  split; [|split; [|exact Hc']].
  - destruct Hsent as [[E1 E2]|(l & E & _)]; [|congruence].
    split; try done.
    + by rewrite Hsame by (by right).
    + by rewrite Hsame by (by left).
    + unfold epbit. rewrite Hsame by (by right). exact Hstall.
    + left. cbn. by rewrite Hfifo, E2.
    + unfold epbit. rewrite Hsame by (by left). exact Hout.
  - destruct Hom as [H1 H2 H3]. split; [exact H1|exact H2|exact H3].
Qed.

(** UsbMidi's wait, when it succeeds, leaves nothing pending and the bank as it is. *)
Lemma abstract_wait u u' :
  Endpoint_WaitUntilReady_IN u = (NoError, u') ->
  u'.(in_pending) = None /\ u'.(in_bank) = u.(in_bank) /\ u'.(UsbMidi.USB_DeviceState) = u.(UsbMidi.USB_DeviceState).
Proof.
  unfold Endpoint_WaitUntilReady_IN. destruct u.(in_pending) as [l|] eqn:E; [|by intros [= <-]].
  destruct u.(UsbMidi.USB_DeviceState) eqn:Es; try done; (destruct (_ && _); [intros [= <-]|by destruct u.(in_stalled)]); done.
Qed.

Lemma in_fifo_refines s u l : refines s u -> refines (set_in_fifo l s) (set_in_bank l u).
Proof. intros [? ? ? ? ? ? ? Hsent ?]. split; try done. Qed.

Lemma configured_state s u : refines s u -> u.(UsbMidi.USB_DeviceState) = DEVICE_STATE_Configured ->
  in_state DEVICE_STATE_Configured s.(dev) = true.
Proof. intros Hr Hu. unfold in_state. apply bool_decide_eq_true_2. by rewrite (rf_state _ _ Hr). Qed.

Lemma send_refines fuel p tasks env s u :
  refines s u -> u.(UsbMidi.USB_DeviceState) = DEVICE_STATE_Configured -> (length u.(in_bank) <= 60)%nat ->
  conduct u env -> (4 <= fuel)%nat ->
  let r := SendEventPacket p u in
  exists s' env', MIDI_Send CFGOK boot_signature_byte_get RWAL0 fuel p tasks env s = Ok (fst r, s', env') /\
    refines s' (snd r) /\ only_midi s s'.
Proof.
  intros Hr Hu Hl Hcond Hfuel r. subst r. unfold MIDI_Send, SendEventPacket. rewrite (configured_state s u Hr Hu), bool_decide_eq_true_2 by done.
  cbn [negb]. destruct (select_spec DataINEndpoint.(Address) s) as (Hc & Hom & Hsel). specialize (Hsel u Hr).
  change (Z.land _ _) with IN_EP in Hc. set (s1 := on_port _ s) in *. clearbody s1.
  unfold Write_Stream_LE, Endpoint_Write_Stream_LE.
  destruct (wait_refines CFGOK env s1 u Hsel Hc Hu Hcond) as (s2 & env2 & -> & Hr2 & Hom2 & Hc2 & Htr). rewrite bind_Ok.
  assert (Hom12 : only_midi s s2) by (by etrans).
  destruct (Endpoint_WaitUntilReady_IN u) as [e u2] eqn:Ew. cbn [fst snd] in *.
  destruct (bool_decide_reflect (e = NoError)) as [->|Hne].
  2: { rewrite bind_Ok, bool_decide_eq_false_2 by done. cbn [andb]. exists s2, env2. by destruct e. }
  destruct (abstract_wait u u2 Ew) as (Hp & Hb & _).
  rewrite write_loop_room; [|done|rewrite (rf_fifo _ _ Hr2), Hb; cbn; lia|done].
  rewrite bind_Ok, bool_decide_eq_true_2 by done. cbn [andb]. rewrite write_packet by (by rewrite Hb).
  rewrite (rf_fifo _ _ Hr2). set (l := u2.(in_bank) ++ encode p). pose proof (in_fifo_refines s2 u2 l Hr2) as Hr3.
  assert (Hom3 : only_midi s (set_in_fifo l s2)) by (destruct Hom12; by split).
  replace (IsReadWriteAllowed RWAL0 (set_in_fifo l s2)) with (Endpoint_IsReadWriteAllowed_IN (set_in_bank l u2)).
  2: { unfold IsReadWriteAllowed, Endpoint_IsReadWriteAllowed_IN, UsbMidi.MIDI_STREAM_EPSIZE.
       replace (selects IN_EP (set_in_fifo l s2)) with true by (symmetry; apply Z.eqb_eq; exact Hc2). cbn. lia. }
  cbn [fst snd]. destruct (negb _); [|by exists (set_in_fifo l s2), env2].
  destruct (clear_in_refines (set_in_fifo l s2) (set_in_bank l u2) Hr3 Hc2 (Htr eq_refl) Hp) as (Hr4 & Hom4 & _).
  eexists _, env2. split; [reflexivity|]. split; [exact Hr4|by etrans].
Qed.

Lemma flush_refines env s u :
  refines s u -> u.(UsbMidi.USB_DeviceState) = DEVICE_STATE_Configured -> (u.(in_pending) <> None -> u.(in_bank) = []) ->
  conduct u env ->
  let r := Flush u in
  exists s' env', MIDI_Flush CFGOK UEBC0 env s = Ok (fst r, s', env') /\ refines s' (snd r) /\ only_midi s s'.
Proof.
  intros Hr Hu Hpe Hcond r. subst r. unfold MIDI_Flush, Flush. rewrite (configured_state s u Hr Hu), bool_decide_eq_true_2 by done.
  cbn [negb]. destruct (select_spec DataINEndpoint.(Address) s) as (Hc & Hom & Hsel). specialize (Hsel u Hr).
  change (Z.land _ _) with IN_EP in Hc. set (s1 := on_port _ s) in *. clearbody s1.
  unfold BytesInEndpoint, Endpoint_BytesInEndpoint. replace (selects IN_EP s1) with true by (symmetry; by apply Z.eqb_eq).
  rewrite (rf_fifo _ _ Hsel). destruct u.(in_bank) as [|b l] eqn:Eb; [by exists s1, env|].
  replace (negb _) with true by (cbn; lia). replace (0 <? _)%nat with true by done.
  assert (Hpn : u.(in_pending) = None) by (destruct u.(in_pending); [by discriminate Hpe|done]).
  assert (Htr : s1.(in_transit) = None).
  { destruct (rf_sent _ _ Hsel) as [[-> _]|(l' & E & _)]; [done|congruence]. }
  destruct (clear_in_refines s1 u Hsel Hc Htr Hpn) as (Hr2 & Hom2 & Hc2).
  destruct (wait_refines CFGOK env _ _ Hr2 Hc2 Hu Hcond) as (s3 & env3 & E3 & Hr3 & Hom3 & _).
  exists s3, env3. split; [exact E3|]. split; [exact Hr3|]. etrans; [exact Hom|]. by etrans.
Qed.

Lemma read_loop_bank Buffer : forall fuel acc tasks env s l r,
  current (port_regs s) = OUT_EP -> s.(out_fifo) = l ++ r -> length l = length Buffer -> (length Buffer <= fuel)%nat ->
  read_loop CFGOK boot_signature_byte_get RWAL0 fuel acc Buffer tasks env s = Ok (acc ++ l, set_out_fifo r s, env).
Proof.
  induction Buffer as [|x Buffer IH]; intros fuel acc tasks env s l r Hc Hl Hn Hf; destruct l as [|b l]; try done;
    destruct fuel as [|fuel]; cbn [read_loop length] in *; try lia;
    try (rewrite app_nil_r; cbn in Hl; rewrite <-Hl; by destruct s).
  assert (Hi : selects IN_EP s = false) by (unfold selects; by rewrite Hc).
  assert (Ho : selects OUT_EP s = true) by (unfold selects; by rewrite Hc).
  unfold IsReadWriteAllowed, Read_byte. rewrite Hi, Ho, Hl. cbn [app]. rewrite bool_decide_eq_false_2 by done. cbn [negb].
  rewrite (IH fuel (acc ++ [b]) tasks env (set_out_fifo (l ++ r) s) l r) by (done || lia). by rewrite <-app_assoc.
Qed.

Lemma set_out_refines s u l :
  refines s u -> epbit OUT_EP UEINTX RXOUTI s = true -> refines (set_out_fifo l s) (set_out_bank (Some l) u).
Proof. intros [? ? ? ? ? ? ? Hs ?] Ho. split; try done. cbn. change (epbit _ _ _ _) with (epbit OUT_EP UEINTX RXOUTI s). by rewrite Ho. Qed.

(** Freeing the bank of the OUT endpoint. *)
Lemma clear_out_refines s u :
  refines s u -> current (port_regs s) = OUT_EP ->
  refines (ClearOUT_bank s) (set_out_bank None u) /\ only_midi s (ClearOUT_bank s) /\
  epbit OUT_EP UEINTX RXOUTI (ClearOUT_bank s) = false.
Proof.
  intros [Hf Hst Hd Hdo Ht Hstall Hfifo Hsent Hout] Hc.
  assert (Hsel : selects OUT_EP s = true) by (unfold selects; by rewrite Hc). unfold ClearOUT_bank. rewrite Hsel.
  set (s1 := set_out_fifo [] s). set (v := clear_bits ((port_regs s).(ep) OUT_EP UEINTX) (Z.lor (bv RXOUTI) (bv FIFOCON))).
  assert (E : (on_port Endpoint_ClearOUT s1).(dev) = set_regs (set_ep OUT_EP UEINTX v (port_regs s)) s.(dev)).
  { unfold on_port, on_regs, Endpoint_ClearOUT, set_epx, epx, v. cbn [dev set_dev s1 set_out_fifo].
    unfold port_regs in Hc |- *. by rewrite Hc. }
  assert (Hsame : forall n r, n <> OUT_EP \/ r <> UEINTX -> (port_regs (on_port Endpoint_ClearOUT s1)).(ep) n r = (port_regs s).(ep) n r).
  { intros n r Hr. unfold port_regs at 1. rewrite E. by apply ep_set_ep_ne. }
  assert (Hrx : epbit OUT_EP UEINTX RXOUTI (on_port Endpoint_ClearOUT s1) = false).
  { unfold epbit, port_regs. rewrite E. cbn [regs set_regs]. rewrite ep_set_ep_eq. unfold v.
    rewrite testbit_clear_bits by (unfold RXOUTI; lia).
    change (Z.testbit (Z.lor (bv RXOUTI) (bv FIFOCON)) RXOUTI) with true. apply andb_false_r. }
  split; [|split; [exact (only_midi_flags OUT_EP v s _ (or_intror eq_refl) E)|exact Hrx]].
  split; try done.
  - by rewrite Hsame by (by right).
  - by rewrite Hsame by (by right).
  - unfold epbit. rewrite Hsame by (by left). exact Ht.
  - unfold epbit. rewrite Hsame by (by right). exact Hstall.
  - by rewrite Hrx.
Qed.

(** The host fills the free bank. *)
Lemma host_out_refines s u t :
  refines s (set_out_bank None u) -> epbit OUT_EP UEINTX RXOUTI s = false -> epbit OUT_EP UECONX STALLRQ s = false ->
  exists s', traffic_step CFGOK (HostOUT t) s = Ok s' /\ refines s' (set_out_bank (Some t) u).
Proof.
  intros [Hf Hst Hd Hdo Ht Hstall Hfifo Hsent Hout] Hrx Hso. cbn [traffic_step]. rewrite Hrx, Hso. cbn [orb].
  eexists. split; [reflexivity|]. set (s' := on_port _ _).
  assert (Hsame : forall n r, n <> OUT_EP \/ r <> UEINTX -> (port_regs s').(ep) n r = (port_regs s).(ep) n r)
    by (intros n r Hr; by apply ep_set_ep_ne).
  split; try done.
  - cbn. unfold epbit. unfold port_regs at 1. cbn [dev s' on_port set_dev on_regs regs set_regs set_out_fifo]. unfold or_ep.
    rewrite ep_set_ep_eq, testbit_or_bits by (unfold RXOUTI; lia). change (Z.testbit (bv RXOUTI) RXOUTI) with true. by rewrite orb_true_r.
Qed.

(** A receive gives what UsbMidi's gives; the next transfer that UsbMidi's link already
    shows arrives with the host's next packet. *)
Lemma receive_refines fuel event tasks env s u :
  refines s u -> out_ready u -> u.(UsbMidi.USB_DeviceState) = DEVICE_STATE_Configured ->
  epbit OUT_EP UECONX STALLRQ s = false -> (4 <= fuel)%nat ->
  let r := ReceiveEventPacket event u in
  exists s' s'', MIDI_Receive CFGOK boot_signature_byte_get RWAL0 fuel event tasks env s = Ok (fst r, s', env) /\ only_midi s s' /\
    (s'' = s' \/ exists t, traffic_step CFGOK (HostOUT t) s' = Ok s'') /\ refines s'' (snd r).
Proof.
  intros Hr Hor Hu Hso Hfuel r. subst r. unfold MIDI_Receive, ReceiveEventPacket. rewrite (configured_state s u Hr Hu), bool_decide_eq_true_2 by done.
  cbn [negb]. destruct (select_spec DataOUTEndpoint.(Address) s) as (Hc & Hom & Hsel). specialize (Hsel u Hr).
  change (Z.land _ _) with OUT_EP in Hc. set (s1 := on_port _ s) in *.
  assert (Hso1 : epbit OUT_EP UECONX STALLRQ s1 = false) by exact Hso. clearbody s1.
  assert (Hrd : UsbEndpoint.Endpoint_IsOUTReceived (port_regs s1) = epbit OUT_EP UEINTX RXOUTI s1)
    by (unfold UsbEndpoint.Endpoint_IsOUTReceived; by rewrite (selected_bit OUT_EP) by (done || unfold RXOUTI; lia)).
  rewrite Hrd. unfold UsbMidi.Endpoint_IsOUTReceived, Endpoint_IsReadWriteAllowed_OUT.
  pose proof (rf_out _ _ Hsel) as Hout. destruct Hor as [Hw Hq].
  destruct (epbit OUT_EP UEINTX RXOUTI s1) eqn:Erx; rewrite Hout in *; [|by exists s1, s1; cbn; split; [done|]; split; [done|]; split; [by left|]].
  destruct Hw as [Hw Hne]. destruct (whole_cons _ Hw Hne) as (b0 & b1 & b2 & b3 & rest & Efifo & Hrest).
  assert (Hi : forall x, current (port_regs x) = OUT_EP -> IsReadWriteAllowed RWAL0 x = negb (bool_decide (x.(out_fifo) = []))).
  { intros x Hx. unfold IsReadWriteAllowed, selects. by rewrite Hx. }
  rewrite (Hi s1 Hc), Efifo. cbn [negb]. rewrite bool_decide_eq_false_2 by done. cbn [negb].
  unfold Read_Stream_LE. assert (Ew : Endpoint_WaitUntilReady CFGOK env s1 = Ok (NoError, s1, env)).
  { unfold Endpoint_WaitUntilReady. apply wait_ready_now. unfold is_ready, Endpoint_GetEndpointDirection. rewrite (selected_bit OUT_EP) by (done || unfold EPDIR; lia).
    unfold epbit. rewrite (rf_dir_out _ _ Hsel). exact Hrd. }
  rewrite Ew, bind_Ok, bool_decide_eq_true_2 by done.
  rewrite (read_loop_bank (encode event) fuel [] tasks env s1 [b0; b1; b2; b3] rest) by done. rewrite bind_Ok. cbn [app].
  set (s2 := set_out_fifo rest s1). assert (Hc2 : current (port_regs s2) = OUT_EP) by exact Hc.
  pose proof (set_out_refines s1 u rest Hsel Erx) as Hr2. assert (Hom2 : only_midi s s2) by (destruct Hom; by split).
  rewrite (Hi s2 Hc2). cbn [Endpoint_Read_Stream_LE encode out_bank]. rewrite Hout, Efifo. cbn [Endpoint_Read_Stream_LE out_bank set_out_bank s2 set_out_fifo out_fifo].
  fold s2. destruct rest as [|c rest].
  - rewrite bool_decide_eq_true_2 by done. cbn [negb fst snd].
    destruct (clear_out_refines s2 (set_out_bank (Some []) u) Hr2 Hc2) as (Hr3 & Hom3 & Hrx3).
    assert (Hso3 : epbit OUT_EP UECONX STALLRQ (ClearOUT_bank s2) = false).
    { unfold epbit. rewrite (om_ep _ _ Hom3) by (by right). exact Hso1. }
    unfold UsbMidi.Endpoint_ClearOUT. cbn [host_queue set_out_bank]. destruct u.(host_queue) as [|t q] eqn:Eq.
    + exists (ClearOUT_bank s2), (ClearOUT_bank s2). split; [done|]. split; [by etrans|]. split; [by left|]. exact Hr3.
    + destruct (host_out_refines (ClearOUT_bank s2) (set_host_queue q u) t) as (s4 & E4 & Hr4); [by destruct Hr3; split|done|done|].
      exists (ClearOUT_bank s2), s4. split; [done|]. split; [by etrans|]. split; [right; by exists t|]. destruct Hr4; by split.
  - rewrite bool_decide_eq_false_2 by done. cbn [negb fst snd]. exists s2, s2. split; [done|]. split; [done|]. split; [by left|]. exact Hr2.
Qed.

End driver.

(** ** Theorems *)

(** C17: The MIDI driver on the USB controller's registers refines the driver of UsbMidi:
    sending a packet, flushing and receiving, in whatever state the selection register and
    the control endpoint are, give the results of UsbMidi's functions and keep the two
    states related, when the host takes the bank within the stream timeout or, if it does
    not poll, lets the frames of the timeout pass, with nothing else on the bus meanwhile;
    and they change no register but the selection and the flags of the two MIDI endpoints,
    so that a control request under way is not disturbed. *)
Theorem midi_driver_refines CFGOK sig RWAL0 UEBC0 fuel p event tasks env s u :
  refines s u -> u.(UsbMidi.USB_DeviceState) = DEVICE_STATE_Configured ->
  (length u.(in_bank) <= 60)%nat -> (u.(in_pending) <> None -> u.(in_bank) = []) -> conduct u env ->
  out_ready u -> epbit OUT_EP UECONX STALLRQ s = false -> (4 <= fuel)%nat ->
  (exists s' env', MIDI_Send CFGOK sig RWAL0 fuel p tasks env s = Ok (fst (SendEventPacket p u), s', env') /\
     refines s' (snd (SendEventPacket p u)) /\ only_midi s s') /\
  (exists s' env', MIDI_Flush CFGOK UEBC0 env s = Ok (fst (Flush u), s', env') /\
     refines s' (snd (Flush u)) /\ only_midi s s') /\
  (exists s' s'', MIDI_Receive CFGOK sig RWAL0 fuel event tasks env s = Ok (fst (ReceiveEventPacket event u), s', env) /\
     only_midi s s' /\ (s'' = s' \/ exists t, traffic_step CFGOK (HostOUT t) s' = Ok s'') /\
     refines s'' (snd (ReceiveEventPacket event u))).
Proof.
  intros Hr Hu Hl Hpe Hc Ho Hso Hf. split; [by apply send_refines|]. split; [by apply flush_refines|by apply receive_refines].
Qed.

(** C18: [Endpoint_WaitUntilReady] waits at most 101 frames (101 ms), whatever comes on the
    bus meanwhile - resets, suspensions, unplugging, control requests - and in whatever
    state the endpoint is; it reports a timeout only when all of them have started. *)
Theorem midi_wait_bounded CFGOK env s :
  frame_ok s -> 101 <= frames env ->
  exists e s' env', Endpoint_WaitUntilReady CFGOK env s = Ok (e, s', env') /\
    frames env - frames env' <= 101 /\ (e = Timeout -> frames env - frames env' = 101).
Proof.
  intros Hf Hn. assert (H0 : fresh_frame s.(frame) s = 0) by (unfold fresh_frame; by rewrite Z.eqb_refl).
  destruct (wait_loop_ends CFGOK env USB_STREAM_TIMEOUT_MS s.(frame) s Hf) as (e & s' & env' & E & Hb & Ht);
    unfold USB_STREAM_TIMEOUT_MS in *; [lia|lia|]. exists e, s', env'. split; [exact E|]. rewrite H0 in Hb, Ht. split; [lia|]. intros He. specialize (Ht He). lia.
Qed.

(** ** Witnesses *)

(** A configured device: the IN endpoint's direction set, its bank free, the control
    endpoint selected. *)
Definition idle_regs : usbregs :=
  set_ep IN_EP UECFG0X (Z.lor (Z.shiftl EP_TYPE_BULK EPTYPE0) (bv EPDIR))
    (set_ep IN_EP UEINTX (bv TXINI) (set_io UDIEN (bv EORSTI) (mk_usbregs (fun _ => 0) (fun _ _ => 0)))).
Definition idle_port : port :=
  mk_port (mk_device idle_regs DEVICE_STATE_Configured 1 false false true [] [] [] []) [] None [] [] 2047.

Lemma idle_refines : refines idle_port fresh_link.
Proof. split; try done. by left. Qed.

Lemma midi_driver_refines_witness :
  exists s' env', MIDI_Send (fun _ _ => true) (fun _ => 0) false 4 (mk_packet 9 146 36 127) [] [HostIN] idle_port = Ok (NoError, s', env') /\
    s'.(in_fifo) = [9; 146; 36; 127].
Proof.
  destruct (midi_driver_refines (fun _ _ => true) (fun _ => 0) false 0 4 (mk_packet 9 146 36 127) (mk_packet 0 0 0 0) [] [HostIN]
    idle_port fresh_link) as ((s' & env' & E & Hr & _) & _).
  - apply idle_refines.
  - reflexivity.
  - cbn. lia.
  - intros _. reflexivity.
  - apply takes_now.
  - split; [reflexivity|constructor].
  - reflexivity.
  - lia.
  - exists s', env'. split; [exact E|]. exact (rf_fifo _ _ Hr).
Defined.

Lemma midi_wait_bounded_witness :
  exists e s' env', Endpoint_WaitUntilReady (fun _ _ => true) (replicate 120 FrameStarts)
    (on_port (Endpoint_SelectEndpoint DataINEndpoint.(Address)) (on_port (set_ep IN_EP UEINTX 0) idle_port)) = Ok (e, s', env') /\
    frames (replicate 120 FrameStarts) - frames env' <= 101.
Proof.
  destruct (midi_wait_bounded (fun _ _ => true) (replicate 120 FrameStarts)
    (on_port (Endpoint_SelectEndpoint DataINEndpoint.(Address)) (on_port (set_ep IN_EP UEINTX 0) idle_port))) as (e & s' & env' & E & Hb & _).
  - split; cbn; lia.
  - cbn. lia.
  - exists e, s', env'. split; [exact E|exact Hb].
Defined.

(** The interrupt of a bus reset selects the control endpoint and does not select the
    interrupted code's endpoint again: a byte the MIDI driver then writes goes to the
    control endpoint's bank. *)
Example reset_diverts_bytes :
  match traffic_step (fun _ _ => true) (Bus BusReset)
          (on_port (Endpoint_SelectEndpoint DataINEndpoint.(Address)) idle_port) with
  | Ok s => let s := Write_byte 9 s in
            bool_decide (s.(in_fifo) = []) && bool_decide (s.(dev).(bank) = [9])
  | Fault _ => false
  end = true.
Proof. vm_compute. reflexivity. Qed.

End UsbStream.
