(* ===== verification/UsbRequests.v ===== *)
(** * The control requests of the device stack, against a specification

    What a host sees of the device is a [host_view]; [serve] says what a standard
    request makes of it and what the host receives.  The section proves that the
    functions of DeviceStandardReq.c, as UsbDevice.v has them, do this for every
    request, whatever the moments at which the host takes the packets
    ([cooperates]).  The theorems then compose requests to sessions: the
    enumeration of the device, the suspension of the bus and its end, and the wait
    that does not end when the device is unplugged. *)

From S2P Require Import Prelude.
From S2P Require Import Avr.
From S2P Require Import UsbMidi.
From S2P Require Import UsbDescriptors.
From S2P Require Import UsbEndpoint.
From S2P Require Import UsbDevice.

Module UsbRequests.
Import UsbMidi Avr UsbDescriptors UsbEndpoint UsbDevice.

(** ** Lemmas: the control endpoint *)

(** A flag of the control endpoint, and the endpoint being selected. *)
Definition flag (i : Z) (d : device) : bool := Z.testbit (d.(regs).(ep) 0 UEINTX) i.
Definition selected (d : device) : Prop := d.(regs).(io) UENUM = 0.

(** Two states that differ at most in the control endpoint's flags and banks. *)
Record near (d d' : device) : Prop := {
  near_state : d'.(USB_DeviceState) = d.(USB_DeviceState);
  near_conf : d'.(USB_Device_ConfigurationNumber) = d.(USB_Device_ConfigurationNumber);
  near_wakeup : d'.(USB_Device_RemoteWakeupEnabled) = d.(USB_Device_RemoteWakeupEnabled);
  near_power : d'.(USB_Device_CurrentlySelfPowered) = d.(USB_Device_CurrentlySelfPowered);
  near_init : d'.(USB_IsInitialized) = d.(USB_IsInitialized);
  near_called : d'.(called) = d.(called);
  near_io : forall r, d'.(regs).(io) r = d.(regs).(io) r;
  near_ep : forall n r, n <> 0 \/ r <> UEINTX -> d'.(regs).(ep) n r = d.(regs).(ep) n r
}.

#[export] Instance near_refl : Reflexive near.
Proof. done. Qed.
#[export] Instance near_trans : Transitive near.
Proof.
  intros d1 d2 d3 [] []. split; try congruence.
  intros n r Hr. by rewrite near_ep1, near_ep0.
Qed.

Lemma near_selected d d' : near d d' -> selected d -> selected d'.
Proof. intros [] Hs. unfold selected. by rewrite near_io0. Qed.

Lemma bits_bv x i : 0 <= i < 8 -> has_bits x (bv i) = Z.testbit x i.
Proof.
  intros Hi. unfold bv. rewrite Z.shiftl_1_l. apply has_bits_pow2. lia.
Qed.

Lemma in_ready_flag d : selected d -> Endpoint_IsINReady d.(regs) = flag TXINI d.
Proof.
  intros Hs. unfold Endpoint_IsINReady, epx, current. rewrite Hs. by rewrite bits_bv.
Qed.
Lemma out_received_flag d : selected d -> Endpoint_IsOUTReceived d.(regs) = flag RXOUTI d.
Proof.
  intros Hs. unfold Endpoint_IsOUTReceived, epx, current. rewrite Hs. by rewrite bits_bv.
Qed.
Lemma setup_received_flag d : selected d -> Endpoint_IsSETUPReceived d.(regs) = flag RXSTPI d.
Proof.
  intros Hs. unfold Endpoint_IsSETUPReceived, epx, current. rewrite Hs. by rewrite bits_bv.
Qed.

(** A write to the flags register of the control endpoint. *)
Lemma near_flags v s d :
  s = set_ep 0 UEINTX v d.(regs) -> near d (set_regs s d) /\ forall i, flag i (set_regs s d) = Z.testbit v i.
Proof.
  intros ->. split.
  - split; try done. intros n r Hr. by apply ep_set_ep_ne.
  - intros i. unfold flag. cbn [regs set_regs]. by rewrite ep_set_ep_eq.
Qed.

Lemma clear_flags d m :
  selected d -> let d' := on_regs (fun s => set_epx UEINTX (clear_bits (epx UEINTX s) m) s) d in
  near d d' /\ forall i, 0 <= i < 8 -> flag i d' = flag i d && negb (Z.testbit m i).
Proof.
  intros Hs d'. destruct (near_flags (clear_bits (d.(regs).(ep) 0 UEINTX) m) d'.(regs) d) as [Hn Hf].
  { unfold d', on_regs, set_epx, epx, current. cbn [regs set_regs]. by rewrite Hs. }
  split; [exact Hn|]. intros i Hi. change (flag i d') with (flag i (set_regs d'.(regs) d)).
  rewrite Hf. by apply testbit_clear_bits.
Qed.

Lemma clear_setup d :
  selected d -> let d' := on_regs Endpoint_ClearSETUP d in
  near d d' /\ flag RXSTPI d' = false /\ flag RXOUTI d' = flag RXOUTI d /\ flag TXINI d' = flag TXINI d.
Proof.
  intros Hs. destruct (clear_flags d (bv RXSTPI) Hs) as [Hn Hf]. split; [exact Hn|].
  unfold Endpoint_ClearSETUP. rewrite !Hf, !bv_bit by (done || (unfold RXSTPI, RXOUTI, TXINI; lia)).
  cbn. by rewrite !andb_false_r, !andb_true_r.
Qed.

Lemma clear_out d :
  selected d -> let d' := on_regs Endpoint_ClearOUT d in
  near d d' /\ flag RXSTPI d' = flag RXSTPI d /\ flag RXOUTI d' = false /\ flag TXINI d' = flag TXINI d.
Proof.
  intros Hs. destruct (clear_flags d (Z.lor (bv RXOUTI) (bv FIFOCON)) Hs) as [Hn Hf]. split; [exact Hn|].
  unfold Endpoint_ClearOUT. rewrite !Hf by (unfold RXSTPI, RXOUTI, TXINI; lia).
  cbn. by rewrite !andb_false_r, !andb_true_r.
Qed.

Lemma clear_in d :
  selected d -> let d' := ClearIN d in
  near d d' /\ flag RXSTPI d' = flag RXSTPI d /\ flag RXOUTI d' = flag RXOUTI d /\
  flag TXINI d' = false /\ d'.(bank) = [] /\ d'.(answered) = d.(answered) ++ [d.(bank)] /\
  d'.(received) = d.(received).
Proof.
  intros Hs. destruct (clear_flags d (Z.lor (bv TXINI) (bv FIFOCON)) Hs) as [[] Hf].
  split; [by split|]. 
  assert (Hf' : forall i, 0 <= i < 8 -> flag i (ClearIN d) = flag i d && negb
    (Z.testbit (Z.lor (bv TXINI) (bv FIFOCON)) i)) by exact Hf.
  rewrite !Hf' by (unfold RXSTPI, RXOUTI, TXINI; lia). cbn. by rewrite !andb_false_r, !andb_true_r.
Qed.

Section happenings.
Variable CFGOK : Z -> Z -> bool.

Lemma or_flag j d :
  0 <= j < 8 -> let d' := on_regs (or_ep0 UEINTX (bv j)) d in
  near d d' /\ forall i, 0 <= i < 8 -> flag i d' = flag i d || (j =? i).
Proof.
  intros Hj d'. destruct (near_flags (or_bits (d.(regs).(ep) 0 UEINTX) (bv j)) d'.(regs) d) as [Hn Hf];
    [done|].
  split; [exact Hn|]. intros i Hi. change (flag i d') with (flag i (set_regs d'.(regs) d)).
  rewrite Hf, testbit_or_bits, bv_bit by lia. done.
Qed.

(** The quiet happenings. *)
Definition quiet (h : happening) : Prop := h = Nothing \/ h = BankFree.

Lemma happen_quiet h d :
  quiet h ->
  exists d', happen CFGOK h d = Ok d' /\ near d d' /\ flag RXSTPI d' = flag RXSTPI d /\
    flag RXOUTI d' = flag RXOUTI d /\
    flag TXINI d' = flag TXINI d || bool_decide (h = BankFree) /\
    d'.(bank) = d.(bank) /\ d'.(answered) = d.(answered) /\ d'.(received) = d.(received).
Proof.
  intros [-> | ->]; cbn [happen].
  - exists d. rewrite orb_false_r. done.
  - destruct (or_flag TXINI d ltac:(unfold TXINI; lia)) as [Hn Hf]. eexists. split; [done|].
    split; [exact Hn|]. rewrite !Hf by (unfold RXSTPI, RXOUTI, TXINI; lia).
    cbn. by rewrite !orb_false_r.
Qed.

Lemma happen_out data d :
  exists d', happen CFGOK (SendsOUT data) d = Ok d' /\ near d d' /\ flag RXSTPI d' = flag RXSTPI d /\
    flag RXOUTI d' = true /\ flag TXINI d' = flag TXINI d /\
    d'.(bank) = d.(bank) /\ d'.(answered) = d.(answered).
Proof.
  destruct (or_flag RXOUTI d ltac:(unfold RXOUTI; lia)) as [[] Hf]. cbn [happen].
  eexists. split; [done|]. split; [by split|].
  assert (Hf' : forall i, 0 <= i < 8 ->
    flag i (set_received data (on_regs (or_ep0 UEINTX (bv RXOUTI)) d)) = flag i d || (RXOUTI =? i))
    by exact Hf.
  rewrite !Hf' by (unfold RXSTPI, RXOUTI, TXINI; lia). cbn. by rewrite !orb_false_r, orb_true_r.
Qed.

(** A host that takes [n] banks, some later than others, then sends the empty
    packet of a status stage. *)
Definition cooperates (n : nat) (env : list happening) : Prop :=
  exists polls rest, env = polls ++ SendsOUT [] :: rest /\ Forall quiet polls /\
    (n <= length (filter (fun h => h = BankFree) polls))%nat.

Lemma cooperates_le n m env : (n <= m)%nat -> cooperates m env -> cooperates n env.
Proof. intros Hn (polls & rest & -> & Hq & Hm). exists polls, rest. split_and!; [done|done|lia]. Qed.

(** Waiting for a free bank. *)
Lemma wait_IN_ok n env : forall d,
  selected d -> cooperates (if flag TXINI d then n else S n) env ->
  exists d' env', wait_IN CFGOK env d = Ok (d', env') /\ near d d' /\ flag TXINI d' = true /\
    flag RXSTPI d' = flag RXSTPI d /\ flag RXOUTI d' = flag RXOUTI d /\
    d'.(bank) = d.(bank) /\ d'.(answered) = d.(answered) /\ cooperates n env'.
Proof.
  induction env as [|h env IH]; intros d Hs Hc.
  { destruct Hc as (polls & rest & E & _). by destruct polls. }
  cbn [wait_IN]. rewrite in_ready_flag by done. destruct (flag TXINI d) eqn:Hf; [by exists d, (h :: env)|].
  destruct Hc as (polls & rest & E & Hq & Hn). destruct polls as [|h' polls]; [cbn in Hn; lia|].
  injection E as <- ->. apply Forall_cons_1 in Hq as [Hh Hq].
  destruct (happen_quiet h d Hh) as (d1 & -> & Hn1 & Hst & Hout & Hin & Hb & Ha & _).
  rewrite bind_Ok. rewrite Hf, orb_false_l in Hin.
  destruct (IH d1) as (d' & env' & -> & Hn' & Hf' & Hst' & Hout' & Hb' & Ha' & Hc');
    [by apply (near_selected d)| |].
  { exists polls, rest. split_and!; [done|done|]. rewrite Hin. rewrite filter_cons in Hn.
    destruct (decide (h = BankFree)) as [->|Hne].
    - rewrite bool_decide_eq_true_2 by done. cbn in Hn. lia.
    - by rewrite bool_decide_eq_false_2 by done. }
  exists d', env'. split_and!; try congruence. by transitivity d1.
Qed.

(** A status stage in which the device sends the empty packet. *)
Lemma status_in_ok n env : forall d,
  selected d -> d.(USB_DeviceState) <> DEVICE_STATE_Unattached ->
  cooperates (if flag TXINI d then n else S n) env ->
  exists d' env', wait_status CFGOK Endpoint_IsINReady env d = Ok (true, d', env') /\ near d d' /\
    flag TXINI d' = true /\
    flag RXSTPI d' = flag RXSTPI d /\ flag RXOUTI d' = flag RXOUTI d /\
    d'.(bank) = d.(bank) /\ d'.(answered) = d.(answered) /\ cooperates n env'.
Proof.
  induction env as [|h env IH]; intros d Hs Hna Hc.
  { destruct Hc as (polls & rest & E & _). by destruct polls. }
  cbn [wait_status]. rewrite in_ready_flag by done. destruct (flag TXINI d) eqn:Hf; [by exists d, (h :: env)|].
  unfold in_state. rewrite bool_decide_eq_false_2 by done.
  destruct Hc as (polls & rest & E & Hq & Hn). destruct polls as [|h' polls]; [cbn in Hn; lia|].
  injection E as <- ->. apply Forall_cons_1 in Hq as [Hh Hq].
  destruct (happen_quiet h d Hh) as (d1 & -> & Hn1 & Hst & Hout & Hin & Hb & Ha & _).
  rewrite bind_Ok. rewrite Hf, orb_false_l in Hin.
  destruct (IH d1) as (d' & env' & -> & Hn' & Hf' & Hst' & Hout' & Hb' & Ha' & Hc');
    [by apply (near_selected d)|by rewrite (near_state _ _ Hn1)| |].
  { exists polls, rest. split_and!; [done|done|]. rewrite Hin. rewrite filter_cons in Hn.
    destruct (decide (h = BankFree)) as [->|Hne].
    - rewrite bool_decide_eq_true_2 by done. cbn in Hn. lia.
    - by rewrite bool_decide_eq_false_2 by done. }
  exists d', env'. split_and!; try congruence. by transitivity d1.
Qed.

(** And one in which the host does. *)
Lemma status_out_ok env : forall d,
  selected d -> d.(USB_DeviceState) <> DEVICE_STATE_Unattached -> flag RXOUTI d = false ->
  cooperates 0 env ->
  exists d' env', wait_status CFGOK Endpoint_IsOUTReceived env d = Ok (true, d', env') /\ near d d' /\
    flag RXSTPI d' = flag RXSTPI d /\ flag RXOUTI d' = true /\
    d'.(bank) = d.(bank) /\ d'.(answered) = d.(answered).
Proof.
  induction env as [|h env IH]; intros d Hs Hna Hf Hc.
  { destruct Hc as (polls & rest & E & _). by destruct polls. }
  cbn [wait_status]. rewrite out_received_flag, Hf by done.
  unfold in_state. rewrite bool_decide_eq_false_2 by done.
  destruct Hc as (polls & rest & E & Hq & _). destruct polls as [|h' polls]; injection E as -> ->.
  - destruct (happen_out [] d) as (d1 & -> & Hn1 & Hst & Hout & Hin & Hb & Ha). rewrite bind_Ok.
    exists d1, rest. split_and!; try done.
    destruct rest; cbn [wait_status]; rewrite out_received_flag, Hout by (by apply (near_selected d)); done.
  - apply Forall_cons_1 in Hq as [Hh Hq].
    destruct (happen_quiet h' d Hh) as (d1 & -> & Hn1 & Hst & Hout & Hin & Hb & Ha & _).
    rewrite bind_Ok.
    destruct (IH d1) as (d' & env' & -> & Hn' & Hst' & Hout' & Hb' & Ha');
      [by apply (near_selected d)|by rewrite (near_state _ _ Hn1)|congruence| |].
    { exists polls, rest. split_and!; [done|done|lia]. }
    exists d', env'. split_and!; try congruence. by transitivity d1.
Qed.

(** The whole status stage of a request to the device, and of one from it. *)
Lemma clear_status_in n q env d :
  selected d -> d.(USB_DeviceState) <> DEVICE_STATE_Unattached -> has_bits q 128 = false ->
  cooperates (S n) env -> d.(bank) = [] ->
  exists d' env', Endpoint_ClearStatusStage CFGOK q env d = Ok (d', env') /\ near d d' /\
    flag RXSTPI d' = flag RXSTPI d /\ flag RXOUTI d' = flag RXOUTI d /\ d'.(bank) = [] /\
    d'.(answered) = d.(answered) ++ [[]] /\ cooperates n env' /\ flag TXINI d' = false.
Proof.
  intros Hs Hna Hq Hc Hb. unfold Endpoint_ClearStatusStage. rewrite Hq.
  destruct (status_in_ok n env d Hs Hna) as (d1 & env1 & -> & Hn1 & Hf & Hst & Hout & Hb1 & Ha1 & Hc1).
  { destruct (flag TXINI d); [|done]. by apply (cooperates_le n (S n)); [lia|]. }
  rewrite bind_Ok.
  destruct (clear_in d1) as (Hn2 & Hst2 & Hout2 & Hin2 & Hb2 & Ha2 & _); [by apply (near_selected d)|].
  eexists _, env1. split; [reflexivity|]. split; [by transitivity d1|].
  split_and!; congruence || done.
Qed.

Lemma clear_status_out q env d :
  selected d -> d.(USB_DeviceState) <> DEVICE_STATE_Unattached -> has_bits q 128 = true ->
  flag RXOUTI d = false -> cooperates 0 env ->
  exists d' env', Endpoint_ClearStatusStage CFGOK q env d = Ok (d', env') /\ near d d' /\
    flag RXSTPI d' = flag RXSTPI d /\ flag RXOUTI d' = false /\
    d'.(bank) = d.(bank) /\ d'.(answered) = d.(answered).
Proof.
  intros Hs Hna Hq Hf Hc. unfold Endpoint_ClearStatusStage. rewrite Hq.
  destruct (status_out_ok env d Hs Hna Hf Hc) as (d1 & env1 & -> & Hn1 & Hst & Hout & Hb1 & Ha1).
  rewrite bind_Ok.
  destruct (clear_out d1) as (Hn2 & Hst2 & Hout2 & Hin2); [by apply (near_selected d)|].
  eexists _, env1. split; [reflexivity|]. split; [by transitivity d1|].
  split_and!; congruence || done.
Qed.

(** ** Lemmas: sending a descriptor *)

(** The device is on the bus, and the control endpoint holds nothing unread. *)
Record active (d : device) : Prop := {
  act_selected : selected d;
  act_attached : d.(USB_DeviceState) <> DEVICE_STATE_Unattached;
  act_awake : d.(USB_DeviceState) <> DEVICE_STATE_Suspended;
  act_setup : flag RXSTPI d = false;
  act_out : flag RXOUTI d = false
}.

Lemma active_near d d' :
  active d -> near d d' -> flag RXSTPI d' = flag RXSTPI d -> flag RXOUTI d' = flag RXOUTI d -> active d'.
Proof.
  intros [] Hn H1 H2. split; rewrite ?(near_state _ _ Hn); try congruence. by apply (near_selected d).
Qed.

Lemma not_aborted d :
  selected d -> d.(USB_DeviceState) <> DEVICE_STATE_Unattached ->
  d.(USB_DeviceState) <> DEVICE_STATE_Suspended -> flag RXSTPI d = false -> aborted d = None.
Proof.
  intros Hs Hu Hp Hf. unfold aborted, in_state. rewrite !bool_decide_eq_false_2 by done.
  by rewrite setup_received_flag, Hf.
Qed.

(** The end of a transfer: the host has sent the status packet. *)
Definition transferred (ps : list (list Z)) (d d' : device) : Prop :=
  near d d' /\ d'.(answered) = ps /\ d'.(bank) = [] /\ flag RXSTPI d' = false /\ flag RXOUTI d' = true.

Lemma control_status_out env d :
  selected d -> flag RXOUTI d = true -> control_status CFGOK env d = Ok (RWCSTREAM_NoError, d, env).
Proof. intros Hs Hf. destruct env; cbn [control_status]; by rewrite out_received_flag, Hf. Qed.

Lemma control_status_ok polls : forall d rest,
  active d -> d.(bank) = [] -> Forall quiet polls ->
  exists d' env', control_status CFGOK (polls ++ SendsOUT [] :: rest) d = Ok (RWCSTREAM_NoError, d', env') /\
    transferred d.(answered) d d'.
Proof.
  induction polls as [|h polls IH]; intros d rest Ha Hb Hq; cbn [app control_status];
    (rewrite out_received_flag, act_out by (done || apply Ha));
    (rewrite not_aborted by apply Ha).
  - destruct (happen_out [] d) as (d1 & -> & Hn1 & Hst & Hout & Hin & Hb1 & Ha1). rewrite bind_Ok.
    rewrite control_status_out by (done || (apply (near_selected d); [done|apply Ha])).
    exists d1, rest. split; [done|]. split_and!; [done|done|congruence|rewrite Hst; apply Ha|done].
  - apply Forall_cons_1 in Hq as [Hh Hq].
    destruct (happen_quiet h d Hh) as (d1 & -> & Hn1 & Hst & Hout & Hin & Hb1 & Ha1 & _). rewrite bind_Ok.
    destruct (IH d1 rest) as (d' & env' & -> & Hn' & Ha' & Ht'); [by apply (active_near d)|congruence|done|].
    exists d', env'. split; [done|]. split; [by transitivity d1|]. split; [congruence|done].
Qed.

Lemma control_data_stop env n data full d :
  (0 <? n)%nat || full = false -> control_data CFGOK env n data full d = control_status CFGOK env d.
Proof. intros Hgo. by destruct env; cbn [control_data]; rewrite Hgo. Qed.

Lemma data_stage_stop seen n data full ps :
  (0 <? n)%nat || full = false -> data_stage seen n data full ps = status_stage seen ps.
Proof. intros Hgo. by destruct seen; cbn [data_stage]; rewrite Hgo. Qed.

Lemma ready_count k : length (filter (fun o => o = INReady) (replicate k INReady)) = k.
Proof. induction k as [|k IH]; [done|]. cbn [replicate]. rewrite filter_cons_True by done. cbn. by rewrite IH. Qed.

(** One pass of the loop, up to the next happening. *)
Lemma control_data_pass env n data full d :
  active d -> d.(bank) = [] -> (n <= length data)%nat -> (0 <? n)%nat || full = true ->
  exists n' data' full' d1,
    control_data CFGOK env n data full d =
      match env with
      | [] => Fault OutOfFuel
      | h :: env => d ← happen CFGOK h d1; control_data CFGOK env n' data' full' d
      end /\
    active d1 /\ near d d1 /\ d1.(bank) = [] /\ flag TXINI d1 = false /\ (n' <= length data')%nat /\
    forall seen, data_stage ((if flag TXINI d then INReady else NothingYet) :: seen) n data full d.(answered)
      = data_stage seen n' data' full' d1.(answered).
Proof.
  intros Ha Hb Hn Hgo. assert (Ha' := Ha). destruct Ha' as [Hs Hu Hp Hst Hout].
  assert (E : forall r, control_data CFGOK env n data full d = r <->
    ('(Length, DataStream, LastPacketFull, d) ←
            (if Endpoint_IsINReady d.(regs) then
               '(Length, DataStream, l) ← fill_bank n data d.(bank);
               Ok (Length, DataStream, Z.of_nat (length l) =? FIXED_CONTROL_ENDPOINT_SIZE,
                   ClearIN (set_bank l d))
             else Ok (n, data, full, d));
          match env with
          | [] => Fault OutOfFuel
          | h :: env => d ← happen CFGOK h d; control_data CFGOK env Length DataStream LastPacketFull d
          end) = r).
  { intros r. destruct env; cbn [control_data]; rewrite Hgo, not_aborted, out_received_flag, Hout by done;
      done. }
  rewrite in_ready_flag, Hb in E by done. destruct (flag TXINI d) eqn:Hin.
  - rewrite fill_bank_spec in E by (cbn; lia). cbv zeta in E. rewrite !bind_Ok in E.
    cbn [app length] in E. set (k := ((64 - 0) `min` n)%nat) in *.
    set (d0 := set_bank (take k data) d) in *.
    destruct (clear_in d0) as (Hn1 & Hst1 & Hout1 & Hin1 & Hb1 & Ha1 & _); [done|].
    assert (Hn1' : near d (ClearIN d0)) by (destruct Hn1; by split).
    eexists (n - k)%nat, (drop k data), _, (ClearIN d0). split; [by apply E|].
    split; [by apply (active_near d)|]. split; [done|]. split; [done|]. split; [done|].
    split; [rewrite length_drop; lia|]. intros seen. cbn [data_stage]. rewrite Hgo.
    rewrite fill_bank_spec by (cbn; lia). cbv zeta. rewrite bind_Ok. by rewrite Ha1.
  - exists n, data, full, d. split; [by apply E; destruct env|]. split_and!; try done.
    intros seen. cbn [data_stage]. by rewrite Hgo.
Qed.

(** The transfer sees the same as the loops of UsbDescriptors.v: a bank is ready
    at least as often as the host has taken one. *)
Lemma control_data_sim polls : forall d n data full rest,
  active d -> d.(bank) = [] -> Forall quiet polls -> (n <= length data)%nat ->
  exists seen, Forall (fun o => o = INReady \/ o = NothingYet) seen /\
    (length (filter (fun h => h = BankFree) polls) + (if flag TXINI d then 1 else 0) <=
     length (filter (fun o => o = INReady) seen))%nat /\
    forall ps, data_stage (seen ++ [OUTReceived]) n data full d.(answered) = Ok (RWCSTREAM_NoError, ps) ->
      exists d' env', control_data CFGOK (polls ++ SendsOUT [] :: rest) n data full d =
          Ok (RWCSTREAM_NoError, d', env') /\ transferred ps d d'.
Proof.
  induction polls as [|h polls IH]; intros d n data full rest Ha Hb Hq Hn;
    (destruct ((0 <? n)%nat || full) eqn:Hgo;
     [|eexists (replicate _ INReady); split; [apply Forall_replicate; by left|];
       split; [by rewrite ready_count|]; intros ps;
       rewrite data_stage_stop, status_stage_reads by (done || (apply Forall_replicate; by left));
       intros [= <-]; rewrite control_data_stop by done; by apply control_status_ok]).
  - destruct (control_data_pass ([] ++ SendsOUT [] :: rest) n data full d Ha Hb Hn Hgo)
      as (n' & data' & full' & d1 & E & Ha1 & Hn1 & Hb1 & _ & Hl & Hd).
    exists [if flag TXINI d then INReady else NothingYet]. split; [by destruct (flag TXINI d); repeat constructor; auto|].
    split; [by destruct (flag TXINI d)|]. intros ps. cbn [app]. rewrite Hd. cbn [app] in E. rewrite E.
    destruct (happen_out [] d1) as (d2 & -> & Hn2 & Hst & Hout & _ & Hb2 & Ha2). rewrite bind_Ok.
    assert (Hs2 : selected d2) by (apply (near_selected d1); [done|apply Ha1]).
    intros Hps. exists d2, rest. split.
    + assert (Hna : aborted d2 = None).
      { apply not_aborted; rewrite ?(near_state _ _ Hn2); [done|apply Ha1..|]. rewrite Hst. apply Ha1. }
      destruct rest; cbn [control_data];
        (destruct ((0 <? n')%nat || full'); [rewrite Hna, out_received_flag, Hout by done|]);
        by apply control_status_out.
    + split; [by transitivity d1|]. split; [|split; [congruence|split; [|done]]].
      * destruct ((0 <? n')%nat || full') eqn:Hgo'; cbn [data_stage] in Hps; rewrite Hgo' in Hps;
          cbn in Hps; injection Hps as <-; done.
      * rewrite Hst. apply Ha1.
  - destruct (control_data_pass ((h :: polls) ++ SendsOUT [] :: rest) n data full d Ha Hb Hn Hgo)
      as (n' & data' & full' & d1 & E & Ha1 & Hn1 & Hb1 & Hin1 & Hl & Hd).
    apply Forall_cons_1 in Hq as [Hh Hq]. cbn [app] in E |- *. rewrite E. clear E.
    destruct (happen_quiet h d1 Hh) as (d2 & -> & Hn2 & Hst & Hout & Hin & Hb2 & Ha2 & _). rewrite bind_Ok.
    destruct (IH d2 n' data' full' rest) as (seen & Hseen & Hcount & Hsim);
      [by apply (active_near d1)|congruence|done|done|].
    exists ((if flag TXINI d then INReady else NothingYet) :: seen). split.
    { apply Forall_cons_2; [destruct (flag TXINI d); auto|done]. }
    split.
    { rewrite Hin, Hin1, orb_false_l in Hcount.
      assert (Hp : length (filter (fun h => h = BankFree) (h :: polls)) =
        ((if bool_decide (h = BankFree) then 1 else 0) +
         length (filter (fun h => h = BankFree) polls))%nat).
      { case_bool_decide; [by rewrite filter_cons_True|by rewrite filter_cons_False]. }
      assert (Hr : length (filter (fun o => o = INReady)
          ((if flag TXINI d then INReady else NothingYet) :: seen)) =
        ((if flag TXINI d then 1 else 0) + length (filter (fun o => o = INReady) seen))%nat).
      { destruct (flag TXINI d); [by rewrite filter_cons_True|by rewrite filter_cons_False]. }
      rewrite Hp, Hr. lia. }
    intros ps. cbn [app]. rewrite Hd, <-Ha2. intros Hps.
    destruct (Hsim ps Hps) as (d' & env' & -> & Hn' & Ht). exists d', env'. split; [done|].
    split; [|done]. transitivity d1; [done|]. by transitivity d2.
Qed.

(** A descriptor is handed over as UsbDescriptors.v says. *)
Lemma answer_ok q object Size env d :
  selected d -> d.(USB_DeviceState) <> DEVICE_STATE_Unattached ->
  d.(USB_DeviceState) <> DEVICE_STATE_Suspended -> flag RXOUTI d = false -> d.(bank) = [] ->
  0 <= q.(wLength) -> 0 < Size <= Z.of_nat (length object) ->
  cooperates (packet_count (Z.to_nat (q.(wLength) `min` Size)) false) env ->
  exists d' env', answer_descriptor CFGOK q object Size env d = Ok (d', env') /\ near d d' /\
    d'.(answered) = d.(answered) ++ packets_of (take (Z.to_nat (q.(wLength) `min` Size)) object) false /\
    flag RXSTPI d' = false /\ flag RXOUTI d' = false /\ d'.(bank) = [].
Proof.
  intros Hs Hu Hp Hout Hb Hl Hsize (polls & rest & -> & Hq & Hc). unfold answer_descriptor.
  destruct (clear_setup d Hs) as (Hn1 & Hst1 & Hout1 & Hin1). set (d1 := on_regs Endpoint_ClearSETUP d) in *.
  assert (Ha1 : active d1).
  { split; rewrite ?(near_state _ _ Hn1); try congruence. by apply (near_selected d). }
  assert (Hb1 : d1.(bank) = []) by exact Hb. assert (Has : d1.(answered) = d.(answered)) by done.
  clearbody d1. cbv zeta. set (n := Z.to_nat (q.(wLength) `min` Size)) in *.
  destruct (control_data_sim polls d1 n object false rest) as (seen & Hseen & Hcount & Hsim);
    [done|done|done|lia|].
  destruct (Hsim (d.(answered) ++ packets_of (take n object) false)) as (d2 & env2 & E & Hn2 & Ha2 & Hb2 & Hst2 & _).
  { rewrite Has. apply data_stage_reads; [done|lia|lia]. }
  assert (Ew : Write_Control_PStream_LE CFGOK q.(wLength) object Size (polls ++ SendsOUT [] :: rest) d1 =
    Ok (RWCSTREAM_NoError, d2, env2)).
  { rewrite <-E. unfold Write_Control_PStream_LE, n. replace (Size =? 0) with false by lia.
    destruct (Z.ltb_spec q.(wLength) Size); [by rewrite Z.min_l by lia|by rewrite Z.min_r by lia]. }
  rewrite Ew, bind_Ok.
  destruct (clear_out d2) as (Hn3 & Hst3 & Hout3 & _); [by apply (near_selected d1), Ha1|].
  eexists _, env2. split; [reflexivity|]. split; [transitivity d1; [done|]; by transitivity d2|].
  split_and!; congruence || done.
Qed.

(** ** The device as the host sees it *)

Record function_state := mk_fn {
  fn_state : usb_state;
  fn_address : Z;         (* 128 and the address, once it is set *)
  fn_configuration : Z;
  fn_wakeup : bool
}.

Definition function_of (d : device) : function_state :=
  mk_fn d.(USB_DeviceState) (d.(regs).(io) UDADDR) d.(USB_Device_ConfigurationNumber)
    d.(USB_Device_RemoteWakeupEnabled).
Definition halted (d : device) (n : Z) : bool := Z.testbit (d.(regs).(ep) n UECONX) STALLRQ.
Definition enabled (d : device) (n : Z) : bool := Z.testbit (d.(regs).(ep) n UECONX) EPEN.

Lemma near_function d d' : near d d' -> function_of d' = function_of d.
Proof. intros []. unfold function_of. by rewrite near_state0, near_io0, near_conf0, near_wakeup0. Qed.
Lemma near_halted d d' n : near d d' -> halted d' n = halted d n.
Proof. intros []. unfold halted. by rewrite near_ep0 by auto. Qed.

(** All the host can see. *)
Record host_view := mk_view {
  v_fn : function_state;
  v_self_powered : bool;
  v_halted : Z -> bool;
  v_enabled : Z -> bool
}.
Definition view_of (d : device) : host_view :=
  mk_view (function_of d) d.(USB_Device_CurrentlySelfPowered) (halted d) (enabled d).

(** The effect of a request: the new state and the packets the host receives, or
    [None] when the request is stalled.  A request to configure the device with
    the value zero leaves it configured, once it has an address. *)
Definition serve (sig : Z -> Z) (q : USB_Request_Header_t) (v : host_view)
    : option (function_state * list (list Z)) :=
  let f := v.(v_fn) in
  let t := q.(bmRequestType) in
  let r := q.(bRequest) in
  if (r =? REQ_GetStatus) && (t =? 128) then
    Some (f, [[Z.b2z v.(v_self_powered) + 2 * Z.b2z f.(fn_wakeup); 0]])
  else if (r =? REQ_GetStatus) && (t =? 130) then
    Some (f, [[Z.b2z (v.(v_halted) (q.(wIndex) mod 16)); 0]])
  else if ((r =? REQ_ClearFeature) || (r =? REQ_SetFeature)) && (t =? 0) then
    if q.(wValue) mod 256 =? 1
    then Some (mk_fn f.(fn_state) f.(fn_address) f.(fn_configuration) (r =? REQ_SetFeature), [[]])
    else None
  else if ((r =? REQ_ClearFeature) || (r =? REQ_SetFeature)) && (t =? 2) then
    if (q.(wValue) mod 256 =? 0) && (q.(wIndex) mod 16 =? 0) then None else Some (f, [[]])
  else if (r =? REQ_SetAddress) && (t =? 0) then
    Some (mk_fn (if q.(wValue) mod 128 =? 0 then DEVICE_STATE_Default else DEVICE_STATE_Addressed)
            (128 + q.(wValue) mod 128) f.(fn_configuration) f.(fn_wakeup), [[]])
  else if (r =? REQ_GetDescriptor) && ((t =? 128) || (t =? 129)) then
    match requested sig q.(wValue) with
    | Some (Size, object) =>
        Some (f, packets_of (take (Z.to_nat (q.(wLength) `min` Size)) object) false)
    | None => None
    end
  else if (r =? REQ_GetConfiguration) && (t =? 128) then Some (f, [[f.(fn_configuration)]])
  else if (r =? REQ_SetConfiguration) && (t =? 0) then
    if q.(wValue) mod 256 <=? 1 then
      Some (mk_fn (if negb (q.(wValue) mod 256 =? 0) || Z.testbit f.(fn_address) ADDEN
                   then DEVICE_STATE_Configured else DEVICE_STATE_Powered)
              f.(fn_address) (q.(wValue) mod 256) f.(fn_wakeup), [[]])
    else None
  else None.

(** An endpoint is halted after a request: only a feature request for an enabled
    endpoint changes it. *)
Definition halt_after (q : USB_Request_Header_t) (v : host_view) (n : Z) : bool :=
  if ((q.(bRequest) =? REQ_ClearFeature) || (q.(bRequest) =? REQ_SetFeature)) &&
     (q.(bmRequestType) =? 2) && (q.(wValue) mod 256 =? 0) && negb (q.(wIndex) mod 16 =? 0) &&
     (n =? q.(wIndex) mod 16) && v.(v_enabled) n
  then q.(bRequest) =? REQ_SetFeature else v.(v_halted) n.

(** It is enabled: choosing a configuration enables the two MIDI endpoints. *)
Definition enabled_after (q : USB_Request_Header_t) (v : host_view) (n : Z) : bool :=
  (q.(bRequest) =? REQ_SetConfiguration) && (q.(bmRequestType) =? 0) && (q.(wValue) mod 256 <=? 1) &&
    ((n =? 1) || (n =? 2)) || v.(v_enabled) n.

(** What a request leaves in the endpoint registers for the next one: banks the
    controller accepts, no request on the MIDI output endpoint, no memory for the
    endpoints the firmware does not have; the MIDI endpoints have the firmware's
    configuration once they have memory, and no endpoint is enabled without. *)
Record well_set (s : usbregs) : Prop := {
  ws_accepted : accepted CFGOK s;
  ws_ep1 : Z.testbit (s.(ep) 1 UEINTX) RXSTPI = false;
  ws_unused : forall n, 2 < n -> has_bits (s.(ep) n UECFG1X) (bv ALLOC) = false;
  ws_midi : forall n, n = 1 \/ n = 2 -> has_bits (s.(ep) n UECFG1X) (bv ALLOC) = true ->
    s.(ep) n UECFG0X = 127 + n /\ s.(ep) n UECFG1X = 50;
  ws_memory : forall n, 0 < n -> Z.testbit (s.(ep) n UECONX) EPEN = true ->
    has_bits (s.(ep) n UECFG1X) (bv ALLOC) = true
}.

Lemma well_set_ep s s' :
  (forall n r, r <> UECONX -> n <> 0 \/ r <> UEINTX -> s'.(ep) n r = s.(ep) n r) ->
  (forall n, 0 < n -> Z.testbit (s'.(ep) n UECONX) EPEN = true -> Z.testbit (s.(ep) n UECONX) EPEN = true) ->
  well_set s -> well_set s'.
Proof.
  intros Hr He [Ha H1 Hu Hm He1]. split.
  - intros m Hm'. rewrite Hr by auto. by apply Ha.
  - rewrite Hr; [done|done|]. left. lia.
  - intros n Hn. rewrite Hr by auto. by apply Hu.
  - intros n Hn. rewrite !Hr by auto. by apply Hm.
  - intros n Hn Hen. rewrite Hr by auto. by apply He1, He.
Qed.

(** The MIDI endpoints, once they are enabled. *)
Lemma well_set_config s n :
  well_set s -> n = 1 \/ n = 2 -> Z.testbit (s.(ep) n UECONX) EPEN = true -> has_config s n (127 + n) 50.
Proof.
  intros Hw Hn He. destruct (ws_midi _ Hw n Hn) as [H1 H2]; [apply (ws_memory _ Hw); [lia|done]|].
  split_and!; [done|done|]. by rewrite bits_bv by (unfold EPEN; lia).
Qed.

(** The control endpoint with a request to serve. *)
Record pending (d : device) : Prop := {
  pend_selected : selected d;
  pend_attached : d.(USB_DeviceState) <> DEVICE_STATE_Unattached;
  pend_awake : d.(USB_DeviceState) <> DEVICE_STATE_Suspended;
  pend_out : flag RXOUTI d = false;
  pend_bank : d.(bank) = [];
  pend_well : well_set d.(regs)
}.

Lemma well_set_near d d' : near d d' -> well_set d.(regs) -> well_set d'.(regs).
Proof.
  intros Hn. apply well_set_ep.
  - intros n r _ Hr. by apply (near_ep _ _ Hn).
  - intros n _. by rewrite (near_ep _ _ Hn) by auto.
Qed.

Lemma pending_near d d' : pending d -> near d d' -> flag RXOUTI d' = flag RXOUTI d ->
  d'.(bank) = d.(bank) -> pending d'.
Proof.
  intros [] Hn H1 H2. split; rewrite ?(near_state _ _ Hn); try congruence.
  - by apply (near_selected d).
  - by apply (well_set_near d).
Qed.

(** How the function of a request ends that is served. *)
Definition served (q : USB_Request_Header_t) (d d' : device) (f : function_state)
    (ps : list (list Z)) : Prop :=
  function_of d' = f /\ d'.(answered) = d.(answered) ++ ps /\ flag RXSTPI d' = false /\
  Endpoint_IsSETUPReceived d'.(regs) = false /\
  (forall n, 0 <= n < 16 -> halted d' n = halt_after q (view_of d) n) /\
  (forall n, 0 <= n < 16 -> enabled d' n = enabled_after q (view_of d) n) /\
  d'.(USB_Device_CurrentlySelfPowered) = d.(USB_Device_CurrentlySelfPowered) /\
  d'.(bank) = [] /\ flag RXOUTI d' = false /\ well_set d'.(regs).

Lemma near_enabled d d' n : near d d' -> enabled d' n = enabled d n.
Proof. intros []. unfold enabled. by rewrite near_ep0 by auto. Qed.

(** A request that changes nothing but what is answered. *)
Lemma served_near q d d' ps :
  near d d' -> pending d -> d'.(answered) = d.(answered) ++ ps -> flag RXSTPI d' = false ->
  d'.(bank) = [] -> flag RXOUTI d' = false ->
  (forall n, halt_after q (view_of d) n = halted d n) ->
  (forall n, enabled_after q (view_of d) n = enabled d n) -> served q d d' (function_of d) ps.
Proof.
  intros Hn Hp Ha Hf Hb Ho Hh He. split_and!; [by apply near_function|done|done| | | | |done|done|].
  - rewrite setup_received_flag; [done|]. apply (near_selected d); [done|apply Hp].
  - intros n _. rewrite Hh. by apply near_halted.
  - intros n _. rewrite He. by apply near_enabled.
  - by apply near_power.
  - apply (well_set_near d); [done|apply Hp].
Qed.

Lemma halt_after_other q v n :
  ((q.(bRequest) =? REQ_ClearFeature) || (q.(bRequest) =? REQ_SetFeature)) &&
  (q.(bmRequestType) =? 2) = false -> halt_after q v n = v.(v_halted) n.
Proof. intros E. unfold halt_after. by rewrite E. Qed.
Lemma enabled_after_other q v n :
  (q.(bRequest) =? REQ_SetConfiguration) = false -> enabled_after q v n = v.(v_enabled) n.
Proof. intros E. unfold enabled_after. by rewrite E. Qed.

(** Answers of a few bytes. *)
Lemma answer_bytes_ok q l env d :
  pending d -> has_bits q 128 = true -> cooperates 0 env ->
  exists d' env', Endpoint_ClearStatusStage CFGOK q env (ClearIN (set_bank l (on_regs Endpoint_ClearSETUP d)))
      = Ok (d', env') /\ near d d' /\ d'.(answered) = d.(answered) ++ [l] /\ flag RXSTPI d' = false /\
    d'.(bank) = [] /\ flag RXOUTI d' = false.
Proof.
  intros [Hs Hu Hp Hout Hb _] Hq Hc. destruct (clear_setup d Hs) as (Hn1 & Hst1 & Hout1 & _).
  set (d1 := on_regs Endpoint_ClearSETUP d) in *.
  assert (Hn1' : near d (set_bank l d1)) by (destruct Hn1; by split).
  destruct (clear_in (set_bank l d1)) as (Hn2 & Hst2 & Hout2 & _ & Hb2 & Ha2 & _); [by apply (near_selected d)|].
  assert (Hn2' : near d (ClearIN (set_bank l d1))) by (by transitivity (set_bank l d1)).
  destruct (clear_status_out q env (ClearIN (set_bank l d1)))
    as (d3 & env3 & -> & Hn3 & Hst3 & Hout3 & Hb3 & Ha3); [by apply (near_selected d)|..].
  - by rewrite (near_state _ _ Hn2').
  - done.
  - rewrite Hout2. change (flag RXOUTI (set_bank l d1)) with (flag RXOUTI d1). congruence.
  - done.
  - exists d3, env3. split; [done|]. split; [by transitivity (ClearIN (set_bank l d1))|].
    split; [by rewrite Ha3, Ha2|]. split; [|split; [congruence|done]]. rewrite Hst3, Hst2. exact Hst1.
Qed.

(** The common end of the requests that send no data. *)
Lemma acknowledge_ok n q env d :
  pending d -> has_bits q 128 = false -> cooperates (S n) env ->
  exists d' env', Endpoint_ClearStatusStage CFGOK q env (on_regs Endpoint_ClearSETUP d) = Ok (d', env') /\
    near d d' /\ d'.(answered) = d.(answered) ++ [[]] /\ flag RXSTPI d' = false /\
    flag RXOUTI d' = false /\ flag TXINI d' = false /\ cooperates n env' /\ d'.(bank) = [].
Proof.
  intros [Hs Hu Hp Hout Hb _] Hq Hc. destruct (clear_setup d Hs) as (Hn1 & Hst1 & Hout1 & _).
  set (d1 := on_regs Endpoint_ClearSETUP d) in *.
  destruct (clear_status_in n q env d1) as (d2 & env2 & -> & Hn2 & Hst2 & Hout2 & Hb2 & Ha2 & Hc2 & Hin2);
    [by apply (near_selected d)|by rewrite (near_state _ _ Hn1)|done|done|done|].
  exists d2, env2. split; [done|]. split; [by transitivity d1|]. split_and!; congruence || done.
Qed.

(** *** The requests one by one *)

Lemma pending_io r v d : pending d -> r <> UENUM -> pending (on_regs (set_io r v) d).
Proof.
  intros [Hs Hu Hp Hout Hb Hw] Hr. split; try done.
  - unfold selected. cbn [regs on_regs set_regs]. by rewrite io_set_io_ne by congruence.
  - by apply (well_set_ep d.(regs)).
Qed.

(** The end of a request that has changed the state between [d] and [d0], and
    then only waited for its status stage. *)
Lemma served_end q d d0 d' f ps :
  pending d0 -> near d0 d' ->
  function_of d0 = f -> d'.(answered) = d.(answered) ++ ps -> flag RXSTPI d' = false ->
  d'.(bank) = [] -> flag RXOUTI d' = false ->
  (forall n, 0 <= n < 16 -> halted d0 n = halt_after q (view_of d) n) ->
  (forall n, 0 <= n < 16 -> enabled d0 n = enabled_after q (view_of d) n) ->
  d0.(USB_Device_CurrentlySelfPowered) = d.(USB_Device_CurrentlySelfPowered) -> served q d d' f ps.
Proof.
  intros Hp Hn Hf Ha Hst Hb Ho Hh He Hs.
  split_and!; [by rewrite (near_function _ _ Hn)|done|done| | | |by rewrite (near_power _ _ Hn)|done|done|].
  - rewrite setup_received_flag; [done|]. apply (near_selected d0); [done|apply Hp].
  - intros n Hn'. rewrite (near_halted _ _ n Hn). by apply Hh.
  - intros n Hn'. rewrite (near_enabled _ _ n Hn). by apply He.
  - apply (well_set_near d0); [done|apply Hp].
Qed.

Lemma address_value old v :
  or_bits (Z.lor (Z.land old (bv ADDEN)) (Z.land (Z.land v 127) 127)) (bv ADDEN) = 128 + v mod 128.
Proof.
  rewrite !land_127, Z.mod_mod by lia. assert (Hv := Z.mod_pos_bound v 128 ltac:(lia)).
  set (x := v mod 128) in *. clearbody x.
  assert (Ho : Z.land old (bv ADDEN) = 0 \/ Z.land old (bv ADDEN) = 128).
  { destruct (Z.testbit old 7) eqn:E; [right|left]; apply Z.bits_inj'; intros i Hi;
      rewrite Z.land_spec; change (bv ADDEN) with (2 ^ 7); change 128 with (2 ^ 7);
      rewrite ?Z.bits_0; (destruct (Z.eq_dec i 7) as [->|]; [rewrite E; done|]);
      rewrite ?Z.pow2_bits_false by lia; by rewrite andb_false_r. }
  destruct Ho as [-> | ->].
  - set (p := fun x => or_bits (Z.lor 0 x) (bv ADDEN) =? 128 + x).
    apply Z.eqb_eq. change (p x = true). by_range 0 128 x p.
  - set (p := fun x => or_bits (Z.lor 128 x) (bv ADDEN) =? 128 + x).
    apply Z.eqb_eq. change (p x = true). by_range 0 128 x p.
Qed.

Lemma set_address_ok q env d :
  pending d -> q.(bmRequestType) = 0 -> cooperates 2 env ->
  (forall n, halt_after q (view_of d) n = halted d n) ->
  (forall n, enabled_after q (view_of d) n = enabled d n) ->
  exists d' env', USB_Device_SetAddress CFGOK q env d = Ok (d', env') /\
    served q d d' (mk_fn (if q.(wValue) mod 128 =? 0 then DEVICE_STATE_Default else DEVICE_STATE_Addressed)
      (128 + q.(wValue) mod 128) d.(USB_Device_ConfigurationNumber) d.(USB_Device_RemoteWakeupEnabled)) [[]].
Proof.
  intros Hp Hq Hc Hh He. unfold USB_Device_SetAddress. rewrite Hq. cbv zeta.
  set (d1 := on_regs (USB_Device_SetDeviceAddress _) d).
  assert (Hp1 : pending d1) by (by apply pending_io).
  destruct (acknowledge_ok 1 0 env d1 Hp1 eq_refl Hc)
    as (d2 & env2 & -> & Hn2 & Ha2 & Hst2 & Hout2 & Hin2 & Hc2 & Hb2).
  rewrite bind_Ok.
  destruct (wait_IN_ok 0 env2 d2) as (d3 & env3 & -> & Hn3 & _ & Hst3 & Hout3 & Hb3 & Ha3 & _);
    [by apply (near_selected d1), Hp1|by rewrite Hin2|].
  rewrite bind_Ok. assert (Hn : near d1 d3) by (by transitivity d2).
  eexists _, env3. split; [reflexivity|].
  set (st := if negb (Z.land q.(wValue) 127 =? 0) then _ else _).
  set (d4 := set_USB_DeviceState st (on_regs USB_Device_EnableDeviceAddress d3)).
  assert (Hst4 : st <> DEVICE_STATE_Unattached /\ st <> DEVICE_STATE_Suspended)
    by (unfold st; by destruct (negb _)).
  assert (Hp3 : pending d3).
  { apply (pending_near d1); [done|done| |]; [rewrite Hout3, Hout2|rewrite Hb3, Hb2]; symmetry; apply Hp1. }
  assert (Hp4 : pending d4).
  { destruct (pending_io UDADDR (or_bits (d3.(regs).(io) UDADDR) (bv ADDEN)) d3 Hp3) as [Hs _ _ Ho Hb Hw]; [done|].
    split; [exact Hs|apply Hst4|apply Hst4|exact Ho|exact Hb|exact Hw]. }
  apply (served_end q d d4 d4); try done.
  - unfold function_of, d4. cbn [USB_DeviceState set_USB_DeviceState regs on_regs set_regs
      USB_Device_ConfigurationNumber USB_Device_RemoteWakeupEnabled].
    rewrite (near_conf _ _ Hn), (near_wakeup _ _ Hn).
    unfold USB_Device_EnableDeviceAddress, or_io. rewrite io_set_io_eq, (near_io _ _ Hn).
    unfold d1, st. cbn [regs on_regs set_regs]. unfold USB_Device_SetDeviceAddress. rewrite io_set_io_eq.
    rewrite address_value, land_127. by destruct (q.(wValue) mod 128 =? 0).
  - cbn. by rewrite Ha3, Ha2.
  - change (flag RXSTPI d3 = false). congruence.
  - change (d3.(bank) = []). congruence.
  - change (flag RXOUTI d3 = false). congruence.
  - intros n _. rewrite Hh. change (halted d3 n = halted d1 n). by apply near_halted.
  - intros n _. rewrite He. change (enabled d3 n = enabled d1 n). by apply near_enabled.
  - exact (near_power _ _ Hn).
Qed.

Lemma get_configuration_ok q env d :
  pending d -> q.(bmRequestType) = 128 -> cooperates 0 env ->
  exists d' env', USB_Device_GetConfiguration CFGOK q env d = Ok (d', env') /\ near d d' /\
    d'.(answered) = d.(answered) ++ [[d.(USB_Device_ConfigurationNumber)]] /\ flag RXSTPI d' = false /\
    d'.(bank) = [] /\ flag RXOUTI d' = false.
Proof.
  intros Hp Hq Hc. unfold USB_Device_GetConfiguration. rewrite Hq. cbv zeta.
  replace (Write_8 _ _) with (set_bank [d.(USB_Device_ConfigurationNumber)] (on_regs Endpoint_ClearSETUP d)).
  - by apply answer_bytes_ok.
  - unfold Write_8. cbn [bank on_regs set_regs USB_Device_ConfigurationNumber]. by rewrite (pend_bank _ Hp).
Qed.

Lemma write_status v d : d.(bank) = [] -> 0 <= v < 256 -> Write_16_LE v d = set_bank [v; 0] d.
Proof.
  intros Hb Hv. unfold Write_16_LE, Write_8. cbn [bank set_bank]. rewrite Hb.
  rewrite land_255, u8_small, Z.shiftr_div_pow2 by lia. rewrite Z.div_small by (cbn; lia). done.
Qed.

Lemma endpoint_index w : Z.land (u8 w) ENDPOINT_EPNUM_MASK = w mod 16.
Proof.
  unfold ENDPOINT_EPNUM_MASK, u8. rewrite land_15. apply Z.mod_mod_divide. by exists 16.
Qed.

Lemma get_status_ok q env d :
  pending d -> q.(bmRequestType) = 128 \/ q.(bmRequestType) = 130 -> cooperates 0 env ->
  exists d' env', USB_Device_GetStatus CFGOK q env d = Ok (d', env') /\ near d d' /\
    d'.(answered) = d.(answered) ++
      [[if q.(bmRequestType) =? 128
        then Z.b2z d.(USB_Device_CurrentlySelfPowered) + 2 * Z.b2z d.(USB_Device_RemoteWakeupEnabled)
        else Z.b2z (halted d (q.(wIndex) mod 16)); 0]] /\ flag RXSTPI d' = false /\
    d'.(bank) = [] /\ flag RXOUTI d' = false.
Proof.
  intros Hp Hq Hc. unfold USB_Device_GetStatus.
  assert (Hgo : forall v d0, near d d0 -> pending d0 -> d0.(answered) = d.(answered) -> 0 <= v < 256 ->
    exists d' env', Endpoint_ClearStatusStage CFGOK q.(bmRequestType) env
      (ClearIN (Write_16_LE v (on_regs Endpoint_ClearSETUP d0))) = Ok (d', env') /\ near d d' /\
      d'.(answered) = d.(answered) ++ [[v; 0]] /\ flag RXSTPI d' = false /\
      d'.(bank) = [] /\ flag RXOUTI d' = false).
  { intros v d0 Hn0 Hp0 Ha0 Hv. rewrite write_status by (done || apply Hp0).
    destruct (answer_bytes_ok q.(bmRequestType) [v; 0] env d0 Hp0) as (d' & env' & E & Hn & Ha & Hf);
      [by destruct Hq as [-> | ->]|done|].
    exists d', env'. rewrite E, Ha, Ha0. split; [done|]. split; [by transitivity d0|done]. }
  destruct Hq as [Hq|Hq]; rewrite Hq in Hgo |- *.
  - change (128 =? Z.lor REQDIR_DEVICETOHOST REQREC_DEVICE) with true. cbv iota zeta.
    destruct (Hgo (Z.lor (if d.(USB_Device_CurrentlySelfPowered) then FEATURE_SELFPOWERED_ENABLED else 0)
      (if d.(USB_Device_RemoteWakeupEnabled) then FEATURE_REMOTE_WAKEUP_ENABLED else 0)) d)
      as (d' & env' & E & Hn & Ha & Hf); [done|done|done| |].
    { by destruct d.(USB_Device_CurrentlySelfPowered), d.(USB_Device_RemoteWakeupEnabled). }
    exists d', env'. split; [exact E|]. split; [done|]. split; [|done]. rewrite Ha.
    by destruct d.(USB_Device_CurrentlySelfPowered), d.(USB_Device_RemoteWakeupEnabled).
  - change (130 =? Z.lor REQDIR_DEVICETOHOST REQREC_DEVICE) with false.
    change (130 =? Z.lor REQDIR_DEVICETOHOST REQREC_ENDPOINT) with true. cbv iota zeta.
    change (130 =? 128) with false. cbv iota.
    set (idx := Z.land (u8 q.(wIndex)) ENDPOINT_EPNUM_MASK).
    assert (Hidx : idx = q.(wIndex) mod 16) by apply endpoint_index.
    set (d0 := on_regs (Endpoint_SelectEndpoint ENDPOINT_CONTROLEP)
      (on_regs (Endpoint_SelectEndpoint idx) d)).
    assert (Hn0 : near d d0).
    { split; try done. intros r. unfold d0. cbn [regs on_regs set_regs].
      unfold Endpoint_SelectEndpoint. destruct (decide (r = UENUM)) as [->|Hr].
      - rewrite io_set_io_eq. symmetry. exact (pend_selected _ Hp).
      - by rewrite !io_set_io_ne. }
    assert (Hst : Endpoint_IsStalled (on_regs (Endpoint_SelectEndpoint idx) d).(regs) =
      halted d (q.(wIndex) mod 16)).
    { unfold Endpoint_IsStalled, epx, halted. cbn [regs on_regs set_regs].
      assert (Hm := Z.mod_pos_bound q.(wIndex) 16 ltac:(lia)).
      rewrite select_current, bits_bv by (unfold STALLRQ; lia). by rewrite <-Hidx. }
    rewrite Hst. apply Hgo; [done|by apply (pending_near d)|done|].
    destruct (halted _ _); cbn; lia.
Qed.

(** Halting and resuming another endpoint. *)
Definition feature_endpoint (set : bool) (idx : Z) (d : device) : device :=
  let d := on_regs (Endpoint_SelectEndpoint idx) d in
  let d :=
    if Endpoint_IsEnabled d.(regs) then
      if set then on_regs Endpoint_StallTransaction d
      else on_regs (fun s => Endpoint_ResetDataToggle (Endpoint_ResetEndpoint idx
             (Endpoint_ClearStall s))) d
    else d in
  on_regs (Endpoint_SelectEndpoint ENDPOINT_CONTROLEP) d.

Lemma stall_bits c :
  Z.testbit (or_bits c (bv STALLRQ)) STALLRQ = true.
Proof. rewrite testbit_or_bits, bv_bit by (unfold STALLRQ; lia). by rewrite orb_true_r. Qed.

(** What a write to the control register leaves in it. *)
Definition written (v : Z) : Z :=
  clear_bits (if has_bits v (bv STALLRQC) then clear_bits v (bv STALLRQ) else v)
    (Z.lor (bv STALLRQC) (bv RSTDT)).

Lemma resume_bits c :
  Z.testbit (written (or_bits (written (or_bits c (bv STALLRQC))) (bv RSTDT))) STALLRQ = false.
Proof.
  assert (H1 : Z.testbit (written (or_bits c (bv STALLRQC))) STALLRQ = false).
  { unfold written. rewrite (bits_bv _ STALLRQC), testbit_or_bits, bv_bit by (unfold STALLRQC; lia).
    rewrite orb_true_r, !testbit_clear_bits by (unfold STALLRQ; lia). cbn. by rewrite andb_false_r. }
  set (c1 := written (or_bits c (bv STALLRQC))) in *. clearbody c1. unfold written.
  destruct (has_bits _ _); rewrite ?testbit_clear_bits, testbit_or_bits, H1 by (unfold STALLRQ; lia); done.
Qed.

Lemma written_enabled c i :
  i = STALLRQC \/ i = RSTDT -> Z.testbit (written (or_bits c (bv i))) EPEN = Z.testbit c EPEN.
Proof.
  intros Hi. unfold written.
  destruct (has_bits _ _); rewrite ?testbit_clear_bits, testbit_or_bits by (unfold EPEN; lia);
    destruct Hi as [-> | ->]; cbn; by rewrite orb_false_r, ?andb_true_r.
Qed.

(** Registers in which only the halt of endpoint [idx] has changed, to [halt]. *)
Record only_halt (idx : Z) (halt : bool) (s s' : usbregs) : Prop := {
  oh_io : forall r, r <> UENUM -> r <> UERST -> s'.(io) r = s.(io) r;
  oh_ep : forall n r, n <> idx \/ r <> UECONX -> s'.(ep) n r = s.(ep) n r;
  oh_halt : Z.testbit (s'.(ep) idx UECONX) STALLRQ = halt;
  oh_enabled : Z.testbit (s'.(ep) idx UECONX) EPEN = Z.testbit (s.(ep) idx UECONX) EPEN
}.

Lemma stall_only_halt idx s : current s = idx -> only_halt idx true s (Endpoint_StallTransaction s).
Proof.
  intros Hcur. unfold Endpoint_StallTransaction, set_epx, epx. rewrite Hcur. split.
  - done.
  - intros n r Hr. by apply ep_set_ep_ne.
  - rewrite ep_set_ep_eq. apply stall_bits.
  - rewrite ep_set_ep_eq, testbit_or_bits, bv_bit by (unfold EPEN, STALLRQ; lia). by rewrite orb_false_r.
Qed.

Lemma resume_only_halt idx s :
  current s = idx ->
  only_halt idx false s (Endpoint_ResetDataToggle (Endpoint_ResetEndpoint idx (Endpoint_ClearStall s))).
Proof.
  intros Hcur. set (s1 := Endpoint_ClearStall s). set (s2 := Endpoint_ResetEndpoint idx s1).
  assert (H2c : current s2 = idx)
    by (unfold current, s2, Endpoint_ResetEndpoint; by rewrite !io_set_io_ne by done).
  assert (H2e : forall n r, s2.(ep) n r = s1.(ep) n r) by done.
  assert (E2 : (Endpoint_ResetDataToggle s2).(ep) idx UECONX =
    written (or_bits (written (or_bits (s.(ep) idx UECONX) (bv STALLRQC))) (bv RSTDT))).
  { unfold Endpoint_ResetDataToggle, write_UECONX, set_epx. rewrite H2c, ep_set_ep_eq.
    unfold epx. rewrite H2c, H2e. unfold s1, Endpoint_ClearStall, write_UECONX, set_epx, epx.
    by rewrite Hcur, ep_set_ep_eq. }
  split.
  - intros r Hr1 Hr2. change ((set_epx UECONX 0 s2).(io) r = s.(io) r).
    unfold s2, Endpoint_ResetEndpoint. cbn [io set_epx set_ep]. by rewrite !io_set_io_ne by done.
  - intros n r Hr. unfold Endpoint_ResetDataToggle, write_UECONX, set_epx. rewrite H2c.
    rewrite ep_set_ep_ne, H2e by done. unfold s1, Endpoint_ClearStall, write_UECONX, set_epx. rewrite Hcur.
    by apply ep_set_ep_ne.
  - rewrite E2. apply resume_bits.
  - rewrite E2. by rewrite !written_enabled by auto.
Qed.

Lemma feature_endpoint_spec set idx d :
  0 < idx < 16 ->
  let d' := feature_endpoint set idx d in
  selected d' /\ (forall i, flag i d' = flag i d) /\ function_of d' = function_of d /\
  d'.(answered) = d.(answered) /\ d'.(bank) = d.(bank) /\ d'.(called) = d.(called) /\
  (forall n, 0 <= n < 16 -> halted d' n = if (n =? idx) && enabled d n then set else halted d n) /\
  (forall n, enabled d' n = enabled d n) /\
  d'.(USB_Device_CurrentlySelfPowered) = d.(USB_Device_CurrentlySelfPowered) /\
  forall n r, r <> UECONX -> d'.(regs).(ep) n r = d.(regs).(ep) n r.
Proof.
  intros Hi. cbv zeta. unfold feature_endpoint.
  set (s := Endpoint_SelectEndpoint idx d.(regs)). assert (Hcur : current s = idx) by (apply select_current; lia).
  change (on_regs (Endpoint_SelectEndpoint idx) d) with (set_regs s d). change (regs (set_regs s d)) with s.
  assert (Hen : Endpoint_IsEnabled s = enabled d idx).
  { unfold Endpoint_IsEnabled, epx, enabled. by rewrite Hcur, bits_bv. }
  rewrite Hen.
  assert (Hs : exists s1, only_halt idx (if enabled d idx then set else halted d idx) s s1 /\
    (if enabled d idx then
       if set then on_regs Endpoint_StallTransaction (set_regs s d)
       else on_regs (fun s => Endpoint_ResetDataToggle (Endpoint_ResetEndpoint idx (Endpoint_ClearStall s)))
              (set_regs s d)
     else set_regs s d) = set_regs s1 d).
  { destruct (enabled d idx); [destruct set|]; eexists; (split; [|reflexivity]);
      [by apply stall_only_halt|by apply resume_only_halt|by split]. }
  destruct Hs as (s1 & [Hio1 Hep1 Hb1 He1] & E). rewrite E. split_and!; try done.
  - intros i. unfold flag. cbn. rewrite Hep1; [done|]. left. lia.
  - unfold function_of. cbn [regs on_regs set_regs USB_DeviceState USB_Device_ConfigurationNumber
      USB_Device_RemoteWakeupEnabled]. unfold Endpoint_SelectEndpoint.
    rewrite io_set_io_ne, Hio1 by done. unfold s, Endpoint_SelectEndpoint. by rewrite io_set_io_ne by done.
  - intros n Hn. unfold halted. cbn. destruct (Z.eqb_spec n idx) as [->|Hne]; cbn [andb]; [exact Hb1|].
    by rewrite Hep1 by auto.
  - intros n. unfold enabled. cbn. destruct (Z.eq_dec n idx) as [->|Hne]; [done|by rewrite Hep1 by auto].
  - intros n r Hr. cbn. by rewrite Hep1 by auto.
Qed.

Lemma pending_feature set idx d : 0 < idx < 16 -> pending d -> pending (feature_endpoint set idx d).
Proof.
  intros Hi [Hs Hu Hp Hout Hb Hw].
  destruct (feature_endpoint_spec set idx d Hi) as (Hs' & Hf & Hfn & _ & Hb' & _ & _ & Hen & _ & Hr).
  assert (E : (feature_endpoint set idx d).(USB_DeviceState) = d.(USB_DeviceState))
    by exact (f_equal fn_state Hfn).
  split; [done|by rewrite E|by rewrite E|by rewrite Hf|by rewrite Hb'|].
  apply (well_set_ep d.(regs)); [intros n r Hr' _; by apply Hr| |done].
  intros n _ E'. exact (eq_trans (eq_sym (Hen n)) E').
Qed.

Lemma clear_set_feature_device q env d :
  pending d -> q.(bmRequestType) = 0 -> q.(wValue) mod 256 = 1 -> cooperates 1 env ->
  (forall n, halt_after q (view_of d) n = halted d n) ->
  (forall n, enabled_after q (view_of d) n = enabled d n) ->
  exists d' env', USB_Device_ClearSetFeature CFGOK q env d = Ok (d', env') /\
    served q d d' (mk_fn d.(USB_DeviceState) (d.(regs).(io) UDADDR) d.(USB_Device_ConfigurationNumber)
      (q.(bRequest) =? REQ_SetFeature)) [[]].
Proof.
  intros Hp Hq Hv Hc Hh He. unfold USB_Device_ClearSetFeature. rewrite Hq.
  change (Z.land 0 CONTROL_REQTYPE_RECIPIENT) with 0. change (0 =? REQREC_DEVICE) with true. cbv iota zeta.
  unfold u8. rewrite Hv. change (1 =? FEATURE_SEL_DeviceRemoteWakeup) with true. cbv iota.
  set (d0 := on_regs (Endpoint_SelectEndpoint ENDPOINT_CONTROLEP) (set_RemoteWakeupEnabled _ d)).
  assert (Hp0 : pending d0) by (destruct Hp as [????? Hw]; split; try done; by apply (well_set_ep d.(regs))).
  destruct (acknowledge_ok 0 0 env d0 Hp0 eq_refl Hc) as (d1 & env1 & -> & Hn & Ha & Hst & Hout & _ & _ & Hb).
  exists d1, env1. split; [done|]. apply (served_end q d d0 d1); try done; intros n _; by rewrite ?Hh, ?He.
Qed.

Lemma clear_set_feature_endpoint q env d :
  pending d -> q.(bmRequestType) = 2 -> q.(bRequest) = 1 \/ q.(bRequest) = 3 ->
  (q.(wValue) mod 256 =? 0) && (q.(wIndex) mod 16 =? 0) = false -> cooperates 1 env ->
  (forall n, enabled_after q (view_of d) n = enabled d n) ->
  exists d' env', USB_Device_ClearSetFeature CFGOK q env d = Ok (d', env') /\
    served q d d' (function_of d) [[]].
Proof.
  intros Hp Hq Hr Hv Hc He. unfold USB_Device_ClearSetFeature. rewrite Hq.
  change (Z.land 2 CONTROL_REQTYPE_RECIPIENT) with 2. change (2 =? REQREC_DEVICE) with false.
  change (2 =? REQREC_ENDPOINT) with true. cbv iota zeta. unfold u8 at 1.
  assert (Hm := Z.mod_pos_bound q.(wIndex) 16 ltac:(lia)).
  assert (Hfin : forall d0, pending d0 -> function_of d0 = function_of d -> d0.(answered) = d.(answered) ->
    (forall n, 0 <= n < 16 -> halted d0 n = halt_after q (view_of d) n) ->
    (forall n, enabled d0 n = enabled d n) ->
    d0.(USB_Device_CurrentlySelfPowered) = d.(USB_Device_CurrentlySelfPowered) ->
    exists d' env', Endpoint_ClearStatusStage CFGOK 2 env (on_regs Endpoint_ClearSETUP d0) = Ok (d', env') /\
      served q d d' (function_of d) [[]]).
  { intros d0 Hp0 Hf0 Ha0 Hh0 He0 Hs0.
    destruct (acknowledge_ok 0 2 env d0 Hp0 eq_refl Hc) as (d1 & env1 & -> & Hn & Ha & Hst & Hout & _ & _ & Hb).
    exists d1, env1. split; [done|]. apply (served_end q d d0 d1); try done; [congruence|].
    intros n _. by rewrite He0, He. }
  change (q.(wValue) mod 256 =? FEATURE_SEL_EndpointHalt) with (q.(wValue) mod 256 =? 0).
  destruct (q.(wValue) mod 256 =? 0) eqn:Hz; cbn [andb] in Hv.
  - rewrite endpoint_index. change (_ =? ENDPOINT_CONTROLEP) with (q.(wIndex) mod 16 =? 0). rewrite Hv.
    assert (Hi : 0 < q.(wIndex) mod 16 < 16) by lia.
    destruct (feature_endpoint_spec (q.(bRequest) =? REQ_SetFeature) _ d Hi)
      as (_ & _ & Hfn & Ha & _ & _ & Hh & Hen & Hsp & _).
    apply (Hfin (feature_endpoint (q.(bRequest) =? REQ_SetFeature) (q.(wIndex) mod 16) d));
      [by apply pending_feature|done|done| |done|done].
    intros n Hn. rewrite (Hh n Hn). unfold halt_after. rewrite Hq, Hz, Hv.
    replace ((q.(bRequest) =? REQ_ClearFeature) || (q.(bRequest) =? REQ_SetFeature)) with true
      by (destruct Hr as [-> | ->]; done).
    done.
  - apply (Hfin (on_regs (Endpoint_SelectEndpoint ENDPOINT_CONTROLEP) d)); try done.
    + destruct Hp as [????? Hw]. split; try done. by apply (well_set_ep d.(regs)).
    + intros n _. unfold halt_after. rewrite Hz. by rewrite !andb_false_r.
Qed.

Hypothesis Hcfg : forall n, 1 <= n < 7 -> CFGOK n 50 = true.

Lemma midi_well_set s s' :
  well_set s -> MIDI_Device_ConfigureEndpoints CFGOK s = Ok (true, s') ->
  well_set s' /\ forall n, 0 <= n < 16 -> Z.testbit (s'.(ep) n UECONX) EPEN =
    (n =? 1) || (n =? 2) || Z.testbit (s.(ep) n UECONX) EPEN.
Proof.
  intros [Hacc H1 Hu Hm He] E.
  destruct (midi_endpoints_ok CFGOK s Hcfg Hacc)
    as (s1 & E1 & _ & (Ha0 & Ha1 & Ha2) & (Hb0 & Hb1 & Hb2) & Hacc1 & _ & _ & Hint & _ & _ & Hk).
  rewrite E1 in E. injection E as <-. rewrite bits_bv in Ha2, Hb2 by (unfold EPEN; lia).
  assert (Hkeep : forall n r, n <> 1 -> n <> 2 -> s1.(ep) n r = s.(ep) n r).
  { intros n r Hn1 Hn2. apply Hk; [done|done|].
    destruct (Z_le_gt_dec n 0); [by left|right]. apply Hu. lia. }
  split.
  - split; [done|by rewrite Hint| | |].
    + intros n Hn. rewrite Hkeep by lia. by apply Hu.
    + intros n [-> | ->] _; [by rewrite Ha0, Ha1|by rewrite Hb0, Hb1].
    + intros n Hn. destruct (Z.eq_dec n 1) as [->|Hn1]; [by rewrite Ha1|].
      destruct (Z.eq_dec n 2) as [->|Hn2]; [by rewrite Hb1|]. rewrite !Hkeep by done. by apply He.
  - intros n Hn. destruct (Z.eqb_spec n 1) as [->|Hn1]; [done|].
    destruct (Z.eqb_spec n 2) as [->|Hn2]; [done|]. by rewrite Hkeep.
Qed.

Lemma set_configuration_ok q env d :
  pending d -> q.(bRequest) = REQ_SetConfiguration -> q.(bmRequestType) = 0 ->
  q.(wValue) mod 256 <= 1 -> cooperates 1 env ->
  exists d' env', USB_Device_SetConfiguration CFGOK q env d = Ok (d', env') /\
    served q d d' (mk_fn (if negb (q.(wValue) mod 256 =? 0) || Z.testbit (d.(regs).(io) UDADDR) ADDEN
                          then DEVICE_STATE_Configured else DEVICE_STATE_Powered)
      (d.(regs).(io) UDADDR) (q.(wValue) mod 256) d.(USB_Device_RemoteWakeupEnabled)) [[]] /\
    d'.(called) = d.(called) ++ [EVENT_ConfigurationChanged true] /\
    has_config d'.(regs) 1 128 50 /\ has_config d'.(regs) 2 129 50.
Proof.
  intros Hp Hr Hq Hv Hc. unfold USB_Device_SetConfiguration. rewrite Hq.
  unfold u8, FIXED_NUM_CONFIGURATIONS. replace (1 <? q.(wValue) mod 256) with false by lia. cbv zeta.
  change (set_ConfigurationNumber ?v (on_regs ?f d)) with (on_regs f (set_ConfigurationNumber v d)).
  set (d0 := set_ConfigurationNumber (q.(wValue) mod 256) d).
  assert (Hp0 : pending d0) by (destruct Hp; by split).
  destruct (acknowledge_ok 0 0 env d0 Hp0 eq_refl Hc) as (d1 & env1 & -> & Hn & Ha & Hst & Hout & _ & _ & Hb).
  rewrite bind_Ok. rewrite (near_conf _ _ Hn). unfold configuration_changed.
  assert (Hw1 : well_set d1.(regs)) by (apply (well_set_near d0), Hp0; done).
  change (regs (set_USB_DeviceState ?st d1)) with d1.(regs).
  destruct (midi_endpoints_ok CFGOK d1.(regs) Hcfg (ws_accepted _ Hw1))
    as (s & E & Hio & Hc1 & Hc2 & _ & _ & _ & Hint & Hbits & Hcur & _).
  destruct (midi_well_set _ _ Hw1 E) as [Hws Hen].
  rewrite E, !bind_Ok. eexists _, env1. split; [reflexivity|].
  split; [|split; [cbn; by rewrite (near_called _ _ Hn)|by split]].
  unfold served, flag, halted, enabled. cbn [regs set_regs raise set_called USB_DeviceState set_USB_DeviceState
    answered bank USB_Device_CurrentlySelfPowered]. split_and!; [|done| | | | |exact (near_power _ _ Hn)|done| |done].
  - unfold function_of. cbn [regs set_regs raise set_called USB_DeviceState set_USB_DeviceState
      USB_Device_ConfigurationNumber USB_Device_RemoteWakeupEnabled].
    rewrite (near_conf _ _ Hn), (near_wakeup _ _ Hn), Hio, (near_io _ _ Hn) by done.
    unfold USB_Device_IsAddressSet. rewrite bits_bv, (near_io _ _ Hn) by (unfold ADDEN; lia).
    cbn [USB_Device_ConfigurationNumber d0 set_ConfigurationNumber regs USB_Device_RemoteWakeupEnabled].
    by destruct (q.(wValue) mod 256 =? 0).
  - rewrite Hint. exact Hst.
  - unfold Endpoint_IsSETUPReceived, epx. rewrite Hcur, Hint, bits_bv by (unfold RXSTPI; lia). apply Hw1.
  - intros n _. rewrite Hbits by (unfold STALLRQ; lia). rewrite halt_after_other by (by rewrite Hr).
    exact (near_halted _ _ n Hn).
  - intros n Hn'. rewrite Hen by done. unfold enabled_after. rewrite Hr, Hq.
    replace (q.(wValue) mod 256 <=? 1) with true by lia.
    change (REQ_SetConfiguration =? REQ_SetConfiguration) with true. cbn [andb Z.eqb]. f_equal.
    exact (near_enabled _ _ n Hn).
  - rewrite Hint. exact Hout.
Qed.

Lemma requested_short sig v Size object :
  requested sig v = Some (Size, object) -> Size <= 255.
Proof.
  unfold requested. destruct (v =? 988); [intros [= <- _]; lia|].
  unfold CALLBACK_USB_GetDescriptor.
  repeat match goal with |- context [if ?c then _ else _] => destruct c end;
    intros [= <- _]; vm_compute; discriminate.
Qed.

Lemma get_descriptor_ok sig q env d :
  pending d -> 0 <= q.(wLength) -> cooperates 4 env ->
  match requested sig q.(wValue) with
  | Some (Size, object) =>
      exists d' env', GetDescriptor CFGOK sig q env d = Ok (d', env') /\ near d d' /\
        d'.(answered) = d.(answered) ++
          packets_of (take (Z.to_nat (q.(wLength) `min` Size)) object) false /\
        flag RXSTPI d' = false /\ d'.(bank) = [] /\ flag RXOUTI d' = false
  | None => GetDescriptor CFGOK sig q env d = Ok (d, env)
  end.
Proof.
  intros Hp Hl Hc. assert (Hs := requested_size sig q.(wValue)). assert (Hk := requested_short sig q.(wValue)).
  assert (Hz := get_descriptor_size q.(wValue)).
  assert (Hgo : forall Size object, 0 < Size <= Z.of_nat (length object) -> Size <= 255 ->
    exists d' env', answer_descriptor CFGOK q object Size env d = Ok (d', env') /\ near d d' /\
        d'.(answered) = d.(answered) ++
          packets_of (take (Z.to_nat (q.(wLength) `min` Size)) object) false /\
        flag RXSTPI d' = false /\ d'.(bank) = [] /\ flag RXOUTI d' = false).
  { intros Size object H1 H2.
    destruct (answer_ok q object Size env d) as (d' & env' & E & Hn & Ha & Hst & Ho & Hb);
      [apply Hp..|done|done| |by exists d', env'].
    apply (cooperates_le _ 4); [|done]. unfold packet_count.
    destruct (_ || _); [|lia].
    assert (Z.to_nat (q.(wLength) `min` Size) / 64 <= 255 / 64)%nat by (apply Nat.Div0.div_le_mono; lia).
    change (255 / 64)%nat with 3%nat in *. lia. }
  unfold GetDescriptor. change (Z.lor (Z.shiftl DTYPE_String 8) USE_INTERNAL_SERIAL) with 988.
  unfold requested in *. destruct (q.(wValue) =? 988).
  - apply Hgo; [by apply Hs|by apply (Hk _ _ eq_refl)].
  - destruct (CALLBACK_USB_GetDescriptor q.(wValue)) as [Size [object|]].
    + unfold NO_DESCRIPTOR. specialize (Hs _ _ eq_refl). replace (Size =? 0) with false by lia.
      apply Hgo; [done|by apply (Hk _ _ eq_refl)].
    + destruct Hz as [_ ->]. done.
Qed.

(** ** The standard requests against [serve] *)

Ltac unfold_requests :=
  change (Z.lor REQDIR_DEVICETOHOST REQREC_DEVICE) with 128;
  change (Z.lor REQDIR_DEVICETOHOST REQREC_INTERFACE) with 129;
  change (Z.lor REQDIR_DEVICETOHOST REQREC_ENDPOINT) with 130;
  change REQREC_DEVICE with 0; change REQREC_ENDPOINT with 2;
  unfold REQ_GetStatus, REQ_ClearFeature, REQ_SetFeature, REQ_SetAddress, REQ_GetDescriptor,
    REQ_GetConfiguration, REQ_SetConfiguration; cbn [Z.eqb Pos.eqb andb orb].

(** A request is served, or left to be stalled. *)
Definition request_outcome (sig : Z -> Z) (q : USB_Request_Header_t) (env : list happening) (d : device)
    (r : res (device * list happening)) : Prop :=
  match serve sig q (view_of d) with
  | Some (f, ps) => exists d' env', r = Ok (d', env') /\ served q d d' f ps
  | None => r = Ok (d, env)
  end.

Lemma outcome_near sig q env d ps r :
  serve sig q (view_of d) = Some (function_of d, ps) -> pending d ->
  (exists d' env', r = Ok (d', env') /\ near d d' /\ d'.(answered) = d.(answered) ++ ps /\
     flag RXSTPI d' = false /\ d'.(bank) = [] /\ flag RXOUTI d' = false) ->
  ((q.(bRequest) =? REQ_ClearFeature) || (q.(bRequest) =? REQ_SetFeature)) &&
    (q.(bmRequestType) =? 2) = false ->
  (q.(bRequest) =? REQ_SetConfiguration) = false -> request_outcome sig q env d r.
Proof.
  intros Hs Hp (d' & env' & -> & Hn & Ha & Hf & Hb & Ho) Hh He. unfold request_outcome. rewrite Hs.
  exists d', env'. split; [done|]. apply served_near; try done; intros n;
    [by apply halt_after_other|by apply enabled_after_other].
Qed.

Lemma feature_outcome sig q env d :
  pending d -> q.(bRequest) = 1 \/ q.(bRequest) = 3 -> cooperates 1 env ->
  request_outcome sig q env d
    (if (q.(bmRequestType) =? REQREC_DEVICE) || (q.(bmRequestType) =? REQREC_ENDPOINT)
     then USB_Device_ClearSetFeature CFGOK q env d else Ok (d, env)).
Proof.
  intros Hp Hr Hc. assert (Hb : (q.(bRequest) =? REQ_ClearFeature) || (q.(bRequest) =? REQ_SetFeature) = true)
    by (by destruct Hr as [-> | ->]).
  assert (Hg : (q.(bRequest) =? REQ_GetStatus) = false) by (by destruct Hr as [-> | ->]).
  assert (Ho : forall x, x <> 1 -> x <> 3 -> (q.(bRequest) =? x) = false) by lia.
  unfold request_outcome, serve. rewrite Hb, Hg. cbn [andb].
  rewrite (Ho REQ_SetAddress), (Ho REQ_GetDescriptor), (Ho REQ_GetConfiguration),
    (Ho REQ_SetConfiguration) by done. cbn [andb].
  change REQREC_DEVICE with 0. change REQREC_ENDPOINT with 2.
  destruct (Z.eqb_spec q.(bmRequestType) 0) as [Ht|Ht]; cbn [orb].
  - destruct (Z.eqb_spec (q.(wValue) mod 256) 1) as [Hv|Hv].
    + apply clear_set_feature_device; try done; intros n;
        [apply halt_after_other; by rewrite Ht, andb_false_r|apply enabled_after_other; by apply Ho].
    + unfold USB_Device_ClearSetFeature. rewrite Ht. unfold u8.
      change (_ =? FEATURE_SEL_DeviceRemoteWakeup) with (q.(wValue) mod 256 =? 1).
      by replace (q.(wValue) mod 256 =? 1) with false by lia.
  - destruct (Z.eqb_spec q.(bmRequestType) 2) as [Ht2|Ht2]; [|done].
    destruct ((q.(wValue) mod 256 =? 0) && (q.(wIndex) mod 16 =? 0)) eqn:E.
    + unfold USB_Device_ClearSetFeature. rewrite Ht2, endpoint_index. unfold u8.
      change FEATURE_SEL_EndpointHalt with 0. change ENDPOINT_CONTROLEP with 0.
      apply andb_true_iff in E as [-> ->]. done.
    + apply clear_set_feature_endpoint; try done. intros n. apply enabled_after_other. by apply Ho.
Qed.

Lemma status_outcome sig q env d :
  pending d -> q.(bRequest) = 0 -> cooperates 0 env ->
  request_outcome sig q env d
    (if (q.(bmRequestType) =? 128) || (q.(bmRequestType) =? 130)
     then USB_Device_GetStatus CFGOK q env d else Ok (d, env)).
Proof.
  intros Hp Hr Hc.
  destruct ((q.(bmRequestType) =? 128) || (q.(bmRequestType) =? 130)) eqn:E.
  - assert (Ht : q.(bmRequestType) = 128 \/ q.(bmRequestType) = 130) by lia.
    eapply outcome_near; [|done|by apply get_status_ok|by rewrite Hr|by rewrite Hr].
    unfold serve. rewrite Hr. by destruct Ht as [-> | ->].
  - unfold request_outcome, serve. rewrite Hr. apply orb_false_iff in E as [-> ->]. done.
Qed.

Lemma address_outcome sig q env d :
  pending d -> q.(bRequest) = 5 -> cooperates 2 env ->
  request_outcome sig q env d
    (if q.(bmRequestType) =? 0 then USB_Device_SetAddress CFGOK q env d else Ok (d, env)).
Proof.
  intros Hp Hr Hc. unfold request_outcome, serve. rewrite Hr. unfold_requests.
  destruct (Z.eqb_spec q.(bmRequestType) 0) as [Ht|Ht]; [|done].
  apply set_address_ok; try done; intros n;
    [apply halt_after_other|apply enabled_after_other]; by rewrite Hr.
Qed.

Lemma descriptor_outcome sig q env d :
  pending d -> q.(bRequest) = 6 -> 0 <= q.(wLength) -> cooperates 4 env ->
  request_outcome sig q env d
    (if (q.(bmRequestType) =? 128) || (q.(bmRequestType) =? 129)
     then GetDescriptor CFGOK sig q env d else Ok (d, env)).
Proof.
  intros Hp Hr Hl Hc. assert (Hsv : serve sig q (view_of d) =
    if (q.(bmRequestType) =? 128) || (q.(bmRequestType) =? 129) then
      match requested sig q.(wValue) with
      | Some (Size, object) =>
          Some (function_of d, packets_of (take (Z.to_nat (q.(wLength) `min` Size)) object) false)
      | None => None
      end
    else None) by (unfold serve; rewrite Hr; cbn; by destruct (_ || _)).
  assert (Hd := get_descriptor_ok sig q env d Hp Hl Hc).
  destruct (_ || _); [|unfold request_outcome; by rewrite Hsv].
  destruct (requested sig q.(wValue)) as [[Size object]|].
  - eapply outcome_near; [done|done|done|by rewrite Hr|by rewrite Hr].
  - unfold request_outcome. by rewrite Hsv.
Qed.

Lemma get_configuration_outcome sig q env d :
  pending d -> q.(bRequest) = 8 -> cooperates 0 env ->
  request_outcome sig q env d
    (if q.(bmRequestType) =? 128 then USB_Device_GetConfiguration CFGOK q env d else Ok (d, env)).
Proof.
  intros Hp Hr Hc. destruct (Z.eqb_spec q.(bmRequestType) 128) as [Ht|Ht].
  - eapply outcome_near; [|done|by apply get_configuration_ok|by rewrite Hr|by rewrite Hr].
    unfold serve. by rewrite Hr, Ht.
  - unfold request_outcome, serve. rewrite Hr. unfold_requests.
    by replace (q.(bmRequestType) =? 128) with false by lia.
Qed.

Lemma set_configuration_outcome sig q env d :
  pending d -> q.(bRequest) = 9 -> cooperates 1 env ->
  request_outcome sig q env d
    (if q.(bmRequestType) =? 0 then USB_Device_SetConfiguration CFGOK q env d else Ok (d, env)).
Proof.
  intros Hp Hr Hc. unfold request_outcome, serve. rewrite Hr. unfold_requests.
  destruct (Z.eqb_spec q.(bmRequestType) 0) as [Ht|Ht]; [|done].
  destruct (Z.leb_spec (q.(wValue) mod 256) 1) as [Hv|Hv].
  - destruct (set_configuration_ok q env d) as (d' & env' & E & Hserved & _); [done..|by exists d', env'].
  - unfold USB_Device_SetConfiguration, FIXED_NUM_CONFIGURATIONS, u8.
    by replace (1 <? q.(wValue) mod 256) with true by lia.
Qed.

Lemma standard_request_ok sig q env d :
  pending d -> 0 <= q.(wLength) -> cooperates 4 env ->
  request_outcome sig q env d (standard_request CFGOK sig q env d).
Proof.
  intros Hp Hl Hc. unfold standard_request. cbv zeta. unfold_requests.
  assert (Hcle : forall n, (n <= 4)%nat -> cooperates n env) by (intros n Hn; by apply (cooperates_le n 4)).
  destruct (Z.eqb_spec q.(bRequest) 0) as [Hr|Hr0]; [apply status_outcome; auto with lia|].
  destruct ((q.(bRequest) =? 1) || (q.(bRequest) =? 3)) eqn:Hr1;
    [apply feature_outcome; [done|lia|apply Hcle; lia]|].
  destruct (Z.eqb_spec q.(bRequest) 5) as [Hr|Hr2]; [apply address_outcome; auto with lia|].
  destruct (Z.eqb_spec q.(bRequest) 6) as [Hr|Hr3]; [by apply descriptor_outcome|].
  destruct (Z.eqb_spec q.(bRequest) 8) as [Hr|Hr4]; [apply get_configuration_outcome; auto with lia|].
  destruct (Z.eqb_spec q.(bRequest) 9) as [Hr|Hr5]; [apply set_configuration_outcome; auto with lia|].
  assert (Hn : forall x, x <> q.(bRequest) -> (q.(bRequest) =? x) = false) by lia.
  unfold request_outcome, serve. unfold_requests. by rewrite Hr1, (Hn 0), (Hn 5), (Hn 6), (Hn 8), (Hn 9) by congruence.
Qed.

(** ** A request from its eight bytes *)

Definition request_of (l : list Z) : USB_Request_Header_t :=
  match l with
  | [b0; b1; b2; b3; b4; b5; b6; b7] =>
      mk_request b0 b1 (b2 + 256 * b3) (b4 + 256 * b5) (b6 + 256 * b7)
  | _ => mk_request 0 0 0 0 0
  end.

Lemma read_request_ok l d :
  length l = 8%nat -> d.(received) = l ->
  read_request d = (request_of l, set_received [] d).
Proof.
  intros Hl Hr. do 9 (destruct l as [|? l]; try done). unfold read_request, Read_8.
  rewrite Hr. reflexivity.
Qed.

Lemma request_length l : Forall is_u8 l -> 0 <= (request_of l).(wLength).
Proof.
  intros Hl. do 8 (destruct l as [|? l]; [cbn; lia|]). destruct l; [|cbn; lia].
  cbn [request_of wLength]. decompose_Forall_hyps. unfold is_u8 in *. lia.
Qed.

(** The task has its request: the control endpoint is selected, the request read. *)
Definition ready_for (d : device) : device :=
  raise EVENT_ControlRequest (set_received [] (on_regs (Endpoint_SelectEndpoint ENDPOINT_CONTROLEP) d)).

(** Between two requests. *)
Record idle (d : device) : Prop := {
  idle_attached : d.(USB_DeviceState) <> DEVICE_STATE_Unattached;
  idle_awake : d.(USB_DeviceState) <> DEVICE_STATE_Suspended;
  idle_out : flag RXOUTI d = false;
  idle_bank : d.(bank) = [];
  idle_well : well_set d.(regs);
  idle_current : 0 <= current d.(regs) < 16
}.

(** ** The specification of a request *)

(** The SETUP packet takes back a stall; the device serves the request or stalls. *)
Definition set_halted (n : Z) (b : bool) (v : host_view) : host_view :=
  mk_view v.(v_fn) v.(v_self_powered) (fun m => if m =? n then b else v.(v_halted) m) v.(v_enabled).
Definition spec_request (sig : Z -> Z) (q : USB_Request_Header_t) (v : host_view)
    : host_view * list (list Z) :=
  let v := set_halted 0 false v in
  match serve sig q v with
  | Some (f, ps) => (mk_view f v.(v_self_powered) (halt_after q v) (enabled_after q v), ps)
  | None => (set_halted 0 true v, [])
  end.

(** Views agree on the endpoints that can be addressed. *)
#[export] Instance view_equiv : Equiv host_view := fun v w =>
  v.(v_fn) = w.(v_fn) /\ v.(v_self_powered) = w.(v_self_powered) /\
  (forall n, 0 <= n < 16 -> v.(v_halted) n = w.(v_halted) n) /\
  (forall n, 0 <= n < 16 -> v.(v_enabled) n = w.(v_enabled) n).
#[export] Instance view_equivalence : Equivalence (≡@{host_view}).
Proof.
  split; [by intros v|intros v w (? & ? & Hh & He)|intros u v w (? & ? & Hh & He) (? & ? & Hh' & He')].
  - split_and!; try done; intros n Hn; symmetry; auto.
  - split_and!; try congruence; intros n Hn; [rewrite Hh by done|rewrite He by done]; auto.
Qed.

#[export] Instance serve_proper sig q : Proper ((≡) ==> (=)) (serve sig q).
Proof.
  intros v w (Hf & Hs & Hh & _). unfold serve. rewrite Hf, Hs.
  by rewrite Hh by (apply Z.mod_pos_bound; lia).
Qed.
#[export] Instance set_halted_proper n b : Proper ((≡) ==> (≡)) (set_halted n b).
Proof.
  intros v w (Hf & Hs & Hh & He). split_and!; try done. intros m Hm. cbn. by rewrite Hh.
Qed.

Lemma spec_request_proper sig q v w :
  v ≡ w -> (spec_request sig q v).1 ≡ (spec_request sig q w).1 /\
    (spec_request sig q v).2 = (spec_request sig q w).2.
Proof.
  intros Hvw. assert (Hs : set_halted 0 false v ≡ set_halted 0 false w) by (by rewrite Hvw).
  unfold spec_request. rewrite (serve_proper sig q _ _ Hs).
  destruct (serve sig q (set_halted 0 false w)) as [[f ps]|]; (split; [|done]).
  - destruct Hs as (Hf & Hsp & Hh & He). split_and!; try done; intros n Hn; cbn [fst v_halted v_enabled].
    + unfold halt_after. by rewrite Hh, He.
    + unfold enabled_after. by rewrite He.
  - by rewrite Hs.
Qed.

(** ** A transfer against the specification *)

(** A SETUP packet arrives. *)
Lemma setup_arrives l d :
  idle d ->
  exists d', happen CFGOK (SendsSETUP l) d = Ok d' /\ idle d' /\ flag RXSTPI d' = true /\
    d'.(received) = l /\ d'.(answered) = d.(answered) /\ view_of d' ≡ set_halted 0 false (view_of d).
Proof.
  intros [Hu Hw Ho Hb Hs Hc]. eexists. split; [reflexivity|].
  set (d1 := on_regs (fun s => set_ep 0 UECONX (clear_bits (s.(ep) 0 UECONX) (bv STALLRQ)) s) d).
  assert (Hf1 : forall i, flag i d1 = flag i d) by done.
  assert (Hh1 : forall n, halted d1 n = if n =? 0 then false else halted d n).
  { intros n. unfold halted, d1. cbn [regs on_regs set_regs]. destruct (Z.eqb_spec n 0) as [->|Hne].
    - rewrite ep_set_ep_eq, testbit_clear_bits, bv_bit by (unfold STALLRQ; lia). by rewrite andb_false_r.
    - by rewrite ep_set_ep_ne by auto. }
  assert (He1 : forall n, enabled d1 n = enabled d n).
  { intros n. unfold enabled, d1. cbn [regs on_regs set_regs]. destruct (Z.eqb_spec n 0) as [->|Hne].
    - rewrite ep_set_ep_eq, testbit_clear_bits, bv_bit by (unfold EPEN, STALLRQ; lia). by rewrite andb_true_r.
    - by rewrite ep_set_ep_ne by auto. }
  assert (Hs1 : well_set d1.(regs)).
  { apply (well_set_ep d.(regs)); [intros n r Hr _; apply ep_set_ep_ne; by right| |done].
    intros n _ E'. exact (eq_trans (eq_sym (He1 n)) E'). }
  destruct (or_flag RXSTPI d1 ltac:(unfold RXSTPI; lia)) as [Hn Hf]. clear Hf1.
  set (d2 := on_regs (or_ep0 UEINTX (bv RXSTPI)) d1) in *.
  change (set_received l _) with (set_received l d2).
  assert (Hfl : flag RXOUTI d2 = flag RXOUTI d) by (rewrite Hf by (unfold RXOUTI; lia); by rewrite orb_false_r).
  split; [|split; [|split; [done|split; [done|]]]].
  - split; try done; [by rewrite <-Ho, <-Hfl|exact (well_set_near d1 d2 Hn Hs1)].
  - change (flag RXSTPI d2 = true). rewrite Hf by (unfold RXSTPI; lia). by rewrite orb_true_r.
  - split_and!; [done|done| |]; intros n _; cbn.
    + by rewrite <-Hh1, <-(near_halted _ _ n Hn).
    + by rewrite <-He1, <-(near_enabled _ _ n Hn).
Qed.

Lemma stall_result d :
  pending d -> let d' := on_regs (fun s => Endpoint_StallTransaction (Endpoint_ClearSETUP s)) d in
  flag RXSTPI d' = false /\ flag RXOUTI d' = false /\ d'.(answered) = d.(answered) /\ d'.(bank) = [] /\
  well_set d'.(regs) /\ view_of d' ≡ set_halted 0 true (view_of d).
Proof.
  intros [Hs _ _ Ho Hb Hw]. destruct (clear_setup d Hs) as (Hn & Hst & Hout & _).
  change (on_regs _ d) with (on_regs Endpoint_StallTransaction (on_regs Endpoint_ClearSETUP d)).
  set (d1 := on_regs Endpoint_ClearSETUP d) in *.
  assert (Hs1 : current d1.(regs) = 0) by (by apply (near_selected d)).
  assert (E : on_regs Endpoint_StallTransaction d1 =
    set_regs (set_ep 0 UECONX (or_bits (d1.(regs).(ep) 0 UECONX) (bv STALLRQ)) d1.(regs)) d1).
  { unfold on_regs, Endpoint_StallTransaction, set_epx, epx. by rewrite Hs1. }
  cbv zeta. rewrite E. set (d2 := set_regs _ d1).
  assert (Hf : forall i, flag i d2 = flag i d1) by done.
  split_and!; rewrite ?Hf; try done; [congruence| |].
  - apply (well_set_ep d1.(regs)); [intros n r Hr _; apply ep_set_ep_ne; by right| |by apply (well_set_near d)].
    intros n Hn0. unfold d2. cbn [regs set_regs]. rewrite ep_set_ep_ne; [done|]. left. lia.
  - split_and!; [exact (near_function _ _ Hn)|exact (near_power _ _ Hn)| |]; intros n _; cbn.
    + unfold halted, d2. cbn [regs set_regs]. destruct (Z.eqb_spec n 0) as [->|Hne].
      * rewrite ep_set_ep_eq. apply stall_bits.
      * rewrite ep_set_ep_ne by auto. exact (near_halted _ _ n Hn).
    + transitivity (enabled d1 n); [|exact (near_enabled _ _ n Hn)].
      unfold enabled, d2. cbn [regs set_regs]. destruct (Z.eqb_spec n 0) as [->|Hne].
      * rewrite ep_set_ep_eq, testbit_or_bits, bv_bit by (unfold EPEN, STALLRQ; lia). by rewrite orb_false_r.
      * by rewrite ep_set_ep_ne by auto.
Qed.

(** The states a request can lead to. *)
Lemma serve_state sig q v f ps :
  serve sig q v = Some (f, ps) -> v.(v_fn).(fn_state) <> DEVICE_STATE_Unattached ->
  v.(v_fn).(fn_state) <> DEVICE_STATE_Suspended ->
  f.(fn_state) <> DEVICE_STATE_Unattached /\ f.(fn_state) <> DEVICE_STATE_Suspended.
Proof.
  unfold serve. intros E Hu Hs.
  repeat match type of E with
    | (if ?c then _ else _) = _ => destruct c
    | match ?o with _ => _ end = _ => destruct o as [[]|]
    end; try discriminate E; injection E as <- _; cbn [fn_state]; try done;
    by repeat case_match.
Qed.

Lemma process_request_ok sig l env d :
  idle d -> flag RXSTPI d = true -> d.(received) = l -> length l = 8%nat -> Forall is_u8 l ->
  cooperates 4 env ->
  exists d' env', USB_Device_ProcessControlRequest CFGOK sig env
      (on_regs (Endpoint_SelectEndpoint ENDPOINT_CONTROLEP) d) = Ok (d', env') /\
    flag RXSTPI d' = false /\ flag RXOUTI d' = false /\ d'.(bank) = [] /\ well_set d'.(regs) /\
    match serve sig (request_of l) (view_of d) with
    | Some (f, ps) =>
        d'.(answered) = d.(answered) ++ ps /\
        view_of d' ≡ mk_view f d.(USB_Device_CurrentlySelfPowered)
          (halt_after (request_of l) (view_of d)) (enabled_after (request_of l) (view_of d))
    | None => d'.(answered) = d.(answered) /\ view_of d' ≡ set_halted 0 true (view_of d)
    end.
Proof.
  intros [Hu Hw Ho Hb Hs Hcur] Hst Hrec Hl H8 Hc. unfold USB_Device_ProcessControlRequest.
  rewrite (read_request_ok l) by done.
  change (raise EVENT_ControlRequest (set_received [] (on_regs (Endpoint_SelectEndpoint ENDPOINT_CONTROLEP) d)))
    with (ready_for d). cbv zeta.
  assert (Hp : pending (ready_for d)) by (split; try done; by apply (well_set_ep d.(regs))).
  rewrite setup_received_flag by done. change (flag RXSTPI (ready_for d)) with (flag RXSTPI d). rewrite Hst.
  assert (Hq := standard_request_ok sig (request_of l) env (ready_for d) Hp (request_length l H8) Hc).
  unfold request_outcome in Hq. change (view_of (ready_for d)) with (view_of d) in Hq.
  destruct (serve sig (request_of l) (view_of d)) as [[f ps]|].
  - destruct Hq as (d' & env' & -> & Hf & Ha & Hst' & Hset & Hh & He & Hsp & Hb' & Ho' & Hw').
    rewrite bind_Ok, Hset. exists d', env'. split_and!; done.
  - rewrite Hq, bind_Ok, setup_received_flag by done.
    change (flag RXSTPI (ready_for d)) with (flag RXSTPI d). rewrite Hst.
    destruct (stall_result (ready_for d) Hp) as (H1' & H2' & H3' & H4' & H5' & H6').
    eexists _, env. split; [reflexivity|]. split_and!; done.
Qed.

Lemma restore_current d s :
  0 <= current d.(regs) < 16 ->
  current (Endpoint_SelectEndpoint (Endpoint_GetCurrentEndpoint d.(regs)) s) = current d.(regs).
Proof.
  intros Hcur. unfold Endpoint_GetCurrentEndpoint, Endpoint_SelectEndpoint, current in *.
  rewrite io_set_io_eq. unfold ENDPOINT_EPNUM_MASK. rewrite Z.land_lor_distr_l.
  replace (Z.land (Endpoint_GetEndpointDirection _) 15) with 0
    by (unfold Endpoint_GetEndpointDirection; by destruct (has_bits _ _)).
  rewrite Z.lor_0_r, !land_15, Z.mod_mod by lia. by apply Z.mod_small.
Qed.

(** A control transfer: the host's SETUP packet, then the device task. *)
Definition control_transfer (sig : Z -> Z) (l : list Z) (env : list happening) (d : device) : res device :=
  d ← happen CFGOK (SendsSETUP l) d;
  '(d, _) ← USB_DeviceTask CFGOK sig env d;
  Ok d.

Definition well_formed_transfer (t : list Z * list happening) : Prop :=
  length t.1 = 8%nat /\ Forall is_u8 t.1 /\ cooperates 4 t.2.

Lemma transfer_ok sig l env d :
  idle d -> well_formed_transfer (l, env) ->
  exists d', control_transfer sig l env d = Ok d' /\ idle d' /\ flag RXSTPI d' = false /\
    current d'.(regs) = current d.(regs) /\
    view_of d' ≡ (spec_request sig (request_of l) (view_of d)).1 /\
    d'.(answered) = d.(answered) ++ (spec_request sig (request_of l) (view_of d)).2.
Proof.
  intros Hi (Hl & H8 & Hc). cbn [fst snd] in *.
  destruct (setup_arrives l d Hi) as (d1 & E1 & Hi1 & Hst & Hrec & Ha1 & Hv1).
  assert (Hcur1 : current d1.(regs) = current d.(regs)) by (injection E1 as <-; done).
  unfold control_transfer. rewrite E1, bind_Ok. clear E1. destruct Hi1 as [Hu Hw Ho Hb Hs Hcur].
  unfold USB_DeviceTask, in_state. rewrite bool_decide_eq_false_2 by done. cbv zeta.
  rewrite setup_received_flag by done.
  change (flag RXSTPI (on_regs (Endpoint_SelectEndpoint ENDPOINT_CONTROLEP) d1)) with (flag RXSTPI d1).
  rewrite Hst.
  destruct (process_request_ok sig l env d1) as (d2 & env2 & -> & Hst2 & Ho2 & Hb2 & Hs2 & Hres);
    [by split|done|done|done|done|done|].
  rewrite !bind_Ok. set (d3 := on_regs (Endpoint_SelectEndpoint _) d2).
  exists d3. split; [done|]. rewrite <-Hcur1. assert (Hc3 := restore_current d1 d2.(regs) Hcur).
  assert (Hsp := serve_proper sig (request_of l) _ _ Hv1). unfold spec_request. cbv zeta. rewrite <-Hsp.
  assert (Hstate := serve_state sig (request_of l) (view_of d1)).
  assert (Hidle : d2.(USB_DeviceState) <> DEVICE_STATE_Unattached ->
    d2.(USB_DeviceState) <> DEVICE_STATE_Suspended -> idle d3).
  { intros H1 H2. split; try done; [by apply (well_set_ep d2.(regs))|].
    change (0 <= current (Endpoint_SelectEndpoint (Endpoint_GetCurrentEndpoint d1.(regs)) d2.(regs)) < 16).
    by rewrite Hc3. }
  destruct (serve sig (request_of l) (view_of d1)) as [[f ps]|]; destruct Hres as [Ha2 Hv2].
  - assert (Hf : function_of d2 = f) by apply Hv2.
    destruct (Hstate f ps eq_refl Hu Hw) as [Hu2 Hw2]. subst f.
    split; [by apply Hidle|]. split; [done|]. split; [done|]. split; [|by rewrite <-Ha1].
    change (view_of d2 ≡ mk_view (function_of d2) d.(USB_Device_CurrentlySelfPowered)
      (halt_after (request_of l) (set_halted 0 false (view_of d)))
      (enabled_after (request_of l) (set_halted 0 false (view_of d)))).
    rewrite Hv2. destruct Hv1 as (_ & Hp1 & Hh1 & He1). split_and!; [done|done| |]; intros n Hn.
    + cbn [v_halted]. unfold halt_after. by rewrite Hh1, He1.
    + cbn [v_enabled]. unfold enabled_after. by rewrite He1.
  - assert (Hf : function_of d2 = function_of d1) by apply Hv2.
    assert (E : d2.(USB_DeviceState) = d1.(USB_DeviceState)) by exact (f_equal fn_state Hf).
    split; [by apply Hidle; rewrite E|]. split; [done|]. split; [done|].
    split; [|cbn [snd]; rewrite app_nil_r; by rewrite <-Ha1].
    change (view_of d2 ≡ set_halted 0 true (set_halted 0 false (view_of d))). by rewrite Hv2, Hv1.
Qed.

(** ** Sessions *)

Fixpoint session (sig : Z -> Z) (ts : list (list Z * list happening)) (d : device) : res device :=
  match ts with
  | [] => Ok d
  | (l, env) :: ts => d ← control_transfer sig l env d; session sig ts d
  end.

Fixpoint spec_session (sig : Z -> Z) (qs : list USB_Request_Header_t) (v : host_view)
    : host_view * list (list Z) :=
  match qs with
  | [] => (v, [])
  | q :: qs =>
      let '(v, ps) := spec_request sig q v in
      let '(v, ps') := spec_session sig qs v in (v, ps ++ ps')
  end.

Lemma spec_session_proper sig qs : forall v w,
  v ≡ w -> (spec_session sig qs v).1 ≡ (spec_session sig qs w).1 /\
    (spec_session sig qs v).2 = (spec_session sig qs w).2.
Proof.
  induction qs as [|q qs IH]; intros v w Hvw; [by split|]. cbn [spec_session].
  destruct (spec_request_proper sig q v w Hvw) as [H1 H2].
  destruct (spec_request sig q v) as [v1 ps1], (spec_request sig q w) as [w1 qs1]. cbn [fst snd] in *.
  destruct (IH v1 w1 H1) as [H3 H4].
  destruct (spec_session sig qs v1), (spec_session sig qs w1). cbn [fst snd] in *. by subst.
Qed.

Lemma session_ok sig ts : forall d,
  idle d -> Forall well_formed_transfer ts ->
  exists d', session sig ts d = Ok d' /\ idle d' /\ current d'.(regs) = current d.(regs) /\
    view_of d' ≡ (spec_session sig (map (fun t => request_of t.1) ts) (view_of d)).1 /\
    d'.(answered) = d.(answered) ++ (spec_session sig (map (fun t => request_of t.1) ts) (view_of d)).2.
Proof.
  induction ts as [|[l env] ts IH]; intros d Hi Ht.
  { exists d. cbn. rewrite app_nil_r. by split_and!. }
  apply Forall_cons_1 in Ht as [Ht Hts]. cbn [session map spec_session fst].
  destruct (transfer_ok sig l env d Hi Ht) as (d1 & -> & Hi1 & _ & Hc1 & Hv1 & Ha1). rewrite bind_Ok.
  destruct (IH d1 Hi1 Hts) as (d2 & -> & Hi2 & Hc2 & Hv2 & Ha2). exists d2.
  destruct (spec_request sig (request_of l) (view_of d)) as [v1 ps1]. cbn [fst snd] in *.
  destruct (spec_session_proper sig (map (fun t => request_of t.1) ts) _ _ Hv1) as [H3 H4].
  rewrite H4 in Ha2. rewrite H3 in Hv2.
  destruct (spec_session sig (map (fun t => request_of t.1) ts) v1) as [v2 ps2]. cbn [fst snd] in *.
  split; [done|]. split; [done|]. split; [congruence|]. split; [done|].
  by rewrite Ha2, Ha1, app_assoc.
Qed.

(** ** The controller's interrupts *)

Hypothesis Hcfg0 : CFGOK 0 50 = true.

Lemma configure_control_ok d :
  well_set d.(regs) ->
  exists s, configure_control_endpoint CFGOK d = Ok (set_regs s d) /\ same_io d.(regs) s /\
    current s = 0 /\ well_set s /\ (forall n, s.(ep) n UEINTX = d.(regs).(ep) n UEINTX) /\
    has_config s 0 0 50 /\ (forall n, halted (set_regs s d) n = halted d n) /\
    forall n r, n <> 0 -> has_bits (d.(regs).(ep) n UECFG1X) (bv ALLOC) = false ->
      s.(ep) n r = d.(regs).(ep) n r.
Proof.
  intros [Hacc H1 Hu Hm He]. unfold configure_control_endpoint.
  change (Endpoint_ConfigureEndpoint CFGOK ENDPOINT_CONTROLEP _ _ _ d.(regs)) with
    (Ok (Endpoint_ConfigureEndpoint_Prv CFGOK 0 0 50 d.(regs))).
  destruct (configure_prv_ok CFGOK 0 0 50 d.(regs))
    as (s & -> & Hcur & Hio & Hc & _ & Hacc' & Hsc & _ & _ & Hint & Hbits & Hk); [lia|done|done|done|].
  rewrite bind_Ok. exists s. split_and!; try done; try apply Hc.
  - assert (Hcf : forall n, n <> 0 -> s.(ep) n UECFG0X = d.(regs).(ep) n UECFG0X /\
      s.(ep) n UECFG1X = d.(regs).(ep) n UECFG1X) by (intros n Hn; by destruct (Hsc n Hn) as (-> & -> & _)).
    split; [done|by rewrite Hint| | |]; intros n Hn; destruct (Hcf n) as [E0 E1]; try lia; rewrite ?E0, ?E1.
    + by apply Hu.
    + by apply Hm.
    + intros Hen. destruct (has_bits (d.(regs).(ep) n UECFG1X) (bv ALLOC)) eqn:Ha; [done|].
      rewrite Hk in Hen by (done || lia). by rewrite He in Ha.
  - intros n. unfold halted. apply Hbits. unfold STALLRQ. lia.
Qed.

Lemma fires_bits i d :
  fires i d = Z.testbit (d.(regs).(io) (int_flag_reg i)) (int_bit i) &&
              Z.testbit (d.(regs).(io) (int_enable_reg i)) (int_bit i).
Proof.
  unfold fires, USB_INT_HasOccurred, USB_INT_IsEnabled. by destruct i; rewrite !bits_bv.
Qed.

(** The interrupts the stack has enabled, and the flags that are set. *)
Definition interrupts (d : device) (con intr dien dint : Z) : Prop :=
  d.(regs).(io) USBCON = con /\ d.(regs).(io) USBINT = intr /\
  d.(regs).(io) UDIEN = dien /\ d.(regs).(io) UDINT = dint.

(** A device that has just been powered. *)
Definition device_at_reset : device :=
  mk_device regs_at_reset DEVICE_STATE_Unattached 0 false false false [] [] [] [].

Lemma reset_well_set : well_set regs_at_reset.
Proof. split; [apply reset_accepted|done..]. Qed.

Lemma init_ok :
  exists d, USB_Init CFGOK device_at_reset = Ok d /\ d.(USB_DeviceState) = DEVICE_STATE_Unattached /\
    d.(called) = [] /\ d.(bank) = [] /\ d.(answered) = [] /\ flag RXOUTI d = false /\
    well_set d.(regs) /\ interrupts d 145 0 9 0 /\ d.(regs).(io) UDADDR = 0 /\
    d.(USB_Device_CurrentlySelfPowered) = false /\ d.(USB_Device_RemoteWakeupEnabled) = false /\
    (forall n, halted d n = false) /\ (forall n, n <> 0 -> enabled d n = false) /\ enabled d 0 = true /\
    forall n, n <> 0 -> has_bits (d.(regs).(ep) n UECFG1X) (bv ALLOC) = false.
Proof.
  unfold USB_Init, USB_ResetInterface, USB_Init_Device. cbv zeta.
  match goal with |- context [configure_control_endpoint CFGOK ?x] => set (d0 := x) end.
  destruct (configure_control_ok d0) as (s & -> & Hio & Hcur & Hw & Hint & (_ & _ & Hen) & Hh & Hk);
    [by apply (well_set_ep regs_at_reset), reset_well_set|].
  assert (Hep0 : forall n r, d0.(regs).(ep) n r = 0) by done.
  rewrite !bind_Ok. eexists. split; [reflexivity|].
  assert (Hr : forall r, r <> UENUM -> s.(io) r = d0.(regs).(io) r) by exact Hio.
  split; [done|]. split; [done|]. split; [done|]. split; [done|].
  split; [unfold flag; cbn; by rewrite Hint|]. split; [by apply (well_set_ep s)|].
  split; [unfold interrupts; cbn; rewrite !Hr by done; by vm_compute|].
  split; [cbn; rewrite !Hr by done; by vm_compute|].
  split; [done|]. split; [done|]. split; [|split; [|split]].
  - intros n. unfold halted in *. cbn [regs on_regs set_regs] in *.
    cbn [ep set_io or_io clear_io USB_OTGPAD_On USB_Attach USB_INT_Enable USB_INT_Clear].
    rewrite (Hh n), Hep0. apply Z.bits_0.
  - intros n Hn. unfold enabled. cbn. by rewrite Hk.
  - unfold enabled. cbn. rewrite bits_bv in Hen by (unfold EPEN; lia). exact Hen.
  - intros n Hn. cbn. by rewrite Hk.
Qed.

(** The bus power comes. *)
Lemma vbus_on_ok d :
  interrupts d 145 0 9 0 ->
  exists s, happen CFGOK (VBusChange true) d =
      Ok (raise EVENT_Connect (set_USB_DeviceState DEVICE_STATE_Powered (set_regs s d))) /\
    s.(ep) = d.(regs).(ep) /\ s.(io) UENUM = d.(regs).(io) UENUM /\
    s.(io) UDADDR = d.(regs).(io) UDADDR /\
    interrupts (set_regs s d) 145 0 9 0.
Proof.
  intros (Hcon & Hint & Hien & Hdint). cbn [happen]. unfold USB_GEN_vect, isr_vbus.
  set (d0 := on_regs (or_io USBINT (bv VBUSTE)) d).
  assert (Hi0 : interrupts d0 145 1 9 0) by (unfold interrupts, d0; cbn; by rewrite Hcon, Hint, Hien, Hdint).
  destruct Hi0 as (Hc0 & Hn0 & He0 & Hd0).
  assert (Hsof : fires USB_INT_SOFI d0 = false) by (by rewrite fires_bits; cbn [int_flag_reg]; rewrite Hd0, Z.bits_0).
  assert (Hvb : fires USB_INT_VBUSTI d0 = true)
    by (rewrite fires_bits; cbn [int_flag_reg int_enable_reg]; by rewrite Hc0, Hn0).
  cbv zeta. rewrite Hsof, Hvb. cbv iota.
  set (s := wait_PLL (USB_PLL_On (USB_INT_Clear USB_INT_VBUSTI d0.(regs)))).
  set (d1 := raise EVENT_Connect _).
  assert (Ed : d1 = raise EVENT_Connect (set_USB_DeviceState DEVICE_STATE_Powered (set_regs s d))) by done.
  assert (Hi1 : interrupts d1 145 0 9 0).
  { unfold interrupts, d1. cbn. rewrite Hcon, Hint, Hien, Hdint. by vm_compute. }
  destruct Hi1 as (Hc1 & Hn1 & He1 & Hd1).
  assert (Hno : forall i, i <> USB_INT_VBUSTI -> fires i d1 = false).
  { intros i Hi. rewrite fires_bits. destruct i; [done|..]; cbn [int_flag_reg]; by rewrite Hd1, Z.bits_0. }
  unfold isr_suspend, isr_wakeup, isr_reset. rewrite !Hno by done.
  exists s. rewrite Ed. split_and!; try done.
Qed.

(** The bus is reset: the controller's part, then the interrupt's. *)
Lemma bus_reset_ep s n r :
  (bus_reset s).(ep) n r =
  if (1 <=? n) && (n <? 7) && bool_decide (r = UECONX) then clear_bits (s.(ep) n UECONX) (bv EPEN) else s.(ep) n r.
Proof.
  unfold bus_reset. cbn [for_pure clear_io set_io ep set_ep]. 
  destruct (decide (r = UECONX)) as [->|Hr].
  - rewrite (bool_decide_eq_true_2 (UECONX = UECONX)), andb_true_r by done.
    destruct ((1 <=? n) && (n <? 7)) eqn:E.
    + assert (Hn : n = 1 \/ n = 2 \/ n = 3 \/ n = 4 \/ n = 5 \/ n = 6) by lia.
      by destruct Hn as [->|[->|[->|[->|[->| ->]]]]].
    + by rewrite !bool_decide_eq_false_2 by lia.
  - rewrite !bool_decide_eq_false_2 by tauto. by rewrite andb_false_r.
Qed.

Lemma bus_reset_ok d :
  well_set d.(regs) -> interrupts d 145 0 9 0 ->
  exists s, happen CFGOK BusReset d =
      Ok (raise EVENT_Reset (set_ConfigurationNumber 0 (set_USB_DeviceState DEVICE_STATE_Default (set_regs s d)))) /\
    well_set s /\ current s = 0 /\ interrupts (set_regs s d) 145 0 24 0 /\
    s.(io) UDADDR = clear_bits (d.(regs).(io) UDADDR) (bv ADDEN) /\
    (forall n, s.(ep) n UEINTX = d.(regs).(ep) n UEINTX) /\
    (forall n, halted (set_regs s d) n = halted d n) /\ has_config s 0 0 50 /\
    forall n, n <> 0 -> has_bits (d.(regs).(ep) n UECFG1X) (bv ALLOC) = false -> enabled d n = false ->
      enabled (set_regs s d) n = false.
Proof.
  intros Hw (Hcon & Hint & Hien & Hdint). cbn [happen].
  set (d0 := on_regs (fun s => or_io UDINT (bv EORSTI) (bus_reset s)) d).
  assert (Hi0 : interrupts d0 145 0 9 8) by (unfold interrupts, d0; cbn; by rewrite Hcon, Hint, Hien, Hdint).
  destruct Hi0 as (Hc0 & Hn0 & He0 & Hd0).
  assert (Hep : forall n r, d0.(regs).(ep) n r = (bus_reset d.(regs)).(ep) n r) by done.
  assert (Hno : forall i, i <> USB_INT_EORSTI -> fires i d0 = false).
  { intros i Hi. rewrite fires_bits. destruct i; cbn [int_flag_reg]; by rewrite ?Hd0, ?Hn0. }
  assert (Hyes : fires USB_INT_EORSTI d0 = true)
    by (rewrite fires_bits; cbn [int_flag_reg int_enable_reg]; by rewrite Hd0, He0).
  unfold USB_GEN_vect, isr_vbus, isr_suspend, isr_wakeup, isr_reset. cbv zeta.
  rewrite !Hno by done. rewrite Hyes. cbv iota.
  match goal with |- context [configure_control_endpoint CFGOK ?x] => set (d1 := x) end.
  destruct (configure_control_ok d1) as (s & -> & Hio & Hcur & Hws & Hin & Hc & Hh & Hk).
  { apply (well_set_ep d.(regs)); change (d1.(regs).(ep)) with (d0.(regs).(ep)); [| |done].
    - intros n r Hr _. by rewrite Hep, bus_reset_ep, (bool_decide_eq_false_2 (r = UECONX)), andb_false_r.
    - intros n _. rewrite Hep, bus_reset_ep. destruct (_ && _); [|done].
      rewrite testbit_clear_bits, bv_bit by (unfold EPEN; lia). by rewrite andb_false_r. }
  assert (Hr : forall r, r <> UENUM -> s.(io) r = d1.(regs).(io) r) by exact Hio.
  rewrite bind_Ok. exists s. split; [done|]. split; [done|]. split; [done|]. split; [|split; [|split; [|split; [|split; [done|]]]]].
  - unfold interrupts. cbn [regs set_regs]. rewrite !Hr by done. unfold d1. cbn.
    rewrite Hcon, Hint, Hien, Hdint. by vm_compute.
  - rewrite Hr by done. done.
  - intros n. rewrite Hin. change (d1.(regs).(ep)) with (d0.(regs).(ep)).
    by rewrite Hep, bus_reset_ep, andb_false_r.
  - intros n. change (halted (set_regs s d) n) with (halted (set_regs s d1) n). rewrite Hh.
    unfold halted. change (d1.(regs).(ep)) with (d0.(regs).(ep)). rewrite Hep, bus_reset_ep.
    destruct ((1 <=? n) && (n <? 7)); [|done]. rewrite (bool_decide_eq_true_2 (UECONX = UECONX)) by done.
    cbn [andb]. rewrite testbit_clear_bits, bv_bit by (unfold STALLRQ, EPEN; lia). by rewrite andb_true_r.
  - intros n Hn Ha He. unfold enabled in *. cbn [regs set_regs].
    rewrite Hk; change (d1.(regs).(ep)) with (d0.(regs).(ep)); [|done|];
      rewrite Hep, bus_reset_ep; [|by rewrite andb_false_r].
    destruct (_ && _); [|done]. rewrite testbit_clear_bits, bv_bit by (unfold EPEN; lia). by rewrite andb_false_r.
Qed.

(** ** Plugging in *)

(** Power-up, the bus power, and the host's reset. *)
Definition plug_in : res device :=
  d ← USB_Init CFGOK device_at_reset;
  d ← happen CFGOK (VBusChange true) d;
  happen CFGOK BusReset d.

Definition default_view : host_view :=
  mk_view (mk_fn DEVICE_STATE_Default 0 0 false) false (fun _ => false) (fun n => n =? 0).

Lemma plug_in_ok :
  exists d, plug_in = Ok d /\ idle d /\ view_of d ≡ default_view /\ d.(answered) = [] /\
    d.(called) = [EVENT_Connect; EVENT_Reset].
Proof.
  unfold plug_in.
  destruct init_ok as (d & -> & Hst & Hca & Hb & Ha & Ho & Hw & Hi & Had & Hsp & Hwk & Hh & He & He0 & Hal).
  rewrite bind_Ok. destruct (vbus_on_ok d Hi) as (s1 & -> & Hep1 & _ & Had1 & Hi1). rewrite bind_Ok.
  set (d1 := raise EVENT_Connect _).
  destruct (bus_reset_ok d1) as (s2 & -> & Hw2 & Hc2 & Hi2 & Had2 & Hint2 & Hh2 & (_ & _ & Hen2) & Hk2);
    [by apply (well_set_ep d.(regs)); change (d1.(regs)) with s1; rewrite ?Hep1|done|].
  eexists. split; [reflexivity|]. split; [|split; [|split]].
  - split; try done; cbn [regs raise set_called set_ConfigurationNumber set_USB_DeviceState set_regs].
    + unfold flag. cbn [regs raise set_called set_ConfigurationNumber set_USB_DeviceState set_regs].
      rewrite Hint2. change (d1.(regs)) with s1. rewrite Hep1. exact Ho.
    + rewrite Hc2. lia.
  - assert (Hhd : forall n, halted d1 n = false) by (intros n; unfold halted; change (d1.(regs)) with s1;
      rewrite Hep1; apply Hh).
    assert (Hed : forall n, n <> 0 -> enabled d1 n = false)
      by (intros n Hn; unfold enabled; change (d1.(regs)) with s1; rewrite Hep1; by apply He).
    split_and!; [|exact Hsp| |].
    + transitivity (mk_fn DEVICE_STATE_Default (s2.(io) UDADDR) 0 d.(USB_Device_RemoteWakeupEnabled)); [done|].
      rewrite Had2. change (d1.(regs)) with s1. by rewrite Had1, Had, Hwk.
    + intros n _. exact (eq_trans (Hh2 n) (Hhd n)).
    + intros n _. cbn. destruct (Z.eqb_spec n 0) as [->|Hn].
      * rewrite bits_bv in Hen2 by (unfold EPEN; lia). exact Hen2.
      * apply Hk2; [done| |by apply Hed]. change (d1.(regs)) with s1. rewrite Hep1. by apply Hal.
  - exact Ha.
  - cbn. by rewrite Hca.
Qed.

(** The host's requests of an enumeration. *)
Definition set_address_packet (a : Z) : list Z := [0; REQ_SetAddress; a; 0; 0; 0; 0; 0].
Definition set_configuration_packet (c : Z) : list Z := [0; REQ_SetConfiguration; c; 0; 0; 0; 0; 0].

(** The device the host ends up with. *)
Definition enumerated_view (a : Z) : host_view :=
  mk_view (mk_fn DEVICE_STATE_Configured (128 + a) 1 false) false (fun _ => false)
    (fun n => (0 <=? n) && (n <=? 2)).

Lemma set_address_formed a env :
  1 <= a < 128 -> cooperates 4 env -> well_formed_transfer (set_address_packet a, env).
Proof.
  clear Hcfg0. intros Ha He. split_and!; [done| |done]. cbn [fst].
  unfold set_address_packet, is_u8, REQ_SetAddress. repeat apply Forall_cons_2; try lia. apply Forall_nil_2.
Qed.
Lemma set_configuration_formed env :
  cooperates 4 env -> well_formed_transfer (set_configuration_packet 1, env).
Proof.
  clear Hcfg0. intros He. split_and!; [done| |done]. cbn [fst].
  unfold set_configuration_packet, is_u8, REQ_SetConfiguration.
  repeat apply Forall_cons_2; try lia. apply Forall_nil_2.
Qed.

Lemma spec_set_address sig a v :
  1 <= a < 128 ->
  let f := v.(v_fn) in let r := spec_request sig (request_of (set_address_packet a)) v in
  r.1 ≡ mk_view (mk_fn DEVICE_STATE_Addressed (128 + a) f.(fn_configuration) f.(fn_wakeup))
          v.(v_self_powered) (fun n => if n =? 0 then false else v.(v_halted) n) v.(v_enabled) /\ r.2 = [[]].
Proof.
  clear Hcfg0. intros Ha. cbv zeta. set (q := request_of _). assert (Hw : q.(wValue) = a) by (cbn; lia).
  assert (Hr : q.(bRequest) = 5 /\ q.(bmRequestType) = 0) by done. destruct Hr as [Hr Ht].
  clearbody q. unfold spec_request, serve. rewrite Hr, Ht, Hw. unfold_requests.
  rewrite (Z.mod_small a 128) by lia. replace (a =? 0) with false by lia.
  split; [|done]. split_and!; [done|done| |]; intros n _; cbn [fst v_halted v_enabled].
  - rewrite halt_after_other by (by rewrite Hr). done.
  - by rewrite enabled_after_other by (by rewrite Hr).
Qed.

Lemma spec_set_configuration sig v :
  let f := v.(v_fn) in let r := spec_request sig (request_of (set_configuration_packet 1)) v in
  r.1 ≡ mk_view (mk_fn DEVICE_STATE_Configured f.(fn_address) 1 f.(fn_wakeup))
          v.(v_self_powered) (fun n => if n =? 0 then false else v.(v_halted) n)
          (fun n => (n =? 1) || (n =? 2) || v.(v_enabled) n) /\ r.2 = [[]].
Proof. split; [|done]. split_and!; done. Qed.

Lemma enumeration_spec sig a v :
  1 <= a < 128 -> v ≡ default_view ->
  let r := spec_session sig [request_of (set_address_packet a); request_of (set_configuration_packet 1)] v in
  r.1 ≡ enumerated_view a /\ r.2 = [[]; []].
Proof.
  clear Hcfg0. intros Ha Hv. cbn [spec_session].
  destruct (spec_set_address sig a v Ha) as [H1 H2].
  destruct (spec_request sig (request_of (set_address_packet a)) v) as [v1 ps1]. cbn [fst snd] in *.
  destruct (spec_set_configuration sig v1) as [H3 H4].
  destruct (spec_request sig (request_of (set_configuration_packet 1)) v1) as [v2 ps2]. cbn [fst snd] in *.
  subst ps1 ps2. split; [|done]. rewrite H3. destruct H1 as (Hf1 & Hs1 & Hh1 & He1), Hv as (Hf & Hs & Hh & He).
  split_and!; cbn [v_fn v_self_powered v_halted v_enabled enumerated_view].
  - rewrite Hf1. cbn [v_fn fn_address fn_wakeup]. by rewrite Hf.
  - by rewrite Hs1.
  - intros n Hn. rewrite Hh1 by done. cbn [v_halted]. rewrite Hh by done. by destruct (n =? 0).
  - intros n Hn. rewrite He1 by done. cbn [v_enabled]. rewrite He by done. cbn [default_view v_enabled]. lia.
Qed.

(** ** Suspension and unplugging *)

Definition wakeup_state (d : device) : usb_state :=
  if negb (d.(USB_Device_ConfigurationNumber) =? 0) then DEVICE_STATE_Configured
  else if Z.testbit (d.(regs).(io) UDADDR) ADDEN then DEVICE_STATE_Addressed else DEVICE_STATE_Powered.

(** The interrupt flags after an event of the device's own register. *)
Lemma fires_device i d con intr dien dint :
  interrupts d con intr dien dint -> i <> USB_INT_VBUSTI ->
  fires i d = Z.testbit dint (int_bit i) && Z.testbit dien (int_bit i).
Proof. intros (Hc & Hn & He & Hd) Hi. rewrite fires_bits. destruct i; [done|..]; cbn; by rewrite He, Hd. Qed.
Lemma fires_vbus d con intr dien dint :
  interrupts d con intr dien dint ->
  fires USB_INT_VBUSTI d = Z.testbit intr 0 && Z.testbit con 0.
Proof. intros (Hc & Hn & He & Hd). rewrite fires_bits. cbn. by rewrite Hc, Hn. Qed.

Lemma suspend_ok d :
  interrupts d 145 0 9 0 ->
  exists s, happen CFGOK BusSuspend d =
      Ok (raise EVENT_Suspend (set_USB_DeviceState DEVICE_STATE_Suspended (set_regs s d))) /\
    s.(ep) = d.(regs).(ep) /\ interrupts (set_regs s d) 177 0 24 1 /\ s.(io) PLLCSR = 0 /\
    forall r, r <> USBCON -> r <> UDIEN -> r <> UDINT -> r <> PLLCSR -> s.(io) r = d.(regs).(io) r.
Proof.
  intros (Hcon & Hint & Hien & Hdint). cbn [happen].
  set (d0 := on_regs (or_io UDINT (bv SUSPI)) d).
  assert (Hi0 : interrupts d0 145 0 9 1) by (unfold interrupts, d0; cbn; by rewrite Hcon, Hint, Hien, Hdint).
  unfold USB_GEN_vect, isr_vbus. cbv zeta.
  rewrite (fires_device USB_INT_SOFI _ _ _ _ _ Hi0) by done.
  change (Z.testbit 1 (int_bit USB_INT_SOFI) && Z.testbit 9 (int_bit USB_INT_SOFI)) with false. cbv iota.
  rewrite (fires_vbus _ _ _ _ _ Hi0). change (Z.testbit 0 0 && Z.testbit 145 0) with false. cbv iota.
  unfold isr_suspend at 1. rewrite (fires_device USB_INT_SUSPI _ _ _ _ _ Hi0) by done.
  change (Z.testbit 1 (int_bit USB_INT_SUSPI) && Z.testbit 9 (int_bit USB_INT_SUSPI)) with true. cbv iota zeta.
  set (s := USB_PLL_Off (USB_CLK_Freeze (USB_INT_Enable USB_INT_WAKEUPI
    (USB_INT_Disable USB_INT_SUSPI d0.(regs))))).
  match goal with |- context [isr_wakeup ?x] => set (d1 := x) end.
  assert (Ed : d1 = raise EVENT_Suspend (set_USB_DeviceState DEVICE_STATE_Suspended (set_regs s d))) by done.
  clearbody d1. subst d1. set (d1 := raise EVENT_Suspend _).
  assert (Hi1 : interrupts d1 177 0 24 1).
  { unfold interrupts, d1. cbn. rewrite Hcon, Hint, Hien, Hdint. by vm_compute. }
  unfold isr_wakeup, isr_reset. rewrite (fires_device USB_INT_WAKEUPI _ _ _ _ _ Hi1) by done.
  change (Z.testbit 1 (int_bit USB_INT_WAKEUPI) && Z.testbit 24 (int_bit USB_INT_WAKEUPI)) with false.
  cbv iota. rewrite (fires_device USB_INT_EORSTI _ _ _ _ _ Hi1) by done.
  change (Z.testbit 1 (int_bit USB_INT_EORSTI) && Z.testbit 24 (int_bit USB_INT_EORSTI)) with false. cbv iota.
  exists s. split; [done|]. split; [done|]. split; [exact Hi1|]. split; [done|].
  intros r H1 H2 H3 H4. by destruct r.
Qed.

Lemma wakeup_ok d :
  interrupts d 177 0 24 1 -> d.(regs).(io) PLLCSR = 0 ->
  exists s, happen CFGOK BusWakeUp d =
      Ok (raise EVENT_WakeUp (set_USB_DeviceState (wakeup_state d) (set_regs s d))) /\
    s.(ep) = d.(regs).(ep) /\ interrupts (set_regs s d) 145 0 9 1 /\ s.(io) PLLCSR = 19 /\
    forall r, r <> USBCON -> r <> UDIEN -> r <> UDINT -> r <> PLLCSR -> s.(io) r = d.(regs).(io) r.
Proof.
  intros (Hcon & Hint & Hien & Hdint) Hpll. cbn [happen].
  set (d0 := on_regs (or_io UDINT (bv WAKEUPI)) d).
  assert (Hi0 : interrupts d0 177 0 24 17) by (unfold interrupts, d0; cbn; by rewrite Hcon, Hint, Hien, Hdint).
  unfold USB_GEN_vect, isr_vbus, isr_suspend. cbv zeta.
  rewrite (fires_device USB_INT_SOFI _ _ _ _ _ Hi0) by done.
  change (Z.testbit 17 (int_bit USB_INT_SOFI) && Z.testbit 24 (int_bit USB_INT_SOFI)) with false. cbv iota.
  rewrite (fires_vbus _ _ _ _ _ Hi0). change (Z.testbit 0 0 && Z.testbit 177 0) with false. cbv iota.
  rewrite (fires_device USB_INT_SUSPI _ _ _ _ _ Hi0) by done.
  change (Z.testbit 17 (int_bit USB_INT_SUSPI) && Z.testbit 24 (int_bit USB_INT_SUSPI)) with false. cbv iota.
  unfold isr_wakeup at 1. rewrite (fires_device USB_INT_WAKEUPI _ _ _ _ _ Hi0) by done.
  change (Z.testbit 17 (int_bit USB_INT_WAKEUPI) && Z.testbit 24 (int_bit USB_INT_WAKEUPI)) with true.
  cbv iota zeta.
  set (s := USB_INT_Enable USB_INT_SUSPI (USB_INT_Disable USB_INT_WAKEUPI (USB_INT_Clear USB_INT_WAKEUPI
    (USB_CLK_Unfreeze (wait_PLL (USB_PLL_On d0.(regs))))))).
  match goal with |- context [isr_reset CFGOK ?x] => set (d1 := x) end.
  assert (Ed : d1 = raise EVENT_WakeUp (set_USB_DeviceState (wakeup_state d) (set_regs s d))).
  { unfold d1, wakeup_state. do 2 f_equal. unfold USB_Device_IsAddressSet. by rewrite bits_bv. }
  clearbody d1. subst d1. set (d1 := raise EVENT_WakeUp _).
  assert (Hi1 : interrupts d1 145 0 9 1).
  { unfold interrupts, d1. cbn. rewrite Hcon, Hint, Hien, Hdint. by vm_compute. }
  unfold isr_reset. rewrite (fires_device USB_INT_EORSTI _ _ _ _ _ Hi1) by done.
  change (Z.testbit 1 (int_bit USB_INT_EORSTI) && Z.testbit 9 (int_bit USB_INT_EORSTI)) with false. cbv iota.
  exists s. split; [done|]. split; [done|]. split; [exact Hi1|].
  split; [unfold s; cbn; by vm_compute|]. intros r H1 H2 H3 H4. by destruct r.
Qed.

Lemma unplug_ok d :
  interrupts d 145 0 9 0 \/ interrupts d 145 0 24 0 ->
  exists s, happen CFGOK (VBusChange false) d =
      Ok (raise EVENT_Disconnect (set_USB_DeviceState DEVICE_STATE_Unattached (set_regs s d))) /\
    s.(ep) = d.(regs).(ep) /\ s.(io) UENUM = d.(regs).(io) UENUM.
Proof.
  intros Hi. cbn [happen]. set (d0 := on_regs (or_io USBINT (bv VBUSTE)) d).
  assert (Hi0 : exists dien, interrupts d0 145 1 dien 0).
  { destruct Hi as [Hi|Hi]; eexists; unfold interrupts, d0; cbn; destruct Hi as (-> & -> & -> & ->);
      by split_and!. }
  destruct Hi0 as [dien Hi0]. unfold USB_GEN_vect, isr_vbus. cbv zeta.
  rewrite (fires_device USB_INT_SOFI _ _ _ _ _ Hi0) by done. rewrite Z.bits_0. cbn [andb].
  rewrite (fires_vbus _ _ _ _ _ Hi0). change (Z.testbit 1 0 && Z.testbit 145 0) with true. cbv iota.
  set (s := USB_PLL_Off (USB_INT_Clear USB_INT_VBUSTI d0.(regs))).
  match goal with |- context [isr_suspend ?x] => set (d1 := x) end.
  assert (Ed : d1 = raise EVENT_Disconnect (set_USB_DeviceState DEVICE_STATE_Unattached (set_regs s d))) by done.
  assert (Hi1 : interrupts d1 145 0 dien 0).
  { destruct Hi0 as (Hc & Hn & He & Hd). unfold interrupts, d1. cbn in *. by rewrite Hc, Hn, He, Hd. }
  assert (Hno : forall i, i <> USB_INT_VBUSTI -> fires i d1 = false)
    by (intros i Hne; by rewrite (fires_device i _ _ _ _ _ Hi1), Z.bits_0 by done).
  unfold isr_suspend, isr_wakeup, isr_reset. rewrite !Hno by done.
  exists s. by rewrite Ed.
Qed.

Lemma wait_IN_stuck k : forall d,
  selected d -> flag TXINI d = false -> wait_IN CFGOK (replicate k Nothing) d = Fault OutOfFuel.
Proof.
  induction k as [|k IH]; intros d Hs Hf; cbn [replicate wait_IN]; rewrite in_ready_flag, Hf by done; [done|].
  cbn [happen]. rewrite bind_Ok. by apply IH.
Qed.

End happenings.

(** ** Theorems *)

(** C5: The device's control requests refine [spec_session]: for every sequence of
    SETUP packets of eight bytes, with a host that takes the device's packets and
    sends the packet of the status stage, whenever that happens, the device task
    ends for each request, and after the last one the device's state, address,
    configuration, remote wake-up, halted and enabled endpoints, and all packets the
    host has received, are those of the specification; a request the device does
    not know stalls the control endpoint until the next one.  The endpoint selected
    by the application is selected again. *)
Theorem control_requests_refine CFGOK sig ts d :
  (forall n, 1 <= n < 7 -> CFGOK n 50 = true) -> idle CFGOK d -> Forall well_formed_transfer ts ->
  let spec := spec_session sig (map (fun t => request_of t.1) ts) (view_of d) in
  exists d', session CFGOK sig ts d = Ok d' /\ idle CFGOK d' /\ current d'.(regs) = current d.(regs) /\
    view_of d' ≡ spec.1 /\ d'.(answered) = d.(answered) ++ spec.2.
Proof. intros Hcfg Hi Hts. exact (session_ok CFGOK Hcfg sig ts d Hi Hts). Qed.

(** C6: Enumeration: from power-up, once the bus has power and the host has reset it,
    a SET_ADDRESS and a SET_CONFIGURATION request lead to a configured device that
    answers to its new address, with exactly the control endpoint and the two MIDI
    endpoints enabled, the latter as bulk endpoints of 64 bytes in their directions,
    none of them halted; the application has been told of the connection, and the
    host has been sent the empty packets of the two status stages. *)
Theorem enumeration CFGOK sig a env1 env2 :
  (forall n, 0 <= n < 7 -> CFGOK n 50 = true) -> 1 <= a < 128 -> cooperates 4 env1 -> cooperates 4 env2 ->
  exists d d', plug_in CFGOK = Ok d /\ d.(called) = [EVENT_Connect; EVENT_Reset] /\
    session CFGOK sig [(set_address_packet a, env1); (set_configuration_packet 1, env2)] d = Ok d' /\
    view_of d' ≡ enumerated_view a /\ d'.(answered) = [[]; []] /\
    has_config d'.(regs) 1 128 50 /\ has_config d'.(regs) 2 129 50.
Proof.
  intros Hcfg Ha H1 H2. assert (Hc : forall n, 1 <= n < 7 -> CFGOK n 50 = true) by (intros n Hn; apply Hcfg; lia).
  destruct (plug_in_ok CFGOK (Hcfg 0 ltac:(lia))) as (d & Ep & Hi & Hv & Han & Hca).
  destruct (session_ok CFGOK Hc sig [(set_address_packet a, env1); (set_configuration_packet 1, env2)] d Hi)
    as (d' & E & Hi' & _ & Hv' & Ha').
  { repeat apply Forall_cons_2; [by apply set_address_formed|by apply set_configuration_formed|apply Forall_nil_2]. }
  destruct (enumeration_spec sig a (view_of d) Ha Hv) as [Hs1 Hs2].
  cbn [map fst] in Hv', Ha'. rewrite Hs1 in Hv'. rewrite Hs2, Han in Ha'.
  exists d, d'. split; [done|]. split; [done|]. split; [done|]. split; [done|]. split; [done|].
  destruct Hv' as (_ & _ & _ & He). destruct Hi' as [_ _ _ _ Hw _].
  split; [apply (well_set_config CFGOK _ 1 Hw (or_introl eq_refl))|
          apply (well_set_config CFGOK _ 2 Hw (or_intror eq_refl))].
  - exact (He 1 ltac:(lia)).
  - exact (He 2 ltac:(lia)).
Qed.

(** A suspension of the bus and its end: the device goes to the suspended state
    with its clock frozen and its PLL off, and the wake-up brings every register
    back but the flag of the suspension itself, and every endpoint; the state is
    then what the configuration and the address say, so that a device that was
    configured, or had an address and no configuration, continues where it was. *)
Theorem suspend_wakeup_roundtrip CFGOK d :
  interrupts d 145 0 9 0 -> d.(regs).(io) PLLCSR = 19 ->
  exists d1 d2, happen CFGOK BusSuspend d = Ok d1 /\ happen CFGOK BusWakeUp d1 = Ok d2 /\
    d1.(USB_DeviceState) = DEVICE_STATE_Suspended /\ d1.(regs).(io) PLLCSR = 0 /\
    Z.testbit (d1.(regs).(io) USBCON) FRZCLK = true /\
    d2.(USB_DeviceState) = wakeup_state d /\ d2.(regs).(ep) = d.(regs).(ep) /\
    (forall r, r <> UDINT -> d2.(regs).(io) r = d.(regs).(io) r) /\
    d2.(called) = d.(called) ++ [EVENT_Suspend; EVENT_WakeUp] /\
    d2.(USB_Device_ConfigurationNumber) = d.(USB_Device_ConfigurationNumber) /\
    d2.(answered) = d.(answered) /\ d2.(bank) = d.(bank) /\ d2.(received) = d.(received).
Proof.
  intros Hi Hp. destruct (suspend_ok CFGOK d Hi) as (s1 & E1 & Hep1 & Hi1 & Hp1 & Hr1).
  set (d1 := raise EVENT_Suspend _) in *.
  destruct (wakeup_ok CFGOK d1 Hi1 Hp1) as (s2 & E2 & Hep2 & Hi2 & Hp2 & Hr2).
  eexists d1, _. split; [done|]. split; [exact E2|].
  split; [done|]. split; [done|]. split; [by rewrite (proj1 Hi1 : d1.(regs).(io) USBCON = 177)|].
  split; [cbn; unfold wakeup_state; by rewrite Hr1 by done|]. split; [cbn; by rewrite Hep2|].
  split; [|split; [cbn; by rewrite <-app_assoc|done]].
  intros r Hr. cbn. destruct Hi as (Hc & Hn & He & _), Hi2 as (Hc2 & Hn2 & He2 & _). cbn in Hc2, He2.
  destruct (decide (r = USBCON)) as [->|]; [congruence|]. destruct (decide (r = UDIEN)) as [->|]; [congruence|].
  destruct (decide (r = PLLCSR)) as [->|]; [congruence|]. rewrite Hr2 by done. by apply Hr1.
Qed.

(** C31: Unplugging during a SET_ADDRESS request: the status stage ends as the device is
    no longer attached, but the function then waits for a free bank without looking
    at the state; with the cable gone no bank becomes free, and the wait never
    ends. *)
Theorem set_address_unplugged_hangs CFGOK q d k :
  pending CFGOK d -> flag TXINI d = false -> q.(bmRequestType) = 0 ->
  interrupts d 145 0 9 0 \/ interrupts d 145 0 24 0 ->
  USB_Device_SetAddress CFGOK q (VBusChange false :: replicate k Nothing) d = Fault OutOfFuel.
Proof.
  intros Hp Hf Hq Hi. unfold USB_Device_SetAddress. rewrite Hq. cbv zeta.
  set (d1 := on_regs Endpoint_ClearSETUP _).
  assert (Hp0 : pending CFGOK (on_regs (USB_Device_SetDeviceAddress (Z.land q.(wValue) 127)) d))
    by (by apply pending_io).
  destruct (clear_setup _ (pend_selected _ _ Hp0)) as (Hn & _ & _ & Hin). fold d1 in Hn, Hin.
  assert (Hf1 : flag TXINI d1 = false) by (rewrite Hin; exact Hf).
  assert (Hs1 : selected d1) by (apply (near_selected _ _ Hn), Hp0).
  assert (Hi1 : interrupts d1 145 0 9 0 \/ interrupts d1 145 0 24 0)
    by (destruct Hi as [Hi|Hi]; [left|right]; unfold interrupts; rewrite !(near_io _ _ Hn); exact Hi).
  destruct (unplug_ok CFGOK d1 Hi1) as (s & E & Hep & Hcur). set (d2 := raise EVENT_Disconnect _) in *.
  assert (Hs2 : selected d2) by (unfold selected; change (d2.(regs)) with s; by rewrite Hcur).
  assert (Hf2 : flag TXINI d2 = false) by (unfold flag; change (d2.(regs)) with s; by rewrite Hep).
  unfold Endpoint_ClearStatusStage. change (has_bits 0 128) with false. cbn [wait_status].
  rewrite in_ready_flag, Hf1 by done. unfold in_state.
  rewrite bool_decide_eq_false_2 by (rewrite (near_state _ _ Hn); apply (pend_attached _ _ Hp0)).
  rewrite E, bind_Ok.
  assert (Ew : wait_status CFGOK Endpoint_IsINReady (replicate k Nothing) d2 = Ok (false, d2, replicate k Nothing)).
  { destruct k; cbn [replicate wait_status]; rewrite in_ready_flag, Hf2 by done; done. }
  rewrite Ew, !bind_Ok. by rewrite wait_IN_stuck.
Qed.

(** ** Witnesses *)

(** A controller that accepts every bank of up to 64 bytes, a signature row, and a
    host that takes four packets. *)
Definition small_banks (n c1 : Z) : bool := c1 <=? 62.
Definition signature_row (n : Z) : Z := n mod 256.
Definition prompt_host : list happening := [BankFree; BankFree; Nothing; BankFree; BankFree; SendsOUT []].

Lemma prompt_cooperates : cooperates 4 prompt_host.
Proof.
  exists [BankFree; BankFree; Nothing; BankFree; BankFree], []. split; [done|]. split; [|by apply Nat.leb_le].
  repeat (apply Forall_cons_2; [by (left + right)|]). apply Forall_nil_2.
Qed.

(** The device in its default state, and the same with its interrupts enabled. *)
Definition listening : device := set_USB_DeviceState DEVICE_STATE_Default device_at_reset.
Definition attached : device :=
  set_regs (mk_usbregs (fun r => match r with USBCON => 145 | UDIEN => 9 | PLLCSR => 19 | _ => 0 end)
    (fun _ _ => 0)) listening.

Lemma bytes_u8 l : forallb (fun b => (0 <=? b) && (b <? 256)) l = true -> Forall is_u8 l.
Proof.
  induction l as [|b l IH]; cbn [forallb]; intros Hl; [apply Forall_nil_2|].
  apply andb_true_iff in Hl as [Hb Hl]. apply Forall_cons_2; [unfold is_u8; lia|by apply IH].
Qed.

Lemma control_requests_refine_witness :
  exists d', session small_banks signature_row
      [([128; 6; 0; 1; 0; 0; 64; 0], prompt_host); ([64; 1; 0; 0; 0; 0; 0; 0], prompt_host)] listening = Ok d' /\
    halted d' 0 = true /\
    d'.(answered) = [[18; 1; 16; 1; 0; 0; 0; 64; 128; 37; 8; 0; 2; 0; 1; 2; 0; 1]].
Proof.
  destruct (control_requests_refine small_banks signature_row
    [([128; 6; 0; 1; 0; 0; 64; 0], prompt_host); ([64; 1; 0; 0; 0; 0; 0; 0], prompt_host)] listening)
    as (d' & E & _ & _ & Hv & Ha).
  - reflexivity.
  - split; [done|done|done|done| |done]. apply reset_well_set.
  - repeat (apply Forall_cons_2; [split; [done|]; split; [by apply bytes_u8|apply prompt_cooperates]|]).
    apply Forall_nil_2.
  - exists d'. split; [exact E|]. split; [|rewrite Ha; vm_compute; reflexivity].
    destruct Hv as (_ & _ & Hh & _). exact (Hh 0 ltac:(lia)).
Defined.

Lemma enumeration_witness :
  exists d d', plug_in small_banks = Ok d /\
    session small_banks signature_row
      [(set_address_packet 5, prompt_host); (set_configuration_packet 1, prompt_host)] d = Ok d' /\
    d'.(USB_DeviceState) = DEVICE_STATE_Configured /\ d'.(regs).(io) UDADDR = 133.
Proof.
  destruct (enumeration small_banks signature_row 5 prompt_host prompt_host)
    as (d & d' & Ep & _ & E & Hv & _); [reflexivity|lia|apply prompt_cooperates..|].
  exists d, d'. split; [exact Ep|]. split; [exact E|]. destruct Hv as (Hf & _).
  split; [exact (f_equal fn_state Hf)|exact (f_equal fn_address Hf)].
Defined.

Lemma suspend_wakeup_roundtrip_witness :
  exists d1 d2, happen small_banks BusSuspend attached = Ok d1 /\ happen small_banks BusWakeUp d1 = Ok d2 /\
    d1.(USB_DeviceState) = DEVICE_STATE_Suspended /\ d2.(regs).(io) USBCON = 145.
Proof.
  destruct (suspend_wakeup_roundtrip small_banks attached)
    as (d1 & d2 & E1 & E2 & Hs & _ & _ & _ & _ & Hr & _); [by split_and!|done|].
  exists d1, d2. split; [exact E1|]. split; [exact E2|]. split; [exact Hs|exact (Hr USBCON ltac:(discriminate))].
Defined.

Lemma set_address_unplugged_hangs_witness :
  USB_Device_SetAddress small_banks (request_of (set_address_packet 5))
    (VBusChange false :: replicate 1000 Nothing) attached = Fault OutOfFuel.
Proof.
  apply (set_address_unplugged_hangs small_banks _ attached 1000); [|done|done|left; by split_and!].
  split; [done|done|done|done|done|]. apply (well_set_ep small_banks regs_at_reset); [done|done|apply reset_well_set].
Defined.

End UsbRequests.
