(* ===== verification/Colors.v ===== *)
(** * display.c: the colour tables, the two colour banks and their power limits

    [default_bank_inactive] and [default_bank_active] are declared
    [uint8_t\[2\]\[64*3\]]; each is a flat array of 384 bytes here, in which row
    [bank] starts at [192 * bank].  An index that leaves its row stays inside the
    object until 384, as it does in C, and is a fault from there on. *)

From S2P Require Import Prelude.

Module Colors.

(** ** Colour identifiers and the palette *)

Definition COLORID_OFF : Z := 0.
Definition COLORID_RED : Z := 1.
Definition COLORID_RED_DIM : Z := 2.
Definition COLORID_ORANGE : Z := 3.
Definition COLORID_ORANGE_DIM : Z := 4.
Definition COLORID_YELLOW : Z := 5.
Definition COLORID_YELLOW_DIM : Z := 6.
Definition COLORID_CHARTREUSE : Z := 7.
Definition COLORID_CHARTREUSE_DIM : Z := 8.
Definition COLORID_GREEN : Z := 9.
Definition COLORID_GREEN_DIM : Z := 10.
Definition COLORID_CYAN : Z := 11.
Definition COLORID_CYAN_DIM : Z := 12.
Definition COLORID_BLUE : Z := 13.
Definition COLORID_BLUE_DIM : Z := 14.
Definition COLORID_LAVENDER : Z := 15.
Definition COLORID_LAVENDER_DIM : Z := 16.
Definition COLORID_PINK : Z := 17.
Definition COLORID_PINK_DIM : Z := 18.
Definition COLORID_WHITE : Z := 19.

(** [default_color\[20\]\[3\]], flat. *)
Definition default_color : list Z :=
  [ 0;  0;  0;
   48;  0;  0;   24;  0;  0;
   40; 12;  0;   20;  6;  0;
   32; 25;  0;   16; 12;  0;
   25; 32;  0;   12; 16;  0;
    0; 48;  0;    0; 24;  0;
    0; 30; 30;    0; 15; 15;
    0;  0; 48;    0;  0; 24;
   25;  7; 32;   13;  3; 17;
   36;  0; 18;   18;  0;  9;
   24; 24; 24].

(** [default_color\[id\]\[k\]]. *)
Definition dcol (id k : Z) : Z := tbl default_color (3 * id + k).
#[global] Arguments dcol : simpl never.

(** [ableton_midi_feedback_colors\[128\]\[3\]], flat. *)
Definition ableton_midi_feedback_colors : list Z :=
  [0;  0;  0;   8;  8;  8;  16; 16; 16;  24; 24; 24;
   40; 12; 12;  48;  0;  0;  32;  0;  0;  16;  0;  0;
   30; 22; 12;  42; 13;  0;  28;  9;  0;  14;  4;  0;
   28; 28;  8;  30; 30;  0;  20; 20;  0;  10; 10;  0;
   20; 38; 11;  13; 42;  0;   9; 28;  0;   4; 14;  0;
   11; 40; 11;   0; 48;  0;   0; 32;  0;   0; 16;  0;
   11; 38; 14;   0; 44;  4;   0; 29;  3;   0; 15;  2;
   10; 36; 19;   6; 40; 14;   4; 26;  9;   2; 13;  4;
    9; 32; 22;   0; 38; 22;   0; 25; 14;   0; 12;  7;
    9; 24; 32;   0; 23; 36;   0; 15; 24;   0;  7; 12;
   10; 19; 36;   0; 19; 39;   0; 13; 26;   0;  6; 13;
   11; 11; 40;   0;  0; 48;   0;  0; 32;   0;  0; 16;
   19; 10; 36;  19;  0; 39;  13;  0; 26;   6;  0; 13;
   28;  8; 28;  30;  0; 30;  20;  0; 20;  10;  0; 10;
   36; 10; 19;  42;  0; 13;  28;  0;  8;  14;  0;  4;
   44;  3;  0;  28;  9;  0;  22; 15;  0;  12; 18;  0;
    0; 10;  0;   0; 16;  9;   0; 15; 23;   0;  0; 48;
    0; 12; 14;   6;  0; 38;  16; 16; 16;   8;  8;  8;
   48;  0;  0;  23; 32;  5;  24; 33;  1;  15; 38;  1;
    3; 26;  0;   0; 38; 20;   0; 25; 38;   0;  7; 44;
   15;  0; 42;  19;  0; 40;  33;  4; 23;  12;  6;  0;
   42; 12;  0;  22; 37;  1;  18; 40;  3;   0; 48;  0;
    9; 42;  6;  12; 36; 15;   7; 32; 25;  13; 19; 36;
    9; 15; 37;  19; 18; 33;  24;  3; 30;  40;  0; 15;
   40; 15;  0;  34; 14;  0;  20; 36;  0;  24; 17;  1;
   10;  8;  0;   3; 14;  3;   2; 15; 10;   3;  3;  7;
    4;  6; 16;  19; 11;  5;  31;  0;  1;  37; 13; 10;
   37; 18;  5;  30; 27;  5;  23; 33;  7;  19; 34;  3;
    5;  5;  9;  24; 28; 12;  15; 30; 22;  19; 19; 32;
   19; 14; 34;   6;  6;  6;  11; 11; 11;  21; 24; 24;
   30;  0;  0;   9;  0;  0;   4; 39;  0;   1; 12;  0;
   29; 28;  0;  11;  9;  0;  33; 17;  0;  14;  3;  0].

(** ** The colour banks *)

Record banks := mk_banks {
  default_bank_inactive : list Z;
  default_bank_active : list Z
}.

Definition set_default_bank_inactive (v : list Z) (c : banks) : banks :=
  mk_banks v c.(default_bank_active).
Definition set_default_bank_active (v : list Z) (c : banks) : banks :=
  mk_banks c.(default_bank_inactive) v.

Definition initial_banks : banks := mk_banks (replicate 384 0) (replicate 384 0).

Record banks_wf (c : banks) : Prop := {
  inactive_length : length c.(default_bank_inactive) = 384%nat;
  active_length : length c.(default_bank_active) = 384%nat
}.

(** One of the two loops of [load_default_colors]: bank [bank] gets the idle
    colour [idle] and the active colour [act] for all 64 buttons. *)
Definition load_bank (bank idle act : Z) (c : banks) : res banks :=
  fst <$> for_up 64 0 (fun _ '(c, index) =>
    l ← put3 c.(default_bank_inactive) (192 * bank + index)
          (dcol idle 0) (dcol idle 1) (dcol idle 2);
    let c := set_default_bank_inactive l c in
    l ← put3 c.(default_bank_active) (192 * bank + index)
          (dcol act 0) (dcol act 1) (dcol act 2);
    let c := set_default_bank_active l c in
    Ok (c, u8 (index + 3))) (c, 0).

Definition load_default_colors (c : banks) : res banks :=
  c ← load_bank 0 COLORID_OFF COLORID_BLUE c;
  load_bank 1 COLORID_WHITE COLORID_GREEN c.

(** ** Power limits

    The decision tree of [adjust_inactive_bank_leds_for_power] and of
    [adjust_active_bank_leds_for_power], which have the same body for the two
    arrays: [None] where the code says [continue]. *)

Definition LAVENDER_GREEN_LIMIT : Z := 36.
Definition MF3D_UTILITY_BRIGHT_COLOR_LIMIT : Z := 128.

Definition bright (x id_bright id_dim : Z) : Z :=
  if MF3D_UTILITY_BRIGHT_COLOR_LIMIT <? x then id_bright else id_dim.

Definition adjust_color (r g b : Z) : option Z :=
  if r =? 0 then
    if g =? 0 then
      if b =? 0 then Some COLORID_OFF
      else if b =? dcol COLORID_BLUE 2 then None
      else Some (bright b COLORID_BLUE COLORID_BLUE_DIM)
    else if b =? 0 then
      if g =? dcol COLORID_GREEN 1 then None
      else Some (bright g COLORID_GREEN COLORID_GREEN_DIM)
    else
      if g =? dcol COLORID_CYAN 1 then None
      else Some (bright g COLORID_CYAN COLORID_CYAN_DIM)
  else if g =? 0 then
    if b =? 0 then
      if r =? dcol COLORID_RED 0 then None
      else Some (bright r COLORID_RED COLORID_RED_DIM)
    else
      if r =? dcol COLORID_PINK 0 then None
      else Some (bright r COLORID_PINK COLORID_PINK_DIM)
  else if b =? 0 then
    if r <? g then
      if g =? dcol COLORID_CHARTREUSE 1 then None
      else Some (bright g COLORID_CHARTREUSE COLORID_CHARTREUSE_DIM)
    else if g <=? Z.shiftr r 1 then
      if r =? dcol COLORID_ORANGE 0 then None
      else Some (bright r COLORID_ORANGE COLORID_ORANGE_DIM)
    else
      if r =? dcol COLORID_YELLOW 0 then None
      else Some (bright r COLORID_YELLOW COLORID_YELLOW_DIM)
  else if LAVENDER_GREEN_LIMIT <? g then Some COLORID_WHITE
  else if b =? dcol COLORID_LAVENDER 2 then None
  else Some (bright r COLORID_LAVENDER COLORID_LAVENDER_DIM).

(** One iteration: the colour at flat index [i]. *)
Definition adjust_at (l : list Z) (i : Z) : res (list Z) :=
  r ← rd l i;
  g ← rd l (i + 1);
  b ← rd l (i + 2);
  match adjust_color r g b with
  | None => Ok l
  | Some id => put3 l i (dcol id 0) (dcol id 1) (dcol id 2)
  end.

(** [for (this_byte = offset; this_byte < offset + size; this_byte += 3)]:
    [this_byte] has eight bits, [limit] is [offset + size] as an [int]. *)
Fixpoint adjust_loop (fuel : nat) (bank limit this_byte : Z) (l : list Z) : res (list Z) :=
  if this_byte <? limit then
    match fuel with
    | O => Fault OutOfFuel
    | S fuel' =>
        l ← adjust_at l (192 * bank + this_byte);
        adjust_loop fuel' bank limit (u8 (this_byte + 3)) l
    end
  else Ok l.

(** 85 steps of three bytes cover every limit [this_byte] can reach. *)
Definition adjust_fuel : nat := 85.

Definition adjust_inactive_bank_leds_for_power (bank offset size : Z) (c : banks) : res banks :=
  l ← adjust_loop adjust_fuel bank (offset + size) offset c.(default_bank_inactive);
  Ok (set_default_bank_inactive l c).

Definition adjust_active_bank_leds_for_power (bank offset size : Z) (c : banks) : res banks :=
  l ← adjust_loop adjust_fuel bank (offset + size) offset c.(default_bank_active);
  Ok (set_default_bank_active l c).

(** ** Specifications *)

(** The colour at flat index [i]. *)
Definition color_at (l : list Z) (i : Z) : res (Z * Z * Z) :=
  r ← rd l i;
  g ← rd l (i + 1);
  b ← rd l (i + 2);
  Ok (r, g, b).

Definition palette (id : Z) : Z * Z * Z := (dcol id 0, dcol id 1, dcol id 2).

(** What the power adjustment is to do to one colour.  Its hue follows from the channels
    that are lit: *)
Inductive hue := Off | Red | Orange | Yellow | Chartreuse | Green | Cyan | Blue | Lavender | Pink | White.

Definition hue_of (rgb : Z * Z * Z) : hue :=
  let '(r, g, b) := rgb in
  match bool_decide (r = 0), bool_decide (g = 0), bool_decide (b = 0) with
  | true, true, true => Off
  | true, true, false => Blue
  | true, false, true => Green
  | true, false, false => Cyan
  | false, true, true => Red
  | false, true, false => Pink
  | false, false, true => if r <? g then Chartreuse else if 2 * g <=? r then Orange else Yellow
  | false, false, false => if 36 <? g then White else Lavender
  end.

(** The full and the dim shade of a hue, with red, green and blue. *)
Definition shades (h : hue) : (Z * Z * Z) * (Z * Z * Z) :=
  match h with
  | Off => ((0, 0, 0), (0, 0, 0))
  | Red => ((48, 0, 0), (24, 0, 0))
  | Orange => ((40, 12, 0), (20, 6, 0))
  | Yellow => ((32, 25, 0), (16, 12, 0))
  | Chartreuse => ((25, 32, 0), (12, 16, 0))
  | Green => ((0, 48, 0), (0, 24, 0))
  | Cyan => ((0, 30, 30), (0, 15, 15))
  | Blue => ((0, 0, 48), (0, 0, 24))
  | Lavender => ((25, 7, 32), (13, 3, 17))
  | Pink => ((36, 0, 18), (18, 0, 9))
  | White => ((24, 24, 24), (24, 24, 24))
  end.

(** The channel that says how bright a hue is, and the one by which a colour counts as
    the full shade already; they differ for lavender. *)
Definition lead (h : hue) (rgb : Z * Z * Z) : Z :=
  let '(r, g, b) := rgb in
  match h with Blue => b | Green | Cyan | Chartreuse => g | _ => r end.
Definition told_by (h : hue) (rgb : Z * Z * Z) : Z :=
  match h with Lavender => snd rgb | _ => lead h rgb end.

Definition adjusted (rgb : Z * Z * Z) : Z * Z * Z :=
  let h := hue_of rgb in
  let '(full, dim) := shades h in
  match h with
  | Off | White => full
  | _ => if told_by h rgb =? told_by h full then rgb else if 128 <? lead h rgb then full else dim
  end.

Definition total_power (rgb : Z * Z * Z) : Z := let '(r, g, b) := rgb in r + g + b.

(** ** Lemmas *)

Lemma color_at_ext l l' i :
  (forall j, i <= j < i + 3 -> rd l' j = rd l j) -> color_at l' i = color_at l i.
Proof. intros H. unfold color_at. rewrite !H by lia. done. Qed.

Lemma color_at_ok l i :
  0 <= i -> i + 3 <= Z.of_nat (length l) -> exists rgb, color_at l i = Ok rgb.
Proof.
  intros Hi Hl. unfold color_at.
  destruct (rd_in_range l i) as [r ->]; [lia|].
  destruct (rd_in_range l (i + 1)) as [g Hg]; [lia|].
  destruct (rd_in_range l (i + 2)) as [b Hb]; [lia|].
  cbn. rewrite Hg. cbn. rewrite Hb. cbn. eauto.
Qed.

(** Storing a colour. *)
Lemma put3_color l i a b c :
  0 <= i -> i + 3 <= Z.of_nat (length l) ->
  exists l', put3 l i a b c = Ok l' /\ length l' = length l /\
    color_at l' i = Ok (a, b, c) /\ forall j, j < i \/ i + 3 <= j -> rd l' j = rd l j.
Proof.
  intros Hi Hl. destruct (put3_in_range l i a b c Hi Hl) as (l' & -> & Hl' & Hrd).
  exists l'. split; [done|]. split; [done|]. split.
  - unfold color_at. rewrite !Hrd, !Z.eqb_refl.
    rewrite !(proj2 (Z.eqb_neq _ _)) by lia. done.
  - intros j Hj. rewrite Hrd, !(proj2 (Z.eqb_neq _ _)) by lia. done.
Qed.

(** The decision tree computes it. *)
Lemma bright_shade x id id' : palette (bright x id id') = if 128 <? x then palette id else palette id'.
Proof. unfold bright, MF3D_UTILITY_BRIGHT_COLOR_LIMIT. by destruct (128 <? x). Qed.

Lemma adjusted_tree r g b :
  adjusted (r, g, b) = match adjust_color r g b with None => (r, g, b) | Some id => palette id end.
Proof.
  unfold adjusted, adjust_color, hue_of.
  destruct (bool_decide_reflect (r = 0)) as [->|Hr], (bool_decide_reflect (g = 0)) as [->|Hg],
    (bool_decide_reflect (b = 0)) as [->|Hb]; rewrite ?Z.eqb_refl, ?(proj2 (Z.eqb_neq _ _) Hr), ?(proj2 (Z.eqb_neq _ _) Hg),
    ?(proj2 (Z.eqb_neq _ _) Hb); try reflexivity.
  7: { unfold LAVENDER_GREEN_LIMIT. destruct (36 <? g); [reflexivity|]. cbn [shades told_by lead snd].
       change (dcol COLORID_LAVENDER 2) with 32. destruct (b =? 32); [done|]. by rewrite bright_shade. }
  6: { rewrite Z.shiftr_div_pow2 by lia. change (2 ^ 1) with 2. destruct (Z.ltb_spec r g).
       - cbn [shades told_by lead]. change (dcol COLORID_CHARTREUSE 1) with 32. destruct (g =? 32); [done|]. by rewrite bright_shade.
       - replace (g <=? r / 2) with (2 * g <=? r) by (apply Bool.eq_iff_eq_true; rewrite !Z.leb_le; Z.div_mod_to_equations; lia).
         destruct (2 * g <=? r); cbn [shades told_by lead].
         + change (dcol COLORID_ORANGE 0) with 40. destruct (r =? 40); [done|]. by rewrite bright_shade.
         + change (dcol COLORID_YELLOW 0) with 32. destruct (r =? 32); [done|]. by rewrite bright_shade. }
  all: cbn [shades told_by lead].
  - change (dcol COLORID_BLUE 2) with 48. destruct (b =? 48); [done|]. by rewrite bright_shade.
  - change (dcol COLORID_GREEN 1) with 48. destruct (g =? 48); [done|]. by rewrite bright_shade.
  - change (dcol COLORID_CYAN 1) with 30. destruct (g =? 30); [done|]. by rewrite bright_shade.
  - change (dcol COLORID_RED 0) with 48. destruct (r =? 48); [done|]. by rewrite bright_shade.
  - change (dcol COLORID_PINK 0) with 36. destruct (r =? 36); [done|]. by rewrite bright_shade.
Qed.

(** One iteration writes the adjusted colour and nothing else. *)
Lemma adjust_at_spec l i rgb :
  0 <= i -> i + 3 <= Z.of_nat (length l) -> color_at l i = Ok rgb ->
  exists l', adjust_at l i = Ok l' /\ length l' = length l /\
    color_at l' i = Ok (adjusted rgb) /\
    forall j, j < i \/ i + 3 <= j -> rd l' j = rd l j.
Proof.
  intros Hi Hl Hc. unfold color_at in Hc. unfold adjust_at.
  destruct (rd l i) as [r|] eqn:Hr; [|done]. cbn in *.
  destruct (rd l (i + 1)) as [g|] eqn:Hg; [|done]. cbn in *.
  destruct (rd l (i + 2)) as [b|] eqn:Hb; [|done]. cbn in *.
  injection Hc as <-. rewrite adjusted_tree.
  destruct (adjust_color r g b) as [id|].
  - by apply put3_color.
  - exists l. unfold color_at. rewrite Hr. cbn. rewrite Hg. cbn. rewrite Hb. done.
Qed.

(** The loop over [n] colours, with enough fuel and without wrap-around. *)
Lemma adjust_loop_spec n : forall fuel bank limit this_byte l,
  (n <= fuel)%nat -> 0 <= bank -> 0 <= this_byte -> limit = this_byte + 3 * Z.of_nat n ->
  limit < 256 -> 192 * bank + limit <= Z.of_nat (length l) ->
  exists l', adjust_loop fuel bank limit this_byte l = Ok l' /\ length l' = length l /\
    (forall k, 0 <= k < Z.of_nat n ->
       color_at l' (192 * bank + this_byte + 3 * k) =
       adjusted <$> color_at l (192 * bank + this_byte + 3 * k)) /\
    (forall j, j < 192 * bank + this_byte \/ 192 * bank + limit <= j -> rd l' j = rd l j).
Proof.
  induction n as [|n IH]; intros fuel bank limit this_byte l Hf Hb Ht Hlim Hmax Hlen.
  - exists l. destruct fuel; cbn [adjust_loop];
      (destruct (Z.ltb_spec this_byte limit); [lia|]); (split; [done|split; [done|]]);
      (split; [intros; lia|done]).
  - destruct fuel as [|fuel]; [lia|]. cbn [adjust_loop].
    destruct (Z.ltb_spec this_byte limit); [|lia].
    destruct (color_at_ok l (192 * bank + this_byte)) as [rgb Hrgb]; [lia|lia|].
    destruct (adjust_at_spec l (192 * bank + this_byte) rgb) as (l1 & -> & Hl1 & Hc1 & Ho1);
      [lia|lia|done|]. cbn [mbind res_bind].
    rewrite u8_small by lia.
    destruct (IH fuel bank limit (this_byte + 3) l1) as (l2 & -> & Hl2 & Hc2 & Ho2); try lia.
    exists l2. split; [done|]. split; [lia|]. split.
    + intros k Hk. destruct (Z.eq_dec k 0) as [->|Hk0].
      * rewrite !Z.add_0_r. rewrite Hrgb. cbn. rewrite <-Hc1.
        apply color_at_ext. intros j Hj. apply Ho2. lia.
      * replace (192 * bank + this_byte + 3 * k)
          with (192 * bank + (this_byte + 3) + 3 * (k - 1)) by lia.
        rewrite Hc2 by lia. f_equal. apply color_at_ext. intros j Hj. apply Ho1. lia.
    + intros j Hj. rewrite Ho2 by lia. apply Ho1. lia.
Qed.

(** The adjustment picks palette entries. *)
Lemma adjust_color_id r g b id : adjust_color r g b = Some id -> 0 <= id < 20.
Proof.
  unfold adjust_color, bright.
  repeat match goal with
  | |- (if ?c then _ else _) = Some _ -> _ => destruct c
  | |- Some (if ?c then _ else _) = Some _ -> _ => destruct c
  | |- None = Some _ -> _ => discriminate 1
  end; intros [= <-];
  unfold COLORID_OFF, COLORID_RED, COLORID_RED_DIM, COLORID_ORANGE, COLORID_ORANGE_DIM,
    COLORID_YELLOW, COLORID_YELLOW_DIM, COLORID_CHARTREUSE, COLORID_CHARTREUSE_DIM,
    COLORID_GREEN, COLORID_GREEN_DIM, COLORID_CYAN, COLORID_CYAN_DIM, COLORID_BLUE,
    COLORID_BLUE_DIM, COLORID_LAVENDER, COLORID_LAVENDER_DIM, COLORID_PINK, COLORID_PINK_DIM,
    COLORID_WHITE; lia.
Qed.

(** Facts about the twenty palette colours, by computation. *)
Definition palette_ok (id : Z) : bool :=
  (total_power (palette id) <=? 72) &&
  ((id =? COLORID_WHITE) || bool_decide (adjusted (palette id) = palette id)).

Lemma palette_facts id : 0 <= id < 20 -> palette_ok id = true.
Proof. intros Hid. by_range 0 20 id palette_ok. Qed.

Lemma load_bank_spec bank idle act c :
  0 <= bank < 2 -> banks_wf c ->
  exists c', load_bank bank idle act c = Ok c' /\ banks_wf c' /\
    (forall button, 0 <= button < 64 ->
       color_at c'.(default_bank_inactive) (192 * bank + 3 * button) = Ok (palette idle) /\
       color_at c'.(default_bank_active) (192 * bank + 3 * button) = Ok (palette act)) /\
    (forall j, j < 192 * bank \/ 192 * bank + 192 <= j ->
       rd c'.(default_bank_inactive) j = rd c.(default_bank_inactive) j /\
       rd c'.(default_bank_active) j = rd c.(default_bank_active) j).
Proof.
  intros Hb Hc. unfold load_bank.
  pose (inv := fun (k : Z) (s : banks * Z) => let '(c', index) := s in
    index = 3 * k /\ banks_wf c' /\
    (forall button, 0 <= button < k ->
       color_at c'.(default_bank_inactive) (192 * bank + 3 * button) = Ok (palette idle) /\
       color_at c'.(default_bank_active) (192 * bank + 3 * button) = Ok (palette act)) /\
    (forall j, j < 192 * bank \/ 192 * bank + 192 <= j ->
       rd c'.(default_bank_inactive) j = rd c.(default_bank_inactive) j /\
       rd c'.(default_bank_active) j = rd c.(default_bank_active) j)).
  edestruct (for_up_inv inv) as ([c' index] & Hrun & Hinv); [| |erewrite Hrun].
  3: { exists c'. by destruct Hinv as (_ & ? & ? & ?). }
  { split; [lia|]. split; [done|]. split; [intros; lia|done]. }
  intros k [c1 index] Hk (-> & [Hi Ha] & Hdone & Hout).
  destruct (put3_color c1.(default_bank_inactive) (192 * bank + 3 * k)
    (dcol idle 0) (dcol idle 1) (dcol idle 2)) as (li & Ei & Hli & Hci & Hoi); [lia|lia|].
  destruct (put3_color c1.(default_bank_active) (192 * bank + 3 * k)
    (dcol act 0) (dcol act 1) (dcol act 2)) as (la & Ea & Hla & Hca & Hoa); [lia|lia|].
  rewrite Ei. cbn. rewrite Ea. cbn. eexists. split; [done|].
  split; [rewrite u8_small; lia|]. split; [split; cbn; lia|]. split.
  - intros button Hbt. cbn. destruct (Z.eq_dec button k) as [->|]; [done|].
    rewrite <-(proj1 (Hdone button ltac:(lia))), <-(proj2 (Hdone button ltac:(lia))).
    split; apply color_at_ext; intros j Hj; [apply Hoi|apply Hoa]; lia.
  - intros j Hj. destruct (Hout j Hj) as [<- <-]. cbn. split; [apply Hoi|apply Hoa]; lia.
Qed.

Lemma load_default_colors_ok c :
  banks_wf c -> exists c', load_default_colors c = Ok c' /\ banks_wf c'.
Proof.
  intros Hc. unfold load_default_colors.
  destruct (load_bank_spec 0 COLORID_OFF COLORID_BLUE c) as (c1 & -> & Hc1 & _); [lia|done|].
  destruct (load_bank_spec 1 COLORID_WHITE COLORID_GREEN c1) as (c2 & Hr & Hc2 & _);
    [lia|done|]. exists c2. by split.
Qed.

(** ** Theorems *)

(** Loading the default colours succeeds on any contents of the two banks and
    gives every button its documented colours: bank 1 off when idle and blue when
    active, bank 2 white when idle and green when active. *)
Theorem load_default_colors_spec c :
  banks_wf c ->
  exists c', load_default_colors c = Ok c' /\ banks_wf c' /\
    forall bank button, 0 <= bank < 2 -> 0 <= button < 64 ->
      color_at c'.(default_bank_inactive) (192 * bank + 3 * button) =
        Ok (palette (if bank =? 0 then COLORID_OFF else COLORID_WHITE)) /\
      color_at c'.(default_bank_active) (192 * bank + 3 * button) =
        Ok (palette (if bank =? 0 then COLORID_BLUE else COLORID_GREEN)).
Proof.
  intros Hc. unfold load_default_colors.
  destruct (load_bank_spec 0 COLORID_OFF COLORID_BLUE c) as (c1 & -> & Hc1 & Hb1 & _); [lia|done|].
  destruct (load_bank_spec 1 COLORID_WHITE COLORID_GREEN c1) as (c2 & Hr & Hc2 & Hb2 & Ho2);
    [lia|done|]. cbn [mbind res_bind]. exists c2. split; [done|]. split; [done|].
  intros bank button Hbank Hbutton. destruct (Z.eqb_spec bank 0) as [->|Hne].
  - rewrite <-(proj1 (Hb1 button Hbutton)), <-(proj2 (Hb1 button Hbutton)).
    split; apply color_at_ext; intros j Hj; apply Ho2; lia.
  - replace bank with 1 by lia. by apply Hb2.
Qed.

Lemma load_default_colors_spec_witness :
  exists c', load_default_colors initial_banks = Ok c' /\
    color_at c'.(default_bank_active) (192 * 1 + 3 * 63) = Ok (0, 48, 0).
Proof.
  destruct (load_default_colors_spec initial_banks) as (c' & H & _ & Hc); [by split|].
  exists c'. split; [exact H|]. exact (proj2 (Hc 1 63 ltac:(lia) ltac:(lia))).
Defined.


(** Banks of bright orange and of weak cyan. *)
Definition coloured_banks : banks :=
  mk_banks (concat (replicate 128 [250; 100; 0])) (concat (replicate 128 [0; 90; 3])).


(** A colour the adjustment replaces becomes one of the twenty palette
    colours, whose three channels add up to at most 72, and adjusting it again
    changes nothing unless it is white. *)
Theorem adjusted_within_power r g b id :
  adjust_color r g b = Some id ->
  adjusted (r, g, b) = palette id /\ 0 <= id < 20 /\
  total_power (adjusted (r, g, b)) <= 72 /\
  (id <> COLORID_WHITE -> adjusted (adjusted (r, g, b)) = adjusted (r, g, b)).
Proof.
  intros Ha. assert (Hid := adjust_color_id _ _ _ _ Ha).
  assert (Hp := palette_facts id Hid). unfold palette_ok in Hp.
  assert (E : adjusted (r, g, b) = palette id) by (by rewrite adjusted_tree, Ha). rewrite E.
  apply andb_prop in Hp as [H1 H2]. apply Z.leb_le in H1.
  split; [done|]. split; [done|]. split; [done|]. intros Hne.
  apply orb_prop in H2 as [H2|H2]; [by apply Z.eqb_eq in H2|by apply bool_decide_eq_true in H2].
Qed.

Lemma adjusted_within_power_witness :
  adjusted (254, 0, 0) = (48, 0, 0) /\ total_power (adjusted (254, 0, 0)) <= 72.
Proof.
  destruct (adjusted_within_power 254 0 0 COLORID_RED) as (H1 & _ & H2 & _); [reflexivity|].
  split; [exact H1|exact H2].
Defined.

(** The adjustment does not always limit power: it compares one channel with
    the palette and leaves the whole colour as it is, so cyan with green 30 keeps
    a blue of 254, four times the power of the strongest palette colour; and it
    is not idempotent, since the palette's white becomes dim lavender. *)
Theorem adjust_power_gap :
  adjusted (0, 30, 254) = (0, 30, 254) /\ total_power (0, 30, 254) = 284 /\
  (forall id, 0 <= id < 20 -> total_power (palette id) <= 72) /\
  adjusted (palette COLORID_WHITE) = palette COLORID_LAVENDER_DIM.
Proof.
  split; [done|]. split; [done|]. split; [|done].
  intros id Hid. assert (Hp := palette_facts id Hid). unfold palette_ok in Hp.
  apply andb_prop in Hp as [H1 _]. by apply Z.leb_le.
Qed.

End Colors.
