(* ===== verification/Eeprom.v ===== *)
(** * eeprom.c: persistent settings

    The EEPROM of the ATmega32U4 is an array of 1024 bytes.  The busy-wait on
    [EEPE] at the start of every access means that a write has reached the array
    before the next access, so a write is modelled as immediate; its critical
    section ([cli], two strobes, [sei]) leaves interrupts enabled. *)

From S2P Require Import Prelude.
From S2P Require Import Avr.
From S2P Require Import Colors.

Module Eeprom.
Import Avr Colors.

(** ** Settings: the [G_EE_*] globals of eeprom.c and midi.c *)

Record settings := mk_settings {
  g_self_test_passed : Z;
  G_EE_MIDI_CHANNEL : Z;
  G_EE_MIDI_VELOCITY : Z;
  G_EE_COMBOS_ENABLE : Z;
  G_EE_MIDI_OUTPUT_MODE : Z;
  G_EE_FOUR_BANKS_MODE : Z;
  G_EE_TILT_MODE : Z;
  G_EE_TILT_MASK : Z;
  G_EE_ANIMATIONS : Z;
  G_EE_TILT_SENSITIVITY : Z;
  G_EE_PITCH_SENSITIVITY : Z;
  G_EE_TILT_RANGE : Z;
  G_EE_PITCH_RANGE : Z;
  G_EE_TILT_DEADZONE : Z;
  G_EE_PITCH_DEADZONE : Z;
  G_EE_TILT_AXIS : Z;
  G_EE_SIDE_BANK : Z;
  G_EE_PICK_SENSITIVITY : Z;
  G_EE_SLEEP_TIME : Z
}.

Definition initial_settings : settings :=
  mk_settings 0 14 74 0 0 0 0 0 0 0 0 0 0 0 0 0 0 0 0.

(** ** The memory map (constants.h) *)

Definition EEPROM_LAYOUT : Z := 1.
Definition EE_EEPROM_VERSION : Z := 0.
Definition EE_FIRST_BOOT_CHECK : Z := 1.
Definition EE_MIDI_CHANNEL : Z := 2.
Definition EE_MIDI_VELOCITY : Z := 3.
Definition EE_FOUR_BANKS_MODE : Z := 5.
Definition EE_MIDI_OUTPUT_MODE : Z := 9.
Definition EE_COMBOS_ENABLE : Z := 10.
Definition EE_TILT_MODE : Z := 12.
Definition EE_TILT_MASK : Z := 13.
Definition EE_ANIMATIONS : Z := 14.
Definition EE_TILT_SENSITIVITY : Z := 15.
Definition EE_PITCH_SENSITIVITY : Z := 16.
Definition EE_TILT_RANGE : Z := 17.
Definition EE_PITCH_RANGE : Z := 18.
Definition EE_TILT_DEADZONE : Z := 19.
Definition EE_PITCH_DEADZONE : Z := 20.
Definition EE_TILT_AXIS : Z := 21.
Definition EE_PICK_SENSITIVITY : Z := 22.
Definition EE_SLEEP_TIME : Z := 23.
Definition EE_SIDE_BANK : Z := 24.
Definition EE_COLORS_IDLE : Z := 111.       (* 0x006F *)
Definition EE_COLORS_ACTIVE : Z := 495.     (* 0x01EF *)
Definition NUM_BANKS : Z := 2.
Definition NUM_BUTTONS : Z := 64.
Definition MIDI_OUTPUT_MODE_NOTES_ONLY : Z := 0.
Definition GEOMETRIC_ANIMATION_TYPES : Z := 4.

(** ** Byte access *)

Record nvm := mk_nvm { mem : list Z; cpu : avr }.

Definition nvm_wf (d : nvm) : Prop := length d.(mem) = 1024%nat.

Definition eeprom_write (address data : Z) (d : nvm) : res nvm :=
  m ← wr d.(mem) (Z.land address 4095) data;
  Ok (mk_nvm m (sei (cli d.(cpu)))).

Definition eeprom_read (address : Z) (d : nvm) : res Z := rd d.(mem) address.

(** ** Saving

    The colour loops of [eeprom_save_edits] for one bank. *)

Definition save_colors (ee bank : Z) (colors : list Z) (d : nvm) : res nvm :=
  for_up 192 0 (fun i d =>
    v ← rd colors (192 * bank + i);
    eeprom_write (u16 (ee + 192 * bank + i)) v d) d.

Definition save_bank (c : banks) (bank : Z) (d : nvm) : res nvm :=
  d ← save_colors EE_COLORS_IDLE bank c.(default_bank_inactive) d;
  save_colors EE_COLORS_ACTIVE bank c.(default_bank_active) d.

Definition save_settings (g : settings) (d : nvm) : res nvm :=
  d ← eeprom_write EE_MIDI_CHANNEL g.(G_EE_MIDI_CHANNEL) d;
  d ← eeprom_write EE_MIDI_VELOCITY g.(G_EE_MIDI_VELOCITY) d;
  d ← eeprom_write EE_COMBOS_ENABLE g.(G_EE_COMBOS_ENABLE) d;
  d ← eeprom_write EE_MIDI_OUTPUT_MODE g.(G_EE_MIDI_OUTPUT_MODE) d;
  d ← eeprom_write EE_FOUR_BANKS_MODE g.(G_EE_FOUR_BANKS_MODE) d;
  d ← eeprom_write EE_TILT_MODE g.(G_EE_TILT_MODE) d;
  d ← eeprom_write EE_TILT_MASK g.(G_EE_TILT_MASK) d;
  d ← eeprom_write EE_ANIMATIONS g.(G_EE_ANIMATIONS) d;
  d ← eeprom_write EE_TILT_SENSITIVITY g.(G_EE_TILT_SENSITIVITY) d;
  d ← eeprom_write EE_PITCH_SENSITIVITY g.(G_EE_PITCH_SENSITIVITY) d;
  d ← eeprom_write EE_TILT_RANGE g.(G_EE_TILT_RANGE) d;
  d ← eeprom_write EE_PITCH_RANGE g.(G_EE_PITCH_RANGE) d;
  d ← eeprom_write EE_TILT_DEADZONE g.(G_EE_TILT_DEADZONE) d;
  d ← eeprom_write EE_PITCH_DEADZONE g.(G_EE_PITCH_DEADZONE) d;
  d ← eeprom_write EE_TILT_AXIS g.(G_EE_TILT_AXIS) d;
  d ← eeprom_write EE_PICK_SENSITIVITY g.(G_EE_PICK_SENSITIVITY) d;
  d ← eeprom_write EE_SLEEP_TIME g.(G_EE_SLEEP_TIME) d;
  eeprom_write EE_SIDE_BANK g.(G_EE_SIDE_BANK) d.

Definition eeprom_save_edits (g : settings) (c : banks) (d : nvm) : res nvm :=
  d ← save_settings g d;
  for_up 2 0 (save_bank c) d.

(** ** Factory reset *)

Definition factory_settings : settings :=
  {| g_self_test_passed := 255;
     G_EE_MIDI_CHANNEL := 2;
     G_EE_MIDI_VELOCITY := 127;
     G_EE_COMBOS_ENABLE := 1;
     G_EE_MIDI_OUTPUT_MODE := MIDI_OUTPUT_MODE_NOTES_ONLY;
     G_EE_FOUR_BANKS_MODE := 0;
     G_EE_TILT_MODE := 2;
     G_EE_TILT_MASK := 241;
     G_EE_ANIMATIONS := GEOMETRIC_ANIMATION_TYPES;
     G_EE_TILT_SENSITIVITY := 30;
     G_EE_PITCH_SENSITIVITY := 127;
     G_EE_TILT_RANGE := 70;
     G_EE_PITCH_RANGE := 60;
     G_EE_TILT_DEADZONE := 12;
     G_EE_PITCH_DEADZONE := 127;
     G_EE_TILT_AXIS := 0;
     G_EE_PICK_SENSITIVITY := 64;
     G_EE_SIDE_BANK := 0;
     G_EE_SLEEP_TIME := 60 |}.

Definition eeprom_factory_reset (c : banks) (d : nvm) : res (settings * banks * nvm) :=
  d ← eeprom_write EE_EEPROM_VERSION EEPROM_LAYOUT d;
  let g := factory_settings in
  c ← load_default_colors c;
  d ← eeprom_save_edits g c d;
  Ok (g, c, d).

(** ** Loading *)

Definition read_settings (d : nvm) : res settings :=
  self_test ← eeprom_read EE_FIRST_BOOT_CHECK d;
  channel ← eeprom_read EE_MIDI_CHANNEL d;
  velocity ← eeprom_read EE_MIDI_VELOCITY d;
  combos ← eeprom_read EE_COMBOS_ENABLE d;
  output_mode ← eeprom_read EE_MIDI_OUTPUT_MODE d;
  four_banks ← eeprom_read EE_FOUR_BANKS_MODE d;
  tilt_mode ← eeprom_read EE_TILT_MODE d;
  tilt_mask ← eeprom_read EE_TILT_MASK d;
  animations ← eeprom_read EE_ANIMATIONS d;
  tilt_sensitivity ← eeprom_read EE_TILT_SENSITIVITY d;
  pitch_sensitivity ← eeprom_read EE_PITCH_SENSITIVITY d;
  tilt_range ← eeprom_read EE_TILT_RANGE d;
  pitch_range ← eeprom_read EE_PITCH_RANGE d;
  tilt_deadzone ← eeprom_read EE_TILT_DEADZONE d;
  pitch_deadzone ← eeprom_read EE_PITCH_DEADZONE d;
  tilt_axis ← eeprom_read EE_TILT_AXIS d;
  side_bank ← eeprom_read EE_SIDE_BANK d;
  pick_sensitivity ← eeprom_read EE_PICK_SENSITIVITY d;
  sleep_time ← eeprom_read EE_SLEEP_TIME d;
  Ok {| g_self_test_passed := self_test;
        G_EE_MIDI_CHANNEL := channel;
        G_EE_MIDI_VELOCITY := velocity;
        G_EE_COMBOS_ENABLE := combos;
        G_EE_MIDI_OUTPUT_MODE := output_mode;
        G_EE_FOUR_BANKS_MODE := four_banks;
        G_EE_TILT_MODE := tilt_mode;
        G_EE_TILT_MASK := tilt_mask;
        G_EE_ANIMATIONS := animations;
        G_EE_TILT_SENSITIVITY := tilt_sensitivity;
        G_EE_PITCH_SENSITIVITY := pitch_sensitivity;
        G_EE_TILT_RANGE := tilt_range;
        G_EE_PITCH_RANGE := pitch_range;
        G_EE_TILT_DEADZONE := tilt_deadzone;
        G_EE_PITCH_DEADZONE := pitch_deadzone;
        G_EE_TILT_AXIS := tilt_axis;
        G_EE_PICK_SENSITIVITY := pick_sensitivity;
        G_EE_SIDE_BANK := side_bank;
        G_EE_SLEEP_TIME := sleep_time |}.

Definition load_colors (ee bank : Z) (d : nvm) (colors : list Z) : res (list Z) :=
  for_up 192 0 (fun i colors =>
    v ← eeprom_read (u16 (ee + NUM_BUTTONS * 3 * bank + i)) d;
    wr colors (192 * bank + i) v) colors.

Definition load_bank_colors (d : nvm) (bank : Z) (c : banks) : res banks :=
  li ← load_colors EE_COLORS_IDLE bank d c.(default_bank_inactive);
  let c := set_default_bank_inactive li c in
  la ← load_colors EE_COLORS_ACTIVE bank d c.(default_bank_active);
  Ok (set_default_bank_active la c).

Definition eeprom_setup (g : settings) (c : banks) (d : nvm) : res (settings * banks * nvm) :=
  version ← eeprom_read EE_EEPROM_VERSION d;
  '(g, c, d) ← (if negb (version =? EEPROM_LAYOUT) then eeprom_factory_reset c d
                else Ok (g, c, d));
  g ← read_settings d;
  c ← for_up 2 0 (load_bank_colors d) c;
  Ok (g, c, d).

(** ** Specifications *)

(** The single-byte slots [eeprom_save_edits] writes. *)
Definition slots (g : settings) : list (Z * Z) :=
  [(EE_MIDI_CHANNEL, g.(G_EE_MIDI_CHANNEL)); (EE_MIDI_VELOCITY, g.(G_EE_MIDI_VELOCITY));
   (EE_COMBOS_ENABLE, g.(G_EE_COMBOS_ENABLE)); (EE_MIDI_OUTPUT_MODE, g.(G_EE_MIDI_OUTPUT_MODE));
   (EE_FOUR_BANKS_MODE, g.(G_EE_FOUR_BANKS_MODE)); (EE_TILT_MODE, g.(G_EE_TILT_MODE));
   (EE_TILT_MASK, g.(G_EE_TILT_MASK)); (EE_ANIMATIONS, g.(G_EE_ANIMATIONS));
   (EE_TILT_SENSITIVITY, g.(G_EE_TILT_SENSITIVITY));
   (EE_PITCH_SENSITIVITY, g.(G_EE_PITCH_SENSITIVITY)); (EE_TILT_RANGE, g.(G_EE_TILT_RANGE));
   (EE_PITCH_RANGE, g.(G_EE_PITCH_RANGE)); (EE_TILT_DEADZONE, g.(G_EE_TILT_DEADZONE));
   (EE_PITCH_DEADZONE, g.(G_EE_PITCH_DEADZONE)); (EE_TILT_AXIS, g.(G_EE_TILT_AXIS));
   (EE_PICK_SENSITIVITY, g.(G_EE_PICK_SENSITIVITY)); (EE_SLEEP_TIME, g.(G_EE_SLEEP_TIME));
   (EE_SIDE_BANK, g.(G_EE_SIDE_BANK))].

Fixpoint write_slots (l : list (Z * Z)) (d : nvm) : res nvm :=
  match l with
  | [] => Ok d
  | (a, v) :: l => d ← eeprom_write a v d; write_slots l d
  end.

(** [settings] as they come back from the EEPROM: the self-test byte is not saved. *)
Definition with_self_test (v : Z) (g : settings) : settings :=
  mk_settings v g.(G_EE_MIDI_CHANNEL) g.(G_EE_MIDI_VELOCITY) g.(G_EE_COMBOS_ENABLE)
    g.(G_EE_MIDI_OUTPUT_MODE) g.(G_EE_FOUR_BANKS_MODE) g.(G_EE_TILT_MODE) g.(G_EE_TILT_MASK)
    g.(G_EE_ANIMATIONS) g.(G_EE_TILT_SENSITIVITY) g.(G_EE_PITCH_SENSITIVITY)
    g.(G_EE_TILT_RANGE) g.(G_EE_PITCH_RANGE) g.(G_EE_TILT_DEADZONE) g.(G_EE_PITCH_DEADZONE)
    g.(G_EE_TILT_AXIS) g.(G_EE_SIDE_BANK) g.(G_EE_PICK_SENSITIVITY) g.(G_EE_SLEEP_TIME).

(** The contents of an EEPROM that holds [g] and [c]. *)
Record holds (d : nvm) (g : settings) (c : banks) : Prop := {
  holds_slots : forall a v, (a, v) ∈ slots g -> rd d.(mem) a = Ok v;
  holds_idle : forall j, 0 <= j < 384 ->
    rd d.(mem) (EE_COLORS_IDLE + j) = rd c.(default_bank_inactive) j;
  holds_active : forall j, 0 <= j < 384 ->
    rd d.(mem) (EE_COLORS_ACTIVE + j) = rd c.(default_bank_active) j
}.

(** The addresses of the saved state. *)
Definition saved_address (x : Z) : Prop :=
  (exists v, (x, v) ∈ slots initial_settings) \/ EE_COLORS_IDLE <= x < EE_COLORS_ACTIVE + 384.

(** ** Lemmas *)

(** Membership in a literal list. *)
Ltac in_list := repeat first [apply list_elem_of_here | apply list_elem_of_further].

Lemma land_4095 a : 0 <= a < 4096 -> Z.land a 4095 = a.
Proof.
  intros Ha. change 4095 with (Z.ones 12). rewrite Z.land_ones by lia.
  apply Z.mod_small. lia.
Qed.

Lemma eeprom_write_spec a v d :
  nvm_wf d -> 0 <= a < 1024 ->
  exists d', eeprom_write a v d = Ok d' /\ nvm_wf d' /\
    forall x, rd d'.(mem) x = if x =? a then Ok v else rd d.(mem) x.
Proof.
  intros Hd Ha. unfold nvm_wf in *. unfold eeprom_write. rewrite land_4095 by lia.
  assert (Hw := wr_in_range d.(mem) a v ltac:(lia)). rewrite Hw.
  eexists. split; [reflexivity|]. split; [cbn; by rewrite length_insert|].
  intros x. destruct (Z.eqb_spec x a) as [->|Hne].
  - exact (rd_wr_eq _ _ _ _ Hw).
  - apply (rd_wr_ne _ _ _ _ _ Hw). lia.
Qed.

Lemma write_slots_spec l : forall d,
  nvm_wf d -> NoDup l.*1 -> Forall (fun s => 0 <= s.1 < 1024) l ->
  exists d', write_slots l d = Ok d' /\ nvm_wf d' /\
    (forall a v, (a, v) ∈ l -> rd d'.(mem) a = Ok v) /\
    (forall x, x ∉ l.*1 -> rd d'.(mem) x = rd d.(mem) x).
Proof.
  induction l as [|[a v] l IH]; intros d Hd Hnd Hf; cbn [write_slots].
  - exists d. split; [done|]. split; [done|]. split; [|done].
    intros a v H. by apply elem_of_nil in H.
  - assert (Hna := NoDup_cons_1_1 _ _ Hnd). apply NoDup_cons_1_2 in Hnd. apply Forall_cons_1 in Hf as [Ha Hf]. cbn in Ha.
    destruct (eeprom_write_spec a v d) as (d1 & -> & Hd1 & Hrd1); [done|done|].
    cbn [mbind res_bind]. destruct (IH d1) as (d2 & -> & Hd2 & Hin & Hout); [done|done|done|].
    exists d2. split; [done|]. split; [done|]. split.
    + intros b w Hb. apply elem_of_cons in Hb as [[= -> ->]|Hb]; [|by apply Hin].
      rewrite Hout by done. by rewrite Hrd1, Z.eqb_refl.
    + intros x Hx. cbn in Hx. apply not_elem_of_cons in Hx as [Hxa Hx].
      rewrite Hout, Hrd1 by done. by rewrite (proj2 (Z.eqb_neq _ _)) by done.
Qed.

Lemma save_settings_slots g d : save_settings g d = write_slots (slots g) d.
Proof.
  unfold save_settings, slots, write_slots.
  repeat (apply bind_ext; intros ?). symmetry. apply bind_ret.
Qed.

Lemma slots_nodup g : NoDup (slots g).*1.
Proof.
  assert (H : NoDup (slots initial_settings).*1) by (apply (bool_decide_unpack _); vm_compute; done).
  exact H.
Qed.

Lemma slots_low g : Forall (fun s => 2 <= s.1 < 111) (slots g).
Proof. apply (bool_decide_unpack _). vm_compute. done. Qed.

Lemma save_colors_spec ee bank colors d :
  nvm_wf d -> length colors = 384%nat -> 0 <= bank < 2 -> 0 <= ee -> ee + 384 <= 1024 ->
  exists d', save_colors ee bank colors d = Ok d' /\ nvm_wf d' /\
    forall x, rd d'.(mem) x =
      if (ee + 192 * bank <=? x) && (x <? ee + 192 * bank + 192) then rd colors (x - ee)
      else rd d.(mem) x.
Proof.
  intros Hd Hc Hb H0 H1. unfold save_colors.
  pose (inv := fun (k : Z) (d' : nvm) => nvm_wf d' /\
    forall x, rd d'.(mem) x =
      if (ee + 192 * bank <=? x) && (x <? ee + 192 * bank + k) then rd colors (x - ee)
      else rd d.(mem) x).
  edestruct (for_up_inv inv) as (d' & Hrun & Hinv); [| |exists d'; split; [exact Hrun|exact Hinv]].
  - split; [done|]. intros x. ifs; done.
  - intros k d1 Hk [Hd1 Hrd1].
    destruct (rd_in_range colors (192 * bank + k)) as [v Hv]; [lia|]. rewrite Hv. cbn [mbind res_bind].
    rewrite u16_small by lia.
    destruct (eeprom_write_spec (ee + 192 * bank + k) v d1) as (d2 & -> & Hd2 & Hrd2); [done|lia|].
    exists d2. split; [done|]. split; [done|]. intros x. rewrite Hrd2, Hrd1.
    destruct (Z.eqb_spec x (ee + 192 * bank + k)) as [->|Hne].
    + replace (ee + 192 * bank + k - ee) with (192 * bank + k) by lia.
      ifs; done.
    + ifs; done.
Qed.

(** One bank occupies two blocks, and two banks do not overlap. *)
Lemma save_bank_spec c bank d :
  nvm_wf d -> banks_wf c -> 0 <= bank < 2 ->
  exists d', save_bank c bank d = Ok d' /\ nvm_wf d' /\
    forall x, rd d'.(mem) x =
      if (495 + 192 * bank <=? x) && (x <? 495 + 192 * bank + 192)
      then rd c.(default_bank_active) (x - 495)
      else if (111 + 192 * bank <=? x) && (x <? 111 + 192 * bank + 192)
      then rd c.(default_bank_inactive) (x - 111) else rd d.(mem) x.
Proof.
  intros Hd [Hci Hca] Hb. unfold save_bank.
  destruct (save_colors_spec EE_COLORS_IDLE bank c.(default_bank_inactive) d)
    as (d1 & -> & Hd1 & H1); [done|done|done|done|done|]. cbn [mbind res_bind].
  destruct (save_colors_spec EE_COLORS_ACTIVE bank c.(default_bank_active) d1)
    as (d2 & -> & Hd2 & H2); [done|done|done|done|done|].
  exists d2. split; [done|]. split; [done|]. intros x. by rewrite H2, H1.
Qed.

Lemma save_edits_spec g c d :
  nvm_wf d -> banks_wf c ->
  exists d', eeprom_save_edits g c d = Ok d' /\ nvm_wf d' /\ holds d' g c /\
    forall x, ~ saved_address x -> rd d'.(mem) x = rd d.(mem) x.
Proof.
  intros Hd Hcw. unfold eeprom_save_edits. rewrite save_settings_slots.
  destruct (write_slots_spec (slots g) d) as (d1 & -> & Hd1 & Hin1 & Hout1);
    [done|apply slots_nodup|eapply Forall_impl; [|apply slots_low]; cbn; lia|].
  cbn [mbind res_bind for_up].
  destruct (save_bank_spec c 0 d1) as (d2 & -> & Hd2 & H2); [done|done|lia|].
  cbn [mbind res_bind]. rewrite Z.add_0_l.
  destruct (save_bank_spec c 1 d2) as (d5 & -> & Hd5 & H5); [done|done|lia|].
  cbn [mbind res_bind].
  assert (H : forall x, rd d5.(mem) x =
    if (EE_COLORS_ACTIVE <=? x) && (x <? EE_COLORS_ACTIVE + 384)
    then rd c.(default_bank_active) (x - EE_COLORS_ACTIVE)
    else if (EE_COLORS_IDLE <=? x) && (x <? EE_COLORS_ACTIVE)
    then rd c.(default_bank_inactive) (x - EE_COLORS_IDLE) else rd d1.(mem) x).
  { intros x. rewrite H5, H2. unfold EE_COLORS_ACTIVE, EE_COLORS_IDLE.
    ifs; done. }
  clear H2 H5. exists d5. split; [done|]. split; [done|]. split; [split|].
  - intros a v Ha. rewrite H.
    assert (Hin := Ha). apply list_elem_of_In in Hin.
    destruct (proj1 (Forall_forall _ _) (slots_low g) _ Hin) as [Hl Hh]. cbn in Hl, Hh.
    unfold EE_COLORS_ACTIVE, EE_COLORS_IDLE. rewrite (proj2 (Z.leb_gt _ _)) by lia.
    rewrite (proj2 (Z.leb_gt _ _)) by lia. by apply Hin1.
  - intros j Hj. rewrite H. unfold EE_COLORS_ACTIVE, EE_COLORS_IDLE.
    replace (111 + j - 111) with j by lia. ifs; done.
  - intros j Hj. rewrite H. unfold EE_COLORS_ACTIVE.
    replace (495 + j - 495) with j by lia. ifs; done.
  - intros x Hx. rewrite H. unfold saved_address in Hx.
    destruct (decide (EE_COLORS_IDLE <= x < EE_COLORS_ACTIVE + 384)) as [Hc|Hc]; [tauto|].
    replace (rd d.(mem) x) with (rd d1.(mem) x).
    2: { apply Hout1. intros Hs. apply Hx. left.
         change (slots g).*1 with (slots initial_settings).*1 in Hs.
         apply list_elem_of_fmap in Hs as ([a v] & -> & Hs). by exists v. }
    unfold EE_COLORS_ACTIVE, EE_COLORS_IDLE in *. ifs; done.
Qed.

Lemma load_colors_spec ee bank d colors :
  nvm_wf d -> length colors = 384%nat -> 0 <= bank < 2 -> 0 <= ee -> ee + 384 <= 1024 ->
  exists l, load_colors ee bank d colors = Ok l /\ length l = 384%nat /\
    forall j, rd l j = if (192 * bank <=? j) && (j <? 192 * bank + 192) then rd d.(mem) (ee + j)
                       else rd colors j.
Proof.
  intros Hd Hc Hb H0 H1. unfold load_colors, nvm_wf in *.
  pose (inv := fun (k : Z) (l : list Z) => length l = 384%nat /\
    forall j, rd l j = if (192 * bank <=? j) && (j <? 192 * bank + k) then rd d.(mem) (ee + j)
                       else rd colors j).
  edestruct (for_up_inv inv) as (l & Hrun & Hinv); [| |exists l; split; [exact Hrun|exact Hinv]].
  - split; [done|]. intros x. ifs; done.
  - intros k l1 Hk [Hl1 Hrd1]. unfold NUM_BUTTONS, eeprom_read. rewrite u16_small by lia.
    replace (ee + 64 * 3 * bank + k) with (ee + (192 * bank + k)) by lia.
    destruct (rd_in_range d.(mem) (ee + (192 * bank + k))) as [v Hv]; [lia|].
    rewrite Hv. cbn [mbind res_bind].
    assert (Hw := wr_in_range l1 (192 * bank + k) v ltac:(lia)).
    eexists. split; [exact Hw|]. split; [by rewrite length_insert|].
    intros j. destruct (Z.eq_dec j (192 * bank + k)) as [->|Hne].
    + rewrite (rd_wr_eq _ _ _ _ Hw). ifs; done.
    + rewrite (rd_wr_ne _ _ j _ _ Hw), Hrd1 by lia. ifs; done.
Qed.

Lemma load_bank_colors_spec d bank c :
  nvm_wf d -> banks_wf c -> 0 <= bank < 2 ->
  exists c', load_bank_colors d bank c = Ok c' /\ banks_wf c' /\
    (forall j, rd c'.(default_bank_inactive) j =
       if (192 * bank <=? j) && (j <? 192 * bank + 192) then rd d.(mem) (EE_COLORS_IDLE + j)
       else rd c.(default_bank_inactive) j) /\
    (forall j, rd c'.(default_bank_active) j =
       if (192 * bank <=? j) && (j <? 192 * bank + 192) then rd d.(mem) (EE_COLORS_ACTIVE + j)
       else rd c.(default_bank_active) j).
Proof.
  intros Hd [Hci Hca] Hb. unfold load_bank_colors.
  destruct (load_colors_spec EE_COLORS_IDLE bank d c.(default_bank_inactive))
    as (li & -> & Hli & Hi); [done|done|done|done|done|]. cbn [mbind res_bind].
  change (default_bank_active (set_default_bank_inactive li c)) with (default_bank_active c).
  destruct (load_colors_spec EE_COLORS_ACTIVE bank d c.(default_bank_active))
    as (la & -> & Hla & Ha); [done|done|done|done|done|]. cbn [mbind res_bind].
  eexists. split; [done|]. split; [by split|]. by split.
Qed.

(** Reading back what the EEPROM holds. *)
Lemma load_holds d g c c0 :
  nvm_wf d -> banks_wf c -> banks_wf c0 -> holds d g c ->
  for_up 2 0 (load_bank_colors d) c0 = Ok c.
Proof.
  intros Hd [Hci Hca] Hc0 [_ Hidle Hact]. cbn [for_up].
  destruct (load_bank_colors_spec d 0 c0) as (c1 & -> & Hc1 & Hi1 & Ha1); [done|done|lia|].
  cbn [mbind res_bind]. rewrite Z.add_0_l.
  destruct (load_bank_colors_spec d 1 c1) as (c2 & -> & [Hc2i Hc2a] & Hi2 & Ha2); [done|done|lia|].
  cbn. f_equal. destruct c as [ci ca], c2 as [ci2 ca2]. cbn in *. f_equal.
  - apply rd_ext; [lia|]. intros j Hj. rewrite Hi2, Hi1, <-Hidle by lia.
    ifs; done.
  - apply rd_ext; [lia|]. intros j Hj. rewrite Ha2, Ha1, <-Hact by lia.
    ifs; done.
Qed.

Lemma read_holds d g c st :
  holds d g c -> rd d.(mem) EE_FIRST_BOOT_CHECK = Ok st ->
  read_settings d = Ok (with_self_test st g).
Proof.
  intros [Hs _ _] Hst. unfold read_settings, eeprom_read. rewrite Hst. cbn [mbind res_bind].
  repeat (erewrite Hs; [|unfold slots; in_list]; cbn [mbind res_bind]). done.
Qed.

(** With the current layout, setup only reads. *)
Lemma setup_current g0 c0 d g c :
  eeprom_read EE_EEPROM_VERSION d = Ok EEPROM_LAYOUT ->
  read_settings d = Ok g -> for_up 2 0 (load_bank_colors d) c0 = Ok c ->
  eeprom_setup g0 c0 d = Ok (g, c, d).
Proof.
  intros Hv Hg Hc. unfold eeprom_setup. rewrite Hv. cbn [mbind res_bind].
  change (negb (EEPROM_LAYOUT =? EEPROM_LAYOUT)) with false. cbn [mbind res_bind].
  rewrite Hg. cbn [mbind res_bind]. by rewrite Hc.
Qed.

Lemma not_saved x : x < 2 -> ~ saved_address x.
Proof.
  intros Hx [[v Hv]|Hr].
  - apply list_elem_of_In in Hv.
    destruct (proj1 (Forall_forall _ _) (slots_low initial_settings) _ Hv) as [Hl _].
    cbn in Hl. lia.
  - unfold EE_COLORS_IDLE in Hr. lia.
Qed.

Lemma version_not_saved : ~ saved_address EE_EEPROM_VERSION.
Proof. by apply not_saved. Qed.
Lemma boot_check_not_saved : ~ saved_address EE_FIRST_BOOT_CHECK.
Proof. by apply not_saved. Qed.

(** Loading what was saved. *)
Lemma save_then_setup g c d st :
  nvm_wf d -> banks_wf c ->
  eeprom_read EE_EEPROM_VERSION d = Ok EEPROM_LAYOUT ->
  eeprom_read EE_FIRST_BOOT_CHECK d = Ok st ->
  exists d', eeprom_save_edits g c d = Ok d' /\
    (forall g0 c0 r, banks_wf c0 ->
       eeprom_setup g0 c0 (mk_nvm d'.(mem) r) = Ok (with_self_test st g, c, mk_nvm d'.(mem) r)) /\
    (forall x, ~ saved_address x -> rd d'.(mem) x = rd d.(mem) x).
Proof.
  intros Hd Hc Hver Hst.
  destruct (save_edits_spec g c d) as (d' & Hsave & Hd' & Hh & Hout); [done|done|].
  exists d'. split; [done|]. split; [|done]. intros g0 c0 r Hc0.
  assert (Hh' : holds (mk_nvm d'.(mem) r) g c) by (by destruct Hh; split).
  apply setup_current.
  - unfold eeprom_read. cbn [mem]. by rewrite Hout by apply version_not_saved.
  - apply (read_holds _ g c st); [done|]. cbn [mem]. by rewrite Hout by apply boot_check_not_saved.
  - by apply (load_holds _ g c c0).
Qed.

(** Setting up never faults, whatever the EEPROM holds. *)
Lemma read_settings_total d : nvm_wf d -> exists g, read_settings d = Ok g.
Proof.
  intros Hd. unfold nvm_wf in Hd. unfold read_settings, eeprom_read.
  assert (Hrd : forall a, 0 <= a < 1024 -> exists v, rd d.(mem) a = Ok v)
    by (intros a Ha; apply rd_in_range; lia).
  repeat match goal with |- context [rd d.(mem) ?a] =>
    let E := fresh in destruct (Hrd a) as [? E]; [by vm_compute|]; rewrite E;
    cbn [mbind res_bind]; clear E end. eauto.
Qed.

Lemma load_total d c :
  nvm_wf d -> banks_wf c -> exists c', for_up 2 0 (load_bank_colors d) c = Ok c' /\ banks_wf c'.
Proof.
  intros Hd Hc. apply (for_up_ok banks_wf); [done|]. intros k c1 Hk Hc1.
  destruct (load_bank_colors_spec d k c1) as (c2 & -> & Hc2 & _); [done|done|lia|]. by exists c2.
Qed.

Lemma setup_total g c d :
  nvm_wf d -> banks_wf c ->
  exists g' c' d', eeprom_setup g c d = Ok (g', c', d') /\ banks_wf c' /\ nvm_wf d'.
Proof.
  intros Hd Hc. unfold eeprom_setup, eeprom_read. unfold nvm_wf in Hd.
  destruct (rd_in_range d.(mem) EE_EEPROM_VERSION) as [v ->]; [rewrite Hd; by vm_compute|].
  cbn [mbind res_bind].
  assert (H1 : exists g1 c1 d1, (if negb (v =? EEPROM_LAYOUT) then eeprom_factory_reset c d
      else Ok (g, c, d)) = Ok (g1, c1, d1) /\ banks_wf c1 /\ nvm_wf d1).
  { destruct (negb _); [|by exists g, c, d]. unfold eeprom_factory_reset.
    destruct (eeprom_write_spec EE_EEPROM_VERSION EEPROM_LAYOUT d) as (d1 & -> & Hd1 & _);
      [done|by vm_compute|]. cbn [mbind res_bind].
    destruct (load_default_colors_ok c Hc) as (c1 & -> & Hc1). cbn [mbind res_bind].
    destruct (save_edits_spec factory_settings c1 d1) as (d2 & -> & Hd2 & _); [done|done|].
    by eexists _, c1, d2. }
  destruct H1 as (g1 & c1 & d1 & -> & Hc1 & Hd1). rewrite bind_Ok.
  destruct (read_settings_total d1 Hd1) as [g2 ->]. rewrite bind_Ok.
  destruct (load_total d1 c1 Hd1 Hc1) as (c2 & -> & Hc2). rewrite bind_Ok. by eexists _, c2, d1.
Qed.

(** ** Theorems *)

(** C12: Saving and loading are inverse: after [eeprom_save_edits] succeeds, which it does
    on every well-formed state, [eeprom_setup] restores exactly the saved settings and
    colours whatever the globals and the registers hold (as after a restart), except for the
    self-test byte, which is read but never saved; and saving changes no byte outside the
    slots of the memory map. *)
Theorem save_setup_roundtrip g c d st :
  nvm_wf d -> banks_wf c ->
  eeprom_read EE_EEPROM_VERSION d = Ok EEPROM_LAYOUT ->
  eeprom_read EE_FIRST_BOOT_CHECK d = Ok st ->
  exists d', eeprom_save_edits g c d = Ok d' /\
    (forall g0 c0 r, banks_wf c0 ->
       eeprom_setup g0 c0 (mk_nvm d'.(mem) r) = Ok (with_self_test st g, c, mk_nvm d'.(mem) r)) /\
    (forall x, ~ saved_address x -> rd d'.(mem) x = rd d.(mem) x).
Proof. apply save_then_setup. Qed.

Lemma save_setup_roundtrip_witness :
  exists d', eeprom_save_edits factory_settings initial_banks
      (mk_nvm (1 :: replicate 1023 0) reset) = Ok d' /\
    eeprom_setup initial_settings initial_banks (mk_nvm d'.(mem) reset) =
      Ok (with_self_test 0 factory_settings, initial_banks, mk_nvm d'.(mem) reset).
Proof.
  destruct (save_setup_roundtrip factory_settings initial_banks
    (mk_nvm (1 :: replicate 1023 0) reset) 0) as (d' & H & Hs & _);
    [reflexivity|split; reflexivity|reflexivity|reflexivity|].
  exists d'. split; [exact H|]. apply Hs. split; reflexivity.
Defined.

(** An EEPROM with another layout version, an erased one included, is reset to
    the factory settings and the default colours when the device starts; the
    version is then current, so the next start leaves the EEPROM alone and loads
    the same settings and colours. *)
Theorem setup_resets_old_layout g c d st version :
  nvm_wf d -> banks_wf c ->
  eeprom_read EE_EEPROM_VERSION d = Ok version -> version <> EEPROM_LAYOUT ->
  eeprom_read EE_FIRST_BOOT_CHECK d = Ok st ->
  exists c' d', load_default_colors c = Ok c' /\
    eeprom_setup g c d = Ok (with_self_test st factory_settings, c', d') /\
    eeprom_read EE_EEPROM_VERSION d' = Ok EEPROM_LAYOUT /\
    forall g0 c0, banks_wf c0 ->
      eeprom_setup g0 c0 d' = Ok (with_self_test st factory_settings, c', d').
Proof.
  intros Hd Hc Hver Hne Hst.
  destruct (load_default_colors_ok c Hc) as (c' & Hload & Hc').
  destruct (eeprom_write_spec EE_EEPROM_VERSION EEPROM_LAYOUT d) as (d1 & Hw & Hd1 & Hrd1);
    [done|done|].
  destruct (save_edits_spec factory_settings c' d1) as (d2 & Hsave & Hd2 & Hh & Hout);
    [done|done|].
  assert (Hread : forall c0, banks_wf c0 ->
    read_settings d2 = Ok (with_self_test st factory_settings) /\
    for_up 2 0 (load_bank_colors d2) c0 = Ok c').
  { intros c0 Hc0. split; [|by apply (load_holds d2 factory_settings)].
    apply (read_holds d2 factory_settings c'); [done|].
    rewrite Hout, Hrd1 by apply boot_check_not_saved. done. }
  assert (Hv2 : eeprom_read EE_EEPROM_VERSION d2 = Ok EEPROM_LAYOUT).
  { unfold eeprom_read. rewrite Hout, Hrd1 by apply version_not_saved. done. }
  exists c', d2. split; [done|]. split; [|split; [done|]].
  - unfold eeprom_setup. rewrite Hver. cbn [mbind res_bind].
    rewrite (proj2 (Z.eqb_neq _ _)) by done. cbn [negb].
    unfold eeprom_factory_reset. rewrite Hw. cbn [mbind res_bind]. rewrite Hload.
    cbn [mbind res_bind]. rewrite Hsave. cbn [mbind res_bind].
    destruct (Hread c' Hc') as [-> H2]. cbn [mbind res_bind]. by rewrite H2.
  - intros g0 c0 Hc0. destruct (Hread c0 Hc0) as [H1 H2]. by apply setup_current.
Qed.

Lemma setup_resets_old_layout_witness :
  exists c' d', load_default_colors initial_banks = Ok c' /\
    eeprom_setup initial_settings initial_banks (mk_nvm (replicate 1024 255) reset) =
      Ok (with_self_test 255 factory_settings, c', d').
Proof.
  destruct (setup_resets_old_layout initial_settings initial_banks
    (mk_nvm (replicate 1024 255) reset) 255 255) as (c' & d' & H1 & H2 & _);
    [reflexivity|split; reflexivity|reflexivity|discriminate|reflexivity|].
  exists c', d'. split; [exact H1|exact H2].
Defined.

End Eeprom.
