(* ===== verification/Sysex.v ===== *)
(** * sysex.c: reassembly and dispatch of incoming SysEx messages

    USB-MIDI splits a SysEx message into packets of up to three bytes; sysex.c
    collects the bytes in [sysex_buffer] and calls the handler of the command.
    Function pointers are values of a type [SysExFn]; [call] runs one on the
    rest [W] of the device, which may also send messages. *)

From S2P Require Import Prelude.
From S2P Require Import Midi.

Module Sysex.
Import Midi.

Inductive state := State_Begin | State_CheckMID | State_Invalid | State_NonRealtime | State_DJTT.

#[export] Instance state_eq_dec : EqDecision state.
Proof. solve_decision. Defined.

Definition MAX_COMMAND : Z := 8.

Section sysex.
Context {SysExFn W : Type} `{MidiOut W}.
Variable call : SysExFn -> Z -> list Z -> W -> res W.
Variable g_midi_sysex_channel : Z.

(** [sysex_ptr] is an offset into [sysex_buffer], [None] while it is [NULL]. *)
Record sysex_globals := mk_sysex {
  sysex_buffer : list Z;
  sysex_state : state;
  sysExCommandMap : list (option SysExFn);
  sysex_is_reading : bool;
  sysex_ptr : option Z
}.

Definition set_sysex_buffer (v : list Z) (s : sysex_globals) : sysex_globals :=
  mk_sysex v s.(sysex_state) s.(sysExCommandMap) s.(sysex_is_reading) s.(sysex_ptr).
Definition set_sysex_state (v : state) (s : sysex_globals) : sysex_globals :=
  mk_sysex s.(sysex_buffer) v s.(sysExCommandMap) s.(sysex_is_reading) s.(sysex_ptr).
Definition set_sysExCommandMap (v : list (option SysExFn)) (s : sysex_globals) : sysex_globals :=
  mk_sysex s.(sysex_buffer) s.(sysex_state) v s.(sysex_is_reading) s.(sysex_ptr).
Definition set_sysex_is_reading (v : bool) (s : sysex_globals) : sysex_globals :=
  mk_sysex s.(sysex_buffer) s.(sysex_state) s.(sysExCommandMap) v s.(sysex_ptr).
Definition set_sysex_ptr (v : option Z) (s : sysex_globals) : sysex_globals :=
  mk_sysex s.(sysex_buffer) s.(sysex_state) s.(sysExCommandMap) s.(sysex_is_reading) v.

Definition initial_sysex : sysex_globals :=
  mk_sysex (replicate 64 0) State_Begin (replicate 8 None) false None.

(** ** Dispatch *)

Definition identity_reply : list Z :=
  [240; 126; 127; 6; 2;
   0; Z.shiftr MANUFACTURER_ID 8; Z.land MANUFACTURER_ID 127;
   DEVICE_FAMILY_LSB; DEVICE_FAMILY_MSB;
   DEVICE_MODEL_LSB; DEVICE_MODEL_MSB;
   u8 (Z.shiftr DEVICE_VERSION_YEAR 8);
   Z.land DEVICE_VERSION_YEAR 127;
   DEVICE_VERSION_MONTH;
   DEVICE_VERSION_DAY;
   247].

Definition state_eqb (a b : state) : bool := bool_decide (a = b).

(** [sysExCommandMap\[command - 1\]], [None] for a null pointer. *)
Definition command_handler (s : sysex_globals) (command : Z) : option SysExFn :=
  if (0 <? command) && (command <=? MAX_COMMAND)
  then s.(sysExCommandMap) !! Z.to_nat (command - 1) ≫= id
  else None.

Definition sysex_handle (length : Z) (s : sysex_globals) (w : W) : res W :=
  if state_eqb s.(sysex_state) State_DJTT && (0 <? length) then
    command ← rd s.(sysex_buffer) 0;
    match command_handler s command with
    | Some fn => call fn (u8 (length - 1)) (drop 1 s.(sysex_buffer)) w
    | None => Ok w
    end
  else if state_eqb s.(sysex_state) State_NonRealtime then
    if 2 <=? length then
      b0 ← rd s.(sysex_buffer) 0;
      b1 ← rd s.(sysex_buffer) 1;
      if (b0 =? 6) && (b1 =? 1) then midi_stream_sysex 17 identity_reply w else Ok w
    else Ok w
  else Ok w.

Definition sysex_install_ (cmd : Z) (fn : SysExFn) (s : sysex_globals) : sysex_globals :=
  if (0 <? cmd) && (cmd <=? MAX_COMMAND)
  then set_sysExCommandMap (<[Z.to_nat (cmd - 1) := Some fn]> s.(sysExCommandMap)) s
  else s.

(** ** Reassembly *)

(** [sysex_ptr + n < buffer_end]; a null pointer compares below the buffer. *)
Definition room (n : Z) (s : sysex_globals) : bool :=
  match s.(sysex_ptr) with
  | Some p => p + n <? MIDI_MAX_SYSEX
  | None => true
  end.

(** [*sysex_ptr++ = b]. *)
Definition put_byte (b : Z) (s : sysex_globals) : res sysex_globals :=
  match s.(sysex_ptr) with
  | None => Fault NullPointer
  | Some p =>
      l ← wr s.(sysex_buffer) p b;
      Ok (set_sysex_ptr (Some (p + 1)) (set_sysex_buffer l s))
  end.

Fixpoint put_bytes (bs : list Z) (s : sysex_globals) : res sysex_globals :=
  match bs with
  | [] => Ok s
  | b :: bs => s ← put_byte b s; put_bytes bs s
  end.

(** [sysex_handle((uint8_t)(sysex_ptr - sysex_buffer))]. *)
Definition handle_received (s : sysex_globals) (w : W) : res W :=
  match s.(sysex_ptr) with
  | Some p => sysex_handle (u8 p) s w
  | None => Fault NullPointer
  end.

Definition sysex_handle_3sc (packet : packet) (s : sysex_globals) : res sysex_globals :=
  if negb s.(sysex_is_reading) then
    let s := set_sysex_is_reading true s in
    let s := set_sysex_ptr (Some 0) s in
    if (packet.(Data1) =? 240) && (packet.(Data2) =? 126) &&
       ((packet.(Data3) =? g_midi_sysex_channel) || (packet.(Data3) =? 127))
    then Ok (set_sysex_state State_NonRealtime s)
    else if (packet.(Data1) =? 240) && (packet.(Data2) =? MIDI_MFR_ID_0) &&
            (packet.(Data3) =? MIDI_MFR_ID_1)
    then Ok (set_sysex_state State_CheckMID s)
    else Ok (set_sysex_state State_Invalid s)
  else if state_eqb s.(sysex_state) State_CheckMID then
    if (packet.(Data1) =? MIDI_MFR_ID_2) && room 2 s
    then put_bytes [packet.(Data2); packet.(Data3)] (set_sysex_state State_DJTT s)
    else Ok (set_sysex_state State_Invalid s)
  else if state_eqb s.(sysex_state) State_Invalid then Ok s
  else if room 3 s then put_bytes [packet.(Data1); packet.(Data2); packet.(Data3)] s
  else Ok (set_sysex_state State_Invalid s).

Definition sysex_handle_3e (packet : packet) (s : sysex_globals) (w : W)
    : res (sysex_globals * W) :=
  let s := set_sysex_is_reading false s in
  '(s, w) ←
    (if state_eqb s.(sysex_state) State_CheckMID then
       if (packet.(Data1) =? MIDI_MFR_ID_2) && room 2 s then
         s ← put_bytes [packet.(Data2); packet.(Data3)] (set_sysex_state State_DJTT s);
         w ← handle_received s w;
         Ok (s, w)
       else Ok (s, w)
     else if negb (state_eqb s.(sysex_state) State_Invalid) then
       if room 3 s then
         s ← put_bytes [packet.(Data1); packet.(Data2); packet.(Data3)] s;
         w ← handle_received s w;
         Ok (s, w)
       else Ok (s, w)
     else Ok (s, w));
  Ok (set_sysex_state State_Begin s, w).

(** The common body of [sysex_handle_2e] and [sysex_handle_1e]. *)
Definition end_short (bytes : list Z) (s : sysex_globals) (w : W) : res (sysex_globals * W) :=
  if s.(sysex_is_reading) then
    let s := set_sysex_is_reading false s in
    '(s, w) ←
      (if negb (state_eqb s.(sysex_state) State_Invalid) then
         if room (Z.of_nat (length bytes)) s then
           s ← put_bytes bytes s;
           w ← handle_received s w;
           Ok (s, w)
         else Ok (s, w)
       else Ok (s, w));
    Ok (set_sysex_state State_Begin s, w)
  else Ok (s, w).

Definition sysex_handle_2e (packet : packet) (s : sysex_globals) (w : W)
    : res (sysex_globals * W) :=
  end_short [packet.(Data1); packet.(Data2)] s w.

Definition sysex_handle_1e (packet : packet) (s : sysex_globals) (w : W)
    : res (sysex_globals * W) :=
  end_short [packet.(Data1)] s w.

(** The SysEx cases of the packet switch in midifighter64.c. *)
Definition sysex_event (p : packet) (s : sysex_globals) (w : W) : res (sysex_globals * W) :=
  let command := Z.land p.(Event) 15 in
  if command =? 4 then s ← sysex_handle_3sc p s; Ok (s, w)
  else if command =? 5 then sysex_handle_1e p s w
  else if command =? 6 then sysex_handle_2e p s w
  else if command =? 7 then sysex_handle_3e p s w
  else Ok (s, w).

Fixpoint sysex_events (ps : list packet) (s : sysex_globals) (w : W) : res (sysex_globals * W) :=
  match ps with
  | [] => Ok (s, w)
  | p :: ps => '(s, w) ← sysex_event p s w; sysex_events ps s w
  end.

(** ** Specifications *)

(** Between two messages. *)
Definition idle (s : sysex_globals) : Prop :=
  s.(sysex_state) = State_Begin /\ s.(sysex_is_reading) = false.

(** What the firmware keeps true of the SysEx globals: the pointer stays inside
    the buffer, and it is null only before the first message. *)
Record sysex_wf (s : sysex_globals) : Prop := {
  wf_buffer : length s.(sysex_buffer) = 64%nat;
  wf_ptr : match s.(sysex_ptr) with
           | Some p => 0 <= p < 64
           | None => s.(sysex_is_reading) = false
           end
}.

(** The messages the device ignores: not a universal non-realtime message for
    its channel and not from its manufacturer, or longer than the buffer. *)
Definition ignored (data : list Z) : bool :=
  match data with
  | a :: b :: c :: d :: l =>
      let universal := (a =? 240) && (b =? 126) && ((c =? g_midi_sysex_channel) || (c =? 127)) in
      let djtt := (a =? 240) && (b =? MIDI_MFR_ID_0) && (c =? MIDI_MFR_ID_1) in
      if universal then 63 <? Z.of_nat (length (d :: l))
      else if djtt then negb (d =? MIDI_MFR_ID_2) || (63 <? Z.of_nat (length l))
      else true
  | _ => false
  end.

(** ** Lemmas *)

Lemma put_bytes_spec bs : forall s p,
  s.(sysex_ptr) = Some p -> 0 <= p -> p + Z.of_nat (length bs) <= Z.of_nat (length s.(sysex_buffer)) ->
  put_bytes bs s = Ok (mk_sysex (list_inserts (Z.to_nat p) bs s.(sysex_buffer)) s.(sysex_state)
    s.(sysExCommandMap) s.(sysex_is_reading) (Some (p + Z.of_nat (length bs)))).
Proof.
  induction bs as [|b bs IH]; intros s p Hp H0 Hl; cbn [put_bytes].
  - cbn. rewrite Z.add_0_r, <-Hp. by destruct s.
  - cbn [length] in Hl. unfold put_byte. rewrite Hp, wr_in_range by lia. cbn [mbind res_bind].
    rewrite (IH _ (p + 1)); [|done|lia|cbn; rewrite length_insert; lia].
    cbn [length list_inserts sysex_buffer sysex_state sysExCommandMap sysex_is_reading
      set_sysex_ptr set_sysex_buffer].
    replace (p + 1 + Z.of_nat (length bs)) with (p + Z.of_nat (S (length bs))) by lia.
    rewrite list_insert_inserts_lt by lia.
    by replace (Z.to_nat (p + 1)) with (S (Z.to_nat p)) by lia.
Qed.

(** The state after the last byte of a message of which [data] was still to come. *)
Definition received (k : Z) (data : list Z) (s : sysex_globals) : sysex_globals :=
  mk_sysex (list_inserts (Z.to_nat k) data s.(sysex_buffer)) s.(sysex_state)
    s.(sysExCommandMap) false (Some (k + Z.of_nat (length data))).

(** The end of a message: the handler runs and the state is reset. *)
Definition finish (k : Z) (data : list Z) (s : sysex_globals) (w : W) : res (sysex_globals * W) :=
  w ← sysex_handle (k + Z.of_nat (length data)) (received k data s) w;
  Ok (set_sysex_state State_Begin (received k data s), w).

Definition accepting (s : sysex_globals) : Prop :=
  s.(sysex_state) = State_DJTT \/ s.(sysex_state) = State_NonRealtime.

Lemma room_spec n s p : s.(sysex_ptr) = Some p -> room n s = (p + n <? 64).
Proof. intros Hp. unfold room. by rewrite Hp. Qed.

Lemma accepting_eqb s :
  accepting s -> state_eqb s.(sysex_state) State_CheckMID = false /\
                 state_eqb s.(sysex_state) State_Invalid = false.
Proof. by intros [->| ->]. Qed.

(** Storing the last bytes and running the handler, shared by the three ways a
    message can end. *)
Lemma end_bytes bs s k w :
  s.(sysex_ptr) = Some k -> 0 <= k -> k + Z.of_nat (length bs) < 64 ->
  length s.(sysex_buffer) = 64%nat ->
  (s' ← put_bytes bs (set_sysex_is_reading false s); w' ← handle_received s' w; Ok (s', w')) =
  (w' ← sysex_handle (k + Z.of_nat (length bs)) (received k bs s) w; Ok (received k bs s, w')).
Proof.
  intros Hp Hk Hl Hb. rewrite (put_bytes_spec bs _ k); [|done|done|cbn; lia].
  cbn [mbind res_bind]. unfold handle_received. cbn [sysex_ptr].
  by rewrite u8_small by lia.
Qed.

Lemma end_short_ok bs s k w :
  state_eqb s.(sysex_state) State_Invalid = false -> s.(sysex_is_reading) = true -> s.(sysex_ptr) = Some k ->
  length s.(sysex_buffer) = 64%nat -> 0 <= k -> k + Z.of_nat (length bs) < 64 ->
  end_short bs s w = finish k bs s w.
Proof.
  intros Hi Hread Hptr Hlen Hk Hmax.
  unfold end_short. rewrite Hread.
  change (sysex_state (set_sysex_is_reading false s)) with s.(sysex_state). rewrite Hi.
  rewrite (room_spec _ _ k), (proj2 (Z.ltb_lt _ _)) by done. cbn [negb].
  rewrite (end_bytes bs s k) by done. unfold finish. by destruct (sysex_handle _ _ _).
Qed.

Lemma handle_3e_ok e a b c s k w :
  accepting s -> s.(sysex_ptr) = Some k ->
  length s.(sysex_buffer) = 64%nat -> 0 <= k -> k + 3 < 64 ->
  sysex_handle_3e (mk_packet e a b c) s w = finish k [a; b; c] s w.
Proof.
  intros Hacc Hptr Hlen Hk Hmax. destruct (accepting_eqb s Hacc) as [Hc Hi].
  unfold sysex_handle_3e.
  change (sysex_state (set_sysex_is_reading false s)) with s.(sysex_state). rewrite Hc, Hi.
  rewrite (room_spec _ _ k), (proj2 (Z.ltb_lt _ _)) by done. cbn [negb].
  rewrite (end_bytes [a; b; c] s k) by (cbn; done || lia).
  unfold finish. by destruct (sysex_handle _ _ _).
Qed.

Lemma handle_3sc_continue e a b c s k :
  accepting s -> s.(sysex_is_reading) = true -> s.(sysex_ptr) = Some k ->
  length s.(sysex_buffer) = 64%nat -> 0 <= k -> k + 3 < 64 ->
  sysex_handle_3sc (mk_packet e a b c) s =
  Ok (mk_sysex (list_inserts (Z.to_nat k) [a; b; c] s.(sysex_buffer)) s.(sysex_state)
    s.(sysExCommandMap) true (Some (k + 3))).
Proof.
  intros Hacc Hread Hptr Hlen Hk Hmax. destruct (accepting_eqb s Hacc) as [Hc Hi].
  unfold sysex_handle_3sc. rewrite Hread, Hc, Hi. cbn [negb].
  rewrite (room_spec _ _ k), (proj2 (Z.ltb_lt _ _)) by done.
  rewrite (put_bytes_spec _ _ k); [by rewrite Hread|done|done|cbn; lia].
Qed.

Lemma events_cons p ps s w :
  sysex_events (p :: ps) s w = ('(s, w) ← sysex_event p s w; sysex_events ps s w).
Proof. done. Qed.

Lemma events_one p s w : sysex_events [p] s w = sysex_event p s w.
Proof. cbn. by destruct (sysex_event p s w) as [[? ?]|]. Qed.

(** Which handler each packet reaches. *)
Lemma event_4 a b c s w :
  sysex_event (mk_packet 4 a b c) s w = (s ← sysex_handle_3sc (mk_packet 4 a b c) s; Ok (s, w)).
Proof. done. Qed.
Lemma event_5 a b c s w : sysex_event (mk_packet 5 a b c) s w = end_short [a] s w.
Proof. done. Qed.
Lemma event_6 a b c s w : sysex_event (mk_packet 6 a b c) s w = end_short [a; b] s w.
Proof. done. Qed.
Lemma event_7 a b c s w :
  sysex_event (mk_packet 7 a b c) s w = sysex_handle_3e (mk_packet 7 a b c) s w.
Proof. done. Qed.

(** A message the device accepts is collected in the buffer, byte for byte, and
    handled when its last packet arrives. *)
Lemma collect data : forall s k w,
  accepting s -> s.(sysex_is_reading) = true -> s.(sysex_ptr) = Some k ->
  length s.(sysex_buffer) = 64%nat -> data <> [] -> 0 <= k -> k + Z.of_nat (length data) < 64 ->
  sysex_events (sysex_packets false data) s w = finish k data s w.
Proof.
  induction data as [|a|a b|a b c|a b c d l IH] using chunk3_ind;
    intros s k w Hacc Hread Hptr Hlen Hne Hk Hmax; [done|..].
  - cbn [sysex_packets last_packet]. rewrite events_one, event_5.
    apply end_short_ok; try done. by apply accepting_eqb.
  - cbn [sysex_packets last_packet]. rewrite events_one, event_6.
    apply end_short_ok; try done. by apply accepting_eqb.
  - cbn [sysex_packets last_packet]. rewrite events_one, event_7. by apply handle_3e_ok.
  - cbn [length] in Hmax. rewrite sysex_packets_cons, events_cons.
    rewrite event_4, (handle_3sc_continue 4 a b c s k) by (done || lia). cbn [mbind res_bind].
    rewrite (IH _ (k + 3)); [| |done|done| |done|lia|cbn; lia].
    2: { by destruct Hacc as [E|E]; [left|right]. }
    2: { cbn [sysex_buffer]. by rewrite length_inserts. }
    unfold finish, received. cbn [sysex_buffer sysex_state sysExCommandMap].
    replace (Z.to_nat (k + 3)) with (length [a; b; c] + Z.to_nat k)%nat by (cbn; lia).
    rewrite <-list_inserts_app_l. cbn [app].
    replace (k + 3 + Z.of_nat (length (d :: l)))
      with (k + Z.of_nat (length (a :: b :: c :: d :: l))) by (cbn; lia). done.
Qed.

(** An invalid message is dropped. *)
Definition dropped (ps : list packet) (s : sysex_globals) (w : W) : Prop :=
  exists s', sysex_events ps s w = Ok (s', w) /\ idle s' /\
    s'.(sysExCommandMap) = s.(sysExCommandMap).

Lemma end_short_invalid bs s w :
  s.(sysex_state) = State_Invalid -> s.(sysex_is_reading) = true ->
  end_short bs s w = Ok (set_sysex_state State_Begin (set_sysex_is_reading false s), w).
Proof. intros Hi Hr. unfold end_short. rewrite Hr. cbn [sysex_state set_sysex_is_reading]. by rewrite Hi. Qed.

Lemma invalid_dropped data : forall s w,
  s.(sysex_state) = State_Invalid -> s.(sysex_is_reading) = true -> data <> [] ->
  dropped (sysex_packets false data) s w.
Proof.
  induction data as [|a|a b|a b c|a b c d l IH] using chunk3_ind; intros s w Hi Hr Hne; [done|..].
  - exists (set_sysex_state State_Begin (set_sysex_is_reading false s)).
    cbn [sysex_packets last_packet]. by rewrite events_one, event_5, end_short_invalid.
  - exists (set_sysex_state State_Begin (set_sysex_is_reading false s)).
    cbn [sysex_packets last_packet]. by rewrite events_one, event_6, end_short_invalid.
  - exists (set_sysex_state State_Begin (set_sysex_is_reading false s)).
    cbn [sysex_packets last_packet]. rewrite events_one, event_7. unfold sysex_handle_3e.
    cbn [sysex_state set_sysex_is_reading]. by rewrite Hi.
  - unfold dropped. rewrite sysex_packets_cons, events_cons, event_4.
    unfold sysex_handle_3sc. rewrite Hr, Hi. cbn. by apply IH.
Qed.

(** A message that does not fit is dropped too. *)
Lemma overflow_dropped data : forall s k w,
  accepting s -> s.(sysex_is_reading) = true -> s.(sysex_ptr) = Some k ->
  length s.(sysex_buffer) = 64%nat -> data <> [] -> 0 <= k -> 64 <= k + Z.of_nat (length data) ->
  dropped (sysex_packets false data) s w.
Proof.
  induction data as [|a|a b|a b c|a b c d l IH] using chunk3_ind;
    intros s k w Hacc Hread Hptr Hlen Hne Hk Hmax; [done|..];
    destruct (accepting_eqb s Hacc) as [Hc Hi]; cbn [length] in Hmax;
    try (exists (set_sysex_state State_Begin (set_sysex_is_reading false s));
         cbn [sysex_packets last_packet]; rewrite events_one, ?event_5, ?event_6, ?event_7;
         unfold end_short, sysex_handle_3e; rewrite ?Hread;
         change (sysex_state (set_sysex_is_reading false s)) with s.(sysex_state);
         rewrite ?Hc, Hi; cbn [negb];
         rewrite (room_spec _ _ k), (proj2 (Z.ltb_ge _ _)) by (done || cbn; lia); done).
  unfold dropped. rewrite sysex_packets_cons, events_cons, event_4.
  destruct (Z.lt_ge_cases (k + 3) 64) as [Hroom|Hfull].
  - rewrite (handle_3sc_continue 4 a b c s k) by (done || lia). cbn [mbind res_bind].
    apply (IH (mk_sysex (list_inserts (Z.to_nat k) [a; b; c] s.(sysex_buffer)) s.(sysex_state)
      s.(sysExCommandMap) true (Some (k + 3))) (k + 3)); [|done|done| |done|lia|cbn [length]; lia].
    + by destruct Hacc as [E|E]; [left|right].
    + cbn [sysex_buffer]. by rewrite length_inserts.
  - unfold sysex_handle_3sc. rewrite Hread, Hc, Hi. cbn [negb].
    rewrite (room_spec _ _ k), (proj2 (Z.ltb_ge _ _)) by done. cbn [mbind res_bind].
    by apply (invalid_dropped (d :: l) (set_sysex_state State_Invalid s)).
Qed.

(** The first packet of a message. *)
Lemma start_state a b c s w :
  idle s ->
  sysex_event (mk_packet 4 a b c) s w =
  Ok (mk_sysex s.(sysex_buffer)
    (if (a =? 240) && (b =? 126) && ((c =? g_midi_sysex_channel) || (c =? 127))
     then State_NonRealtime
     else if (a =? 240) && (b =? MIDI_MFR_ID_0) && (c =? MIDI_MFR_ID_1) then State_CheckMID
     else State_Invalid) s.(sysExCommandMap) true (Some 0), w).
Proof.
  intros [_ Hr]. rewrite event_4. unfold sysex_handle_3sc. rewrite Hr. cbn [negb Data1 Data2 Data3].
  by destruct (_ && _); [|destruct (_ && _)].
Qed.

(** The third manufacturer byte and the first two bytes of the message proper. *)
Lemma check_mid_rest cmd x rest buf map w :
  length buf = 64%nat -> Z.of_nat (length rest) < 62 ->
  sysex_events (sysex_packets false (MIDI_MFR_ID_2 :: cmd :: x :: rest))
    (mk_sysex buf State_CheckMID map true (Some 0)) w =
  finish 0 (cmd :: x :: rest) (mk_sysex buf State_DJTT map true (Some 0)) w.
Proof.
  intros Hb Hl. destruct rest as [|d l].
  - cbn [sysex_packets last_packet]. rewrite events_one, event_7.
    unfold sysex_handle_3e, finish. cbn [sysex_state set_sysex_is_reading].
    change (state_eqb State_CheckMID State_CheckMID) with true. cbn [Data1 Data2 Data3].
    change ((MIDI_MFR_ID_2 =? MIDI_MFR_ID_2) && room 2 _) with true. cbv iota.
    set (s := mk_sysex buf State_DJTT map true (Some 0)).
    change (set_sysex_state State_DJTT (set_sysex_is_reading false
      (mk_sysex buf State_CheckMID map true (Some 0)))) with (set_sysex_is_reading false s).
    rewrite (end_bytes [cmd; x] s 0) by (done || cbn; lia).
    by destruct (sysex_handle _ _ _).
  - rewrite sysex_packets_cons, events_cons, event_4. unfold sysex_handle_3sc.
    cbn [sysex_is_reading sysex_state negb Data1 Data2 Data3].
    change (state_eqb State_CheckMID State_CheckMID) with true.
    change ((MIDI_MFR_ID_2 =? MIDI_MFR_ID_2) && room 2 _) with true. cbv iota.
    rewrite (put_bytes_spec [cmd; x] _ 0) by (done || cbn; lia). cbn [mbind res_bind].
    rewrite (collect (d :: l) _ 2); [|by left|done|done| |done|lia|cbn [length] in *; lia].
    2: { cbn [sysex_buffer]. by rewrite length_inserts. }
    unfold finish, received. cbn [sysex_buffer sysex_state sysExCommandMap set_sysex_state].
    change (Z.to_nat 2) with (length [cmd; x] + Z.to_nat 0)%nat.
    rewrite <-list_inserts_app_l. cbn [app].
    replace (2 + Z.of_nat (length (d :: l))) with (0 + Z.of_nat (length (cmd :: x :: d :: l)))
      by (cbn [length]; lia). done.
Qed.

Lemma inserts_0 (data buf : list Z) :
  (length data <= length buf)%nat -> list_inserts 0 data buf = data ++ drop (length data) buf.
Proof.
  intros Hl. rewrite <-(take_drop (length data) buf) at 1. apply list_inserts_0_r.
  rewrite length_take. lia.
Qed.

(** A message whose third manufacturer byte differs, or which is too long. *)
Lemma check_mid_dropped d l s w :
  s.(sysex_state) = State_CheckMID -> s.(sysex_is_reading) = true -> s.(sysex_ptr) = Some 0 ->
  length s.(sysex_buffer) = 64%nat ->
  negb (d =? MIDI_MFR_ID_2) || (63 <? Z.of_nat (length l)) = true ->
  dropped (sysex_packets false (d :: l)) s w.
Proof.
  intros Hst Hread Hptr Hb Hd. unfold dropped. destruct l as [|x [|y [|z l]]].
  1-3: cbn [sysex_packets last_packet]; rewrite events_one, ?event_5, ?event_6, ?event_7.
  - rewrite (end_short_ok [d] s 0) by (rewrite ?Hst; done).
    unfold finish, sysex_handle. cbn [received sysex_state]. rewrite Hst. by eexists.
  - rewrite (end_short_ok [d; x] s 0) by (rewrite ?Hst; done).
    unfold finish, sysex_handle. cbn [received sysex_state]. rewrite Hst. by eexists.
  - unfold sysex_handle_3e. cbn [set_sysex_is_reading sysex_state]. rewrite Hst.
    rewrite orb_false_r in Hd. apply negb_true_iff in Hd. cbn [Data1]. rewrite Hd. by eexists.
  - rewrite sysex_packets_cons, events_cons, event_4. unfold sysex_handle_3sc.
    rewrite Hread, Hst. cbn [negb Data1]. change (state_eqb State_CheckMID State_CheckMID) with true.
    destruct (Z.eqb_spec d MIDI_MFR_ID_2) as [->|Hne].
    + cbn [negb orb] in Hd. apply Z.ltb_lt in Hd. rewrite (room_spec 2 s 0 Hptr). cbn [Data2 Data3].
      rewrite (put_bytes_spec [x; y] _ 0); [|done|done|cbn; rewrite Hb; lia].
      cbn [andb mbind res_bind Z.ltb Z.compare Pos.compare Pos.compare_cont Z.add Pos.add].
      apply (overflow_dropped (z :: l) (mk_sysex
        (list_inserts (Z.to_nat 0) [x; y] s.(sysex_buffer)) State_DJTT s.(sysExCommandMap)
        s.(sysex_is_reading) (Some 2)) 2);
        [by left|done|done| |done|done|cbn [length] in *; lia].
      cbn [sysex_buffer]. by rewrite length_inserts.
    + cbn [andb mbind res_bind]. by apply (invalid_dropped (z :: l) (set_sysex_state State_Invalid s)).
Qed.

(** One packet is safe. *)
Lemma handle_safe len s w :
  length s.(sysex_buffer) = 64%nat -> 0 <= len < 64 ->
  match sysex_handle len s w with
  | Ok _ => True
  | Fault e => exists fn len buf w', call fn len buf w' = Fault e /\ 0 <= len <= 62 /\
                 length buf = 63%nat
  end.
Proof.
  intros Hb Hl. unfold sysex_handle.
  destruct (rd_in_range s.(sysex_buffer) 0) as [b0 ->]; [lia|].
  destruct (rd_in_range s.(sysex_buffer) 1) as [b1 ->]; [lia|]. cbn [mbind res_bind].
  destruct (state_eqb s.(sysex_state) State_DJTT && (0 <? len)) eqn:Hd.
  - destruct (command_handler s b0) as [fn|]; [|done].
    destruct (call fn _ _ w) eqn:Hcall; [done|].
    exists fn, (u8 (len - 1)), (drop 1 s.(sysex_buffer)), w. split; [done|].
    apply andb_prop in Hd as [_ Hd%Z.ltb_lt]. rewrite u8_small by lia.
    split; [lia|]. rewrite length_drop. lia.
  - by destruct (state_eqb _ State_NonRealtime), (2 <=? len), ((b0 =? 6) && (b1 =? 1)).
Qed.

Definition safe_result (r : res (sysex_globals * W)) : Prop :=
  match r with
  | Ok (s', _) => sysex_wf s' /\ s'.(sysex_ptr) <> None
  | Fault e => exists fn len buf w', call fn len buf w' = Fault e /\ 0 <= len <= 62 /\
                 length buf = 63%nat
  end.

(** Storing at most three bytes after the room check and handling the message. *)
Lemma store_and_handle_safe bs s k w :
  s.(sysex_ptr) = Some k -> 0 <= k -> k + Z.of_nat (length bs) < 64 ->
  length s.(sysex_buffer) = 64%nat ->
  safe_result ('(s, w) ← (s ← put_bytes bs s; w ← handle_received s w; Ok (s, w));
               Ok (set_sysex_state State_Begin s, w)).
Proof.
  intros Hp Hk Hl Hb. rewrite (put_bytes_spec bs s k) by (done || lia). cbn [mbind res_bind].
  set (s' := mk_sysex _ _ _ _ _). unfold handle_received. cbn [sysex_ptr s'].
  rewrite u8_small by lia.
  assert (Hb' : length s'.(sysex_buffer) = 64%nat) by (cbn; by rewrite length_inserts).
  assert (Hh := handle_safe (k + Z.of_nat (length bs)) s' w Hb' ltac:(lia)).
  destruct (sysex_handle _ s' w); [|done].
  split; [split; [done|cbn; lia]|done].
Qed.

Lemma end_safe bs cond s w :
  sysex_wf s -> s.(sysex_ptr) <> None ->
  safe_result ('(s, w) ←
    (if cond : bool then
       if room (Z.of_nat (length bs)) s then
         (s ← put_bytes bs s; w ← handle_received s w; Ok (s, w))
       else Ok (s, w)
     else Ok (s, w));
    Ok (set_sysex_state State_Begin s, w)).
Proof.
  intros [Hb Hp] Hn. destruct (sysex_ptr s) as [k|] eqn:Hk; [|done].
  rewrite (room_spec _ _ k) by done.
  destruct cond; [destruct (Z.ltb_spec (k + Z.of_nat (length bs)) 64)|].
  - apply (store_and_handle_safe bs s k); done || lia.
  - split; [split|]; cbn; rewrite ?Hk; done.
  - split; [split|]; cbn; rewrite ?Hk; done.
Qed.

Lemma wf_same_ptr s s' :
  sysex_wf s -> s'.(sysex_ptr) = s.(sysex_ptr) -> s.(sysex_ptr) <> None ->
  length s'.(sysex_buffer) = length s.(sysex_buffer) ->
  sysex_wf s' /\ s'.(sysex_ptr) <> None.
Proof.
  intros [Hb Hp] Hptr Hn Hl. rewrite Hptr. split; [|done]. split; [lia|].
  rewrite Hptr. by destruct (sysex_ptr s).
Qed.

Lemma put_bytes_wf bs s k :
  sysex_wf s -> s.(sysex_ptr) = Some k -> k + Z.of_nat (length bs) < 64 ->
  exists s', put_bytes bs s = Ok s' /\ sysex_wf s' /\ s'.(sysex_ptr) <> None.
Proof.
  intros [Hb Hp] Hk Hl. rewrite Hk in Hp. rewrite (put_bytes_spec bs s k) by (done || lia).
  eexists. split; [done|]. split; [|done]. split; cbn; [by rewrite length_inserts|lia].
Qed.

Lemma handle_3sc_safe p s :
  sysex_wf s -> exists s', sysex_handle_3sc p s = Ok s' /\ sysex_wf s' /\ s'.(sysex_ptr) <> None.
Proof.
  intros Hs. assert (Hs' := Hs). destruct Hs' as [Hb Hp]. unfold sysex_handle_3sc.
  destruct (sysex_is_reading s) eqn:Hr; cbn [negb].
  - destruct (sysex_ptr s) as [k|] eqn:Hk; [|done].
    assert (Hn : sysex_ptr s <> None) by (by rewrite Hk).
    rewrite !(room_spec _ _ k) by done.
    destruct (state_eqb _ State_CheckMID); [destruct (_ =? _)|destruct (state_eqb _ State_Invalid)];
      cbn [andb].
    + destruct (Z.ltb_spec (k + 2) 64).
      * apply (put_bytes_wf _ (set_sysex_state State_DJTT s) k); [|done|done].
        by apply (wf_same_ptr s).
      * eexists. split; [done|]. by apply (wf_same_ptr s).
    + eexists. split; [done|]. by apply (wf_same_ptr s).
    + eexists. split; [done|]. by apply (wf_same_ptr s).
    + destruct (Z.ltb_spec (k + 3) 64); [by apply (put_bytes_wf _ s k)|].
      eexists. split; [done|]. by apply (wf_same_ptr s).
  - destruct (_ && _); [|destruct (_ && _)];
      (eexists; split; [done|]; split; [split; [done|cbn; lia]|done]).
Qed.

Lemma event_safe p s w :
  sysex_wf s -> s.(sysex_ptr) <> None -> safe_result (sysex_event p s w).
Proof.
  intros Hs Hn.
  assert (Hoff : sysex_wf (set_sysex_is_reading false s) /\
                 (set_sysex_is_reading false s).(sysex_ptr) <> None) by (by apply (wf_same_ptr s)).
  destruct Hoff as [Hs' Hn'].
  assert (Hshort : forall bs, safe_result (end_short bs s w)).
  { intros bs. unfold end_short. destruct (sysex_is_reading s); [|done]. by apply end_safe. }
  unfold sysex_event. cbv zeta.
  destruct (_ =? 4); [|destruct (_ =? 5); [apply Hshort|destruct (_ =? 6); [apply Hshort|]]].
  - destruct (handle_3sc_safe p s Hs) as (s' & -> & ? & ?). by split.
  - destruct (_ =? 7); [|done]. unfold sysex_handle_3e.
    destruct (state_eqb _ State_CheckMID);
      [|by apply (end_safe [_; _; _])].
    set (s1 := set_sysex_is_reading false s) in *.
    destruct (sysex_ptr s1) as [k|] eqn:Hk; [|done].
    rewrite (room_spec _ _ k) by done. destruct (_ =? _); cbn [andb].
    2: { apply (wf_same_ptr s1); [done|done|by rewrite Hk|done]. }
    destruct (Z.ltb_spec (k + 2) 64).
    2: { apply (wf_same_ptr s1); [done|done|by rewrite Hk|done]. }
    destruct Hs' as [Hb' Hp']. rewrite Hk in Hp'.
    apply (store_and_handle_safe [_; _] (set_sysex_state State_DJTT s1) k); done || cbn; lia.
Qed.

(** Installing a handler. *)
Lemma install_lookup cmd fn s c :
  length s.(sysExCommandMap) = 8%nat -> 0 < cmd <= 8 ->
  command_handler (sysex_install_ cmd fn s) c = if c =? cmd then Some fn else command_handler s c.
Proof.
  intros Hl Hc. unfold command_handler, sysex_install_, MAX_COMMAND.
  rewrite (proj2 (Z.ltb_lt 0 cmd)), (proj2 (Z.leb_le cmd 8)) by lia. cbn [andb].
  cbn [sysExCommandMap set_sysExCommandMap]. destruct (Z.eqb_spec c cmd) as [->|Hne].
  - rewrite (proj2 (Z.ltb_lt 0 cmd)), (proj2 (Z.leb_le cmd 8)) by lia. cbn [andb].
    by rewrite list_lookup_insert_eq by lia.
  - destruct ((0 <? c) && (c <=? 8)) eqn:Hr; [|done].
    by rewrite list_lookup_insert_ne by lia.
Qed.

(** Dispatch of a whole message, as packets. *)
Lemma dispatch_djtt cmd payload s w fn :
  idle s -> length s.(sysex_buffer) = 64%nat -> command_handler s cmd = Some fn ->
  Z.of_nat (length payload) <= 61 ->
  exists s', idle s' /\ s'.(sysExCommandMap) = s.(sysExCommandMap) /\
    length s'.(sysex_buffer) = 64%nat /\
    sysex_events (sysex_packets true ([240; 0; 1; 121; cmd] ++ payload ++ [247])) s w =
    (w' ← call fn (Z.of_nat (length payload) + 1)
            (payload ++ [247] ++ drop (length payload + 2) s.(sysex_buffer)) w;
     Ok (s', w')).
Proof.
  intros Hidle Hlen Hfn Hmax.
  change ([240; 0; 1; 121; cmd] ++ payload ++ [247])
    with (240 :: 0 :: 1 :: 121 :: cmd :: (payload ++ [247])).
  rewrite (app_assoc payload [247]).
  assert (Hx : exists x rest, payload ++ [247] = x :: rest) by (destruct payload; cbn; eauto).
  destruct Hx as (x & rest & Hx).
  assert (Hl : S (length rest) = S (length payload)).
  { change (S (length rest)) with (length (x :: rest)). rewrite <-Hx, length_app. cbn. lia. }
  exists (set_sysex_state State_Begin
    (received 0 (cmd :: x :: rest) (mk_sysex s.(sysex_buffer) State_DJTT s.(sysExCommandMap) true (Some 0)))).
  split; [done|]. split; [done|]. split; [cbn; rewrite !length_insert, length_inserts; done|].
  rewrite Hx, sysex_packets_cons, events_cons, start_state by done.
  change ((240 =? 240) && (0 =? 126) && _) with false.
  change ((240 =? 240) && (0 =? MIDI_MFR_ID_0) && (1 =? MIDI_MFR_ID_1)) with true.
  cbn [mbind res_bind]. change 121 with MIDI_MFR_ID_2.
  rewrite check_mid_rest by (done || lia). unfold finish, sysex_handle.
  replace (0 + Z.of_nat (length (cmd :: x :: rest)))
    with (Z.of_nat (length payload) + 2) by (cbn [length]; lia).
  rewrite (proj2 (Z.ltb_lt _ _)) by lia. cbn [received sysex_state sysex_buffer].
  change (state_eqb State_DJTT State_DJTT && true) with true. cbv iota.
  change (Z.to_nat 0) with 0%nat. rewrite inserts_0 by (cbn [length]; lia).
  change (rd ((cmd :: x :: rest) ++ _) 0) with (Ok (A := Z) cmd). cbn [mbind res_bind].
  change (command_handler (received _ _ _) cmd) with (command_handler s cmd). rewrite Hfn.
  rewrite u8_small by lia.
  replace (Z.of_nat (length payload) + 2 - 1) with (Z.of_nat (length payload) + 1) by lia.
  cbn [length app drop]. replace (S (S (length rest))) with (length payload + 2)%nat by lia.
  done.
Qed.

(** ** Theorems *)

(** C13: A SysEx message of the manufacturer that fits the buffer runs the handler
    of its command exactly once, with the length and the bytes after the command
    (the end byte included), and leaves the reassembly idle for the next message;
    the message is given as the packets that midi_stream_sysex makes of it. *)
Theorem djtt_message_dispatched cmd payload s w fn :
  idle s -> length s.(sysex_buffer) = 64%nat -> command_handler s cmd = Some fn ->
  Z.of_nat (length payload) <= 61 ->
  exists s', idle s' /\ s'.(sysExCommandMap) = s.(sysExCommandMap) /\
    length s'.(sysex_buffer) = 64%nat /\
    sysex_events (sysex_packets true ([240; 0; 1; 121; cmd] ++ payload ++ [247])) s w =
    (w' ← call fn (Z.of_nat (length payload) + 1)
            (payload ++ [247] ++ drop (length payload + 2) s.(sysex_buffer)) w;
     Ok (s', w')).
Proof. apply dispatch_djtt. Qed.


(** A message that is not for this device (another manufacturer, another
    universal channel, or not a SysEx start at all) and a message that does not
    fit the buffer are dropped as a whole: no handler runs, nothing is sent, and
    the reassembly is idle for the next message. *)
Theorem other_messages_ignored data s w :
  idle s -> length s.(sysex_buffer) = 64%nat -> ignored data = true ->
  exists s', sysex_events (sysex_packets true data) s w = Ok (s', w) /\ idle s' /\
    s'.(sysExCommandMap) = s.(sysExCommandMap).
Proof.
  intros Hidle Hlen Hign. destruct data as [|a [|b [|c [|d l]]]]; try done.
  rewrite sysex_packets_cons, events_cons, start_state by done. cbn [mbind res_bind].
  unfold ignored in Hign. cbv zeta in Hign.
  destruct ((a =? 240) && (b =? 126) && ((c =? g_midi_sysex_channel) || (c =? 127))).
  { apply (overflow_dropped (d :: l) (mk_sysex s.(sysex_buffer) State_NonRealtime
      s.(sysExCommandMap) true (Some 0)) 0); [by right|done|done|done|done|done|lia]. }
  destruct ((a =? 240) && (b =? MIDI_MFR_ID_0) && (c =? MIDI_MFR_ID_1)).
  - by apply (check_mid_dropped d l (mk_sysex s.(sysex_buffer) State_CheckMID
      s.(sysExCommandMap) true (Some 0))).
  - by apply (invalid_dropped (d :: l) (mk_sysex s.(sysex_buffer) State_Invalid
      s.(sysExCommandMap) true (Some 0))).
Qed.

(** Reassembly is memory safe: once a message has started, no sequence of
    packets makes sysex.c write outside [sysex_buffer], whatever the lengths and
    the order of start, continue and end packets; if a run faults, a command
    handler faulted, and it had been called with at most 62 bytes of a buffer of
    63. *)
Theorem sysex_buffer_safe ps s w :
  sysex_wf s -> s.(sysex_ptr) <> None ->
  match sysex_events ps s w with
  | Ok (s', _) => sysex_wf s'
  | Fault e => exists fn len buf w', call fn len buf w' = Fault e /\ 0 <= len <= 62 /\
                 length buf = 63%nat
  end.
Proof.
  revert s w. induction ps as [|p ps IH]; intros s w Hs Hp; [done|].
  rewrite events_cons. assert (Hstep := event_safe p s w Hs Hp).
  destruct (sysex_event p s w) as [[s' w']|e]; [|done]. cbn [mbind res_bind].
  destruct Hstep. by apply IH.
Qed.

(** A stray 3-byte end packet before the first message (the state after
    reset) makes sysex.c write through its null pointer, for any data bytes; the
    1-byte and 2-byte end packets are ignored there. *)
Theorem stray_end_writes_null a b c w :
  sysex_event (mk_packet 7 a b c) initial_sysex w = Fault NullPointer /\
  sysex_event (mk_packet 6 a b c) initial_sysex w = Ok (initial_sysex, w) /\
  sysex_event (mk_packet 5 a b c) initial_sysex w = Ok (initial_sysex, w).
Proof. done. Qed.

(** The device answers a universal identity request, on its own channel or on
    the broadcast channel, with exactly the seventeen bytes of its identity: the
    manufacturer 00 01 79, family 6, model 1 and the firmware date. *)
Theorem identity_request_answered `{!MidiOutLaws W} channel s w :
  idle s -> length s.(sysex_buffer) = 64%nat -> link_up w ->
  channel = g_midi_sysex_channel \/ channel = 127 ->
  exists s' w' ps, idle s' /\
    sysex_events (sysex_packets true [240; 126; channel; 6; 1; 247]) s w = Ok (s', w') /\
    sent w' = sent w ++ ps /\
    concat (map packet_bytes ps) =
      [240; 126; 127; 6; 2; 0; 1; 121; 6; 0; 1; 0; 32; 23; 7; 36; 247].
Proof.
  intros Hidle Hlen Hup Hch. rewrite sysex_packets_cons, events_cons, start_state by done.
  assert (E : (240 =? 240) && (126 =? 126) &&
    ((channel =? g_midi_sysex_channel) || (channel =? 127)) = true) by (cbn; lia).
  rewrite E. cbn [mbind res_bind]. cbn [sysex_packets last_packet].
  rewrite events_one, event_7, (handle_3e_ok 7 6 1 247 _ 0) by (done || lia || by right).
  unfold finish, sysex_handle. cbn [received sysex_state sysex_buffer].
  change (Z.to_nat 0) with 0%nat. rewrite inserts_0 by (cbn; lia). cbn [mbind res_bind].
  eexists _, (send_all (sysex_packets true identity_reply) w), (sysex_packets true identity_reply).
  split; [|split; [reflexivity|]]; [done|].
  split; [|exact (sysex_packets_bytes true identity_reply)].
  apply send_all_spec; [done|]. apply sysex_packets_wf. apply (bool_decide_unpack _). by vm_compute.
Qed.

End sysex.

(** ** Witnesses *)

(** A device with one handler, which reports what it was called with. *)
Definition echo (fn : Z) (len : Z) (buf : list Z) (w : list packet) : res (list packet) :=
  Ok (w ++ [mk_packet fn len (tbl buf 0) (tbl buf 1)]).

Definition one_handler : sysex_globals :=
  mk_sysex (SysExFn := Z) (replicate 64 0) State_Begin
    [None; None; Some 9; None; None; None; None; None] false None.

Lemma djtt_message_dispatched_witness :
  exists s', sysex_events echo 5 (sysex_packets true [240; 0; 1; 121; 3; 42; 43; 247]) one_handler []
    = Ok (s', [mk_packet 9 3 42 43]).
Proof.
  destruct (djtt_message_dispatched echo 5 3 [42; 43] one_handler [] 9) as (s' & _ & _ & _ & E);
    [split; reflexivity|reflexivity|reflexivity|cbn; lia|].
  exists s'. exact E.
Defined.

Lemma other_messages_ignored_witness :
  exists s', sysex_events echo 5 (sysex_packets true [240; 0; 1; 120; 3; 42; 43; 247]) one_handler []
    = Ok (s', []).
Proof.
  destruct (other_messages_ignored echo 5 [240; 0; 1; 120; 3; 42; 43; 247] one_handler [])
    as (s' & E & _); [split; reflexivity|reflexivity|reflexivity|].
  exists s'. exact E.
Defined.

Lemma sysex_buffer_safe_witness :
  match sysex_events echo 5 [mk_packet 7 1 2 3; mk_packet 4 240 0 1]
      (mk_sysex (replicate 64 0) State_DJTT (replicate 8 None) true (Some 62)) [] with
  | Ok (s', _) => sysex_wf s'
  | Fault _ => False
  end.
Proof.
  exact (sysex_buffer_safe echo 5 [mk_packet 7 1 2 3; mk_packet 4 240 0 1]
    (mk_sysex (replicate 64 0) State_DJTT (replicate 8 None) true (Some 62)) []
    ltac:(split; [reflexivity|cbn; lia]) ltac:(discriminate)).
Defined.

Lemma identity_request_answered_witness :
  exists s' w' ps, idle s' /\
    sysex_events echo 5 (sysex_packets true [240; 126; 127; 6; 1; 247]) one_handler [] = Ok (s', w') /\
    sent w' = sent ([] : list packet) ++ ps /\
    concat (map packet_bytes ps) =
      [240; 126; 127; 6; 2; 0; 1; 121; 6; 0; 1; 0; 32; 23; 7; 36; 247].
Proof.
  apply (identity_request_answered echo 5 127 one_handler ([] : list packet));
    [split; reflexivity|reflexivity|exact I|right; reflexivity].
Defined.

(** ** Reassembly without the effects

    What a packet makes of the SysEx globals does not depend on the rest of the
    device, and a packet has at most one effect: the call of a handler or the
    identity reply. *)

Inductive action (SysExFn : Type) := Call (fn : SysExFn) (length : Z) (buffer : list Z) | Identify.
Arguments Call {_} _ _ _.
Arguments Identify {_}.

Section reassembly.
Context {SysExFn : Type}.
Variable ch : Z.
Implicit Types s : sysex_globals (SysExFn := SysExFn).

(** A device that only notes the effect. *)
#[local] Instance recorder : MidiOut (option (action SysExFn)) := {|
  MIDI_Device_SendEventPacket _ _ := Some Identify;
  MIDI_Device_Flush a := a;
  sent _ := [];
  flushed _ := [];
  link_up _ := True
|}.

Definition note_call (fn : SysExFn) (len : Z) (buf : list Z) (_ : option (action SysExFn))
    : res (option (action SysExFn)) := Ok (Some (Call fn len buf)).

Definition reassemble (p : packet) s : res (sysex_globals * option (action SysExFn)) :=
  sysex_event note_call ch p s None.

Section perform.
Context {W : Type} `{MidiOut W}.
Variable call : SysExFn -> Z -> list Z -> W -> res W.

Definition perform (a : option (action SysExFn)) (w : W) : res W :=
  match a with
  | None => Ok w
  | Some (Call fn len buf) => call fn len buf w
  | Some Identify => midi_stream_sysex 17 identity_reply w
  end.

Lemma handle_reassembled len s w :
  sysex_handle call len s w = (a ← sysex_handle note_call len s None; perform a w).
Proof.
  unfold sysex_handle.
  destruct (state_eqb _ State_DJTT && _).
  - destruct (rd _ 0) as [c|]; [|done]. rewrite !bind_Ok. by destruct (command_handler s c).
  - destruct (state_eqb _ State_NonRealtime); [|done]. destruct (2 <=? len); [|done].
    destruct (rd _ 0) as [b0|]; [|done]. rewrite !bind_Ok.
    destruct (rd _ 1) as [b1|]; [|done]. rewrite !bind_Ok. by destruct (_ && _).
Qed.

Lemma received_reassembled s w :
  handle_received call s w = (a ← handle_received note_call s None; perform a w).
Proof. unfold handle_received. destruct (sysex_ptr s); [apply handle_reassembled|done]. Qed.

Lemma store_reassembled bs s w :
  (s ← put_bytes bs s; w ← handle_received call s w; Ok (s, w)) =
  ('(s, a) ← (s ← put_bytes bs s; w ← handle_received note_call s None; Ok (s, w));
   w ← perform a w; Ok (s, w)).
Proof.
  destruct (put_bytes bs s) as [s'|]; [|done]. rewrite !bind_Ok.
  rewrite received_reassembled. by destruct (handle_received note_call s' None).
Qed.

Lemma event_reassembled p s w :
  sysex_event call ch p s w = ('(s', a) ← reassemble p s; w' ← perform a w; Ok (s', w')).
Proof.
  unfold reassemble, sysex_event. cbv zeta.
  assert (Hend : forall r r',
    r = ('(s, a) ← r'; w ← perform a w; Ok (s, w)) ->
    ('(s, w) ← r; Ok (set_sysex_state (SysExFn := SysExFn) State_Begin s, w)) =
    ('(s', a) ← ('(s, w) ← r'; Ok (set_sysex_state State_Begin s, w)); w' ← perform a w; Ok (s', w'))).
  { intros r [[s1 a1]|e] ->; [|done]. rewrite !bind_Ok. by destruct (perform a1 w). }
  assert (Hshort : forall bs, end_short call bs s w =
    ('(s', a) ← end_short note_call bs s None; w' ← perform a w; Ok (s', w'))).
  { intros bs. unfold end_short. destruct (sysex_is_reading s); [|done]. apply Hend.
    destruct (negb _); [|done]. destruct (room _ _); [|done]. apply store_reassembled. }
  destruct (_ =? 4); [by destruct (sysex_handle_3sc ch p s)|].
  destruct (_ =? 5); [apply Hshort|]. destruct (_ =? 6); [apply Hshort|].
  destruct (_ =? 7); [|done]. unfold sysex_handle_3e. apply Hend.
  destruct (state_eqb _ State_CheckMID).
  - destruct (_ && _); [apply store_reassembled|done].
  - destruct (negb _); [|done]. destruct (room _ _); [apply store_reassembled|done].
Qed.

End perform.

(** What reassembly keeps: a buffer of bytes and a pointer inside it. *)
Definition stream_wf s : Prop := sysex_wf s /\ Forall is_u8 s.(sysex_buffer).

Definition packet_u8 (p : packet) : Prop :=
  is_u8 p.(Data1) /\ is_u8 p.(Data2) /\ is_u8 p.(Data3).

Definition action_ok (a : option (action SysExFn)) : Prop :=
  match a with
  | Some (Call _ len buf) => 0 <= len <= 62 /\ length buf = 63%nat /\ Forall is_u8 buf
  | _ => True
  end.

Lemma put_bytes_u8 bs : forall s s',
  put_bytes bs s = Ok s' -> Forall is_u8 bs -> Forall is_u8 s.(sysex_buffer) ->
  Forall is_u8 s'.(sysex_buffer).
Proof.
  induction bs as [|b bs IH]; intros s s' E Hb Hs; cbn [put_bytes] in E; [by injection E as <-|].
  apply Forall_cons_1 in Hb as [Hb Hbs]. apply bind_ok in E as (s1 & E1 & E2).
  apply (IH s1); [done|done|]. unfold put_byte in E1. destruct (sysex_ptr s) as [q|]; [|done].
  apply bind_ok in E1 as (l & Ew & E1). injection E1 as <-. cbn.
  apply wr_ok in Ew as [_ ->]. by apply Forall_insert.
Qed.

Lemma handle_action len s a :
  length s.(sysex_buffer) = 64%nat -> Forall is_u8 s.(sysex_buffer) -> 0 <= len < 64 ->
  sysex_handle note_call len s None = Ok a -> action_ok a.
Proof.
  intros Hl Hu Hlen. unfold sysex_handle.
  destruct (state_eqb _ State_DJTT && (0 <? len)) eqn:Hd.
  - destruct (rd _ 0) as [c|]; [|done]. rewrite bind_Ok.
    destruct (command_handler s c) as [fn|]; intros [= <-]; [|done].
    apply andb_prop in Hd as [_ Hd%Z.ltb_lt]. cbn. rewrite u8_small by lia.
    split; [lia|]. rewrite length_drop. split; [lia|]. by apply Forall_drop.
  - destruct (state_eqb _ State_NonRealtime); [|by intros [= <-]].
    destruct (2 <=? len); [|by intros [= <-]].
    destruct (rd _ 0) as [b0|]; [|done]. destruct (rd _ 1) as [b1|]; [|done].
    cbn [mbind res_bind].
    destruct ((b0 =? 6) && (b1 =? 1)); intros [= <-]; exact I.
Qed.

Lemma put_room_wf bs s s' :
  stream_wf s -> bs <> [] -> Forall is_u8 bs -> room (Z.of_nat (length bs)) s = true ->
  put_bytes bs s = Ok s' ->
  stream_wf s' /\ exists k, s'.(sysex_ptr) = Some k /\ 0 <= k < 64.
Proof.
  intros [[Hb Hp] Hu] Hne Hbs Hroom E. assert (Hu' := put_bytes_u8 _ _ _ E Hbs Hu).
  unfold room in Hroom. destruct (sysex_ptr s) as [k|] eqn:Hk.
  - unfold MIDI_MAX_SYSEX in Hroom. rewrite (put_bytes_spec bs s k) in E by (done || lia).
    injection E as <-. split; [|eexists; split; [done|lia]].
    split; [|exact Hu']. split; cbn; [by rewrite length_inserts|lia].
  - destruct bs as [|b bs]; [done|]. cbn [put_bytes] in E. unfold put_byte in E.
    by rewrite Hk in E.
Qed.

Lemma store_action bs s s' a :
  stream_wf s -> bs <> [] -> Forall is_u8 bs -> room (Z.of_nat (length bs)) s = true ->
  (s ← put_bytes bs s; w ← handle_received note_call s None; Ok (s, w)) = Ok (s', a) ->
  stream_wf s' /\ action_ok a.
Proof.
  intros Hs Hne Hbs Hroom E. apply bind_ok in E as (s1 & E1 & E).
  apply bind_ok in E as (a1 & E2 & E). injection E as <- <-.
  destruct (put_room_wf _ _ _ Hs Hne Hbs Hroom E1) as (Hs1 & k & Hk & Hk64). split; [done|].
  unfold handle_received in E2. rewrite Hk, u8_small in E2 by lia.
  destruct Hs1 as [[] ?]. by apply (handle_action k s1).
Qed.

Lemma stream_wf_same s s' :
  stream_wf s -> s'.(sysex_ptr) = s.(sysex_ptr) -> s'.(sysex_buffer) = s.(sysex_buffer) ->
  s'.(sysex_is_reading) = false \/ s'.(sysex_is_reading) = s.(sysex_is_reading) -> stream_wf s'.
Proof.
  intros [[Hb Hp] Hu] Hptr Hbuf Hr. split; [|by rewrite Hbuf]. split; rewrite ?Hbuf, ?Hptr; [done|].
  destruct (sysex_ptr s); [done|]. destruct Hr; congruence.
Qed.

Lemma start_wf p s s' :
  stream_wf s -> packet_u8 p -> sysex_handle_3sc ch p s = Ok s' -> stream_wf s'.
Proof.
  intros Hs (H1 & H2 & H3). unfold sysex_handle_3sc.
  assert (Hst : forall st, stream_wf (set_sysex_state st s)) by (intros; apply (stream_wf_same s); auto).
  destruct (sysex_is_reading s); cbn [negb].
  - destruct (state_eqb _ State_CheckMID); [|destruct (state_eqb _ State_Invalid)].
    + destruct (_ =? _); cbn [andb]; [|intros [= <-]; apply Hst].
      destruct (room 2 s) eqn:Hroom; [|intros [= <-]; apply Hst].
      intros E. apply (put_room_wf [_; _] (set_sysex_state State_DJTT s)) in E; [apply E|apply Hst|done|by repeat (apply Forall_cons_2; [done|])|done].
    + intros [= <-]. done.
    + destruct (room 3 s) eqn:Hroom; [|intros [= <-]; apply Hst].
      intros E. apply (put_room_wf [_; _; _] s) in E; [apply E|done|done|by repeat (apply Forall_cons_2; [done|])|done].
  - destruct Hs as [[] ?].
    destruct (_ && _); [|destruct (_ && _)]; intros [= <-]; (split; [split; [done|cbn; lia]|done]).
Qed.

Lemma reassemble_wf p s s' a :
  stream_wf s -> packet_u8 p -> reassemble p s = Ok (s', a) -> stream_wf s' /\ action_ok a.
Proof.
  intros Hs Hp. assert (Hp' := Hp). destruct Hp' as (H1 & H2 & H3).
  assert (Hoff : stream_wf (set_sysex_is_reading false s)) by (apply (stream_wf_same s); auto).
  assert (Hend : forall r, (forall s1 a1, r = Ok (s1, a1) -> stream_wf s1 /\ action_ok a1) ->
    ('(s, w) ← r; Ok (set_sysex_state State_Begin s, w)) = Ok (s', a) -> stream_wf s' /\ action_ok a).
  { intros r Hr E. apply bind_ok in E as ([s1 a1] & E1 & E). injection E as <- <-.
    destruct (Hr _ _ E1) as [Hs1 Ha]. split; [|done]. apply (stream_wf_same s1); auto. }
  assert (Hshort : forall bs, bs <> [] -> Forall is_u8 bs -> end_short note_call bs s None = Ok (s', a) ->
    stream_wf s' /\ action_ok a).
  { intros bs Hne Hbs. unfold end_short. destruct (sysex_is_reading s); [|by intros [= <- <-]].
    apply Hend. intros s1 a1. destruct (negb _); [|by intros [= <- <-]].
    destruct (room _ _) eqn:Hroom; [|by intros [= <- <-]]. by apply store_action. }
  unfold reassemble, sysex_event. cbv zeta. destruct (_ =? 4).
  { destruct (sysex_handle_3sc ch p s) as [s1|] eqn:E; [|done]. rewrite bind_Ok. intros [= <- <-].
    split; [by apply (start_wf p s)|done]. }
  destruct (_ =? 5); [apply Hshort; [done|by repeat (apply Forall_cons_2; [done|])]|].
  destruct (_ =? 6); [apply Hshort; [done|by repeat (apply Forall_cons_2; [done|])]|].
  destruct (_ =? 7); [|by intros [= <- <-]]. unfold sysex_handle_3e. apply Hend. intros s1 a1.
  destruct (state_eqb _ State_CheckMID); [|destruct (negb _); [|by intros [= <- <-]]].
  - destruct (_ =? _); cbn [andb]; [|by intros [= <- <-]].
    destruct (room _ _) eqn:Hroom; [|by intros [= <- <-]].
    apply (store_action [_; _] (set_sysex_state State_DJTT (set_sysex_is_reading false s)));
      [apply (stream_wf_same s); auto|done|by repeat (apply Forall_cons_2; [done|])|done].
  - destruct (room _ _) eqn:Hroom; [|by intros [= <- <-]].
    apply (store_action [_; _; _]); [done|done|by repeat (apply Forall_cons_2; [done|])|done].
Qed.

End reassembly.

End Sysex.
