(* ===== verification/Led.v ===== *)
(** * led.c: LED timers, the timer-1 interrupt and the four LED strands

    The strands are driven by bit-banging: a bit is a high pulse on the data
    line of the strand, long for a one and short for a zero.  The model keeps the
    list of pulses sent on each line.  The configuration is
    [LED_CONFIGURATION_FOUR_STRANDS]. *)

From S2P Require Import Prelude.
From S2P Require Import Avr.

Module Led.
Import Avr.

(** ** Globals *)

Record led_globals := mk_led {
  g_led_counter : list Z;
  display_flash_counter : Z;
  half_ms_counter : Z;
  one_second_counter : Z;
  sleep_minute_counter : Z;
  tick : Z;
  test_red : Z;
  test_green : Z;
  test_blue : Z
}.

Definition set_g_led_counter (v : list Z) (s : led_globals) : led_globals :=
  mk_led v s.(display_flash_counter) s.(half_ms_counter) s.(one_second_counter)
    s.(sleep_minute_counter) s.(tick) s.(test_red) s.(test_green) s.(test_blue).
Definition set_display_flash_counter (v : Z) (s : led_globals) : led_globals :=
  mk_led s.(g_led_counter) v s.(half_ms_counter) s.(one_second_counter) s.(sleep_minute_counter)
    s.(tick) s.(test_red) s.(test_green) s.(test_blue).
Definition set_half_ms_counter (v : Z) (s : led_globals) : led_globals :=
  mk_led s.(g_led_counter) s.(display_flash_counter) v s.(one_second_counter)
    s.(sleep_minute_counter) s.(tick) s.(test_red) s.(test_green) s.(test_blue).
Definition set_one_second_counter (v : Z) (s : led_globals) : led_globals :=
  mk_led s.(g_led_counter) s.(display_flash_counter) s.(half_ms_counter) v
    s.(sleep_minute_counter) s.(tick) s.(test_red) s.(test_green) s.(test_blue).
Definition set_sleep_minute_counter (v : Z) (s : led_globals) : led_globals :=
  mk_led s.(g_led_counter) s.(display_flash_counter) s.(half_ms_counter) s.(one_second_counter)
    v s.(tick) s.(test_red) s.(test_green) s.(test_blue).
Definition set_tick (v : Z) (s : led_globals) : led_globals :=
  mk_led s.(g_led_counter) s.(display_flash_counter) s.(half_ms_counter) s.(one_second_counter)
    s.(sleep_minute_counter) v s.(test_red) s.(test_green) s.(test_blue).
Definition set_test_red (v : Z) (s : led_globals) : led_globals :=
  mk_led s.(g_led_counter) s.(display_flash_counter) s.(half_ms_counter) s.(one_second_counter)
    s.(sleep_minute_counter) s.(tick) v s.(test_green) s.(test_blue).
Definition set_test_green (v : Z) (s : led_globals) : led_globals :=
  mk_led s.(g_led_counter) s.(display_flash_counter) s.(half_ms_counter) s.(one_second_counter)
    s.(sleep_minute_counter) s.(tick) s.(test_red) v s.(test_blue).
Definition set_test_blue (v : Z) (s : led_globals) : led_globals :=
  mk_led s.(g_led_counter) s.(display_flash_counter) s.(half_ms_counter) s.(one_second_counter)
    s.(sleep_minute_counter) s.(tick) s.(test_red) s.(test_green) v.

Definition initial_led : led_globals := mk_led (replicate 4 0) 0 0 0 0 0 15 15 15.

(** Port bits (constants.h). *)
Definition LED_ASYNC_GROUP0 : Z := bv 6.   (* PB6 *)
Definition LED_ASYNC_GROUP1 : Z := bv 6.   (* PC6 *)
Definition LED_ASYNC_GROUP2 : Z := bv 5.   (* PB5 *)
Definition LED_ASYNC_GROUP3 : Z := bv 4.   (* PB4 *)
Definition LED_LATCH : Z := bv 0.
Definition LED_CLOCK : Z := bv 1.
Definition LED_MOSI : Z := bv 2.
Definition LED_MODE : Z := bv 7.
Definition LED_BLANK : Z := bv 6.          (* PC6 *)
Definition LED_PWM : Z := bv 7.            (* PC7 *)

(** ** The timer-1 interrupt *)

Definition decrement_counter (i : Z) (l : list Z) : res (list Z) :=
  v ← rd l i;
  if 0 <? v then wr l i (v - 1) else Ok l.

Definition TIMER1_OVF_vect (midi_clock_enabled : bool) (g : led_globals) (r : avr)
    : res (led_globals * avr) :=
  let r := set_TCNT1 0 r in
  let r := set_TCNT1 65504 r in
  l ← for_up 4 0 decrement_counter g.(g_led_counter);
  let g := set_g_led_counter l g in
  let g :=
    if negb midi_clock_enabled then
      if g.(tick) =? 75 then
        set_display_flash_counter (u16 (g.(display_flash_counter) + 1)) (set_tick 1 g)
      else set_tick (u16 (g.(tick) + 1)) g
    else g in
  let g := set_half_ms_counter (u16 (g.(half_ms_counter) + 1)) g in
  v ← rd g.(g_led_counter) 3;
  if v =? 0 then
    l ← wr g.(g_led_counter) 3 16;
    Ok (set_g_led_counter l g, r)
  else Ok (g, r).

(** ** Set-up *)

Definition led_setup (g : led_globals) (r : avr) : led_globals * avr :=
  let r := set_DDRB (u8 (LED_CLOCK + LED_MOSI + LED_LATCH + LED_MODE)) r in
  let r := set_DDRC (u8 (LED_BLANK + LED_PWM)) r in
  let r := set_PRR0 (clear_bits r.(PRR0) (bv 3)) r in
  let r := set_TCCR1A 0 r in
  let r := set_TCCR1B (or_bits r.(TCCR1B) (bv 2)) r in
  let r := set_TCCR1B (clear_bits r.(TCCR1B) (bv 1)) r in
  let r := set_TCCR1B (clear_bits r.(TCCR1B) (bv 0)) r in
  let r := cli r in
  let r := set_TCNT1 65088 r in
  let r := set_TIMSK1 (or_bits r.(TIMSK1) (bv 0)) r in
  (set_g_led_counter (replicate 4 0) g, r).

Definition led_disable (r : avr) : avr := set_TIMSK1 (clear_bits r.(TIMSK1) (bv 0)) r.
Definition led_enable (r : avr) : avr := set_TIMSK1 (or_bits r.(TIMSK1) (bv 0)) r.

(** [led_set_state] returns at once. *)
Definition led_set_state (new_state color : Z) (r : avr) : avr := r.

Definition led_set_test_colors (red green blue : Z) (g : led_globals) : led_globals :=
  let g := if red <? 128 then set_test_red red g else g in
  let g := if green <? 128 then set_test_green green g else g in
  if blue <? 128 then set_test_blue blue g else g.

(** ** The strands *)

Inductive strand := Group0 | Group1 | Group2 | Group3.

(** Raise and lower the data line of a strand. *)
Definition pulse (g : strand) (r : avr) : avr :=
  match g with
  | Group0 =>
      let r := set_PORTB (or_bits r.(PORTB) LED_ASYNC_GROUP0) r in
      set_PORTB (clear_bits r.(PORTB) LED_ASYNC_GROUP0) r
  | Group1 =>
      let r := set_PORTC (or_bits r.(PORTC) LED_ASYNC_GROUP1) r in
      set_PORTC (clear_bits r.(PORTC) LED_ASYNC_GROUP1) r
  | Group2 =>
      let r := set_PORTB (or_bits r.(PORTB) LED_ASYNC_GROUP2) r in
      set_PORTB (clear_bits r.(PORTB) LED_ASYNC_GROUP2) r
  | Group3 =>
      let r := set_PORTB (or_bits r.(PORTB) LED_ASYNC_GROUP3) r in
      set_PORTB (clear_bits r.(PORTB) LED_ASYNC_GROUP3) r
  end.

(** [*(uint32_t * )buffer]: a little-endian load of four bytes at [ptr]. *)
Definition load32 (ram : list Z) (ptr : Z) : res Z :=
  b0 ← rd ram ptr;
  b1 ← rd ram (ptr + 1);
  b2 ← rd ram (ptr + 2);
  b3 ← rd ram (ptr + 3);
  Ok (b0 + 256 * (b1 + 256 * (b2 + 256 * b3))).

(** The inner loop: 24 bits, starting from mask [0x800000]. *)
Definition send_bit (g : strand) (test_buffer : Z) (_ : Z) (st : Z * avr * list bool)
    : Z * avr * list bool :=
  let '(this_mask, r, out) := st in
  (Z.shiftr this_mask 1, pulse g r, out ++ [has_bits test_buffer this_mask]).

(** The body of the outer loop, over the 32 LEDs of a strand, two per button. *)
Definition send_led (g : strand) (ram : list Z) (this_led : Z) (st : Z * avr * list bool)
    : res (Z * avr * list bool) :=
  let '(buffer, r, out) := st in
  test_buffer ← load32 ram buffer;
  let buffer := if has_bits this_led 1 then buffer + 3 else buffer in
  let '(_, r, out) := for_pure 24 0 (send_bit g test_buffer) (8388608, r, out) in
  Ok (buffer, r, out).

(** [ram] is the memory from the display buffer on and [ptr] the argument of the
    C function, as an offset into it. *)
Definition led_update_pixel_group (g : strand) (ram : list Z) (ptr : Z) (r : avr)
    : res (avr * list bool) :=
  '(_, r, out) ← for_up 32 0 (send_led g ram) (ptr, r, []);
  Ok (r, out).

Definition led_update_pixel_group0 := led_update_pixel_group Group0.
Definition led_update_pixel_group1 := led_update_pixel_group Group1.
Definition led_update_pixel_group2 := led_update_pixel_group Group2.
Definition led_update_pixel_group3 := led_update_pixel_group Group3.

Definition strand_outputs (r : avr) : avr :=
  let r := set_DDRC (or_bits r.(DDRC) LED_ASYNC_GROUP1) r in
  set_DDRB (or_bits r.(DDRB) (Z.lor (Z.lor LED_ASYNC_GROUP0 LED_ASYNC_GROUP2) LED_ASYNC_GROUP3)) r.

Definition led_update_pixels (ram : list Z) (r : avr) : res (avr * list (list bool)) :=
  let r := strand_outputs r in
  let r := cli r in
  '(r, o0) ← led_update_pixel_group0 ram 0 r;
  '(r, o1) ← led_update_pixel_group1 ram 48 r;
  '(r, o2) ← led_update_pixel_group2 ram 96 r;
  '(r, o3) ← led_update_pixel_group3 ram 144 r;
  let r := sei r in
  Ok (r, [o0; o1; o2; o3]).

Definition indicator_states : list Z :=
  [48;0;0;   0;0;0;  48;0;0;  0;0;0;  0;0;0;  48;0;0;  0;0;0;  48;0;0;
   48;0;0;   0;0;0;  48;0;0;  0;0;0;  0;0;0;  48;0;0;  0;0;0;  48;0;0].

(** [after] is the byte of memory behind the array, which the last load reads. *)
Definition led_set_state_dfu (after : Z) (r : avr) : res (avr * list (list bool)) :=
  let r := strand_outputs r in
  let r := cli r in
  let ram := indicator_states ++ [after] in
  '(r, o0) ← led_update_pixel_group0 ram 0 r;
  '(r, o1) ← led_update_pixel_group1 ram 0 r;
  '(r, o2) ← led_update_pixel_group2 ram 0 r;
  '(r, o3) ← led_update_pixel_group3 ram 0 r;
  let r := sei r in
  Ok (r, [o0; o1; o2; o3]).

(** ** Specifications *)

(** The [n] low bits of [x], most significant first. *)
Fixpoint bits_from (n : nat) (x : Z) : list bool :=
  match n with
  | O => []
  | S n => Z.testbit x (Z.of_nat n) :: bits_from n x
  end.

(** The 24 bits of button [i]: green, red and blue of the colour stored in the
    buffer as blue, red, green. *)
Definition button_bits (buffer : list Z) (i : Z) : list bool :=
  bits_from 8 (tbl buffer (3 * i + 2)) ++ bits_from 8 (tbl buffer (3 * i + 1)) ++
  bits_from 8 (tbl buffer (3 * i)).

(** A strand of 32 LEDs starting at button [first]: LED [k] shows button
    [first + k/2]. *)
Definition strand_bits (buffer : list Z) (first : Z) : list bool :=
  concat (map (fun led => button_bits buffer (first + Z.of_nat led / 2)) (seq 0 32)).

(** The data line of a strand is an output and low. *)
Definition line_low (g : strand) (r : avr) : Prop :=
  match g with
  | Group0 => Z.testbit r.(DDRB) 6 = true /\ Z.testbit r.(PORTB) 6 = false
  | Group1 => Z.testbit r.(DDRC) 6 = true /\ Z.testbit r.(PORTC) 6 = false
  | Group2 => Z.testbit r.(DDRB) 5 = true /\ Z.testbit r.(PORTB) 5 = false
  | Group3 => Z.testbit r.(DDRB) 4 = true /\ Z.testbit r.(PORTB) 4 = false
  end.

(** [n] timer-1 interrupts. *)
Fixpoint timer1_interrupts (n : nat) (clock : bool) (g : led_globals) (r : avr)
    : res (led_globals * avr) :=
  match n with
  | O => Ok (g, r)
  | S n => '(g, r) ← TIMER1_OVF_vect clock g r; timer1_interrupts n clock g r
  end.

(** ** Lemmas *)

(** *** The data lines *)

Definition line_bit (g : strand) (r : avr) : bool :=
  match g with
  | Group0 => Z.testbit r.(PORTB) 6
  | Group1 => Z.testbit r.(PORTC) 6
  | Group2 => Z.testbit r.(PORTB) 5
  | Group3 => Z.testbit r.(PORTB) 4
  end.

(** [r'] differs from [r] by pulses: directions and the interrupt flag are the
    same, and a line that was low is low. *)
Record pulsed (r r' : avr) : Prop := {
  pulsed_DDRB : r'.(DDRB) = r.(DDRB);
  pulsed_DDRC : r'.(DDRC) = r.(DDRC);
  pulsed_IFLAG : r'.(IFLAG) = r.(IFLAG);
  pulsed_low : forall g, line_bit g r = false -> line_bit g r' = false
}.

Lemma pulsed_refl r : pulsed r r.
Proof. by split. Qed.

Lemma pulsed_trans r1 r2 r3 : pulsed r1 r2 -> pulsed r2 r3 -> pulsed r1 r3.
Proof. intros [] []. split; [congruence..|naive_solver]. Qed.

Lemma pulse_line g r : line_bit g (pulse g r) = false.
Proof.
  destruct g; cbn; rewrite testbit_clear_bits by lia; apply andb_false_r.
Qed.

Lemma pulse_pulsed g r : pulsed r (pulse g r).
Proof.
  split; [by destruct g|by destruct g|by destruct g|].
  intros h Hh. destruct g, h; cbn in *;
    rewrite ?testbit_clear_bits, ?testbit_or_bits, ?Hh by lia; done.
Qed.

#[local] Hint Resolve pulsed_refl pulse_pulsed pulsed_trans : mf64.

(** *** One LED: 24 bits, most significant first *)

Lemma send_bits g word n : forall i r out,
  exists m r', for_pure n i (send_bit g word) (2 ^ (Z.of_nat n - 1), r, out) =
      (m, r', out ++ bits_from n word) /\
    pulsed r r' /\ ((0 < n)%nat -> line_bit g r' = false).
Proof.
  induction n as [|n IH]; intros i r out; cbn [for_pure bits_from].
  - eexists _, r. rewrite app_nil_r. split; [done|]. split; [apply pulsed_refl|lia].
  - unfold send_bit at 2. replace (Z.of_nat (S n) - 1) with (Z.of_nat n) by lia.
    rewrite has_bits_pow2 by lia.
    destruct n as [|n].
    + eexists _, _. split; [cbn; reflexivity|]. split; [apply pulse_pulsed|].
      intros _. apply pulse_line.
    + replace (Z.shiftr (2 ^ Z.of_nat (S n)) 1) with (2 ^ (Z.of_nat (S n) - 1)).
      2: { rewrite Z.shiftr_div_pow2, <-Z.pow_sub_r by lia. done. }
      destruct (IH (i + 1) (pulse g r) (out ++ [Z.testbit word (Z.of_nat (S n))]))
        as (m & r' & -> & Hp & Hl).
      exists m, r'. rewrite <-app_assoc. split; [done|].
      split; [eauto with mf64|]. intros _. apply Hl. lia.
Qed.

Lemma testbit_low b x i : 0 <= b < 256 -> 0 <= i < 8 -> Z.testbit (b + 256 * x) i = Z.testbit b i.
Proof.
  intros Hb Hi. rewrite <-(Z.mod_pow2_bits_low (b + 256 * x) 8 i) by lia.
  change (2 ^ 8) with 256. rewrite Z.mul_comm, Z.mod_add, Z.mod_small by lia. done.
Qed.

Lemma testbit_up b x i : 0 <= b < 256 -> 0 <= i -> Z.testbit (b + 256 * x) (i + 8) = Z.testbit x i.
Proof.
  intros Hb Hi. rewrite <-Z.div_pow2_bits by lia. change (2 ^ 8) with 256.
  rewrite Z.mul_comm, Z.div_add, Z.div_small by lia. done.
Qed.

Lemma bits_from_low b x n :
  0 <= b < 256 -> (n <= 8)%nat -> bits_from n (b + 256 * x) = bits_from n b.
Proof.
  intros Hb. induction n as [|n IH]; intros Hn; cbn [bits_from]; [done|].
  by rewrite testbit_low, IH by lia.
Qed.

Lemma bits_from_byte n b x :
  0 <= b < 256 -> bits_from (n + 8) (b + 256 * x) = bits_from n x ++ bits_from 8 b.
Proof.
  intros Hb. induction n as [|n IH].
  - cbn [Nat.add]. by rewrite bits_from_low.
  - cbn [Nat.add]. cbn [bits_from]. rewrite IH.
    replace (Z.of_nat (n + 8)) with (Z.of_nat n + 8) by lia. rewrite testbit_up by lia. done.
Qed.

(** The word of a button, whatever follows it in memory. *)
Lemma load32_bits ram buffer i :
  Forall is_u8 ram -> 0 <= i -> 3 * i + 4 <= Z.of_nat (length ram) ->
  (forall j, 0 <= j < 3 * i + 3 -> rd ram j = Ok (tbl buffer j)) ->
  exists word, load32 ram (3 * i) = Ok word /\ bits_from 24 word = button_bits buffer i.
Proof.
  intros Hu Hi Hl Hrd. unfold load32.
  rewrite (Hrd (3 * i)), (Hrd (3 * i + 1)), (Hrd (3 * i + 2)) by lia. cbn [mbind res_bind].
  destruct (rd_in_range ram (3 * i + 3)) as [b3 Hb3]; [lia|]. rewrite Hb3. cbn [mbind res_bind].
  assert (Hbyte : forall j, 0 <= j < 3 * i + 3 -> 0 <= tbl buffer j < 256).
  { intros j Hj. specialize (Hrd j Hj). apply rd_ok in Hrd as [_ Hrd].
    apply (proj1 (Forall_lookup _ _) Hu _ _ Hrd). }
  eexists. split; [done|]. unfold button_bits.
  rewrite (bits_from_byte 16), (bits_from_byte 8), (bits_from_low _ b3 8)
    by (apply Hbyte || lia; lia). by rewrite app_assoc.
Qed.

(** *** One strand *)

Lemma concat_map_snoc {A} (f : nat -> list A) n :
  concat (map f (seq 0 (S n))) = concat (map f (seq 0 n)) ++ f n.
Proof. rewrite seq_S, map_app, concat_app. cbn. by rewrite app_nil_r. Qed.

Lemma group_spec g ram buffer first r :
  Forall is_u8 ram -> 0 <= first -> 3 * first + 49 <= Z.of_nat (length ram) ->
  (forall j, 0 <= j < 3 * first + 48 -> rd ram j = Ok (tbl buffer j)) ->
  exists r', led_update_pixel_group g ram (3 * first) r = Ok (r', strand_bits buffer first) /\
    pulsed r r' /\ line_bit g r' = false.
Proof.
  intros Hu Hf Hl Hrd. unfold led_update_pixel_group.
  pose (inv := fun (k : Z) (st : Z * avr * list bool) => let '(ptr, r', out) := st in
    ptr = 3 * (first + k / 2) /\
    out = concat (map (fun led => button_bits buffer (first + Z.of_nat led / 2))
                   (seq 0 (Z.to_nat k))) /\
    pulsed r r' /\ (0 < k -> line_bit g r' = false)).
  edestruct (for_up_inv inv) as ([[ptr r'] out] & Hrun & _ & Hout & Hp & Hlow);
    [| |rewrite Hrun].
  3: { exists r'. cbn [mbind res_bind]. split; [by rewrite Hout|]. split; [done|]. by apply Hlow. }
  { split; [change (0 / 2) with 0; lia|]. split; [done|]. split; [apply pulsed_refl|lia]. }
  intros k [[ptr r1] out1] Hk (-> & -> & Hp1 & Hlow1).
  assert (Hk2 : 0 <= k / 2 < 16)
    by (split; [apply Z.div_pos; lia|apply Z.div_lt_upper_bound; lia]).
  destruct (load32_bits ram buffer (first + k / 2)) as (word & Hw & Hbits);
    [done|lia|lia|intros j Hj; apply Hrd; lia|].
  unfold send_led. rewrite Hw. cbn [mbind res_bind].
  replace 8388608 with (2 ^ (Z.of_nat 24 - 1)) by reflexivity.
  destruct (send_bits g word 24 0 r1 (concat (map (fun led => button_bits buffer
    (first + Z.of_nat led / 2)) (seq 0 (Z.to_nat k))))) as (m & r2 & -> & Hp2 & Hl2).
  eexists. split; [done|]. split; [|split; [|split; [by eapply pulsed_trans|intros _; apply Hl2; lia]]].
  - change 1 with (2 ^ 0) at 1. rewrite has_bits_pow2, Z.bit0_odd by lia.
    assert (E := Z.div_mod k 2 ltac:(lia)). rewrite Zmod_odd in E. destruct (Z.odd k).
    + rewrite <-(Z.div_unique (k + 1) 2 (k / 2 + 1) 0); lia.
    + rewrite <-(Z.div_unique (k + 1) 2 (k / 2) 1); lia.
  - replace (Z.to_nat (k + 1)) with (S (Z.to_nat k)) by lia.
    rewrite concat_map_snoc, Hbits. by rewrite Z2Nat.id by lia.
Qed.

(** *** The timer interrupt *)

Definition down (x : Z) : Z := Z.max 0 (x - 1).

Lemma decrement_spec i l v :
  0 <= v -> rd l i = Ok v -> decrement_counter i l = Ok (<[Z.to_nat i := down v]> l).
Proof.
  intros Hv Hr. unfold decrement_counter. rewrite Hr. cbn [mbind res_bind].
  apply rd_ok in Hr as [Hi Hl]. assert (Hlt := lookup_lt_Some _ _ _ Hl).
  unfold down. destruct (Z.ltb_spec 0 v).
  - rewrite wr_in_range by lia. by rewrite Z.max_r by lia.
  - replace (Z.max 0 (v - 1)) with v by lia. by rewrite list_insert_id.
Qed.

Lemma decrement_all a b c d :
  0 <= a -> 0 <= b -> 0 <= c -> 0 <= d ->
  for_up 4 0 decrement_counter [a; b; c; d] = Ok [down a; down b; down c; down d].
Proof.
  intros Ha Hb Hc Hd. cbn [for_up].
  rewrite (decrement_spec 0 [a; b; c; d] a) by done. cbn [mbind res_bind].
  rewrite (decrement_spec (0 + 1) _ b) by done. cbn [mbind res_bind].
  rewrite (decrement_spec (0 + 1 + 1) _ c) by done. cbn [mbind res_bind].
  by rewrite (decrement_spec (0 + 1 + 1 + 1) _ d).
Qed.

Lemma timer1_step clock g r a b c d :
  g.(g_led_counter) = [a; b; c; d] -> 0 <= a -> 0 <= b -> 0 <= c -> 0 <= d ->
  exists g', TIMER1_OVF_vect clock g r = Ok (g', set_TCNT1 65504 (set_TCNT1 0 r)) /\
    g'.(g_led_counter) = [down a; down b; down c; if down d =? 0 then 16 else down d] /\
    g'.(half_ms_counter) = u16 (g.(half_ms_counter) + 1) /\
    g'.(tick) = (if clock then g.(tick) else if g.(tick) =? 75 then 1 else u16 (g.(tick) + 1)) /\
    g'.(display_flash_counter) =
      (if negb clock && (g.(tick) =? 75) then u16 (g.(display_flash_counter) + 1)
       else g.(display_flash_counter)).
Proof.
  intros Hg Ha Hb Hc Hd. unfold TIMER1_OVF_vect. rewrite Hg, decrement_all by done.
  cbn [mbind res_bind]. set (l := [down a; down b; down c; down d]).
  assert (Hr : rd l 3 = Ok (down d)) by done.
  assert (Hw : wr l 3 16 = Ok [down a; down b; down c; 16]) by done.
  cbn [tick set_g_led_counter].
  destruct clock, (tick g =? 75) eqn:Ht; cbn [negb andb];
    cbn [g_led_counter set_half_ms_counter set_display_flash_counter set_tick set_g_led_counter];
    rewrite Hr; cbn [mbind res_bind]; (destruct (down d =? 0); [rewrite Hw; cbn [mbind res_bind]|]);
    (eexists; split; [reflexivity|]; done).
Qed.

(** *** Memory safety alone, for any contents of the buffer *)

Lemma load32_safe ram i :
  0 <= i -> i + 4 <= Z.of_nat (length ram) -> exists word, load32 ram i = Ok word.
Proof.
  intros Hi Hl. unfold load32.
  destruct (rd_in_range ram i) as [? ->]; [lia|]. cbn [mbind res_bind].
  destruct (rd_in_range ram (i + 1)) as [? ->]; [lia|]. cbn [mbind res_bind].
  destruct (rd_in_range ram (i + 2)) as [? ->]; [lia|]. cbn [mbind res_bind].
  destruct (rd_in_range ram (i + 3)) as [? ->]; [lia|]. cbn [mbind res_bind]. eauto.
Qed.

Lemma group_safe g ram ptr r :
  0 <= ptr -> ptr + 49 <= Z.of_nat (length ram) ->
  exists r' out, led_update_pixel_group g ram ptr r = Ok (r', out).
Proof.
  intros Hp Hl. unfold led_update_pixel_group.
  edestruct (for_up_inv (fun k (st : Z * avr * list bool) => st.1.1 = ptr + 3 * (k / 2))
    (send_led g ram) 32 0 (ptr, r, [])) as ([[p r'] out] & -> & _); [cbn; change (0 / 2) with 0; lia| |cbn; eauto].
  intros k [[p r1] out1] Hk Hp1. cbn [fst] in Hp1. subst p.
  assert (Hk2 : 0 <= k / 2 < 16)
    by (split; [apply Z.div_pos; lia|apply Z.div_lt_upper_bound; lia]).
  unfold send_led. destruct (load32_safe ram (ptr + 3 * (k / 2))) as [word ->]; [lia|lia|].
  cbn [mbind res_bind]. destruct (for_pure _ _ _ _) as [[m r2] out2].
  eexists. split; [done|]. cbn [fst]. change 1 with (2 ^ 0) at 1.
  rewrite has_bits_pow2, Z.bit0_odd by lia.
  assert (E := Z.div_mod k 2 ltac:(lia)). rewrite Zmod_odd in E. destruct (Z.odd k).
  - rewrite <-(Z.div_unique (k + 1) 2 (k / 2 + 1) 0); lia.
  - rewrite <-(Z.div_unique (k + 1) 2 (k / 2) 1); lia.
Qed.

Lemma update_pixels_safe ram r :
  length ram = 193%nat -> exists r' out, led_update_pixels ram r = Ok (r', out).
Proof.
  intros Hl. unfold led_update_pixels, led_update_pixel_group0, led_update_pixel_group1,
    led_update_pixel_group2, led_update_pixel_group3.
  edestruct (group_safe Group0 ram 0) as (r0 & o0 & ->); [lia|lia|]. cbn [mbind res_bind].
  edestruct (group_safe Group1 ram 48) as (r1 & o1 & ->); [lia|lia|]. cbn [mbind res_bind].
  edestruct (group_safe Group2 ram 96) as (r2 & o2 & ->); [lia|lia|]. cbn [mbind res_bind].
  edestruct (group_safe Group3 ram 144) as (r3 & o3 & ->); [lia|lia|]. cbn [mbind res_bind]. eauto.
Qed.

Lemma timer1_safe clock g r :
  length g.(g_led_counter) = 4%nat ->
  exists g' r', TIMER1_OVF_vect clock g r = Ok (g', r') /\ length g'.(g_led_counter) = 4%nat.
Proof.
  intros Hl. unfold TIMER1_OVF_vect.
  destruct (for_up_ok (fun l => length l = 4%nat) decrement_counter 4 0 g.(g_led_counter))
    as (l & -> & Hl1); [done| |].
  { intros k l Hk Hl1. unfold decrement_counter.
    destruct (rd_in_range l k) as [v ->]; [lia|]. cbn [mbind res_bind].
    destruct (0 <? v); [|by exists l]. rewrite wr_in_range by lia.
    eexists. split; [done|]. by rewrite length_insert. }
  cbn [mbind res_bind]. set (g1 := set_half_ms_counter _ _).
  assert (Hg1 : g1.(g_led_counter) = l)
    by (unfold g1; by destruct clock; cbn; [|destruct (_ =? 75)]).
  rewrite Hg1. destruct (rd_in_range l 3) as [v ->]; [lia|]. cbn [mbind res_bind].
  destruct (v =? 0).
  - rewrite wr_in_range by lia. eexists _, _. split; [done|]. cbn. by rewrite length_insert.
  - eexists _, _. split; [done|]. by rewrite Hg1.
Qed.

(** ** Theorems *)

(** C21: What reaches the LEDs: for every display buffer of 64 colours, and whatever
    byte follows the buffer in memory, the four strands carry the 64 buttons in
    order, sixteen to a strand and each one twice (two LEDs per button), green,
    red and blue most significant bit first; the data lines end as outputs and
    low, and interrupts are enabled again. *)
Theorem leds_on_wire buffer after r :
  length buffer = 192%nat -> Forall is_u8 buffer -> is_u8 after ->
  exists r', led_update_pixels (buffer ++ [after]) r =
      Ok (r', [strand_bits buffer 0; strand_bits buffer 16; strand_bits buffer 32;
               strand_bits buffer 48]) /\
    r'.(IFLAG) = true /\ forall g, line_low g r'.
Proof.
  intros Hl Hu Ha. set (ram := buffer ++ [after]).
  assert (Hram : Forall is_u8 ram) by (apply Forall_app; by split; [|constructor]).
  assert (Hlen : length ram = 193%nat) by (unfold ram; rewrite length_app, Hl; done).
  assert (Hrd : forall j, 0 <= j < 192 -> rd ram j = Ok (tbl buffer j)).
  { intros j Hj. rewrite <-(rd_tbl buffer) by lia. unfold rd, ram.
    by rewrite lookup_app_l by lia. }
  unfold led_update_pixels, led_update_pixel_group0, led_update_pixel_group1,
    led_update_pixel_group2, led_update_pixel_group3.
  set (r0 := cli (strand_outputs r)).
  destruct (group_spec Group0 ram buffer 0 r0) as (r1 & E1 & P1 & L1);
    [done|lia|lia|intros; apply Hrd; lia|]. change (3 * 0) with 0 in E1. rewrite E1. cbn [mbind res_bind].
  destruct (group_spec Group1 ram buffer 16 r1) as (r2 & E2 & P2 & L2);
    [done|lia|lia|intros; apply Hrd; lia|]. change (3 * 16) with 48 in E2. rewrite E2. cbn [mbind res_bind].
  destruct (group_spec Group2 ram buffer 32 r2) as (r3 & E3 & P3 & L3);
    [done|lia|lia|intros; apply Hrd; lia|]. change (3 * 32) with 96 in E3. rewrite E3. cbn [mbind res_bind].
  destruct (group_spec Group3 ram buffer 48 r3) as (r4 & E4 & P4 & L4);
    [done|lia|lia|intros; apply Hrd; lia|]. change (3 * 48) with 144 in E4. rewrite E4. cbn [mbind res_bind].
  eexists. split; [done|]. split; [done|].
  assert (Hlow : forall g, line_bit g r4 = false).
  { intros []; [apply P4, P3, P2|apply P4, P3|apply P4|]; done. }
  assert (Hd : r4.(DDRB) = r0.(DDRB) /\ r4.(DDRC) = r0.(DDRC))
    by (destruct P1, P2, P3, P4; split; congruence).
  intros g. specialize (Hlow g). destruct Hd as [Hdb Hdc].
  destruct g; cbn; cbn in Hlow; (split; [|exact Hlow]); rewrite ?Hdb, ?Hdc;
    unfold r0, strand_outputs; cbn; rewrite testbit_or_bits by lia; apply orb_true_r.
Qed.

Lemma leds_on_wire_witness :
  exists r', led_update_pixels (replicate 192 7 ++ [255]) reset =
      Ok (r', [strand_bits (replicate 192 7) 0; strand_bits (replicate 192 7) 16;
               strand_bits (replicate 192 7) 32; strand_bits (replicate 192 7) 48]) /\
    r'.(IFLAG) = true.
Proof.
  destruct (leds_on_wire (replicate 192 7) 255 reset) as (r' & H & Hi & _);
    [reflexivity|apply Forall_replicate; split; lia|split; lia|].
  exists r'. split; [exact H|exact Hi].
Defined.

(** The last 32-bit load of a refresh reads one byte past the end of the
    192-byte display buffer. *)
Theorem refresh_reads_past_buffer :
  load32 (replicate 192 0) 189 = Fault OutOfBounds /\
  led_update_pixels (replicate 192 0) reset = Fault OutOfBounds.
Proof. split; vm_compute; reflexivity. Qed.

(** The timer-1 interrupt, [n] times without a MIDI clock: the first three
    animation counters go down to zero and stay there, the flash counter advances
    once every 75 interrupts, and the half-millisecond counter by [n]. *)
Theorem timer1_counts n g r a b c d :
  g.(g_led_counter) = [a; b; c; d] -> 0 <= a -> 0 <= b -> 0 <= c -> 0 <= d ->
  1 <= g.(tick) <= 75 -> is_u16 g.(display_flash_counter) -> is_u16 g.(half_ms_counter) ->
  exists g' r' d', timer1_interrupts n false g r = Ok (g', r') /\
    g'.(g_led_counter) = [Z.max 0 (a - Z.of_nat n); Z.max 0 (b - Z.of_nat n);
                          Z.max 0 (c - Z.of_nat n); d'] /\
    g'.(tick) = (Z.of_nat n + g.(tick) - 1) mod 75 + 1 /\
    g'.(display_flash_counter) =
      u16 (g.(display_flash_counter) + (Z.of_nat n + g.(tick) - 1) / 75) /\
    g'.(half_ms_counter) = u16 (g.(half_ms_counter) + Z.of_nat n).
Proof.
  revert g r a b c d. induction n as [|n IH]; intros g r a b c d Hg Ha Hb Hc Hd Ht Hf Hh;
    cbn [timer1_interrupts].
  - exists g, r, d. split; [done|]. change (Z.of_nat 0) with 0.
    replace (0 + tick g - 1) with (tick g - 1) by lia.
    rewrite Z.div_small, Z.mod_small, !Z.add_0_r, !u16_small by (done || lia).
    rewrite Hg, !Z.sub_0_r, !Z.max_r by done. split; [done|]. split; [lia|done].
  - destruct (timer1_step false g r a b c d) as (g1 & -> & Hg1 & Hh1 & Ht1 & Hf1); [done..|].
    cbn [mbind res_bind negb andb] in *.
    edestruct (IH g1 (set_TCNT1 65504 (set_TCNT1 0 r))) as (g' & r' & d' & -> & Hc' & Ht' & Hf' & Hh').
    + exact Hg1.
    + unfold down; lia.
    + unfold down; lia.
    + unfold down; lia.
    + unfold down. destruct (_ =? 0); lia.
    + rewrite Ht1. destruct (Z.eqb_spec (tick g) 75); [lia|]. rewrite u16_small; lia.
    + rewrite Hf1. destruct (_ =? 75); [apply u16_range|done].
    + rewrite Hh1. apply u16_range.
    + exists g', r', d'. split; [done|].
      assert (E : forall x, Z.max 0 (down x - Z.of_nat n) = Z.max 0 (x - Z.of_nat (S n)))
        by (intros x; unfold down; lia).
      split; [by rewrite Hc', !E|].
      rewrite Ht', Hf', Hh', Ht1, Hf1, Hh1. split; [|split].
      * destruct (Z.eqb_spec (tick g) 75) as [->|]; [|rewrite u16_small by lia; do 2 f_equal; lia].
        replace (Z.of_nat (S n) + 75 - 1) with (Z.of_nat n + 1 - 1 + 1 * 75) by lia.
        by rewrite Z.mod_add by lia.
      * destruct (Z.eqb_spec (tick g) 75) as [->|].
        -- replace (Z.of_nat (S n) + 75 - 1) with (Z.of_nat n + 1 - 1 + 1 * 75) by lia.
           rewrite Z.div_add by lia. unfold u16. rewrite Zplus_mod_idemp_l. f_equal. lia.
        -- rewrite (u16_small (tick g + 1)) by lia.
           by replace (Z.of_nat n + (tick g + 1) - 1) with (Z.of_nat (S n) + tick g - 1) by lia.
      * unfold u16. rewrite Zplus_mod_idemp_l. f_equal. lia.
Qed.

Lemma timer1_counts_witness :
  exists g' r' d', timer1_interrupts 150 false (mk_led [10; 200; 0; 5] 0 0 0 0 1 15 15 15) reset =
      Ok (g', r') /\
    g'.(g_led_counter) = [0; 50; 0; d'] /\ g'.(display_flash_counter) = 2.
Proof.
  destruct (timer1_counts 150 (mk_led [10; 200; 0; 5] 0 0 0 0 1 15 15 15) reset 10 200 0 5)
    as (g' & r' & d' & H & Hc & _ & Hf & _);
    [reflexivity|lia|lia|lia|lia|cbn; lia|split; cbn; lia|split; cbn; lia|].
  exists g', r', d'. split; [exact H|]. split; [exact Hc|exact Hf].
Defined.

End Led.
