(* ===== verification/Animations.v ===== *)
(** * display.c: the geometric animations

    Up to four animations run at once; each one lights, step by step, a growing
    square, circle, star or triangle around the button that started it.  The grid
    has 8 rows and 8 columns, wired as two halves of 4 columns. *)

From S2P Require Import Prelude.
From S2P Require Import Random.
From S2P Require Import Colors.
From S2P Require Import Led.

Module Animations.
Import Colors Led.

Definition NUM_BUTTONS : Z := 64.
Definition GEOMETRIC_ANIMATION_ROWS : Z := 8.
Definition GEOMETRIC_ANIMATION_COLS : Z := 8.
Definition GEOMETRIC_ANIMATION_G_LED_IDX : Z := 3.
Definition GEOMETRIC_ANIMATION_G_LED_LIMIT : Z := 112.
Definition GEOMETRIC_ANIMATION_TYPE_SQUARE : Z := 0.
Definition GEOMETRIC_ANIMATION_TYPE_CIRCLE : Z := 1.
Definition GEOMETRIC_ANIMATION_TYPE_STAR : Z := 2.
Definition GEOMETRIC_ANIMATION_TYPE_TRIANGLE : Z := 3.
Definition GEOMETRIC_ANIMATION_STEPS_SQUARE : Z := 8.
Definition GEOMETRIC_ANIMATION_STEPS_CIRCLE : Z := 14.
Definition GEOMETRIC_ANIMATION_STEPS_STAR : Z := 11.
Definition GEOMETRIC_ANIMATION_STEPS_TRIANGLE : Z := 15.
Definition GEOMETRIC_STAR_MAX_TAIL_LENGTH : Z := 3.
Definition CONCURRENT_GEOMETRIC_ANIMATIONS : Z := 4.

(** ** State *)

(** [geometric_animation_color_ptr\[i\]] points into the active colours or into
    the palette, and is null before the first animation. *)
Inductive color_ptr := PtrNull | PtrActive (offset : Z) | PtrPalette (offset : Z).

Record anim := mk_anim {
  geometric_animation_btn_id : list Z;
  geometric_animation_type : list Z;
  geometric_animation_pos : list Z;
  geometric_animation_color_ptr : list color_ptr;
  geometric_animation_id : Z;
  assign_geometric_animation_id : Z
}.

Definition set_geometric_animation_btn_id (v : list Z) (s : anim) : anim :=
  mk_anim v s.(geometric_animation_type) s.(geometric_animation_pos)
    s.(geometric_animation_color_ptr) s.(geometric_animation_id)
    s.(assign_geometric_animation_id).
Definition set_geometric_animation_type (v : list Z) (s : anim) : anim :=
  mk_anim s.(geometric_animation_btn_id) v s.(geometric_animation_pos)
    s.(geometric_animation_color_ptr) s.(geometric_animation_id)
    s.(assign_geometric_animation_id).
Definition set_geometric_animation_pos (v : list Z) (s : anim) : anim :=
  mk_anim s.(geometric_animation_btn_id) s.(geometric_animation_type) v
    s.(geometric_animation_color_ptr) s.(geometric_animation_id)
    s.(assign_geometric_animation_id).
Definition set_geometric_animation_color_ptr (v : list color_ptr) (s : anim) : anim :=
  mk_anim s.(geometric_animation_btn_id) s.(geometric_animation_type)
    s.(geometric_animation_pos) v s.(geometric_animation_id)
    s.(assign_geometric_animation_id).
Definition set_geometric_animation_id (v : Z) (s : anim) : anim :=
  mk_anim s.(geometric_animation_btn_id) s.(geometric_animation_type)
    s.(geometric_animation_pos) s.(geometric_animation_color_ptr) v
    s.(assign_geometric_animation_id).
Definition set_assign_geometric_animation_id (v : Z) (s : anim) : anim :=
  mk_anim s.(geometric_animation_btn_id) s.(geometric_animation_type)
    s.(geometric_animation_pos) s.(geometric_animation_color_ptr)
    s.(geometric_animation_id) v.

Definition initial_anim : anim :=
  mk_anim [0; 0; 0; 0] (replicate 4 GEOMETRIC_ANIMATION_TYPE_SQUARE)
    (replicate 4 GEOMETRIC_ANIMATION_STEPS_SQUARE) (replicate 4 PtrNull) 0 0.

(** ** The grid *)

Definition button_row (btn : Z) : Z := Z.land (Z.shiftr btn 2) 7.

Definition button_column (btn : Z) : Z :=
  let this_column := Z.land btn 3 in
  if 32 <=? btn then u8 (this_column + 4) else this_column.

Definition get_geometric_button_row (s : anim) : res Z :=
  btn ← rd s.(geometric_animation_btn_id) s.(geometric_animation_id);
  Ok (button_row btn).

Definition get_geometric_button_column (s : anim) : res Z :=
  btn ← rd s.(geometric_animation_btn_id) s.(geometric_animation_id);
  Ok (button_column btn).

Definition get_button_id_from_row_column (button_row button_column : Z) : Z :=
  if GEOMETRIC_ANIMATION_ROWS <=? button_row then 255
  else if GEOMETRIC_ANIMATION_COLS <=? button_column then 255
  else
    let button_id := u8 (button_row * 4) in
    if button_column <? 4 then u8 (button_id + button_column)
    else u8 (button_id + Z.land button_column 3 + 32).

(** ** Starting an animation

    [velocities] is [g_midi_note_state\[0\]] and [bank] is [g_bank_selected]. *)

Definition set_geometric_animation_color_source (velocities : list Z) (bank button_id : Z)
    (s : anim) : res anim :=
  velocity ← rd velocities (button_id + NUM_BUTTONS * bank);
  let p :=
    if (velocity <=? 0) || (121 <=? velocity) then PtrActive (192 * bank + button_id * 3)
    else PtrPalette (3 * u8 (Random.clamp (Z.quot (velocity - 1) 6 - 1) 0 19)) in
  if (0 <=? s.(assign_geometric_animation_id)) &&
     (s.(assign_geometric_animation_id) <? Z.of_nat (length s.(geometric_animation_color_ptr)))
  then Ok (set_geometric_animation_color_ptr
             (<[Z.to_nat s.(assign_geometric_animation_id) := p]>
                s.(geometric_animation_color_ptr)) s)
  else Fault OutOfBounds.

(** The common body of [start_geometric_square_animation], [.._circle_..],
    [.._star_..] and [.._triangle_..], which differ in the type they store. *)
Definition start_typed (type : Z) (velocities : list Z) (bank button_id : Z)
    (st : anim * led_globals) : res (anim * led_globals) :=
  let '(s, g) := st in
  l ← wr s.(geometric_animation_btn_id) s.(assign_geometric_animation_id) button_id;
  let s := set_geometric_animation_btn_id l s in
  l ← wr s.(geometric_animation_pos) s.(assign_geometric_animation_id) 0;
  let s := set_geometric_animation_pos l s in
  l ← wr s.(geometric_animation_type) s.(assign_geometric_animation_id) type;
  let s := set_geometric_animation_type l s in
  s ← set_geometric_animation_color_source velocities bank button_id s;
  l ← wr g.(g_led_counter) GEOMETRIC_ANIMATION_G_LED_IDX GEOMETRIC_ANIMATION_G_LED_LIMIT;
  Ok (s, set_g_led_counter l g).

Definition start_geometric_square_animation := start_typed GEOMETRIC_ANIMATION_TYPE_SQUARE.
Definition start_geometric_circle_animation := start_typed GEOMETRIC_ANIMATION_TYPE_CIRCLE.
Definition start_geometric_star_animation := start_typed GEOMETRIC_ANIMATION_TYPE_STAR.
Definition start_geometric_triangle_animation := start_typed GEOMETRIC_ANIMATION_TYPE_TRIANGLE.

(** [if (g_led_counter\[1\] == 0) g_led_counter\[1\] = LIMIT], and whether it did. *)
Definition restart_step_counter (g : led_globals) : res (bool * led_globals) :=
  v ← rd g.(g_led_counter) 1;
  if v =? 0 then
    l ← wr g.(g_led_counter) 1 GEOMETRIC_ANIMATION_G_LED_LIMIT;
    Ok (true, set_g_led_counter l g)
  else Ok (false, g).

Definition start_geometric_animation (velocities : list Z) (bank button_id animation_id : Z)
    (st : anim * led_globals) : res (anim * led_globals) :=
  let '(s, g) := st in
  '(_, g) ← restart_step_counter g;
  '(s, g) ←
    (if animation_id =? GEOMETRIC_ANIMATION_TYPE_CIRCLE then
       start_geometric_circle_animation velocities bank button_id (s, g)
     else if animation_id =? GEOMETRIC_ANIMATION_TYPE_SQUARE then
       start_geometric_square_animation velocities bank button_id (s, g)
     else if animation_id =? GEOMETRIC_ANIMATION_TYPE_STAR then
       start_geometric_star_animation velocities bank button_id (s, g)
     else if animation_id =? GEOMETRIC_ANIMATION_TYPE_TRIANGLE then
       start_geometric_triangle_animation velocities bank button_id (s, g)
     else Ok (s, g));
  Ok (set_assign_geometric_animation_id
        (u8 ((s.(assign_geometric_animation_id) + 1) mod CONCURRENT_GEOMETRIC_ANIMATIONS)) s, g).

(** ** Drawing *)

(** [src\[k\]]. *)
Definition read_color (active : list Z) (p : color_ptr) (k : Z) : res Z :=
  match p with
  | PtrNull => Fault NullPointer
  | PtrActive o => rd active (o + k)
  | PtrPalette o => rd default_color (o + k)
  end.

(** [led_index = btn_id * 3; *ptr++ = src\[2\]; *ptr++ = src\[0\]; *ptr++ = src\[1\]]. *)
Definition light (active : list Z) (p : color_ptr) (btn_id : Z) (buffer : list Z) : res (list Z) :=
  let led_index := u8 (btn_id * 3) in
  c2 ← read_color active p 2;
  c0 ← read_color active p 0;
  c1 ← read_color active p 1;
  put3 buffer led_index c2 c0 c1.

Definition light_if (b : bool) (active : list Z) (p : color_ptr) (btn_id : Z) (buffer : list Z)
    : res (list Z) :=
  if b then light active p btn_id buffer else Ok buffer.

(** [for (x = start; x <= stop; x++)] on eight-bit bounds below 255. *)
Definition for_incl {S} (start stop : Z) (body : Z -> S -> res S) (s : S) : res S :=
  for_up (Z.to_nat (stop + 1 - start)) start body s.

(** The state an animation draws from: its step, row, column and colour. *)
Record shape := mk_shape { s_pos : Z; s_row : Z; s_col : Z; s_src : color_ptr }.

(** The bounds shared by square and circle: clipped to the grid, relying on the
    wrap-around of [min_row] and [min_col] below zero. *)
Definition clip_start (x : Z) : Z := if x <? 8 then x else 0.
Definition clip_end (x : Z) : Z := if x <? 8 then x else 7.

Definition square_lit (pos row col this_row this_col : Z) : bool :=
  let min_row := u8 (row - pos) in
  let max_row := u8 (row + pos) in
  let min_col := u8 (col - pos) in
  let max_col := u8 (col + pos) in
  if (this_row =? min_row) || (this_row =? max_row) then true
  else (this_col =? min_col) || (this_col =? max_col).

(** The two nested loops over the clipped grid. *)
Definition draw_grid (pos row col : Z) (lit : Z -> Z -> bool) (active : list Z) (src : color_ptr)
    (buffer : list Z) : res (list Z) :=
  let min_row := u8 (row - pos) in
  let max_row := u8 (row + pos) in
  let min_col := u8 (col - pos) in
  let max_col := u8 (col + pos) in
  for_incl (clip_start min_row) (clip_end max_row) (fun this_row buffer =>
    for_incl (clip_start min_col) (clip_end max_col) (fun this_col buffer =>
      light_if (lit this_row this_col) active src
        (get_button_id_from_row_column this_row this_col) buffer) buffer) buffer.

Definition draw_square (d : shape) (active buffer : list Z) : res (list Z) :=
  draw_grid d.(s_pos) d.(s_row) d.(s_col) (square_lit d.(s_pos) d.(s_row) d.(s_col))
    active d.(s_src) buffer.

Definition get_distance_from_center_in_steps (btn_row btn_col this_row this_col : Z) : Z :=
  let row_distance := u8 (if this_row <? btn_row then btn_row - this_row else this_row - btn_row) in
  let col_distance := u8 (if this_col <? btn_col then btn_col - this_col else this_col - btn_col) in
  u8 (row_distance + col_distance).

Definition circle_lit (pos row col this_row this_col : Z) : bool :=
  let min_row := u8 (row - pos) in
  let max_row := u8 (row + pos) in
  let min_col := u8 (col - pos) in
  let max_col := u8 (col + pos) in
  let circle_incrementer := Z.shiftr pos 1 in
  let circle_incrementer := if circle_incrementer <=? 3 then circle_incrementer else 3 in
  let minimum_distance_steps := pos in
  let maximum_distance_steps :=
    if pos =? 1 then minimum_distance_steps else u8 (minimum_distance_steps + circle_incrementer) in
  let distance_in_steps := get_distance_from_center_in_steps row col this_row this_col in
  if distance_in_steps <? minimum_distance_steps then false
  else if distance_in_steps =? minimum_distance_steps then
    (this_row =? min_row) || (this_row =? max_row) || (this_col =? min_col) || (this_col =? max_col)
  else distance_in_steps <=? maximum_distance_steps.

Definition draw_circle (d : shape) (active buffer : list Z) : res (list Z) :=
  draw_grid d.(s_pos) d.(s_row) d.(s_col) (circle_lit d.(s_pos) d.(s_row) d.(s_col))
    active d.(s_src) buffer.

(** One line of the star: [if (btn_id < 64) ..]. *)
Definition star_point (active : list Z) (src : color_ptr) (row col : Z) (buffer : list Z)
    : res (list Z) :=
  let btn_id := get_button_id_from_row_column (u8 row) (u8 col) in
  light_if (btn_id <? 64) active src btn_id buffer.

(** [while (counter > 0 && tail_position < 3)]; the fuel is the bound on the tail. *)
Fixpoint star_loop (fuel : nat) (d : shape) (active : list Z) (counter tail_position : Z)
    (buffer : list Z) : res (list Z) :=
  if (0 <? counter) && (tail_position <? GEOMETRIC_STAR_MAX_TAIL_LENGTH) then
    match fuel with
    | O => Fault OutOfFuel
    | S fuel =>
        let min_row := u8 (d.(s_row) - d.(s_pos)) in
        let max_row := u8 (d.(s_row) + d.(s_pos)) in
        let min_col := u8 (d.(s_col) - d.(s_pos)) in
        let max_col := u8 (d.(s_col) + d.(s_pos)) in
        let point := star_point active d.(s_src) in
        buffer ← point (max_row - tail_position) d.(s_col) buffer;
        buffer ← point (min_row + tail_position) d.(s_col) buffer;
        buffer ← point (max_row - tail_position) (min_col + tail_position) buffer;
        buffer ← point (max_row - tail_position) (max_col - tail_position) buffer;
        buffer ← point (min_row + tail_position) (min_col + tail_position) buffer;
        buffer ← point (min_row + tail_position) (max_col - tail_position) buffer;
        buffer ← point d.(s_row) (min_col + tail_position) buffer;
        buffer ← point d.(s_row) (max_col - tail_position) buffer;
        star_loop fuel d active (u8 (counter - 1)) (u8 (tail_position + 1)) buffer
    end
  else Ok buffer.

Definition draw_star (d : shape) (active buffer : list Z) : res (list Z) :=
  star_loop 3 d active d.(s_pos) 0 buffer.

Definition draw_triangle (d : shape) (active buffer : list Z) : res (list Z) :=
  let min_row := u8 (d.(s_row) - (d.(s_pos) - 1)) in
  let max_row := u8 (d.(s_row) + d.(s_pos)) in
  let min_col := u8 (d.(s_col) - (1 + (d.(s_pos) - 1) * 2)) in
  let max_col := u8 (d.(s_col) + (1 + (d.(s_pos) - 1) * 2)) in
  let start_col := clip_start min_col in
  let end_col := clip_end max_col in
  let start_row := clip_start min_row in
  let end_row := clip_end max_row in
  buffer ←
    (if start_row =? min_row then
       for_incl start_col end_col (fun this_col buffer =>
         light active d.(s_src) (get_button_id_from_row_column start_row this_col) buffer) buffer
     else Ok buffer);
  buffer ←
    light_if (end_row =? max_row) active d.(s_src)
      (get_button_id_from_row_column end_row d.(s_col)) buffer;
  for_incl start_row end_row (fun this_row buffer =>
    let distance_from_bottom := u8 (this_row - min_row) in
    let left_col := u8 (min_col + distance_from_bottom) in
    let right_col := u8 (max_col - distance_from_bottom) in
    buffer ← light_if (left_col <? GEOMETRIC_ANIMATION_COLS) active d.(s_src)
               (get_button_id_from_row_column this_row left_col) buffer;
    light_if (right_col <? GEOMETRIC_ANIMATION_COLS) active d.(s_src)
      (get_button_id_from_row_column this_row right_col) buffer) buffer.

(** ** Running the animations

    The four [run_geometric_*_animation] functions have this body, with their
    number of steps and their drawing code. *)

Definition run_shape (steps : Z) (draw : shape -> list Z -> list Z -> res (list Z))
    (active : list Z) (update_animation : bool) (st : anim * list Z) : res (anim * list Z) :=
  let '(s, buffer) := st in
  let id := s.(geometric_animation_id) in
  '(s, finished) ←
    (if update_animation then
       p ← rd s.(geometric_animation_pos) id;
       l ← wr s.(geometric_animation_pos) id (u8 (p + 1));
       Ok (set_geometric_animation_pos l s, steps <=? u8 (p + 1))
     else Ok (s, false));
  if finished : bool then Ok (s, buffer)
  else
    pos ← rd s.(geometric_animation_pos) id;
    if pos =? 0 then Ok (s, buffer)
    else
      row ← get_geometric_button_row s;
      col ← get_geometric_button_column s;
      match s.(geometric_animation_color_ptr) !! Z.to_nat id with
      | None => Fault OutOfBounds
      | Some src =>
          buffer ← draw (mk_shape pos row col src) active buffer;
          Ok (s, buffer)
      end.

Definition run_geometric_square_animation :=
  run_shape GEOMETRIC_ANIMATION_STEPS_SQUARE draw_square.
Definition run_geometric_circle_animation :=
  run_shape GEOMETRIC_ANIMATION_STEPS_CIRCLE draw_circle.
Definition run_geometric_star_animation :=
  run_shape GEOMETRIC_ANIMATION_STEPS_STAR draw_star.
Definition run_geometric_triangle_animation :=
  run_shape GEOMETRIC_ANIMATION_STEPS_TRIANGLE draw_triangle.

Definition run_one (active : list Z) (update_animation : bool) (this_animation : Z)
    (st : anim * list Z) : res (anim * list Z) :=
  let '(s, buffer) := st in
  let s := set_geometric_animation_id this_animation s in
  type ← rd s.(geometric_animation_type) this_animation;
  pos ← rd s.(geometric_animation_pos) this_animation;
  if type <? 1 then
    if pos <? GEOMETRIC_ANIMATION_STEPS_SQUARE
    then run_geometric_square_animation active update_animation (s, buffer) else Ok (s, buffer)
  else if type <? 2 then
    if pos <? GEOMETRIC_ANIMATION_STEPS_CIRCLE
    then run_geometric_circle_animation active update_animation (s, buffer) else Ok (s, buffer)
  else if type <? 3 then
    if pos <? GEOMETRIC_ANIMATION_STEPS_STAR
    then run_geometric_star_animation active update_animation (s, buffer) else Ok (s, buffer)
  else if type <? 4 then
    if pos <? GEOMETRIC_ANIMATION_STEPS_TRIANGLE
    then run_geometric_triangle_animation active update_animation (s, buffer) else Ok (s, buffer)
  else Ok (s, buffer).

Definition geometric_animation_state (active : list Z) (st : anim * led_globals * list Z)
    : res (anim * led_globals * list Z) :=
  let '(s, g, buffer) := st in
  '(update_animation, g) ← restart_step_counter g;
  '(s, buffer) ← for_up 4 0 (run_one active update_animation) (s, buffer);
  Ok (s, g, buffer).

(** ** Specifications *)

(** A pointer to three bytes of colour. *)
Definition ptr_wf (p : color_ptr) : Prop :=
  match p with
  | PtrNull => False
  | PtrActive o => 0 <= o <= 381
  | PtrPalette o => 0 <= o <= 57
  end.

(** The number of steps of each type of animation. *)
Definition steps_of (type : Z) : Z :=
  if type =? 0 then GEOMETRIC_ANIMATION_STEPS_SQUARE
  else if type =? 1 then GEOMETRIC_ANIMATION_STEPS_CIRCLE
  else if type =? 2 then GEOMETRIC_ANIMATION_STEPS_STAR
  else GEOMETRIC_ANIMATION_STEPS_TRIANGLE.

(** Slot [i] of the four: a button, a type, a step, and a colour while it runs. *)
Record slot_wf (s : anim) (i : nat) : Prop := {
  slot_btn : exists b, s.(geometric_animation_btn_id) !! i = Some b /\ 0 <= b < 64;
  slot_run : exists t p c,
    s.(geometric_animation_type) !! i = Some t /\ 0 <= t < 4 /\
    s.(geometric_animation_pos) !! i = Some p /\ 0 <= p <= steps_of t /\
    s.(geometric_animation_color_ptr) !! i = Some c /\ (p < steps_of t -> ptr_wf c)
}.

Record anim_wf (s : anim) : Prop := {
  wf_btn_id : length s.(geometric_animation_btn_id) = 4%nat;
  wf_type : length s.(geometric_animation_type) = 4%nat;
  wf_pos : length s.(geometric_animation_pos) = 4%nat;
  wf_color : length s.(geometric_animation_color_ptr) = 4%nat;
  wf_assign : 0 <= s.(assign_geometric_animation_id) < 4;
  wf_slots : forall i, (i < 4)%nat -> slot_wf s i
}.

(** Distance of two buttons of the grid, as a king moves. *)
Definition chebyshev (row col b : Z) : Z :=
  Z.max (Z.abs (button_row b - row)) (Z.abs (button_column b - col)).

(** Of the 64 buttons of [buffer], those in [P] show the colour [c] and the others
    what [buffer0] shows. *)
Definition painted (c : Z * Z * Z) (P : Z -> bool) (buffer0 buffer : list Z) : Prop :=
  length buffer = 192%nat /\
  forall b, 0 <= b < 64 ->
    color_at buffer (3 * b) = if P b then Ok c else color_at buffer0 (3 * b).

(** ** Lemmas *)

(** *** The grid *)

Definition grid_ok (b : Z) : bool :=
  (get_button_id_from_row_column (button_row b) (button_column b) =? b) &&
  (0 <=? button_row b) && (button_row b <? 8) &&
  (0 <=? button_column b) && (button_column b <? 8).

Lemma grid_ok_all b : 0 <= b < 64 -> grid_ok b = true.
Proof. intros Hb. by_range 0 64 b grid_ok. Qed.

Lemma button_row_range b : 0 <= b < 64 -> 0 <= button_row b < 8.
Proof. intros Hb. assert (H := grid_ok_all b Hb). unfold grid_ok in H. lia. Qed.
Lemma button_column_range b : 0 <= b < 64 -> 0 <= button_column b < 8.
Proof. intros Hb. assert (H := grid_ok_all b Hb). unfold grid_ok in H. lia. Qed.
Lemma button_id_of b :
  0 <= b < 64 -> get_button_id_from_row_column (button_row b) (button_column b) = b.
Proof. intros Hb. assert (H := grid_ok_all b Hb). unfold grid_ok in H. lia. Qed.

Definition cell_ok (x : Z) : bool :=
  let row := x / 8 in
  let col := x mod 8 in
  let b := get_button_id_from_row_column row col in
  (0 <=? b) && (b <? 64) && (button_row b =? row) && (button_column b =? col).

Lemma cell_ok_all row col :
  0 <= row < 8 -> 0 <= col < 8 ->
  let b := get_button_id_from_row_column row col in
  0 <= b < 64 /\ button_row b = row /\ button_column b = col.
Proof.
  intros Hr Hc b.
  assert (H : cell_ok (8 * row + col) = true) by (by_range 0 64 (8 * row + col) cell_ok).
  unfold cell_ok in H. replace (8 * row + col) with (col + row * 8) in H by lia.
  rewrite Z.div_add, Z.mod_add, Z.div_small, Z.mod_small, Z.add_0_l in H by lia.
  unfold b. lia.
Qed.

(** Two cells have the same button only if they are the same cell. *)
Lemma button_id_eqb b row col :
  0 <= b < 64 -> 0 <= row < 8 -> 0 <= col < 8 ->
  (b =? get_button_id_from_row_column row col) = (button_row b =? row) && (button_column b =? col).
Proof.
  intros Hb Hr Hc. destruct (cell_ok_all row col Hr Hc) as (H1 & H2 & H3).
  assert (H4 := button_id_of b Hb).
  destruct (Z.eqb_spec b (get_button_id_from_row_column row col)) as [->|Hne]; [lia|].
  destruct (Z.eqb_spec (button_row b) row) as [<-|], (Z.eqb_spec (button_column b) col) as [<-|];
    done.
Qed.

Lemma button_id_cases row col :
  0 <= row -> 0 <= col ->
  get_button_id_from_row_column row col = 255 \/ 0 <= get_button_id_from_row_column row col < 64.
Proof.
  intros Hr Hc. unfold get_button_id_from_row_column at 1.
  unfold GEOMETRIC_ANIMATION_ROWS, GEOMETRIC_ANIMATION_COLS.
  destruct (Z.leb_spec 8 row); [by left|]. destruct (Z.leb_spec 8 col); [by left|].
  right. apply (cell_ok_all row col); lia.
Qed.

(** *** Drawing *)

Lemma read_color_ok active p :
  length active = 384%nat -> ptr_wf p ->
  exists r g b, read_color active p 0 = Ok r /\ read_color active p 1 = Ok g /\
    read_color active p 2 = Ok b.
Proof.
  intros Hl Hp. destruct p as [|o|o]; cbn in *; [done|..].
  - destruct (rd_in_range active (o + 0)) as [r Hr]; [lia|].
    destruct (rd_in_range active (o + 1)) as [g Hg]; [lia|].
    destruct (rd_in_range active (o + 2)) as [b Hb]; [lia|]. eauto 10.
  - assert (Hd : length default_color = 60%nat) by done.
    destruct (rd_in_range default_color (o + 0)) as [r Hr]; [lia|].
    destruct (rd_in_range default_color (o + 1)) as [g Hg]; [lia|].
    destruct (rd_in_range default_color (o + 2)) as [b Hb]; [lia|]. eauto 10.
Qed.

Section drawing.
Context (active : list Z) (p : color_ptr) (r g b : Z).
Hypothesis Hr : read_color active p 0 = Ok r.
Hypothesis Hg : read_color active p 1 = Ok g.
Hypothesis Hb : read_color active p 2 = Ok b.
Context (buffer0 : list Z).

Lemma painted_refl : length buffer0 = 192%nat -> painted (b, r, g) (fun _ => false) buffer0 buffer0.
Proof. by split. Qed.

Lemma painted_ext P Q buffer :
  (forall x, 0 <= x < 64 -> P x = Q x) -> painted (b, r, g) P buffer0 buffer -> painted (b, r, g) Q buffer0 buffer.
Proof. intros HPQ [Hl H]. split; [done|]. intros x Hx. rewrite H by done. by rewrite HPQ. Qed.

Lemma light_if_painted cond btn P buffer :
  painted (b, r, g) P buffer0 buffer -> (cond = true -> 0 <= btn < 64) ->
  exists buffer', light_if cond active p btn buffer = Ok buffer' /\
    painted (b, r, g) (fun x => P x || (cond && (x =? btn))) buffer0 buffer'.
Proof.
  intros [Hl HP] Hbtn. unfold light_if. destruct cond.
  - specialize (Hbtn eq_refl). unfold light. rewrite Hr, Hg, Hb. cbn [mbind res_bind].
    rewrite u8_small by lia. rewrite (Z.mul_comm btn 3).
    destruct (put3_color buffer (3 * btn) b r g) as (buffer' & -> & Hl' & Hc & Ho); [lia|lia|].
    exists buffer'. split; [done|]. split; [lia|]. intros x Hx. cbn [andb].
    destruct (Z.eqb_spec x btn) as [->|Hne]; [by rewrite orb_true_r|].
    rewrite orb_false_r, <-HP by done. apply color_at_ext. intros j Hj. apply Ho. lia.
  - exists buffer. split; [done|]. apply (painted_ext P); [|done].
    intros x _. by rewrite orb_false_r.
Qed.

(** A row of the two nested loops. *)
Lemma row_painted lit start stop this_row P buffer :
  painted (b, r, g) P buffer0 buffer -> 0 <= this_row < 8 -> 0 <= start -> stop < 8 ->
  exists buffer',
    for_incl start stop (fun this_col buffer =>
      light_if (lit this_row this_col) active p
        (get_button_id_from_row_column this_row this_col) buffer) buffer = Ok buffer' /\
    painted (b, r, g) (fun x => P x || ((button_row x =? this_row) &&
      ((start <=? button_column x) && (button_column x <=? stop)) &&
      lit this_row (button_column x))) buffer0 buffer'.
Proof.
  intros HP Hrow Hs He. unfold for_incl.
  pose (inv := fun (k : Z) (l : list Z) => painted (b, r, g) (fun x => P x || ((button_row x =? this_row) &&
      ((start <=? button_column x) && (button_column x <? k)) &&
      lit this_row (button_column x))) buffer0 l).
  edestruct (for_up_inv inv) as (l & -> & Hinv).
  - unfold inv. eapply painted_ext; [|exact HP]. intros x Hx. cbn beta.
    replace ((start <=? button_column x) && (button_column x <? start)) with false by lia.
    by rewrite andb_false_r, orb_false_r.
  - intros k l Hk Hl. edestruct (light_if_painted (lit this_row k)) as (l' & -> & Hl').
    + exact Hl.
    + intros _. apply (cell_ok_all this_row k); lia.
    + exists l'. split; [done|]. unfold inv. eapply painted_ext; [|exact Hl'].
      intros x Hx. cbn beta. rewrite button_id_eqb by lia.
      destruct (Z.eqb_spec (button_row x) this_row) as [E|]; [|by rewrite !andb_false_r, !orb_false_r].
      destruct (Z.eqb_spec (button_column x) k) as [<-|Hne].
      * replace (button_column x <? button_column x) with false by lia.
        replace (button_column x <? button_column x + 1) with true by lia.
        replace (start <=? button_column x) with true by lia. cbn.
        destruct (P x), (lit this_row (button_column x)); done.
      * rewrite !andb_false_r, orb_false_r.
        by replace (button_column x <? k + 1) with (button_column x <? k) by lia.
  - exists l. split; [done|]. eapply painted_ext; [|exact Hinv]. intros x Hx. cbn beta.
    assert (E : (start <=? button_column x) &&
        (button_column x <? start + Z.of_nat (Z.to_nat (stop + 1 - start))) =
      (start <=? button_column x) && (button_column x <=? stop)) by lia. by rewrite E.
Qed.

(** The nested loops paint the lit cells of the clipped rectangle. *)
Lemma draw_grid_painted pos row col lit :
  length buffer0 = 192%nat ->
  exists buffer', draw_grid pos row col lit active p buffer0 = Ok buffer' /\
    painted (b, r, g) (fun x =>
      ((clip_start (u8 (row - pos)) <=? button_row x) &&
       (button_row x <=? clip_end (u8 (row + pos)))) &&
      ((clip_start (u8 (col - pos)) <=? button_column x) &&
       (button_column x <=? clip_end (u8 (col + pos)))) &&
      lit (button_row x) (button_column x)) buffer0 buffer'.
Proof.
  intros Hl. unfold draw_grid. cbv zeta.
  assert (Hstart : forall x, 0 <= clip_start (u8 x))
    by (intros x; unfold clip_start; assert (H := u8_range x); destruct (_ <? 8); lia).
  assert (Hend : forall x, clip_end (u8 x) < 8)
    by (intros x; unfold clip_end; destruct (Z.ltb_spec (u8 x) 8); lia).
  assert (Hrs := Hstart (row - pos)). assert (Hre := Hend (row + pos)).
  set (rs := clip_start (u8 (row - pos))) in *. set (re := clip_end (u8 (row + pos))) in *.
  set (cs := clip_start (u8 (col - pos))). set (ce := clip_end (u8 (col + pos))).
  unfold for_incl at 1.
  pose (inv := fun (k : Z) (l : list Z) => painted (b, r, g) (fun x =>
      ((rs <=? button_row x) && (button_row x <? k)) &&
      ((cs <=? button_column x) && (button_column x <=? ce)) &&
      lit (button_row x) (button_column x)) buffer0 l).
  edestruct (for_up_inv inv) as (l & -> & Hinv).
  - unfold inv. eapply painted_ext; [|by apply painted_refl]. intros x Hx. cbn beta. lia.
  - intros k l Hk Hpl.
    edestruct (row_painted lit cs ce k) as (l' & -> & Hl'); [exact Hpl|lia|apply Hstart|apply Hend|].
    exists l'. split; [done|]. unfold inv. eapply painted_ext; [|exact Hl'].
    intros x Hx. cbn beta.
    destruct (Z.eqb_spec (button_row x) k) as [<-|Hne]; cbn [andb].
    + replace (button_row x <? button_row x) with false by lia.
      replace (button_row x <? button_row x + 1) with true by lia.
      replace (rs <=? button_row x) with true by lia. cbn.
      done.
    + rewrite orb_false_r. by replace (button_row x <? k + 1) with (button_row x <? k) by lia.
  - exists l. split; [done|]. eapply painted_ext; [|exact Hinv]. intros x Hx. cbn beta.
    assert (E : (rs <=? button_row x) && (button_row x <? rs + Z.of_nat (Z.to_nat (re + 1 - rs))) =
      (rs <=? button_row x) && (button_row x <=? re)) by lia. by rewrite E.
Qed.

End drawing.

(** *** Every drawing routine stays inside the display buffer *)

Definition draws_safely (draw : shape -> list Z -> list Z -> res (list Z)) : Prop :=
  forall d active buffer,
    length active = 384%nat -> ptr_wf d.(s_src) -> 0 <= d.(s_row) < 8 -> 0 <= d.(s_col) < 8 ->
    length buffer = 192%nat ->
    exists buffer', draw d active buffer = Ok buffer' /\ length buffer' = 192%nat.

Lemma light_if_safe cond active p btn buffer :
  length active = 384%nat -> ptr_wf p -> length buffer = 192%nat -> (cond = true -> 0 <= btn < 64) ->
  exists buffer', light_if cond active p btn buffer = Ok buffer' /\ length buffer' = 192%nat.
Proof.
  intros Ha Hp Hl Hbtn. destruct (read_color_ok active p Ha Hp) as (r & g & b & Hr & Hg & Hb).
  edestruct (light_if_painted active p r g b Hr Hg Hb buffer cond btn (fun _ => false) buffer)
    as (l & -> & [? _]); [by apply painted_refl|done|]. by exists l.
Qed.

Lemma draw_grid_safe lit :
  draws_safely (fun d active buffer =>
    draw_grid d.(s_pos) d.(s_row) d.(s_col) (lit d) active d.(s_src) buffer).
Proof.
  intros d active buffer Ha Hp Hr Hc Hl.
  destruct (read_color_ok active _ Ha Hp) as (r & g & b & ? & ? & ?).
  destruct (draw_grid_painted active d.(s_src) r g b ltac:(done) ltac:(done) ltac:(done) buffer
    d.(s_pos) d.(s_row) d.(s_col) (lit d) Hl) as (l & -> & [? _]). by exists l.
Qed.

Lemma draw_square_safe : draws_safely draw_square.
Proof. exact (draw_grid_safe (fun d => square_lit d.(s_pos) d.(s_row) d.(s_col))). Qed.
Lemma draw_circle_safe : draws_safely draw_circle.
Proof. exact (draw_grid_safe (fun d => circle_lit d.(s_pos) d.(s_row) d.(s_col))). Qed.

Lemma star_point_safe active p row col buffer :
  length active = 384%nat -> ptr_wf p -> length buffer = 192%nat ->
  exists buffer', star_point active p row col buffer = Ok buffer' /\ length buffer' = 192%nat.
Proof.
  intros Ha Hp Hl. apply light_if_safe; [done|done|done|]. intros Hlt%Z.ltb_lt.
  destruct (button_id_cases (u8 row) (u8 col)); [apply u8_range|apply u8_range|lia|done].
Qed.

Lemma star_loop_safe fuel : forall d active counter tail buffer,
  length active = 384%nat -> ptr_wf d.(s_src) -> length buffer = 192%nat ->
  0 <= tail -> 3 <= tail + Z.of_nat fuel ->
  exists buffer', star_loop fuel d active counter tail buffer = Ok buffer' /\
    length buffer' = 192%nat.
Proof.
  induction fuel as [|fuel IH]; intros d active counter tail buffer Ha Hp Hl Ht Hf;
    cbn [star_loop]; unfold GEOMETRIC_STAR_MAX_TAIL_LENGTH.
  - replace (tail <? 3) with false by lia. rewrite andb_false_r. by exists buffer.
  - destruct ((0 <? counter) && (tail <? 3)) eqn:Hc; [|by exists buffer]. cbv zeta.
    do 8 (match goal with |- context [star_point active (s_src d) ?a ?b ?buf ≫= _] =>
            let l := fresh "l" in let E := fresh "E" in
            destruct (star_point_safe active (s_src d) a b buf) as (l & E & ?);
            [done|done|done|rewrite E; clear E; cbn [mbind res_bind]] end).
    apply IH; [done|done|done|apply u8_range|]. rewrite u8_small by lia. lia.
Qed.

Lemma draw_star_safe : draws_safely draw_star.
Proof. intros d active buffer Ha Hp Hr Hc Hl. apply star_loop_safe; done || lia. Qed.

Lemma clip_start_range x : 0 <= clip_start (u8 x) < 8.
Proof. unfold clip_start. assert (H := u8_range x). destruct (Z.ltb_spec (u8 x) 8); lia. Qed.
Lemma clip_end_range x : 0 <= clip_end (u8 x) < 8.
Proof. unfold clip_end. assert (H := u8_range x). destruct (Z.ltb_spec (u8 x) 8); lia. Qed.

(** A loop whose body keeps the buffer's length. *)
Lemma for_incl_safe start stop body (buffer : list Z) :
  length buffer = 192%nat ->
  (forall k l, start <= k <= stop -> length l = 192%nat ->
     exists l', body k l = Ok l' /\ length l' = 192%nat) ->
  exists buffer', for_incl start stop body buffer = Ok buffer' /\ length buffer' = 192%nat.
Proof.
  intros Hl Hbody. unfold for_incl.
  apply (for_up_ok (fun l => length l = 192%nat)); [done|]. intros k l Hk. apply Hbody. lia.
Qed.

Lemma draw_triangle_safe : draws_safely draw_triangle.
Proof.
  intros d active buffer Ha Hp Hr Hc Hl. unfold draw_triangle. cbv zeta.
  assert (Hcs := clip_start_range (d.(s_col) - (1 + (d.(s_pos) - 1) * 2))).
  assert (Hce := clip_end_range (d.(s_col) + (1 + (d.(s_pos) - 1) * 2))).
  assert (Hrs := clip_start_range (d.(s_row) - (d.(s_pos) - 1))).
  assert (Hre := clip_end_range (d.(s_row) + d.(s_pos))).
  set (min_row := u8 (d.(s_row) - (d.(s_pos) - 1))) in *.
  set (max_row := u8 (d.(s_row) + d.(s_pos))) in *.
  set (min_col := u8 (d.(s_col) - _)) in *. set (max_col := u8 (d.(s_col) + _)) in *.
  assert (Hcell : forall row col, 0 <= row < 8 -> 0 <= col < 8 ->
    0 <= get_button_id_from_row_column row col < 64) by (intros; by apply cell_ok_all).
  assert (H1 : exists l, (if clip_start min_row =? min_row then
       for_incl (clip_start min_col) (clip_end max_col) (fun this_col buffer =>
         light active d.(s_src) (get_button_id_from_row_column (clip_start min_row) this_col)
           buffer) buffer else Ok buffer) = Ok l /\ length l = 192%nat).
  { destruct (_ =? _); [|by exists buffer]. apply for_incl_safe; [done|]. intros k l Hk Hlk.
    apply (light_if_safe true); [done|done|done|]. intros _. apply Hcell; lia. }
  destruct H1 as (l1 & -> & Hl1). cbn [mbind res_bind].
  destruct (light_if_safe (clip_end max_row =? max_row) active d.(s_src)
    (get_button_id_from_row_column (clip_end max_row) d.(s_col)) l1) as (l2 & -> & Hl2);
    [done|done|done|intros _; apply Hcell; lia|]. cbn [mbind res_bind].
  apply for_incl_safe; [done|]. intros k l Hk Hlk.
  edestruct (light_if_safe (u8 (min_col + u8 (k - min_row)) <? GEOMETRIC_ANIMATION_COLS))
    as (l3 & -> & Hl3); [done|done|done| |cbn [mbind res_bind]].
  { intros Hlt%Z.ltb_lt. apply Hcell; [lia|]. split; [apply u8_range|exact Hlt]. }
  apply light_if_safe; [done|done|done|]. intros Hlt%Z.ltb_lt.
  apply Hcell; [lia|]. split; [apply u8_range|exact Hlt].
Qed.

(** *** Running *)

Lemma slot_update_pos s i p' :
  anim_wf s -> (i < 4)%nat ->
  (forall t p, s.(geometric_animation_type) !! i = Some t ->
     s.(geometric_animation_pos) !! i = Some p -> p < steps_of t /\ p < p' <= steps_of t) ->
  anim_wf (set_geometric_animation_pos (<[i := p']> s.(geometric_animation_pos)) s).
Proof.
  intros [Hb Ht Hp Hc Has Hsl] Hi Hp'. split; cbn; [done|done|by rewrite length_insert|done|done|].
  intros j Hj. destruct (Hsl j Hj) as [Hbtn (t & p & c & H1 & H2 & H3 & H4 & H5 & H6)].
  split; [done|]. cbn. destruct (decide (i = j)) as [<-|Hne].
  - destruct (Hp' t p H1 H3) as [Hlt Hp2]. exists t, p', c.
    rewrite list_lookup_insert_eq by lia. split; [done|]. split; [done|]. split; [done|].
    split; [lia|]. split; [done|]. intros _. by apply H6.
  - exists t, p, c. rewrite list_lookup_insert_ne by done. done.
Qed.

Lemma rd_lookup l i v : l !! Z.to_nat i = Some v -> 0 <= i -> rd l i = Ok v.
Proof. intros Hl Hi. by apply rd_ok. Qed.

Lemma run_shape_safe draw steps active update s buffer i t p :
  draws_safely draw -> anim_wf s -> length active = 384%nat -> length buffer = 192%nat ->
  0 <= i < 4 -> s.(geometric_animation_id) = i ->
  s.(geometric_animation_type) !! Z.to_nat i = Some t ->
  s.(geometric_animation_pos) !! Z.to_nat i = Some p -> steps = steps_of t -> p < steps ->
  exists s' buffer', run_shape steps draw active update (s, buffer) = Ok (s', buffer') /\
    anim_wf s' /\ length buffer' = 192%nat /\
    s'.(geometric_animation_pos) =
      (if update then <[Z.to_nat i := p + 1]> s.(geometric_animation_pos)
       else s.(geometric_animation_pos)) /\
    s'.(geometric_animation_type) = s.(geometric_animation_type).
Proof.
  intros Hdraw Hwf Ha Hl Hi Hid Ht Hp -> Hlt. unfold run_shape. rewrite Hid.
  assert (Hsteps : steps_of t <= 15) by (unfold steps_of; destruct (t =? 0), (t =? 1), (t =? 2); cbv; done).
  destruct (wf_slots _ Hwf (Z.to_nat i) ltac:(lia)) as [(bt & Hbt & Hbr) (t0 & p0 & c & H1 & H2 & H3 & H4 & H5 & H6)].
  simplify_eq.
  assert (Hdrawn : forall s1 q, anim_wf s1 -> s1.(geometric_animation_id) = s.(geometric_animation_id) ->
    s1.(geometric_animation_btn_id) = s.(geometric_animation_btn_id) ->
    s1.(geometric_animation_color_ptr) = s.(geometric_animation_color_ptr) ->
    s1.(geometric_animation_pos) !! Z.to_nat (geometric_animation_id s) = Some q ->
    exists buffer', (pos ← rd s1.(geometric_animation_pos) (geometric_animation_id s);
      if pos =? 0 then Ok (s1, buffer)
      else row ← get_geometric_button_row s1; col ← get_geometric_button_column s1;
        match s1.(geometric_animation_color_ptr) !! Z.to_nat (geometric_animation_id s) with
        | None => Fault OutOfBounds
        | Some src => buffer ← draw (mk_shape pos row col src) active buffer; Ok (s1, buffer)
        end) = Ok (s1, buffer') /\ length buffer' = 192%nat).
  { intros s1 q Hw1 Hi1 Hb1 Hc1 Hq. rewrite (rd_lookup _ _ q Hq) by lia. cbn [mbind res_bind].
    destruct (q =? 0); [by exists buffer|].
    unfold get_geometric_button_row, get_geometric_button_column. rewrite Hi1, Hb1, Hc1.
    rewrite (rd_lookup _ _ bt Hbt) by lia. cbn [mbind res_bind]. rewrite H5.
    destruct (Hdraw (mk_shape q (button_row bt) (button_column bt) c) active buffer)
      as (b' & -> & Hb'); [done|cbn; by apply H6|by apply button_row_range|
      by apply button_column_range|done|]. by exists b'. }
  destruct update.
  - rewrite (rd_lookup _ _ _ Hp) by lia. cbn [mbind res_bind].
    assert (Hplen := wf_pos _ Hwf). rewrite wr_in_range by lia. cbn [mbind res_bind].
    rewrite u8_small by lia.
    set (s1 := set_geometric_animation_pos _ s).
    assert (Hw1 : anim_wf s1).
    { apply slot_update_pos; [done|lia|]. intros t' p' Ht' Hp'. simplify_eq. lia. }
    assert (Hp1 : s1.(geometric_animation_pos) !! Z.to_nat (geometric_animation_id s) = Some (p + 1))
      by (cbn; apply list_lookup_insert_eq; lia).
    destruct (steps_of t <=? p + 1); [exists s1, buffer; by split_and!|].
    destruct (Hdrawn s1 (p + 1)) as (b' & -> & Hb'); [done..|]. exists s1, b'. by split_and!.
  - cbn [mbind res_bind]. destruct (Hdrawn s p) as (b' & -> & Hb'); [done..|].
    exists s, b'. by split_and!.
Qed.

(** The step of slot [i] after a frame. *)
Definition advance (update : bool) (t p : Z) : Z :=
  if update && (p <? steps_of t) then p + 1 else p.

Definition slot_step (s s' : anim) (update : bool) (i : nat) : Prop :=
  forall t p, s.(geometric_animation_type) !! i = Some t ->
    s.(geometric_animation_pos) !! i = Some p ->
    s'.(geometric_animation_pos) !! i = Some (advance update t p).

Lemma set_id_wf i s : anim_wf s -> anim_wf (set_geometric_animation_id i s).
Proof. intros [? ? ? ? ? Hs]. split; cbn; [done..|]. intros j Hj. by destruct (Hs j Hj). Qed.

Lemma run_one_safe active update i s buffer :
  anim_wf s -> length active = 384%nat -> length buffer = 192%nat -> 0 <= i < 4 ->
  exists s' buffer', run_one active update i (s, buffer) = Ok (s', buffer') /\
    anim_wf s' /\ length buffer' = 192%nat /\
    s'.(geometric_animation_type) = s.(geometric_animation_type) /\
    slot_step s s' update (Z.to_nat i) /\
    (forall j, j <> Z.to_nat i ->
       s'.(geometric_animation_pos) !! j = s.(geometric_animation_pos) !! j).
Proof.
  intros Hwf Ha Hl Hi. unfold run_one. apply (set_id_wf i) in Hwf.
  change (geometric_animation_type s) with
    (geometric_animation_type (set_geometric_animation_id i s)).
  unfold slot_step. change (geometric_animation_pos s) with
    (geometric_animation_pos (set_geometric_animation_id i s)).
  change (geometric_animation_type s) with
    (geometric_animation_type (set_geometric_animation_id i s)).
  assert (Hid : (set_geometric_animation_id i s).(geometric_animation_id) = i) by done.
  set (s1 := set_geometric_animation_id i s) in *. clearbody s1.
  destruct (wf_slots _ Hwf (Z.to_nat i) ltac:(lia)) as [_ (t & p & c & H1 & H2 & H3 & H4 & _)].
  rewrite (rd_lookup _ _ t H1), (rd_lookup _ _ p H3) by lia. cbn [mbind res_bind].
  assert (Hkeep : steps_of t <= p ->
    anim_wf s1 /\ length buffer = 192%nat /\
    s1.(geometric_animation_type) = s1.(geometric_animation_type) /\
    (forall t p, s1.(geometric_animation_type) !! Z.to_nat i = Some t ->
       s1.(geometric_animation_pos) !! Z.to_nat i = Some p ->
       s1.(geometric_animation_pos) !! Z.to_nat i = Some (advance update t p)) /\
    (forall j, j <> Z.to_nat i ->
       s1.(geometric_animation_pos) !! j = s1.(geometric_animation_pos) !! j)).
  { intros Hge. split_and!; [done|done|done| |done]. intros t' p' Ht Hp.
    rewrite H1 in Ht. rewrite H3 in Hp |- *. injection Ht as <-. injection Hp as <-.
    unfold advance. replace (p <? steps_of t) with false by lia.
    by rewrite andb_false_r. }
  assert (Hrun : forall steps draw, draws_safely draw -> steps = steps_of t -> p < steps ->
    exists s' buffer', run_shape steps draw active update (s1, buffer) = Ok (s', buffer') /\
    anim_wf s' /\ length buffer' = 192%nat /\
    s'.(geometric_animation_type) = s1.(geometric_animation_type) /\
    (forall t p, s1.(geometric_animation_type) !! Z.to_nat i = Some t ->
       s1.(geometric_animation_pos) !! Z.to_nat i = Some p ->
       s'.(geometric_animation_pos) !! Z.to_nat i = Some (advance update t p)) /\
    (forall j, j <> Z.to_nat i ->
       s'.(geometric_animation_pos) !! j = s1.(geometric_animation_pos) !! j)).
  { intros steps draw Hdraw Hst Hlt.
    destruct (run_shape_safe draw steps active update s1 buffer i t p)
      as (s' & b' & E & Hw' & Hb' & Hpos & Hty); [done..|].
    exists s', b'. split_and!; [done|done|done|done| |].
    - intros t' p' Ht Hp. rewrite H1 in Ht. rewrite H3 in Hp. injection Ht as <-.
      injection Hp as <-. rewrite Hpos. unfold advance.
      replace (p <? steps_of t) with true by lia. destruct update; [|done].
      apply list_lookup_insert_eq. by apply lookup_lt_Some in H3.
    - intros j Hj. rewrite Hpos. destruct update; [|done]. by apply list_lookup_insert_ne. }
  assert (Hst : steps_of 0 = 8 /\ steps_of 1 = 14 /\ steps_of 2 = 11 /\ steps_of 3 = 15) by done.
  destruct Hst as (S0 & S1 & S2 & S3).
  assert (Hcase : t = 0 \/ t = 1 \/ t = 2 \/ t = 3) by lia.
  destruct Hcase as [->|[->|[->| ->]]]; cbn [Z.ltb Z.compare Pos.compare Pos.compare_cont];
    (match goal with |- context [if ?c then _ else _] => destruct c eqn:Hc end;
     [apply Hrun; [first [exact draw_square_safe | exact draw_circle_safe |
                          exact draw_star_safe | exact draw_triangle_safe]|done|
                   apply Z.ltb_lt in Hc; exact Hc]
     |exists s1, buffer; split; [done|]; apply Hkeep; apply Z.ltb_ge in Hc; exact Hc]).
Qed.

(** All four slots in turn. *)
Lemma run_all_safe active update s buffer :
  anim_wf s -> length active = 384%nat -> length buffer = 192%nat ->
  exists s' buffer', for_up 4 0 (run_one active update) (s, buffer) = Ok (s', buffer') /\
    anim_wf s' /\ length buffer' = 192%nat /\
    s'.(geometric_animation_type) = s.(geometric_animation_type) /\
    forall i, (i < 4)%nat -> slot_step s s' update i.
Proof.
  intros Hwf Ha Hl.
  pose (inv := fun (k : Z) (st : anim * list Z) => let '(s', b') := st in
    anim_wf s' /\ length b' = 192%nat /\
    s'.(geometric_animation_type) = s.(geometric_animation_type) /\
    (forall i, (i < Z.to_nat k)%nat -> slot_step s s' update i) /\
    (forall i, (Z.to_nat k <= i)%nat ->
       s'.(geometric_animation_pos) !! i = s.(geometric_animation_pos) !! i)).
  edestruct (for_up_inv inv) as ([s' b'] & -> & Hinv).
  - split_and!; [done|done|done| |done]. intros i Hi. lia.
  - intros k [s1 b1] Hk (Hw1 & Hb1 & Ht1 & Hdone & Htodo).
    destruct (run_one_safe active update k s1 b1) as (s2 & b2 & -> & Hw2 & Hb2 & Ht2 & Hstep & Hoth);
      [done|done|done|lia|].
    eexists. split; [done|]. split_and!; [done|done|congruence| |].
    + intros i Hi. destruct (decide (i = Z.to_nat k)) as [->|Hne].
      * intros t p Ht Hp. apply (Hstep t p); [by rewrite Ht1|by rewrite Htodo].
      * intros t p Ht Hp. rewrite Hoth by done. apply (Hdone i ltac:(lia) t p Ht Hp).
    + intros i Hi. rewrite Hoth by lia. apply Htodo. lia.
  - exists s', b'. destruct Hinv as (? & ? & ? & Hd & _). split_and!; [done|done|done|done|].
    intros i Hi. apply Hd. lia.
Qed.

Lemma restart_spec g :
  length g.(g_led_counter) = 4%nat ->
  exists u g', restart_step_counter g = Ok (u, g') /\ length g'.(g_led_counter) = 4%nat.
Proof.
  intros Hl. unfold restart_step_counter.
  destruct (rd_in_range g.(g_led_counter) 1) as [v ->]; [lia|]. cbn [mbind res_bind].
  destruct (v =? 0); [|by exists false, g].
  rewrite wr_in_range by lia. cbn. eexists true, _. split; [done|]. cbn. by rewrite length_insert.
Qed.

(** *** Starting *)

Lemma clamp_range v : 0 <= Random.clamp v 0 19 <= 19.
Proof. unfold Random.clamp. destruct (Z.ltb_spec v 0), (Z.ltb_spec 19 v); lia. Qed.

Lemma color_source_spec velocities bank btn s :
  length velocities = 128%nat -> 0 <= bank < 2 -> 0 <= btn < 64 ->
  length s.(geometric_animation_color_ptr) = 4%nat -> 0 <= s.(assign_geometric_animation_id) < 4 ->
  exists p, ptr_wf p /\
    set_geometric_animation_color_source velocities bank btn s =
    Ok (set_geometric_animation_color_ptr
          (<[Z.to_nat s.(assign_geometric_animation_id) := p]> s.(geometric_animation_color_ptr)) s).
Proof.
  intros Hv Hb Hbtn Hl Ha. unfold set_geometric_animation_color_source, NUM_BUTTONS.
  destruct (rd_in_range velocities (btn + 64 * bank)) as [v ->]; [lia|]. cbn [mbind res_bind].
  replace ((0 <=? s.(assign_geometric_animation_id)) && _) with true by lia.
  eexists. split; [|reflexivity]. destruct ((v <=? 0) || (121 <=? v)); cbn; [lia|].
  assert (H := clamp_range (Z.quot (v - 1) 6 - 1)). rewrite u8_small by lia. lia.
Qed.

Lemma start_typed_spec type velocities bank btn s g :
  anim_wf s -> length g.(g_led_counter) = 4%nat -> 0 <= type < 4 ->
  length velocities = 128%nat -> 0 <= bank < 2 -> 0 <= btn < 64 ->
  exists s' g', start_typed type velocities bank btn (s, g) = Ok (s', g') /\ anim_wf s' /\
    s'.(assign_geometric_animation_id) = s.(assign_geometric_animation_id) /\
    length g'.(g_led_counter) = 4%nat /\
    s'.(geometric_animation_type) !! Z.to_nat s.(assign_geometric_animation_id) = Some type /\
    s'.(geometric_animation_pos) !! Z.to_nat s.(assign_geometric_animation_id) = Some 0 /\
    s'.(geometric_animation_btn_id) !! Z.to_nat s.(assign_geometric_animation_id) = Some btn.
Proof.
  intros [Hlb Hlt Hlp Hlc Has Hsl] Hg Hty Hv Hbank Hbtn. unfold start_typed.
  rewrite (wr_in_range s.(geometric_animation_btn_id)) by lia. cbn [mbind res_bind].
  set (s1 := set_geometric_animation_btn_id _ s).
  rewrite (wr_in_range s1.(geometric_animation_pos)) by (cbn; lia). cbn [mbind res_bind].
  set (s2 := set_geometric_animation_pos _ s1).
  rewrite (wr_in_range s2.(geometric_animation_type)) by (cbn; lia). cbn [mbind res_bind].
  set (i := Z.to_nat s.(assign_geometric_animation_id)).
  edestruct (color_source_spec velocities bank btn) as (p & Hp & ->); [done|done|done|done|done|].
  cbn [mbind res_bind]. rewrite wr_in_range by (cbn; unfold GEOMETRIC_ANIMATION_G_LED_IDX; lia).
  eexists _, _. split; [reflexivity|]. cbn. fold i.
  assert (Hi : (i < 4)%nat) by (unfold i; lia).
  rewrite !list_lookup_insert_eq by lia. split_and!; try done.
  2: by rewrite length_insert.
  split; cbn; rewrite ?length_insert; [done..|]. intros j Hj.
  destruct (Hsl j Hj) as [Hbj (t & q & c & Hrun)]. fold i.
  destruct (decide (i = j)) as [<-|Hne].
  - split; cbn; fold i.
    + exists btn. by rewrite list_lookup_insert_eq by lia.
    + exists type, 0, p. rewrite !list_lookup_insert_eq by lia. split_and!; try done; try lia.
      unfold steps_of. destruct (type =? 0), (type =? 1), (type =? 2); done.
  - split; cbn; fold i.
    + by rewrite list_lookup_insert_ne by done.
    + exists t, q, c. by rewrite !list_lookup_insert_ne by done.
Qed.

Lemma next_slot s :
  anim_wf s -> anim_wf (set_assign_geometric_animation_id
    (u8 ((s.(assign_geometric_animation_id) + 1) mod 4)) s).
Proof.
  intros [? ? ? ? ? Hs]. split; cbn; [done|done|done|done| |].
  - rewrite u8_small; assert (H := Z.mod_pos_bound (assign_geometric_animation_id s + 1) 4 ltac:(lia)); lia.
  - intros j Hj. by destruct (Hs j Hj).
Qed.

Lemma start_spec velocities bank btn animation_id s g :
  anim_wf s -> length g.(g_led_counter) = 4%nat ->
  length velocities = 128%nat -> 0 <= bank < 2 -> 0 <= btn < 64 ->
  exists s' g', start_geometric_animation velocities bank btn animation_id (s, g) = Ok (s', g') /\
    anim_wf s' /\ length g'.(g_led_counter) = 4%nat /\
    s'.(assign_geometric_animation_id) = (s.(assign_geometric_animation_id) + 1) mod 4 /\
    (0 <= animation_id < 4 ->
     s'.(geometric_animation_type) !! Z.to_nat s.(assign_geometric_animation_id) = Some animation_id /\
     s'.(geometric_animation_pos) !! Z.to_nat s.(assign_geometric_animation_id) = Some 0 /\
     s'.(geometric_animation_btn_id) !! Z.to_nat s.(assign_geometric_animation_id) = Some btn).
Proof.
  intros Hw Hg Hv Hbank Hbtn. unfold start_geometric_animation.
  destruct (restart_spec g Hg) as (u & g1 & -> & Hg1). cbn [mbind res_bind].
  assert (Hmod : u8 ((s.(assign_geometric_animation_id) + 1) mod 4) =
                 (s.(assign_geometric_animation_id) + 1) mod 4).
  { apply u8_small.
    assert (H := Z.mod_pos_bound (assign_geometric_animation_id s + 1) 4 ltac:(lia)). lia. }
  assert (Hstart : forall type, 0 <= type < 4 -> animation_id = type ->
    exists s' g', ('(s, g) ← start_typed type velocities bank btn (s, g1);
      Ok (set_assign_geometric_animation_id
        (u8 ((s.(assign_geometric_animation_id) + 1) mod CONCURRENT_GEOMETRIC_ANIMATIONS)) s, g))
      = Ok (s', g') /\ anim_wf s' /\ length g'.(g_led_counter) = 4%nat /\
      s'.(assign_geometric_animation_id) = (s.(assign_geometric_animation_id) + 1) mod 4 /\
      (0 <= animation_id < 4 ->
       s'.(geometric_animation_type) !! Z.to_nat s.(assign_geometric_animation_id) = Some animation_id /\
       s'.(geometric_animation_pos) !! Z.to_nat s.(assign_geometric_animation_id) = Some 0 /\
       s'.(geometric_animation_btn_id) !! Z.to_nat s.(assign_geometric_animation_id) = Some btn)).
  { intros type Hty ->.
    destruct (start_typed_spec type velocities bank btn s g1)
      as (s1 & g2 & -> & Hw1 & Has & Hg2 & H1 & H2 & H3); [done..|]. cbn [mbind res_bind].
    eexists _, _. split; [reflexivity|]. split_and!; [by apply next_slot|done| |done].
    cbn. unfold CONCURRENT_GEOMETRIC_ANIMATIONS. rewrite Has. exact Hmod. }
  destruct (Z.eqb_spec animation_id GEOMETRIC_ANIMATION_TYPE_CIRCLE); [by apply (Hstart 1)|].
  destruct (Z.eqb_spec animation_id GEOMETRIC_ANIMATION_TYPE_SQUARE); [by apply (Hstart 0)|].
  destruct (Z.eqb_spec animation_id GEOMETRIC_ANIMATION_TYPE_STAR); [by apply (Hstart 2)|].
  destruct (Z.eqb_spec animation_id GEOMETRIC_ANIMATION_TYPE_TRIANGLE); [by apply (Hstart 3)|].
  cbn [mbind res_bind]. eexists _, _. split; [reflexivity|].
  split_and!; [by apply next_slot|done|exact Hmod|].
  unfold GEOMETRIC_ANIMATION_TYPE_CIRCLE, GEOMETRIC_ANIMATION_TYPE_SQUARE,
    GEOMETRIC_ANIMATION_TYPE_STAR, GEOMETRIC_ANIMATION_TYPE_TRIANGLE in *. lia.
Qed.

Lemma initial_anim_wf : anim_wf initial_anim.
Proof.
  split; [done|done|done|done|cbn; lia|]. intros i Hi.
  do 4 (destruct i as [|i]; [split; [by exists 0|exists 0, 8, PtrNull; by split_and!]|]). lia.
Qed.

(** The outline of the square: all cases by computation. *)
Definition square_outline_ok (x : Z) : bool :=
  let b := x mod 64 in
  let row := x / 64 mod 8 in
  let col := x / 512 mod 8 in
  let pos := x / 4096 in
  Bool.eqb
    (((clip_start (u8 (row - pos)) <=? button_row b) &&
      (button_row b <=? clip_end (u8 (row + pos)))) &&
     ((clip_start (u8 (col - pos)) <=? button_column b) &&
      (button_column b <=? clip_end (u8 (col + pos)))) &&
     square_lit pos row col (button_row b) (button_column b))
    (chebyshev row col b =? pos).

Lemma square_outline pos row col b :
  1 <= pos < 8 -> 0 <= row < 8 -> 0 <= col < 8 -> 0 <= b < 64 ->
  ((clip_start (u8 (row - pos)) <=? button_row b) &&
   (button_row b <=? clip_end (u8 (row + pos)))) &&
  ((clip_start (u8 (col - pos)) <=? button_column b) &&
   (button_column b <=? clip_end (u8 (col + pos)))) &&
  square_lit pos row col (button_row b) (button_column b) = (chebyshev row col b =? pos).
Proof.
  intros Hp Hr Hc Hb.
  assert (H : square_outline_ok (b + 64 * (row + 8 * (col + 8 * pos))) = true)
    by (by_range 4096 32768 (b + 64 * (row + 8 * (col + 8 * pos))) square_outline_ok).
  unfold square_outline_ok in H. cbv zeta in H.
  assert (E1 : (b + 64 * (row + 8 * (col + 8 * pos))) mod 64 = b)
    by (rewrite Z.mul_comm, Z.mod_add, Z.mod_small; lia).
  assert (E2 : (b + 64 * (row + 8 * (col + 8 * pos))) / 64 = row + 8 * (col + 8 * pos))
    by (rewrite Z.mul_comm, Z.div_add, Z.div_small; lia).
  assert (E3 : (row + 8 * (col + 8 * pos)) mod 8 = row)
    by (rewrite Z.mul_comm, Z.mod_add, Z.mod_small; lia).
  assert (E4 : (row + 8 * (col + 8 * pos)) / 8 = col + 8 * pos)
    by (rewrite Z.mul_comm, Z.div_add, Z.div_small; lia).
  assert (E5 : (b + 64 * (row + 8 * (col + 8 * pos))) / 512 = col + 8 * pos)
    by (change 512 with (64 * 8); rewrite <-Z.div_div, E2, E4; lia).
  assert (E6 : (b + 64 * (row + 8 * (col + 8 * pos))) / 4096 = pos)
    by (change 4096 with (512 * 8); rewrite <-Z.div_div, E5, Z.mul_comm, Z.div_add, Z.div_small; lia).
  assert (E7 : (col + 8 * pos) mod 8 = col) by (rewrite Z.mul_comm, Z.mod_add, Z.mod_small; lia).
  rewrite E1, E2, E3, E5, E6, E7 in H. by apply eqb_prop.
Qed.

Lemma frame_spec active s g buffer v :
  anim_wf s -> length active = 384%nat -> length buffer = 192%nat ->
  length g.(g_led_counter) = 4%nat -> rd g.(g_led_counter) 1 = Ok v ->
  exists s' g' buffer',
    geometric_animation_state active (s, g, buffer) = Ok (s', g', buffer') /\
    anim_wf s' /\ length buffer' = 192%nat /\ length g'.(g_led_counter) = 4%nat /\
    forall i t p, (i < 4)%nat -> s.(geometric_animation_type) !! i = Some t ->
      s.(geometric_animation_pos) !! i = Some p ->
      s'.(geometric_animation_type) !! i = Some t /\
      s'.(geometric_animation_pos) !! i =
        Some (if (v =? 0) && (p <? steps_of t) then p + 1 else p).
Proof.
  intros Hw Ha Hl Hg Hv. unfold geometric_animation_state, restart_step_counter. rewrite Hv.
  cbn [mbind res_bind].
  destruct (run_all_safe active (v =? 0) s buffer) as (s' & b' & E & Hw' & Hb' & Ht & Hst); [done..|].
  assert (Hfin : forall i t p, (i < 4)%nat -> s.(geometric_animation_type) !! i = Some t ->
      s.(geometric_animation_pos) !! i = Some p ->
      s'.(geometric_animation_type) !! i = Some t /\
      s'.(geometric_animation_pos) !! i = Some (if (v =? 0) && (p <? steps_of t) then p + 1 else p)).
  { intros i t p Hi H1 H2. rewrite Ht. split; [done|]. exact (Hst i Hi t p H1 H2). }
  destruct (v =? 0).
  - rewrite wr_in_range by lia. cbn [mbind res_bind]. rewrite E. cbn [mbind res_bind].
    eexists _, _, _. split; [reflexivity|]. split_and!; [done|done|cbn; by rewrite length_insert|done].
  - cbn [mbind res_bind]. rewrite E. cbn [mbind res_bind].
    eexists _, _, _. split; [reflexivity|]. by split_and!.
Qed.

(** *** Successive frames *)

(** The frames of the display, each with the active colours, the LED counters, which
    the timer counts down in between, and the buffer it draws into. *)
Fixpoint frames (fs : list (list Z * led_globals * list Z)) (s : anim) : res anim :=
  match fs with
  | [] => Ok s
  | (active, g, buffer) :: fs =>
      '(s, _, _) ← geometric_animation_state active (s, g, buffer);
      frames fs s
  end.

Definition frame_fits (fr : list Z * led_globals * list Z) : Prop :=
  let '(active, g, buffer) := fr in
  length active = 384%nat /\ length g.(g_led_counter) = 4%nat /\ length buffer = 192%nat.

(** The frames that find the step counter at zero move the animations on. *)
Definition moves_on (fr : list Z * led_globals * list Z) : Prop :=
  let '(_, g, _) := fr in g.(g_led_counter) !! 1%nat = Some 0.
#[export] Instance moves_on_dec fr : Decision (moves_on fr).
Proof. destruct fr as [[active g] buffer]. unfold moves_on. apply _. Defined.
Definition updates (fs : list (list Z * led_globals * list Z)) : nat := length (filter moves_on fs).

Lemma slot_bounds s i t p :
  anim_wf s -> (i < 4)%nat -> s.(geometric_animation_type) !! i = Some t ->
  s.(geometric_animation_pos) !! i = Some p -> 0 <= t < 4 /\ 0 <= p <= steps_of t.
Proof. intros Hw Hi Ht Hp. destruct (wf_slots _ Hw i Hi) as [_ (t0 & p0 & c & H1 & H2 & H3 & H4 & _)]. by simplify_eq. Qed.

Lemma steps_bound t : 0 < steps_of t <= 15.
Proof. unfold steps_of. destruct (t =? 0), (t =? 1), (t =? 2); cbv; done. Qed.

Lemma frame_moves active g buffer s :
  anim_wf s -> frame_fits (active, g, buffer) ->
  exists s' g' buffer', geometric_animation_state active (s, g, buffer) = Ok (s', g', buffer') /\ anim_wf s' /\
    forall i t p, (i < 4)%nat -> s.(geometric_animation_type) !! i = Some t ->
      s.(geometric_animation_pos) !! i = Some p ->
      s'.(geometric_animation_type) !! i = Some t /\
      s'.(geometric_animation_pos) !! i =
        Some (Z.min (p + if decide (moves_on (active, g, buffer)) then 1 else 0) (steps_of t)).
Proof.
  intros Hw (Ha & Hg & Hb). destruct (rd_in_range g.(g_led_counter) 1) as [v Hv]; [lia|].
  destruct (frame_spec active s g buffer v) as (s' & g' & b' & E & Hw' & _ & _ & Hst); [done..|].
  exists s', g', b'. split; [done|]. split; [done|]. intros i t p Hi Ht Hp.
  destruct (Hst i t p Hi Ht Hp) as [Ht' Hp']. split; [done|]. rewrite Hp'. f_equal.
  destruct (slot_bounds s i t p) as [_ Hr]; [done..|]. apply rd_ok in Hv as [_ Hv]. change (Z.to_nat 1) with 1%nat in Hv.
  destruct (decide _) as [E0|E0]; unfold moves_on in E0; rewrite Hv in E0; destruct (Z.eqb_spec v 0); cbn [andb]; try congruence;
    destruct (Z.ltb_spec p (steps_of t)); lia.
Qed.

Lemma frames_move fs : Forall frame_fits fs -> forall s, anim_wf s ->
  exists s', frames fs s = Ok s' /\ anim_wf s' /\
    forall i t p, (i < 4)%nat -> s.(geometric_animation_type) !! i = Some t ->
      s.(geometric_animation_pos) !! i = Some p ->
      s'.(geometric_animation_type) !! i = Some t /\
      s'.(geometric_animation_pos) !! i = Some (Z.min (p + Z.of_nat (updates fs)) (steps_of t)).
Proof.
  induction 1 as [|[[active g] buffer] fs Hf _ IH]; intros s Hw; cbn [frames].
  - exists s. split; [done|]. split; [done|]. intros i t p Hi Ht Hp. split; [done|]. rewrite Hp. f_equal.
    destruct (slot_bounds s i t p) as [_ Hr]; [done..|]. cbn. lia.
  - destruct (frame_moves active g buffer s Hw Hf) as (s1 & g1 & b1 & -> & Hw1 & H1). rewrite bind_Ok.
    destruct (IH s1 Hw1) as (s2 & -> & Hw2 & H2). exists s2. split; [done|]. split; [done|]. intros i t p Hi Ht Hp.
    destruct (H1 i t p Hi Ht Hp) as [Ht1 Hp1]. destruct (H2 i t _ Hi Ht1 Hp1) as [Ht2 Hp2]. split; [done|]. rewrite Hp2.
    f_equal. unfold updates. rewrite filter_cons. destruct (decide _); cbn [length]; lia.
Qed.

(** A slot at its last step draws nothing and stays there. *)
Lemma run_one_finished active u i s buffer t :
  0 <= i < 4 -> 0 <= t < 4 -> s.(geometric_animation_type) !! Z.to_nat i = Some t ->
  s.(geometric_animation_pos) !! Z.to_nat i = Some (steps_of t) ->
  run_one active u i (s, buffer) = Ok (set_geometric_animation_id i s, buffer).
Proof.
  intros Hi Hr Ht Hp. unfold run_one. cbn [geometric_animation_type geometric_animation_pos set_geometric_animation_id].
  rewrite (rd_lookup _ _ t Ht), (rd_lookup _ _ _ Hp) by lia. rewrite !bind_Ok.
  assert (Hcase : t = 0 \/ t = 1 \/ t = 2 \/ t = 3) by lia. by destruct Hcase as [->|[->|[->| ->]]].
Qed.

Definition finished (s : anim) : Prop := forall i, (i < 4)%nat ->
  exists t, 0 <= t < 4 /\ s.(geometric_animation_type) !! i = Some t /\ s.(geometric_animation_pos) !! i = Some (steps_of t).

Lemma finished_frame active g buffer s :
  finished s -> frame_fits (active, g, buffer) ->
  exists g', geometric_animation_state active (s, g, buffer) = Ok (set_geometric_animation_id 3 s, g', buffer).
Proof.
  intros Hf (_ & Hg & _). unfold geometric_animation_state. destruct (restart_spec g Hg) as (u & g' & -> & _). rewrite bind_Ok.
  exists g'. assert (Hone : forall i s1, 0 <= i < 4 -> s1.(geometric_animation_type) = s.(geometric_animation_type) ->
    s1.(geometric_animation_pos) = s.(geometric_animation_pos) ->
    run_one active u i (s1, buffer) = Ok (set_geometric_animation_id i s1, buffer)).
  { intros i s1 Hi Et Ep. destruct (Hf (Z.to_nat i) ltac:(lia)) as (t & Hr & Ht & Hp).
    apply (run_one_finished active u i s1 buffer t); rewrite ?Et, ?Ep; try done; lia. }
  cbn [for_up]. rewrite (Hone 0 s), bind_Ok by done || lia. do 3 (rewrite Hone, bind_Ok by (done || (cbn; lia))). by rewrite bind_Ok.
Qed.

(** ** Theorems *)

(** The wiring map is a bijection: every button has one row and column, and the
    button of that row and column is the button itself. *)
Theorem grid_roundtrip :
  (forall b, 0 <= b < 64 ->
     0 <= button_row b < 8 /\ 0 <= button_column b < 8 /\
     get_button_id_from_row_column (button_row b) (button_column b) = b) /\
  (forall row col, 0 <= row < 8 -> 0 <= col < 8 ->
     0 <= get_button_id_from_row_column row col < 64 /\
     button_row (get_button_id_from_row_column row col) = row /\
     button_column (get_button_id_from_row_column row col) = col) /\
  (forall row col, 8 <= row \/ 8 <= col -> get_button_id_from_row_column row col = 255).
Proof.
  split_and!.
  - intros b Hb. split_and!; [apply button_row_range|apply button_row_range|
      apply button_column_range|apply button_column_range|apply button_id_of]; done.
  - intros row col Hr Hc. by apply cell_ok_all.
  - intros row col H. unfold get_button_id_from_row_column, GEOMETRIC_ANIMATION_ROWS,
      GEOMETRIC_ANIMATION_COLS. destruct (Z.leb_spec 8 row), (Z.leb_spec 8 col); lia.
Qed.

(** Step [pos] of the square animation lights exactly the buttons at distance
    [pos] (as a king moves) from the button that started it, in the colour of the
    animation stored blue, red, green, and leaves every other button as it was:
    the wrap-around of the eight-bit bounds clips the square to the grid. *)
Theorem square_is_chebyshev_ring d active buffer r g b :
  1 <= d.(s_pos) < 8 -> 0 <= d.(s_row) < 8 -> 0 <= d.(s_col) < 8 -> length buffer = 192%nat ->
  read_color active d.(s_src) 0 = Ok r -> read_color active d.(s_src) 1 = Ok g ->
  read_color active d.(s_src) 2 = Ok b ->
  exists buffer', draw_square d active buffer = Ok buffer' /\ length buffer' = 192%nat /\
    forall btn, 0 <= btn < 64 ->
      color_at buffer' (3 * btn) =
        if chebyshev d.(s_row) d.(s_col) btn =? d.(s_pos) then Ok (b, r, g)
        else color_at buffer (3 * btn).
Proof.
  intros Hp Hrow Hcol Hl Hr Hg Hb. unfold draw_square.
  edestruct (draw_grid_painted active d.(s_src) r g b Hr Hg Hb buffer d.(s_pos) d.(s_row) d.(s_col))
    as (l & -> & [Hl' HP]); [done|]. exists l. split; [done|]. split; [done|].
  intros btn Hbtn. rewrite HP by done. by rewrite square_outline.
Qed.

Lemma square_is_chebyshev_ring_witness :
  exists buffer', draw_square (mk_shape 2 0 7 (PtrPalette 39)) [] (replicate 192 1) = Ok buffer' /\
    color_at buffer' (3 * get_button_id_from_row_column 2 6) = Ok (48, 0, 0) /\
    color_at buffer' (3 * get_button_id_from_row_column 1 6) = Ok (1, 1, 1).
Proof.
  destruct (square_is_chebyshev_ring (mk_shape 2 0 7 (PtrPalette 39)) [] (replicate 192 1) 0 0 48)
    as (l & H & _ & Hc); [cbn; lia|cbn; lia|cbn; lia|reflexivity|reflexivity|reflexivity|reflexivity|].
  exists l. split; [exact H|].
  split; [exact (Hc 42 ltac:(lia))|exact (Hc 38 ltac:(lia))].
Defined.

(** A display frame of the animations is memory safe: from a well-formed state
    it succeeds, writes only inside the 192-byte display buffer, never reads
    through a null colour pointer, and re-establishes the invariant; every running
    animation advances by one step when the step counter has run out and by none
    otherwise. *)
Theorem animation_frame_safe active s g buffer v :
  anim_wf s -> length active = 384%nat -> length buffer = 192%nat ->
  length g.(g_led_counter) = 4%nat -> rd g.(g_led_counter) 1 = Ok v ->
  exists s' g' buffer',
    geometric_animation_state active (s, g, buffer) = Ok (s', g', buffer') /\
    anim_wf s' /\ length buffer' = 192%nat /\ length g'.(g_led_counter) = 4%nat /\
    forall i t p, (i < 4)%nat -> s.(geometric_animation_type) !! i = Some t ->
      s.(geometric_animation_pos) !! i = Some p ->
      s'.(geometric_animation_type) !! i = Some t /\
      s'.(geometric_animation_pos) !! i =
        Some (if (v =? 0) && (p <? steps_of t) then p + 1 else p).
Proof. apply frame_spec. Qed.

Lemma animation_frame_safe_witness :
  exists s' g' buffer',
    geometric_animation_state (replicate 384 0) (initial_anim, initial_led, replicate 192 0) =
      Ok (s', g', buffer') /\ anim_wf s'.
Proof.
  destruct (animation_frame_safe (replicate 384 0) initial_anim initial_led (replicate 192 0) 0)
    as (s' & g' & b' & H & Hw & _);
    [exact initial_anim_wf|reflexivity|reflexivity|reflexivity|reflexivity|].
  exists s', g', b'. split; [exact H|exact Hw].
Defined.


(** One animation of each type, at its first step, and frames with the step counter
    at zero and at one. *)
Definition four_started : anim :=
  mk_anim [0; 9; 30; 63] [0; 1; 2; 3] [0; 0; 0; 0] [PtrActive 0; PtrPalette 3; PtrPalette 57; PtrActive 381] 0 0.
Definition frame_at (counter : Z) : list Z * led_globals * list Z :=
  (replicate 384 7, set_g_led_counter [0; counter; 0; 0] initial_led, replicate 192 0).


(** Starting an animation takes the four slots in turn: it keeps the invariant
    for every button, bank and animation number, gives the next slot the button,
    the type and step zero, and moves on to the following slot; an unknown
    animation number only moves on. *)
Theorem start_animation_spec velocities bank btn animation_id s g :
  anim_wf s -> length g.(g_led_counter) = 4%nat ->
  length velocities = 128%nat -> 0 <= bank < 2 -> 0 <= btn < 64 ->
  exists s' g', start_geometric_animation velocities bank btn animation_id (s, g) = Ok (s', g') /\
    anim_wf s' /\ length g'.(g_led_counter) = 4%nat /\
    s'.(assign_geometric_animation_id) = (s.(assign_geometric_animation_id) + 1) mod 4 /\
    (0 <= animation_id < 4 ->
     s'.(geometric_animation_type) !! Z.to_nat s.(assign_geometric_animation_id) = Some animation_id /\
     s'.(geometric_animation_pos) !! Z.to_nat s.(assign_geometric_animation_id) = Some 0 /\
     s'.(geometric_animation_btn_id) !! Z.to_nat s.(assign_geometric_animation_id) = Some btn).
Proof. apply start_spec. Qed.

Lemma start_animation_spec_witness :
  exists s' g', start_geometric_animation (replicate 128 0) 1 28 2 (initial_anim, initial_led) =
      Ok (s', g') /\ s'.(geometric_animation_btn_id) !! 0%nat = Some 28.
Proof.
  destruct (start_animation_spec (replicate 128 0) 1 28 2 initial_anim initial_led)
    as (s' & g' & H & _ & _ & _ & Hs); [exact initial_anim_wf|reflexivity|reflexivity|lia|lia|].
  exists s', g'. split; [exact H|]. apply Hs. lia.
Defined.

End Animations.
