(* ===== verification/BallDemo.v ===== *)
(** * led.c: the ball demo shown while the device sleeps

    Two balls bounce on the 8x8 grid.  [ball_grid\[8\]\[8\]] is a flat array of 64
    cells, each holding a ball number or [BALL_DEMO_MAX_BALLS] for an empty cell;
    C [bool] variables are 0 or 1.  The [static] locals of [new_ball] and
    [repeat_collision_limit_reached] are fields of the state. *)

From S2P Require Import Prelude.
From S2P Require Import Random.
From S2P Require Import Colors.
From S2P Require Import Led.
From S2P Require Import Animations.

Module BallDemo.
Import Random Colors Led Animations.

Definition OVERRIDE_BALL_SLOWDOWN_FACTOR : Z := 240.
Definition vertical_slowdown_factors : list Z := [12; 10; 8; 7; 6; 5; 4; 3].
Definition BALL_DEMO_MAX_BALLS : Z := 2.
Definition BALL_DEMO_NEW_BALL_DELAY_LIMIT : Z := 24.
Definition BALL_DEMO_MAX_SLOWDOWN_FACTOR : Z := 255.
Definition REPEAT_BALL_COLLISION_LIMIT : Z := 255.

Record balls := mk_balls {
  ball_index : Z;
  ball_horizontal_direction : list Z;
  ball_horizontal_slowdown_factor : list Z;
  ball_horizontal_slowdown_counter : list Z;
  ball_vertical_direction : list Z;
  ball_vertical_slowdown_counter : list Z;
  ball_vertical_slowdown_factor : list Z;
  ball_vertical_max : list Z;
  ball_color : list Z;
  ball_grid : list Z;
  new_ball_delay_counter : Z;
  direction : Z;
  last_this_ball : Z;
  last_that_ball : Z;
  repeat_collision_counter : Z
}.

Definition set_ball_index (v : Z) (s : balls) : balls :=
  mk_balls v s.(ball_horizontal_direction) s.(ball_horizontal_slowdown_factor)
    s.(ball_horizontal_slowdown_counter) s.(ball_vertical_direction)
    s.(ball_vertical_slowdown_counter) s.(ball_vertical_slowdown_factor) s.(ball_vertical_max)
    s.(ball_color) s.(ball_grid) s.(new_ball_delay_counter) s.(direction) s.(last_this_ball)
    s.(last_that_ball) s.(repeat_collision_counter).
Definition set_ball_horizontal_direction (v : list Z) (s : balls) : balls :=
  mk_balls s.(ball_index) v s.(ball_horizontal_slowdown_factor)
    s.(ball_horizontal_slowdown_counter) s.(ball_vertical_direction)
    s.(ball_vertical_slowdown_counter) s.(ball_vertical_slowdown_factor) s.(ball_vertical_max)
    s.(ball_color) s.(ball_grid) s.(new_ball_delay_counter) s.(direction) s.(last_this_ball)
    s.(last_that_ball) s.(repeat_collision_counter).
Definition set_ball_horizontal_slowdown_factor (v : list Z) (s : balls) : balls :=
  mk_balls s.(ball_index) s.(ball_horizontal_direction) v s.(ball_horizontal_slowdown_counter)
    s.(ball_vertical_direction) s.(ball_vertical_slowdown_counter)
    s.(ball_vertical_slowdown_factor) s.(ball_vertical_max) s.(ball_color) s.(ball_grid)
    s.(new_ball_delay_counter) s.(direction) s.(last_this_ball) s.(last_that_ball)
    s.(repeat_collision_counter).
Definition set_ball_horizontal_slowdown_counter (v : list Z) (s : balls) : balls :=
  mk_balls s.(ball_index) s.(ball_horizontal_direction) s.(ball_horizontal_slowdown_factor) v
    s.(ball_vertical_direction) s.(ball_vertical_slowdown_counter)
    s.(ball_vertical_slowdown_factor) s.(ball_vertical_max) s.(ball_color) s.(ball_grid)
    s.(new_ball_delay_counter) s.(direction) s.(last_this_ball) s.(last_that_ball)
    s.(repeat_collision_counter).
Definition set_ball_vertical_direction (v : list Z) (s : balls) : balls :=
  mk_balls s.(ball_index) s.(ball_horizontal_direction) s.(ball_horizontal_slowdown_factor)
    s.(ball_horizontal_slowdown_counter) v s.(ball_vertical_slowdown_counter)
    s.(ball_vertical_slowdown_factor) s.(ball_vertical_max) s.(ball_color) s.(ball_grid)
    s.(new_ball_delay_counter) s.(direction) s.(last_this_ball) s.(last_that_ball)
    s.(repeat_collision_counter).
Definition set_ball_vertical_slowdown_counter (v : list Z) (s : balls) : balls :=
  mk_balls s.(ball_index) s.(ball_horizontal_direction) s.(ball_horizontal_slowdown_factor)
    s.(ball_horizontal_slowdown_counter) s.(ball_vertical_direction) v
    s.(ball_vertical_slowdown_factor) s.(ball_vertical_max) s.(ball_color) s.(ball_grid)
    s.(new_ball_delay_counter) s.(direction) s.(last_this_ball) s.(last_that_ball)
    s.(repeat_collision_counter).
Definition set_ball_vertical_slowdown_factor (v : list Z) (s : balls) : balls :=
  mk_balls s.(ball_index) s.(ball_horizontal_direction) s.(ball_horizontal_slowdown_factor)
    s.(ball_horizontal_slowdown_counter) s.(ball_vertical_direction)
    s.(ball_vertical_slowdown_counter) v s.(ball_vertical_max) s.(ball_color) s.(ball_grid)
    s.(new_ball_delay_counter) s.(direction) s.(last_this_ball) s.(last_that_ball)
    s.(repeat_collision_counter).
Definition set_ball_vertical_max (v : list Z) (s : balls) : balls :=
  mk_balls s.(ball_index) s.(ball_horizontal_direction) s.(ball_horizontal_slowdown_factor)
    s.(ball_horizontal_slowdown_counter) s.(ball_vertical_direction)
    s.(ball_vertical_slowdown_counter) s.(ball_vertical_slowdown_factor) v s.(ball_color)
    s.(ball_grid) s.(new_ball_delay_counter) s.(direction) s.(last_this_ball) s.(last_that_ball)
    s.(repeat_collision_counter).
Definition set_ball_color (v : list Z) (s : balls) : balls :=
  mk_balls s.(ball_index) s.(ball_horizontal_direction) s.(ball_horizontal_slowdown_factor)
    s.(ball_horizontal_slowdown_counter) s.(ball_vertical_direction)
    s.(ball_vertical_slowdown_counter) s.(ball_vertical_slowdown_factor) s.(ball_vertical_max) v
    s.(ball_grid) s.(new_ball_delay_counter) s.(direction) s.(last_this_ball) s.(last_that_ball)
    s.(repeat_collision_counter).
Definition set_ball_grid (v : list Z) (s : balls) : balls :=
  mk_balls s.(ball_index) s.(ball_horizontal_direction) s.(ball_horizontal_slowdown_factor)
    s.(ball_horizontal_slowdown_counter) s.(ball_vertical_direction)
    s.(ball_vertical_slowdown_counter) s.(ball_vertical_slowdown_factor) s.(ball_vertical_max)
    s.(ball_color) v s.(new_ball_delay_counter) s.(direction) s.(last_this_ball)
    s.(last_that_ball) s.(repeat_collision_counter).
Definition set_new_ball_delay_counter (v : Z) (s : balls) : balls :=
  mk_balls s.(ball_index) s.(ball_horizontal_direction) s.(ball_horizontal_slowdown_factor)
    s.(ball_horizontal_slowdown_counter) s.(ball_vertical_direction)
    s.(ball_vertical_slowdown_counter) s.(ball_vertical_slowdown_factor) s.(ball_vertical_max)
    s.(ball_color) s.(ball_grid) v s.(direction) s.(last_this_ball) s.(last_that_ball)
    s.(repeat_collision_counter).
Definition set_direction (v : Z) (s : balls) : balls :=
  mk_balls s.(ball_index) s.(ball_horizontal_direction) s.(ball_horizontal_slowdown_factor)
    s.(ball_horizontal_slowdown_counter) s.(ball_vertical_direction)
    s.(ball_vertical_slowdown_counter) s.(ball_vertical_slowdown_factor) s.(ball_vertical_max)
    s.(ball_color) s.(ball_grid) s.(new_ball_delay_counter) v s.(last_this_ball)
    s.(last_that_ball) s.(repeat_collision_counter).
Definition set_last_this_ball (v : Z) (s : balls) : balls :=
  mk_balls s.(ball_index) s.(ball_horizontal_direction) s.(ball_horizontal_slowdown_factor)
    s.(ball_horizontal_slowdown_counter) s.(ball_vertical_direction)
    s.(ball_vertical_slowdown_counter) s.(ball_vertical_slowdown_factor) s.(ball_vertical_max)
    s.(ball_color) s.(ball_grid) s.(new_ball_delay_counter) s.(direction) v s.(last_that_ball)
    s.(repeat_collision_counter).
Definition set_last_that_ball (v : Z) (s : balls) : balls :=
  mk_balls s.(ball_index) s.(ball_horizontal_direction) s.(ball_horizontal_slowdown_factor)
    s.(ball_horizontal_slowdown_counter) s.(ball_vertical_direction)
    s.(ball_vertical_slowdown_counter) s.(ball_vertical_slowdown_factor) s.(ball_vertical_max)
    s.(ball_color) s.(ball_grid) s.(new_ball_delay_counter) s.(direction) s.(last_this_ball) v
    s.(repeat_collision_counter).
Definition set_repeat_collision_counter (v : Z) (s : balls) : balls :=
  mk_balls s.(ball_index) s.(ball_horizontal_direction) s.(ball_horizontal_slowdown_factor)
    s.(ball_horizontal_slowdown_counter) s.(ball_vertical_direction)
    s.(ball_vertical_slowdown_counter) s.(ball_vertical_slowdown_factor) s.(ball_vertical_max)
    s.(ball_color) s.(ball_grid) s.(new_ball_delay_counter) s.(direction) s.(last_this_ball)
    s.(last_that_ball) v.

Definition initial_balls : balls :=
  mk_balls 0 [0; 0] [0; 0] [0; 0] [0; 0] [0; 0] [0; 0] [0; 0] [0; 0] (replicate 64 0)
    BALL_DEMO_NEW_BALL_DELAY_LIMIT 1 255 255 0.

(** ** Operations *)

Definition ball_demo_setup (b : balls) : balls :=
  set_ball_grid (replicate 64 BALL_DEMO_MAX_BALLS) b.

Definition random_ball_color (r : Z) : Z :=
  let color := Z.land r 31 in
  if color <? 18 then u8 (color + 1) else u8 (color - 17).

(** [new_ball] returns whether a ball was created. *)
Definition new_ball (b : balls) (seeds : seeds) : res (bool * balls * Random.seeds) :=
  let b := set_new_ball_delay_counter (u8 (b.(new_ball_delay_counter) + 1)) b in
  if b.(new_ball_delay_counter) <? BALL_DEMO_NEW_BALL_DELAY_LIMIT then Ok (false, b, seeds)
  else
    let b := set_new_ball_delay_counter 0 b in
    let b := set_direction (1 - b.(direction)) b in
    let '(v, seeds) := random16 seeds in
    let color := random_ball_color v in
    l ← wr b.(ball_horizontal_direction) b.(ball_index) b.(direction);
    let b := set_ball_horizontal_direction l b in
    let ball_horizontal_position := if b.(direction) =? 0 then 0 else 7 in
    let '(v, seeds) := random16 seeds in
    let ball_vertical_position := u8 (Z.land v 7 + 2) in
    let ball_vertical_position :=
      if 8 <=? ball_vertical_position then 7 else ball_vertical_position in
    cell ← rd b.(ball_grid) (8 * ball_vertical_position + ball_horizontal_position);
    if cell <? BALL_DEMO_MAX_BALLS then Ok (false, b, seeds)
    else
      l ← wr b.(ball_grid) (8 * ball_vertical_position + ball_horizontal_position) b.(ball_index);
      let b := set_ball_grid l b in
      l ← wr b.(ball_color) b.(ball_index) color;
      let b := set_ball_color l b in
      let '(v, seeds) := random16 seeds in
      l ← wr b.(ball_horizontal_slowdown_factor) b.(ball_index) (u8 (8 + Z.land v 31));
      let b := set_ball_horizontal_slowdown_factor l b in
      l ← wr b.(ball_vertical_max) b.(ball_index) ball_vertical_position;
      let b := set_ball_vertical_max l b in
      l ← wr b.(ball_vertical_direction) b.(ball_index) 0;
      let b := set_ball_vertical_direction l b in
      l ← wr b.(ball_vertical_slowdown_factor) b.(ball_index) BALL_DEMO_MAX_SLOWDOWN_FACTOR;
      let b := set_ball_vertical_slowdown_factor l b in
      l ← wr b.(ball_horizontal_slowdown_counter) b.(ball_index) 0;
      let b := set_ball_horizontal_slowdown_counter l b in
      l ← wr b.(ball_vertical_slowdown_counter) b.(ball_index) 0;
      let b := set_ball_vertical_slowdown_counter l b in
      let b := set_ball_index ((b.(ball_index) + 1) mod BALL_DEMO_MAX_BALLS) b in
      Ok (true, b, seeds).

(** The two wall cases of [move_ball_vertically], floor and ceiling, do the same:
    turn around and be due to move on the next turn. *)
Definition bounce_vertically (ball_id due : Z) (b : balls) : res balls :=
  d ← rd b.(ball_vertical_direction) ball_id;
  l ← wr b.(ball_vertical_direction) ball_id (1 - d);
  let b := set_ball_vertical_direction l b in
  l ← wr b.(ball_vertical_slowdown_counter) ball_id due;
  Ok (set_ball_vertical_slowdown_counter l b).

Definition move_ball_vertically (ball_id this_row : Z) (b : balls) : res (Z * balls) :=
  c ← rd b.(ball_vertical_slowdown_counter) ball_id;
  let vertical_count := u8 (c + 1) in
  vmax ← rd b.(ball_vertical_max) ball_id;
  let base_row_offset := Z.land (vmax - this_row) 7 in
  due ← rd vertical_slowdown_factors base_row_offset;
  if due <=? vertical_count then
    l ← wr b.(ball_vertical_slowdown_counter) ball_id 0;
    let b := set_ball_vertical_slowdown_counter l b in
    d ← rd b.(ball_vertical_direction) ball_id;
    let new_row := u8 (if d =? 0 then this_row + 1 else this_row - 1) in
    if new_row <=? vmax then Ok (new_row, b)
    else if has_bits new_row 128 then
      b ← bounce_vertically ball_id due b;
      Ok (this_row, b)
    else
      b ← bounce_vertically ball_id due b;
      Ok (this_row, b)
  else
    l ← wr b.(ball_vertical_slowdown_counter) ball_id vertical_count;
    Ok (this_row, set_ball_vertical_slowdown_counter l b).

Definition move_ball_horizontally (ball_id this_col : Z) (b : balls) : res (Z * balls) :=
  c ← rd b.(ball_horizontal_slowdown_counter) ball_id;
  let horizontal_count := u8 (c + 1) in
  factor ← rd b.(ball_horizontal_slowdown_factor) ball_id;
  if factor <=? horizontal_count then
    direction ← rd b.(ball_horizontal_direction) ball_id;
    l ← wr b.(ball_horizontal_slowdown_counter) ball_id 0;
    let b := set_ball_horizontal_slowdown_counter l b in
    let new_col := u8 (if direction =? 0 then this_col + 1 else this_col - 1) in
    if new_col <? 8 then Ok (new_col, b)
    else
      l ← wr b.(ball_horizontal_direction) ball_id (1 - direction);
      let b := set_ball_horizontal_direction l b in
      l ← wr b.(ball_horizontal_slowdown_counter) ball_id factor;
      Ok (this_col, set_ball_horizontal_slowdown_counter l b)
  else
    l ← wr b.(ball_horizontal_slowdown_counter) ball_id horizontal_count;
    Ok (this_col, set_ball_horizontal_slowdown_counter l b).

Definition change_ball_colors_after_collision (this_ball that_ball : Z) (b : balls)
    (seeds : seeds) : res (balls * Random.seeds) :=
  let '(random_value, seeds) := random16 seeds in
  let color := Z.land (Z.shiftr random_value 5) 31 in
  let color := if color <? 18 then color + 1 else color - 17 in
  l ← wr b.(ball_color) that_ball (u8 color);
  Ok (set_ball_color l b, seeds).

Definition repeat_collision_limit_reached (this_ball that_ball : Z) (b : balls) : bool * balls :=
  if ((this_ball =? b.(last_this_ball)) && (that_ball =? b.(last_that_ball))) ||
     ((this_ball =? b.(last_that_ball)) && (that_ball =? b.(last_this_ball)))
  then
    let b := set_repeat_collision_counter (u8 (b.(repeat_collision_counter) + 1)) b in
    if REPEAT_BALL_COLLISION_LIMIT <=? b.(repeat_collision_counter)
    then (true, set_repeat_collision_counter 0 b)
    else (false, b)
  else (false, set_repeat_collision_counter 0 b).

(** ** One frame *)

(** The variables of the grid loop of [ball_demo_run]. *)
Record demo := mk_demo {
  d_balls : balls;
  d_seeds : Random.seeds;
  d_anim : anim;
  d_led : led_globals;
  d_disable : list Z;
  d_count : Z
}.

Definition set_d_balls (v : balls) (d : demo) : demo :=
  mk_demo v d.(d_seeds) d.(d_anim) d.(d_led) d.(d_disable) d.(d_count).
Definition set_d_count (v : Z) (d : demo) : demo :=
  mk_demo d.(d_balls) d.(d_seeds) d.(d_anim) d.(d_led) d.(d_disable) v.
Definition set_d_disable (v : list Z) (d : demo) : demo :=
  mk_demo d.(d_balls) d.(d_seeds) d.(d_anim) d.(d_led) v d.(d_count).

(** A collision in one direction: [this_ball] gets direction [this_dir], the other
    ball [that_dir], and the colour of the other ball changes. *)
Definition collide_vertically (this_ball that_ball this_dir that_dir : Z) (d : demo) : res demo :=
  let b := d.(d_balls) in
  l ← wr b.(ball_vertical_direction) this_ball this_dir;
  l ← wr l that_ball that_dir;
  let b := set_ball_vertical_direction l b in
  l ← wr b.(ball_vertical_slowdown_counter) this_ball OVERRIDE_BALL_SLOWDOWN_FACTOR;
  let b := set_ball_vertical_slowdown_counter l b in
  '(b, seeds) ← change_ball_colors_after_collision this_ball that_ball b d.(d_seeds);
  Ok (mk_demo b seeds d.(d_anim) d.(d_led) d.(d_disable) d.(d_count)).

Definition collide_horizontally (this_ball that_ball this_dir that_dir : Z) (d : demo) : res demo :=
  let b := d.(d_balls) in
  l ← wr b.(ball_horizontal_direction) this_ball this_dir;
  l ← wr l that_ball that_dir;
  let b := set_ball_horizontal_direction l b in
  l ← wr b.(ball_horizontal_slowdown_counter) this_ball OVERRIDE_BALL_SLOWDOWN_FACTOR;
  let b := set_ball_horizontal_slowdown_counter l b in
  '(b, seeds) ← change_ball_colors_after_collision this_ball that_ball b d.(d_seeds);
  Ok (mk_demo b seeds d.(d_anim) d.(d_led) d.(d_disable) d.(d_count)).

(** "Both items explode". *)
Definition explode (velocities : list Z) (bank this_row this_col new_row new_col : Z) (d : demo)
    : res demo :=
  let '(v, seeds) := random16 d.(d_seeds) in
  '(a, g) ← start_geometric_animation velocities bank
              (get_button_id_from_row_column this_row this_col) (Z.land v 3) (d.(d_anim), d.(d_led));
  let b := d.(d_balls) in
  l ← wr b.(ball_grid) (8 * this_row + this_col) BALL_DEMO_MAX_BALLS;
  l ← wr l (8 * new_row + new_col) BALL_DEMO_MAX_BALLS;
  let count :=
    if (new_row <? this_row) || (new_col <? this_col) then u8 (d.(d_count) - 2) else d.(d_count) in
  Ok (mk_demo (set_ball_grid l b) seeds a g d.(d_disable) count).

Definition collision (velocities : list Z) (bank this_row this_col this_ball new_row new_col that_ball : Z)
    (d : demo) : res demo :=
  let d := set_d_count (u8 (d.(d_count) + 1)) d in
  disabled ← rd d.(d_disable) this_ball;
  d ←
    (if negb (disabled =? 0) then Ok d
     else
       let '(limit, b) := repeat_collision_limit_reached this_ball that_ball d.(d_balls) in
       let d := set_d_balls b d in
       if limit : bool then explode velocities bank this_row this_col new_row new_col d
       else if this_row <? new_row then collide_vertically this_ball that_ball 0 1 d
       else if new_row <? this_row then collide_vertically this_ball that_ball 1 0 d
       else Ok d);
  d ←
    (if this_col <? new_col then collide_horizontally this_ball that_ball 0 1 d
     else if new_col <? this_col then collide_horizontally this_ball that_ball 1 0 d
     else Ok d);
  l ← wr d.(d_disable) that_ball 1;
  Ok (set_d_disable l d).

(** One cell of the grid loop. *)
Definition visit_cell (velocities : list Z) (bank this_row this_col : Z) (d : demo) : res demo :=
  this_ball ← rd d.(d_balls).(ball_grid) (8 * this_row + this_col);
  if this_ball <? BALL_DEMO_MAX_BALLS then
    '(new_col, b) ← move_ball_horizontally this_ball this_col d.(d_balls);
    '(new_row, b) ← move_ball_vertically this_ball this_row b;
    let d := set_d_balls b d in
    that_ball ← rd b.(ball_grid) (8 * new_row + new_col);
    if BALL_DEMO_MAX_BALLS <=? that_ball then
      l ← wr b.(ball_grid) (8 * this_row + this_col) BALL_DEMO_MAX_BALLS;
      l ← wr l (8 * new_row + new_col) this_ball;
      Ok (set_d_count (u8 (d.(d_count) + 1)) (set_d_balls (set_ball_grid l b) d))
    else if that_ball =? this_ball then Ok (set_d_count (u8 (d.(d_count) + 1)) d)
    else collision velocities bank this_row this_col this_ball new_row new_col that_ball d
  else Ok d.

Definition update_balls (velocities : list Z) (bank : Z) (d : demo) : res demo :=
  d ← for_up 8 0 (fun this_row d =>
        for_up 8 0 (fun this_col d => visit_cell velocities bank this_row this_col d) d) d;
  if d.(d_count) <? BALL_DEMO_MAX_BALLS then
    '(status, b, seeds) ← new_ball d.(d_balls) d.(d_seeds);
    Ok (mk_demo b seeds d.(d_anim) d.(d_led) d.(d_disable)
          (if status : bool then u8 (d.(d_count) + 1) else d.(d_count)))
  else Ok d.

(** The second half of [ball_demo_run]: every LED shows its cell. *)
Definition draw_cell (b : balls) (this_row this_col : Z) (buffer : list Z) : res (list Z) :=
  let btn_id := get_button_id_from_row_column this_row this_col in
  ball_id ← rd b.(ball_grid) (8 * this_row + this_col);
  color ← (if BALL_DEMO_MAX_BALLS <=? ball_id then Ok 0 else rd b.(ball_color) ball_id);
  c2 ← rd default_color (3 * color + 2);
  c0 ← rd default_color (3 * color);
  c1 ← rd default_color (3 * color + 1);
  put3 buffer (3 * btn_id) c2 c0 c1.

Definition draw_balls (b : balls) (buffer : list Z) : res (list Z) :=
  for_up 8 0 (fun this_row buffer =>
    for_up 8 0 (fun this_col buffer => draw_cell b this_row this_col buffer) buffer) buffer.

Definition ball_demo_run (velocities : list Z) (bank : Z)
    (st : balls * Random.seeds * anim * led_globals * list Z)
    : res (balls * Random.seeds * anim * led_globals * list Z) :=
  let '(b, seeds, a, g, buffer) := st in
  v ← rd g.(g_led_counter) 2;
  '(b, seeds, a, g) ←
    (if v =? 0 then
       l ← wr g.(g_led_counter) 2 48;
       d ← update_balls velocities bank
             (mk_demo b seeds a (set_g_led_counter l g) (replicate 64 0) 0);
       Ok (d.(d_balls), d.(d_seeds), d.(d_anim), d.(d_led))
     else Ok (b, seeds, a, g));
  buffer ← draw_balls b buffer;
  Ok (b, seeds, a, g, buffer).

(** ** Specifications *)

Record balls_wf (b : balls) : Prop := {
  wf_index : 0 <= b.(ball_index) < 2;
  wf_hdir : length b.(ball_horizontal_direction) = 2%nat;
  wf_hfactor : length b.(ball_horizontal_slowdown_factor) = 2%nat;
  wf_hcount : length b.(ball_horizontal_slowdown_counter) = 2%nat;
  wf_vdir : length b.(ball_vertical_direction) = 2%nat;
  wf_vcount : length b.(ball_vertical_slowdown_counter) = 2%nat;
  wf_vfactor : length b.(ball_vertical_slowdown_factor) = 2%nat;
  wf_vmax : length b.(ball_vertical_max) = 2%nat;
  wf_color : length b.(ball_color) = 2%nat;
  wf_grid : length b.(ball_grid) = 64%nat;
  wf_vmax_range : Forall (fun x => 0 <= x < 8) b.(ball_vertical_max);
  wf_color_range : Forall (fun x => 0 <= x < 20) b.(ball_color);
  wf_grid_range : Forall (fun x => 0 <= x <= 2) b.(ball_grid);
  wf_last : b.(last_this_ball) = 255 /\ b.(last_that_ball) = 255
}.

Record demo_wf (d : demo) : Prop := {
  dwf_balls : balls_wf d.(d_balls);
  dwf_anim : anim_wf d.(d_anim);
  dwf_led : length d.(d_led).(g_led_counter) = 4%nat;
  dwf_disable : length d.(d_disable) = 64%nat
}.

(** The colour the demo gives to a cell. *)
Definition cell_color (b : balls) (this_row this_col : Z) : Z :=
  let ball_id := tbl b.(ball_grid) (8 * this_row + this_col) in
  if BALL_DEMO_MAX_BALLS <=? ball_id then 0 else tbl b.(ball_color) ball_id.

(** ** Lemmas *)

Lemma wr_keeps (P : Z -> Prop) l i v l' :
  wr l i v = Ok l' -> P v -> Forall P l -> Forall P l'.
Proof. intros [Hi ->]%wr_ok Hv Hl. by apply Forall_insert. Qed.

Lemma rd_in (P : Z -> Prop) l i v : Forall P l -> rd l i = Ok v -> P v.
Proof. intros Hl [_ H]%rd_ok. exact (proj1 (Forall_lookup _ _) Hl _ _ H). Qed.

Lemma wr_total l i v :
  0 <= i < Z.of_nat (length l) -> exists l', wr l i v = Ok l' /\ length l' = length l.
Proof. intros Hi. rewrite wr_in_range by done. eexists. split; [done|]. apply length_insert. Qed.

(** Make the next write or read of the goal succeed. *)
Ltac do_wr l E H := match goal with |- context [wr ?a ?i ?v ≫= _] =>
  destruct (wr_total a i v) as (l & E & H); [cbn in *; lia|rewrite E; cbn [mbind res_bind]] end.
Ltac do_rd v E := match goal with |- context [rd ?a ?i ≫= _] =>
  destruct (rd_in_range a i) as [v E]; [cbn in *; lia|rewrite E; cbn [mbind res_bind]] end.

Lemma random_ball_color_range r : 0 <= random_ball_color r < 20.
Proof.
  unfold random_ball_color. change 31 with (Z.ones 5). rewrite Z.land_ones by lia.
  change (2 ^ 5) with 32. assert (H := Z.mod_pos_bound r 32 ltac:(lia)).
  destruct (Z.ltb_spec (r mod 32) 18); rewrite u8_small; lia.
Qed.

Lemma bounce_spec ball_id due b :
  balls_wf b -> 0 <= ball_id < 2 ->
  exists b', bounce_vertically ball_id due b = Ok b' /\ balls_wf b' /\ b'.(ball_grid) = b.(ball_grid).
Proof.
  intros [] Hi. unfold bounce_vertically. do_rd d Ed. do_wr l1 E1 H1. do_wr l2 E2 H2.
  eexists. split; [done|]. split; [|done]. split; cbn in *; done || lia.
Qed.

Lemma move_vertically_spec ball_id this_row b :
  balls_wf b -> 0 <= ball_id < 2 -> 0 <= this_row < 8 ->
  exists new_row b', move_ball_vertically ball_id this_row b = Ok (new_row, b') /\ balls_wf b' /\
    0 <= new_row < 8 /\ b'.(ball_grid) = b.(ball_grid).
Proof.
  intros Hb Hi Hr. assert (Hb' := Hb). destruct Hb'. unfold move_ball_vertically.
  do_rd c Ec. do_rd vm Evm.
  assert (Hvm := rd_in _ _ _ _ wf_vmax_range0 Evm). cbn beta in Hvm.
  assert (Hoff : 0 <= Z.land (vm - this_row) 7 < 8).
  { rewrite land_7. apply Z.mod_pos_bound. lia. }
  do_rd due Edue. destruct (due <=? u8 (c + 1)).
  - do_wr l1 E1 H1. do_rd dd Edd.
    set (b1 := set_ball_vertical_slowdown_counter l1 b).
    assert (Hw1 : balls_wf b1) by (split; cbn in *; done || lia).
    assert (Hu := u8_range (if dd =? 0 then this_row + 1 else this_row - 1)).
    destruct (Z.leb_spec (u8 (if dd =? 0 then this_row + 1 else this_row - 1)) vm).
    + eexists _, b1. split; [done|]. split; [done|]. split; [lia|done].
    + destruct (bounce_spec ball_id due b1) as (b2 & -> & Hw2 & Hg2); [done|done|].
      cbn [mbind res_bind]. exists this_row, b2. by destruct (has_bits _ _).
  - do_wr l1 E1 H1. eexists this_row, _. split; [done|]. split; [split; cbn in *; done || lia|done].
Qed.

Lemma move_horizontally_spec ball_id this_col b :
  balls_wf b -> 0 <= ball_id < 2 -> 0 <= this_col < 8 ->
  exists new_col b', move_ball_horizontally ball_id this_col b = Ok (new_col, b') /\ balls_wf b' /\
    0 <= new_col < 8 /\ b'.(ball_grid) = b.(ball_grid).
Proof.
  intros [] Hi Hc. unfold move_ball_horizontally. do_rd c Ec. do_rd f Ef.
  destruct (f <=? u8 (c + 1)).
  - do_rd dd Edd. do_wr l1 E1 H1.
    assert (Hu := u8_range (if dd =? 0 then this_col + 1 else this_col - 1)).
    destruct (Z.ltb_spec (u8 (if dd =? 0 then this_col + 1 else this_col - 1)) 8).
    + eexists _, _. split; [done|]. split; [split; cbn in *; done || lia|]. split; [lia|done].
    + do_wr l2 E2 H2. do_wr l3 E3 H3.
      eexists this_col, _. split; [done|]. split; [split; cbn in *; done || lia|done].
  - do_wr l1 E1 H1. eexists this_col, _. split; [done|]. split; [split; cbn in *; done || lia|done].
Qed.

Lemma change_colors_spec this_ball that_ball b seeds :
  balls_wf b -> 0 <= that_ball < 2 ->
  exists b' seeds', change_ball_colors_after_collision this_ball that_ball b seeds = Ok (b', seeds') /\
    balls_wf b'.
Proof.
  intros [] Hi. unfold change_ball_colors_after_collision.
  destruct (random16 seeds) as [v seeds'].
  assert (Hc := random_ball_color_range (Z.shiftr v 5)). unfold random_ball_color in Hc.
  assert (Hc' : 0 <= u8 (if Z.land (Z.shiftr v 5) 31 <? 18 then Z.land (Z.shiftr v 5) 31 + 1
    else Z.land (Z.shiftr v 5) 31 - 17) < 20) by (by destruct (_ <? 18)).
  cbv zeta. do_wr l E H. eexists _, _. split; [done|].
  split; cbn; try done || lia. by apply (wr_keeps _ _ _ _ _ E).
Qed.

Lemma collide_vertically_spec i j di dj d :
  demo_wf d -> 0 <= i < 2 -> 0 <= j < 2 ->
  exists d', collide_vertically i j di dj d = Ok d' /\ demo_wf d'.
Proof.
  intros [[] Ha Hl Hd] Hi Hj. unfold collide_vertically. cbv zeta.
  do_wr l1 E1 H1. do_wr l2 E2 H2. do_wr l3 E3 H3.
  edestruct change_colors_spec as (b' & s' & -> & Hb'); [| |cbn [mbind res_bind]].
  3: { eexists. split; [done|]. by split. }
  - split; cbn in *; done || lia.
  - done.
Qed.

Lemma collide_horizontally_spec i j di dj d :
  demo_wf d -> 0 <= i < 2 -> 0 <= j < 2 ->
  exists d', collide_horizontally i j di dj d = Ok d' /\ demo_wf d'.
Proof.
  intros [[] Ha Hl Hd] Hi Hj. unfold collide_horizontally. cbv zeta.
  do_wr l1 E1 H1. do_wr l2 E2 H2. do_wr l3 E3 H3.
  edestruct change_colors_spec as (b' & s' & -> & Hb'); [| |cbn [mbind res_bind]].
  3: { eexists. split; [done|]. by split. }
  - split; cbn in *; done || lia.
  - done.
Qed.

(** The limit on repeated collisions is never reached, because the balls of the
    last collision are never recorded. *)
Lemma no_repeat i j b :
  balls_wf b -> 0 <= i < 2 -> 0 <= j < 2 ->
  repeat_collision_limit_reached i j b = (false, set_repeat_collision_counter 0 b).
Proof.
  intros [] Hi Hj. destruct wf_last0 as [H1 H2]. unfold repeat_collision_limit_reached.
  rewrite H1, H2. rewrite !(proj2 (Z.eqb_neq i 255)) by lia. done.
Qed.

Lemma set_d_balls_wf b d : demo_wf d -> balls_wf b -> demo_wf (set_d_balls b d).
Proof. intros [] Hb. by split. Qed.
Lemma set_d_count_wf v d : demo_wf d -> demo_wf (set_d_count v d).
Proof. intros []. by split. Qed.

Lemma collision_spec velocities bank row col i nr nc j d :
  demo_wf d -> 0 <= i < 2 -> 0 <= j < 2 ->
  exists d', collision velocities bank row col i nr nc j d = Ok d' /\ demo_wf d'.
Proof.
  intros Hd Hi Hj. unfold collision. cbv zeta.
  apply (set_d_count_wf (u8 (d_count d + 1))) in Hd. set (d1 := set_d_count _ d) in *. clearbody d1.
  assert (Hdis := dwf_disable _ Hd). do_rd x Ex.
  rewrite no_repeat by (apply Hd || done).
  assert (Hd2 : demo_wf (set_d_balls (set_repeat_collision_counter 0 (d_balls d1)) d1)).
  { apply set_d_balls_wf; [done|]. by destruct (dwf_balls _ Hd). }
  assert (H1 : exists d2, (if negb (x =? 0) then Ok d1
     else if row <? nr then collide_vertically i j 0 1
            (set_d_balls (set_repeat_collision_counter 0 (d_balls d1)) d1)
     else if nr <? row then collide_vertically i j 1 0
            (set_d_balls (set_repeat_collision_counter 0 (d_balls d1)) d1)
     else Ok (set_d_balls (set_repeat_collision_counter 0 (d_balls d1)) d1)) = Ok d2 /\ demo_wf d2).
  { destruct (negb (x =? 0)); [by exists d1|].
    destruct (row <? nr); [by apply collide_vertically_spec|].
    destruct (nr <? row); [by apply collide_vertically_spec|by eexists]. }
  destruct H1 as (d2 & -> & Hw2). cbn [mbind res_bind].
  assert (H1 : exists d3, (if col <? nc then collide_horizontally i j 0 1 d2
     else if nc <? col then collide_horizontally i j 1 0 d2 else Ok d2) = Ok d3 /\ demo_wf d3).
  { destruct (col <? nc); [by apply collide_horizontally_spec|].
    destruct (nc <? col); [by apply collide_horizontally_spec|by eexists]. }
  destruct H1 as (d3 & -> & Hw3). cbn [mbind res_bind].
  assert (Hdis3 := dwf_disable _ Hw3). do_wr l E H. eexists. split; [done|].
  destruct Hw3. split; cbn in *; done || lia.
Qed.

Lemma visit_cell_spec velocities bank row col d :
  demo_wf d -> 0 <= row < 8 -> 0 <= col < 8 ->
  exists d', visit_cell velocities bank row col d = Ok d' /\ demo_wf d'.
Proof.
  intros Hd Hr Hc. unfold visit_cell, BALL_DEMO_MAX_BALLS.
  assert (Hg := wf_grid _ (dwf_balls _ Hd)). do_rd i Ei.
  assert (Hi := rd_in _ _ _ _ (wf_grid_range _ (dwf_balls _ Hd)) Ei). cbn beta in Hi.
  destruct (Z.ltb_spec i 2); [|by eexists].
  destruct (move_horizontally_spec i col (d_balls d)) as (nc & b1 & -> & Hb1 & Hnc & Hg1);
    [apply Hd|lia|done|]. cbn [mbind res_bind].
  destruct (move_vertically_spec i row b1) as (nr & b2 & -> & Hb2 & Hnr & Hg2); [done|lia|done|].
  cbn [mbind res_bind]. assert (Hgl := wf_grid _ Hb2). do_rd j Ej.
  assert (Hj := rd_in _ _ _ _ (wf_grid_range _ Hb2) Ej). cbn beta in Hj.
  destruct (Z.leb_spec 2 j).
  - do_wr l1 E1 H1. do_wr l2 E2 H2. eexists. split; [done|].
    apply set_d_count_wf, set_d_balls_wf; [by apply set_d_balls_wf|].
    assert (Hg2r := wf_grid_range _ Hb2).
    apply (wr_keeps _ _ _ _ _ E1) in Hg2r; [|lia].
    apply (wr_keeps _ _ _ _ _ E2) in Hg2r; [|lia].
    destruct Hb2. split; cbn in *; done || lia.
  - destruct (j =? i); [eexists; split; [done|]; by apply set_d_count_wf, set_d_balls_wf|].
    apply collision_spec; [by apply set_d_balls_wf|lia|lia].
Qed.

Lemma new_ball_spec b seeds :
  balls_wf b -> exists st b' seeds', new_ball b seeds = Ok (st, b', seeds') /\ balls_wf b'.
Proof.
  intros [] . unfold new_ball, BALL_DEMO_MAX_BALLS. cbn [new_ball_delay_counter set_new_ball_delay_counter].
  destruct (_ <? _); [eexists _, _, _; split; [done|]; by split|].
  destruct (random16 seeds) as [v1 seeds1]. cbv zeta. do_wr l1 E1 H1.
  destruct (random16 seeds1) as [v2 seeds2].
  set (hpos := if _ =? 0 then 0 else 7). assert (Hh : 0 <= hpos < 8) by (unfold hpos; destruct (_ =? 0); lia).
  set (vpos := if 8 <=? u8 (Z.land v2 7 + 2) then 7 else u8 (Z.land v2 7 + 2)).
  assert (Hv : 0 <= vpos < 8).
  { unfold vpos. assert (Hu := u8_range (Z.land v2 7 + 2)). destruct (Z.leb_spec 8 (u8 (Z.land v2 7 + 2))); lia. }
  do_rd cell Ecell. destruct (cell <? 2); [eexists _, _, _; split; [done|]; split; cbn in *; done || lia|].
  do_wr l2 E2 H2. do_wr l3 E3 H3. destruct (random16 seeds2) as [v3 seeds3].
  do_wr l4 E4 H4. do_wr l5 E5 H5. do_wr l6 E6 H6. do_wr l7 E7 H7. do_wr l8 E8 H8. do_wr l9 E9 H9.
  eexists _, _, _. split; [done|]. split; cbn in *; try done || lia.
  - apply Z.mod_pos_bound. lia.
  - by apply (wr_keeps _ _ _ _ _ E5).
  - apply (wr_keeps _ _ _ _ _ E3); [apply random_ball_color_range|done].
  - apply (wr_keeps _ _ _ _ _ E2); [lia|done].
Qed.

Lemma update_balls_spec velocities bank d :
  demo_wf d -> exists d', update_balls velocities bank d = Ok d' /\ demo_wf d'.
Proof.
  intros Hd. unfold update_balls.
  edestruct (for_up_ok demo_wf) as (d1 & -> & Hd1); [exact Hd| |cbn [mbind res_bind]].
  { intros row d1 Hr Hd1. apply (for_up_ok demo_wf); [done|]. intros col d2 Hc Hd2.
    by apply visit_cell_spec. }
  destruct (_ <? _); [|by eexists].
  destruct (new_ball_spec (d_balls d1) (d_seeds d1)) as (st & b' & seeds' & -> & Hb'); [apply Hd1|].
  cbn [mbind res_bind]. eexists. split; [done|]. destruct Hd1. by split.
Qed.

(** Drawing one cell. *)
Lemma cell_color_range b row col :
  balls_wf b -> 0 <= row < 8 -> 0 <= col < 8 -> 0 <= cell_color b row col < 20.
Proof.
  intros Hb Hr Hc. unfold cell_color, BALL_DEMO_MAX_BALLS.
  assert (Hg := wf_grid _ Hb). assert (Hcl := wf_color _ Hb).
  assert (E := rd_tbl b.(ball_grid) (8 * row + col) ltac:(lia)).
  assert (Hi := rd_in _ _ _ _ (wf_grid_range _ Hb) E). cbn beta in Hi.
  destruct (Z.leb_spec 2 (tbl b.(ball_grid) (8 * row + col))); [lia|].
  assert (E2 := rd_tbl b.(ball_color) (tbl b.(ball_grid) (8 * row + col)) ltac:(lia)).
  exact (rd_in _ _ _ _ (wf_color_range _ Hb) E2).
Qed.

Definition shows (b : balls) (buffer : list Z) (btn : Z) : Prop :=
  let c := cell_color b (button_row btn) (button_column btn) in
  color_at buffer (3 * btn) = Ok (dcol c 2, dcol c 0, dcol c 1).

Lemma draw_cell_spec b row col buffer :
  balls_wf b -> 0 <= row < 8 -> 0 <= col < 8 -> length buffer = 192%nat ->
  exists buffer', draw_cell b row col buffer = Ok buffer' /\ length buffer' = 192%nat /\
    shows b buffer' (get_button_id_from_row_column row col) /\
    (forall btn, 0 <= btn < 64 -> btn <> get_button_id_from_row_column row col ->
       color_at buffer' (3 * btn) = color_at buffer (3 * btn)).
Proof.
  intros Hb Hr Hc Hl. assert (Hrange := cell_color_range b row col Hb Hr Hc).
  destruct (cell_ok_all row col Hr Hc) as (Hid & Hrow & Hcol).
  set (id := get_button_id_from_row_column row col) in *.
  assert (Hg := wf_grid _ Hb). assert (Hcl := wf_color _ Hb).
  unfold draw_cell, shows. rewrite Hrow, Hcol. fold id.
  rewrite (rd_tbl b.(ball_grid)) by lia. cbn [mbind res_bind].
  assert (E : (if BALL_DEMO_MAX_BALLS <=? tbl b.(ball_grid) (8 * row + col) then Ok 0
    else rd b.(ball_color) (tbl b.(ball_grid) (8 * row + col))) = Ok (cell_color b row col)).
  { unfold cell_color, BALL_DEMO_MAX_BALLS.
    assert (Eg := rd_tbl b.(ball_grid) (8 * row + col) ltac:(lia)).
    assert (Hi := rd_in _ _ _ _ (wf_grid_range _ Hb) Eg). cbn beta in Hi.
    destruct (Z.leb_spec 2 (tbl b.(ball_grid) (8 * row + col))); [done|]. apply rd_tbl. lia. }
  rewrite E. cbn [mbind res_bind]. set (c := cell_color b row col) in *.
  assert (Hd : length default_color = 60%nat) by done.
  rewrite !(rd_tbl default_color) by lia. cbn [mbind res_bind].
  destruct (put3_color buffer (3 * id) (tbl default_color (3 * c + 2)) (tbl default_color (3 * c))
    (tbl default_color (3 * c + 1))) as (l & -> & Hl' & Hcol' & Ho); [lia|lia|].
  exists l. split; [done|]. split; [lia|]. split.
  - rewrite Hcol'. unfold dcol. by rewrite Z.add_0_r.
  - intros btn Hbtn Hne. apply color_at_ext. intros j Hj. apply Ho. lia.
Qed.

Lemma draw_balls_spec b buffer :
  balls_wf b -> length buffer = 192%nat ->
  exists buffer', draw_balls b buffer = Ok buffer' /\ length buffer' = 192%nat /\
    forall btn, 0 <= btn < 64 -> shows b buffer' btn.
Proof.
  intros Hb Hl. unfold draw_balls.
  pose (inv := fun (row k : Z) (l : list Z) => length l = 192%nat /\
    forall btn, 0 <= btn < 64 ->
      button_row btn < row \/ (button_row btn = row /\ button_column btn < k) -> shows b l btn).
  edestruct (for_up_inv (fun row l => inv row 0 l)) as (l & -> & Hl1 & Hs).
  - split; [done|]. intros btn Hbtn H. assert (Hr := button_row_range btn Hbtn).
    assert (Hc := button_column_range btn Hbtn). lia.
  - intros row l1 Hr Hinv.
    edestruct (for_up_inv (inv row)) as (l2 & -> & Hl2 & Hs2); [exact Hinv| |].
    + intros col l2 Hc [Hl2 Hs2].
      destruct (draw_cell_spec b row col l2) as (l3 & -> & Hl3 & Hs3 & Ho3); [done|lia|lia|done|].
      exists l3. split; [done|]. split; [done|]. intros btn Hbtn Hcase.
      destruct (Z.eq_dec btn (get_button_id_from_row_column row col)) as [->|Hne]; [done|].
      unfold shows. rewrite Ho3 by done. apply Hs2; [done|].
      assert (Hq := button_id_eqb btn row col Hbtn ltac:(lia) ltac:(lia)). lia.
    + exists l2. split; [done|]. split; [done|]. intros btn Hbtn Hcase. apply Hs2; [done|].
      assert (Hc := button_column_range btn Hbtn). lia.
  - exists l. split; [done|]. split; [done|]. intros btn Hbtn. apply Hs; [done|].
    assert (Hr := button_row_range btn Hbtn). lia.
Qed.

Lemma initial_balls_wf : balls_wf initial_balls.
Proof.
  split; cbn; try done; try (repeat constructor; lia).
Qed.

Lemma ball_demo_spec velocities bank b seeds a g buffer :
  balls_wf b -> anim_wf a -> length g.(g_led_counter) = 4%nat -> length buffer = 192%nat ->
  exists b' seeds' a' g' buffer',
    ball_demo_run velocities bank (b, seeds, a, g, buffer) = Ok (b', seeds', a', g', buffer') /\
    balls_wf b' /\ anim_wf a' /\ length g'.(g_led_counter) = 4%nat /\
    length buffer' = 192%nat /\ forall btn, 0 <= btn < 64 -> shows b' buffer' btn.
Proof.
  intros Hb Ha Hg Hl. unfold ball_demo_run. do_rd v Ev.
  assert (H1 : exists b1 s1 a1 g1,
    (if v =? 0 then
       l ← wr g.(g_led_counter) 2 48;
       d ← update_balls velocities bank (mk_demo b seeds a (set_g_led_counter l g) (replicate 64 0) 0);
       Ok (d.(d_balls), d.(d_seeds), d.(d_anim), d.(d_led))
     else Ok (b, seeds, a, g)) = Ok (b1, s1, a1, g1) /\
    balls_wf b1 /\ anim_wf a1 /\ length g1.(g_led_counter) = 4%nat).
  { destruct (v =? 0); [|by eexists _, _, _, _]. do_wr l E H.
    destruct (update_balls_spec velocities bank
      (mk_demo b seeds a (set_g_led_counter l g) (replicate 64 0) 0)) as (d & -> & []);
      [split; cbn in *; done || lia|]. by eexists _, _, _, _. }
  destruct H1 as (b1 & s1 & a1 & g1 & -> & Hb1 & Ha1 & Hg1). cbn [mbind res_bind].
  destruct (draw_balls_spec b1 buffer) as (l & -> & Hl' & Hs); [done|done|].
  cbn [mbind res_bind]. exists b1, s1, a1, g1, l. by split_and!.
Qed.

(** ** Theorems *)

(** A frame of the ball demo is memory safe and keeps its invariant: whatever
    the random numbers, balls, collisions and timer, it succeeds, every index
    stays in range, and afterwards each of the 64 buttons shows the palette colour
    of the ball in its cell, or off. *)
Theorem ball_demo_frame velocities bank b seeds a g buffer :
  balls_wf b -> anim_wf a -> length g.(g_led_counter) = 4%nat -> length buffer = 192%nat ->
  exists b' seeds' a' g' buffer',
    ball_demo_run velocities bank (b, seeds, a, g, buffer) = Ok (b', seeds', a', g', buffer') /\
    balls_wf b' /\ anim_wf a' /\ length g'.(g_led_counter) = 4%nat /\
    length buffer' = 192%nat /\ forall btn, 0 <= btn < 64 -> shows b' buffer' btn.
Proof. apply ball_demo_spec. Qed.

Lemma ball_demo_frame_witness :
  exists b' seeds' a' g' buffer',
    ball_demo_run (replicate 128 0) 0
      (ball_demo_setup initial_balls, initial_seeds, initial_anim, initial_led, replicate 192 0) =
      Ok (b', seeds', a', g', buffer') /\ balls_wf b'.
Proof.
  destruct (ball_demo_frame (replicate 128 0) 0 (ball_demo_setup initial_balls) initial_seeds
    initial_anim initial_led (replicate 192 0)) as (b' & s' & a' & g' & l' & H & Hb & _);
    [|exact initial_anim_wf|reflexivity|reflexivity|].
  { destruct initial_balls_wf. split; cbn; try assumption; try reflexivity.
    apply (Forall_replicate (fun x => 0 <= x <= 2) 64 2). lia. }
  exists b', s', a', g', l'. split; [exact H|exact Hb].
Defined.

(** The balls never explode: the code that should end a run of repeated
    collisions never records the last pair of balls, so the limit is reported as
    not reached for every pair of balls and every reachable state. *)
Theorem explosion_unreachable this_ball that_ball b :
  balls_wf b -> 0 <= this_ball < 2 -> 0 <= that_ball < 2 ->
  repeat_collision_limit_reached this_ball that_ball b = (false, set_repeat_collision_counter 0 b).
Proof. apply no_repeat. Qed.

Lemma explosion_unreachable_witness :
  fst (repeat_collision_limit_reached 0 1 (set_repeat_collision_counter 254 initial_balls)) = false.
Proof.
  rewrite (explosion_unreachable 0 1 (set_repeat_collision_counter 254 initial_balls)).
  - reflexivity.
  - destruct initial_balls_wf. split; assumption.
  - lia.
  - lia.
Defined.

End BallDemo.
