(* ===== verification/Display.v ===== *)
(** * display.c: composing a frame

    A frame is drawn in layers: key state, colours set by MIDI notes, per-button
    MIDI animations, the sleep demo and the geometric animations.  The frame is
    [g_display_buffer], 64 buttons of three bytes in the order blue, red, green.

    [pulse_animation] computes a level with the [sin] of the C library, which is
    the parameter [sin_level]: the value of
    [(uint8_t)(sin(rgb_freq * rgb_step) * 127 + 127)] for a step. *)

From S2P Require Import Prelude.
From S2P Require Import Random.
From S2P Require Import Colors.
From S2P Require Import Midi.
From S2P Require Import Led.
From S2P Require Import Animations.
From S2P Require Import BallDemo.

Module Display.
Import Colors Midi Led Animations BallDemo.

(** ** State: what a frame reads and writes, besides keys, colours and settings *)

Record screen := mk_screen {
  g_display_buffer : list Z;
  sc_midi : midi_globals;
  sc_led : led_globals;
  sc_anim : anim;
  sc_balls : balls;
  sc_seeds : Random.seeds
}.

Definition set_g_display_buffer (v : list Z) (s : screen) : screen :=
  mk_screen v s.(sc_midi) s.(sc_led) s.(sc_anim) s.(sc_balls) s.(sc_seeds).
Definition set_sc_midi (v : midi_globals) (s : screen) : screen :=
  mk_screen s.(g_display_buffer) v s.(sc_led) s.(sc_anim) s.(sc_balls) s.(sc_seeds).
Definition set_sc_led (v : led_globals) (s : screen) : screen :=
  mk_screen s.(g_display_buffer) s.(sc_midi) v s.(sc_anim) s.(sc_balls) s.(sc_seeds).
Definition set_sc_anim (v : anim) (s : screen) : screen :=
  mk_screen s.(g_display_buffer) s.(sc_midi) s.(sc_led) v s.(sc_balls) s.(sc_seeds).
Definition set_sc_balls (v : balls) (s : screen) : screen :=
  mk_screen s.(g_display_buffer) s.(sc_midi) s.(sc_led) s.(sc_anim) v s.(sc_seeds).
Definition set_sc_seeds (v : Random.seeds) (s : screen) : screen :=
  mk_screen s.(g_display_buffer) s.(sc_midi) s.(sc_led) s.(sc_anim) s.(sc_balls) v.

(** ** The key layer *)

(** One iteration of [info_display_active]; [key_bit] is the button's bit. *)
Definition show_key (c : banks) (bank g_key_state i : Z) (st : list Z * Z)
    : res (list Z * Z) :=
  let '(buffer, key_bit) := st in
  let src := if has_bits g_key_state key_bit then c.(default_bank_active)
             else c.(default_bank_inactive) in
  c2 ← rd src (192 * bank + 3 * i + 2);
  c0 ← rd src (192 * bank + 3 * i);
  c1 ← rd src (192 * bank + 3 * i + 1);
  buffer ← put3 buffer (3 * i) c2 c0 c1;
  Ok (buffer, u64 (Z.shiftl key_bit 1)).

Definition info_display_active (c : banks) (bank g_key_state : Z) (buffer : list Z)
    : res (list Z) :=
  fst <$> for_up 64 0 (show_key c bank g_key_state) (buffer, 1).

(** ** The note layer *)

Definition BUTTON_ID_FLAGS : Z := 63.

Definition show_note (velocities : list Z) (i : Z) (buffer : list Z) : res (list Z) :=
  velocity ← rd velocities i;
  if 0 <? velocity then
    let key := Z.land i BUTTON_ID_FLAGS in
    c2 ← rd ableton_midi_feedback_colors (3 * velocity + 2);
    c0 ← rd ableton_midi_feedback_colors (3 * velocity);
    c1 ← rd ableton_midi_feedback_colors (3 * velocity + 1);
    put3 buffer (key * 3) c2 c0 c1
  else Ok buffer.

Definition midi_color_state (velocities : list Z) (bank : Z) (buffer : list Z) : res (list Z) :=
  for_up 64 (u8 (bank * NUM_BUTTONS)) (show_note velocities) buffer.

(** ** The animation layer *)

Definition SIXTEENTH_FLASH_STATE : Z := 1.

Definition flash_animation (display_flash_counter flash_rate : Z) : bool :=
  has_bits display_flash_counter (Z.shiftl SIXTEENTH_FLASH_STATE (8 - flash_rate)).

Definition rgb_step (midi_clock_enabled : bool) (display_flash_counter pulse_rate : Z) : Z :=
  if negb midi_clock_enabled
  then Z.land (Z.shiftr (u16 (Z.shiftl display_flash_counter 4)) (8 - pulse_rate)) 255
  else Z.land (Z.shiftr (u16 (Z.shiftl display_flash_counter 5)) (8 - pulse_rate)) 255.

Section frame.
Variable sin_level : Z -> Z.

Definition pulse_animation (midi_clock_enabled : bool) (display_flash_counter pulse_rate : Z) : Z :=
  sin_level (rgb_step midi_clock_enabled display_flash_counter pulse_rate).

(** [(x * level) >> shift] on a channel: the product is a 16-bit [int]. *)
Definition scaled (level shift x : Z) : Z := u8 (Z.shiftr (i16 (x * level)) shift).

(** Scale the three channels of button [key]. *)
Definition scale (buffer : list Z) (key level shift : Z) : res (list Z) :=
  p0 ← rd buffer (key * 3);
  p1 ← rd buffer (key * 3 + 1);
  p2 ← rd buffer (key * 3 + 2);
  put3 buffer (key * 3) (scaled level shift p0) (scaled level shift p1) (scaled level shift p2).

(** One iteration of [midi_animation_state]. *)
Definition animate_button (i : Z) (s : screen) : res screen :=
  let m := s.(sc_midi) in
  velocity ← rd m.(g_midi_note_state1) i;
  let key := Z.land i BUTTON_ID_FLAGS in
  if 0 <? velocity then
    if velocity <? 18 then Ok s
    else if velocity <? 34 then
      l ← scale s.(g_display_buffer) key (velocity - 18) 4;
      Ok (set_g_display_buffer l s)
    else if velocity <? 42 then
      if negb (flash_animation s.(sc_led).(display_flash_counter) (velocity - 33)) then
        l ← put3 s.(g_display_buffer) (key * 3) 0 0 0;
        Ok (set_g_display_buffer l s)
      else Ok s
    else if velocity <? 50 then
      let cycle_level := pulse_animation m.(midi_clock_enabled)
                           s.(sc_led).(display_flash_counter) (velocity - 41) in
      l ← scale s.(g_display_buffer) key cycle_level 8;
      Ok (set_g_display_buffer l s)
    else if velocity <? 54 then
      '(a, g) ← start_geometric_animation m.(g_midi_note_state0) m.(g_bank_selected)
                  key (velocity - 50) (s.(sc_anim), s.(sc_led));
      l ← wr m.(g_midi_note_state1) i 0;
      Ok (set_sc_midi (set_g_midi_note_state1 l m) (set_sc_anim a (set_sc_led g s)))
    else Ok s
  else Ok s.

Definition midi_animation_state (bank : Z) (s : screen) : res screen :=
  let bank_offset := if bank =? 0 then 0 else NUM_BUTTONS in
  for_up 64 bank_offset animate_button s.

(** ** Time and sleep *)

Definition count_time (g : led_globals) : led_globals :=
  if 2000 <=? g.(half_ms_counter) then
    let g := set_half_ms_counter 0 g in
    let g := set_one_second_counter (u8 (g.(one_second_counter) + 1)) g in
    if 60 <=? g.(one_second_counter) then
      let g := set_sleep_minute_counter (u8 (g.(sleep_minute_counter) + 1)) g in
      set_one_second_counter 0 g
    else g
  else g.

(** The sleep part of [default_display_run]. *)
Definition sleep_display (sleep_time g_key_down : Z) (s : screen) : res screen :=
  if negb (sleep_time =? 0) then
    let s :=
      if s.(sc_led).(sleep_minute_counter) =? sleep_time then
        let s := set_sc_balls (ball_demo_setup s.(sc_balls)) s in
        set_sc_led (set_sleep_minute_counter
          (u8 (s.(sc_led).(sleep_minute_counter) + 1)) s.(sc_led)) s
      else s in
    s ←
      (if sleep_time <? s.(sc_led).(sleep_minute_counter) then
         '(b, seeds, a, g, l) ←
           ball_demo_run s.(sc_midi).(g_midi_note_state0) s.(sc_midi).(g_bank_selected)
             (s.(sc_balls), s.(sc_seeds), s.(sc_anim), s.(sc_led), s.(g_display_buffer));
         Ok (mk_screen l s.(sc_midi) g a b seeds)
       else Ok s);
    if negb (g_key_down =? 0) then
      Ok (set_sc_led (set_sleep_minute_counter 0 (set_one_second_counter 0 s.(sc_led))) s)
    else Ok s
  else Ok s.

(** ** The frame *)

Definition default_display_run (c : banks) (sleep_time g_key_state g_key_down : Z) (s : screen)
    : res screen :=
  let bank := s.(sc_midi).(g_bank_selected) in
  l ← info_display_active c bank g_key_state s.(g_display_buffer);
  l ← midi_color_state s.(sc_midi).(g_midi_note_state0) bank l;
  let s := set_g_display_buffer l s in
  s ← midi_animation_state bank s;
  let s := set_sc_led (count_time s.(sc_led)) s in
  s ← sleep_display sleep_time g_key_down s;
  '(a, g, l) ← geometric_animation_state c.(default_bank_active)
                 (s.(sc_anim), s.(sc_led), s.(g_display_buffer));
  Ok (set_g_display_buffer l (set_sc_anim a (set_sc_led g s))).

End frame.

(** ** Specifications *)

(** The order of the channels on the wire. *)
Definition brg (rgb : Z * Z * Z) : Z * Z * Z := let '(r, g, b) := rgb in (b, r, g).

Record screen_wf (s : screen) : Prop := {
  wf_buffer : length s.(g_display_buffer) = 192%nat;
  wf_midi : midi_wf s.(sc_midi);
  wf_velocities : Forall (fun v => 0 <= v < 128) s.(sc_midi).(g_midi_note_state0);
  wf_counters : length s.(sc_led).(g_led_counter) = 4%nat;
  wf_anim : anim_wf s.(sc_anim);
  wf_balls : balls_wf s.(sc_balls)
}.

(** What the animation layer is to do to the colour of one button, by the velocity of the
    note on the animation channel: 18 to 33 dim it to 0/16 .. 15/16; 34 to 41 show it in the
    second half of each period of 256 .. 2 ticks of the flash counter; 42 to 49 follow one
    wave of the sine in each period of 2048 .. 16 ticks, half as many with the MIDI clock.
    *)
Definition in_second_half (period t : Z) : bool := period / 2 <=? t mod period.
Definition phase (period t : Z) : Z := 256 * (t mod period) / period.
Definition bright (numerator denominator : Z) (c : Z * Z * Z) : Z * Z * Z :=
  let '(x, y, z) := c in (x * numerator / denominator, y * numerator / denominator, z * numerator / denominator).

Definition effect (sin_level : Z -> Z) (clock : bool) (t v : Z) (c : Z * Z * Z) : Z * Z * Z :=
  if v <? 18 then c
  else if v <? 34 then bright (v - 18) 16 c
  else if v <? 42 then if in_second_half (2 ^ (42 - v)) t then c else (0, 0, 0)
  else if v <? 50 then bright (sin_level (phase (2 ^ ((if clock then 52 else 53) - v)) t)) 256 c
  else c.

(** Colours of the seven-bit range that messages carry. *)
Definition seven_bit (c : Z * Z * Z) : Prop :=
  let '(x, y, z) := c in 0 <= x < 128 /\ 0 <= y < 128 /\ 0 <= z < 128.

(** ** Lemmas *)

(** *** The key layer *)

Lemma show_key_spec c bank ks i buffer :
  banks_wf c -> 0 <= bank < 2 -> 0 <= i < 64 -> length buffer = 192%nat ->
  exists buffer', show_key c bank ks i (buffer, 2 ^ i) = Ok (buffer', u64 (2 ^ (i + 1))) /\
    length buffer' = 192%nat /\
    color_at buffer' (3 * i) = brg <$> color_at
      (if Z.testbit ks i then c.(default_bank_active) else c.(default_bank_inactive))
      (192 * bank + 3 * i) /\
    (forall j, j < 3 * i \/ 3 * i + 3 <= j -> rd buffer' j = rd buffer j).
Proof.
  intros [Hci Hca] Hb Hi Hl. unfold show_key. rewrite has_bits_pow2 by lia.
  set (src := if Z.testbit ks i then _ else _).
  assert (Hsrc : length src = 384%nat) by (unfold src; by destruct (Z.testbit ks i)).
  destruct (rd_in_range src (192 * bank + 3 * i)) as [r Hr]; [lia|].
  destruct (rd_in_range src (192 * bank + 3 * i + 1)) as [g Hg]; [lia|].
  destruct (rd_in_range src (192 * bank + 3 * i + 2)) as [b Hbb]; [lia|].
  unfold color_at at 2. rewrite Hr, Hg, Hbb. cbn [mbind res_bind].
  destruct (put3_color buffer (3 * i) b r g) as (l & -> & Hl' & Hc & Ho); [lia|lia|].
  cbn [mbind res_bind]. exists l.
  split; [|split; [lia|split; [exact Hc|exact Ho]]].
  rewrite Z.shiftl_mul_pow2 by lia. by rewrite <-Z.pow_add_r by lia.
Qed.

Lemma key_layer_spec c bank ks buffer :
  banks_wf c -> 0 <= bank < 2 -> length buffer = 192%nat ->
  exists buffer', info_display_active c bank ks buffer = Ok buffer' /\ length buffer' = 192%nat /\
    forall i, 0 <= i < 64 ->
      color_at buffer' (3 * i) = brg <$> color_at
        (if Z.testbit ks i then c.(default_bank_active) else c.(default_bank_inactive))
        (192 * bank + 3 * i).
Proof.
  intros Hc Hb Hl. unfold info_display_active.
  pose (inv := fun (k : Z) (st : list Z * Z) => let '(l, key_bit) := st in
    length l = 192%nat /\ (k < 64 -> key_bit = 2 ^ k) /\
    forall i, 0 <= i < k -> color_at l (3 * i) = brg <$> color_at
        (if Z.testbit ks i then c.(default_bank_active) else c.(default_bank_inactive))
        (192 * bank + 3 * i)).
  edestruct (for_up_inv inv) as ([l kb] & -> & Hinv).
  - split; [done|]. split; [done|]. intros; lia.
  - intros k [l kb] Hk (Hl1 & Hkb & Hd). rewrite Hkb by lia.
    destruct (show_key_spec c bank ks k l) as (l' & -> & Hl' & Hc' & Ho'); [done|done|lia|done|].
    eexists. split; [done|]. split; [done|]. split.
    + intros Hk'. apply u64_small. split; [apply Z.pow_nonneg; lia|].
      change 18446744073709551616 with (2 ^ 64). apply Z.pow_lt_mono_r; lia.
    + intros i Hi. destruct (Z.eq_dec i k) as [->|]; [done|].
      rewrite <-Hd by lia. apply color_at_ext. intros j Hj. apply Ho'. lia.
  - destruct Hinv as (H1 & _ & H2). exists l. by split_and!.
Qed.

(** *** The note layer *)

Lemma land_button bank i : 0 <= bank < 2 -> 0 <= i < 64 -> Z.land (64 * bank + i) BUTTON_ID_FLAGS = i.
Proof.
  intros Hb Hi. unfold BUTTON_ID_FLAGS. rewrite land_63.
  rewrite Z.add_comm, Z.mul_comm, Z.mod_add, Z.mod_small; lia.
Qed.

Lemma note_layer_spec velocities bank buffer :
  length velocities = 128%nat -> 0 <= bank < 2 -> length buffer = 192%nat ->
  Forall (fun v => 0 <= v < 128) velocities ->
  exists buffer', midi_color_state velocities bank buffer = Ok buffer' /\
    length buffer' = 192%nat /\
    forall i v, 0 <= i < 64 -> rd velocities (64 * bank + i) = Ok v ->
      color_at buffer' (3 * i) =
        if v =? 0 then color_at buffer (3 * i)
        else brg <$> color_at ableton_midi_feedback_colors (3 * v).
Proof.
  intros Hv Hb Hl Hrange. unfold midi_color_state, NUM_BUTTONS. rewrite u8_small by lia.
  pose (inv := fun (k : Z) (l : list Z) => length l = 192%nat /\
    (forall i v, 0 <= i < k - bank * 64 -> rd velocities (64 * bank + i) = Ok v ->
      color_at l (3 * i) = if v =? 0 then color_at buffer (3 * i)
        else brg <$> color_at ableton_midi_feedback_colors (3 * v)) /\
    (forall i, k - bank * 64 <= i < 64 -> color_at l (3 * i) = color_at buffer (3 * i))).
  edestruct (for_up_inv inv) as (l & -> & Hinv).
  - split; [done|]. split; [intros; lia|done].
  - intros k l Hk (Hl1 & Hd & Ht). unfold show_note.
    destruct (rd_in_range velocities k) as [v Ev]; [lia|]. rewrite Ev. cbn [mbind res_bind].
    assert (Hvr := rd_in _ _ _ _ Hrange Ev). cbn beta in Hvr.
    assert (Ek : k = 64 * bank + (k - bank * 64)) by lia.
    assert (Hkey : Z.land k BUTTON_ID_FLAGS = k - bank * 64) by (rewrite Ek at 1; apply land_button; lia).
    destruct (Z.ltb_spec 0 v) as [Hpos|Hzero].
    + rewrite Hkey. assert (Ha : length ableton_midi_feedback_colors = 384%nat) by done.
      destruct (rd_in_range ableton_midi_feedback_colors (3 * v)) as [r Hr]; [lia|].
      destruct (rd_in_range ableton_midi_feedback_colors (3 * v + 1)) as [g Hg]; [lia|].
      destruct (rd_in_range ableton_midi_feedback_colors (3 * v + 2)) as [b Hbb]; [lia|].
      rewrite Hr, Hg, Hbb. cbn [mbind res_bind].
      destruct (put3_color l ((k - bank * 64) * 3) b r g) as (l' & -> & Hl' & Hc & Ho); [lia|lia|].
      exists l'. split; [done|]. split; [lia|]. rewrite Z.mul_comm in Hc. split.
      * intros i v' Hi Hv'. destruct (Z.eq_dec i (k - bank * 64)) as [->|Hne].
        -- rewrite <-Ek, Ev in Hv'. injection Hv' as <-. rewrite Hc.
           replace (v =? 0) with false by lia. unfold color_at. by rewrite Hr, Hg, Hbb.
        -- rewrite <-(Hd i v') by (done || lia). apply color_at_ext. intros j Hj. apply Ho. lia.
      * intros i Hi. rewrite <-Ht by lia. apply color_at_ext. intros j Hj. apply Ho. lia.
    + exists l. split; [done|]. split; [done|]. split.
      * intros i v' Hi Hv'. destruct (Z.eq_dec i (k - bank * 64)) as [->|Hne].
        -- rewrite <-Ek, Ev in Hv'. injection Hv' as <-. replace (v =? 0) with true by lia.
           apply Ht. lia.
        -- apply Hd; [lia|done].
      * intros i Hi. apply Ht. lia.
  - exists l. destruct Hinv as (H1 & H2 & _). split_and!; [done|done|]. intros i v Hi. apply H2. lia.
Qed.

(** *** The animation layer *)

Lemma start_typed_led type velocities bank btn s g s' g' :
  start_typed type velocities bank btn (s, g) = Ok (s', g') -> exists l, g' = set_g_led_counter l g.
Proof. unfold start_typed. intros H. inv_ok. simplify_eq. by eexists. Qed.

(** Starting an animation changes only the animation counters. *)
Lemma start_led velocities bank btn id s g s' g' :
  start_geometric_animation velocities bank btn id (s, g) = Ok (s', g') ->
  exists l, g' = set_g_led_counter l g.
Proof.
  unfold start_geometric_animation, restart_step_counter. intros H.
  apply bind_ok in H as ([u g1] & H1 & H).
  assert (Hg1 : exists l, g1 = set_g_led_counter l g).
  { apply bind_ok in H1 as (v & _ & H1). destruct (v =? 0); inv_ok; simplify_eq; [by eexists|].
    exists g1.(g_led_counter). by destruct g1. }
  destruct Hg1 as [l1 ->]. apply bind_ok in H as ([s2 g2] & H2 & H). cbn in H. simplify_eq.
  repeat match type of H2 with (if ?c then _ else _) = _ => destruct c end;
    try (apply start_typed_led in H2 as [l ->]; by eexists).
  injection H2 as <- <-. by eexists.
Qed.

Definition same_clock (s s' : screen) : Prop :=
  s'.(sc_led).(display_flash_counter) = s.(sc_led).(display_flash_counter) /\
  s'.(sc_midi).(midi_clock_enabled) = s.(sc_midi).(midi_clock_enabled) /\
  s'.(sc_midi).(g_bank_selected) = s.(sc_midi).(g_bank_selected) /\
  s'.(sc_midi).(g_midi_note_state0) = s.(sc_midi).(g_midi_note_state0).

Section effects.
Variable sin_level : Z -> Z.

(** The rates, as the code computes them from the bits of the flash counter. *)
Lemma rate_cases r : 1 <= r <= 8 -> r = 1 \/ r = 2 \/ r = 3 \/ r = 4 \/ r = 5 \/ r = 6 \/ r = 7 \/ r = 8.
Proof. lia. Qed.

Lemma flash_half t r : 1 <= r <= 8 -> flash_animation t r = in_second_half (2 ^ (9 - r)) t.
Proof.
  intros Hr. unfold flash_animation, in_second_half, SIXTEENTH_FLASH_STATE.
  rewrite Z.shiftl_mul_pow2, Z.mul_1_l, has_bits_pow2, Z.testbit_eqb by lia.
  destruct (rate_cases r Hr) as [->|[->|[->|[->|[->|[->|[->| ->]]]]]]]; cbn [Z.sub Z.add Z.opp Z.pos_sub Z.pow Z.pow_pos Pos.iter Z.mul Pos.mul Pos.pred_double Z.pred_double Z.succ_double Z.double];
    apply Bool.eq_iff_eq_true; rewrite Z.eqb_eq, Z.leb_le; Z.div_mod_to_equations; lia.
Qed.

Lemma step_phase clock t r :
  1 <= r <= 8 -> rgb_step clock t r = phase (2 ^ ((if clock then 11 else 12) - r)) t.
Proof.
  intros Hr. unfold rgb_step, phase. rewrite !land_255, !Z.shiftl_mul_pow2, !Z.shiftr_div_pow2 by lia. unfold u8, u16.
  destruct (rate_cases r Hr) as [->|[->|[->|[->|[->|[->|[->| ->]]]]]]]; destruct clock; cbv [negb]; cbn [Z.sub Z.add Z.opp Z.pos_sub Z.pow Z.pow_pos Pos.iter Z.mul Pos.mul Pos.pred_double Z.pred_double Z.succ_double Z.double];
    Z.div_mod_to_equations; lia.
Qed.

Lemma scaled_exact level n x :
  0 <= x < 128 -> 0 <= level < 256 -> x * level < 256 * 2 ^ n -> 0 <= n -> scaled level n x = x * level / 2 ^ n.
Proof.
  intros Hx Hl Hs Hn. unfold scaled. rewrite i16_small by nia. rewrite Z.shiftr_div_pow2 by lia.
  pose proof (Z.pow_pos_nonneg 2 n ltac:(lia) Hn). apply u8_small. split; [apply Z.div_pos; nia|]. apply Z.div_lt_upper_bound; lia.
Qed.

(** The colour of one button as the code computes it. *)
Definition computed (clock : bool) (flash v : Z) (c : Z * Z * Z) : Z * Z * Z :=
  let '(x, y, z) := c in
  if v <? 18 then c
  else if v <? 34 then (scaled (v - 18) 4 x, scaled (v - 18) 4 y, scaled (v - 18) 4 z)
  else if v <? 42 then if flash_animation flash (v - 33) then c else (0, 0, 0)
  else if v <? 50 then
    let level := pulse_animation sin_level clock flash (v - 41) in
    (scaled level 8 x, scaled level 8 y, scaled level 8 z)
  else c.

Lemma computed_effect clock t v c :
  (forall n, 0 <= sin_level n < 256) -> seven_bit c -> computed clock t v c = effect sin_level clock t v c.
Proof.
  intros Hsin. destruct c as [[x y] z]. intros (Hx & Hy & Hz). unfold computed, effect, bright.
  destruct (Z.ltb_spec v 18); [done|]. destruct (Z.ltb_spec v 34).
  { rewrite !scaled_exact by nia. done. }
  destruct (Z.ltb_spec v 42). { rewrite flash_half by lia. by replace (9 - (v - 33)) with (42 - v) by lia. }
  destruct (Z.ltb_spec v 50); [|done]. cbv zeta. unfold pulse_animation. rewrite step_phase by lia.
  replace ((if clock then 11 else 12) - (v - 41)) with ((if clock then 52 else 53) - v) by (destruct clock; lia).
  set (n := phase _ _). pose proof (Hsin n). rewrite !scaled_exact by (change (2 ^ 8) with 256; nia). done.
Qed.

(** Writing one button. *)
Lemma button_written s k c l :
  screen_wf s -> 0 <= k < 64 -> length l = length s.(g_display_buffer) ->
  color_at l (k * 3) = Ok c -> (forall j, j < k * 3 \/ k * 3 + 3 <= j -> rd l j = rd s.(g_display_buffer) j) ->
  screen_wf (set_g_display_buffer l s) /\
  color_at l (3 * k) = Ok c /\
  forall j, 0 <= j < 64 -> j <> k -> color_at l (3 * j) = color_at s.(g_display_buffer) (3 * j).
Proof.
  intros [] Hk Hl Hc Ho. split_and!.
  - split; cbn; done || lia.
  - by rewrite Z.mul_comm.
  - intros j Hj Hne. apply color_at_ext. intros x Hx. apply Ho. lia.
Qed.

Lemma scale_spec buffer k level shift x y z :
  length buffer = 192%nat -> 0 <= k < 64 -> color_at buffer (k * 3) = Ok (x, y, z) ->
  exists l, scale buffer k level shift = Ok l /\ length l = length buffer /\
    color_at l (k * 3) = Ok (scaled level shift x, scaled level shift y, scaled level shift z) /\
    forall j, j < k * 3 \/ k * 3 + 3 <= j -> rd l j = rd buffer j.
Proof.
  intros Hl Hk Hc. unfold color_at in Hc. unfold scale.
  destruct (rd buffer (k * 3)) as [p0|]; [|done]. cbn [mbind res_bind] in *.
  destruct (rd buffer (k * 3 + 1)) as [p1|]; [|done]. cbn [mbind res_bind] in *.
  destruct (rd buffer (k * 3 + 2)) as [p2|]; [|done]. cbn [mbind res_bind] in *.
  injection Hc as -> -> ->. apply put3_color; lia.
Qed.

(** One button done: its colour is [d], and its note is reset if [v] starts an animation. *)
Record button_done (bank k v : Z) (d : Z * Z * Z) (s s' : screen) : Prop := {
  bt_wf : screen_wf s';
  bt_same : same_clock s s';
  bt_color : color_at s'.(g_display_buffer) (3 * k) = Ok d;
  bt_others : forall j, 0 <= j < 64 -> j <> k ->
    color_at s'.(g_display_buffer) (3 * j) = color_at s.(g_display_buffer) (3 * j);
  bt_notes : forall j, rd s'.(sc_midi).(g_midi_note_state1) j =
    if (j =? 64 * bank + k) && (50 <=? v) && (v <? 54) then Ok 0 else rd s.(sc_midi).(g_midi_note_state1) j
}.

Lemma button_kept bank k v c s :
  screen_wf s -> ~ (50 <= v < 54) -> color_at s.(g_display_buffer) (3 * k) = Ok c ->
  exists s', Ok s = Ok s' /\ button_done bank k v c s s'.
Proof.
  intros Hs Hv Hc. exists s. split; [done|]. split; try done. intros j.
  by replace ((j =? 64 * bank + k) && (50 <=? v) && (v <? 54)) with false by lia.
Qed.

Lemma button_drawn bank k v d s l :
  screen_wf s -> 0 <= k < 64 -> ~ (50 <= v < 54) -> length l = length s.(g_display_buffer) ->
  color_at l (k * 3) = Ok d -> (forall j, j < k * 3 \/ k * 3 + 3 <= j -> rd l j = rd s.(g_display_buffer) j) ->
  exists s', Ok (set_g_display_buffer l s) = Ok s' /\ button_done bank k v d s s'.
Proof.
  intros Hs Hk Hv Hl Hcd Ho. destruct (button_written s k d l) as (H1 & H2 & H3); [done..|].
  eexists. split; [reflexivity|]. split; try done. intros j. cbn.
  by replace ((j =? 64 * bank + k) && (50 <=? v) && (v <? 54)) with false by lia.
Qed.

Lemma button_started bank k v c s :
  screen_wf s -> bank = s.(sc_midi).(g_bank_selected) -> 0 <= k < 64 -> 50 <= v < 54 ->
  color_at s.(g_display_buffer) (3 * k) = Ok c ->
  exists s', ('(a, g) ← start_geometric_animation s.(sc_midi).(g_midi_note_state0) s.(sc_midi).(g_bank_selected)
                  k (v - 50) (s.(sc_anim), s.(sc_led));
      l ← wr s.(sc_midi).(g_midi_note_state1) (64 * bank + k) 0;
      Ok (set_sc_midi (set_g_midi_note_state1 l s.(sc_midi)) (set_sc_anim a (set_sc_led g s)))) = Ok s' /\
    button_done bank k v c s s'.
Proof.
  intros [Hbuf Hm Hvel Hcnt Han Hba] Hbank Hk Hv Hc. assert (Hb := wf_bank _ Hm).
  destruct (start_spec s.(sc_midi).(g_midi_note_state0) s.(sc_midi).(g_bank_selected) k (v - 50)
    s.(sc_anim) s.(sc_led)) as (a & g & Hst & Ha & Hg & _); [done|done|apply Hm|lia|done|].
  assert (Hgl := Hst). apply start_led in Hgl as [l0 ->]. rewrite Hst, bind_Ok.
  assert (Hn1 := wf_note_state1 _ Hm).
  assert (Hw := wr_in_range s.(sc_midi).(g_midi_note_state1) (64 * bank + k) 0 ltac:(lia)).
  rewrite Hw, bind_Ok. eexists. split; [reflexivity|]. split; try done.
  - destruct Hm. split; cbn; try done. split; cbn; try done. by rewrite length_insert.
  - cbn. intros j. destruct (Z.eqb_spec j (64 * bank + k)) as [->|Hne].
    + rewrite (rd_wr_eq _ _ _ _ Hw). by replace (50 <=? v) with true by lia; replace (v <? 54) with true by lia.
    + rewrite (rd_wr_ne _ _ j _ _ Hw) by lia. done.
Qed.

Lemma animate_button_spec bank k s v c :
  screen_wf s -> bank = s.(sc_midi).(g_bank_selected) -> 0 <= k < 64 ->
  rd s.(sc_midi).(g_midi_note_state1) (64 * bank + k) = Ok v ->
  color_at s.(g_display_buffer) (3 * k) = Ok c ->
  exists s', animate_button sin_level (64 * bank + k) s = Ok s' /\
    button_done bank k v (computed s.(sc_midi).(midi_clock_enabled) s.(sc_led).(display_flash_counter) v c) s s'.
Proof.
  intros Hs Hbank Hk Hv Hc. assert (Hbuf := wf_buffer _ Hs).
  assert (Hb := wf_bank _ (wf_midi _ Hs)). rewrite <-Hbank in Hb. unfold animate_button. rewrite Hv, bind_Ok, land_button by done.
  destruct c as [[x y] z]. unfold computed. assert (Hc' := Hc). rewrite Z.mul_comm in Hc'.
  destruct (Z.ltb_spec 0 v) as [Hpos|Hzero]; [|replace (v <? 18) with true by lia; apply button_kept; [done|lia|exact Hc]].
  destruct (Z.ltb_spec v 18); [apply button_kept; [done|lia|exact Hc]|].
  destruct (Z.ltb_spec v 34).
  { edestruct scale_spec as (l & -> & ? & ? & ?); [done|done|exact Hc'|]. apply button_drawn; done || lia. }
  destruct (Z.ltb_spec v 42).
  { destruct (flash_animation _ _); cbn [negb]; [apply button_kept; [done|lia|exact Hc]|].
    destruct (put3_color s.(g_display_buffer) (k * 3) 0 0 0) as (l & -> & ? & ? & ?); [lia|lia|].
    apply button_drawn; done || lia. }
  destruct (Z.ltb_spec v 50).
  { edestruct scale_spec as (l & -> & ? & ? & ?); [done|done|exact Hc'|]. apply button_drawn; done || lia. }
  destruct (Z.ltb_spec v 54); [by apply button_started|apply button_kept; [done|lia|exact Hc]].
Qed.

(** The buttons before number [k] of the bank are done. *)
Record layer_done (s : screen) (k : Z) (s1 : screen) : Prop := {
  ly_wf : screen_wf s1;
  ly_same : same_clock s s1;
  ly_color : forall i v c, 0 <= i < 64 -> rd s.(sc_midi).(g_midi_note_state1) (64 * s.(sc_midi).(g_bank_selected) + i) = Ok v ->
    color_at s.(g_display_buffer) (3 * i) = Ok c ->
    color_at s1.(g_display_buffer) (3 * i) = Ok (if 64 * s.(sc_midi).(g_bank_selected) + i <? k then
      computed s.(sc_midi).(midi_clock_enabled) s.(sc_led).(display_flash_counter) v c else c);
  ly_notes : forall j v, rd s.(sc_midi).(g_midi_note_state1) j = Ok v ->
    rd s1.(sc_midi).(g_midi_note_state1) j =
      Ok (if (64 * s.(sc_midi).(g_bank_selected) <=? j) && (j <? k) && (50 <=? v) && (v <? 54) then 0 else v)
}.

Lemma layer_next s k s1 :
  screen_wf s -> 64 * s.(sc_midi).(g_bank_selected) <= k < 64 * s.(sc_midi).(g_bank_selected) + 64 -> layer_done s k s1 ->
  exists s2, animate_button sin_level k s1 = Ok s2 /\ layer_done s (k + 1) s2.
Proof.
  intros Hs Hk [Hs1 (Hf & Hcl & Hbk & Hn0) Hd Hn]. set (bank := s.(sc_midi).(g_bank_selected)) in *.
  assert (Hb := wf_bank _ (wf_midi _ Hs)). fold bank in Hb.
  assert (Hn1 := wf_note_state1 _ (wf_midi _ Hs)). assert (Hbl := wf_buffer _ Hs).
  assert (Ek : k = 64 * bank + (k - 64 * bank)) by lia. revert Hk Ek. generalize (k - 64 * bank). intros i Hk ->.
  destruct (rd_in_range s.(sc_midi).(g_midi_note_state1) (64 * bank + i)) as [v Hv]; [lia|].
  destruct (color_at_ok s.(g_display_buffer) (3 * i)) as [c Hc]; [lia|lia|].
  assert (Hc1 := Hd i v c ltac:(lia) Hv Hc). assert (Hv1 := Hn _ v Hv).
  rewrite Z.ltb_irrefl in Hc1, Hv1. rewrite andb_false_r in Hv1. cbn [andb] in Hv1.
  destruct (animate_button_spec bank i s1 v c) as (s2 & E & [Hs2 (Hf2 & Hcl2 & Hbk2 & Hn02) He Ho Hn2]); [done|by rewrite Hbk|lia|done|done|].
  exists s2. split; [done|]. split; [done|split_and!; etrans; eassumption| |]; fold bank.
  - intros i' v' c' Hi Hv' Hc'. destruct (Z.eq_dec i' i) as [->|Hne].
    + assert (v' = v) as -> by congruence. assert (c' = c) as -> by congruence.
      rewrite He, Hf, Hcl. by replace (64 * bank + i <? 64 * bank + i + 1) with true by lia.
    + rewrite Ho by done. rewrite (Hd i' v' c' Hi Hv' Hc').
      by replace (64 * bank + i' <? 64 * bank + i + 1) with (64 * bank + i' <? 64 * bank + i) by lia.
  - intros j v' Hv'. rewrite Hn2, (Hn j v' Hv'). destruct (Z.eqb_spec j (64 * bank + i)) as [->|Hne].
    + assert (v' = v) as -> by congruence. replace (64 * bank <=? 64 * bank + i) with true by lia.
      replace (64 * bank + i <? 64 * bank + i + 1) with true by lia. rewrite Z.ltb_irrefl. cbn [andb].
      by destruct ((50 <=? v) && (v <? 54)).
    + by replace (j <? 64 * bank + i + 1) with (j <? 64 * bank + i) by lia.
Qed.

Lemma animation_layer_spec s :
  screen_wf s ->
  exists s', midi_animation_state sin_level s.(sc_midi).(g_bank_selected) s = Ok s' /\
    layer_done s (64 * s.(sc_midi).(g_bank_selected) + 64) s'.
Proof.
  intros Hs. assert (Hb := wf_bank _ (wf_midi _ Hs)). unfold midi_animation_state.
  replace (if s.(sc_midi).(g_bank_selected) =? 0 then 0 else NUM_BUTTONS) with (64 * s.(sc_midi).(g_bank_selected))
    by (unfold NUM_BUTTONS; destruct (Z.eqb_spec s.(sc_midi).(g_bank_selected) 0); lia).
  apply (for_up_inv (layer_done s)).
  - split; [done|done| |].
    + intros i v c Hi Hv Hc. by replace (64 * s.(sc_midi).(g_bank_selected) + i <? 64 * s.(sc_midi).(g_bank_selected)) with false by lia.
    + intros j v Hv. rewrite Hv. by replace ((64 * s.(sc_midi).(g_bank_selected) <=? j) && (j <? 64 * s.(sc_midi).(g_bank_selected))) with false by lia.
  - intros k s1 Hk H1. apply (layer_next s k s1); [done|lia|done].
Qed.

End effects.

(** *** The frame *)

Lemma set_led_wf g s :
  screen_wf s -> length g.(g_led_counter) = 4%nat -> screen_wf (set_sc_led g s).
Proof. intros [] Hg. by split. Qed.

Lemma sleep_spec sleep_time key_down s :
  screen_wf s -> exists s', sleep_display sleep_time key_down s = Ok s' /\ screen_wf s'.
Proof.
  intros Hs. unfold sleep_display. destruct (negb (sleep_time =? 0)); [|by eexists].
  set (s1 := if _ =? sleep_time then _ else s).
  assert (Hs1 : screen_wf s1).
  { unfold s1. destruct (_ =? sleep_time); [|done]. destruct Hs. apply set_led_wf; [|done].
    destruct wf_balls0. split; try done. cbn. split; try done. cbn.
    apply (Forall_replicate (fun x => 0 <= x <= 2) 64 2). lia. }
  clearbody s1.
  assert (H : exists s2, (if sleep_time <? s1.(sc_led).(sleep_minute_counter) then
         '(b, seeds, a, g, l) ←
           ball_demo_run s1.(sc_midi).(g_midi_note_state0) s1.(sc_midi).(g_bank_selected)
             (s1.(sc_balls), s1.(sc_seeds), s1.(sc_anim), s1.(sc_led), s1.(g_display_buffer));
         Ok (mk_screen l s1.(sc_midi) g a b seeds)
       else Ok s1) = Ok s2 /\ screen_wf s2).
  { destruct (sleep_time <? _); [|by eexists]. destruct Hs1.
    edestruct ball_demo_spec as (b & sd & a & g & l & -> & ? & ? & ? & ? & _); [done..|].
    cbn [mbind res_bind]. eexists. split; [done|]. by split. }
  destruct H as (s2 & -> & Hs2). cbn [mbind res_bind].
  destruct (negb (key_down =? 0)); eexists; (split; [done|]); [|done].
  apply set_led_wf; [done|]. by destruct Hs2.
Qed.

Lemma count_time_counters g : g_led_counter (count_time g) = g_led_counter g.
Proof.
  unfold count_time. destruct (2000 <=? half_ms_counter g); [|done]. cbv zeta.
  by destruct (60 <=? _).
Qed.

Lemma display_spec sin_level c sleep_time ks kd s :
  banks_wf c -> screen_wf s ->
  exists s', default_display_run sin_level c sleep_time ks kd s = Ok s' /\ screen_wf s'.
Proof.
  intros Hc Hs. unfold default_display_run. assert (Hs' := Hs). destruct Hs'.
  assert (Hb := wf_bank _ wf_midi0).
  destruct (key_layer_spec c s.(sc_midi).(g_bank_selected) ks s.(g_display_buffer))
    as (l1 & -> & Hl1 & _); [done..|]. cbn [mbind res_bind].
  destruct (note_layer_spec s.(sc_midi).(g_midi_note_state0) s.(sc_midi).(g_bank_selected) l1)
    as (l2 & -> & Hl2 & _); [apply wf_midi0|done..|]. cbn [mbind res_bind].
  assert (Hs2 : screen_wf (set_g_display_buffer l2 s)) by (by split).
  destruct (animation_layer_spec sin_level _ Hs2) as (s3 & E3 & [Hs3 _ _ _]).
  change (g_bank_selected (sc_midi (set_g_display_buffer l2 s))) with
    (g_bank_selected (sc_midi s)) in E3. rewrite E3. cbn [mbind res_bind].
  assert (Hs4 : screen_wf (set_sc_led (count_time (sc_led s3)) s3)).
  { apply set_led_wf; [done|]. rewrite count_time_counters. by destruct Hs3. }
  destruct (sleep_spec sleep_time kd _ Hs4) as (s5 & -> & Hs5). cbn [mbind res_bind].
  assert (Hcnt := wf_counters _ Hs5).
  destruct (rd_in_range s5.(sc_led).(g_led_counter) 1) as [v Hv]; [lia|].
  destruct (frame_spec c.(default_bank_active) s5.(sc_anim) s5.(sc_led) s5.(g_display_buffer) v)
    as (a & g & l & -> & Ha & Hl & Hg & _); [apply Hs5|apply Hc|apply Hs5|apply Hs5|done|].
  cbn [mbind res_bind]. eexists. split; [done|]. destruct Hs5. by split.
Qed.

(** ** Theorems *)

(** C37: The key layer: every button of the selected bank shows its active colour
    while its key is held and its idle colour otherwise, for all 64 keys and
    whatever the buffer held before. *)
Theorem key_layer_shows_bank c bank ks buffer :
  banks_wf c -> 0 <= bank < 2 -> length buffer = 192%nat ->
  exists buffer', info_display_active c bank ks buffer = Ok buffer' /\ length buffer' = 192%nat /\
    forall i, 0 <= i < 64 ->
      color_at buffer' (3 * i) = brg <$> color_at
        (if Z.testbit ks i then c.(default_bank_active) else c.(default_bank_inactive))
        (192 * bank + 3 * i).
Proof. apply key_layer_spec. Qed.

Lemma key_layer_shows_bank_witness :
  exists buffer', info_display_active (mk_banks (replicate 384 1) (replicate 384 2)) 1 4
      (replicate 192 0) = Ok buffer' /\
    color_at buffer' 6 = Ok (2, 2, 2) /\ color_at buffer' 9 = Ok (1, 1, 1).
Proof.
  destruct (key_layer_shows_bank (mk_banks (replicate 384 1) (replicate 384 2)) 1 4 (replicate 192 0))
    as (l & H & _ & Hc); [split; reflexivity|lia|reflexivity|].
  exists l. split; [exact H|]. split; [exact (Hc 2 ltac:(lia))|exact (Hc 3 ltac:(lia))].
Defined.

(** The note layer: a button whose note has velocity 1..127 shows colour
    [velocity] of the Ableton table, and one whose note is off is left alone; a
    velocity outside the table makes the firmware read past it. *)
Theorem note_layer_shows_velocity velocities bank buffer :
  length velocities = 128%nat -> 0 <= bank < 2 -> length buffer = 192%nat ->
  (Forall (fun v => 0 <= v < 128) velocities ->
   exists buffer', midi_color_state velocities bank buffer = Ok buffer' /\
     length buffer' = 192%nat /\
     forall i v, 0 <= i < 64 -> rd velocities (64 * bank + i) = Ok v ->
       color_at buffer' (3 * i) =
         if v =? 0 then color_at buffer (3 * i)
         else brg <$> color_at ableton_midi_feedback_colors (3 * v)) /\
  (forall i v, rd velocities i = Ok v -> 128 <= v -> show_note velocities i buffer = Fault OutOfBounds).
Proof.
  intros Hv Hb Hl. split; [by apply note_layer_spec|]. intros i v Hi Hge. unfold show_note.
  rewrite Hi. cbn [mbind res_bind]. replace (0 <? v) with true by lia.
  rewrite (rd_out ableton_midi_feedback_colors (3 * v + 2)); [done|].
  assert (Ha : length ableton_midi_feedback_colors = 384%nat) by done. lia.
Qed.

Lemma note_layer_shows_velocity_witness :
  exists buffer', midi_color_state (replicate 128 5) 1 (replicate 192 0) = Ok buffer' /\
    color_at buffer' 0 = Ok (0, 48, 0).
Proof.
  destruct (note_layer_shows_velocity (replicate 128 5) 1 (replicate 192 0)) as [H _];
    [reflexivity|lia|reflexivity|].
  destruct H as (l & H & _ & Hc); [apply Forall_replicate; lia|].
  exists l. split; [exact H|]. exact (Hc 0 5 ltac:(lia) eq_refl).
Defined.

(** C36: The animation layer: by the velocity of its note on the animation channel each
    button of the selected bank, if its colour is of seven bits, keeps the colour (below 18
    and from 50 on), is dimmed to (velocity - 18)/16 of it, is shown in the second half of
    the period of its flash rate and dark in the first, or follows the sine at its pulse
    rate, which doubles with a running MIDI clock ([effect]).  The notes of the geometric
    animations (50 to 53) of the selected bank are one-shot and reset to zero; no other note
    of the 128 changes, and none of the colour channel. *)
Theorem animation_layer_effects sin_level s :
  screen_wf s -> (forall n, 0 <= sin_level n < 256) ->
  let bank := s.(sc_midi).(g_bank_selected) in
  exists s', midi_animation_state sin_level bank s = Ok s' /\ screen_wf s' /\
    (forall i v c, 0 <= i < 64 -> rd s.(sc_midi).(g_midi_note_state1) (64 * bank + i) = Ok v ->
      color_at s.(g_display_buffer) (3 * i) = Ok c -> seven_bit c ->
      color_at s'.(g_display_buffer) (3 * i) = Ok (effect sin_level
        s.(sc_midi).(midi_clock_enabled) s.(sc_led).(display_flash_counter) v c)) /\
    (forall j v, rd s.(sc_midi).(g_midi_note_state1) j = Ok v ->
      rd s'.(sc_midi).(g_midi_note_state1) j =
        Ok (if (64 * bank <=? j) && (j <? 64 * bank + 64) && (50 <=? v) && (v <? 54) then 0 else v)) /\
    s'.(sc_midi).(g_midi_note_state0) = s.(sc_midi).(g_midi_note_state0).
Proof.
  intros Hs Hsin bank. destruct (animation_layer_spec sin_level s Hs) as (s' & E & [Hw (_ & _ & _ & H0) Hc Hn]).
  exists s'. split; [done|]. split; [done|]. split; [|split; [exact Hn|exact H0]].
  intros i v c Hi Hv Hci H7. rewrite (Hc i v c Hi Hv Hci). fold bank.
  replace (64 * bank + i <? 64 * bank + 64) with true by lia. by rewrite computed_effect.
Qed.

Definition screen_at_start : screen :=
  mk_screen (replicate 192 0) initial_midi initial_led initial_anim initial_balls
    Random.initial_seeds.

Lemma screen_at_start_wf : screen_wf screen_at_start.
Proof.
  split.
  - done.
  - split; cbn; done || lia.
  - apply (Forall_replicate (fun v => 0 <= v < 128) 128 0). lia.
  - done.
  - apply initial_anim_wf.
  - apply initial_balls_wf.
Qed.

(** Bank 1 selected, all buttons grey; its first buttons are dimmed, flash, flash, pulse and start
    an animation, and so would button 0 of the other bank. *)
Definition animated_screen : screen :=
  mk_screen (replicate 192 96)
    (set_g_midi_note_state1 (53 :: replicate 63 0 ++ [26; 38; 41; 45; 50] ++ replicate 59 0)
       (set_g_bank_selected 1 initial_midi))
    (set_display_flash_counter 21 initial_led) initial_anim initial_balls Random.initial_seeds.

Lemma animation_layer_effects_witness :
  exists s', midi_animation_state (fun n => n mod 512 / 2) 1 animated_screen = Ok s' /\
    color_at s'.(g_display_buffer) 0 = Ok (48, 48, 48) /\
    color_at s'.(g_display_buffer) 3 = Ok (0, 0, 0) /\
    color_at s'.(g_display_buffer) 6 = Ok (96, 96, 96) /\
    color_at s'.(g_display_buffer) 9 = Ok (3, 3, 3) /\
    color_at s'.(g_display_buffer) 15 = Ok (96, 96, 96) /\
    rd s'.(sc_midi).(g_midi_note_state1) 68 = Ok 0 /\ rd s'.(sc_midi).(g_midi_note_state1) 0 = Ok 53.
Proof.
  destruct (animation_layer_effects (fun n => n mod 512 / 2) animated_screen) as (s' & H & _ & Hc & Hn & _).
  - destruct screen_at_start_wf as [? [] ? ? ? ?]. split; [reflexivity| |assumption..].
    split; cbn; first [reflexivity | assumption | lia].
  - intros n. cbv beta. Z.div_mod_to_equations; lia.
  - exists s'. split; [exact H|].
    assert (H7 : seven_bit (96, 96, 96)) by (cbn; lia).
    split; [exact (Hc 0 26 (96, 96, 96) ltac:(lia) eq_refl eq_refl H7)|].
    split; [exact (Hc 1 38 (96, 96, 96) ltac:(lia) eq_refl eq_refl H7)|].
    split; [exact (Hc 2 41 (96, 96, 96) ltac:(lia) eq_refl eq_refl H7)|].
    split; [exact (Hc 3 45 (96, 96, 96) ltac:(lia) eq_refl eq_refl H7)|].
    split; [exact (Hc 5 0 (96, 96, 96) ltac:(lia) eq_refl eq_refl H7)|].
    split; [exact (Hn 68 50 eq_refl)|exact (Hn 0 53 eq_refl)].
Defined.

(** C20: A whole display frame is safe: from a well-formed state, for any keys, any
    colours, any sleep time and any values of the sine, [default_display_run]
    succeeds, stays inside its arrays, and re-establishes the invariant. *)
Theorem display_frame_safe sin_level c sleep_time ks kd s :
  banks_wf c -> screen_wf s ->
  exists s', default_display_run sin_level c sleep_time ks kd s = Ok s' /\ screen_wf s'.
Proof. apply display_spec. Qed.

Lemma display_frame_safe_witness :
  exists s', default_display_run (fun _ => 127) initial_banks 60 0 0 screen_at_start = Ok s' /\
    screen_wf s'.
Proof.
  apply (display_frame_safe (fun _ => 127) initial_banks 60 0 0 screen_at_start);
    [split; reflexivity|exact screen_at_start_wf].
Defined.

End Display.
