(* ===== verification/Board.v ===== *)
(** * The whole device: the globals of all files together

    [board W] is what a SysEx command handler can reach: settings, colours,
    EEPROM and registers, the display with the MIDI state, the keys and the USB
    link [W].  The bank switch of midifighter64.c is here because config.c calls
    it too. *)

From S2P Require Import Prelude.
From S2P Require Import Avr.
From S2P Require Import Keys.
From S2P Require Import Combo.
From S2P Require Import Midi.
From S2P Require Import Colors.
From S2P Require Import Eeprom.
From S2P Require Import Led.
From S2P Require Import Animations.
From S2P Require Import BallDemo.
From S2P Require Import Display.

Module Board.
Import Avr Keys Combo Midi Colors Eeprom Led Animations BallDemo Display.

(** ** State *)

Record board (W : Type) := mk_board {
  sets : settings;        (* the G_EE_* globals *)
  cols : banks;           (* the colour banks *)
  rom : nvm;              (* the EEPROM and the CPU registers *)
  scr : screen;           (* display, MIDI, LED and animation globals *)
  keys : key_globals;
  combo : combo_globals;
  link : W                (* the USB link *)
}.
Arguments mk_board {W} _ _ _ _ _ _ _.
Arguments sets {W} _.
Arguments cols {W} _.
Arguments rom {W} _.
Arguments scr {W} _.
Arguments keys {W} _.
Arguments combo {W} _.
Arguments link {W} _.

Section board.
Context {W : Type}.
Implicit Types b : board W.

Definition set_sets (v : settings) b : board W :=
  mk_board v b.(cols) b.(rom) b.(scr) b.(keys) b.(combo) b.(link).
Definition set_cols (v : banks) b : board W :=
  mk_board b.(sets) v b.(rom) b.(scr) b.(keys) b.(combo) b.(link).
Definition set_rom (v : nvm) b : board W :=
  mk_board b.(sets) b.(cols) v b.(scr) b.(keys) b.(combo) b.(link).
Definition set_scr (v : screen) b : board W :=
  mk_board b.(sets) b.(cols) b.(rom) v b.(keys) b.(combo) b.(link).
Definition set_keys (v : key_globals) b : board W :=
  mk_board b.(sets) b.(cols) b.(rom) b.(scr) v b.(combo) b.(link).
Definition set_combo (v : combo_globals) b : board W :=
  mk_board b.(sets) b.(cols) b.(rom) b.(scr) b.(keys) v b.(link).
Definition set_link (v : W) b : board W :=
  mk_board b.(sets) b.(cols) b.(rom) b.(scr) b.(keys) b.(combo) v.

(** The components inside. *)
Definition regs b : avr := b.(rom).(cpu).
Definition set_regs (r : avr) b : board W := set_rom (mk_nvm b.(rom).(mem) r) b.
Definition midi b : midi_globals := b.(scr).(sc_midi).
Definition set_midi (m : midi_globals) b : board W := set_scr (set_sc_midi m b.(scr)) b.
Definition led b : led_globals := b.(scr).(sc_led).
Definition set_led (g : led_globals) b : board W := set_scr (set_sc_led g b.(scr)) b.

Record board_wf b : Prop := {
  wf_cols : banks_wf b.(cols);
  wf_rom : nvm_wf b.(rom);
  wf_scr : screen_wf b.(scr);
  wf_keys : keys_wf b.(keys);
  wf_combo : combo_wf b.(combo)
}.

(** ** Animations and banks *)

Definition start_animation (button_id animation_id : Z) b : res (board W) :=
  '(a, g) ← start_geometric_animation (midi b).(g_midi_note_state0) (midi b).(g_bank_selected)
              button_id animation_id (b.(scr).(sc_anim), b.(scr).(sc_led));
  Ok (set_scr (set_sc_led g (set_sc_anim a b.(scr))) b).

Definition bank_select_key_ids : list Z := [28; 63].
Definition MF64_BANK_CC : Z := 3.

Definition change_bank (this_bank : Z) b : res (board W) :=
  let this_key := if negb (this_bank =? 0) then tbl bank_select_key_ids 1
                  else tbl bank_select_key_ids 0 in
  let this_animation :=
    if b.(sets).(G_EE_ANIMATIONS) <? GEOMETRIC_ANIMATION_TYPES then b.(sets).(G_EE_ANIMATIONS)
    else GEOMETRIC_ANIMATION_TYPE_SQUARE in
  let b := set_midi (set_g_bank_selected this_bank (midi b)) b in
  b ← start_animation this_key this_animation b;
  Ok (set_midi (set_g_bank_select_counter (replicate 2 0) (midi b)) b).

(** ** The link of the board is the link of the USB driver *)

Context `{MidiOut W}.

#[export] Instance board_out : MidiOut (board W) := {|
  MIDI_Device_SendEventPacket p b := set_link (MIDI_Device_SendEventPacket p b.(link)) b;
  MIDI_Device_Flush b := set_link (MIDI_Device_Flush b.(link)) b;
  sent b := sent b.(link);
  flushed b := flushed b.(link);
  link_up b := link_up b.(link)
|}.

#[export] Instance board_out_laws `{!MidiOutLaws W} : MidiOutLaws (board W).
Proof.
  split; cbn; intros; [by apply send_link_up|by apply send_appends|
                       by apply flush_link_up|by apply flush_sent|
                       by apply flush_flushed|by apply send_flushed].
Qed.

Definition send_change_bank_notification (this_bank : Z) b : board W :=
  midi_stream_raw_cc b.(sets).(G_EE_MIDI_CHANNEL) MF64_BANK_CC this_bank b.

(** ** Lemmas *)

(** Sending only changes the link. *)
Lemma send_all_board ps b : send_all ps b = set_link (send_all ps b.(link)) b.
Proof.
  revert b. induction ps as [|p ps IH]; intros b; cbn [send_all]; [by destruct b|].
  rewrite IH. done.
Qed.

Lemma set_link_wf w b : board_wf b -> board_wf (set_link w b).
Proof. intros []. by split. Qed.

Lemma set_midi_wf m b :
  board_wf b -> midi_wf m -> Forall (fun v => 0 <= v < 128) m.(g_midi_note_state0) ->
  board_wf (set_midi m b).
Proof. intros [] Hm Hv. split; [done..| |done|done]. destruct wf_scr0. by split. Qed.

Lemma board_midi_wf b : board_wf b ->
  midi_wf (midi b) /\ Forall (fun v => 0 <= v < 128) (midi b).(g_midi_note_state0).
Proof. intros []. by destruct wf_scr0. Qed.

(** Starting an animation keeps the board well formed and touches only the
    animation slots and the LED counters. *)
Lemma start_animation_ok btn animation_id b :
  board_wf b -> 0 <= btn < 64 ->
  exists a g, start_animation btn animation_id b =
      Ok (set_scr (set_sc_led g (set_sc_anim a b.(scr))) b) /\
    board_wf (set_scr (set_sc_led g (set_sc_anim a b.(scr))) b).
Proof.
  intros Hb Hbtn. assert (Hb' := Hb). destruct Hb'. assert (Hs := wf_scr0). destruct Hs.
  destruct (start_spec (midi b).(g_midi_note_state0) (midi b).(g_bank_selected) btn animation_id
              b.(scr).(sc_anim) b.(scr).(sc_led)) as (a & g & E & Ha & Hg & _);
    [done..|apply wf_midi0|apply wf_midi0|done|].
  exists a, g. unfold start_animation. rewrite E. split; [done|].
  split; [done..| |done|done]. by split.
Qed.

(** A bank change: the bank is selected, the hold counters are reset, nothing
    else changes but the animation it starts. *)
Lemma change_bank_ok bank b :
  board_wf b -> 0 <= bank < 2 ->
  exists a g, let s := set_sc_led g (set_sc_anim a b.(scr)) in
    let m := set_g_bank_select_counter [0; 0] (set_g_bank_selected bank (midi b)) in
    change_bank bank b = Ok (set_scr (set_sc_midi m s) b) /\
    board_wf (set_scr (set_sc_midi m s) b).
Proof.
  intros Hb Hbank. destruct (board_midi_wf b Hb) as [Hm Hv].
  set (b1 := set_midi (set_g_bank_selected bank (midi b)) b).
  assert (Hb1 : board_wf b1) by (apply set_midi_wf; [done|by destruct Hm; split|done]).
  unfold change_bank. fold b1.
  set (key := if negb (bank =? 0) then _ else _).
  assert (Hkey : 0 <= key < 64) by (unfold key; destruct (negb (bank =? 0)); by vm_compute).
  match goal with |- context [start_animation key ?t b1] =>
    destruct (start_animation_ok key t b1 Hb1 Hkey) as (a & g & -> & Hb2) end.
  exists a, g. split; [done|].
  destruct (board_midi_wf _ Hb2) as [Hm2 Hv2].
  change (set_scr ?s b) with (set_scr s b1).
  apply (set_midi_wf (set_g_bank_select_counter [0; 0] (midi (set_scr (set_sc_led g (set_sc_anim a b1.(scr))) b1)))) in Hb2;
    [exact Hb2|by destruct Hm2; split|done].
Qed.

(** The globals as the C start-up code leaves them, the factory settings and an
    EEPROM of the current layout. *)
Definition board_at_start (w : W) : board W :=
  mk_board factory_settings initial_banks (mk_nvm (EEPROM_LAYOUT :: replicate 1023 0) reset)
    screen_at_start initial_keys initial_combo w.

Lemma board_at_start_wf w : board_wf (board_at_start w).
Proof.
  split; [by split|done|apply screen_at_start_wf| |].
  - split; cbn; repeat constructor; lia.
  - split; cbn; done || lia.
Qed.

End board.

End Board.
