(* ===== verification/Config.v ===== *)
(** * config.c and jumptoboot.c: the SysEx commands that configure the device

    A handler gets the length of the command's data and the rest of the SysEx
    buffer.  Function pointers to the four handlers are the constructors of
    [SysExFn]; [call] is the call through such a pointer. *)

From S2P Require Import Prelude.
From S2P Require Import Avr.
From S2P Require Import Midi.
From S2P Require Import Colors.
From S2P Require Import Eeprom.
From S2P Require Import Sysex.
From S2P Require Import Led.
From S2P Require Import Animations.
From S2P Require Import Display.
From S2P Require Import Board.

(** ** jumptoboot.c *)

Module Bootloader.
Import Avr.

Definition MAGIC_BOOT_KEY : Z := 3695357130.   (* 0xDC42ACCA *)
Definition WDTO_250MS : Z := 4.
Definition WDRF : Z := 3.

(** Runs before [main]: whether it jumps to the bootloader, and the boot key. *)
Definition Bootloader_Jump_Check (MCUSR Boot_Key : Z) : bool * Z :=
  if has_bits MCUSR (bv WDRF) && (Boot_Key =? MAGIC_BOOT_KEY) then (true, 0)
  else (false, Boot_Key).

(** An endless loop: the watchdog, if it is on, resets the processor. *)
Definition spin {A} (r : avr) (Boot_Key : Z) : res A :=
  match r.(WDT) with Some _ => Fault (Reset Boot_Key) | None => Fault OutOfFuel end.

(** [USB_Disable] detaches the link, whose state ends with the reset. *)
Definition Jump_To_Bootloader {A} (r : avr) : res A :=
  let r := cli r in
  let Boot_Key := MAGIC_BOOT_KEY in
  let r := wdt_enable WDTO_250MS r in
  spin r Boot_Key.

End Bootloader.

Module Config.
Import Avr Midi Colors Eeprom Sysex Led Animations Display Board Bootloader.

Definition SYSEX_COMMAND_PUSH_CONF : Z := 1.
Definition SYSEX_COMMAND_PULL_CONF : Z := 2.
Definition SYSEX_COMMAND_SYSTEM : Z := 3.
Definition SYSEX_COMMAND_BULK_XFER : Z := 4.
Definition TV_TABLE_SIZE : Z := 24.
Definition WDTO_2S : Z := 7.
Definition DISPLAY_SCALING_COLOR_IN_MAX_VALUE : Z := 48.
Definition DISPLAY_SCALING_COLOR_OUT_MAX_VALUE : Z := 127.

Inductive SysExFn := PushConfig | PullConfig | System | BulkXfer.

(** ** Tag/value tables

    [tvtable_t] is an array of 24 bytes, one per tag. *)

Definition tvtable : Type := list Z.
Definition empty_table : tvtable := replicate 24 0.

(** [while (idx < size - 1)]: [idx] goes up by two, so 128 iterations are enough
    for any [size] ([tv_decode_total]). *)
Fixpoint tv_decode_loop (fuel : nat) (idx size : Z) (buffer : list Z) (table : tvtable)
    : res tvtable :=
  if idx <? size - 1 then
    match fuel with
    | O => Fault OutOfFuel
    | S fuel =>
        tag ← rd buffer idx;
        let idx := u8 (idx + 1) in
        table ← (if tag <? TV_TABLE_SIZE
                 then v ← rd buffer idx; wr table tag v
                 else Ok table);
        tv_decode_loop fuel (u8 (idx + 1)) size buffer table
    end
  else Ok table.

Definition tv_table_decode (table : tvtable) (buffer : list Z) (size : Z) : res tvtable :=
  tv_decode_loop 128 0 size buffer table.

Section config.
Context {W : Type} `{MidiOut W}.
Variable after : Z.   (* the byte of memory behind the pattern of led_set_state_dfu *)
Implicit Types b : board W.

Definition wdt_off b : board W := set_regs (wdt_disable (regs b)) b.
Definition wdt_on b : board W := set_regs (wdt_enable WDTO_2S (regs b)) b.

(** ** Settings *)

(** The assignments of [sysExCmdPushConfig] to the settings. *)
Definition pushed_settings (c : tvtable) (g : settings) : settings :=
  {| g_self_test_passed := g.(g_self_test_passed);
     G_EE_MIDI_CHANNEL := u8 (tbl c 0 - 1);
     G_EE_MIDI_VELOCITY := tbl c 1;
     G_EE_FOUR_BANKS_MODE := tbl c 3;
     G_EE_MIDI_OUTPUT_MODE := tbl c 7;
     G_EE_COMBOS_ENABLE := tbl c 8;
     G_EE_ANIMATIONS := tbl c 10;
     G_EE_TILT_MASK := u8 (Z.lor (Z.shiftl (tbl c 12) 4) (tbl c 11));
     G_EE_TILT_MODE := u8 (tbl c 13 + 1);
     G_EE_TILT_SENSITIVITY := tbl c 14;
     G_EE_PITCH_SENSITIVITY := g.(G_EE_PITCH_SENSITIVITY);
     G_EE_TILT_RANGE := tbl c 16;
     G_EE_PITCH_RANGE := tbl c 17;
     G_EE_TILT_DEADZONE := tbl c 18;
     G_EE_PITCH_DEADZONE := g.(G_EE_PITCH_DEADZONE);
     G_EE_TILT_AXIS := tbl c 20;
     G_EE_PICK_SENSITIVITY := tbl c 21;
     G_EE_SLEEP_TIME := tbl c 22;
     G_EE_SIDE_BANK := tbl c 23 |}.

Definition config_payload (g : settings) : list Z :=
  [240; 0; Z.shiftr MANUFACTURER_ID 8; Z.land MANUFACTURER_ID 127;
   SYSEX_COMMAND_PULL_CONF; 1;
   0; u8 (g.(G_EE_MIDI_CHANNEL) + 1);
   1; g.(G_EE_MIDI_VELOCITY);
   3; g.(G_EE_FOUR_BANKS_MODE);
   7; g.(G_EE_MIDI_OUTPUT_MODE);
   8; g.(G_EE_COMBOS_ENABLE);
   10; g.(G_EE_ANIMATIONS);
   11; Z.land g.(G_EE_TILT_MASK) 3;
   12; Z.land (Z.shiftr g.(G_EE_TILT_MASK) 4) 15;
   13; u8 (g.(G_EE_TILT_MODE) - 1);
   14; g.(G_EE_TILT_SENSITIVITY);
   15; g.(G_EE_PITCH_SENSITIVITY);
   16; g.(G_EE_TILT_RANGE);
   17; g.(G_EE_PITCH_RANGE);
   18; g.(G_EE_TILT_DEADZONE);
   19; g.(G_EE_PITCH_DEADZONE);
   20; g.(G_EE_TILT_AXIS);
   21; g.(G_EE_PICK_SENSITIVITY);
   22; g.(G_EE_SLEEP_TIME);
   23; g.(G_EE_SIDE_BANK);
   247].

Definition send_config_data b : res (board W) :=
  let payload := config_payload b.(sets) in
  midi_stream_sysex (Z.of_nat (length payload)) payload b.

Definition save_edits b : res (board W) :=
  d ← eeprom_save_edits b.(sets) b.(cols) b.(rom);
  Ok (set_rom d b).

Definition setup_eeprom b : res (board W) :=
  '(g, c, d) ← eeprom_setup b.(sets) b.(cols) b.(rom);
  Ok (set_sets g (set_cols c (set_rom d b))).

Definition sysExCmdPushConfig (length : Z) (buffer : list Z) b : res (board W) :=
  let side_bank_prev_state := b.(sets).(G_EE_SIDE_BANK) in
  let b := wdt_off b in
  config ← tv_table_decode empty_table buffer length;
  let b := set_sets (pushed_settings config b.(sets)) b in
  b ← (if negb (b.(sets).(G_EE_SIDE_BANK) =? side_bank_prev_state) then
         if b.(sets).(G_EE_SIDE_BANK) =? 0 then change_bank 0 b else Ok b
       else Ok b);
  b ← start_animation 0 GEOMETRIC_ANIMATION_TYPE_TRIANGLE b;
  b ← save_edits b;
  b ← send_config_data b;
  b ← setup_eeprom b;
  Ok (wdt_on b).

Definition sysExCmdPullConfig (length : Z) (buffer : list Z) b : res (board W) :=
  if 0 <? length then
    b0 ← rd buffer 0;
    if b0 =? 0 then send_config_data b else Ok b
  else Ok b.

(** ** System commands *)

Definition factory_reset b : res (board W) :=
  '(g, c, d) ← eeprom_factory_reset b.(cols) b.(rom);
  Ok (set_sets g (set_cols c (set_rom d b))).

Definition set_leds (new_state color : Z) b : board W :=
  set_regs (led_set_state new_state color (regs b)) b.

Definition sysExCmdSystem (length : Z) (buffer : list Z) b : res (board W) :=
  if length =? 0 then Ok b
  else
    c ← rd buffer 0;
    if c =? 1 then
      let b := wdt_off b in
      '(r, _) ← led_set_state_dfu after (regs b);
      Jump_To_Bootloader r
    else if c =? 2 then
      let b := wdt_off b in
      b ← factory_reset b;
      let b := set_leds 65535 16777215 b in
      let b := set_leds 0 16777215 b in
      let b := set_leds 65535 16777215 b in
      b ← send_config_data b;
      Ok (wdt_on b)
    else Ok b.

(** ** Bulk transfer of the colours *)

(** The copy loop of a push; the two-dimensional arrays are flat in memory. *)
Definition copy_colors (buffer : list Z) (bank offset size : Z) (l : list Z) : res (list Z) :=
  for_up (Z.to_nat size) 0 (fun idx l =>
    v ← rd buffer (5 + idx);
    wr l (192 * bank + offset + idx) (u8 (v * 2))) l.

Definition bulk_push (length tag : Z) (buffer : list Z) b : res (board W) :=
  if 5 <? length then
    if tag =? 0 then Ok b
    else
      part ← rd buffer 2;
      if part =? 0 then Ok b
      else
        _total ← rd buffer 3;
        size ← rd buffer 4;
        if length - 5 <? size then Ok b
        else if 16 <? part then Ok b
        else
          let bank := Z.shiftr (part - 1) 3 in
          let offset := u8 (Z.land (part - 1) 7 * 24) in
          if tag =? 1 then
            l ← copy_colors buffer bank offset size b.(cols).(default_bank_inactive);
            c ← adjust_inactive_bank_leds_for_power bank offset size
                  (set_default_bank_inactive l b.(cols));
            Ok (set_cols c b)
          else if tag =? 2 then
            l ← copy_colors buffer bank offset size b.(cols).(default_bank_active);
            c ← adjust_active_bank_leds_for_power bank offset size
                  (set_default_bank_active l b.(cols));
            Ok (set_cols c b)
          else Ok b
  else Ok b.

Definition scale_color (c : Z) : Z :=
  u8 (u16 (c * DISPLAY_SCALING_COLOR_OUT_MAX_VALUE) / DISPLAY_SCALING_COLOR_IN_MAX_VALUE).

(** The bytes 10.. of a part's payload: [size] colours from [index] on. *)
Definition part_colors (source : list Z) (index size : Z) : res (list Z) :=
  for_up (Z.to_nat size) 0 (fun idx out =>
    c ← rd source (index + idx);
    Ok (out ++ [scale_color c])) [].

Definition bulk_part (tag part total size : Z) (colors : list Z) : list Z :=
  [240; 0; Z.shiftr MANUFACTURER_ID 8; Z.land MANUFACTURER_ID 127;
   SYSEX_COMMAND_BULK_XFER; 0; tag; u8 part; u8 total; u8 size] ++ colors ++ [247].

Definition bulk_pull (tag : Z) (source : list Z) b : res (board W) :=
  let total := NUM_BANKS * NUM_BUTTONS * 3 / 24 in
  '(b, _, _) ← for_up (Z.to_nat total) 1 (fun part '(b, bytes_remaining, index) =>
    let size := if 24 <? bytes_remaining then 24 else bytes_remaining in
    let bytes_remaining := u16 (bytes_remaining - 24) in
    colors ← part_colors source index size;
    b ← midi_stream_sysex (11 + size) (bulk_part tag part total size colors) b;
    let b := MIDI_Device_Flush b in
    Ok (b, bytes_remaining, u16 (index + size)))
    (b, NUM_BANKS * NUM_BUTTONS * 3, 0);
  Ok b.

Definition sysExCmdBulkXfer (length : Z) (buffer : list Z) b : res (board W) :=
  if 2 <? length then
    command ← rd buffer 0;
    tag ← rd buffer 1;
    if command =? 0 then bulk_push length tag buffer b
    else if command =? 1 then
      if tag =? 1 then bulk_pull tag b.(cols).(default_bank_inactive) b
      else if tag =? 2 then bulk_pull tag b.(cols).(default_bank_active) b
      else Ok b
    else Ok b
  else Ok b.

(** ** Installation *)

Definition call (fn : SysExFn) (length : Z) (buffer : list Z) b : res (board W) :=
  match fn with
  | PushConfig => sysExCmdPushConfig length buffer b
  | PullConfig => sysExCmdPullConfig length buffer b
  | System => sysExCmdSystem length buffer b
  | BulkXfer => sysExCmdBulkXfer length buffer b
  end.

Definition config_setup (s : sysex_globals) : sysex_globals :=
  let s := sysex_install_ SYSEX_COMMAND_PUSH_CONF PushConfig s in
  let s := sysex_install_ SYSEX_COMMAND_PULL_CONF PullConfig s in
  let s := sysex_install_ SYSEX_COMMAND_SYSTEM System s in
  sysex_install_ SYSEX_COMMAND_BULK_XFER BulkXfer s.

End config.
(** ** Lemmas on settings *)

(** Decoding ends within its fuel and stays inside both arrays. *)
Lemma tv_decode_loop_total fuel : forall idx size buffer table,
  length table = 24%nat -> Forall is_u8 buffer -> 0 <= idx -> idx <= 256 -> size <= 255 ->
  size <= Z.of_nat (length buffer) -> size - idx <= 2 * Z.of_nat fuel ->
  exists table', tv_decode_loop fuel idx size buffer table = Ok table' /\
    length table' = 24%nat.
Proof.
  induction fuel as [|fuel IH]; intros idx size buffer table Ht Hb Hi Hi' Hs Hl Hf;
    cbn [tv_decode_loop].
  - destruct (Z.ltb_spec idx (size - 1)); [lia|]. by exists table.
  - destruct (Z.ltb_spec idx (size - 1)); [|by exists table].
    destruct (rd_in_range buffer idx) as [tag Htag]; [lia|]. rewrite Htag. cbn [mbind res_bind].
    rewrite (u8_small (idx + 1)), (u8_small (idx + 1 + 1)) by lia. replace (idx + 1 + 1) with (idx + 2) by lia.
    destruct (rd_in_range buffer (idx + 1)) as [v Hv]; [lia|]. rewrite Hv. cbn [mbind res_bind].
    assert (Hu : is_u8 tag).
    { apply rd_ok in Htag as [_ Htag]. by eapply Forall_lookup_1 in Hb. }
    unfold is_u8 in Hu. destruct (Z.ltb_spec tag TV_TABLE_SIZE) as [Ht24|Ht24];
      unfold TV_TABLE_SIZE in Ht24.
    + rewrite wr_in_range by lia. cbn [mbind res_bind].
      apply IH; try done; try lia. by rewrite length_insert.
    + cbn [mbind res_bind]. apply IH; done || lia.
Qed.

Lemma tv_decode_total size buffer :
  Forall is_u8 buffer -> 0 <= size <= 255 -> size <= Z.of_nat (length buffer) ->
  exists table, tv_table_decode empty_table buffer size = Ok table /\ length table = 24%nat.
Proof. intros Hb Hs Hl. apply tv_decode_loop_total; try done; lia. Qed.

Section settings.
Context {W : Type} `{MidiOut W}.
Implicit Types b : board W.

Lemma send_config_link b :
  send_config_data b = Ok (set_link (send_all (sysex_packets true (config_payload b.(sets))) b.(link)) b).
Proof.
  unfold send_config_data. rewrite <-(app_nil_r (config_payload b.(sets))) at 2. rewrite stream_sysex_ok by done.
  by rewrite send_all_board.
Qed.

(** The side-bank rule of a push: turning the side buttons off selects bank 1. *)
Definition bank_after_push (old new bank : Z) : Z :=
  if negb (new =? old) && (new =? 0) then 0 else bank.

(** Saving and loading the board's settings and colours. *)
Lemma save_and_setup_board b st :
  board_wf b -> eeprom_read EE_EEPROM_VERSION b.(rom) = Ok EEPROM_LAYOUT ->
  eeprom_read EE_FIRST_BOOT_CHECK b.(rom) = Ok st ->
  exists d, nvm_wf d /\ save_edits b = Ok (set_rom d b) /\
    (forall g0 c0 r, banks_wf c0 ->
       eeprom_setup g0 c0 (mk_nvm d.(mem) r) =
       Ok (with_self_test st b.(sets), b.(cols), mk_nvm d.(mem) r)) /\
    forall w, setup_eeprom (set_link w (set_rom d b)) =
      Ok (set_link w (set_sets (with_self_test st b.(sets)) (set_rom d b))).
Proof.
  intros Hb Hv Hst. destruct (save_then_setup b.(sets) b.(cols) b.(rom) st) as (d & E & Hload & _);
    [apply Hb|apply Hb|done|done|].
  destruct (save_edits_spec b.(sets) b.(cols) b.(rom)) as (d' & E' & Hd' & _);
    [apply Hb|apply Hb|]. rewrite E in E'. injection E' as <-.
  exists d. split; [done|]. unfold save_edits, setup_eeprom. rewrite E. split; [done|].
  split; [done|]. intros w. cbn [sets cols rom set_link set_rom].
  specialize (Hload b.(sets) b.(cols) d.(cpu)). replace (mk_nvm d.(mem) d.(cpu)) with d in Hload
    by (by destruct d). rewrite Hload by apply Hb. done.
Qed.

Lemma side_bank_step new old b :
  board_wf b ->
  exists s, (if negb (new =? old) then if new =? 0 then change_bank 0 b else Ok b else Ok b)
      = Ok (set_scr s b) /\ board_wf (set_scr s b) /\
    s.(sc_midi).(g_bank_selected) = bank_after_push old new (midi b).(g_bank_selected).
Proof.
  intros Hb. unfold bank_after_push.
  destruct (negb (new =? old)), (new =? 0); cbn [andb];
    try (exists b.(scr); destruct b; done).
  destruct (change_bank_ok 0 b Hb) as (a & g & -> & Hb'); [lia|]. by eexists.
Qed.

End settings.
Section push.
Context {W : Type} `{MidiOut W}.
Implicit Types b : board W.

(** What a push of settings does, step by step. *)
Lemma push_config_ok len buffer b st :
  board_wf b -> 0 <= len <= 255 -> len <= Z.of_nat (length buffer) -> Forall is_u8 buffer ->
  eeprom_read EE_EEPROM_VERSION b.(rom) = Ok EEPROM_LAYOUT ->
  eeprom_read EE_FIRST_BOOT_CHECK b.(rom) = Ok st ->
  exists config b', tv_table_decode empty_table buffer len = Ok config /\
    sysExCmdPushConfig len buffer b = Ok b' /\ board_wf b' /\
    b'.(sets) = with_self_test st (pushed_settings config b.(sets)) /\
    b'.(cols) = b.(cols) /\
    midi_stream_sysex 45 (config_payload (pushed_settings config b.(sets))) b.(link) = Ok b'.(link) /\
    (regs b').(WDT) = Some WDTO_2S /\
    (midi b').(g_bank_selected) =
      bank_after_push b.(sets).(G_EE_SIDE_BANK) (tbl config 23) (midi b).(g_bank_selected) /\
    (forall g0 c0 r, banks_wf c0 ->
       eeprom_setup g0 c0 (mk_nvm b'.(rom).(mem) r) =
       Ok (b'.(sets), b'.(cols), mk_nvm b'.(rom).(mem) r)).
Proof.
  intros Hb Hlen Hbuf Hu Hv Hst.
  destruct (tv_decode_total len buffer Hu Hlen Hbuf) as (config & E & _).
  unfold sysExCmdPushConfig. rewrite E. cbn [mbind res_bind]. exists config.
  set (b1 := set_sets (pushed_settings config (wdt_off b).(sets)) (wdt_off b)).
  assert (Hb1 : board_wf b1) by (by destruct Hb; split).
  destruct (side_bank_step b1.(sets).(G_EE_SIDE_BANK) b.(sets).(G_EE_SIDE_BANK) b1 Hb1)
    as (s & -> & Hb2 & Hbank). cbn [mbind res_bind].
  destruct (start_animation_ok 0 GEOMETRIC_ANIMATION_TYPE_TRIANGLE _ Hb2) as (a & g & -> & Hb3); [lia|].
  cbn [mbind res_bind].
  set (b3 := set_scr (set_sc_led g _) _) in *.
  destruct (save_and_setup_board b3 st Hb3) as (d & Hd & -> & Hload & Hset); [done|done|].
  rewrite bind_Ok, send_config_link, bind_Ok, Hset, bind_Ok.
  replace (config_payload (set_rom d b3).(sets))
    with (config_payload (pushed_settings config b.(sets))) by reflexivity.
  assert (Hms : forall w : W, midi_stream_sysex 45 (config_payload (pushed_settings config b.(sets))) w =
    Ok (send_all (sysex_packets true (config_payload (pushed_settings config b.(sets)))) w)).
  { intros w. rewrite <-(app_nil_r (config_payload _)) at 1. by apply stream_sysex_ok. }
  revert Hms. generalize (config_payload (pushed_settings config b.(sets))); intros payload Hms.
  eexists. split; [done|]. split; [done|]. split.
  { destruct Hb3. by split. }
  do 2 (split; [done|]). split; [apply Hms|]. split; [done|]. split; [exact Hbank|exact Hload].
Qed.

End push.
(** *** Round trip of the settings *)

(** The tag/value pairs of a reply, as a host sends them back. *)
Definition config_tags (g : settings) : list Z := take 38 (drop 6 (config_payload g)).

Definition settings_bytes (g : settings) : list Z :=
  [g.(G_EE_MIDI_CHANNEL); g.(G_EE_MIDI_VELOCITY); g.(G_EE_COMBOS_ENABLE);
   g.(G_EE_MIDI_OUTPUT_MODE); g.(G_EE_FOUR_BANKS_MODE); g.(G_EE_TILT_MODE); g.(G_EE_TILT_MASK);
   g.(G_EE_ANIMATIONS); g.(G_EE_TILT_SENSITIVITY); g.(G_EE_PITCH_SENSITIVITY);
   g.(G_EE_TILT_RANGE); g.(G_EE_PITCH_RANGE); g.(G_EE_TILT_DEADZONE); g.(G_EE_PITCH_DEADZONE);
   g.(G_EE_TILT_AXIS); g.(G_EE_SIDE_BANK); g.(G_EE_PICK_SENSITIVITY); g.(G_EE_SLEEP_TIME)].

(** Settings that are bytes, as those of the EEPROM are. *)
Definition byte_settings (g : settings) : Prop := Forall is_u8 (settings_bytes g).

(** The settings of [g] on a device that had [g0]: the self-test byte and the two
    pitch settings cannot be pushed, and bits 2 and 3 of the tilt mask are not in a reply. *)
Definition merged (g g0 : settings) : settings :=
  mk_settings g0.(g_self_test_passed) g.(G_EE_MIDI_CHANNEL) g.(G_EE_MIDI_VELOCITY)
    g.(G_EE_COMBOS_ENABLE) g.(G_EE_MIDI_OUTPUT_MODE) g.(G_EE_FOUR_BANKS_MODE)
    g.(G_EE_TILT_MODE) (Z.land g.(G_EE_TILT_MASK) 243) g.(G_EE_ANIMATIONS) g.(G_EE_TILT_SENSITIVITY)
    g0.(G_EE_PITCH_SENSITIVITY) g.(G_EE_TILT_RANGE) g.(G_EE_PITCH_RANGE)
    g.(G_EE_TILT_DEADZONE) g0.(G_EE_PITCH_DEADZONE) g.(G_EE_TILT_AXIS) g.(G_EE_SIDE_BANK)
    g.(G_EE_PICK_SENSITIVITY) g.(G_EE_SLEEP_TIME).

Lemma decode_pairs x0 x1 x2 x3 x4 x5 x6 x7 x8 x9 x10 x11 x12 x13 x14 x15 x16 x17 x18 rest :
  tv_table_decode empty_table
    ([0; x0; 1; x1; 3; x2; 7; x3; 8; x4; 10; x5; 11; x6; 12; x7; 13; x8; 14; x9; 15; x10;
      16; x11; 17; x12; 18; x13; 19; x14; 20; x15; 21; x16; 22; x17; 23; x18] ++ 247 :: rest) 39 =
  Ok [x0; x1; 0; x2; 0; 0; 0; x3; x4; 0; x5; x6; x7; x8; x9; x10; x11; x12; x13; x14; x15; x16;
      x17; x18].
Proof. vm_compute. reflexivity. Qed.

Lemma tilt_mask_roundtrip m :
  is_u8 m -> u8 (Z.lor (Z.shiftl (Z.land (Z.shiftr m 4) 15) 4) (Z.land m 3)) = Z.land m 243.
Proof.
  unfold is_u8. intros Hm.
  set (p := fun m => u8 (Z.lor (Z.shiftl (Z.land (Z.shiftr m 4) 15) 4) (Z.land m 3)) =? Z.land m 243).
  assert (Hp : p m = true) by by_range 0 256 m p. by apply Z.eqb_eq.
Qed.

Lemma u8_pred_succ x : is_u8 x -> u8 (u8 (x + 1) - 1) = x.
Proof. unfold is_u8, u8. intros Hx. rewrite Zminus_mod_idemp_l, Z.mod_small; lia. Qed.
Lemma u8_succ_pred x : is_u8 x -> u8 (u8 (x - 1) + 1) = x.
Proof. unfold is_u8, u8. intros Hx. rewrite Zplus_mod_idemp_l, Z.mod_small; lia. Qed.

Lemma decode_config g g0 rest :
  byte_settings g ->
  exists config, tv_table_decode empty_table (config_tags g ++ 247 :: rest) 39 = Ok config /\
    pushed_settings config g0 = merged g g0 /\ tbl config 23 = g.(G_EE_SIDE_BANK).
Proof.
  intros Hu. unfold byte_settings in Hu. eexists. split; [apply decode_pairs|].
  unfold pushed_settings, merged, tbl. cbn [nth Z.to_nat]. 
  repeat (apply Forall_cons_1 in Hu as [? Hu]).
  split; [|reflexivity].
  f_equal; [by apply u8_pred_succ|by apply u8_succ_pred|by apply tilt_mask_roundtrip].
Qed.

Lemma config_tags_bytes g : byte_settings g -> Forall is_u8 (config_tags g ++ [247]).
Proof.
  intros Hu. unfold byte_settings in Hu. repeat (apply Forall_cons_1 in Hu as [? Hu]).
  assert (Hrot : forall x, 0 <= Z.land x 3 < 256)
    by (intros x; pose proof (land_range x 3 2 ltac:(lia) eq_refl); lia).
  assert (Htilt : forall x, 0 <= Z.land x 15 < 256)
    by (intros x; pose proof (land_range x 15 4 ltac:(lia) eq_refl); lia).
  unfold config_tags, config_payload. cbn [take drop app].
  repeat (apply Forall_cons_2;
    [first [done|unfold is_u8; lia|apply u8_range|apply Hrot|apply Htilt]|]). constructor.
Qed.
(** ** Lemmas on the colour transfer *)

(** Copying one part. *)
Lemma copy_colors_spec buffer base offset size l :
  0 <= 192 * base + offset -> 0 <= size -> 5 + size <= Z.of_nat (length buffer) ->
  192 * base + offset + size <= Z.of_nat (length l) ->
  exists l', copy_colors buffer base offset size l = Ok l' /\ length l' = length l /\
    forall j, rd l' j =
      if (192 * base + offset <=? j) && (j <? 192 * base + offset + size)
      then (fun v => u8 (v * 2)) <$> rd buffer (5 + (j - (192 * base + offset)))
      else rd l j.
Proof.
  set (o := 192 * base + offset). intros Ho Hs Hb Hl. unfold copy_colors. fold o.
  destruct (for_up_inv (fun k l' => length l' = length l /\ forall j, rd l' j =
      if (o <=? j) && (j <? o + k)
      then (fun v => u8 (v * 2)) <$> rd buffer (5 + (j - o)) else rd l j)
    (fun idx l => v ← rd buffer (5 + idx); wr l (o + idx) (u8 (v * 2)))
    (Z.to_nat size) 0 l) as (l' & E & Hl' & Hrd).
  - split; [done|]. intros j. by replace ((o <=? j) && (j <? o + 0)) with false by lia.
  - intros k l1 Hk [Hl1 Hrd1]. destruct (rd_in_range buffer (5 + k)) as [v Hv]; [lia|].
    rewrite Hv. cbn [mbind res_bind].
    assert (Hw := wr_in_range l1 (o + k) (u8 (v * 2)) ltac:(lia)). rewrite Hw.
    eexists. split; [done|]. split; [by rewrite length_insert|]. intros j.
    destruct (Z.eqb_spec j (o + k)) as [->|Hne].
    + rewrite (rd_wr_eq _ _ _ _ Hw). replace ((o <=? o + k) && (o + k <? o + (k + 1))) with true by lia.
      replace (5 + (o + k - o)) with (5 + k) by lia. by rewrite Hv.
    + rewrite (rd_wr_ne _ _ _ _ _ Hw) by lia. rewrite Hrd1.
      by replace (j <? o + (k + 1)) with (j <? o + k) by lia.
  - exists l'. rewrite E. split; [done|]. split; [done|].
    by replace (0 + Z.of_nat (Z.to_nat size)) with size in Hrd by lia.
Qed.

(** The array a transfer tag names. *)
Definition bank_array (tag : Z) (c : banks) : list Z :=
  if tag =? 1 then c.(default_bank_inactive) else c.(default_bank_active).
Definition set_bank_array (tag : Z) (l : list Z) (c : banks) : banks :=
  if tag =? 1 then set_default_bank_inactive l c else set_default_bank_active l c.

(** The colour a part of a push gives, and the colour a pull sends. *)
Definition doubled (v : Z * Z * Z) : Z * Z * Z :=
  let '(r, g, b) := v in (u8 (r * 2), u8 (g * 2), u8 (b * 2)).
Definition scaled_color (v : Z * Z * Z) : Z * Z * Z :=
  let '(r, g, b) := v in (scale_color r, scale_color g, scale_color b).

(** The place of a part in the flat array. *)
Lemma part_place part :
  1 <= part <= 16 ->
  192 * Z.shiftr (part - 1) 3 + u8 (Z.land (part - 1) 7 * 24) = 24 * (part - 1) /\
  0 <= Z.shiftr (part - 1) 3 < 2 /\ 0 <= u8 (Z.land (part - 1) 7 * 24) <= 168.
Proof.
  intros Hp. set (q := fun part =>
    (192 * Z.shiftr (part - 1) 3 + u8 (Z.land (part - 1) 7 * 24) =? 24 * (part - 1)) &&
    (0 <=? Z.shiftr (part - 1) 3) && (Z.shiftr (part - 1) 3 <? 2) &&
    (0 <=? u8 (Z.land (part - 1) 7 * 24)) && (u8 (Z.land (part - 1) 7 * 24) <=? 168)).
  assert (Hq : q part = true) by by_range 1 17 part q.
  unfold q in Hq. lia.
Qed.

(** [copy_colors] and the power adjustment together, for [n] colours. *)
Lemma store_part buffer part n l :
  1 <= part <= 16 -> (n <= 8)%nat -> 5 + 3 * Z.of_nat n <= Z.of_nat (length buffer) ->
  length l = 384%nat ->
  exists l1 l2,
    let bank := Z.shiftr (part - 1) 3 in
    let offset := u8 (Z.land (part - 1) 7 * 24) in
    copy_colors buffer bank offset (3 * Z.of_nat n) l = Ok l1 /\ length l1 = 384%nat /\
    adjust_loop adjust_fuel bank (offset + 3 * Z.of_nat n) offset l1 = Ok l2 /\
    length l2 = 384%nat /\
    (forall k, 0 <= k < Z.of_nat n ->
       color_at l2 (24 * (part - 1) + 3 * k) =
       (fun v => adjusted (doubled v)) <$> color_at buffer (5 + 3 * k)) /\
    (forall j, j < 24 * (part - 1) \/ 24 * (part - 1) + 3 * Z.of_nat n <= j -> rd l2 j = rd l j).
Proof.
  intros Hp Hn Hb Hl. destruct (part_place part Hp) as (Hpl & Hbank & Hoff). cbv zeta.
  set (bank := Z.shiftr (part - 1) 3) in *. set (offset := u8 (Z.land (part - 1) 7 * 24)) in *.
  destruct (copy_colors_spec buffer bank offset (3 * Z.of_nat n) l) as (l1 & E1 & Hl1 & Hrd1);
    [lia|lia|lia|lia|].
  destruct (adjust_loop_spec n adjust_fuel bank (offset + 3 * Z.of_nat n) offset l1)
    as (l2 & E2 & Hl2 & Hc2 & Ho2); [unfold adjust_fuel; lia|lia|lia|lia|lia|lia|].
  exists l1, l2. split; [done|]. split; [lia|]. split; [done|]. split; [lia|]. split.
  - intros k Hk. replace (24 * (part - 1) + 3 * k) with (192 * bank + offset + 3 * k) by lia.
    rewrite Hc2 by lia. unfold color_at. rewrite !Hrd1.
    rewrite !(proj2 (Z.leb_le _ _)), !(proj2 (Z.ltb_lt _ _)) by lia. cbn [andb].
    replace (5 + (192 * bank + offset + 3 * k - (192 * bank + offset))) with (5 + 3 * k) by lia.
    replace (5 + (192 * bank + offset + 3 * k + 1 - (192 * bank + offset))) with (5 + 3 * k + 1) by lia.
    replace (5 + (192 * bank + offset + 3 * k + 2 - (192 * bank + offset))) with (5 + 3 * k + 2) by lia.
    destruct (rd buffer (5 + 3 * k)) as [x|]; [|done].
    destruct (rd buffer (5 + 3 * k + 1)) as [y|]; [|done].
    by destruct (rd buffer (5 + 3 * k + 2)).
  - intros j Hj. rewrite Ho2 by lia. rewrite Hrd1.
    by replace ((192 * bank + offset <=? j) && _) with false by lia.
Qed.
Section transfer.
Context {W : Type} `{MidiOut W}.
Variable after : Z.
Implicit Types b : board W.

(** A push of [n] colours. *)
Lemma push_part_ok len tag part total n data b :
  board_wf b -> tag = 1 \/ tag = 2 -> 1 <= part <= 16 -> (n <= 8)%nat ->
  5 < len -> 3 * Z.of_nat n <= len - 5 -> 3 * Z.of_nat n <= Z.of_nat (length data) ->
  exists l, sysExCmdBulkXfer len (0 :: tag :: part :: total :: 3 * Z.of_nat n :: data) b =
      Ok (set_cols (set_bank_array tag l b.(cols)) b) /\ length l = 384%nat /\
    (forall k, 0 <= k < Z.of_nat n -> color_at l (24 * (part - 1) + 3 * k) =
       (fun v => adjusted (doubled v)) <$> color_at data (3 * k)) /\
    (forall j, j < 24 * (part - 1) \/ 24 * (part - 1) + 3 * Z.of_nat n <= j ->
       rd l j = rd (bank_array tag b.(cols)) j).
Proof.
  intros Hb Htag Hp Hn Hlen Hsz Hdata.
  set (buffer := 0 :: tag :: part :: total :: 3 * Z.of_nat n :: data).
  assert (Hl : length (bank_array tag b.(cols)) = 384%nat).
  { unfold bank_array. destruct Hb as [[] _ _ _ _]. by destruct (tag =? 1). }
  destruct (store_part buffer part n (bank_array tag b.(cols)) Hp Hn) as
    (l1 & l2 & E1 & Hl1 & E2 & Hl2 & Hc & Ho); [cbn [length buffer]; lia|done|].
  exists l2. split.
  - unfold sysExCmdBulkXfer. replace (2 <? len) with true by lia.
    change (rd buffer 0) with (Ok (A := Z) 0). change (rd buffer 1) with (Ok (A := Z) tag).
    rewrite !bind_Ok. change (0 =? 0) with true. unfold bulk_push.
    replace (5 <? len) with true by lia. replace (tag =? 0) with false by lia.
    change (rd buffer 2) with (Ok (A := Z) part).
    change (rd buffer 3) with (Ok (A := Z) total).
    change (rd buffer 4) with (Ok (A := Z) (3 * Z.of_nat n)). rewrite !bind_Ok.
    replace (part =? 0) with false by lia. replace (len - 5 <? 3 * Z.of_nat n) with false by lia.
    replace (16 <? part) with false by lia. cbv zeta in E1, E2 |- *.
    unfold adjust_inactive_bank_leds_for_power, adjust_active_bank_leds_for_power.
    destruct Htag as [->| ->]; change (bank_array _ _) with (b.(cols).(default_bank_inactive)) in E1
      || change (bank_array _ _) with (b.(cols).(default_bank_active)) in E1; cbn [Z.eqb];
      [change (1 =? 1) with true|change (2 =? 1) with false; change (2 =? 2) with true];
      cbv iota; rewrite E1, bind_Ok; cbn [default_bank_inactive default_bank_active
        set_default_bank_inactive set_default_bank_active]; rewrite E2; done.
  - split; [done|]. split; [|done]. intros k Hk. rewrite Hc by done. f_equal.
    unfold color_at, buffer. 
    assert (Hrd : forall i, 0 <= i -> rd (0 :: tag :: part :: total :: 3 * Z.of_nat n :: data) (5 + i)
                     = rd data i).
    { intros i Hi. unfold rd. replace (0 <=? 5 + i) with true by lia.
      replace (0 <=? i) with true by lia. rewrite Z2Nat.inj_add by lia. done. }
    rewrite <-!Z.add_assoc, !Hrd by lia. done.
Qed.

(** The packets of one part of a pull. *)
Definition part_packets (tag : Z) (source : list Z) (i : nat) : list packet :=
  sysex_packets true (bulk_part tag (Z.of_nat i + 1) 16 24
    (map scale_color (take 24 (drop (24 * i) source)))).

Lemma part_colors_ok source index size :
  0 <= index -> 0 <= size -> index + size <= Z.of_nat (length source) ->
  part_colors source index size =
  Ok (map scale_color (take (Z.to_nat size) (drop (Z.to_nat index) source))).
Proof.
  intros Hi Hs Hl. unfold part_colors.
  destruct (for_up_inv (fun k out =>
      out = map scale_color (take (Z.to_nat k) (drop (Z.to_nat index) source)))
    (fun idx out => c ← rd source (index + idx); Ok (out ++ [scale_color c]))
    (Z.to_nat size) 0 []) as (out & -> & ->).
  - done.
  - intros k out Hk ->. destruct (rd_in_range source (index + k)) as [c Hc]; [lia|].
    rewrite Hc, bind_Ok. eexists. split; [done|].
    apply rd_ok in Hc as [_ Hc].
    replace (Z.to_nat (k + 1)) with (S (Z.to_nat k)) by lia.
    rewrite (take_S_r _ _ c); [by rewrite map_app|].
    rewrite lookup_drop. by replace (Z.to_nat index + Z.to_nat k)%nat with (Z.to_nat (index + k)) by lia.
  - by replace (0 + Z.of_nat (Z.to_nat size)) with size by lia.
Qed.

Lemma scale_color_u8 c : is_u8 (scale_color c).
Proof. apply u8_range. Qed.

Lemma part_message_ok `{MidiOut W} tag source n (w : W) :
  (24 * (n + 1) <= length source)%nat ->
  midi_stream_sysex (11 + 24) (bulk_part tag (Z.of_nat n + 1) 16 24 (map scale_color (take 24 (drop (24 * n) source)))) w
  = Ok (send_all (part_packets tag source n) w).
Proof.
  intros Hl. rewrite <-(app_nil_r (bulk_part _ _ _ _ _)). apply stream_sysex_ok.
  unfold bulk_part. rewrite !length_app, length_map, length_take, length_drop. cbn [length].
  replace (24 `min` _)%nat with 24%nat by lia. done.
Qed.

Lemma part_packets_wf tag source i :
  is_u8 tag -> Forall packet_wf (part_packets tag source i).
Proof.
  intros Ht. apply sysex_packets_wf. unfold bulk_part.
  apply Forall_app_2; [|apply Forall_app_2].
  - repeat (apply Forall_cons_2; [first [done|apply u8_range|by vm_compute]|]). constructor.
  - apply Forall_fmap, Forall_true. intros c. apply scale_color_u8.
  - by repeat constructor.
Qed.
End transfer.
Section pull.
Context {W : Type} `{MidiOut W} `{!MidiOutLaws W}.
Variable after : Z.
Implicit Types b : board W.

(** The messages of a pull. *)
Lemma bulk_pull_ok tag source b :
  is_u8 tag -> length source = 384%nat -> link_up b.(link) ->
  exists w, bulk_pull tag source b = Ok (set_link w b) /\ link_up w /\
    sent w = sent b.(link) ++ concat (map (part_packets tag source) (seq 0 16)).
Proof.
  intros Ht Hl Hup. unfold bulk_pull.
  change (NUM_BANKS * NUM_BUTTONS * 3 / 24) with 16.
  change (NUM_BANKS * NUM_BUTTONS * 3) with 384. change (Z.to_nat 16) with 16%nat.
  match goal with |- context [for_up 16 1 ?f ?s] =>
    destruct (for_up_inv (fun p '(b', rem, index) => exists w n, p = Z.of_nat n + 1 /\
      b' = set_link w b /\ link_up w /\ rem = 384 - 24 * Z.of_nat n /\ index = 24 * Z.of_nat n /\
      sent w = sent b.(link) ++ concat (map (part_packets tag source) (seq 0 n))) f 16 1 s)
      as ([[b' rem] index] & -> & w & n & Hn & -> & Hw & _ & _ & Hsent) end.
  - exists b.(link), 0%nat. cbn. rewrite app_nil_r. by destruct b.
  - intros p [[b' rem] index] Hp (w & n & -> & -> & Hw & -> & -> & Hsent).
    assert (Hn : (n < 16)%nat) by lia.
    replace (if 24 <? 384 - 24 * Z.of_nat n then 24 else 384 - 24 * Z.of_nat n) with 24
      by (destruct (Z.ltb_spec 24 (384 - 24 * Z.of_nat n)); lia).
    rewrite part_colors_ok, bind_Ok by lia. change (Z.to_nat 24) with 24%nat.
    replace (Z.to_nat (24 * Z.of_nat n)) with (24 * n)%nat by lia.
    rewrite part_message_ok, bind_Ok by lia.
    eexists. split; [done|].
    destruct (send_all_spec (part_packets tag source n) w) as [Hup1 Hs1];
      [done|by apply part_packets_wf|].
    exists (MIDI_Device_Flush (send_all (part_packets tag source n) w)), (S n).
    split; [lia|]. split; [by rewrite send_all_board|].
    split; [by apply flush_link_up|]. split; [rewrite u16_small; lia|].
    split; [rewrite u16_small; lia|].
    rewrite flush_sent, Hs1, Hsent by done. rewrite seq_S, map_app, concat_app. cbn.
    by rewrite app_nil_r, <-app_assoc.
  - exists w. rewrite bind_Ok. split; [done|]. split; [done|].
    by replace 16%nat with n by lia.
Qed.

Lemma events_app (ps qs : list packet) ch s b :
  sysex_events (call after) ch (ps ++ qs) s b =
  ('(s, b) ← sysex_events (call after) ch ps s b; sysex_events (call after) ch qs s b).
Proof.
  revert s b. induction ps as [|p ps IH]; intros s b; cbn [app]; [done|].
  rewrite !events_cons. destruct (sysex_event (call after) ch p s b) as [[s' b']|]; [|done].
  rewrite !bind_Ok. apply IH.
Qed.

(** Every colour of an array is one of the palette. *)
Definition palette_array (l : list Z) : Prop :=
  forall k, 0 <= k < 128 -> exists id, 0 <= id < 20 /\ color_at l (3 * k) = Ok (palette id).

Lemma palette_stable id :
  0 <= id < 20 -> adjusted (doubled (scaled_color (palette id))) = palette id.
Proof.
  intros Hid. set (p := fun id =>
    bool_decide (adjusted (doubled (scaled_color (palette id))) = palette id)).
  assert (Hp : p id = true) by by_range 0 20 id p. by apply bool_decide_eq_true in Hp.
Qed.

(** A colour inside the payload of part [i]. *)
Lemma part_color source i k rest :
  length source = 384%nat -> (i < 16)%nat -> 0 <= k < 8 ->
  color_at (map scale_color (take 24 (drop (24 * i) source)) ++ rest) (3 * k) =
  scaled_color <$> color_at source (24 * Z.of_nat i + 3 * k).
Proof.
  intros Hl Hi Hk.
  assert (Hrd : forall j, 0 <= j < 24 ->
    rd (map scale_color (take 24 (drop (24 * i) source)) ++ rest) j =
    scale_color <$> rd source (24 * Z.of_nat i + j)).
  { intros j Hj. unfold rd. replace (0 <=? j) with true by lia.
    replace (0 <=? 24 * Z.of_nat i + j) with true by lia.
    rewrite lookup_app_l by (rewrite length_map, length_take, length_drop; lia).
    change (map scale_color) with (fmap (M := list) scale_color).
    rewrite list_lookup_fmap, lookup_take_lt, lookup_drop by lia.
    replace (24 * i + Z.to_nat j)%nat with (Z.to_nat (24 * Z.of_nat i + j)) by lia.
    by destruct (source !! Z.to_nat (24 * Z.of_nat i + j)). }
  unfold color_at. rewrite !Hrd by lia. rewrite !Z.add_assoc.
  destruct (rd source (24 * Z.of_nat i + 3 * k)); [|done].
  destruct (rd source (24 * Z.of_nat i + 3 * k + 1)); [|done].
  by destruct (rd source (24 * Z.of_nat i + 3 * k + 2)).
Qed.

Lemma color_at_inj l l' i rgb :
  color_at l i = Ok rgb -> color_at l' i = Ok rgb ->
  forall j, i <= j < i + 3 -> rd l j = rd l' j.
Proof.
  unfold color_at. intros H1 H2 j Hj. inv_ok.
  assert (Hc : j = i \/ j = i + 1 \/ j = i + 2) by lia.
  simplify_eq.
  destruct Hc as [->|[->| ->]]; congruence.
Qed.
End pull.
Section receive.
Context {W : Type} `{MidiOut W}.
Variable after ch : Z.
Implicit Types b : board W.

(** Receiving one part of another device's pull. *)
Lemma receive_part tag source i s b :
  idle s -> length s.(sysex_buffer) = 64%nat -> command_handler s 4 = Some BulkXfer ->
  board_wf b -> tag = 1 \/ tag = 2 -> length source = 384%nat -> palette_array source ->
  (i < 16)%nat ->
  exists s' l, idle s' /\ length s'.(sysex_buffer) = 64%nat /\
    s'.(sysExCommandMap) = s.(sysExCommandMap) /\
    sysex_events (call after) ch (part_packets tag source i) s b =
      Ok (s', set_cols (set_bank_array tag l b.(cols)) b) /\ length l = 384%nat /\
    forall j, rd l j = if (24 * Z.of_nat i <=? j) && (j <? 24 * Z.of_nat i + 24)
                       then rd source j else rd (bank_array tag b.(cols)) j.
Proof.
  intros Hidle Hbuf Hfn Hb Htag Hsrc Hpal Hi.
  set (colors := map scale_color (take 24 (drop (24 * i) source))).
  assert (Hcl : length colors = 24%nat)
    by (unfold colors; rewrite length_map, length_take, length_drop; lia).
  set (payload := [0; tag; Z.of_nat i + 1; 16; 24] ++ colors).
  destruct (dispatch_djtt (call (W := W) after) ch 4 payload s b BulkXfer)
    as (s' & Hidle' & Hmap & Hbuf' & E); [done..|unfold payload; rewrite length_app, Hcl; cbn [length]; lia|].
  assert (Hp : part_packets tag source i =
               sysex_packets true ([240; 0; 1; 121; 4] ++ payload ++ [247])).
  { unfold part_packets, bulk_part. rewrite (u8_small (Z.of_nat i + 1)) by lia. done. }
  destruct (push_part_ok (Z.of_nat (length payload) + 1) tag (Z.of_nat i + 1) 16 8
    (colors ++ [247] ++ drop (length payload + 2) s.(sysex_buffer)) b)
    as (l & El & Hl & Hc & Ho); [done|done|lia|lia|..].
  1, 2: unfold payload; rewrite length_app, Hcl; cbn [length]; lia.
  { rewrite length_app. lia. }
  exists s', l. do 3 (split; [done|]). split.
  { rewrite Hp, E. unfold call.
    set (rest := drop (length payload + 2) s.(sysex_buffer)) in *.
    change (payload ++ [247] ++ rest) with
      (0 :: tag :: Z.of_nat i + 1 :: 16 :: 3 * Z.of_nat 8 :: (colors ++ [247] ++ rest)).
    by rewrite El. }
  split; [done|]. intros j.
  destruct (Z.leb_spec (24 * Z.of_nat i) j) as [Hj1|Hj1]; [|apply Ho; lia].
  destruct (Z.ltb_spec j (24 * Z.of_nat i + 24)) as [Hj2|Hj2]; [|apply Ho; lia]. cbn [andb].
  set (k := (j - 24 * Z.of_nat i) / 3).
  assert (Hk : 0 <= k < 8)
    by (unfold k; split; [apply Z.div_pos; lia|apply Z.div_lt_upper_bound; lia]).
  assert (Hjk : 24 * Z.of_nat i + 3 * k <= j < 24 * Z.of_nat i + 3 * k + 3).
  { unfold k. pose proof (Z.div_mod (j - 24 * Z.of_nat i) 3).
    pose proof (Z.mod_pos_bound (j - 24 * Z.of_nat i) 3). lia. }
  destruct (Hpal (8 * Z.of_nat i + k)) as (id & Hid & Hcol); [lia|].
  replace (3 * (8 * Z.of_nat i + k)) with (24 * Z.of_nat i + 3 * k) in Hcol by lia.
  apply (color_at_inj _ _ (24 * Z.of_nat i + 3 * k) (palette id)); [|done|done].
  replace (24 * (Z.of_nat i + 1 - 1)) with (24 * Z.of_nat i) in Hc by lia.
  rewrite Hc by lia. unfold colors. rewrite part_color by (done || lia). rewrite Hcol. cbn [fmap res_fmap].
  by rewrite palette_stable.
Qed.

Lemma set_bank_array_wf tag l b :
  board_wf b -> length l = 384%nat -> board_wf (set_cols (set_bank_array tag l b.(cols)) b).
Proof.
  intros [] Hl. split; [|done..]. destruct wf_cols0. unfold set_bank_array.
  by destruct (tag =? 1); split.
Qed.

Lemma bank_array_set tag l c : bank_array tag (set_bank_array tag l c) = l.
Proof. unfold bank_array, set_bank_array. by destruct (tag =? 1). Qed.
Lemma set_bank_array_twice tag l l' c :
  set_bank_array tag l' (set_bank_array tag l c) = set_bank_array tag l' c.
Proof. unfold set_bank_array. by destruct (tag =? 1). Qed.

Lemma receive_parts tag source n s b :
  idle s -> length s.(sysex_buffer) = 64%nat -> command_handler s 4 = Some BulkXfer ->
  board_wf b -> tag = 1 \/ tag = 2 -> length source = 384%nat -> palette_array source ->
  (n <= 16)%nat ->
  exists s' l, idle s' /\ length s'.(sysex_buffer) = 64%nat /\
    s'.(sysExCommandMap) = s.(sysExCommandMap) /\
    sysex_events (call after) ch (concat (map (part_packets tag source) (seq 0 n))) s b =
      Ok (s', set_cols (set_bank_array tag l b.(cols)) b) /\ length l = 384%nat /\
    forall j, rd l j = if (0 <=? j) && (j <? 24 * Z.of_nat n)
                       then rd source j else rd (bank_array tag b.(cols)) j.
Proof.
  intros Hidle Hbuf Hfn Hb Htag Hsrc Hpal. induction n as [|n IH]; intros Hn.
  - exists s, (bank_array tag b.(cols)). do 3 (split; [done|]). split.
    { cbn. unfold set_bank_array, bank_array. destruct b as [? [] ]. by destruct (tag =? 1). }
    split. { unfold bank_array. destruct Hb as [[] _ _ _ _]. by destruct (tag =? 1). }
    intros j. by replace ((0 <=? j) && (j <? 24 * Z.of_nat 0)) with false by lia.
  - destruct IH as (s1 & l1 & Hi1 & Hb1 & Hm1 & E1 & Hl1 & Hrd1); [lia|].
    rewrite seq_S, map_app, concat_app. cbn [map concat Nat.add]. rewrite app_nil_r.
    rewrite events_app, E1, bind_Ok.
    destruct (receive_part tag source n s1 (set_cols (set_bank_array tag l1 b.(cols)) b))
      as (s2 & l2 & Hi2 & Hb2 & Hm2 & E2 & Hl2 & Hrd2); [done|done| |by apply set_bank_array_wf|
      done|done|done|lia|].
    { unfold command_handler in *. by rewrite Hm1. }
    exists s2, l2. do 2 (split; [done|]). split; [by rewrite Hm2|]. split.
    { rewrite E2. cbn [cols set_cols]. by rewrite set_bank_array_twice. }
    split; [done|]. intros j. rewrite Hrd2. cbn [cols set_cols]. rewrite bank_array_set, Hrd1.
    destruct (Z.leb_spec 0 j), (Z.ltb_spec j (24 * Z.of_nat n)), (Z.ltb_spec j (24 * Z.of_nat (S n))),
      (Z.leb_spec (24 * Z.of_nat n) j), (Z.ltb_spec j (24 * Z.of_nat n + 24)); cbn [andb]; done || lia.
Qed.
End receive.
(** The bootloader pattern is sent without a fault. *)
Lemma dfu_ok after r : is_u8 after -> exists out, led_set_state_dfu after r = Ok out.
Proof.
  intros Ha. unfold led_set_state_dfu. set (ram := indicator_states ++ [after]).
  assert (Hu : Forall is_u8 ram) by (repeat (apply Forall_cons_2; [done|]); constructor).
  assert (Hg : forall g r, exists r' out, led_update_pixel_group g ram 0 r = Ok (r', out)).
  { intros g r1. destruct (group_spec g ram indicator_states 0 r1) as (r' & E & _);
      [done|lia|cbn; lia| |by eexists _, _].
    intros j Hj. unfold ram. rewrite <-(rd_tbl indicator_states j) by (cbn; lia).
    unfold rd. replace (0 <=? j) with true by lia. rewrite lookup_app_l by (cbn; lia). done. }
  unfold led_update_pixel_group0, led_update_pixel_group1, led_update_pixel_group2,
    led_update_pixel_group3.
  edestruct (Hg Group0) as (r0 & o0 & ->). cbn [mbind res_bind].
  edestruct (Hg Group1) as (r1 & o1 & ->). cbn [mbind res_bind].
  edestruct (Hg Group2) as (r2 & o2 & ->). cbn [mbind res_bind].
  edestruct (Hg Group3) as (r3 & o3 & ->). cbn [mbind res_bind]. eauto.
Qed.

(** ** Every command is safe *)
(** ** Every command is safe

    Whatever the host sends as a command, the device keeps its invariant or
    restarts into the bootloader, except for a bulk push of more than 24 bytes. *)

(** The commands that do no harm. *)
Definition harmless (a : option (action SysExFn)) : bool :=
  match a with
  | Some (Call BulkXfer _ buffer) => negb ((tbl buffer 0 =? 0) && (24 <? tbl buffer 4))
  | _ => true
  end.

(** A push of any size up to 24 stays inside its part. *)
Lemma adjust_loop_within n : forall fuel bank limit this_byte l,
  (n <= fuel)%nat -> 0 <= bank < 2 -> 0 <= this_byte -> limit <= this_byte + 3 * Z.of_nat n ->
  this_byte + 3 * Z.of_nat n <= 192 -> length l = 384%nat ->
  exists l', adjust_loop fuel bank limit this_byte l = Ok l' /\ length l' = 384%nat.
Proof.
  induction n as [|n IH]; intros fuel bank limit this_byte l Hf Hbk Ht Hlim Hmax Hl.
  - exists l. destruct fuel; cbn [adjust_loop]; destruct (Z.ltb_spec this_byte limit); (lia || done).
  - destruct fuel as [|fuel]; [lia|]. cbn [adjust_loop].
    destruct (Z.ltb_spec this_byte limit); [|by exists l].
    destruct (rd_in_range l (192 * bank + this_byte)) as [r Er]; [lia|].
    destruct (rd_in_range l (192 * bank + this_byte + 1)) as [g Eg]; [lia|].
    destruct (rd_in_range l (192 * bank + this_byte + 2)) as [b Eb]; [lia|].
    assert (Ha : exists l1, adjust_at l (192 * bank + this_byte) = Ok l1 /\ length l1 = 384%nat).
    { unfold adjust_at. rewrite Er, Eg, Eb. cbn [mbind res_bind].
      destruct (adjust_color r g b); [|by exists l]. unfold put3.
      do 3 (rewrite wr_in_range by (rewrite ?length_insert; lia); cbn [mbind res_bind] || idtac).
      eexists. split; [done|]. by rewrite !length_insert. }
    destruct Ha as (l1 & -> & Hl1). cbn [mbind res_bind]. rewrite u8_small by lia.
    apply IH; (done || lia).
Qed.

Section safe.
Context {W : Type} {in_ok : W -> Prop} `{MidiLinkLaws W in_ok}.
Variable after : Z.
Hypothesis Hafter : is_u8 after.
Implicit Types b : board W.

(** What a command keeps: the invariant, what the host has queued, and the keys. *)
Definition kept b b' : Prop :=
  board_wf b' /\ in_ok b'.(link) /\ incoming b'.(link) = incoming b.(link) /\ b'.(keys) = b.(keys).

Definition safe_outcome b (r : res (board W)) : Prop :=
  match r with Ok b' => kept b b' | Fault e => e = Reset MAGIC_BOOT_KEY end.

Lemma kept_refl b : board_wf b -> in_ok b.(link) -> kept b b.
Proof. done. Qed.

Lemma kept_send b ps b' :
  kept b b' -> kept b (send_all ps b').
Proof.
  intros (Hb & Hl & Hin & Hk). rewrite send_all_board.
  destruct (send_all_in ps b'.(link) Hl) as [Hl' Hin'].
  split; [by apply set_link_wf|]. split; [done|]. cbn. by rewrite Hin'.
Qed.

Lemma kept_config b b' : kept b b' -> exists b2, send_config_data b' = Ok b2 /\ kept b b2.
Proof. intros Hk. rewrite send_config_link, <-send_all_board. eexists. split; [done|]. by apply kept_send. Qed.

Lemma kept_flush b b' : kept b b' -> kept b (MIDI_Device_Flush b').
Proof.
  intros (Hb & Hl & Hin & Hk). destruct (flush_in b'.(link) Hl) as [Hl' Hin'].
  split; [by apply set_link_wf|]. split; [done|]. cbn. by rewrite Hin'.
Qed.

Lemma bulk_push_safe len tag buffer b :
  board_wf b -> in_ok b.(link) -> length buffer = 63%nat -> Forall is_u8 buffer -> len <= 62 ->
  tbl buffer 4 <= 24 -> safe_outcome b (bulk_push len tag buffer b).
Proof.
  intros Hb Hl Hbuf Hu Hlen Hsize. unfold bulk_push.
  destruct (5 <? len); [|done]. destruct (tag =? 0); [done|].
  assert (Hrd : forall i, 0 <= i < 63 -> rd buffer i = Ok (tbl buffer i) /\ is_u8 (tbl buffer i)).
  { intros i Hi. unfold rd, tbl. replace (0 <=? i) with true by lia.
    destruct (lookup_lt_is_Some_2 buffer (Z.to_nat i)) as [v Hv]; [lia|]. rewrite Hv.
    rewrite (nth_lookup_Some _ _ _ _ Hv). split; [done|]. by apply (Forall_lookup_1 _ _ _ _ Hu Hv). }
  destruct (Hrd 2 ltac:(lia)) as [-> Hp]. destruct (Hrd 3 ltac:(lia)) as [-> _].
  destruct (Hrd 4 ltac:(lia)) as [-> Hs]. cbn [mbind res_bind].
  set (part := tbl buffer 2) in *. set (size := tbl buffer 4) in *. unfold is_u8 in Hp, Hs.
  destruct (Z.eqb_spec part 0); [done|]. destruct (len - 5 <? size) eqn:Hfit; [done|].
  destruct (Z.ltb_spec 16 part); [done|].
  destruct (part_place part ltac:(lia)) as (Hpl & Hbk & Hoff).
  assert (Hcopy : forall l, length l = 384%nat -> exists l1 l2,
    copy_colors buffer (Z.shiftr (part - 1) 3) (u8 (Z.land (part - 1) 7 * 24)) size l = Ok l1 /\
    adjust_loop adjust_fuel (Z.shiftr (part - 1) 3) (u8 (Z.land (part - 1) 7 * 24) + size)
      (u8 (Z.land (part - 1) 7 * 24)) l1 = Ok l2 /\ length l2 = 384%nat).
  { intros l Hll.
    destruct (copy_colors_spec buffer (Z.shiftr (part - 1) 3) (u8 (Z.land (part - 1) 7 * 24)) size l)
      as (l1 & E1 & Hl1 & _); [lia|lia|lia|lia|].
    destruct (adjust_loop_within 8 adjust_fuel (Z.shiftr (part - 1) 3)
      (u8 (Z.land (part - 1) 7 * 24) + size) (u8 (Z.land (part - 1) 7 * 24)) l1)
      as (l2 & E2 & Hl2); [unfold adjust_fuel; lia|lia|lia|lia|lia|lia|].
    by exists l1, l2. }
  destruct Hb as [[Hci Hca] Hr Hsc Hk Hc]. cbv zeta.
  unfold adjust_inactive_bank_leds_for_power, adjust_active_bank_leds_for_power.
  destruct (tag =? 1); [|destruct (tag =? 2); [|done]].
  - destruct (Hcopy _ Hci) as (l1 & l2 & -> & E2 & Hl2). cbn [mbind res_bind default_bank_inactive
      set_default_bank_inactive]. rewrite E2. split; [by split|done].
  - destruct (Hcopy _ Hca) as (l1 & l2 & -> & E2 & Hl2). cbn [mbind res_bind default_bank_active
      set_default_bank_active]. rewrite E2. split; [by split|done].
Qed.

Lemma bulk_pull_safe tag source b :
  board_wf b -> in_ok b.(link) -> length source = 384%nat -> safe_outcome b (bulk_pull tag source b).
Proof.
  intros Hb Hl Hs. unfold bulk_pull. change (NUM_BANKS * NUM_BUTTONS * 3 / 24) with 16.
  change (NUM_BANKS * NUM_BUTTONS * 3) with 384. change (Z.to_nat 16) with 16%nat.
  match goal with |- context [for_up 16 1 ?f ?s] =>
    destruct (for_up_inv (fun p '(b', rem, index) => kept b b' /\ rem = 384 - 24 * (p - 1) /\
      index = 24 * (p - 1)) f 16 1 s) as ([[b' rem] index] & -> & Hk & _) end; [done| |done].
  intros p [[b' rem] index] Hp (Hk & -> & ->).
  assert (exists n, p = Z.of_nat n + 1) as [n ->] by (exists (Z.to_nat (p - 1)); lia).
  rewrite Z.add_simpl_r. replace (if 24 <? 384 - 24 * Z.of_nat n then 24 else 384 - 24 * Z.of_nat n) with 24
    by (destruct (Z.ltb_spec 24 (384 - 24 * Z.of_nat n)); lia).
  rewrite part_colors_ok, bind_Ok by lia. change (Z.to_nat 24) with 24%nat.
  replace (Z.to_nat (24 * Z.of_nat n)) with (24 * n)%nat by lia. rewrite part_message_ok, bind_Ok by lia.
  eexists. split; [done|]. split; [by apply kept_flush, kept_send|]. rewrite !u16_small; lia.
Qed.

Lemma bulk_safe len buffer b :
  board_wf b -> in_ok b.(link) -> length buffer = 63%nat -> Forall is_u8 buffer -> len <= 62 ->
  harmless (Some (Call BulkXfer len buffer)) = true ->
  safe_outcome b (sysExCmdBulkXfer len buffer b).
Proof.
  intros Hb Hl Hbuf Hu Hlen Hh. unfold sysExCmdBulkXfer. destruct (2 <? len); [|done].
  destruct buffer as [|b0 [|b1 rest]]; [done|done|].
  change (rd (b0 :: b1 :: rest) 0) with (Ok (A := Z) b0).
  change (rd (b0 :: b1 :: rest) 1) with (Ok (A := Z) b1). cbn [mbind res_bind].
  cbn [harmless] in Hh. change (tbl (b0 :: b1 :: rest) 0) with b0 in Hh.
  destruct (b0 =? 0).
  { apply bulk_push_safe; [done..|]. cbn [andb] in Hh. lia. }
  destruct (b0 =? 1); [|done]. destruct (wf_cols _ Hb) as [Hci Hca].
  destruct (b1 =? 1); [by apply bulk_pull_safe|]. destruct (b1 =? 2); [by apply bulk_pull_safe|done].
Qed.

Lemma save_edits_total b : board_wf b ->
  exists d, save_edits b = Ok (set_rom d b) /\ nvm_wf d.
Proof.
  intros Hb. destruct (save_edits_spec b.(sets) b.(cols) b.(rom)) as (d & E & Hd & _);
    [apply Hb|apply Hb|]. exists d. unfold save_edits. by rewrite E.
Qed.

Lemma setup_kept b b' : kept b b' -> exists b1, setup_eeprom b' = Ok b1 /\ kept b b1.
Proof.
  intros (Hb & Hl & Hin & Hk).
  destruct (setup_total b'.(sets) b'.(cols) b'.(rom)) as (g & c & d & E & Hc & Hd);
    [apply Hb|apply Hb|]. unfold setup_eeprom. rewrite E.
  eexists. split; [done|]. split; [by destruct Hb; split|done].
Qed.

Lemma kept_regs b b' r : kept b b' -> kept b (set_regs r b').
Proof. intros (Hb & Hl & Hin & Hk). split; [by destruct Hb; split|done]. Qed.

(** Saving, answering and reloading, the end of a push. *)
Lemma save_and_reload b b' :
  kept b b' ->
  safe_outcome b (b1 ← save_edits b'; b2 ← send_config_data b1; b3 ← setup_eeprom b2; Ok (wdt_on b3)).
Proof.
  intros (Hb & Hl & Hin & Hk). destruct (save_edits_total b' Hb) as (d & -> & Hd). rewrite bind_Ok.
  destruct (kept_config b (set_rom d b')) as (b1 & -> & Hk1); [split; [by destruct Hb; split|done]|]. rewrite bind_Ok.
  destruct (setup_kept b b1 Hk1) as (b2 & -> & H2).
  rewrite bind_Ok. exact (kept_regs _ _ _ H2).
Qed.

Lemma push_screen_kept new old b b' :
  kept b b' ->
  exists b1, (b1 ← (if negb (new =? old) then if new =? 0 then change_bank 0 b' else Ok b' else Ok b');
     start_animation 0 GEOMETRIC_ANIMATION_TYPE_TRIANGLE b1) = Ok b1 /\ kept b b1.
Proof.
  intros (Hb & Hl & Hin & Hk).
  destruct (side_bank_step new old b' Hb) as (s & -> & Hb2 & _). rewrite bind_Ok.
  destruct (start_animation_ok 0 GEOMETRIC_ANIMATION_TYPE_TRIANGLE _ Hb2) as (a & g & -> & Hb3); [lia|].
  eexists. split; [done|]. by split.
Qed.

Lemma push_safe len buffer b :
  board_wf b -> in_ok b.(link) -> length buffer = 63%nat -> Forall is_u8 buffer -> 0 <= len <= 62 ->
  safe_outcome b (sysExCmdPushConfig len buffer b).
Proof.
  intros Hb Hl Hbuf Hu Hlen. destruct (tv_decode_total len buffer Hu) as (config & E & _); [lia|lia|].
  unfold sysExCmdPushConfig. rewrite E. rewrite bind_Ok.
  assert (Hk1 : kept b (set_sets (pushed_settings config (wdt_off b).(sets)) (wdt_off b))).
  { split; [by destruct Hb; split|done]. }
  set (b1 := set_sets _ (wdt_off b)) in *. clearbody b1. cbv zeta.
  destruct (push_screen_kept b1.(sets).(G_EE_SIDE_BANK) b.(sets).(G_EE_SIDE_BANK) b b1 Hk1)
    as (b2 & E2 & Hk2). revert E2. destruct (if negb _ then _ else _) as [b1'|] eqn:E1; [|done].
  rewrite !bind_Ok. intros ->. rewrite bind_Ok. exact (save_and_reload _ _ Hk2).
Qed.

Lemma pull_safe len buffer b :
  board_wf b -> in_ok b.(link) -> length buffer = 63%nat ->
  safe_outcome b (sysExCmdPullConfig len buffer b).
Proof.
  intros Hb Hl Hbuf. unfold sysExCmdPullConfig. destruct (0 <? len); [|done].
  destruct (rd_in_range buffer 0) as [v ->]; [lia|]. cbn [mbind res_bind].
  destruct (v =? 0); [|done]. by destruct (kept_config b b) as (b1 & -> & Hk1).
Qed.

Lemma factory_reset_kept b b' : kept b b' -> exists b1, factory_reset b' = Ok b1 /\ kept b b1.
Proof.
  intros (Hb & Hl & Hin & Hk). unfold factory_reset, eeprom_factory_reset.
  destruct (eeprom_write_spec EE_EEPROM_VERSION EEPROM_LAYOUT b'.(rom)) as (d1 & -> & Hd1 & _);
    [apply Hb|by vm_compute|]. rewrite bind_Ok.
  destruct (load_default_colors_ok b'.(cols) (wf_cols _ Hb)) as (c1 & -> & Hc1). rewrite bind_Ok.
  destruct (save_edits_spec factory_settings c1 d1) as (d2 & -> & Hd2 & _); [done|done|].
  rewrite !bind_Ok. eexists. split; [reflexivity|]. split; [by destruct Hb; split|done].
Qed.

(** Blinking and answering, the end of a factory reset. *)
Lemma blink_and_answer b b' :
  kept b b' ->
  safe_outcome b (b1 ← send_config_data
    (set_leds 65535 16777215 (set_leds 0 16777215 (set_leds 65535 16777215 b'))); Ok (wdt_on b1)).
Proof.
  intros Hk. destruct (kept_config b (set_leds 65535 16777215 (set_leds 0 16777215 (set_leds 65535 16777215 b'))))
    as (b1 & -> & Hk1); [unfold set_leds; do 3 apply kept_regs; exact Hk|].
  rewrite bind_Ok. unfold safe_outcome, wdt_on. by apply kept_regs.
Qed.

Lemma system_safe len buffer b :
  board_wf b -> in_ok b.(link) -> length buffer = 63%nat ->
  safe_outcome b (sysExCmdSystem after len buffer b).
Proof.
  intros Hb Hl Hbuf. unfold sysExCmdSystem. destruct (len =? 0); [done|].
  destruct (rd_in_range buffer 0) as [c ->]; [lia|]. cbn [mbind res_bind].
  destruct (c =? 1).
  { destruct (dfu_ok after (regs (wdt_off b)) Hafter) as ([r out] & ->). done. }
  destruct (c =? 2); [|done].
  destruct (factory_reset_kept b (wdt_off b)) as (b1 & -> & Hk).
  { by apply kept_regs, kept_refl. }
  rewrite bind_Ok. cbv zeta. exact (blink_and_answer _ _ Hk).
Qed.

(** Any command a packet can make the device run. *)
Lemma command_safe a b :
  board_wf b -> in_ok b.(link) -> action_ok a -> harmless a = true ->
  safe_outcome b (perform (call after) a b).
Proof.
  intros Hb Hl Ha Hh. destruct a as [[fn len buffer|]|]; [| |done].
  - destruct Ha as (Hlen & Hbuf & Hu). destruct fn; cbn [perform call].
    + by apply push_safe.
    + by apply pull_safe.
    + by apply system_safe.
    + apply bulk_safe; done || lia.
  - unfold safe_outcome. cbn [perform]. rewrite <-(app_nil_r identity_reply), stream_sysex_ok by done. by apply kept_send.
Qed.

End safe.

(** ** Theorems *)

Section theorems.
Context {W : Type} `{MidiOut W}.
Variable after ch : Z.
Implicit Types b : board W.

(** C23: Pushing settings: whatever tag/value bytes arrive, the decoder ends inside its
    arrays, the settings become the decoded ones, the colours are kept, the reply
    carries the new settings, the watchdog runs again, turning the side-bank
    buttons off selects bank 1, and the EEPROM holds the new settings: a restart
    loads exactly them. *)
Theorem config_push_persists len buffer b st :
  board_wf b -> 0 <= len <= 255 -> len <= Z.of_nat (length buffer) -> Forall is_u8 buffer ->
  eeprom_read EE_EEPROM_VERSION b.(rom) = Ok EEPROM_LAYOUT ->
  eeprom_read EE_FIRST_BOOT_CHECK b.(rom) = Ok st ->
  exists config b', tv_table_decode empty_table buffer len = Ok config /\
    sysExCmdPushConfig len buffer b = Ok b' /\ board_wf b' /\
    b'.(sets) = with_self_test st (pushed_settings config b.(sets)) /\
    b'.(cols) = b.(cols) /\
    midi_stream_sysex 45 (config_payload (pushed_settings config b.(sets))) b.(link) = Ok b'.(link) /\
    (regs b').(WDT) = Some WDTO_2S /\
    (midi b').(g_bank_selected) =
      bank_after_push b.(sets).(G_EE_SIDE_BANK) (tbl config 23) (midi b).(g_bank_selected) /\
    (forall g0 c0 r, banks_wf c0 ->
       eeprom_setup g0 c0 (mk_nvm b'.(rom).(mem) r) =
       Ok (b'.(sets), b'.(cols), mk_nvm b'.(rom).(mem) r)).
Proof. apply push_config_ok. Qed.

(** C8: Settings survive a transfer: the tag/value pairs of one device's reply, sent to
    another device as a push message in USB-MIDI packets, pass the SysEx reassembly and give
    that device the same settings, for all settings that are bytes, but for four things: the
    self-test byte, the two pitch settings, which a push does not carry, and bits 2 and 3 of
    the tilt mask, which the reply does not carry and which arrive as 0.  The receiving
    device is idle in its SysEx reassembly, has its commands installed and an EEPROM of the
    current layout. *)
Theorem config_roundtrip g s b st :
  byte_settings g ->
  idle s -> length s.(sysex_buffer) = 64%nat -> Forall is_u8 s.(sysex_buffer) ->
  command_handler s SYSEX_COMMAND_PUSH_CONF = Some PushConfig ->
  board_wf b -> eeprom_read EE_EEPROM_VERSION b.(rom) = Ok EEPROM_LAYOUT ->
  eeprom_read EE_FIRST_BOOT_CHECK b.(rom) = Ok st ->
  exists s' b', idle s' /\ board_wf b' /\
    sysex_events (call after) ch
      (sysex_packets true ([240; 0; 1; 121; SYSEX_COMMAND_PUSH_CONF] ++ config_tags g ++ [247])) s b
      = Ok (s', b') /\
    b'.(sets) = with_self_test st (merged g b.(sets)) /\ b'.(cols) = b.(cols).
Proof.
  intros Hg Hidle Hbuf Hu Hfn Hb Hver Hst.
  destruct (dispatch_djtt (call (W := W) after) ch SYSEX_COMMAND_PUSH_CONF (config_tags g) s b PushConfig)
    as (s' & Hs' & _ & _ & E); [done..|cbn; lia|].
  set (rest := drop _ s.(sysex_buffer)) in *.
  destruct (decode_config g b.(sets) rest Hg) as (config & Ec & Hm & _).
  destruct (push_config_ok 39 (config_tags g ++ [247] ++ rest) b st)
    as (config' & b' & Ec' & Ep & Hb' & Hsets & Hcols & _); try done.
  { rewrite app_assoc, length_app. cbn. lia. }
  { rewrite app_assoc. apply Forall_app_2; [by apply config_tags_bytes|by apply Forall_drop]. }
  change ([247] ++ rest) with (247 :: rest) in Ec', Ep. rewrite Ec in Ec'. injection Ec' as <-.
  exists s', b'. split; [done|]. split; [done|]. split; [|by rewrite Hsets, Hm].
  rewrite E. unfold call. change (Z.of_nat (length (config_tags g)) + 1) with 39.
  change ([247] ++ rest) with (247 :: rest). by rewrite Ep.
Qed.

(** C10: Colours survive a transfer: when all colours of an array are palette colours,
    the sixteen messages with which a device answers a pull request, fed to
    another device as they are, leave exactly the same array there, and nothing
    else of that device changes. *)
Theorem bulk_transfer_roundtrip `{!MidiOutLaws W} tag b s b2 rest :
  tag = 1 \/ tag = 2 -> board_wf b -> link_up b.(link) ->
  palette_array (bank_array tag b.(cols)) ->
  idle s -> length s.(sysex_buffer) = 64%nat ->
  command_handler s SYSEX_COMMAND_BULK_XFER = Some BulkXfer -> board_wf b2 ->
  exists w ps s', sysExCmdBulkXfer 3 (1 :: tag :: rest) b = Ok (set_link w b) /\
    sent w = sent b.(link) ++ ps /\
    sysex_events (call after) ch ps s b2 =
      Ok (s', set_cols (set_bank_array tag (bank_array tag b.(cols)) b2.(cols)) b2) /\ idle s'.
Proof.
  intros Htag Hb Hup Hpal Hidle Hbuf Hfn Hb2. set (src := bank_array tag b.(cols)) in *.
  assert (Hsrc : length src = 384%nat).
  { unfold src, bank_array. destruct Hb as [[] _ _ _ _]. by destruct (tag =? 1). }
  destruct (bulk_pull_ok tag src b) as (w & Ep & Hw & Hsent);
    [destruct Htag as [->| ->]; by vm_compute|done|done|].
  destruct (receive_parts after ch tag src 16 s b2) as (s' & l & Hs' & _ & _ & Er & Hl & Hrd);
    [done..|].
  exists w, (concat (map (part_packets tag src) (seq 0 16))), s'. split.
  { destruct Htag as [->| ->]; exact Ep. }
  split; [done|]. split; [|done]. rewrite Er. do 4 f_equal.
  apply rd_ext; [lia|]. intros j Hj. rewrite Hrd.
  by replace ((0 <=? j) && (j <? 24 * Z.of_nat 16)) with true by lia.
Qed.

(** C39: The bootloader handshake: the system command 1 ends in a watchdog reset with
    the boot key set; the check that runs before [main] then enters the
    bootloader, after a watchdog reset only, and clears the key, so that the reset
    after that starts the firmware again. *)
Theorem bootloader_entered_once len buffer b :
  is_u8 after -> 0 < len ->
  exists key, sysExCmdSystem after len (1 :: buffer) b = Fault (Reset key) /\
    forall mcusr,
      (has_bits mcusr (bv WDRF) = true -> Bootloader_Jump_Check mcusr key = (true, 0)) /\
      (has_bits mcusr (bv WDRF) = false -> Bootloader_Jump_Check mcusr key = (false, key)) /\
      Bootloader_Jump_Check mcusr 0 = (false, 0).
Proof.
  intros Ha Hl. exists MAGIC_BOOT_KEY. split.
  - unfold sysExCmdSystem. replace (len =? 0) with false by lia.
    change (rd (1 :: buffer) 0) with (Ok (A := Z) 1). cbn [mbind res_bind].
    change (1 =? 1) with true. cbv iota.
    destruct (dfu_ok after (regs (wdt_off b)) Ha) as ([r out] & ->). done.
  - intros mcusr. unfold Bootloader_Jump_Check.
    change (MAGIC_BOOT_KEY =? MAGIC_BOOT_KEY) with true. change (0 =? MAGIC_BOOT_KEY) with false.
    by destruct (has_bits mcusr (bv WDRF)).
Qed.

End theorems.

(** The size of a pushed part is not limited to 24: one colour more than fits
    makes part 8 write into the next bank, and part 16 past the end of the array. *)
Theorem bulk_push_overruns :
  let b := board_at_start ([] : list packet) in
  (exists b', sysExCmdBulkXfer 33 ([0; 1; 8; 1; 27] ++ replicate 27 10 ++ [247]) b = Ok b' /\
     rd b.(cols).(default_bank_inactive) 192 = Ok 0 /\
     rd b'.(cols).(default_bank_inactive) 192 <> Ok 0) /\
  sysExCmdBulkXfer 33 ([0; 1; 16; 1; 27] ++ replicate 27 10 ++ [247]) b = Fault OutOfBounds.
Proof.
  split; [|by vm_compute].
  eexists. split; [vm_compute; reflexivity|]. split; [reflexivity|]. by vm_compute.
Qed.

(** ** Witnesses *)

Lemma config_push_persists_witness :
  exists b', sysExCmdPushConfig 3 [3; 1; 247] (board_at_start ([] : list packet)) = Ok b' /\
    (regs b').(WDT) = Some WDTO_2S.
Proof.
  destruct (config_push_persists 3 [3; 1; 247] (board_at_start ([] : list packet)) 0)
    as (config & b' & _ & E & _ & _ & _ & _ & Hw & _);
    [apply board_at_start_wf|lia|cbn; lia|repeat constructor; lia|reflexivity|reflexivity|].
  exists b'. split; [exact E|exact Hw].
Defined.

Lemma factory_bytes : byte_settings factory_settings.
Proof.
  unfold byte_settings, settings_bytes.
  repeat (apply Forall_cons_2; [split; vm_compute; done|]). constructor.
Qed.

Lemma config_roundtrip_witness :
  exists s' b', sysex_events (call 0) 5
      (sysex_packets true ([240; 0; 1; 121; SYSEX_COMMAND_PUSH_CONF] ++
         config_tags factory_settings ++ [247]))
      (config_setup initial_sysex) (board_at_start ([] : list packet)) = Ok (s', b') /\
    b'.(sets).(G_EE_MIDI_VELOCITY) = 127.
Proof.
  destruct (config_roundtrip 0 5 factory_settings (config_setup initial_sysex)
              (board_at_start ([] : list packet)) 0) as (s' & b' & _ & _ & E & Hs & _);
    [apply factory_bytes|split; reflexivity|reflexivity
    |apply (Forall_replicate is_u8 64 0); split; lia|reflexivity|apply board_at_start_wf
    |reflexivity|reflexivity|].
  exists s', b'. split; [exact E|]. rewrite Hs. reflexivity.
Defined.

Lemma black_palette_array : palette_array (replicate 384 0).
Proof.
  intros k Hk. exists 0. split; [lia|].
  set (p := fun k => bool_decide (color_at (replicate 384 0) (3 * k) = Ok (palette 0))).
  assert (Hp : p k = true) by by_range 0 128 k p. by apply bool_decide_eq_true in Hp.
Qed.

Lemma bulk_transfer_roundtrip_witness :
  exists w ps s', sysExCmdBulkXfer 3 [1; 1; 247] (board_at_start ([] : list packet)) =
      Ok (set_link w (board_at_start ([] : list packet))) /\
    sent w = ps /\
    sysex_events (call 0) 5 ps (config_setup initial_sysex) (board_at_start ([] : list packet)) =
      Ok (s', board_at_start ([] : list packet)).
Proof.
  destruct (bulk_transfer_roundtrip 0 5 1 (board_at_start ([] : list packet))
              (config_setup initial_sysex) (board_at_start ([] : list packet)) [247])
    as (w & ps & s' & E & Hs & Er & _);
    [left; reflexivity|apply board_at_start_wf|exact I|apply black_palette_array
    |split; reflexivity|reflexivity|reflexivity|apply board_at_start_wf|].
  exists w, ps, s'. split; [exact E|]. split; [exact Hs|exact Er].
Defined.

Lemma bootloader_entered_once_witness :
  exists key, sysExCmdSystem 0 2 [1; 247] (board_at_start ([] : list packet)) = Fault (Reset key) /\
    Bootloader_Jump_Check 8 key = (true, 0).
Proof.
  destruct (bootloader_entered_once 0 2 [247] (board_at_start ([] : list packet)))
    as (key & E & Hk); [split; lia|lia|].
  exists key. split; [exact E|]. apply Hk. reflexivity.
Defined.

End Config.
