(* ===== verification/Flash.v ===== *)
(** * The flash memory and its self-programming

    avr-libc's boot.h and pgmspace.h on the ATmega32U4, and the functions of
    LUFA's BootloaderAPI.c.  The memory has 256 pages of 128 bytes; an erase sets a
    page to 255, a page write programs the words of the page buffer into it, which
    can only clear bits, and empties the buffer.  The bootloader section begins at
    [BOOT_START_ADDR], 4 KB below the end; the section below cannot be read from the end of an erase or
    write of it until [boot_rww_enable].

    The chip is the firmware's: midi_fighter_64 is built for the ATmega32U4.  The
    makefile of the DFU bootloader in the tree still has LUFA's default, the at90usb1287 with 128 KB;
    page size, section start, signature bytes and the branches for a flash of at most 64 KB are here those of
    the bootloader built for the ATmega32U4.

    What the chip's data sheet leaves open is a parameter: [refill], what the
    buffer holds when a word of it is filled twice, and [locked_read], what a read
    of the locked section returns. *)

From S2P Require Import Prelude.

Module Flash.

Definition SPM_PAGESIZE : Z := 128.
Definition BOOT_START_ADDR : Z := 28672.   (* 0x7000 *)
Definition BLB11 : Z := 4.
Definition GET_LOW_FUSE_BITS : Z := 0.
Definition GET_LOCK_BITS : Z := 1.
Definition GET_EXTENDED_FUSE_BITS : Z := 2.
Definition GET_HIGH_FUSE_BITS : Z := 3.

(** ** State *)

Record flash := mk_flash {
  cells : Z -> Z;             (* the bytes 0..32767 *)
  buffer : Z -> option Z;     (* the words 0..63 of the page buffer *)
  rww_locked : bool;
  LockBits : Z
}.

Definition blank_buffer : Z -> option Z := fun _ => None.

(** An address goes into the 16-bit Z register, of which the chip uses 15 bits. *)
Definition flash_index (Address : Z) : Z := Address mod 32768.
Definition page_of (Address : Z) : Z := flash_index Address / SPM_PAGESIZE.
Definition slot_of (Address : Z) : Z := flash_index Address mod SPM_PAGESIZE / 2.

(** The pages of the bootloader section can be protected with a lock bit. *)
Definition boot_page (p : Z) : bool := BOOT_START_ADDR / SPM_PAGESIZE <=? p.
Definition protected (f : flash) (p : Z) : bool :=
  boot_page p && negb (Z.testbit f.(LockBits) BLB11).

(** The byte of the page buffer that goes to address [a]. *)
Definition buffered (f : flash) (a : Z) : Z :=
  let w := default 65535 (f.(buffer) (slot_of a)) in
  if Z.even a then Z.land w 255 else Z.land (Z.shiftr w 8) 255.

Section spm.
Variable refill : Z -> Z -> Z.
Variable locked_read : Z -> Z.

(** ** avr-libc's boot.h *)

Definition boot_page_fill (Address data : Z) (f : flash) : flash :=
  mk_flash f.(cells)
    (fun i => if i =? slot_of Address then
                Some (match f.(buffer) i with None => u16 data | Some old => refill old data end)
              else f.(buffer) i)
    f.(rww_locked) f.(LockBits).

Definition boot_page_erase (Address : Z) (f : flash) : flash :=
  if protected f (page_of Address) then f
  else mk_flash (fun a => if page_of a =? page_of Address then 255 else f.(cells) a)
         f.(buffer) (f.(rww_locked) || negb (boot_page (page_of Address))) f.(LockBits).

Definition boot_page_write (Address : Z) (f : flash) : flash :=
  if protected f (page_of Address) then f
  else mk_flash (fun a => if page_of a =? page_of Address
                          then Z.land (f.(cells) a) (buffered f a) else f.(cells) a)
         blank_buffer (f.(rww_locked) || negb (boot_page (page_of Address))) f.(LockBits).

Definition boot_rww_enable (f : flash) : flash :=
  mk_flash f.(cells) blank_buffer false f.(LockBits).

(** A lock bit is set by programming it to zero. *)
Definition boot_lock_bits_set (lock_bits : Z) (f : flash) : flash :=
  mk_flash f.(cells) f.(buffer) f.(rww_locked) (Z.ldiff f.(LockBits) lock_bits).

(** ** avr-libc's pgmspace.h *)

Definition pgm_read_byte (Address : Z) (f : flash) : Z :=
  let i := flash_index Address in
  if f.(rww_locked) && (i <? BOOT_START_ADDR) then locked_read i else f.(cells) i.
Definition pgm_read_word (Address : Z) (f : flash) : Z :=
  pgm_read_byte Address f + 256 * pgm_read_byte (Address + 1) f.

(** ** BootloaderAPI.c

    The safe variants wait for earlier operations, which are over here. *)

Variable fuses : Z -> Z.
Variable boot_signature_byte_get : Z -> Z.

Definition boot_lock_fuse_bits_get (Address : Z) (f : flash) : Z :=
  if Address =? GET_LOCK_BITS then f.(LockBits) else fuses Address.

Definition BootloaderAPI_ErasePage (Address : Z) (f : flash) : flash :=
  boot_rww_enable (boot_page_erase Address f).
Definition BootloaderAPI_WritePage (Address : Z) (f : flash) : flash :=
  boot_rww_enable (boot_page_write Address f).
Definition BootloaderAPI_FillWord (Address Word : Z) (f : flash) : flash :=
  boot_page_fill Address Word f.
Definition BootloaderAPI_ReadSignature (Address : Z) : Z := boot_signature_byte_get Address.
Definition BootloaderAPI_ReadFuse (Address : Z) (f : flash) : Z :=
  boot_lock_fuse_bits_get Address f.
Definition BootloaderAPI_ReadLock (f : flash) : Z := boot_lock_fuse_bits_get GET_LOCK_BITS f.
Definition BootloaderAPI_WriteLock (LockBits : Z) (f : flash) : flash :=
  boot_lock_bits_set LockBits f.

End spm.

(** ** Lemmas *)

(** Linear arithmetic with quotients and remainders by constants. *)
Ltac div_lia := Z.to_euclidean_division_equations; lia.

Definition flash_wf (f : flash) : Prop := forall a, 0 <= a < 32768 -> is_u8 (f.(cells) a).

(** The page [P..P+127] is erased. *)
Definition erased (f : flash) (P : Z) : Prop :=
  forall a, P <= a < P + SPM_PAGESIZE -> f.(cells) a = 255.

(** The buffer holds the bytes [bs], from the page's first word on. *)
Definition holds_bytes (f : flash) (bs : list Z) : Prop :=
  forall i, 0 <= i < 64 -> f.(buffer) i =
    if 2 * i <? Z.of_nat (length bs) then Some (tbl bs (2 * i) + 256 * tbl bs (2 * i + 1)) else None.

Lemma holds_blank f : f.(buffer) = blank_buffer -> holds_bytes f [].
Proof. intros E i Hi. rewrite E. cbn [length]. by replace (2 * i <? Z.of_nat 0) with false by lia. Qed.

(** The bytes [bs] programmed from the page boundary [A] on: they replace whole
    pages, the rest of the last one is blank. *)
Definition programmed (c : Z -> Z) (A : Z) (bs : list Z) (a : Z) : Z :=
  let n := Z.of_nat (length bs) in
  if (A <=? a) && (a <? A + n) then tbl bs (a - A)
  else if (A <=? a) && (a <? A + (n + 127) / 128 * 128) then 255
  else c a.

Lemma index_range a : 0 <= flash_index a < 32768.
Proof. apply Z.mod_pos_bound. lia. Qed.

Lemma index_add_page a g : flash_index (a + 65536 * g) = flash_index a.
Proof. unfold flash_index. replace (a + 65536 * g) with (a + (2 * g) * 32768) by lia. apply Z.mod_add. lia. Qed.

Lemma page_of_index a b : flash_index a = flash_index b -> page_of a = page_of b.
Proof. intros H. unfold page_of. by rewrite H. Qed.
Lemma slot_of_index a b : flash_index a = flash_index b -> slot_of a = slot_of b.
Proof. intros H. unfold slot_of. by rewrite H. Qed.

(** Which addresses lie in the page of a page boundary. *)
Lemma same_page P a :
  P mod 128 = 0 -> 0 <= P < 32768 -> 0 <= a < 32768 ->
  (page_of a =? page_of P) = (P <=? a) && (a <? P + 128).
Proof. intros Hp HP Ha. unfold page_of, flash_index, SPM_PAGESIZE. rewrite !Z.mod_small by lia. div_lia. Qed.

Lemma app_page P : 0 <= P < BOOT_START_ADDR -> boot_page (page_of P) = false.
Proof.
  unfold boot_page, page_of, flash_index, BOOT_START_ADDR, SPM_PAGESIZE. intros HP.
  rewrite Z.mod_small by lia. div_lia.
Qed.
Lemma app_unprotected f P : 0 <= P < BOOT_START_ADDR -> protected f (page_of P) = false.
Proof. intros HP. unfold protected. by rewrite app_page. Qed.

Lemma land_255_u8 x : is_u8 x -> Z.land 255 x = x.
Proof. intros Hx. rewrite Z.land_comm, land_255. by apply u8_small. Qed.

(** The two bytes of a word. *)
Lemma word_bytes b c :
  is_u8 b -> is_u8 c -> Z.land (b + 256 * c) 255 = b /\ Z.land (Z.shiftr (b + 256 * c) 8) 255 = c.
Proof.
  unfold is_u8. intros Hb Hc. rewrite !land_255, Z.shiftr_div_pow2 by lia. unfold u8.
  change (2 ^ 8) with 256. split; div_lia.
Qed.

Lemma tbl_u8 bs i : Forall is_u8 bs -> is_u8 (tbl bs i).
Proof.
  intros Hbs. unfold tbl. destruct (nth_lookup_or_length bs (Z.to_nat i) 0) as [E|E].
  - by eapply Forall_lookup_1 in E.
  - rewrite nth_overflow by lia. unfold is_u8. lia.
Qed.

(** The bytes the buffer sends to a page. *)
Lemma buffered_bytes f bs P a :
  P mod 128 = 0 -> 0 <= P -> P + 128 <= 32768 -> P <= a < P + 128 ->
  holds_bytes f bs -> Forall is_u8 bs -> Z.even (Z.of_nat (length bs)) = true ->
  buffered f a = if a - P <? Z.of_nat (length bs) then tbl bs (a - P) else 255.
Proof.
  intros Hp HP0 HP Ha Hh Hbs He. unfold buffered, slot_of, flash_index, SPM_PAGESIZE.
  rewrite (Z.mod_small a 32768) by lia. cbv zeta. rewrite !Hh by div_lia.
  replace (a mod 128) with (a - P) by div_lia. apply Z.even_spec in He as [k Hk].
  destruct (Z.even a) eqn:Ea.
  - apply Z.even_spec in Ea as [q Hq].
    replace (2 * ((a - P) / 2)) with (a - P) by div_lia.
    destruct (a - P <? _); [|done]. cbn [default]. by apply word_bytes; apply tbl_u8.
  - assert (Ho : Z.odd a = true) by (by rewrite <-Z.negb_even, Ea). apply Z.odd_spec in Ho as [q Hq].
    replace (2 * ((a - P) / 2)) with (a - P - 1) by div_lia. replace (a - P - 1 + 1) with (a - P) by div_lia.
    replace (a - P - 1 <? Z.of_nat (length bs)) with (a - P <? Z.of_nat (length bs)) by div_lia.
    destruct (a - P <? _); [|done]. cbn [default]. by apply word_bytes; apply tbl_u8.
Qed.

(** Committing a page that was erased before. *)
Lemma write_page f bs P a :
  P mod 128 = 0 -> 0 <= P < BOOT_START_ADDR -> 0 <= a < 32768 -> erased f P ->
  holds_bytes f bs -> Forall is_u8 bs -> Z.even (Z.of_nat (length bs)) = true ->
  0 < Z.of_nat (length bs) <= 128 ->
  (boot_page_write P f).(cells) a = programmed f.(cells) P bs a.
Proof.
  unfold BOOT_START_ADDR. intros Hp HP Ha Her Hh Hbs He Hl.
  unfold boot_page_write. rewrite app_unprotected by done. cbn [cells]. rewrite same_page by lia.
  unfold programmed. replace ((Z.of_nat (length bs) + 127) / 128 * 128) with 128 by div_lia.
  destruct ((P <=? a) && (a <? P + 128)) eqn:Hin.
  - rewrite Her by (unfold SPM_PAGESIZE; lia).
    rewrite (buffered_bytes f bs P) by (done || lia).
    replace ((P <=? a) && (a <? P + Z.of_nat (length bs))) with (a - P <? Z.of_nat (length bs)) by div_lia.
    destruct (a - P <? _); [|done]. apply land_255_u8. by apply tbl_u8.
  - by replace ((P <=? a) && (a <? P + Z.of_nat (length bs))) with false by lia.
Qed.

(** A full page first, then the rest from the next page on. *)
Lemma programmed_app c c' P bs1 bs2 a :
  length bs1 = 128%nat -> (forall x, 0 <= x < 32768 -> c' x = programmed c P bs1 x \/
    (P + 128 <= x < P + 256 /\ c' x = 255)) ->
  0 < Z.of_nat (length bs2) -> 0 <= a < 32768 ->
  programmed c' (P + 128) bs2 a = programmed c P (bs1 ++ bs2) a.
Proof.
  intros H1 Hc H2 Ha. specialize (Hc a Ha). unfold programmed in *. rewrite length_app, H1 in *.
  rewrite Nat2Z.inj_add. change (Z.of_nat 128) with 128 in *.
  set (n := Z.of_nat (length bs2)) in *. change ((128 + 127) / 128 * 128) with 128 in Hc.
  assert (Et : forall i, tbl (bs1 ++ bs2) i = if i <? 128 then tbl bs1 i else tbl bs2 (i - 128)).
  { intros i. unfold tbl. destruct (Z.ltb_spec i 128).
    - rewrite app_nth1 by lia. done.
    - rewrite app_nth2 by lia. f_equal. lia. }
  replace (P + 128 + (n + 127) / 128 * 128) with (P + (128 + n + 127) / 128 * 128) by div_lia.
  destruct (Z.ltb_spec a (P + 128)).
  - replace ((P + 128 <=? a) && _) with false by lia.
    replace ((P + 128 <=? a) && _) with false by lia.
    destruct (Z.leb_spec P a); cbn [andb] in *.
    + replace (a <? P + (128 + n)) with true by lia. rewrite Et. replace (a - P <? 128) with true by lia.
      destruct (Z.ltb_spec a (P + 128)); [|lia]. destruct Hc as [->|[? _]]; [done|lia].
    + destruct Hc as [->|[? _]]; [done|lia].
  - replace ((P <=? a) && (a <? P + (128 + n))) with ((P + 128 <=? a) && (a <? P + 128 + n)) by lia.
    destruct ((P + 128 <=? a) && (a <? P + 128 + n)) eqn:Hin.
    + rewrite Et. replace (a - P <? 128) with false by lia. f_equal. lia.
    + replace ((P + 128 <=? a) && (a <? P + (128 + n + 127) / 128 * 128))
        with ((P <=? a) && (a <? P + (128 + n + 127) / 128 * 128)) by lia.
      destruct ((P <=? a) && (a <? P + (128 + n + 127) / 128 * 128)) eqn:Hpg; [done|].
      destruct Hc as [->|[? _]]; [|div_lia]. by rewrite andb_false_r.
Qed.

(** ** Equality of memories

    Two memories are the same when they hold the same bytes and words; the
    operations of the chip do not tell them apart. *)

Record same_flash (f g : flash) : Prop := {
  same_cells : forall a, 0 <= a < 32768 -> f.(cells) a = g.(cells) a;
  same_buffer : forall i, f.(buffer) i = g.(buffer) i;
  same_locked : f.(rww_locked) = g.(rww_locked);
  same_bits : f.(LockBits) = g.(LockBits)
}.

#[export] Instance same_flash_equiv : Equivalence same_flash.
Proof.
  split.
  - by intros f.
  - intros f g [Hc Hb Hl Hk]. split; [|done..]. intros a Ha. by rewrite Hc.
  - intros f g h [Hc Hb Hl Hk] [Hc' Hb' Hl' Hk']. split; [|congruence..]. intros a Ha. by rewrite Hc, Hc'.
Qed.

#[export] Instance protected_proper : Proper (same_flash ==> eq ==> eq) protected.
Proof. intros f g H p ? <-. unfold protected. by rewrite (same_bits _ _ H). Qed.
#[export] Instance buffered_proper : Proper (same_flash ==> eq ==> eq) buffered.
Proof. intros f g H a ? <-. unfold buffered. by rewrite (same_buffer _ _ H). Qed.
#[export] Instance fill_proper refill a w : Proper (same_flash ==> same_flash) (boot_page_fill refill a w).
Proof. intros f g H. split; try apply H. intros i. cbn. by rewrite (same_buffer _ _ H). Qed.
#[export] Instance erase_proper a : Proper (same_flash ==> same_flash) (boot_page_erase a).
Proof.
  intros f g H. unfold boot_page_erase. rewrite H. destruct (protected g _); [done|].
  split; cbn; [intros b Hb; by rewrite (same_cells _ _ H)|apply H| |apply H]. by rewrite (same_locked _ _ H).
Qed.
#[export] Instance write_proper a : Proper (same_flash ==> same_flash) (boot_page_write a).
Proof.
  intros f g H. unfold boot_page_write. rewrite H. destruct (protected g _); [done|].
  split; cbn; [intros b Hb|done| |apply H]; [|by rewrite (same_locked _ _ H)].
  by rewrite (same_cells _ _ H), (buffered_proper f g H b b eq_refl).
Qed.
#[export] Instance rww_proper : Proper (same_flash ==> same_flash) boot_rww_enable.
Proof. intros f g H. split; try done; apply H. Qed.
#[export] Instance read_byte_proper locked_read a : Proper (same_flash ==> eq) (pgm_read_byte locked_read a).
Proof.
  intros f g H. unfold pgm_read_byte. rewrite (same_locked _ _ H).
  by rewrite (same_cells _ _ H) by apply index_range.
Qed.
#[export] Instance read_word_proper locked_read a : Proper (same_flash ==> eq) (pgm_read_word locked_read a).
Proof. intros f g H. unfold pgm_read_word. by rewrite !(read_byte_proper locked_read _ f g H). Qed.

End Flash.
