(* ===== verification/Dfu.v ===== *)
(** * The DFU bootloader

    LUFA's BootloaderDFU.c for the ATmega32U4, the program the firmware's
    [Jump_To_Bootloader] asks for: it lives in the bootloader section, from
    [BOOT_START_ADDR] on, and rewrites the application below it.  The LEDs are those
    of the makefile's board, and of the conditional parts the [#else] branches are
    compiled.

    The bootloader is a control-only device, so that the only endpoint is number 0;
    [ctl] has the bits of its registers which the code reads, its bank and the
    device's state.  A polling loop takes one [happening] before each of its passes,
    as in UsbDevice.v; here the interrupt of a change of the bus is its effect on
    [USB_DeviceState].  A function of the C code is an action [act]: it may end
    early ([return] out of a polling loop when the device is unplugged), which is
    the result [None]. *)

From S2P Require Import Prelude.
From S2P Require Import Avr.
From S2P Require Import UsbMidi.
From S2P Require Import UsbDevice.
From S2P Require Import Flash.

Module Dfu.
Import Avr Flash.

Import UsbMidi(usb_state(..)).
Import UsbDevice(USB_Request_Header_t(..), bmRequestType, bRequest, wValue, wIndex, wLength).
#[local] Existing Instance UsbMidi.usb_state_eq_dec.

(** ** Constants *)

Definition FIXED_CONTROL_ENDPOINT_SIZE : Z := 32.
Definition SECURE_MODE : bool := false.
Definition BOOTLOADER_VERSION_MINOR : Z := 2.
Definition BOOTLOADER_VERSION_REV : Z := 0.
Definition MAGIC_BOOT_KEY : Z := 56386.   (* 0xDC42 *)
Definition BOOTLOADER_VERSION : Z := Z.lor (Z.shiftl BOOTLOADER_VERSION_MINOR 4) BOOTLOADER_VERSION_REV.
Definition BOOTLOADER_ID_BYTE1 : Z := 220.   (* 0xDC *)
Definition BOOTLOADER_ID_BYTE2 : Z := 251.   (* 0xFB *)
Definition AVR_SIGNATURE_1 : Z := 30.    (* 0x1E *)
Definition AVR_SIGNATURE_2 : Z := 149.   (* 0x95 *)
Definition AVR_SIGNATURE_3 : Z := 135.   (* 0x87 *)
Definition DFU_FILE_SUFFIX_SIZE : Z := 16.
Definition DFU_FILLER_BYTES_SIZE : Z := 26.
Definition DFU_REQ_DNLOAD : Z := 1.
Definition DFU_REQ_UPLOAD : Z := 2.
Definition DFU_REQ_GETSTATUS : Z := 3.
Definition DFU_REQ_CLRSTATUS : Z := 4.
Definition DFU_REQ_GETSTATE : Z := 5.
Definition DFU_REQ_ABORT : Z := 6.
Definition COMMAND_PROG_START : Z := 1.
Definition COMMAND_DISP_DATA : Z := 3.
Definition COMMAND_WRITE : Z := 4.
Definition COMMAND_READ : Z := 5.
Definition COMMAND_CHANGE_BASE_ADDR : Z := 6.
Definition CONTROL_REQTYPE_TYPE : Z := 96.
Definition CONTROL_REQTYPE_RECIPIENT : Z := 31.
Definition REQTYPE_CLASS : Z := 32.
Definition REQREC_INTERFACE : Z := 1.
Definition REQDIR_DEVICETOHOST : Z := 128.

Inductive DFU_State_t :=
  | appIDLE | appDETACH | dfuIDLE | dfuDNLOAD_SYNC | dfuDNBUSY | dfuDNLOAD_IDLE
  | dfuMANIFEST_SYNC | dfuMANIFEST | dfuMANIFEST_WAIT_RESET | dfuUPLOAD_IDLE | dfuERROR.
Inductive DFU_Status_t :=
  | OK | errTARGET | errFILE | errWRITE | errERASE | errCHECK_ERASED | errPROG | errVERIFY
  | errADDRESS | errNOTDONE | errFIRMWARE | errVENDOR | errUSBR | errPOR | errUNKNOWN
  | errSTALLEDPKT.

#[export] Instance state_eq_dec : EqDecision DFU_State_t.
Proof. solve_decision. Defined.
#[export] Instance status_eq_dec : EqDecision DFU_Status_t.
Proof. solve_decision. Defined.

(** The values of the enumerations, which the host receives. *)
Definition state_value (st : DFU_State_t) : Z :=
  match st with
  | appIDLE => 0 | appDETACH => 1 | dfuIDLE => 2 | dfuDNLOAD_SYNC => 3 | dfuDNBUSY => 4
  | dfuDNLOAD_IDLE => 5 | dfuMANIFEST_SYNC => 6 | dfuMANIFEST => 7 | dfuMANIFEST_WAIT_RESET => 8
  | dfuUPLOAD_IDLE => 9 | dfuERROR => 10
  end.
Definition status_value (st : DFU_Status_t) : Z :=
  match st with
  | OK => 0 | errTARGET => 1 | errFILE => 2 | errWRITE => 3 | errERASE => 4
  | errCHECK_ERASED => 5 | errPROG => 6 | errVERIFY => 7 | errADDRESS => 8 | errNOTDONE => 9
  | errFIRMWARE => 10 | errVENDOR => 11 | errUSBR => 12 | errPOR => 13 | errUNKNOWN => 14
  | errSTALLEDPKT => 15
  end.

(** ** State *)

(** The control endpoint: flags of its interrupt register, the stall request, the
    bytes of its bank not yet read, those written to it, and the packets handed to
    the host. *)
Record ctl := mk_ctl {
  USB_DeviceState : usb_state;
  RXSTPI : bool;
  RXOUTI : bool;
  TXINI : bool;
  STALLRQ : bool;
  received : list Z;
  bank : list Z;
  answered : list (list Z)
}.

Record DFU_Command_t := mk_command {
  Command : Z;
  Data : list Z;
  DataSize : Z
}.

Record boot := mk_boot {
  ep0 : ctl;
  IsSecure : bool;
  RunBootloader : bool;
  WaitForExit : bool;
  DFU_State : DFU_State_t;
  DFU_Status : DFU_Status_t;
  SentCommand : DFU_Command_t;
  ResponseByte : Z;
  AppStartPtr : Z;
  Flash64KBPage : Z;
  StartAddr : Z;
  EndAddr : Z;
  MagicBootKey : Z;
  fl : flash;
  eeprom : list Z;
  cpu : avr
}.

Definition set_USB_DeviceState (v : usb_state) (c : ctl) : ctl :=
  mk_ctl v c.(RXSTPI) c.(RXOUTI) c.(TXINI) c.(STALLRQ) c.(received) c.(bank) c.(answered).
Definition set_RXSTPI (v : bool) (c : ctl) : ctl :=
  mk_ctl c.(USB_DeviceState) v c.(RXOUTI) c.(TXINI) c.(STALLRQ) c.(received) c.(bank)
      c.(answered).
Definition set_RXOUTI (v : bool) (c : ctl) : ctl :=
  mk_ctl c.(USB_DeviceState) c.(RXSTPI) v c.(TXINI) c.(STALLRQ) c.(received) c.(bank)
      c.(answered).
Definition set_TXINI (v : bool) (c : ctl) : ctl :=
  mk_ctl c.(USB_DeviceState) c.(RXSTPI) c.(RXOUTI) v c.(STALLRQ) c.(received) c.(bank)
      c.(answered).
Definition set_STALLRQ (v : bool) (c : ctl) : ctl :=
  mk_ctl c.(USB_DeviceState) c.(RXSTPI) c.(RXOUTI) c.(TXINI) v c.(received) c.(bank)
      c.(answered).
Definition set_received (v : list Z) (c : ctl) : ctl :=
  mk_ctl c.(USB_DeviceState) c.(RXSTPI) c.(RXOUTI) c.(TXINI) c.(STALLRQ) v c.(bank) c.(answered).
Definition set_bank (v : list Z) (c : ctl) : ctl :=
  mk_ctl c.(USB_DeviceState) c.(RXSTPI) c.(RXOUTI) c.(TXINI) c.(STALLRQ) c.(received) v
      c.(answered).
Definition set_answered (v : list (list Z)) (c : ctl) : ctl :=
  mk_ctl c.(USB_DeviceState) c.(RXSTPI) c.(RXOUTI) c.(TXINI) c.(STALLRQ) c.(received) c.(bank) v.
Definition set_ep0 (v : ctl) (s : boot) : boot :=
  mk_boot v s.(IsSecure) s.(RunBootloader) s.(WaitForExit) s.(DFU_State) s.(DFU_Status)
      s.(SentCommand) s.(ResponseByte) s.(AppStartPtr) s.(Flash64KBPage) s.(StartAddr) s.(EndAddr)
      s.(MagicBootKey) s.(fl) s.(eeprom) s.(cpu).
Definition set_IsSecure (v : bool) (s : boot) : boot :=
  mk_boot s.(ep0) v s.(RunBootloader) s.(WaitForExit) s.(DFU_State) s.(DFU_Status)
      s.(SentCommand) s.(ResponseByte) s.(AppStartPtr) s.(Flash64KBPage) s.(StartAddr) s.(EndAddr)
      s.(MagicBootKey) s.(fl) s.(eeprom) s.(cpu).
Definition set_RunBootloader (v : bool) (s : boot) : boot :=
  mk_boot s.(ep0) s.(IsSecure) v s.(WaitForExit) s.(DFU_State) s.(DFU_Status) s.(SentCommand)
      s.(ResponseByte) s.(AppStartPtr) s.(Flash64KBPage) s.(StartAddr) s.(EndAddr)
      s.(MagicBootKey) s.(fl) s.(eeprom) s.(cpu).
Definition set_WaitForExit (v : bool) (s : boot) : boot :=
  mk_boot s.(ep0) s.(IsSecure) s.(RunBootloader) v s.(DFU_State) s.(DFU_Status) s.(SentCommand)
      s.(ResponseByte) s.(AppStartPtr) s.(Flash64KBPage) s.(StartAddr) s.(EndAddr)
      s.(MagicBootKey) s.(fl) s.(eeprom) s.(cpu).
Definition set_DFU_State (v : DFU_State_t) (s : boot) : boot :=
  mk_boot s.(ep0) s.(IsSecure) s.(RunBootloader) s.(WaitForExit) v s.(DFU_Status)
      s.(SentCommand) s.(ResponseByte) s.(AppStartPtr) s.(Flash64KBPage) s.(StartAddr) s.(EndAddr)
      s.(MagicBootKey) s.(fl) s.(eeprom) s.(cpu).
Definition set_DFU_Status (v : DFU_Status_t) (s : boot) : boot :=
  mk_boot s.(ep0) s.(IsSecure) s.(RunBootloader) s.(WaitForExit) s.(DFU_State) v s.(SentCommand)
      s.(ResponseByte) s.(AppStartPtr) s.(Flash64KBPage) s.(StartAddr) s.(EndAddr)
      s.(MagicBootKey) s.(fl) s.(eeprom) s.(cpu).
Definition set_SentCommand (v : DFU_Command_t) (s : boot) : boot :=
  mk_boot s.(ep0) s.(IsSecure) s.(RunBootloader) s.(WaitForExit) s.(DFU_State) s.(DFU_Status) v
      s.(ResponseByte) s.(AppStartPtr) s.(Flash64KBPage) s.(StartAddr) s.(EndAddr)
      s.(MagicBootKey) s.(fl) s.(eeprom) s.(cpu).
Definition set_ResponseByte (v : Z) (s : boot) : boot :=
  mk_boot s.(ep0) s.(IsSecure) s.(RunBootloader) s.(WaitForExit) s.(DFU_State) s.(DFU_Status)
      s.(SentCommand) v s.(AppStartPtr) s.(Flash64KBPage) s.(StartAddr) s.(EndAddr)
      s.(MagicBootKey) s.(fl) s.(eeprom) s.(cpu).
Definition set_AppStartPtr (v : Z) (s : boot) : boot :=
  mk_boot s.(ep0) s.(IsSecure) s.(RunBootloader) s.(WaitForExit) s.(DFU_State) s.(DFU_Status)
      s.(SentCommand) s.(ResponseByte) v s.(Flash64KBPage) s.(StartAddr) s.(EndAddr)
      s.(MagicBootKey) s.(fl) s.(eeprom) s.(cpu).
Definition set_Flash64KBPage (v : Z) (s : boot) : boot :=
  mk_boot s.(ep0) s.(IsSecure) s.(RunBootloader) s.(WaitForExit) s.(DFU_State) s.(DFU_Status)
      s.(SentCommand) s.(ResponseByte) s.(AppStartPtr) v s.(StartAddr) s.(EndAddr)
      s.(MagicBootKey) s.(fl) s.(eeprom) s.(cpu).
Definition set_StartAddr (v : Z) (s : boot) : boot :=
  mk_boot s.(ep0) s.(IsSecure) s.(RunBootloader) s.(WaitForExit) s.(DFU_State) s.(DFU_Status)
      s.(SentCommand) s.(ResponseByte) s.(AppStartPtr) s.(Flash64KBPage) v s.(EndAddr)
      s.(MagicBootKey) s.(fl) s.(eeprom) s.(cpu).
Definition set_EndAddr (v : Z) (s : boot) : boot :=
  mk_boot s.(ep0) s.(IsSecure) s.(RunBootloader) s.(WaitForExit) s.(DFU_State) s.(DFU_Status)
      s.(SentCommand) s.(ResponseByte) s.(AppStartPtr) s.(Flash64KBPage) s.(StartAddr) v
      s.(MagicBootKey) s.(fl) s.(eeprom) s.(cpu).
Definition set_MagicBootKey (v : Z) (s : boot) : boot :=
  mk_boot s.(ep0) s.(IsSecure) s.(RunBootloader) s.(WaitForExit) s.(DFU_State) s.(DFU_Status)
      s.(SentCommand) s.(ResponseByte) s.(AppStartPtr) s.(Flash64KBPage) s.(StartAddr) s.(EndAddr)
      v s.(fl) s.(eeprom) s.(cpu).
Definition set_fl (v : flash) (s : boot) : boot :=
  mk_boot s.(ep0) s.(IsSecure) s.(RunBootloader) s.(WaitForExit) s.(DFU_State) s.(DFU_Status)
      s.(SentCommand) s.(ResponseByte) s.(AppStartPtr) s.(Flash64KBPage) s.(StartAddr) s.(EndAddr)
      s.(MagicBootKey) v s.(eeprom) s.(cpu).
Definition set_eeprom (v : list Z) (s : boot) : boot :=
  mk_boot s.(ep0) s.(IsSecure) s.(RunBootloader) s.(WaitForExit) s.(DFU_State) s.(DFU_Status)
      s.(SentCommand) s.(ResponseByte) s.(AppStartPtr) s.(Flash64KBPage) s.(StartAddr) s.(EndAddr)
      s.(MagicBootKey) s.(fl) v s.(cpu).
Definition set_cpu (v : avr) (s : boot) : boot :=
  mk_boot s.(ep0) s.(IsSecure) s.(RunBootloader) s.(WaitForExit) s.(DFU_State) s.(DFU_Status)
      s.(SentCommand) s.(ResponseByte) s.(AppStartPtr) s.(Flash64KBPage) s.(StartAddr) s.(EndAddr)
      s.(MagicBootKey) s.(fl) s.(eeprom) v.

Definition on_ep0 (f : ctl -> ctl) (s : boot) : boot := set_ep0 (f s.(ep0)) s.
Definition on_fl (f : flash -> flash) (s : boot) : boot := set_fl (f s.(fl)) s.
Definition on_cpu (f : avr -> avr) (s : boot) : boot := set_cpu (f s.(cpu)) s.
Definition set_Command (v : Z) (s : boot) : boot :=
  set_SentCommand (mk_command v s.(SentCommand).(Data) s.(SentCommand).(DataSize)) s.
Definition set_DataSize (v : Z) (s : boot) : boot :=
  set_SentCommand (mk_command s.(SentCommand).(Command) s.(SentCommand).(Data) (u16 v)) s.
Definition set_Data (i v : Z) (s : boot) : boot :=
  set_SentCommand (mk_command s.(SentCommand).(Command) (<[Z.to_nat i := v]> s.(SentCommand).(Data))
                     s.(SentCommand).(DataSize)) s.

(** [SentCommand.Data[i]], whose index is a constant below five. *)
Definition data (i : Z) (s : boot) : Z := tbl s.(SentCommand).(Data) i.
Definition IS_ONEBYTE_COMMAND (s : boot) (cb1 : Z) : bool := data 0 s =? cb1.
Definition IS_TWOBYTE_COMMAND (s : boot) (cb1 cb2 : Z) : bool :=
  (data 0 s =? cb1) && (data 1 s =? cb2).

(** ** The control endpoint *)

Inductive happening :=
  | Nothing | BankFree | SendsOUT (data : list Z) | SendsSETUP (data : list Z)
  | Becomes (st : usb_state).

#[export] Instance happening_eq_dec : EqDecision happening.
Proof. solve_decision. Defined.

Definition happen (h : happening) (c : ctl) : ctl :=
  match h with
  | Nothing => c
  | BankFree => set_TXINI true c
  | SendsOUT data => set_RXOUTI true (set_received data c)
  | SendsSETUP data => set_RXSTPI true (set_STALLRQ false (set_received data c))
  | Becomes st => set_USB_DeviceState st c
  end.

Definition Endpoint_ClearSETUP : ctl -> ctl := set_RXSTPI false.
Definition Endpoint_ClearOUT (c : ctl) : ctl := set_RXOUTI false (set_received [] c).
Definition Endpoint_ClearIN (c : ctl) : ctl :=
  set_TXINI false (set_bank [] (set_answered (c.(answered) ++ [c.(bank)]) c)).
Definition Endpoint_StallTransaction : ctl -> ctl := set_STALLRQ true.

(** The byte counter: up with a write to the bank, down with a read. *)
Definition Endpoint_BytesInEndpoint (c : ctl) : Z :=
  Z.of_nat (length c.(received)) + Z.of_nat (length c.(bank)).
(** The data sheet does not say what a read of an empty bank gives; here it is zero.  The bootloader
    reads an empty bank only when a packet is shorter than its request says. *)
Definition Endpoint_Read_8 (c : ctl) : Z * ctl :=
  match c.(received) with b :: l => (b, set_received l c) | [] => (0, c) end.
Definition Endpoint_Discard_8 (c : ctl) : ctl := snd (Endpoint_Read_8 c).
Definition Endpoint_Read_16_LE (c : ctl) : Z * ctl :=
  let '(lo, c) := Endpoint_Read_8 c in
  let '(hi, c) := Endpoint_Read_8 c in
  (lo + 256 * hi, c).
Definition Endpoint_Write_8 (b : Z) (c : ctl) : ctl := set_bank (c.(bank) ++ [b]) c.
Definition Endpoint_Write_16_LE (w : Z) (c : ctl) : ctl :=
  Endpoint_Write_8 (u8 (Z.shiftr w 8)) (Endpoint_Write_8 (Z.land w 255) c).

(** ** Actions *)

Definition act (A : Type) : Type := boot -> list happening -> res (option A * boot * list happening).

#[export] Instance act_ret : MRet act := fun A a s env => Ok (Some a, s, env).
#[export] Instance act_bind : MBind act := fun A B k m s env =>
  match m s env with
  | Ok (Some a, s, env) => k a s env
  | Ok (None, s, env) => Ok (None, s, env)
  | Fault e => Fault e
  end.

Definition gets {A} (f : boot -> A) : act A := fun s env => Ok (Some (f s), s, env).
Definition modify (f : boot -> boot) : act unit := fun s env => Ok (Some tt, f s, env).
Definition tries (f : boot -> res boot) : act unit := fun s env =>
  match f s with Ok s => Ok (Some tt, s, env) | Fault e => Fault e end.
Definition from_ep0 {A} (f : ctl -> A * ctl) : act A := fun s env =>
  let '(a, c) := f s.(ep0) in Ok (Some a, set_ep0 c s, env).
Definition skip : act unit := mret tt.

(** A call: an early return ends the callee only. *)
Definition call (m : act unit) : act unit := fun s env =>
  match m s env with
  | Ok (_, s, env) => Ok (Some tt, s, env)
  | Fault e => Fault e
  end.

(** [while (!ready) if (USB_DeviceState == DEVICE_STATE_Unattached) return;] *)
Fixpoint poll (ready : ctl -> bool) (env : list happening) (s : boot)
    : res (option unit * boot * list happening) :=
  if ready s.(ep0) then Ok (Some tt, s, env)
  else if bool_decide (s.(ep0).(USB_DeviceState) = DEVICE_STATE_Unattached) then Ok (None, s, env)
  else
    match env with
    | [] => Fault OutOfFuel
    | h :: env => poll ready env (on_ep0 (happen h) s)
    end.
Definition wait (ready : ctl -> bool) : act unit := fun s env => poll ready env s.

Definition Endpoint_ClearStatusStage (q : USB_Request_Header_t) : act unit :=
  call (if has_bits q.(bmRequestType) REQDIR_DEVICETOHOST
        then wait RXOUTI;; modify (on_ep0 Endpoint_ClearOUT)
        else wait TXINI;; modify (on_ep0 Endpoint_ClearIN)).

(** The next packet, when the last one is used up. *)
Definition refill_OUT : act unit :=
  n ← gets (fun s => Endpoint_BytesInEndpoint s.(ep0));
  if n =? 0 then modify (on_ep0 Endpoint_ClearOUT);; wait RXOUTI else skip.
Definition drain_IN : act unit :=
  n ← gets (fun s => Endpoint_BytesInEndpoint s.(ep0));
  if n =? FIXED_CONTROL_ENDPOINT_SIZE then modify (on_ep0 Endpoint_ClearIN);; wait TXINI else skip.

(** ** LEDs of the board (USBKEY/LEDs.h) *)

Definition LEDS_LED1 : Z := bv 4.
Definition LEDS_LED2 : Z := bv 5.
Definition LEDS_ALL_LEDS : Z := 240.
Definition LEDs_Init (r : avr) : avr :=
  let r := set_DDRD (or_bits r.(DDRD) LEDS_ALL_LEDS) r in
  set_PORTD (clear_bits r.(PORTD) LEDS_ALL_LEDS) r.
Definition LEDs_Disable (r : avr) : avr :=
  let r := set_DDRD (clear_bits r.(DDRD) LEDS_ALL_LEDS) r in
  set_PORTD (clear_bits r.(PORTD) LEDS_ALL_LEDS) r.
Definition LEDs_SetAllLEDs (LEDMask : Z) (r : avr) : avr :=
  set_PORTD (or_bits (clear_bits r.(PORTD) LEDS_ALL_LEDS) LEDMask) r.
(** A one written to PIND toggles the bit of PORTD. *)
Definition LEDs_ToggleLEDs (LEDMask : Z) (r : avr) : avr :=
  set_PORTD (u8 (Z.lxor r.(PORTD) LEDMask)) r.
(** ** Commands *)

Section bootloader.
Variable refill : Z -> Z -> Z.
Variable locked_read : Z -> Z.
Variable fuses : Z -> Z.

(** The union of two 16-bit words, the low one first. *)
Definition CurrFlashAddress (s : boot) : Z := s.(StartAddr) + 65536 * s.(Flash64KBPage).

Definition LoadStartEndAddresses (s : boot) : boot :=
  let s' := set_StartAddr (data 2 s + 256 * data 1 s) s in
  set_EndAddr (data 4 s + 256 * data 3 s) s'.

Definition ProcessMemProgCommand (s : boot) : boot :=
  if IS_ONEBYTE_COMMAND s 0 || IS_ONEBYTE_COMMAND s 1 then
    let s := LoadStartEndAddresses s in
    let s := if IS_ONEBYTE_COMMAND s 0 then on_fl (boot_page_erase (CurrFlashAddress s)) s else s in
    set_DFU_State dfuDNLOAD_IDLE s
  else s.

(** [while (CurrFlashAddress < BOOT_START_ADDR)]: the first byte from [a] on that
    is not blank, of the [n] bytes left. *)
Fixpoint first_nonblank (n : nat) (a : Z) (f : flash) : option Z :=
  match n with
  | O => None
  | S n => if negb (pgm_read_byte locked_read a f =? 255) then Some a else first_nonblank n (a + 1) f
  end.

Definition ProcessMemReadCommand (s : boot) : boot :=
  if IS_ONEBYTE_COMMAND s 0 || IS_ONEBYTE_COMMAND s 2 then
    set_DFU_State dfuUPLOAD_IDLE (LoadStartEndAddresses s)
  else if IS_ONEBYTE_COMMAND s 1 then
    match first_nonblank (Z.to_nat BOOT_START_ADDR) 0 s.(fl) with
    | Some CurrFlashAddress =>
        let s := set_Flash64KBPage (u8 (Z.shiftr CurrFlashAddress 16)) s in
        let s := set_StartAddr (u16 CurrFlashAddress) s in
        set_DFU_Status errCHECK_ERASED (set_DFU_State dfuERROR s)
    | None => s
    end
  else s.

(** [while (CurrFlashAddress < BOOT_START_ADDR)], a page at a time. *)
Definition erase_application (f : flash) : flash :=
  for_pure (Z.to_nat (BOOT_START_ADDR / SPM_PAGESIZE)) 0 (fun p f =>
    boot_page_write (p * SPM_PAGESIZE) (boot_page_erase (p * SPM_PAGESIZE) f)) f.

Definition WDTO_250MS : Z := 4.

Definition ProcessWriteCommand (s : boot) : boot :=
  if IS_ONEBYTE_COMMAND s 3 then
    let s := set_WaitForExit true s in
    if negb (s.(SentCommand).(DataSize) =? 0) then
      if data 1 s =? 1 then set_AppStartPtr (data 4 s + 256 * data 3 s) s else s
    else if data 1 s =? 0 then
      on_cpu (wdt_enable WDTO_250MS) (set_MagicBootKey MAGIC_BOOT_KEY s)
    else if pgm_read_word locked_read 0 s.(fl) =? 65535 then set_RunBootloader false s
    else s
  else if IS_TWOBYTE_COMMAND s 0 255 then
    set_IsSecure false (on_fl (fun f => boot_rww_enable (erase_application f)) s)
  else s.

Definition BootloaderInfo : list Z := [BOOTLOADER_VERSION; BOOTLOADER_ID_BYTE1; BOOTLOADER_ID_BYTE2].
Definition SignatureInfo : list Z := [88; AVR_SIGNATURE_1; AVR_SIGNATURE_2; AVR_SIGNATURE_3].

(** The byte a Data Read command asks for; [None] when the address is invalid. *)
Definition read_info (s : boot) : option (option Z) :=
  let DataIndexToRead := data 1 s in
  if IS_ONEBYTE_COMMAND s 0 then
    if DataIndexToRead <? 3 then Some (Some (tbl BootloaderInfo DataIndexToRead)) else None
  else if IS_ONEBYTE_COMMAND s 1 then
    if DataIndexToRead =? 48 then Some (Some (tbl SignatureInfo 0))
    else if DataIndexToRead =? 49 then Some (Some (tbl SignatureInfo 1))
    else if DataIndexToRead =? 96 then Some (Some (tbl SignatureInfo 2))
    else if DataIndexToRead =? 97 then Some (Some (tbl SignatureInfo 3))
    else None
  else Some None.

Definition ProcessReadCommand (s : boot) : boot :=
  match read_info s with
  | Some (Some b) => set_ResponseByte b s
  | Some None => s
  | None => set_DFU_Status errADDRESS (set_DFU_State dfuERROR s)
  end.

(** The commands that secure mode allows. *)
Definition allowed_secure (s : boot) : bool :=
  ((s.(SentCommand).(Command) =? COMMAND_WRITE) && IS_TWOBYTE_COMMAND s 0 255) ||
  (s.(SentCommand).(Command) =? COMMAND_READ).

Definition ProcessBootloaderCommand (s : boot) : boot :=
  if s.(IsSecure) && negb (allowed_secure s) then
    on_ep0 Endpoint_StallTransaction (set_DFU_Status errWRITE (set_DFU_State dfuERROR s))
  else
    let c := s.(SentCommand).(Command) in
    if c =? COMMAND_PROG_START then ProcessMemProgCommand s
    else if c =? COMMAND_DISP_DATA then ProcessMemReadCommand s
    else if c =? COMMAND_WRITE then ProcessWriteCommand s
    else if c =? COMMAND_READ then ProcessReadCommand s
    else if c =? COMMAND_CHANGE_BASE_ADDR then
      if IS_TWOBYTE_COMMAND s 3 0 then set_Flash64KBPage (data 2 s) s else s
    else s.

(** ** Requests *)

(** A pass that finds the bank empty takes the next packet, and discards nothing. *)
Fixpoint discard_bytes (n : nat) : act unit :=
  match n with
  | O => skip
  | S n =>
      (b ← gets (fun s => Endpoint_BytesInEndpoint s.(ep0));
       if b =? 0 then modify (on_ep0 Endpoint_ClearOUT);; wait RXOUTI
       else modify (on_ep0 Endpoint_Discard_8));;
      discard_bytes n
  end.
Definition DiscardFillerBytes (NumberOfBytes : Z) : act unit :=
  call (discard_bytes (Z.to_nat NumberOfBytes)).

(** [for (DataByte = 0; DataByte < 5 && Endpoint_BytesInEndpoint(); DataByte++)] *)
Fixpoint load_data (n : nat) (DataByte : Z) (s : boot) : boot :=
  match n with
  | O => s
  | S n =>
      if Endpoint_BytesInEndpoint s.(ep0) =? 0 then s
      else
        let '(b, c) := Endpoint_Read_8 s.(ep0) in
        let s := set_Data DataByte b (set_ep0 c s) in
        load_data n (DataByte + 1) (set_DataSize (s.(SentCommand).(DataSize) - 1) s)
  end.

Definition load_command : act unit :=
  wait RXOUTI;;
  b ← from_ep0 Endpoint_Read_8;
  modify (set_Command b);;
  modify (fun s => set_DataSize (s.(SentCommand).(DataSize) - 1) s);;
  modify (load_data 5 0).

(** [while (WordsRemaining--)] of a flash download; [addr] is [CurrFlashAddress],
    [first] is [CurrFlashPageStartAddress]. *)
Fixpoint write_flash (WordsRemaining : nat) (addr first WordsInFlashPage : Z) : act unit :=
  match WordsRemaining with
  | O => skip
  | S WordsRemaining =>
      refill_OUT;;
      w ← from_ep0 Endpoint_Read_16_LE;
      modify (on_fl (boot_page_fill refill addr w));;
      let WordsInFlashPage := u8 (WordsInFlashPage + 1) in
      let addr := u32 (addr + 2) in
      if (WordsInFlashPage =? Z.shiftr SPM_PAGESIZE 1) || (WordsRemaining =? 0)%nat then
        modify (on_fl (boot_page_write first));;
        if negb (WordsRemaining =? 0)%nat then
          modify (on_fl (boot_page_erase addr));;
          write_flash WordsRemaining addr addr 0
        else write_flash WordsRemaining addr first WordsInFlashPage
      else write_flash WordsRemaining addr first WordsInFlashPage
  end.

Definition eeprom_write_byte (Address b : Z) (s : boot) : res boot :=
  l ← wr s.(eeprom) Address b; Ok (set_eeprom l s).

(** [while (BytesRemaining--)] of an EEPROM download. *)
Fixpoint write_eeprom (BytesRemaining : nat) : act unit :=
  match BytesRemaining with
  | O => skip
  | S BytesRemaining =>
      refill_OUT;;
      b ← from_ep0 Endpoint_Read_8;
      a ← gets StartAddr;
      tries (eeprom_write_byte a b);;
      modify (fun s => set_StartAddr (u16 (s.(StartAddr) + 1)) s);;
      write_eeprom BytesRemaining
  end.

Definition BytesRemaining (s : boot) : Z := u16 (s.(EndAddr) - s.(StartAddr) + 1).

Definition download_memory : act unit :=
  n ← gets BytesRemaining;
  is_flash ← gets (fun s => IS_ONEBYTE_COMMAND s 0);
  if (is_flash : bool) then
    a ← gets CurrFlashAddress;
    write_flash (Z.to_nat (Z.shiftr n 1)) a a 0;;
    modify (fun s => set_StartAddr s.(EndAddr) s);;
    modify (on_fl boot_rww_enable)
  else write_eeprom (Z.to_nat n).

Definition download_stage : act unit :=
  st ← gets DFU_State;
  if decide (st = dfuDNLOAD_IDLE) then
    n ← gets (fun s => s.(SentCommand).(DataSize));
    if n =? 0 then modify (set_DFU_State dfuIDLE)
    else
      DiscardFillerBytes DFU_FILLER_BYTES_SIZE;;
      a ← gets StartAddr;
      DiscardFillerBytes (a mod FIXED_CONTROL_ENDPOINT_SIZE);;
      download_memory;;
      DiscardFillerBytes DFU_FILE_SUFFIX_SIZE
  else skip.

Definition exit_stage : act unit :=
  w ← gets WaitForExit;
  if (w : bool) then modify ProcessBootloaderCommand;; modify (set_WaitForExit false) else skip.

Definition command_stage : act unit :=
  n ← gets (fun s => s.(SentCommand).(DataSize));
  if negb (n =? 0) then load_command;; modify ProcessBootloaderCommand else skip.

Definition DFU_DNLOAD (q : USB_Request_Header_t) : act unit :=
  modify (on_ep0 Endpoint_ClearSETUP);;
  exit_stage;;
  command_stage;;
  download_stage;;
  modify (on_ep0 Endpoint_ClearOUT);;
  Endpoint_ClearStatusStage q.

(** [while (WordsRemaining--)] of a flash upload. *)
Fixpoint read_flash (WordsRemaining : nat) (addr : Z) : act unit :=
  match WordsRemaining with
  | O => skip
  | S WordsRemaining =>
      drain_IN;;
      w ← gets (fun s => pgm_read_word locked_read addr s.(fl));
      modify (on_ep0 (Endpoint_Write_16_LE w));;
      read_flash WordsRemaining (u32 (addr + 2))
  end.

(** [while (BytesRemaining--)] of an EEPROM upload. *)
Fixpoint read_eeprom (BytesRemaining : nat) : act unit :=
  match BytesRemaining with
  | O => skip
  | S BytesRemaining =>
      drain_IN;;
      tries (fun s => b ← rd s.(eeprom) s.(StartAddr); Ok (on_ep0 (Endpoint_Write_8 b) s));;
      modify (fun s => set_StartAddr (u16 (s.(StartAddr) + 1)) s);;
      read_eeprom BytesRemaining
  end.

Definition upload_memory : act unit :=
  n ← gets BytesRemaining;
  kind ← gets (data 0);
  (if kind =? 0 then
     a ← gets CurrFlashAddress;
     read_flash (Z.to_nat (Z.shiftr n 1)) a;;
     modify (fun s => set_StartAddr s.(EndAddr) s)
   else if kind =? 2 then read_eeprom (Z.to_nat n)
   else skip);;
  modify (set_DFU_State dfuIDLE).

(** The answer to an upload outside a transfer. *)
Definition upload_response (s : boot) : boot :=
  if decide (s.(DFU_State) = dfuERROR) then
    if IS_ONEBYTE_COMMAND s 1 then on_ep0 (Endpoint_Write_16_LE s.(StartAddr)) s
    else on_ep0 (Endpoint_Write_8 s.(ResponseByte)) s
  else on_ep0 (Endpoint_Write_8 s.(ResponseByte)) s.

Definition upload_stage : act unit :=
  st ← gets DFU_State;
  if decide (st = dfuUPLOAD_IDLE) then upload_memory else modify upload_response.

Definition DFU_UPLOAD (q : USB_Request_Header_t) : act unit :=
  modify (on_ep0 Endpoint_ClearSETUP);;
  wait TXINI;;
  upload_stage;;
  modify (on_ep0 Endpoint_ClearIN);;
  Endpoint_ClearStatusStage q.

(** A request that answers with the bytes [bs] of the state. *)
Definition answer (bs : boot -> list Z) (q : USB_Request_Header_t) : act unit :=
  modify (on_ep0 Endpoint_ClearSETUP);;
  wait TXINI;;
  modify (fun s => foldl (fun s b => on_ep0 (Endpoint_Write_8 b) s) s (bs s));;
  modify (on_ep0 Endpoint_ClearIN);;
  Endpoint_ClearStatusStage q.

Definition DFU_GETSTATUS : USB_Request_Header_t -> act unit :=
  answer (fun s => [status_value s.(DFU_Status); 0; 0; 0; state_value s.(DFU_State); 0]).
Definition DFU_GETSTATE : USB_Request_Header_t -> act unit :=
  answer (fun s => [state_value s.(DFU_State)]).
Definition DFU_CLRSTATUS (q : USB_Request_Header_t) : act unit :=
  modify (on_ep0 Endpoint_ClearSETUP);; modify (set_DFU_Status OK);; Endpoint_ClearStatusStage q.
Definition DFU_ABORT (q : USB_Request_Header_t) : act unit :=
  modify (on_ep0 Endpoint_ClearSETUP);; modify (set_DFU_State dfuIDLE);; Endpoint_ClearStatusStage q.

Definition EVENT_USB_Device_ControlRequest (q : USB_Request_Header_t) : act unit :=
  if negb (Z.land q.(bmRequestType) (Z.lor CONTROL_REQTYPE_TYPE CONTROL_REQTYPE_RECIPIENT)
           =? Z.lor REQTYPE_CLASS REQREC_INTERFACE) then skip
  else
    modify (on_cpu (LEDs_ToggleLEDs (Z.lor LEDS_LED1 LEDS_LED2)));;
    modify (set_DataSize q.(wLength));;
    let r := q.(bRequest) in
    if r =? DFU_REQ_DNLOAD then DFU_DNLOAD q
    else if r =? DFU_REQ_UPLOAD then DFU_UPLOAD q
    else if r =? DFU_REQ_GETSTATUS then DFU_GETSTATUS q
    else if r =? DFU_REQ_CLRSTATUS then DFU_CLRSTATUS q
    else if r =? DFU_REQ_GETSTATE then DFU_GETSTATE q
    else if r =? DFU_REQ_ABORT then DFU_ABORT q
    else skip.

(** ** Start and end of the bootloader *)

Definition EXTRF : Z := 1.
Definition WDRF : Z := 3.
Definition IVCE : Z := 0.
Definition IVSEL : Z := 1.
Definition TOIE1 : Z := 0.
Definition CS10 : Z := 0.
Definition CS11 : Z := 1.
(** avr-libc's masks of the fuses have a zero at the fuse's bit. *)
Definition FUSE_BOOTRST : Z := 254.

Definition clear_MCUSR (bit : Z) (r : avr) : avr := set_MCUSR (clear_bits r.(MCUSR) (bv bit)) r.

(** Runs before [main]: whether it jumps to the application at address zero. *)
Definition Application_Jump_Check (s : boot) : bool * boot :=
  let '(JumpToApplication, s) :=
    if has_bits (boot_lock_fuse_bits_get fuses GET_HIGH_FUSE_BITS s.(fl)) FUSE_BOOTRST then
      (negb (has_bits s.(cpu).(MCUSR) (bv EXTRF)) || (s.(MagicBootKey) =? MAGIC_BOOT_KEY),
       on_cpu (clear_MCUSR EXTRF) s)
    else
      (has_bits s.(cpu).(MCUSR) (bv WDRF) && (s.(MagicBootKey) =? MAGIC_BOOT_KEY),
       on_cpu (clear_MCUSR WDRF) s) in
  let ApplicationValid := negb (pgm_read_word locked_read 0 s.(fl) =? 65535) in
  if JumpToApplication && ApplicationValid then
    let s := on_cpu (clear_MCUSR WDRF) s in
    let s := on_cpu wdt_disable s in
    (true, set_MagicBootKey 0 s)
  else (false, s).

Definition SetupHardware (s : boot) : boot :=
  let s := on_cpu (clear_MCUSR WDRF) s in
  let s := on_cpu wdt_disable s in
  let s := on_cpu (set_MCUCR (bv IVCE)) s in
  let s := on_cpu (set_MCUCR (bv IVSEL)) s in
  let s := on_ep0 (set_USB_DeviceState DEVICE_STATE_Unattached) s in
  let s := on_cpu LEDs_Init s in
  let s := on_cpu (set_TIMSK1 (bv TOIE1)) s in
  on_cpu (set_TCCR1B (Z.lor (bv CS11) (bv CS10))) s.

Definition ResetHardware (s : boot) : boot :=
  let s := on_cpu LEDs_Disable s in
  let s := on_cpu (set_TIMSK1 0) s in
  let s := on_cpu (set_TCCR1B 0) s in
  let s := on_cpu (set_MCUCR (bv IVCE)) s in
  on_cpu (set_MCUCR 0) s.

Definition TIMER1_OVF_vect (s : boot) : boot :=
  on_cpu (LEDs_ToggleLEDs (Z.lor LEDS_LED1 LEDS_LED2)) s.

(** A request of the host arrives, which takes back a stall, and is served. *)
Definition request (q : USB_Request_Header_t) (env : list happening) (s : boot) : res boot :=
  '(_, s, _) ← EVENT_USB_Device_ControlRequest q
                 (on_ep0 (fun c => set_RXSTPI true (set_STALLRQ false c)) s) env;
  Ok s.

(** What happens on the bus before a request, the request, and what happens while
    it is served. *)
Record visit := mk_visit {
  before : list happening;
  asks : USB_Request_Header_t;
  during : list happening
}.

Definition happens (env : list happening) (s : boot) : boot :=
  on_ep0 (fun c => foldl (fun c h => happen h c) c env) s.

(** How [main] ends: it waits for the next request, or has jumped to an address. *)
Inductive exit := Waits (s : boot) | JumpsTo (address : Z) (s : boot).

(** [while (RunBootloader || WaitForExit)] over the requests for the DFU interface.
    When no request is left, the watchdog resets the processor if it is on. *)
Fixpoint bootloader_loop (visits : list visit) (s : boot) : res exit :=
  if s.(RunBootloader) || s.(WaitForExit) then
    match visits with
    | [] => match s.(cpu).(WDT) with
            | Some _ => Fault (Reset s.(MagicBootKey))
            | None => Ok (Waits s)
            end
    | v :: visits => s ← request v.(asks) v.(during) (happens v.(before) s); bootloader_loop visits s
    end
  else
    let s := ResetHardware s in
    Ok (JumpsTo s.(AppStartPtr) s).

Definition main (visits : list visit) (s : boot) : res exit :=
  let s := SetupHardware s in
  let s := on_cpu (LEDs_SetAllLEDs LEDS_LED1) s in
  let s := on_cpu sei s in
  bootloader_loop visits s.

End bootloader.

(** The state after a reset with the memories [f] and [ee]: the variables have
    their initial values, [key] is what the uninitialised word holds. *)
Definition at_reset (f : flash) (ee : list Z) (mcusr key : Z) : boot :=
  mk_boot (mk_ctl DEVICE_STATE_Unattached false false false false [] [] [])
    SECURE_MODE true false dfuIDLE OK (mk_command 0 (replicate 5 0) 0) 0 0 0 0 0 key f ee
    (set_MCUSR mcusr reset).


End Dfu.
