(* ===== verification/DfuDescriptors.v ===== *)
(** * The bootloader's descriptors

    Descriptors.c of the DFU bootloader: the device, configuration and string
    descriptors, byte for byte from the packed structures of UsbDescriptors, and the
    lookup with which LUFA answers a Get Descriptor request. *)

From Stdlib Require Import String.
From S2P Require Import Prelude.
From S2P Require Import UsbDescriptors.
From S2P Require Import Dfu.

Module DfuDescriptors.
Import UsbDescriptors(field(..), width, sizeof, initialise, USB_Descriptor_Header_t, USB_Descriptor_Device_t,
  USB_Descriptor_Configuration_Header_t, USB_Descriptor_Interface_t, NO_DESCRIPTOR, DTYPE_Device,
  DTYPE_Configuration, DTYPE_String, DTYPE_Interface, USB_CONFIG_ATTR_RESERVED, LANGUAGE_ID_ENG,
  FIXED_NUM_CONFIGURATIONS, VERSION_BCD, USB_CONFIG_POWER_MA, USB_STRING_LEN, string_descriptor, chars,
  parse_descriptors).

(** ** Descriptors.h *)

Definition DTYPE_DFUFunctional : Z := 33.   (* 0x21 *)
Definition ATTR_CAN_UPLOAD : Z := 2.
Definition ATTR_CAN_DOWNLOAD : Z := 1.
Definition PRODUCT_ID_CODE : Z := 12276.    (* 0x2FF4 *)
Definition INTERFACE_ID_DFU : Z := 0.
Definition STRING_ID_Language : Z := 0.
Definition STRING_ID_Manufacturer : Z := 1.
Definition STRING_ID_Product : Z := 2.

Definition USB_Descriptor_DFU_Functional_t : list field :=
  USB_Descriptor_Header_t ++ [uint8_t; uint16_t; uint16_t; uint16_t].
Definition USB_Descriptor_Configuration_t : list field :=
  USB_Descriptor_Configuration_Header_t ++ USB_Descriptor_Interface_t ++ USB_Descriptor_DFU_Functional_t.

(** ** Descriptors.c *)

Definition DeviceDescriptor : list Z :=
  initialise USB_Descriptor_Device_t
    [ sizeof USB_Descriptor_Device_t; DTYPE_Device;
      VERSION_BCD 1 1 0;
      0; 0; 0;
      Dfu.FIXED_CONTROL_ENDPOINT_SIZE;
      1003; (* 0x03EB *)
      PRODUCT_ID_CODE;
      VERSION_BCD 0 0 0;
      STRING_ID_Manufacturer; STRING_ID_Product; NO_DESCRIPTOR;
      FIXED_NUM_CONFIGURATIONS ].

Definition Config : list Z :=
  initialise USB_Descriptor_Configuration_Header_t
    [ sizeof USB_Descriptor_Configuration_Header_t; DTYPE_Configuration;
      sizeof USB_Descriptor_Configuration_t; 1; 1; NO_DESCRIPTOR;
      USB_CONFIG_ATTR_RESERVED; USB_CONFIG_POWER_MA 100 ].
Definition DFU_Interface : list Z :=
  initialise USB_Descriptor_Interface_t
    [ sizeof USB_Descriptor_Interface_t; DTYPE_Interface; INTERFACE_ID_DFU; 0; 0; 254; 1; 2; NO_DESCRIPTOR ].
Definition DFU_Functional : list Z :=
  initialise USB_Descriptor_DFU_Functional_t
    [ sizeof USB_Descriptor_DFU_Functional_t; DTYPE_DFUFunctional; Z.lor ATTR_CAN_UPLOAD ATTR_CAN_DOWNLOAD;
      0; 3072; (* 0x0C00 *) VERSION_BCD 1 1 0 ].
Definition ConfigurationDescriptor : list Z := Config ++ DFU_Interface ++ DFU_Functional.

(** USB_STRING_DESCRIPTOR counts the literal's characters without the final zero. *)
Definition LanguageString : list Z := string_descriptor (USB_STRING_LEN 1) [LANGUAGE_ID_ENG].
Definition ManufacturerString : list Z := string_descriptor (USB_STRING_LEN 11) (chars "Dean Camera" ++ [0]).
Definition ProductString : list Z := string_descriptor (USB_STRING_LEN 8) (chars "LUFA DFU" ++ [0]).

Definition CALLBACK_USB_GetDescriptor (wValue : Z) : Z * option (list Z) :=
  let DescriptorType := u8 (Z.shiftr wValue 8) in
  let DescriptorNumber := Z.land wValue 255 in
  if DescriptorType =? DTYPE_Device then (sizeof USB_Descriptor_Device_t, Some DeviceDescriptor)
  else if DescriptorType =? DTYPE_Configuration then
    (sizeof USB_Descriptor_Configuration_t, Some ConfigurationDescriptor)
  else if DescriptorType =? DTYPE_String then
    if DescriptorNumber =? STRING_ID_Language then (tbl LanguageString 0, Some LanguageString)
    else if DescriptorNumber =? STRING_ID_Manufacturer then (tbl ManufacturerString 0, Some ManufacturerString)
    else if DescriptorNumber =? STRING_ID_Product then (tbl ProductString 0, Some ProductString)
    else (NO_DESCRIPTOR, None)
  else (NO_DESCRIPTOR, None).

(** ** Theorems *)

(** Whatever the host asks for, the size and the address that LUFA gets fit together: a size
    of zero with a null pointer, or an object of at least that many bytes whose second byte
    is the requested type and whose length byte is the size, the total length in the case of
    the configuration. *)
Theorem dfu_descriptor_lookup wValue :
  match CALLBACK_USB_GetDescriptor wValue with
  | (Size, None) => Size = NO_DESCRIPTOR
  | (Size, Some object) =>
      2 <= Size <= Z.of_nat (length object) /\ tbl object 1 = u8 (Z.shiftr wValue 8) /\
      Size = (if tbl object 1 =? DTYPE_Configuration then tbl object 2 + 256 * tbl object 3 else tbl object 0)
  end.
Proof.
  unfold CALLBACK_USB_GetDescriptor. cbv zeta.
  destruct (Z.eqb_spec (u8 (Z.shiftr wValue 8)) DTYPE_Device) as [->|_]; [vm_compute; by split_and!|].
  destruct (Z.eqb_spec (u8 (Z.shiftr wValue 8)) DTYPE_Configuration) as [->|_]; [vm_compute; by split_and!|].
  destruct (Z.eqb_spec (u8 (Z.shiftr wValue 8)) DTYPE_String) as [->|_]; [|done].
  do 3 (destruct (Z.land wValue 255 =? _); [vm_compute; by split_and!|]). done.
Qed.

(** What the host reads about the bootloader: the configuration is three descriptors, of
    which the second is an interface of the DFU class in DFU mode, without endpoints of its
    own, and the third offers downloads and uploads; the packets of the control endpoint
    have the size that the transfer loops count with, and the product is the one of the
    signature's chip. *)
Theorem dfu_descriptors_describe :
  parse_descriptors 3 ConfigurationDescriptor = Some [Config; DFU_Interface; DFU_Functional] /\
  (tbl DFU_Interface 4, tbl DFU_Interface 5, tbl DFU_Interface 6, tbl DFU_Interface 7) = (0, 254, 1, 2) /\
  tbl DFU_Functional 2 = 3 /\
  tbl DeviceDescriptor 7 = Dfu.FIXED_CONTROL_ENDPOINT_SIZE /\
  tbl DeviceDescriptor 10 + 256 * tbl DeviceDescriptor 11 = PRODUCT_ID_CODE.
Proof. by vm_compute. Qed.

End DfuDescriptors.
