(* ===== verification/DfuMemory.v ===== *)
(** * Downloads and uploads of the bootloader

    What a host that behaves obtains: data it programs into flash or EEPROM is
    what an upload reads back, and nothing else of the memories changes.  [feed]
    relates the bank of the control endpoint and the packets still to come to the
    stream of bytes that the loops of BootloaderDFU.c read; [takes] says how many
    banks the host takes. *)

From S2P Require Import Prelude.
From S2P Require Import Avr.
From S2P Require Import UsbMidi.
From S2P Require Import UsbDevice.
From S2P Require Import Flash.
From S2P Require Import Dfu.

Module DfuMemory.
Import Avr Flash Dfu.
Import UsbMidi(usb_state(..)).
Import UsbDevice(USB_Request_Header_t(..), bmRequestType, bRequest, wValue, wIndex, wLength).

(** ** Running actions *)

Lemma run_bind {A B} (m : act A) (k : A -> act B) a s env s' env' :
  m s env = Ok (Some a, s', env') -> (m ≫= k) s env = k a s' env'.
Proof. intros E. unfold mbind, act_bind. by rewrite E. Qed.

Lemma run_modify {B} f (k : unit -> act B) s env : (modify f ≫= k) s env = k tt (f s) env.
Proof. done. Qed.
Lemma run_gets {A B} (f : boot -> A) (k : A -> act B) s env : (gets f ≫= k) s env = k (f s) s env.
Proof. done. Qed.
Lemma run_assoc {A B C} (m : act A) (k : A -> act B) (h : B -> act C) s env :
  ((m ≫= k) ≫= h) s env = (m ≫= (fun a => k a ≫= h)) s env.
Proof. unfold mbind, act_bind. by destruct (m s env) as [[[[a|] ?] ?]|]. Qed.
Lemma run_ext {A B} (m : act A) (k k' : A -> act B) s env :
  (forall a s env, k a s env = k' a s env) -> (m ≫= k) s env = (m ≫= k') s env.
Proof. intros H. unfold mbind, act_bind. destruct (m s env) as [[[[a|] ?] ?]|]; [apply H|done..]. Qed.
Lemma run_call m s env a s' env' :
  m s env = Ok (a, s', env') -> call m s env = Ok (Some tt, s', env').
Proof. intros E. unfold call. by rewrite E. Qed.

(** ** The host's packets *)

Definition attached (c : ctl) : Prop := c.(USB_DeviceState) <> DEVICE_STATE_Unattached.

(** The host has nothing to say, or takes a bank. *)
Definition quiet (h : happening) : Prop := h = Nothing \/ h = BankFree.

(** The host sends the packets [ps] one after the other, at any moments. *)
Inductive delivers : list happening -> list (list Z) -> list happening -> Prop :=
  | delivers_done env : delivers env [] env
  | delivers_idle h env ps rest : quiet h -> delivers env ps rest -> delivers (h :: env) ps rest
  | delivers_packet p env ps rest : delivers env ps rest -> delivers (SendsOUT p :: env) (p :: ps) rest.

(** All packets but the last are full. *)
Fixpoint full_packets (ps : list (list Z)) : Prop :=
  match ps with
  | p :: (_ :: _) as ps' => length p = 32%nat /\ full_packets ps'
  | _ => True
  end.

(** What the code does not look at. *)
Record same_line (c c' : ctl) : Prop := {
  line_state : c'.(USB_DeviceState) = c.(USB_DeviceState);
  line_setup : c'.(RXSTPI) = c.(RXSTPI);
  line_stall : c'.(STALLRQ) = c.(STALLRQ);
  line_answered : c'.(answered) = c.(answered)
}.

#[export] Instance same_line_refl : Reflexive same_line.
Proof. done. Qed.
#[export] Instance same_line_trans : Transitive same_line.
Proof. intros c1 c2 c3 [] []. split; congruence. Qed.

(** A packet is in the bank, and the packets [ps] come next. *)
Record feed (c : ctl) (env : list happening) (ps : list (list Z)) (rest : list happening) : Prop := {
  feed_attached : attached c;
  feed_out : c.(RXOUTI) = true;
  feed_bank : c.(bank) = [];
  feed_delivers : delivers env ps rest;
  feed_nonempty : Forall (fun p => p <> []) ps;
  feed_full : full_packets ps
}.

(** The bytes the device will read. *)
Definition stream (c : ctl) (ps : list (list Z)) : list Z := c.(received) ++ concat ps.

Lemma full_tail p ps : full_packets (p :: ps) -> full_packets ps.
Proof. destruct ps; [done|]. by intros []. Qed.

Lemma line_quiet h c : quiet h -> same_line c (happen h c) /\
  (happen h c).(RXOUTI) = c.(RXOUTI) /\ (happen h c).(received) = c.(received) /\
  (happen h c).(bank) = c.(bank) /\ (happen h c).(TXINI) = c.(TXINI) || bool_decide (h = BankFree).
Proof. intros [-> | ->]; cbn; by rewrite ?orb_false_r, ?orb_true_r. Qed.

(** Waiting for the next packet. *)
Lemma wait_OUT env ps0 rest : delivers env ps0 rest -> forall p ps s,
  ps0 = p :: ps -> s.(ep0).(RXOUTI) = false -> attached s.(ep0) ->
  exists c' env', wait RXOUTI s env = Ok (Some tt, set_ep0 c' s, env') /\ same_line s.(ep0) c' /\
    c'.(RXOUTI) = true /\ c'.(received) = p /\ c'.(bank) = s.(ep0).(bank) /\ delivers env' ps rest.
Proof.
  induction 1 as [|h env ps0 rest Hh Hd IH|p0 env ps0 rest Hd IH]; intros p ps s Hps Hout Ha; [done|..];
    unfold wait; cbn [poll]; rewrite Hout, bool_decide_eq_false_2 by done.
  - destruct (line_quiet h s.(ep0) Hh) as (Hl & Ho & _ & Hb & _).
    destruct (IH p ps (on_ep0 (happen h) s) Hps) as (c' & env' & E & Hl' & H'); cbn [ep0 on_ep0 set_ep0].
    { congruence. }
    { unfold attached. by rewrite (line_state _ _ Hl). }
    exists c', env'. split; [exact E|]. split; [by transitivity (happen h s.(ep0))|].
    cbn [ep0 on_ep0 set_ep0] in H'. by rewrite Hb in H'.
  - injection Hps as -> ->. eexists _, env. split; [by destruct env|]. done.
Qed.

(** The next packet is taken when the bank is empty, and only then. *)
Lemma refill_OUT_ok s env ps rest :
  feed s.(ep0) env ps rest -> stream s.(ep0) ps <> [] ->
  exists c' env' ps', refill_OUT s env = Ok (Some tt, set_ep0 c' s, env') /\
    same_line s.(ep0) c' /\ feed c' env' ps' rest /\ stream c' ps' = stream s.(ep0) ps /\
    c'.(received) <> [] /\ c'.(received) :: ps' = (if decide (s.(ep0).(received) = []) then ps
      else s.(ep0).(received) :: ps).
Proof.
  intros [] Hne. unfold refill_OUT. rewrite run_gets. cbv beta.
  unfold Endpoint_BytesInEndpoint. rewrite feed_bank0.
  destruct (decide (s.(ep0).(received) = [])) as [Hr|Hr].
  - rewrite Hr. cbn [length]. change (Z.of_nat 0 + Z.of_nat 0 =? 0) with true. cbv beta iota. rewrite run_modify.
    unfold stream in *. rewrite Hr in *. destruct ps as [|p ps]; [done|].
    destruct (wait_OUT _ _ _ feed_delivers0 p ps (on_ep0 Endpoint_ClearOUT s) eq_refl eq_refl feed_attached0)
      as (c' & env' & E & Hl & Ho & Hrc & Hb & Hd). rewrite E.
    exists c', env', ps. apply Forall_cons_1 in feed_nonempty0 as [Hp Hps].
    split; [done|]. split; [by destruct Hl|]. split.
    { split; try done; [|by rewrite Hb|by apply full_tail in feed_full0].
      unfold attached. by rewrite (line_state _ _ Hl). }
    by rewrite Hrc.
  - replace (_ =? 0) with false by (destruct s.(ep0).(received); [done|cbn; lia]).
    exists s.(ep0), env, ps. split; [by destruct s|]. by repeat split.
Qed.
Definition even_packets (c : ctl) (ps : list (list Z)) : Prop :=
  Forall (fun p => Nat.Even (length p)) (c.(received) :: ps).

Lemma even_refilled c c' ps ps' :
  even_packets c ps ->
  c'.(received) :: ps' = (if decide (c.(received) = []) then ps else c.(received) :: ps) ->
  even_packets c' ps'.
Proof.
  unfold even_packets. intros He ->. destruct (decide _); [by apply Forall_cons_1 in He as []|done].
Qed.

(** Reading the next byte of the stream, and the next word. *)
Lemma next_byte {B} (k : Z -> act B) s env ps rest b tail :
  feed s.(ep0) env ps rest -> stream s.(ep0) ps = b :: tail ->
  exists c' env' ps', (refill_OUT;; from_ep0 Endpoint_Read_8 ≫= k) s env = k b (set_ep0 c' s) env' /\
    same_line s.(ep0) c' /\ feed c' env' ps' rest /\ stream c' ps' = tail.
Proof.
  intros Hf Hs. destruct (refill_OUT_ok s env ps rest Hf) as (c1 & env1 & ps1 & E & Hl & Hf1 & Hs1 & Hne & _);
    [by rewrite Hs|].
  rewrite (run_bind _ _ _ _ _ _ _ E). rewrite Hs in Hs1. unfold stream in Hs1.
  destruct c1.(received) as [|b1 r] eqn:Hr; [done|]. injection Hs1 as -> Ht.
  exists (set_received r c1), env1, ps1. split.
  { unfold from_ep0, mbind, act_bind, Endpoint_Read_8. cbn [ep0 set_ep0]. by rewrite Hr. }
  split; [by destruct Hl|]. split; [by destruct Hf1|done].
Qed.

Lemma next_word {B} (k : Z -> act B) s env ps rest lo hi tail :
  feed s.(ep0) env ps rest -> even_packets s.(ep0) ps -> stream s.(ep0) ps = lo :: hi :: tail ->
  exists c' env' ps',
    (refill_OUT;; from_ep0 Endpoint_Read_16_LE ≫= k) s env = k (lo + 256 * hi) (set_ep0 c' s) env' /\
    same_line s.(ep0) c' /\ feed c' env' ps' rest /\ even_packets c' ps' /\ stream c' ps' = tail.
Proof.
  intros Hf He Hs.
  destruct (refill_OUT_ok s env ps rest Hf) as (c1 & env1 & ps1 & E & Hl & Hf1 & Hs1 & Hne & Hps);
    [by rewrite Hs|].
  apply even_refilled in Hps as He1; [|done].
  rewrite (run_bind _ _ _ _ _ _ _ E). rewrite Hs in Hs1. unfold stream in Hs1.
  apply Forall_cons_1 in He1 as [[q Hq] He1].
  destruct c1.(received) as [|b1 [|b2 r]] eqn:Hr; [done|cbn in Hq; lia|]. injection Hs1 as -> -> Ht.
  exists (set_received r c1), env1, ps1. split.
  { unfold from_ep0, mbind, act_bind, Endpoint_Read_16_LE, Endpoint_Read_8. cbn [ep0 set_ep0].
    rewrite Hr. cbn [received set_received]. done. }
  split; [by destruct Hl|]. split; [by destruct Hf1|]. split; [|done].
  apply Forall_cons_2; [|done]. exists (q - 1)%nat. cbn in Hq |- *. lia.
Qed.

(** ** Programming the flash *)

Lemma index_fill refill a b w f :
  flash_index a = flash_index b -> boot_page_fill refill a w f = boot_page_fill refill b w f.
Proof. intros H. unfold boot_page_fill. by rewrite (slot_of_index a b H). Qed.
Lemma index_erase a b f : flash_index a = flash_index b -> boot_page_erase a f = boot_page_erase b f.
Proof. intros H. unfold boot_page_erase. by rewrite (page_of_index a b H). Qed.
Lemma index_write a b f : flash_index a = flash_index b -> boot_page_write a f = boot_page_write b f.
Proof. intros H. unfold boot_page_write. by rewrite (page_of_index a b H). Qed.
Lemma index_u32 a : flash_index (u32 a) = flash_index a.
Proof. unfold flash_index, u32. apply Z.mod_mod_divide. by exists 131072. Qed.
Lemma index_small a : 0 <= a < 32768 -> flash_index a = a.
Proof. apply Z.mod_small. Qed.
Lemma index_next a P k : flash_index a = P -> 0 <= P + k < 32768 -> flash_index (u32 (a + k)) = P + k.
Proof.
  intros <- Hk. rewrite index_u32. unfold flash_index in *. rewrite <-Zplus_mod_idemp_l. by apply Z.mod_small.
Qed.

(** One word more in the buffer. *)
Lemma holds_fill refill f bs P lo hi :
  holds_bytes f bs -> P mod 128 = 0 -> 0 <= P -> P + Z.of_nat (length bs) < 32768 ->
  Nat.Even (length bs) -> (length bs < 128)%nat -> is_u8 lo -> is_u8 hi ->
  holds_bytes (boot_page_fill refill (P + Z.of_nat (length bs)) (lo + 256 * hi) f) (bs ++ [lo; hi]).
Proof.
  unfold is_u8. intros Hh HP HP0 Hr [q Hq] Hl Hlo Hhi i Hi. cbn [buffer boot_page_fill].
  assert (Hslot : slot_of (P + Z.of_nat (length bs)) = Z.of_nat q).
  { unfold slot_of, flash_index, SPM_PAGESIZE. rewrite (Z.mod_small _ 32768) by lia.
    rewrite Hq. div_lia. }
  rewrite Hslot, !Hh, length_app by done. cbn [length].
  destruct (Z.eqb_spec i (Z.of_nat q)) as [->|Hne].
  - replace (2 * Z.of_nat q <? Z.of_nat (length bs)) with false by lia.
    replace (2 * Z.of_nat q <? Z.of_nat (length bs + 2)) with true by lia.
    unfold tbl. rewrite !app_nth2 by lia.
    replace (Z.to_nat (2 * Z.of_nat q) - length bs)%nat with 0%nat by lia.
    replace (Z.to_nat (2 * Z.of_nat q + 1) - length bs)%nat with 1%nat by lia. cbn [nth].
    rewrite u16_small by lia. done.
  - replace (2 * i <? Z.of_nat (length bs + 2)) with (2 * i <? Z.of_nat (length bs)) by lia.
    destruct (Z.ltb_spec (2 * i) (Z.of_nat (length bs))); [|done].
    unfold tbl. rewrite !app_nth1 by lia. done.
Qed.

Lemma erase_app_page f P a :
  P mod 128 = 0 -> 0 <= P < BOOT_START_ADDR -> 0 <= a < 32768 ->
  (boot_page_erase P f).(cells) a = (if (P <=? a) && (a <? P + 128) then 255 else f.(cells) a).
Proof.
  intros Hp HP Ha. unfold boot_page_erase. rewrite app_unprotected by done. cbn [cells].
  unfold BOOT_START_ADDR in HP. by rewrite same_page by lia.
Qed.
Lemma erase_app_erased f P : P mod 128 = 0 -> 0 <= P < BOOT_START_ADDR -> erased (boot_page_erase P f) P.
Proof.
  intros Hp HP a Ha. unfold SPM_PAGESIZE, BOOT_START_ADDR in *. rewrite erase_app_page by (done || div_lia).
  by replace ((P <=? a) && (a <? P + 128)) with true by lia.
Qed.
Lemma erase_keeps a f : (boot_page_erase a f).(buffer) = f.(buffer) /\ (boot_page_erase a f).(LockBits) = f.(LockBits).
Proof. unfold boot_page_erase. by destruct (protected _ _). Qed.
Lemma write_keeps a f : (boot_page_write a f).(LockBits) = f.(LockBits).
Proof. unfold boot_page_write. by destruct (protected _ _). Qed.
Lemma write_empties f P : 0 <= P < BOOT_START_ADDR -> holds_bytes (boot_page_write P f) [].
Proof. intros HP. apply holds_blank. unfold boot_page_write. by rewrite app_unprotected. Qed.

Section memory.
Variable refill : Z -> Z -> Z.
Variable locked_read : Z -> Z.

(** The result of programming the bytes [bs] from [P] on. *)
Definition flash_after (f f' : flash) (P : Z) (bs : list Z) : Prop :=
  holds_bytes f' [] /\ f'.(LockBits) = f.(LockBits) /\
  forall a, 0 <= a < 32768 -> f'.(cells) a = programmed f.(cells) P bs a.

(** Committing a page whose words are all in the buffer. *)
Lemma commit_page f bs P :
  P mod 128 = 0 -> 0 <= P < BOOT_START_ADDR -> erased f P -> holds_bytes f bs ->
  Forall is_u8 bs -> Nat.Even (length bs) -> (0 < length bs <= 128)%nat ->
  flash_after f (boot_page_write P f) P bs.
Proof.
  intros Hp HP He Hh Hb [q Hq] Hl. split; [by apply write_empties|]. split; [apply write_keeps|].
  intros a Ha. apply write_page; try done; [|lia].
  rewrite Hq, Z.even_spec. exists (Z.of_nat q). lia.
Qed.

(** Going on with the next page. *)
Lemma next_page f f' f'' P bs bs' :
  P mod 128 = 0 -> 0 <= P -> P + 128 < BOOT_START_ADDR -> length bs = 128%nat -> (0 < length bs')%nat ->
  flash_after f f' P bs -> flash_after (boot_page_erase (P + 128) f') f'' (P + 128) bs' ->
  flash_after f f'' P (bs ++ bs').
Proof.
  intros Hp HP0 HP Hl Hl' (_ & HL & Hc) (Hh & HL' & Hc'). split; [done|].
  split; [destruct (erase_keeps (P + 128) f'); congruence|].
  intros a Ha. rewrite Hc' by done. apply programmed_app; try done; [|lia].
  intros x Hx. rewrite erase_app_page by (done || div_lia).
  destruct ((P + 128 <=? x) && (x <? P + 128 + 128)) eqn:Hin; [right; lia|left; by apply Hc].
Qed.

Lemma flash_after_same f f' f'' P bs :
  f'.(cells) = f.(cells) -> f'.(LockBits) = f.(LockBits) ->
  flash_after f' f'' P bs -> flash_after f f'' P bs.
Proof. intros E EL (Hh & HL & Hc). rewrite EL in HL. rewrite E in Hc. done. Qed.

(** One pass of the loop, by its three ways to go on. *)
Lemma write_flash_pass n addr first k s env ps rest lo hi tail :
  feed s.(ep0) env ps rest -> even_packets s.(ep0) ps -> stream s.(ep0) ps = lo :: hi :: tail ->
  0 <= k < 64 ->
  exists c' env' ps', same_line s.(ep0) c' /\ feed c' env' ps' rest /\ even_packets c' ps' /\
    stream c' ps' = tail /\
    let s1 := set_fl (boot_page_fill refill addr (lo + 256 * hi) s.(fl)) (set_ep0 c' s) in
    let addr' := u32 (addr + 2) in
    write_flash refill (S n) addr first k s env =
    match n with
    | O => Ok (Some tt, on_fl (boot_page_write first) s1, env')
    | S _ =>
        if k =? 63
        then write_flash refill n addr' addr' 0 (on_fl (boot_page_erase addr') (on_fl (boot_page_write first) s1)) env'
        else write_flash refill n addr' first (k + 1) s1 env'
    end.
Proof.
  intros Hf He Hs Hk.
  destruct (next_word (fun w => modify (on_fl (boot_page_fill refill addr w));;
      if (u8 (k + 1) =? Z.shiftr SPM_PAGESIZE 1) || (n =? 0)%nat then
        modify (on_fl (boot_page_write first));;
        if negb (n =? 0)%nat then
          modify (on_fl (boot_page_erase (u32 (addr + 2))));;
          write_flash refill n (u32 (addr + 2)) (u32 (addr + 2)) 0
        else write_flash refill n (u32 (addr + 2)) first (u8 (k + 1))
      else write_flash refill n (u32 (addr + 2)) first (u8 (k + 1))) s env ps rest lo hi tail Hf He Hs)
    as (c1 & env1 & ps1 & E & Hl1 & Hf1 & He1 & Hs1).
  exists c1, env1, ps1. do 4 (split; [done|]). cbv zeta. cbn [write_flash]. rewrite E.
  rewrite run_modify. rewrite (u8_small (k + 1)) by lia.
  change (Z.shiftr SPM_PAGESIZE 1) with 64. replace (k + 1 =? 64) with (k =? 63) by lia.
  destruct n as [|n]; [by rewrite orb_true_r|]. rewrite orb_false_r. by destruct (k =? 63).
Qed.

(** The loop is in the page [P], whose first bytes [pre] are in the buffer. *)
Record filling (f : flash) (P addr first k : Z) (pre : list Z) : Prop := {
  fil_page : P mod 128 = 0 /\ 0 <= P;
  fil_count : Z.of_nat (length pre) = 2 * k;
  fil_room : (length pre < 128)%nat;
  fil_first : flash_index first = P;
  fil_addr : flash_index addr = P + Z.of_nat (length pre);
  fil_erased : erased f P;
  fil_bytes : holds_bytes f pre;
  fil_u8 : Forall is_u8 pre
}.

Lemma fill_word f P addr first k pre lo hi :
  filling f P addr first k pre -> is_u8 lo -> is_u8 hi ->
  P + Z.of_nat (length pre) + 2 <= BOOT_START_ADDR ->
  let f1 := boot_page_fill refill addr (lo + 256 * hi) f in
  erased f1 P /\ holds_bytes f1 (pre ++ [lo; hi]) /\ Forall is_u8 (pre ++ [lo; hi]) /\
  length (pre ++ [lo; hi]) = S (S (length pre)) /\ Nat.Even (length (pre ++ [lo; hi])) /\
  flash_index (u32 (addr + 2)) = P + Z.of_nat (length (pre ++ [lo; hi])).
Proof.
  intros [[Hp HP0] Hk Hl Hfi Had Her Hh Hu] Hlo Hhi HP f1. unfold BOOT_START_ADDR in HP.
  assert (Hlen : length (pre ++ [lo; hi]) = S (S (length pre))) by (rewrite length_app; cbn; lia).
  split; [done|]. split.
  { unfold f1. rewrite (index_fill refill addr (P + Z.of_nat (length pre))) by (by rewrite (index_small (P + _)) by lia).
    apply holds_fill; try done; [lia|exists (Z.to_nat k); lia]. }
  split; [apply Forall_app_2; [done|apply Forall_cons_2; [done|by apply Forall_cons_2]]|]. split; [done|].
  split; [exists (S (Z.to_nat k)); lia|].
  rewrite (index_next addr (P + Z.of_nat (length pre)) 2) by (done || lia). lia.
Qed.

(** The page is full: it is committed, and the next one erased. *)
Lemma turn_page f P addr first bs :
  P mod 128 = 0 -> 0 <= P -> P + 128 < BOOT_START_ADDR ->
  erased f P -> holds_bytes f bs -> Forall is_u8 bs -> length bs = 128%nat ->
  flash_index first = P -> flash_index addr = P + 128 ->
  flash_after f (boot_page_write first f) P bs /\
  boot_page_erase addr (boot_page_write first f) = boot_page_erase (P + 128) (boot_page_write first f) /\
  filling (boot_page_erase addr (boot_page_write first f)) (P + 128) addr addr 0 [].
Proof.
  intros Hp HP0 HP Her Hh Hu Hlen Hfi Had. unfold BOOT_START_ADDR in HP.
  assert (H2 : flash_after f (boot_page_write first f) P bs).
  { rewrite (index_write first P) by (by rewrite (index_small P) by lia).
    apply commit_page; try done; [unfold BOOT_START_ADDR; lia|rewrite Hlen; by exists 64%nat|lia]. }
  assert (E3 : boot_page_erase addr (boot_page_write first f) = boot_page_erase (P + 128) (boot_page_write first f))
    by (apply index_erase; by rewrite (index_small (P + 128)) by lia).
  split; [done|]. split; [done|]. rewrite E3.
  split; try done; cbn [length Z.of_nat]; rewrite ?Z.add_0_r; try done; try lia.
  - split; [div_lia|lia].
  - apply erase_app_erased; [div_lia|unfold BOOT_START_ADDR; lia].
  - intros i Hi. destruct (erase_keeps (P + 128) (boot_page_write first f)) as [-> _]. by apply H2.
Qed.

Lemma write_flash_ok n : forall addr first k pre bytes s env ps rest tail P,
  feed s.(ep0) env ps rest -> even_packets s.(ep0) ps -> stream s.(ep0) ps = bytes ++ tail ->
  length bytes = (2 * S n)%nat -> Forall is_u8 bytes ->
  filling s.(fl) P addr first k pre -> P + Z.of_nat (length (pre ++ bytes)) <= BOOT_START_ADDR ->
  exists c' f' env' ps',
    write_flash refill (S n) addr first k s env = Ok (Some tt, set_fl f' (set_ep0 c' s), env') /\
    same_line s.(ep0) c' /\ feed c' env' ps' rest /\ even_packets c' ps' /\ stream c' ps' = tail /\
    flash_after s.(fl) f' P (pre ++ bytes).
Proof.
  induction n as [|n IH]; intros addr first k pre bytes s env ps rest tail P Hf He Hs Hlb Hu Hfil HP;
    (destruct bytes as [|lo [|hi bytes]]; [cbn in Hlb; lia|cbn in Hlb; lia|]);
    apply Forall_cons_1 in Hu as [Hlo Hu]; apply Forall_cons_1 in Hu as [Hhi Hu];
    rewrite length_app in HP; cbn [length] in HP, Hlb;
    (destruct (fill_word _ _ _ _ _ _ lo hi Hfil Hlo Hhi) as (Her & Hh & Hup & Hlen & Hev & Had); [lia|]);
    pose proof Hfil as [[Hp HP0] Hk Hl Hfi _ _ _ _]; unfold BOOT_START_ADDR in HP;
    replace (pre ++ lo :: hi :: bytes) with ((pre ++ [lo; hi]) ++ bytes) by (by rewrite <-app_assoc).
  - destruct (write_flash_pass 0 addr first k s env ps rest lo hi (bytes ++ tail) Hf He Hs ltac:(lia))
      as (c1 & env1 & ps1 & Hl1 & Hf1 & He1 & Hs1 & E). rewrite E. clear E.
    destruct bytes; [|cbn in Hlb; lia]. rewrite app_nil_r.
    eexists c1, _, env1, ps1. split; [done|]. do 4 (split; [done|]).
    rewrite (index_write first P) by (by rewrite (index_small P) by (unfold BOOT_START_ADDR in HP; lia)).
    apply (flash_after_same _ (boot_page_fill refill addr (lo + 256 * hi) s.(fl))); [done|done|].
    apply commit_page; try done; unfold BOOT_START_ADDR; lia.
  - destruct (write_flash_pass (S n) addr first k s env ps rest lo hi (bytes ++ tail) Hf He Hs ltac:(lia))
      as (c1 & env1 & ps1 & Hl1 & Hf1 & He1 & Hs1 & E). rewrite E. clear E.
    set (f1 := boot_page_fill refill addr (lo + 256 * hi) s.(fl)) in *.
    destruct (Z.eqb_spec k 63) as [->|Hk63].
    + destruct (turn_page f1 P (u32 (addr + 2)) first (pre ++ [lo; hi])) as (H2 & E3 & Hfil'); try done;
        [unfold BOOT_START_ADDR; lia|lia|rewrite Had; lia|].
      apply (flash_after_same s.(fl)) in H2; [|done|done].
      destruct (IH (u32 (addr + 2)) (u32 (addr + 2)) 0 [] bytes
        (set_fl (boot_page_erase (u32 (addr + 2)) (boot_page_write first f1)) (set_ep0 c1 s)) env1 ps1 rest tail (P + 128))
        as (c' & f' & env' & ps' & E & Hl2 & Hf2 & He2 & Hs2 & Hfa);
        try done; [lia|cbn; unfold BOOT_START_ADDR; lia|].
      exists c', f', env', ps'. split; [exact E|]. split; [by transitivity c1|]. do 3 (split; [done|]).
      cbn [fl set_fl app] in Hfa. rewrite E3 in Hfa.
      apply (next_page s.(fl) (boot_page_write first f1)); try done; unfold BOOT_START_ADDR; lia.
    + destruct (IH (u32 (addr + 2)) first (k + 1) (pre ++ [lo; hi]) bytes (set_fl f1 (set_ep0 c1 s)) env1 ps1
        rest tail P) as (c' & f' & env' & ps' & E & Hl2 & Hf2 & He2 & Hs2 & Hfa); try done; [lia| | |].
      { split; try done; lia. }
      { rewrite length_app, Hlen. unfold BOOT_START_ADDR. lia. }
      exists c', f', env', ps'. split; [exact E|]. split; [by transitivity c1|]. do 3 (split; [done|]).
      by apply (flash_after_same _ f1).
Qed.

(** ** The bootloader's API for applications *)

(** An application fills the page buffer word by word through the API. *)
Fixpoint fill_words (Address : Z) (bs : list Z) (f : flash) : flash :=
  match bs with
  | lo :: hi :: bs => fill_words (Address + 2) bs (BootloaderAPI_FillWord refill Address (lo + 256 * hi) f)
  | _ => f
  end.

Lemma fill_words_ok n : forall P pre bs f,
  length bs = (2 * n)%nat -> P mod 128 = 0 -> 0 <= P -> P + 128 <= 32768 ->
  (length pre + length bs <= 128)%nat -> Nat.Even (length pre) -> Forall is_u8 bs -> holds_bytes f pre ->
  let f' := fill_words (P + Z.of_nat (length pre)) bs f in
  holds_bytes f' (pre ++ bs) /\ f'.(cells) = f.(cells) /\ f'.(LockBits) = f.(LockBits).
Proof.
  induction n as [|n IH]; intros P pre bs f Hn Hp H0 HP Hl Hev Hu Hh f'; subst f'.
  { destruct bs; [|cbn in Hn; lia]. by rewrite app_nil_r. }
  destruct bs as [|lo [|hi bs]]; [cbn in Hn; lia..|]. cbn [fill_words length] in *.
  apply Forall_cons_1 in Hu as [Hlo Hu]. apply Forall_cons_1 in Hu as [Hhi Hu].
  assert (Hlen : length (pre ++ [lo; hi]) = (length pre + 2)%nat) by (rewrite length_app; done).
  destruct (IH P (pre ++ [lo; hi]) bs (BootloaderAPI_FillWord refill (P + Z.of_nat (length pre)) (lo + 256 * hi) f))
    as (H1 & H2 & H3); try done; try lia.
  { rewrite Hlen. destruct Hev as [k Hk]. exists (S k). lia. }
  { apply holds_fill; try done; lia. }
  rewrite Hlen in H1, H2, H3. replace (P + Z.of_nat (length pre + 2)) with (P + Z.of_nat (length pre) + 2) in H1, H2, H3 by lia.
  rewrite <-app_assoc in H1. by rewrite H2, H3.
Qed.

(** An application that erases a page of its section through the API, fills the buffer with
    whole words and writes the page, programs exactly these bytes, blank behind them: no
    other byte changes, and the section can be read afterwards. *)
Theorem api_page_programmed f P bs :
  P mod 128 = 0 -> 0 <= P < BOOT_START_ADDR -> bs <> [] -> Nat.Even (length bs) -> (length bs <= 128)%nat ->
  Forall is_u8 bs ->
  let f' := BootloaderAPI_WritePage P (fill_words P bs (BootloaderAPI_ErasePage P f)) in
  f'.(rww_locked) = false /\ f'.(LockBits) = f.(LockBits) /\
  forall a, 0 <= a < 32768 -> pgm_read_byte locked_read a f' = programmed f.(cells) P bs a.
Proof.
  intros Hp HP Hne Hev Hl Hu f'. unfold BOOT_START_ADDR in HP. set (f1 := BootloaderAPI_ErasePage P f) in *.
  assert (Hh1 : holds_bytes f1 []) by (by apply holds_blank).
  destruct Hev as [n Hn]. destruct (fill_words_ok n P [] bs f1) as (H1 & H2 & H3); try done; try lia; [by exists 0%nat|].
  cbn [length Z.of_nat app] in H1, H2, H3. rewrite Z.add_0_r in H1, H2, H3. set (f2 := fill_words P bs f1) in *.
  assert (He : erased f2 P).
  { intros a Ha. rewrite H2. by apply (erase_app_erased f P Hp). }
  destruct (commit_page f2 bs P) as (_ & HL & Hc); try done; [by exists n|destruct bs; [done|cbn in *; lia]|].
  split; [done|]. split.
  { change (LockBits f') with (LockBits (boot_page_write P f2)). rewrite HL, H3. apply erase_keeps. }
  intros a Ha. unfold pgm_read_byte. rewrite index_small by done.
  change (rww_locked f') with false. change (cells f') with (cells (boot_page_write P f2)). cbn [andb].
  rewrite Hc by done. unfold programmed. rewrite H2. cbn [cells boot_rww_enable BootloaderAPI_ErasePage f1].
  rewrite erase_app_page by (unfold BOOT_START_ADDR; done || lia).
  repeat match goal with |- context [if ?b then _ else _] => destruct b eqn:? end; try done. exfalso.
  assert (1 <= Z.of_nat (length bs)) by (destruct bs; [done|cbn; lia]). div_lia.
Qed.

(** ** Discarding bytes *)

Lemma discard_have n : forall s env,
  (n <= length s.(ep0).(received))%nat -> s.(ep0).(bank) = [] ->
  discard_bytes n s env = Ok (Some tt, set_ep0 (set_received (drop n s.(ep0).(received)) s.(ep0)) s, env).
Proof.
  induction n as [|n IH]; intros s env Hn Hb; cbn [discard_bytes].
  { unfold skip, mret, act_ret. repeat f_equal. destruct s as [[]]. done. }
  rewrite run_assoc, run_gets. unfold Endpoint_BytesInEndpoint. rewrite Hb.
  destruct s.(ep0).(received) as [|b r] eqn:Hr; [cbn in Hn; lia|].
  replace (Z.of_nat (length (b :: r)) + Z.of_nat (length []) =? 0) with false by (cbn; lia).
  cbv beta iota. rewrite run_modify. rewrite IH; unfold on_ep0, Endpoint_Discard_8, Endpoint_Read_8;
    cbn [ep0 set_ep0]; rewrite Hr; cbn [snd received set_received bank]; [done|cbn in Hn; lia|done].
Qed.

Lemma discard_app n m s env :
  discard_bytes (n + m) s env = (discard_bytes n;; discard_bytes m) s env.
Proof.
  revert s env. induction n as [|n IH]; intros s env; [done|]. cbn [discard_bytes Nat.add].
  etransitivity; [|symmetry; apply run_assoc]. apply run_ext. intros a s' env'. apply IH.
Qed.

(** All the bytes of the stream are discarded, when they are in at most two
    packets, but for one byte if there are two. *)
Lemma discard_feed s env ps rest :
  feed s.(ep0) env ps rest -> (length ps <= 1)%nat ->
  exists c' env', discard_bytes (length (stream s.(ep0) ps)) s env = Ok (Some tt, set_ep0 c' s, env') /\
    same_line s.(ep0) c' /\ c'.(bank) = [] /\ c'.(RXOUTI) = true /\ delivers env' [] rest.
Proof.
  intros Hf Hps. pose proof Hf as [Ha Ho Hb Hd Hne _]. unfold stream. destruct ps as [|p [|??]]; [| |cbn in Hps; lia].
  - cbn [concat]. rewrite app_nil_r. rewrite discard_have by done. eexists _, env. split; [done|]. done.
  - cbn [concat]. rewrite app_nil_r, length_app. apply Forall_cons_1 in Hne as [Hp _].
    rewrite discard_app, (run_bind _ _ _ _ _ _ _ (discard_have _ s env (le_n _) Hb)), drop_all.
    destruct p as [|b p]; [done|]. cbn [length discard_bytes].
    rewrite run_assoc, run_gets. unfold Endpoint_BytesInEndpoint. cbn [ep0 set_ep0 received set_received bank].
    rewrite Hb. change (Z.of_nat (length []) + Z.of_nat (length []) =? 0) with true. cbv beta iota.
    rewrite run_assoc, run_modify.
    destruct (wait_OUT _ _ _ Hd (b :: p) [] (on_ep0 Endpoint_ClearOUT (set_ep0 (set_received [] s.(ep0)) s))
      eq_refl eq_refl Ha) as (c1 & env1 & E & Hl & Ho1 & Hr1 & Hb1 & Hd1).
    rewrite (run_bind _ _ _ _ _ _ _ E). cbn [ep0 set_ep0 on_ep0] in *.
    rewrite discard_have by (cbn [ep0 set_ep0]; rewrite ?Hr1, ?Hb1; cbn; done || lia).
    eexists _, env1. split; [done|]. split; [by destruct Hl|].
    split; [by cbn; rewrite Hb1|done].
Qed.

(** ** Banks the host takes *)

Inductive banks : nat -> list happening -> list happening -> Prop :=
  | banks_done env : banks 0 env env
  | banks_idle n env rest : banks n env rest -> banks n (Nothing :: env) rest
  | banks_free n env rest : banks n env rest -> banks (S n) (BankFree :: env) rest
  | banks_more n env rest : banks n env rest -> banks n (BankFree :: env) rest.

Lemma banks_le n env rest : banks n env rest -> forall m, (m <= n)%nat -> banks m env rest.
Proof.
  induction 1 as [| | |]; intros m Hm.
  - replace m with 0%nat by lia. constructor.
  - apply banks_idle. auto.
  - destruct m; [apply banks_more, IHbanks; lia|apply banks_free, IHbanks; lia].
  - apply banks_more. auto.
Qed.

Lemma banks_delivers n env rest : banks n env rest -> forall ps rest', delivers rest ps rest' -> delivers env ps rest'.
Proof.
  induction 1; intros ps rest' Hd; [done|..]; (apply delivers_idle; [by constructor|by apply IHbanks]).
Qed.

Lemma delivered_banks env ps rest : delivers env ps rest -> ps = [] -> forall n rest', banks n rest rest' -> banks n env rest'.
Proof.
  induction 1 as [|h env ps rest Hh Hd IH|]; intros Hps n rest' Hb; [done| |done].
  destruct Hh as [-> | ->]; [apply banks_idle|apply banks_more]; by apply IH.
Qed.

(** Waiting for a free bank. *)
Lemma wait_IN env rest m : banks m env rest -> forall n s,
  (n + (if s.(ep0).(TXINI) then 0 else 1) <= m)%nat -> attached s.(ep0) ->
  exists c' env', wait TXINI s env = Ok (Some tt, set_ep0 c' s, env') /\ same_line s.(ep0) c' /\
    c'.(TXINI) = true /\ c'.(RXOUTI) = s.(ep0).(RXOUTI) /\ c'.(received) = s.(ep0).(received) /\
    c'.(bank) = s.(ep0).(bank) /\ banks n env' rest.
Proof.
  assert (Hready : forall n env rest m s, banks m env rest -> (n <= m)%nat -> s.(ep0).(TXINI) = true ->
    exists c' env', wait TXINI s env = Ok (Some tt, set_ep0 c' s, env') /\ same_line s.(ep0) c' /\
    c'.(TXINI) = true /\ c'.(RXOUTI) = s.(ep0).(RXOUTI) /\ c'.(received) = s.(ep0).(received) /\
    c'.(bank) = s.(ep0).(bank) /\ banks n env' rest).
  { intros n env0 rest0 m0 s Hb Hn Ht. exists s.(ep0), env0. split; [|by split_and!; try done; apply (banks_le m0)].
    unfold wait. replace (set_ep0 s.(ep0) s) with s by (by destruct s). destruct env0; cbn [poll]; by rewrite Ht. }
  induction 1 as [env|m env rest Hb IH|m env rest Hb IH|m env rest Hb IH]; intros n s Hn Ha;
    (destruct s.(ep0).(TXINI) eqn:Ht;
     [eapply Hready; [by econstructor|rewrite Nat.add_0_r in Hn; exact Hn|done]|]); [lia|..];
    unfold wait; cbn [poll]; rewrite Ht, bool_decide_eq_false_2 by done.
  - destruct (IH n (on_ep0 (happen Nothing) s)) as (c' & env' & E & H'); [cbn; rewrite Ht; lia|done|].
    exists c', env'. by split.
  - destruct (IH n (on_ep0 (happen BankFree) s)) as (c' & env' & E & Hl & H'); [cbn; lia|done|].
    exists c', env'. split; [exact E|]. split; [by destruct Hl|done].
  - destruct (IH n (on_ep0 (happen BankFree) s)) as (c' & env' & E & Hl & H'); [cbn; lia|done|].
    exists c', env'. split; [exact E|]. split; [by destruct Hl|done].
Qed.

(** The status stage of a download. *)
Lemma status_IN q s env rest :
  has_bits q.(bmRequestType) REQDIR_DEVICETOHOST = false -> attached s.(ep0) -> banks 1 env rest ->
  exists c' env', Endpoint_ClearStatusStage q s env = Ok (Some tt, set_ep0 c' s, env') /\
    c'.(USB_DeviceState) = s.(ep0).(USB_DeviceState) /\ c'.(RXSTPI) = s.(ep0).(RXSTPI) /\
    c'.(STALLRQ) = s.(ep0).(STALLRQ) /\ c'.(RXOUTI) = s.(ep0).(RXOUTI) /\
    c'.(received) = s.(ep0).(received) /\ c'.(bank) = [] /\
    c'.(answered) = s.(ep0).(answered) ++ [s.(ep0).(bank)].
Proof.
  intros Hq Ha Hb. unfold Endpoint_ClearStatusStage. rewrite Hq.
  destruct (wait_IN env rest 1 Hb 0 s) as (c' & env' & E & [] & Ht & Ho & Hr & Hbk & _);
    [by destruct s.(ep0).(TXINI); lia|done|].
  eexists _, env'. split; [apply (run_call _ _ _ (Some tt)); by rewrite (run_bind _ _ _ _ _ _ _ E)|].
  cbn. split_and!; congruence.
Qed.

(** And of an upload. *)
Lemma status_OUT q s env rest :
  has_bits q.(bmRequestType) REQDIR_DEVICETOHOST = true -> attached s.(ep0) -> s.(ep0).(RXOUTI) = false ->
  delivers env [[]] rest ->
  exists c' env', Endpoint_ClearStatusStage q s env = Ok (Some tt, set_ep0 c' s, env') /\
    same_line s.(ep0) c' /\ c'.(RXOUTI) = false /\ c'.(received) = [] /\ c'.(bank) = s.(ep0).(bank).
Proof.
  intros Hq Ha Ho Hd. unfold Endpoint_ClearStatusStage. rewrite Hq.
  destruct (wait_OUT _ _ _ Hd [] [] s eq_refl Ho Ha) as (c' & env' & E & Hl & _ & _ & Hb & _).
  eexists _, env'. split; [apply (run_call _ _ _ (Some tt)); by rewrite (run_bind _ _ _ _ _ _ _ E)|].
  split; [by destruct Hl|]. done.
Qed.

(** ** The command at the head of a download *)

Lemma u16_sub x y : u16 (u16 x - y) = u16 (x - y).
Proof. apply Zminus_mod_idemp_l. Qed.

Lemma insert_split (D : list Z) i b k :
  (i < length D)%nat ->
  take (S i) (<[i:=b]> D) = take i D ++ [b] /\ drop (S i + k) (<[i:=b]> D) = drop (S i + k) D.
Proof.
  intros Hi. rewrite insert_take_drop by done.
  assert (Hl : length (take i D) = i) by (rewrite length_take; lia).
  replace (S i) with (length (take i D) + 1)%nat at 1 by lia. split.
  - by rewrite take_app_add.
  - replace (S i + k)%nat with (length (take i D) + S k)%nat at 1 by lia.
    rewrite drop_app_add. cbn [drop]. rewrite drop_drop. done.
Qed.

(** The parameters that a packet with the bytes [r] behind the command loads. *)
Definition loaded (i n : nat) (old r : list Z) : list Z :=
  take i old ++ take n r ++ drop (i + length (take n r)) old.

Lemma load_data_ok n : forall i s,
  (i + n = 5)%nat -> length s.(SentCommand).(Data) = 5%nat -> is_u16 s.(SentCommand).(DataSize) ->
  s.(ep0).(bank) = [] ->
  load_data n (Z.of_nat i) s =
  set_SentCommand (mk_command s.(SentCommand).(Command)
      (loaded i n s.(SentCommand).(Data) s.(ep0).(received))
      (u16 (s.(SentCommand).(DataSize) - Z.of_nat (length (take n s.(ep0).(received))))))
    (set_ep0 (set_received (drop n s.(ep0).(received)) s.(ep0)) s).
Proof.
  assert (Hstop : forall i n s, take n s.(ep0).(received) = [] -> drop n s.(ep0).(received) = s.(ep0).(received) ->
    is_u16 s.(SentCommand).(DataSize) ->
    s = set_SentCommand (mk_command s.(SentCommand).(Command)
      (loaded i n s.(SentCommand).(Data) s.(ep0).(received))
      (u16 (s.(SentCommand).(DataSize) - Z.of_nat (length (take n s.(ep0).(received))))))
    (set_ep0 (set_received (drop n s.(ep0).(received)) s.(ep0)) s)).
  { intros i n0 s Ht Hd Hu. unfold loaded. rewrite Ht, Hd. cbn [length app]. rewrite Nat.add_0_r, take_drop.
    rewrite Z.sub_0_r, u16_small by done. by destruct s as [[] ? ? ? ? ? []]. }
  induction n as [|n IH]; intros i s Hi Hd Hu Hb; cbn [load_data]; [by apply Hstop|].
  unfold Endpoint_BytesInEndpoint, Endpoint_Read_8. rewrite Hb.
  destruct s.(ep0).(received) as [|b r] eqn:Hr.
  { change (Z.of_nat (length []) + Z.of_nat (length []) =? 0) with true. cbv iota.
    rewrite <-Hr. apply Hstop; [by rewrite Hr|by rewrite Hr|done]. }
  replace (Z.of_nat (length (b :: r)) + Z.of_nat (length []) =? 0) with false by (cbn; lia).
  cbv beta iota zeta. replace (Z.of_nat i + 1) with (Z.of_nat (S i)) by lia.
  rewrite IH; [|lia|cbn; by rewrite length_insert|apply u16_range|done].
  cbn. rewrite Nat2Z.id. unfold loaded, set_SentCommand, set_ep0. cbn. f_equal.
  destruct (insert_split s.(SentCommand).(Data) i b (length (take n r)) ltac:(lia)) as [E1 E2].
  rewrite E1. cbn in E2. rewrite E2. f_equal.
  - rewrite <-app_assoc. cbn. by rewrite Nat.add_succ_r.
  - rewrite u16_sub. f_equal. lia.
Qed.

Lemma load_command_ok s env cmd d ps rest :
  length s.(SentCommand).(Data) = 5%nat ->
  s.(ep0).(RXOUTI) = false -> attached s.(ep0) -> s.(ep0).(bank) = [] ->
  delivers env ((cmd :: d) :: ps) rest ->
  exists c' env', load_command s env =
      Ok (Some tt, set_SentCommand (mk_command cmd (loaded 0 5 s.(SentCommand).(Data) d)
        (u16 (s.(SentCommand).(DataSize) - Z.of_nat (S (length (take 5 d)))))) (set_ep0 c' s), env') /\
    same_line s.(ep0) c' /\ c'.(RXOUTI) = true /\ c'.(received) = drop 5 d /\ c'.(bank) = [] /\
    delivers env' ps rest.
Proof.
  intros Hd Ho Ha Hb Hdel. unfold load_command.
  destruct (wait_OUT _ _ _ Hdel _ _ s eq_refl Ho Ha) as (c1 & env1 & E & [] & Ho1 & Hr1 & Hb1 & Hd1).
  rewrite (run_bind _ _ _ _ _ _ _ E). unfold from_ep0, Endpoint_Read_8.
  unfold mbind at 1, act_bind at 1. cbn [ep0 set_ep0]. rewrite Hr1. cbv beta iota.
  rewrite !run_modify. unfold modify.
  set (s1 := set_DataSize _ _).
  assert (H1 : s1.(ep0).(received) = d /\ s1.(ep0).(bank) = []) by (split; [done|by cbn; rewrite Hb1]).
  destruct H1 as [H1 H2].
  change 0 with (Z.of_nat 0). rewrite (load_data_ok 5 0 s1); [|lia|done|apply u16_range|done].
  rewrite H1. exists (set_received (drop 5 d) (set_received d c1)), env1. split.
  { replace (s.(SentCommand).(DataSize) - Z.of_nat (S (length (take 5 d)))) with
      (s.(SentCommand).(DataSize) - 1 - Z.of_nat (length (take 5 d))) by lia.
    rewrite <-(u16_sub (s.(SentCommand).(DataSize) - 1)). done. }
  by split_and!.
Qed.

(** ** Packets of a transfer *)

Fixpoint chunk (n : nat) (l : list Z) : list (list Z) :=
  match n with
  | O => []
  | S n => match l with [] => [] | _ => take 32 l :: chunk n (drop 32 l) end
  end.
(** The packets in which a host sends the bytes [l]. *)
Definition packets (l : list Z) : list (list Z) := chunk (length l) l.

Lemma chunk_more n : forall m l, (length l <= n)%nat -> (n <= m)%nat -> chunk m l = chunk n l.
Proof.
  induction n as [|n IH]; intros m l Hl Hm.
  - destruct l; [|cbn in Hl; lia]. by destruct m.
  - destruct m as [|m]; [lia|]. destruct l as [|x l]; [done|]. cbn [chunk]. f_equal.
    apply IH; [rewrite length_drop; cbn in Hl |- *; lia|lia].
Qed.

Lemma packets_cons h l : length h = 32%nat -> packets (h ++ l) = h :: packets l.
Proof.
  intros Hh. unfold packets. rewrite length_app, Hh. change (32 + length l)%nat with (S (31 + length l)).
  cbn [chunk]. destruct (h ++ l) as [|x t] eqn:E; [destruct h; done|]. rewrite <-E.
  rewrite take_app_length', drop_app_length' by done. f_equal. apply chunk_more; lia.
Qed.

Lemma chunk_spec n : forall l, (length l <= n)%nat ->
  concat (chunk n l) = l /\ Forall (fun p => p <> []) (chunk n l) /\ full_packets (chunk n l) /\
  (Nat.Even (length l) -> Forall (fun p => Nat.Even (length p)) (chunk n l)).
Proof.
  induction n as [|n IH]; intros l Hl.
  { destruct l; [|cbn in Hl; lia]. cbn. split_and!; auto. }
  destruct l as [|x t]; [cbn; split_and!; auto|]. set (l := x :: t) in *.
  change (chunk (S n) l) with (take 32 l :: chunk n (drop 32 l)).
  destruct (IH (drop 32 l)) as (Hc & Hne & Hf & He); [rewrite length_drop; cbn in Hl |- *; lia|].
  split; [cbn [concat]; by rewrite Hc, take_drop|]. split; [by apply Forall_cons_2|]. split.
  - destruct (chunk n (drop 32 l)) as [|p ps] eqn:Ec; [done|]. split; [|done].
    rewrite length_take. assert (drop 32 l <> []) by (intros Hd; rewrite Hd in Ec; by destruct n).
    destruct (le_lt_dec 32 (length l)); [lia|]. rewrite drop_ge in H by lia. done.
  - intros [q Hq]. destruct (le_lt_dec 32 (length l)).
    + apply Forall_cons_2; [rewrite length_take_le by lia; by exists 16%nat|].
      apply He. exists (q - 16)%nat. rewrite length_drop. lia.
    + apply Forall_cons_2; [rewrite take_ge by lia; by exists q|]. apply He. rewrite drop_ge by lia. by exists 0%nat.
Qed.

(** ** Requests *)

(** Between two requests. *)
Record idle (c : ctl) : Prop := {
  idle_attached : attached c;
  idle_out : c.(RXOUTI) = false;
  idle_bank : c.(bank) = [];
  idle_received : c.(received) = []
}.

Definition is_dnload (q : USB_Request_Header_t) : Prop := q.(bmRequestType) = 33 /\ q.(bRequest) = DFU_REQ_DNLOAD.
Definition is_upload (q : USB_Request_Header_t) : Prop := q.(bmRequestType) = 161 /\ q.(bRequest) = DFU_REQ_UPLOAD.

(** The state when the request's own code begins. *)
Definition entered (q : USB_Request_Header_t) (s : boot) : boot :=
  on_ep0 (fun c => set_RXSTPI false (set_STALLRQ false c))
    (set_DataSize q.(wLength) (on_cpu (LEDs_ToggleLEDs (Z.lor LEDS_LED1 LEDS_LED2)) s)).

Definition dnload_body (q : USB_Request_Header_t) : act unit :=
  exit_stage locked_read;; command_stage locked_read;; download_stage refill;;
  modify (on_ep0 Endpoint_ClearOUT);; Endpoint_ClearStatusStage q.

Lemma request_dnload q env s :
  is_dnload q ->
  request refill locked_read q env s = ('(_, s', _) ← dnload_body q (entered q s) env; Ok s').
Proof.
  intros [Ht Hr]. unfold request, EVENT_USB_Device_ControlRequest. rewrite Ht, Hr. done.
Qed.

Definition upload_body (q : USB_Request_Header_t) : act unit :=
  wait TXINI;;
  upload_stage locked_read;;
  modify (on_ep0 Endpoint_ClearIN);; Endpoint_ClearStatusStage q.

Lemma request_upload q env s :
  is_upload q ->
  request refill locked_read q env s = ('(_, s', _) ← upload_body q (entered q s) env; Ok s').
Proof.
  intros [Ht Hr]. unfold request, EVENT_USB_Device_ControlRequest. rewrite Ht, Hr. done.
Qed.

(** The variables a command leaves alone. *)
Definition ready_for_commands (s : boot) : Prop :=
  idle s.(ep0) /\ length s.(SentCommand).(Data) = 5%nat /\ s.(IsSecure) = false /\ s.(WaitForExit) = false.

Lemma run_DiscardFillerBytes n s env s' env' :
  discard_bytes (Z.to_nat n) s env = Ok (Some tt, s', env') ->
  DiscardFillerBytes n s env = Ok (Some tt, s', env').
Proof. intros E. by apply run_call in E. Qed.

(** Up to the data: the filler bytes fill the command's packet, and none follow for
    a start address that is a multiple of the packet size. *)
Lemma discard_fillers s env fill :
  s.(DFU_State) = dfuDNLOAD_IDLE -> 0 < s.(SentCommand).(DataSize) ->
  s.(ep0).(bank) = [] -> s.(ep0).(received) = fill -> length fill = 26%nat -> s.(StartAddr) mod 32 = 0 ->
  let s1 := set_ep0 (set_received [] s.(ep0)) s in
  download_stage refill s env = (download_memory refill;; DiscardFillerBytes DFU_FILE_SUFFIX_SIZE) s1 env.
Proof.
  intros Hst Hds Hb Hr Hfl Hsa s1.
  unfold download_stage. rewrite run_gets, Hst. rewrite decide_True by done. rewrite run_gets.
  replace (_ =? 0) with false by lia. cbv beta iota.
  assert (E1 := discard_have 26 s env ltac:(rewrite Hr; lia) Hb). rewrite Hr, drop_ge in E1 by lia.
  rewrite (run_bind _ _ _ _ _ _ _ (run_DiscardFillerBytes DFU_FILLER_BYTES_SIZE _ _ _ _ E1)).
  fold s1. rewrite run_gets. change (StartAddr s1) with (StartAddr s).
  unfold FIXED_CONTROL_ENDPOINT_SIZE. rewrite Hsa.
  by rewrite (run_bind _ _ _ _ _ _ _ (run_DiscardFillerBytes 0 s1 env _ _ eq_refl)).
Qed.

(** The file suffix behind the data. *)
Lemma discard_suffix s env ps rest suffix :
  feed s.(ep0) env ps rest -> stream s.(ep0) ps = suffix -> length suffix = 16%nat ->
  exists c' env', DiscardFillerBytes DFU_FILE_SUFFIX_SIZE s env = Ok (Some tt, set_ep0 c' s, env') /\
    same_line s.(ep0) c' /\ c'.(bank) = [] /\ delivers env' [] rest.
Proof.
  intros Hf Hs Hsl.
  assert (Hps : (length ps <= 1)%nat).
  { destruct ps as [|p [|p' ps]]; [cbn; lia|cbn; lia|]. destruct (feed_full _ _ _ _ Hf) as [Hp32 _].
    apply (f_equal length) in Hs. unfold stream in Hs. cbn [concat] in Hs. rewrite !length_app in Hs. lia. }
  destruct (discard_feed s env ps rest Hf Hps) as (c3 & env3 & E & Hl & Hb & _ & Hd).
  rewrite Hs, Hsl in E. exists c3, env3. split; [|done].
  by apply (run_DiscardFillerBytes DFU_FILE_SUFFIX_SIZE) in E.
Qed.

(** The packets behind the command feed the loops. *)
Lemma feed_packets s env l rest :
  attached s.(ep0) -> s.(ep0).(RXOUTI) = true -> s.(ep0).(bank) = [] -> s.(ep0).(received) = [] ->
  delivers env (packets l) rest ->
  feed s.(ep0) env (packets l) rest /\ stream s.(ep0) (packets l) = l /\
  (Nat.Even (length l) -> even_packets s.(ep0) (packets l)).
Proof.
  intros Ha Ho Hb Hr Hd. destruct (chunk_spec (length l) l (le_n _)) as (Hc & Hcn & Hcf & Hce).
  split; [by split|]. split; [unfold stream; by rewrite Hr|].
  intros He. apply Forall_cons_2; [rewrite Hr; by exists 0%nat|by apply Hce].
Qed.

(** The data stage of a flash download, once the command is processed. *)
Lemma download_flash s env fill bs suffix rest start :
  s.(DFU_State) = dfuDNLOAD_IDLE -> 0 < s.(SentCommand).(DataSize) -> data 0 s = 0 ->
  attached s.(ep0) -> s.(ep0).(RXOUTI) = true -> s.(ep0).(bank) = [] -> s.(ep0).(received) = fill ->
  length fill = 26%nat -> length suffix = 16%nat -> delivers env (packets (bs ++ suffix)) rest ->
  start mod 128 = 0 -> 0 <= start -> bs <> [] -> Nat.Even (length bs) -> Forall is_u8 bs ->
  start + Z.of_nat (length bs) <= BOOT_START_ADDR ->
  s.(StartAddr) = start -> s.(EndAddr) = start + Z.of_nat (length bs) - 1 ->
  erased s.(fl) start -> holds_bytes s.(fl) [] ->
  exists c' f' env', download_stage refill s env =
      Ok (Some tt, set_fl (boot_rww_enable f') (set_StartAddr s.(EndAddr) (set_ep0 c' s)), env') /\
    same_line s.(ep0) c' /\ c'.(bank) = [] /\ delivers env' [] rest /\ flash_after s.(fl) f' start bs.
Proof.
  intros Hst Hds Hkind Ha Ho Hb Hr Hfl Hsl Hd Hp H0 Hne [q Hq] Hu Hend Hsa Hea Her Hh.
  unfold BOOT_START_ADDR in Hend.
  rewrite (discard_fillers s env fill) by (done || (rewrite Hsa; div_lia)).
  set (s1 := set_ep0 (set_received [] s.(ep0)) s).
  destruct (feed_packets s1 env (bs ++ suffix) rest) as (Hf & Hs & He); try done.
  specialize (He ltac:(rewrite length_app; exists (q + 8)%nat; lia)).
  destruct q as [|q]; [destruct bs; [done|cbn in Hq; lia]|].
  assert (Hfil : filling s1.(fl) start (CurrFlashAddress s1) (CurrFlashAddress s1) 0 []).
  { assert (Hi : flash_index (CurrFlashAddress s1) = start).
    { unfold CurrFlashAddress. rewrite index_add_page. cbn [StartAddr s1 set_ep0]. rewrite Hsa. apply index_small. lia. }
    split; try done; cbn [length Z.of_nat]; rewrite ?Z.add_0_r; try done; lia. }
  destruct (write_flash_ok q (CurrFlashAddress s1) (CurrFlashAddress s1) 0 [] bs s1 env _ rest suffix start Hf He)
    as (c2 & f2 & env2 & ps2 & E2 & Hl2 & Hf2 & _ & Hs2 & Hfa); [done|lia|done|done|cbn; unfold BOOT_START_ADDR; lia|].
  assert (E3 : download_memory refill s1 env = Ok (Some tt, set_fl (boot_rww_enable f2)
    (set_StartAddr s.(EndAddr) (set_ep0 c2 s)), env2)).
  { unfold download_memory. rewrite !run_gets. unfold IS_ONEBYTE_COMMAND.
    change (data 0 s1) with (data 0 s). rewrite Hkind. change (0 =? 0) with true. cbv beta iota. rewrite run_gets.
    replace (Z.to_nat (Z.shiftr (BytesRemaining s1) 1)) with (S q).
    { rewrite (run_bind _ _ _ _ _ _ _ E2). done. }
    unfold BytesRemaining. cbn [EndAddr StartAddr s1 set_ep0]. rewrite Hea, Hsa, u16_small by lia.
    rewrite Z.shiftr_div_pow2 by lia. change (2 ^ 1) with 2. rewrite Hq. div_lia. }
  rewrite (run_bind _ _ _ _ _ _ _ E3).
  destruct (discard_suffix (set_fl (boot_rww_enable f2) (set_StartAddr s.(EndAddr) (set_ep0 c2 s))) env2 ps2 rest suffix)
    as (c3 & env3 & E4 & Hl3 & Hb3 & Hd3); try done.
  rewrite E4. exists c3, f2, env3. split; [done|]. split; [transitivity c2; [by destruct Hl2|done]|]. done.
Qed.

(** ** Programming as a request *)

(** The head of a memory command: its kind and the first and last address. *)
Definition range_command (cmd kind start len : Z) : list Z :=
  let last := start + len - 1 in
  [cmd; kind; start / 256; start mod 256; last / 256; last mod 256].

Lemma range_addresses start len :
  0 <= start -> 0 < len -> start + len <= 65536 ->
  start mod 256 + 256 * (start / 256) = start /\
  (start + len - 1) mod 256 + 256 * ((start + len - 1) / 256) = start + len - 1.
Proof. intros. split; div_lia. Qed.

(** The addresses that a memory command loads. *)
Lemma load_addresses s cmd kind start len n :
  0 <= start -> 0 < len -> start + len <= 65536 ->
  let s1 := set_SentCommand (mk_command cmd (drop 1 (range_command cmd kind start len)) n) s in
  data 0 s1 = kind /\ LoadStartEndAddresses s1 = set_EndAddr (start + len - 1) (set_StartAddr start s1).
Proof.
  intros H0 Hl He s1. destruct (range_addresses start len H0 Hl He) as [Ea1 Ea2]. split; [done|].
  unfold LoadStartEndAddresses. cbv zeta. change (data 2 s1) with (start mod 256).
  change (data 1 s1) with (start / 256). change (data 4 s1) with ((start + len - 1) mod 256).
  change (data 3 s1) with ((start + len - 1) / 256). by rewrite Ea1, Ea2.
Qed.

(** A flash programming command erases the first page and waits for the data. *)
Lemma prog_command s start len n :
  s.(IsSecure) = false -> 0 <= start -> 0 < len -> start + len <= 65536 ->
  let s1 := set_SentCommand (mk_command COMMAND_PROG_START
    (drop 1 (range_command COMMAND_PROG_START 0 start len)) n) s in
  ProcessBootloaderCommand locked_read s1 =
  set_DFU_State dfuDNLOAD_IDLE (set_fl (boot_page_erase start s.(fl))
    (set_EndAddr (start + len - 1) (set_StartAddr start s1))).
Proof.
  intros Hsec H0 Hl He s1. destruct (load_addresses s COMMAND_PROG_START 0 start len n H0 Hl He) as [_ E].
  unfold ProcessBootloaderCommand. change (IsSecure s1) with (IsSecure s). rewrite Hsec. cbn [andb].
  change (Command (SentCommand s1) =? COMMAND_PROG_START) with true. cbv iota.
  unfold ProcessMemProgCommand. change (IS_ONEBYTE_COMMAND s1 0) with true. cbn [orb]. fold s1 in E. rewrite E.
  change (IS_ONEBYTE_COMMAND _ 0) with true. cbv iota zeta.
  unfold on_fl. f_equal. unfold CurrFlashAddress. cbn [StartAddr Flash64KBPage set_EndAddr set_StartAddr].
  rewrite (index_erase _ start) by apply index_add_page. done.
Qed.

(** A read command for [kind] (0 is flash, 2 is EEPROM) waits for the upload. *)
Lemma read_command s kind start len n :
  s.(IsSecure) = false -> kind = 0 \/ kind = 2 -> 0 <= start -> 0 < len -> start + len <= 65536 ->
  let s1 := set_SentCommand (mk_command COMMAND_DISP_DATA
    (drop 1 (range_command COMMAND_DISP_DATA kind start len)) n) s in
  ProcessBootloaderCommand locked_read s1 =
  set_DFU_State dfuUPLOAD_IDLE (set_EndAddr (start + len - 1) (set_StartAddr start s1)).
Proof.
  intros Hsec Hk H0 Hl He s1. destruct (load_addresses s COMMAND_DISP_DATA kind start len n H0 Hl He) as [_ E].
  unfold ProcessBootloaderCommand. change (IsSecure s1) with (IsSecure s). rewrite Hsec. cbn [andb].
  change (Command (SentCommand s1)) with COMMAND_DISP_DATA.
  change (COMMAND_DISP_DATA =? COMMAND_PROG_START) with false.
  change (COMMAND_DISP_DATA =? COMMAND_DISP_DATA) with true. cbv iota.
  unfold ProcessMemReadCommand, IS_ONEBYTE_COMMAND. change (data 0 s1) with kind.
  replace ((kind =? 0) || (kind =? 2)) with true by (destruct Hk as [-> | ->]; done).
  fold s1 in E. by rewrite E.
Qed.

(** The command stage on a packet that holds at least the six bytes of a memory
    command. *)
Lemma command_stage_ok s env cmd kind start len fill ps rest :
  idle s.(ep0) -> length s.(SentCommand).(Data) = 5%nat -> 6 <= s.(SentCommand).(DataSize) < 65536 ->
  delivers env ((range_command cmd kind start len ++ fill) :: ps) rest ->
  exists c' env', command_stage locked_read s env =
      Ok (Some tt, ProcessBootloaderCommand locked_read (set_SentCommand
        (mk_command cmd (drop 1 (range_command cmd kind start len)) (s.(SentCommand).(DataSize) - 6))
        (set_ep0 c' s)), env') /\
    same_line s.(ep0) c' /\ c'.(RXOUTI) = true /\ c'.(received) = fill /\ c'.(bank) = [] /\
    delivers env' ps rest.
Proof.
  intros [] Hd Hds Hdel. unfold command_stage. rewrite run_gets.
  replace (s.(SentCommand).(DataSize) =? 0) with false by lia. cbn [negb].
  destruct (load_command_ok s env cmd (drop 1 (range_command cmd kind start len) ++ fill) ps rest)
    as (c' & env' & E & Hl & Ho & Hr & Hb & Hd'); try done.
  rewrite (run_bind _ _ _ _ _ _ _ E). exists c', env'. split; [|by split_and!].
  unfold loaded, range_command. cbn [drop app take length Nat.add]. rewrite !take_0, drop_ge, app_nil_r by (cbn; lia).
  cbn [app length]. change (Z.of_nat 6) with 6. by rewrite (u16_small (s.(SentCommand).(DataSize) - 6)) by lia.
Qed.

(** After the data stage: the bank is freed and the host gets the status packet. *)
Lemma finish_dnload q s env rest :
  is_dnload q -> attached s.(ep0) -> s.(ep0).(bank) = [] -> banks 1 env rest ->
  exists c' env', (modify (on_ep0 Endpoint_ClearOUT);; Endpoint_ClearStatusStage q) s env =
      Ok (Some tt, set_ep0 c' s, env') /\ idle c' /\ c'.(answered) = s.(ep0).(answered) ++ [[]].
Proof.
  intros [Hq _] Ha Hb Hbk. rewrite run_modify.
  destruct (status_IN q (on_ep0 Endpoint_ClearOUT s) env rest) as (c' & env' & E & H1 & _ & _ & Ho & Hr & Hb' & Han);
    [by rewrite Hq|done|done|].
  rewrite E. exists c', env'. split; [done|]. split; [split; [|done..]|].
  - unfold attached. by rewrite H1.
  - rewrite Han. cbn. by rewrite Hb.
Qed.

(** What a download leaves alone. *)
Definition same_but_memory (s s' : boot) : Prop :=
  s'.(IsSecure) = s.(IsSecure) /\ s'.(RunBootloader) = s.(RunBootloader) /\
  s'.(WaitForExit) = s.(WaitForExit) /\ s'.(DFU_Status) = s.(DFU_Status) /\
  s'.(AppStartPtr) = s.(AppStartPtr) /\ s'.(MagicBootKey) = s.(MagicBootKey) /\
  s'.(Flash64KBPage) = s.(Flash64KBPage).

#[export] Instance same_but_memory_trans : Transitive same_but_memory.
Proof. intros s1 s2 s3 (?&?&?&?&?&?&?) (?&?&?&?&?&?&?). repeat split; congruence. Qed.

(** A download whose first packet holds a memory command: what the command and the
    data stage have to do, and what the request makes of it. *)
Lemma dnload_request q s env cmd kind start len fill ps rest rest' n :
  is_dnload q -> q.(wLength) = n -> 6 <= n < 65536 -> ready_for_commands s ->
  delivers env ((range_command cmd kind start len ++ fill) :: ps) rest -> banks 1 rest rest' ->
  exists c1 env1,
    attached c1 /\ c1.(RXOUTI) = true /\ c1.(received) = fill /\ c1.(bank) = [] /\
    c1.(answered) = s.(ep0).(answered) /\ delivers env1 ps rest /\
    forall s2 env2,
      download_stage refill (ProcessBootloaderCommand locked_read (set_SentCommand
        (mk_command cmd (drop 1 (range_command cmd kind start len)) (n - 6)) (set_ep0 c1 (entered q s)))) env1
        = Ok (Some tt, s2, env2) ->
      attached s2.(ep0) -> s2.(ep0).(bank) = [] -> delivers env2 [] rest ->
      exists c3, request refill locked_read q env s = Ok (set_ep0 c3 s2) /\ idle c3 /\
        c3.(answered) = s2.(ep0).(answered) ++ [[]].
Proof.
  intros Hq Hw Hn ([] & Hd & Hsec & Hwait) Hdel Hbk.
  set (s0 := entered q s).
  assert (Hsz : s0.(SentCommand).(DataSize) = n) by (unfold s0, entered; cbn; rewrite Hw; apply u16_small; lia).
  destruct (command_stage_ok s0 env cmd kind start len fill ps rest)
    as (c1 & env1 & E1 & [] & Ho1 & Hr1 & Hb1 & Hd1); [by split|done|lia|done|].
  exists c1, env1. split; [unfold attached; by rewrite line_state0|]. do 3 (split; [done|]). split; [done|].
  split; [done|]. intros s2 env2 E2 Ha2 Hb2 Hd2. rewrite request_dnload by done. fold s0. unfold dnload_body.
  assert (Ex : exit_stage locked_read s0 env = Ok (Some tt, s0, env)).
  { unfold exit_stage. rewrite run_gets. change (WaitForExit s0) with (WaitForExit s). by rewrite Hwait. }
  rewrite (run_bind _ _ _ _ _ _ _ Ex), (run_bind _ _ _ _ _ _ _ E1), Hsz, (run_bind _ _ _ _ _ _ _ E2).
  destruct (finish_dnload q s2 env2 rest') as (c3 & env3 & E3 & Hi3 & Ha3); [done..|by apply (delivered_banks _ [] rest)|].
  exists c3. by rewrite E3.
Qed.

Lemma flash_after_erase f f' P bs :
  P mod 128 = 0 -> 0 <= P < BOOT_START_ADDR -> (0 < length bs)%nat ->
  flash_after (boot_page_erase P f) f' P bs -> flash_after f f' P bs.
Proof.
  intros Hp HP Hl (Hh & HL & Hc). split; [done|]. split; [destruct (erase_keeps P f); congruence|].
  intros a Ha. rewrite Hc by done. unfold programmed. rewrite erase_app_page by done.
  destruct ((P <=? a) && (a <? P + Z.of_nat (length bs))); [done|].
  destruct ((P <=? a) && (a <? P + (Z.of_nat (length bs) + 127) / 128 * 128)) eqn:E; [done|].
  destruct ((P <=? a) && (a <? P + 128)) eqn:E'; [|done]. div_lia.
Qed.

Lemma program_flash_ok q s env fill bs suffix rest rest' start :
  is_dnload q -> q.(wLength) = 48 + Z.of_nat (length bs) -> ready_for_commands s ->
  length fill = 26%nat -> length suffix = 16%nat ->
  start mod 128 = 0 -> 0 <= start -> bs <> [] -> Nat.Even (length bs) -> Forall is_u8 bs ->
  start + Z.of_nat (length bs) <= BOOT_START_ADDR -> holds_bytes s.(fl) [] ->
  delivers env (packets (range_command COMMAND_PROG_START 0 start (Z.of_nat (length bs)) ++ fill ++ bs ++ suffix)) rest ->
  banks 1 rest rest' ->
  exists s', request refill locked_read q env s = Ok s' /\ ready_for_commands s' /\ same_but_memory s s' /\
    s'.(DFU_State) = dfuDNLOAD_IDLE /\ s'.(eeprom) = s.(eeprom) /\
    s'.(fl).(rww_locked) = false /\ flash_after s.(fl) s'.(fl) start bs /\
    s'.(ep0).(answered) = s.(ep0).(answered) ++ [[]].
Proof.
  intros Hq Hw Hs Hfl Hsl Hp H0 Hne Hev Hu Hend Hh Hdel Hbk. pose proof Hs as (_ & Hd & Hsec & Hwait).
  unfold BOOT_START_ADDR in Hend. assert (0 < length bs)%nat by (destruct bs; [done|cbn; lia]).
  rewrite app_assoc, packets_cons in Hdel by (rewrite length_app, Hfl; done).
  destruct (dnload_request q s env COMMAND_PROG_START 0 start (Z.of_nat (length bs)) fill _ rest rest'
    (48 + Z.of_nat (length bs)) Hq Hw ltac:(lia) Hs Hdel Hbk) as (c1 & env1 & Ha1 & Ho1 & Hr1 & Hb1 & Han1 & Hd1 & Hreq).
  rewrite (prog_command (set_ep0 c1 (entered q s))) in Hreq by (done || lia).
  set (s1 := set_DFU_State _ _) in Hreq.
  destruct (download_flash s1 env1 fill bs suffix rest start) as (c2 & f2 & env2 & E2 & [] & Hb2 & Hd2 & Hfa);
    try done; [cbn; lia|apply erase_app_erased; [done|unfold BOOT_START_ADDR; lia]
              |intros i Hi; cbn [fl s1 set_DFU_State set_fl]; destruct (erase_keeps start (fl (set_ep0 c1 (entered q s)))) as [-> _]; by apply Hh|].
  destruct (Hreq _ _ E2) as (c3 & E3 & Hi3 & Ha3); [unfold attached; cbn; by rewrite line_state0|done|done|].
  eexists. split; [exact E3|]. split; [by split_and!|].
  split; [by repeat split|]. do 3 (split; [done|]). split.
  { apply flash_after_erase; [done|unfold BOOT_START_ADDR; lia|done|].
    destruct Hfa as (_ & HL & Hc). split; [by apply holds_blank|done]. }
  cbn [ep0 set_ep0]. rewrite Ha3. cbn. rewrite line_answered0. cbn. by rewrite Han1.
Qed.

(** ** Uploads *)

(** Bytes of the flash, as addresses wrap. *)
Definition flash_bytes (f : flash) (a : Z) (n : nat) : list Z :=
  map (fun i => f.(cells) (flash_index (a + Z.of_nat i))) (seq 0 n).

Lemma index_u32_add a i : flash_index (u32 a + i) = flash_index (a + i).
Proof. unfold flash_index at 1. rewrite <-Zplus_mod_idemp_l. fold (flash_index (u32 a)). rewrite index_u32. apply Zplus_mod_idemp_l. Qed.

Lemma flash_bytes_2 f a n :
  flash_bytes f a (S (S n)) =
  f.(cells) (flash_index a) :: f.(cells) (flash_index (a + 1)) :: flash_bytes f (u32 (a + 2)) n.
Proof.
  unfold flash_bytes. cbn [seq map]. rewrite Z.add_0_r. do 2 f_equal.
  rewrite <-!(seq_shift n), !map_map. apply map_ext. intros i. rewrite index_u32_add. do 2 f_equal. lia.
Qed.

(** The device owns the bank. *)
Record filling_IN (c : ctl) : Prop := {
  fin_attached : attached c;
  fin_out : c.(RXOUTI) = false;
  fin_in : c.(TXINI) = true;
  fin_received : c.(received) = []
}.

(** Room for more bytes: a full bank goes to the host. *)
Lemma drain_IN_ok s env m rest :
  filling_IN s.(ep0) -> banks m env rest -> (length s.(ep0).(bank) <= 32)%nat ->
  (length s.(ep0).(bank) = 32%nat -> 0 < m)%nat ->
  exists c' env' m' new, drain_IN s env = Ok (Some tt, set_ep0 c' s, env') /\ filling_IN c' /\
    c'.(USB_DeviceState) = s.(ep0).(USB_DeviceState) /\
    banks m' env' rest /\ (length c'.(bank) < 32)%nat /\
    (length c'.(bank) + 32 * m = 32 * m' + length s.(ep0).(bank))%nat /\
    c'.(answered) = s.(ep0).(answered) ++ new /\ Forall (fun p => length p = 32%nat) new /\
    concat new ++ c'.(bank) = s.(ep0).(bank).
Proof.
  intros [] Hb Hl Hm. unfold drain_IN. rewrite run_gets. unfold Endpoint_BytesInEndpoint, FIXED_CONTROL_ENDPOINT_SIZE.
  rewrite fin_received0. destruct (Nat.eq_dec (length s.(ep0).(bank)) 32) as [E|E].
  - rewrite E. change (Z.of_nat (length []) + Z.of_nat 32 =? 32) with true. cbv beta iota. rewrite run_modify.
    destruct m as [|m]; [lia|].
    destruct (wait_IN env rest (S m) Hb m (on_ep0 Endpoint_ClearIN s)) as (c' & env' & Ew & [] & Ht & Ho & Hr & Hbk & Hb');
      [cbn; lia|done|].
    rewrite Ew. exists c', env', m, [s.(ep0).(bank)]. split; [done|]. cbn in *.
    rewrite Hbk. split_and!; try done; try (cbn; lia); try congruence.
    + split; congruence.
    + by apply Forall_cons_2.
    + by rewrite !app_nil_r.
  - replace (_ =? 32) with false by (cbn; lia). cbv beta iota. exists s.(ep0), env, m, [].
    split; [by destruct s|]. rewrite app_nil_r. split_and!; try done; lia.
Qed.

(** The packets the host has, and what is in the bank. *)
Definition uploaded (c c' : ctl) (bytes : list Z) : Prop :=
  exists new, c'.(answered) = c.(answered) ++ new /\ Forall (fun p => length p = 32%nat) new /\
    concat new ++ c'.(bank) = c.(bank) ++ bytes.

Lemma uploaded_trans c1 c2 c3 c3' bs bs' :
  uploaded c1 c2 [] -> c3.(answered) = c2.(answered) -> c3.(bank) = c2.(bank) ++ bs ->
  uploaded c3 c3' bs' -> uploaded c1 c3' (bs ++ bs').
Proof.
  intros (n1 & Ha1 & Hf1 & Hc1) Ha Hb (n2 & Ha2 & Hf2 & Hc2). exists (n1 ++ n2). split_and!.
  - by rewrite Ha2, Ha, Ha1, app_assoc.
  - by apply Forall_app_2.
  - rewrite concat_app, <-app_assoc, Hc2, Hb. rewrite app_nil_r in Hc1. by rewrite <-Hc1, !app_assoc.
Qed.

Lemma read_flash_ok n : forall addr s env m rest,
  filling_IN s.(ep0) -> banks m env rest -> (length s.(ep0).(bank) <= 32)%nat ->
  Nat.Even (length s.(ep0).(bank)) ->
  (length s.(ep0).(bank) + 2 * n <= 32 * (m + 1))%nat ->
  s.(fl).(rww_locked) = false -> flash_wf s.(fl) ->
  exists c' env', read_flash locked_read n addr s env = Ok (Some tt, set_ep0 c' s, env') /\ filling_IN c' /\
    c'.(USB_DeviceState) = s.(ep0).(USB_DeviceState) /\
    banks 0 env' rest /\ (length c'.(bank) <= 32)%nat /\
    uploaded s.(ep0) c' (flash_bytes s.(fl) addr (2 * n)).
Proof.
  induction n as [|n IH]; intros addr s env m rest Hc Hb Hl He Hm Hun Hwf; cbn [read_flash].
  { exists s.(ep0), env. split; [by destruct s|]. split; [done|]. split; [done|].
    split; [apply (banks_le m); [done|lia]|]. split; [done|]. exists []. by rewrite !app_nil_r. }
  destruct (drain_IN_ok s env m rest Hc Hb Hl) as (c1 & env1 & m1 & new & E & Hc1 & Hs1 & Hb1 & Hl1 & Hm1 & Ha1 & Hf1 & Hk1);
    [lia|].
  rewrite (run_bind _ _ _ _ _ _ _ E), run_gets, run_modify.
  set (w := pgm_read_word _ _ _). set (s2 := on_ep0 _ _).
  assert (Hw : s2.(ep0).(bank) = c1.(bank) ++ [s.(fl).(cells) (flash_index addr); s.(fl).(cells) (flash_index (addr + 1))]).
  { unfold s2, on_ep0, Endpoint_Write_16_LE, Endpoint_Write_8. cbn [ep0 set_ep0 bank set_bank]. rewrite <-app_assoc. f_equal.
    unfold w, pgm_read_word, pgm_read_byte. cbn [fl set_ep0]. rewrite Hun. cbn [andb].
    destruct (word_bytes _ _ (Hwf _ (index_range addr)) (Hwf _ (index_range (addr + 1)))) as [Ew1 Ew2].
    rewrite <-land_255, Ew1, Ew2. done. }
  destruct (IH (u32 (addr + 2)) s2 env1 m1 rest) as (c' & env' & E2 & Hc2 & Hs2 & Hb2 & Hl2 & Hu2).
  - by destruct Hc1.
  - done.
  - rewrite Hw, length_app. cbn. destruct He as [x Hx]. lia.
  - destruct He as [x Hx]. exists (x + 16 * m1 - 16 * m + 1)%nat. rewrite Hw, length_app. cbn. lia.
  - rewrite Hw, length_app. cbn. lia.
  - done.
  - done.
  - exists c', env'. split; [exact E2|]. split; [done|]. split; [by rewrite Hs2|]. split; [done|]. split; [done|].
    replace (2 * S n)%nat with (S (S (2 * n))) by lia. rewrite flash_bytes_2.
    change (?a :: ?b :: ?l) with ([a; b] ++ l).
    apply (uploaded_trans s.(ep0) c1 s2.(ep0) c'); [exists new; by rewrite app_nil_r|done|done|exact Hu2].
Qed.

Lemma read_range_ok q s env kind start len rest rest' :
  is_dnload q -> q.(wLength) = 6 -> ready_for_commands s -> kind = 0 \/ kind = 2 ->
  0 <= start -> 0 < len -> start + len <= 65536 ->
  delivers env [range_command COMMAND_DISP_DATA kind start len] rest -> banks 1 rest rest' ->
  exists s', request refill locked_read q env s = Ok s' /\ ready_for_commands s' /\ same_but_memory s s' /\
    s'.(DFU_State) = dfuUPLOAD_IDLE /\ s'.(fl) = s.(fl) /\ s'.(eeprom) = s.(eeprom) /\
    s'.(StartAddr) = start /\ s'.(EndAddr) = start + len - 1 /\ data 0 s' = kind /\
    s'.(ep0).(answered) = s.(ep0).(answered) ++ [[]].
Proof.
  intros Hq Hw Hs Hk H0 Hl He Hdel Hbk. pose proof Hs as (_ & Hd & Hsec & Hwait).
  rewrite <-(app_nil_r (range_command _ _ _ _)) in Hdel.
  destruct (dnload_request q s env COMMAND_DISP_DATA kind start len [] [] rest rest' 6 Hq Hw ltac:(lia) Hs Hdel Hbk)
    as (c1 & env1 & Ha1 & Ho1 & Hr1 & Hb1 & Han1 & Hd1 & Hreq).
  rewrite (read_command (set_ep0 c1 (entered q s))) in Hreq by (done || lia).
  destruct (Hreq _ env1 eq_refl) as (c3 & E3 & Hi3 & Ha3); [done|done|done|].
  eexists. split; [exact E3|]. split; [by split_and!|]. split; [by repeat split|]. do 6 (split; [done|]).
  cbn [ep0 set_ep0]. rewrite Ha3. cbn. by rewrite Han1.
Qed.

(** The end of an upload: the last packet, and the host's status packet. *)
Lemma finish_upload q s env rest :
  is_upload q -> filling_IN s.(ep0) -> delivers env [[]] rest ->
  exists c' env', (modify (on_ep0 Endpoint_ClearIN);; Endpoint_ClearStatusStage q) s env =
      Ok (Some tt, set_ep0 c' s, env') /\ idle c' /\
    c'.(answered) = s.(ep0).(answered) ++ [s.(ep0).(bank)].
Proof.
  intros [Hq _] [] Hd. rewrite run_modify.
  destruct (status_OUT q (on_ep0 Endpoint_ClearIN s) env rest) as (c' & env' & E & [] & Ho & Hr & Hb);
    [by rewrite Hq|done|done|done|].
  rewrite E. exists c', env'. split; [done|]. split; [|done]. split; try done.
  unfold attached. by rewrite line_state0.
Qed.

(** An upload of memory: what the loop has to do, and what the host receives. *)
Lemma upload_request q s env m rest bytes g :
  is_upload q -> ready_for_commands s -> s.(DFU_State) = dfuUPLOAD_IDLE ->
  banks (S m) env (SendsOUT [] :: rest) ->
  (forall c1 env1, filling_IN c1 -> c1.(bank) = [] -> banks m env1 (SendsOUT [] :: rest) ->
    exists c2 env2, upload_memory locked_read (set_ep0 c1 (entered q s)) env1 =
        Ok (Some tt, set_ep0 c2 (g (entered q s)), env2) /\
      filling_IN c2 /\ banks 0 env2 (SendsOUT [] :: rest) /\ (length c2.(bank) <= 32)%nat /\ uploaded c1 c2 bytes) ->
  exists c3 pk, request refill locked_read q env s = Ok (set_ep0 c3 (g (entered q s))) /\ idle c3 /\
    c3.(answered) = s.(ep0).(answered) ++ pk /\ Forall (fun p => length p <= 32)%nat pk /\ concat pk = bytes.
Proof.
  intros Hq ([] & Hd & Hsec & Hwait) Hst Hb Hmem.
  rewrite request_upload by done. set (s0 := entered q s) in *. unfold upload_body.
  destruct (wait_IN env _ (S m) Hb m s0) as (c1 & env1 & E1 & [] & Ht1 & Ho1 & Hr1 & Hb1 & Hbk1);
    [by destruct s0.(ep0).(TXINI); lia|done|].
  rewrite (run_bind _ _ _ _ _ _ _ E1). unfold upload_stage. rewrite run_assoc, run_gets.
  change (DFU_State (set_ep0 c1 s0)) with (DFU_State s). rewrite Hst. rewrite decide_True by done.
  destruct (Hmem c1 env1) as (c2 & env2 & E2 & Hc2 & Hb2 & Hl2 & new & Hn2 & Hf2 & Hk2); [|by rewrite Hb1|done|].
  { split; [unfold attached; by rewrite line_state0|by rewrite Ho1|done|by rewrite Hr1]. }
  rewrite (run_bind _ _ _ _ _ _ _ E2).
  destruct (finish_upload q (set_ep0 c2 (g s0)) env2 rest) as (c3 & env3 & E4 & Hi3 & Ha3); [done|done| |].
  { apply (banks_delivers 0 env2 (SendsOUT [] :: rest)); [done|]. apply delivers_packet, delivers_done. }
  rewrite E4. exists c3, (new ++ [c2.(bank)]). split; [done|]. split; [done|]. split.
  { rewrite Ha3. cbn. by rewrite Hn2, line_answered0, app_assoc. }
  split; [apply Forall_app_2; [eapply Forall_impl; [|exact Hf2]; by intros ? ->|by apply Forall_cons_2]|].
  rewrite concat_app. cbn [concat]. rewrite app_nil_r, Hk2, Hb1. cbn. by rewrite idle_bank0.
Qed.

(** The banks a host must take for an upload of [len] bytes: one packet more than
    it fills, the first of them when the bank is not free yet. *)
Lemma upload_flash_ok q s env m start len rest :
  is_upload q -> ready_for_commands s -> s.(DFU_State) = dfuUPLOAD_IDLE -> data 0 s = 0 ->
  s.(StartAddr) = start -> s.(EndAddr) = start + len - 1 -> 0 < len < 65536 -> Z.even len = true ->
  s.(fl).(rww_locked) = false -> flash_wf s.(fl) ->
  banks m env (SendsOUT [] :: rest) -> len <= 32 * Z.of_nat m ->
  exists s' pk, request refill locked_read q env s = Ok s' /\ ready_for_commands s' /\ same_but_memory s s' /\
    s'.(DFU_State) = dfuIDLE /\ s'.(fl) = s.(fl) /\ s'.(eeprom) = s.(eeprom) /\
    s'.(ep0).(answered) = s.(ep0).(answered) ++ pk /\ Forall (fun p => length p <= 32)%nat pk /\
    concat pk = flash_bytes s.(fl) start (Z.to_nat len).
Proof.
  intros Hq Hs Hst Hkind Hsa Hea Hlen Hev Hun Hwf Hb Hm. destruct m as [|m]; [lia|].
  apply Z.even_spec in Hev as [h Hh]. pose proof Hs as (_ & Hd & Hsec & Hwait).
  destruct (upload_request q s env m rest (flash_bytes s.(fl) (CurrFlashAddress s) (2 * Z.to_nat h))
    (fun s => set_DFU_State dfuIDLE (set_StartAddr s.(EndAddr) s))) as (c3 & pk & E & Hi3 & Ha3 & Hpk & Hc3); try done.
  { intros c1 env1 Hc1 Hb1 Hbk1. set (s1 := set_ep0 c1 (entered q s)).
    destruct (read_flash_ok (Z.to_nat h) (CurrFlashAddress s1) s1 env1 m (SendsOUT [] :: rest))
      as (c2 & env2 & E2 & Hc2 & Hs2 & Hb2 & Hl2 & Hu2); try done; try (cbn; rewrite Hb1; (by exists 0%nat) || (cbn; lia)).
    exists c2, env2. split; [|done].
    unfold upload_memory. rewrite !run_gets. change (data 0 s1) with (data 0 s). rewrite Hkind.
    change (0 =? 0) with true. cbv beta iota. rewrite run_assoc, run_gets.
    replace (Z.to_nat (Z.shiftr (BytesRemaining s1) 1)) with (Z.to_nat h).
    { rewrite run_assoc. by rewrite (run_bind _ _ _ _ _ _ _ E2). }
    change (BytesRemaining s1) with (BytesRemaining s). unfold BytesRemaining. rewrite Hsa, Hea, u16_small by lia.
    rewrite Z.shiftr_div_pow2 by lia. change (2 ^ 1) with 2. f_equal. div_lia. }
  eexists _, pk. split; [exact E|]. split; [by split_and!|].
  split; [by repeat split|]. do 3 (split; [done|]). split; [done|]. split; [done|].
  rewrite Hc3. replace (Z.to_nat len) with (2 * Z.to_nat h)%nat by lia.
  unfold flash_bytes. apply map_ext. intros i. unfold CurrFlashAddress. rewrite Hsa. f_equal.
  replace (start + 65536 * Flash64KBPage s + Z.of_nat i) with (start + Z.of_nat i + 65536 * Flash64KBPage s) by lia.
  apply index_add_page.
Qed.

(** ** The EEPROM *)

(** The bytes [bs] in place of those from [a] on. *)
Definition spliced (l : list Z) (a : nat) (bs : list Z) : list Z :=
  take a l ++ bs ++ drop (a + length bs) l.

Lemma spliced_nil l a : spliced l a [] = l.
Proof. unfold spliced. cbn [length app]. by rewrite Nat.add_0_r, take_drop. Qed.

Lemma spliced_cons l a b bs :
  (a < length l)%nat -> spliced (<[a:=b]> l) (S a) bs = spliced l a (b :: bs).
Proof.
  intros Ha. unfold spliced. destruct (insert_split l a b (length bs) Ha) as [-> ->].
  rewrite <-app_assoc. cbn [app length]. by rewrite Nat.add_succ_r.
Qed.

Lemma spliced_length l a bs : (a + length bs <= length l)%nat -> length (spliced l a bs) = length l.
Proof. intros H. unfold spliced. rewrite !length_app, length_take, length_drop. lia. Qed.

Lemma write_eeprom_ok bytes : forall s env ps rest tail a,
  feed s.(ep0) env ps rest -> stream s.(ep0) ps = bytes ++ tail ->
  s.(StartAddr) = Z.of_nat a -> (a + length bytes <= length s.(eeprom))%nat ->
  (length s.(eeprom) <= 1024)%nat ->
  exists c' env' ps', write_eeprom (length bytes) s env =
      Ok (Some tt, set_StartAddr (Z.of_nat (a + length bytes))
        (set_eeprom (spliced s.(eeprom) a bytes) (set_ep0 c' s)), env') /\
    same_line s.(ep0) c' /\ feed c' env' ps' rest /\ stream c' ps' = tail.
Proof.
  induction bytes as [|b bytes IH]; intros s env ps rest tail a Hf Hs Ha Hl He; cbn [length write_eeprom].
  { exists s.(ep0), env, ps. split; [|done]. rewrite spliced_nil, Nat.add_0_r, <-Ha. by destruct s. }
  destruct (next_byte (fun b => a ← gets StartAddr; tries (eeprom_write_byte a b);;
    modify (fun s => set_StartAddr (u16 (s.(StartAddr) + 1)) s);; write_eeprom (length bytes))
    s env ps rest b (bytes ++ tail) Hf Hs) as (c1 & env1 & ps1 & E & Hl1 & Hf1 & Hs1).
  rewrite E, run_gets. cbn [length] in Hl.
  assert (Ew : tries (eeprom_write_byte (Z.of_nat a) b) (set_ep0 c1 s) env1 =
    Ok (Some tt, set_eeprom (<[a:=b]> s.(eeprom)) (set_ep0 c1 s), env1)).
  { unfold tries, eeprom_write_byte. cbn [eeprom set_ep0]. rewrite wr_in_range by lia. by rewrite Nat2Z.id. }
  cbn [StartAddr set_ep0]. rewrite Ha. rewrite (run_bind _ _ _ _ _ _ _ Ew), run_modify.
  cbn [StartAddr set_eeprom set_ep0]. rewrite Ha, u16_small by lia.
  destruct (IH (set_StartAddr (Z.of_nat a + 1) (set_eeprom (<[a:=b]> s.(eeprom)) (set_ep0 c1 s))) env1 ps1 rest tail (S a))
    as (c' & env' & ps' & E2 & Hl2 & Hf2 & Hs2); try done; [cbn; lia|cbn; rewrite length_insert; lia|cbn; by rewrite length_insert|].
  rewrite E2. exists c', env', ps'. split; [|split; [by transitivity c1|done]].
  cbn [eeprom set_StartAddr set_eeprom]. rewrite spliced_cons by lia. by rewrite Nat.add_succ_r.
Qed.

Lemma read_eeprom_ok n : forall s env m rest a,
  filling_IN s.(ep0) -> banks m env rest -> (length s.(ep0).(bank) <= 32)%nat ->
  (length s.(ep0).(bank) + n <= 32 * (m + 1))%nat ->
  s.(StartAddr) = Z.of_nat a -> (a + n <= length s.(eeprom))%nat -> (length s.(eeprom) <= 1024)%nat ->
  exists c' env', read_eeprom n s env = Ok (Some tt, set_StartAddr (Z.of_nat (a + n)) (set_ep0 c' s), env') /\
    filling_IN c' /\ c'.(USB_DeviceState) = s.(ep0).(USB_DeviceState) /\
    banks 0 env' rest /\ (length c'.(bank) <= 32)%nat /\
    uploaded s.(ep0) c' (take n (drop a s.(eeprom))).
Proof.
  induction n as [|n IH]; intros s env m rest a Hc Hb Hl Hm Ha He Hu; cbn [read_eeprom].
  { exists s.(ep0), env. rewrite Nat.add_0_r, <-Ha. split; [by destruct s|]. split; [done|]. split; [done|].
    split; [apply (banks_le m); [done|lia]|]. split; [done|]. exists []. by rewrite !app_nil_r. }
  destruct (drain_IN_ok s env m rest Hc Hb Hl) as (c1 & env1 & m1 & new & E & Hc1 & Hs1 & Hb1 & Hl1 & Hm1 & Ha1 & Hf1 & Hk1);
    [lia|].
  rewrite (run_bind _ _ _ _ _ _ _ E).
  destruct (lookup_lt_is_Some_2 s.(eeprom) a ltac:(lia)) as [b Hbyte].
  set (s2 := on_ep0 (Endpoint_Write_8 b) (set_ep0 c1 s)).
  assert (Et : tries (fun s => b ← rd s.(eeprom) s.(StartAddr); Ok (on_ep0 (Endpoint_Write_8 b) s)) (set_ep0 c1 s) env1 =
    Ok (Some tt, s2, env1)).
  { unfold tries. cbn [eeprom StartAddr set_ep0]. rewrite Ha, (proj2 (rd_ok _ _ b)) by (rewrite Nat2Z.id; split; [lia|done]). done. }
  rewrite (run_bind _ _ _ _ _ _ _ Et), run_modify. cbn [StartAddr s2 on_ep0 set_ep0]. rewrite Ha, u16_small by lia.
  destruct (IH (set_StartAddr (Z.of_nat a + 1) s2) env1 m1 rest (S a)) as (c' & env' & E2 & Hc2 & Hs2 & Hb2 & Hl2 & Hu2);
    try done; [by destruct Hc1|cbn; rewrite length_app; cbn; lia|cbn; rewrite length_app; cbn; lia|cbn; lia|cbn; lia|].
  exists c', env'. split; [fold s2; rewrite E2; by rewrite Nat.add_succ_r|]. split; [done|]. split; [by rewrite Hs2|].
  do 2 (split; [done|]). rewrite (drop_S _ b) by done. cbn [take].
  change (b :: ?l) with ([b] ++ l).
  apply (uploaded_trans s.(ep0) c1 s2.(ep0) c'); [exists new; by rewrite app_nil_r|done|done|exact Hu2].
Qed.

(** An EEPROM programming command only waits for the data. *)
Lemma prog_eeprom_command s start len n :
  s.(IsSecure) = false -> 0 <= start -> 0 < len -> start + len <= 65536 ->
  let s1 := set_SentCommand (mk_command COMMAND_PROG_START
    (drop 1 (range_command COMMAND_PROG_START 1 start len)) n) s in
  ProcessBootloaderCommand locked_read s1 =
  set_DFU_State dfuDNLOAD_IDLE (set_EndAddr (start + len - 1) (set_StartAddr start s1)).
Proof.
  intros Hsec H0 Hl He s1. destruct (load_addresses s COMMAND_PROG_START 1 start len n H0 Hl He) as [_ E].
  unfold ProcessBootloaderCommand. change (IsSecure s1) with (IsSecure s). rewrite Hsec. cbn [andb].
  change (Command (SentCommand s1) =? COMMAND_PROG_START) with true. cbv iota.
  unfold ProcessMemProgCommand. change (IS_ONEBYTE_COMMAND s1 0) with false.
  change (IS_ONEBYTE_COMMAND s1 1) with true. cbn [orb]. fold s1 in E. by rewrite E.
Qed.

Lemma program_eeprom_ok q s env fill bs suffix rest rest' a :
  is_dnload q -> q.(wLength) = 48 + Z.of_nat (length bs) -> ready_for_commands s ->
  length fill = 26%nat -> length suffix = 16%nat -> Z.of_nat a mod 32 = 0 -> bs <> [] ->
  length s.(eeprom) = 1024%nat -> (a + length bs <= 1024)%nat ->
  delivers env (packets (range_command COMMAND_PROG_START 1 (Z.of_nat a) (Z.of_nat (length bs)) ++ fill ++ bs ++ suffix)) rest ->
  banks 1 rest rest' ->
  exists s', request refill locked_read q env s = Ok s' /\ ready_for_commands s' /\ same_but_memory s s' /\
    s'.(DFU_State) = dfuDNLOAD_IDLE /\ s'.(eeprom) = spliced s.(eeprom) a bs /\ s'.(fl) = s.(fl).
Proof.
  intros Hq Hw Hs Hfl Hsl Hal Hne Hee Hend Hdel Hbk. pose proof Hs as (_ & Hd & Hsec & Hwait).
  assert (0 < length bs)%nat by (destruct bs; [done|cbn; lia]).
  rewrite app_assoc, packets_cons in Hdel by (rewrite length_app, Hfl; done).
  destruct (dnload_request q s env COMMAND_PROG_START 1 (Z.of_nat a) (Z.of_nat (length bs)) fill _ rest rest'
    (48 + Z.of_nat (length bs)) Hq Hw ltac:(lia) Hs Hdel Hbk) as (c1 & env1 & Ha1 & Ho1 & Hr1 & Hb1 & Han1 & Hd1 & Hreq).
  rewrite (prog_eeprom_command (set_ep0 c1 (entered q s))) in Hreq by (done || lia).
  set (s1 := set_DFU_State _ _) in Hreq.
  set (s1' := set_ep0 (set_received [] s1.(ep0)) s1).
  destruct (feed_packets s1' env1 (bs ++ suffix) rest) as (Hf & Hst & _); try done.
  destruct (write_eeprom_ok bs s1' env1 _ rest suffix a Hf Hst) as (c2 & env2 & ps2 & E2 & Hl2 & Hf2 & Hs2);
    [done|cbn; lia|cbn; lia|].
  set (s2 := set_StartAddr _ _) in E2.
  destruct (discard_suffix s2 env2 ps2 rest suffix) as (c3 & env3 & E3 & Hl3 & Hb3 & Hd3); try done.
  assert (E : download_stage refill s1 env1 = Ok (Some tt, set_ep0 c3 s2, env3)).
  { rewrite (discard_fillers s1 env1 fill) by (done || (cbn; lia)).
    fold s1'. rewrite <-E3.
    apply (run_bind (download_memory refill) (fun _ => DiscardFillerBytes DFU_FILE_SUFFIX_SIZE) tt). unfold download_memory. rewrite !run_gets.
    change (IS_ONEBYTE_COMMAND s1' 0) with false. cbv beta iota.
    replace (Z.to_nat (BytesRemaining s1')) with (length bs); [done|].
    unfold BytesRemaining. cbn [EndAddr StartAddr s1' s1 set_ep0 set_DFU_State set_EndAddr set_StartAddr].
    rewrite u16_small by lia. lia. }
  destruct (Hreq _ _ E) as (c4 & E4 & Hi4 & _); [|done|done|].
  { unfold attached. cbn. rewrite (line_state _ _ Hl3). cbn. by rewrite (line_state _ _ Hl2). }
  eexists. split; [exact E4|]. split; [by split_and!|]. split; [by repeat split|]. done.
Qed.

Lemma upload_eeprom_ok q s env m a n rest :
  is_upload q -> ready_for_commands s -> s.(DFU_State) = dfuUPLOAD_IDLE -> data 0 s = 2 ->
  s.(StartAddr) = Z.of_nat a -> s.(EndAddr) = Z.of_nat a + Z.of_nat n - 1 -> (0 < n)%nat ->
  length s.(eeprom) = 1024%nat -> (a + n <= 1024)%nat ->
  banks m env (SendsOUT [] :: rest) -> (n <= 32 * m)%nat ->
  exists s' pk, request refill locked_read q env s = Ok s' /\ ready_for_commands s' /\ same_but_memory s s' /\
    s'.(DFU_State) = dfuIDLE /\ s'.(fl) = s.(fl) /\ s'.(eeprom) = s.(eeprom) /\
    s'.(ep0).(answered) = s.(ep0).(answered) ++ pk /\ Forall (fun p => length p <= 32)%nat pk /\
    concat pk = take n (drop a s.(eeprom)).
Proof.
  intros Hq Hs Hst Hkind Hsa Hea Hn Hee Han Hb Hm. destruct m as [|m]; [lia|].
  pose proof Hs as (_ & Hd & Hsec & Hwait).
  destruct (upload_request q s env m rest (take n (drop a s.(eeprom)))
    (fun s => set_DFU_State dfuIDLE (set_StartAddr (Z.of_nat (a + n)) s))) as (c3 & pk & E & Hi3 & Ha3 & Hpk & Hc3); try done.
  { intros c1 env1 Hc1 Hb1 Hbk1. set (s1 := set_ep0 c1 (entered q s)).
    destruct (read_eeprom_ok n s1 env1 m (SendsOUT [] :: rest) a)
      as (c2 & env2 & E2 & Hc2 & Hs2 & Hb2 & Hl2 & Hu2); try done; try (cbn; rewrite ?Hb1; cbn; lia).
    exists c2, env2. split; [|done].
    unfold upload_memory. rewrite !run_gets. change (data 0 s1) with (data 0 s). rewrite Hkind.
    change (2 =? 0) with false. change (2 =? 2) with true. cbv beta iota.
    replace (Z.to_nat (BytesRemaining s1)) with n.
    { by rewrite (run_bind _ _ _ _ _ _ _ E2). }
    change (BytesRemaining s1) with (BytesRemaining s). unfold BytesRemaining. rewrite Hsa, Hea, u16_small by lia. lia. }
  eexists _, pk. split; [exact E|]. split; [by split_and!|]. split; [by repeat split|]. done.
Qed.

(** ** Theorems *)

Lemma programmed_wf f f' P bs : flash_wf f -> Forall is_u8 bs -> flash_after f f' P bs -> flash_wf f'.
Proof.
  intros Hf Hbs (_ & _ & Hc) a Ha. rewrite Hc by done. unfold programmed.
  destruct (_ && _); [by apply tbl_u8|]. destruct (_ && _); [unfold is_u8; lia|by apply Hf].
Qed.

Lemma programmed_bytes f f' P bs :
  flash_after f f' P bs -> 0 <= P -> P + Z.of_nat (length bs) <= BOOT_START_ADDR ->
  flash_bytes f' P (length bs) = bs.
Proof.
  unfold BOOT_START_ADDR. intros (_ & _ & Hc) HP Hl. unfold flash_bytes. apply list_eq. intros i.
  rewrite list_lookup_fmap. destruct (le_lt_dec (length bs) i) as [Hi|Hi].
  - rewrite !lookup_ge_None_2; [done|done|rewrite length_seq; lia].
  - rewrite lookup_seq_lt by lia. cbn [fmap option_fmap option_map Nat.add].
    rewrite index_small, Hc by lia. unfold programmed.
    replace ((P <=? P + Z.of_nat i) && (P + Z.of_nat i <? P + Z.of_nat (length bs))) with true by lia.
    replace (P + Z.of_nat i - P) with (Z.of_nat i) by lia. unfold tbl. rewrite Nat2Z.id.
    destruct (lookup_lt_is_Some_2 bs i Hi) as [x Hx]. rewrite Hx. f_equal. by apply nth_lookup_Some.
Qed.

(** A block that the bootloader can program: it starts at a page and lies below
    the bootloader. *)
Record block (start : Z) (bs : list Z) : Prop := {
  block_page : start mod 128 = 0;
  block_start : 0 <= start;
  block_bytes : bs <> [] /\ Nat.Even (length bs) /\ Forall is_u8 bs;
  block_end : start + Z.of_nat (length bs) <= BOOT_START_ADDR
}.

(** What a host sends to program a block: the command, 26 filler bytes, the data
    and the 16 bytes of the file suffix. *)
Definition download_bytes (cmd kind start : Z) (fill bs suffix : list Z) : list Z :=
  range_command cmd kind start (Z.of_nat (length bs)) ++ fill ++ bs ++ suffix.

(** C9: Firmware survives the way through the bootloader: when a host downloads a non-empty
    block of an even number of bytes that starts at a flash page and lies in the application
    section, in packets sent at any moments, then reads the range back, while the bootloader
    is idle, not secured and without an error, and its page buffer is empty (no download has
    been cut short in a page), every request is served, the flash holds exactly the block,
    its last page is blank behind it and no other byte has changed, the EEPROM is untouched,
    and the packets of the upload carry exactly the bytes of the block. *)
Theorem flash_roundtrip q1 q2 q3 s env1 env2 env3 fill bs suffix start rest1 rest1' rest2 rest2' rest3 m :
  ready_for_commands s -> holds_bytes s.(fl) [] -> flash_wf s.(fl) -> block start bs ->
  length fill = 26%nat -> length suffix = 16%nat ->
  is_dnload q1 -> q1.(wLength) = 48 + Z.of_nat (length bs) ->
  delivers env1 (packets (download_bytes COMMAND_PROG_START 0 start fill bs suffix)) rest1 ->
  banks 1 rest1 rest1' ->
  is_dnload q2 -> q2.(wLength) = 6 ->
  delivers env2 [range_command COMMAND_DISP_DATA 0 start (Z.of_nat (length bs))] rest2 ->
  banks 1 rest2 rest2' ->
  is_upload q3 -> banks m env3 (SendsOUT [] :: rest3) -> (length bs <= 32 * m)%nat ->
  exists s1 s2 s3 pk,
    request refill locked_read q1 env1 s = Ok s1 /\ request refill locked_read q2 env2 s1 = Ok s2 /\
    request refill locked_read q3 env3 s2 = Ok s3 /\
    (forall a, 0 <= a < 32768 -> s3.(fl).(cells) a = programmed s.(fl).(cells) start bs a) /\
    s3.(eeprom) = s.(eeprom) /\ s3.(DFU_State) = dfuIDLE /\ s3.(DFU_Status) = s.(DFU_Status) /\
    s3.(ep0).(answered) = s2.(ep0).(answered) ++ pk /\ Forall (fun p => length p <= 32)%nat pk /\
    concat pk = bs.
Proof.
  intros Hs Hh Hwf [Hp H0 (Hne & Hev & Hu) He] Hfl Hsl Hq1 Hw1 Hd1 Hb1 Hq2 Hw2 Hd2 Hb2 Hq3 Hb3 Hm.
  assert (Hlen : 0 < Z.of_nat (length bs)) by (destruct bs; [done|cbn; lia]).
  destruct (program_flash_ok q1 s env1 fill bs suffix rest1 rest1' start)
    as (s1 & E1 & Hr1 & Hsm1 & _ & Hee1 & Hun1 & Hfa & _); try done.
  assert (Hwf1 : flash_wf s1.(fl)) by (by apply (programmed_wf s.(fl) _ start bs)).
  unfold BOOT_START_ADDR in He.
  destruct (read_range_ok q2 s1 env2 0 start (Z.of_nat (length bs)) rest2 rest2')
    as (s2 & E2 & Hr2 & Hsm2 & Hst2 & Hf2 & Hee2 & Hsa2 & Hea2 & Hk2 & _); try done; [by left|lia|].
  destruct (upload_flash_ok q3 s2 env3 m start (Z.of_nat (length bs)) rest3)
    as (s3 & pk & E3 & Hr3 & Hsm3 & Hst3 & Hf3 & Hee3 & Ha3 & Hpk & Hc3); try done; try lia.
  { destruct Hev as [x Hx]. rewrite Z.even_spec. exists (Z.of_nat x). lia. }
  { by rewrite Hf2. }
  { by rewrite Hf2. }
  exists s1, s2, s3, pk. do 3 (split; [done|]).
  split; [intros a Ha; rewrite Hf3, Hf2; by apply Hfa|]. split; [congruence|]. split; [done|].
  split; [destruct Hsm1 as (_&_&_&?&_), Hsm2 as (_&_&_&?&_), Hsm3 as (_&_&_&?&_); congruence|].
  split; [done|]. split; [done|]. rewrite Hc3, Hf2, Nat2Z.id. by apply (programmed_bytes s.(fl)).
Qed.

(** C30: The same for the EEPROM, in which the firmware keeps its settings: a block
    that starts at a multiple of 32, downloaded and read back, is what the packets
    of the upload carry; no other byte of the EEPROM changes, and the flash does
    not. *)
Theorem dfu_eeprom_roundtrip q1 q2 q3 s env1 env2 env3 fill bs suffix a rest1 rest1' rest2 rest2' rest3 m :
  ready_for_commands s -> length s.(eeprom) = 1024%nat ->
  Z.of_nat a mod 32 = 0 -> bs <> [] -> (a + length bs <= 1024)%nat ->
  length fill = 26%nat -> length suffix = 16%nat ->
  is_dnload q1 -> q1.(wLength) = 48 + Z.of_nat (length bs) ->
  delivers env1 (packets (download_bytes COMMAND_PROG_START 1 (Z.of_nat a) fill bs suffix)) rest1 ->
  banks 1 rest1 rest1' ->
  is_dnload q2 -> q2.(wLength) = 6 ->
  delivers env2 [range_command COMMAND_DISP_DATA 2 (Z.of_nat a) (Z.of_nat (length bs))] rest2 ->
  banks 1 rest2 rest2' ->
  is_upload q3 -> banks m env3 (SendsOUT [] :: rest3) -> (length bs <= 32 * m)%nat ->
  exists s1 s2 s3 pk,
    request refill locked_read q1 env1 s = Ok s1 /\ request refill locked_read q2 env2 s1 = Ok s2 /\
    request refill locked_read q3 env3 s2 = Ok s3 /\
    s3.(eeprom) = take a s.(eeprom) ++ bs ++ drop (a + length bs) s.(eeprom) /\ s3.(fl) = s.(fl) /\
    s3.(DFU_State) = dfuIDLE /\
    s3.(ep0).(answered) = s2.(ep0).(answered) ++ pk /\ Forall (fun p => length p <= 32)%nat pk /\
    concat pk = bs.
Proof.
  intros Hs Hee Hal Hne Hend Hfl Hsl Hq1 Hw1 Hd1 Hb1 Hq2 Hw2 Hd2 Hb2 Hq3 Hb3 Hm.
  assert (Hlen : (0 < length bs)%nat) by (destruct bs; [done|cbn; lia]).
  destruct (program_eeprom_ok q1 s env1 fill bs suffix rest1 rest1' a)
    as (s1 & E1 & Hr1 & Hsm1 & _ & Hee1 & Hf1); try done.
  destruct (read_range_ok q2 s1 env2 2 (Z.of_nat a) (Z.of_nat (length bs)) rest2 rest2')
    as (s2 & E2 & Hr2 & Hsm2 & Hst2 & Hf2 & Hee2 & Hsa2 & Hea2 & Hk2 & _); try done; [by right|lia|lia|lia|].
  assert (Hl2 : length s2.(eeprom) = 1024%nat) by (rewrite Hee2, Hee1, spliced_length; [done|lia]).
  destruct (upload_eeprom_ok q3 s2 env3 m a (length bs) rest3)
    as (s3 & pk & E3 & Hr3 & Hsm3 & Hst3 & Hf3 & Hee3 & Ha3 & Hpk & Hc3); try done.
  exists s1, s2, s3, pk. do 3 (split; [done|]). split; [by rewrite Hee3, Hee2, Hee1|]. split; [congruence|].
  do 3 (split; [done|]). rewrite Hc3, Hee2, Hee1. unfold spliced.
  rewrite drop_app_length' by (rewrite length_take; lia). by rewrite take_app_length.
Qed.

End memory.

(** ** Witnesses *)

Lemma delivers_all ps rest : delivers (map SendsOUT ps ++ rest) ps rest.
Proof. induction ps as [|p ps IH]; [apply delivers_done|by apply delivers_packet]. Qed.

(** A bootloader that a host has configured, over a memory that is not blank. *)
Definition example_flash : flash := mk_flash (fun a => a mod 251) blank_buffer false 255.
Definition configured : boot :=
  on_ep0 (set_USB_DeviceState DEVICE_STATE_Configured) (at_reset example_flash (replicate 1024 0) 0 0).
Definition dnload (n : Z) : USB_Request_Header_t := mk_request 33 DFU_REQ_DNLOAD 0 0 n.
Definition upload (n : Z) : USB_Request_Header_t := mk_request 161 DFU_REQ_UPLOAD 0 0 n.

Lemma configured_ready : ready_for_commands configured.
Proof. by split_and!. Qed.
Lemma example_flash_wf : flash_wf example_flash.
Proof. intros a Ha. cbn. unfold is_u8. pose proof (Z.mod_pos_bound a 251). lia. Qed.

Lemma flash_roundtrip_witness :
  let bs := [1; 2; 3; 4] in
  let sent := packets (download_bytes COMMAND_PROG_START 0 256 (replicate 26 0) bs (replicate 16 0)) in
  exists s1 s2 s3 pk,
    request (fun old _ => old) (fun _ => 0) (dnload 52) (map SendsOUT sent ++ [BankFree]) configured = Ok s1 /\
    request (fun old _ => old) (fun _ => 0) (dnload 6)
      [SendsOUT (range_command COMMAND_DISP_DATA 0 256 4); BankFree] s1 = Ok s2 /\
    request (fun old _ => old) (fun _ => 0) (upload 4) [BankFree; SendsOUT []] s2 = Ok s3 /\
    s3.(fl).(cells) 258 = 3 /\ concat pk = bs.
Proof.
  intros bs sent.
  destruct (flash_roundtrip (fun old _ => old) (fun _ => 0) (dnload 52) (dnload 6) (upload 4) configured
    (map SendsOUT sent ++ [BankFree]) [SendsOUT (range_command COMMAND_DISP_DATA 0 256 4); BankFree]
    [BankFree; SendsOUT []] (replicate 26 0) bs (replicate 16 0) 256 [BankFree] [] [BankFree] [] [] 1)
    as (s1 & s2 & s3 & pk & E1 & E2 & E3 & Hc & _ & _ & _ & _ & _ & Hpk).
  - exact configured_ready.
  - by apply holds_blank.
  - exact example_flash_wf.
  - split; [reflexivity|lia| |unfold BOOT_START_ADDR; cbn; lia].
    split; [done|]. split; [by exists 2%nat|]. unfold is_u8. repeat (apply Forall_cons_2; [lia|]). constructor.
  - reflexivity.
  - reflexivity.
  - split; reflexivity.
  - reflexivity.
  - apply delivers_all.
  - repeat constructor.
  - split; reflexivity.
  - reflexivity.
  - apply (delivers_all [_]).
  - repeat constructor.
  - split; reflexivity.
  - repeat constructor.
  - cbn. lia.
  - exists s1, s2, s3, pk. split; [exact E1|]. split; [exact E2|]. split; [exact E3|].
    split; [rewrite Hc by lia; reflexivity|exact Hpk].
Defined.

Lemma dfu_eeprom_roundtrip_witness :
  let bs := [1; 2; 3] in
  let sent := packets (download_bytes COMMAND_PROG_START 1 32 (replicate 26 0) bs (replicate 16 0)) in
  exists s1 s2 s3 pk,
    request (fun old _ => old) (fun _ => 0) (dnload 51) (map SendsOUT sent ++ [BankFree]) configured = Ok s1 /\
    request (fun old _ => old) (fun _ => 0) (dnload 6)
      [SendsOUT (range_command COMMAND_DISP_DATA 2 32 3); BankFree] s1 = Ok s2 /\
    request (fun old _ => old) (fun _ => 0) (upload 3) [BankFree; SendsOUT []] s2 = Ok s3 /\
    rd s3.(eeprom) 33 = Ok 2 /\ concat pk = bs.
Proof.
  intros bs sent.
  destruct (dfu_eeprom_roundtrip (fun old _ => old) (fun _ => 0) (dnload 51) (dnload 6) (upload 3) configured
    (map SendsOUT sent ++ [BankFree]) [SendsOUT (range_command COMMAND_DISP_DATA 2 32 3); BankFree]
    [BankFree; SendsOUT []] (replicate 26 0) bs (replicate 16 0) 32 [BankFree] [] [BankFree] [] [] 1)
    as (s1 & s2 & s3 & pk & E1 & E2 & E3 & Hc & _ & _ & _ & _ & Hpk).
  - exact configured_ready.
  - reflexivity.
  - reflexivity.
  - done.
  - cbn. lia.
  - reflexivity.
  - reflexivity.
  - split; reflexivity.
  - reflexivity.
  - apply delivers_all.
  - repeat constructor.
  - split; reflexivity.
  - reflexivity.
  - apply (delivers_all [_]).
  - repeat constructor.
  - split; reflexivity.
  - repeat constructor.
  - cbn. lia.
  - exists s1, s2, s3, pk. split; [exact E1|]. split; [exact E2|]. split; [exact E3|].
    split; [rewrite Hc; reflexivity|exact Hpk].
Defined.

End DfuMemory.
