(* ===== verification/DfuRequests.v ===== *)
(** * What the bootloader's requests can and cannot do

    Invariants that hold whatever the host sends and whenever it is unplugged
    ([keeps]), the end of every request ([halts]), and what two runs with different
    applications have in common ([agrees]). *)

From stdpp Require Import relations.
From S2P Require Import Prelude.
From S2P Require Import Avr.
From S2P Require Import UsbMidi.
From S2P Require Import UsbDevice.
From S2P Require Import Flash.
From S2P Require Import Dfu.
From S2P Require Import DfuMemory.

Module DfuRequests.
Import Avr Flash Dfu DfuMemory.
Import UsbMidi(usb_state(..)).
Import UsbDevice(USB_Request_Header_t(..), bmRequestType, bRequest, wValue, wIndex, wLength).
#[local] Existing Instance UsbMidi.usb_state_eq_dec.

(** ** Invariants of actions *)

(** Whenever the action ends, early or not, the invariant holds. *)
Definition keeps {A} (I : boot -> Prop) (m : act A) : Prop :=
  forall s env r s' env', I s -> m s env = Ok (r, s', env') -> I s'.

(** An invariant that says nothing about the control endpoint. *)
Class Elsewhere (I : boot -> Prop) : Prop :=
  elsewhere : forall c s, I s -> I (set_ep0 c s).

Create HintDb keeps.

Section keeps.
Context (I : boot -> Prop) `{!Elsewhere I}.

Lemma keeps_bind {A B} (m : act A) (k : A -> act B) :
  keeps I m -> (forall a, keeps I (k a)) -> keeps I (m ≫= k).
Proof.
  intros Hm Hk s env r s' env' Hs E. unfold mbind, act_bind in E.
  destruct (m s env) as [[[[a|] s1] env1]|] eqn:Em; [| |done].
  - eapply Hk; [|exact E]. by eapply Hm.
  - injection E as <- <- <-. by eapply Hm.
Qed.
Lemma keeps_skip : keeps I skip.
Proof. intros s env r s' env' Hs [= <- <- <-]. done. Qed.
Lemma keeps_gets {A} (f : boot -> A) : keeps I (gets f).
Proof. intros s env r s' env' Hs [= <- <- <-]. done. Qed.
Lemma keeps_modify f : (forall s, I s -> I (f s)) -> keeps I (modify f).
Proof. intros Hf s env r s' env' Hs [= <- <- <-]. auto. Qed.
Lemma keeps_ep0 f : keeps I (modify (on_ep0 f)).
Proof. apply keeps_modify. intros s Hs. by apply elsewhere. Qed.
Lemma keeps_from_ep0 {A} (f : ctl -> A * ctl) : keeps I (from_ep0 f).
Proof.
  intros s env r s' env' Hs E. unfold from_ep0 in E. destruct (f s.(ep0)) as [a c].
  injection E as <- <- <-. by apply elsewhere.
Qed.
Lemma keeps_tries f : (forall s s', I s -> f s = Ok s' -> I s') -> keeps I (tries f).
Proof.
  intros Hf s env r s' env' Hs E. unfold tries in E. destruct (f s) eqn:Ef; [|done].
  injection E as <- <- <-. eauto.
Qed.
Lemma keeps_call m : keeps I m -> keeps I (call m).
Proof.
  intros Hm s env r s' env' Hs E. unfold call in E. destruct (m s env) as [[[? ?] ?]|] eqn:Em; [|done].
  injection E as <- <- <-. by eapply Hm.
Qed.
Lemma keeps_wait ready : keeps I (wait ready).
Proof.
  intros s env. revert s. unfold wait.
  induction env as [|h env IH]; intros s r s' env' Hs E; cbn [poll] in E;
    (destruct (ready s.(ep0)); [injection E as <- <- <-; done|]);
    (destruct (bool_decide _); [injection E as <- <- <-; done|]); [done|].
  eapply IH; [|exact E]. by apply elsewhere.
Qed.
End keeps.

#[export] Hint Resolve keeps_bind keeps_skip keeps_gets keeps_ep0 keeps_from_ep0 keeps_call keeps_wait : keeps.
#[export] Hint Extern 0 (Elsewhere _) => typeclasses eauto : keeps.

(** Down to the actions that change more than the control endpoint. *)
Ltac keeps_step :=
  match goal with
  | |- keeps _ (_ ≫= _) => apply keeps_bind; [|intros ?]
  | |- keeps _ (if ?b then _ else _) => destruct b
  | |- keeps _ (match ?b with _ => _ end) => destruct b
  | |- keeps _ (let _ := _ in _) => cbv zeta
  | |- keeps _ (call _) => apply keeps_call
  | |- keeps _ _ => solve [auto with keeps]
  end.
Ltac keeps := repeat keeps_step.

(** ** Requests that end

    The device is unplugged now, or will be. *)

Definition unplugged (s : boot) : Prop := s.(ep0).(USB_DeviceState) = DEVICE_STATE_Unattached.
Definition until_unplugged (env : list happening) : list happening := env ++ [Becomes DEVICE_STATE_Unattached].
Definition ending (s : boot) (env : list happening) : Prop :=
  unplugged s \/ exists env0, env = until_unplugged env0.

(** The action ends, or accesses the EEPROM past its end. *)
Definition halts {A} (m : act A) : Prop :=
  forall s env, ending s env ->
  (exists r s' env', m s env = Ok (r, s', env') /\ ending s' env') \/ m s env = Fault OutOfBounds.

Lemma halts_bind {A B} (m : act A) (k : A -> act B) :
  halts m -> (forall a, halts (k a)) -> halts (m ≫= k).
Proof.
  intros Hm Hk s env He. unfold mbind, act_bind.
  destruct (Hm s env He) as [([a|] & s1 & env1 & -> & He1)| ->]; [by apply Hk|left; eauto|by right].
Qed.
Lemma halts_skip : halts skip.
Proof. intros s env He. left. eexists _, _, _. by split. Qed.
Lemma halts_gets {A} (f : boot -> A) : halts (gets f).
Proof. intros s env He. left. eexists _, _, _. by split. Qed.
Lemma halts_modify f : (forall s, (f s).(ep0).(USB_DeviceState) = s.(ep0).(USB_DeviceState)) -> halts (modify f).
Proof.
  intros Hf s env He. left. eexists _, _, _. split; [done|]. destruct He as [He|He]; [left|by right].
  unfold unplugged. by rewrite Hf.
Qed.
Lemma halts_from_ep0 {A} (f : ctl -> A * ctl) :
  (forall c, (f c).2.(USB_DeviceState) = c.(USB_DeviceState)) -> halts (from_ep0 f).
Proof.
  intros Hf s env He. left. unfold from_ep0. specialize (Hf s.(ep0)). destruct (f s.(ep0)) as [a c].
  eexists _, _, _. split; [done|]. destruct He as [He|He]; [left|by right].
  unfold unplugged in *. cbn in *. congruence.
Qed.
Lemma halts_tries f :
  (forall s, (exists s', f s = Ok s' /\ s'.(ep0).(USB_DeviceState) = s.(ep0).(USB_DeviceState)) \/
             f s = Fault OutOfBounds) -> halts (tries f).
Proof.
  intros Hf s env He. unfold tries. destruct (Hf s) as [(s' & -> & E)| ->]; [left|by right].
  eexists _, _, _. split; [done|]. destruct He as [He|He]; [left|by right]. unfold unplugged in *. congruence.
Qed.
Lemma halts_call m : halts m -> halts (call m).
Proof.
  intros Hm s env He. unfold call. destruct (Hm s env He) as [(r & s1 & env1 & -> & He1)| ->]; [left; eauto|by right].
Qed.

(** A polling loop ends: the unplugging is a happening it will see. *)
Lemma halts_wait ready : halts (wait ready).
Proof.
  intros s env. revert s. unfold wait. induction env as [|h env IH]; intros s He; cbn [poll];
    (destruct (ready s.(ep0)); [left; eauto|]);
    (destruct (bool_decide_reflect (s.(ep0).(USB_DeviceState) = DEVICE_STATE_Unattached)) as [Hu|Hu]; [left; eauto|]);
    (destruct He as [He|[env0 He]]; [done|]).
  - by destruct env0.
  - apply IH. destruct env0 as [|h0 env0]; injection He as -> ->; [by left|right; eauto].
Qed.

#[export] Hint Resolve halts_bind halts_skip halts_gets halts_call halts_wait : keeps.

Ltac halts_step :=
  match goal with
  | |- halts (_ ≫= _) => apply halts_bind; [|intros ?]
  | |- halts (if ?b then _ else _) => destruct b
  | |- halts (match ?b with _ => _ end) => destruct b
  | |- halts (let _ := _ in _) => cbv zeta
  | |- halts (call _) => apply halts_call
  | |- halts (modify _) => apply halts_modify; solve [by intros []; auto | intros; done]
  | |- halts _ => solve [auto with keeps]
  end.
Ltac halts := repeat halts_step.

Section requests.
Variable refill : Z -> Z -> Z.
Variable locked_read : Z -> Z.

(** ** Every request ends *)

Lemma command_line s :
  (ProcessBootloaderCommand locked_read s).(ep0).(USB_DeviceState) = s.(ep0).(USB_DeviceState).
Proof.
  unfold ProcessBootloaderCommand, ProcessMemProgCommand, ProcessMemReadCommand, ProcessWriteCommand,
    ProcessReadCommand. cbv zeta.
  repeat first [done | match goal with |- context [if ?b then _ else _] => destruct b end
    | match goal with |- context [match ?b with _ => _ end] => destruct b end].
Qed.

Lemma read_8_line c : (Endpoint_Read_8 c).2.(USB_DeviceState) = c.(USB_DeviceState).
Proof. unfold Endpoint_Read_8. by destruct c.(received). Qed.
Lemma read_16_line c : (Endpoint_Read_16_LE c).2.(USB_DeviceState) = c.(USB_DeviceState).
Proof.
  unfold Endpoint_Read_16_LE. pose proof (read_8_line c) as H1. destruct (Endpoint_Read_8 c) as [lo c1].
  pose proof (read_8_line c1) as H2. destruct (Endpoint_Read_8 c1) as [hi c2]. cbn in *. congruence.
Qed.

Lemma load_data_line n : forall i s, (load_data n i s).(ep0).(USB_DeviceState) = s.(ep0).(USB_DeviceState).
Proof.
  induction n as [|n IH]; intros i s; cbn [load_data]; [done|]. destruct (_ =? 0); [done|].
  pose proof (read_8_line s.(ep0)) as H1. destruct (Endpoint_Read_8 s.(ep0)) as [b c]. rewrite IH. exact H1.
Qed.

Lemma refill_halts : halts refill_OUT.
Proof. unfold refill_OUT. halts. Qed.
Lemma drain_halts : halts drain_IN.
Proof. unfold drain_IN. halts. Qed.
Lemma read_8_halts : halts (from_ep0 Endpoint_Read_8).
Proof. apply halts_from_ep0, read_8_line. Qed.
Lemma read_16_halts : halts (from_ep0 Endpoint_Read_16_LE).
Proof. apply halts_from_ep0, read_16_line. Qed.
Lemma status_halts q : halts (Endpoint_ClearStatusStage q).
Proof. unfold Endpoint_ClearStatusStage. halts. Qed.
Hint Resolve refill_halts drain_halts read_8_halts read_16_halts status_halts : keeps.

Lemma discard_halts n : halts (discard_bytes n).
Proof.
  induction n as [|n IH]; cbn [discard_bytes]; [halts|]. apply halts_bind; [|done]. halts.
  apply halts_modify. intros s. unfold on_ep0, Endpoint_Discard_8. cbn [ep0 set_ep0]. apply read_8_line.
Qed.
Lemma DiscardFillerBytes_halts n : halts (DiscardFillerBytes n).
Proof. apply halts_call, discard_halts. Qed.

Lemma write_flash_halts n : forall addr first k, halts (write_flash refill n addr first k).
Proof.
  induction n as [|n IH]; intros addr first k; cbn [write_flash]; halts; apply IH.
Qed.
Lemma write_eeprom_halts n : halts (write_eeprom n).
Proof.
  induction n as [|n IH]; cbn [write_eeprom]; halts; try apply IH.
  apply halts_tries. intros s. unfold eeprom_write_byte, wr.
  destruct (_ && _); [left; eexists; by split|by right].
Qed.
Lemma read_flash_halts n : forall addr, halts (read_flash locked_read n addr).
Proof. induction n as [|n IH]; intros addr; cbn [read_flash]; halts; apply IH. Qed.
Lemma read_eeprom_halts n : halts (read_eeprom n).
Proof.
  induction n as [|n IH]; cbn [read_eeprom]; halts; try apply IH.
  apply halts_tries. intros s. unfold rd.
  destruct (0 <=? _); [|by right]. destruct (_ !! _); [left; eexists; by split|by right].
Qed.
Hint Resolve DiscardFillerBytes_halts write_flash_halts write_eeprom_halts read_flash_halts read_eeprom_halts : keeps.

Lemma write_all_line bs : forall s,
  (foldl (fun s b => on_ep0 (Endpoint_Write_8 b) s) s bs).(ep0).(USB_DeviceState) = s.(ep0).(USB_DeviceState).
Proof. induction bs as [|b bs IH]; intros s; [done|]. cbn [foldl]. by rewrite IH. Qed.

Lemma answer_halts bs q : halts (answer bs q).
Proof. unfold answer. halts. apply halts_modify. intros s. apply write_all_line. Qed.

Lemma dnload_halts q : halts (DFU_DNLOAD refill locked_read q).
Proof.
  unfold DFU_DNLOAD, exit_stage, command_stage, load_command, download_stage, download_memory.
  halts; apply halts_modify; intros s; try apply command_line. apply load_data_line.
Qed.

Lemma upload_halts q : halts (DFU_UPLOAD locked_read q).
Proof.
  unfold DFU_UPLOAD, upload_stage, upload_memory. halts. apply halts_modify. intros s. unfold upload_response.
  by repeat destruct (decide _) || destruct (IS_ONEBYTE_COMMAND _ _).
Qed.

Lemma handler_halts q : halts (EVENT_USB_Device_ControlRequest refill locked_read q).
Proof.
  unfold EVENT_USB_Device_ControlRequest. halts;
    first [apply dnload_halts|apply upload_halts|apply answer_halts|unfold DFU_CLRSTATUS, DFU_ABORT; halts].
Qed.

(** ** Secure mode *)

(** Once programming is allowed, it stays so. *)
Definition open_mode (s : boot) : Prop := s.(IsSecure) = false.
#[local] Instance open_elsewhere : Elsewhere open_mode.
Proof. by intros c s. Qed.

(** Secure mode as it was: the memories are those given, no transfer is under way, and no
    command waits. *)
Record kept (f : flash) (ee : list Z) (s : boot) : Prop := {
  kp_secure : s.(IsSecure) = true;
  kp_fl : s.(fl) = f;
  kp_eeprom : s.(eeprom) = ee;
  kp_dnload : s.(DFU_State) <> dfuDNLOAD_IDLE;
  kp_upload : s.(DFU_State) <> dfuUPLOAD_IDLE;
  kp_exit : s.(WaitForExit) = false
}.
#[local] Instance kept_elsewhere f ee : Elsewhere (kept f ee).
Proof. by intros c s []. Qed.

(** Secure mode just left: the application is erased. *)
Record erased (f : flash) (ee : list Z) (s : boot) : Prop := {
  er_open : s.(IsSecure) = false;
  er_fl : s.(fl) = boot_rww_enable (erase_application f);
  er_eeprom : s.(eeprom) = ee;
  er_dnload : s.(DFU_State) <> dfuDNLOAD_IDLE
}.
#[local] Instance erased_elsewhere f ee : Elsewhere (erased f ee).
Proof. by intros c s []. Qed.

Definition kept_or_erased (f : flash) (ee : list Z) (s : boot) : Prop := kept f ee s \/ erased f ee s.
#[local] Instance kept_or_erased_elsewhere f ee : Elsewhere (kept_or_erased f ee).
Proof. intros c s [H|H]; [left|right]; by apply elsewhere. Qed.

(** A command refused, one of the two that secure mode allows, or any other. *)
Lemma command_secure s :
  s.(IsSecure) = true ->
  ProcessBootloaderCommand locked_read s =
  if allowed_secure s then
    if s.(SentCommand).(Command) =? COMMAND_READ then ProcessReadCommand s
    else set_IsSecure false (on_fl (fun f => boot_rww_enable (erase_application f)) s)
  else on_ep0 Endpoint_StallTransaction (set_DFU_Status errWRITE (set_DFU_State dfuERROR s)).
Proof.
  intros Hs. unfold ProcessBootloaderCommand. rewrite Hs. destruct (allowed_secure s) eqn:Ha; [|done].
  cbn [andb negb]. unfold allowed_secure in Ha. cbv zeta.
  destruct (Z.eqb_spec s.(SentCommand).(Command) COMMAND_READ) as [Hc|Hr]; [by rewrite Hc|]. rewrite orb_false_r in Ha.
  apply andb_true_iff in Ha as [Hc%Z.eqb_eq Hw]. rewrite Hc.
  change (COMMAND_WRITE =? COMMAND_PROG_START) with false. change (COMMAND_WRITE =? COMMAND_DISP_DATA) with false.
  change (COMMAND_WRITE =? COMMAND_WRITE) with true. cbv iota. unfold ProcessWriteCommand.
  unfold IS_ONEBYTE_COMMAND, IS_TWOBYTE_COMMAND in *. apply andb_true_iff in Hw as [H0%Z.eqb_eq H1%Z.eqb_eq].
  by rewrite H0, H1.
Qed.

Lemma command_open s : open_mode s -> open_mode (ProcessBootloaderCommand locked_read s).
Proof.
  unfold open_mode. intros Hs. unfold ProcessBootloaderCommand. rewrite Hs. cbn [andb].
  unfold ProcessMemProgCommand, ProcessMemReadCommand, ProcessWriteCommand, ProcessReadCommand. cbv zeta.
  repeat first [done | match goal with |- context [if ?b then _ else _] => destruct b end
    | match goal with |- context [match ?b with _ => _ end] => destruct b end].
Qed.

Lemma read_info_keeps s :
  ProcessReadCommand s = s \/ (exists b, ProcessReadCommand s = set_ResponseByte b s) \/
  ProcessReadCommand s = set_DFU_Status errADDRESS (set_DFU_State dfuERROR s).
Proof. unfold ProcessReadCommand. destruct (read_info s) as [[b|]|]; eauto. Qed.

Lemma command_kept f ee s : kept f ee s -> kept_or_erased f ee (ProcessBootloaderCommand locked_read s).
Proof.
  intros [Hs Hf He Hd Hu Hw]. rewrite command_secure by done. destruct (allowed_secure s); [|left; by split].
  destruct (_ =? COMMAND_READ); [left|right; split; cbn; congruence].
  destruct (read_info_keeps s) as [->|[[b ->]| ->]]; by split.
Qed.

Lemma load_data_fields n : forall i s,
  (load_data n i s).(IsSecure) = s.(IsSecure) /\ (load_data n i s).(fl) = s.(fl) /\
  (load_data n i s).(eeprom) = s.(eeprom) /\ (load_data n i s).(DFU_State) = s.(DFU_State) /\
  (load_data n i s).(WaitForExit) = s.(WaitForExit).
Proof.
  induction n as [|n IH]; intros i s; cbn [load_data]; [done|]. destruct (_ =? 0); [done|].
  destruct (Endpoint_Read_8 s.(ep0)) as [b c]. destruct (IH (i + 1) (set_DataSize
    (DataSize (SentCommand (set_Data i b (set_ep0 c s))) - 1) (set_Data i b (set_ep0 c s)))) as (-> & -> & -> & -> & ->). done.
Qed.

(** An action that touches at most the control endpoint and the command keeps both. *)
Section transfers.
Context (I : boot -> Prop) `{!Elsewhere I}.

Lemma keeps_refill : keeps I refill_OUT.
Proof. unfold refill_OUT. keeps. Qed.
Lemma keeps_drain : keeps I drain_IN.
Proof. unfold drain_IN. keeps. Qed.
Lemma keeps_status q : keeps I (Endpoint_ClearStatusStage q).
Proof. unfold Endpoint_ClearStatusStage. keeps. Qed.
Lemma keeps_discard n : keeps I (DiscardFillerBytes n).
Proof.
  apply keeps_call. generalize (Z.to_nat n) as k. induction k as [|k IH]; cbn [discard_bytes]; keeps.
Qed.
Lemma keeps_read_flash n : forall addr, keeps I (read_flash locked_read n addr).
Proof using Type*.
  induction n as [|n IH]; intros addr; cbn [read_flash]; keeps; first [apply keeps_refill|apply keeps_drain|apply IH].
Qed.

(** An invariant of the flash alone. *)
Hypothesis aside_eeprom : forall l s, I s -> I (set_eeprom l s).
Hypothesis aside_StartAddr : forall a s, I s -> I (set_StartAddr a s).
Lemma keeps_write_eeprom n : keeps I (write_eeprom n).
Proof using Type*.
  induction n as [|n IH]; cbn [write_eeprom]; keeps; try apply IH; [apply keeps_refill| |by apply keeps_modify; auto].
  apply keeps_tries. intros s s' Hs E. unfold eeprom_write_byte in E. inv_ok. auto.
Qed.
Lemma keeps_read_eeprom n : keeps I (read_eeprom n).
Proof using Type*.
  induction n as [|n IH]; cbn [read_eeprom]; keeps; try apply IH; [apply keeps_drain| |by apply keeps_modify; auto].
  apply keeps_tries. intros s s' Hs E. inv_ok. by apply elsewhere.
Qed.
End transfers.
Hint Resolve keeps_refill keeps_drain keeps_status keeps_discard keeps_read_flash : keeps.

Lemma write_flash_open n : forall addr first k, keeps open_mode (write_flash refill n addr first k).
Proof.
  induction n as [|n IH]; intros addr first k; cbn [write_flash]; keeps; try apply IH; by apply keeps_modify.
Qed.
Lemma write_eeprom_open n : keeps open_mode (write_eeprom n).
Proof. apply keeps_write_eeprom; [apply _|done|done]. Qed.
Lemma read_eeprom_open n : keeps open_mode (read_eeprom n).
Proof. apply keeps_read_eeprom; [apply _|done|done]. Qed.
Hint Resolve write_flash_open write_eeprom_open read_eeprom_open : keeps.

Lemma download_open : keeps open_mode (download_stage refill).
Proof. unfold download_stage, download_memory. keeps; by apply keeps_modify. Qed.
Lemma upload_open : keeps open_mode (upload_memory locked_read).
Proof. unfold upload_memory. keeps; by apply keeps_modify. Qed.

Lemma handler_open q : keeps open_mode (EVENT_USB_Device_ControlRequest refill locked_read q).
Proof.
  unfold EVENT_USB_Device_ControlRequest, DFU_DNLOAD, exit_stage, command_stage, load_command, DFU_UPLOAD, upload_stage,
    DFU_GETSTATUS, DFU_GETSTATE, answer, DFU_CLRSTATUS, DFU_ABORT.
  keeps; try apply download_open; try apply upload_open; apply keeps_modify; intros s Hs; first [done|by apply command_open|idtac].
  - unfold open_mode. by destruct (load_data_fields 5 0 s) as (-> & _).
  - unfold upload_response. repeat first [done | destruct (decide _) | destruct (IS_ONEBYTE_COMMAND _ _)].
Qed.

(** From one invariant to the next. *)
Definition moves {A} (I J : boot -> Prop) (m : act A) : Prop :=
  forall s env r s' env', I s -> m s env = Ok (r, s', env') -> J s'.

Lemma moves_bind {A B} (I K J : boot -> Prop) (m : act A) (k : A -> act B) :
  moves I K m -> (forall s, K s -> J s) -> (forall a, moves K J (k a)) -> moves I J (m ≫= k).
Proof.
  intros Hm HK Hk s env r s' env' Hs E. unfold mbind, act_bind in E.
  destruct (m s env) as [[[[a|] s1] env1]|] eqn:Em; [| |done].
  - eapply Hk; [|exact E]. by eapply Hm.
  - injection E as <- <- <-. apply HK. by eapply Hm.
Qed.

Lemma kept_still f ee s : kept f ee s -> kept_or_erased f ee s.
Proof. by left. Qed.

Lemma exit_stage_kept f ee : keeps (kept f ee) (exit_stage locked_read).
Proof.
  intros s env r s' env' Hk E. unfold exit_stage in E. rewrite run_gets in E. rewrite (kp_exit _ _ _ Hk) in E. by injection E as <- <- <-.
Qed.

Lemma load_command_kept f ee : keeps (kept f ee) load_command.
Proof.
  unfold load_command. keeps; apply keeps_modify; intros s [Hs Hf He Hd Hu Hw]; [by split..|].
  destruct (load_data_fields 5 0 s) as (E1 & E2 & E3 & E4 & E5). split; congruence.
Qed.

Lemma command_stage_moves f ee : moves (kept f ee) (kept_or_erased f ee) (command_stage locked_read).
Proof.
  unfold command_stage. apply moves_bind with (kept f ee); [by apply keeps_gets|apply kept_still|]. intros n.
  destruct (negb _); [|intros s env r s' env' Hs [= <- <- <-]; by left].
  apply moves_bind with (kept f ee); [apply load_command_kept|apply kept_still|]. intros _ s env r s' env' Hs [= <- <- <-].
  by apply command_kept.
Qed.

Lemma download_stage_still f ee : keeps (kept_or_erased f ee) (download_stage refill).
Proof.
  intros s env r s' env' Hs E. unfold download_stage in E. rewrite run_gets in E.
  assert (Hn : s.(DFU_State) <> dfuDNLOAD_IDLE) by (destruct Hs as [[]|[]]; done).
  rewrite decide_False in E by done. by injection E as <- <- <-.
Qed.

Lemma upload_stage_kept f ee : keeps (kept f ee) (upload_stage locked_read).
Proof.
  intros s env r s' env' Hs E. unfold upload_stage in E. rewrite run_gets in E.
  rewrite decide_False in E by (by destruct Hs). injection E as <- <- <-. unfold upload_response.
  repeat first [by apply elsewhere | destruct (decide _) | destruct (IS_ONEBYTE_COMMAND _ _)].
Qed.

Lemma dnload_moves f ee q : moves (kept f ee) (kept_or_erased f ee) (DFU_DNLOAD refill locked_read q).
Proof.
  unfold DFU_DNLOAD. apply moves_bind with (kept f ee); [by apply keeps_ep0; apply _|apply kept_still|intros _].
  apply moves_bind with (kept f ee); [apply exit_stage_kept|apply kept_still|intros _].
  apply moves_bind with (kept_or_erased f ee); [apply command_stage_moves|done|intros _].
  apply (keeps_bind (kept_or_erased f ee)); [apply download_stage_still|intros _].
  apply (keeps_bind (kept_or_erased f ee)); [apply keeps_ep0; apply _|intros _]. apply keeps_status. apply _.
Qed.

Lemma write_all_kept f ee bs : forall s, kept f ee s ->
  kept f ee (foldl (fun s b => on_ep0 (Endpoint_Write_8 b) s) s bs).
Proof. induction bs as [|b bs IH]; intros s Hs; [done|]. apply IH. by apply elsewhere. Qed.

(** A request to a secured bootloader leaves all as it is or erases the application. *)
Lemma handler_moves f ee q :
  moves (kept f ee) (kept_or_erased f ee) (EVENT_USB_Device_ControlRequest refill locked_read q).
Proof.
  unfold EVENT_USB_Device_ControlRequest. destruct (negb _); [intros s env r s' env' Hs [= <- <- <-]; by left|].
  apply moves_bind with (kept f ee); [|apply kept_still|intros _]. { apply (keeps_modify (kept f ee)). by intros s []. }
  apply moves_bind with (kept f ee); [|apply kept_still|intros _]. { apply (keeps_modify (kept f ee)). by intros s []. }
  cbv zeta. destruct (_ =? DFU_REQ_DNLOAD); [apply dnload_moves|].
  intros s env r s' env' Hs E. left. revert s env r s' env' Hs E. fold (keeps (A := unit) (kept f ee)).
  unfold DFU_UPLOAD, DFU_GETSTATUS, DFU_GETSTATE, answer, DFU_CLRSTATUS, DFU_ABORT.
  match goal with |- forall s env r s' env', _ -> ?m s env = _ -> _ => change (keeps (kept f ee) m) end.
  keeps; first [apply upload_stage_kept|apply keeps_modify; intros s Hs; first [by apply write_all_kept|by destruct Hs]].
Qed.

(** ** Erasing the application *)

(** The loop after [p] pages. *)
Definition erased_pages (f : flash) (p : Z) (g : flash) : Prop :=
  (forall a, 0 <= a < 32768 -> g.(cells) a =
     if a <? 128 * p then if a <? SPM_PAGESIZE then Z.land 255 (buffered f a) else 255 else f.(cells) a) /\
  g.(buffer) = (if p =? 0 then f.(buffer) else blank_buffer) /\ g.(LockBits) = f.(LockBits).

Lemma erase_next_page f p g :
  0 <= p < 224 -> erased_pages f p g ->
  erased_pages f (p + 1) (boot_page_write (p * SPM_PAGESIZE) (boot_page_erase (p * SPM_PAGESIZE) g)).
Proof.
  intros Hp (Hc & Hb & HL).
  change SPM_PAGESIZE with 128. assert (HP : 0 <= p * 128 < BOOT_START_ADDR) by (unfold BOOT_START_ADDR; lia).
  assert (Hm : (p * 128) mod 128 = 0) by (apply Z.mod_mul; lia).
  set (g1 := boot_page_erase (p * 128) g). destruct (erase_keeps (p * 128) g) as [Hb1 HL1]. fold g1 in Hb1, HL1.
  unfold boot_page_write. rewrite app_unprotected by done. unfold erased_pages. split_and!; cbn [cells buffer LockBits].
  - intros a Ha. unfold BOOT_START_ADDR in HP. rewrite same_page by lia. unfold g1.
    rewrite erase_app_page by (unfold BOOT_START_ADDR; done || lia). fold g1.
    destruct ((p * 128 <=? a) && (a <? p * 128 + 128)) eqn:Hin.
    + replace (a <? 128 * (p + 1)) with true by lia.
      unfold buffered. rewrite Hb1, Hb. change SPM_PAGESIZE with 128. destruct (Z.eqb_spec p 0).
      * by replace (a <? 128) with true by lia.
      * replace (a <? 128) with false by lia. cbn. by destruct (Z.even a).
    + rewrite Hc by done. by replace (a <? 128 * (p + 1)) with (a <? 128 * p) by lia.
  - by replace (p + 1 =? 0) with false by lia.
  - by rewrite HL1, HL.
Qed.

(** Every page of the application is erased, then programmed with what is in the
    page buffer, which the first page empties. *)
Lemma erase_application_spec f :
  let f' := erase_application f in
  (forall a, 0 <= a < 32768 -> f'.(cells) a =
     if a <? BOOT_START_ADDR then if a <? SPM_PAGESIZE then Z.land 255 (buffered f a) else 255
     else f.(cells) a) /\
  f'.(buffer) = blank_buffer /\ f'.(LockBits) = f.(LockBits).
Proof.
  assert (H : erased_pages f 224 (erase_application f)).
  { unfold erase_application. change (Z.to_nat (BOOT_START_ADDR / SPM_PAGESIZE)) with 224%nat.
    change 224 with (0 + Z.of_nat 224). apply (for_pure_inv (erased_pages f)).
    - split_and!; try done. intros a Ha. by replace (a <? 128 * 0) with false by lia.
    - intros p g Hp. apply erase_next_page. lia. }
  destruct H as (Hc & Hb & HL). cbv zeta. split_and!; [|done|done].
  intros a Ha. rewrite Hc by done. by change (128 * 224) with BOOT_START_ADDR.
Qed.

Lemma erased_cells f ee s a : erased f ee s -> 0 <= a < BOOT_START_ADDR ->
  s.(fl).(cells) a = if a <? SPM_PAGESIZE then Z.land 255 (buffered f a) else 255.
Proof.
  intros [_ Hfl _ _] Ha. rewrite Hfl. pose proof (erase_application_spec f) as Hf. cbv zeta in Hf. clear Hfl. revert Hf.
  generalize (erase_application f) as f'. intros f' (Hc & _). unfold boot_rww_enable. cbn [cells].
  rewrite Hc by (unfold BOOT_START_ADDR in Ha; lia). by destruct (Z.ltb_spec a BOOT_START_ADDR); [|lia].
Qed.

(** Comparisons of states do not run the loop. *)
#[local] Opaque erase_application.

(** ** Secure mode reveals nothing

    Two runs of the bootloader over memories that differ in the application only.
    As long as secure mode is on, no action tells them apart; once it is off, the
    memories are the same. *)

(** The bytes of the bootloader's own section and the page buffer. *)
Record same_outside (f g : flash) : Prop := {
  out_cells : forall a, BOOT_START_ADDR <= a < 32768 -> f.(cells) a = g.(cells) a;
  out_buffer : forall i, f.(buffer) i = g.(buffer) i;
  out_locked : f.(rww_locked) = g.(rww_locked);
  out_bits : f.(LockBits) = g.(LockBits)
}.

Lemma erase_forgets f g : same_outside f g ->
  same_flash (boot_rww_enable (erase_application f)) (boot_rww_enable (erase_application g)).
Proof.
  intros [Hc Hb Hl HL].
  pose proof (erase_application_spec f) as Hf. pose proof (erase_application_spec g) as Hg. cbv zeta in Hf, Hg.
  revert Hf Hg. generalize (erase_application f) as f', (erase_application g) as g'.
  intros f' g' (Hf & _ & HLf) (Hg & _ & HLg).
  split; cbn [cells buffer rww_locked LockBits boot_rww_enable]; [|done|done|congruence].
  intros a Ha. rewrite Hf, Hg by done. unfold buffered. rewrite Hb.
  destruct (Z.ltb_spec a BOOT_START_ADDR); [done|]. apply Hc. lia.
Qed.

Definition differ (R : flash -> flash -> Prop) (s1 s2 : boot) : Prop :=
  s2 = set_fl s2.(fl) s1 /\ R s1.(fl) s2.(fl).

Definition same_mode (s1 s2 : boot) : Prop := differ same_flash s1 s2.
Definition secure_mode (s1 s2 : boot) : Prop :=
  differ same_outside s1 s2 /\ s1.(IsSecure) = true /\
  s1.(DFU_State) <> dfuDNLOAD_IDLE /\ s1.(DFU_State) <> dfuUPLOAD_IDLE.
(** What a host in secure mode cannot tell apart. *)
Definition alike (s1 s2 : boot) : Prop := same_mode s1 s2 \/ secure_mode s1 s2.

Definition rel_result {A} (R : boot -> boot -> Prop)
    (x y : res (option A * boot * list happening)) : Prop :=
  match x, y with
  | Ok (a, s, env), Ok (a', s', env') => a = a' /\ env = env' /\ R s s'
  | Fault e, Fault e' => e = e'
  | _, _ => False
  end.
Definition agrees {A} (R : boot -> boot -> Prop) (m : act A) : Prop :=
  forall s1 s2 env, R s1 s2 -> rel_result R (m s1 env) (m s2 env).

(** Relations that leave the control endpoint equal. *)
Class SameEndpoint (R : boot -> boot -> Prop) : Prop := {
  ends_equal s1 s2 : R s1 s2 -> s1.(ep0) = s2.(ep0);
  ends_set c s1 s2 : R s1 s2 -> R (set_ep0 c s1) (set_ep0 c s2)
}.

#[local] Instance same_mode_endpoint : SameEndpoint same_mode.
Proof.
  split.
  - intros s1 s2 [-> _]. done.
  - intros c s1 s2 [E HR]. split; [by rewrite E|done].
Qed.
#[local] Instance alike_endpoint : SameEndpoint alike.
Proof.
  split.
  - intros s1 s2 [[-> _]|[[-> _] _]]; done.
  - intros c s1 s2 [[E HR]|[[E HR] Hs]]; [left|right; split; [|done]]; (split; [by rewrite E|done]).
Qed.

Section agree.
Context (R : boot -> boot -> Prop) `{!SameEndpoint R}.

Lemma agrees_bind {A B} (m : act A) (k : A -> act B) :
  agrees R m -> (forall a, agrees R (k a)) -> agrees R (m ≫= k).
Proof.
  intros Hm Hk s1 s2 env HR. specialize (Hm s1 s2 env HR). unfold mbind, act_bind, rel_result in *.
  destruct (m s1 env) as [[[a1 s1'] env1]|], (m s2 env) as [[[a2 s2'] env2]|]; try done.
  destruct Hm as (-> & -> & HR'). destruct a2 as [a|]; [by apply Hk|done].
Qed.
Lemma agrees_skip : agrees R skip.
Proof. done. Qed.
Lemma agrees_gets {A} (f : boot -> A) : (forall s1 s2, R s1 s2 -> f s1 = f s2) -> agrees R (gets f).
Proof. intros Hf s1 s2 env HR. cbn. by rewrite (Hf _ _ HR). Qed.
Lemma agrees_modify f : (forall s1 s2, R s1 s2 -> R (f s1) (f s2)) -> agrees R (modify f).
Proof. intros Hf s1 s2 env HR. cbn. auto. Qed.
Lemma agrees_ep0 f : agrees R (modify (on_ep0 f)).
Proof.
  apply agrees_modify. intros s1 s2 HR. unfold on_ep0. rewrite (ends_equal _ _ HR). by apply ends_set.
Qed.
Lemma agrees_from_ep0 {A} (f : ctl -> A * ctl) : agrees R (from_ep0 f).
Proof.
  intros s1 s2 env HR. unfold from_ep0. rewrite (ends_equal _ _ HR). destruct (f s2.(ep0)). cbn.
  split_and!; [done|done|by apply ends_set].
Qed.
Lemma agrees_tries f :
  (forall s1 s2, R s1 s2 -> match f s1, f s2 with
     | Ok s1', Ok s2' => R s1' s2' | Fault e, Fault e' => e = e' | _, _ => False end) -> agrees R (tries f).
Proof.
  intros Hf s1 s2 env HR. specialize (Hf s1 s2 HR). unfold tries. by destruct (f s1), (f s2).
Qed.
Lemma agrees_call m : agrees R m -> agrees R (call m).
Proof.
  intros Hm s1 s2 env HR. specialize (Hm s1 s2 env HR). unfold call, rel_result in *.
  destruct (m s1 env) as [[[a1 s1'] env1]|], (m s2 env) as [[[a2 s2'] env2]|]; try done.
  by destruct Hm as (_ & -> & HR').
Qed.
Lemma agrees_wait ready : agrees R (wait ready).
Proof.
  intros s1 s2 env. revert s1 s2. unfold wait. induction env as [|h env IH]; intros s1 s2 HR; cbn [poll];
    rewrite (ends_equal _ _ HR); (destruct (ready s2.(ep0)); [done|]); (destruct (bool_decide _); [done|]); [done|].
  apply IH. unfold on_ep0. rewrite (ends_equal _ _ HR). by apply ends_set.
Qed.
Lemma agrees_bytes : agrees R (gets (fun s => Endpoint_BytesInEndpoint s.(ep0))).
Proof. apply agrees_gets. intros s1 s2 HR. by rewrite (ends_equal _ _ HR). Qed.
End agree.

#[local] Hint Resolve agrees_skip agrees_ep0 agrees_from_ep0 agrees_wait agrees_bytes : keeps.
#[local] Hint Extern 0 (SameEndpoint _) => typeclasses eauto : keeps.

Ltac agrees_step :=
  match goal with
  | |- agrees _ (_ ≫= _) => apply agrees_bind; [|intros ?]
  | |- agrees _ (if ?b then _ else _) => destruct b
  | |- agrees _ (match ?b with _ => _ end) => destruct b
  | |- agrees _ (let _ := _ in _) => cbv zeta
  | |- agrees _ (call _) => apply agrees_call
  | |- agrees _ _ => solve [auto with keeps]
  end.
Ltac agrees := repeat agrees_step.

Lemma first_nonblank_same n : forall a f g,
  same_flash f g -> first_nonblank locked_read n a f = first_nonblank locked_read n a g.
Proof.
  induction n as [|n IH]; intros a f g H; cbn [first_nonblank]; [done|].
  rewrite (read_byte_proper locked_read a f g H). by rewrite (IH (a + 1) f g H).
Qed.

Lemma erase_same f g : same_flash f g ->
  same_flash (boot_rww_enable (erase_application f)) (boot_rww_enable (erase_application g)).
Proof. intros [Hc Hb Hl HL]. apply erase_forgets. split; try done. intros a Ha. apply Hc. unfold BOOT_START_ADDR in Ha. lia. Qed.

Lemma differ_open (R : flash -> flash -> Prop) F s g :
  R (F s.(fl)) (F g) -> differ R (set_IsSecure false (on_fl F s)) (set_IsSecure false (on_fl F (set_fl g s))).
Proof. intros H. by split. Qed.

(** A command does not tell equal memories apart. *)
Lemma command_same s1 s2 :
  same_mode s1 s2 -> same_mode (ProcessBootloaderCommand locked_read s1) (ProcessBootloaderCommand locked_read s2).
Proof.
  intros [-> HR]. revert HR. generalize (fl s2) as g. cbn [fl set_fl]. intros g HR.
  unfold ProcessBootloaderCommand. cbn [IsSecure SentCommand set_fl].
  change (allowed_secure (set_fl g s1)) with (allowed_secure s1).
  destruct (s1.(IsSecure) && _); [by split|]. cbv zeta.
  destruct (_ =? COMMAND_PROG_START).
  { unfold ProcessMemProgCommand, IS_ONEBYTE_COMMAND, data. cbn [SentCommand set_fl].
    destruct (_ || _); [|by split]. cbn. destruct (_ =? 0); split; try done. cbn. by apply erase_proper. }
  destruct (_ =? COMMAND_DISP_DATA).
  { unfold ProcessMemReadCommand, IS_ONEBYTE_COMMAND, data. cbn [SentCommand fl set_fl].
    destruct (_ || _); [by split|]. destruct (_ =? 1); [|by split].
    rewrite (first_nonblank_same _ 0 _ _ HR). destruct (first_nonblank _ _ _ _); by split. }
  destruct (_ =? COMMAND_WRITE).
  { unfold ProcessWriteCommand, IS_ONEBYTE_COMMAND, IS_TWOBYTE_COMMAND, data. cbn [SentCommand fl set_fl].
    destruct (_ =? 3).
    - cbn. destruct (negb _); [by destruct (_ =? 1)|]. destruct (_ =? 0); [by split|].
      rewrite (read_word_proper locked_read 0 _ _ HR). by destruct (_ =? 65535).
    - destruct (_ && _); [|by split]. apply differ_open, (erase_same _ _ HR). }
  destruct (_ =? COMMAND_READ).
  { unfold ProcessReadCommand. change (read_info (set_fl g s1)) with (read_info s1).
    destruct (read_info s1) as [[?|]|]; by split. }
  destruct (_ =? COMMAND_CHANGE_BASE_ADDR); [|by split].
  unfold IS_TWOBYTE_COMMAND, data. cbn [SentCommand set_fl]. by destruct (_ && _).
Qed.

Lemma command_alike s1 s2 :
  alike s1 s2 -> alike (ProcessBootloaderCommand locked_read s1) (ProcessBootloaderCommand locked_read s2).
Proof.
  intros [Hs|[[E HR] (Hs & Hn & Hu)]]; [left; by apply command_same|].
  revert E HR. generalize (fl s2) as g. intros g -> HR.
  rewrite !command_secure by done. change (allowed_secure (set_fl g s1)) with (allowed_secure s1).
  cbn [SentCommand set_fl]. destruct (allowed_secure s1); [|right; by repeat split; try apply HR].
  destruct (_ =? COMMAND_READ).
  - right. unfold ProcessReadCommand. change (read_info (set_fl g s1)) with (read_info s1).
    destruct (read_info s1) as [[?|]|]; by repeat split; try apply HR.
  - left. apply differ_open, (erase_forgets _ _ HR).
Qed.

(** A change of variables that does not look at the flash. *)
Lemma blind_alike f :
  (forall g s, f (set_fl g s) = set_fl g (f s)) -> (forall s, fl (f s) = fl s) ->
  (forall s, IsSecure (f s) = IsSecure s) ->
  (forall s, DFU_State (f s) = DFU_State s \/ DFU_State (f s) = dfuIDLE) ->
  (forall s1 s2, same_mode s1 s2 -> same_mode (f s1) (f s2)) /\ (forall s1 s2, alike s1 s2 -> alike (f s1) (f s2)).
Proof.
  intros Hf Hfl Hsec Hst.
  assert (Hd : forall R s1 s2, differ R s1 s2 -> differ R (f s1) (f s2)).
  { intros R s1 s2 [E HR]. split; [|by rewrite !Hfl]. rewrite Hfl. revert E. generalize (fl s2) as g. intros g ->. apply Hf. }
  split; [intros s1 s2; apply Hd|]. intros s1 s2 [H|[H (Hs & Hn & Hu)]]; [left; by apply Hd|right].
  split; [by apply Hd|]. rewrite Hsec. destruct (Hst s1) as [-> | ->]; done.
Qed.

Ltac blind := apply agrees_modify; eapply blind_alike; intros; solve [done | by left | by right].

Lemma load_data_fl n g : forall i s, load_data n i (set_fl g s) = set_fl g (load_data n i s).
Proof.
  induction n as [|n IH]; intros i s; cbn [load_data]; [done|]. cbn [ep0 set_fl]. destruct (_ =? 0); [done|].
  destruct (Endpoint_Read_8 s.(ep0)) as [b c]. by rewrite <-IH.
Qed.

Section pieces.
Context (R : boot -> boot -> Prop) `{!SameEndpoint R}.
Lemma agrees_refill : agrees R refill_OUT.
Proof. unfold refill_OUT. agrees. Qed.
Lemma agrees_drain : agrees R drain_IN.
Proof. unfold drain_IN. agrees. Qed.
Lemma agrees_status q : agrees R (Endpoint_ClearStatusStage q).
Proof. unfold Endpoint_ClearStatusStage. agrees. Qed.
Lemma agrees_discard n : agrees R (DiscardFillerBytes n).
Proof. apply agrees_call. generalize (Z.to_nat n) as k. induction k as [|k IH]; cbn [discard_bytes]; agrees. Qed.
End pieces.
#[local] Hint Resolve agrees_refill agrees_drain agrees_status agrees_discard : keeps.

(** A variable that is not the flash. *)
Lemma agrees_same_gets {A} (f : boot -> A) : (forall g s, f (set_fl g s) = f s) -> agrees same_mode (gets f).
Proof. intros Hf. apply agrees_gets. intros s1 s2 [-> _]. by rewrite Hf. Qed.
Lemma agrees_alike_gets {A} (f : boot -> A) : (forall g s, f (set_fl g s) = f s) -> agrees alike (gets f).
Proof. intros Hf. apply agrees_gets. intros s1 s2 [[-> _]|[[-> _] _]]; by rewrite Hf. Qed.

(** An operation of the flash, between equal memories. *)
Lemma agrees_flash f : Proper (same_flash ==> same_flash) f -> agrees same_mode (modify (on_fl f)).
Proof. intros Hf. apply agrees_modify. intros s1 s2 [E HR]. split; [by rewrite E|by apply Hf]. Qed.
#[local] Hint Extern 1 (agrees same_mode (gets _)) => (apply agrees_same_gets; done) : keeps.
#[local] Hint Extern 1 (agrees alike (gets _)) => (apply agrees_alike_gets; done) : keeps.
#[local] Hint Extern 1 (agrees same_mode (modify (on_fl _))) => (apply agrees_flash; typeclasses eauto) : keeps.

Lemma write_flash_same n : forall addr first k, agrees same_mode (write_flash refill n addr first k).
Proof. induction n as [|n IH]; intros addr first k; cbn [write_flash]; agrees. Qed.
Lemma write_eeprom_same n : agrees same_mode (write_eeprom n).
Proof.
  induction n as [|n IH]; cbn [write_eeprom]; agrees; try blind.
  apply agrees_tries. intros s1 s2 [-> HR]. unfold eeprom_write_byte. cbn [eeprom set_fl].
  destruct (wr _ _ _); cbn; by split.
Qed.
Lemma read_flash_same n : forall addr, agrees same_mode (read_flash locked_read n addr).
Proof.
  induction n as [|n IH]; intros addr; cbn [read_flash]; agrees.
  apply agrees_gets. intros s1 s2 [_ HR]. by apply read_word_proper.
Qed.
Lemma read_eeprom_same n : agrees same_mode (read_eeprom n).
Proof.
  induction n as [|n IH]; cbn [read_eeprom]; agrees; try blind.
  apply agrees_tries. intros s1 s2 [-> HR]. cbn [eeprom StartAddr set_fl].
  destruct (rd _ _); cbn; by split.
Qed.
#[local] Hint Resolve write_flash_same write_eeprom_same read_flash_same read_eeprom_same : keeps.

Lemma rel_result_mono {A} (R R' : boot -> boot -> Prop) (x y : res (option A * boot * list happening)) :
  (forall s1 s2, R s1 s2 -> R' s1 s2) -> rel_result R x y -> rel_result R' x y.
Proof. intros HR. unfold rel_result. destruct x as [[[? ?] ?]|], y as [[[? ?] ?]|]; try done. intros (?&?&?). auto. Qed.

Lemma download_same : agrees same_mode (download_stage refill).
Proof. unfold download_stage, download_memory. agrees; blind. Qed.
Lemma upload_same : agrees same_mode (upload_memory locked_read).
Proof. unfold upload_memory. agrees; blind. Qed.

Lemma download_alike : agrees alike (download_stage refill).
Proof.
  intros s1 s2 env [Hs|Hs].
  - eapply rel_result_mono; [|by apply download_same]. by left.
  - destruct Hs as [[E HR] (Hs & Hn & Hu)]. rewrite E. unfold download_stage. rewrite !run_gets.
    cbn [DFU_State set_fl]. rewrite decide_False by done. cbn. split_and!; try done. right. by repeat split; try apply HR.
Qed.

Lemma response_alike s1 s2 : alike s1 s2 -> alike (upload_response s1) (upload_response s2).
Proof.
  apply blind_alike; intros; unfold upload_response, IS_ONEBYTE_COMMAND, data; cbn [DFU_State SentCommand set_fl];
    repeat first [done | by left | destruct (decide _) | destruct (_ =? _)].
Qed.
Lemma upload_stage_alike : agrees alike (upload_stage locked_read).
Proof.
  intros s1 s2 env H. unfold upload_stage. rewrite !run_gets.
  assert (Hst : DFU_State s1 = DFU_State s2) by (destruct H as [[-> _]|[[-> _] _]]; done). rewrite <-Hst.
  destruct (decide _) as [Hu|Hu].
  - destruct H as [H|(_ & _ & _ & Hn)]; [|done]. eapply rel_result_mono; [|by apply upload_same]. by left.
  - cbn. split_and!; try done. by apply response_alike.
Qed.

Lemma write_all_fl bs : forall s,
  foldl (fun s b => on_ep0 (Endpoint_Write_8 b) s) s bs =
  set_ep0 (foldl (fun c b => Endpoint_Write_8 b c) s.(ep0) bs) s.
Proof. induction bs as [|b bs IH]; intros s; cbn [foldl]; [by destruct s|]. by rewrite IH. Qed.

Lemma answer_alike bs q : (forall g s, bs (set_fl g s) = bs s) -> agrees alike (answer bs q).
Proof.
  intros Hbs. unfold answer. agrees. apply agrees_modify. intros s1 s2 H. rewrite !write_all_fl.
  assert (E : bs s1 = bs s2) by (destruct H as [[-> _]|[[-> _] _]]; by rewrite Hbs).
  rewrite E, (ends_equal _ _ H). by apply ends_set.
Qed.

Lemma handler_alike q : agrees alike (EVENT_USB_Device_ControlRequest refill locked_read q).
Proof.
  unfold EVENT_USB_Device_ControlRequest, DFU_DNLOAD, exit_stage, command_stage, load_command, DFU_UPLOAD,
    DFU_GETSTATUS, DFU_GETSTATE, DFU_CLRSTATUS, DFU_ABORT.
  agrees; first [blind | by apply answer_alike | apply download_alike | apply upload_stage_alike
    | apply agrees_modify; intros s1 s2 H; by apply command_alike | idtac].
  apply agrees_modify. apply blind_alike; intros;
    [apply load_data_fl|apply load_data_fields|apply load_data_fields|left; apply load_data_fields].
Qed.

(** ** Theorems *)

Lemma request_moves f ee q env s s' :
  kept f ee s -> request refill locked_read q env s = Ok s' -> kept_or_erased f ee s'.
Proof.
  intros Hk E. unfold request in E.
  destruct (EVENT_USB_Device_ControlRequest _ _ _ _ _) as [[[r s1] env1]|] eqn:E1; [|done]. injection E as ->.
  eapply handler_moves; [|exact E1]. by apply elsewhere.
Qed.

Lemma request_open q env s s' : open_mode s -> request refill locked_read q env s = Ok s' -> open_mode s'.
Proof.
  intros Hk E. unfold request in E.
  destruct (EVENT_USB_Device_ControlRequest _ _ _ _ _) as [[[r s1] env1]|] eqn:E1; [|done]. injection E as ->.
  eapply handler_open; [|exact E1]. by apply elsewhere.
Qed.

(** C25: a request of the host is served to its end, whatever it asks for and whatever the
    host sends or takes while it is served, provided that the host or the user eventually
    pulls the plug: no polling loop of the handler can hang an unplugged device.  The one
    other outcome is an access past the end of the EEPROM, whose addresses the code does not
    check. *)
Theorem dfu_requests_end q s env :
  (exists s', request refill locked_read q (until_unplugged env) s = Ok s') \/
  request refill locked_read q (until_unplugged env) s = Fault OutOfBounds.
Proof.
  unfold request. destruct (handler_halts q (on_ep0 (fun c => set_RXSTPI true (set_STALLRQ false c)) s)
    (until_unplugged env)) as [(r & s' & env' & -> & _)| ->]; [right; eauto|left; eauto|by right].
Qed.

(** Some request leads from one state to the next. *)
Definition serves (s s' : boot) : Prop := exists q env, request refill locked_read q env s = Ok s'.

(** C28: in secure mode, the host can change the memories only by erasing the application:
    after any number of requests to an idle bootloader on which no command waits, with any
    data, cut short at any point or not, either secure mode is still on, the flash and the
    EEPROM are those at the start and no download or upload is under way; or one of the
    requests ended secure mode, and up to it both memories were those at the start, and with
    it the EEPROM is still that and of the application nothing is left: every byte above the
    first page reads erased, and in the first page it is what was waiting in the page
    buffer. *)
Theorem secure_mode_protects s s' :
  s.(IsSecure) = true -> s.(DFU_State) = dfuIDLE -> s.(WaitForExit) = false -> rtc serves s s' ->
  (s'.(IsSecure) = true /\ s'.(fl) = s.(fl) /\ s'.(eeprom) = s.(eeprom) /\
   s'.(DFU_State) <> dfuDNLOAD_IDLE /\ s'.(DFU_State) <> dfuUPLOAD_IDLE) \/
  (s'.(IsSecure) = false /\
   exists s1 s2, rtc serves s s1 /\ serves s1 s2 /\ rtc serves s2 s' /\
     s1.(IsSecure) = true /\ s1.(fl) = s.(fl) /\ s1.(eeprom) = s.(eeprom) /\
     s2.(IsSecure) = false /\ s2.(eeprom) = s.(eeprom) /\
     forall a, 0 <= a < BOOT_START_ADDR ->
       s2.(fl).(cells) a = if a <? SPM_PAGESIZE then Z.land 255 (buffered s.(fl) a) else 255).
Proof.
  intros Hs Hst Hw Hr. assert (Hk : kept s.(fl) s.(eeprom) s) by (by split; rewrite ?Hst).
  assert (Hrun : kept s.(fl) s.(eeprom) s' \/ exists s1 s2, rtc serves s s1 /\ serves s1 s2 /\ rtc serves s2 s' /\
    kept s.(fl) s.(eeprom) s1 /\ erased s.(fl) s.(eeprom) s2).
  { revert Hk. generalize (fl s) as f, (eeprom s) as ee. clear Hs Hst Hw. intros f ee.
    induction Hr as [s|s1 s2 s3 Hv Hr IH]; intros Hk; [by left|]. destruct Hv as (q & env & E).
    destruct (request_moves f ee q env s1 s2 Hk E) as [Hk2|He].
    - destruct (IH Hk2) as [H3|(t1 & t2 & H2 & Hrest)]; [by left|right]. exists t1, t2. split; [|exact Hrest].
      apply rtc_l with s2; [by exists q, env|done].
    - right. exists s1, s2. split; [done|]. split; [by exists q, env|]. by split. }
  destruct Hrun as [[]|(s1 & s2 & H1 & H12 & H2 & [] & He)]; [by left|right]. pose proof He as [Ho _ Hee _].
  split. { clear - H2 Ho. induction H2 as [|t1 t2 t3 (q & env & E) _ IH]; [done|]. apply IH. by eapply request_open. }
  exists s1, s2. do 8 (split; [done|]). intros a. by apply erased_cells with s.(eeprom).
Qed.

(** How two runs of [main] end that the host cannot tell apart. *)
Definition rel_exit (R : boot -> boot -> Prop) (x y : res exit) : Prop :=
  match x, y with
  | Ok (Waits s1), Ok (Waits s2) => R s1 s2
  | Ok (JumpsTo a s1), Ok (JumpsTo b s2) => a = b /\ R s1 s2
  | Fault e, Fault e' => e = e'
  | _, _ => False
  end.

Lemma request_alike q env s1 s2 : alike s1 s2 ->
  match request refill locked_read q env s1, request refill locked_read q env s2 with
  | Ok s1', Ok s2' => alike s1' s2' | Fault e, Fault e' => e = e' | _, _ => False end.
Proof.
  intros H. unfold request, on_ep0. rewrite (ends_equal _ _ H). set (c := set_RXSTPI _ _).
  pose proof (handler_alike q _ _ env (ends_set c _ _ H)) as Ha. unfold rel_result in Ha.
  destruct (EVENT_USB_Device_ControlRequest _ _ q (set_ep0 c s1) env) as [[[a1 t1] e1]|],
    (EVENT_USB_Device_ControlRequest _ _ q (set_ep0 c s2) env) as [[[a2 t2] e2]|]; try done.
  by destruct Ha as (_ & _ & Ha).
Qed.

Lemma alike_field {A} (p : boot -> A) s1 s2 : (forall g s, p (set_fl g s) = p s) -> alike s1 s2 -> p s1 = p s2.
Proof. intros Hp [[-> _]|[[-> _] _]]; by rewrite Hp. Qed.

Lemma leaving_alike s1 s2 : alike s1 s2 -> alike (ResetHardware s1) (ResetHardware s2).
Proof. apply blind_alike; intros; solve [done | by left]. Qed.

Lemma loop_alike visits : forall s1 s2, alike s1 s2 ->
  rel_exit alike (bootloader_loop refill locked_read visits s1) (bootloader_loop refill locked_read visits s2).
Proof.
  induction visits as [|v visits IH]; intros s1 s2 H; cbn [bootloader_loop];
    rewrite (alike_field RunBootloader s1 s2), (alike_field WaitForExit s1 s2) by done;
    (destruct (RunBootloader s2 || WaitForExit s2);
      [|cbn [rel_exit]; split; [apply (alike_field AppStartPtr); [done|by apply leaving_alike]|by apply leaving_alike]]).
  - rewrite (alike_field cpu s1 s2), (alike_field MagicBootKey s1 s2) by done. by destruct (WDT _).
  - assert (Hh : alike (happens v.(before) s1) (happens v.(before) s2)).
    { unfold happens, on_ep0. rewrite (ends_equal _ _ H). by apply ends_set. }
    pose proof (request_alike v.(asks) v.(during) _ _ Hh) as Hr. cbn [mbind res_bind].
    destruct (request _ _ _ _ (happens _ s1)) as [t1|], (request _ _ _ _ (happens _ s2)) as [t2|]; try done.
    by apply IH.
Qed.

Lemma rel_exit_mono (R R' : boot -> boot -> Prop) x y :
  (forall s1 s2, R s1 s2 -> R' s1 s2) -> rel_exit R x y -> rel_exit R' x y.
Proof. intros HR. unfold rel_exit. destruct x as [[]|], y as [[]|]; try done; [apply HR|]. intros []; auto. Qed.

Lemma cpu_alike f s1 s2 : alike s1 s2 -> alike (on_cpu f s1) (on_cpu f s2).
Proof. apply (blind_alike (on_cpu f)); intros; solve [done | by left]. Qed.
Lemma ep0_alike f s1 s2 : alike s1 s2 -> alike (on_ep0 f s1) (on_ep0 f s2).
Proof. intros H. unfold on_ep0. rewrite (ends_equal _ _ H). by apply ends_set. Qed.

Lemma start_alike s1 s2 : alike s1 s2 ->
  alike (on_cpu sei (on_cpu (LEDs_SetAllLEDs LEDS_LED1) (SetupHardware s1)))
    (on_cpu sei (on_cpu (LEDs_SetAllLEDs LEDS_LED1) (SetupHardware s2))).
Proof.
  intros H. unfold SetupHardware. cbv zeta. do 5 apply cpu_alike. apply ep0_alike. by do 4 apply cpu_alike.
Qed.

(** C19: as long as secure mode is on, the host learns nothing about the application: two
    runs of the bootloader over the same requests, with flash memories that differ only
    below the bootloader section, go the same way and end alike in everything but the flash,
    all packets answered to the host included; and when secure mode has been ended, by a
    chip erase, the memories are the same. *)
Theorem secure_mode_confidential visits s g :
  s.(IsSecure) = true -> s.(DFU_State) = dfuIDLE -> same_outside s.(fl) g ->
  rel_exit (fun s1 s2 => s2 = set_fl s2.(fl) s1 /\ (s1.(IsSecure) = false -> same_flash s1.(fl) s2.(fl)))
    (main refill locked_read visits s) (main refill locked_read visits (set_fl g s)).
Proof.
  intros Hs Hst Hout.
  assert (H : alike s (set_fl g s)).
  { right. split; [split; [reflexivity|exact Hout]|]. by rewrite Hs, Hst. }
  unfold main. eapply rel_exit_mono; [|apply loop_alike, start_alike, H].
  intros s1 s2 [[E HR]|[[E HR] (Hs1 & _)]]; (split; [done|]); [done|congruence].
Qed.

End requests.

(** ** Witnesses *)

Definition secured : boot := set_IsSecure true configured.
Definition blank_flash : flash :=
  mk_flash (fun a => if a <? BOOT_START_ADDR then 255 else a mod 251) blank_buffer false 255.

(** A request to program memory, and one to erase the chip. *)
Definition refused_then_erased : res (boot * boot) :=
  s1 ← request (fun old _ => old) (fun _ => 0) (dnload 6)
         [SendsOUT (range_command COMMAND_PROG_START 0 256 4); BankFree] secured;
  s2 ← request (fun old _ => old) (fun _ => 0) (dnload 3) [SendsOUT [COMMAND_WRITE; 0; 255]; BankFree] s1;
  Ok (s1, s2).

Lemma secure_mode_protects_witness :
  exists s1 s2, refused_then_erased = Ok (s1, s2) /\
    s1.(DFU_State) = dfuERROR /\ s1.(fl) = secured.(fl) /\ s2.(IsSecure) = false /\
    exists t, rtc (serves (fun old _ => old) (fun _ => 0)) t s2 /\ t.(fl).(cells) 200 = 255.
Proof.
  assert (H : match refused_then_erased with
    | Ok (s1, s2) => s1.(IsSecure) && bool_decide (s1.(DFU_State) = dfuERROR) && negb s2.(IsSecure)
    | Fault _ => false end = true) by (vm_compute; reflexivity).
  unfold refused_then_erased in *.
  destruct (request _ _ _ _ secured) as [s1|] eqn:E1; [|discriminate H]. rewrite bind_Ok in *.
  destruct (request _ _ _ _ s1) as [s2|] eqn:E2; [|discriminate H]. rewrite bind_Ok in *.
  exists s1, s2. split; [reflexivity|]. apply andb_true_iff in H as [[Hs He%bool_decide_eq_true]%andb_true_iff Ho%negb_true_iff].
  assert (H1 : rtc (serves (fun old _ => old) (fun _ => 0)) secured s1) by (apply rtc_once; eexists _, _; exact E1).
  assert (H2 : rtc (serves (fun old _ => old) (fun _ => 0)) secured s2)
    by (apply rtc_r with s1; [exact H1|]; eexists _, _; exact E2).
  split; [exact He|]. split; [|split; [exact Ho|]].
  - destruct (secure_mode_protects (fun old _ => old) (fun _ => 0) secured s1 eq_refl eq_refl eq_refl H1)
      as [(_ & Hf & _)|(Hs' & _)]; [exact Hf|congruence].
  - destruct (secure_mode_protects (fun old _ => old) (fun _ => 0) secured s2 eq_refl eq_refl eq_refl H2)
      as [(Ho' & _)|(_ & t1 & t & _ & _ & Ht & _ & _ & _ & _ & _ & Hc)]; [congruence|].
    exists t. split; [exact Ht|]. apply Hc. unfold BOOT_START_ADDR. lia.
Defined.

Lemma secure_mode_confidential_witness :
  let v := mk_visit [] (dnload 6) [SendsOUT (range_command COMMAND_DISP_DATA 0 256 4); BankFree] in
  rel_exit (fun s1 s2 => s2 = set_fl s2.(fl) s1 /\ (s1.(IsSecure) = false -> same_flash s1.(fl) s2.(fl)))
    (main (fun old _ => old) (fun _ => 0) [v] secured)
    (main (fun old _ => old) (fun _ => 0) [v] (set_fl blank_flash secured)).
Proof.
  intros v. apply (secure_mode_confidential (fun old _ => old) (fun _ => 0) [v] secured blank_flash); [reflexivity|reflexivity|].
  split; [|reflexivity..]. intros a Ha. unfold blank_flash, secured, configured, example_flash. cbn.
  destruct (Z.ltb_spec a BOOT_START_ADDR); [lia|reflexivity].
Defined.

End DfuRequests.
