(* ===== verification/DfuCommands.v ===== *)
(** * The bootloader's commands that are not transfers

    Erase, blank check, identification and the start of the application: what a host
    that sends the command in one packet obtains, and the way from the firmware to
    the bootloader and back. *)

From S2P Require Import Prelude.
From S2P Require Import Avr.
From S2P Require Import UsbMidi.
From S2P Require Import UsbDevice.
From S2P Require Import Config.
From S2P Require Import Flash.
From S2P Require Import Dfu.
From S2P Require Import DfuMemory.
From S2P Require Import DfuRequests.

Module DfuCommands.
Import Avr Flash Dfu DfuMemory DfuRequests.
Import UsbMidi(usb_state(..)).
Import UsbDevice(USB_Request_Header_t(..), bmRequestType, bRequest, wValue, wIndex, wLength).

(** Comparisons of states do not run the loop. *)
#[local] Opaque erase_application.

Section commands.
Variable refill : Z -> Z -> Z.
Variable locked_read : Z -> Z.

(** ** Commands without data *)

(** The state a command leaves: a programming command without data is over. *)
Definition settled (s : boot) : boot :=
  if decide (s.(DFU_State) = dfuDNLOAD_IDLE) then set_DFU_State dfuIDLE s else s.

(** The state in which a command of the bytes [cmd :: d] is processed. *)
Definition commanded (q : USB_Request_Header_t) (cmd : Z) (d : list Z) (s : boot) : boot :=
  set_SentCommand (mk_command cmd (loaded 0 5 s.(SentCommand).(Data) d) 0) (entered q s).

Lemma command_sent s : (ProcessBootloaderCommand locked_read s).(SentCommand) = s.(SentCommand).
Proof.
  unfold ProcessBootloaderCommand, ProcessMemProgCommand, ProcessMemReadCommand, ProcessWriteCommand,
    ProcessReadCommand. cbv zeta.
  repeat first [done | match goal with |- context [if ?b then _ else _] => destruct b end
    | match goal with |- context [match ?b with _ => _ end] => destruct b end].
Qed.

(** A command never touches the bank, and treats the endpoint as opaque. *)
Lemma command_set_ep0 c s :
  exists b : bool, ProcessBootloaderCommand locked_read (set_ep0 c s) =
    set_ep0 (if b then set_STALLRQ true c else c) (ProcessBootloaderCommand locked_read s).
Proof.
  unfold ProcessBootloaderCommand. cbn [IsSecure SentCommand set_ep0].
  change (allowed_secure (set_ep0 c s)) with (allowed_secure s).
  destruct (s.(IsSecure) && _); [by exists true|]. exists false. cbv zeta iota.
  unfold ProcessMemProgCommand, ProcessMemReadCommand, ProcessWriteCommand, ProcessReadCommand.
  change (read_info (set_ep0 c s)) with (read_info s).
  unfold LoadStartEndAddresses, IS_ONEBYTE_COMMAND, IS_TWOBYTE_COMMAND, data. cbv zeta.
  cbn [SentCommand fl set_ep0 set_WaitForExit set_StartAddr set_EndAddr].
  generalize (fun f => boot_rww_enable (erase_application f)) as F. intros F.
  repeat first [done | match goal with |- context [if ?b then _ else _] => destruct b end
    | match goal with |- context [match ?b with _ => _ end] => destruct b end].
Qed.

(** A command's packet is loaded and processed. *)
Lemma short_command_stage s env cmd d rest :
  s.(SentCommand).(DataSize) = 1 + Z.of_nat (length d) -> (length d <= 5)%nat ->
  idle s.(ep0) -> length s.(SentCommand).(Data) = 5%nat -> delivers env [cmd :: d] rest ->
  exists c' env', command_stage locked_read s env =
      Ok (Some tt, ProcessBootloaderCommand locked_read (set_ep0 c'
        (set_SentCommand (mk_command cmd (loaded 0 5 s.(SentCommand).(Data) d) 0) s)), env') /\
    same_line s.(ep0) c' /\ c'.(bank) = [] /\ delivers env' [] rest.
Proof.
  intros Hsz Hl [] Hd Hdel.
  destruct (load_command_ok s env cmd d [] rest) as (c1 & env1 & E1 & Hl1 & Ho1 & Hr1 & Hb1 & Hd1); try done.
  exists c1, env1. split; [|done]. unfold command_stage. rewrite run_gets.
  rewrite Hsz, length_take in E1.
  replace (1 + Z.of_nat (length d) - Z.of_nat (S (5 `min` length d))) with 0 in E1 by lia. change (u16 0) with 0 in E1.
  replace (set_SentCommand _ (set_ep0 c1 s)) with
    (set_ep0 c1 (set_SentCommand (mk_command cmd (loaded 0 5 s.(SentCommand).(Data) d) 0) s)) in E1 by done.
  rewrite Hsz. replace (1 + Z.of_nat (length d) =? 0) with false by lia. cbn [negb].
  rewrite (run_bind _ _ _ _ _ _ _ E1). reflexivity.
Qed.

(** Nothing follows a command without data. *)
Lemma nothing_to_download s c env :
  s.(SentCommand).(DataSize) = 0 ->
  download_stage refill (set_ep0 c s) env = Ok (Some tt, set_ep0 c (settled s), env).
Proof.
  intros Hds. unfold download_stage, settled. rewrite run_gets. cbn [DFU_State set_ep0].
  destruct (decide _); [|done]. rewrite run_gets. cbn [SentCommand set_ep0]. by rewrite Hds.
Qed.

Lemma command_request q s env cmd d rest rest' :
  is_dnload q -> q.(wLength) = 1 + Z.of_nat (length d) -> (length d <= 5)%nat ->
  idle s.(ep0) -> length s.(SentCommand).(Data) = 5%nat -> s.(WaitForExit) = false ->
  delivers env [cmd :: d] rest -> banks 1 rest rest' ->
  exists c3, request refill locked_read q env s =
      Ok (set_ep0 c3 (settled (ProcessBootloaderCommand locked_read (commanded q cmd d s)))) /\
    idle c3 /\ c3.(answered) = s.(ep0).(answered) ++ [[]].
Proof.
  intros Hq Hw Hl [] Hd Hwait Hdel Hbk.
  assert (Hsz : (entered q s).(SentCommand).(DataSize) = 1 + Z.of_nat (length d))
    by (unfold entered; cbn; rewrite Hw; apply u16_small; lia).
  destruct (short_command_stage (entered q s) env cmd d rest) as (c1 & env1 & E1 & [] & Hb1 & Hd1); try done.
  change (set_SentCommand _ (entered q s)) with (commanded q cmd d s) in E1.
  destruct (command_set_ep0 c1 (commanded q cmd d s)) as [b Eb]. rewrite Eb in E1.
  pose proof (command_sent (commanded q cmd d s)) as Hds.
  revert E1 Hds. clear Eb. generalize (ProcessBootloaderCommand locked_read (commanded q cmd d s)) as s2.
  intros s2 E1 Hds. set (c2 := if b then set_STALLRQ true c1 else c1) in *.
  assert (Hc2 : attached c2 /\ c2.(bank) = [] /\ c2.(answered) = s.(ep0).(answered)).
  { unfold c2. destruct b; cbn; (split; [unfold attached; cbn; by rewrite line_state0|split; [done|by rewrite line_answered0]]). }
  destruct Hc2 as (Ha2 & Hb2 & Han2). clearbody c2.
  rewrite request_dnload by done. unfold dnload_body.
  assert (Ex : exit_stage locked_read (entered q s) env = Ok (Some tt, entered q s, env)).
  { unfold exit_stage. rewrite run_gets. change (WaitForExit (entered q s)) with (WaitForExit s). by rewrite Hwait. }
  rewrite (run_bind _ _ _ _ _ _ _ Ex), (run_bind _ _ _ _ _ _ _ E1).
  rewrite (run_bind _ _ _ _ _ _ _ (nothing_to_download s2 c2 env1 ltac:(by rewrite Hds))).
  destruct (finish_dnload q (set_ep0 c2 (settled s2)) env1 rest') as (c3 & env3 & E4 & Hi & Ha);
    [done|done|done|by apply (delivered_banks _ [] rest)|].
  rewrite E4. exists c3. split; [done|]. split; [done|]. rewrite Ha. cbn. by rewrite Han2.
Qed.


(** ** Erase and blank check *)

Lemma first_nonblank_spec n : forall a f, f.(rww_locked) = false -> 0 <= a -> a + Z.of_nat n <= 32768 ->
  match first_nonblank locked_read n a f with
  | None => forall b, a <= b < a + Z.of_nat n -> f.(cells) b = 255
  | Some x => a <= x < a + Z.of_nat n /\ f.(cells) x <> 255 /\ forall b, a <= b < x -> f.(cells) b = 255
  end.
Proof.
  induction n as [|n IH]; intros a f Hu Ha Hn; cbn [first_nonblank]; [intros b Hb; lia|].
  unfold pgm_read_byte at 1. rewrite Hu, index_small by lia. cbn [andb].
  destruct (Z.eqb_spec (f.(cells) a) 255) as [E|E]; cbn [negb]; [|split; [lia|]; split; [done|]; intros b Hb; lia].
  specialize (IH (a + 1) f Hu ltac:(lia) ltac:(lia)).
  assert (Hx : forall hi, (forall b, a + 1 <= b < hi -> f.(cells) b = 255) -> forall b, a <= b < hi -> f.(cells) b = 255).
  { intros hi Hh b Hb. destruct (Z.eq_dec b a) as [->|]; [done|apply Hh; lia]. }
  destruct (first_nonblank _ _ _ _) as [x|].
  - destruct IH as (Hr & Hne & Hb). split; [lia|]. split; [done|]. by apply Hx.
  - intros b Hb. apply (Hx (a + Z.of_nat (S n))); [|done]. intros b' Hb'. apply IH. lia.
Qed.

(** The application section is blank. *)
Definition application_blank (f : flash) : Prop := forall a, 0 <= a < BOOT_START_ADDR -> f.(cells) a = 255.

Lemma blank_buffered f a : holds_bytes f [] -> buffered f a = 255.
Proof.
  intros Hh. assert (Hs : 0 <= slot_of a < 64) by (unfold slot_of, flash_index, SPM_PAGESIZE; div_lia).
  assert (E : f.(buffer) (slot_of a) = None).
  { rewrite (Hh _ Hs). cbn [length]. by replace (2 * slot_of a <? Z.of_nat 0) with false by lia. }
  unfold buffered. rewrite E. by destruct (Z.even a).
Qed.

Lemma erase_blanks f : holds_bytes f [] ->
  let f' := boot_rww_enable (erase_application f) in
  application_blank f' /\ (forall a, BOOT_START_ADDR <= a < 32768 -> f'.(cells) a = f.(cells) a) /\
  f'.(rww_locked) = false /\ holds_bytes f' [] /\ f'.(LockBits) = f.(LockBits).
Proof.
  intros Hh. pose proof (erase_application_spec f) as Hf. cbv zeta in *. revert Hf.
  generalize (erase_application f) as f'. intros f' (Hc & Hb & HL). unfold application_blank, BOOT_START_ADDR in *.
  split_and!; try done; cbn [cells boot_rww_enable].
  - intros a Ha. rewrite Hc by lia. replace (a <? 28672) with true by lia. rewrite blank_buffered by done.
    by destruct (a <? SPM_PAGESIZE).
  - intros a Ha. rewrite Hc by lia. by replace (a <? 28672) with false by lia.
  - by apply holds_blank.
Qed.

Definition ERASE : list Z := [COMMAND_WRITE; 0; 255].
Definition BLANK_CHECK : list Z := [COMMAND_DISP_DATA; 1].

Lemma erase_command q s :
  length s.(SentCommand).(Data) = 5%nat ->
  ProcessBootloaderCommand locked_read (commanded q COMMAND_WRITE [0; 255] s) =
  set_IsSecure false (on_fl (fun f => boot_rww_enable (erase_application f)) (commanded q COMMAND_WRITE [0; 255] s)).
Proof.
  intros Hd. set (s1 := commanded q COMMAND_WRITE [0; 255] s).
  unfold ProcessBootloaderCommand. change (allowed_secure s1) with true. rewrite andb_false_r. reflexivity.
Qed.

Lemma blank_command q s :
  length s.(SentCommand).(Data) = 5%nat -> s.(IsSecure) = false ->
  let s1 := commanded q COMMAND_DISP_DATA [1] s in
  ProcessBootloaderCommand locked_read s1 =
  match first_nonblank locked_read (Z.to_nat BOOT_START_ADDR) 0 s.(fl) with
  | Some a => set_DFU_Status errCHECK_ERASED (set_DFU_State dfuERROR (set_StartAddr (u16 a)
                (set_Flash64KBPage (u8 (Z.shiftr a 16)) s1)))
  | None => s1
  end.
Proof.
  intros Hd Hs s1. unfold ProcessBootloaderCommand. change (IsSecure s1) with (IsSecure s). rewrite Hs. reflexivity.
Qed.

(** The answer to an upload when no transfer is under way. *)
Definition response (s : boot) : list Z :=
  if decide (s.(DFU_State) = dfuERROR /\ data 0 s = 1)
  then [s.(StartAddr) mod 256; s.(StartAddr) / 256 mod 256] else [s.(ResponseByte)].

Lemma upload_response_eq s : s.(ep0).(bank) = [] ->
  exists c, upload_response s = set_ep0 c s /\ c = set_bank (response s) s.(ep0).
Proof.
  intros Hb. eexists. split; [|done]. unfold upload_response, response, IS_ONEBYTE_COMMAND, on_ep0.
  unfold Endpoint_Write_16_LE, Endpoint_Write_8. rewrite Hb.
  destruct (decide (s.(DFU_State) = dfuERROR)) as [Hs|Hs].
  - destruct (Z.eqb_spec (data 0 s) 1) as [Hd|Hd].
    + rewrite decide_True by done. cbn. by rewrite land_255, Z.shiftr_div_pow2 by lia.
    + by rewrite decide_False by (by intros [_ ?]).
  - by rewrite decide_False by (by intros [? _]).
Qed.

Lemma response_request q s env rest :
  is_upload q -> idle s.(ep0) -> s.(DFU_State) <> dfuUPLOAD_IDLE -> banks 1 env (SendsOUT [] :: rest) ->
  exists c3, request refill locked_read q env s = Ok (set_ep0 c3 (entered q s)) /\ idle c3 /\
    c3.(answered) = s.(ep0).(answered) ++ [response s].
Proof.
  intros Hq [] Hst Hb. rewrite request_upload by done. set (s0 := entered q s). unfold upload_body.
  destruct (wait_IN env _ 1 Hb 0 s0) as (c1 & env1 & E1 & [] & Ht1 & Ho1 & Hr1 & Hb1 & Hbk1);
    [by destruct s0.(ep0).(TXINI); lia|done|].
  rewrite (run_bind _ _ _ _ _ _ _ E1). unfold upload_stage. rewrite run_assoc, run_gets.
  change (DFU_State (set_ep0 c1 s0)) with (DFU_State s). rewrite decide_False by done. rewrite run_modify.
  destruct (upload_response_eq (set_ep0 c1 s0)) as (c & E2 & Ec); [cbn; by rewrite Hb1|]. rewrite E2.
  change (response (set_ep0 c1 s0)) with (response s) in Ec. cbn [ep0 set_ep0] in Ec.
  destruct (finish_upload q (set_ep0 c (set_ep0 c1 s0)) env1 rest) as (c3 & env3 & E3 & Hi & Ha); [done| | |].
  { rewrite Ec. split; cbn; [unfold attached; cbn; by rewrite line_state0|by rewrite Ho1|done|by rewrite Hr1]. }
  { apply (banks_delivers 0 env1 (SendsOUT [] :: rest)); [done|]. apply delivers_packet, delivers_done. }
  rewrite E3. exists c3. split; [done|]. split; [done|]. rewrite Ha, Ec. cbn. by rewrite line_answered0.
Qed.
(** The state in which a host finds the bootloader between two requests. *)
Definition between (s : boot) : Prop :=
  idle s.(ep0) /\ length s.(SentCommand).(Data) = 5%nat /\ s.(WaitForExit) = false.


Lemma erase_request q s env rest rest' :
  between s -> is_dnload q -> q.(wLength) = 3 -> delivers env [ERASE] rest -> banks 1 rest rest' ->
  exists c, request refill locked_read q env s = Ok (set_ep0 c (settled (set_IsSecure false
      (on_fl (fun f => boot_rww_enable (erase_application f)) (commanded q COMMAND_WRITE [0; 255] s))))) /\ idle c.
Proof.
  intros (Hi & Hd & Hw) Hq Hl Hdel Hb.
  destruct (command_request q s env COMMAND_WRITE [0; 255] rest rest') as (c & E & Hc & _); try done; [cbn; lia|].
  exists c. split; [|done]. rewrite E. by rewrite erase_command.
Qed.

Lemma loaded_length old d : length old = 5%nat -> length (loaded 0 5 old d) = 5%nat.
Proof. intros H. unfold loaded. rewrite !length_app, length_drop, !length_take, H. lia. Qed.

(** What the erase leaves; the loop's result is generalized. *)
Lemma erase_leaves q s env rest rest' :
  between s -> holds_bytes s.(fl) [] -> s.(DFU_State) <> dfuDNLOAD_IDLE ->
  is_dnload q -> q.(wLength) = 3 -> delivers env [ERASE] rest -> banks 1 rest rest' ->
  exists s1, request refill locked_read q env s = Ok s1 /\ between s1 /\ s1.(IsSecure) = false /\
    application_blank s1.(fl) /\ (forall a, BOOT_START_ADDR <= a < 32768 -> s1.(fl).(cells) a = s.(fl).(cells) a) /\
    s1.(fl).(rww_locked) = false /\ holds_bytes s1.(fl) [] /\ s1.(fl).(LockBits) = s.(fl).(LockBits) /\
    s1.(eeprom) = s.(eeprom) /\ s1.(DFU_State) = s.(DFU_State) /\ s1.(DFU_Status) = s.(DFU_Status) /\
    s1.(RunBootloader) = s.(RunBootloader).
Proof.
  intros Hbt Hh Hst Hq Hl Hdel Hb. pose proof Hbt as (_ & Hd & Hw).
  destruct (erase_request q s env rest rest' Hbt Hq Hl Hdel Hb) as (c & E & Hc).
  pose proof (erase_blanks s.(fl) Hh) as Hf. cbv zeta in Hf. revert E Hf. unfold on_fl.
  change (fl (commanded q COMMAND_WRITE [0; 255] s)) with (fl s).
  generalize (boot_rww_enable (erase_application s.(fl))) as f'. intros f' E (H1 & H2 & H3 & H4 & H5).
  eexists. split; [exact E|]. unfold settled. rewrite decide_False by done.
  split_and!; try done. split_and!; try done. by apply loaded_length.
Qed.

Lemma blank_request q s env rest rest' :
  between s -> s.(IsSecure) = false -> s.(DFU_State) <> dfuDNLOAD_IDLE ->
  is_dnload q -> q.(wLength) = 2 -> delivers env [BLANK_CHECK] rest -> banks 1 rest rest' ->
  exists s1, request refill locked_read q env s = Ok s1 /\ between s1 /\ s1.(IsSecure) = false /\
    s1.(fl) = s.(fl) /\ s1.(eeprom) = s.(eeprom) /\ data 0 s1 = 1 /\
    match first_nonblank locked_read (Z.to_nat BOOT_START_ADDR) 0 s.(fl) with
    | Some a => s1.(DFU_State) = dfuERROR /\ s1.(DFU_Status) = errCHECK_ERASED /\ s1.(StartAddr) = u16 a
    | None => s1.(DFU_State) = s.(DFU_State) /\ s1.(DFU_Status) = s.(DFU_Status)
    end.
Proof.
  intros (Hi & Hd & Hw) Hs Hst Hq Hl Hdel Hb.
  destruct (command_request q s env COMMAND_DISP_DATA [1] rest rest') as (c & E & Hc & _); try done; [cbn; lia|].
  rewrite E, blank_command by done. clear E. cbv zeta.
  set (s1 := commanded q COMMAND_DISP_DATA [1] s).
  assert (H5 : length (Data (SentCommand s1)) = 5%nat).
  { by apply loaded_length. }
  destruct (first_nonblank _ _ _ _) as [a|]; unfold settled; rewrite decide_False by done; eexists; (split; [reflexivity|]);
    by split_and!.
Qed.

(** the erase command [4; 0; 255] blanks the application section, and only it: every byte below
    [BOOT_START_ADDR] reads 255 afterwards, the bootloader's own section and the EEPROM are
    unchanged, the flash is readable, and programming is allowed; and the blank check that follows
    finds nothing and reports no error. *)
Theorem dfu_erase_blanks q1 q2 s env1 env2 rest1 rest1' rest2 rest2' :
  between s -> holds_bytes s.(fl) [] -> s.(DFU_State) <> dfuDNLOAD_IDLE ->
  is_dnload q1 -> q1.(wLength) = 3 -> delivers env1 [ERASE] rest1 -> banks 1 rest1 rest1' ->
  is_dnload q2 -> q2.(wLength) = 2 -> delivers env2 [BLANK_CHECK] rest2 -> banks 1 rest2 rest2' ->
  exists s1 s2, request refill locked_read q1 env1 s = Ok s1 /\ request refill locked_read q2 env2 s1 = Ok s2 /\
    s1.(IsSecure) = false /\ s1.(eeprom) = s.(eeprom) /\
    (forall a, 0 <= a < BOOT_START_ADDR -> pgm_read_byte locked_read a s1.(fl) = 255) /\
    (forall a, BOOT_START_ADDR <= a < 32768 -> pgm_read_byte locked_read a s1.(fl) = s.(fl).(cells) a) /\
    s2.(fl) = s1.(fl) /\ s2.(DFU_State) = s.(DFU_State) /\ s2.(DFU_Status) = s.(DFU_Status).
Proof.
  intros Hbt Hh Hst Hq1 Hl1 Hd1 Hb1 Hq2 Hl2 Hd2 Hb2.
  destruct (erase_leaves q1 s env1 rest1 rest1') as (s1 & E1 & Hbt1 & Hs1 & Hbl & Hbo & Hu & _ & _ & Hee & Hst1 & Hss1 & _); try done.
  destruct (blank_request q2 s1 env2 rest2 rest2') as (s2 & E2 & _ & _ & Hfl & _ & _ & Hm); try done; [by rewrite Hst1|].
  exists s1, s2. split; [done|]. split; [done|]. split; [done|]. split; [done|].
  unfold BOOT_START_ADDR in *. split; [|split]; [intros a Ha; unfold pgm_read_byte; rewrite Hu, index_small by lia; cbn [andb]; auto..|].
  split; [done|]. pose proof (first_nonblank_spec (Z.to_nat 28672) 0 s1.(fl) Hu ltac:(lia) ltac:(lia)) as Hf.
  destruct (first_nonblank _ _ _ _) as [a|]; [|by rewrite <-Hst1, <-Hss1].
  destruct Hf as (Hr & Hne & _). destruct Hne. apply Hbl. unfold BOOT_START_ADDR. lia.
Qed.

(** the blank check [3; 1] finds exactly the first byte of the application section that is
    not blank: then the state is dfuERROR with the status errCHECK_ERASED, and the next
    upload answers with that byte's address, low byte first; when the section is blank,
    neither state nor status changes.  The memories are not touched. *)
Theorem dfu_blank_check q1 q2 s env1 env2 rest1 rest1' rest2 :
  between s -> s.(IsSecure) = false -> s.(fl).(rww_locked) = false -> s.(DFU_State) <> dfuDNLOAD_IDLE ->
  is_dnload q1 -> q1.(wLength) = 2 -> delivers env1 [BLANK_CHECK] rest1 -> banks 1 rest1 rest1' ->
  is_upload q2 -> banks 1 env2 (SendsOUT [] :: rest2) ->
  exists s1, request refill locked_read q1 env1 s = Ok s1 /\ s1.(fl) = s.(fl) /\ s1.(eeprom) = s.(eeprom) /\
    ((application_blank s.(fl) /\ s1.(DFU_State) = s.(DFU_State) /\ s1.(DFU_Status) = s.(DFU_Status)) \/
     (exists a s2, 0 <= a < BOOT_START_ADDR /\ s.(fl).(cells) a <> 255 /\
        (forall b, 0 <= b < a -> s.(fl).(cells) b = 255) /\
        s1.(DFU_State) = dfuERROR /\ s1.(DFU_Status) = errCHECK_ERASED /\
        request refill locked_read q2 env2 s1 = Ok s2 /\
        s2.(ep0).(answered) = s1.(ep0).(answered) ++ [[a mod 256; a / 256]])).
Proof.
  intros Hbt Hs Hu Hst Hq1 Hl1 Hd1 Hb1 Hq2 Hb2.
  destruct (blank_request q1 s env1 rest1 rest1') as (s1 & E1 & (Hi1 & Hd5 & Hw1) & _ & Hfl & Hee & Hk & Hm); try done.
  exists s1. split; [done|]. split; [done|]. split; [done|].
  pose proof (first_nonblank_spec (Z.to_nat BOOT_START_ADDR) 0 s.(fl) Hu) as Hf.
  unfold application_blank, BOOT_START_ADDR in *. specialize (Hf ltac:(lia) ltac:(lia)).
  destruct (first_nonblank _ _ _ _) as [a|]; [right|left].
  - destruct Hm as (H1 & H2 & H3), Hf as (Hr & Hne & Hb).
    destruct (response_request q2 s1 env2 rest2) as (c & E2 & _ & Ha); try done; [by rewrite H1|].
    exists a, (set_ep0 c (entered q2 s1)). split_and!; try done; try lia. cbn [ep0 set_ep0]. rewrite Ha. do 2 f_equal.
    unfold response. rewrite H1, Hk, H3, decide_True, u16_small by (done || lia). f_equal. f_equal. div_lia.
  - split; [|done]. intros a Ha. apply Hf. lia.
Qed.

(** ** Identification *)

(** The bytes the command [5; k; i] reads. *)
Definition identification (k i : Z) : option Z :=
  match k, i with
  | 0, 0 => Some BOOTLOADER_VERSION
  | 0, 1 => Some BOOTLOADER_ID_BYTE1
  | 0, 2 => Some BOOTLOADER_ID_BYTE2
  | 1, 48 => Some 88
  | 1, 49 => Some AVR_SIGNATURE_1
  | 1, 96 => Some AVR_SIGNATURE_2
  | 1, 97 => Some AVR_SIGNATURE_3
  | _, _ => None
  end.

Lemma read_info_commanded q k i s :
  k = 0 \/ k = 1 -> 0 <= i ->
  read_info (commanded q COMMAND_READ [k; i] s) = option_map Some (identification k i).
Proof.
  intros Hk Hi. unfold read_info, IS_ONEBYTE_COMMAND.
  change (data 0 (commanded q COMMAND_READ [k; i] s)) with k. change (data 1 (commanded q COMMAND_READ [k; i] s)) with i.
  destruct Hk as [-> | ->]; cbn [Z.eqb Pos.eqb].
  - destruct (Z.ltb_spec i 3) as [Hl|Hl].
    + assert (i = 0 \/ i = 1 \/ i = 2) as [-> | [-> | ->]] by lia; done.
    + unfold identification. by destruct i as [|[[]|[]|]|].
  - repeat (destruct (Z.eqb_spec i _) as [->|]; [done|]). unfold identification.
    destruct i as [|p|p]; try done. repeat (try done; destruct p as [p|p|]; try done).
Qed.

Lemma identification_command q k i s :
  ProcessBootloaderCommand locked_read (commanded q COMMAND_READ [k; i] s) =
  ProcessReadCommand (commanded q COMMAND_READ [k; i] s).
Proof.
  set (s1 := commanded q COMMAND_READ [k; i] s).
  unfold ProcessBootloaderCommand. change (SentCommand s1).(Command) with COMMAND_READ.
  assert (Ha : allowed_secure s1 = true) by (unfold allowed_secure; change (SentCommand s1).(Command) with COMMAND_READ;
    by rewrite orb_true_r). rewrite Ha, andb_false_r. reflexivity.
Qed.

(** a host identifies the bootloader and the chip by the command [5; k; i] and an upload, in secure
    mode too: the upload answers with the byte of the table, or, for an address outside the
    table, the state is dfuERROR with the status errADDRESS; nothing of the memories changes. *)
Theorem dfu_identification q1 q2 k i s env1 env2 rest1 rest1' rest2 :
  between s -> k = 0 \/ k = 1 -> is_u8 i ->
  s.(DFU_State) <> dfuDNLOAD_IDLE -> s.(DFU_State) <> dfuUPLOAD_IDLE -> s.(DFU_State) <> dfuERROR ->
  is_dnload q1 -> q1.(wLength) = 3 -> delivers env1 [[COMMAND_READ; k; i]] rest1 -> banks 1 rest1 rest1' ->
  is_upload q2 -> banks 1 env2 (SendsOUT [] :: rest2) ->
  exists s1 s2, request refill locked_read q1 env1 s = Ok s1 /\ request refill locked_read q2 env2 s1 = Ok s2 /\
    s2.(fl) = s.(fl) /\ s2.(eeprom) = s.(eeprom) /\ s2.(IsSecure) = s.(IsSecure) /\
    match identification k i with
    | Some b => s2.(DFU_State) = s.(DFU_State) /\ s2.(DFU_Status) = s.(DFU_Status) /\
                s2.(ep0).(answered) = s.(ep0).(answered) ++ [[]; [b]]
    | None => s1.(DFU_State) = dfuERROR /\ s1.(DFU_Status) = errADDRESS
    end.
Proof.
  intros (Hi & Hd & Hw) Hk [Hi0 _] Hs1 Hs2 Hs3 Hq1 Hl1 Hd1 Hb1 Hq2 Hb2.
  destruct (command_request q1 s env1 COMMAND_READ [k; i] rest1 rest1') as (c & E & Hc & Ha); try done; [cbn; lia|].
  rewrite identification_command in E. unfold ProcessReadCommand in E. rewrite read_info_commanded in E by done.
  destruct (identification k i) as [b|]; cbn [option_map] in E; unfold settled in E; rewrite decide_False in E by done;
    eexists; (edestruct (response_request q2) as (c2 & E2 & _ & Ha2);
      [done| | |exact Hb2|eexists; split; [exact E|]; split; [exact E2|]]); try done; split_and!; try done.
  cbn [ep0 set_ep0]. rewrite Ha2. cbn [ep0 set_ep0]. rewrite Ha, <-app_assoc. do 2 f_equal. unfold response.
  rewrite decide_False; [done|]. by intros [? _].
Qed.

(** ** Starting the application *)

(** What the start command does, when it arrives and once more before the exit. *)
Definition start_requested (k : Z) (s : boot) : boot :=
  let s := set_WaitForExit true s in
  if k =? 0 then on_cpu (wdt_enable WDTO_250MS) (set_MagicBootKey MAGIC_BOOT_KEY s)
  else if pgm_read_word locked_read 0 s.(fl) =? 65535 then set_RunBootloader false s
  else s.

Lemma start_command k l s :
  s.(SentCommand) = mk_command COMMAND_WRITE (3 :: k :: l) 0 -> s.(IsSecure) = false ->
  ProcessBootloaderCommand locked_read s = start_requested k s.
Proof.
  intros Hc Hs. unfold ProcessBootloaderCommand. rewrite Hs. cbn [andb]. rewrite Hc. cbn [Command].
  change (COMMAND_WRITE =? COMMAND_PROG_START) with false. change (COMMAND_WRITE =? COMMAND_DISP_DATA) with false.
  change (COMMAND_WRITE =? COMMAND_WRITE) with true. cbv iota zeta.
  unfold ProcessWriteCommand, IS_ONEBYTE_COMMAND, data. cbn [SentCommand set_WaitForExit]. rewrite Hc. done.
Qed.

Lemma start_keeps k s :
  (start_requested k s).(ep0) = s.(ep0) /\ (start_requested k s).(SentCommand) = s.(SentCommand) /\
  (start_requested k s).(IsSecure) = s.(IsSecure) /\ (start_requested k s).(WaitForExit) = true /\
  (start_requested k s).(DFU_State) = s.(DFU_State) /\ (start_requested k s).(fl) = s.(fl).
Proof. unfold start_requested. cbv zeta. destruct (k =? 0); [done|]. by destruct (_ =? 65535). Qed.

(** The empty download that ends the session runs the command again. *)
Lemma exit_request q s env rest k l :
  is_dnload q -> q.(wLength) = 0 -> idle s.(ep0) -> s.(WaitForExit) = true -> s.(IsSecure) = false ->
  s.(SentCommand) = mk_command COMMAND_WRITE (3 :: k :: l) 0 -> banks 1 env rest ->
  exists c, request refill locked_read q env s =
      Ok (set_ep0 c (settled (set_WaitForExit false (start_requested k (entered q s))))) /\ idle c.
Proof.
  intros Hq Hl [] Hw Hs Hc Hb. rewrite request_dnload by done. unfold dnload_body, exit_stage.
  rewrite run_assoc, run_gets. change (WaitForExit (entered q s)) with (WaitForExit s). rewrite Hw.
  rewrite run_assoc, run_modify, run_modify.
  assert (Hc' : SentCommand (entered q s) = mk_command COMMAND_WRITE (3 :: k :: l) 0).
  { unfold entered. cbn. by rewrite Hc, Hl. }
  rewrite (start_command k l) by done.
  destruct (start_keeps k (entered q s)) as (H1 & H2 & _). rewrite Hc' in H2.
  set (s1 := set_WaitForExit false (start_requested k (entered q s))).
  assert (H1' : ep0 s1 = ep0 (entered q s)) by exact H1. assert (H2' : SentCommand s1 = mk_command COMMAND_WRITE (3 :: k :: l) 0) by exact H2.
  clearbody s1. assert (Ec : command_stage locked_read s1 env = Ok (Some tt, s1, env)).
  { unfold command_stage. by rewrite run_gets, H2'. }
  rewrite (run_bind _ _ _ _ _ _ _ Ec).
  assert (Ed : download_stage refill s1 env = Ok (Some tt, settled s1, env)).
  { replace s1 with (set_ep0 s1.(ep0) s1) at 1 by (by destruct s1). rewrite (nothing_to_download s1) by (by rewrite H2').
    replace (set_ep0 _ (settled s1)) with (settled s1); [done|]. unfold settled. destruct (decide _); by destruct s1. }
  rewrite (run_bind _ _ _ _ _ _ _ Ed).
  assert (He : ep0 (settled s1) = ep0 (entered q s)) by (unfold settled; destruct (decide _); exact H1').
  destruct (finish_dnload q (settled s1) env rest) as (c3 & env3 & E4 & Hi & _); [done|by rewrite He|by rewrite He|done|].
  exists c3. by rewrite E4.
Qed.

(** The two requests by which a host starts the application. *)
Definition START (k : Z) : list Z := [COMMAND_WRITE; 3; k].

Lemma settled_fields s :
  (settled s).(ep0) = s.(ep0) /\ (settled s).(RunBootloader) = s.(RunBootloader) /\
  (settled s).(WaitForExit) = s.(WaitForExit) /\ (settled s).(IsSecure) = s.(IsSecure) /\
  (settled s).(SentCommand) = s.(SentCommand) /\ (settled s).(AppStartPtr) = s.(AppStartPtr) /\
  (settled s).(MagicBootKey) = s.(MagicBootKey) /\ (settled s).(eeprom) = s.(eeprom) /\ (settled s).(fl) = s.(fl) /\ (settled s).(cpu) = s.(cpu).
Proof. unfold settled. by destruct (decide _). Qed.

(** What both requests change of the variables that decide the end of [main]. *)
Definition started (k : Z) (s s' : boot) : Prop :=
  s'.(AppStartPtr) = s.(AppStartPtr) /\ s'.(fl) = s.(fl) /\ s'.(eeprom) = s.(eeprom) /\
  if k =? 0 then s'.(RunBootloader) = s.(RunBootloader) /\ s'.(MagicBootKey) = MAGIC_BOOT_KEY /\
                 s'.(cpu).(WDT) = Some WDTO_250MS
  else s'.(RunBootloader) = (if pgm_read_word locked_read 0 s.(fl) =? 65535 then false else s.(RunBootloader)) /\
       s'.(cpu).(WDT) = s.(cpu).(WDT).

Lemma start_requested_started k s : started k s (start_requested k s).
Proof. unfold started, start_requested. cbv zeta. destruct (k =? 0); [done|]. cbn [fl set_WaitForExit]. by destruct (_ =? 65535). Qed.

(** Only the variables named in [started] matter to it. *)
Lemma started_from k s0 s s' :
  s0.(AppStartPtr) = s.(AppStartPtr) -> s0.(fl) = s.(fl) -> s0.(eeprom) = s.(eeprom) -> s0.(RunBootloader) = s.(RunBootloader) ->
  s0.(cpu).(WDT) = s.(cpu).(WDT) -> started k s0 s' -> started k s s'.
Proof. unfold started. intros -> -> -> -> ->. done. Qed.
Lemma started_to k s s0 s' :
  s0.(AppStartPtr) = s'.(AppStartPtr) -> s0.(fl) = s'.(fl) -> s0.(eeprom) = s'.(eeprom) -> s0.(RunBootloader) = s'.(RunBootloader) ->
  s0.(MagicBootKey) = s'.(MagicBootKey) -> s0.(cpu) = s'.(cpu) -> started k s s' -> started k s s0.
Proof. unfold started. intros -> -> -> -> -> ->. done. Qed.
Lemma started_trans k s1 s2 s3 : started k s1 s2 -> started k s2 s3 -> started k s1 s3.
Proof.
  unfold started. intros (A & F & L & H) (A' & F' & L' & H'). rewrite A', A, F', F, L', L. do 3 (split; [done|]). rewrite F in H'.
  destruct (k =? 0); destruct H as (Hr & H), H' as (Hr' & H'); [split; [congruence|done]|].
  rewrite Hr', Hr, H', H. by destruct (_ =? 65535).
Qed.

Lemma start_session q1 q2 k s env1 env2 rest1 rest1' rest2 :
  between s -> s.(IsSecure) = false ->
  is_dnload q1 -> q1.(wLength) = 3 -> delivers env1 [START k] rest1 -> banks 1 rest1 rest1' ->
  is_dnload q2 -> q2.(wLength) = 0 -> banks 1 env2 rest2 ->
  exists s1 s2, request refill locked_read q1 env1 s = Ok s1 /\ request refill locked_read q2 env2 s1 = Ok s2 /\
    s1.(WaitForExit) = true /\ s2.(WaitForExit) = false /\ started k s s2.
Proof.
  intros (Hi & Hd & Hw) Hs Hq1 Hl1 Hd1 Hb1 Hq2 Hl2 Hb2.
  destruct (command_request q1 s env1 COMMAND_WRITE [3; k] rest1 rest1') as (c & E & Hc & _); try done; [cbn; lia|].
  set (t := commanded q1 COMMAND_WRITE [3; k] s) in *.
  assert (Ht : SentCommand t = mk_command COMMAND_WRITE (3 :: k :: drop 2 (Data (SentCommand s))) 0) by done.
  rewrite (start_command k _ t Ht) in E by done.
  destruct (start_keeps k t) as (_ & K2 & K3 & K4 & _). set (t1 := start_requested k t) in *.
  assert (St1 : started k s t1) by (apply (started_from k t); [done..|apply start_requested_started]).
  destruct (settled_fields t1) as (_ & F2 & F3 & F4 & F5 & F6 & F7 & FE & F8 & F9). clearbody t1.
  set (s1 := set_ep0 c (settled t1)) in *.
  destruct (exit_request q2 s1 env2 rest2 k (drop 2 (Data (SentCommand s)))) as (c2 & E2 & _);
    [done..|exact (eq_trans F3 K4)|cbn; rewrite F4, K3; exact Hs|cbn; rewrite F5, K2; exact Ht|done|].
  assert (Sts : started k s s1) by (apply (started_to k s s1 t1); try done).
  assert (Ste : started k s (start_requested k (entered q2 s1))).
  { apply (started_trans k s s1 _ Sts). apply (started_from k (entered q2 s1)); [done..|apply start_requested_started]. }
  set (t2 := start_requested k (entered q2 s1)) in *. clearbody t2.
  destruct (settled_fields (set_WaitForExit false t2)) as (_ & G2 & G3 & _ & _ & G6 & G7 & GE & G8 & G9).
  exists s1, (set_ep0 c2 (settled (set_WaitForExit false t2))). split; [done|]. split; [done|].
  split; [exact (eq_trans F3 K4)|]. split; [exact G3|]. by apply (started_to k s _ t2).
Qed.

Lemma flag_cleared x : has_bits (clear_bits x (bv WDRF)) (bv WDRF) = false.
Proof.
  change (bv WDRF) with (2 ^ 3). rewrite has_bits_pow2, testbit_clear_bits by lia. by rewrite andb_false_r.
Qed.

(** After the watchdog's reset with the bootloader's key, the check jumps to the application. *)
Lemma watchdog_check fuses f ee mcusr :
  has_bits mcusr (bv WDRF) = true -> pgm_read_word locked_read 0 f <> 65535 ->
  exists s', Application_Jump_Check locked_read fuses (at_reset f ee mcusr MAGIC_BOOT_KEY) = (true, s') /\
    s'.(MagicBootKey) = 0 /\ s'.(cpu).(WDT) = None /\ has_bits s'.(cpu).(MCUSR) (bv WDRF) = false /\
    s'.(fl) = f /\ s'.(eeprom) = ee.
Proof.
  intros Hm Hv. unfold Application_Jump_Check. cbn [MagicBootKey at_reset fl]. rewrite Z.eqb_refl, orb_true_r.
  change (MCUSR (cpu (at_reset f ee mcusr MAGIC_BOOT_KEY))) with mcusr. rewrite Hm. cbn [andb].
  destruct (has_bits _ FUSE_BOOTRST); cbn [fl on_cpu set_cpu at_reset]; (rewrite (proj2 (Z.eqb_neq _ _) Hv));
    eexists; (split; [reflexivity|]); split_and!; try done; apply flag_cleared.
Qed.

Lemma loop_visit q env vs s s' :
  s.(RunBootloader) || s.(WaitForExit) = true -> request refill locked_read q env s = Ok s' ->
  bootloader_loop refill locked_read (mk_visit [] q env :: vs) s = bootloader_loop refill locked_read vs s'.
Proof.
  intros Hr E. cbn [bootloader_loop asks during before]. rewrite Hr. replace (happens [] s) with s by (by destruct s).
  by rewrite E.
Qed.

(** the host starts the application by the command [4; 3; 0] and an empty download: the
    bootloader ends in the watchdog's reset with its boot key in memory; and the check that
    runs after that reset jumps to the application, whatever the fuses say, provided that
    the application's reset vector is programmed: with the key cleared, the watchdog off and
    its flag cleared, so that the next reset starts afresh. *)
Theorem dfu_start_by_watchdog q1 q2 s env1 env2 rest1 rest1' rest2 fuses f ee mcusr :
  between s -> s.(IsSecure) = false -> s.(RunBootloader) = true ->
  is_dnload q1 -> q1.(wLength) = 3 -> delivers env1 [START 0] rest1 -> banks 1 rest1 rest1' ->
  is_dnload q2 -> q2.(wLength) = 0 -> banks 1 env2 rest2 ->
  has_bits mcusr (bv WDRF) = true -> pgm_read_word locked_read 0 f <> 65535 ->
  bootloader_loop refill locked_read [mk_visit [] q1 env1; mk_visit [] q2 env2] s = Fault (Reset MAGIC_BOOT_KEY) /\
  exists s', Application_Jump_Check locked_read fuses (at_reset f ee mcusr MAGIC_BOOT_KEY) = (true, s') /\
    s'.(MagicBootKey) = 0 /\ s'.(cpu).(WDT) = None /\ has_bits s'.(cpu).(MCUSR) (bv WDRF) = false /\
    s'.(fl) = f /\ s'.(eeprom) = ee.
Proof.
  intros Hbt Hs Hr Hq1 Hl1 Hd1 Hb1 Hq2 Hl2 Hb2 Hm Hv. split.
  - destruct (start_session q1 q2 0 s env1 env2 rest1 rest1' rest2) as (s1 & s2 & E1 & E2 & Hw1 & Hw2 & _ & _ & _ & Hr2 & Hk & Hd);
      try done.
    rewrite (loop_visit _ _ _ _ s1), (loop_visit _ _ _ _ s2) by (done || by rewrite ?Hr, ?Hw1, ?orb_true_r).
    cbn [bootloader_loop]. by rewrite Hr2, Hr, Hd, Hk.
  - by apply watchdog_check.
Qed.

(** the command [4; 3; 1], which asks for a jump without a reset, leaves the bootloader only when
    the application section does NOT begin with a program: with a programmed reset vector the
    bootloader goes on waiting, and with a blank one it jumps to the blank flash. *)
Theorem dfu_start_by_jump q1 q2 s env1 env2 rest1 rest1' rest2 :
  between s -> s.(IsSecure) = false -> s.(RunBootloader) = true -> s.(cpu).(WDT) = None ->
  is_dnload q1 -> q1.(wLength) = 3 -> delivers env1 [START 1] rest1 -> banks 1 rest1 rest1' ->
  is_dnload q2 -> q2.(wLength) = 0 -> banks 1 env2 rest2 ->
  exists s', bootloader_loop refill locked_read [mk_visit [] q1 env1; mk_visit [] q2 env2] s =
    Ok (if pgm_read_word locked_read 0 s.(fl) =? 65535 then JumpsTo s.(AppStartPtr) s' else Waits s').
Proof.
  intros Hbt Hs Hr Hdog Hq1 Hl1 Hd1 Hb1 Hq2 Hl2 Hb2.
  destruct (start_session q1 q2 1 s env1 env2 rest1 rest1' rest2) as (s1 & s2 & E1 & E2 & Hw1 & Hw2 & Ha & _ & _ & Hr2 & Hd);
    try done.
  rewrite (loop_visit _ _ _ _ s1), (loop_visit _ _ _ _ s2) by (done || by rewrite ?Hr, ?Hw1, ?orb_true_r).
  cbn [bootloader_loop]. rewrite Hr2, Hr, Hw2, Hd, Hdog, <-Ha. destruct (_ =? 65535); eexists; reflexivity.
Qed.

(** the firmware enters the bootloader by a watchdog reset with its own key.  When any bit
    of the high fuse byte other than BOOTRST is set, the check with which this bootloader
    begins takes that reset for an ordinary one and jumps straight back to the application,
    whatever the bootloader's own key is; and the application, whose key and flag are then
    cleared, starts normally. *)
Theorem firmware_entry_bounces fuses f ee mcusr key Boot_Key :
  Bootloader.Bootloader_Jump_Check mcusr Boot_Key = (true, 0) ->
  has_bits mcusr (bv EXTRF) = false -> has_bits (fuses GET_HIGH_FUSE_BITS) 254 = true ->
  pgm_read_word locked_read 0 f <> 65535 ->
  exists s', Application_Jump_Check locked_read fuses (at_reset f ee mcusr key) = (true, s') /\
    s'.(fl) = f /\ forall k, Bootloader.Bootloader_Jump_Check s'.(cpu).(MCUSR) k = (false, k).
Proof.
  intros _ Hx Hf Hv. unfold Application_Jump_Check.
  change (boot_lock_fuse_bits_get fuses GET_HIGH_FUSE_BITS (fl (at_reset f ee mcusr key))) with (fuses GET_HIGH_FUSE_BITS).
  change FUSE_BOOTRST with 254. rewrite Hf. change (MCUSR (cpu (at_reset f ee mcusr key))) with mcusr. rewrite Hx.
  cbn [negb orb andb fl on_cpu set_cpu at_reset]. rewrite (proj2 (Z.eqb_neq _ _) Hv).
  eexists. split; [reflexivity|]. split; [done|]. intros k. unfold Bootloader.Bootloader_Jump_Check.
  assert (E : forall x, has_bits (clear_bits x (bv WDRF)) (bv Bootloader.WDRF) = false) by (intros x; apply flag_cleared).
  cbn [cpu MCUSR on_cpu set_cpu set_MagicBootKey wdt_disable]. 
  change (MCUSR _) with (clear_bits (clear_bits mcusr (bv EXTRF)) (bv WDRF)). by rewrite E.
Qed.

(** ** Status requests *)

Definition class_request (ty r : Z) (q : USB_Request_Header_t) : Prop := q.(bmRequestType) = ty /\ q.(bRequest) = r.

(** The host reads some bytes about the state. *)
Lemma answer_request bs r q s env rest :
  class_request 161 r q -> idle s.(ep0) -> banks 1 env (SendsOUT [] :: rest) ->
  (forall c s, bs (set_ep0 c s) = bs s) ->
  EVENT_USB_Device_ControlRequest refill locked_read q
    (on_ep0 (fun c => set_RXSTPI true (set_STALLRQ false c)) s) env =
  (wait TXINI;;
   modify (fun s => foldl (fun s b => on_ep0 (Endpoint_Write_8 b) s) s (bs s));;
   modify (on_ep0 Endpoint_ClearIN);; Endpoint_ClearStatusStage q) (entered q s) env ->
  exists c, request refill locked_read q env s = Ok (set_ep0 c (entered q s)) /\ idle c /\
    c.(answered) = s.(ep0).(answered) ++ [bs (entered q s)].
Proof.
  intros [Ht Hr] [] Hb Hbs E. unfold request. rewrite E. set (s0 := entered q s) in *.
  destruct (wait_IN env _ 1 Hb 0 s0) as (c1 & env1 & E1 & [] & Ht1 & Ho1 & Hr1 & Hb1 & Hbk1);
    [by destruct s0.(ep0).(TXINI); lia|done|].
  rewrite (run_bind _ _ _ _ _ _ _ E1), run_modify, write_all_fl, Hbs. cbn [ep0 set_ep0].
  assert (Hw : forall l c, foldl (fun c b => Endpoint_Write_8 b c) c l = set_bank (c.(bank) ++ l) c).
  { induction l as [|b l IH]; intros c; cbn [foldl]; [rewrite app_nil_r; by destruct c|].
    rewrite IH. unfold Endpoint_Write_8. cbn [bank set_bank]. by rewrite <-app_assoc. }
  rewrite Hw, Hb1. replace (bank (ep0 s0)) with (@nil Z) by done. cbn [app].
  set (c2 := set_bank _ c1). replace (Endpoint_ClearStatusStage q) with (Endpoint_ClearStatusStage (upload 0))
    by (unfold Endpoint_ClearStatusStage; by rewrite Ht).
  destruct (finish_upload (upload 0) (set_ep0 c2 (set_ep0 c1 s0)) env1 rest) as (c3 & env3 & E3 & Hi & Ha); [done| | |].
  { split; cbn; [unfold attached; cbn; by rewrite line_state0|by rewrite Ho1|done|by rewrite Hr1]. }
  { apply (banks_delivers 0 env1 (SendsOUT [] :: rest)); [done|]. apply delivers_packet, delivers_done. }
  rewrite E3. exists c3. split; [done|]. split; [done|]. rewrite Ha. cbn. by rewrite line_answered0.
Qed.

(** The host changes a variable. *)
Lemma change_request F r q s env rest :
  class_request 33 r q -> idle s.(ep0) -> banks 1 env rest -> (F (entered q s)).(ep0) = (entered q s).(ep0) ->
  EVENT_USB_Device_ControlRequest refill locked_read q
    (on_ep0 (fun c => set_RXSTPI true (set_STALLRQ false c)) s) env =
  Endpoint_ClearStatusStage q (F (entered q s)) env ->
  exists c, request refill locked_read q env s = Ok (set_ep0 c (F (entered q s))) /\ idle c /\
    c.(answered) = s.(ep0).(answered) ++ [[]].
Proof.
  intros [Ht Hr] [] Hb HF E. unfold request. rewrite E.
  destruct (status_IN q (F (entered q s)) env rest) as (c' & env' & E1 & H1 & _ & _ & Ho & Hrc & Hb' & Ha);
    [by rewrite Ht|by rewrite HF|done|].
  rewrite E1. exists c'. split; [done|]. rewrite HF in *. split; [split; [unfold attached; by rewrite H1|by rewrite Ho|done|by rewrite Hrc]|].
  rewrite Ha. cbn. by rewrite idle_bank.
Qed.

(** C29: A host recovers from an error: clear status and abort, in this order, then get
    status and get state, are all served; clear status resets the status and leaves the
    state, abort does the reverse, the six bytes of the status then say OK and dfuIDLE, the
    byte of the state too, and a new command can follow.  Nothing of the memories changes, and secure mode
    stays as it is.  The bootloader is between two requests, in any status and state, and the host takes the
    answers at any moments and ends each transfer. *)
Theorem dfu_error_recovery q1 q2 q3 q4 s env1 env2 env3 env4 rest1 rest2 rest3 rest4 :
  between s ->
  class_request 33 DFU_REQ_CLRSTATUS q1 -> banks 1 env1 rest1 ->
  class_request 33 DFU_REQ_ABORT q2 -> banks 1 env2 rest2 ->
  class_request 161 DFU_REQ_GETSTATUS q3 -> banks 1 env3 (SendsOUT [] :: rest3) ->
  class_request 161 DFU_REQ_GETSTATE q4 -> banks 1 env4 (SendsOUT [] :: rest4) ->
  exists s1 s2 s3 s4,
    request refill locked_read q1 env1 s = Ok s1 /\ request refill locked_read q2 env2 s1 = Ok s2 /\
    request refill locked_read q3 env3 s2 = Ok s3 /\ request refill locked_read q4 env4 s3 = Ok s4 /\
    s1.(DFU_Status) = OK /\ s1.(DFU_State) = s.(DFU_State) /\
    s2.(DFU_Status) = OK /\ s2.(DFU_State) = dfuIDLE /\
    s4.(ep0).(answered) = s.(ep0).(answered) ++ [[]; []; [0; 0; 0; 0; 2; 0]; [2]] /\
    s4.(fl) = s.(fl) /\ s4.(eeprom) = s.(eeprom) /\ s4.(IsSecure) = s.(IsSecure) /\ between s4.
Proof.
  intros (Hi & Hd & Hw) Hq1 Hb1 Hq2 Hb2 Hq3 Hb3 Hq4 Hb4.
  destruct (change_request (set_DFU_Status OK) _ q1 s env1 rest1 Hq1 Hi Hb1) as (c1 & E1 & Hi1 & Ha1);
    [done|destruct Hq1 as [Ht Hr]; unfold EVENT_USB_Device_ControlRequest; by rewrite Ht, Hr|].
  set (s1 := set_ep0 c1 (set_DFU_Status OK (entered q1 s))) in *.
  destruct (change_request (set_DFU_State dfuIDLE) _ q2 s1 env2 rest2 Hq2 Hi1 Hb2) as (c2 & E2 & Hi2 & Ha2);
    [done|destruct Hq2 as [Ht Hr]; unfold EVENT_USB_Device_ControlRequest; by rewrite Ht, Hr|].
  set (s2 := set_ep0 c2 (set_DFU_State dfuIDLE (entered q2 s1))) in *.
  destruct (answer_request (fun s => [status_value s.(DFU_Status); 0; 0; 0; state_value s.(DFU_State); 0])
    _ q3 s2 env3 rest3 Hq3 Hi2 Hb3) as (c3 & E3 & Hi3 & Ha3);
    [done|destruct Hq3 as [Ht Hr]; unfold EVENT_USB_Device_ControlRequest; by rewrite Ht, Hr|].
  set (s3 := set_ep0 c3 (entered q3 s2)) in *.
  destruct (answer_request (fun s => [state_value s.(DFU_State)]) _ q4 s3 env4 rest4 Hq4 Hi3 Hb4) as (c4 & E4 & Hi4 & Ha4);
    [done|destruct Hq4 as [Ht Hr]; unfold EVENT_USB_Device_ControlRequest; by rewrite Ht, Hr|].
  exists s1, s2, s3, (set_ep0 c4 (entered q4 s3)). split_and!; try done.
  cbn [ep0 set_ep0]. rewrite Ha4. cbn [ep0 s3 set_ep0]. rewrite Ha3. cbn [ep0 s2 set_ep0]. rewrite Ha2.
  cbn [ep0 s1 set_ep0]. rewrite Ha1, <-!app_assoc. done.
Qed.

(** ** A firmware update *)

(** The application section holds the image [bs] and nothing else, below the section [old]. *)
Definition holds_image (bs : list Z) (old f : flash) : Prop :=
  (forall a, 0 <= a < Z.of_nat (length bs) -> f.(cells) a = tbl bs a) /\
  (forall a, Z.of_nat (length bs) <= a < BOOT_START_ADDR -> f.(cells) a = 255) /\
  (forall a, BOOT_START_ADDR <= a < 32768 -> f.(cells) a = old.(cells) a).

Lemma image_programmed old f f' bs :
  block 0 bs -> application_blank f -> (forall a, BOOT_START_ADDR <= a < 32768 -> f.(cells) a = old.(cells) a) ->
  flash_after f f' 0 bs -> holds_image bs old f'.
Proof.
  intros [_ _ _ He] Hb Ho (_ & _ & Hc). unfold application_blank, BOOT_START_ADDR in *.
  split_and!; unfold BOOT_START_ADDR; intros a Ha; rewrite Hc by lia; unfold programmed.
  - replace ((0 <=? a) && (a <? 0 + Z.of_nat (length bs))) with true by lia. f_equal. lia.
  - replace ((0 <=? a) && (a <? 0 + Z.of_nat (length bs))) with false by lia.
    destruct (_ && _); [done|]. apply Hb. lia.
  - replace ((0 <=? a) && (a <? 0 + Z.of_nat (length bs))) with false by lia.
    replace ((0 <=? a) && (a <? 0 + (Z.of_nat (length bs) + 127) / 128 * 128)) with false by div_lia. by apply Ho.
Qed.

Lemma image_vector bs old f : f.(rww_locked) = false -> (2 <= length bs)%nat -> holds_image bs old f ->
  pgm_read_word locked_read 0 f = tbl bs 0 + 256 * tbl bs 1.
Proof.
  intros Hu Hl (Hc & _). unfold pgm_read_word, pgm_read_byte. rewrite Hu, !index_small by lia. cbn [andb].
  by rewrite !Hc by lia.
Qed.

Lemma two_bytes (bs : list Z) : bs <> [] -> Nat.Even (length bs) -> (2 <= length bs)%nat.
Proof. intros Hne [k Hk]. destruct bs; [done|]. cbn [length] in *. lia. Qed.

(** C7: a firmware update, from end to end: the host erases the chip, downloads an image of
    whole words that begins with a programmed reset vector and fits below the bootloader,
    and starts it.  Every request is served, the bootloader ends in the watchdog's reset,
    and the check after that reset jumps to an application section that holds exactly the
    image, blank behind it, with the bootloader's own section and the EEPROM as they were.
    *)
Theorem firmware_update q1 q2 q3 q4 s env1 env2 env3 env4 fill bs suffix rest1 rest1' rest2 rest2' rest3 rest3' rest4
    fuses mcusr :
  between s -> holds_bytes s.(fl) [] -> s.(DFU_State) <> dfuDNLOAD_IDLE -> s.(RunBootloader) = true ->
  is_dnload q1 -> q1.(wLength) = 3 -> delivers env1 [ERASE] rest1 -> banks 1 rest1 rest1' ->
  block 0 bs -> tbl bs 0 + 256 * tbl bs 1 <> 65535 -> length fill = 26%nat -> length suffix = 16%nat ->
  is_dnload q2 -> q2.(wLength) = 48 + Z.of_nat (length bs) ->
  delivers env2 (packets (download_bytes COMMAND_PROG_START 0 0 fill bs suffix)) rest2 -> banks 1 rest2 rest2' ->
  is_dnload q3 -> q3.(wLength) = 3 -> delivers env3 [START 0] rest3 -> banks 1 rest3 rest3' ->
  is_dnload q4 -> q4.(wLength) = 0 -> banks 1 env4 rest4 ->
  has_bits mcusr (bv WDRF) = true ->
  exists s1 s2 s3 s4 s',
    request refill locked_read q1 env1 s = Ok s1 /\ request refill locked_read q2 env2 s1 = Ok s2 /\
    request refill locked_read q3 env3 s2 = Ok s3 /\ request refill locked_read q4 env4 s3 = Ok s4 /\
    bootloader_loop refill locked_read
      [mk_visit [] q1 env1; mk_visit [] q2 env2; mk_visit [] q3 env3; mk_visit [] q4 env4] s
      = Fault (Reset MAGIC_BOOT_KEY) /\
    Application_Jump_Check locked_read fuses (at_reset s4.(fl) s4.(eeprom) mcusr MAGIC_BOOT_KEY) = (true, s') /\
    holds_image bs s.(fl) s'.(fl) /\ s'.(eeprom) = s.(eeprom) /\ s'.(cpu).(WDT) = None.
Proof.
  intros Hbt Hh Hst Hrun Hq1 Hl1 Hd1 Hb1 Hblk Hvec Hfl Hsl Hq2 Hl2 Hd2 Hb2 Hq3 Hl3 Hd3 Hb3 Hq4 Hl4 Hb4 Hm.
  destruct (erase_leaves q1 s env1 rest1 rest1') as (s1 & E1 & (Hi1 & Hd51 & Hw1) & Hs1 & Hbl & Hbo & Hu & Hh1 & _ & Hee & _ & _ & Hr1);
    try done.
  pose proof Hblk as [Hp H0 (Hne & Hev & Hu8) He].
  destruct (program_flash_ok refill locked_read q2 s1 env2 fill bs suffix rest2 rest2' 0)
    as (s2 & E2 & (Hi2 & Hd52 & Hs2 & Hw2) & (_ & Hr2 & _) & _ & Hee2 & Hun2 & Hfa & _); try done.
  destruct (start_session q3 q4 0 s2 env3 env4 rest3 rest3' rest4)
    as (s3 & s4 & E3 & E4 & Hw3 & _ & _ & Hf4 & Hee4 & Hr4 & Hk4 & Hd4); try done.
  pose proof (two_bytes bs Hne Hev) as Hlen.
  assert (Himg : holds_image bs s.(fl) s2.(fl)) by (by apply (image_programmed _ s1.(fl))).
  destruct (watchdog_check fuses s4.(fl) s4.(eeprom) mcusr Hm) as (s' & Ec & _ & Hdog & _ & Hfl' & Hee').
  { rewrite Hf4. by rewrite (image_vector bs s.(fl)). }
  exists s1, s2, s3, s4, s'. do 4 (split; [done|]). split.
  { rewrite (loop_visit _ _ _ _ s1), (loop_visit _ _ _ _ s2), (loop_visit _ _ _ _ s3),
      (loop_visit _ _ _ _ s4) by (done || by rewrite ?Hw3, ?orb_true_r, ?Hr2, ?Hr1, ?Hrun).
    cbn [bootloader_loop]. by rewrite Hr4, Hr2, Hr1, Hrun, Hd4, Hk4. }
  split; [done|]. rewrite Hfl', Hf4. split; [done|]. split; [congruence|done].
Qed.

End commands.

(** ** Witnesses *)

Lemma configured_between : between configured.
Proof. split; [by split|]. done. Qed.
Lemma free_bank : banks 1 [BankFree] [].
Proof. repeat constructor. Qed.
Lemma free_then_out : banks 1 [BankFree; SendsOUT []] [SendsOUT []].
Proof. repeat constructor. Qed.

(** A chip on which nothing but the bootloader has been programmed. *)
Definition blank_boot : boot := set_fl blank_flash configured.

Lemma dfu_erase_blanks_witness :
  exists s1 s2,
    request (fun old _ => old) (fun _ => 0) (dnload 3) [SendsOUT ERASE; BankFree] configured = Ok s1 /\
    request (fun old _ => old) (fun _ => 0) (dnload 2) [SendsOUT BLANK_CHECK; BankFree] s1 = Ok s2 /\
    pgm_read_byte (fun _ => 0) 1000 s1.(fl) = 255 /\ s2.(DFU_Status) = OK.
Proof.
  destruct (dfu_erase_blanks (fun old _ => old) (fun _ => 0) (dnload 3) (dnload 2) configured
    [SendsOUT ERASE; BankFree] [SendsOUT BLANK_CHECK; BankFree] [BankFree] [] [BankFree] [] configured_between)
    as (s1 & s2 & E1 & E2 & _ & _ & Hb & _ & _ & _ & Hs).
  - by apply holds_blank.
  - discriminate.
  - split; reflexivity.
  - reflexivity.
  - apply (delivers_all [ERASE]).
  - exact free_bank.
  - split; reflexivity.
  - reflexivity.
  - apply (delivers_all [BLANK_CHECK]).
  - exact free_bank.
  - exists s1, s2. split; [exact E1|]. split; [exact E2|]. split; [apply Hb; unfold BOOT_START_ADDR; lia|exact Hs].
Defined.

Lemma dfu_blank_check_witness :
  exists s1, request (fun old _ => old) (fun _ => 0) (dnload 2) [SendsOUT BLANK_CHECK; BankFree] configured = Ok s1 /\
    s1.(DFU_Status) = errCHECK_ERASED.
Proof.
  destruct (dfu_blank_check (fun old _ => old) (fun _ => 0) (dnload 2) (upload 2) configured
    [SendsOUT BLANK_CHECK; BankFree] [BankFree; SendsOUT []] [BankFree] [] [] configured_between)
    as (s1 & E1 & _ & _ & [[Hb _]|(a & s2 & _ & _ & _ & _ & Hs & _)]); try reflexivity.
  - discriminate.
  - split; reflexivity.
  - apply (delivers_all [BLANK_CHECK]).
  - exact free_bank.
  - split; reflexivity.
  - exact free_then_out.
  - exfalso. specialize (Hb 0 ltac:(unfold BOOT_START_ADDR; lia)). discriminate Hb.
  - exists s1. split; [exact E1|exact Hs].
Defined.

Lemma dfu_identification_witness :
  exists s1 s2,
    request (fun old _ => old) (fun _ => 0) (dnload 3) [SendsOUT [COMMAND_READ; 1; 96]; BankFree] configured = Ok s1 /\
    request (fun old _ => old) (fun _ => 0) (upload 1) [BankFree; SendsOUT []] s1 = Ok s2 /\
    s2.(ep0).(answered) = [[]; [149]].
Proof.
  destruct (dfu_identification (fun old _ => old) (fun _ => 0) (dnload 3) (upload 1) 1 96 configured
    [SendsOUT [COMMAND_READ; 1; 96]; BankFree] [BankFree; SendsOUT []] [BankFree] [] [] configured_between)
    as (s1 & s2 & E1 & E2 & _ & _ & _ & _ & _ & Ha); try discriminate; try reflexivity.
  - right. reflexivity.
  - unfold is_u8. lia.
  - split; reflexivity.
  - apply (delivers_all [_]).
  - exact free_bank.
  - split; reflexivity.
  - exact free_then_out.
  - exists s1, s2. split; [exact E1|]. split; [exact E2|exact Ha].
Defined.

Lemma dfu_start_by_watchdog_witness :
  bootloader_loop (fun old _ => old) (fun _ => 0)
    [mk_visit [] (dnload 3) [SendsOUT (START 0); BankFree]; mk_visit [] (dnload 0) [BankFree]] configured =
  Fault (Reset MAGIC_BOOT_KEY).
Proof.
  apply (dfu_start_by_watchdog (fun old _ => old) (fun _ => 0) (dnload 3) (dnload 0) configured
    [SendsOUT (START 0); BankFree] [BankFree] [BankFree] [] [] (fun _ => 0) example_flash [] 8 configured_between);
    try reflexivity.
  - split; reflexivity.
  - apply (delivers_all [START 0]).
  - exact free_bank.
  - split; reflexivity.
  - exact free_bank.
  - discriminate.
Defined.

Lemma dfu_start_by_jump_witness :
  exists s', bootloader_loop (fun old _ => old) (fun _ => 0)
    [mk_visit [] (dnload 3) [SendsOUT (START 1); BankFree]; mk_visit [] (dnload 0) [BankFree]] blank_boot =
    Ok (JumpsTo 0 s').
Proof.
  destruct (dfu_start_by_jump (fun old _ => old) (fun _ => 0) (dnload 3) (dnload 0) blank_boot
    [SendsOUT (START 1); BankFree] [BankFree] [BankFree] [] []) as (s' & E); try reflexivity.
  - split; [by split|]. split; reflexivity.
  - split; reflexivity.
  - apply (delivers_all [START 1]).
  - exact free_bank.
  - split; reflexivity.
  - exact free_bank.
  - exists s'. exact E.
Defined.

Lemma firmware_entry_bounces_witness :
  exists s', Application_Jump_Check (fun _ => 0) (fun _ => 153) (at_reset example_flash [] 8 1234) = (true, s') /\
    s'.(fl) = example_flash.
Proof.
  destruct (firmware_entry_bounces (fun _ => 0) (fun _ => 153) example_flash [] 8 1234 Bootloader.MAGIC_BOOT_KEY)
    as (s' & E & Hf & _); try reflexivity; [discriminate|]. exists s'. split; [exact E|exact Hf].
Defined.

Lemma dfu_error_recovery_witness :
  let q r := mk_request 33 r 0 0 0 in
  let q' r := mk_request 161 r 0 0 0 in
  exists s1 s2,
    request (fun old _ => old) (fun _ => 0) (q DFU_REQ_CLRSTATUS) [BankFree] (set_DFU_Status errVENDOR (set_DFU_State dfuERROR configured))
      = Ok s1 /\
    request (fun old _ => old) (fun _ => 0) (q DFU_REQ_ABORT) [BankFree] s1 = Ok s2 /\
    s1.(DFU_State) = dfuERROR /\ s2.(DFU_State) = dfuIDLE.
Proof.
  intros q q'.
  destruct (dfu_error_recovery (fun old _ => old) (fun _ => 0) (q DFU_REQ_CLRSTATUS) (q DFU_REQ_ABORT)
    (q' DFU_REQ_GETSTATUS) (q' DFU_REQ_GETSTATE) (set_DFU_Status errVENDOR (set_DFU_State dfuERROR configured))
    [BankFree] [BankFree] [BankFree; SendsOUT []] [BankFree; SendsOUT []] [] [] [] [])
    as (s1 & s2 & s3 & s4 & E1 & E2 & _ & _ & _ & H1 & _ & H2 & _).
  - exact configured_between.
  - split; reflexivity.
  - exact free_bank.
  - split; reflexivity.
  - exact free_bank.
  - split; reflexivity.
  - exact free_then_out.
  - split; reflexivity.
  - exact free_then_out.
  - exists s1, s2. split; [exact E1|]. split; [exact E2|]. split; [exact H1|exact H2].
Defined.

Lemma firmware_update_witness :
  let bs := [12; 148; 1; 0] in
  let sent := packets (download_bytes COMMAND_PROG_START 0 0 (replicate 26 0) bs (replicate 16 0)) in
  exists s4 s',
    bootloader_loop (fun old _ => old) (fun _ => 0)
      [mk_visit [] (dnload 3) [SendsOUT ERASE; BankFree]; mk_visit [] (dnload 52) (map SendsOUT sent ++ [BankFree]);
       mk_visit [] (dnload 3) [SendsOUT (START 0); BankFree]; mk_visit [] (dnload 0) [BankFree]] configured
      = Fault (Reset MAGIC_BOOT_KEY) /\
    Application_Jump_Check (fun _ => 0) (fun _ => 153) (at_reset s4.(fl) s4.(eeprom) 8 MAGIC_BOOT_KEY) = (true, s') /\
    s'.(fl).(cells) 1 = 148 /\ s'.(fl).(cells) 4 = 255.
Proof.
  intros bs sent.
  destruct (firmware_update (fun old _ => old) (fun _ => 0) (dnload 3) (dnload 52) (dnload 3) (dnload 0) configured
    [SendsOUT ERASE; BankFree] (map SendsOUT sent ++ [BankFree]) [SendsOUT (START 0); BankFree] [BankFree]
    (replicate 26 0) bs (replicate 16 0) [BankFree] [] [BankFree] [] [BankFree] [] [] (fun _ => 153) 8 configured_between)
    as (s1 & s2 & s3 & s4 & s' & _ & _ & _ & _ & Em & Ec & (H1 & H2 & _) & _).
  - by apply holds_blank.
  - discriminate.
  - reflexivity.
  - split; reflexivity.
  - reflexivity.
  - apply (delivers_all [ERASE]).
  - exact free_bank.
  - split; [reflexivity|lia| |unfold BOOT_START_ADDR; cbn; lia].
    split; [done|]. split; [by exists 2%nat|]. unfold is_u8. repeat (apply Forall_cons_2; [lia|]). constructor.
  - discriminate.
  - reflexivity.
  - reflexivity.
  - split; reflexivity.
  - reflexivity.
  - apply delivers_all.
  - exact free_bank.
  - split; reflexivity.
  - reflexivity.
  - apply (delivers_all [START 0]).
  - exact free_bank.
  - split; reflexivity.
  - reflexivity.
  - exact free_bank.
  - reflexivity.
  - exists s4, s'. split; [exact Em|]. split; [exact Ec|].
    split; [rewrite H1 by (cbn; lia); reflexivity|apply H2; unfold BOOT_START_ADDR; cbn; lia].
Defined.

(** ** Where the code departs from what it means to do *)

(** The flash after a download of the bytes [bs] from [start] on, with filler bytes 77. *)
Definition downloaded (start : Z) (bs : list Z) : option flash :=
  let sent := packets ([COMMAND_PROG_START; 0; start / 256; start mod 256;
      (start + Z.of_nat (length bs) - 1) / 256; (start + Z.of_nat (length bs) - 1) mod 256]
    ++ replicate (26 + Z.to_nat (start mod 32)) 77 ++ bs ++ replicate 16 0) in
  match request (fun old _ => old) (fun _ => 0) (dnload (Z.of_nat (length (concat sent))))
          (map SendsOUT sent ++ [BankFree]) configured with
  | Ok s => Some s.(fl)
  | Fault _ => None
  end.

Definition reads (l : list Z) (f : option flash) : list Z :=
  match f with Some f => map f.(cells) l | None => [] end.

(** The words are counted from the start address, not from the page: a download that starts inside a
    page puts the words behind the page's end at its beginning. *)
Example download_off_page_misplaces :
  reads [287; 288; 383; 384; 256; 287] (downloaded 288 (map Z.of_nat (seq 1 128))) =
  [128; 1; 96; 384 mod 251; 97; 128].
Proof. vm_compute. reflexivity. Qed.

(** The pass of DiscardFillerBytes that takes a packet discards nothing: when the start
    address is not a multiple of the packet size, the last filler byte is programmed. *)
Example filler_byte_programmed :
  reads [264; 265; 266] (downloaded 264 [1; 2; 3; 4]) = [77; 1; 2].
Proof. vm_compute. reflexivity. Qed.

(** Words of a download that was cut short stay in the page buffer, and the erase command
    programs them into the first page. *)
Example erase_after_cut_not_blank :
  let sent := packets (download_bytes COMMAND_PROG_START 0 256 (replicate 26 0) [1; 2; 3; 4] (replicate 16 0)) in
  (s1 ← request (fun old _ => old) (fun _ => 0) (dnload 52)
          [SendsOUT (nth 0 sent []); SendsOUT [1; 2]; Becomes DEVICE_STATE_Unattached] configured;
   s2 ← request (fun old _ => old) (fun _ => 0) (dnload 3) [SendsOUT ERASE; BankFree]
          (happens [Becomes DEVICE_STATE_Configured] s1);
   s3 ← request (fun old _ => old) (fun _ => 0) (dnload 2) [SendsOUT BLANK_CHECK; BankFree] s2;
   Ok (map s2.(fl).(cells) [0; 1; 2], s3.(DFU_Status))) = Ok ([1; 2; 255], errCHECK_ERASED).
Proof. vm_compute. reflexivity. Qed.

(** Without the lock bit, nothing keeps a download out of the bootloader section. *)
Example download_over_bootloader : reads [28672; 28673] (downloaded 28672 [1; 2]) = [1; 2].
Proof. vm_compute. reflexivity. Qed.

End DfuCommands.
