(* ===== verification/Firmware.v ===== *)
(** * midifighter64.c: MIDI input, the main task and start-up

    The firmware is one endless loop around [Midifighter_Task], with two timer
    interrupts.  The USB link is the type [W] of the interfaces of Midi.v;
    [configured] is the test of [USB_DeviceState], [sin_level] the sine of the C
    library and [after] the byte of memory behind the display buffer, which the
    LED driver loads but does not send, and [event0] what the uninitialised
    packet of the receive loop holds. *)

From S2P Require Import Prelude.
From S2P Require Import Avr.
From S2P Require Import Keys.
From S2P Require Import Combo.
From S2P Require Import Midi.
From S2P Require Import UsbMidi.
From S2P Require Import Colors.
From S2P Require Import Eeprom.
From S2P Require Import Sysex.
From S2P Require Import Led.
From S2P Require Import Animations.
From S2P Require Import BallDemo.
From S2P Require Import Display.
From S2P Require Import Board.
From S2P Require Import Config.

Module Firmware.
Import Avr Keys Combo Midi Colors Eeprom Sysex Led Animations BallDemo Display Board
  Bootloader Config.

Definition USB_RX_FAIL_LIMIT : Z := 120.
Definition USB_RX_PACKET_LIMIT : Z := 512.
Definition NOTE_OFF_FEEDBACK_DELAY_LIMIT : Z := 2.
Definition G_BANK_SELECT_COUNTER_LIMIT : Z := 1000.
Definition MIDI_OUTPUT_MODE_CCS_ONLY : Z := 2.

(** ** State: the board, sysex.c's globals, the watchdog flag and what the LED
    strands last received *)

Record firmware (W : Type) := mk_fw {
  bd : board W;
  sx : sysex_globals (SysExFn := SysExFn);
  watchdog_flag : bool;
  strands : list (list bool)
}.
Arguments mk_fw {W} _ _ _ _.
Arguments bd {W} _.
Arguments sx {W} _.
Arguments watchdog_flag {W} _.
Arguments strands {W} _.

Section firmware.
Context {W : Type} `{MidiOut W} `{MidiIn W}.
Variable configured : W -> bool.
Variable sin_level : Z -> Z.
Variable after : Z.
Variable event0 : packet.
Implicit Types b : board W.
Implicit Types f : firmware W.

Definition set_bd (v : board W) f : firmware W := mk_fw v f.(sx) f.(watchdog_flag) f.(strands).
Definition set_sx (v : sysex_globals) f : firmware W := mk_fw f.(bd) v f.(watchdog_flag) f.(strands).
Definition set_watchdog_flag (v : bool) f : firmware W := mk_fw f.(bd) f.(sx) v f.(strands).
Definition set_strands (v : list (list bool)) f : firmware W :=
  mk_fw f.(bd) f.(sx) f.(watchdog_flag) v.

(** ** Delayed note-off feedback

    [uint16_t - uint8_t] is computed in 16 unsigned bits. *)

Definition expire_note (sys_time_7 this_key : Z) (m : midi_globals) : res midi_globals :=
  note_off_time ← rd m.(g_midi_note_off_counter) this_key;
  if has_bits note_off_time 128 then
    let note_off_time := Z.land note_off_time 127 in
    if NOTE_OFF_FEEDBACK_DELAY_LIMIT <=? u16 (sys_time_7 - note_off_time) then
      l ← wr m.(g_midi_note_state0) this_key 0;
      let m := set_g_midi_note_state0 l m in
      l ← wr m.(g_midi_note_off_counter) this_key 0;
      Ok (set_g_midi_note_off_counter l m)
    else Ok m
  else Ok m.

Definition update_note_off_feedback_delay b : res (board W) :=
  let sys_time_7 := Z.land b.(keys).(system_time_ms) 127 in
  m ← for_up 128 0 (expire_note sys_time_7) (midi b);
  Ok (set_midi m b).

(** ** Bank select buttons *)

Definition key_pressed (this_key : Z) b : res (board W) :=
  m ← for_up 2 0 (fun this_bank m =>
    if this_key =? tbl bank_select_key_ids this_bank then
      let sys_time_16 := b.(keys).(system_time_ms) in
      let sys_time_16 := if 0 <? sys_time_16 then sys_time_16 else 65535 in
      l ← wr (replicate 2 0) this_bank sys_time_16;
      Ok (set_g_bank_select_counter l m)
    else Ok m) (midi b);
  Ok (set_midi m b).

Definition key_released (this_key : Z) b : res (board W) :=
  m ← for_up 2 0 (fun this_bank m =>
    if this_key =? tbl bank_select_key_ids this_bank then
      l ← wr m.(g_bank_select_counter) this_bank 0;
      Ok (set_g_bank_select_counter l m)
    else Ok m) (midi b);
  Ok (set_midi m b).

(** The loop over the banks, with its [break]. *)
Fixpoint service_banks (banks : list Z) (counter_limit : Z) b : res (board W) :=
  match banks with
  | [] => Ok b
  | this_bank :: banks =>
      this_time ← rd (midi b).(g_bank_select_counter) this_bank;
      if (0 <? this_time) &&
         (counter_limit <=? u16 (b.(keys).(system_time_ms) - this_time)) then
        b ← change_bank this_bank b;
        Ok (send_change_bank_notification this_bank b)
      else service_banks banks counter_limit b
  end.

Definition service_bank_select_buttons b : res (board W) :=
  if b.(sets).(G_EE_SIDE_BANK) =? 0 then Ok b
  else
    let counter_limit := if 1 <? b.(sets).(G_EE_SIDE_BANK) then 1
                         else G_BANK_SELECT_COUNTER_LIMIT in
    service_banks [0; 1] counter_limit b.

(** ** Incoming messages *)

(** A real-time message: the MIDI clock. *)
Definition realtime (data1 : Z) b : board W :=
  if data1 =? 248 then
    let b := set_midi (midi_clock_enable true (midi b)) b in
    let '(m, flash) := midi_clock (midi b) (led b).(display_flash_counter) in
    set_led (set_display_flash_counter flash (led b)) (set_midi m b)
  else if data1 =? 250 then set_midi (midi_clock_enable true (midi b)) b
  else if data1 =? 252 then set_midi (midi_clock_enable false (midi b)) b
  else b.

Definition bank2_channel (g : settings) : Z := Z.land (g.(G_EE_MIDI_CHANNEL) - 1) 15.
Definition animation_channel (g : settings) : Z := Z.land (g.(G_EE_MIDI_CHANNEL) + 1) 15.

Definition note_on (p : packet) b : res (board W) :=
  let channel := Z.land p.(Data1) 15 in
  let note := p.(Data2) in
  let velocity := p.(Data3) in
  let m := midi b in
  if channel =? b.(sets).(G_EE_MIDI_CHANNEL) then
    let key_id := u8 (note - MIDI_BASENOTE) in
    if key_id <? 64 then
      l ← wr m.(g_midi_note_state0) key_id velocity;
      let m := set_g_midi_note_state0 l m in
      l ← wr m.(g_midi_note_off_counter) key_id 0;
      Ok (set_midi (set_g_midi_note_off_counter l m) b)
    else Ok b
  else if channel =? bank2_channel b.(sets) then
    let key_id := u8 (note - MIDI_BASENOTE) in
    if key_id <? 64 then
      let key_id := u8 (key_id + 64) in
      l ← wr m.(g_midi_note_state0) key_id velocity;
      let m := set_g_midi_note_state0 l m in
      l ← wr m.(g_midi_note_off_counter) key_id 0;
      Ok (set_midi (set_g_midi_note_off_counter l m) b)
    else Ok b
  else if channel =? animation_channel b.(sets) then
    l ← wr m.(g_midi_note_state1) note velocity;
    Ok (set_midi (set_g_midi_note_state1 l m) b)
  else Ok b.

Definition note_off (p : packet) b : res (board W) :=
  let channel := Z.land p.(Data1) 15 in
  let note := p.(Data2) in
  let m := midi b in
  let time_8bit := Z.lor (Z.land b.(keys).(system_time_ms) 127) 128 in
  if channel =? b.(sets).(G_EE_MIDI_CHANNEL) then
    let key_id := u8 (note - MIDI_BASENOTE) in
    if key_id <? 64 then
      l ← wr m.(g_midi_note_off_counter) key_id time_8bit;
      Ok (set_midi (set_g_midi_note_off_counter l m) b)
    else Ok b
  else if channel =? bank2_channel b.(sets) then
    let key_id := u8 (note - MIDI_BASENOTE) in
    if key_id <? 64 then
      let key_id := u8 (key_id + 64) in
      l ← wr m.(g_midi_note_off_counter) key_id time_8bit;
      Ok (set_midi (set_g_midi_note_off_counter l m) b)
    else Ok b
  else if channel =? animation_channel b.(sets) then
    l ← wr m.(g_midi_note_state1) note 0;
    Ok (set_midi (set_g_midi_note_state1 l m) b)
  else Ok b.

Definition control_change (p : packet) b : res (board W) :=
  let channel := Z.land p.(Data1) 15 in
  if channel =? b.(sets).(G_EE_MIDI_CHANNEL) then
    if p.(Data2) =? MF64_BANK_CC then change_bank (if 0 <? p.(Data3) then 1 else 0) b
    else Ok b
  else Ok b.

(** The SysEx cases, which change sysex.c's globals too. *)
Definition sysex_3sc (p : packet) f : res (firmware W) :=
  s ← sysex_handle_3sc (midi f.(bd)).(g_midi_sysex_channel) p f.(sx);
  Ok (set_sx s f).
Definition sysex_end (handler : packet -> sysex_globals -> board W -> res (sysex_globals * board W))
    (p : packet) f : res (firmware W) :=
  '(s, b) ← handler p f.(sx) f.(bd);
  Ok (set_bd b (set_sx s f)).

Definition on_board (m : res (board W)) f : res (firmware W) := b ← m; Ok (set_bd b f).

(** The packet switch of [Midifighter_GetIncomingUsbMidiMessages]. *)
Definition handle_packet (p : packet) f : res (firmware W) :=
  let command := Z.land p.(Event) 15 in
  if command =? 15 then Ok (set_bd (realtime p.(Data1) f.(bd)) f)
  else if command =? 9 then on_board (note_on p f.(bd)) f
  else if command =? 8 then on_board (note_off p f.(bd)) f
  else if command =? 11 then on_board (control_change p f.(bd)) f
  else if command =? 4 then sysex_3sc p f
  else if command =? 5 then sysex_end (sysex_handle_1e (call after)) p f
  else if command =? 6 then sysex_end (sysex_handle_2e (call after)) p f
  else if command =? 7 then sysex_end (sysex_handle_3e (call after)) p f
  else Ok f.

(** *** [InterpretUsbMidiMessage]

    The other version of the switch, for the large packets of the receive loop that
    constants.h switches off.  Its cases are a copy of the C text, and so are
    these definitions: they share only the functions that the C code calls. *)

Definition interpret_cc (input_event : packet) b : res (board W) :=
  let channel := Z.land input_event.(Data1) 15 in
  if channel =? b.(sets).(G_EE_MIDI_CHANNEL) then
    let cc := input_event.(Data2) in
    let velocity := input_event.(Data3) in
    if cc =? MF64_BANK_CC then
      let bank := if 0 <? velocity then 1 else 0 in
      change_bank bank b
    else Ok b
  else Ok b.

Definition interpret_realtime (input_event : packet) b : board W :=
  if input_event.(Data1) =? 248 then
    let b := set_midi (midi_clock_enable true (midi b)) b in
    let '(m, flash) := midi_clock (midi b) (led b).(display_flash_counter) in
    set_led (set_display_flash_counter flash (led b)) (set_midi m b)
  else if input_event.(Data1) =? 250 then set_midi (midi_clock_enable true (midi b)) b
  else if input_event.(Data1) =? 252 then set_midi (midi_clock_enable false (midi b)) b
  else b.

Definition interpret_note_on (input_event : packet) b : res (board W) :=
  let channel := Z.land input_event.(Data1) 15 in
  let note := input_event.(Data2) in
  let velocity := input_event.(Data3) in
  if channel =? b.(sets).(G_EE_MIDI_CHANNEL) then
    let key_id := u8 (note - MIDI_BASENOTE) in
    if key_id <? 64 then
      l ← wr (midi b).(g_midi_note_state0) key_id velocity;
      let b := set_midi (set_g_midi_note_state0 l (midi b)) b in
      l ← wr (midi b).(g_midi_note_off_counter) key_id 0;
      Ok (set_midi (set_g_midi_note_off_counter l (midi b)) b)
    else Ok b
  else if channel =? Z.land (b.(sets).(G_EE_MIDI_CHANNEL) - 1) 15 then
    let key_id := u8 (note - MIDI_BASENOTE) in
    if key_id <? 64 then
      let key_id := u8 (key_id + 64) in
      l ← wr (midi b).(g_midi_note_state0) key_id velocity;
      let b := set_midi (set_g_midi_note_state0 l (midi b)) b in
      l ← wr (midi b).(g_midi_note_off_counter) key_id 0;
      Ok (set_midi (set_g_midi_note_off_counter l (midi b)) b)
    else Ok b
  else if channel =? Z.land (b.(sets).(G_EE_MIDI_CHANNEL) + 1) 15 then
    l ← wr (midi b).(g_midi_note_state1) note velocity;
    Ok (set_midi (set_g_midi_note_state1 l (midi b)) b)
  else Ok b.

Definition interpret_note_off (input_event : packet) b : res (board W) :=
  let channel := Z.land input_event.(Data1) 15 in
  let note := input_event.(Data2) in
  if channel =? b.(sets).(G_EE_MIDI_CHANNEL) then
    let key_id := u8 (note - MIDI_BASENOTE) in
    if key_id <? 64 then
      let time_8bit := Z.lor (Z.land b.(keys).(system_time_ms) 127) 128 in
      l ← wr (midi b).(g_midi_note_off_counter) key_id time_8bit;
      Ok (set_midi (set_g_midi_note_off_counter l (midi b)) b)
    else Ok b
  else if channel =? Z.land (b.(sets).(G_EE_MIDI_CHANNEL) - 1) 15 then
    let key_id := u8 (note - MIDI_BASENOTE) in
    if key_id <? 64 then
      let key_id := u8 (key_id + 64) in
      let time_8bit := Z.lor (Z.land b.(keys).(system_time_ms) 127) 128 in
      l ← wr (midi b).(g_midi_note_off_counter) key_id time_8bit;
      Ok (set_midi (set_g_midi_note_off_counter l (midi b)) b)
    else Ok b
  else if channel =? Z.land (b.(sets).(G_EE_MIDI_CHANNEL) + 1) 15 then
    l ← wr (midi b).(g_midi_note_state1) note 0;
    Ok (set_midi (set_g_midi_note_state1 l (midi b)) b)
  else Ok b.

(** The CC case has no [break] and falls through to the real-time case. *)
Definition InterpretUsbMidiMessage (input_event : packet) f : res (bool * firmware W) :=
  let command := Z.land input_event.(Event) 15 in
  if command =? 0 then Ok (false, f)
  else
    f ←
      (if command =? 11 then
         b ← interpret_cc input_event f.(bd);
         Ok (set_bd (interpret_realtime input_event b) f)
       else if command =? 15 then Ok (set_bd (interpret_realtime input_event f.(bd)) f)
       else if command =? 9 then b ← interpret_note_on input_event f.(bd); Ok (set_bd b f)
       else if command =? 8 then b ← interpret_note_off input_event f.(bd); Ok (set_bd b f)
       else if command =? 4 then
         s ← sysex_handle_3sc (midi f.(bd)).(g_midi_sysex_channel) input_event f.(sx);
         Ok (set_sx s f)
       else if command =? 5 then
         '(s, b) ← sysex_handle_1e (call after) input_event f.(sx) f.(bd); Ok (set_bd b (set_sx s f))
       else if command =? 6 then
         '(s, b) ← sysex_handle_2e (call after) input_event f.(sx) f.(bd); Ok (set_bd b (set_sx s f))
       else if command =? 7 then
         '(s, b) ← sysex_handle_3e (call after) input_event f.(sx) f.(bd); Ok (set_bd b (set_sx s f))
       else Ok f);
    Ok (true, f).

(** The receive loop with its two counters.  Every iteration raises one of them,
    and a packet resets the failures, so the loop ends within
    512 * 120 + 120 iterations ([receive_fuel_enough]). *)
Fixpoint receive_loop (fuel : nat) (input_event : packet) (usb_rx_packets usb_rx_fail_count : Z) f
    : res (firmware W) :=
  if USB_RX_PACKET_LIMIT <=? usb_rx_packets then Ok f
  else
    match fuel with
    | O => Fault OutOfFuel
    | S fuel =>
        let '(received, w) := MIDI_Device_ReceiveEventPacket input_event f.(bd).(link) in
        let f := set_bd (set_link w f.(bd)) f in
        match received with
        | None =>
            let usb_rx_fail_count := u16 (usb_rx_fail_count + 1) in
            if USB_RX_FAIL_LIMIT <=? usb_rx_fail_count then Ok f
            else receive_loop fuel input_event usb_rx_packets usb_rx_fail_count f
        | Some p =>
            f ← handle_packet p f;
            receive_loop fuel p (u16 (usb_rx_packets + 1)) 0 f
        end
    end.

Definition receive_fuel : nat := Z.to_nat (512 * 120 + 120).

Definition Midifighter_GetIncomingUsbMidiMessages f : res (firmware W) :=
  receive_loop receive_fuel event0 0 0 f.

(** ** Key presses *)

Definition key_down_event (i key_bit : Z) b : res (board W) :=
  let g := b.(sets) in
  let note := midi_64_key_to_note i in
  let b := if g.(G_EE_MIDI_OUTPUT_MODE) <? MIDI_OUTPUT_MODE_CCS_ONLY
           then midi_stream_note g.(G_EE_MIDI_CHANNEL) g.(G_EE_MIDI_VELOCITY)
                  (midi b).(g_bank_selected) note true b
           else b in
  let b := if MIDI_OUTPUT_MODE_NOTES_ONLY <? g.(G_EE_MIDI_OUTPUT_MODE)
           then midi_stream_raw_cc g.(G_EE_MIDI_CHANNEL) note 127 b
           else b in
  let last := b.(keys).(g_key_bank_last_up) in
  let b := set_keys (set_g_key_bank_last_up
             (if (midi b).(g_bank_selected) <=? 0 then Z.ldiff last key_bit
              else Z.lor last key_bit) b.(keys)) b in
  b ← (if g.(G_EE_ANIMATIONS) <? GEOMETRIC_ANIMATION_TYPES
       then start_animation i g.(G_EE_ANIMATIONS) b else Ok b);
  key_pressed i b.

Definition key_up_event (i key_bit : Z) b : res (board W) :=
  let g := b.(sets) in
  let note := midi_64_key_to_note i in
  let channel := if has_bits b.(keys).(g_key_bank_last_up) key_bit then bank2_channel g
                 else g.(G_EE_MIDI_CHANNEL) in
  let b := if g.(G_EE_MIDI_OUTPUT_MODE) <? MIDI_OUTPUT_MODE_CCS_ONLY
           then midi_stream_note_ch g.(G_EE_MIDI_VELOCITY) channel note false b else b in
  let b := if MIDI_OUTPUT_MODE_NOTES_ONLY <? g.(G_EE_MIDI_OUTPUT_MODE)
           then midi_stream_raw_cc g.(G_EE_MIDI_CHANNEL) note 0 b else b in
  key_released i b.

Definition service_key (i : Z) (st : board W * Z) : res (board W * Z) :=
  let '(b, key_bit) := st in
  b ← (if has_bits b.(keys).(g_key_down) key_bit then key_down_event i key_bit b else Ok b);
  b ← (if has_bits b.(keys).(g_key_up) key_bit then key_up_event i key_bit b else Ok b);
  Ok (b, u64 (Z.shiftl key_bit 1)).

Definition service_keys b : res (board W) :=
  let b := if negb (b.(keys).(g_key_down) =? 0)
           then set_led (set_sleep_minute_counter 0 (led b)) b else b in
  fst <$> for_up 64 0 service_key (b, 1).

(** ** Combos *)

Definition combo_note (a : combo_action_t) : option (Z * bool) :=
  match a with
  | COMBO_NONE => None
  | COMBO_A_DOWN => Some (8, true) | COMBO_A_RELEASE => Some (8, false)
  | COMBO_B_DOWN => Some (9, true) | COMBO_B_RELEASE => Some (9, false)
  | COMBO_C_DOWN => Some (10, true) | COMBO_C_RELEASE => Some (10, false)
  | COMBO_D_DOWN => Some (11, true) | COMBO_D_RELEASE => Some (11, false)
  | COMBO_E_DOWN => Some (12, true) | COMBO_E_RELEASE => Some (12, false)
  end.

Definition service_combos b : res (board W) :=
  if negb (b.(sets).(G_EE_COMBOS_ENABLE) =? 0) then
    '(action, c) ← combo_recognize b.(keys).(g_key_down) b.(keys).(g_key_up)
                     b.(keys).(g_key_state) b.(combo);
    let b := set_combo c b in
    let channel := if (midi b).(g_bank_selected) <=? 0 then b.(sets).(G_EE_MIDI_CHANNEL)
                   else bank2_channel b.(sets) in
    match combo_note action with
    | Some (note, onoff) =>
        Ok (midi_stream_note_ch b.(sets).(G_EE_MIDI_VELOCITY) channel note onoff b)
    | None => Ok b
    end
  else Ok b.

(** ** The main task *)

Definition refresh_leds f : res (firmware W) :=
  let b := f.(bd) in
  let k := b.(keys) in
  if LED_REFRESH_LIMIT <=? u16 (k.(system_time_ms) - k.(last_led_refresh_time_ms)) then
    let b := set_keys (set_last_led_refresh_time_ms k.(system_time_ms) k) b in
    b ← service_bank_select_buttons b;
    b ← update_note_off_feedback_delay b;
    s ← default_display_run sin_level b.(cols) b.(sets).(G_EE_SLEEP_TIME)
          b.(keys).(g_key_state) b.(keys).(g_key_down) b.(scr);
    let b := set_scr s b in
    '(r, out) ← led_update_pixels (s.(g_display_buffer) ++ [after]) (regs b);
    Ok (set_strands out (set_bd (set_regs r b) f))
  else Ok f.

Definition read_keys b : res (board W) :=
  '(_, k) ← key_read b.(keys);
  Ok (set_keys (key_calc k) b).

Definition Midifighter_Task f : res (firmware W) :=
  if negb (configured f.(bd).(link)) then Ok f
  else
    f ← Midifighter_GetIncomingUsbMidiMessages f;
    b ← read_keys f.(bd);
    b ← service_keys b;
    b ← service_combos b;
    let b := MIDI_Device_Flush b in
    f ← refresh_leds (set_bd b f);
    Ok (set_watchdog_flag true f).

(** ** USB events *)

Definition EVENT_USB_Device_Connect b : board W := set_regs (led_enable (regs b)) b.

(** [configured_endpoints] is what the class driver answers. *)
Definition EVENT_USB_Device_ConfigurationChanged (configured_endpoints : bool) b : board W :=
  if negb configured_endpoints then b
  else
    let b := set_regs (led_enable (regs b)) b in
    set_regs (wdt_enable WDTO_2S (regs b)) b.

(** ** Start-up

    [main] up to its endless loop.  [samples] are the pin values of the key
    interrupts that run during the 20 ms delay. *)

Definition JTD : Z := 7.

Definition main_setup (samples : list (Z -> Z)) b : res (firmware W) :=
  let r := regs b in
  let r := set_MCUSR (clear_bits r.(MCUSR) (bv WDRF)) r in
  let r := wdt_disable r in
  let r := set_MCUCR (bv JTD) r in
  let r := set_MCUCR (bv JTD) r in
  let b := set_regs r b in
  b ← setup_eeprom b;
  let '(g, r) := led_setup (led b) (regs b) in
  let b := set_regs r (set_led g b) in
  let b := set_regs (led_disable (regs b)) b in
  let '(k, r) := key_setup b.(keys) (regs b) in
  let b := set_regs r (set_keys k b) in
  let b := set_midi (midi_setup (midi b)) b in
  let s := config_setup initial_sysex in
  let b := set_combo (combo_setup b.(combo)) b in
  '(k, r) ← run_samples samples b.(keys) (regs b);
  let b := set_regs r (set_keys k b) in
  b ← read_keys b;
  if has_bits b.(keys).(g_key_state) 1 then
    '(r, _) ← led_set_state_dfu after (regs b);
    Jump_To_Bootloader r
  else
    let b := set_regs (sei (regs b)) b in
    let b := set_led (set_sleep_minute_counter b.(sets).(G_EE_SLEEP_TIME) (led b)) b in
    Ok (mk_fw b s false []).

End firmware.
(** ** Lemmas: incoming messages *)

Section input.
Context {W : Type} `{MidiOut W} `{MidiIn W}.
Variable after : Z.
Implicit Types b : board W.
Implicit Types f : firmware W.

(** A packet of a valid channel or real-time message. *)
Definition plain (p : packet) : Prop :=
  0 <= p.(Data2) < 128 /\ 0 <= p.(Data3) < 128 /\ ~ 4 <= Z.land p.(Event) 15 <= 7.

(** What handling a plain packet leaves alone. *)
Definition same_outside b b' : Prop :=
  b'.(sets) = b.(sets) /\ b'.(cols) = b.(cols) /\ b'.(rom) = b.(rom) /\ b'.(keys) = b.(keys) /\
  b'.(combo) = b.(combo) /\ b'.(link) = b.(link).

Lemma set_midi_ok m b :
  board_wf b -> midi_wf m -> Forall (fun v => 0 <= v < 128) m.(g_midi_note_state0) ->
  exists b', Ok (set_midi m b) = Ok b' /\ board_wf b' /\ same_outside b b'.
Proof. intros Hb Hm Hv. exists (set_midi m b). split; [done|]. split; [by apply set_midi_wf|done]. Qed.

Lemma realtime_ok d b : board_wf b -> board_wf (realtime d b) /\ same_outside b (realtime d b).
Proof.
  intros Hb. unfold realtime.
  assert (Hclk : forall v, board_wf (set_midi (midi_clock_enable v (midi b)) b)).
  { intros v. destruct (board_midi_wf b Hb) as [[] Hv]. apply set_midi_wf; [done|by split|done]. }
  destruct (d =? 248); [|destruct (d =? 250); [done|by destruct (d =? 252)]].
  set (b1 := set_midi _ b). specialize (Hclk true). fold b1 in Hclk.
  destruct (midi_clock (midi b1) (led b1).(display_flash_counter)) as [m flash] eqn:E.
  split; [|done].
  assert (Hm : midi_wf m /\ m.(g_midi_note_state0) = (midi b1).(g_midi_note_state0)).
  { destruct (board_midi_wf b1 Hclk) as [[] _]. unfold midi_clock in E. 
    destruct (negb _); cbn zeta beta in E; destruct (_ =? 3); injection E as <- <-; by split. }
  destruct (board_midi_wf b1 Hclk) as [_ Hv1]. rewrite <-(proj2 Hm) in Hv1.
  destruct (set_midi_wf m b1 Hclk (proj1 Hm) Hv1) as [? ? [] ? ?]. split; [done..| |done|done].
  by split.
Qed.

Lemma note_on_ok p b : board_wf b -> plain p ->
  exists b', note_on p b = Ok b' /\ board_wf b' /\ same_outside b b'.
Proof.
  intros Hb (H2 & H3 & _). destruct (board_midi_wf b Hb) as [[Hbk Hn0 Hn1 Hoff Hcnt Hch] Hv].
  assert (Hset : forall k, 0 <= k < 128 -> exists b',
    (l ← wr (midi b).(g_midi_note_state0) k p.(Data3);
     let m := set_g_midi_note_state0 l (midi b) in
     l ← wr m.(g_midi_note_off_counter) k 0;
     Ok (set_midi (set_g_midi_note_off_counter l m) b)) = Ok b' /\ board_wf b' /\ same_outside b b').
  { intros k Hk. rewrite wr_in_range by lia. cbn [mbind res_bind]. cbv zeta.
    rewrite wr_in_range by (cbn; lia). cbn [mbind res_bind]. apply set_midi_ok; [done| |].
    - split; cbn; rewrite ?length_insert; done.
    - cbn. apply Forall_insert; done. }
  unfold note_on. assert (Hr := u8_range (p.(Data2) - MIDI_BASENOTE)).
  destruct (_ =? G_EE_MIDI_CHANNEL _); [|destruct (_ =? bank2_channel _)].
  - destruct (Z.ltb_spec (u8 (p.(Data2) - MIDI_BASENOTE)) 64); [apply Hset; lia|by exists b].
  - destruct (Z.ltb_spec (u8 (p.(Data2) - MIDI_BASENOTE)) 64); [|by exists b].
    cbv zeta. rewrite (u8_small (_ + 64)) by lia. apply Hset; lia.
  - destruct (_ =? animation_channel _); [|by exists b].
    rewrite wr_in_range by lia. cbn [mbind res_bind]. apply set_midi_ok; [done| |done].
    split; cbn; rewrite ?length_insert; done.
Qed.

Lemma note_off_ok p b : board_wf b -> plain p ->
  exists b', note_off p b = Ok b' /\ board_wf b' /\ same_outside b b'.
Proof.
  intros Hb (H2 & H3 & _). destruct (board_midi_wf b Hb) as [[Hbk Hn0 Hn1 Hoff Hcnt Hch] Hv].
  assert (Hset : forall k v, 0 <= k < 128 -> exists b',
    (l ← wr (midi b).(g_midi_note_off_counter) k v;
     Ok (set_midi (set_g_midi_note_off_counter l (midi b)) b)) = Ok b' /\
    board_wf b' /\ same_outside b b').
  { intros k v Hk. rewrite wr_in_range by lia. cbn [mbind res_bind].
    apply set_midi_ok; [done| |done]. split; cbn; rewrite ?length_insert; done. }
  unfold note_off. assert (Hr := u8_range (p.(Data2) - MIDI_BASENOTE)).
  destruct (_ =? G_EE_MIDI_CHANNEL _); [|destruct (_ =? bank2_channel _)].
  - destruct (Z.ltb_spec (u8 (p.(Data2) - MIDI_BASENOTE)) 64); [apply Hset; lia|by exists b].
  - destruct (Z.ltb_spec (u8 (p.(Data2) - MIDI_BASENOTE)) 64); [|by exists b].
    cbv zeta. rewrite (u8_small (_ + 64)) by lia. apply Hset; lia.
  - destruct (_ =? animation_channel _); [|by exists b].
    rewrite wr_in_range by lia. cbn [mbind res_bind]. apply set_midi_ok; [done| |done].
    split; cbn; rewrite ?length_insert; done.
Qed.

Lemma control_change_ok p b : board_wf b ->
  exists b', control_change p b = Ok b' /\ board_wf b' /\ same_outside b b'.
Proof.
  intros Hb. unfold control_change.
  destruct (_ =? G_EE_MIDI_CHANNEL _); [|by exists b].
  destruct (_ =? MF64_BANK_CC); [|by exists b].
  destruct (change_bank_ok (if 0 <? p.(Data3) then 1 else 0) b Hb) as (a & g & -> & Hb');
    [destruct (0 <? p.(Data3)); lia|]. by eexists.
Qed.

Lemma handle_plain p f : board_wf f.(bd) -> plain p ->
  exists b', handle_packet after p f = Ok (set_bd b' f) /\ board_wf b' /\ same_outside f.(bd) b'.
Proof.
  intros Hb Hp. assert (Hc := Hp). destruct Hc as (_ & _ & Hc).
  unfold handle_packet, on_board.
  destruct (_ =? 15). { eexists. split; [done|]. by apply realtime_ok. }
  destruct (_ =? 9). { destruct (note_on_ok p f.(bd) Hb Hp) as (b' & -> & ?). by exists b'. }
  destruct (_ =? 8). { destruct (note_off_ok p f.(bd) Hb Hp) as (b' & -> & ?). by exists b'. }
  destruct (_ =? 11). { destruct (control_change_ok p f.(bd) Hb) as (b' & -> & ?). by exists b'. }
  destruct (Z.eqb_spec (Z.land p.(Event) 15) 4); [lia|].
  destruct (Z.eqb_spec (Z.land p.(Event) 15) 5); [lia|].
  destruct (Z.eqb_spec (Z.land p.(Event) 15) 6); [lia|].
  destruct (Z.eqb_spec (Z.land p.(Event) 15) 7); [lia|].
  exists f.(bd). by destruct f.
Qed.

(** The receive loop ends: with enough fuel a fault is a fault of a message. *)
Lemma receive_fuel_enough fuel : forall event packets fails f,
  0 <= packets -> 0 <= fails < 120 -> (512 - packets) * 120 + (120 - fails) <= Z.of_nat fuel ->
  match receive_loop after fuel event packets fails f with
  | Ok _ => True
  | Fault e => exists p f', handle_packet after p f' = Fault e
  end.
Proof.
  induction fuel as [|fuel IH]; intros event packets fails f Hp Hf Hm; cbn [receive_loop];
    unfold USB_RX_PACKET_LIMIT, USB_RX_FAIL_LIMIT;
    (destruct (Z.leb_spec 512 packets); [done|]); [lia|].
  destruct (MIDI_Device_ReceiveEventPacket event f.(bd).(link)) as [[p|] w].
  - destruct (handle_packet after p _) as [f'|e] eqn:E; cbn [mbind res_bind]; [|by eexists _, _].
    rewrite u16_small by lia. apply IH; lia.
  - rewrite u16_small by lia. destruct (Z.leb_spec 120 (fails + 1)); [done|]. apply IH; lia.
Qed.

End input.
(** ** Lemmas: keys *)

Section keys.
Context {W : Type} `{MidiOut W}.
Implicit Types b : board W.

(** The packets of a key press and of a key release. *)
Definition down_packets (g : settings) (bank i : Z) : list packet :=
  (if g.(G_EE_MIDI_OUTPUT_MODE) <? MIDI_OUTPUT_MODE_CCS_ONLY
   then [note_packet 144 (u8 (g.(G_EE_MIDI_CHANNEL) - bank)) (midi_64_key_to_note i)
           g.(G_EE_MIDI_VELOCITY)] else []) ++
  (if MIDI_OUTPUT_MODE_NOTES_ONLY <? g.(G_EE_MIDI_OUTPUT_MODE)
   then [note_packet 176 g.(G_EE_MIDI_CHANNEL) (midi_64_key_to_note i) 127] else []).

Definition up_packets (g : settings) (last i : Z) : list packet :=
  (if g.(G_EE_MIDI_OUTPUT_MODE) <? MIDI_OUTPUT_MODE_CCS_ONLY
   then [note_packet 128 (if Z.testbit last i then bank2_channel g else g.(G_EE_MIDI_CHANNEL))
           (midi_64_key_to_note i) g.(G_EE_MIDI_VELOCITY)] else []) ++
  (if MIDI_OUTPUT_MODE_NOTES_ONLY <? g.(G_EE_MIDI_OUTPUT_MODE)
   then [note_packet 176 g.(G_EE_MIDI_CHANNEL) (midi_64_key_to_note i) 0] else []).

(** The record of the bank a key was pressed in. *)
Definition bank_record (bank last i : Z) : Z :=
  if bank <=? 0 then Z.ldiff last (2 ^ i) else Z.lor last (2 ^ i).

(** A board after some packets, with another display and another bank record. *)
Definition after_key (s : screen) (last : Z) (ps : list packet) b : board W :=
  mk_board b.(sets) b.(cols) b.(rom) s (set_g_key_bank_last_up last b.(keys)) b.(combo)
    (send_all ps b.(link)).

Lemma after_key_wf s last ps b : board_wf b -> screen_wf s -> board_wf (after_key s last ps b).
Proof. intros [? ? ? [] ?] Hs. split; [done..| |done]. by split. Qed.

(** The hold counters are the only thing [key_pressed] and [key_released] change. *)
Definition only_counters (m m' : midi_globals) : Prop :=
  exists l, length l = 2%nat /\ m' = set_g_bank_select_counter l m.

Lemma only_counters_wf m m' : midi_wf m -> only_counters m m' -> midi_wf m'.
Proof. intros [] (l & Hl & ->). by split. Qed.

Lemma counters_loop body m :
  midi_wf m ->
  (forall k m1, 0 <= k < 2 -> midi_wf m1 -> exists m2, body k m1 = Ok m2 /\ only_counters m1 m2) ->
  exists m', for_up 2 0 body m = Ok m' /\ only_counters m m'.
Proof.
  intros Hm Hbody. apply (for_up_ok (only_counters m) body 2 0 m).
  - exists m.(g_bank_select_counter). split; [apply Hm|by destruct m].
  - intros k m1 Hk Hm1. destruct (Hbody k m1) as (m2 & E & l2 & Hl2 & Hm2);
      [lia|by apply (only_counters_wf m)|].
    exists m2. split; [done|]. destruct Hm1 as (l1 & _ & ->). exists l2. split; [done|].
    by rewrite Hm2.
Qed.

Lemma key_pressed_ok i b :
  board_wf b -> exists m, key_pressed i b = Ok (set_midi m b) /\ only_counters (midi b) m.
Proof.
  intros Hb. unfold key_pressed. destruct (board_midi_wf b Hb) as [Hm _].
  match goal with |- context [for_up 2 0 ?body _] =>
    destruct (counters_loop body (midi b) Hm) as (m & -> & Ho) end; [|by exists m].
  intros k m1 Hk Hm1. destruct (i =? _).
  - rewrite wr_in_range by (cbn; lia). cbn [mbind res_bind]. eexists. split; [done|].
    eexists. split; [|done]. by rewrite length_insert.
  - exists m1. split; [done|]. exists m1.(g_bank_select_counter).
    split; [apply Hm1|by destruct m1].
Qed.

Lemma key_released_ok i b :
  board_wf b -> exists m, key_released i b = Ok (set_midi m b) /\ only_counters (midi b) m.
Proof.
  intros Hb. unfold key_released. destruct (board_midi_wf b Hb) as [Hm _].
  match goal with |- context [for_up 2 0 ?body _] =>
    destruct (counters_loop body (midi b) Hm) as (m & -> & Ho) end; [|by exists m].
  intros k m1 Hk Hm1. assert (Hl := wf_bank_counter _ Hm1). destruct (i =? _).
  - rewrite wr_in_range by lia. cbn [mbind res_bind]. eexists. split; [done|].
    eexists. split; [|done]. by rewrite length_insert.
  - exists m1. split; [done|]. exists m1.(g_bank_select_counter). split; [done|by destruct m1].
Qed.

Lemma counters_screen_wf s m :
  screen_wf s -> only_counters s.(sc_midi) m -> screen_wf (set_sc_midi m s).
Proof.
  intros [] Ho. split; [done|by apply (only_counters_wf s.(sc_midi))| |done..].
  by destruct Ho as (l & _ & ->).
Qed.

Lemma counters_bank m m' : only_counters m m' -> m'.(g_bank_selected) = m.(g_bank_selected).
Proof. by intros (l & _ & ->). Qed.

Lemma key_down_ok i b :
  board_wf b -> 0 <= i < 64 ->
  exists s, key_down_event i (2 ^ i) b =
      Ok (after_key s (bank_record (midi b).(g_bank_selected) b.(keys).(g_key_bank_last_up) i)
            (down_packets b.(sets) (midi b).(g_bank_selected) i) b) /\
    screen_wf s /\ s.(sc_midi).(g_bank_selected) = (midi b).(g_bank_selected).
Proof.
  intros Hb Hi. unfold key_down_event.
  set (last := bank_record _ _ _). set (ps := down_packets _ _ _).
  match goal with |- context [set_keys ?k ?b2] => set (b3 := set_keys k b2) end.
  assert (E3 : b3 = after_key b.(scr) last ps b).
  { unfold b3, ps, last, after_key, down_packets, bank_record. destruct b.
    by destruct (_ <? MIDI_OUTPUT_MODE_CCS_ONLY), (MIDI_OUTPUT_MODE_NOTES_ONLY <? _). }
  assert (Hb3 : board_wf b3) by (rewrite E3; apply after_key_wf; [done|apply Hb]).
  assert (H4 : exists s, (if b.(sets).(G_EE_ANIMATIONS) <? GEOMETRIC_ANIMATION_TYPES
      then start_animation i b.(sets).(G_EE_ANIMATIONS) b3 else Ok b3) = Ok (set_scr s b3) /\
      board_wf (set_scr s b3) /\ s.(sc_midi) = b.(scr).(sc_midi)).
  { destruct (_ <? GEOMETRIC_ANIMATION_TYPES).
    - destruct (start_animation_ok i b.(sets).(G_EE_ANIMATIONS) b3 Hb3 Hi) as (a & g & -> & Hb4).
      eexists. split; [done|]. split; [done|]. by rewrite E3.
    - exists b3.(scr). split; [by destruct b3|]. split; [by destruct b3|by rewrite E3]. }
  destruct H4 as (s & -> & Hb4 & Hs4). cbn [mbind res_bind].
  destruct (key_pressed_ok i _ Hb4) as (m & -> & Ho). exists (set_sc_midi m s).
  assert (Hsw : screen_wf s) by apply Hb4.
  split; [by rewrite E3|]. split; [by apply counters_screen_wf|].
  cbn [sc_midi set_sc_midi]. rewrite (counters_bank _ _ Ho). change (midi (set_scr s b3)) with s.(sc_midi). by rewrite Hs4.
Qed.

Lemma key_up_ok i b :
  board_wf b -> 0 <= i < 64 ->
  exists s, key_up_event i (2 ^ i) b =
      Ok (after_key s b.(keys).(g_key_bank_last_up)
            (up_packets b.(sets) b.(keys).(g_key_bank_last_up) i) b) /\
    screen_wf s /\ s.(sc_midi).(g_bank_selected) = (midi b).(g_bank_selected).
Proof.
  intros Hb Hi. unfold key_up_event. rewrite has_bits_pow2 by lia.
  set (last := b.(keys).(g_key_bank_last_up)).
  set (ps := up_packets _ _ _).
  match goal with |- context [key_released i ?b2] => set (b3 := b2) end.
  assert (E3 : b3 = after_key b.(scr) last ps b).
  { unfold b3, ps, last, after_key, up_packets. destruct b as [? ? ? ? [] ? ?].
    by destruct (_ <? MIDI_OUTPUT_MODE_CCS_ONLY), (MIDI_OUTPUT_MODE_NOTES_ONLY <? _). }
  assert (Hb3 : board_wf b3) by (rewrite E3; apply after_key_wf; [done|apply Hb]).
  destruct (key_released_ok i _ Hb3) as (m & -> & Ho). rewrite E3 in Ho |- *.
  exists (set_sc_midi m b.(scr)). split; [done|].
  split; [apply counters_screen_wf; [apply Hb|exact Ho]|]. exact (counters_bank _ _ Ho).
Qed.

End keys.
(** *** The loop over the keys is a pure function of the edges *)

Section key_loop.
Context {W : Type} `{MidiOut W}.
Implicit Types b : board W.

(** One key: the new bank record and the packets. *)
Definition key_step (g : settings) (bank kd ku : Z) (st : Z * list packet) (i : nat)
    : Z * list packet :=
  let '(last, ps) := st in
  let i := Z.of_nat i in
  let last := if Z.testbit kd i then bank_record bank last i else last in
  (last, ps ++ (if Z.testbit kd i then down_packets g bank i else []) ++
               (if Z.testbit ku i then up_packets g last i else [])).

Definition key_events (g : settings) (bank kd ku last : Z) (n : nat) : Z * list packet :=
  foldl (key_step g bank kd ku) (last, []) (seq 0 n).

Lemma key_events_S g bank kd ku last n :
  key_events g bank kd ku last (S n) = key_step g bank kd ku (key_events g bank kd ku last n) n.
Proof. unfold key_events. by rewrite seq_S, foldl_app. Qed.

Lemma after_key_twice s1 l1 ps1 s2 l2 ps2 b :
  after_key s2 l2 ps2 (after_key s1 l1 ps1 b) = after_key s2 l2 (ps1 ++ ps2) b.
Proof. unfold after_key. cbn. by rewrite send_all_app. Qed.

Lemma service_key_ok n b :
  board_wf b -> (n < 64)%nat ->
  let '(last, ps) := key_step b.(sets) (midi b).(g_bank_selected) b.(keys).(g_key_down)
                       b.(keys).(g_key_up) (b.(keys).(g_key_bank_last_up), []) n in
  exists s, service_key (Z.of_nat n) (b, 2 ^ Z.of_nat n) =
      Ok (after_key s last ps b, u64 (2 ^ (Z.of_nat n + 1))) /\
    screen_wf s /\ s.(sc_midi).(g_bank_selected) = (midi b).(g_bank_selected).
Proof.
  intros Hb Hn. unfold key_step, service_key. set (i := Z.of_nat n). cbn [app].
  rewrite has_bits_pow2 by lia.
  replace (u64 (Z.shiftl (2 ^ i) 1)) with (u64 (2 ^ (i + 1)))
    by (rewrite Z.shiftl_mul_pow2, Z.pow_add_r by lia; done).
  assert (Hid : b = after_key b.(scr) b.(keys).(g_key_bank_last_up) [] b)
    by (by destruct b as [? ? ? ? [] ? ?]).
  assert (H1 : exists b1 s1, (if Z.testbit b.(keys).(g_key_down) i then key_down_event i (2 ^ i) b
      else Ok b) = Ok b1 /\
      b1 = after_key s1 (if Z.testbit b.(keys).(g_key_down) i
             then bank_record (midi b).(g_bank_selected) b.(keys).(g_key_bank_last_up) i
             else b.(keys).(g_key_bank_last_up))
           (if Z.testbit b.(keys).(g_key_down) i
            then down_packets b.(sets) (midi b).(g_bank_selected) i else []) b /\
      screen_wf s1 /\ s1.(sc_midi).(g_bank_selected) = (midi b).(g_bank_selected)).
  { destruct (Z.testbit b.(keys).(g_key_down) i).
    - destruct (key_down_ok i b Hb) as (s & -> & Hs & Hbank); [lia|]. by eexists _, s.
    - exists b, b.(scr). split; [done|]. split; [done|]. split; [apply Hb|done]. }
  destruct H1 as (b1 & s1 & -> & E1 & Hs1 & Hbank1). cbn [mbind res_bind].
  set (last := if Z.testbit _ i then bank_record _ _ _ else _) in *.
  set (ps := if Z.testbit _ i then down_packets _ _ _ else _) in *.
  assert (Hb1 : board_wf b1) by (rewrite E1; by apply after_key_wf).
  rewrite has_bits_pow2 by lia.
  replace b1.(keys).(g_key_up) with b.(keys).(g_key_up) by (by rewrite E1).
  destruct (Z.testbit b.(keys).(g_key_up) i).
  - destruct (key_up_ok i b1 Hb1) as (s & -> & Hs & Hbank); [lia|]. exists s.
    rewrite E1, after_key_twice. split; [done|]. split; [done|].
    rewrite Hbank, E1. exact Hbank1.
  - exists s1. rewrite E1, app_nil_r. by cbn.
Qed.

Lemma service_keys_ok b :
  board_wf b ->
  let '(last, ps) := key_events b.(sets) (midi b).(g_bank_selected) b.(keys).(g_key_down)
                       b.(keys).(g_key_up) b.(keys).(g_key_bank_last_up) 64 in
  exists s, service_keys b = Ok (after_key s last ps b) /\ screen_wf s /\
    s.(sc_midi).(g_bank_selected) = (midi b).(g_bank_selected).
Proof.
  intros Hb. unfold service_keys.
  set (b1 := if negb (_ =? 0) then _ else b).
  assert (Hb1 : exists s0, b1 = after_key s0 b.(keys).(g_key_bank_last_up) [] b /\ screen_wf s0 /\
             s0.(sc_midi) = b.(scr).(sc_midi)).
  { destruct Hb as [? ? [] ? ?]. unfold b1. destruct (negb _).
    - exists (set_sc_led (set_sleep_minute_counter 0 (led b)) b.(scr)).
      split; [by destruct b as [? ? ? ? [] ? ?]|]. split; [by split|done].
    - exists b.(scr). split; [by destruct b as [? ? ? ? [] ? ?]|]. split; [by split|done]. }
  destruct Hb1 as (s0 & Eb1 & Hs0 & Hm0).
  assert (Hloop : forall n, (n <= 64)%nat -> exists s,
    for_up n 0 service_key (b1, 1) =
      Ok (after_key s (key_events b.(sets) (midi b).(g_bank_selected) b.(keys).(g_key_down)
            b.(keys).(g_key_up) b.(keys).(g_key_bank_last_up) n).1
          (key_events b.(sets) (midi b).(g_bank_selected) b.(keys).(g_key_down)
            b.(keys).(g_key_up) b.(keys).(g_key_bank_last_up) n).2 b, u64 (2 ^ Z.of_nat n)) /\
    screen_wf s /\ s.(sc_midi).(g_bank_selected) = (midi b).(g_bank_selected)).
  { induction n as [|n IH]; intros Hn.
    - exists s0. cbn [for_up]. rewrite Eb1. split; [done|]. split; [done|]. by rewrite Hm0.
    - destruct IH as (s & E & Hs & Hbank); [lia|]. rewrite key_events_S.
      replace (S n) with (n + 1)%nat by lia. rewrite for_up_app, E. cbn [mbind res_bind for_up].
      replace (0 + Z.of_nat n) with (Z.of_nat n) by lia.
      rewrite u64_small by (split; [lia|]; change 18446744073709551616 with (2 ^ 64);
        apply Z.pow_lt_mono_r; lia).
      destruct (key_events _ _ _ _ _ n) as [last ps]. cbn [fst snd].
      set (bn := after_key s last ps b) in *.
      assert (Hbn : board_wf bn) by (by apply after_key_wf).
      assert (Hk := service_key_ok n bn Hbn ltac:(lia)).
      change (sets bn) with b.(sets) in Hk. change (midi bn) with s.(sc_midi) in Hk.
      change (keys bn).(g_key_down) with b.(keys).(g_key_down) in Hk.
      change (keys bn).(g_key_up) with b.(keys).(g_key_up) in Hk.
      change (keys bn).(g_key_bank_last_up) with last in Hk. rewrite Hbank in Hk.
      unfold key_step in Hk |- *. cbn [app] in Hk.
      destruct Hk as (s' & -> & Hs' & Hbank'). exists s'. cbn [mbind res_bind fst snd].
      unfold bn. rewrite after_key_twice. replace (Z.of_nat (n + 1)) with (Z.of_nat n + 1) by lia.
      split; [done|]. split; [done|]. by rewrite Hbank'. }
  destruct (Hloop 64%nat ltac:(lia)) as (s & -> & Hs & Hbank).
  destruct (key_events _ _ _ _ _ 64) as [last ps]. by exists s.
Qed.

(** Every press among the first [n] keys is among the packets. *)
Lemma key_events_down g bank kd ku last p i n :
  Z.testbit kd (Z.of_nat i) = true -> p ∈ down_packets g bank (Z.of_nat i) -> (i < n)%nat ->
  p ∈ (key_events g bank kd ku last n).2.
Proof.
  intros Hi Hp. induction n as [|n IH]; intros Hn; [lia|]. rewrite key_events_S. unfold key_step.
  destruct (key_events g bank kd ku last n) as [l qs]. cbn [snd] in *.
  apply elem_of_app. destruct (decide (i = n)) as [->|Hne]; [right|left; apply IH; lia].
  apply elem_of_app. left. by rewrite Hi.
Qed.

End key_loop.
(** *** What the host hears *)

(** A receiver of the packets: a note-on with a velocity starts a note, a note-off
    (or a note-on without velocity) ends it. *)
Definition hear (ch note : Z) (on : bool) (p : packet) : bool :=
  if (p.(Data1) mod 16 =? ch) && (p.(Data2) =? note) then
    if p.(Data1) / 16 =? 9 then 0 <? p.(Data3)
    else if p.(Data1) / 16 =? 8 then false else on
  else on.

Definition sounding (ps : list packet) (ch note : Z) : bool := foldl (hear ch note) false ps.

Lemma sounding_app ps qs ch note :
  sounding (ps ++ qs) ch note = foldl (hear ch note) (sounding ps ch note) qs.
Proof. apply foldl_app. Qed.

(** The channel of a key, by the bank it was pressed in. *)
Definition key_channel (c last i : Z) : Z :=
  if Z.testbit last i then (c - 1) mod 16 else c mod 16.

(** Of the notes from the keys' lowest on, exactly those of the held keys sound; the
    combos have lower notes. *)
Definition heard_keys (c : Z) (held : Z -> bool) (last : Z) (s : Z -> Z -> bool) : Prop :=
  forall ch note, MIDI_BASENOTE <= note -> s ch note = true <->
    exists i, 0 <= i < 64 /\ note = MIDI_BASENOTE + i /\ held i = true /\ ch = key_channel c last i.

Lemma hear_packet command channel pitch velocity ch note on :
  command mod 16 = 0 -> 128 <= command < 240 ->
  hear ch note on (note_packet command channel pitch velocity) =
  if (channel mod 16 =? ch) && (pitch mod 128 =? note) then
    if command / 16 =? 9 then 0 <? velocity mod 128
    else if command / 16 =? 8 then false else on
  else on.
Proof.
  intros Hc Hr. destruct (message_valid command channel pitch velocity Hc Hr) as [(_ & Hd & _) _].
  unfold hear, note_packet. cbn [Data1 Data2 Data3] in *. rewrite Hd, !land_127.
  assert (Hm := Z.mod_pos_bound channel 16 ltac:(lia)).
  assert (Hx : command = command / 16 * 16) by (pose proof (Z.div_mod command 16); lia).
  replace ((command + channel mod 16) mod 16) with (channel mod 16).
  2: { rewrite Hx, Z.add_comm, Z.mod_add, Z.mod_mod by lia. done. }
  replace ((command + channel mod 16) / 16) with (command / 16); [done|].
  rewrite Hx at 2. rewrite Z.add_comm, Z.div_add, (Z.div_small (channel mod 16)) by lia. lia.
Qed.

Lemma note_packet_wf command channel pitch velocity :
  command mod 16 = 0 -> 128 <= command < 240 -> packet_wf (note_packet command channel pitch velocity).
Proof. intros Hc Hr. by destruct (message_valid command channel pitch velocity Hc Hr). Qed.

Lemma key_note i : 0 <= i < 64 -> midi_64_key_to_note i mod 128 = MIDI_BASENOTE + i.
Proof. intros Hi. unfold midi_64_key_to_note, MIDI_BASENOTE. rewrite u8_small, Z.mod_small; lia. Qed.

Section sound.
Variable g : settings.
Hypothesis Hmode : g.(G_EE_MIDI_OUTPUT_MODE) < MIDI_OUTPUT_MODE_CCS_ONLY.
Hypothesis Hvel : 0 < g.(G_EE_MIDI_VELOCITY) mod 128.
Let c := g.(G_EE_MIDI_CHANNEL).

Lemma hear_down bank i ch note on :
  0 <= i < 64 -> 0 <= bank < 2 ->
  foldl (hear ch note) on (down_packets g bank i) =
  if ((c - bank) mod 16 =? ch) && (MIDI_BASENOTE + i =? note) then true else on.
Proof.
  intros Hi Hb. unfold down_packets. rewrite (proj2 (Z.ltb_lt _ _) Hmode). cbn [app foldl].
  rewrite hear_packet, key_note by (done || lia). change (144 / 16 =? 9) with true.
  rewrite (proj2 (Z.ltb_lt 0 _) Hvel).
  replace (u8 (g.(G_EE_MIDI_CHANNEL) - bank) mod 16) with ((c - bank) mod 16).
  2: { unfold u8, c. change 256 with (16 * 16). rewrite Z.rem_mul_r by lia.
       rewrite (Z.mul_comm 16), Z.mod_add, Z.mod_mod by lia. done. }
  destruct (MIDI_OUTPUT_MODE_NOTES_ONLY <? _); cbn [foldl]; [|done].
  rewrite hear_packet by (done || lia). change (176 / 16 =? 9) with false.
  change (176 / 16 =? 8) with false. by destruct (_ && _).
Qed.

Lemma hear_up last i ch note on :
  0 <= i < 64 ->
  foldl (hear ch note) on (up_packets g last i) =
  if (key_channel c last i =? ch) && (MIDI_BASENOTE + i =? note) then false else on.
Proof.
  intros Hi. unfold up_packets. rewrite (proj2 (Z.ltb_lt _ _) Hmode). cbn [app foldl].
  rewrite hear_packet, key_note by (done || lia).
  change (128 / 16 =? 9) with false. change (128 / 16 =? 8) with true.
  replace ((if Z.testbit last i then bank2_channel g else g.(G_EE_MIDI_CHANNEL)) mod 16)
    with (key_channel c last i).
  2: { unfold key_channel, bank2_channel. destruct (Z.testbit last i); [|done].
       by rewrite land_15, Z.mod_mod by lia. }
  destruct (MIDI_OUTPUT_MODE_NOTES_ONLY <? _); cbn [foldl]; [|done].
  rewrite hear_packet by (done || lia). change (176 / 16 =? 9) with false.
  change (176 / 16 =? 8) with false. by destruct (_ && _).
Qed.

Lemma testbit_record bank last i j :
  0 <= i -> 0 <= j -> 0 <= bank < 2 ->
  Z.testbit (bank_record bank last i) j = if j =? i then 0 <? bank else Z.testbit last j.
Proof.
  intros Hi Hj Hb. unfold bank_record. destruct (Z.leb_spec bank 0).
  - rewrite Z.ldiff_spec, Z.pow2_bits_eqb, Z.eqb_sym by lia.
    destruct (Z.eqb_spec j i); [|apply andb_true_r]. rewrite andb_false_r. lia.
  - rewrite Z.lor_spec, Z.pow2_bits_eqb, Z.eqb_sym by lia.
    destruct (Z.eqb_spec j i); [|apply orb_false_r]. rewrite orb_true_r. lia.
Qed.

(** A press adds its key to the sounding ones, a release removes it. *)
Lemma heard_down bank held last s i :
  0 <= i < 64 -> 0 <= bank < 2 -> held i = false -> heard_keys c held last s ->
  heard_keys c (fun j => if j =? i then true else held j) (bank_record bank last i)
    (fun ch note => foldl (hear ch note) (s ch note) (down_packets g bank i)).
Proof.
  intros Hi Hb Hh Hs ch note Hbase. rewrite hear_down by done.
  assert (Hch : key_channel c (bank_record bank last i) i = (c - bank) mod 16).
  { unfold key_channel. rewrite testbit_record, Z.eqb_refl by lia.
    destruct (Z.ltb_spec 0 bank); [by replace bank with 1 by lia|].
    by replace bank with 0 by lia; rewrite Z.sub_0_r. }
  assert (Hoth : forall j, 0 <= j -> j <> i ->
    key_channel c (bank_record bank last i) j = key_channel c last j).
  { intros j Hj Hne. unfold key_channel. rewrite testbit_record by lia.
    by rewrite (proj2 (Z.eqb_neq j i)). }
  destruct (Z.eqb_spec ((c - bank) mod 16) ch) as [Ech|Ech]; cbn [andb];
    [destruct (Z.eqb_spec (MIDI_BASENOTE + i) note) as [En|En]|].
  { split; [|done]. intros _. exists i. by rewrite Z.eqb_refl, Hch. }
  all: rewrite (Hs ch note Hbase); split; intros (j & Hj & Hn & Hhj & Hcj);
    destruct (Z.eqb_spec j i) as [->|Hne]; try congruence; exists j;
    rewrite ?(proj2 (Z.eqb_neq j i) Hne) in *; rewrite ?Hoth in * by lia; done.
Qed.

Lemma heard_up held last s i :
  0 <= i < 64 -> held i = true -> heard_keys c held last s ->
  heard_keys c (fun j => if j =? i then false else held j) last
    (fun ch note => foldl (hear ch note) (s ch note) (up_packets g last i)).
Proof.
  intros Hi Hh Hs ch note Hbase. rewrite hear_up by done.
  destruct (Z.eqb_spec (key_channel c last i) ch) as [Ech|Ech]; cbn [andb];
    [destruct (Z.eqb_spec (MIDI_BASENOTE + i) note) as [En|En]|].
  { split; [done|]. intros (j & Hj & Hn & Hhj & _). by replace j with i in Hhj by lia;
      rewrite Z.eqb_refl in Hhj. }
  all: rewrite (Hs ch note Hbase); split; intros (j & Hj & Hn & Hhj & Hcj);
    destruct (Z.eqb_spec j i) as [->|Hne]; try congruence; exists j;
    rewrite ?(proj2 (Z.eqb_neq j i) Hne) in *; done.
Qed.

(** The loop over the keys: keys below [n] have their new state. *)
Lemma heard_events bank kd ku last st st' ps n :
  0 <= bank < 2 -> (n <= 64)%nat ->
  (forall i, 0 <= i < 64 -> Z.testbit kd i = negb (Z.testbit st i) && Z.testbit st' i) ->
  (forall i, 0 <= i < 64 -> Z.testbit ku i = Z.testbit st i && negb (Z.testbit st' i)) ->
  heard_keys c (Z.testbit st) last (sounding ps) ->
  heard_keys c (fun i => if i <? Z.of_nat n then Z.testbit st' i else Z.testbit st i)
    (key_events g bank kd ku last n).1 (sounding (ps ++ (key_events g bank kd ku last n).2)).
Proof.
  intros Hb Hn Hkd Hku H0. induction n as [|n IH].
  { cbn. rewrite app_nil_r. intros ch note Hbase. rewrite (H0 ch note Hbase).
    split; intros (i & Hi & ?); exists i; by replace (i <? Z.of_nat 0) with false in * by lia. }
  specialize (IH ltac:(lia)). rewrite key_events_S. unfold key_step.
  destruct (key_events g bank kd ku last n) as [l qs]. cbn [fst snd] in *.
  set (i := Z.of_nat n) in *.
  specialize (Hkd i ltac:(lia)). specialize (Hku i ltac:(lia)).
  assert (Hext : forall h h' l s s', (forall j, 0 <= j < 64 -> h j = h' j) ->
    (forall ch note, s ch note = s' ch note) -> heard_keys c h l s -> heard_keys c h' l s').
  { intros h h' l' s s' Hh Hs Hk ch note Hbase. rewrite <-Hs, (Hk ch note Hbase).
    split; intros (j & Hj & Hnote & Hhj & Hc); exists j; rewrite Hh in * by done; done. }
  rewrite Hkd, Hku. destruct (Z.testbit st i) eqn:E1, (Z.testbit st' i) eqn:E2; cbn [negb andb app].
  1, 4: rewrite app_nil_r; eapply Hext; [|done|exact IH]; intros j Hj; cbv beta;
    destruct (Z.eq_dec j i) as [->|]; [|by replace (j <? Z.of_nat (S n)) with (j <? i) by lia];
    replace (i <? i) with false by lia; replace (i <? Z.of_nat (S n)) with true by lia; congruence.
  - eapply Hext; [| |apply (heard_up _ l _ i) in IH; [exact IH|lia|]].
    + intros j Hj. cbv beta. destruct (Z.eqb_spec j i) as [->|].
      * by replace (i <? Z.of_nat (S n)) with true by lia.
      * by replace (j <? Z.of_nat (S n)) with (j <? i) by lia.
    + intros ch note. cbv beta. by rewrite app_assoc, (sounding_app (ps ++ qs)).
    + by replace (i <? i) with false by lia.
  - rewrite app_nil_r. eapply Hext; [| |apply (heard_down bank _ l _ i) in IH; [exact IH|lia|done|]].
    + intros j Hj. cbv beta. destruct (Z.eqb_spec j i) as [->|].
      * by replace (i <? Z.of_nat (S n)) with true by lia.
      * by replace (j <? Z.of_nat (S n)) with (j <? i) by lia.
    + intros ch note. cbv beta. by rewrite app_assoc, (sounding_app (ps ++ qs)).
    + by replace (i <? i) with false by lia.
Qed.

Lemma key_events_wf bank kd ku last n :
  Forall packet_wf (key_events g bank kd ku last n).2.
Proof.
  induction n as [|n IH]; [constructor|]. rewrite key_events_S. unfold key_step.
  destruct (key_events g bank kd ku last n) as [l qs]. cbn [fst snd] in *.
  apply Forall_app_2; [done|]. unfold down_packets, up_packets.
  assert (Hnote : forall a c p v, a = 128 \/ a = 144 \/ a = 176 -> Forall packet_wf [note_packet a c p v]).
  { intros a ch p v Ha. apply Forall_cons_2; [|constructor].
    destruct Ha as [->|[->| ->]]; apply note_packet_wf; done || lia. }
  apply Forall_app_2.
  - destruct (Z.testbit kd _); [|constructor].
    apply Forall_app_2; destruct (_ <? _); first [apply Hnote; lia|constructor].
  - destruct (Z.testbit ku _); [|constructor].
    apply Forall_app_2; destruct (_ <? _); first [apply Hnote; lia|constructor].
Qed.

End sound.
(** Packets that leave the keys' notes alone: those of the combos, and control changes. *)
Definition aside (p : packet) : Prop :=
  packet_wf p /\ forall ch note on, MIDI_BASENOTE <= note -> hear ch note on p = on.

Lemma aside_wf ps : Forall aside ps -> Forall packet_wf ps.
Proof. apply Forall_impl. by intros p []. Qed.

Lemma aside_sounding ps qs ch note :
  Forall aside qs -> MIDI_BASENOTE <= note -> sounding (ps ++ qs) ch note = sounding ps ch note.
Proof.
  intros Hq Hn. rewrite sounding_app. generalize (sounding ps ch note). induction Hq as [|q qs [_ Hq] _ IH]; intros on; [done|].
  cbn [foldl]. by rewrite Hq.
Qed.

Lemma aside_cc channel cc value : aside (note_packet 176 channel cc value).
Proof.
  split; [apply note_packet_wf; done || lia|]. intros ch note on _. rewrite hear_packet by (done || lia).
  change (176 / 16 =? 9) with false. change (176 / 16 =? 8) with false. by destruct (_ && _).
Qed.

Lemma aside_low command channel note0 velocity :
  command mod 16 = 0 -> 128 <= command < 240 -> 0 <= note0 < MIDI_BASENOTE -> aside (note_packet command channel note0 velocity).
Proof.
  unfold MIDI_BASENOTE. intros Hc Hr Hn. split; [by apply note_packet_wf|]. intros ch note on Hb. unfold MIDI_BASENOTE in Hb.
  rewrite hear_packet by done. rewrite (Z.mod_small note0) by lia. replace (note0 =? note) with false by lia. by rewrite andb_false_r.
Qed.

(** ** Lemmas: the main task *)

Section task.
Context {W : Type} {in_ok : W -> Prop} `{MidiLinkLaws W in_ok}.
Variable configured : W -> bool.
Variable sin_level : Z -> Z.
Variable after : Z.
Variable event0 : packet.
Implicit Types b : board W.
Implicit Types f : firmware W.

(** The link works, and what the host has queued are plain packets. *)
Definition link_ok (w : W) : Prop := in_ok w /\ Forall plain (incoming w).

Lemma receive_plain fuel : forall event packets fails f,
  board_wf f.(bd) -> link_ok f.(bd).(link) -> 0 <= packets -> 0 <= fails < 120 ->
  (512 - packets) * 120 + (120 - fails) <= Z.of_nat fuel ->
  exists b', receive_loop after fuel event packets fails f = Ok (set_bd b' f) /\ board_wf b' /\
    link_ok b'.(link) /\ b'.(sets) = f.(bd).(sets) /\ b'.(keys) = f.(bd).(keys) /\
    (link_up f.(bd).(link) -> link_up b'.(link) /\ sent b'.(link) = sent f.(bd).(link)).
Proof.
  induction fuel as [|fuel IH]; intros event packets fails f Hb [Hok Hpl] Hp Hf Hm; cbn [receive_loop];
    unfold USB_RX_PACKET_LIMIT, USB_RX_FAIL_LIMIT;
    (destruct (Z.leb_spec 512 packets); [exists f.(bd); by destruct f|]); [lia|].
  assert (Hr := receive_spec event f.(bd).(link) Hok). assert (Hok' := receive_ok event f.(bd).(link) Hok).
  assert (Hup := receive_out event f.(bd).(link)).
  destruct (MIDI_Device_ReceiveEventPacket event f.(bd).(link)) as [[p|] w]; cbn [fst snd] in *.
  - rewrite Hr in Hpl. apply Forall_cons_1 in Hpl as [Hq Hqs].
    destruct (handle_plain after p (set_bd (set_link w f.(bd)) f)) as (b1 & -> & Hb1 & Hs1);
      [by apply set_link_wf|done|].
    destruct Hs1 as (Es & _ & _ & Ek & _ & El). cbn [bd set_bd sets keys link set_link] in *.
    cbn [mbind res_bind]. rewrite u16_small by lia.
    destruct (IH p (packets + 1) 0 (set_bd b1 (set_bd (set_link w f.(bd)) f)))
      as (b2 & -> & Hb2 & Hl2 & Es2 & Ek2 & Hup2); [done| |lia|lia|lia|].
    { cbn. rewrite El. by split. }
    exists b2. split; [done|]. split; [done|]. split; [done|].
    cbn [bd set_bd] in *. rewrite El in Hup2. rewrite Es2, Ek2. split; [done|]. split; [done|].
    intros Hu. destruct (Hup Hu) as [Hu1 <-]. by apply Hup2.
  - rewrite u16_small by lia. assert (Hw : link_ok w) by (split; [done|by rewrite Hr]).
    destruct (Z.leb_spec 120 (fails + 1)).
    + exists (set_link w f.(bd)). split; [done|]. split; [by apply set_link_wf|done].
    + destruct (IH event packets (fails + 1) (set_bd (set_link w f.(bd)) f))
        as (b2 & -> & Hb2 & Hl2 & Es2 & Ek2 & Hup2); [by apply set_link_wf|done|lia|lia|lia|].
      exists b2. rewrite Es2, Ek2. do 5 (split; [done|]).
      intros Hu. destruct (Hup Hu) as [Hu1 <-]. by apply Hup2.
Qed.

Lemma read_keys_ok b : board_wf b -> exists k, read_keys b = Ok (set_keys k b) /\ keys_wf k.
Proof.
  intros Hb. unfold read_keys. assert (Hk := wf_keys _ Hb).
  destruct (key_read_bits b.(keys) Hk) as (st & -> & Hst & _). cbn [mbind res_bind].
  eexists. split; [done|]. destruct Hk. by split.
Qed.

Lemma service_combos_off b : b.(sets).(G_EE_COMBOS_ENABLE) = 0 -> service_combos b = Ok b.
Proof. intros E. unfold service_combos. by rewrite E. Qed.

Lemma expire_note_ok t k m :
  midi_wf m -> Forall (fun v => 0 <= v < 128) m.(g_midi_note_state0) -> 0 <= k < 128 ->
  exists m', expire_note t k m = Ok m' /\ midi_wf m' /\
    Forall (fun v => 0 <= v < 128) m'.(g_midi_note_state0).
Proof.
  intros Hm Hv Hk. assert (Hm' := Hm). destruct Hm' as [Hbk Hn0 Hn1 Hoff Hcnt Hch]. unfold expire_note.
  destruct (rd_in_range m.(g_midi_note_off_counter) k) as [x ->]; [lia|]. cbn [mbind res_bind].
  destruct (has_bits x 128); [|by exists m]. destruct (_ <=? _); [|by exists m].
  rewrite wr_in_range by lia. cbn [mbind res_bind]. rewrite wr_in_range by (cbn; lia).
  eexists. split; [done|]. split; [split; cbn; rewrite ?length_insert; done|].
  cbn. by apply Forall_insert.
Qed.

Lemma update_note_off_ok b :
  board_wf b -> exists m, update_note_off_feedback_delay b = Ok (set_midi m b) /\
    board_wf (set_midi m b).
Proof.
  intros Hb. unfold update_note_off_feedback_delay. destruct (board_midi_wf b Hb) as [Hm Hv].
  destruct (for_up_ok (fun m => midi_wf m /\ Forall (fun v => 0 <= v < 128) m.(g_midi_note_state0))
    (expire_note (Z.land b.(keys).(system_time_ms) 127)) 128 0 (midi b)) as (m & -> & Hm' & Hv');
    [done| |].
  { intros k m1 Hk [Hm1 Hv1]. apply expire_note_ok; done || lia. }
  exists m. split; [done|]. by apply set_midi_wf.
Qed.

(** The buttons and the LEDs change the link by what they send. *)
(** Only packets that leave the keys' notes alone are sent. *)
Definition sends (w w' : W) : Prop := exists ps, Forall aside ps /\ w' = send_all ps w.

(** The settings and the record of the keys are as they were. *)
Record same_keys b b' : Prop := {
  sk_sets : b'.(sets) = b.(sets);
  sk_prev : b'.(keys).(g_key_prev_state) = b.(keys).(g_key_prev_state);
  sk_last : b'.(keys).(g_key_bank_last_up) = b.(keys).(g_key_bank_last_up)
}.

#[export] Instance same_keys_preorder : PreOrder same_keys.
Proof. split; [by split|]. intros b1 b2 b3 [] []. split; congruence. Qed.

Lemma service_banks_ok ids limit b :
  board_wf b -> Forall (fun i => 0 <= i < 2) ids ->
  exists b', service_banks ids limit b = Ok b' /\ board_wf b' /\ sends b.(link) b'.(link) /\ same_keys b b'.
Proof.
  intros Hb Hids. induction ids as [|i ids IH]; cbn [service_banks].
  { exists b. split; [done|]. split; [done|]. by split; [exists []|]. }
  apply Forall_cons_1 in Hids as [Hi Hids]. destruct (board_midi_wf b Hb) as [[] _].
  destruct (rd_in_range (midi b).(g_bank_select_counter) i) as [t ->]; [lia|]. cbn [mbind res_bind].
  destruct (_ && _); [|by apply IH].
  destruct (change_bank_ok i b Hb Hi) as (a & g & -> & Hb'). rewrite bind_Ok.
  eexists. split; [done|]. split; [by apply set_link_wf|]. split; [|done]. eexists [_]. split; [|reflexivity].
  apply Forall_cons_2; [|constructor]. apply aside_cc.
Qed.

Lemma select_buttons_ok b :
  board_wf b -> exists b', service_bank_select_buttons b = Ok b' /\ board_wf b' /\ sends b.(link) b'.(link) /\ same_keys b b'.
Proof.
  intros Hb. unfold service_bank_select_buttons. destruct (_ =? 0).
  - exists b. split; [done|]. split; [done|]. by split; [exists []|].
  - apply service_banks_ok; [done|]. repeat (apply Forall_cons_2; [lia|]). constructor.
Qed.

Lemma refresh_leds_ok f :
  board_wf f.(bd) ->
  exists f', refresh_leds sin_level after f = Ok f' /\ board_wf f'.(bd) /\
    sends f.(bd).(link) f'.(bd).(link) /\ f'.(sx) = f.(sx).
Proof.
  intros Hb. unfold refresh_leds. destruct (_ <=? _).
  2: { exists f. split; [done|]. split; [done|]. split; [|done]. by exists []. }
  set (b1 := set_keys _ _).
  assert (Hb1 : board_wf b1) by (destruct Hb as [? ? ? [] ?]; split; [done..| |done]; by split).
  destruct (select_buttons_ok b1 Hb1) as (b2 & -> & Hb2 & Hl2 & _). cbn [mbind res_bind].
  destruct (update_note_off_ok b2 Hb2) as (m & -> & Hb3). cbn [mbind res_bind].
  set (b3 := set_midi m b2) in *.
  destruct (display_spec sin_level b3.(cols) b3.(sets).(G_EE_SLEEP_TIME) b3.(keys).(g_key_state)
    b3.(keys).(g_key_down) b3.(scr)) as (s & -> & Hs); [apply Hb3|apply Hb3|]. rewrite bind_Ok.
  set (b4 := set_scr s b3).
  assert (Hb4 : board_wf b4) by (by destruct Hb3; split).
  destruct (update_pixels_safe (s.(g_display_buffer) ++ [after]) (regs b4)) as (r & out & ->).
  { rewrite length_app, (Display.wf_buffer _ Hs). done. }
  rewrite bind_Ok. eexists. split; [done|]. split; [by destruct Hb4; split|]. by split.
Qed.

End task.
(** ** Lemmas: start-up *)

Section startup.
Context {W : Type} `{MidiOut W}.
Variable after : Z.
Implicit Types b : board W.

Lemma setup_eeprom_ok b :
  board_wf b -> exists g c d, eeprom_setup b.(sets) b.(cols) b.(rom) = Ok (g, c, d) /\
    setup_eeprom b = Ok (set_sets g (set_cols c (set_rom d b))) /\
    board_wf (set_sets g (set_cols c (set_rom d b))).
Proof.
  intros Hb. destruct (setup_total b.(sets) b.(cols) b.(rom)) as (g & c & d & E & Hc & Hd);
    [apply Hb|apply Hb|].
  exists g, c, d. unfold setup_eeprom. rewrite E. split; [done|]. split; [done|].
  destruct Hb. by split.
Qed.

Lemma key_setup_facts k r :
  keys_wf k -> keys_wf (key_setup k r).1 /\
  Z.testbit (key_setup k r).2.(DDRC) 7 = false /\ Z.testbit (key_setup k r).2.(PORTC) 7 = true /\
  (key_setup k r).2.(IFLAG) = true.
Proof.
  intros [Hl Hs Hp _ _ Ht]. split; [|split; [|split; [|exact eq_refl]]].
  - split; [|apply Forall_app; split; [|by apply Forall_drop]|exact Hp| | |exact Ht].
    + change (length (replicate 5 0 ++ drop 5 k.(g_key_debounce_buffer)) = 10%nat).
      rewrite length_app, length_drop, length_replicate. lia.
    + apply (Forall_replicate is_u64 5 0). unfold is_u64. lia.
    + unfold is_u64. cbn. lia.
    + unfold is_u64. cbn. lia.
  - unfold key_setup. cbn [DDRC fst snd sei set_IFLAG set_TIMSK0 set_TCNT0 set_TCCR0B set_PORTD
      set_PORTC set_DDRC]. rewrite testbit_clear_bits by lia. apply andb_false_r.
  - unfold key_setup. cbn [PORTC fst snd sei set_IFLAG set_TIMSK0 set_TCNT0 set_TCCR0B set_PORTD
      set_PORTC set_DDRC]. rewrite testbit_or_bits by lia. apply orb_true_r.
Qed.

Lemma midi_setup_wf m : midi_wf m ->
  midi_wf (midi_setup m) /\ Forall (fun v => 0 <= v < 128) (midi_setup m).(g_midi_note_state0).
Proof.
  intros []. split; [by split|]. apply (Forall_replicate (fun v => 0 <= v < 128) 128 0). lia.
Qed.

(** A board with other LED counters, keys, MIDI state, combo state and registers. *)
Lemma rebuilt_wf b g k m c r :
  board_wf b -> length g.(g_led_counter) = 4%nat -> keys_wf k -> midi_wf m ->
  Forall (fun v => 0 <= v < 128) m.(g_midi_note_state0) -> combo_wf c ->
  board_wf (set_combo c (set_midi m (set_regs r (set_keys k (set_led g b))))).
Proof.
  intros [Hc Hr Hs _ _] Hg Hk Hm Hv Hcb. destruct Hs. split; [exact Hc|exact Hr| |exact Hk|exact Hcb].
  by split.
Qed.

End startup.
Section main.
Context {W : Type} `{MidiOut W}.
Variable after : Z.
Implicit Types b : board W.

(** Whether key 0 was held in all of the last ten samples. *)
Definition key0_held (samples : list (Z -> Z)) : bool :=
  forallb (fun pinc => Z.testbit (pinc 0) 7) (drop (length samples - 10) samples).

(** The registers with which [main] enters [eeprom_setup]. *)
Definition main_regs (r : avr) : avr :=
  let r := set_MCUSR (clear_bits r.(MCUSR) (bv WDRF)) r in
  let r := wdt_disable r in
  set_MCUCR (bv JTD) (set_MCUCR (bv JTD) r).

(** The sampling of the keys during the delay of [main]. *)
Lemma delay_ok samples b :
  board_wf b -> (10 <= length samples)%nat ->
  exists k r, run_samples samples b.(keys) (regs b) = Ok (k, r) /\ same_ports (regs b) r /\
    keys_wf k /\ exists k', read_keys (set_regs r (set_keys k b)) =
      Ok (set_keys k' (set_regs r (set_keys k b))) /\ keys_wf k' /\
      has_bits k'.(g_key_state) 1 = key0_held samples.
Proof.
  intros Hb Hl.
  destruct (debounce_bits b.(keys) (regs b) samples) as (k & r & v & k1 & E & Er & Hbits);
    [apply Hb|done|].
  destruct (run_samples_window samples b.(keys) (regs b)) as (k2 & r2 & E2 & Hk & _);
    [apply Hb|]. rewrite E in E2. injection E2 as <- <-.
  exists k, r. split; [done|]. split; [by apply (run_samples_ports _ _ _ _ _ E)|]. split; [done|].
  destruct (key_read_bits k Hk) as (st & Er' & Hst & _). rewrite Er in Er'.
  injection Er' as Hv Hk1. exists (key_calc k1). unfold read_keys. cbn [keys set_regs set_rom set_keys].
  rewrite Er, bind_Ok. split; [done|]. split.
  - rewrite Hk1. destruct Hk. by split.
  - unfold key0_held. rewrite <-(Hbits 0) by lia. exact (has_bits_pow2 _ 0 ltac:(lia)).
Qed.

Lemma main_setup_ok samples b :
  board_wf b -> is_u8 after -> (10 <= length samples)%nat ->
  exists g c d, eeprom_setup b.(sets) b.(cols) (mk_nvm b.(rom).(mem) (main_regs (regs b)))
      = Ok (g, c, d) /\
    if key0_held samples then main_setup after samples b = Fault (Reset MAGIC_BOOT_KEY)
    else exists f, main_setup after samples b = Ok f /\ board_wf f.(bd) /\
      f.(bd).(sets) = g /\ f.(bd).(cols) = c /\ f.(bd).(rom).(mem) = d.(mem) /\
      f.(bd).(link) = b.(link) /\ f.(sx) = config_setup initial_sysex /\
      Z.testbit (regs f.(bd)).(DDRC) 7 = false /\ Z.testbit (regs f.(bd)).(PORTC) 7 = true /\
      (regs f.(bd)).(IFLAG) = true.
Proof.
  intros Hb Ha Hl.
  set (b0 := set_regs (main_regs (regs b)) b).
  assert (Hb0 : board_wf b0) by (by destruct Hb; split).
  destruct (setup_eeprom_ok b0 Hb0) as (g & c & d & E & Es & Hb1). exists g, c, d. split; [done|].
  unfold main_setup. change (set_regs (set_MCUCR _ _) b) with b0. rewrite Es, bind_Ok.
  set (b1 := set_sets g (set_cols c (set_rom d b0))) in *.
  assert (Hled : length (led_setup (led b1) (regs b1)).1.(g_led_counter) = 4%nat) by done.
  destruct (led_setup (led b1) (regs b1)) as [g2 r2]. cbn [fst] in Hled.
  set (r3 := led_disable _).
  destruct (key_setup_facts b1.(keys) r3) as (Hk & Hd7 & Hp7 & Hi); [apply Hb1|].
  change (keys (set_regs r3 (set_regs r2 (set_led g2 b1)))) with b1.(keys).
  change (regs (set_regs r3 (set_regs r2 (set_led g2 b1)))) with r3.
  destruct (key_setup b1.(keys) r3) as [k4 r4]. cbn [fst snd] in Hk, Hd7, Hp7, Hi.
  cbv zeta. set (b5 := set_combo _ _).
  assert (Hb5 : board_wf b5).
  { destruct (midi_setup_wf (midi b1)) as [Hm Hv]; [by apply board_midi_wf|].
    assert (Hc : combo_wf (combo_setup b1.(combo))) by (split; cbn; [lia|done]).
    exact (rebuilt_wf b1 g2 k4 _ _ r4 Hb1 Hled Hk Hm Hv Hc). }
  destruct (delay_ok samples b5 Hb5 Hl) as (k6 & r6 & -> & Hp6 & Hk6 & k7 & E7 & Hk7 & Hbit).
  rewrite bind_Ok, E7, bind_Ok. cbn [keys set_keys]. rewrite Hbit.
  destruct (key0_held samples).
  { match goal with |- context [led_set_state_dfu after ?r] =>
      destruct (dfu_ok after r Ha) as ([r8 out] & ->) end. done. }
  destruct Hp6 as (Hdd & Hpp & Hif & _). change (regs b5) with r4 in Hdd, Hpp, Hif.
  eexists. split; [done|]. split.
  { destruct Hb5 as [? ? [] ? ?]. split; [done|done| |done|done]. by split. }
  do 5 (split; [done|]).
  split; [exact (eq_trans (f_equal (fun z => Z.testbit z 7) Hdd) Hd7)|].
  split; [exact (eq_trans (f_equal (fun z => Z.testbit z 7) Hpp) Hp7)|done].
Qed.

End main.
(** ** Theorems *)

Section theorems.
Context {W : Type} `{MidiOut W} `{MidiIn W}.
Variable after : Z.
Variable event0 : packet.
Implicit Types b : board W.
Implicit Types f : firmware W.

(** C26: The two packet switches agree: [InterpretUsbMidiMessage], whose cases are a second
    copy of the C text, does what the switch of [Midifighter_GetIncomingUsbMidiMessages]
    does, for every packet and in every state, and it says whether the packet held a
    message; the missing [break] after its CC case shows only for a CC packet whose status
    byte is one of the three real-time codes 248, 250 and 252, which then changes the clock
    too. *)
Theorem interpret_agrees p f :
  InterpretUsbMidiMessage after p f =
  (f' ← handle_packet after p f;
   Ok (negb (Z.land p.(Event) 15 =? 0),
       if (Z.land p.(Event) 15 =? 11) && ((p.(Data1) =? 248) || (p.(Data1) =? 250) || (p.(Data1) =? 252))
       then set_bd (realtime p.(Data1) f'.(bd)) f' else f')).
Proof.
  unfold InterpretUsbMidiMessage, handle_packet, sysex_3sc, sysex_end, on_board.
  change (interpret_cc p f.(bd)) with (control_change p f.(bd)).
  change (interpret_note_off p f.(bd)) with (note_off p f.(bd)).
  destruct (Z.eqb_spec (Z.land p.(Event) 15) 0) as [->|_]; [done|].
  destruct (Z.eqb_spec (Z.land p.(Event) 15) 11) as [->|Hne].
  { cbn [Z.eqb Pos.eqb]. destruct (control_change p f.(bd)) as [b|e]; [|done]. rewrite !bind_Ok. do 2 f_equal.
    unfold interpret_realtime, realtime. cbn [bd set_bd].
    destruct (p.(Data1) =? 248); [done|]. destruct (p.(Data1) =? 250); [done|]. by destruct (p.(Data1) =? 252). }
  destruct (Z.land p.(Event) 15 =? 15); [done|].
  destruct (Z.land p.(Event) 15 =? 9); [reflexivity|].
  by destruct (Z.land p.(Event) 15 =? 8).
Qed.

(** C24: The receive loop ends, whatever the host sends: a fault of the loop is a fault
    of the handling of one packet, never the loop running on. *)
Theorem receive_loop_ends f :
  match Midifighter_GetIncomingUsbMidiMessages after event0 f with
  | Ok _ => True
  | Fault e => exists p f', handle_packet after p f' = Fault e
  end.
Proof.
  apply (receive_fuel_enough after receive_fuel event0 0 0 f); unfold receive_fuel; lia.
Qed.

(** C22: Start-up: whatever the EEPROM holds, [main] loads the settings and colours
    that [eeprom_setup] yields and reaches its loop in a well-formed state with
    the key line an input with its pull-up on, interrupts enabled and the four
    SysEx commands installed; unless key 0 was held in the last ten samples of the
    delay, when it resets into the bootloader instead. *)
Theorem startup_spec samples b :
  board_wf b -> is_u8 after -> (10 <= length samples)%nat ->
  exists g c d, eeprom_setup b.(sets) b.(cols) (mk_nvm b.(rom).(mem) (main_regs (regs b)))
      = Ok (g, c, d) /\
    if key0_held samples then main_setup after samples b = Fault (Reset MAGIC_BOOT_KEY)
    else exists f, main_setup after samples b = Ok f /\ board_wf f.(bd) /\
      f.(bd).(sets) = g /\ f.(bd).(cols) = c /\ f.(bd).(rom).(mem) = d.(mem) /\
      f.(bd).(link) = b.(link) /\ f.(sx) = config_setup initial_sysex /\
      Z.testbit (regs f.(bd)).(DDRC) 7 = false /\ Z.testbit (regs f.(bd)).(PORTC) 7 = true /\
      (regs f.(bd)).(IFLAG) = true.
Proof. apply main_setup_ok. Qed.

End theorems.
(** ** Theorems on time *)

Section time.
Context {W : Type} `{MidiOut W} `{!MidiOutLaws W}.
Implicit Types b : board W.

(** The board after [d] more milliseconds. *)
Definition later (d : Z) b : board W :=
  set_keys (set_system_time_ms (u16 (b.(keys).(system_time_ms) + d)) b.(keys)) b.

(** The time a press is recorded with: 0 stands for no press. *)
Definition press_time (t : Z) : Z := if 0 <? t then t else 65535.

Lemma press_counter i b :
  0 <= i < 2 ->
  key_pressed (tbl bank_select_key_ids i) b =
  Ok (set_midi (set_g_bank_select_counter
        (<[Z.to_nat i := press_time b.(keys).(system_time_ms)]> [0; 0]) (midi b)) b).
Proof.
  intros Hi. unfold key_pressed. cbn [for_up]. fold (press_time b.(keys).(system_time_ms)).
  assert (Hc : i = 0 \/ i = 1) by lia. by destruct Hc as [->| ->].
Qed.

Lemma later_wf d b : board_wf b -> board_wf (later d b).
Proof. intros [? ? ? [] ?]. split; [done..| |done]. split; try done. apply u16_range. Qed.

Lemma set_counter_wf l b : length l = 2%nat -> board_wf b -> board_wf (set_midi (set_g_bank_select_counter l (midi b)) b).
Proof. intros Hl Hb. destruct (board_midi_wf b Hb) as [[] Hv]. apply set_midi_wf; [done|by split|done]. Qed.

(** The switch to a bank and its announcement. *)
Lemma bank_switched i b :
  board_wf b -> link_up b.(link) -> 0 <= i < 2 -> exists b',
    (b' ← change_bank i b; Ok (send_change_bank_notification i b')) = Ok b' /\
    (midi b').(g_bank_selected) = i /\ (midi b').(g_bank_select_counter) = [0; 0] /\
    sent b'.(link) = sent b.(link) ++ [note_packet 176 b.(sets).(G_EE_MIDI_CHANNEL) MF64_BANK_CC i].
Proof.
  intros Hb Hup Hi. destruct (change_bank_ok i b Hb Hi) as (a & g & -> & _). rewrite bind_Ok.
  eexists. split; [done|]. split; [done|]. split; [done|]. apply send_appends; [done|]. apply note_packet_wf; done || lia.
Qed.

(** One button's counter is running, since [t0]: its bank is due when the clock shows
    [limit] milliseconds more. *)
Lemma service_banks_one i t0 limit b :
  0 <= i < 2 -> 0 < t0 -> (midi b).(g_bank_select_counter) = <[Z.to_nat i := t0]> [0; 0] ->
  service_banks [0; 1] limit b =
    if limit <=? u16 (b.(keys).(system_time_ms) - t0)
    then b ← change_bank i b; Ok (send_change_bank_notification i b) else Ok b.
Proof.
  intros Hi Ht E. cbn [service_banks]. rewrite E. assert (Hc : i = 0 \/ i = 1) by lia. destruct Hc as [->| ->].
  - change (rd (<[Z.to_nat 0 := _]> [0; 0]) 0) with (Ok (A := Z) t0).
    change (rd (<[Z.to_nat 0 := _]> [0; 0]) 1) with (Ok (A := Z) 0). rewrite !bind_Ok.
    replace (0 <? t0) with true by lia. change (0 <? 0) with false. cbn [andb]. by destruct (limit <=? _).
  - change (rd (<[Z.to_nat 1 := _]> [0; 0]) 1) with (Ok (A := Z) t0).
    change (rd (<[Z.to_nat 1 := _]> [0; 0]) 0) with (Ok (A := Z) 0). rewrite !bind_Ok.
    replace (0 <? t0) with true by lia. change (0 <? 0) with false. cbn [andb]. by destruct (limit <=? _).
Qed.

(** With the setting "hold" the limit is a second. *)
Lemma service_held i t0 b :
  0 <= i < 2 -> 0 < t0 -> b.(sets).(G_EE_SIDE_BANK) = 1 ->
  (midi b).(g_bank_select_counter) = <[Z.to_nat i := t0]> [0; 0] ->
  service_bank_select_buttons b =
    if 1000 <=? u16 (b.(keys).(system_time_ms) - t0)
    then b ← change_bank i b; Ok (send_change_bank_notification i b) else Ok b.
Proof. intros Hi Ht Es E. unfold service_bank_select_buttons. rewrite Es. by apply service_banks_one. Qed.

Lemma elapsed t d : 0 <= d < 65536 -> u16 (u16 (t + d) - t) = d.
Proof. intros Hd. unfold u16. rewrite Zminus_mod_idemp_l. replace (t + d - t) with d by lia. by apply Z.mod_small. Qed.

(** C34: Bank buttons: with the setting "hold", the press of a bank's button starts its
    counter, and a service [d] ms later, with nothing else done in between, changes the bank
    and announces it to the host exactly when a second has passed, whenever the button was
    pressed on the 16-bit clock; a press in the millisecond in which the clock shows 0,
    which is recorded as 65535, acts after 999 ms.  [d] is less than one turn of the clock.
    *)
Theorem bank_button_hold i d b :
  board_wf b -> link_up b.(link) -> 0 <= i < 2 -> b.(sets).(G_EE_SIDE_BANK) = 1 -> 0 <= d < 65535 ->
  exists b1 b2, key_pressed (tbl bank_select_key_ids i) b = Ok b1 /\
    service_bank_select_buttons (later d b1) = Ok b2 /\
    if d <? (if b.(keys).(system_time_ms) =? 0 then 999 else 1000) then b2 = later d b1
    else (midi b2).(g_bank_selected) = i /\ (midi b2).(g_bank_select_counter) = [0; 0] /\
      sent b2.(link) = sent b.(link) ++
        [note_packet 176 b.(sets).(G_EE_MIDI_CHANNEL) MF64_BANK_CC i].
Proof.
  intros Hb Hup Hi Hside Hd. rewrite press_counter by lia. set (b1 := set_midi _ b). exists b1.
  set (t := b.(keys).(system_time_ms)). pose proof (wf_time _ (wf_keys _ Hb)) as Ht. unfold is_u16 in Ht. fold t in Ht.
  assert (Hb1 : board_wf (later d b1)) by (by apply later_wf, set_counter_wf; [rewrite length_insert|]).
  assert (Hpt : 0 < press_time t) by (unfold press_time; destruct (Z.ltb_spec 0 t); lia).
  rewrite (service_held i (press_time t) (later d b1) Hi Hpt Hside eq_refl).
  change (keys (later d b1)).(system_time_ms) with (u16 (t + d)).
  assert (He : u16 (u16 (t + d) - press_time t) = if t =? 0 then d + 1 else d).
  { unfold press_time. destruct (Z.eqb_spec t 0) as [->|]; [|replace (0 <? t) with true by lia; apply elapsed; lia].
    unfold u16. cbn [Z.ltb Z.compare]. rewrite Zminus_mod_idemp_l. replace (0 + d - 65535) with (d + 1 + (-1) * 65536) by lia.
    rewrite Z.mod_add by lia. apply Z.mod_small. lia. }
  rewrite He. destruct (bank_switched i (later d b1) Hb1 Hup Hi) as (b2 & E & Hr).
  assert (Hcmp : (1000 <=? (if t =? 0 then d + 1 else d)) = negb (d <? (if t =? 0 then 999 else 1000)))
    by (destruct (t =? 0); lia).
  rewrite Hcmp.   destruct (d <? _); cbn [negb]; [by eexists|by exists b2].
Qed.

(** A stored note-off time [c] has passed at time [t]: its flag is set and the
    seven-bit clock shows neither the same millisecond nor the next. *)
Definition expired (t c : Z) : bool :=
  Z.testbit c 7 && negb (t mod 128 - c mod 128 =? 0) && negb (t mod 128 - c mod 128 =? 1).

Lemma expired_test t x :
  has_bits x 128 && (NOTE_OFF_FEEDBACK_DELAY_LIMIT <=? u16 (Z.land t 127 - Z.land x 127)) = expired t x.
Proof.
  unfold expired. replace (has_bits x 128) with (Z.testbit x 7) by (symmetry; exact (has_bits_pow2 x 7 ltac:(lia))).
  rewrite <-andb_assoc. f_equal. rewrite !land_127.
  unfold NOTE_OFF_FEEDBACK_DELAY_LIMIT, u16. pose proof (Z.mod_pos_bound t 128). pose proof (Z.mod_pos_bound x 128).
  destruct (Z.le_gt_cases 0 (t mod 128 - x mod 128)).
  - rewrite Z.mod_small by lia. lia.
  - rewrite <-(Z.mod_unique (t mod 128 - x mod 128) 65536 (-1) (t mod 128 - x mod 128 + 65536)); lia.
Qed.

(** What the service of button [n] does to button [k]. *)
Lemma expire_note_effect t n m m' x k :
  rd m.(g_midi_note_off_counter) n = Ok x -> expire_note (Z.land t 127) n m = Ok m' -> 0 <= k -> 0 <= n ->
  rd m'.(g_midi_note_off_counter) k = (if (k =? n) && expired t x then Ok 0 else rd m.(g_midi_note_off_counter) k) /\
  rd m'.(g_midi_note_state0) k = (if (k =? n) && expired t x then Ok 0 else rd m.(g_midi_note_state0) k).
Proof.
  intros Hx E Hk Hn. unfold expire_note in E. rewrite Hx, bind_Ok in E. rewrite <-expired_test.
  destruct (has_bits x 128); cbn [andb]; [|injection E as <-; by rewrite andb_false_r].
  destruct (_ <=? _); [|injection E as <-; by rewrite andb_false_r].
  apply bind_ok in E as (l1 & W1 & E). apply bind_ok in E as (l2 & W2 & E). injection E as <-. cbn in W2 |- *.
  rewrite andb_true_r. destruct (Z.eqb_spec k n) as [->|Hne].
  - by rewrite (rd_wr_eq _ _ _ _ W2), (rd_wr_eq _ _ _ _ W1).
  - by rewrite (rd_wr_ne _ _ _ _ _ W2), (rd_wr_ne _ _ _ _ _ W1) by lia.
Qed.

Lemma note_off_update b :
  board_wf b ->
  exists b', update_note_off_feedback_delay b = Ok b' /\ board_wf b' /\
    forall k c, 0 <= k < 128 -> rd (midi b).(g_midi_note_off_counter) k = Ok c ->
      rd (midi b').(g_midi_note_off_counter) k =
        (if expired b.(keys).(system_time_ms) c then Ok 0 else Ok c) /\
      rd (midi b').(g_midi_note_state0) k =
        (if expired b.(keys).(system_time_ms) c then Ok 0
         else rd (midi b).(g_midi_note_state0) k).
Proof.
  intros Hb. destruct (update_note_off_ok b Hb) as (m & E & Hb'). exists (set_midi m b).
  split; [done|]. split; [done|]. unfold update_note_off_feedback_delay in E.
  set (t := b.(keys).(system_time_ms)) in *. destruct (board_midi_wf b Hb) as [Hm Hv].
  destruct (for_up_inv (fun n m' => midi_wf m' /\
      Forall (fun v => 0 <= v < 128) m'.(g_midi_note_state0) /\
      forall k c, 0 <= k < 128 -> rd (midi b).(g_midi_note_off_counter) k = Ok c ->
      rd m'.(g_midi_note_off_counter) k = (if (k <? n) && expired t c then Ok 0 else Ok c) /\
      rd m'.(g_midi_note_state0) k =
        (if (k <? n) && expired t c then Ok 0 else rd (midi b).(g_midi_note_state0) k))
    (expire_note (Z.land t 127)) 128 0 (midi b)) as (m' & E' & _ & _ & Hspec).
  - split; [done|]. split; [done|]. intros k c Hk Hc. by replace (k <? 0) with false by lia.
  - intros n m1 Hn (Hm1 & Hv1 & Hs1).
    destruct (expire_note_ok (Z.land t 127) n m1 Hm1 Hv1) as (m2 & E2 & Hm2 & Hv2); [lia|].
    exists m2. split; [done|]. split; [done|]. split; [done|]. intros k c Hk Hc.
    destruct (rd_in_range m1.(g_midi_note_off_counter) n) as [x Hx]; [rewrite (wf_note_off _ Hm1); lia|].
    destruct (expire_note_effect t n m1 m2 x k Hx E2) as [-> ->]; [lia|lia|].
    destruct (Hs1 k c Hk Hc) as [Hoff Hst]. rewrite Hoff, Hst. destruct (Z.eqb_spec k n) as [->|Hne].
    + replace (n <? n) with false in * by lia. replace (n <? n + 1) with true by lia. cbn [andb] in *.
      by assert (x = c) as -> by congruence.
    + by replace (k <? n + 1) with (k <? n) by lia.
  - rewrite E', bind_Ok in E. intros k c Hk Hc.
    assert (Em : midi (set_midi m' b) = midi (set_midi m b)) by congruence.
    change (m' = m) in Em. subst m'.
    specialize (Hspec k c Hk Hc). by replace (k <? 0 + Z.of_nat 128) with true in Hspec by lia.
Qed.

(** The stamp of a note-off at time [t0], [d] ms later: the delay is over when the
    seven-bit clock shows at least two ms more, or has wrapped. *)
Lemma expired_later t0 d :
  0 <= d -> expired (u16 (t0 + d)) (Z.lor (Z.land t0 127) 128) =
    (2 <=? d mod 128) || ((d mod 128 =? 1) && (t0 mod 128 =? 127)).
Proof.
  intros Hd. rewrite land_127, Z.lor_comm, (or_disjoint _ _ 7), (Z.add_comm 128);
    [|lia|by exists 1|apply Z.mod_pos_bound; lia]. unfold expired.
  replace (Z.testbit (t0 mod 128 + 128) 7) with true.
  2: { rewrite Z.testbit_odd, Z.shiftr_div_pow2 by lia. change (2 ^ 7) with 128. pose proof (Z.mod_pos_bound t0 128 ltac:(lia)).
       replace ((t0 mod 128 + 128) / 128) with 1; [done|]. apply (Z.div_unique _ _ _ (t0 mod 128)); lia. }
  replace (u16 (t0 + d) mod 128) with ((t0 mod 128 + d mod 128) mod 128).
  2: { unfold u16. rewrite <-Zplus_mod. change 65536 with (128 * 512). by rewrite Z.rem_mul_r, (Z.mul_comm 128), Z.mod_add, Z.mod_mod by lia. }
  replace ((t0 mod 128 + 128) mod 128) with (t0 mod 128)
    by (replace (t0 mod 128 + 128) with (t0 mod 128 + 1 * 128) by lia; by rewrite Z.mod_add, Z.mod_mod by lia).
  pose proof (Z.mod_pos_bound t0 128 ltac:(lia)). pose proof (Z.mod_pos_bound d 128 ltac:(lia)).
  set (x := t0 mod 128) in *. set (y := d mod 128) in *.
  clearbody x y. cbn [andb]. assert (Hm : (x + y) mod 128 = if x + y <? 128 then x + y else x + y - 128).
  { destruct (Z.ltb_spec (x + y) 128); [apply Z.mod_small; lia|symmetry; apply (Z.mod_unique _ _ 1); lia]. }
  rewrite Hm. destruct (Z.ltb_spec (x + y) 128); lia.
Qed.

(** C35: Delayed note-off: each refresh clears exactly the buttons of both banks that have a
    note-off pending and whose delay is over, and forgets their note-off times; a button
    without one, or with its delay running, keeps its state.  The delay is counted on a
    seven-bit clock: [d] ms after the note-off it is over when [d mod 128] is at least two,
    or is one and the note-off came in the clock's last ms. *)
Theorem note_off_feedback_delayed b :
  board_wf b ->
  exists b', update_note_off_feedback_delay b = Ok b' /\ board_wf b' /\
    forall k c, 0 <= k < 128 -> rd (midi b).(g_midi_note_off_counter) k = Ok c ->
      (Z.testbit c 7 = false ->
         rd (midi b').(g_midi_note_off_counter) k = Ok c /\
         rd (midi b').(g_midi_note_state0) k = rd (midi b).(g_midi_note_state0) k) /\
      (forall t0 d, c = Z.lor (Z.land t0 127) 128 -> 0 <= d -> b.(keys).(system_time_ms) = u16 (t0 + d) ->
         let over := (2 <=? d mod 128) || ((d mod 128 =? 1) && (t0 mod 128 =? 127)) in
         rd (midi b').(g_midi_note_off_counter) k = Ok (if over then 0 else c) /\
         rd (midi b').(g_midi_note_state0) k =
           if over then Ok 0 else rd (midi b).(g_midi_note_state0) k).
Proof.
  intros Hb. destruct (note_off_update b Hb) as (b' & E & Hb' & Hspec). exists b'. split; [done|]. split; [done|].
  intros k c Hk Hc. destruct (Hspec k c Hk Hc) as [Ho Hs]. split.
  - intros Hf. unfold expired in Ho, Hs. rewrite Hf in Ho, Hs. by split.
  - intros t0 d -> Hd Ht. rewrite Ht, expired_later in Ho, Hs by done. cbv zeta. rewrite Ho. by split; [destruct (_ || _)|].
Qed.

End time.
(** A note on the animation channel indexes its array unchecked: a data byte of
    128 or more, which USB-MIDI does not forbid, writes past the 128 notes. *)
Theorem animation_note_overruns :
  handle_packet 0 (mk_packet 9 147 200 1)
    (mk_fw (board_at_start ([] : list packet)) initial_sysex false []) = Fault OutOfBounds.
Proof. by vm_compute. Qed.

(** ** Witnesses *)

Lemma startup_spec_witness :
  exists f, main_setup 0 (replicate 10 (fun _ => 0)) (board_at_start ([] : list packet)) = Ok f /\
    board_wf f.(bd).
Proof.
  destruct (startup_spec 0 (replicate 10 (fun _ => 0)) (board_at_start ([] : list packet)))
    as (g & c & d & _ & f & E & Hb & _);
    [apply board_at_start_wf|split; lia|cbn; lia|].
  exists f. split; [exact E|exact Hb].
Defined.

(** A device whose bank buttons are held for a second, at time 5. *)
Definition hold_board : board (list packet) :=
  set_keys (set_system_time_ms 5 initial_keys)
    (set_sets (mk_settings 0 2 127 1 0 0 0 0 4 0 0 0 0 0 0 0 1 0 0) (board_at_start [])).

Lemma hold_board_wf : board_wf hold_board.
Proof.
  destruct (board_at_start_wf ([] : list packet)) as [? ? ? [] ?]. split; [done..| |done].
  by split.
Qed.

Lemma bank_button_hold_witness :
  exists b1 b2, key_pressed (tbl bank_select_key_ids 1) hold_board = Ok b1 /\
    service_bank_select_buttons (later 1000 b1) = Ok b2 /\ (midi b2).(g_bank_selected) = 1.
Proof.
  destruct (bank_button_hold 1 1000 hold_board) as (b1 & b2 & E1 & E2 & Hbank & _);
    [apply hold_board_wf|exact I|lia|reflexivity|lia|].
  exists b1, b2. split; [exact E1|]. split; [exact E2|exact Hbank].
Defined.

(** At time 10, button 7 lit, its note-off at time 5, and button 70's at time 9. *)
Definition delay_board : board (list packet) :=
  let b := set_keys (set_system_time_ms 10 initial_keys) (board_at_start []) in
  set_midi (set_g_midi_note_off_counter (<[7%nat := 133]> (<[70%nat := 137]> (midi b).(g_midi_note_off_counter)))
    (set_g_midi_note_state0 (<[7%nat := 100]> (<[70%nat := 90]> (midi b).(g_midi_note_state0))) (midi b))) b.

Lemma delay_board_wf : board_wf delay_board.
Proof.
  destruct (board_at_start_wf ([] : list packet)) as [? ? ? [] ?].
  assert (Hb : board_wf (set_keys (set_system_time_ms 10 initial_keys) (board_at_start ([] : list packet))))
    by (split; [done..| |done]; by split).
  apply set_midi_wf; [exact Hb|by split|]. apply (bool_decide_unpack _). by vm_compute.
Qed.

Lemma note_off_feedback_delayed_witness :
  exists b', update_note_off_feedback_delay delay_board = Ok b' /\
    rd (midi b').(g_midi_note_state0) 7 = Ok 0 /\ rd (midi b').(g_midi_note_off_counter) 7 = Ok 0 /\
    rd (midi b').(g_midi_note_state0) 70 = Ok 90 /\ rd (midi b').(g_midi_note_off_counter) 70 = Ok 137.
Proof.
  destruct (note_off_feedback_delayed delay_board) as (b' & E & _ & Hs).
  - apply delay_board_wf.
  - exists b'. split; [exact E|].
    destruct (proj2 (Hs 7 133 ltac:(lia) eq_refl) 5 5 eq_refl ltac:(lia) eq_refl) as [H1 H2].
    destruct (proj2 (Hs 70 137 ltac:(lia) eq_refl) 9 1 eq_refl ltac:(lia) eq_refl) as [H3 H4].
    split; [exact H2|]. split; [exact H1|]. split; [exact H4|exact H3].
Defined.

End Firmware.
