(* ===== verification/Device.v ===== *)
(** * The device in operation: turns of the main loop, interrupts and the host

    The firmware as a transition system.  A step is a turn of the main loop, an
    interrupt of either timer between two turns, or a change of the USB link: its
    state, what the host has taken, and what it has queued.
    [running] is the invariant: the board is well formed, the receive side of the
    link works, and what the host has queued is [acceptable], which excludes
    exactly the packets that are known to make the firmware leave its arrays. *)

From stdpp Require Import relations.
From S2P Require Import Prelude.
From S2P Require Import Avr.
From S2P Require Import Keys.
From S2P Require Import Combo.
From S2P Require Import Midi.
From S2P Require Import UsbMidi.
From S2P Require Import Eeprom.
From S2P Require Import Sysex.
From S2P Require Import Led.
From S2P Require Import Display.
From S2P Require Import Board.
From S2P Require Import Config.
From S2P Require Import Firmware.

Module Device.
Import Avr Keys Combo Midi Eeprom Sysex Led Display Board Bootloader Config Firmware.

(** ** What the host may send *)

Definition is_sysex (p : packet) : bool :=
  (4 <=? Z.land p.(Event) 15) && (Z.land p.(Event) 15 <=? 7).

(** Channel and real-time messages with data bytes below 128, and SysEx packets
    that the reassembly accepts without a fault and that do not push more than the
    24 bytes of one part. *)
Fixpoint acceptable (s : sysex_globals (SysExFn := SysExFn)) (ps : list packet) : Prop :=
  match ps with
  | [] => True
  | p :: ps =>
      if is_sysex p then
        packet_u8 p /\
        match reassemble 5 p s with
        | Ok (s', a) => harmless a = true /\ acceptable s' ps
        | Fault _ => False
        end
      else plain p /\ acceptable s ps
  end.

Lemma plain_not_sysex p : plain p -> is_sysex p = false.
Proof. intros (_ & _ & Hc). unfold is_sysex. lia. Qed.

Lemma plain_acceptable s ps : Forall plain ps -> acceptable s ps.
Proof.
  induction 1 as [|p ps Hp _ IH]; [done|]. cbn [acceptable]. rewrite plain_not_sysex by done. done.
Qed.

(** ** The receive loop *)

Section device.
Context {W : Type} {in_ok : W -> Prop} `{MidiLinkLaws W in_ok}.
Variable configured : W -> bool.
Variable sin_level : Z -> Z.
Variable after : Z.
Variable event0 : packet.
Hypothesis Hafter : is_u8 after.
Implicit Types b : board W.
Implicit Types f : firmware W.

(** The states in which the device runs. *)
Record running f : Prop := {
  run_board : board_wf f.(bd);
  run_in : in_ok f.(bd).(link);
  run_sysex : stream_wf f.(sx);
  run_queue : acceptable f.(sx) (incoming f.(bd).(link))
}.

(** The end of a turn or of a part of it: the invariant and [Q], or the restart
    into the bootloader that the host asked for. *)
Definition ends (Q : firmware W -> Prop) (r : res (firmware W)) : Prop :=
  match r with Ok f => running f /\ Q f | Fault e => e = Reset MAGIC_BOOT_KEY end.

Lemma handle_sysex p f :
  is_sysex p = true ->
  handle_packet after p f =
  ('(s, b) ← sysex_event (call after) (midi f.(bd)).(g_midi_sysex_channel) p f.(sx) f.(bd);
   Ok (set_bd b (set_sx s f))).
Proof.
  unfold is_sysex, handle_packet, sysex_event, sysex_3sc, sysex_end. intros Hs.
  set (c := Z.land p.(Event) 15) in *.
  assert (Hc : c = 4 \/ c = 5 \/ c = 6 \/ c = 7) by lia.
  destruct Hc as [->|[->|[->| ->]]]; cbn [Z.eqb Pos.eqb]; [|done..].
  destruct (sysex_handle_3sc _ p f.(sx)) as [s|]; [|done]. rewrite !bind_Ok. by destruct f.
Qed.

Lemma handle_acceptable p ps f :
  board_wf f.(bd) -> in_ok f.(bd).(link) -> stream_wf f.(sx) ->
  acceptable f.(sx) (p :: ps) -> incoming f.(bd).(link) = ps ->
  ends (fun f' => f'.(bd).(keys) = f.(bd).(keys)) (handle_packet after p f).
Proof.
  intros Hb Hl Hs Ha Hin. cbn [acceptable] in Ha. destruct (is_sysex p) eqn:Hp.
  - destruct Ha as [Hu Ha]. rewrite handle_sysex by done.
    rewrite (wf_sysex_channel _ (proj1 (board_midi_wf _ Hb))), event_reassembled.
    destruct (reassemble 5 p f.(sx)) as [[s' a]|] eqn:E; [|done]. destruct Ha as [Hh Ha].
    destruct (reassemble_wf 5 p f.(sx) s' a Hs Hu E) as [Hs' Hok]. rewrite bind_Ok.
    assert (Hc := command_safe after Hafter a f.(bd) Hb Hl Hok Hh).
    destruct (perform (call after) a f.(bd)) as [b'|e]; [|exact Hc].
    destruct Hc as (Hb' & Hl' & Hin' & Hk'). rewrite !bind_Ok. split; [|exact Hk'].
    split; [exact Hb'|exact Hl'|exact Hs'|]. cbn. by rewrite Hin', Hin.
  - destruct Ha as [Hpl Ha].
    destruct (handle_plain after p f Hb Hpl) as (b' & -> & Hb' & _ & _ & _ & Hk & _ & Hlk).
    split; [|exact Hk]. split; cbn; [done|by rewrite Hlk|done|by rewrite Hlk, Hin].
Qed.

Lemma receive_acceptable fuel : forall event packets fails f,
  running f -> 0 <= packets -> 0 <= fails < 120 ->
  (512 - packets) * 120 + (120 - fails) <= Z.of_nat fuel ->
  ends (fun f' => f'.(bd).(keys) = f.(bd).(keys)) (receive_loop after fuel event packets fails f).
Proof.
  induction fuel as [|fuel IH]; intros event packets fails f Hrun Hp Hf Hm; cbn [receive_loop];
    unfold USB_RX_PACKET_LIMIT, USB_RX_FAIL_LIMIT;
    (destruct (Z.leb_spec 512 packets); [done|]); [lia|].
  destruct Hrun as [Hb Hok Hs Ha].
  assert (Hr := receive_spec event f.(bd).(link) Hok). assert (Hok' := receive_ok event f.(bd).(link) Hok).
  destruct (MIDI_Device_ReceiveEventPacket event f.(bd).(link)) as [[p|] w]; cbn [fst snd] in *.
  - rewrite Hr in Ha.
    assert (Hh := handle_acceptable p (incoming w) (set_bd (set_link w f.(bd)) f)
      (set_link_wf w _ Hb) Hok' Hs Ha eq_refl).
    destruct (handle_packet after p _) as [f1|e]; [|exact Hh]. destruct Hh as [Hrun1 Hk1].
    rewrite bind_Ok, u16_small by lia.
    assert (Hrest := IH p (packets + 1) 0 f1 Hrun1 ltac:(lia) ltac:(lia) ltac:(lia)).
    destruct (receive_loop _ _ _ _ _ f1) as [f2|e]; [|exact Hrest].
    destruct Hrest as [Hrun2 Hk2]. split; [done|]. by rewrite Hk2, Hk1.
  - rewrite u16_small by lia.
    assert (Hrun : running (set_bd (set_link w f.(bd)) f)).
    { split; [by apply set_link_wf|done|done|]. cbn. by rewrite Hr. }
    destruct (Z.leb_spec 120 (fails + 1)); [done|].
    exact (IH event packets (fails + 1) _ Hrun ltac:(lia) ltac:(lia) ltac:(lia)).
Qed.

(** ** A turn of the main loop *)

(** Combos are on and combo B's keys are left held by the release of another key:
    the input that breaks the combo recogniser. *)
Definition combo_hazard b : Prop :=
  match key_read b.(keys) with
  | Ok (_, k) => let k := key_calc k in hazard k.(g_key_down) k.(g_key_state)
  | Fault _ => False
  end.

(** Turns that avoid it: by what the keys do, or because combos are off and no
    queued message can turn them on. *)
Definition safe_turn f : Prop :=
  ~ combo_hazard f.(bd) \/
  (f.(bd).(sets).(G_EE_COMBOS_ENABLE) = 0 /\ Forall plain (incoming f.(bd).(link))).

Lemma service_combos_safe b :
  board_wf b ->
  b.(sets).(G_EE_COMBOS_ENABLE) = 0 \/ ~ breaks b.(keys).(g_key_down) b.(keys).(g_key_state) b.(combo) ->
  exists c ps, service_combos b = Ok (set_combo c (send_all ps b)) /\ combo_wf c /\
    Forall aside ps.
Proof.
  intros Hb Hsafe. unfold service_combos.
  destruct (Z.eqb_spec b.(sets).(G_EE_COMBOS_ENABLE) 0) as [E0|Hne]; cbn [negb].
  { exists b.(combo), []. split; [by destruct b|]. split; [apply Hb|constructor]. }
  destruct Hsafe as [?|Hh]; [done|].
  destruct (combo_step_safe _ b.(keys).(g_key_up) _ b.(combo) (wf_combo _ Hb) Hh) as (a & c & -> & Hc).
  rewrite bind_Ok. destruct (combo_note a) as [[note onoff]|] eqn:En.
  - exists c. eexists [_]. split; [reflexivity|]. split; [done|]. apply Forall_cons_2; [|constructor].
    assert (Hn : 0 <= note < MIDI_BASENOTE) by (unfold MIDI_BASENOTE; destruct a; injection En as <- _ || done; lia).
    destruct onoff; apply aside_low; done || lia.
  - exists c, []. split; [done|]. by split.
Qed.

(** What the keys of a turn send. *)
Definition key_packets b : list packet :=
  match key_read b.(keys) with
  | Ok (_, k) => let k := key_calc k in
      (key_events b.(sets) (midi b).(g_bank_selected) k.(g_key_down) k.(g_key_up)
         k.(g_key_bank_last_up) 64).2
  | Fault _ => []
  end.

(** Keys, combos, flush and LEDs: the turn after the messages.  The keys' packets
    are flushed, with those of the combos; what the LEDs' refresh sends is not. *)
Lemma rest_of_turn f :
  running f ->
  f.(bd).(sets).(G_EE_COMBOS_ENABLE) = 0 \/ ~ combo_hazard f.(bd) ->
  exists f' ps, (b ← read_keys f.(bd); b ← service_keys b; b ← service_combos b;
    f' ← refresh_leds sin_level after (set_bd (MIDI_Device_Flush b) f);
    Ok (set_watchdog_flag true f')) = Ok f' /\ running f' /\ Forall aside ps /\
    sends (MIDI_Device_Flush (send_all (key_packets f.(bd) ++ ps) f.(bd).(link))) f'.(bd).(link).
Proof.
  intros [Hb Hl Hs Ha] Hsafe. unfold combo_hazard in Hsafe. unfold read_keys, key_packets.
  destruct (key_read_bits f.(bd).(keys) (wf_keys _ Hb)) as (st & E & _). rewrite E in Hsafe |- *.
  cbv zeta in Hsafe |- *. rewrite bind_Ok. set (k := key_calc _) in *.
  assert (Hk : keys_wf k).
  { destruct (read_keys_ok f.(bd) Hb) as (k' & E' & Hk'). unfold read_keys in E'.
    rewrite E, bind_Ok in E'. injection E' as E'. unfold k. by rewrite E'. }
  clearbody k. clear E. rewrite bind_Ok.
  assert (Hb2 : board_wf (set_keys k f.(bd))) by (by destruct Hb; split).
  assert (Hsk := service_keys_ok _ Hb2).
  change (sets (set_keys k f.(bd))) with f.(bd).(sets) in Hsk.
  change (midi (set_keys k f.(bd))) with (midi f.(bd)) in Hsk.
  change (keys (set_keys k f.(bd))) with k in Hsk.
  destruct (key_events _ _ _ _ _ 64) as [last ps1]. cbn [snd].
  destruct Hsk as (s & -> & Hscr & _). rewrite bind_Ok.
  set (b3 := after_key _ _ _ _).
  assert (Hb3 : board_wf b3) by (by apply after_key_wf).
  assert (Hl3 : b3.(link) = send_all ps1 f.(bd).(link)) by done.
  assert (Hs3 : b3.(sets).(G_EE_COMBOS_ENABLE) = 0 \/
    ~ breaks b3.(keys).(g_key_down) b3.(keys).(g_key_state) b3.(combo)).
  { destruct Hsafe as [Hoff|Hh]; [by left|right]. by intros []. }
  clearbody b3.
  destruct (service_combos_safe b3 Hb3 Hs3) as (c & ps2 & -> & Hc & Hps2). rewrite bind_Ok.
  rewrite send_all_board, Hl3, <-send_all_app. set (b4 := set_combo c _).
  assert (Hb4 : board_wf b4) by (by destruct Hb3; split).
  assert (Hl4 : b4.(link) = send_all (ps1 ++ ps2) f.(bd).(link)) by done. clearbody b4.
  destruct (refresh_leds_ok sin_level after (set_bd (MIDI_Device_Flush b4) f))
    as (f' & -> & Hb' & Hsend & Hsx'); [by apply set_link_wf|].
  rewrite bind_Ok. exists (set_watchdog_flag true f'), ps2. split; [done|].
  change (link (bd (set_bd (MIDI_Device_Flush b4) f))) with (MIDI_Device_Flush b4.(link)) in Hsend.
  rewrite Hl4 in Hsend. split; [|split; [done|exact Hsend]].
  destruct (send_all_in (ps1 ++ ps2) f.(bd).(link) Hl) as [Hl5 Hin5].
  destruct (flush_in _ Hl5) as [Hl6 Hin6]. destruct Hsend as (ps3 & _ & E3).
  destruct (send_all_in ps3 _ Hl6) as [Hl7 Hin7].
  split; cbn [bd sx set_watchdog_flag]; [done|by rewrite E3|by rewrite Hsx'|].
  by rewrite Hsx', E3, Hin7, Hin6, Hin5.
Qed.

Lemma hazard_keys b b' : b'.(keys) = b.(keys) -> combo_hazard b' -> combo_hazard b.
Proof. unfold combo_hazard. by intros ->. Qed.

Lemma turn_safe f :
  running f -> safe_turn f ->
  ends (fun _ => True) (Midifighter_Task configured sin_level after event0 f).
Proof.
  intros Hrun Hsafe. unfold Midifighter_Task. destruct (negb _); [done|].
  unfold Midifighter_GetIncomingUsbMidiMessages.
  assert (Hgo : forall f1, running f1 ->
    f1.(bd).(sets).(G_EE_COMBOS_ENABLE) = 0 \/ ~ combo_hazard f1.(bd) ->
    ends (fun _ => True) (b ← read_keys f1.(bd); b ← service_keys b; b ← service_combos b;
      f' ← refresh_leds sin_level after (set_bd (MIDI_Device_Flush b) f1);
      Ok (set_watchdog_flag true f'))).
  { intros f1 Hf1 Hs1. by destruct (rest_of_turn f1 Hf1 Hs1) as (f' & ps & -> & Hrun' & _). }
  destruct Hsafe as [Hh|[Hc Hpl]].
  - assert (Hr := receive_acceptable receive_fuel event0 0 0 f Hrun ltac:(lia) ltac:(lia)
      ltac:(unfold receive_fuel; lia)).
    destruct (receive_loop after receive_fuel event0 0 0 f) as [f1|e]; [|exact Hr].
    destruct Hr as [Hrun1 Hk1]. rewrite bind_Ok. apply Hgo; [done|].
    right. intros Hz. by apply Hh, (hazard_keys _ f1.(bd)).
  - destruct Hrun as [Hb Hl Hs Ha].
    destruct (receive_plain after receive_fuel event0 0 0 f Hb (conj Hl Hpl))
      as (b1 & E1 & Hb1 & [Hl1 Hp1] & Es1 & _); [lia|lia|unfold receive_fuel; lia|].
    rewrite E1, bind_Ok. apply Hgo.
    + split; [done|done|done|]. by apply plain_acceptable.
    + left. cbn. by rewrite Es1.
Qed.

(** ** The device as a transition system *)

Inductive step : firmware W -> firmware W -> Prop :=
  | step_task f f' : safe_turn f ->
      Midifighter_Task configured sin_level after event0 f = Ok f' -> step f f'
  | step_timer0 pinc f k r :
      TIMER0_OVF_vect pinc f.(bd).(keys) (regs f.(bd)) = Ok (k, r) ->
      step f (set_bd (set_regs r (set_keys k f.(bd))) f)
  | step_timer1 f g r :
      TIMER1_OVF_vect (midi f.(bd)).(midi_clock_enabled) (led f.(bd)) (regs f.(bd)) = Ok (g, r) ->
      step f (set_bd (set_regs r (set_led g f.(bd))) f)
  | step_host f w :
      in_ok w -> acceptable f.(sx) (incoming w) ->
      step f (set_bd (set_link w f.(bd)) f).

Lemma timer0_running pinc f :
  running f -> exists k r, TIMER0_OVF_vect pinc f.(bd).(keys) (regs f.(bd)) = Ok (k, r) /\
    running (set_bd (set_regs r (set_keys k f.(bd))) f).
Proof.
  intros [Hb Hl Hs Ha]. destruct (timer0_step pinc f.(bd).(keys) (regs f.(bd))) as [r E]; [apply Hb|].
  eexists _, r. split; [exact E|]. apply timer0_wf in E; [|apply Hb].
  split; [|exact Hl|exact Hs|exact Ha]. destruct Hb. by split.
Qed.

Lemma timer1_running f :
  running f -> exists g r,
    TIMER1_OVF_vect (midi f.(bd)).(midi_clock_enabled) (led f.(bd)) (regs f.(bd)) = Ok (g, r) /\
    running (set_bd (set_regs r (set_led g f.(bd))) f).
Proof.
  intros [Hb Hl Hs Ha].
  destruct (timer1_safe (midi f.(bd)).(midi_clock_enabled) (led f.(bd)) (regs f.(bd)))
    as (g & r & E & Hg); [apply Hb|].
  exists g, r. split; [exact E|]. split; [|exact Hl|exact Hs|exact Ha].
  destruct Hb as [? ? [] ? ?]. split; [done|done| |done|done]. by split.
Qed.

Lemma step_running f f' : step f f' -> running f -> running f'.
Proof.
  intros Hs Hr. destruct Hs as [f f' Hsafe E|pinc f k r E|f g r E|f w Hw Hps].
  - assert (Ht := turn_safe f Hr Hsafe). rewrite E in Ht. apply Ht.
  - destruct (timer0_running pinc f Hr) as (k1 & r1 & E1 & Hr1).
    rewrite E in E1. by injection E1 as <- <-.
  - destruct (timer1_running f Hr) as (g1 & r1 & E1 & Hr1).
    rewrite E in E1. by injection E1 as <- <-.
  - destruct Hr as [Hb Hok Hsx Ha]. split; [by apply set_link_wf|done|done|done].
Qed.

Lemma steps_running f f' : rtc step f f' -> running f -> running f'.
Proof. induction 1 as [f|f1 f2 f3 Hs _ IH]; [done|]. intros Hr. by apply IH, (step_running f1). Qed.

Lemma startup_running samples b f :
  board_wf b -> (10 <= length samples)%nat -> in_ok b.(link) -> incoming b.(link) = [] ->
  main_setup after samples b = Ok f -> running f.
Proof.
  intros Hb Hn Hl Hin E. destruct (main_setup_ok after samples b Hb Hafter Hn) as (g & c & d & _ & Hm).
  destruct (key0_held samples); [congruence|].
  destruct Hm as (f' & E' & Hb' & _ & _ & _ & El & Es & _). rewrite E in E'. injection E' as <-.
  split; [done|by rewrite El| |by rewrite El, Hin].
  rewrite Es. split; [by split|]. apply (Forall_replicate is_u8 64 0). split; lia.
Qed.

(** ** Theorems *)

(** The device never faults: from power-up with any EEPROM contents, through any sequence of
    turns of the main loop, timer interrupts, changes of the USB link and messages of the
    host, SysEx commands included, every turn of the main loop and every interrupt runs to
    its end without leaving an array, dereferencing a null pointer or looping, and the
    invariant holds again; the only other outcome of a turn is the restart into the
    bootloader that a SysEx command asks for.  The messages left out are those [acceptable]
    names, and the turns left out are those in which combo B's keys stay held when another
    key is released. *)
Theorem device_never_faults samples b f f' :
  board_wf b -> (10 <= length samples)%nat -> in_ok b.(link) -> incoming b.(link) = [] ->
  main_setup after samples b = Ok f -> rtc step f f' ->
  running f' /\
  (safe_turn f' ->
     match Midifighter_Task configured sin_level after event0 f' with
     | Ok f'' => running f''
     | Fault e => e = Reset MAGIC_BOOT_KEY
     end) /\
  (forall pinc, exists k r, TIMER0_OVF_vect pinc f'.(bd).(keys) (regs f'.(bd)) = Ok (k, r)) /\
  (exists g r, TIMER1_OVF_vect (midi f'.(bd)).(midi_clock_enabled) (led f'.(bd)) (regs f'.(bd))
     = Ok (g, r)).
Proof.
  intros Hb Hn Hl Hin E Hsteps.
  assert (Hr : running f') by (by apply (steps_running f), (startup_running samples b)).
  split; [done|]. split; [|split].
  - intros Hsafe. assert (Ht := turn_safe f' Hr Hsafe).
    destruct (Midifighter_Task _ _ _ _ f'); [apply Ht|exact Ht].
  - intros pinc. destruct (timer0_running pinc f' Hr) as (k & r & E0 & _). by exists k, r.
  - destruct (timer1_running f' Hr) as (g & r & E1 & _). by exists g, r.
Qed.

(** *** A key press reaches the host *)

Context `{!MidiOutLaws W}.

Lemma send_all_flushed ps : forall w, link_up w -> Forall packet_wf ps ->
  flushed w `prefix_of` flushed (send_all ps w).
Proof.
  induction ps as [|p ps IH]; intros w Hw Hps; cbn [send_all]; [done|].
  apply Forall_cons_1 in Hps as [Hp Hps]. etrans; [by apply send_flushed|].
  apply IH; [by apply send_link_up|done].
Qed.

(** What a turn's keys send is flushed at its end. *)
Lemma flushed_by_turn w ks ps w' p :
  link_up w -> Forall packet_wf ks -> Forall aside ps -> p ∈ ks ->
  sends (MIDI_Device_Flush (send_all (ks ++ ps) w)) w' -> p ∈ flushed w'.
Proof.
  intros Hup Hk Hps Hp (qs & Hqs & ->).
  destruct (send_all_spec (ks ++ ps) w Hup) as [Hup1 Hsent]; [by apply Forall_app_2; [|apply aside_wf]|].
  destruct (send_all_flushed qs _ (flush_link_up _ Hup1) (aside_wf _ Hqs)) as [l ->].
  rewrite flush_flushed, Hsent by done. rewrite !elem_of_app. auto.
Qed.

Lemma key_packets_wf b : Forall packet_wf (key_packets b).
Proof. unfold key_packets. destruct (key_read b.(keys)) as [[v k]|]; [apply key_events_wf|constructor]. Qed.

(** The press of a key after ten samples that see it held. *)
Lemma press_seen ps k r i :
  keys_wf k -> (10 <= length ps)%nat -> 0 <= i < 64 ->
  forallb (fun pinc => Z.testbit (pinc i) 7) (drop (length ps - 10) ps) = true ->
  Z.testbit k.(g_key_prev_state) i = false ->
  exists k' r' v k'', run_samples ps k r = Ok (k', r') /\ keys_wf k' /\
    key_read k' = Ok (v, k'') /\ Z.testbit (key_calc k'').(g_key_down) i = true.
Proof.
  intros Hk Hn Hi Hheld Hprev.
  destruct (debounce_bits k r ps Hk Hn) as (k' & r' & v & k'' & E & Er & Hbits).
  destruct (run_samples_window ps k r Hk) as (k1 & r1 & E1 & Hk1 & _ & _ & Hpv).
  rewrite E in E1. injection E1 as <- <-. exists k', r', v, k''. do 3 (split; [done|]).
  destruct (key_read_bits k' Hk1) as (st & Er' & _). rewrite Er in Er'. injection Er' as _ ->.
  destruct (key_calc_bits (set_g_key_state st k') i) as [-> _].
  rewrite Hbits, Hheld by done. cbn. by rewrite Hpv, Hprev.
Qed.

(** Nothing received. *)
Lemma receive_nothing fuel : forall event packets fails f,
  in_ok f.(bd).(link) -> incoming f.(bd).(link) = [] -> 0 <= fails < 120 -> 120 - fails <= Z.of_nat fuel ->
  exists w, receive_loop after fuel event packets fails f = Ok (set_bd (set_link w f.(bd)) f) /\
    in_ok w /\ incoming w = [] /\ (link_up f.(bd).(link) -> link_up w).
Proof.
  induction fuel as [|fuel IH]; intros event packets fails f Hok Hin Hf Hm; [lia|]. cbn [receive_loop].
  destruct (_ <=? packets); [exists f.(bd).(link); by destruct f as [[]]|].
  assert (Hr := receive_spec event f.(bd).(link) Hok). assert (Hok' := receive_ok event f.(bd).(link) Hok).
  assert (Hup := receive_out event f.(bd).(link)).
  destruct (MIDI_Device_ReceiveEventPacket event f.(bd).(link)) as [[p|] w]; cbn [fst snd] in *; [congruence|].
  rewrite Hin in Hr. unfold USB_RX_FAIL_LIMIT. rewrite u16_small by lia. destruct (Z.leb_spec 120 (fails + 1)).
  - exists w. split; [done|]. split; [done|]. split; [done|]. intros Hu. by apply Hup.
  - destruct (IH event packets (fails + 1) (set_bd (set_link w f.(bd)) f)) as (w' & E & Hw' & Hi' & Hu'); [done|done|lia|lia|].
    exists w'. split; [exact E|]. split; [done|]. split; [done|]. intros Hu. by apply Hu', Hup.
Qed.

(** A key that was up and has been held for ten samples is sent in the next turn, when
    no message of the host is waiting. *)
Lemma pressed_key_sent ps f i :
  running f -> incoming f.(bd).(link) = [] ->
  configured f.(bd).(link) = true -> link_up f.(bd).(link) ->
  (10 <= length ps)%nat -> 0 <= i < 64 ->
  forallb (fun pinc => Z.testbit (pinc i) 7) (drop (length ps - 10) ps) = true ->
  Z.testbit f.(bd).(keys).(g_key_prev_state) i = false ->
  f.(bd).(sets).(G_EE_MIDI_OUTPUT_MODE) < MIDI_OUTPUT_MODE_CCS_ONLY ->
  exists k r, run_samples ps f.(bd).(keys) (regs f.(bd)) = Ok (k, r) /\
    let f1 := set_bd (set_regs r (set_keys k f.(bd))) f in
    (f.(bd).(sets).(G_EE_COMBOS_ENABLE) = 0 \/ ~ combo_hazard f1.(bd) ->
     exists f', Midifighter_Task configured sin_level after event0 f1 = Ok f' /\ running f' /\
       note_packet 144 (u8 (f.(bd).(sets).(G_EE_MIDI_CHANNEL) - (midi f.(bd)).(g_bank_selected))) (midi_64_key_to_note i)
         f.(bd).(sets).(G_EE_MIDI_VELOCITY) ∈ flushed f'.(bd).(link)).
Proof.
  intros [Hb Hl Hs Ha] Hin Hconf Hup Hn Hi Hheld Hprev Hmode.
  destruct (press_seen ps f.(bd).(keys) (regs f.(bd)) i (wf_keys _ Hb) Hn Hi Hheld Hprev)
    as (k & r & v & k1 & E & Hk & Er & Hdown).
  exists k, r. split; [done|]. intros f1 Hsafe. unfold Midifighter_Task.
  change (link (bd f1)) with f.(bd).(link). rewrite Hconf. cbn [negb].
  assert (Hb1 : board_wf f1.(bd)) by (by destruct Hb; split).
  unfold Midifighter_GetIncomingUsbMidiMessages.
  destruct (receive_nothing receive_fuel event0 0 0 f1 Hl Hin) as (w & -> & Hlw & Hiw & Huw);
    [lia|unfold receive_fuel; lia|]. rewrite bind_Ok. set (b2 := set_link w f1.(bd)).
  assert (Hb2 : board_wf b2) by (by apply set_link_wf).
  destruct (rest_of_turn (set_bd b2 f1)) as (f' & qs & E' & Hf' & Hqs & Hsends); [|exact Hsafe|].
  { split; [done|done|done|]. change (incoming (link (bd (set_bd b2 f1)))) with (incoming w). by rewrite Hiw. }
  exists f'. split; [exact E'|]. split; [exact Hf'|].
  apply (flushed_by_turn _ _ qs _ _ (Huw Hup) (key_packets_wf b2) Hqs); [|exact Hsends].
  unfold key_packets. change (keys b2) with k. rewrite Er. cbv zeta.
  apply (key_events_down _ _ _ _ _ _ (Z.to_nat i)); rewrite ?Z2Nat.id by lia; [done| |lia].
  unfold down_packets. change (sets b2) with f.(bd).(sets).
  replace (_ <? MIDI_OUTPUT_MODE_CCS_ONLY) with true by lia. left.
Qed.

End device.

(** ** Witnesses *)

Section witnesses.
Import UsbMidi.

Definition usb_configured (s : usb) : bool :=
  bool_decide (s.(USB_DeviceState) = DEVICE_STATE_Configured).

(** A device with a blank EEPROM that has started up unplugged, with no key held; the
    factory settings have combos on. *)
Definition no_keys : list (Z -> Z) := replicate 10 (fun _ => 0).

Definition blank_board : board usb :=
  set_rom (mk_nvm (replicate 1024 255) Avr.reset) (board_at_start unplugged_link).

Lemma blank_board_wf : board_wf blank_board.
Proof. destruct (board_at_start_wf unplugged_link). by split. Qed.

Definition started : firmware usb :=
  match main_setup 0 no_keys blank_board with
  | Ok f => f
  | Fault _ => mk_fw (board_at_start unplugged_link) initial_sysex false []
  end.

(** The host sends a note and the request for the settings. *)
Definition two_messages : list packet :=
  [mk_packet 9 146 40 100; mk_packet 4 240 0 1; mk_packet 4 121 2 0; mk_packet 5 247 0 0].

Definition link_with_messages : usb :=
  mk_usb DEVICE_STATE_Configured [] None true [] (Some (concat (map encode two_messages))) [] false.

Lemma device_never_faults_witness :
  started.(bd).(sets).(G_EE_COMBOS_ENABLE) = 1 /\
  (let f := set_bd (set_link link_with_messages started.(bd)) started in
   match Midifighter_Task usb_configured (fun _ => 127) 0 (mk_packet 0 0 0 0) f with
   | Ok f' => running (in_ok := out_ready) f'
   | Fault e => e = Reset MAGIC_BOOT_KEY
   end).
Proof.
  split; [vm_compute; reflexivity|]. cbv zeta.
  assert (E : main_setup 0 no_keys blank_board = Ok started)
    by (vm_compute; reflexivity).
  assert (Hsafe : safe_turn (set_bd (set_link link_with_messages started.(bd)) started)).
  { left. vm_compute. intros [E' _]. discriminate E'. }
  assert (Hacc : acceptable started.(sx) (incoming link_with_messages)).
  { vm_compute. repeat split; congruence || (intros []; congruence). }
  revert E Hsafe Hacc. generalize started. intros f E Hsafe Hacc.
  destruct (device_never_faults (in_ok := out_ready) usb_configured (fun _ => 127) 0
    (mk_packet 0 0 0 0) ltac:(split; lia) no_keys blank_board f
    (set_bd (set_link link_with_messages f.(bd)) f)) as (_ & Hturn & _);
    [apply blank_board_wf|cbn; lia|apply unplugged_ready|reflexivity|exact E| |exact (Hturn Hsafe)].
  apply rtc_once, step_host; [split; [split; [reflexivity|discriminate]|constructor]|exact Hacc].
Defined.

(** Key 5 is held. *)
Definition key5_held : list (Z -> Z) := replicate 10 (fun i => if i =? 5 then 128 else 0).

(** The device once it has been configured. *)
Definition plugged : firmware usb := set_bd (set_link fresh_link started.(bd)) started.

End witnesses.
End Device.
