(* ===== verification/Preempt.v ===== *)
(** * Interrupts inside a turn of the main loop

    Device runs the timers between two turns of [Midifighter_Task].  Here they run
    inside one as well, and so do the USB interrupt and the host: before each pass of the receive loop and between the arrival
    of a packet and its handling, between the byte accesses of [key_read] (the key timer), between
    [key_read] and [key_calc], before each of the 64 keys, and between the calls of
    the rest of the task.  A [schedule] says which interrupts come where; what a USB
    interrupt does to the link is the class [UsbBus].  The task
    keeps its invariant under every schedule; under the timers' interrupts it sends the packets of the keys it
    has read; and without interrupts it is [Midifighter_Task]. *)

From stdpp Require Import relations.
From S2P Require Import Prelude.
From S2P Require Import Avr.
From S2P Require Import Keys.
From S2P Require Import Interrupts.
From S2P Require Import Combo.
From S2P Require Import Midi.
From S2P Require Import UsbMidi.
From S2P Require Import Eeprom.
From S2P Require Import Sysex.
From S2P Require Import Led.
From S2P Require Import Display.
From S2P Require Import Board.
From S2P Require Import Config.
From S2P Require Import Firmware.
From S2P Require Import Device.

Module Preempt.
Import Avr Keys Interrupts Combo Midi Eeprom Sysex Led Display Board Bootloader Config Firmware Device.

(** ** Interrupts and schedules *)

(** [A] are the things that happen on the USB side. *)
Inductive tick (A : Type) := Timer0 (pinc : Z -> Z) | Timer1 | UsbGen (a : A).
Arguments Timer0 {A} _.
Arguments Timer1 {A}.
Arguments UsbGen {A} _.

(** What they do to the board: the link changes, and the event handlers may run. *)
Class UsbBus (W A : Type) := bus_event : A -> board W -> res (board W).

Record schedule (A : Type) := mk_schedule {
  at_receive : nat -> list (tick A);   (* before a pass of the receive loop, by the passes left *)
  at_handle : nat -> list (tick A);    (* between a packet's arrival and its handling *)
  at_read : list (tick A);
  reading : list access;               (* [key_read], access by access *)
  at_calc : list (tick A);
  at_key : Z -> list (tick A);         (* before the service of a key *)
  at_combos : list (tick A);
  at_flush : list (tick A);
  at_refresh : list (tick A);
  at_stamp : list (tick A);            (* between the two reads of the clock *)
  at_banks : list (tick A);
  at_delay : list (tick A);
  at_display : list (tick A);
  at_pixels : list (tick A)
}.
Arguments mk_schedule {A} _ _ _ _ _ _ _ _ _ _ _ _ _ _.
Arguments at_receive {A} _ _.
Arguments at_handle {A} _ _.
Arguments at_read {A} _.
Arguments reading {A} _.
Arguments at_calc {A} _.
Arguments at_key {A} _ _.
Arguments at_combos {A} _.
Arguments at_flush {A} _.
Arguments at_refresh {A} _.
Arguments at_stamp {A} _.
Arguments at_banks {A} _.
Arguments at_delay {A} _.
Arguments at_display {A} _.
Arguments at_pixels {A} _.

(** No interrupt at all. *)
Definition calm {A} : schedule A :=
  mk_schedule (fun _ => []) (fun _ => []) [] program_order [] (fun _ => []) [] [] [] [] [] [] [] [].

(** The timers' interrupts only. *)
Definition timer {A} (t : tick A) : Prop := match t with UsbGen _ => False | _ => True end.
Record timers_only {A} (sch : schedule A) : Prop := {
  to_receive : forall n, Forall timer (sch.(at_receive) n);
  to_handle : forall n, Forall timer (sch.(at_handle) n);
  to_read : Forall timer sch.(at_read);
  to_calc : Forall timer sch.(at_calc);
  to_key : forall i, Forall timer (sch.(at_key) i);
  to_combos : Forall timer sch.(at_combos);
  to_flush : Forall timer sch.(at_flush);
  to_refresh : Forall timer sch.(at_refresh);
  to_stamp : Forall timer sch.(at_stamp);
  to_banks : Forall timer sch.(at_banks);
  to_delay : Forall timer sch.(at_delay);
  to_display : Forall timer sch.(at_display);
  to_pixels : Forall timer sch.(at_pixels)
}.

Section task.
Context {W A : Type} `{MidiOut W} `{MidiIn W} `{UsbBus W A}.
Variable configured : W -> bool.
Variable sin_level : Z -> Z.
Variable after : Z.
Variable event0 : packet.
Variable sch : schedule A.
Implicit Types b : board W.
Implicit Types f : firmware W.

Definition tick_board (t : tick A) b : res (board W) :=
  match t with
  | Timer0 pinc => '(k, r) ← TIMER0_OVF_vect pinc b.(keys) (regs b); Ok (set_regs r (set_keys k b))
  | Timer1 => '(g, r) ← TIMER1_OVF_vect (midi b).(midi_clock_enabled) (led b) (regs b); Ok (set_regs r (set_led g b))
  | UsbGen a => bus_event a b
  end.

Fixpoint ticks (ts : list (tick A)) b : res (board W) :=
  match ts with
  | [] => Ok b
  | t :: ts => b ← tick_board t b; ticks ts b
  end.

(** ** The task with its interrupts *)

Fixpoint receive_loop_preempted (fuel : nat) (input_event : packet) (usb_rx_packets usb_rx_fail_count : Z) f
    : res (firmware W) :=
  if USB_RX_PACKET_LIMIT <=? usb_rx_packets then Ok f
  else
    match fuel with
    | O => Fault OutOfFuel
    | S fuel =>
        b ← ticks (sch.(at_receive) fuel) f.(bd);
        let '(received, w) := MIDI_Device_ReceiveEventPacket input_event b.(link) in
        let f := set_bd (set_link w b) f in
        match received with
        | None =>
            let usb_rx_fail_count := u16 (usb_rx_fail_count + 1) in
            if USB_RX_FAIL_LIMIT <=? usb_rx_fail_count then Ok f
            else receive_loop_preempted fuel input_event usb_rx_packets usb_rx_fail_count f
        | Some p =>
            b ← ticks (sch.(at_handle) fuel) f.(bd);
            f ← handle_packet after p (set_bd b f);
            receive_loop_preempted fuel p (u16 (usb_rx_packets + 1)) 0 f
        end
    end.

Definition receive_preempted f : res (firmware W) := receive_loop_preempted receive_fuel event0 0 0 f.

Definition read_keys_preempted b : res (board W) :=
  b ← ticks sch.(at_read) b;
  '(_, k, r) ← key_read_interrupted sch.(reading) b.(keys) (regs b);
  b ← ticks sch.(at_calc) (set_regs r (set_keys k b));
  Ok (set_keys (key_calc b.(keys)) b).

Definition service_key_preempted (i : Z) (st : board W * Z) : res (board W * Z) :=
  let '(b, key_bit) := st in
  b ← ticks (sch.(at_key) i) b;
  service_key i (b, key_bit).

Definition service_keys_preempted b : res (board W) :=
  let b := if negb (b.(keys).(g_key_down) =? 0)
           then set_led (set_sleep_minute_counter 0 (led b)) b else b in
  fst <$> for_up 64 0 service_key_preempted (b, 1).

Definition refresh_leds_preempted f : res (firmware W) :=
  let k := f.(bd).(keys) in
  if LED_REFRESH_LIMIT <=? u16 (k.(system_time_ms) - k.(last_led_refresh_time_ms)) then
    b ← ticks sch.(at_stamp) f.(bd);
    let b := set_keys (set_last_led_refresh_time_ms b.(keys).(system_time_ms) b.(keys)) b in
    b ← ticks sch.(at_banks) b;
    b ← service_bank_select_buttons b;
    b ← ticks sch.(at_delay) b;
    b ← update_note_off_feedback_delay b;
    b ← ticks sch.(at_display) b;
    s ← default_display_run sin_level b.(cols) b.(sets).(G_EE_SLEEP_TIME)
          b.(keys).(g_key_state) b.(keys).(g_key_down) b.(scr);
    b ← ticks sch.(at_pixels) (set_scr s b);
    '(r, out) ← led_update_pixels (b.(scr).(g_display_buffer) ++ [after]) (regs b);
    Ok (set_strands out (set_bd (set_regs r b) f))
  else Ok f.

Definition Midifighter_Task_preempted f : res (firmware W) :=
  if negb (configured f.(bd).(link)) then Ok f
  else
    f ← receive_preempted f;
    b ← read_keys_preempted f.(bd);
    b ← service_keys_preempted b;
    b ← ticks sch.(at_combos) b;
    b ← service_combos b;
    b ← ticks sch.(at_flush) b;
    b ← ticks sch.(at_refresh) (MIDI_Device_Flush b);
    f ← refresh_leds_preempted (set_bd b f);
    Ok (set_watchdog_flag true f).

End task.

(** [service_bank_select_buttons] with an interrupt inside its read of the clock: the
    time it goes by is the one it has read. *)
Definition service_bank_select_buttons_torn {W : Type} `{MidiOut W} (o : byte_order) (between : list (Z -> Z))
    (b : board W) : res (board W) :=
  '(sys_time_16, k, r) ← read_clock o between b.(keys) (regs b);
  b ← service_bank_select_buttons (set_keys (set_system_time_ms sys_time_16 k) (set_regs r b));
  Ok (set_keys (set_system_time_ms k.(system_time_ms) b.(keys)) b).

(** ** Lemmas: what an interrupt leaves alone *)

Section undisturbed.
Context {W A : Type} {in_ok : W -> Prop} `{MidiOut W} `{MidiIn W} `{UsbBus W A}.
Implicit Types b : board W.

(** The interrupts change the debounce buffer, the clock, the LED counters, the
    registers and, the USB one, the link; the rest of the board is the main loop's. *)
Record undisturbed b b' : Prop := {
  un_sets : b'.(sets) = b.(sets);
  un_combo : b'.(combo) = b.(combo);
  un_midi : midi b' = midi b;
  un_state : b'.(keys).(g_key_state) = b.(keys).(g_key_state);
  un_prev : b'.(keys).(g_key_prev_state) = b.(keys).(g_key_prev_state);
  un_down : b'.(keys).(g_key_down) = b.(keys).(g_key_down);
  un_up : b'.(keys).(g_key_up) = b.(keys).(g_key_up);
  un_last : b'.(keys).(g_key_bank_last_up) = b.(keys).(g_key_bank_last_up)
}.

#[export] Instance undisturbed_preorder : PreOrder undisturbed.
Proof. split; [by split|]. intros b1 b2 b3 [] []. split; congruence. Qed.

(** The link's receive side still works, and the host may have queued more channel messages. *)
Definition follows (w w' : W) : Prop :=
  in_ok w -> in_ok w' /\ exists qs, Forall plain qs /\ incoming w' = incoming w ++ qs.

#[export] Instance follows_preorder : PreOrder follows.
Proof.
  split.
  - intros w Hw. split; [done|]. exists []. by rewrite app_nil_r.
  - intros w1 w2 w3 H12 H23 Hw1. destruct (H12 Hw1) as (Hw2 & qs & Hq & E2). destruct (H23 Hw2) as (Hw3 & rs & Hr & E3).
    split; [done|]. exists (qs ++ rs). split; [by apply Forall_app_2|]. by rewrite E3, E2, app_assoc.
Qed.

Lemma same_follows w w' : w' = w -> follows w w'.
Proof. by intros ->. Qed.

(** Key [i] is held in all samples; an interrupt samples it held. *)
Definition held (i : Z) (k : key_globals) : Prop := all_set (window k) i = true.
Definition sees (i : Z) (t : tick A) : Prop := match t with Timer0 pinc => Z.testbit (pinc i) 7 = true | _ => True end.

Lemma all_set_true l i : all_set l i = true <-> Forall (fun v => Z.testbit v i = true) l.
Proof. unfold all_set. rewrite forallb_forall, List.Forall_forall. done. Qed.

Lemma timer0_held pinc k r k' r' i :
  keys_wf k -> 0 <= i < 64 -> TIMER0_OVF_vect pinc k r = Ok (k', r') ->
  Z.testbit (pinc i) 7 = true -> held i k -> held i k'.
Proof.
  unfold held. intros Hwf Hi E Hp Hh. rewrite (window_step _ _ _ _ _ Hwf E). apply all_set_true, Forall_drop.
  apply all_set_true in Hh. apply Forall_app_2; [done|]. apply Forall_cons_2; [by rewrite testbit_sample|constructor].
Qed.

Lemma timer0_undisturbed pinc b :
  board_wf b -> exists k r, TIMER0_OVF_vect pinc b.(keys) (regs b) = Ok (k, r) /\ keys_wf k /\
    undisturbed b (set_regs r (set_keys k b)).
Proof.
  intros Hb. destruct (timer0_step pinc b.(keys) (regs b) (wf_keys _ Hb)) as [r E].
  eexists _, r. split; [exact E|]. split; [exact (timer0_wf _ _ _ _ _ (wf_keys _ Hb) E)|]. by split.
Qed.

(** What the USB side promises. *)
Class UsbBusLaws : Prop := bus_event_ok : forall a b, board_wf b ->
  exists b', bus_event a b = Ok b' /\ board_wf b' /\ undisturbed b b' /\ b'.(keys) = b.(keys) /\
    follows b.(link) b'.(link).

Context `{!UsbBusLaws}.

(** After interrupts. *)
Record ticked (ts : list (tick A)) b b' : Prop := {
  tk_wf : board_wf b';
  tk_same : undisturbed b b';
  tk_link : follows b.(link) b'.(link);
  tk_timers : Forall timer ts -> b'.(link) = b.(link);
  tk_held : forall i, 0 <= i < 64 -> Forall (sees i) ts -> held i b.(keys) -> held i b'.(keys)
}.

Lemma tick_ok t b : board_wf b -> exists b', tick_board t b = Ok b' /\ ticked [t] b b'.
Proof.
  intros Hb. destruct t as [pinc| |a]; cbn [tick_board].
  - destruct (timer0_undisturbed pinc b Hb) as (k & r & E & Hk & Hu).
    rewrite E, bind_Ok. eexists. split; [reflexivity|]. split; [by destruct Hb; split|exact Hu|by apply same_follows|done|].
    intros i Hi Hs Hh. apply Forall_cons_1 in Hs as [Hs _]. exact (timer0_held _ _ _ _ _ i (wf_keys _ Hb) Hi E Hs Hh).
  - destruct (timer1_safe (midi b).(midi_clock_enabled) (led b) (regs b)) as (g & r & E & Hg); [apply Hb|].
    rewrite E, bind_Ok. eexists. split; [reflexivity|]. split; [|by split|by apply same_follows|done|done].
    destruct Hb as [? ? [] ? ?]. split; [done|done| |done|done]. by split.
  - destruct (bus_event_ok a b Hb) as (b' & -> & Hb' & Hu & Hk & Hf). exists b'. split; [done|].
    split; [done|done|done|intros Ht; by apply Forall_cons_1 in Ht as [[] _]|]. intros i _ _. by rewrite Hk.
Qed.

Lemma ticks_ok ts : forall b, board_wf b -> exists b', ticks ts b = Ok b' /\ ticked ts b b'.
Proof.
  induction ts as [|t ts IH]; intros b Hb; cbn [ticks].
  { exists b. split; [done|]. split; [done|done|by apply same_follows|done|done]. }
  destruct (tick_ok t b Hb) as (b1 & -> & [Hb1 Hu1 Hf1 Ht1 Hh1]). rewrite bind_Ok.
  destruct (IH b1 Hb1) as (b2 & -> & [Hb2 Hu2 Hf2 Ht2 Hh2]). exists b2. split; [done|].
  split; [done|by etrans|by etrans| |].
  - intros Ht. apply Forall_cons_1 in Ht as [Ht Hts]. rewrite Ht2 by done. apply Ht1. by apply Forall_cons_2.
  - intros i Hi Hs Hh. apply Forall_cons_1 in Hs as [Hs Hss]. apply Hh2; [done|done|]. apply Hh1; [done| |done]. by apply Forall_cons_2.
Qed.

(** The key timer's interrupts alone are [run_samples]. *)
Lemma ticks_samples ps : forall b,
  ticks (map Timer0 ps) b = ('(k, r) ← run_samples ps b.(keys) (regs b); Ok (set_regs r (set_keys k b))).
Proof.
  induction ps as [|p ps IH]; intros b; cbn [map ticks tick_board run_samples]; [by destruct b as [? ? [] ? ? ? ?]|].
  destruct (TIMER0_OVF_vect p b.(keys) (regs b)) as [[k r]|e]; [|done]. rewrite !bind_Ok, IH.
  change (keys (set_regs r (set_keys k b))) with k. change (regs (set_regs r (set_keys k b))) with r.
  by destruct (run_samples ps k r) as [[k' r']|e].
Qed.

(** ** Lemmas: reading the keys *)

(** What the main loop reads while interrupts come: the board is otherwise as it was
    and the edges are those of the state that was read; a key that all samples show
    held is read as held. *)
Record keys_read (sch : schedule A) b b' : Prop := {
  kr_wf : board_wf b';
  kr_sets : b'.(sets) = b.(sets);
  kr_combo : b'.(combo) = b.(combo);
  kr_midi : midi b' = midi b;
  kr_link : follows b.(link) b'.(link);
  kr_timers : timers_only sch -> b'.(link) = b.(link);
  kr_prev : b'.(keys).(g_key_prev_state) = b'.(keys).(g_key_state);
  kr_last : b'.(keys).(g_key_bank_last_up) = b.(keys).(g_key_bank_last_up);
  kr_down : forall i, 0 <= i < 64 ->
    Z.testbit b'.(keys).(g_key_down) i = negb (Z.testbit b.(keys).(g_key_prev_state) i) && Z.testbit b'.(keys).(g_key_state) i;
  kr_up : forall i, 0 <= i < 64 ->
    Z.testbit b'.(keys).(g_key_up) i = Z.testbit b.(keys).(g_key_prev_state) i && negb (Z.testbit b'.(keys).(g_key_state) i);
  kr_held : forall i, 0 <= i < 64 ->
    Forall (sees i) (sch.(at_read) ++ map Timer0 (interrupts sch.(reading))) -> held i b.(keys) ->
    Z.testbit b'.(keys).(g_key_state) i = true
}.

Lemma read_keys_preempted_ok sch b :
  board_wf b -> reads_all sch.(reading) -> exists b', read_keys_preempted sch b = Ok b' /\ keys_read sch b b'.
Proof.
  intros Hb Hrd. unfold read_keys_preempted.
  destruct (ticks_ok sch.(at_read) b Hb) as (b1 & -> & [Hb1 Hu1 Hf1 Ht1 Hh1]). rewrite bind_Ok.
  destruct (run_accesses_ok sch.(reading) 18446744073709551615 b1.(keys) (regs b1) (wf_keys _ Hb1) (proj1 Hrd) ltac:(done))
    as (st & k & r & E & Es & Hst & _).
  destruct (ticks_ok (map Timer0 (interrupts sch.(reading))) b1 Hb1) as (b2 & E2 & [Hb2 Hu2 _ _ Hh2]).
  rewrite ticks_samples, Es, bind_Ok in E2. injection E2 as E2.
  assert (Ek : key_read_interrupted sch.(reading) b1.(keys) (regs b1) = Ok (u32 st, set_g_key_state st k, r))
    by (unfold key_read_interrupted; by rewrite E, bind_Ok).
  rewrite Ek, bind_Ok. set (b3 := set_regs r _).
  assert (Hb3 : board_wf b3).
  { subst b2. destruct Hb2 as [? ? ? [] ?]. split; [done..| |done]. by split. }
  destruct (ticks_ok sch.(at_calc) b3 Hb3) as (b4 & -> & [Hb4 [Us4 Uc4 Um4 U4 Up4 _ _ Ul4] Hf4 Ht4 _]). rewrite bind_Ok.
  eexists. split; [reflexivity|].
  assert (Hu : undisturbed b (set_regs r (set_keys k b1))) by (rewrite E2; by etrans).
  destruct Hu as [Us Uc Um _ Up _ _ Ul].
  assert (Hpk : k.(g_key_prev_state) = b.(keys).(g_key_prev_state)) by exact Up.
  assert (Hp4 : b4.(keys).(g_key_prev_state) = b.(keys).(g_key_prev_state)) by exact (eq_trans Up4 Up).
  split.
  - destruct Hb4 as [? ? ? [] ?]. split; [done..| |done]. by split.
  - exact (eq_trans Us4 Us).
  - exact (eq_trans Uc4 Uc).
  - exact (eq_trans Um4 Um).
  - etrans; [exact Hf1|exact Hf4].
  - intros Ht. etrans; [exact (Ht4 (to_calc _ Ht))|exact (Ht1 (to_read _ Ht))].
  - apply (key_calc_bits b4.(keys) 0).
  - exact (eq_trans Ul4 Ul).
  - intros i _. destruct (key_calc_bits b4.(keys) i) as (Hd & _ & _ & Hs). cbn [keys set_keys]. by rewrite Hd, Hs, Hp4.
  - intros i _. destruct (key_calc_bits b4.(keys) i) as (_ & Hd & _ & Hs). cbn [keys set_keys]. by rewrite Hd, Hs, Hp4.
  - intros i Hi Hs Hh. destruct (key_calc_bits b4.(keys) i) as (_ & _ & _ & Hst4). cbn [keys set_keys]. rewrite Hst4, U4.
    change (keys b3).(g_key_state) with st. apply Forall_app in Hs as [Hs1 Hs2].
    destruct (key_read_steady sch.(reading) b1.(keys) (regs b1) i true (wf_keys _ Hb1) Hrd Hi) as (st' & k' & r' & E' & _ & Hbit).
    { intros x Hx. apply elem_of_app in Hx as [Hx|Hx].
      - assert (Hw := Hh1 i Hi Hs1 Hh). apply all_set_true in Hw. rewrite List.Forall_forall in Hw. by apply Hw, list_elem_of_In.
      - apply list_elem_of_fmap in Hx as (p & -> & Hp). rewrite testbit_sample by done.
        rewrite List.Forall_forall in Hs2. apply (Hs2 (Timer0 p)), in_map, list_elem_of_In, Hp. }
    assert (Est : set_g_key_state st' k' = set_g_key_state st k) by congruence.
    apply (f_equal g_key_state) in Est. cbn in Est. by rewrite <-Est, Hbit.
Qed.

End undisturbed.

(** ** Lemmas: the keys *)

Section key_loop.
Context {W A : Type} {in_ok : W -> Prop} `{MidiLinkLaws W in_ok} `{UsbBus W A} `{!UsbBusLaws (W := W) (A := A) (in_ok := in_ok)}.
Variable sch : schedule A.
Implicit Types b : board W.

Lemma sent_follows ps (w : W) : follows (in_ok := in_ok) w (send_all ps w).
Proof. intros Hw. destruct (send_all_in ps w Hw) as [Hw' Hin]. split; [done|]. exists []. by rewrite app_nil_r. Qed.
Lemma flush_follows (w : W) : follows (in_ok := in_ok) w (MIDI_Device_Flush w).
Proof. intros Hw. destruct (flush_in w Hw) as [Hw' Hin]. split; [done|]. exists []. by rewrite app_nil_r. Qed.
Lemma sends_follows (w w' : W) : sends w w' -> follows (in_ok := in_ok) w w'.
Proof. intros (ps & _ & ->). apply sent_follows. Qed.

(** The board after the first [n] keys of [b]: the bank record is that of the keys,
    and under the timers' interrupts so are the packets. *)
Record serviced (n : nat) b b' : Prop := {
  sv_wf : board_wf b';
  sv_sets : b'.(sets) = b.(sets);
  sv_combo : b'.(combo) = b.(combo);
  sv_bank : (midi b').(g_bank_selected) = (midi b).(g_bank_selected);
  sv_state : b'.(keys).(g_key_state) = b.(keys).(g_key_state);
  sv_prev : b'.(keys).(g_key_prev_state) = b.(keys).(g_key_prev_state);
  sv_down : b'.(keys).(g_key_down) = b.(keys).(g_key_down);
  sv_up : b'.(keys).(g_key_up) = b.(keys).(g_key_up);
  sv_link : follows (in_ok := in_ok) b.(link) b'.(link);
  sv_last : b'.(keys).(g_key_bank_last_up) =
    (key_events b.(sets) (midi b).(g_bank_selected) b.(keys).(g_key_down)
       b.(keys).(g_key_up) b.(keys).(g_key_bank_last_up) n).1;
  sv_events : timers_only sch -> b'.(link) =
    send_all (key_events b.(sets) (midi b).(g_bank_selected) b.(keys).(g_key_down)
       b.(keys).(g_key_up) b.(keys).(g_key_bank_last_up) n).2 b.(link)
}.

Lemma ticked_serviced n (ts : list (tick A)) b b1 b2 :
  serviced n b b1 -> ticked (in_ok := in_ok) ts b1 b2 -> (timers_only sch -> Forall timer ts) -> serviced n b b2.
Proof.
  intros [] [Hwf [] Hf Ht _] Hts. split; try congruence; [by etrans|]. intros Hto. rewrite Ht by auto. auto.
Qed.

Lemma serviced_key n b b1 :
  (n < 64)%nat -> serviced n b b1 ->
  exists b2, service_key (Z.of_nat n) (b1, 2 ^ Z.of_nat n) = Ok (b2, u64 (2 ^ (Z.of_nat n + 1))) /\ serviced (S n) b b2.
Proof.
  intros Hn [Hwf Es Ec Eb Est Ep Ed Eu Ef El Ee]. pose proof (service_key_ok n b1 Hwf Hn) as Hk.
  rewrite Es, Eb, Ed, Eu in Hk. destruct (key_step _ _ _ _ _ n) as [last ps] eqn:Ek.
  destruct Hk as (s & E & Hs & Hbank). eexists. split; [exact E|]. rewrite El in Ek.
  split; try done; [by apply after_key_wf|etrans; [exact Ef|apply sent_follows]|..];
    rewrite key_events_S; destruct (key_events _ _ _ _ _ n) as [l0 ps0]; cbn [fst snd] in *;
    unfold key_step in *; injection Ek as <- <-; [done|].
  intros Ht. cbn. by rewrite (Ee Ht), <-send_all_app.
Qed.

Lemma service_keys_preempted_ok b :
  board_wf b -> exists b', service_keys_preempted sch b = Ok b' /\ serviced 64 b b'.
Proof.
  intros Hb. unfold service_keys_preempted. set (b1 := if negb _ then _ else b).
  assert (Hstart : serviced 0 b b1).
  { unfold b1. destruct (negb _); [|by split]. split; try done.
    destruct Hb as [? ? [] ? ?]. split; [done|done| |done|done]. by split. }
  assert (Hloop : forall n, (n <= 64)%nat -> exists b2,
    for_up n 0 (service_key_preempted sch) (b1, 1) = Ok (b2, u64 (2 ^ Z.of_nat n)) /\ serviced n b b2).
  { induction n as [|n IH]; intros Hn; [by exists b1|]. destruct IH as (b2 & E & Hs); [lia|].
    replace (S n) with (n + 1)%nat by lia. rewrite for_up_app, E, bind_Ok. cbn [for_up]. unfold service_key_preempted at 1.
    replace (0 + Z.of_nat n) with (Z.of_nat n) by lia.
    destruct (ticks_ok (sch.(at_key) (Z.of_nat n)) b2 (sv_wf _ _ _ Hs)) as (b3 & -> & Ht3). rewrite bind_Ok.
    rewrite u64_small by (split; [lia|]; change 18446744073709551616 with (2 ^ 64); apply Z.pow_lt_mono_r; lia).
    destruct (serviced_key n b b3 ltac:(lia)) as (b4 & -> & H4); [by apply (ticked_serviced n _ b b2 b3 Hs Ht3); intros []|].
    rewrite bind_Ok. exists b4. replace (Z.of_nat (n + 1)) with (Z.of_nat n + 1) by lia. by rewrite Nat.add_1_r. }
  destruct (Hloop 64%nat ltac:(lia)) as (b2 & -> & Hs). by exists b2.
Qed.

End key_loop.

(** ** Lemmas: the receive loop *)

Lemma acceptable_app s ps qs : acceptable s ps -> Forall plain qs -> acceptable s (ps ++ qs).
Proof.
  revert s. induction ps as [|p ps IH]; intros s Hp Hq; [by apply plain_acceptable|]. cbn [acceptable app] in *.
  destruct (is_sysex p).
  - destruct Hp as [Hu Hp]. split; [done|]. destruct (reassemble 5 p s) as [[s' a]|]; [|done].
    destruct Hp as [Hh Hp]. split; [done|]. by apply IH.
  - destruct Hp as [Hpl Hp]. split; [done|]. by apply IH.
Qed.

Section receive.
Context {W A : Type} {in_ok : W -> Prop} `{MidiLinkLaws W in_ok} `{UsbBus W A} `{!UsbBusLaws (W := W) (A := A) (in_ok := in_ok)}.
Variable configured : W -> bool.
Variable sin_level : Z -> Z.
Variable after : Z.
Variable event0 : packet.
Hypothesis Hafter : is_u8 after.
Variable sch : schedule A.
Implicit Types b : board W.
Implicit Types f : firmware W.

(** The rule of the loop: [I] holds before each pass, [J p] once packet [p] has
    arrived; interrupts keep both, and a fault is one that [E] allows. *)
Lemma receive_preempted_rule (I : firmware W -> Prop) (J : packet -> firmware W -> Prop) (E : fault -> Prop) :
  (forall n f, I f -> exists b, ticks (sch.(at_receive) n) f.(bd) = Ok b /\ I (set_bd b f)) ->
  (forall n p f, J p f -> exists b, ticks (sch.(at_handle) n) f.(bd) = Ok b /\ J p (set_bd b f)) ->
  (forall event f, I f -> let '(received, w) := MIDI_Device_ReceiveEventPacket event f.(bd).(link) in
     let f' := set_bd (set_link w f.(bd)) f in match received with Some p => J p f' | None => I f' end) ->
  (forall p f, J p f -> match handle_packet after p f with Ok f' => I f' | Fault e => E e end) ->
  forall fuel event packets fails f,
  I f -> 0 <= packets -> 0 <= fails < 120 -> (512 - packets) * 120 + (120 - fails) <= Z.of_nat fuel ->
  match receive_loop_preempted after sch fuel event packets fails f with Ok f' => I f' | Fault e => E e end.
Proof.
  intros Ht Hth Hrecv Hh. induction fuel as [|fuel IH]; intros event packets fails f Hf Hp Hfl Hm;
    cbn [receive_loop_preempted]; unfold USB_RX_PACKET_LIMIT, USB_RX_FAIL_LIMIT;
    (destruct (Z.leb_spec 512 packets); [done|]); [lia|].
  destruct (Ht fuel f Hf) as (b & -> & Hb). rewrite bind_Ok. pose proof (Hrecv event _ Hb) as Hr.
  change (bd (set_bd b f)) with b in Hr. cbv zeta in *.
  change (set_bd ?x (set_bd b f)) with (set_bd x f) in Hr.
  destruct (MIDI_Device_ReceiveEventPacket event b.(link)) as [[p|] w].
  - destruct (Hth fuel p _ Hr) as (b2 & -> & HJ). rewrite bind_Ok. pose proof (Hh p _ HJ) as HI.
    destruct (handle_packet after p _) as [f3|e]; [|exact HI]. rewrite bind_Ok, u16_small by lia. apply IH; [done|lia..].
  - rewrite u16_small by lia. destruct (Z.leb_spec 120 (fails + 1)); [done|]. apply IH; [done|lia..].
Qed.

(** Under any schedule the loop ends in the invariant, or in the restart that was asked for. *)
Lemma receive_preempted_safe f :
  running (in_ok := in_ok) f -> ends (in_ok := in_ok) (fun _ => True) (receive_preempted after event0 sch f).
Proof.
  intros Hf. unfold ends. apply (receive_preempted_rule
    (fun f => running (in_ok := in_ok) f /\ True)
    (fun p f => board_wf f.(bd) /\ in_ok f.(bd).(link) /\ stream_wf f.(sx) /\ acceptable f.(sx) (p :: incoming f.(bd).(link)))
    (fun e => e = Reset MAGIC_BOOT_KEY)); try (done || lia).
  - intros n f0 [[Hb Hl Hs Ha] _]. destruct (ticks_ok (sch.(at_receive) n) f0.(bd) Hb) as (b & -> & [Hb' _ Hfo _ _]).
    destruct (Hfo Hl) as (Hl' & qs & Hq & Ein). exists b. split; [done|]. split; [|done]. split; [done..|].
    cbn. rewrite Ein. by apply acceptable_app.
  - intros n p f0 (Hb & Hl & Hs & Ha). destruct (ticks_ok (sch.(at_handle) n) f0.(bd) Hb) as (b & -> & [Hb' _ Hfo _ _]).
    destruct (Hfo Hl) as (Hl' & qs & Hq & Ein). exists b. split; [done|]. split; [done|]. split; [done|]. split; [done|].
    cbn [bd sx set_bd]. rewrite Ein. by apply (acceptable_app _ (p :: incoming _)).
  - intros event f0 [[Hb Hl Hs Ha] _]. pose proof (receive_spec event f0.(bd).(link) Hl) as Hr.
    pose proof (receive_ok event f0.(bd).(link) Hl) as Hl'.
    destruct (MIDI_Device_ReceiveEventPacket event f0.(bd).(link)) as [[p|] w]; cbn [fst snd] in *.
    + rewrite Hr in Ha. split; [by apply set_link_wf|]. by split.
    + split; [|done]. split; [by apply set_link_wf|done|done|]. cbn. by rewrite Hr.
  - intros p f0 (Hb & Hl & Hs & Ha).
    pose proof (handle_acceptable after Hafter p (incoming f0.(bd).(link)) f0 Hb Hl Hs Ha eq_refl) as Hh.
    destruct (handle_packet after p f0); [by destruct Hh|exact Hh].
Qed.

(** The interrupts up to the end of [key_read] sample key [i] as held. *)
Record sees_all (i : Z) : Prop := {
  sees_receive : forall n, Forall (sees i) (sch.(at_receive) n);
  sees_handle : forall n, Forall (sees i) (sch.(at_handle) n);
  sees_read : Forall (sees i) (sch.(at_read) ++ map Timer0 (interrupts sch.(reading)))
}.

(** Channel messages, whatever interrupts of the timers come among them, change neither the
    settings nor the keys: the settings, the record of the keys and what has been sent stay. *)
Record after_plain f f' : Prop := {
  ap_wf : board_wf f'.(bd);
  ap_link : link_ok (in_ok := in_ok) f'.(bd).(link);
  ap_up : link_up f'.(bd).(link);
  ap_sent : sent f'.(bd).(link) = sent f.(bd).(link);
  ap_sx : f'.(sx) = f.(sx);
  ap_keys : same_keys f.(bd) f'.(bd)
}.

Lemma ticks_after_plain ts f f1 :
  Forall timer ts -> after_plain f f1 ->
  exists b, ticks ts f1.(bd) = Ok b /\ after_plain f (set_bd b f1) /\
    forall i, 0 <= i < 64 -> Forall (sees i) ts -> held i f1.(bd).(keys) -> held i b.(keys).
Proof.
  intros Ht [Hb Hl Hup Hse Hx Hk]. destruct (ticks_ok ts f1.(bd) Hb) as (b & -> & [Hb' [] _ El Hh]).
  specialize (El Ht). exists b. split; [done|]. split; [|exact Hh].
  split; cbn [bd sx set_bd]; [done|congruence..|]. destruct Hk. split; congruence.
Qed.

Lemma receive_preempted_plain (P : key_globals -> Prop) f :
  timers_only sch -> after_plain f f -> P f.(bd).(keys) ->
  (forall n f1 b, after_plain f f1 -> P f1.(bd).(keys) -> ticks (sch.(at_receive) n) f1.(bd) = Ok b -> P b.(keys)) ->
  (forall n f1 b, after_plain f f1 -> P f1.(bd).(keys) -> ticks (sch.(at_handle) n) f1.(bd) = Ok b -> P b.(keys)) ->
  exists f', receive_preempted after event0 sch f = Ok f' /\ after_plain f f' /\ P f'.(bd).(keys).
Proof.
  intros Hto Hf HP Hp1 Hp2.
  assert (Hr : match receive_preempted after event0 sch f with Ok f' => after_plain f f' /\ P f'.(bd).(keys) | Fault _ => False end).
  2: { destruct (receive_preempted after event0 sch f) as [f'|]; [|done]. by exists f'. }
  apply (receive_preempted_rule (fun f1 => after_plain f f1 /\ P f1.(bd).(keys))
    (fun p f1 => (after_plain f f1 /\ P f1.(bd).(keys)) /\ plain p) (fun _ => False)); try (done || lia).
  - intros n f1 [Ha HP1]. destruct (ticks_after_plain (sch.(at_receive) n) f f1 (to_receive _ Hto n) Ha) as (b & E & Hb & _).
    exists b. split; [done|]. split; [done|]. by apply (Hp1 n f1).
  - intros n p f1 [[Ha HP1] Hp]. destruct (ticks_after_plain (sch.(at_handle) n) f f1 (to_handle _ Hto n) Ha) as (b & E & Hb & _).
    exists b. split; [done|]. split; [|done]. split; [done|]. by apply (Hp2 n f1).
  - intros event f1 [[Hb [Hl Hpl] Hup Hse Hx Hk] HP1]. pose proof (receive_spec event f1.(bd).(link) Hl) as Hr.
    pose proof (receive_ok event f1.(bd).(link) Hl) as Hl'. destruct (receive_out event f1.(bd).(link) Hup) as [Hup' Hse'].
    destruct (MIDI_Device_ReceiveEventPacket event f1.(bd).(link)) as [[p|] w]; cbn [fst snd] in *.
    + rewrite Hr in Hpl. apply Forall_cons_1 in Hpl as [Hpq Hqs]. split; [|done]. split; [|done].
      split; cbn [bd set_bd link set_link sx]; [by apply set_link_wf|by split|done|by etrans|done|by destruct Hk; split].
    + split; [|done]. split; cbn [bd set_bd link set_link sx]; [by apply set_link_wf|split; [done|by rewrite Hr]|done|by etrans|done|by destruct Hk; split].
  - intros p f1 [[[Hb Hl Hup Hse Hx [Ks Kp Kl]] HP1] Hpl].
    destruct (handle_plain after p f1 Hb Hpl) as (b & -> & Hb' & Es & _ & _ & Ek & _ & El).
    split; [|cbn [bd set_bd]; by rewrite Ek].
    split; cbn [bd sx set_bd]; [done|congruence..|]. split; congruence.
Qed.

(** ** Lemmas: the refresh of the LEDs *)

Lemma undisturbed_same_keys b b' : undisturbed b b' -> same_keys b b'.
Proof. intros []. by split. Qed.

Lemma refresh_leds_preempted_ok f :
  board_wf f.(bd) ->
  exists f', refresh_leds_preempted sin_level after sch f = Ok f' /\ board_wf f'.(bd) /\
    follows (in_ok := in_ok) f.(bd).(link) f'.(bd).(link) /\ (timers_only sch -> sends f.(bd).(link) f'.(bd).(link)) /\
    f'.(sx) = f.(sx) /\ same_keys f.(bd) f'.(bd).
Proof.
  intros Hb. unfold refresh_leds_preempted. destruct (_ <=? _).
  2: { exists f. split; [done|]. split; [done|]. split; [done|]. split; [|by split]. intros _. by exists []. }
  destruct (ticks_ok sch.(at_stamp) f.(bd) Hb) as (b0 & -> & [Hb0 Hu0 Hf0 Ht0 _]). rewrite bind_Ok. cbv zeta. set (b1 := set_keys _ b0).
  assert (Hb1 : board_wf b1) by (destruct Hb0 as [? ? ? [] ?]; split; [done..| |done]; by split).
  assert (Hs1 : same_keys f.(bd) b1) by (destruct Hu0; by split).
  destruct (ticks_ok sch.(at_banks) b1 Hb1) as (b2 & -> & [Hb2 Hu2 Hf2 Ht2 _]). rewrite bind_Ok.
  destruct (select_buttons_ok b2 Hb2) as (b3 & -> & Hb3 & Hl3 & Hs3). rewrite bind_Ok.
  destruct (ticks_ok sch.(at_delay) b3 Hb3) as (b4 & -> & [Hb4 Hu4 Hf4 Ht4 _]). rewrite bind_Ok.
  destruct (update_note_off_ok b4 Hb4) as (m & -> & Hb5). rewrite bind_Ok. set (b5 := set_midi m b4) in *.
  destruct (ticks_ok sch.(at_display) b5 Hb5) as (b6 & -> & [Hb6 Hu6 Hf6 Ht6 _]). rewrite bind_Ok.
  destruct (display_spec sin_level b6.(cols) b6.(sets).(G_EE_SLEEP_TIME) b6.(keys).(g_key_state)
    b6.(keys).(g_key_down) b6.(scr)) as (s & -> & Hs); [apply Hb6|apply Hb6|]. rewrite bind_Ok.
  assert (Hb7 : board_wf (set_scr s b6)) by (by destruct Hb6; split).
  destruct (ticks_ok sch.(at_pixels) (set_scr s b6) Hb7) as (b8 & -> & [Hb8 Hu8 Hf8 Ht8 _]). rewrite bind_Ok.
  destruct (update_pixels_safe (b8.(scr).(g_display_buffer) ++ [after]) (regs b8)) as (r & out & ->).
  { rewrite length_app, (Display.wf_buffer _ (wf_scr _ Hb8)). done. }
  rewrite bind_Ok. eexists. split; [done|]. split; [by destruct Hb8; split|]. cbn [bd set_strands set_bd].
  split; [|split; [|split; [done|]]].
  - etrans; [exact Hf0|]. etrans; [exact Hf2|]. etrans; [exact (sends_follows _ _ Hl3)|]. etrans; [exact Hf4|].
    etrans; [exact Hf6|exact Hf8].
  - intros Hto. change (link (set_regs r b8)) with b8.(link). rewrite (Ht8 (to_pixels _ Hto)).
    change (link (set_scr s b6)) with b6.(link). rewrite (Ht6 (to_display _ Hto)). change (link b5) with b4.(link).
    rewrite (Ht4 (to_delay _ Hto)). destruct Hl3 as (ps & Hps & ->). exists ps. split; [done|].
    rewrite (Ht2 (to_banks _ Hto)). change (link b1) with b0.(link). by rewrite (Ht0 (to_stamp _ Hto)).
  - etrans; [exact Hs1|]. etrans; [exact (undisturbed_same_keys _ _ Hu2)|]. etrans; [exact Hs3|].
    destruct Hu4, Hu6, Hu8. split; cbn in *; congruence.
Qed.

(** ** Lemmas: the turn *)

(** What the keys of the board [b], once read, send. *)
Definition read_packets b : list packet :=
  (key_events b.(sets) (midi b).(g_bank_selected) b.(keys).(g_key_down) b.(keys).(g_key_up)
     b.(keys).(g_key_bank_last_up) 64).2.

(** The keys that were read do not break the combo recogniser: combos are off, or it
    is not the case that combo E is down and the four keys of combo B are left held
    by the release of another key. *)
Definition combos_safe b : Prop :=
  b.(sets).(G_EE_COMBOS_ENABLE) = 0 \/ ~ breaks b.(keys).(g_key_down) b.(keys).(g_key_state) b.(combo).

Definition rest_preempted f : res (firmware W) :=
  b ← read_keys_preempted sch f.(bd);
  b ← service_keys_preempted sch b;
  b ← ticks sch.(at_combos) b;
  b ← service_combos b;
  b ← ticks sch.(at_flush) b;
  b ← ticks sch.(at_refresh) (MIDI_Device_Flush b);
  f ← refresh_leds_preempted sin_level after sch (set_bd b f);
  Ok (set_watchdog_flag true f).

Lemma task_preempted_rest f :
  Midifighter_Task_preempted configured sin_level after event0 sch f =
  if negb (configured f.(bd).(link)) then Ok f else f ← receive_preempted after event0 sch f; rest_preempted f.
Proof. reflexivity. Qed.

(** Whatever interrupts come, the record of the keys is that of the keys read; under the timers'
    interrupts their packets are flushed with those of the combos. *)
Record rest_done f b f' : Prop := {
  rd_running : running (in_ok := in_ok) f';
  rd_keys : keys_read (in_ok := in_ok) sch f.(bd) b;
  rd_sets : f'.(bd).(sets) = f.(bd).(sets);
  rd_prev : f'.(bd).(keys).(g_key_prev_state) = b.(keys).(g_key_state);
  rd_last : f'.(bd).(keys).(g_key_bank_last_up) =
    (key_events b.(sets) (midi b).(g_bank_selected) b.(keys).(g_key_down) b.(keys).(g_key_up)
       b.(keys).(g_key_bank_last_up) 64).1;
  rd_sent : timers_only sch -> exists ps, Forall aside ps /\
    sends (MIDI_Device_Flush (send_all (read_packets b ++ ps) f.(bd).(link))) f'.(bd).(link)
}.

Lemma rest_preempted_ok f :
  running (in_ok := in_ok) f -> reads_all sch.(reading) ->
  (forall b, read_keys_preempted sch f.(bd) = Ok b -> combos_safe b) ->
  exists b f', read_keys_preempted sch f.(bd) = Ok b /\ rest_preempted f = Ok f' /\ rest_done f b f'.
Proof.
  intros [Hb Hl Hs Ha] Hrd Hsafe. unfold rest_preempted.
  destruct (read_keys_preempted_ok sch f.(bd) Hb Hrd) as (b1 & E1 & Hkr). specialize (Hsafe b1 E1).
  rewrite E1, bind_Ok. destruct (service_keys_preempted_ok sch b1 (kr_wf _ _ _ Hkr)) as (b2 & -> & Hs2). rewrite bind_Ok.
  destruct (ticks_ok sch.(at_combos) b2 (sv_wf _ _ _ _ Hs2)) as (b3 & -> & Ht3). rewrite bind_Ok.
  pose proof (tk_wf _ _ _ Ht3) as Hb3.
  pose proof (ticked_serviced sch 64 _ b1 b2 b3 Hs2 Ht3 ltac:(by intros [])) as [_ Es Ec _ Est Ep Ed _ Ef El Ee].
  destruct (service_combos_safe b3 Hb3) as (c & ps & -> & Hc & Hps); [by rewrite Es, Est, Ed, Ec|]. rewrite bind_Ok.
  rewrite send_all_board. set (b4 := set_combo c _).
  assert (Hb4 : board_wf b4) by (by destruct Hb3; split).
  destruct (ticks_ok sch.(at_flush) b4 Hb4) as (b5 & -> & [Hb5 Hu5 Hf5 Ht5 _]). rewrite bind_Ok.
  assert (Hb5' : board_wf (MIDI_Device_Flush b5)) by (by apply (set_link_wf (MIDI_Device_Flush b5.(link)))).
  destruct (ticks_ok sch.(at_refresh) (MIDI_Device_Flush b5) Hb5') as (b6 & -> & [Hb6 Hu6 Hf6 Ht6 _]). rewrite bind_Ok.
  destruct (refresh_leds_preempted_ok (set_bd b6 f) Hb6) as (f' & -> & Hb' & Hf' & Hsend & Hx & Hsk). rewrite bind_Ok.
  exists b1, (set_watchdog_flag true f'). do 2 (split; [done|]).
  assert (Hfo : follows (in_ok := in_ok) f.(bd).(link) f'.(bd).(link)).
  { etrans; [exact (kr_link _ _ _ Hkr)|]. etrans; [exact Ef|]. etrans; [apply (sent_follows ps)|]. etrans; [exact Hf5|].
    etrans; [apply flush_follows|]. etrans; [exact Hf6|exact Hf']. }
  assert (Hsk' : same_keys b3 f'.(bd)).
  { etrans; [|exact Hsk]. etrans; [|exact (undisturbed_same_keys _ _ Hu6)].
    destruct (undisturbed_same_keys _ _ Hu5). split; done. }
  destruct Hsk' as [Ks Kp Kl], (Hfo Hl) as (Hl' & qs & Hqs & Ein).
  split; cbn [bd sx set_watchdog_flag].
  - split; cbn [bd sx set_watchdog_flag]; [done|done|by rewrite Hx|]. rewrite Hx, Ein. by apply acceptable_app.
  - exact Hkr.
  - rewrite Ks, Es. apply Hkr.
  - rewrite Kp, Ep. apply Hkr.
  - by rewrite Kl, El.
  - intros Hto. exists ps. split; [done|]. specialize (Hsend Hto).
    change (link (bd (set_bd b6 f))) with b6.(link) in Hsend. rewrite (Ht6 (to_refresh _ Hto)) in Hsend.
    change (link (MIDI_Device_Flush b5)) with (MIDI_Device_Flush b5.(link)) in Hsend.
    rewrite (Ht5 (to_flush _ Hto)) in Hsend. change (link b4) with (send_all ps b3.(link)) in Hsend.
    rewrite (Ee Hto), (kr_timers _ _ _ Hkr Hto), <-send_all_app in Hsend. exact Hsend.
Qed.

(** The turns in which the keys, as they are read, do not break the combo recogniser. *)
Definition safe_preempted f : Prop :=
  forall f1 b, receive_preempted after event0 sch f = Ok f1 -> read_keys_preempted sch f1.(bd) = Ok b -> combos_safe b.

(** The same as a test. *)
Definition harmless_keys f : bool :=
  match receive_preempted after event0 sch f with
  | Ok f1 => match read_keys_preempted sch f1.(bd) with
             | Ok b => (b.(sets).(G_EE_COMBOS_ENABLE) =? 0) || negb (Z.land b.(keys).(g_key_state) 65535 =? 240)
             | Fault _ => true
             end
  | Fault _ => true
  end.

Lemma harmless_keys_safe f : harmless_keys f = true -> safe_preempted f.
Proof.
  unfold harmless_keys, safe_preempted. intros E f1 b E1 Eb. rewrite E1, Eb in E.
  apply orb_true_iff in E as [E|E]; [left; lia|right]. intros [[E' _] _]. lia.
Qed.

Lemma turn_preempted_safe f :
  running (in_ok := in_ok) f -> reads_all sch.(reading) -> safe_preempted f ->
  ends (in_ok := in_ok) (fun _ => True) (Midifighter_Task_preempted configured sin_level after event0 sch f).
Proof.
  intros Hf Hrd Hsafe. rewrite task_preempted_rest. destruct (negb _); [done|].
  pose proof (receive_preempted_safe f Hf) as Hr. unfold safe_preempted in Hsafe.
  destruct (receive_preempted after event0 sch f) as [f1|e]; [|exact Hr]. rewrite bind_Ok.
  destruct (rest_preempted_ok f1 (proj1 Hr) Hrd) as (b & f' & _ & -> & Hd); [intros b; by apply Hsafe|].
  split; [apply Hd|done].
Qed.

(** The messages of a turn, when they are channel messages and only the timers interrupt. *)
Lemma receive_plain_running f f1 :
  running (in_ok := in_ok) f -> after_plain f f1 -> running (in_ok := in_ok) f1.
Proof.
  intros [_ _ Hs _] [Hb [Hl Hpl] _ _ Hx _]. split; [done|done|by rewrite Hx|by apply plain_acceptable].
Qed.

Lemma after_plain_start f :
  running (in_ok := in_ok) f -> Forall plain (incoming f.(bd).(link)) -> link_up f.(bd).(link) -> after_plain f f.
Proof. intros [Hb Hl Hs Ha] Hpl Hup. split; try done. Qed.

(** The press of a key that is held is sent in the turn, on the channel of the bank that is
    selected once the messages have been handled. *)
Lemma press_preempted_sent `{!MidiOutLaws W} f i :
  running (in_ok := in_ok) f -> Forall plain (incoming f.(bd).(link)) ->
  configured f.(bd).(link) = true -> link_up f.(bd).(link) -> 0 <= i < 64 ->
  held i f.(bd).(keys) -> Z.testbit f.(bd).(keys).(g_key_prev_state) i = false ->
  f.(bd).(sets).(G_EE_MIDI_OUTPUT_MODE) < MIDI_OUTPUT_MODE_CCS_ONLY ->
  timers_only sch -> reads_all sch.(reading) -> sees_all i -> safe_preempted f ->
  exists f1 f', receive_preempted after event0 sch f = Ok f1 /\
    Midifighter_Task_preempted configured sin_level after event0 sch f = Ok f' /\
    note_packet 144 (u8 (f.(bd).(sets).(G_EE_MIDI_CHANNEL) - (midi f1.(bd)).(g_bank_selected))) (midi_64_key_to_note i)
      f.(bd).(sets).(G_EE_MIDI_VELOCITY) ∈ flushed f'.(bd).(link).
Proof.
  intros Hf Hpl Hconf Hup Hi Hh Hprev Hmode Hto Hrd Hsee Hsafe. rewrite task_preempted_rest, Hconf. cbn [negb].
  destruct (receive_preempted_plain (held i) f Hto (after_plain_start f Hf Hpl Hup) Hh) as (f1 & E1 & Hap & Hh1).
  { intros n f2 b Ha Hh2 E. destruct (ticks_after_plain _ f f2 (to_receive _ Hto n) Ha) as (b' & E' & _ & Hk).
    assert (b' = b) as -> by congruence. apply Hk; [done|apply Hsee|done]. }
  { intros n f2 b Ha Hh2 E. destruct (ticks_after_plain _ f f2 (to_handle _ Hto n) Ha) as (b' & E' & _ & Hk).
    assert (b' = b) as -> by congruence. apply Hk; [done|apply Hsee|done]. }
  rewrite E1, bind_Ok. destruct (rest_preempted_ok f1 (receive_plain_running f f1 Hf Hap) Hrd) as (b & f' & Eb & -> & Hd).
  { intros b. exact (Hsafe f1 b E1). }
  exists f1, f'. split; [done|]. split; [done|]. destruct (rd_sent _ _ _ Hd Hto) as (ps & Hps & Hsend).
  destruct (rd_keys _ _ _ Hd) as [_ Es _ Em _ _ _ _ Hdown _ Hheld].
  apply (flushed_by_turn f1.(bd).(link) (read_packets b) ps); [apply Hap|apply key_events_wf|exact Hps| |exact Hsend].
  destruct (ap_keys _ _ Hap) as [Hs1 Hp1 _].
  apply (key_events_down _ _ _ _ _ _ (Z.to_nat i)); rewrite ?Z2Nat.id by lia; [| |lia].
  - by rewrite Hdown, (Hheld i Hi (sees_read _ Hsee) Hh1), Hp1, Hprev.
  - unfold down_packets. rewrite Es, Hs1, Em. replace (_ <? MIDI_OUTPUT_MODE_CCS_ONLY) with true by lia. left.
Qed.

(** *** What the host hears *)

(** The keys' notes that sound are those of the keys held at the last reading. *)
Definition in_tune f : Prop :=
  heard_keys f.(bd).(sets).(G_EE_MIDI_CHANNEL) (Z.testbit f.(bd).(keys).(g_key_prev_state))
    f.(bd).(keys).(g_key_bank_last_up) (sounding (sent f.(bd).(link))).

Lemma turn_in_tune `{!MidiOutLaws W} f f' :
  running (in_ok := in_ok) f -> Forall plain (incoming f.(bd).(link)) -> link_up f.(bd).(link) ->
  f.(bd).(sets).(G_EE_MIDI_OUTPUT_MODE) < MIDI_OUTPUT_MODE_CCS_ONLY -> 0 < f.(bd).(sets).(G_EE_MIDI_VELOCITY) mod 128 ->
  timers_only sch -> reads_all sch.(reading) -> safe_preempted f -> in_tune f ->
  Midifighter_Task_preempted configured sin_level after event0 sch f = Ok f' ->
  running (in_ok := in_ok) f' /\ Forall plain (incoming f'.(bd).(link)) /\ link_up f'.(bd).(link) /\
  f'.(bd).(sets) = f.(bd).(sets) /\ in_tune f'.
Proof.
  intros Hf Hpl Hup Hmode Hvel Hto Hrd Hsafe Ht. rewrite task_preempted_rest. destruct (negb _); [by intros [= <-]|].
  destruct (receive_preempted_plain (fun _ => True) f Hto (after_plain_start f Hf Hpl Hup)) as (f1 & E1 & Hap & _); [done..|].
  rewrite E1, bind_Ok. destruct (rest_preempted_ok f1 (receive_plain_running f f1 Hf Hap) Hrd) as (b & f2 & Eb & -> & Hd).
  { intros b. exact (Hsafe f1 b E1). }
  intros [= <-]. destruct Hd as [Hr2 Hkr Es2 Ep2 El2 Hse2]. destruct (Hse2 Hto) as (ps & Hps & qs & Hqs & El).
  destruct Hap as [Hb1 [Hl1 Hpl1] Hup1 Hsent1 _ [Ks Kp Kl]], Hkr as [Hwf Es _ Em _ _ _ Elb Hdown Hupk _].
  assert (Hwf1 : Forall packet_wf (read_packets b ++ ps)) by (apply Forall_app_2; [apply key_events_wf|by apply aside_wf]).
  destruct (send_all_spec (read_packets b ++ ps) f1.(bd).(link) Hup1 Hwf1) as [Hup3 Hsent3].
  destruct (send_all_spec qs _ (flush_link_up _ Hup3) (aside_wf _ Hqs)) as [Hup4 Hsent4].
  rewrite flush_sent, Hsent3 in Hsent4 by done.
  split; [done|]. split.
  { destruct (send_all_in (read_packets b ++ ps) _ Hl1) as [Hi3 Hn3], (flush_in _ Hi3) as [Hi4 Hn4],
      (send_all_in qs _ Hi4) as [_ Hn5]. by rewrite El, Hn5, Hn4, Hn3. }
  split; [by rewrite El|]. split; [congruence|]. unfold in_tune. rewrite Ep2, El2, El, Es2, Ks.
  assert (Hbank : 0 <= (midi b).(g_bank_selected) < 2) by (destruct (board_midi_wf _ Hwf) as [[] _]; done).
  pose proof (heard_events b.(sets) ltac:(by rewrite Es, Ks) ltac:(by rewrite Es, Ks) (midi b).(g_bank_selected)
    b.(keys).(g_key_down) b.(keys).(g_key_up) b.(keys).(g_key_bank_last_up) f1.(bd).(keys).(g_key_prev_state)
    b.(keys).(g_key_state) (sent f1.(bd).(link)) 64 Hbank ltac:(lia) Hdown Hupk) as Hh.
  rewrite Es, Ks, Elb, Kl, Kp, Hsent1 in Hh. specialize (Hh Ht).
  assert (Elist : forall l, (l ++ read_packets b ++ ps) ++ qs = (l ++ read_packets b) ++ (ps ++ qs)) by (intros l; by rewrite <-!app_assoc).
  intros ch note Hbase. rewrite Hsent4, Elist, aside_sounding; [|by apply Forall_app_2|exact Hbase].
  unfold read_packets. rewrite Es, Ks, Elb, Kl, Hsent1, (Hh ch note Hbase).
  split; intros (i & Hi & Hn & Hheld & Hc); exists i;
    [replace (i <? Z.of_nat 64) with true in Hheld by lia|replace (i <? Z.of_nat 64) with true by lia];
    (split; [exact Hi|split; [exact Hn|split; [exact Hheld|exact Hc]]]).
Qed.

End receive.

(** ** Without interrupts *)

Section calm.
Context {W A : Type} {in_ok : W -> Prop} `{MidiLinkLaws W in_ok} `{UsbBus W A}.
Variable configured : W -> bool.
Variable sin_level : Z -> Z.
Variable after : Z.
Variable event0 : packet.
Implicit Types b : board W.
Implicit Types f : firmware W.

Lemma receive_calm fuel : forall event packets fails f,
  receive_loop_preempted after (calm (A := A)) fuel event packets fails f = receive_loop after fuel event packets fails f.
Proof.
  induction fuel as [|fuel IH]; intros event packets fails f; cbn [receive_loop_preempted receive_loop]; [done|].
  destruct (_ <=? packets); [done|]. change (ticks (at_receive (calm (A := A)) fuel) f.(bd)) with (Ok f.(bd)). rewrite bind_Ok.
  destruct (MIDI_Device_ReceiveEventPacket event f.(bd).(link)) as [[p|] w].
  - change (ticks (at_handle (calm (A := A)) fuel) ?b) with (Ok b). rewrite bind_Ok. change (set_bd ?b (set_bd ?b f)) with (set_bd b f).
    destruct (handle_packet after p _) as [f'|e]; [|done]. rewrite !bind_Ok. apply IH.
  - destruct (_ <=? _); [done|apply IH].
Qed.

Lemma read_keys_calm b : keys_wf b.(keys) -> read_keys_preempted (calm (A := A)) b = read_keys b.
Proof.
  intros Hk. unfold read_keys_preempted, read_keys. cbn [calm at_read ticks reading at_calc]. rewrite bind_Ok.
  rewrite key_read_uninterrupted by (done || apply program_order_reads).
  destruct (key_read b.(keys)) as [[v k]|e]; [|done]. rewrite !bind_Ok. by destruct b as [? ? [] ? ? ? ?].
Qed.

Lemma service_keys_calm b : service_keys_preempted (calm (A := A)) b = service_keys b.
Proof. reflexivity. Qed.

Lemma refresh_calm f : refresh_leds_preempted sin_level after (calm (A := A)) f = refresh_leds sin_level after f.
Proof.
  unfold refresh_leds_preempted, refresh_leds. destruct (_ <=? _); [|done]. cbn [calm at_stamp at_banks at_delay at_display at_pixels ticks].
  rewrite !bind_Ok. cbv zeta. destruct (service_bank_select_buttons _) as [b|e]; [|done]. rewrite !bind_Ok.
  destruct (update_note_off_feedback_delay b) as [b1|e]; [|done]. rewrite !bind_Ok.
  by destruct (default_display_run _ _ _ _ _ _) as [s|e].
Qed.

(** ** Theorems *)

(** Without interrupts, the task of this file is [Midifighter_Task]. *)
Theorem preempted_calm f :
  is_u8 after -> running (in_ok := in_ok) f ->
  Midifighter_Task_preempted configured sin_level after event0 (calm (A := A)) f = Midifighter_Task configured sin_level after event0 f.
Proof.
  intros Hafter Hf. unfold Midifighter_Task_preempted, Midifighter_Task. destruct (negb _); [done|].
  unfold receive_preempted, Midifighter_GetIncomingUsbMidiMessages. rewrite receive_calm.
  pose proof (receive_acceptable after Hafter receive_fuel event0 0 0 f Hf ltac:(lia) ltac:(lia) ltac:(unfold receive_fuel; lia)) as Hr.
  destruct (receive_loop after receive_fuel event0 0 0 f) as [f1|e]; [|done]. destruct Hr as [[Hb _ _ _] _]. rewrite !bind_Ok.
  rewrite read_keys_calm by apply Hb. destruct (read_keys f1.(bd)) as [b|e]; [|done]. rewrite !bind_Ok, service_keys_calm.
  destruct (service_keys b) as [b1|e]; [|done]. rewrite !bind_Ok. cbn [calm at_combos at_flush at_refresh ticks]. rewrite !bind_Ok.
  destruct (service_combos b1) as [b2|e]; [|done]. rewrite !bind_Ok. by rewrite refresh_calm.
Qed.

End calm.

Section press.
Context {W A : Type} {in_ok : W -> Prop} `{MidiLinkLaws W in_ok} `{UsbBus W A}
  `{!UsbBusLaws (W := W) (A := A) (in_ok := in_ok)} `{!MidiOutLaws W}.
Variable configured : W -> bool.
Variable sin_level : Z -> Z.
Variable after : Z.
Variable event0 : packet.
Implicit Types f : firmware W.

(** C3: A pressed key reaches the host: when a key that was up is held for the last ten
    samples, and notes are on (the output mode is not "CCs only"), the next turn of the main
    loop ends with the key's note-on handed to the USB controller, with the stored velocity
    and on the channel of the bank that is selected once the turn has handled the host's
    messages - whatever channel messages the host has queued, wherever in the turn the timer
    interrupts come, between the byte accesses of [key_read] included, and in whatever order
    these accesses are made, as long as the interrupts before the end of [key_read] still
    sample the key as held.  The link is up, no USB interrupt comes inside the turn, and the
    keys read are not those that break the combo recogniser ([safe_preempted]: combos are
    off, or it is not the case that combo E is down and the four keys of combo B are left
    held by the release of another key). *)
Theorem pressed_key_reaches_host_interrupted (sch : schedule A) ps f i :
  running (in_ok := in_ok) f -> Forall plain (incoming f.(bd).(link)) ->
  configured f.(bd).(link) = true -> link_up f.(bd).(link) ->
  (10 <= length ps)%nat -> 0 <= i < 64 ->
  forallb (fun pinc => Z.testbit (pinc i) 7) (drop (length ps - 10) ps) = true ->
  Z.testbit f.(bd).(keys).(g_key_prev_state) i = false ->
  f.(bd).(sets).(G_EE_MIDI_OUTPUT_MODE) < MIDI_OUTPUT_MODE_CCS_ONLY ->
  timers_only sch -> reads_all sch.(reading) -> sees_all sch i ->
  exists k r, run_samples ps f.(bd).(keys) (regs f.(bd)) = Ok (k, r) /\
    let f1 := set_bd (set_regs r (set_keys k f.(bd))) f in
    (safe_preempted after event0 sch f1 ->
     exists f2 f', receive_preempted after event0 sch f1 = Ok f2 /\
       Midifighter_Task_preempted configured sin_level after event0 sch f1 = Ok f' /\
       note_packet 144 (u8 (f.(bd).(sets).(G_EE_MIDI_CHANNEL) - (midi f2.(bd)).(g_bank_selected))) (midi_64_key_to_note i)
         f.(bd).(sets).(G_EE_MIDI_VELOCITY) ∈ flushed f'.(bd).(link)).
Proof.
  intros Hf Hpl Hc Hup Hn Hi Hheld Hprev Hmode Hto Hrd Hsee. pose proof (run_board _ Hf) as Hb.
  destruct (debounce_bits f.(bd).(keys) (regs f.(bd)) ps (wf_keys _ Hb) Hn) as (k & r & v & k1 & E & Er & Hbits).
  destruct (run_samples_window ps f.(bd).(keys) (regs f.(bd)) (wf_keys _ Hb)) as (k' & r' & E' & Hk & _ & _ & Hpv).
  assert (k' = k /\ r' = r) as [-> ->] by (split; congruence). exists k, r. split; [done|]. intros f1 Hsafe.
  apply (press_preempted_sent configured sin_level after event0 sch f1 i); try done.
  - destruct Hf as [Hb' Hl Hs Ha]. split; [by destruct Hb'; split|done..].
  - unfold held. destruct (key_read_bits k Hk) as (st & Er' & _ & Hst). rewrite Er in Er'. injection Er' as _ ->.
    change (keys (bd f1)) with k. by rewrite <-Hst, <-Hheld, <-Hbits.
  - change (keys (bd f1)) with k. by rewrite Hpv.
Qed.

(** *** Playing *)

(** Turns with the timers' interrupts inside, the timers between the turns, and the host, which
    queues channel messages and takes what has been sent. *)
Inductive play_step : firmware W -> firmware W -> Prop :=
  | play_turn (sch : schedule A) f f' :
      timers_only sch -> reads_all sch.(reading) -> safe_preempted after event0 sch f ->
      Midifighter_Task_preempted configured sin_level after event0 sch f = Ok f' -> play_step f f'
  | play_tick (t : tick A) f b : timer t -> tick_board t f.(bd) = Ok b -> play_step f (set_bd b f)
  | play_host w f :
      in_ok w -> Forall plain (incoming w) -> link_up w -> sent w = sent f.(bd).(link) ->
      play_step f (set_bd (set_link w f.(bd)) f).

Lemma tick_in_tune (t : tick A) f b :
  board_wf f.(bd) -> timer t -> tick_board t f.(bd) = Ok b ->
  board_wf b /\ b.(link) = f.(bd).(link) /\ same_keys f.(bd) b.
Proof.
  intros Hb Ht E. destruct (tick_ok t f.(bd) Hb) as (b' & E' & [Hb' Hu _ Hl _]). assert (b' = b) as -> by congruence.
  split; [done|]. split; [apply Hl; by apply Forall_cons_2|by apply undisturbed_same_keys].
Qed.

Lemma ticks_play (ps : list (Z -> Z)) : forall f b,
  ticks (A := A) (map Timer0 ps) f.(bd) = Ok b -> rtc play_step f (set_bd b f).
Proof.
  induction ps as [|p ps IH]; intros f b; cbn [map ticks].
  - intros [= <-]. by destruct f.
  - destruct (tick_board (A := A) (Timer0 p) f.(bd)) as [b1|] eqn:E; [|done]. rewrite bind_Ok. intros E2.
    eapply rtc_l; [by apply (play_tick (Timer0 p) f b1)|]. change (set_bd b f) with (set_bd b (set_bd b1 f)). by apply IH.
Qed.

(** C4: No stuck notes: through any sequence of turns of the main loop, with the timers'
    interrupts inside and between them, any key states, channel messages of the host,
    combos, and bank changes by the host or by the bank buttons, the notes from the keys'
    lowest (36) on that sound at the host are exactly the notes of the keys held when they
    were last read, each on the channel of the bank it was pressed in; so when all keys are
    released none of them sounds.  The combos' notes (8 to 12) are not among them.  The link
    stays up, notes are on (the output mode is not "CCs only") and the seven bits sent of the
    stored velocity are not zero; at first no key is held and none of these notes sounds; the turns are those in
    which the keys read do not break the combo recogniser. *)
Theorem sounding_notes_are_held_keys f f' :
  running (in_ok := in_ok) f -> Forall plain (incoming f.(bd).(link)) -> link_up f.(bd).(link) ->
  f.(bd).(sets).(G_EE_MIDI_OUTPUT_MODE) < MIDI_OUTPUT_MODE_CCS_ONLY -> 0 < f.(bd).(sets).(G_EE_MIDI_VELOCITY) mod 128 ->
  f.(bd).(keys).(g_key_prev_state) = 0 ->
  (forall ch note, MIDI_BASENOTE <= note -> sounding (sent f.(bd).(link)) ch note = false) ->
  rtc play_step f f' ->
  running (in_ok := in_ok) f' /\
  heard_keys f.(bd).(sets).(G_EE_MIDI_CHANNEL) (Z.testbit f'.(bd).(keys).(g_key_prev_state))
    f'.(bd).(keys).(g_key_bank_last_up) (sounding (sent f'.(bd).(link))) /\
  (f'.(bd).(keys).(g_key_prev_state) = 0 ->
   forall ch note, MIDI_BASENOTE <= note -> sounding (sent f'.(bd).(link)) ch note = false).
Proof.
  intros Hf Hpl Hup Hmode Hvel Hprev Hsil Hsteps.
  assert (Ht : in_tune f).
  { intros ch note Hbase. rewrite Hsil, Hprev by done. split; [done|]. intros (i & _ & _ & Hbit & _). by rewrite Z.bits_0 in Hbit. }
  assert (Hall : running (in_ok := in_ok) f' /\ f'.(bd).(sets) = f.(bd).(sets) /\ in_tune f').
  { clear Hprev Hsil. induction Hsteps as [|f1 f2 f3 H12 _ IH]; [done|].
    assert (Hnext : running (in_ok := in_ok) f2 /\ Forall plain (incoming f2.(bd).(link)) /\ link_up f2.(bd).(link) /\
      f2.(bd).(sets) = f1.(bd).(sets) /\ in_tune f2).
    { destruct H12 as [sch f1 f2 Hto Hrd Hsafe E|t f1 b Ht' E|w f1 Hw Hpw Huw Hsw].
      - by apply (turn_in_tune configured sin_level after event0 sch f1 f2).
      - destruct Hf as [Hb Hl Hs Ha]. destruct (tick_in_tune t f1 b Hb Ht' E) as (Hb' & El & [Ks Kp Kl]).
        unfold in_tune in *. cbn [bd set_bd]. rewrite El, Ks, Kp, Kl. split; [|done].
        split; cbn [bd sx set_bd]; [done|by rewrite El|done|by rewrite El].
      - destruct Hf as [Hb Hl Hs Ha]. unfold in_tune in *. cbn [bd set_bd link set_link sets keys]. rewrite Hsw. split; [|done].
        split; cbn [bd sx set_bd link set_link]; [by apply set_link_wf|done|done|by apply plain_acceptable]. }
    destruct Hnext as (Hf2 & Hpl2 & Hup2 & Es2 & Ht2). rewrite <-Es2 in Hmode, Hvel |- *. by apply IH. }
  destruct Hall as (Hf' & Es' & Ht'). unfold in_tune in Ht'. rewrite Es' in Ht'. split; [done|]. split; [done|].
  intros Hz ch note Hbase. apply not_true_iff_false. intros Hs. apply (Ht' ch note Hbase) in Hs.
  destruct Hs as (i & _ & _ & Hbit & _). by rewrite Hz, Z.bits_0 in Hbit.
Qed.

End press.

(** ** A torn read of the clock *)

Section torn.
Context {W : Type} `{MidiOut W} `{!MidiOutLaws W}.
Implicit Types b : board W.

(** What the clock shows, low byte first, [d] ms after [t0]: [d] ms more, or 256 too many. *)
Lemma torn_elapsed t0 d p b :
  board_wf b -> b.(keys).(system_time_ms) = u16 (t0 + d) -> 0 <= d < 65280 ->
  exists t k r, read_clock LowFirst [p] b.(keys) (regs b) = Ok (t, k, r) /\ keys_wf k /\
    (u16 (t - t0) = d \/ u16 (t - t0) = d + 256) /\ is_u16 t.
Proof.
  intros Hb Ht Hd. destruct (clock_read_torn LowFirst p b.(keys) (regs b) (wf_keys _ Hb)) as (t & k & r & E & Es & Hk & Hif).
  destruct (run_samples_window [p] b.(keys) (regs b) (wf_keys _ Hb)) as (k' & r' & Es' & Hwf & _).
  assert (k' = k) as -> by congruence. exists t, k, r. split; [done|]. split; [done|].
  pose proof (wf_time _ (wf_keys _ Hb)) as Hr. destruct (_ =? 255); [|by rewrite Hif, Ht, elapsed by lia; split; [left|rewrite <-Ht]].
  split; [right|rewrite Hif; apply u16_range]. rewrite Hif, Hk, Ht.
  replace (u16 (u16 (u16 (t0 + d) + 1) + 255)) with (u16 (t0 + (d + 256)));
    [apply elapsed; lia|]. unfold u16. rewrite Zplus_mod_idemp_l, <-Z.add_assoc, Zplus_mod_idemp_l. f_equal. ring.
Qed.

(** The hold of a bank button with an interrupt inside the read of the clock, low byte
    first: the bank is never changed before 744 ms, where the setting says a second, and
    always from a second on. *)
Theorem bank_hold_torn i d p b :
  board_wf b -> link_up b.(link) -> 0 <= i < 2 -> b.(sets).(G_EE_SIDE_BANK) = 1 ->
  0 < b.(keys).(system_time_ms) -> 0 <= d < 65280 ->
  exists b1 b2, key_pressed (tbl bank_select_key_ids i) b = Ok b1 /\
    service_bank_select_buttons_torn LowFirst [p] (later d b1) = Ok b2 /\
    (d < 744 -> midi b2 = midi (later d b1) /\ b2.(link) = b.(link)) /\
    (1000 <= d -> (midi b2).(g_bank_selected) = i /\
       sent b2.(link) = sent b.(link) ++ [note_packet 176 b.(sets).(G_EE_MIDI_CHANNEL) MF64_BANK_CC i]).
Proof.
  intros Hb Hup Hi Hside Ht Hd. rewrite press_counter by lia.
  replace (press_time b.(keys).(system_time_ms)) with b.(keys).(system_time_ms)
    by (unfold press_time; by replace (0 <? b.(keys).(system_time_ms)) with true by lia).
  set (b1 := set_midi _ b). exists b1.
  assert (Hb1 : board_wf (later d b1)) by (by apply later_wf, set_counter_wf; [rewrite length_insert|]).
  destruct (torn_elapsed b.(keys).(system_time_ms) d p (later d b1) Hb1 eq_refl Hd) as (t & k & r & E & Hk & Hel & Hu).
  unfold service_bank_select_buttons_torn. rewrite E, bind_Ok. clear E. set (b2 := set_keys _ (set_regs r _)).
  assert (Hb2 : board_wf b2) by (destruct Hb1, Hk; split; [done..| |done]; by split).
  rewrite (service_held i b.(keys).(system_time_ms) b2 Hi Ht Hside eq_refl). change (keys b2).(system_time_ms) with t.
  destruct (bank_switched i b2 Hb2 Hup Hi) as (b3 & E3 & Hbk & _ & Hsent).
  destruct (Z.leb_spec 1000 (u16 (t - b.(keys).(system_time_ms)))).
  - rewrite E3, bind_Ok. eexists. split; [done|]. split; [done|]. split; [lia|]. intros _. by split.
  - rewrite bind_Ok. eexists. split; [done|]. split; [done|]. split; [intros _; by split|]. lia.
Qed.

End torn.

(** High byte first, the change can come at once: a button pressed at 255 ms and
    serviced in the same millisecond, while the clock goes on to 256. *)
Example bank_change_at_once :
  match key_pressed 28 (set_keys (set_system_time_ms 255 hold_board.(keys)) (set_midi (set_g_bank_selected 1 (midi hold_board)) hold_board)) with
  | Ok b => match service_bank_select_buttons_torn HighFirst [fun _ => 0] b with
            | Ok b' => (midi b').(g_bank_selected) =? 0
            | Fault _ => false end
  | Fault _ => false end = true.
Proof. vm_compute. reflexivity. Qed.

(** ** Witness *)

(** A link on which nothing else happens. *)
#[export] Instance no_bus W : UsbBus W Empty_set := fun a => match a with end.
#[export] Instance no_bus_laws W (in_ok : W -> Prop) `{MidiOut W} `{MidiIn W} :
  UsbBusLaws (W := W) (A := Empty_set) (in_ok := in_ok).
Proof. intros []. Qed.

Section witnesses.
Import UsbMidi.

(** Interrupts of both timers everywhere, one of them in the middle of [key_read];
    key 5 is held. *)
Definition busy {A : Type} : schedule A :=
  let t := [Timer0 (fun i => if i =? 5 then 128 else 0); Timer1] in
  mk_schedule (fun n => if (n mod 50 =? 0)%nat then t else []) (fun _ => t) t
    (interrupted_at 37 (fun i => if i =? 5 then 128 else 0)) t (fun i => if i mod 8 =? 0 then t else []) t t t t t t t t.

Lemma busy_sees {A} : sees_all (busy (A := A)) 5.
Proof.
  assert (Ht : Forall (sees 5) [Timer0 (A := A) (fun i => if i =? 5 then 128 else 0); Timer1]) by (repeat constructor).
  split; [|done|by vm_compute; repeat constructor]. intros n. cbn [busy at_receive]. by destruct (_ =? 0)%nat.
Qed.

Lemma busy_timers {A} : timers_only (busy (A := A)).
Proof.
  assert (Ht : Forall timer [Timer0 (A := A) (fun i => if i =? 5 then 128 else 0); Timer1]) by (repeat constructor).
  split; try exact Ht; intros n; cbn [busy at_receive at_handle at_key]; [by destruct (_ =? 0)%nat|exact Ht|by destruct (_ =? 0)].
Qed.

Lemma plugged_running : running (in_ok := out_ready) plugged.
Proof.
  assert (E : main_setup 0 no_keys blank_board = Ok started) by (vm_compute; reflexivity).
  apply (step_running usb_configured (fun _ => 127) 0 (mk_packet 0 0 0 0) ltac:(split; lia) started);
    [apply step_host; [split; [reflexivity|constructor]|exact I]|].
  apply (startup_running (in_ok := out_ready) 0 ltac:(split; lia) no_keys blank_board);
    [apply blank_board_wf|cbn; lia|apply unplugged_ready|reflexivity|exact E].
Qed.

Lemma pressed_key_reaches_host_interrupted_witness :
  exists k r f', run_samples key5_held plugged.(bd).(keys) (regs plugged.(bd)) = Ok (k, r) /\
    Midifighter_Task_preempted usb_configured (fun _ => 127) 0 (mk_packet 0 0 0 0) (busy (A := Empty_set))
      (set_bd (set_regs r (set_keys k plugged.(bd))) plugged) = Ok f' /\
    note_packet 144 2 41 127 ∈ flushed f'.(bd).(link).
Proof.
  pose proof plugged_running as Hrun.
  assert (Hlink : plugged.(bd).(link) = fresh_link) by reflexivity.
  assert (Hset : plugged.(bd).(sets).(G_EE_MIDI_OUTPUT_MODE) = 0 /\
    plugged.(bd).(sets).(G_EE_MIDI_CHANNEL) = 2 /\ plugged.(bd).(sets).(G_EE_MIDI_VELOCITY) = 127 /\
    Z.testbit plugged.(bd).(keys).(g_key_prev_state) 5 = false)
    by (vm_compute; repeat split; reflexivity).
  assert (Hsafe : match run_samples key5_held plugged.(bd).(keys) (regs plugged.(bd)) with
    | Ok (k, r) => let f := set_bd (set_regs r (set_keys k plugged.(bd))) plugged in
        harmless_keys 0 (mk_packet 0 0 0 0) (busy (A := Empty_set)) f &&
        match receive_preempted 0 (mk_packet 0 0 0 0) (busy (A := Empty_set)) f with
        | Ok f2 => (midi f2.(bd)).(g_bank_selected) =? 0 | Fault _ => true end
    | Fault _ => true end = true) by (vm_compute; reflexivity).
  revert Hrun Hlink Hset Hsafe. generalize plugged.
  intros f Hrun Hlink (Hm & Hc & Hv & Hp) Hsafe.
  destruct (pressed_key_reaches_host_interrupted (in_ok := out_ready) usb_configured (fun _ => 127) 0
    (mk_packet 0 0 0 0) (busy (A := Empty_set)) key5_held f 5) as (k & r & Er & Hturn);
    [exact Hrun|rewrite Hlink; constructor|rewrite Hlink; reflexivity
    |rewrite Hlink; apply fresh_link_ready|cbn; lia|lia|reflexivity|exact Hp
    |rewrite Hm; reflexivity|apply busy_timers|apply interrupted_at_reads|apply busy_sees|].
  rewrite Er in Hsafe. cbv zeta in Hsafe. apply andb_true_iff in Hsafe as [Hsafe Hb]. apply harmless_keys_safe in Hsafe.
  destruct (Hturn Hsafe) as (f2 & f' & E2 & Et & Hin). rewrite E2 in Hb. apply Z.eqb_eq in Hb.
  exists k, r, f'. split; [exact Er|]. split; [exact Et|]. rewrite Hc, Hv, Hb in Hin. exact Hin.
Defined.

(** Key 5 is sampled as held ten times, then a turn with interrupts inside is run. *)
Definition pressed_once : res (firmware usb) :=
  b ← ticks (A := Empty_set) (map Timer0 key5_held) plugged.(bd);
  Midifighter_Task_preempted usb_configured (fun _ => 127) 0 (mk_packet 0 0 0 0) (busy (A := Empty_set)) (set_bd b plugged).

Lemma sounding_notes_are_held_keys_witness :
  exists f', pressed_once = Ok f' /\ f'.(bd).(keys).(g_key_prev_state) = 32 /\
    sounding (sent f'.(bd).(link)) 2 41 = true /\ sounding (sent f'.(bd).(link)) 2 42 = false.
Proof.
  pose proof plugged_running as Hrun.
  assert (H : match ticks (A := Empty_set) (map Timer0 key5_held) plugged.(bd) with
    | Ok b => harmless_keys 0 (mk_packet 0 0 0 0) (busy (A := Empty_set)) (set_bd b plugged) &&
        match Midifighter_Task_preempted usb_configured (fun _ => 127) 0 (mk_packet 0 0 0 0) (busy (A := Empty_set)) (set_bd b plugged) with
        | Ok f' => (f'.(bd).(keys).(g_key_prev_state) =? 32) && (f'.(bd).(keys).(g_key_bank_last_up) =? 0)
        | Fault _ => false end
    | Fault _ => false end = true) by (vm_compute; reflexivity).
  assert (Hset : plugged.(bd).(link) = fresh_link /\ plugged.(bd).(sets).(G_EE_MIDI_OUTPUT_MODE) = 0 /\
    plugged.(bd).(sets).(G_EE_MIDI_CHANNEL) = 2 /\ plugged.(bd).(sets).(G_EE_MIDI_VELOCITY) = 127 /\
    plugged.(bd).(keys).(g_key_prev_state) = 0) by (vm_compute; repeat split; reflexivity).
  unfold pressed_once. revert Hrun H Hset. generalize plugged. intros f Hrun H (Hl & Hm & Hc & Hv & Hp).
  destruct (ticks (A := Empty_set) (map Timer0 key5_held) f.(bd)) as [b|] eqn:Eb; [|discriminate H]. rewrite bind_Ok.
  apply andb_true_iff in H as [Hsafe H]. apply harmless_keys_safe in Hsafe.
  destruct (Midifighter_Task_preempted _ _ _ _ _ (set_bd b f)) as [f'|] eqn:Et; [|discriminate H].
  apply andb_true_iff in H as [Hpv Hlast]. apply Z.eqb_eq in Hpv, Hlast. exists f'. split; [reflexivity|]. split; [exact Hpv|].
  destruct (sounding_notes_are_held_keys (in_ok := out_ready) (A := Empty_set) usb_configured (fun _ => 127) 0 (mk_packet 0 0 0 0) f f')
    as (_ & Hh & _).
  - exact Hrun.
  - rewrite Hl. constructor.
  - rewrite Hl. apply fresh_link_ready.
  - rewrite Hm. reflexivity.
  - rewrite Hv. reflexivity.
  - exact Hp.
  - intros ch note _. rewrite Hl. reflexivity.
  - transitivity (set_bd b f); [exact (ticks_play (A := Empty_set) _ _ _ _ key5_held f b Eb)|]. apply rtc_once.
    apply (play_turn _ _ _ _ (busy (A := Empty_set))); [apply busy_timers|apply interrupted_at_reads|exact Hsafe|exact Et].
  - rewrite Hpv, Hlast, Hc in Hh. split.
    + apply (Hh 2 41); [unfold MIDI_BASENOTE; lia|]. exists 5. split; [lia|]. split; [reflexivity|]. split; reflexivity.
    + apply not_true_iff_false. intros Hs. apply (Hh 2 42) in Hs; [|unfold MIDI_BASENOTE; lia].
      destruct Hs as (i & _ & Hn & Hbit & _). unfold MIDI_BASENOTE in Hn. assert (i = 6) as -> by lia. discriminate Hbit.
Defined.

End witnesses.

End Preempt.
