(* ===== verification/System.v ===== *)
(** * The whole system: the firmware and its USB stack in one main loop

    midifighter64.c's [main] with its endless loop, over the firmware's state of
    Firmware.v with a link that is LUFA's MIDI driver and its device stack together.  The two share what the C code
    shares: [USB_DeviceState], which the stack writes and the MIDI driver reads, the
    stall of the MIDI input endpoint, and the events, whose handlers the stack
    calls.  They only change processor registers, so they run once the stack's
    function has returned. *)

From stdpp Require Import relations.
From S2P Require Import Prelude.
From S2P Require Import Avr.
From S2P Require Import Keys.
From S2P Require Import Midi.
From S2P Require Import UsbMidi.
From S2P Require Import UsbDescriptors.
From S2P Require Import UsbEndpoint.
From S2P Require Import UsbDevice.
From S2P Require Import UsbRequests.
From S2P Require Import Eeprom.
From S2P Require Import Board.
From S2P Require Import Config.
From S2P Require Import Firmware.
From S2P Require Import Device.

Module System.
Import UsbDevice UsbRequests Avr Keys Midi UsbMidi Eeprom Board Firmware Device.

(** ** State *)

(** The link: the MIDI driver's state and the device stack's. *)
Record port := mk_port { wire : usb; stack : device }.
Definition set_wire (w : usb) (p : port) : port := mk_port w p.(stack).

#[export] Instance port_out : MidiOut port := {|
  MIDI_Device_SendEventPacket x p := set_wire (MIDI_Device_SendEventPacket x p.(wire)) p;
  MIDI_Device_Flush p := set_wire (MIDI_Device_Flush p.(wire)) p;
  sent p := sent p.(wire);
  flushed p := flushed p.(wire);
  link_up p := link_up p.(wire)
|}.

#[export] Instance port_in : MidiIn port := {|
  MIDI_Device_ReceiveEventPacket event p :=
    let '(o, w) := MIDI_Device_ReceiveEventPacket event p.(wire) in (o, set_wire w p);
  incoming p := incoming p.(wire)
|}.

(** The host's transfers are whole packets; [D] is what is known of the state the driver sees
    and of the stack, neither of which the driver changes. *)
Definition port_ready (D : usb_state -> device -> Prop) (p : port) : Prop :=
  out_ready p.(wire) /\ D p.(wire).(UsbMidi.USB_DeviceState) p.(stack).

(** The state of the C start-up code. *)
Definition unplugged_port : port := mk_port unplugged_link device_at_reset.

Record system := mk_system {
  fw : firmware port;
  wdt_resets : nat     (* the main loop's calls of [wdt_reset] *)
}.

Definition dev (s : system) : device := s.(fw).(bd).(link).(stack).

(** The check at the start of the task. *)
Definition port_configured (p : port) : bool := usb_configured p.(wire).

Section system.
Variable CFGOK : Z -> Z -> bool.
Variable boot_signature_byte_get : Z -> Z.
Variable sin_level : Z -> Z.
Variable after : Z.
Variable event0 : packet.

(** The variables the MIDI driver shares with the stack. *)
Definition sync (d : device) (w : usb) : usb :=
  set_in_stalled (halted d UsbDescriptors.MIDI_STREAM_IN_EPNUM)
    (UsbMidi.set_USB_DeviceState d.(UsbDevice.USB_DeviceState) w).

Definition handle_event (e : event) (b : board port) : board port :=
  match e with
  | EVENT_Connect => EVENT_USB_Device_Connect b
  | EVENT_ConfigurationChanged ok => EVENT_USB_Device_ConfigurationChanged ok b
  | _ => b
  end.

(** The stack has gone on to [d]. *)
Definition update (d : device) (b : board port) : board port :=
  let b := foldl (fun b e => handle_event e b) b (drop (length b.(link).(stack).(called)) d.(called)) in
  set_link (mk_port (sync d b.(link).(wire)) d) b.

(** ** main *)

Definition USB_USBTask (env : list happening) (b : board port) : res (board port * list happening) :=
  '(d, env) ← USB_DeviceTask CFGOK boot_signature_byte_get env b.(link).(stack);
  Ok (update d b, env).

(** The body of the endless loop. *)
Definition main_loop (env : list happening) (s : system) : res (system * list happening) :=
  f ← Midifighter_Task port_configured sin_level after event0 s.(fw);
  '(b, env) ← USB_USBTask env f.(bd);
  let f := set_bd b f in
  Ok (mk_system f (if f.(watchdog_flag) then S s.(wdt_resets) else s.(wdt_resets)), env).

(** [main] up to the loop, from the state of the C start-up code. *)
Definition main (samples : list (Z -> Z)) (b : board port) : res system :=
  f ← main_setup after samples b;
  d ← USB_Init CFGOK f.(bd).(link).(stack);
  Ok (mk_system (set_bd (update d f.(bd)) f) 0).

(** Something happens on the bus: the stack's interrupt runs. *)
Definition bus_board (h : happening) (b : board port) : res (board port) :=
  d ← happen CFGOK h b.(link).(stack);
  Ok (update d b).

(** Between two turns. *)
Definition bus (h : happening) (s : system) : res system :=
  b ← bus_board h s.(fw).(bd);
  Ok (mk_system (set_bd b s.(fw)) s.(wdt_resets)).

(** The key timer's interrupts, between two turns. *)
Definition samples_taken (ps : list (Z -> Z)) (s : system) : res system :=
  '(k, r) ← run_samples ps s.(fw).(bd).(keys) (Board.regs s.(fw).(bd));
  Ok (mk_system (set_bd (Board.set_regs r (set_keys k s.(fw).(bd))) s.(fw)) s.(wdt_resets)).

(** A control transfer that one turn of the loop serves, and what a host does with
    a device that is plugged in. *)
Definition transfer_turn (l : list Z) (env : list happening) (s : system) : res system :=
  s ← bus (SendsSETUP l) s;
  '(s, _) ← main_loop env s;
  Ok s.

Definition enumerate (a : Z) (env1 env2 : list happening) (s : system) : res system :=
  s ← bus (VBusChange true) s;
  s ← bus BusReset s;
  s ← transfer_turn (set_address_packet a) env1 s;
  transfer_turn (set_configuration_packet 1) env2 s.

(** ** Lemmas *)

#[export] Instance port_out_laws : MidiOutLaws port.
Proof.
  split.
  - intros p w. apply (send_link_up (W := usb)).
  - intros p w. apply (send_appends (W := usb)).
  - intros w. apply (flush_link_up (W := usb)).
  - intros w. apply (flush_sent (W := usb)).
  - intros w. apply (flush_flushed (W := usb)).
  - intros p w. apply (send_flushed (W := usb)).
Qed.

#[export] Instance port_link_laws D : MidiLinkLaws port (port_ready D).
Proof.
  split; [split|..].
  - intros event [w d] [Hw _]. pose proof (receive_spec event w Hw) as Hr. cbn [MIDI_Device_ReceiveEventPacket port_in wire] in *.
    by destruct (MIDI_Device_ReceiveEventPacket event w) as [[p|] w'].
  - intros event [w d] [Hw HD]. destruct (receive_ready event w Hw) as (Hr & Hst & _).
    cbn [MIDI_Device_ReceiveEventPacket port_in usb_in wire stack] in *.
    destruct (ReceiveEventPacket event w) as [o w']. cbn [fst snd] in *. split; [exact Hr|]. cbn. by rewrite Hst.
  - intros p [w d] [Hw HD]. destruct (send_in p w Hw) as [Ho Hi]. destruct (send_same_out p w) as (E & _). split; [|exact Hi].
    split; [exact Ho|]. cbn in *. by rewrite E.
  - intros [w d] [Hw HD]. destruct (flush_in w Hw) as [Ho Hi]. destruct (flush_same_out w) as (E & _). split; [|exact Hi].
    split; [exact Ho|]. cbn in *. by rewrite E.
  - intros event [w d] Hw. pose proof (receive_out (in_ok := out_ready) event w Hw) as Hr.
    cbn [MIDI_Device_ReceiveEventPacket port_in wire] in *. by destruct (MIDI_Device_ReceiveEventPacket event w) as [o w'].
Qed.

(** What the events leave alone. *)
Record same_board (b b' : board port) : Prop := {
  sb_sets : b'.(sets) = b.(sets);
  sb_cols : b'.(cols) = b.(cols);
  sb_mem : b'.(rom).(mem) = b.(rom).(mem);
  sb_scr : b'.(scr) = b.(scr);
  sb_keys : b'.(keys) = b.(keys);
  sb_combo : b'.(combo) = b.(combo);
  sb_link : b'.(link) = b.(link)
}.

Lemma handle_event_same e b : same_board b (handle_event e b).
Proof.
  destruct e as [| | | | | | |ok]; try done.
  cbn [handle_event]. unfold EVENT_USB_Device_ConfigurationChanged. by destruct ok.
Qed.

Lemma events_same es : forall b, same_board b (foldl (fun b e => handle_event e b) b es).
Proof.
  induction es as [|e es IH]; intros b; [done|]. cbn [foldl].
  destruct (handle_event_same e b), (IH (handle_event e b)). split; congruence.
Qed.

Lemma same_board_wf b b' : same_board b b' -> board_wf b -> board_wf b'.
Proof.
  intros [] []. split; unfold nvm_wf in *; congruence.
Qed.

(** The board after the stack has moved. *)
Record moved (d : device) (b b' : board port) : Prop := {
  mv_link : b'.(link) = mk_port (sync d b.(link).(wire)) d;
  mv_sets : b'.(sets) = b.(sets);
  mv_keys : b'.(keys) = b.(keys);
  mv_scr : b'.(scr) = b.(scr);
  mv_combo : b'.(combo) = b.(combo);
  mv_wf : board_wf b -> board_wf b'
}.

Lemma update_moved d b : moved d b (update d b).
Proof.
  unfold update. set (b1 := foldl _ _ _).
  destruct (events_same (drop (length b.(link).(stack).(called)) d.(called)) b) as [H1 H2 H3 H4 H5 H6 H7].
  fold b1 in H1, H2, H3, H4, H5, H6, H7. split; cbn [link set_link sets keys scr combo]; try done.
  - by rewrite H7.
  - intros Hb. apply set_link_wf, (same_board_wf b); done.
Qed.

(** The firmware has started as [f] and not been configured since; the stack is in
    the state [d]. *)
Record waiting (f : firmware port) (d : device) (s : system) : Prop := {
  at_board : board_wf s.(fw).(bd);
  at_sysex : s.(fw).(sx) = f.(sx);
  at_sets : s.(fw).(bd).(sets) = f.(bd).(sets);
  at_keys : s.(fw).(bd).(keys) = f.(bd).(keys);
  at_scr : s.(fw).(bd).(scr) = f.(bd).(scr);
  at_link : s.(fw).(bd).(link) = mk_port (sync d unplugged_link) d
}.

Lemma waiting_update f d d' s n :
  waiting f d s -> waiting f d' (mk_system (set_bd (update d' s.(fw).(bd)) s.(fw)) n).
Proof.
  intros [Hb Hx Hs Hk Hsc Hl]. destruct (update_moved d' s.(fw).(bd)) as [M1 M2 M3 M4 _ M6].
  split; cbn [fw bd sx set_bd]; [auto|done|congruence..|]. by rewrite M1, Hl.
Qed.

Lemma bus_waiting f d d' h s :
  waiting f d s -> happen CFGOK h d = Ok d' -> exists s', bus h s = Ok s' /\ waiting f d' s'.
Proof.
  intros Hw E. unfold bus, bus_board. rewrite (at_link _ _ _ Hw). cbn [stack]. rewrite E, !bind_Ok.
  eexists. split; [reflexivity|]. by apply (waiting_update _ d).
Qed.

(** A turn while the device is not configured: only the USB task does something. *)
Lemma main_loop_waiting f d d' env env' s :
  waiting f d s -> d.(UsbDevice.USB_DeviceState) <> DEVICE_STATE_Configured ->
  USB_DeviceTask CFGOK boot_signature_byte_get env d = Ok (d', env') ->
  exists s', main_loop env s = Ok (s', env') /\ waiting f d' s'.
Proof.
  intros Hw Hd E. unfold main_loop, Midifighter_Task, port_configured, usb_configured. rewrite (at_link _ _ _ Hw).
  change (UsbMidi.USB_DeviceState (wire (mk_port (sync d unplugged_link) d))) with d.(UsbDevice.USB_DeviceState).
  rewrite bool_decide_eq_false_2 by done. cbn [negb]. rewrite bind_Ok. unfold USB_USBTask.
  rewrite (at_link _ _ _ Hw). cbn [stack]. rewrite E, !bind_Ok.
  eexists. split; [reflexivity|]. by apply (waiting_update _ d).
Qed.

Lemma transfer_turn_ok f d d' l env s :
  waiting f d s -> idle CFGOK d -> d.(UsbDevice.USB_DeviceState) <> DEVICE_STATE_Configured ->
  control_transfer CFGOK boot_signature_byte_get l env d = Ok d' ->
  exists s', transfer_turn l env s = Ok s' /\ waiting f d' s'.
Proof.
  intros Hw Hi Hd E. unfold control_transfer in E.
  destruct (setup_arrives CFGOK l d Hi) as (d1 & E1 & _ & _ & _ & _ & Hv & _).
  rewrite E1, bind_Ok in E.
  assert (Hs1 : d1.(UsbDevice.USB_DeviceState) = d.(UsbDevice.USB_DeviceState)) by exact (f_equal fn_state Hv).
  destruct (USB_DeviceTask CFGOK boot_signature_byte_get env d1) as [[d2 env2]|] eqn:Et; [|done].
  rewrite bind_Ok in E. injection E as <-. unfold transfer_turn.
  destruct (bus_waiting f d d1 (SendsSETUP l) s Hw E1) as (s1 & -> & Hw1). rewrite bind_Ok.
  destruct (main_loop_waiting f d1 d2 env env2 s1 Hw1) as (s2 & -> & Hw2); [by rewrite Hs1|done|].
  rewrite bind_Ok. by exists s2.
Qed.

(** ** From power-up to a configured device *)

Hypothesis Hcfg : forall n, 0 <= n < 7 -> CFGOK n 50 = true.

Lemma plug_in_steps d :
  plug_in CFGOK = Ok d ->
  exists d0 d1, USB_Init CFGOK device_at_reset = Ok d0 /\ happen CFGOK (VBusChange true) d0 = Ok d1 /\
    happen CFGOK BusReset d1 = Ok d.
Proof.
  unfold plug_in. intros E. destruct (USB_Init CFGOK device_at_reset) as [d0|]; [|done].
  rewrite bind_Ok in E. destruct (happen CFGOK (VBusChange true) d0) as [d1|] eqn:E1; [|done].
  rewrite bind_Ok in E. by exists d0, d1.
Qed.

(** The stack's side of an enumeration, request by request. *)
Lemma enumeration_steps a env1 env2 :
  1 <= a < 128 -> cooperates 4 env1 -> cooperates 4 env2 ->
  exists d d1 d2, plug_in CFGOK = Ok d /\ idle CFGOK d /\ view_of d ≡ default_view /\
    control_transfer CFGOK boot_signature_byte_get (set_address_packet a) env1 d = Ok d1 /\
    idle CFGOK d1 /\ d1.(UsbDevice.USB_DeviceState) = DEVICE_STATE_Addressed /\
    control_transfer CFGOK boot_signature_byte_get (set_configuration_packet 1) env2 d1 = Ok d2 /\
    idle CFGOK d2 /\ flag UsbEndpoint.RXSTPI d2 = false /\ view_of d2 ≡ enumerated_view a.
Proof.
  intros Ha He1 He2. assert (Hc : forall n, 1 <= n < 7 -> CFGOK n 50 = true) by (intros n Hn; apply Hcfg; lia).
  destruct (plug_in_ok CFGOK (Hcfg 0 ltac:(lia))) as (d & Ep & Hi & Hv & _).
  destruct (transfer_ok CFGOK Hc boot_signature_byte_get (set_address_packet a) env1 d Hi)
    as (d1 & E1 & Hi1 & _ & _ & Hv1 & _); [by apply set_address_formed|].
  destruct (transfer_ok CFGOK Hc boot_signature_byte_get (set_configuration_packet 1) env2 d1 Hi1)
    as (d2 & E2 & Hi2 & Hf2 & _ & Hv2 & _); [by apply set_configuration_formed|].
  destruct (enumeration_spec boot_signature_byte_get a (view_of d) Ha Hv) as [Hs _].
  cbn [spec_session] in Hs.
  destruct (spec_set_address boot_signature_byte_get a (view_of d) Ha) as [Hsa _].
  destruct (spec_request boot_signature_byte_get (request_of (set_address_packet a)) (view_of d)) as [v1 ps1].
  cbn [fst snd] in *.
  destruct (spec_request_proper boot_signature_byte_get (request_of (set_configuration_packet 1)) _ _ Hv1)
    as [Hp _].
  destruct (spec_request boot_signature_byte_get (request_of (set_configuration_packet 1)) v1) as [v2 ps2].
  cbn [fst snd] in *. exists d, d1, d2. split_and!; try done.
  - rewrite Hsa in Hv1. exact (f_equal fn_state (proj1 Hv1)).
  - by rewrite Hv2, Hp.
Qed.

(** The whole system's. *)
Lemma enumerate_ok samples b f a env1 env2 :
  board_wf b -> b.(link) = unplugged_port -> (10 <= length samples)%nat -> is_u8 after ->
  main_setup after samples b = Ok f -> 1 <= a < 128 -> cooperates 4 env1 -> cooperates 4 env2 ->
  exists s0 s d, main samples b = Ok s0 /\ enumerate a env1 env2 s0 = Ok s /\ waiting f d s /\
    idle CFGOK d /\ flag UsbEndpoint.RXSTPI d = false /\ view_of d ≡ enumerated_view a.
Proof.
  intros Hb Hl Hn Hafter E Ha He1 He2.
  destruct (enumeration_steps a env1 env2 Ha He1 He2)
    as (d & d1 & d2 & Ep & Hi & Hv & E1 & Hi1 & Hst1 & E2 & Hi2 & Hf2 & Hv2).
  destruct (plug_in_steps d Ep) as (da & db & Ea & Eb & Ec).
  assert (Hrun : running (in_ok := port_ready (fun _ _ => True)) f).
  { apply (startup_running after Hafter samples b); [done|done|rewrite Hl; split; [apply unplugged_ready|done]
    |by rewrite Hl|done]. }
  assert (Hlf : f.(bd).(link) = unplugged_port).
  { destruct (main_setup_ok after samples b Hb Hafter Hn) as (g & c & r & _ & Hm).
    destruct (key0_held samples); [congruence|].
    destruct Hm as (f' & E' & _ & _ & _ & _ & El & _). congruence. }
  unfold main. rewrite E, bind_Ok, Hlf. cbn [stack unplugged_port]. rewrite Ea, bind_Ok. eexists.
  assert (Hwa : waiting f da (mk_system (set_bd (update da f.(bd)) f) 0)).
  { destruct (update_moved da f.(bd)) as [M1 M2 M3 M4 _ M6]. split; cbn [fw bd sx set_bd]; try done; [apply M6, Hrun|].
    by rewrite M1, Hlf. }
  destruct (bus_waiting f da db _ _ Hwa Eb) as (sb & Esb & Hwb).
  destruct (bus_waiting f db d _ _ Hwb Ec) as (sc & Esc & Hwc).
  destruct (transfer_turn_ok f d d1 (set_address_packet a) env1 sc Hwc Hi) as (s1 & Es1 & Hw1);
    [by rewrite (f_equal fn_state (proj1 Hv) : d.(UsbDevice.USB_DeviceState) = DEVICE_STATE_Default)|done|].
  destruct (transfer_turn_ok f d1 d2 (set_configuration_packet 1) env2 s1 Hw1 Hi1) as (s2 & Es2 & Hw2); [by rewrite Hst1|done|].
  exists s2, d2. split; [reflexivity|]. split; [|done].
  unfold enumerate. rewrite Esb, bind_Ok, Esc, bind_Ok, Es1, bind_Ok. exact Es2.
Qed.

(** The link of an enumerated device works in both directions. *)
Lemma enumerated_link a d :
  view_of d ≡ enumerated_view a -> sync d unplugged_link = fresh_link.
Proof.
  intros (Hf & _ & Hh & _). unfold sync.
  rewrite (Hh UsbDescriptors.MIDI_STREAM_IN_EPNUM ltac:(unfold UsbDescriptors.MIDI_STREAM_IN_EPNUM; lia)
    : halted d UsbDescriptors.MIDI_STREAM_IN_EPNUM = false).
  by rewrite (f_equal fn_state Hf : d.(UsbDevice.USB_DeviceState) = DEVICE_STATE_Configured).
Qed.

(** A USB task with no request to serve only takes the shared variables over. *)
Lemma quiet_task b :
  flag UsbEndpoint.RXSTPI b.(link).(stack) = false -> exists d', USB_USBTask [] b = Ok (update d' b, []).
Proof.
  intros Hf. unfold USB_USBTask, USB_DeviceTask. destruct (in_state _ _).
  { rewrite bind_Ok. by eexists. }
  cbv zeta. rewrite setup_received_flag by done.
  change (flag UsbEndpoint.RXSTPI (on_regs _ b.(link).(stack))) with (flag UsbEndpoint.RXSTPI b.(link).(stack)).
  rewrite Hf, !bind_Ok. by eexists.
Qed.

(** A turn of a configured device asks for the watchdog to be reset. *)
Lemma configured_turn_watchdog f f' :
  port_configured f.(bd).(link) = true ->
  Midifighter_Task port_configured sin_level after event0 f = Ok f' -> f'.(watchdog_flag) = true.
Proof.
  unfold Midifighter_Task. intros ->. cbn [negb].
  repeat (match goal with |- context [mbind _ ?m] => destruct m; [rewrite bind_Ok|done] end; cbv zeta).
  by intros [= <-].
Qed.

End system.

(** ** Theorems *)

(** C2: Plug and play: a device with any EEPROM contents that starts unplugged, gets bus
    power and is reset and enumerated by a host, whatever the moments at which the host
    takes the packets, ends up configured with its MIDI link working in both directions; and
    when then a key that was up is held for ten samples, the next turn of the main loop
    hands its note-on to the host, on the channel of the bank selected in that turn and with
    the stored velocity, and resets the watchdog.  The second part is for an output mode
    with notes (not "CCs only"), a host that has sent nothing and requests nothing in that
    turn, and keys that do not break the combo recogniser: combos are off, or it is not so
    that combo B's keys are left held by the release of another key. *)
Theorem plug_and_play CFGOK sig sin_level after event0 samples b f a env1 env2 :
  (forall n, 0 <= n < 7 -> CFGOK n 50 = true) -> is_u8 after ->
  board_wf b -> b.(link) = unplugged_port -> (10 <= length samples)%nat ->
  main_setup after samples b = Ok f -> 1 <= a < 128 -> cooperates 4 env1 -> cooperates 4 env2 ->
  exists s0 s, main CFGOK after samples b = Ok s0 /\
    enumerate CFGOK sig sin_level after event0 a env1 env2 s0 = Ok s /\
    (dev s).(UsbDevice.USB_DeviceState) = DEVICE_STATE_Configured /\
    running (in_ok := port_ready (fun _ _ => True)) s.(fw) /\ link_up s.(fw).(bd).(link) /\
    forall ps i, (10 <= length ps)%nat -> 0 <= i < 64 ->
      forallb (fun pinc => Z.testbit (pinc i) 7) (drop (length ps - 10) ps) = true ->
      Z.testbit f.(bd).(keys).(g_key_prev_state) i = false ->
      f.(bd).(sets).(G_EE_MIDI_OUTPUT_MODE) < MIDI_OUTPUT_MODE_CCS_ONLY ->
      exists s1, samples_taken ps s = Ok s1 /\
        (f.(bd).(sets).(G_EE_COMBOS_ENABLE) = 0 \/ ~ combo_hazard s1.(fw).(bd) ->
         exists s2, main_loop CFGOK sig sin_level after event0 [] s1 = Ok (s2, []) /\
           s2.(wdt_resets) = S s1.(wdt_resets) /\
           note_packet 144 (u8 (f.(bd).(sets).(G_EE_MIDI_CHANNEL) - (midi s1.(fw).(bd)).(g_bank_selected)))
             (midi_64_key_to_note i) f.(bd).(sets).(G_EE_MIDI_VELOCITY) ∈ flushed s2.(fw).(bd).(link)).
Proof.
  intros Hcfg Hafter Hb Hl Hn E Ha He1 He2.
  destruct (enumerate_ok CFGOK sig sin_level after event0 Hcfg samples b f a env1 env2)
    as (s0 & s & d & E0 & Es & [Hbs Hx Hse Hk Hsc Hlk] & Hi & Hf & Hv); [done..|].
  rewrite (enumerated_link a d Hv) in Hlk. exists s0, s. split; [done|]. split; [done|].
  split; [unfold dev; rewrite Hlk; exact (f_equal fn_state (proj1 Hv))|].
  assert (Hrun : forall D, D DEVICE_STATE_Configured d -> running (in_ok := port_ready D) s.(fw)).
  { intros D HD. assert (Hrf : running (in_ok := port_ready (fun _ _ => True)) f).
    { apply (startup_running after Hafter samples b); rewrite ?Hl; done || (split; [apply unplugged_ready|done]). }
    split; [done|rewrite Hlk; split; [split; [done|constructor]|exact HD]|rewrite Hx; apply Hrf|by rewrite Hlk]. }
  assert (Hup : link_up s.(fw).(bd).(link)) by (rewrite Hlk; apply fresh_link_ready).
  split; [by apply Hrun|]. split; [done|]. intros ps i Hps Hi64 Hheld Hprev Hmode.
  destruct (pressed_key_sent (in_ok := port_ready (fun _ x => x = d)) port_configured sin_level after event0 ps s.(fw) i)
    as (k & r & Er & Hturn); [by apply Hrun|by rewrite Hlk|by rewrite Hlk|done|done|done|done
      |by rewrite Hk|by rewrite Hse|].
  unfold samples_taken. rewrite Er, bind_Ok. eexists. split; [reflexivity|]. cbn [fw].
  intros Hsafe. destruct Hturn as (f' & Et & Hr' & Hin); [by rewrite Hse|].
  assert (Hwf : f'.(watchdog_flag) = true) by (eapply configured_turn_watchdog; [|exact Et]; cbn; by rewrite Hlk).
  destruct (run_in _ Hr') as [_ Hd']. unfold main_loop. cbn [fw wdt_resets]. rewrite Et, bind_Ok.
  destruct (quiet_task CFGOK sig f'.(bd)) as (d' & ->); [by rewrite Hd'|]. rewrite bind_Ok. cbn [watchdog_flag set_bd].
  rewrite Hwf. eexists. split; [reflexivity|]. split; [done|]. cbn [fw bd set_bd].
  rewrite (mv_link _ _ _ (update_moved d' f'.(bd))), <-Hse. exact Hin.
Qed.

(** ** Witness *)

(** A device whose EEPROM holds only zeros below the current layout number: combos
    are off, notes go out on channel 0 with velocity 0; and one with a blank EEPROM,
    which starts with the factory settings. *)
Definition zero_board : board port := board_at_start unplugged_port.
Definition new_board : board port := set_rom (mk_nvm (replicate 1024 255) Avr.reset) zero_board.
Definition new_started : firmware port :=
  match main_setup 0 no_keys new_board with
  | Ok f => f
  | Fault _ => mk_fw zero_board Sysex.Sysex.initial_sysex false []
  end.

Lemma new_board_wf : board_wf new_board.
Proof. destruct (board_at_start_wf unplugged_port). by split. Qed.

(** The factory settings have combos on: the keys are tested. *)
Definition hazard_free (s : system) : bool :=
  match key_read s.(fw).(bd).(keys) with
  | Ok (_, k) => negb (Z.land (key_calc k).(g_key_state) 65535 =? 240)
  | Fault _ => true
  end.

Lemma hazard_free_safe s : hazard_free s = true -> ~ combo_hazard s.(fw).(bd).
Proof.
  unfold hazard_free, combo_hazard. destruct (key_read _) as [[v k]|]; [|by intros _ []]. intros E [Hs _]. cbv zeta in Hs.
  rewrite Hs in E. discriminate E.
Qed.

Lemma plug_and_play_witness :
  exists s0 s s1 s2, main small_banks 0 no_keys new_board = Ok s0 /\
    enumerate small_banks signature_row (fun _ => 127) 0 (mk_packet 0 0 0 0) 5 prompt_host prompt_host s0 = Ok s /\
    (dev s).(UsbDevice.USB_DeviceState) = DEVICE_STATE_Configured /\
    samples_taken key5_held s = Ok s1 /\
    main_loop small_banks signature_row (fun _ => 127) 0 (mk_packet 0 0 0 0) [] s1 = Ok (s2, []) /\
    note_packet 144 2 41 127 ∈ flushed s2.(fw).(bd).(link).
Proof.
  assert (E : main_setup 0 no_keys new_board = Ok new_started) by (vm_compute; reflexivity).
  assert (Hset : new_started.(bd).(sets).(G_EE_MIDI_OUTPUT_MODE) = 0 /\
    new_started.(bd).(sets).(G_EE_MIDI_CHANNEL) = 2 /\ new_started.(bd).(sets).(G_EE_MIDI_VELOCITY) = 127 /\
    Z.testbit new_started.(bd).(keys).(g_key_prev_state) 5 = false)
    by (vm_compute; repeat split; reflexivity).
  assert (Hfree : match main small_banks 0 no_keys new_board with
    | Ok s0 => match enumerate small_banks signature_row (fun _ => 127) 0 (mk_packet 0 0 0 0) 5 prompt_host prompt_host s0 with
               | Ok s => match samples_taken key5_held s with
                         | Ok s1 => hazard_free s1 && ((midi s1.(fw).(bd)).(g_bank_selected) =? 0)
                         | Fault _ => false end
               | Fault _ => false end
    | Fault _ => false end = true) by (vm_compute; reflexivity).
  revert E Hset. generalize new_started. intros f E (Hm & Hc & Hv & Hp).
  destruct (plug_and_play small_banks signature_row (fun _ => 127) 0 (mk_packet 0 0 0 0) no_keys new_board f
    5 prompt_host prompt_host) as (s0 & s & E0 & Es & Hd & _ & _ & Hkey);
    [reflexivity|split; lia|apply new_board_wf|reflexivity|cbn; lia|exact E|lia|apply prompt_cooperates..|].
  destruct (Hkey key5_held 5) as (s1 & E1 & Hturn); [cbn; lia|lia|reflexivity|exact Hp|rewrite Hm; reflexivity|].
  rewrite E0, Es, E1 in Hfree. apply andb_true_iff in Hfree as [Hfree Hbank]. apply Z.eqb_eq in Hbank.
  destruct (Hturn (or_intror (hazard_free_safe s1 Hfree))) as (s2 & E2 & _ & Hin).
  exists s0, s, s1, s2. split; [exact E0|]. split; [exact Es|]. split; [exact Hd|].
  split; [exact E1|]. split; [exact E2|]. rewrite Hc, Hv, Hbank in Hin. exact Hin.
Defined.

End System.
