(* ===== verification/Robust.v ===== *)
(** * The whole system under any host

    UsbRequests and System say what a host obtains that follows the protocol.  Here
    the host does what it likes: it sends any bytes as requests,
    takes packets or not, suspends, resets and unplugs the device between any two
    polls.  The stack then serves the request, refuses it, or goes on waiting for
    the host; and the whole system, in any interleaving of turns of the main loop,
    events on the bus and timer interrupts between the turns and inside them, and MIDI
    transfers, keeps its invariant. *)

From stdpp Require Import relations.
From S2P Require Import Prelude.
From S2P Require Import Avr.
From S2P Require Import Keys.
From S2P Require Import Midi.
From S2P Require Import UsbMidi.
From S2P Require Import UsbDescriptors.
From S2P Require Import UsbEndpoint.
From S2P Require Import UsbDevice.
From S2P Require Import UsbRequests.
From S2P Require Import Eeprom.
From S2P Require Import Led.
From S2P Require Import Board.
From S2P Require Import Config.
From S2P Require Import Firmware.
From S2P Require Import Device.
From S2P Require Import Interrupts.
From S2P Require Import Preempt.
From S2P Require Import System.

Module Robust.
Import UsbDevice Avr Keys Interrupts Midi UsbMidi Board Firmware Device Preempt System.

(** ** The stack waits at worst *)

(** The result is there, or the polling loops still wait for the host. *)
Definition served_or_waits {A} (r : res A) : Prop :=
  match r with Ok _ => True | Fault e => e = OutOfFuel end.

Create HintDb waits.

Lemma waits_bind {A B} (m : res A) (k : A -> res B) :
  served_or_waits m -> (forall a, served_or_waits (k a)) -> served_or_waits (m ≫= k).
Proof. intros Hm Hk. destruct m; [apply Hk|exact Hm]. Qed.
Lemma waits_ok {A} (a : A) : served_or_waits (Ok a).
Proof. exact I. Qed.
Lemma waits_total {A} (m : res A) : (exists a, m = Ok a) -> served_or_waits m.
Proof. by intros [a ->]. Qed.

#[export] Hint Resolve waits_ok : waits.

Ltac waits_step :=
  match goal with
  | |- served_or_waits (_ ≫= _) => apply waits_bind; [|intros ?]
  | |- served_or_waits (let _ := _ in _) => cbv zeta
  | |- served_or_waits (if ?b then _ else _) => destruct b
  | |- served_or_waits (match ?x with _ => _ end) => destruct x
  | |- served_or_waits _ => solve [auto with waits]
  end.
Ltac waits := repeat waits_step.

Section stack.
Variable CFGOK : Z -> Z -> bool.
Variable sig : Z -> Z.

Lemma midi_endpoints_total s : exists r, UsbEndpoint.MIDI_Device_ConfigureEndpoints CFGOK s = Ok r.
Proof.
  assert (H : forall t s, t = UsbEndpoint.DataINEndpoint \/ t = UsbEndpoint.DataOUTEndpoint ->
    exists r, UsbEndpoint.Endpoint_ConfigureEndpointTable CFGOK [t] s = Ok r).
  { intros t s0 Ht. cbn [UsbEndpoint.Endpoint_ConfigureEndpointTable]. unfold UsbEndpoint.Endpoint_ConfigureEndpoint.
    assert (Ha : (UsbEndpoint.Address t =? 0) = false /\
      (UsbEndpoint.ENDPOINT_TOTAL_ENDPOINTS <=? Z.land (UsbEndpoint.Address t) UsbEndpoint.ENDPOINT_EPNUM_MASK) = false /\
      UsbEndpoint.Endpoint_BytesToEPSizeMask (UsbEndpoint.Size t) = Ok 48) by (by destruct Ht as [-> | ->]).
    destruct Ha as (-> & -> & ->). rewrite !bind_Ok.
    destruct (UsbEndpoint.Endpoint_ConfigureEndpoint_Prv _ _ _ _ _) as [ok s1]. destruct (negb ok); eauto. }
  unfold UsbEndpoint.MIDI_Device_ConfigureEndpoints.
  destruct (H UsbEndpoint.DataINEndpoint s ltac:(by left)) as [[ok s1] ->]. rewrite bind_Ok. destruct (negb ok); [eauto|].
  destruct (H UsbEndpoint.DataOUTEndpoint s1 ltac:(by right)) as [[ok2 s2] ->]. rewrite bind_Ok. destruct (negb ok2); eauto.
Qed.

Lemma waits_happen h d : served_or_waits (happen CFGOK h d).
Proof. apply waits_total, happen_total. Qed.
Hint Resolve waits_happen : waits.

Lemma waits_status ready env : forall d, served_or_waits (wait_status CFGOK ready env d).
Proof. induction env as [|h env IH]; intros d; cbn [wait_status]; waits; first [done | apply IH]. Qed.
Lemma waits_IN env : forall d, served_or_waits (wait_IN CFGOK env d).
Proof. induction env as [|h env IH]; intros d; cbn [wait_IN]; waits; first [done | apply IH]. Qed.
Lemma waits_control_status env : forall d, served_or_waits (control_status CFGOK env d).
Proof. induction env as [|h env IH]; intros d; cbn [control_status]; waits; first [done | apply IH]. Qed.
Hint Resolve waits_status waits_IN waits_control_status : waits.

Lemma waits_clear_status t env d : served_or_waits (Endpoint_ClearStatusStage CFGOK t env d).
Proof. unfold Endpoint_ClearStatusStage. waits. Qed.
Hint Resolve waits_clear_status : waits.

(** The bank takes no more bytes than there are left. *)
Lemma fill_bank_total n : forall data bank, (n <= length data)%nat ->
  exists m data' bank', UsbDescriptors.fill_bank n data bank = Ok (m, data', bank') /\ (m <= length data')%nat.
Proof.
  induction n as [|n IH]; intros data bank Hn; cbn [UsbDescriptors.fill_bank]; [eexists _, _, _; by split|].
  destruct (_ <? _); [|eexists _, _, _; split; [done|lia]]. destruct data as [|x data]; [cbn in Hn; lia|].
  apply IH. cbn in Hn. lia.
Qed.

Lemma waits_control_data env : forall n data full d, (n <= length data)%nat ->
  served_or_waits (control_data CFGOK env n data full d).
Proof.
  induction env as [|h env IH]; intros n data full d Hn; cbn [control_data];
    (destruct (_ || _); [|auto with waits]); (destruct (aborted d); [auto with waits|]);
    (destruct (UsbEndpoint.Endpoint_IsOUTReceived _); [auto with waits|]);
    (destruct (UsbEndpoint.Endpoint_IsINReady _);
      [destruct (fill_bank_total n data d.(bank) Hn) as (m & data' & bank' & -> & Hm); rewrite !bind_Ok
      |rewrite bind_Ok]); try done;
    (apply waits_bind; [auto with waits|]); intros d'; by apply IH.
Qed.

Lemma waits_write wLength object Size env d :
  0 <= Size <= Z.of_nat (length object) -> served_or_waits (Write_Control_PStream_LE CFGOK wLength object Size env d).
Proof.
  intros HS. unfold Write_Control_PStream_LE. destruct (Z.ltb_spec wLength Size); [apply waits_control_data; lia|].
  destruct (Size =? 0); apply waits_control_data; lia.
Qed.

Lemma waits_descriptor q object Size env d :
  0 <= Size <= Z.of_nat (length object) -> served_or_waits (answer_descriptor CFGOK q object Size env d).
Proof.
  intros HS. unfold answer_descriptor. cbv zeta. apply waits_bind; [by apply waits_write|]. intros [[? ?] ?]. auto with waits.
Qed.

Lemma waits_GetDescriptor q env d : served_or_waits (GetDescriptor CFGOK sig q env d).
Proof.
  unfold GetDescriptor. destruct (_ =? _).
  { apply waits_descriptor. rewrite UsbDescriptors.serial_length. by vm_compute. }
  pose proof (UsbDescriptors.get_descriptor_size q.(wValue)) as Hs.
  destruct (UsbDescriptors.CALLBACK_USB_GetDescriptor _) as [Size object]. destruct Hs as [_ Hs].
  destruct (Z.eqb_spec Size UsbDescriptors.NO_DESCRIPTOR) as [|Hne]; [auto with waits|].
  destruct object as [object|]; [apply waits_descriptor; lia|done].
Qed.

Lemma waits_configuration d : served_or_waits (configuration_changed CFGOK d).
Proof. unfold configuration_changed. destruct (midi_endpoints_total d.(UsbDevice.regs)) as [[ok s] ->]. by rewrite bind_Ok. Qed.
Hint Resolve waits_GetDescriptor waits_configuration : waits.

Lemma waits_request q env d : served_or_waits (standard_request CFGOK sig q env d).
Proof.
  unfold standard_request, USB_Device_GetStatus, USB_Device_ClearSetFeature, USB_Device_SetAddress,
    USB_Device_GetConfiguration, USB_Device_SetConfiguration. waits.
Qed.

Lemma device_task_waits env d : served_or_waits (USB_DeviceTask CFGOK sig env d).
Proof.
  unfold USB_DeviceTask, USB_Device_ProcessControlRequest. destruct (in_state _ _); [auto with waits|]. cbv zeta.
  destruct (UsbEndpoint.Endpoint_IsSETUPReceived _); [|by rewrite bind_Ok].
  destruct (read_request _) as [q d1]. apply waits_bind; [|intros []; auto with waits].
  cbv zeta. apply waits_bind; [|intros []; waits]. destruct (UsbEndpoint.Endpoint_IsSETUPReceived _); [|auto with waits].
  apply waits_request.
Qed.

End stack.
(** ** The USB side inside a turn *)

(** What the host has queued goes on behind what is there. *)
Definition host_sends (t : list Z) (w : usb) : usb :=
  match w.(out_bank) with
  | None => set_out_bank (Some t) w
  | Some _ => set_host_queue (w.(host_queue) ++ [t]) w
  end.

Lemma whole_concat ts : Forall (fun t => whole t /\ t <> []) ts -> whole (concat ts).
Proof. induction 1 as [|t ts [Ht _] _ IH]; [done|]. by apply whole_app. Qed.

Lemma host_sends_ready t w :
  out_ready w -> whole t -> t <> [] -> out_ready (host_sends t w) /\ incoming (host_sends t w) = incoming w ++ decode t.
Proof.
  intros [Hw Hq] Ht Hne. unfold host_sends. destruct w.(out_bank) as [l|] eqn:E.
  - destruct Hw as [Hl Hnl]. split.
    + split; cbn; [by rewrite E|]. apply Forall_app_2; [done|]. by apply Forall_cons_2.
    + cbn. rewrite E, concat_app. cbn. rewrite app_nil_r, app_assoc. apply decode_app.
      by apply whole_app; [|apply whole_concat].
  - split; [split; cbn; [done|by rewrite Hw]|]. cbn. by rewrite E, Hw, app_nil_r.
Qed.

(** Events on the bus, channel messages of the host, and a host that stops or starts polling. *)
Inductive usb_side :=
  | Bus (h : happening)
  | HostSends (ps : list packet)
  | HostPolls (polls : bool).

Definition plainb (p : packet) : bool :=
  (0 <=? p.(Data2)) && (p.(Data2) <? 128) && (0 <=? p.(Data3)) && (p.(Data3) <? 128) && negb (is_sysex p).

Lemma plainb_plain ps : forallb plainb ps = true -> Forall plain ps.
Proof.
  rewrite forallb_forall, List.Forall_forall. intros H p Hp. specialize (H p Hp). unfold plainb, is_sysex, plain in *. lia.
Qed.

Lemma encoded_whole ps : whole (concat (map encode ps)) /\ decode (concat (map encode ps)) = ps.
Proof.
  induction ps as [|p ps [IHw IHd]]; [done|]. cbn [map concat]. split; [by apply whole_app|].
  rewrite decode_app, IHd by done. by destruct p.
Qed.

(** Inside a turn the host sends channel messages only. *)
Definition usb_side_event (CFGOK : Z -> Z -> bool) (a : usb_side) (b : board port) : res (board port) :=
  match a with
  | Bus h => bus_board CFGOK h b
  | HostSends ps =>
      if forallb plainb ps && negb (bool_decide (ps = []))
      then Ok (set_link (set_wire (host_sends (concat (map encode ps)) b.(link).(wire)) b.(link)) b)
      else Ok b
  | HostPolls v => Ok (set_link (set_wire (set_host_polls v b.(link).(wire)) b.(link)) b)
  end.

(** The driver and the stack agree on the device's state. *)
Definition synced : usb_state -> device -> Prop := fun st d => st = d.(UsbDevice.USB_DeviceState).

Section system.
Variable CFGOK : Z -> Z -> bool.
Variable sig : Z -> Z.
Variable sin_level : Z -> Z.
Variable after : Z.
Variable event0 : packet.
Hypothesis Hafter : is_u8 after.

Instance port_bus : UsbBus port usb_side := usb_side_event CFGOK.

Lemma update_follows d b :
  follows (in_ok := port_ready synced) b.(link) (update d b).(link).
Proof.
  rewrite (mv_link _ _ _ (update_moved d b)). intros [[Hw Hq] _]. split; [by split; [split|]|].
  exists []. by rewrite app_nil_r.
Qed.

Lemma moved_undisturbed d b b' : moved d b b' -> undisturbed b b'.
Proof. intros [_ Hs Hk Hsc Hc _]. split; rewrite ?Hk; try done. unfold midi. by rewrite Hsc. Qed.

Instance port_bus_laws : UsbBusLaws (W := port) (A := usb_side) (in_ok := port_ready synced).
Proof.
  intros a b Hb. destruct a as [h|ps|v]; unfold bus_event, port_bus; cbn [usb_side_event].
  - unfold bus_board. destruct (happen_total CFGOK h b.(link).(stack)) as [d ->]. rewrite bind_Ok. eexists. split; [done|].
    pose proof (update_moved d b) as Hm. split; [by apply Hm|]. split; [by apply (moved_undisturbed d)|]. split; [apply Hm|].
    apply update_follows.
  - destruct (forallb plainb ps) eqn:Ep; [|exists b; by split_and!]. destruct (bool_decide_reflect (ps = [])) as [|Hne]; [exists b; by split_and!|].
    eexists. split; [done|]. split; [by apply set_link_wf|]. split; [by split|]. split; [done|]. intros [Hw HD].
    destruct (encoded_whole ps) as [Hwh Hde]. destruct (host_sends_ready (concat (map encode ps)) b.(link).(wire) Hw Hwh) as [Ho Hi].
    { destruct ps as [|[] ps]; [done|discriminate]. }
    split; [split; [done|]|].
    + cbn. unfold host_sends. by destruct (out_bank _).
    + exists ps. split; [by apply plainb_plain|]. cbn. rewrite Hde in Hi. exact Hi.
  - eexists. split; [done|]. split; [by apply set_link_wf|]. split; [by split|]. split; [done|]. intros [[Hw Hq] HD].
    split; [by split; [split|]|]. exists []. by rewrite app_nil_r.
Qed.

(** ** The system as a transition system *)

(** The body of the endless loop, with the interrupts of a schedule inside the task. *)
Definition main_loop_preempted (sch : schedule usb_side) (env : list happening) (s : system) : res (system * list happening) :=
  f ← Midifighter_Task_preempted port_configured sin_level after event0 sch s.(fw);
  '(b, env) ← USB_USBTask CFGOK sig env f.(bd);
  let f := set_bd b f in
  Ok (mk_system f (if f.(watchdog_flag) then S s.(wdt_resets) else s.(wdt_resets)), env).

(** The schedules the theorem is about: [key_read] makes all its accesses, and the
    keys it reads do not break the combo recogniser. *)
Definition fair_turn (sch : schedule usb_side) (f : firmware port) : Prop :=
  reads_all sch.(reading) /\ safe_preempted after event0 sch f.

(** What the MIDI endpoints' host may do between two turns: queue transfers, take
    banks, stop polling; the device's state is not its to change. *)
Definition host_moves (w w' : usb) (sx : Sysex.Sysex.sysex_globals (SysExFn := Config.Config.SysExFn)) : Prop :=
  out_ready w' /\ acceptable sx (incoming w') /\
  w'.(UsbMidi.USB_DeviceState) = w.(UsbMidi.USB_DeviceState) /\ w'.(in_stalled) = w.(in_stalled).

Definition with_board (b : board port) (s : system) : system := mk_system (set_bd b s.(fw)) s.(wdt_resets).

Inductive sys_step : system -> system -> Prop :=
  | on_turn sch env env' s s' : fair_turn sch s.(fw) ->
      main_loop_preempted sch env s = Ok (s', env') -> sys_step s s'
  | on_tick (t : tick usb_side) b s : tick_board t s.(fw).(bd) = Ok b -> sys_step s (with_board b s)
  | on_host w s : host_moves s.(fw).(bd).(link).(wire) w s.(fw).(sx) ->
      sys_step s (with_board (set_link (set_wire w s.(fw).(bd).(link)) s.(fw).(bd)) s).

(** The invariant: the firmware's, with a driver that is in the state the stack is in. *)
Definition sound (s : system) : Prop := running (in_ok := port_ready synced) s.(fw).

Lemma update_running d f :
  running (in_ok := port_ready synced) f -> running (in_ok := port_ready synced) (set_bd (update d f.(bd)) f).
Proof.
  intros [Hb Hl Hx Ha]. destruct (update_follows d f.(bd) Hl) as (Hl' & qs & Hq & Ein).
  split; cbn [bd sx set_bd]; [by apply (mv_wf _ _ _ (update_moved d f.(bd)))|done|done|]. rewrite Ein. by apply acceptable_app.
Qed.

(** Without a request, the USB task has nothing to wait for. *)
Lemma no_request_no_wait env d :
  UsbRequests.flag UsbEndpoint.RXSTPI d = false -> exists d', USB_DeviceTask CFGOK sig env d = Ok (d', env).
Proof.
  intros Hf. unfold USB_DeviceTask. destruct (in_state _ _); [eauto|]. cbv zeta. rewrite UsbRequests.setup_received_flag by done.
  change (UsbRequests.flag UsbEndpoint.RXSTPI (on_regs _ d)) with (UsbRequests.flag UsbEndpoint.RXSTPI d).
  rewrite Hf, bind_Ok. eauto.
Qed.

(** A turn: it ends, restarts into the bootloader, or serves a request that is there when
    the task has ended. *)
Lemma turn_waits sch env s :
  sound s -> fair_turn sch s.(fw) ->
  match main_loop_preempted sch env s with
  | Ok (s', _) => sound s'
  | Fault e => e = Reset Config.Bootloader.MAGIC_BOOT_KEY \/
      (e = OutOfFuel /\ exists f, Midifighter_Task_preempted port_configured sin_level after event0 sch s.(fw) = Ok f /\
         UsbRequests.flag UsbEndpoint.RXSTPI f.(bd).(link).(stack) = true)
  end.
Proof using Hafter.
  intros Hs [Hrd Hsafe]. pose proof (turn_preempted_safe port_configured sin_level after event0 Hafter sch s.(fw) Hs Hrd Hsafe) as Ht.
  unfold main_loop_preempted. destruct (Midifighter_Task_preempted _ _ _ _ _ _) as [f|e]; [|by left]. destruct Ht as [Hr _]. rewrite bind_Ok.
  unfold USB_USBTask. pose proof (device_task_waits CFGOK sig env f.(bd).(link).(stack)) as Hw.
  pose proof (no_request_no_wait env f.(bd).(link).(stack)) as Hn.
  destruct (USB_DeviceTask _ _ _ _) as [[d env']|e].
  - rewrite !bind_Ok. exact (update_running d f Hr).
  - right. split; [exact Hw|]. exists f. split; [done|]. destruct (UsbRequests.flag _ _); [done|]. by destruct (Hn eq_refl).
Qed.

Lemma tick_sound (t : tick usb_side) s :
  sound s -> exists b, tick_board t s.(fw).(bd) = Ok b /\ sound (with_board b s).
Proof.
  intros [Hb Hl Hx Ha]. destruct (tick_ok t s.(fw).(bd) Hb) as (b & -> & [Hb' _ Hf _ _]). exists b. split; [done|].
  destruct (Hf Hl) as (Hl' & qs & Hq & Ein). split; cbn [bd sx set_bd fw with_board]; [done..|]. rewrite Ein. by apply acceptable_app.
Qed.

Lemma sys_step_sound s s' : sys_step s s' -> sound s -> sound s'.
Proof using Hafter.
  intros [sch env env' s1 s2 Hfair E|t b s1 E|w s1 (Ho & Ha & Hst & _)] Hs.
  - pose proof (turn_waits sch env s1 Hs Hfair) as Ht. by rewrite E in Ht.
  - destruct (tick_sound t s1 Hs) as (b' & E' & Hs'). by assert (b' = b) as -> by congruence.
  - destruct Hs as [Hb [_ HD] Hx _]. split; cbn [bd sx set_bd fw with_board link set_link]; [by apply set_link_wf| |done|done].
    split; [done|]. cbn. by rewrite Hst.
Qed.

(** Without interrupts inside the task, this is [main_loop]. *)
Lemma main_loop_calm env s :
  sound s -> main_loop_preempted calm env s = main_loop CFGOK sig sin_level after event0 env s.
Proof using Hafter.
  intros Hr. unfold main_loop_preempted, main_loop.
  by rewrite (preempted_calm (in_ok := port_ready synced) port_configured sin_level after event0 s.(fw) Hafter Hr).
Qed.

Lemma main_sound samples b s0 :
  board_wf b -> b.(link) = unplugged_port -> (10 <= length samples)%nat ->
  main CFGOK after samples b = Ok s0 -> sound s0.
Proof using Hafter.
  intros Hb Hl Hn E. unfold main in E. destruct (main_setup after samples b) as [f|] eqn:Em; [|done].
  rewrite bind_Ok in E. destruct (USB_Init CFGOK f.(bd).(link).(stack)) as [d|]; [|done]. rewrite bind_Ok in E. injection E as <-.
  apply update_running. apply (startup_running after Hafter samples b); try done; rewrite Hl; [|done].
  split; [apply unplugged_ready|done].
Qed.

End system.

(** ** Theorems *)

(** C1: The whole system never faults: from power-up with any EEPROM contents, in any
    interleaving of turns of the main loop with the interrupts of the two timers, events on
    the USB bus (any bytes as control requests, data taken or not, suspension, reset,
    plugging and unplugging) and MIDI messages of the host, no code leaves an array,
    dereferences a null pointer or loops.  Every turn ends with the invariant restored, or
    in the restart into the bootloader that a SysEx command asks for, or it still waits for
    the host in a control transfer, and this only when a request is pending as the task
    ends; every interrupt and bus event runs to its end; without interrupts inside, the turn
    is that of [main_loop]. Interrupts and bus events come between the turns, inside the
    task before each pass of the receive loop, between a packet and its handling, before
    each key and between the calls of the rest, and at every poll of a control transfer; the
    key timer also between the accesses of [key_read]; none inside one call of the MIDI
    driver or of the display.  The host's MIDI transfers are non-empty and of whole
    four-byte packets.  Left out are: messages with data bytes above 127 and SysEx packets
    that are known to make the reassembly or a bulk push overrun ([acceptable]); SysEx
    packets that arrive inside a turn, where the host sends channel and real-time messages;
    and turns in which, with combo E down, combo B's keys stay held when another key is
    released.  The expiry of the watchdog is not modelled. *)
Theorem system_never_faults CFGOK sig sin_level after event0 samples b s0 s :
  is_u8 after -> board_wf b -> b.(link) = unplugged_port -> (10 <= length samples)%nat ->
  main CFGOK after samples b = Ok s0 -> rtc (sys_step CFGOK sig sin_level after event0) s0 s ->
  sound s /\
  (forall sch env, fair_turn CFGOK after event0 sch s.(fw) ->
     match main_loop_preempted CFGOK sig sin_level after event0 sch env s with
     | Ok (s', _) => sound s'
     | Fault e => e = Reset Config.Bootloader.MAGIC_BOOT_KEY \/
         (e = OutOfFuel /\
          exists f, Midifighter_Task_preempted (H1 := port_bus CFGOK) port_configured sin_level after event0 sch s.(fw) = Ok f /\
            UsbRequests.flag UsbEndpoint.RXSTPI f.(bd).(link).(stack) = true)
     end) /\
  (forall env, main_loop_preempted CFGOK sig sin_level after event0 calm env s
             = main_loop CFGOK sig sin_level after event0 env s) /\
  (forall h, exists s', bus CFGOK h s = Ok s' /\ sound s') /\
  (forall t : tick usb_side, exists b', tick_board (H1 := port_bus CFGOK) t s.(fw).(bd) = Ok b' /\ sound (with_board b' s)).
Proof.
  intros Hafter Hb Hl Hn E Hsteps.
  assert (Hs : sound s).
  { pose proof (main_sound CFGOK after Hafter samples b s0 Hb Hl Hn E) as H0. clear E.
    induction Hsteps as [|s1 s2 s3 H12 _ IH]; [done|]. apply IH. by apply (sys_step_sound CFGOK sig sin_level after event0 Hafter s1). }
  split; [done|]. split; [intros sch env Hfair; by apply (turn_waits CFGOK sig sin_level after event0 Hafter)|].
  split; [intros env; by apply (main_loop_calm CFGOK sig sin_level after event0 Hafter)|].
  split; [|intros t; by apply tick_sound].
  intros h. destruct (tick_sound CFGOK (UsbGen (Bus h)) s Hs) as (b' & Eb & Hb'). exists (with_board b' s). split; [|done].
  unfold bus. change (tick_board _ _) with (bus_board CFGOK h s.(fw).(bd)) in Eb. by rewrite Eb, bind_Ok.
Qed.

(** ** Witness *)

Section scripts.
Variable CFGOK : Z -> Z -> bool.
Variable sig : Z -> Z.
Variable sin_level : Z -> Z.
Variable after : Z.
Variable event0 : packet.

(** Steps to run, and their result where the keys are harmless. *)
Inductive move := Tick (t : tick usb_side) | Turn (sch : schedule usb_side) (env : list happening).

Definition run_move (m : move) (s : system) : res system :=
  match m with
  | Tick t => b ← tick_board (H1 := port_bus CFGOK) t s.(fw).(bd); Ok (with_board b s)
  | Turn sch env =>
      if harmless_keys (H2 := port_bus CFGOK) after event0 sch s.(fw)
      then '(s, _) ← main_loop_preempted CFGOK sig sin_level after event0 sch env s; Ok s
      else Fault OutOfFuel
  end.

Fixpoint run_moves (ms : list move) (s : system) : res system :=
  match ms with
  | [] => Ok s
  | m :: ms => s ← run_move m s; run_moves ms s
  end.

Definition all_read (m : move) : Prop := match m with Tick _ => True | Turn sch _ => reads_all sch.(reading) end.

Lemma run_move_step m s s' :
  all_read m -> run_move m s = Ok s' -> sys_step CFGOK sig sin_level after event0 s s'.
Proof.
  destruct m as [t|sch env]; cbn [run_move all_read]; intros Hr E.
  - destruct (tick_board _ _) as [b|] eqn:Eb; [|discriminate E]. rewrite bind_Ok in E. injection E as <-. by apply (on_tick _ _ _ _ _ t).
  - destruct (harmless_keys _ _ _ _) eqn:Eh; [|discriminate E].
    destruct (main_loop_preempted _ _ _ _ _ _ _ _) as [[s1 env1]|] eqn:Em; [|discriminate E]. rewrite bind_Ok in E. injection E as <-.
    apply (on_turn _ _ _ _ _ sch env env1); [split; [exact Hr|by apply harmless_keys_safe]|exact Em].
Qed.

Lemma run_moves_steps ms : Forall all_read ms -> forall s s', run_moves ms s = Ok s' ->
  rtc (sys_step CFGOK sig sin_level after event0) s s'.
Proof.
  induction 1 as [|m ms Hm _ IH]; intros s s' E; cbn [run_moves] in E; [by injection E as <-|].
  destruct (run_move m s) as [s1|] eqn:E1; [|discriminate E]. rewrite bind_Ok in E.
  apply rtc_l with s1; [by apply (run_move_step m)|by apply IH].
Qed.

End scripts.

(** The device is plugged in and enumerated, the host sends a note, and key 5 is held for
    ten samples. *)
Definition plugging : list move :=
  [ Tick (UsbGen (Bus (VBusChange true))); Tick (UsbGen (Bus BusReset));
    Tick (UsbGen (Bus (SendsSETUP (UsbRequests.set_address_packet 5)))); Turn calm UsbRequests.prompt_host;
    Tick (UsbGen (Bus (SendsSETUP (UsbRequests.set_configuration_packet 1)))); Turn calm UsbRequests.prompt_host;
    Tick (UsbGen (HostSends [note_packet 144 2 44 90])) ] ++ map (fun p => Tick (Timer0 p)) key5_held.

(** A turn in which the timers interrupt everywhere, the bus is suspended and resumed
    between the receive loop and the keys, a note arrives in the receive loop, and a request
    comes with the combos. *)
Definition lively : schedule usb_side :=
  let p := fun i : Z => if i =? 5 then 128 else 0 in
  let t := [Timer0 p; Timer1] in
  mk_schedule (fun n => if (n mod 50 =? 0)%nat then t else []) (fun _ => UsbGen (HostSends [note_packet 144 2 45 3]) :: t)
    [UsbGen (Bus BusSuspend); Timer1; UsbGen (Bus BusWakeUp)]
    (interrupted_at 37 p) t (fun i => if i mod 8 =? 0 then t else [])
    [UsbGen (Bus (SendsSETUP (UsbRequests.set_configuration_packet 1)))] t t t t t t t.

Definition key5_system : system :=
  match main UsbRequests.small_banks 0 no_keys new_board ≫=
        run_moves UsbRequests.small_banks UsbRequests.signature_row (fun _ => 127) 0 (mk_packet 0 0 0 0) plugging with
  | Ok s => s
  | Fault _ => mk_system new_started 0
  end.

Lemma plugging_reads : Forall all_read plugging.
Proof. repeat (constructor; [exact I || apply program_order_reads|]). constructor. Qed.

Lemma system_never_faults_witness :
  exists s0 s s' env', main UsbRequests.small_banks 0 no_keys new_board = Ok s0 /\
    rtc (sys_step UsbRequests.small_banks UsbRequests.signature_row (fun _ => 127) 0 (mk_packet 0 0 0 0)) s0 s /\
    sound s /\ (dev s).(UsbDevice.USB_DeviceState) = DEVICE_STATE_Configured /\
    main_loop_preempted UsbRequests.small_banks UsbRequests.signature_row (fun _ => 127) 0 (mk_packet 0 0 0 0) lively
      UsbRequests.prompt_host s = Ok (s', env') /\
    sound s' /\ flushed s'.(fw).(bd).(link) = [note_packet 144 2 41 127].
Proof.
  destruct (main UsbRequests.small_banks 0 no_keys new_board) as [s0|] eqn:E0;
    [|exfalso; revert E0; vm_compute; discriminate].
  assert (Hk : run_moves UsbRequests.small_banks UsbRequests.signature_row (fun _ => 127) 0 (mk_packet 0 0 0 0) plugging s0
    = Ok key5_system) by (unfold key5_system; rewrite E0; vm_compute in E0; injection E0 as <-; vm_compute; reflexivity).
  assert (Hd : (dev key5_system).(UsbDevice.USB_DeviceState) = DEVICE_STATE_Configured) by (vm_compute; reflexivity).
  assert (Hh : harmless_keys (H2 := port_bus UsbRequests.small_banks) 0 (mk_packet 0 0 0 0) lively key5_system.(fw) = true)
    by (vm_compute; reflexivity).
  assert (Ht : match main_loop_preempted UsbRequests.small_banks UsbRequests.signature_row (fun _ => 127) 0 (mk_packet 0 0 0 0) lively
      UsbRequests.prompt_host key5_system with
    | Ok (s', _) => flushed s'.(fw).(bd).(link) = [note_packet 144 2 41 127] | Fault _ => False end) by (vm_compute; reflexivity).
  revert Hk Hd Hh Ht. generalize key5_system. intros s Hk Hd Hh Ht.
  apply run_moves_steps in Hk; [|apply plugging_reads].
  destruct (system_never_faults UsbRequests.small_banks UsbRequests.signature_row (fun _ => 127) 0 (mk_packet 0 0 0 0)
    no_keys new_board s0 s) as (Hs & Hturn & _);
    [split; lia|apply new_board_wf|reflexivity|cbn; lia|exact E0|exact Hk|].
  specialize (Hturn lively UsbRequests.prompt_host (conj (interrupted_at_reads _ _) (harmless_keys_safe _ _ _ _ Hh))).
  destruct (main_loop_preempted _ _ _ _ _ _ _ _) as [[s' env']|] eqn:Em; [|destruct Ht].
  exists s0, s, s', env'. split; [reflexivity|]. split; [exact Hk|]. split; [exact Hs|]. split; [exact Hd|].
  split; [exact Em|]. split; [exact Hturn|exact Ht].
Defined.

End Robust.
